(* ===== verification/_CoqProject ===== *)
-Q . S2P
Prelude.v
GoText.v
GoTime.v
GoFS.v
Journal.v
FenceStore.v
GoJson.v
GoCrypto.v
Strict.v
Dsse.v
ControlProtocol.v
DeliveryStore.v
DeliveryLedger.v
AtMostOnce.v
GoRune.v
Tracker.v
Uplink.v
CommandQueue.v
GoNet.v
ClientHello.v
AddressPolicy.v
DenialLimiter.v
Egress.v
ConnectorEvent.v
ConnectorReceipt.v
ConnectorLedger.v
LedgerReplay.v
LedgerSafety.v
LedgerCapacity.v
LedgerAudit.v
AgentModel.v
AgentBundle.v
Scheduler.v
Placement.v
Admission.v
AdmissionPolicy.v
Delegation.v
DelegationSafety.v
AgentIntent.v
Permit.v
TaskPermit.v
SchedulePermit.v
ScheduleRuns.v
GoZone.v
GatewayGrant.v
InteractionPermit.v
InteractionProtocol.v
Interactions.v
InteractionSafety.v
ActionPermit.v
ActionApproval.v
Influence.v
EffectGate.v
EffectBudget.v
EvidenceReceipt.v
EvidenceLog.v
EvidenceChain.v
EvidenceSafety.v
EvidenceDelta.v
ActivationCapture.v
EvidencePortable.v
EvidenceExport.v
