(* ===== verification/Prelude.v ===== *)
(** * Steward: a verification development

    Steward runs agent workloads on nodes. A node tracks instances and takes lifecycle commands from a control plane over an
    outbound connection (the uplink); an executor process admits signed workloads, journals its host mutations and keeps a
    durable ledger of the deliveries it leased, so that a command is not run twice across crashes; signed artifacts are DSSE
    envelopes read by a strict JSON decoder; a gateway, permits, an evidence log and a control store surround them. This library
    models the parts that keep state or decide trust, as executable definitions with the source's names, and proves what
    the rest of the system relies on. Paths are below [src/internal].

    ** Files

    The language and its standard library:
    - [Prelude]: results ([(T, error)] is [result T]), [let*] and [require], tactics, lemmas on lists and maps;
    - [GoText], [GoTime], [GoCrypto], [GoJson], [GoRune]: bytes, UTF-8, fixed-width integers, instants and RFC 3339, SHA-256, hex
      and base64, the JSON grammar and printer, runes;
    - [GoFS]: atomic replacement of a file and appending to a log, with the system call that fails as an input.

    The program, bottom up:
    - [Journal] ([journal/journal.go]): the append-only log of prepared, committed and compensated operations. State: the
      bytes of the file and the map recovered from them.
    - [FenceStore] ([admission/store.go]): generation fences, policy epoch, leases and maintenance. State: the store and
      the bytes its path names.
    - [Strict] and [Dsse] ([dsse/dsse.go]): strict decoding against the shape of the destination type, and signed envelopes. [GoJSON] is
      the class of types written by [json.Marshal] and read strictly.
    - [ControlProtocol] ([controlprotocol/executor_v3.go], [executor_v4.go], [activation_canary.go]): deliveries and reports, their
      validation and JSON form; it uses [Strict].
    - [DeliveryStore] (definitions), [DeliveryLedger] (lemmas) and [AtMostOnce] (theorems) for [executoruplink/delivery_state.go]:
      the ledger of deliveries, over [ControlProtocol].
    - [Tracker] ([runtime/runtime.go], [persist.go]): instances and their durable snapshot.
    - [Uplink] ([uplink/dispatch.go], [executeBatch] of [poller.go]): commands executed against the classes [TrackerOps] and
      [TrackerLaws], which [Tracker] implements.
    - [CommandQueue] ([uplink/queue.go], [consume] of [poller.go]): the queue between the poll loop and the consumer.
    - [GoNet] (addresses and prefixes of the standard library), [ClientHello] ([gateway/tlshello.go]), [AddressPolicy]
      ([gateway/address_policy.go]), [DenialLimiter] and [Egress] ([gateway/egress.go], the counters of [audit.go]): the egress proxy. The network,
      the resolver and the audit file are the environment of one request.
    - [ConnectorEvent] (events, receipts, their validation and formats), [ConnectorLedger] (the log and its operations) for
      [connectorledger/ledger.go] and [run_control.go], over [Dsse]; [ConnectorReceipt], [LedgerReplay] (lemmas), [LedgerSafety],
      [LedgerCapacity] and [LedgerAudit] (theorems). State: the bytes of the file and the handle.
    - [AgentModel] ([agentapp/model.go], [templates.go]) and [Scheduler] ([agentapp/scheduler.go]): agent definitions, bundles and
      templates, node inventories, placement, snapshots and fork plans; theorems in [AgentBundle] and [Placement].
    - [Admission] ([admission/admission.go]): profile capsules, instance intents, site policies, their intersection and the keys a policy
      trusts, over [Dsse]; theorems in [AdmissionPolicy]. [AgentIntent] ([agentapp/intent.go], [tools.go]): the intents of an agent definition, over
      [Admission] and [AgentModel].
    - [Delegation] ([admission/delegation.go], [workload_lease.go], the commands of [admission.go]): signed commands, delegations to a
      controller key and workload leases, over [Admission]; theorems in [DelegationSafety].
    - [Permit] (what the packages of permits repeat: headers, validity windows, identifiers), [TaskPermit] ([taskpermit/taskpermit.go]),
      [SchedulePermit] and [ScheduleRuns] ([schedulepermit/schedulepermit.go]: permits of a recurring service, and the runs
      they authorize), [InteractionPermit] ([interactionpermit/interactionpermit.go]): signed permits, over [Strict] and [Dsse].
    - [GatewayGrant] (the grants of [gateway/server.go] as far as questions use them), [InteractionProtocol]
      ([controlprotocol/interaction.go]) and [Interactions] ([gateway/interactions.go]): the questions a workload asks its operator
      and their signed answers. State: the map of records and the state file, in [Store]; one definition per handler, over
      [InteractionPermit], with times read by [GoZone]; theorems in [InteractionSafety].
    - [ActionPermit] (statements, bundles and their encoding) and [ActionApproval] (who approved which member) for
      [actionpermit/actionpermit.go]; [approve] is the tail of [approvePermit] of [cmd/stewardctl/permit.go]. [Influence]
      ([influence/context.go]): the hash chain of what influenced a run.
    - [EffectGate] ([gateway/connector.go]): whether a call of a connector is authorized by a permit, over [ActionApproval],
      [GatewayGrant] and [Influence]; [canonical_origin] stands for what [net/url] says of an origin. [EffectBudget]: the two critical
      sections of [spendConnectorCall] and the replay of the receipts, as a step relation.
    - [EvidenceReceipt] (receipts, envelopes, frames and their verification) and [EvidenceLog] (the log and every operation of its handle) for
      [evidence/evidence.go]. State: the bytes of the file with its modification time, and the handle [Log]; the answers of the file system
      to an operation are its argument [io]. [EvidenceChain] has the lemmas on chains; theorems in [EvidenceSafety] and [EvidenceDelta].
      [ActivationCapture] ([evidence/activation_capture.go]): the replay of a chain for one activation. [EvidencePortable]: the
      export of a log, its verification, and the part of [cmd/stewardctl/main.go] that writes it; theorems in [EvidenceExport].

    ** What the theorems show

    - Crash safety. Whatever system call fails in whatever call, a journal, a fence store, a delivery ledger and a
      tracker reload to what they held ([journal_recovers], [fences_never_roll_back], [restart_always_recovers],
      [tracker_survives_restart]). For the journal one fault is excluded, and [failed_sync_then_prepare_unrecoverable] shows why.
    - At-most-once execution. A delivery enters its handler once as long as its record is retained, its outcome never changes, only
      acknowledged outcomes are dropped, and a restart reports the executing ones as ambiguous ([AtMostOnce]).
    - Monotone fences. Generations and policy epochs never go back, in the fence store and in the tracker, and a
      stale command is dropped ([commit_accepts_only_forward], [tracker_lifecycle], [execute_confined]).
    - Authenticity. An accepted envelope carries a valid signature of a trusted key over exactly the payload returned, and
      the signed encoding is injective ([Verify_sound], [VerifyAll_sound], [PAE_injective]); a delivery ID binds its three
      fields up to a collision of SHA-256.
    - Codecs. Journal frames, fence snapshots, reports, envelopes and runtime references are read back as written, and strict
      decoding accepts exactly the texts of the destination shape.
    - Egress. The proxy connects a live grant only to destinations of its routes, at addresses the policy permits, after the
      audit log took the event, and tunnels only a ClientHello whose name is the granted host, up to the case of letters and two other runes
      that Unicode folds to ASCII ([egress_confined], [kelvin_name_forwarded]); the policy and the parser accept
      exactly what a table of blocks and a grammar say ([address_policy_exact], [client_hello_accepted_exactly]).
    - The connector ledger. A task is authorized once over any calls, faults and restarts; reopening gives the state of the
      live handle, unless a call carried an event the ledger cannot read again; a begun call can be completed and a tenant keeps its quota; a head pins the history ([LedgerSafety],
      [LedgerCapacity], [LedgerAudit]). [incoherent_event_closes_ledger] shows which events the ledger writes and cannot read.
    - Admission. What is admitted from signed bytes satisfies every rule of the signed policy and capsule, and whatever satisfies
      them is admitted ([verified_admission], [intersect_exact]); keys are trusted exactly for their scope and belong to one tenant
      ([trusted_command_keys_exact], [policy_keys_owned]); required approvals can be given ([approval_reachable]).
    - Delegation. A delegated command stays within the delegation and within the scope of the tenant key that signed it, and a renewed
      lease is bounded ([DelegationSafety]).
    - Permits. A run is authorized only within its schedule, its window and its limits, and its identity determines the occurrence
      ([run_confined], [run_identity_injective]); an issued run is accepted ([scheduled_run_issued]); an answer is granted exactly to the
      question its permit names ([response_granted]). [wide_window_accepted] shows a window the authorization accepts and a reader of it would not.
    - Effects. A bundle is approved exactly when enough distinct trusted keys signed a permit of the action ([action_permit_exact],
      [approval_counts]); statements are read back as written ([statement_roundtrip]); an influence head commits to its history
      ([history_commits]); a call reaches a connector only with its grant, its approvals and its exact request
      ([effect_authorized], for grants that passed the test of their registration), at most as often as the connector says, across restarts ([call_budget]). [alternate_spelling_accepted] shows
      that the hash of an influence head may be spelled in upper case too.
    - Questions. A gateway that restarts holds the questions it acknowledged ([interactions_reload]); every answer it delivers was signed by a trusted key for
      that question ([answers_signed]), is never replaced ([answer_final]), and every allowed answer of at most 4096 bytes can be given ([answer_delivered]);
      [full_queue_permanent] shows what a full table of answered questions does.
    - Evidence. Reopening the log gives the state of the live handle, and a failed append costs at most the receipt being written
      ([evidence_log_recovers]); a delta is exactly the receipts after a coordinate and verifies to its head ([export_delta_exact]); a
      head pins the history before it ([evidence_head_pins]); the verifier accepts only files that hold exactly a chain, as a log or as an export, and what
      the command exports is accepted as its log is ([portable_evidence_sound], [evidence_export_roundtrip]); a checkpoint the log signs
      is confirmed by the offline replay under exactly two conditions that the log does not test ([checkpoint_capture_sound]). [torn_header_verifies] shows a torn log that verifies.
    - Agents. A valid definition with a UTF-8 image builds to a bundle that is read back as written, and another image does not build ([build_exact]); the scheduler picks the best suitable node,
      whatever the order of the inventory ([schedule_best], [schedule_order_independent]); fork plans are valid ([fork_plan_valid]).
    - The uplink. Redelivery is harmless, every command of a batch is reported once, the queue is bounded, holds no identifier
      twice and never loses a wake-up, and a cancelled consumer returns ([no_lost_wakeup]).

    ** Conventions, bounds and fuel

    A mutex makes each operation one transition; where a lock is released in between (the queue), the critical sections
    are the steps. The handlers of [Interactions] run under the lock of the gateway; the write of the state file is an argument with three outcomes (it failed before the
    rename, after it, or it succeeded), and so is every reading of the clock. Integers are [Z] with the wrap-around written out where the code can reach it. An error is the constant part of its
    message. Some recursions are on fuel: [scan_loop] of [Journal], whose iterations consume at least one byte, runs on the length of
    the file, and the JSON parser on twice the length of its text, since each call consumes a byte or goes from a list of
    elements to its first; the loops of [ClientHello] run on the length of their input, and [client_hello_total] shows that it
    suffices. The binary search of [Delegation] runs on the length of its list ([search_spec] shows that it suffices), as does that of [EffectGate] ([binary_search_spec]). The loops of
    [EvidenceLog] and [EvidencePortable] run on the length of the file, of which each iteration consumes at least a byte. Ed25519 is a parameter with the law of correct signatures; random references and clocks are inputs.

    ** What is not modelled, and the plan

    Process supervision, HTTP, TLS and container commands are input and output around the modelled decisions; logging, metrics and
    audit records change no state. The control store ([controlstore]), the executor service, the storage
    drivers and the rest of the commands are outside this library: their decisions are spread over transactions of a database, containers and file
    trees. The next parts to add are the enrollment state ([executoruplink/state.go]), the poll containers of the protocol, the
    publication of evidence to the control plane and its witness there ([controlstore/evidence.go]). *)

From stdpp Require Export gmap strings list fin_maps sorting.
From Stdlib Require Export ZArith Lia.
From Stdlib Require Import Ascii.

#[global] Open Scope Z_scope.
#[global] Set Default Goal Selector "!".

(** ** Outcomes

    A Go function returning [(T, error)] returns [result T]; an error is the
    constant part of its message. *)

Inductive result (A : Type) : Type :=
| Ok (a : A)
| Err (e : string).
Arguments Ok {A} a.
Arguments Err {A} e.

#[global] Instance result_eq_dec {A} `{EqDecision A} : EqDecision (result A).
Proof. solve_decision. Defined.

Declare Scope go_scope.
Delimit Scope go_scope with go.
#[global] Open Scope go_scope.

(** [let*] propagates the error as [if err != nil { return err }] does, and
    [require b else e in k] is [if !b { return errors.New(e) }]. *)
Notation "'let*' x ':=' c 'in' k" :=
  (match c with Ok x => k | Err e => Err e end)
  (at level 10, x pattern, c at level 100, k at level 200)
  : go_scope.
Notation "'require' b 'else' e 'in' k" :=
  (if b then k else Err e%string)
  (at level 10, b at level 100, e at level 100, k at level 200)
  : go_scope.

Definition is_ok {A} (r : result A) : bool :=
  match r with Ok _ => true | Err _ => false end.

(** [opt_ok o e]: the Go idiom [value, ok := ...; if !ok { return error }]. *)
Definition opt_ok {A} (o : option A) (e : string) : result A :=
  match o with Some a => Ok a | None => Err e end.

(** The elements of a Go slice, which is [None] when nil. *)
Definition items {A} (s : option (list A)) : list A := default [] s.

(** [slices.Contains] on texts. *)
Definition is_in (x : string) (l : list string) : bool := existsb (String.eqb x) l.

Lemma is_in_spec x l : is_in x l = true <-> x ∈ l.
Proof.
  unfold is_in. rewrite existsb_exists. split.
  - intros (y & Hy & ->%String.eqb_eq). by apply list_elem_of_In.
  - intros Hx%list_elem_of_In. exists x. split; [done | apply String.eqb_refl].
Qed.

Lemma is_in_false x l : is_in x l = false <-> x ∉ l.
Proof. rewrite <- is_in_spec. by destruct (is_in x l). Qed.

(** A loop that returns the first error, and one that also refuses a second element with the same key; [before] and [after] are its
    checks around that test. *)
Fixpoint each {A} (check : A -> result unit) (l : list A) : result unit :=
  match l with
  | [] => Ok tt
  | x :: l => let* _ := check x in each check l
  end.
Fixpoint each_new {A} (key : A -> string) (before : A -> result unit) (duplicate : string) (after : A -> result unit) (seen : list string)
    (l : list A) : result unit :=
  match l with
  | [] => Ok tt
  | x :: l =>
      let* _ := before x in
      require negb (is_in (key x) seen) else duplicate in
      let* _ := after x in
      each_new key before duplicate after (key x :: seen) l
  end.

Lemma each_ok {A} (check : A -> result unit) l : each check l = Ok tt <-> forall x, x ∈ l -> check x = Ok tt.
Proof.
  induction l as [|x l IH]; cbn [each]; [split; [by intros _ ? ?%not_elem_of_nil | done]|]. destruct (check x) as [[]|] eqn:E.
  - rewrite IH. split; [intros H y [-> | Hy]%elem_of_cons; auto | intros H y Hy; apply H; by right].
  - split; [done|]. intros H. specialize (H x ltac:(left)). congruence.
Qed.

Lemma each_new_ok {A} (key : A -> string) before duplicate after seen l : each_new key before duplicate after seen l = Ok tt <->
  NoDup (key <$> l) /\ forall x, x ∈ l -> key x ∉ seen /\ before x = Ok tt /\ after x = Ok tt.
Proof.
  revert seen. induction l as [|x l IH]; intros seen; cbn [each_new].
  { split; [intros _; split; [constructor | by intros ? ?%not_elem_of_nil] | done]. }
  rewrite fmap_cons, NoDup_cons. destruct (before x) as [[]|] eqn:Eb; [|split; [done | intros [_ H]; destruct (H x ltac:(left)) as (_ & ? & _); congruence]].
  destruct (is_in (key x) seen) eqn:Es; cbn [negb].
  { split; [done|]. intros [_ H]. destruct (H x ltac:(left)) as (Hn & _). by apply is_in_spec in Es. }
  apply is_in_false in Es. destruct (after x) as [[]|] eqn:Ea; [|split; [done | intros [_ H]; destruct (H x ltac:(left)) as (_ & _ & ?); congruence]].
  rewrite IH. split.
  - intros [Hnd H]. split; [split; [|done]|].
    + intros (y & Hy & Hin)%list_elem_of_fmap. destruct (H y Hin) as (Hn & _). apply Hn. rewrite <- Hy. left.
    + intros y [-> | Hy]%elem_of_cons; [done|]. destruct (H y Hy) as (Hn & ? & ?). rewrite not_elem_of_cons in Hn. naive_solver.
  - intros [[Hni Hnd] H]. split; [done|]. intros y Hy. destruct (H y ltac:(by right)) as (Hn & ? & ?). split_and!; try done.
    rewrite not_elem_of_cons. split; [|done]. intros E. apply Hni. rewrite <- E. by apply list_elem_of_fmap_2.
Qed.

(** Looking an element up by a key that is unique. *)
Lemma find_unique {A} (key : A -> string) id l x : NoDup (key <$> l) ->
  List.find (fun y => String.eqb (key y) id) l = Some x <-> x ∈ l /\ key x = id.
Proof.
  intros Hnd. split; [intros [Hin Hk%String.eqb_eq]%List.find_some; split; [by apply list_elem_of_In | done]|]. intros [Hin <-].
  induction l as [|y l IH]; [by apply not_elem_of_nil in Hin|]. rewrite fmap_cons, NoDup_cons in Hnd. destruct Hnd as [Hni Hnd]. cbn [List.find].
  destruct (String.eqb_spec (key y) (key x)) as [E | Hne].
  - apply elem_of_cons in Hin as [-> | Hin]; [done|]. exfalso. apply Hni. rewrite E. by apply list_elem_of_fmap_2.
  - apply elem_of_cons in Hin as [-> | Hin]; [done | auto].
Qed.

Lemma find_unique_none {A} (key : A -> string) id l : List.find (fun y => String.eqb (key y) id) l = None -> forall x, x ∈ l -> key x <> id.
Proof. intros H x Hx%list_elem_of_In E. apply (List.find_none _ _ H) in Hx. by rewrite E, String.eqb_refl in Hx. Qed.

(** ** Machine integers

    Go's [uint64] is a [Z] in [[0, 2^64)] and arithmetic on it wraps. *)

Definition u64 (z : Z) : Z := z mod 2 ^ 64.
Definition in_u64 (z : Z) : Prop := 0 <= z < 2 ^ 64.
Definition in_u64b (z : Z) : bool := (0 <=? z) && (z <? 2 ^ 64).
Definition maxUint64 : Z := 2 ^ 64 - 1.

Lemma u64_small z : in_u64 z -> u64 z = z.
Proof. intros. apply Z.mod_small. done. Qed.

(** [int] and [int64] arithmetic wraps. *)
Definition int64 (z : Z) : Z := (z + 2 ^ 63) mod 2 ^ 64 - 2 ^ 63.

Lemma int64_small z : - 2 ^ 63 <= z < 2 ^ 63 -> int64 z = z.
Proof. intros Hz. unfold int64. rewrite Z.mod_small; lia. Qed.

(** ** Boolean reasoning *)

(** [breflect] turns boolean tests among the hypotheses into propositions. *)
Ltac breflect_step :=
  match goal with
  | H : (_ && _) = true |- _ => apply andb_true_iff in H as [? ?]
  | H : (_ || _) = false |- _ => apply orb_false_iff in H as [? ?]
  | H : (_ && _) = false |- _ => apply andb_false_iff in H
  | H : (_ || _) = true |- _ => apply orb_true_iff in H
  | H : negb _ = true |- _ => apply negb_true_iff in H
  | H : negb _ = false |- _ => apply negb_false_iff in H
  | H : bool_decide _ = true |- _ => apply bool_decide_eq_true in H
  | H : bool_decide _ = false |- _ => apply bool_decide_eq_false in H
  | H : (_ =? _) = true |- _ => apply Z.eqb_eq in H
  | H : (_ =? _) = false |- _ => apply Z.eqb_neq in H
  | H : (_ <? _) = true |- _ => apply Z.ltb_lt in H
  | H : (_ <? _) = false |- _ => apply Z.ltb_ge in H
  | H : (_ <=? _) = true |- _ => apply Z.leb_le in H
  | H : (_ <=? _) = false |- _ => apply Z.leb_gt in H
  end.
Ltac breflect := repeat breflect_step.

(** [step H] passes one test or call of [H : ... = Ok _], which must have succeeded; [steps H] passes all of them. *)
Ltac step H :=
  match type of H with
  | (if ?b then _ else _) = _ => let E := fresh "E" in destruct b eqn:E; [|discriminate H]
  | match ?c with Ok _ => _ | Err _ => _ end = _ => let E := fresh "E" in destruct c as [?|] eqn:E; [|discriminate H]
  end.
Ltac steps H := repeat step H; repeat match goal with u : unit |- _ => destruct u end; breflect.

(** [case_ok H] splits every test and match of a hypothesis [H : f = Ok _] (or
    any other equation between outcomes), discarding the branches that
    contradict it. *)
Ltac case_in H :=
  repeat match type of H with
  | context [if ?b then _ else _] => let E := fresh "E" in destruct b eqn:E; try discriminate H
  | context [match ?c with _ => _ end] =>
      let E := fresh "E" in destruct c eqn:E; try discriminate H
  end.

Ltac case_goal :=
  repeat match goal with
  | |- context [if ?b then _ else _] => let E := fresh "E" in destruct b eqn:E
  | |- context [match ?c with _ => _ end] => let E := fresh "E" in destruct c eqn:E
  end.

(** ** Lists *)

Definition zlen {A} (l : list A) : Z := Z.of_nat (length l).

Lemma zlen_app {A} (l k : list A) : zlen (l ++ k) = zlen l + zlen k.
Proof. unfold zlen. rewrite length_app. lia. Qed.
Lemma zlen_cons {A} (x : A) l : zlen (x :: l) = 1 + zlen l.
Proof. unfold zlen. simpl length. lia. Qed.
Lemma zlen_nil {A} : zlen (@nil A) = 0.
Proof. done. Qed.
Lemma zlen_nonneg {A} (l : list A) : 0 <= zlen l.
Proof. unfold zlen. lia. Qed.

Create HintDb len.
Create Rewrite HintDb len.
#[export] Hint Rewrite @zlen_app @zlen_cons @zlen_nil : len.
#[export] Hint Resolve zlen_nonneg : len.

(** [zsum f l]: the sum of [f] over [l]. *)
Definition zsum {A} (f : A -> Z) (l : list A) : Z := foldr (fun x acc => f x + acc) 0 l.

Lemma zsum_app {A} (f : A -> Z) l k : zsum f (l ++ k) = zsum f l + zsum f k.
Proof. induction l; simpl; lia. Qed.
Lemma zsum_le {A} (f g : A -> Z) l : (forall x, x ∈ l -> f x <= g x) -> zsum f l <= zsum g l.
Proof.
  induction l as [|x l IH]; intros H; simpl; [lia|].
  pose proof (H x ltac:(set_solver)). specialize (IH ltac:(set_solver)). lia.
Qed.
Lemma zsum_nonneg {A} (f : A -> Z) l : (forall x, x ∈ l -> 0 <= f x) -> 0 <= zsum f l.
Proof.
  induction l as [|x l IH]; intros H; simpl; [lia|].
  pose proof (H x ltac:(set_solver)). specialize (IH ltac:(set_solver)). lia.
Qed.
Lemma zsum_const {A} c (l : list A) : zsum (fun _ => c) l = c * zlen l.
Proof. unfold zsum, zlen. induction l as [|x l IH]; cbn [foldr length]; lia. Qed.
Lemma zsum_perm {A} (f : A -> Z) l k : l ≡ₚ k -> zsum f l = zsum f k.
Proof. induction 1; simpl; lia. Qed.

(** Two sorted lists with the same elements are equal: Go iterates a map in an
    unspecified order and sorts afterwards, so the order of iteration is
    immaterial. *)
Lemma merge_sort_unique {A} (R : relation A) `{!RelDecision R} `{!Transitive R}
    `{!Total R} (l k : list A) :
  AntiSymm (=) R -> l ≡ₚ k -> merge_sort R l = merge_sort R k.
Proof.
  intros HA Hp. apply (StronglySorted_unique R).
  - apply (StronglySorted_merge_sort R).
  - apply (StronglySorted_merge_sort R).
  - by rewrite !merge_sort_Permutation.
Qed.

(** ** Maps *)

Lemma map_size_delete_le {V} (m : gmap string V) k :
  (size (delete k m) <= size m)%nat.
Proof.
  destruct (m !! k) eqn:E.
  - rewrite map_size_delete_Some; [lia | eauto].
  - by rewrite delete_id.
Qed.

(** A list sorted by a key whose values are distinct is strictly sorted. *)
Lemma StronglySorted_strict {A} (key : A -> Z) (l : list A) :
  StronglySorted (fun a b => key a <= key b) l -> NoDup (key <$> l) ->
  StronglySorted (fun a b => key a < key b) l.
Proof.
  induction 1 as [|x l _ IH Hx]; [constructor|].
  rewrite fmap_cons, NoDup_cons. intros [Hni Hnd]. constructor; [by apply IH|].
  apply Forall_forall. intros y Hy. rewrite Forall_forall in Hx.
  specialize (Hx _ Hy). assert (key x <> key y); [|lia].
  intros Heq. apply Hni. rewrite Heq. apply list_elem_of_fmap. eauto.
Qed.

Lemma Forall2_weaken {A B} (P : A -> Prop) (R S : A -> B -> Prop) l k :
  Forall P l -> Forall2 R l k -> (forall x y, P x -> R x y -> S x y) -> Forall2 S l k.
Proof. intros HP HR HS. induction HR; decompose_Forall_hyps; constructor; auto. Qed.
