(* ===== verification/GoText.v ===== *)
(** * Bytes and text of the Go standard library

    What the components use of Go's [string], [[]byte], [encoding/binary],
    [unicode/utf8], [strings] and [encoding/hex]: both [string] and [[]byte]
    are sequences of bytes; a byte is an [ascii]. *)

From S2P Require Import Prelude.
From Stdlib Require Import Ascii.

Abbreviation bytes := (list ascii).

(** ** Bytes as numbers *)

Definition u8 (b : ascii) : Z := Z.of_N (N_of_ascii b).
Definition byte_of_Z (z : Z) : ascii := ascii_of_N (Z.to_N (z mod 256)).

Lemma u8_range b : 0 <= u8 b < 256.
Proof. unfold u8. pose proof (N_ascii_bounded b). lia. Qed.

Lemma u8_byte_of_Z z : u8 (byte_of_Z z) = z mod 256.
Proof.
  unfold u8, byte_of_Z. pose proof (Z.mod_pos_bound z 256).
  rewrite N_ascii_embedding by lia. lia.
Qed.

Lemma byte_of_Z_u8 b : byte_of_Z (u8 b) = b.
Proof.
  unfold byte_of_Z. rewrite Z.mod_small by apply u8_range.
  unfold u8. rewrite N2Z.id. apply ascii_N_embedding.
Qed.

Lemma u8_inj a b : u8 a = u8 b -> a = b.
Proof. intros E. by rewrite <- (byte_of_Z_u8 a), E, byte_of_Z_u8. Qed.

(** ** [encoding/binary.BigEndian] *)

(** [be_encode n z]: the [n] bytes PutUint16/32/64 writes for [z]. *)
Fixpoint be_encode (n : nat) (z : Z) : bytes :=
  match n with
  | O => []
  | S n => byte_of_Z (z / 256 ^ Z.of_nat n) :: be_encode n z
  end.

Definition be_decode (l : bytes) : Z := foldl (fun acc b => acc * 256 + u8 b) 0 l.

Lemma length_be_encode n z : length (be_encode n z) = n.
Proof. induction n; simpl; congruence. Qed.

Lemma zlen_be_encode n z : zlen (be_encode n z) = Z.of_nat n.
Proof. unfold zlen. by rewrite length_be_encode. Qed.
#[export] Hint Rewrite zlen_be_encode : len.

Lemma be_decode_acc l acc :
  foldl (fun acc b => acc * 256 + u8 b) acc l = acc * 256 ^ zlen l + be_decode l.
Proof.
  unfold be_decode. revert acc. induction l as [|b l IH]; intros acc; simpl.
  - rewrite zlen_nil. lia.
  - rewrite (IH (acc * 256 + u8 b)), (IH (0 * 256 + u8 b)), zlen_cons.
    rewrite Z.pow_add_r by (unfold zlen; lia). lia.
Qed.

Lemma be_decode_cons b l : be_decode (b :: l) = u8 b * 256 ^ zlen l + be_decode l.
Proof. unfold be_decode at 1. simpl. rewrite be_decode_acc. lia. Qed.

Lemma be_decode_encode n z : be_decode (be_encode n z) = z mod 256 ^ Z.of_nat n.
Proof.
  induction n as [|n IH]; simpl be_encode.
  - by rewrite Z.mod_1_r.
  - rewrite be_decode_cons, IH, u8_byte_of_Z, zlen_be_encode.
    rewrite Nat2Z.inj_succ, Z.pow_succ_r by lia.
    rewrite (Z.mul_comm 256), Z.rem_mul_r by lia. lia.
Qed.

Lemma be_decode_encode_small n z :
  0 <= z < 256 ^ Z.of_nat n -> be_decode (be_encode n z) = z.
Proof. intros. rewrite be_decode_encode. by apply Z.mod_small. Qed.

Lemma be_decode_bound l : 0 <= be_decode l < 256 ^ zlen l.
Proof.
  induction l as [|b l IH]; [done|].
  rewrite be_decode_cons, zlen_cons, Z.pow_add_r by (unfold zlen; lia).
  pose proof (u8_range b). nia.
Qed.

(** ** Strings *)

Definition bytes_of (s : string) : bytes := String.list_ascii_of_string s.
Definition string_of (l : bytes) : string := String.string_of_list_ascii l.

(** [len(s)]. *)
Definition slen (s : string) : Z := Z.of_nat (String.length s).

Lemma string_of_bytes_of s : string_of (bytes_of s) = s.
Proof. apply String.string_of_list_ascii_of_string. Qed.
Lemma bytes_of_string_of l : bytes_of (string_of l) = l.
Proof. apply String.list_ascii_of_string_of_list_ascii. Qed.
Lemma zlen_bytes_of s : zlen (bytes_of s) = slen s.
Proof. unfold zlen, slen. f_equal. induction s; simpl; congruence. Qed.
Lemma slen_nonneg s : 0 <= slen s.
Proof. unfold slen. lia. Qed.
Lemma slen_zero s : slen s = 0 <-> s = ""%string.
Proof. unfold slen. destruct s; simpl; split; intros; by try lia. Qed.
Lemma bytes_of_inj s t : bytes_of s = bytes_of t -> s = t.
Proof. intros E. by rewrite <- (string_of_bytes_of s), E, string_of_bytes_of. Qed.
Lemma bytes_of_app s t : bytes_of (s +:+ t) = bytes_of s ++ bytes_of t.
Proof.
  induction s as [|c s IH]; [done|].
  change (c :: bytes_of (s +:+ t) = c :: (bytes_of s ++ bytes_of t)). by rewrite IH.
Qed.
Lemma slen_app s t : slen (s +:+ t) = slen s + slen t.
Proof. by rewrite <- !zlen_bytes_of, bytes_of_app, zlen_app. Qed.
#[export] Hint Rewrite zlen_bytes_of slen_app : len.
#[export] Hint Resolve slen_nonneg : len.

(** [strings.ContainsRune(s, r)] for an ASCII rune. *)
Definition contains_byte (s : string) (b : Z) : bool :=
  existsb (fun c => u8 c =? b) (bytes_of s).

Definition all_bytes (p : Z -> bool) (s : string) : bool :=
  forallb (fun c => p (u8 c)) (bytes_of s).

(** [strings.HasPrefix] and [strings.TrimPrefix]. *)
Definition has_prefix (s p : string) : bool := String.prefix p s.
Fixpoint trim_prefix_bytes (p s : string) : string :=
  match p, s with
  | EmptyString, _ => s
  | String _ p, String _ s => trim_prefix_bytes p s
  | _, _ => s
  end.
Definition trim_prefix (s p : string) : string :=
  if has_prefix s p then trim_prefix_bytes p s else s.

Lemma has_prefix_app p s : has_prefix (p +:+ s) p = true.
Proof.
  unfold has_prefix. induction p as [|c p IH]; [by destruct s|]. change (String c p +:+ s) with (String c (p +:+ s)).
  cbn [String.prefix]. by destruct (ascii_dec c c).
Qed.

Lemma trim_prefix_app s p : has_prefix s p = true -> s = p +:+ trim_prefix s p.
Proof.
  unfold trim_prefix. intros H. rewrite H. revert s H. unfold has_prefix.
  induction p as [|c p IH]; intros s H; [done|]. destruct s as [|d s]; [done|].
  simpl in H. destruct (ascii_dec c d) as [->|]; [|done].
  simpl trim_prefix_bytes. change (String d s = String d (p +:+ trim_prefix_bytes p s)).
  f_equal. by apply IH.
Qed.

(** Go compares strings bytewise; [strings.Compare] is [String.compare]. *)
Definition str_lt (a b : string) : bool := String.ltb a b.

Lemma str_lt_spec a b : str_lt a b = true <-> String.le a b /\ a <> b.
Proof.
  unfold str_lt, String.ltb, String.le, String.leb.
  pose proof (String.compare_eq_iff a b) as Heq. destruct (String.compare a b) eqn:E.
  - rewrite Heq by done. split; [done | by intros [_ ?]].
  - split; [|done]. intros _. split; [done|]. intros ->.
    pose proof (String.compare_antisym b b) as Ha. by rewrite E in Ha.
  - split; [done | by intros [[] _]].
Qed.

Lemma str_lt_trans a b c : str_lt a b = true -> str_lt b c = true -> str_lt a c = true.
Proof.
  rewrite !str_lt_spec. intros [Hab Hne] [Hbc Hne']. split; [by etrans|].
  intros ->. apply Hne. by apply (anti_symm String.le).
Qed.

Lemma str_lt_irrefl a : str_lt a a = false.
Proof. apply not_true_is_false. rewrite str_lt_spec. tauto. Qed.

Lemma str_lt_total a b : a <> b -> str_lt a b = true \/ str_lt b a = true.
Proof. intros Hne. rewrite !str_lt_spec. destruct (total String.le a b); [left | right]; split; auto. Qed.

(** [sort.Strings]. *)
Definition sort_strings (l : list string) : list string := merge_sort String.le l.

Lemma sort_strings_perm l : sort_strings l ≡ₚ l.
Proof. apply merge_sort_Permutation. Qed.

Lemma elem_of_sort_strings x l : x ∈ sort_strings l <-> x ∈ l.
Proof. by rewrite sort_strings_perm. Qed.

Lemma sort_strings_unique l k : l ≡ₚ k -> sort_strings l = sort_strings k.
Proof. apply (merge_sort_unique String.le). apply _. Qed.

(** Distinct names sort into strictly ascending order. *)
Lemma sort_strings_strict l :
  NoDup l -> StronglySorted (fun a b => str_lt a b = true) (sort_strings l).
Proof.
  intros Hnd. assert (Hnd' : NoDup (sort_strings l)) by (by rewrite sort_strings_perm).
  pose proof (StronglySorted_merge_sort String.le l) as Hs. fold (sort_strings l) in Hs.
  induction Hs as [|x k _ IH Hx]; [constructor|].
  apply NoDup_cons in Hnd' as [Hni Hnd']. constructor; [by apply IH|].
  apply Forall_forall. intros y Hy. rewrite Forall_forall in Hx. apply str_lt_spec.
  split; [by apply Hx|]. by intros ->.
Qed.

(** ** UTF-8 *)

Definition cont (z : Z) : bool := (128 <=? z) && (z <=? 191).

(** [utf8.DecodeRune]: the rune at the head and its width; [(0xFFFD, 1)] for an
    invalid encoding, [(0xFFFD, 0)] at the end. *)
Definition decode_rune (l : bytes) : Z * nat :=
  match l with
  | [] => (65533, 0%nat)
  | b0 :: t =>
      let x0 := u8 b0 in
      if x0 <? 128 then (x0, 1%nat)
      else match t with
      | [] => (65533, 1%nat)
      | b1 :: t2 =>
          let x1 := u8 b1 in
          if (194 <=? x0) && (x0 <=? 223) then
            if cont x1 then ((x0 - 192) * 64 + (x1 - 128), 2%nat) else (65533, 1%nat)
          else match t2 with
          | [] => (65533, 1%nat)
          | b2 :: t3 =>
              let x2 := u8 b2 in
              let lo3 := if x0 =? 224 then 160 else 128 in
              let hi3 := if x0 =? 237 then 159 else 191 in
              if (224 <=? x0) && (x0 <=? 239) then
                if (lo3 <=? x1) && (x1 <=? hi3) && cont x2
                then ((x0 - 224) * 4096 + (x1 - 128) * 64 + (x2 - 128), 3%nat)
                else (65533, 1%nat)
              else match t3 with
              | [] => (65533, 1%nat)
              | b3 :: _ =>
                  let x3 := u8 b3 in
                  let lo4 := if x0 =? 240 then 144 else 128 in
                  let hi4 := if x0 =? 244 then 143 else 191 in
                  if (240 <=? x0) && (x0 <=? 244) && (lo4 <=? x1) && (x1 <=? hi4)
                     && cont x2 && cont x3
                  then ((x0 - 240) * 262144 + (x1 - 128) * 4096 + (x2 - 128) * 64
                        + (x3 - 128), 4%nat)
                  else (65533, 1%nat)
              end
          end
      end
  end.

(** The runes of a string with their widths, as [for _, r := range s] yields
    them; [skip] is what is left of the current rune. *)
Fixpoint runes (skip : nat) (l : bytes) : list (Z * nat) :=
  match l with
  | [] => []
  | _ :: t =>
      match skip with
      | S k => runes k t
      | O => let r := decode_rune l in r :: runes (pred (snd r)) t
      end
  end.

(** [utf8.ValidString]: no rune decodes as an error. An encoded U+FFFD has width 3. *)
Definition utf8_valid (s : string) : bool :=
  forallb (fun r => negb ((fst r =? 65533) && (Nat.eqb (snd r) 1))) (runes 0 (bytes_of s)).

(** [unicode.IsSpace]. *)
Definition is_space (r : Z) : bool :=
  existsb (Z.eqb r) [9; 10; 11; 12; 13; 32; 133; 160; 5760; 8232; 8233; 8239; 8287; 12288]
  || ((8192 <=? r) && (r <=? 8202)).

Fixpoint leading_space (rs : list (Z * nat)) : nat :=
  match rs with
  | [] => 0
  | (r, w) :: rs => if is_space r then (w + leading_space rs)%nat else 0
  end.

(** [strings.TrimSpace]. *)
Definition trim_space (s : string) : string :=
  let l := bytes_of s in
  let front := leading_space (runes 0 l) in
  let back := leading_space (rev (runes 0 l)) in
  if Nat.leb (length l) front then "" else
  string_of (take (length l - back - front) (drop front l)).

(** [strings.ContainsAny(s, "\r\n\x00")]. *)
Definition contains_line_or_nul (s : string) : bool :=
  contains_byte s 13 || contains_byte s 10 || contains_byte s 0.

Lemma trim_space_nonempty s : trim_space s <> ""%string -> s <> ""%string.
Proof. intros H ->. by apply H. Qed.

Lemma contains_byte_false s b :
  contains_byte s b = false <-> Forall (fun c => u8 c <> b) (bytes_of s).
Proof.
  unfold contains_byte. induction (bytes_of s) as [|c l IH]; simpl.
  - split; by constructor.
  - rewrite orb_false_iff, Forall_cons, IH, Z.eqb_neq. done.
Qed.

Lemma contains_byte_app s t b :
  contains_byte (s +:+ t) b = contains_byte s b || contains_byte t b.
Proof. unfold contains_byte. by rewrite bytes_of_app, existsb_app. Qed.

Lemma all_bytes_contains p s b :
  all_bytes p s = true -> p b = false -> contains_byte s b = false.
Proof.
  unfold all_bytes. rewrite forallb_forall. intros Hp Hb. apply contains_byte_false, Forall_forall.
  intros c Hc%list_elem_of_In Ez. specialize (Hp _ Hc). congruence.
Qed.

(** A text ends where its first NUL stands. *)
Lemma split_at_nul (l1 l2 m1 m2 : bytes) :
  Forall (fun c => u8 c <> 0) l1 -> Forall (fun c => u8 c <> 0) l2 ->
  l1 ++ zero :: m1 = l2 ++ zero :: m2 -> l1 = l2 /\ m1 = m2.
Proof.
  revert l2. induction l1 as [|a l1 IH]; intros [|b l2] H1 H2 H; simpl in H; simplify_eq.
  - done.
  - inversion H2. done.
  - inversion H1. done.
  - inversion H1; inversion H2; subst. destruct (IH l2) as [-> ->]; auto.
Qed.

(** [strings.Split] by a separator that is not empty: the parts between its leftmost occurrences. [skip] counts the bytes of an occurrence still to
    pass. *)
Fixpoint starts_with (p l : bytes) : bool :=
  match p, l with
  | [], _ => true
  | a :: p, b :: l => Ascii.eqb a b && starts_with p l
  | _ :: _, [] => false
  end.
Fixpoint split_from (sep : bytes) (skip : nat) (l : bytes) : list bytes :=
  match l with
  | [] => [[]]
  | c :: l' =>
      match skip with
      | S skip => split_from sep skip l'
      | O =>
          if starts_with sep l then [] :: split_from sep (length sep - 1) l'
          else match split_from sep 0 l' with part :: parts => (c :: part) :: parts | [] => [[c]] end
      end
  end.
Definition split_on (sep l : bytes) : list bytes := split_from sep 0 l.

(** [strings.Contains]. *)
Fixpoint contains_text (p l : bytes) : bool :=
  starts_with p l || match l with [] => false | _ :: l => contains_text p l end.

(** The elements ascend strictly. *)
Fixpoint ascending (l : list string) : bool :=
  match l with
  | x :: (y :: _) as l' => str_lt x y && ascending l'
  | _ => true
  end.

Lemma ascending_sorted l : ascending l = true -> StronglySorted (fun a b => str_lt a b = true) l.
Proof.
  induction l as [|x [|y l] IH]; intros H; [constructor | by repeat constructor|]. cbn [ascending] in H. apply andb_true_iff in H as [Hxy H].
  specialize (IH H). constructor; [done|]. inversion IH as [|? ? _ Hy]; subst. constructor; [done|]. eapply Forall_impl; [exact Hy|]. intros z Hz. by eapply str_lt_trans.
Qed.

Lemma ascending_nodup l : ascending l = true -> NoDup l.
Proof.
  intros H%ascending_sorted. induction H as [|x l _ IH Hx]; constructor; [|done]. intros Hin. rewrite Forall_forall in Hx. apply Hx in Hin. by rewrite str_lt_irrefl in Hin.
Qed.

(** ** Hexadecimal *)

Definition lower_hex_byte (z : Z) : bool :=
  ((48 <=? z) && (z <=? 57)) || ((97 <=? z) && (z <=? 102)).
Definition hex_byte (z : Z) : bool :=
  lower_hex_byte z || ((65 <=? z) && (z <=? 70)).

(** "sha256:" followed by 64 lower-case hexadecimal digits. Both [digest] of
    package admission and [ValidSHA256Digest] of package controlprotocol are this test. *)
Definition sha256_digest (s : string) : bool :=
  has_prefix s "sha256:" && (slen s =? 7 + 64)
  && all_bytes lower_hex_byte (trim_prefix s "sha256:").

Lemma sha256_digest_length s : sha256_digest s = true -> slen s = 71.
Proof. unfold sha256_digest. intros H. breflect. lia. Qed.

Lemma sha256_digest_nul s : sha256_digest s = true -> contains_byte s 0 = false.
Proof.
  unfold sha256_digest. intros H. breflect.
  rewrite (trim_prefix_app s "sha256:") by done. rewrite contains_byte_app.
  apply orb_false_iff. split; [reflexivity|]. by eapply all_bytes_contains.
Qed.

(** ** Length-prefixed text

    Both durable binary formats (the operation journal and the fence store) write a text
    as a big-endian [uint16] length followed by its bytes. *)

Definition append_text (dst : bytes) (value : string) : bytes :=
  dst ++ be_encode 2 (slen value) ++ bytes_of value.

(** The text at the head of [raw] whose length satisfies [len_ok], and what follows. *)
Definition split_text (len_ok : Z -> bool) (raw : bytes) : option (string * bytes) :=
  if zlen raw <? 2 then None else
  let length := be_decode (take 2 raw) in
  if negb (len_ok length) || (zlen raw <? 2 + length) then None else
  Some (string_of (take (Z.to_nat length) (drop 2 raw)), drop (2 + Z.to_nat length) raw).

Lemma be_encode_decode l : be_encode (length l) (be_decode l) = l.
Proof.
  induction l as [|b l IH]; [done|].
  simpl. rewrite be_decode_cons. unfold zlen.
  pose proof (be_decode_bound l) as Hb. unfold zlen in Hb.
  f_equal.
  - rewrite Z.div_add_l by lia. rewrite (Z.div_small (be_decode l)) by done.
    by rewrite Z.add_0_r, byte_of_Z_u8.
  - assert (Hk : forall n z k, be_encode n (k * 256 ^ Z.of_nat n + z) = be_encode n z).
    { clear. induction n as [|n IHn]; intros z k; [done|]. simpl. f_equal.
      - apply u8_inj. rewrite !u8_byte_of_Z, Nat2Z.inj_succ, Z.pow_succ_r by lia.
        replace (k * (256 * 256 ^ Z.of_nat n) + z) with (k * 256 * 256 ^ Z.of_nat n + z) by lia.
        rewrite Z.div_add_l, Z.add_comm, Z.mod_add by lia. done.
      - rewrite Nat2Z.inj_succ, Z.pow_succ_r by lia.
        replace (k * (256 * 256 ^ Z.of_nat n) + z) with (k * 256 * 256 ^ Z.of_nat n + z) by lia.
        apply IHn. }
    by rewrite Hk.
Qed.

Lemma split_text_append ok v rest :
  ok (slen v) = true -> slen v < 65536 ->
  split_text ok (append_text [] v ++ rest) = Some (v, rest).
Proof.
  intros Hok Hlen. unfold split_text, append_text. rewrite app_nil_l, <- app_assoc.
  assert (H2 : take 2 (be_encode 2 (slen v) ++ bytes_of v ++ rest) = be_encode 2 (slen v))
    by (rewrite take_app_length'; [done | by rewrite length_be_encode]).
  assert (D2 : drop 2 (be_encode 2 (slen v) ++ bytes_of v ++ rest) = bytes_of v ++ rest)
    by (rewrite drop_app_length'; [done | by rewrite length_be_encode]).
  rewrite H2, be_decode_encode_small by (pose proof (slen_nonneg v); simpl; lia).
  rewrite Hok. autorewrite with len. simpl negb.
  pose proof (zlen_nonneg rest). pose proof (slen_nonneg v).
  rewrite !(proj2 (Z.ltb_ge _ _)) by lia. simpl orb. cbv iota.
  rewrite <- drop_drop, D2. f_equal.
  assert (Z.to_nat (slen v) = length (bytes_of v)) as ->
    by (rewrite <- zlen_bytes_of; unfold zlen; lia).
  by rewrite take_app_length, drop_app_length, string_of_bytes_of.
Qed.

Lemma split_text_inv ok raw v rest :
  split_text ok raw = Some (v, rest) ->
  raw = append_text [] v ++ rest /\ ok (slen v) = true /\ slen v < 65536.
Proof.
  unfold split_text. intros H. case_in H. breflect. injection H as <- <-.
  set (n := be_decode (take 2 raw)) in *.
  assert (Hl2 : length (take 2 raw) = 2%nat) by (rewrite length_take; unfold zlen in *; lia).
  assert (Hn : 0 <= n < 65536).
  { pose proof (be_decode_bound (take 2 raw)) as Hb. unfold zlen in Hb. rewrite Hl2 in Hb. done. }
  assert (Hs : slen (string_of (take (Z.to_nat n) (drop 2 raw))) = n).
  { rewrite <- zlen_bytes_of, bytes_of_string_of. unfold zlen in *.
    rewrite length_take, length_drop. lia. }
  rewrite Hs. split; [|split; [done | lia]]. unfold append_text.
  rewrite app_nil_l, Hs, bytes_of_string_of, <- app_assoc.
  change (S (S (Z.to_nat n))) with (2 + Z.to_nat n)%nat.
  rewrite <- drop_drop, take_drop.
  rewrite <- Hl2 at 1. unfold n. by rewrite be_encode_decode, take_drop.
Qed.

Lemma split_text_app ok raw v rest tl :
  split_text ok raw = Some (v, rest) -> split_text ok (raw ++ tl) = Some (v, rest ++ tl).
Proof.
  intros (-> & Hok & Hlen)%split_text_inv. rewrite <- app_assoc.
  by apply split_text_append.
Qed.

Lemma append_text_nil dst v : append_text dst v = dst ++ append_text [] v.
Proof. done. Qed.

Lemma append_text_twice dst v w :
  append_text (append_text dst v) w = dst ++ append_text [] v ++ append_text [] w.
Proof. unfold append_text. by rewrite <- !app_assoc. Qed.

Lemma zlen_append_text dst v : zlen (append_text dst v) = zlen dst + 2 + slen v.
Proof. unfold append_text. autorewrite with len. lia. Qed.
#[export] Hint Rewrite zlen_append_text : len.
