(* ===== verification/GoTime.v ===== *)
(** * Instants of the Go standard library

    [time.Time] as the number of nanoseconds since Go's zero instant, January 1
    of year 1 UTC (so [IsZero] is [= 0]), with [Format] and [Parse] for the layout
    [time.RFC3339Nano] in UTC. *)

From stdpp Require Import pretty.
From Stdlib Require Import Ascii.
From S2P Require Import Prelude GoText.

Definition second : Z := 1000000000.
Definition minute : Z := 60 * second.
Definition hour : Z := 60 * minute.
Definition day : Z := 24 * hour.

(** [t.IsZero()]. *)
Definition is_zero (t : Z) : bool := t =? 0.

#[local] Ltac Zify.zify_post_hook ::= Z.to_euclidean_division_equations.

(** ** The civil calendar *)

(** Year, month and day of a day number (day 0 is 0001-01-01): the years are
    counted from March, so that the leap day is the last of its year. *)
Definition civil_of_day (d : Z) : Z * Z * Z :=
  let z := d + 306 in
  let era := z / 146097 in
  let doe := z mod 146097 in
  let yoe := (doe - doe / 1460 + doe / 36524 - doe / 146096) / 365 in
  let doy := doe - (365 * yoe + yoe / 4 - yoe / 100) in
  let mp := (5 * doy + 2) / 153 in
  let dd := doy - (153 * mp + 2) / 5 + 1 in
  let mm := if mp <? 10 then mp + 3 else mp - 9 in
  let yy := yoe + era * 400 in
  (if mm <=? 2 then yy + 1 else yy, mm, dd).

Definition day_of_civil (y m d : Z) : Z :=
  let yy := if m <=? 2 then y - 1 else y in
  let era := yy / 400 in
  let yoe := yy mod 400 in
  let mp := if m <=? 2 then m + 9 else m - 3 in
  let doy := (153 * mp + 2) / 5 + d - 1 in
  let doe := yoe * 365 + yoe / 4 - yoe / 100 + doy in
  era * 146097 + doe - 306.

Lemma year_of_era_bounds doe :
  0 <= doe < 146097 ->
  let yoe := (doe - doe / 1460 + doe / 36524 - doe / 146096) / 365 in
  0 <= yoe < 400 /\ 0 <= doe - (365 * yoe + yoe / 4 - yoe / 100) < 366.
Proof. intros H yoe. subst yoe. lia. Qed.

Lemma civil_of_day_spec d :
  let '(y, m, dd) := civil_of_day d in
  1 <= m <= 12 /\ 1 <= dd <= 31 /\ day_of_civil y m dd = d.
Proof.
  unfold civil_of_day, day_of_civil.
  pose proof (Z.mod_pos_bound (d + 306) 146097 ltac:(lia)) as Hdoe.
  pose proof (Z.div_mod (d + 306) 146097 ltac:(lia)) as Hera.
  pose proof (year_of_era_bounds _ Hdoe) as Hy.
  set (doe := (d + 306) mod 146097) in *.
  set (era := (d + 306) / 146097) in *.
  set (yoe := (doe - doe / 1460 + doe / 36524 - doe / 146096) / 365) in *.
  cbv zeta in Hy. destruct Hy as [Hy Hdoy].
  set (doy := doe - (365 * yoe + yoe / 4 - yoe / 100)) in *.
  assert (Hdoe2 : doe = yoe * 365 + yoe / 4 - yoe / 100 + doy) by (subst doy; lia).
  clearbody yoe doy era doe.
  set (mp := (5 * doy + 2) / 153).
  assert (Hmp : 0 <= mp <= 11) by (subst mp; lia).
  assert (Hdd : 0 <= doy - (153 * mp + 2) / 5 <= 30) by (subst mp; lia).
  assert (Hq : (yoe + era * 400) / 400 = era) by lia.
  assert (Hr : (yoe + era * 400) mod 400 = yoe) by lia.
  clearbody mp.
  destruct (mp <? 10) eqn:E; breflect.
  - assert ((mp + 3 <=? 2) = false) as -> by (apply Z.leb_gt; lia).
    rewrite Hq, Hr. replace (mp + 3 - 3) with mp by lia. lia.
  - assert ((mp - 9 <=? 2) = true) as -> by (apply Z.leb_le; lia).
    replace (yoe + era * 400 + 1 - 1) with (yoe + era * 400) by lia.
    rewrite Hq, Hr. replace (mp - 9 + 9) with mp by lia. lia.
Qed.

(** ** Decimal digits *)

Definition digit (z : Z) : ascii := byte_of_Z (48 + z).
Definition is_digit (c : ascii) : bool := (48 <=? u8 c) && (u8 c <=? 57).
Definition digit_val (c : ascii) : Z := u8 c - 48.

(** [n] decimal digits of [z], zero padded. *)
Fixpoint dec_encode (n : nat) (z : Z) : bytes :=
  match n with
  | O => []
  | S n => digit ((z / 10 ^ Z.of_nat n) mod 10) :: dec_encode n z
  end.

(** Reads exactly [n] digits. *)
Fixpoint parse_dec (n : nat) (acc : Z) (l : bytes) : option (Z * bytes) :=
  match n, l with
  | O, _ => Some (acc, l)
  | S n, c :: t => if is_digit c then parse_dec n (acc * 10 + digit_val c) t else None
  | S _, [] => None
  end.

Definition expect (c : ascii) (l : bytes) : option bytes :=
  match l with
  | b :: t => if bool_decide (b = c) then Some t else None
  | [] => None
  end.

Lemma is_digit_digit z : 0 <= z < 10 -> is_digit (digit z) = true.
Proof.
  intros. unfold is_digit, digit. rewrite u8_byte_of_Z, Z.mod_small by lia.
  apply andb_true_iff. rewrite !Z.leb_le. lia.
Qed.

Lemma digit_val_digit z : 0 <= z < 10 -> digit_val (digit z) = z.
Proof. intros. unfold digit_val, digit. rewrite u8_byte_of_Z, Z.mod_small by lia. lia. Qed.

Lemma mod_pow10_succ n z :
  z mod 10 ^ Z.of_nat (S n)
  = (z / 10 ^ Z.of_nat n) mod 10 * 10 ^ Z.of_nat n + z mod 10 ^ Z.of_nat n.
Proof.
  rewrite Nat2Z.inj_succ, Z.pow_succ_r, (Z.mul_comm 10) by lia.
  rewrite Z.rem_mul_r by lia. lia.
Qed.

Lemma parse_dec_encode n z acc l :
  parse_dec n acc (dec_encode n z ++ l)
  = Some (acc * 10 ^ Z.of_nat n + z mod 10 ^ Z.of_nat n, l).
Proof.
  revert acc. induction n as [|n IH]; intros acc; simpl.
  - rewrite Z.mod_1_r. f_equal. f_equal. change (10 ^ Z.of_nat 0) with 1. lia.
  - pose proof (Z.mod_pos_bound (z / 10 ^ Z.of_nat n) 10 ltac:(lia)).
    rewrite is_digit_digit, digit_val_digit by done. rewrite IH, mod_pow10_succ.
    rewrite Nat2Z.inj_succ, Z.pow_succ_r by lia. do 2 f_equal. lia.
Qed.

Lemma parse_dec_encode_small n z l :
  0 <= z < 10 ^ Z.of_nat n -> parse_dec n 0 (dec_encode n z ++ l) = Some (z, l).
Proof. intros. rewrite parse_dec_encode, Z.mod_small by done. done. Qed.

Lemma expect_cons c l : expect c (c :: l) = Some l.
Proof. unfold expect. by rewrite bool_decide_true. Qed.

(** ** [time.RFC3339Nano] in UTC *)

(** Trailing zeros are dropped from the fraction. *)
Fixpoint strip_zeros (l : bytes) : bytes :=
  match l with
  | [] => []
  | c :: t =>
      match strip_zeros t with
      | [] => if bool_decide (c = digit 0) then [] else [c]
      | t' => c :: t'
      end
  end.

Definition format_year (y : Z) : bytes :=
  let pad4 z := if z <=? 9999 then dec_encode 4 z else bytes_of (pretty z) in
  if y <? 0 then "-"%char :: pad4 (- y) else pad4 y.

(** [t.UTC().Format(time.RFC3339Nano)]. *)
Definition format_bytes (t : Z) : bytes :=
  let '(y, m, d) := civil_of_day (t / day) in
  let r := t mod day in
  let frac := strip_zeros (dec_encode 9 (r mod second)) in
  format_year y ++ "-"%char :: dec_encode 2 m ++ "-"%char :: dec_encode 2 d
  ++ "T"%char :: dec_encode 2 (r / hour) ++ ":"%char :: dec_encode 2 (r / minute mod 60)
  ++ ":"%char :: dec_encode 2 (r / second mod 60)
  ++ (if bool_decide (frac = []) then [] else "."%char :: frac) ++ ["Z"%char].
Definition format_rfc3339nano (t : Z) : string := string_of (format_bytes t).

Fixpoint parse_frac (n : nat) (acc : Z) (l : bytes) {struct l} : option Z :=
  match l with
  | [] => None
  | [c] => if bool_decide (c = "Z"%char) then Some acc else None
  | c :: t =>
      if is_digit c then
        match n with
        | O => None
        | S n => parse_frac n (acc + digit_val c * 10 ^ Z.of_nat n) t
        end
      else None
  end.

Definition parse_bytes (l : bytes) : option Z :=
  '(y, l) ← parse_dec 4 0 l; l ← expect "-" l;
  '(m, l) ← parse_dec 2 0 l; l ← expect "-" l;
  '(d, l) ← parse_dec 2 0 l; l ← expect "T" l;
  '(hh, l) ← parse_dec 2 0 l; l ← expect ":" l;
  '(mi, l) ← parse_dec 2 0 l; l ← expect ":" l;
  '(ss, l) ← parse_dec 2 0 l;
  ns ← match expect "." l with Some l => parse_frac 9 0 l | None => parse_frac 9 0 l end;
  Some (day_of_civil y m d * day + hh * hour + mi * minute + ss * second + ns).

(** [time.Parse(time.RFC3339Nano, s)] followed by the test that [s] is the UTC
    formatting of the result. The strict grammar above suffices for it: a string that
    [Parse] accepts in any other form differs from the formatting of its instant. *)
Definition canonical_time (s : string) : option Z :=
  match parse_bytes (bytes_of s) with
  | Some t => if bool_decide (format_rfc3339nano t = s) then Some t else None
  | None => None
  end.

(** [time.Parse(time.RFC3339Nano, s)], which [time.RFC3339] reads the same: unlike the canonical form this takes an hour of one digit, a fraction of any
    length after a period or a comma (of which nine digits count), and an offset. *)
Definition days_in (y m : Z) : Z :=
  if m =? 2 then (if (y mod 4 =? 0) && (negb (y mod 100 =? 0) || (y mod 400 =? 0)) then 29 else 28)
  else if (m =? 4) || (m =? 6) || (m =? 9) || (m =? 11) then 30 else 31.

Definition parse_hour (l : bytes) : option (Z * bytes) :=
  match l with
  | c :: d :: t => if is_digit c then if is_digit d then Some (digit_val c * 10 + digit_val d, t) else Some (digit_val c, d :: t) else None
  | [c] => if is_digit c then Some (digit_val c, []) else None
  | [] => None
  end.

(** The digits of a fraction, [n] of which count. *)
Fixpoint scan_fraction (n : nat) (l : bytes) : Z * bytes :=
  match l with
  | c :: t =>
      if is_digit c then
        match n with
        | O => scan_fraction O t
        | S n => let '(v, r) := scan_fraction n t in (digit_val c * 10 ^ Z.of_nat n + v, r)
        end
      else (0, l)
  | [] => (0, [])
  end.
Definition parse_fraction (l : bytes) : Z * bytes :=
  match l with
  | c :: (d :: _) as t => if ((u8 c =? 46) || (u8 c =? 44)) && is_digit d then scan_fraction 9 t else (0, l)
  | _ => (0, l)
  end.

(** The offset from UTC. *)
Definition parse_zone (l : bytes) : option Z :=
  match l with
  | [z] => if bool_decide (z = "Z"%char) then Some 0 else None
  | [s; h1; h2; colon; m1; m2] =>
      let hours := digit_val h1 * 10 + digit_val h2 in
      let minutes := digit_val m1 * 10 + digit_val m2 in
      if bool_decide (colon = ":"%char) && is_digit h1 && is_digit h2 && is_digit m1 && is_digit m2 && (hours <=? 24) && (minutes <=? 60)
      then if bool_decide (s = "+"%char) then Some (hours * hour + minutes * minute)
           else if bool_decide (s = "-"%char) then Some (- (hours * hour + minutes * minute)) else None
      else None
  | _ => None
  end.

Definition parse_rfc3339 (s : string) : option Z :=
  '(y, l) ← parse_dec 4 0 (bytes_of s); l ← expect "-" l;
  '(m, l) ← parse_dec 2 0 l; l ← expect "-" l;
  '(d, l) ← parse_dec 2 0 l; l ← expect "T" l;
  '(hh, l) ← parse_hour l; l ← expect ":" l;
  '(mi, l) ← parse_dec 2 0 l; l ← expect ":" l;
  '(ss, l) ← parse_dec 2 0 l;
  let '(ns, l) := parse_fraction l in
  offset ← parse_zone l;
  if (1 <=? m) && (m <=? 12) && (hh <? 24) && (mi <? 60) && (ss <? 60) && (1 <=? d) && (d <=? days_in y m)
  then Some (day_of_civil y m d * day + hh * hour + mi * minute + ss * second + ns - offset) else None.

Definition parses_rfc3339nano (s : string) : bool := match parse_rfc3339 s with Some _ => true | None => false end.

(** The instants whose year has four digits. *)
Definition four_digit_year (t : Z) : Prop :=
  let '(y, _, _) := civil_of_day (t / day) in 0 <= y <= 9999.

Lemma parse_frac_strip n z acc :
  parse_frac n acc (strip_zeros (dec_encode n z) ++ ["Z"%char])
  = Some (acc + z mod 10 ^ Z.of_nat n).
Proof.
  revert acc. induction n as [|n IH]; intros acc.
  - rewrite Z.mod_1_r. simpl. f_equal. lia.
  - cbn [dec_encode strip_zeros]. rewrite mod_pow10_succ.
    set (q := (z / 10 ^ Z.of_nat n) mod 10).
    assert (0 <= q < 10) by (subst q; apply Z.mod_pos_bound; lia).
    destruct (strip_zeros (dec_encode n z)) as [|c t] eqn:Es.
    + pose proof (IH 0) as IH0. simpl in IH0. injection IH0 as IH0.
      case_bool_decide as Eq.
      * apply (f_equal digit_val) in Eq. rewrite !digit_val_digit in Eq by lia.
        simpl. f_equal. lia.
      * cbn [app parse_frac]. rewrite is_digit_digit, digit_val_digit by done.
        simpl. f_equal. lia.
    + change ((digit q :: c :: t) ++ ["Z"%char]) with (digit q :: (c :: t) ++ ["Z"%char]).
      transitivity (parse_frac n (acc + q * 10 ^ Z.of_nat n) ((c :: t) ++ ["Z"%char])).
      * cbn [parse_frac app]. by rewrite is_digit_digit, digit_val_digit.
      * rewrite IH. f_equal. lia.
Qed.

Lemma parse_format_bytes t :
  four_digit_year t -> parse_bytes (format_bytes t) = Some t.
Proof.
  unfold four_digit_year, parse_bytes, format_bytes.
  pose proof (civil_of_day_spec (t / day)) as Hc.
  destruct (civil_of_day (t / day)) as [[y m] d]. destruct Hc as (Hm & Hd & Hday).
  intros Hy. set (r := t mod day). set (frac := strip_zeros _).
  assert (Hr : 0 <= r < day) by (apply Z.mod_pos_bound; reflexivity).
  assert (Ht : t = t / day * day + r) by (subst r; pose proof (Z.div_mod t day ltac:(discriminate)); lia).
  unfold format_year. rewrite (proj2 (Z.ltb_ge y 0)), (proj2 (Z.leb_le y 9999)) by lia.
  assert (Hparts : r = r / hour * hour + r / minute mod 60 * minute
                       + r / second mod 60 * second + r mod second)
    by (unfold day, hour, minute, second in *; lia).
  assert (0 <= r / hour < 24) by (unfold day, hour, minute, second in *; lia).
  do 5 (rewrite parse_dec_encode_small by (change (10 ^ Z.of_nat 4) with 10000;
          change (10 ^ Z.of_nat 2) with 100; lia);
        cbn [mbind option_bind]; rewrite <- ?app_comm_cons, expect_cons;
        cbn [mbind option_bind]).
  rewrite parse_dec_encode_small by (change (10 ^ Z.of_nat 2) with 100; lia).
  cbn [mbind option_bind].
  assert (Hf : match expect "." ((if bool_decide (frac = []) then [] else "."%char :: frac)
                                 ++ ["Z"%char]) with
               | Some l => parse_frac 9 0 l
               | None => parse_frac 9 0 ((if bool_decide (frac = []) then []
                                          else "."%char :: frac) ++ ["Z"%char])
               end = Some (r mod second)).
  { pose proof (parse_frac_strip 9 (r mod second) 0) as Hp.
    assert (Hs : (r mod second) mod 10 ^ Z.of_nat 9 = r mod second)
      by (apply Z.mod_mod; discriminate).
    rewrite Hs, Z.add_0_l in Hp. fold frac in Hp.
    destruct (bool_decide (frac = [])) eqn:Ef; breflect.
    - by rewrite Ef in Hp.
    - cbn [app]. rewrite expect_cons. exact Hp. }
  rewrite Hf. cbn [mbind option_bind]. rewrite Hday. f_equal.
  revert Ht Hparts. generalize (t / day * day) (r / hour * hour)
    (r / minute mod 60 * minute) (r / second mod 60 * second) (r mod second).
  clear. intros. clearbody r. lia.
Qed.

(** Parsing inverts formatting on every instant with a four-digit year. *)
Lemma canonical_time_format t :
  four_digit_year t -> canonical_time (format_rfc3339nano t) = Some t.
Proof.
  intros H. unfold canonical_time, format_rfc3339nano.
  rewrite bytes_of_string_of, parse_format_bytes, bool_decide_true by done. done.
Qed.

Lemma canonical_time_sound s t : canonical_time s = Some t -> s = format_rfc3339nano t.
Proof.
  unfold canonical_time. destruct (parse_bytes _) as [t'|]; [|done].
  case_bool_decide; naive_solver.
Qed.

(** ** Shape of a canonical timestamp *)

(** Digits, capital letters and the separators of a timestamp. *)
Definition time_byte (z : Z) : bool := (45 <=? z) && (z <=? 90).
Definition printable (l : bytes) : Prop := Forall (fun c => time_byte (u8 c) = true) l.

Lemma is_digit_printable c : is_digit c = true -> time_byte (u8 c) = true.
Proof. unfold is_digit, time_byte. intros H. breflect. apply andb_true_iff. lia. Qed.

Lemma parse_dec_shape n acc l v r :
  parse_dec n acc l = Some (v, r) -> exists d, l = d ++ r /\ length d = n /\ printable d.
Proof.
  revert acc l. induction n as [|n IH]; intros acc l H; simpl in H.
  - simplify_eq. exists []. repeat split. constructor.
  - destruct l as [|c l]; [done|]. destruct (is_digit c) eqn:Hc; [|done].
    apply IH in H as (d & -> & Hd & Hp). exists (c :: d). simpl.
    repeat split; [congruence|]. constructor; [by apply is_digit_printable | done].
Qed.

Lemma expect_shape c l r : expect c l = Some r -> l = c :: r.
Proof. unfold expect. intros H. case_in H. breflect. by simplify_eq. Qed.

Lemma parse_frac_shape n acc l v :
  parse_frac n acc l = Some v -> (1 <= length l <= S n)%nat /\ printable l.
Proof.
  revert n acc. induction l as [|c l IH]; intros n acc H; [done|].
  destruct l as [|c' l].
  - simpl in H. case_bool_decide; [|done]. subst c. simpl. split; [lia|].
    by repeat constructor.
  - change (parse_frac n acc (c :: c' :: l)) with
      (if is_digit c then match n with O => None
         | S n => parse_frac n (acc + digit_val c * 10 ^ Z.of_nat n) (c' :: l) end else None) in H.
    destruct (is_digit c) eqn:Hc; [|done]. destruct n as [|n]; [done|].
    apply IH in H as [Hl Hp]. simpl in *. split; [lia|].
    constructor; [by apply is_digit_printable | done].
Qed.

Lemma parse_bytes_shape l t : parse_bytes l = Some t -> 20 <= zlen l <= 30 /\ printable l.
Proof.
  unfold parse_bytes. intros H.
  repeat match type of H with
  | (parse_dec ?n ?a ?l ≫= _) = Some _ =>
      let E := fresh "E" in destruct (parse_dec n a l) as [[? ?]|] eqn:E; [|done];
      apply parse_dec_shape in E as (? & -> & ? & ?); cbn [mbind option_bind] in H
  | (expect ?c ?l ≫= _) = Some _ =>
      let E := fresh "E" in destruct (expect c l) as [?|] eqn:E; [|done];
      apply expect_shape in E as ->; cbn [mbind option_bind] in H
  end.
  match type of H with (?f ≫= _) = Some _ => destruct f as [ns|] eqn:Ef; [|done] end.
  match type of Ef with match expect ?c ?l with _ => _ end = _ =>
    assert (Hf : (1 <= length l <= 11)%nat /\ printable l) end.
  { destruct (expect "."%char _) as [r|] eqn:Ee in Ef.
    - apply expect_shape in Ee as ->. apply parse_frac_shape in Ef as [? ?]. simpl.
      split; [lia|]. by constructor.
    - apply parse_frac_shape in Ef as [? ?]. split; [lia | done]. }
  destruct Hf as [Hl Hp]. unfold zlen. split.
  - repeat (rewrite length_app || cbn [length]). lia.
  - unfold printable in *. repeat (apply Forall_app; split; [done|]; constructor; [done|]).
    by apply Forall_app.
Qed.

Lemma canonical_time_bytes s t : canonical_time s = Some t -> 20 <= slen s <= 30 /\ all_bytes time_byte s = true.
Proof.
  unfold canonical_time. destruct (parse_bytes (bytes_of s)) as [t'|] eqn:Hp; [|done].
  intros _. apply parse_bytes_shape in Hp as [? Hb]. rewrite zlen_bytes_of in *.
  split; [done|]. apply forallb_forall. intros c Hc. unfold printable in Hb. rewrite Forall_forall in Hb. by apply Hb, list_elem_of_In.
Qed.

Lemma canonical_time_shape s t :
  canonical_time s = Some t -> 20 <= slen s <= 30 /\ contains_byte s 0 = false.
Proof. intros H. apply canonical_time_bytes in H as [? H]. split; [done|]. by eapply all_bytes_contains. Qed.

Example format_example :
  format_rfc3339nano 63855799507123000000 = "2024-07-05T18:05:07.123Z"%string.
Proof. reflexivity. Qed.
Example parse_example :
  canonical_time "2024-07-05T18:05:07.123Z" = Some 63855799507123000000.
Proof. reflexivity. Qed.
Example parse_rejects : canonical_time "2024-02-30T00:00:00Z" = None.
Proof. reflexivity. Qed.
Example parse_offset : parse_rfc3339 "2024-07-05T18:05:07.123+02:00" = canonical_time "2024-07-05T16:05:07.123Z".
Proof. reflexivity. Qed.
Example parse_lenient : parse_rfc3339 "2024-07-05T8:05:07,1230000009999Z" = canonical_time "2024-07-05T08:05:07.123Z".
Proof. reflexivity. Qed.
