(* ===== verification/GoFS.v ===== *)
(** * Durable files

    Two disciplines keep Steward's state on disk: a snapshot written to a temporary
    file and renamed over the old one, and an append-only log that is synced after each
    frame. Each system call may fail; the failure is an input of the model, chosen by
    the environment, so the theorems hold for every fault. *)

From S2P Require Import Prelude GoText.

(** ** Atomic replacement *)

Inductive fs_step :=
| MkdirAll | CreateTemp | ChmodTemp | WriteTemp | SyncTemp | CloseTemp
| Rename | ChmodPath | OpenDir | SyncDir | CloseDir.

#[global] Instance fs_step_eq_dec : EqDecision fs_step.
Proof. solve_decision. Defined.

Section replace.
Context {D : Type}.

(** Runs the steps in order; [fault] is the step that fails, if any. Only [Rename]
    changes what the path names. *)
Fixpoint run_replace (steps : list fs_step) (fault : option fs_step)
    (content : D) (disk : option D) : result unit * option D :=
  match steps with
  | [] => (Ok tt, disk)
  | st :: rest =>
      if bool_decide (fault = Some st) then (Err "i/o error", disk)
      else run_replace rest fault content
             (if bool_decide (st = Rename) then Some content else disk)
  end.

(** Whatever fails, the path names the old content or the new one. *)
Lemma run_replace_atomic steps fault content disk :
  (run_replace steps fault content disk).2 = disk \/
  (run_replace steps fault content disk).2 = Some content.
Proof.
  revert disk. induction steps as [|st rest IH]; intros disk; simpl; [auto|].
  case_bool_decide; simpl; [auto|]. case_bool_decide; [|auto].
  destruct (IH (Some content)) as [-> | ->]; auto.
Qed.

Lemma run_replace_ok steps fault content disk :
  (run_replace steps fault content disk).1 = Ok tt -> Rename ∈ steps ->
  (run_replace steps fault content disk).2 = Some content.
Proof.
  intros Hok Hin. revert disk Hok Hin.
  induction steps as [|st rest IH]; intros disk Hok Hin; [by apply not_elem_of_nil in Hin|].
  simpl in *. case_bool_decide; [done|].
  apply elem_of_cons in Hin as [<- | Hin].
  - rewrite bool_decide_true by done.
    destruct (run_replace_atomic rest fault content (Some content)); done.
  - by apply IH.
Qed.

Lemma run_replace_no_fault steps content disk :
  (run_replace steps None content disk).1 = Ok tt.
Proof. revert disk. induction steps; intros; simpl; [done | auto]. Qed.
End replace.

(** ** Appending to a log

    The environment's answer to one append: where, if anywhere, it fails, and how
    many bytes a failing write left in the file. *)
Inductive append_fault :=
| AppendOk
| FailStat
| FailHeader (written : nat)
| FailPayload (written : nat)
| FailSync.

(** [writeAll(header); writeAll(payload); Sync()] on a file opened with O_APPEND. *)
Definition append_frame (fault : append_fault) (header payload file : bytes)
  : result unit * bytes :=
  match fault with
  | AppendOk => (Ok tt, file ++ header ++ payload)
  | FailStat => (Err "i/o error", file)
  | FailHeader k => (Err "i/o error", file ++ take k header)
  | FailPayload k => (Err "i/o error", file ++ header ++ take k payload)
  | FailSync => (Err "i/o error", file ++ header ++ payload)
  end.

(** What [os.Lstat] reports of a path. *)
Inductive lstat :=
| NotExist
| StatError
| Info (regular : bool) (perm : Z).

(** [info.Mode().Perm()&0o077 == 0]. *)
Definition owner_only (perm : Z) : bool := Z.land perm 63 =? 0.
