(* ===== verification/Journal.v ===== *)
(** * The operation journal (internal/journal/journal.go)

    A log of prepared, committed and compensated host mutations. Its state is the open
    file's bytes and the map the constructor recovered from them; the theorems relate
    the two: what a journal acknowledges, a later [Open] of its file recovers. *)

From Stdlib Require Import Ascii.
From S2P Require Import Prelude GoText GoFS.

Module Journal.

Definition MaxRecordBytes : Z := 4096.
Definition maxJournalBytes : Z := 16 * 2 ^ 20.
Definition journalVersion : Z := 1.

(** [State] is a Go byte: any value can be read back from a file. *)
Definition Prepared : Z := 1.
Definition Committed : Z := 2.
Definition Compensated : Z := 3.

Record Operation := mkOperation {
  Sequence : Z;
  ID : string;
  Target : string;
  Generation : Z
}.

Record record := mkRecord { State : Z; op : Operation }.

#[global] Instance Operation_eq_dec : EqDecision Operation.
Proof. solve_decision. Defined.
#[global] Instance record_eq_dec : EqDecision record.
Proof. solve_decision. Defined.

(** [file] is the content of the log; [is_open] is [file != nil]. *)
Record Journal := mkJournal {
  file : bytes;
  is_open : bool;
  readOnly : bool;
  next : Z;
  entries : gmap string record
}.

(** ** The record codec *)

Definition validText (value : string) (limit : Z) : bool :=
  negb (bool_decide (value = ""%string)) && (slen value <=? limit) && utf8_valid value
  && negb (contains_byte value 0).

Definition takeText (raw : bytes) : option (string * bytes) :=
  match split_text (fun length => negb (length =? 0)) raw with
  | Some (value, rest) => if validText value 512 then Some (value, rest) else None
  | None => None
  end.

Definition known_state (s : Z) : bool :=
  (s =? Prepared) || (s =? Committed) || (s =? Compensated).

(** version|state|sequence|generation|id|target *)
Definition marshal (value : record) : result bytes :=
  let o := op value in
  require negb (Sequence o =? 0) && validText (ID o) 256 && validText (Target o) 512
          && negb (Generation o =? 0)
    else "invalid journal record" in
  require known_state (State value) else "invalid journal state" in
  let buf := [byte_of_Z journalVersion; byte_of_Z (State value)]
             ++ be_encode 8 (Sequence o) ++ be_encode 8 (Generation o) in
  Ok (append_text (append_text buf (ID o)) (Target o)).

Definition unmarshal (raw : bytes) : result record :=
  require (18 <=? zlen raw) && (be_decode (take 1 raw) =? journalVersion)
    else "invalid journal record version" in
  let st := be_decode (take 1 (drop 1 raw)) in
  let sequence := be_decode (take 8 (drop 2 raw)) in
  let generation := be_decode (take 8 (drop 10 raw)) in
  let* (id, raw) := opt_ok (takeText (drop 18 raw)) "invalid journal operation id" in
  let* (target, raw) := opt_ok (takeText raw) "invalid journal operation target" in
  require bool_decide (raw = []) else "invalid journal operation target" in
  let value := mkRecord st (mkOperation sequence id target generation) in
  let* _ := marshal value in
  Ok value.

(** ** Recovery *)

Definition apply (entries : gmap string record) (value : record)
  : result (gmap string record) :=
  let id := ID (op value) in
  if State value =? Prepared then
    match entries !! id with
    | Some _ => Err "journal operation prepared twice"
    | None => Ok (<[id := value]> entries)
    end
  else if (State value =? Committed) || (State value =? Compensated) then
    match entries !! id with
    | Some current =>
        if (State current =? Prepared)
           && bool_decide (Target (op current) = Target (op value))
           && (Generation (op current) =? Generation (op value))
        then Ok (<[id := value]> entries)
        else Err "journal operation has invalid terminal transition"
    | None => Err "journal operation has invalid terminal transition"
    end
  else Err "journal has invalid state".

(** One iteration of [scan]: [None] at a clean end of file, otherwise the record of
    the next frame and the bytes after it. *)
Definition next_frame (raw : bytes) : result (option (record * bytes)) :=
  if bool_decide (raw = []) then Ok None else
  require 4 <=? zlen raw else "read frame header" in
  let size := be_decode (take 4 raw) in
  require negb (size =? 0) && (size <=? MaxRecordBytes) else "invalid journal frame size" in
  require 4 + size <=? zlen raw else "read journal frame" in
  let* value := unmarshal (take (Z.to_nat size) (drop 4 raw)) in
  Ok (Some (value, drop (4 + Z.to_nat size) raw)).

Fixpoint scan_loop (fuel : nat) (raw : bytes) (expected : Z) (entries : gmap string record)
  : result (gmap string record * Z) :=
  match fuel with
  | O => Err "out of fuel"
  | S fuel =>
      let* frame := next_frame raw in
      match frame with
      | None => Ok (entries, expected)
      | Some (value, rest) =>
          require Sequence (op value) =? expected else "journal sequence is not contiguous" in
          let* entries := apply entries value in
          scan_loop fuel rest (u64 (expected + 1)) entries
      end
  end.

(** Every iteration consumes at least one byte, so the length of the file is enough fuel. *)
Definition scan (f : bytes) : result (gmap string record * Z) :=
  scan_loop (S (length f)) f 1 ∅.

(** [Open]: [st] is what Lstat reports, [content] the bytes of the file (none when it is
    created), and the three flags say whether OpenFile, Chmod and the directory sync
    succeed. *)
Definition Open (path : string) (st : lstat) (content : bytes)
    (openOk chmodOk dirSyncOk : bool) : result Journal :=
  require negb (bool_decide (path = ""%string)) else "journal path is required" in
  let* created :=
    match st with
    | NotExist => Ok true
    | StatError => Err "stat journal"
    | Info regular perm =>
        require regular && owner_only perm
          else "journal must be a regular file with mode 0600 or stricter" in
        require zlen content <=? maxJournalBytes else "journal exceeds its limit" in
        Ok false
    end in
  require openOk else "open journal" in
  require chmodOk else "chmod journal" in
  require negb created || dirSyncOk else "sync journal directory" in
  let f := if created then [] else content in
  let* (entries, next) := scan f in
  Ok (mkJournal f true false next entries).

(** [OpenForValidation]: the file must exist; [unchanged] says whether the opened file is
    still the one Lstat saw, with the same mode and an allowed size. *)
Definition OpenForValidation (path : string) (st : lstat) (content : bytes)
    (openOk statOk unchanged : bool) : result Journal :=
  require negb (bool_decide (path = ""%string)) else "journal path is required" in
  match st with
  | NotExist => Err "journal is missing; initialize durable admission state before validation"
  | StatError => Err "stat journal"
  | Info regular perm =>
      require regular && owner_only perm
        else "journal must be a regular file with mode 0600 or stricter" in
      require zlen content <=? maxJournalBytes else "journal exceeds its limit" in
      require openOk else "open journal for validation" in
      require statOk else "stat opened journal" in
      require unchanged else "journal changed while it was opened for validation" in
      let* (entries, next) := scan content in
      Ok (mkJournal content true true next entries)
  end.

(** ** Operations

    An operation returns the journal it leaves behind together with its outcome: a failed
    append can have changed the file. *)

Definition set_file (j : Journal) (f : bytes) : Journal :=
  mkJournal f (is_open j) (readOnly j) (next j) (entries j).

Definition append (j : Journal) (value : record) (fault : append_fault)
  : Journal * result unit :=
  if readOnly j then (j, Err "journal is open for validation only") else
  match marshal value with
  | Err e => (j, Err e)
  | Ok payload =>
      if MaxRecordBytes <? zlen payload then (j, Err "journal record exceeds size limit")
      else if negb (is_open j) then (j, Err "invalid argument")
      else match fault with
      | FailStat => (j, Err "i/o error")
      | _ =>
          if maxJournalBytes <? zlen (file j) + (4 + zlen payload)
          then (j, Err "journal would exceed size limit")
          else
            let '(res, f) := append_frame fault (be_encode 4 (zlen payload)) payload (file j) in
            (set_file j f, res)
      end
  end.

(** [j.entries[id] = r; j.next++]. *)
Definition record_entry (j : Journal) (id : string) (r : record) : Journal :=
  mkJournal (file j) (is_open j) (readOnly j) (u64 (next j + 1)) (<[id := r]> (entries j)).

Definition Prepare (j : Journal) (id target : string) (generation : Z) (fault : append_fault)
  : Journal * result Operation :=
  if negb (validText id 256 && validText target 512 && negb (generation =? 0))
  then (j, Err "journal operation requires bounded id, target, and positive generation")
  else match entries j !! id with
  | Some _ => (j, Err "journal operation already exists")
  | None =>
      let o := mkOperation (next j) id target generation in
      let '(j, res) := append j (mkRecord Prepared o) fault in
      match res with
      | Err e => (j, Err e)
      | Ok _ => (record_entry j id (mkRecord Prepared o), Ok o)
      end
  end.

Definition finish (j : Journal) (id : string) (state : Z) (fault : append_fault)
  : Journal * result unit :=
  if negb (validText id 256) then (j, Err "journal operation id is invalid") else
  match entries j !! id with
  | None => (j, Err "journal operation is unknown")
  | Some current =>
      if negb (State current =? Prepared)
      then (j, Err "journal operation is already terminal")
      else
        let o := op current in
        let nxt := mkRecord state (mkOperation (next j) (ID o) (Target o) (Generation o)) in
        let '(j, res) := append j nxt fault in
        match res with
        | Err e => (j, Err e)
        | Ok _ => (record_entry j id nxt, Ok tt)
        end
  end.

Definition Commit (j : Journal) (id : string) (fault : append_fault) : Journal * result unit :=
  finish j id Committed fault.
Definition Compensate (j : Journal) (id : string) (fault : append_fault)
  : Journal * result unit :=
  finish j id Compensated fault.

Definition seq_le (a b : Operation) : Prop := Sequence a <= Sequence b.
#[global] Instance seq_le_dec : RelDecision seq_le.
Proof. intros a b. apply Z_le_dec. Defined.

Definition Pending (j : Journal) : list Operation :=
  merge_sort seq_le
    (op <$> filter (fun r => State r = Prepared) (snd <$> map_to_list (entries j))).

Definition FormatVersion (j : Journal) : Z * bool := (journalVersion, 1 <? next j).

Definition Close (j : Journal) : Journal :=
  mkJournal (file j) false (readOnly j) (next j) (entries j).

(** ** The codec is a bijection between valid records and their frames *)

Lemma takeText_append v rest :
  validText v 512 = true -> takeText (append_text [] v ++ rest) = Some (v, rest).
Proof.
  intros Hv. unfold takeText. rewrite split_text_append.
  - by rewrite Hv.
  - unfold validText in Hv. breflect. apply negb_true_iff, Z.eqb_neq.
    intros ->%slen_zero. done.
  - unfold validText in Hv. breflect. lia.
Qed.

Lemma takeText_inv raw v rest :
  takeText raw = Some (v, rest) -> raw = append_text [] v ++ rest /\ validText v 512 = true.
Proof.
  unfold takeText. intros H. case_in H. injection H as <- <-.
  apply split_text_inv in E as (-> & _ & _). done.
Qed.

Lemma validText_weaken v a b : a <= b -> validText v a = true -> validText v b = true.
Proof.
  unfold validText. intros Hab H. breflect.
  repeat (apply andb_true_iff; split); try (apply Z.leb_le; lia);
    try (apply negb_true_iff); auto using bool_decide_eq_false_2.
Qed.

(** The bytes of a record. *)
Definition record_bytes (v : record) : bytes :=
  [byte_of_Z journalVersion; byte_of_Z (State v)]
  ++ be_encode 8 (Sequence (op v)) ++ be_encode 8 (Generation (op v))
  ++ append_text [] (ID (op v)) ++ append_text [] (Target (op v)).

Lemma marshal_inv v raw :
  marshal v = Ok raw ->
  raw = record_bytes v /\ Sequence (op v) <> 0 /\ Generation (op v) <> 0 /\
  validText (ID (op v)) 256 = true /\ validText (Target (op v)) 512 = true /\
  known_state (State v) = true.
Proof.
  unfold marshal. intros H. case_in H. breflect. injection H as <-.
  split; [|done]. rewrite append_text_twice. unfold record_bytes. cbn [app]. by rewrite <- ?app_assoc.
Qed.

Lemma marshal_ok v :
  Sequence (op v) <> 0 -> Generation (op v) <> 0 ->
  validText (ID (op v)) 256 = true -> validText (Target (op v)) 512 = true ->
  known_state (State v) = true -> marshal v = Ok (record_bytes v).
Proof.
  intros Hs Hg Hi Ht Hk. unfold marshal.
  rewrite Hi, Ht, Hk, !(proj2 (Z.eqb_neq _ _)) by done. cbn [negb andb].
  rewrite append_text_twice. unfold record_bytes. cbn [app]. by rewrite <- !app_assoc.
Qed.

Lemma record_bytes_length v :
  zlen (record_bytes v) = 22 + slen (ID (op v)) + slen (Target (op v)).
Proof. unfold record_bytes. autorewrite with len. lia. Qed.

Definition well_sized (v : record) : Prop :=
  in_u64 (Sequence (op v)) /\ in_u64 (Generation (op v)).

Lemma known_state_cases s :
  known_state s = true -> s = Prepared \/ s = Committed \/ s = Compensated.
Proof. unfold known_state. rewrite !orb_true_iff, !Z.eqb_eq. tauto. Qed.

Lemma known_state_byte s : known_state s = true -> be_decode [byte_of_Z s] = s.
Proof. by intros [-> | [-> | ->]]%known_state_cases. Qed.

Lemma header_fields (a b : ascii) (s g rest : bytes) :
  length s = 8%nat -> length g = 8%nat ->
  take 8 (drop 2 (a :: b :: s ++ g ++ rest)) = s /\
  take 8 (drop 10 (a :: b :: s ++ g ++ rest)) = g /\
  drop 18 (a :: b :: s ++ g ++ rest) = rest.
Proof.
  intros Hs Hg.
  change (drop 2 (a :: b :: s ++ g ++ rest)) with (s ++ g ++ rest).
  change (drop 10 (a :: b :: s ++ g ++ rest)) with (drop 8 (s ++ g ++ rest)).
  change (drop 18 (a :: b :: s ++ g ++ rest)) with (drop (8 + 8) (s ++ g ++ rest)).
  rewrite take_app_length' by done. split; [done|].
  rewrite drop_app_length' by done. rewrite take_app_length' by done. split; [done|].
  rewrite <- drop_drop. by rewrite !drop_app_length' by done.
Qed.

Lemma be_decode_head2 (a b : ascii) l : be_decode (take 1 (drop 1 (a :: b :: l))) = be_decode [b].
Proof. done. Qed.
Lemma be_decode_head l : (be_decode (take 1 (byte_of_Z journalVersion :: l)) =? journalVersion) = true.
Proof. done. Qed.

Lemma unmarshal_marshal v raw :
  well_sized v -> marshal v = Ok raw -> unmarshal raw = Ok v.
Proof.
  intros [Hs Hg] Hm. pose proof (marshal_inv _ _ Hm) as (-> & _ & _ & Hi & Ht & Hk).
  unfold unmarshal. rewrite record_bytes_length.
  rewrite (proj2 (Z.leb_le _ _))
    by (pose proof (slen_nonneg (ID (op v))); pose proof (slen_nonneg (Target (op v))); lia).
  destruct (header_fields (byte_of_Z journalVersion) (byte_of_Z (State v))
              (be_encode 8 (Sequence (op v))) (be_encode 8 (Generation (op v)))
              (append_text [] (ID (op v)) ++ append_text [] (Target (op v)) ++ []))
    as (E1 & E2 & E3); [by rewrite length_be_encode..|].
  rewrite app_nil_r in E1, E2. rewrite app_nil_r in E3 at 1.
  unfold record_bytes. cbn [app]. rewrite E1, E2, E3.
  rewrite (be_decode_head2 _ (byte_of_Z (State v))), known_state_byte by done.
  rewrite be_decode_head. cbn [andb]. rewrite !be_decode_encode_small by (unfold in_u64 in *; simpl; lia).
  rewrite takeText_append by (by apply (validText_weaken _ 256)). cbn [opt_ok].
  rewrite takeText_append by done. cbn [opt_ok]. rewrite bool_decide_true by done.
  destruct v as [st [sq id tg gn]]; simpl in *. by rewrite Hm.
Qed.

Lemma be_encode_decode' n l : length l = n -> be_encode n (be_decode l) = l.
Proof. intros <-. apply be_encode_decode. Qed.

(** A frame is read only if it is exactly what [marshal] writes for its record. *)
Lemma unmarshal_inv raw v :
  unmarshal raw = Ok v -> marshal v = Ok raw /\ well_sized v.
Proof.
  unfold unmarshal. intros H.
  destruct (18 <=? zlen raw) eqn:Hlen; [|done]. cbn [andb] in H. breflect.
  destruct (be_decode (take 1 raw) =? journalVersion) eqn:Hv; [|done].
  destruct (takeText (drop 18 raw)) as [[id r1]|] eqn:H1; [|done]. cbn [opt_ok] in H.
  destruct (takeText r1) as [[tg r2]|] eqn:H2; [|done]. cbn [opt_ok] in H.
  case_bool_decide as Hr; [|done]. subst r2.
  destruct (marshal _) as [m|] eqn:Hm; [|done]. injection H as <-.
  apply takeText_inv in H1 as [H1 _]. apply takeText_inv in H2 as [-> _].
  rewrite app_nil_r in H1.
  unfold zlen in Hlen. destruct raw as [|a [|b l]]; [simpl in Hlen; lia..|].
  change (drop 18 (a :: b :: l)) with (drop (8 + 8) l) in H1.
  change (drop 2 (a :: b :: l)) with l in Hm |- *.
  change (drop 10 (a :: b :: l)) with (drop 8 l) in Hm |- *.
  assert (L1 : length (take 8 l) = 8%nat) by (rewrite length_take; simpl in Hlen; lia).
  assert (L2 : length (take 8 (drop 8 l)) = 8%nat)
    by (rewrite length_take, length_drop; simpl in Hlen; lia).
  rewrite <- drop_drop in H1.
  apply marshal_inv in Hm as Hm'. destruct Hm' as (-> & _). split.
  - rewrite Hm. f_equal. unfold record_bytes. cbn [State op Sequence Generation ID Target].
    rewrite !be_encode_decode' by done. rewrite <- H1, !take_drop. cbn [app].
    change (be_decode (take 1 (a :: b :: l))) with (be_decode [a]) in Hv.
    change (be_decode (take 1 (drop 1 (a :: b :: l)))) with (be_decode [b]).
    apply Z.eqb_eq in Hv. rewrite <- Hv.
    assert (Hb : forall c, byte_of_Z (be_decode [c]) = c).
    { intros c. rewrite be_decode_cons. unfold zlen, be_decode. simpl.
      rewrite Z.mul_1_r, Z.add_0_r. apply byte_of_Z_u8. }
    by rewrite !Hb.
  - split; cbn [op Sequence Generation].
    + pose proof (be_decode_bound (take 8 l)) as Hb. unfold zlen in Hb. by rewrite L1 in Hb.
    + pose proof (be_decode_bound (take 8 (drop 8 l))) as Hb. unfold zlen in Hb.
      by rewrite L2 in Hb.
Qed.

(** ** Frames *)

Definition frame (v : record) : bytes :=
  be_encode 4 (zlen (record_bytes v)) ++ record_bytes v.

Lemma marshal_size v raw : marshal v = Ok raw -> 22 <= zlen raw <= 790.
Proof.
  intros (-> & _ & _ & Hi & Ht & _)%marshal_inv. rewrite record_bytes_length.
  unfold validText in *. breflect.
  pose proof (slen_nonneg (ID (op v))). pose proof (slen_nonneg (Target (op v))). lia.
Qed.

Lemma next_frame_frame v raw rest :
  well_sized v -> marshal v = Ok raw -> next_frame (frame v ++ rest) = Ok (Some (v, rest)).
Proof.
  intros Hw Hm. pose proof (marshal_size _ _ Hm) as Hsz.
  pose proof (marshal_inv _ _ Hm) as (-> & _).
  unfold next_frame, frame. set (p := record_bytes v) in *. rewrite <- app_assoc.
  assert (H4 : forall l, take 4 (be_encode 4 (zlen p) ++ l) = be_encode 4 (zlen p))
    by (intros; by rewrite take_app_length' by (by rewrite length_be_encode)).
  assert (D4 : forall l, drop 4 (be_encode 4 (zlen p) ++ l) = l)
    by (intros; by rewrite drop_app_length' by (by rewrite length_be_encode)).
  rewrite bool_decide_false by (intros E%(f_equal zlen); autorewrite with len in E;
    pose proof (zlen_nonneg rest); lia).
  autorewrite with len. pose proof (zlen_nonneg rest).
  rewrite (proj2 (Z.leb_le 4 _)) by lia.
  rewrite H4, be_decode_encode_small by (simpl; lia).
  unfold MaxRecordBytes.
  rewrite (proj2 (Z.eqb_neq _ _)), !(proj2 (Z.leb_le _ _)) by lia. cbn [negb andb].
  rewrite <- drop_drop, D4. replace (Z.to_nat (zlen p)) with (length p) by (unfold zlen; lia).
  rewrite take_app_length, drop_app_length. by rewrite (unmarshal_marshal v).
Qed.

Lemma next_frame_inv raw v rest :
  next_frame raw = Ok (Some (v, rest)) ->
  raw = frame v ++ rest /\ well_sized v /\ marshal v = Ok (record_bytes v).
Proof.
  unfold next_frame. intros H. case_in H. injection H as <- <-. breflect.
  set (n := be_decode (take 4 raw)) in *.
  apply unmarshal_inv in E3 as [Hm Hw].
  pose proof (marshal_inv _ _ Hm) as (Hp & _). split; [|split; [done | by rewrite <- Hp]].
  unfold frame. rewrite <- Hp.
  assert (Hl4 : length (take 4 raw) = 4%nat) by (rewrite length_take; unfold zlen in *; lia).
  assert (Hn : zlen (take (Z.to_nat n) (drop 4 raw)) = n).
  { unfold zlen in *. rewrite length_take, length_drop.
    pose proof (be_decode_bound (take 4 raw)). lia. }
  rewrite Hn. unfold n. rewrite be_encode_decode' by done.
  change (S (S (S (S (Z.to_nat (be_decode (take 4 raw))))))) with
    (4 + Z.to_nat (be_decode (take 4 raw)))%nat.
  by rewrite <- app_assoc, <- drop_drop, take_drop, take_drop.
Qed.

Lemma next_frame_app raw v rest tl :
  next_frame raw = Ok (Some (v, rest)) -> next_frame (raw ++ tl) = Ok (Some (v, rest ++ tl)).
Proof.
  intros (-> & Hw & Hm)%next_frame_inv. rewrite <- app_assoc.
  by eapply next_frame_frame.
Qed.

Lemma next_frame_shorter raw v rest :
  next_frame raw = Ok (Some (v, rest)) -> zlen rest + 26 <= zlen raw.
Proof.
  intros (-> & _ & Hm)%next_frame_inv. unfold frame. autorewrite with len.
  pose proof (marshal_size _ _ Hm). lia.
Qed.

Lemma next_frame_end raw : next_frame raw = Ok None -> raw = [].
Proof. unfold next_frame. case_bool_decide; [done|]. intros E. case_in E. Qed.

(** ** Scanning *)

Lemma scan_loop_fuel f1 f2 raw e m :
  (length raw < f1)%nat -> (length raw < f2)%nat ->
  scan_loop f1 raw e m = scan_loop f2 raw e m.
Proof.
  revert f2 raw e m. induction f1 as [|f1 IH]; intros [|f2] raw e m H1 H2; try lia.
  cbn [scan_loop]. destruct (next_frame raw) as [[[v rest]|]|] eqn:Hn; [|done..].
  apply next_frame_shorter in Hn. unfold zlen in Hn.
  case_match; [|done]. destruct (apply m v); [|done]. apply IH; lia.
Qed.

(** Scanning a file and then more bytes is scanning the bytes from where the file left off. *)
Lemma scan_loop_app f g raw tl e m m' e' :
  scan_loop f raw e m = Ok (m', e') -> (length (raw ++ tl) < g)%nat ->
  scan_loop g (raw ++ tl) e m = scan_loop (S (length tl)) tl e' m'.
Proof.
  revert g raw e m. induction f as [|f IH]; intros g raw e m H Hg; [done|].
  cbn [scan_loop] in H. destruct (next_frame raw) as [[[v rest]|]|] eqn:Hn; [| |done].
  - pose proof (next_frame_shorter _ _ _ Hn) as Hs. unfold zlen in Hs.
    destruct g as [|g]; [lia|]. rewrite length_app in Hg.
    cbn [scan_loop]. rewrite (next_frame_app _ _ _ tl Hn).
    case_match; [|done]. destruct (apply m v) as [m1|]; [|done].
    eapply IH; [done|]. rewrite length_app. lia.
  - injection H as <- <-. apply next_frame_end in Hn as ->. apply scan_loop_fuel; simpl in *; lia.
Qed.

Lemma scan_app raw tl m e :
  scan raw = Ok (m, e) -> scan (raw ++ tl) = scan_loop (S (length tl)) tl e m.
Proof. intros H. eapply scan_loop_app; [exact H | lia]. Qed.

Lemma scan_append_frame raw m e v m' :
  scan raw = Ok (m, e) -> well_sized v -> marshal v = Ok (record_bytes v) ->
  Sequence (op v) = e -> apply m v = Ok m' ->
  scan (raw ++ frame v) = Ok (m', u64 (e + 1)).
Proof.
  intros Hs Hw Hm He Ha. rewrite (scan_app _ _ _ _ Hs). cbn [scan_loop].
  pose proof (next_frame_frame _ _ [] Hw Hm) as Hf. rewrite app_nil_r in Hf.
  rewrite Hf, (proj2 (Z.eqb_eq _ _)), Ha by done.
  destruct (length (frame v)) eqn:El; [|done].
  apply (f_equal Z.of_nat) in El. change (zlen (frame v) = 0) in El.
  unfold frame in El. autorewrite with len in El. pose proof (zlen_nonneg (record_bytes v)). lia.
Qed.

(** A strict, non-empty prefix of a frame after a well-formed log is an error. *)
Lemma scan_torn raw m e v k :
  scan raw = Ok (m, e) -> marshal v = Ok (record_bytes v) ->
  (0 < k < length (frame v))%nat -> exists msg, scan (raw ++ take k (frame v)) = Err msg.
Proof.
  intros Hs Hm Hk. rewrite (scan_app _ _ _ _ Hs). cbn [scan_loop].
  assert (Hlen : zlen (take k (frame v)) = Z.of_nat k) by (unfold zlen; rewrite length_take; lia).
  assert (Hf : zlen (frame v) = 4 + zlen (record_bytes v))
    by (unfold frame; autorewrite with len; lia).
  unfold zlen in Hf at 1. pose proof (marshal_size _ _ Hm) as Hsz.
  enough (exists msg, next_frame (take k (frame v)) = Err msg) as [msg ->] by eauto.
  unfold next_frame. rewrite bool_decide_false by (intros E; rewrite E, zlen_nil in Hlen; lia).
  rewrite Hlen. destruct (4 <=? Z.of_nat k) eqn:E4; [|eauto]. breflect.
  assert (Hd : be_decode (take 4 (take k (frame v))) = zlen (record_bytes v)).
  { rewrite take_take, Nat.min_l by lia. unfold frame.
    rewrite take_app_length' by (by rewrite length_be_encode).
    apply be_decode_encode_small. simpl. lia. }
  rewrite Hd. destruct (_ && _); [|eauto].
  rewrite (proj2 (Z.leb_gt _ _)) by lia. eauto.
Qed.

(** ** Invariant *)

(** The entries carry their own identifier, are writable records, and have distinct
    sequence numbers below the next one. *)
Record entries_wf (m : gmap string record) (e : Z) : Prop := {
  wf_entry : forall id r, m !! id = Some r ->
    ID (op r) = id /\ 1 <= Sequence (op r) < e /\ in_u64 (Generation (op r)) /\
    Generation (op r) <> 0 /\ validText (ID (op r)) 256 = true /\
    validText (Target (op r)) 512 = true /\ known_state (State r) = true;
  wf_seq : forall i j r s, m !! i = Some r -> m !! j = Some s ->
    Sequence (op r) = Sequence (op s) -> i = j
}.

Lemma entries_wf_empty e : entries_wf ∅ e.
Proof. split; intros *; by rewrite lookup_empty. Qed.

Lemma apply_inv m v m' : apply m v = Ok m' -> m' = <[ID (op v) := v]> m.
Proof. unfold apply. intros H. case_in H; by injection H as <-. Qed.

Lemma entries_wf_insert m e v :
  entries_wf m e -> 1 <= e -> Sequence (op v) = e ->
  well_sized v -> marshal v = Ok (record_bytes v) ->
  entries_wf (<[ID (op v) := v]> m) (e + 1).
Proof.
  intros [He Hq] He1 Hs [_ Hg] Hm. apply marshal_inv in Hm as (_ & _ & Hg0 & Hi & Ht & Hk).
  split.
  - intros id r [[<- <-] | [Hne Hl]]%lookup_insert_Some.
    + repeat split; auto; unfold in_u64 in *; lia.
    + destruct (He _ _ Hl) as (? & ? & ? & ? & ? & ? & ?). repeat split; auto; unfold in_u64 in *; lia.
  - intros i j r s Hr Hs' Heq.
    apply lookup_insert_Some in Hr as [[<- <-] | [? Hr]];
      apply lookup_insert_Some in Hs' as [[<- <-] | [? Hs']]; [done | | | by eapply Hq].
    + destruct (He _ _ Hs') as (_ & ? & _). lia.
    + destruct (He _ _ Hr) as (_ & ? & _). lia.
Qed.

Lemma scan_loop_wf f raw e m m' e' :
  scan_loop f raw e m = Ok (m', e') -> entries_wf m e -> 1 <= e -> e + zlen raw < 2 ^ 64 ->
  entries_wf m' e' /\ e <= e' <= e + zlen raw.
Proof.
  revert raw e m. induction f as [|f IH]; intros raw e m; cbn [scan_loop]; [done|].
  intros H Hwf He Hb. destruct (next_frame raw) as [[[v rest]|]|] eqn:Hn; [| |done].
  - pose proof (next_frame_shorter _ _ _ Hn) as Hs.
    apply next_frame_inv in Hn as (-> & Hw & Hm).
    destruct (Sequence (op v) =? e) eqn:Hse; [|done]. breflect.
    destruct (apply m v) as [m1|] eqn:Ha; [|done]. apply apply_inv in Ha as ->.
    pose proof (zlen_nonneg rest).
    rewrite u64_small in H by (split; lia).
    apply IH in H as [? ?]; [split; [done|lia] | by apply entries_wf_insert | lia..].
  - injection H as <- <-. split; [done|]. pose proof (zlen_nonneg raw). lia.
Qed.

(** [file] holds exactly what memory claims. *)
Record journal_inv (j : Journal) : Prop := {
  inv_scan : scan (file j) = Ok (entries j, next j);
  inv_size : zlen (file j) <= maxJournalBytes
}.

Lemma journal_inv_wf j :
  journal_inv j -> entries_wf (entries j) (next j) /\ 1 <= next j <= 1 + maxJournalBytes.
Proof.
  intros [Hs Hz]. unfold maxJournalBytes in *. pose proof (zlen_nonneg (file j)).
  apply scan_loop_wf in Hs as [? ?]; [split; [done|lia] | apply entries_wf_empty | lia..].
Qed.

(** ** Operations preserve the invariant *)

(** An append that either succeeds or fails before its first write. *)
Definition clean (fault : append_fault) : bool :=
  match fault with AppendOk | FailStat => true | _ => false end.

Lemma append_memory j v fault :
  entries (append j v fault).1 = entries j /\ next (append j v fault).1 = next j /\
  is_open (append j v fault).1 = is_open j /\ readOnly (append j v fault).1 = readOnly j.
Proof. unfold append. case_goal; done. Qed.

Lemma append_ok j v fault j' :
  append j v fault = (j', Ok tt) ->
  j' = set_file j (file j ++ frame v) /\ marshal v = Ok (record_bytes v) /\
  zlen (file j) + zlen (frame v) <= maxJournalBytes.
Proof.
  unfold append. intros H. case_in H; try (injection H as ? ?; discriminate).
  all: match goal with Hm : marshal _ = Ok _ |- _ => pose proof (marshal_inv _ _ Hm) as (-> & _) end.
  all: unfold append_frame in *; simplify_eq; breflect.
  all: unfold frame; autorewrite with len in *; repeat split; auto; lia.
Qed.

Lemma append_clean_err j v fault j' e :
  append j v fault = (j', Err e) -> clean fault = true -> j' = j.
Proof. unfold append. intros H Hc. destruct fault; try discriminate; case_in H; by simplify_eq. Qed.

Lemma inv_after_append j v j' id :
  journal_inv j -> append j v AppendOk = (j', Ok tt) -> well_sized v -> ID (op v) = id ->
  Sequence (op v) = next j -> apply (entries j) v = Ok (<[id := v]> (entries j)) ->
  journal_inv (record_entry j' id v).
Proof.
  intros [Hs Hz] (-> & Hm & Hsz)%append_ok Hw <- Hseq Ha. split; simpl.
  - by eapply scan_append_frame.
  - autorewrite with len. lia.
Qed.

Lemma append_ok_fault j v fault j' : append j v fault = (j', Ok tt) -> fault = AppendOk.
Proof.
  unfold append. intros H. case_in H; unfold append_frame in *; by simplify_eq.
Qed.

Lemma prepare_inv j id target gen fault :
  journal_inv j -> clean fault = true -> in_u64 gen ->
  journal_inv (Prepare j id target gen fault).1.
Proof.
  intros Hinv Hc Hg. unfold Prepare. destruct (negb _) eqn:Hv; [done|]. breflect.
  destruct (entries j !! id) eqn:Hl; [done|].
  destruct (append j _ fault) as [j' [[]|e]] eqn:Ha.
  - pose proof (append_ok_fault _ _ _ _ Ha) as ->.
    destruct (journal_inv_wf _ Hinv) as [_ Hn]. unfold maxJournalBytes in Hn.
    eapply inv_after_append; eauto; try done.
    + split; simpl; [split; lia | done].
    + unfold apply. simpl. by rewrite Hl.
  - by apply append_clean_err in Ha as ->.
Qed.

Lemma finish_inv j id state fault :
  journal_inv j -> clean fault = true -> state = Committed \/ state = Compensated ->
  journal_inv (finish j id state fault).1.
Proof.
  intros Hinv Hc Hst. unfold finish. destruct (negb (validText id 256)) eqn:Hv; [done|].
  destruct (entries j !! id) as [cur|] eqn:Hl; [|done].
  destruct (negb (State cur =? Prepared)) eqn:Hp; [done|]. breflect.
  destruct (append j _ fault) as [j' [[]|e]] eqn:Ha.
  - pose proof (append_ok_fault _ _ _ _ Ha) as ->.
    destruct (journal_inv_wf _ Hinv) as [[Hwf _] Hn]. unfold maxJournalBytes in Hn.
    destruct (Hwf _ _ Hl) as (Hid & _ & Hgen & _).
    eapply inv_after_append; eauto; try done.
    + split; simpl; [split; lia | done].
    + unfold apply. simpl. rewrite Hid, Hl, Hp, !Z.eqb_refl, bool_decide_true by done.
      by destruct Hst as [-> | ->].
  - by apply append_clean_err in Ha as ->.
Qed.

(** ** Runs *)

Inductive call :=
| CallPrepare (id target : string) (generation : Z) (fault : append_fault)
| CallCommit (id : string) (fault : append_fault)
| CallCompensate (id : string) (fault : append_fault)
| CallClose.

Definition run_call (j : Journal) (c : call) : Journal :=
  match c with
  | CallPrepare id target gen fault => (Prepare j id target gen fault).1
  | CallCommit id fault => (Commit j id fault).1
  | CallCompensate id fault => (Compensate j id fault).1
  | CallClose => Close j
  end.

(** The generation is a uint64 and no append fails after it has begun to write. *)
Definition clean_call (c : call) : Prop :=
  match c with
  | CallPrepare _ _ gen fault => in_u64 gen /\ clean fault = true
  | CallCommit _ fault | CallCompensate _ fault => clean fault = true
  | CallClose => True
  end.

Lemma run_call_inv j c : journal_inv j -> clean_call c -> journal_inv (run_call j c).
Proof.
  intros Hj Hc. destruct c; simpl in *.
  - destruct Hc. by apply prepare_inv.
  - apply finish_inv; auto.
  - apply finish_inv; auto.
  - destruct Hj. by split.
Qed.

Lemma run_inv j cs : journal_inv j -> Forall clean_call cs -> journal_inv (foldl run_call j cs).
Proof.
  intros Hj Hcs. revert j Hj. induction Hcs as [|c cs Hc _ IH]; intros j Hj; [done|].
  simpl. by apply IH, run_call_inv.
Qed.

Lemma open_inv path st content a b c j :
  Open path st content a b c = Ok j -> journal_inv j.
Proof.
  unfold Open. intros H. destruct (negb (bool_decide (path = ""%string))); [|done].
  destruct st as [| |reg perm]; cbv beta iota in H; [|done|].
  - case_in H; injection H as <-; split; [done | by vm_compute].
  - case_in H; injection H as <-; breflect; split; simpl; auto.
Qed.

(** ** What the journal guarantees *)

(** C11: crash recovery. Take any journal that [Open] returned and any sequence of Prepare,
    Commit, Compensate and Close calls on it in which no append fails midway. Opening the file
    they leave behind succeeds and recovers exactly the entries and the next sequence
    number that were held in memory. *)
Theorem journal_recovers path st content a b c j cs :
  Open path st content a b c = Ok j -> Forall clean_call cs ->
  let j' := foldl run_call j cs in
  Open path (Info true 384) (file j') true true true
  = Ok (mkJournal (file j') true false (next j') (entries j')).
Proof.
  intros Ho Hcs. pose proof (run_inv _ _ (open_inv _ _ _ _ _ _ _ Ho) Hcs) as [Hs Hz].
  cbv zeta. unfold Open in *. destruct (negb (bool_decide (path = ""%string))); [|done].
  change (true && owner_only 384) with true. cbv iota.
  rewrite (proj2 (Z.leb_le _ _)) by done. cbn [negb orb]. by rewrite Hs.
Qed.

Lemma journal_recovers_witness :
  let cs := [CallPrepare "op-1" "workload/a" 7 AppendOk; CallPrepare "op-2" "workload/b" 1 FailStat;
             CallPrepare "op-3" "workload/c" 2 AppendOk; CallCommit "op-1" AppendOk] in
  let j' := foldl run_call (mkJournal [] true false 1 ∅) cs in
  next j' = 4 /\
  Open "journal" (Info true 384) (file j') true true true
  = Ok (mkJournal (file j') true false (next j') (entries j')).
Proof.
  split; [vm_compute; reflexivity|].
  refine (journal_recovers "journal" NotExist [] true true true _ _ _ _).
  - vm_compute. reflexivity.
  - repeat constructor; vm_compute; congruence.
Defined.

(** The record codec is canonical. A frame payload decodes to a record exactly when it
    is the encoding of that record: nothing else is accepted, and nothing written is
    misread. *)
Theorem journal_codec_canonical raw v :
  well_sized v -> unmarshal raw = Ok v <-> marshal v = Ok raw.
Proof. intros Hw. split; [by intros [? _]%unmarshal_inv | by apply unmarshal_marshal]. Qed.

Lemma journal_codec_canonical_witness :
  let v := mkRecord Prepared (mkOperation 1 "op" "t" 9) in
  well_sized v /\ (unmarshal (record_bytes v) = Ok v <-> marshal v = Ok (record_bytes v)).
Proof.
  split; [by repeat split; vm_compute|].
  apply journal_codec_canonical. by repeat split; vm_compute.
Defined.

(** One entry of the journal before and after a call. *)
Definition entry_step (before after : option record) : Prop :=
  after = before \/
  (before = None /\ exists r, after = Some r /\ State r = Prepared) \/
  (exists r r', before = Some r /\ after = Some r' /\ State r = Prepared /\
     (State r' = Committed \/ State r' = Compensated) /\
     ID (op r') = ID (op r) /\ Target (op r') = Target (op r) /\
     Generation (op r') = Generation (op r)).

Lemma entry_step_insert (m : gmap string record) id r k :
  entry_step (m !! id) (Some r) -> entry_step (m !! k) (<[id := r]> m !! k).
Proof.
  intros H. destruct (decide (id = k)) as [<-|Hne].
  - by rewrite lookup_insert_eq.
  - rewrite lookup_insert_ne by done. by left.
Qed.

Lemma finish_entry j id state fault k :
  state = Committed \/ state = Compensated ->
  entry_step (entries j !! k) (entries (finish j id state fault).1 !! k).
Proof.
  intros Hst. unfold finish. destruct (negb (validText id 256)); [by left|].
  destruct (entries j !! id) as [cur|] eqn:Hl; [|by left].
  destruct (negb (State cur =? Prepared)) eqn:Hp; [by left|]. breflect.
  match goal with |- context [append j ?v fault] => pose proof (append_memory j v fault) as Hm;
    destruct (append j v fault) as [j' [[]|e]]; simpl in Hm; destruct Hm as (He & _) end.
  - simpl. rewrite He. apply entry_step_insert. rewrite Hl. right. right.
    eexists _, _. split; [done|]. split; [done|]. simpl. auto.
  - simpl. rewrite He. by left.
Qed.

(** Lifecycle of an operation. Whatever call is made and whatever its append does, an
    entry is left as it was, is created prepared, or moves from prepared to committed or
    compensated under the same identifier, target and generation. A terminal operation never
    changes again and no entry is ever removed. *)
Theorem journal_entry_lifecycle j c k :
  entry_step (entries j !! k) (entries (run_call j c) !! k).
Proof.
  destruct c as [id target gen fault|id fault|id fault|]; simpl.
  - unfold Prepare. destruct (negb _); [by left|].
    destruct (entries j !! id) eqn:Hl; [by left|].
    match goal with |- context [append j ?v fault] => pose proof (append_memory j v fault) as Hm;
      destruct (append j v fault) as [j' [[]|e]]; simpl in Hm; destruct Hm as (He & _) end.
    + simpl. rewrite He. apply entry_step_insert. rewrite Hl. right. left. eauto.
    + simpl. rewrite He. by left.
  - apply finish_entry. by left.
  - apply finish_entry. by right.
  - by left.
Qed.

(** What a failing append can leave in the file: nothing, a strict prefix of the frame, or
    the whole frame. *)
Lemma append_err_file j v fault j' e :
  append j v fault = (j', Err e) ->
  file j' = file j \/
  (marshal v = Ok (record_bytes v) /\
   (file j' = file j ++ frame v \/
    exists k, (0 < k < length (frame v))%nat /\ file j' = file j ++ take k (frame v))).
Proof.
  unfold append. intros H. case_in H; try (injection H as <- _; by left).
  all: match goal with Hm : marshal _ = Ok _ |- _ =>
         pose proof (marshal_size _ _ Hm); pose proof (marshal_inv _ _ Hm) as (-> & _) end.
  all: unfold append_frame in *; simplify_eq; cbn [file set_file].
  - destruct (decide (written = 0%nat)) as [->|Hw]; [left; by rewrite app_nil_r|].
    right. split; [done|]. right. exists (Nat.min written 4).
    assert (take (Nat.min written 4) (frame v) = take written (be_encode 4 (zlen (record_bytes v)))) as ->.
    { unfold frame. rewrite take_app_le by (rewrite length_be_encode; lia).
      rewrite <- take_take. by rewrite (take_ge _ 4) by (by rewrite length_be_encode). }
    split; [|done]. unfold frame. rewrite length_app, length_be_encode.
    unfold zlen in *. lia.
  - right. split; [done|]. set (p := record_bytes v) in *.
    destruct (decide (length p <= written)%nat) as [Hge|Hlt].
    + left. unfold frame. fold p. by rewrite take_ge by done.
    + right. exists (4 + written)%nat. unfold frame. fold p.
      rewrite length_app, length_be_encode. split; [lia|].
      rewrite take_app_ge by (rewrite length_be_encode; lia).
      by rewrite length_be_encode, Nat.add_comm, Nat.add_sub.
  - right. split; [done|]. by left.
Qed.

Lemma prepare_append j id target gen fault j' r :
  Prepare j id target gen fault = (j', r) ->
  (j' = j /\ exists e, r = Err e) \/
  (entries j !! id = None /\ let v := mkRecord Prepared (mkOperation (next j) id target gen) in
   exists j1 res, append j v fault = (j1, res) /\
     ((exists e, res = Err e /\ r = Err e /\ j' = j1) \/
      (res = Ok tt /\ r = Ok (op v) /\ j' = record_entry j1 id v))).
Proof.
  unfold Prepare. intros H. destruct (negb _); [simplify_eq; eauto|].
  destruct (entries j !! id) eqn:Hl; [simplify_eq; eauto|]. right. split; [done|]. cbv zeta.
  destruct (append j _ fault) as [j1 [[]|e]] eqn:Ha; simplify_eq; eexists _, _; split; eauto.
Qed.

(** A failed Prepare fails closed. Memory is unchanged, and the file is untouched, or
    reopening it is refused, or it holds the complete prepared record; a torn record is never
    taken for a shorter valid log. *)
Theorem failed_prepare_fails_closed j id target gen fault j' e :
  journal_inv j -> in_u64 gen -> Prepare j id target gen fault = (j', Err e) ->
  entries j' = entries j /\ next j' = next j /\
  (file j' = file j \/ (exists msg, scan (file j') = Err msg) \/
   scan (file j') = Ok (<[id := mkRecord Prepared (mkOperation (next j) id target gen)]> (entries j),
                        u64 (next j + 1))).
Proof.
  intros Hinv Hg [[-> _] | (Hl & j1 & res & Ha & Hcase)]%prepare_append; [auto|].
  destruct Hcase as [(e' & -> & _ & ->) | (_ & ? & _)]; [|done].
  pose proof (append_memory j (mkRecord Prepared (mkOperation (next j) id target gen)) fault) as Hm.
  rewrite Ha in Hm. cbn [fst] in Hm. destruct Hm as (-> & -> & _). do 2 (split; [done|]).
  destruct (append_err_file _ _ _ _ _ Ha) as [? | [Hm [-> | (k & Hk & ->)]]]; [auto | |].
  - right. right. destruct (journal_inv_wf _ Hinv) as [_ Hn]. unfold maxJournalBytes in Hn.
    eapply scan_append_frame; [apply Hinv | | done | done |].
    + split; simpl; [split; lia | done].
    + unfold apply. simpl. by rewrite Hl.
  - right. left. by eapply scan_torn; [apply Hinv|..].
Qed.

Lemma failed_prepare_fails_closed_witness :
  exists j' e, Prepare (mkJournal [] true false 1 ∅) "op" "t" 1 (FailPayload 9) = (j', Err e) /\
  entries j' = ∅ /\ next j' = 1 /\
  (file j' = [] \/ (exists msg, scan (file j') = Err msg) \/
   scan (file j') = Ok (<["op" := mkRecord Prepared (mkOperation 1 "op" "t" 1)]> ∅, u64 2)).
Proof.
  eexists _, _. split; [reflexivity|].
  apply (failed_prepare_fails_closed (mkJournal [] true false 1 ∅) "op" "t" 1 (FailPayload 9) _
           "i/o error"); [split; vm_compute; congruence | by vm_compute | reflexivity].
Defined.

(** C38: a sync failure that follows a complete write is not contained. If Prepare reports a
    failed sync after the frame reached the file and a later Prepare then succeeds, both
    records carry the same sequence number, and every later [Open] of the file is refused. *)
Theorem failed_sync_then_prepare_unrecoverable j id1 t1 g1 j1 e id2 t2 g2 j2 o :
  journal_inv j -> in_u64 g1 -> in_u64 g2 ->
  Prepare j id1 t1 g1 FailSync = (j1, Err e) -> file j1 <> file j ->
  Prepare j1 id2 t2 g2 AppendOk = (j2, Ok o) ->
  scan (file j2) = Err "journal sequence is not contiguous".
Proof.
  intros Hinv Hg1 Hg2 H1 Hne H2.
  destruct (prepare_append _ _ _ _ _ _ _ H1) as [[-> _] | (Hl & ja & ra & Ha & Hcase)]; [done|].
  destruct Hcase as [(e' & -> & _ & ->) | (_ & ? & _)]; [|done].
  destruct (journal_inv_wf _ Hinv) as [_ Hn]. unfold maxJournalBytes in Hn.
  pose proof (append_memory j (mkRecord Prepared (mkOperation (next j) id1 t1 g1)) FailSync) as Hmem.
  rewrite Ha in Hmem. cbn [fst] in Hmem. destruct Hmem as (_ & Hnext & _).
  assert (Hfull : scan (file ja) = Ok (<[id1 := mkRecord Prepared (mkOperation (next j) id1 t1 g1)]>
                    (entries j), u64 (next j + 1))).
  { destruct (append_err_file _ _ _ _ _ Ha) as [? | [Hm _]]; [done|].
    assert (file ja = file j ++ frame (mkRecord Prepared (mkOperation (next j) id1 t1 g1))) as ->.
    { revert Ha Hne. unfold append. rewrite Hm. unfold append_frame, frame.
      intros Ha Hne. case_in Ha; by simplify_eq. }
    eapply scan_append_frame; [apply Hinv | | done | done |].
    - split; simpl; [split; lia | done].
    - unfold apply. simpl. by rewrite Hl. }
  apply prepare_append in H2 as [[_ [? ?]] | (_ & jb & rb & Hb & Hcase)]; [done|].
  destruct Hcase as [(? & _ & ? & _) | (-> & _ & ->)]; [done|].
  apply append_ok in Hb as (-> & Hm2 & _). simpl.
  rewrite (scan_app _ _ _ _ Hfull). cbn [scan_loop].
  assert (Hw2 : well_sized (mkRecord Prepared (mkOperation (next ja) id2 t2 g2)))
    by (rewrite Hnext; split; simpl; [split; lia | done]).
  pose proof (next_frame_frame _ _ [] Hw2 Hm2) as Hf. rewrite app_nil_r in Hf. rewrite Hf.
  simpl. rewrite Hnext, u64_small by (split; lia).
  by rewrite (proj2 (Z.eqb_neq _ _)) by lia.
Qed.

Lemma failed_sync_then_prepare_unrecoverable_witness :
  exists j1 j2 o, Prepare (mkJournal [] true false 1 ∅) "a" "t" 1 FailSync = (j1, Err "i/o error") /\
  Prepare j1 "b" "t" 1 AppendOk = (j2, Ok o) /\
  scan (file j2) = Err "journal sequence is not contiguous".
Proof.
  eexists _, _, _. split; [reflexivity|]. split; [reflexivity|].
  eapply (failed_sync_then_prepare_unrecoverable (mkJournal [] true false 1 ∅) "a" "t" 1 _ "i/o error"
            "b" "t" 1);
    [split; vm_compute; congruence | by vm_compute | by vm_compute | reflexivity
    | by vm_compute | reflexivity].
Defined.

(** ** Pending operations *)

#[global] Instance seq_le_trans : Transitive seq_le.
Proof. intros a b c. unfold seq_le. lia. Qed.
#[global] Instance seq_le_total : Total seq_le.
Proof. intros a b. unfold seq_le. lia. Qed.

Lemma pending_elem j o :
  o ∈ Pending j <-> exists id r, entries j !! id = Some r /\ State r = Prepared /\ op r = o.
Proof.
  unfold Pending. rewrite merge_sort_Permutation, list_elem_of_fmap. split.
  - intros (r & -> & [Hp Hr]%list_elem_of_filter).
    apply list_elem_of_fmap in Hr as ([id r'] & -> & Hr%elem_of_map_to_list). eauto.
  - intros (id & r & Hl & Hp & <-). exists r. split; [done|]. apply list_elem_of_filter.
    split; [done|]. apply list_elem_of_fmap. exists (id, r). by rewrite elem_of_map_to_list.
Qed.

Lemma pending_distinct j : journal_inv j -> NoDup (Sequence <$> Pending j).
Proof.
  intros Hinv. destruct (journal_inv_wf _ Hinv) as [[_ Hq] _].
  unfold Pending. rewrite merge_sort_Permutation.
  assert (Hkv : forall id r, (id, r) ∈ map_to_list (entries j) -> entries j !! id = Some r)
    by (intros *; by rewrite elem_of_map_to_list).
  pose proof (NoDup_fst_map_to_list (entries j)) as Hnd.
  induction (map_to_list (entries j)) as [|[id r] l IH]; [by constructor|].
  rewrite fmap_cons in Hnd. apply NoDup_cons in Hnd as [Hni Hnd].
  assert (Hkl : forall id r, (id, r) ∈ l -> entries j !! id = Some r)
    by (intros; apply Hkv; by right).
  specialize (IH Hkl Hnd). rewrite fmap_cons, filter_cons. cbn [snd]. case_decide; [|done].
  rewrite !fmap_cons. apply NoDup_cons. split; [|done].
  intros (o & Ho & (r2 & -> & [_ Hin]%list_elem_of_filter)%list_elem_of_fmap)%list_elem_of_fmap.
  apply list_elem_of_fmap in Hin as ([id2 r2'] & -> & Hin). simpl in Ho.
  assert (id = id2) as -> by (eapply Hq; [apply Hkv; by left | by apply Hkl | done]).
  apply Hni. apply list_elem_of_fmap. by exists (id2, r2').
Qed.

(** Pending reports precisely the operations still prepared, each once, in strictly
    increasing order of sequence number. *)
Theorem pending_spec j :
  journal_inv j ->
  StronglySorted (fun a b => Sequence a < Sequence b) (Pending j) /\
  forall o, o ∈ Pending j <->
    exists r, entries j !! ID o = Some r /\ State r = Prepared /\ op r = o.
Proof.
  intros Hinv. split.
  - apply (StronglySorted_strict Sequence); [|by apply pending_distinct].
    apply (StronglySorted_merge_sort seq_le).
  - intros o. rewrite pending_elem. destruct (journal_inv_wf _ Hinv) as [[Hwf _] _]. split.
    + intros (id & r & Hl & Hp & <-). destruct (Hwf _ _ Hl) as [-> _]. eauto.
    + intros (r & Hl & Hp & Ho). eauto.
Qed.

Lemma pending_spec_witness :
  let j := foldl run_call (mkJournal [] true false 1 ∅)
             [CallPrepare "b" "t" 1 AppendOk; CallPrepare "a" "t" 1 AppendOk;
              CallPrepare "c" "t" 1 AppendOk; CallCommit "a" AppendOk] in
  (ID <$> Pending j) = ["b"; "c"]%string /\
  StronglySorted (fun a b => Sequence a < Sequence b) (Pending j).
Proof.
  split; [vm_compute; reflexivity|].
  apply pending_spec. split; vm_compute; congruence.
Defined.

End Journal.
