(* ===== verification/FenceStore.v ===== *)
(** * The admission fence store (internal/admission/store.go)

    The durable high-water marks of signed admission: one record per tenant-scoped instance, the
    site policy epoch and the node-local maintenance cordon, kept in one snapshot that is
    replaced atomically. The model keeps the memory of the store next to the bytes its path
    names, and every operation takes the system call that fails, if any. *)

From Stdlib Require Import Ascii.
From S2P Require Import Prelude GoText GoTime GoFS.

Module FenceStore.

Definition legacyFenceVersion : Z := 1.
Definition routeFenceVersion : Z := 2.
Definition maintenanceFenceVersion : Z := 3.
Definition leaseFenceVersion : Z := 4.
Definition fenceVersion : Z := leaseFenceVersion.
Definition maxFenceBytes : Z := 4 * 2 ^ 20.

Definition MaxWorkloadLeaseDuration : Z := 5 * minute.
Definition CommandClockSkew : Z := 2 * minute.
(** [len(time.RFC3339Nano)+10]. *)
Definition maxTimestamp : Z := 35 + 10.

Record FenceRecord := mkFenceRecord {
  TenantID : string;
  InstanceID : string;
  Generation : Z;
  CapsuleDigest : string;
  PolicyDigest : string;
  LineageID : string;
  WorkloadDigest : string;
  ImageConfigDigest : string;
  RoutePolicyDigest : string;
  LeaseExpiresAt : string;
  Present : bool
}.

#[global] Instance FenceRecord_eq_dec : EqDecision FenceRecord.
Proof. solve_decision. Defined.

Record MaintenanceState := mkMaintenance {
  Enabled : bool;
  EnteredAt : string;
  Reason : string
}.

#[global] Instance MaintenanceState_eq_dec : EqDecision MaintenanceState.
Proof. solve_decision. Defined.

(** What the process holds in memory. *)
Record FenceStore := mkStore {
  formatVersion : Z;
  policyEpoch : Z;
  maintenance : MaintenanceState;
  byInstance : gmap string FenceRecord
}.

(** The store with the bytes its path names. *)
Record Node := mkNode { mem : FenceStore; disk : option bytes }.

Definition no_maintenance : MaintenanceState := mkMaintenance false "" "".

(** ** Validation of the coordinates *)

Definition nul : string := String (byte_of_Z 0) EmptyString.
Definition fenceKey (tenantID instanceID : string) : string := tenantID +:+ nul +:+ instanceID.
Definition key_of (r : FenceRecord) : string := fenceKey (TenantID r) (InstanceID r).

Definition bounded (value : string) (limit : Z) : bool :=
  negb (bool_decide (trim_space value = ""%string)) && (slen value <=? limit)
  && negb (contains_byte value 0).

Definition digest (value : string) : bool := sha256_digest value.

Definition ValidMaintenanceReason (value : string) : bool :=
  negb (slen value =? 0) && (slen value <=? 256) && bool_decide (trim_space value = value)
  && utf8_valid value && all_bytes (fun c => negb ((c <? 32) || (c =? 127))) value.

(** A canonical timestamp other than Go's zero instant. *)
Definition lease_time (s : string) : option Z :=
  match canonical_time s with
  | Some t => if is_zero t then None else Some t
  | None => None
  end.

(** ** The snapshot codec *)

Definition appendFenceText (raw : bytes) (value : string) : bytes := append_text raw value.

Definition takeFenceText (raw : bytes) (limit : Z) : option (string * bytes) :=
  match split_text (fun length => negb (length =? 0) && (length <=? limit)) raw with
  | Some (value, rest) => if contains_byte value 0 then None else Some (value, rest)
  | None => None
  end.

Definition takeOptionalFenceDigest (raw : bytes) : option (string * bytes) :=
  if zlen raw <? 2 then None else
  if be_decode (take 2 raw) =? 0 then Some (EmptyString, drop 2 raw) else
  match split_text (fun length => length <=? 128) raw with
  | Some (value, rest) => if digest value then Some (value, rest) else None
  | None => None
  end.

Definition takeOptionalFenceTimestamp (raw : bytes) : option (string * bytes) :=
  if zlen raw <? 2 then None else
  if be_decode (take 2 raw) =? 0 then Some (EmptyString, drop 2 raw) else
  match split_text (fun length => length <=? maxTimestamp) raw with
  | Some (value, rest) =>
      match lease_time value with Some _ => Some (value, rest) | None => None end
  | None => None
  end.

(** Records are written in increasing (tenant, instance) order. *)
Definition record_le (a b : FenceRecord) : Prop :=
  if bool_decide (TenantID a = TenantID b) then String.le (InstanceID a) (InstanceID b)
  else String.le (TenantID a) (TenantID b).
#[global] Instance record_le_dec : RelDecision record_le.
Proof. intros a b. unfold record_le. case_bool_decide; apply _. Defined.

Definition encode_record (r : FenceRecord) : bytes :=
  append_text [] (TenantID r) ++ append_text [] (InstanceID r)
  ++ be_encode 8 (Generation r)
  ++ append_text [] (CapsuleDigest r) ++ append_text [] (PolicyDigest r)
  ++ append_text [] (LineageID r) ++ append_text [] (WorkloadDigest r)
  ++ append_text [] (ImageConfigDigest r) ++ append_text [] (RoutePolicyDigest r)
  ++ append_text [] (LeaseExpiresAt r)
  ++ [byte_of_Z (if Present r then 1 else 0)].

Definition encode_maintenance (m : MaintenanceState) : bytes :=
  if Enabled m
  then byte_of_Z 1 :: append_text [] (EnteredAt m) ++ append_text [] (Reason m)
  else [byte_of_Z 0].

Definition encode (s : FenceStore) : result bytes :=
  let n := Z.of_nat (size (byInstance s)) in
  require n <=? 65535 else "too many fence records" in
  let records := merge_sort record_le (snd <$> map_to_list (byInstance s)) in
  let raw := bytes_of "STFN" ++ [byte_of_Z fenceVersion]
             ++ be_encode 8 (policyEpoch s) ++ be_encode 4 n
             ++ concat (encode_record <$> records) ++ encode_maintenance (maintenance s) in
  require zlen raw <=? maxFenceBytes else "fence store exceeds size limit" in
  Ok raw.

(** One iteration of the record loop of [decode]. *)
Definition decode_record (version : Z) (raw : bytes) : result (FenceRecord * bytes) :=
  let* (tenant, rest) := opt_ok (takeFenceText raw 128) "invalid fence tenant" in
  let* (instance, rest) := opt_ok (takeFenceText rest 256) "invalid fence instance" in
  require 8 <=? zlen rest else "invalid fence instance" in
  let generation := be_decode (take 8 rest) in
  let* (capsule, rest) := opt_ok (takeFenceText (drop 8 rest) 128) "invalid fence coordinates" in
  require negb (generation =? 0) && digest capsule else "invalid fence coordinates" in
  let* (policy, rest) := opt_ok (takeFenceText rest 128) "invalid fence policy" in
  require digest policy else "invalid fence policy" in
  let* (lineage, rest) := opt_ok (takeFenceText rest 256) "invalid fence lineage" in
  let* (workload, rest) := opt_ok (takeFenceText rest 128) "invalid fence workload digest" in
  require digest workload else "invalid fence workload digest" in
  let* (image, rest) := opt_ok (takeFenceText rest 128) "invalid fence image config digest" in
  require digest image else "invalid fence image config digest" in
  let* (route, rest) :=
    if routeFenceVersion <=? version
    then opt_ok (takeOptionalFenceDigest rest) "invalid fence route policy digest"
    else Ok (EmptyString, rest) in
  let* (lease, rest) :=
    if leaseFenceVersion <=? version
    then opt_ok (takeOptionalFenceTimestamp rest) "invalid workload lease expiry"
    else Ok (EmptyString, rest) in
  match rest with
  | b :: rest =>
      require u8 b <=? 1 else "invalid fence presence" in
      Ok (mkFenceRecord tenant instance generation capsule policy lineage workload image
            route lease (u8 b =? 1), rest)
  | [] => Err "invalid fence presence"
  end.

Fixpoint decode_records (count : nat) (version : Z) (raw : bytes) (m : gmap string FenceRecord)
  : result (gmap string FenceRecord * bytes) :=
  match count with
  | O => Ok (m, raw)
  | S count =>
      let* (r, rest) := decode_record version raw in
      match m !! key_of r with
      | Some _ => Err "duplicate fence record"
      | None => decode_records count version rest (<[key_of r := r]> m)
      end
  end.

Definition decode_maintenance (version : Z) (raw : bytes) : result (MaintenanceState * bytes) :=
  if version <? maintenanceFenceVersion then Ok (no_maintenance, raw) else
  match raw with
  | [] => Err "invalid fence maintenance state"
  | b :: raw =>
      require u8 b <=? 1 else "invalid fence maintenance state" in
      if u8 b =? 1 then
        let* (enteredAt, rest) :=
          opt_ok (takeFenceText raw maxTimestamp) "invalid fence maintenance time" in
        let* _ := opt_ok (lease_time enteredAt) "invalid fence maintenance time" in
        let* (reason, rest) := opt_ok (takeFenceText rest 256) "invalid fence maintenance reason" in
        require ValidMaintenanceReason reason else "invalid fence maintenance reason" in
        Ok (mkMaintenance true enteredAt reason, rest)
      else Ok (no_maintenance, raw)
  end.

Definition known_version (v : Z) : bool :=
  (v =? legacyFenceVersion) || (v =? routeFenceVersion)
  || (v =? maintenanceFenceVersion) || (v =? leaseFenceVersion).

(** [decode] into the empty store a constructor allocates. *)
Definition decode (raw : bytes) : result FenceStore :=
  require (17 <=? zlen raw) && bool_decide (take 4 raw = bytes_of "STFN")
          && known_version (be_decode (take 1 (drop 4 raw)))
    else "invalid fence store header" in
  let version := be_decode (take 1 (drop 4 raw)) in
  let epoch := be_decode (take 8 (drop 5 raw)) in
  let count := be_decode (take 4 (drop 13 raw)) in
  let* (m, rest) := decode_records (Z.to_nat count) version (drop 17 raw) ∅ in
  let* (maint, rest) := decode_maintenance version rest in
  require bool_decide (rest = []) else "trailing fence store bytes" in
  Ok (mkStore version epoch maint m).

(** ** Constructors and persistence *)

Definition OpenFenceStore (path : string) (st : lstat) (content : bytes) (readOk : bool)
  : result Node :=
  require negb (bool_decide (trim_space path = ""%string)) else "fence store path is required" in
  match st with
  | NotExist => Err "admission fence store is missing; initialize it explicitly"
  | StatError => Err "stat fence store"
  | Info regular perm =>
      require regular && owner_only perm && (zlen content <=? maxFenceBytes)
        else "fence store must be a bounded regular file with mode 0600 or stricter" in
      require readOk else "read fence store" in
      let* s := decode content in
      Ok (mkNode s (Some content))
  end.

Definition empty_store : FenceStore := mkStore 0 0 no_maintenance ∅.

(** [O_CREATE|O_EXCL]: the exclusive creation of the empty snapshot; [disk] is what the
    path names before the call, [mkdirOk] whether the directory can be made, and [failed] the
    number of bytes written when a later system call fails. *)
Definition InitializeFenceStore (path : string) (disk : option bytes) (mkdirOk : bool)
    (failed : option nat) : result unit * option bytes :=
  if bool_decide (trim_space path = ""%string) then (Err "fence store path is required", disk)
  else if negb mkdirOk then (Err "i/o error", disk)
  else match encode empty_store, disk with
  | Err e, _ => (Err e, disk)
  | Ok _, Some _ => (Err "file exists", disk)
  | Ok raw, None =>
      match failed with
      | None => (Ok tt, Some raw)
      | Some k => (Err "i/o error", Some (take k raw))
      end
  end.

Definition persist_steps : list fs_step :=
  [MkdirAll; CreateTemp; ChmodTemp; WriteTemp; SyncTemp; CloseTemp; Rename; OpenDir; SyncDir;
   CloseDir].

Definition set_version (s : FenceStore) (v : Z) : FenceStore :=
  mkStore v (policyEpoch s) (maintenance s) (byInstance s).

(** [persistLocked] of the store [s]: its outcome, the store with the written version on
    success, and the bytes the path names afterwards. *)
Definition persistLocked (s : FenceStore) (d : option bytes) (fault : option fs_step)
  : result FenceStore * option bytes :=
  match encode s with
  | Err e => (Err e, d)
  | Ok raw =>
      let '(res, d) := run_replace persist_steps fault raw d in
      match res with
      | Err e => (Err e, d)
      | Ok _ => (Ok (set_version s fenceVersion), d)
      end
  end.

(** ** Queries *)

Record PersistedFences := mkFences { fGeneration : Z; fPolicyEpoch : Z }.

Definition Fences (s : FenceStore) (tenantID instanceID : string) : PersistedFences :=
  mkFences (match byInstance s !! fenceKey tenantID instanceID with
            | Some r => Generation r | None => 0 end) (policyEpoch s).

Definition Matches (s : FenceStore) (record : FenceRecord) (epoch : Z) : bool :=
  match byInstance s !! key_of record with
  | Some current => (policyEpoch s =? epoch) && bool_decide (current = record)
  | None => false
  end.

Definition Record_ (s : FenceStore) (tenantID instanceID : string) : option FenceRecord :=
  byInstance s !! fenceKey tenantID instanceID.
Definition Records (s : FenceStore) : list FenceRecord := snd <$> map_to_list (byInstance s).
Definition FormatVersion (s : FenceStore) : Z := formatVersion s.
Definition Count (s : FenceStore) : Z := Z.of_nat (size (byInstance s)).
Definition Maintenance (s : FenceStore) : MaintenanceState := maintenance s.

(** ** Mutations

    On a persistence error the old memory is kept ([s.x = previous]), whatever reached the disk. *)

Definition set_record (s : FenceStore) (k : string) (r : FenceRecord) : FenceStore :=
  mkStore (formatVersion s) (policyEpoch s) (maintenance s) (<[k := r]> (byInstance s)).

Definition with_lease (r : FenceRecord) (lease : string) : FenceRecord :=
  mkFenceRecord (TenantID r) (InstanceID r) (Generation r) (CapsuleDigest r) (PolicyDigest r)
    (LineageID r) (WorkloadDigest r) (ImageConfigDigest r) (RoutePolicyDigest r) lease (Present r).

(** Installs [s'] if it can be persisted and keeps [mem n] otherwise. *)
Definition install (n : Node) (s' : FenceStore) (fault : option fs_step) : Node * result unit :=
  let '(res, d) := persistLocked s' (disk n) fault in
  match res with
  | Ok s'' => (mkNode s'' d, Ok tt)
  | Err e => (mkNode (mem n) d, Err e)
  end.

Definition RenewLease (n : Node) (tenantID instanceID : string) (generation : Z)
    (expiresAt : string) (now : Z) (fault : option fs_step) : Node * result unit :=
  if negb (bounded tenantID 128 && bounded instanceID 256 && negb (generation =? 0)
           && negb (is_zero now))
  then (n, Err "invalid workload lease identity") else
  match lease_time expiresAt with
  | None => (n, Err "invalid workload lease expiry")
  | Some expires =>
      if negb (now <? expires) || (now + (MaxWorkloadLeaseDuration + CommandClockSkew) <? expires)
      then (n, Err "invalid workload lease expiry") else
      let key := fenceKey tenantID instanceID in
      match byInstance (mem n) !! key with
      | None => (n, Err "workload lease does not match a present admission generation")
      | Some record =>
          if negb (Present record && (Generation record =? generation))
          then (n, Err "workload lease does not match a present admission generation") else
          let renew := install n (set_record (mem n) key (with_lease record expiresAt)) fault in
          if bool_decide (LeaseExpiresAt record = ""%string) then renew else
          match canonical_time (LeaseExpiresAt record) with
          | None => (n, Err "stored workload lease is invalid")
          | Some current =>
              if expires <? current then (n, Err "workload lease expiry rollback")
              else if expires =? current then (n, Ok tt)
              else renew
          end
      end
  end.

Definition set_maintenance (s : FenceStore) (m : MaintenanceState) : FenceStore :=
  mkStore (formatVersion s) (policyEpoch s) m (byInstance s).

Definition SetMaintenance (n : Node) (enabled : bool) (reason : string) (now : Z)
    (fault : option fs_step) : Node * result unit :=
  if enabled && negb (ValidMaintenanceReason reason && negb (is_zero now))
  then (n, Err "maintenance requires a bounded reason and observation time")
  else if negb enabled && negb (bool_decide (reason = ""%string))
  then (n, Err "maintenance exit does not accept a reason")
  else
    let m := maintenance (mem n) in
    if enabled && Enabled m then
      if bool_decide (Reason m = reason) then (n, Ok tt)
      else (n, Err "maintenance is already enabled with a different reason")
    else if negb enabled && negb (Enabled m) then (n, Ok tt)
    else
      install n
        (set_maintenance (mem n)
           (if enabled then mkMaintenance true (format_rfc3339nano now) reason else no_maintenance))
        fault.

(** The zero record a Go map lookup yields for a missing key. *)
Definition zero_record : FenceRecord :=
  mkFenceRecord "" "" 0 "" "" "" "" "" "" "" false.

Definition same_lineage (current record : FenceRecord) : bool :=
  bool_decide (CapsuleDigest current = CapsuleDigest record)
  && bool_decide (PolicyDigest current = PolicyDigest record)
  && bool_decide (LineageID current = LineageID record)
  && bool_decide (WorkloadDigest current = WorkloadDigest record)
  && bool_decide (ImageConfigDigest current = ImageConfigDigest record)
  && bool_decide (RoutePolicyDigest current = RoutePolicyDigest record).

Definition valid_coordinates (record : FenceRecord) (epoch : Z) : bool :=
  bounded (TenantID record) 128 && bounded (InstanceID record) 256
  && negb (Generation record =? 0) && digest (CapsuleDigest record) && digest (PolicyDigest record)
  && bounded (LineageID record) 256 && digest (WorkloadDigest record)
  && digest (ImageConfigDigest record)
  && (bool_decide (RoutePolicyDigest record = ""%string) || digest (RoutePolicyDigest record))
  && negb (epoch =? 0).

Definition valid_lease (record : FenceRecord) : bool :=
  bool_decide (LeaseExpiresAt record = ""%string)
  || match lease_time (LeaseExpiresAt record) with Some _ => true | None => false end.

Definition Commit (n : Node) (record : FenceRecord) (epoch : Z) (fault : option fs_step)
  : Node * result unit :=
  if negb (valid_coordinates record epoch) then (n, Err "invalid fence record") else
  if negb (valid_lease record) then (n, Err "invalid fence workload lease") else
  let s := mem n in
  if epoch <? policyEpoch s then (n, Err "policy epoch rollback") else
  let key := key_of record in
  let current := default zero_record (byInstance s !! key) in
  if Generation record <? Generation current then (n, Err "instance generation rollback") else
  if (Generation record =? Generation current) && negb (Generation current =? 0)
     && negb (same_lineage current record)
  then (n, Err "equal generation identifies a different signed lineage") else
  let record := if Generation record =? Generation current
                then with_lease record (LeaseExpiresAt current) else record in
  install n
    (mkStore (formatVersion s) epoch (maintenance s) (<[key := record]> (byInstance s))) fault.

(** ** Well-formedness *)

Definition text_ok (v : string) (limit : Z) : Prop :=
  v <> ""%string /\ slen v <= limit /\ contains_byte v 0 = false.

Record record_ok (r : FenceRecord) : Prop := {
  ok_tenant : text_ok (TenantID r) 128;
  ok_instance : text_ok (InstanceID r) 256;
  ok_generation : in_u64 (Generation r) /\ Generation r <> 0;
  ok_capsule : digest (CapsuleDigest r) = true;
  ok_policy : digest (PolicyDigest r) = true;
  ok_lineage : text_ok (LineageID r) 256;
  ok_workload : digest (WorkloadDigest r) = true;
  ok_image : digest (ImageConfigDigest r) = true;
  ok_route : RoutePolicyDigest r = ""%string \/ digest (RoutePolicyDigest r) = true;
  ok_lease : LeaseExpiresAt r = ""%string \/ is_Some (lease_time (LeaseExpiresAt r))
}.

Definition maintenance_ok (m : MaintenanceState) : Prop :=
  if Enabled m
  then is_Some (lease_time (EnteredAt m)) /\ ValidMaintenanceReason (Reason m) = true
  else m = no_maintenance.

(** The invariant of the store's memory. *)
Record store_ok (s : FenceStore) : Prop := {
  ok_epoch : in_u64 (policyEpoch s);
  ok_maintenance : maintenance_ok (maintenance s);
  ok_records : forall k r, byInstance s !! k = Some r -> k = key_of r /\ record_ok r
}.

Lemma bounded_text v limit : bounded v limit = true -> text_ok v limit.
Proof.
  unfold bounded. intros H. breflect. repeat split; auto.
  intros ->. by apply H.
Qed.

Lemma digest_text v : digest v = true -> text_ok v 128.
Proof.
  intros H. pose proof (sha256_digest_length _ H). split; [by intros ->|].
  split; [lia | by apply sha256_digest_nul].
Qed.

Lemma lease_time_text v : is_Some (lease_time v) -> text_ok v maxTimestamp.
Proof.
  unfold lease_time. intros [t H]. destruct (canonical_time v) as [t'|] eqn:Hc; [|done].
  apply canonical_time_shape in Hc as [? ?]. split; [intros E%slen_zero; lia|].
  split; [unfold maxTimestamp; lia | done].
Qed.

Lemma reason_text v : ValidMaintenanceReason v = true -> text_ok v 256.
Proof.
  unfold ValidMaintenanceReason. intros H. breflect.
  split; [by intros ?%slen_zero|]. split; [lia|]. by eapply all_bytes_contains.
Qed.

(** ** The decoder inverts the encoder *)

Lemma takeFenceText_append v limit rest :
  text_ok v limit -> limit < 65536 ->
  takeFenceText (append_text [] v ++ rest) limit = Some (v, rest).
Proof.
  intros (Hne & Hl & Hz) Hlim. unfold takeFenceText. rewrite split_text_append.
  - by rewrite Hz.
  - apply andb_true_iff. split; [|by apply Z.leb_le].
    apply negb_true_iff, Z.eqb_neq. intros E%slen_zero. done.
  - lia.
Qed.

Lemma empty_text_head rest :
  (zlen (append_text [] EmptyString ++ rest) <? 2) = false /\
  be_decode (take 2 (append_text [] EmptyString ++ rest)) = 0 /\
  drop 2 (append_text [] EmptyString ++ rest) = rest.
Proof.
  split; [|done]. apply Z.ltb_ge. autorewrite with len. pose proof (zlen_nonneg rest). unfold slen. simpl. lia.
Qed.

Lemma nonempty_text_head v rest :
  v <> ""%string -> slen v < 65536 ->
  (zlen (append_text [] v ++ rest) <? 2) = false /\
  (be_decode (take 2 (append_text [] v ++ rest)) =? 0) = false.
Proof.
  intros Hne Hl. pose proof (slen_nonneg v). pose proof (zlen_nonneg rest). split.
  - apply Z.ltb_ge. autorewrite with len. lia.
  - unfold append_text. rewrite app_nil_l, <- app_assoc.
    rewrite take_app_length' by (by rewrite length_be_encode).
    rewrite be_decode_encode_small by (simpl; lia).
    apply Z.eqb_neq. by intros ?%slen_zero.
Qed.

Lemma takeOptionalFenceDigest_append v rest :
  v = ""%string \/ digest v = true ->
  takeOptionalFenceDigest (append_text [] v ++ rest) = Some (v, rest).
Proof.
  unfold takeOptionalFenceDigest. intros [-> | Hd].
  - destruct (empty_text_head rest) as (-> & -> & ->). done.
  - destruct (digest_text _ Hd) as (Hne & Hl & _).
    destruct (nonempty_text_head v rest) as [-> ->]; [done | lia |].
    rewrite split_text_append by (try apply Z.leb_le; lia). by rewrite Hd.
Qed.

Lemma takeOptionalFenceTimestamp_append v rest :
  v = ""%string \/ is_Some (lease_time v) ->
  takeOptionalFenceTimestamp (append_text [] v ++ rest) = Some (v, rest).
Proof.
  unfold takeOptionalFenceTimestamp. intros [-> | Hd].
  - destruct (empty_text_head rest) as (-> & -> & ->). done.
  - destruct (lease_time_text _ Hd) as (Hne & Hl & _). unfold maxTimestamp in Hl.
    destruct (nonempty_text_head v rest) as [-> ->]; [done | lia |].
    rewrite split_text_append by (try apply Z.leb_le; unfold maxTimestamp; lia).
    by destruct Hd as [t ->].
Qed.

Lemma decode_encode_record r rest :
  record_ok r -> decode_record fenceVersion (encode_record r ++ rest) = Ok (r, rest).
Proof.
  intros [Ht Hi [Hg Hg0] Hc Hp Hln Hw Him Hr Hls].
  unfold decode_record, encode_record. rewrite <- !app_assoc.
  rewrite (takeFenceText_append _ 128) by (done || lia). cbn [opt_ok].
  rewrite (takeFenceText_append _ 256) by (done || lia). cbn [opt_ok].
  rewrite (proj2 (Z.leb_le 8 _)) by (autorewrite with len; repeat match goal with
    |- context [zlen ?l] => pose proof (zlen_nonneg l); generalize dependent (zlen l); intros end;
    repeat match goal with |- context [slen ?l] => pose proof (slen_nonneg l);
      generalize dependent (slen l); intros end; lia).
  rewrite take_app_length', drop_app_length' by (by rewrite length_be_encode).
  rewrite be_decode_encode_small by (unfold in_u64 in Hg; simpl; lia).
  rewrite (takeFenceText_append _ 128) by (lia || by apply digest_text). cbn [opt_ok].
  rewrite (proj2 (Z.eqb_neq _ _)), Hc by done. cbn [negb andb].
  rewrite (takeFenceText_append _ 128) by (lia || by apply digest_text). cbn [opt_ok]. rewrite Hp.
  rewrite (takeFenceText_append _ 256) by (done || lia). cbn [opt_ok].
  rewrite (takeFenceText_append _ 128) by (lia || by apply digest_text). cbn [opt_ok]. rewrite Hw.
  rewrite (takeFenceText_append _ 128) by (lia || by apply digest_text). cbn [opt_ok]. rewrite Him.
  change (routeFenceVersion <=? fenceVersion) with true.
  change (leaseFenceVersion <=? fenceVersion) with true. cbv iota.
  rewrite takeOptionalFenceDigest_append by done. cbn [opt_ok].
  rewrite takeOptionalFenceTimestamp_append by done. cbn [opt_ok app].
  destruct r as [? ? ? ? ? ? ? ? ? ? []]; done.
Qed.

Lemma decode_encode_records rs m rest :
  Forall record_ok rs -> NoDup (key_of <$> rs) ->
  (forall r, r ∈ rs -> m !! key_of r = None) ->
  decode_records (length rs) fenceVersion (concat (encode_record <$> rs) ++ rest) m
  = Ok (foldl (fun m r => <[key_of r := r]> m) m rs, rest).
Proof.
  intros Hok Hnd. revert m. induction Hok as [|r rs Hr _ IH]; intros m Hm; [done|].
  rewrite fmap_cons in Hnd. apply NoDup_cons in Hnd as [Hni Hnd].
  cbn [fmap list_fmap concat length decode_records foldl].
  rewrite <- app_assoc, decode_encode_record by done.
  rewrite Hm by (by left). apply IH; [done|].
  intros r' Hr'. rewrite lookup_insert_ne; [apply Hm; by right|].
  intros E. apply Hni. rewrite E. apply list_elem_of_fmap. eauto.
Qed.

Definition insert_all (m : gmap string FenceRecord) (rs : list FenceRecord)
  : gmap string FenceRecord := foldl (fun m r => <[key_of r := r]> m) m rs.

Lemma insert_all_lookup rs m k r :
  NoDup (key_of <$> rs) ->
  insert_all m rs !! k = Some r <->
  (r ∈ rs /\ key_of r = k) \/ (m !! k = Some r /\ k ∉ key_of <$> rs).
Proof.
  unfold insert_all. revert m. induction rs as [|x rs IH]; intros m Hnd; cbn [foldl].
  - set_solver.
  - rewrite fmap_cons in *. apply NoDup_cons in Hnd as [Hni Hnd].
    rewrite IH, lookup_insert_Some by done. set_unfold. split.
    + intros [? | [[[<- <-] | ?] Hn]]; [naive_solver | by eauto | ].
      right. split; [naive_solver|]. intros [-> | ?]; naive_solver.
    + intros [[[-> | ?] <-] | ?]; [right | by auto | naive_solver].
      split; [auto|]. naive_solver.
Qed.

(** The records of a store, in any order, rebuild its map. *)
Lemma insert_all_records s rs :
  store_ok s -> rs ≡ₚ Records s ->
  NoDup (key_of <$> rs) /\ Forall record_ok rs /\ insert_all ∅ rs = byInstance s.
Proof.
  intros [_ _ Hrec] Hp.
  assert (Hel : forall r, r ∈ rs <-> byInstance s !! key_of r = Some r).
  { intros r. rewrite Hp. unfold Records. rewrite list_elem_of_fmap. split.
    - intros ([k r'] & -> & Hk%elem_of_map_to_list). simpl.
      by destruct (Hrec _ _ Hk) as [<- _].
    - intros H. exists (key_of r, r). by rewrite elem_of_map_to_list. }
  assert (Hnd : NoDup (key_of <$> rs)).
  { rewrite Hp. unfold Records.
    assert (key_of <$> (snd <$> map_to_list (byInstance s)) = fst <$> map_to_list (byInstance s)) as ->.
    { rewrite <- list_fmap_compose. apply list_fmap_ext. intros i [k r] Hk. simpl.
      apply list_elem_of_lookup_2, elem_of_map_to_list in Hk. by destruct (Hrec _ _ Hk) as [<- _]. }
    apply NoDup_fst_map_to_list. }
  split; [done|]. split.
  - apply Forall_forall. intros r Hr%Hel. by apply Hrec in Hr as [_ ?].
  - apply map_eq. intros k. apply option_eq. intros r.
    rewrite insert_all_lookup, lookup_empty, Hel by done. split.
    + intros [[? <-] | [? _]]; done.
    + intros Hk. left. by destruct (Hrec _ _ Hk) as [-> _].
Qed.

Lemma decode_encode_maintenance m :
  maintenance_ok m -> decode_maintenance fenceVersion (encode_maintenance m) = Ok (m, []).
Proof.
  unfold maintenance_ok, decode_maintenance, encode_maintenance.
  change (fenceVersion <? maintenanceFenceVersion) with false. cbv iota.
  destruct m as [[] at_ why]; cbn [Enabled EnteredAt Reason]; [|by intros ->].
  intros [[t Ht] Hw].
  change (u8 (byte_of_Z 1) <=? 1) with true. change (u8 (byte_of_Z 1) =? 1) with true. cbv iota.
  rewrite takeFenceText_append by (try apply lease_time_text; eauto; done). cbn [opt_ok].
  rewrite Ht. cbn [opt_ok]. rewrite <- (app_nil_r (append_text [] why)).
  rewrite takeFenceText_append by (try apply reason_text; done). cbn [opt_ok]. by rewrite Hw.
Qed.

Lemma fence_header_fields (v : ascii) (e c body : bytes) :
  length e = 8%nat -> length c = 4%nat ->
  let raw := bytes_of "STFN" ++ [v] ++ e ++ c ++ body in
  take 8 (drop 5 raw) = e /\ take 4 (drop 13 raw) = c /\ drop 17 raw = body /\
  zlen raw = 17 + zlen body.
Proof.
  intros He Hc raw.
  change (drop 5 raw) with (e ++ c ++ body).
  change (drop 13 raw) with (drop 8 (e ++ c ++ body)).
  change (drop 17 raw) with (drop (8 + 4) (e ++ c ++ body)).
  rewrite <- drop_drop, take_app_length', (drop_app_length' e), take_app_length', drop_app_length'
    by done.
  repeat split. unfold raw. autorewrite with len. unfold zlen. rewrite He, Hc.
  change (slen "STFN") with 4. lia.
Qed.

(** The snapshot of a well-formed store decodes to that store. *)
Lemma decode_encode s raw :
  store_ok s -> encode s = Ok raw -> decode raw = Ok (set_version s fenceVersion).
Proof.
  intros Hok. unfold encode. intros H. case_in H. breflect.
  match type of H with Ok ?x = _ => assert (raw = x) as -> by congruence end. clear H.
  set (rs := merge_sort record_le (snd <$> map_to_list (byInstance s))).
  destruct (insert_all_records s rs Hok) as (Hnd & Hrs & Hall); [apply merge_sort_Permutation|].
  assert (Hlen : length rs = size (byInstance s)).
  { unfold rs. rewrite merge_sort_Permutation, length_fmap. by apply length_map_to_list. }
  set (n := Z.of_nat (size (byInstance s))) in *.
  destruct (fence_header_fields (byte_of_Z fenceVersion) (be_encode 8 (policyEpoch s)) (be_encode 4 n)
              (concat (encode_record <$> rs) ++ encode_maintenance (maintenance s)))
    as (E5 & E13 & E17 & Ez); [by rewrite length_be_encode..|]. cbv zeta in E5, E13, E17, Ez.
  unfold decode. rewrite Ez, E5, E13, E17.
  rewrite (proj2 (Z.leb_le _ _))
    by (pose proof (zlen_nonneg (concat (encode_record <$> rs) ++ encode_maintenance (maintenance s))); lia).
  match goal with |- context [known_version ?v] => change v with fenceVersion end.
  rewrite bool_decide_true by done. change (true && true && known_version fenceVersion) with true.
  cbv iota. rewrite !be_decode_encode_small
    by (pose proof (ok_epoch _ Hok); unfold in_u64 in *; unfold n; simpl; lia).
  unfold n. rewrite Nat2Z.id, <- Hlen.
  rewrite decode_encode_records by (try done; intros; apply lookup_empty).
  fold (insert_all ∅ rs). rewrite Hall, decode_encode_maintenance by apply Hok.
  by rewrite bool_decide_true.
Qed.

(** ** What decodes is well formed *)

Lemma takeFenceText_inv raw limit v rest :
  takeFenceText raw limit = Some (v, rest) -> text_ok v limit.
Proof.
  unfold takeFenceText. intros H. case_in H. injection H as <- <-.
  apply split_text_inv in E as (_ & Hl & _). breflect.
  split; [by intros ?%slen_zero | split; [lia | done]].
Qed.

Lemma be_decode_take_u64 l : (8 <=? zlen l) = true -> in_u64 (be_decode (take 8 l)).
Proof.
  intros Hl. breflect. pose proof (be_decode_bound (take 8 l)) as Hb. unfold zlen in *.
  rewrite length_take, Nat.min_l in Hb by lia. exact Hb.
Qed.

Lemma takeOptionalFenceDigest_inv raw v rest :
  takeOptionalFenceDigest raw = Some (v, rest) -> v = ""%string \/ digest v = true.
Proof. unfold takeOptionalFenceDigest. intros H. case_in H; injection H as <- <-; auto. Qed.

Lemma takeOptionalFenceTimestamp_inv raw v rest :
  takeOptionalFenceTimestamp raw = Some (v, rest) -> v = ""%string \/ is_Some (lease_time v).
Proof.
  unfold takeOptionalFenceTimestamp. intros H. case_in H; injection H as <- <-; eauto.
Qed.

Lemma opt_ok_inv {A} (o : option A) e a : opt_ok o e = Ok a -> o = Some a.
Proof. destruct o; simpl; congruence. Qed.

Lemma decode_record_ok version raw r rest : decode_record version raw = Ok (r, rest) -> record_ok r.
Proof.
  unfold decode_record. intros H. case_in H.
  all: injection H as <- <-; breflect.
  all: repeat match goal with
  | E : opt_ok _ _ = Ok _ |- _ => apply opt_ok_inv in E
  | E : takeFenceText _ _ = Some _ |- _ => apply takeFenceText_inv in E
  | E : Ok _ = Ok _ |- _ => injection E as ? ?; subst
  | E : takeOptionalFenceDigest _ = Some _ |- _ => apply takeOptionalFenceDigest_inv in E
  | E : takeOptionalFenceTimestamp _ = Some _ |- _ => apply takeOptionalFenceTimestamp_inv in E
  end.
  all: constructor; simpl; auto.
  all: split; [|done]; by apply be_decode_take_u64, Z.leb_le.
Qed.

Lemma decode_records_ok count version raw m m' rest :
  (forall k r, m !! k = Some r -> k = key_of r /\ record_ok r) ->
  decode_records count version raw m = Ok (m', rest) ->
  forall k r, m' !! k = Some r -> k = key_of r /\ record_ok r.
Proof.
  revert raw m. induction count as [|count IH]; intros raw m Hm H; simpl in H.
  - by injection H as <- _.
  - destruct (decode_record version raw) as [[r rest']|] eqn:Hr; [|done].
    destruct (m !! key_of r); [done|]. eapply IH; [|exact H].
    intros k r' [[<- <-] | [_ ?]]%lookup_insert_Some; [|by apply Hm].
    split; [done|]. by eapply decode_record_ok.
Qed.

Lemma decode_maintenance_ok version raw m rest :
  decode_maintenance version raw = Ok (m, rest) -> maintenance_ok m.
Proof.
  unfold decode_maintenance. intros H. case_in H; injection H as <- _; try done.
  split; [|done]. apply opt_ok_inv in E5. eauto.
Qed.

Lemma decode_store_ok raw s : decode raw = Ok s -> store_ok s.
Proof.
  unfold decode. intros H. case_in H. injection H as <-. breflect.
  split; simpl.
  - apply be_decode_take_u64. apply Z.leb_le. unfold zlen in *. rewrite length_drop. lia.
  - by eapply decode_maintenance_ok.
  - eapply decode_records_ok; [|done]. intros *. by rewrite lookup_empty.
Qed.

(** ** The order of fences *)

(** [fence_le s t]: every high-water mark of [s] is kept or raised in [t]. *)
Definition fence_le (s t : FenceStore) : Prop :=
  policyEpoch s <= policyEpoch t /\
  forall k r, byInstance s !! k = Some r ->
    exists r', byInstance t !! k = Some r' /\ Generation r <= Generation r'.

#[global] Instance fence_le_preorder : PreOrder fence_le.
Proof.
  split.
  - intros s. split; [lia|]. eauto with lia.
  - intros s t u [H1 H2] [H3 H4]. split; [lia|]. intros k r Hk.
    destruct (H2 _ _ Hk) as (r1 & Hr1 & ?). destruct (H4 _ _ Hr1) as (r2 & ? & ?). eauto with lia.
Qed.

Lemma fence_le_fences s t tenant inst :
  (forall k r, byInstance t !! k = Some r -> 0 <= Generation r) -> fence_le s t ->
  fGeneration (Fences s tenant inst) <= fGeneration (Fences t tenant inst) /\
  fPolicyEpoch (Fences s tenant inst) <= fPolicyEpoch (Fences t tenant inst).
Proof.
  intros Hpos [He Hg]. unfold Fences. simpl. split; [|done].
  destruct (byInstance s !! fenceKey tenant inst) as [r|] eqn:Hs.
  - destruct (Hg _ _ Hs) as (r' & -> & ?). done.
  - destruct (byInstance t !! _) as [r|] eqn:Ht; [by eapply Hpos | done].
Qed.

Lemma fence_le_insert s k r e v m :
  policyEpoch s <= e -> Generation (default zero_record (byInstance s !! k)) <= Generation r ->
  fence_le s (mkStore v e m (<[k := r]> (byInstance s))).
Proof.
  intros He Hg. split; [done|]. simpl. intros k' r' Hk'. destruct (decide (k = k')) as [<-|Hne].
  - rewrite lookup_insert_eq. rewrite Hk' in Hg. eauto.
  - rewrite lookup_insert_ne by done. eauto with lia.
Qed.

(** ** The invariant of a node: its disk is never behind its memory *)

Record node_ok (n : Node) : Prop := {
  ok_mem : store_ok (mem n);
  ok_disk : exists raw d, disk n = Some raw /\ zlen raw <= maxFenceBytes /\
                          decode raw = Ok d /\ fence_le (mem n) d
}.

Lemma encode_size s raw : encode s = Ok raw -> zlen raw <= maxFenceBytes.
Proof. unfold encode. intros H. case_in H. breflect. congruence. Qed.

Lemma install_spec n s' fault n' res :
  install n s' fault = (n', res) ->
  (res = Ok tt /\ mem n' = set_version s' fenceVersion /\
   exists raw, encode s' = Ok raw /\ disk n' = Some raw) \/
  ((exists e, res = Err e) /\ mem n' = mem n /\
   (disk n' = disk n \/ exists raw, encode s' = Ok raw /\ disk n' = Some raw)).
Proof.
  unfold install, persistLocked. intros H.
  destruct (encode s') as [raw|e]; [|simplify_eq; simpl; eauto 10].
  destruct (run_replace persist_steps fault raw (disk n)) as [r d] eqn:Hr.
  pose proof (run_replace_atomic persist_steps fault raw (disk n)) as Hat.
  pose proof (run_replace_ok persist_steps fault raw (disk n)) as Hok.
  rewrite Hr in Hat, Hok. cbn [fst snd] in Hat, Hok.
  destruct r as [[]|e]; simplify_eq; simpl.
  - left. split; [done|]. split; [done|]. rewrite Hok by (done || set_solver). eauto.
  - right. split; [eauto|]. split; [done|]. destruct Hat as [-> | ->]; eauto.
Qed.

Lemma store_ok_version s v : store_ok s -> store_ok (set_version s v).
Proof. intros [? ? ?]. by split. Qed.

Lemma install_node_ok n s' fault :
  node_ok n -> store_ok s' -> fence_le (mem n) s' ->
  node_ok (install n s' fault).1 /\ fence_le (mem n) (mem (install n s' fault).1).
Proof.
  intros [Hm (raw0 & d0 & Hd0 & Hz0 & Hdec0 & Hle0)] Hs' Hle.
  destruct (install n s' fault) as [n' res] eqn:Hi. simpl.
  assert (Hnew : forall raw, encode s' = Ok raw -> decode raw = Ok (set_version s' fenceVersion))
    by (intros; by apply decode_encode).
  destruct (install_spec _ _ _ _ _ Hi) as [(_ & Hmem & raw & He & Hd) | (_ & Hmem & Hd)].
  - split; [|by rewrite Hmem]. split; rewrite Hmem; [by apply store_ok_version|].
    exists raw, (set_version s' fenceVersion). split; [done|]. split; [by eapply encode_size|]. split; [auto | reflexivity].
  - split; [|by rewrite Hmem]. split; rewrite Hmem; [done|].
    destruct Hd as [-> | (raw & He & ->)]; [by eauto 10|].
    exists raw, (set_version s' fenceVersion). eauto 10 using encode_size.
Qed.

(** ** Each mutation is the identity or the installation of a better store *)

(** The outcome of an operation on [n]: [n] itself, or the installation of a well-formed store
    in which no fence is lower. *)
Definition progress (n : Node) (fault : option fs_step) (n' : Node) : Prop :=
  n' = n \/ exists s', store_ok s' /\ fence_le (mem n) s' /\ n' = (install n s' fault).1.

Lemma progress_node_ok n fault n' :
  node_ok n -> progress n fault n' -> node_ok n' /\ fence_le (mem n) (mem n').
Proof.
  intros Hn [-> | (s' & Hs & Hle & ->)]; [by split | by apply install_node_ok].
Qed.

Lemma store_ok_insert s r e :
  store_ok s -> record_ok r -> in_u64 e ->
  store_ok (mkStore (formatVersion s) e (maintenance s) (<[key_of r := r]> (byInstance s))).
Proof.
  intros [H1 H2 H3] Hr He. split; simpl; auto.
  intros k r' [[<- <-] | [_ ?]]%lookup_insert_Some; auto.
Qed.

Lemma lookup_record_ok s tenant inst r :
  store_ok s -> byInstance s !! fenceKey tenant inst = Some r ->
  fenceKey tenant inst = key_of r /\ record_ok r.
Proof. intros [_ _ H] Hl. by apply H. Qed.

Lemma with_lease_ok r lease :
  record_ok r -> lease = ""%string \/ is_Some (lease_time lease) -> record_ok (with_lease r lease).
Proof. intros [] ?. by constructor. Qed.

Lemma renew_progress n tenant inst gen exp now fault :
  node_ok n -> progress n fault (RenewLease n tenant inst gen exp now fault).1.
Proof.
  intros Hn. unfold RenewLease. destruct (negb _); [by left|].
  destruct (lease_time exp) as [expires|] eqn:Hexp; [|by left]. destruct (_ || _); [by left|].
  destruct (byInstance (mem n) !! _) as [r|] eqn:Hl; [|by left]. destruct (negb _); [by left|].
  pose proof (lookup_record_ok _ _ _ _ (ok_mem _ Hn) Hl) as [Hk Hr].
  assert (Hp : progress n fault
     (install n (set_record (mem n) (fenceKey tenant inst) (with_lease r exp)) fault).1).
  { right. eexists. split; [|split; [|done]].
    - unfold set_record. rewrite Hk. apply (store_ok_insert (mem n) (with_lease r exp)).
      + apply Hn.
      + apply with_lease_ok; [done|]. rewrite Hexp. eauto.
      + apply Hn.
    - apply fence_le_insert; [lia|]. rewrite Hl. simpl. lia. }
  case_bool_decide; [done|]. destruct (canonical_time _) as [cur|]; [|by left].
  destruct (expires <? cur); [by left|]. destruct (expires =? cur); [by left | done].
Qed.

Lemma maintenance_progress n enabled reason now fault :
  node_ok n -> four_digit_year now ->
  progress n fault (SetMaintenance n enabled reason now fault).1.
Proof.
  intros Hn Hy. unfold SetMaintenance.
  destruct (enabled && negb _) eqn:E1; [by left|]. destruct (negb enabled && negb (bool_decide _)) eqn:E2; [by left|].
  destruct (enabled && Enabled _); [destruct (bool_decide (Reason _ = reason)); by left|].
  destruct (negb enabled && negb (Enabled _)); [by left|].
  right. eexists. split; [|split; [|reflexivity]].
  - destruct Hn as [[? ? ?] _]. split; simpl; auto. destruct enabled; [|done].
    simpl in E1. breflect. split; [|done].
    unfold lease_time. simpl. rewrite canonical_time_format by done.
    match goal with Hz : is_zero now = false |- _ => rewrite Hz end. eauto.
  - split; simpl; [lia|]. eauto with lia.
Qed.

Lemma valid_record_ok r e :
  valid_coordinates r e = true -> valid_lease r = true -> in_u64 (Generation r) -> record_ok r.
Proof.
  unfold valid_coordinates, valid_lease. intros Hv Hl Hg. breflect.
  constructor; auto using bounded_text.
  - match goal with H : _ \/ digest (RoutePolicyDigest r) = true |- _ =>
      destruct H; breflect; auto end.
  - destruct Hl as [Hl | Hl]; breflect; [auto|]. right. destruct (lease_time _); [eauto | done].
Qed.

Lemma commit_progress n r e fault :
  node_ok n -> in_u64 (Generation r) -> in_u64 e -> progress n fault (Commit n r e fault).1.
Proof.
  intros Hn Hg He. unfold Commit.
  destruct (negb (valid_coordinates r e)) eqn:Hv; [by left|].
  destruct (negb (valid_lease r)) eqn:Hl; [by left|].
  destruct (e <? _) eqn:Hep; [by left|]. destruct (Generation r <? _) eqn:Hgn; [by left|].
  destruct (_ && _ && _); [by left|]. breflect.
  pose proof (valid_record_ok _ _ Hv Hl Hg) as Hr.
  right. eexists. split; [|split; [|done]].
  - assert (Hr' : record_ok (if Generation r =? Generation (default zero_record (byInstance (mem n) !! key_of r))
        then with_lease r (LeaseExpiresAt (default zero_record (byInstance (mem n) !! key_of r))) else r)).
    { case_match; [|done]. apply with_lease_ok; [done|].
      destruct (byInstance (mem n) !! key_of r) as [cur|] eqn:Hc; simpl; [|by left].
      apply (ok_records _ (ok_mem _ Hn)) in Hc as [_ Hc]. apply Hc. }
    assert (Hk : key_of (if Generation r =? Generation (default zero_record (byInstance (mem n) !! key_of r))
        then with_lease r (LeaseExpiresAt (default zero_record (byInstance (mem n) !! key_of r))) else r)
        = key_of r) by (by case_match).
    rewrite <- Hk at 1. apply store_ok_insert; [apply Hn | done | done].
  - apply fence_le_insert; [done|]. by case_match.
Qed.

(** ** Runs of the store *)

Inductive call :=
| CallCommit (record : FenceRecord) (epoch : Z) (fault : option fs_step)
| CallRenewLease (tenant instance : string) (generation : Z) (expiresAt : string) (now : Z)
    (fault : option fs_step)
| CallSetMaintenance (enabled : bool) (reason : string) (now : Z) (fault : option fs_step).

Definition run_call (n : Node) (c : call) : Node :=
  match c with
  | CallCommit r e fault => (Commit n r e fault).1
  | CallRenewLease t i g x now fault => (RenewLease n t i g x now fault).1
  | CallSetMaintenance b why now fault => (SetMaintenance n b why now fault).1
  end.

(** The arguments are values of their Go types, at a time a Go clock can report. *)
Definition typed_call (c : call) : Prop :=
  match c with
  | CallCommit r e _ => in_u64 (Generation r) /\ in_u64 e
  | CallRenewLease _ _ _ _ _ _ => True
  | CallSetMaintenance _ _ now _ => four_digit_year now
  end.

Lemma run_node_ok n cs :
  node_ok n -> Forall typed_call cs ->
  node_ok (foldl run_call n cs) /\ fence_le (mem n) (mem (foldl run_call n cs)).
Proof.
  intros Hn Hcs. revert n Hn. induction Hcs as [|c cs Hc _ IH]; intros n Hn; simpl; [by split|].
  assert (exists fault, progress n fault (run_call n c)) as [fault Hp].
  { destruct c; simpl in *; eexists; [apply commit_progress | apply renew_progress
      | apply maintenance_progress]; tauto. }
  apply progress_node_ok in Hp as [Hok Hle]; [|done].
  destruct (IH _ Hok) as [? ?]. split; [done|]. by etransitivity.
Qed.

Lemma open_node_ok path st content ok n :
  OpenFenceStore path st content ok = Ok n -> node_ok n.
Proof.
  unfold OpenFenceStore. intros H. case_in H. breflect. injection H as <-.
  split; simpl; [by eapply decode_store_ok|]. exists content, a. split; [done|]. split; [lia|]. split; [done | reflexivity].
Qed.

(** ** What the fence store guarantees *)

(** C8: rollback protection. From any store that [OpenFenceStore] accepts, after any sequence of
    Commit, RenewLease and SetMaintenance calls, whichever system calls fail: no generation and no
    policy epoch held in memory has decreased, no record has been lost, and reopening the file
    succeeds with fences that are at least those in memory. *)
Theorem fences_never_roll_back path st content n cs :
  OpenFenceStore path st content true = Ok n -> Forall typed_call cs ->
  let n' := foldl run_call n cs in
  fence_le (mem n) (mem n') /\
  exists raw n2, disk n' = Some raw /\ OpenFenceStore path (Info true 384) raw true = Ok n2 /\
    fence_le (mem n') (mem n2).
Proof.
  intros Ho Hcs. destruct (run_node_ok n cs (open_node_ok _ _ _ _ _ Ho) Hcs) as [[_ Hd] Hle].
  cbv zeta. split; [done|]. destruct Hd as (raw & d & Hd & Hz & Hdec & Hle2).
  exists raw, (mkNode d (Some raw)). split; [done|]. split; [|done].
  unfold OpenFenceStore in *. destruct (negb (bool_decide (trim_space path = ""%string))); [|done].
  change (true && owner_only 384) with true. rewrite (proj2 (Z.leb_le _ _)) by done.
  cbn [andb]. by rewrite Hdec.
Qed.

(** Snapshot round trip. Whatever a well-formed store encodes to decodes to the same policy
    epoch, maintenance state and records, at the current format version. *)
Theorem fence_snapshot_roundtrip s raw :
  store_ok s -> encode s = Ok raw -> decode raw = Ok (set_version s fenceVersion).
Proof. apply decode_encode. Qed.

(** *** Concrete inputs used by the witnesses *)

Definition sample_digest : string :=
  "sha256:0123456789abcdef0123456789abcdef0123456789abcdef0123456789abcdef".
Definition sample_record (tenant instance : string) (generation : Z) : FenceRecord :=
  mkFenceRecord tenant instance generation sample_digest sample_digest "lineage" sample_digest
    sample_digest "" "" true.
Definition sample_snapshot (s : FenceStore) : bytes :=
  match encode s with Ok raw => raw | Err _ => [] end.
Definition sample_store : FenceStore :=
  mkStore 4 3 no_maintenance
    (<[fenceKey "tenant" "agent" := sample_record "tenant" "agent" 7]> ∅).

Lemma sample_store_ok : store_ok sample_store.
Proof.
  assert (decode (sample_snapshot sample_store) = Ok sample_store) as H by (vm_compute; reflexivity).
  by apply decode_store_ok in H.
Qed.

Lemma fences_never_roll_back_witness :
  let n := mkNode (set_version empty_store 4) (Some (sample_snapshot empty_store)) in
  let cs := [CallCommit (sample_record "tenant" "agent" 7) 3 None;
             CallCommit (sample_record "tenant" "agent" 8) 4 (Some SyncDir);
             CallSetMaintenance true "kernel update" 63855799507123000000 None] in
  fence_le (mem n) (mem (foldl run_call n cs)) /\
  exists raw n2, disk (foldl run_call n cs) = Some raw /\
    OpenFenceStore "fences" (Info true 384) raw true = Ok n2 /\
    fence_le (mem (foldl run_call n cs)) (mem n2).
Proof.
  apply (fences_never_roll_back "fences" (Info true 384) (sample_snapshot empty_store)).
  - vm_compute. reflexivity.
  - repeat constructor; vm_compute; congruence.
Defined.

Lemma fence_snapshot_roundtrip_witness :
  exists raw, encode sample_store = Ok raw /\ decode raw = Ok sample_store.
Proof.
  eexists. split; [vm_compute; reflexivity|].
  change sample_store with (set_version sample_store fenceVersion).
  apply fence_snapshot_roundtrip; [apply sample_store_ok | vm_compute; reflexivity].
Defined.

(** What a committed admission is. If Commit succeeds, the policy epoch did not decrease and the
    record's generation is at least the one held; at an equal generation every digest and the
    lineage agree with the record held and its lease is kept; and the record is durable: the
    file decodes to the store in memory. *)
Theorem commit_accepts_only_forward n r e fault n' :
  node_ok n -> in_u64 (Generation r) -> in_u64 e -> Commit n r e fault = (n', Ok tt) ->
  policyEpoch (mem n) <= e /\ policyEpoch (mem n') = e /\
  Generation (default zero_record (byInstance (mem n) !! key_of r)) <= Generation r /\
  (forall cur, byInstance (mem n) !! key_of r = Some cur -> Generation cur = Generation r ->
     same_lineage cur r = true /\
     byInstance (mem n') !! key_of r = Some (with_lease r (LeaseExpiresAt cur))) /\
  ((forall cur, byInstance (mem n) !! key_of r = Some cur -> Generation cur <> Generation r) ->
     byInstance (mem n') !! key_of r = Some r) /\
  exists raw, disk n' = Some raw /\ decode raw = Ok (mem n').
Proof.
  intros Hn Hg He H.
  destruct (progress_node_ok n fault n' Hn) as [[Hm' _] _].
  { pose proof (commit_progress n r e fault Hn Hg He) as Hp. by rewrite H in Hp. }
  unfold Commit in H.
  destruct (negb (valid_coordinates r e)) eqn:Hv; [done|].
  destruct (negb (valid_lease r)); [done|].
  destruct (e <? _) eqn:Hep; [done|]. destruct (Generation r <? _) eqn:Hgn; [done|].
  destruct (_ && _ && _) eqn:Hlin; [done|]. breflect.
  destruct (install_spec _ _ _ _ _ H) as [(_ & Hmem & raw & Henc & Hd) | ([? ?] & _)]; [|done].
  rewrite Hmem in *. cbn [set_version policyEpoch byInstance] in *.
  split; [done|]. split; [done|]. split; [done|]. rewrite lookup_insert_eq. split; [|split].
  - intros cur Hc Heq. rewrite Hc in *. cbn [default] in *. rewrite (proj2 (Z.eqb_eq _ _)) by done.
    split; [|done].
    assert (Hr0 : Generation cur <> 0) by (apply (ok_records _ (ok_mem _ Hn) _ _ Hc)).
    destruct Hlin as [[Hx | Hx]%andb_false_iff | Hx]; breflect; done.
  - intros Hne. destruct (byInstance (mem n) !! key_of r) as [cur|] eqn:Hc; cbn [default] in *.
    + rewrite (proj2 (Z.eqb_neq _ _)); [done|]. intros Heq. by eapply Hne.
    + unfold valid_coordinates in Hv. breflect. by rewrite (proj2 (Z.eqb_neq _ _)).
  - exists raw. split; [done|].
    match type of Henc with encode ?s = _ => change (mkStore fenceVersion e (maintenance (mem n)) _)
      with (set_version s fenceVersion) end.
    apply decode_encode; [|done]. by destruct Hm'.
Qed.

Lemma sample_node_ok : node_ok (mkNode sample_store (Some (sample_snapshot sample_store))).
Proof.
  split; [apply sample_store_ok|]. exists (sample_snapshot sample_store), sample_store.
  split; [done|]. split; [vm_compute; congruence|]. split; [vm_compute; reflexivity | reflexivity].
Qed.

Lemma commit_accepts_only_forward_witness :
  let n := mkNode sample_store (Some (sample_snapshot sample_store)) in
  let n' := (Commit n (sample_record "tenant" "agent" 8) 3 None).1 in
  Commit n (sample_record "tenant" "agent" 8) 3 None = (n', Ok tt) /\
  policyEpoch (mem n) <= 3 /\ policyEpoch (mem n') = 3.
Proof.
  cbv zeta. split; [vm_compute; reflexivity|].
  destruct (commit_accepts_only_forward (mkNode sample_store (Some (sample_snapshot sample_store)))
              (sample_record "tenant" "agent" 8) 3 None
              (Commit (mkNode sample_store (Some (sample_snapshot sample_store)))
                 (sample_record "tenant" "agent" 8) 3 None).1 sample_node_ok)
    as (H1 & H2 & _); [by vm_compute | by vm_compute | vm_compute; reflexivity | by split].
Defined.

(** A failed mutation leaves memory untouched: whenever Commit, RenewLease or SetMaintenance returns
    an error, the store in memory is the one before the call. *)
Theorem failed_mutation_keeps_memory n r e fault t i g x now b why msg :
  ((Commit n r e fault).2 = Err msg -> mem (Commit n r e fault).1 = mem n) /\
  ((RenewLease n t i g x now fault).2 = Err msg -> mem (RenewLease n t i g x now fault).1 = mem n) /\
  ((SetMaintenance n b why now fault).2 = Err msg ->
     mem (SetMaintenance n b why now fault).1 = mem n).
Proof.
  assert (Hi : forall s', (install n s' fault).2 = Err msg -> mem (install n s' fault).1 = mem n).
  { intros s' Hs. destruct (install n s' fault) as [n' res] eqn:Hi.
    destruct (install_spec _ _ _ _ _ Hi) as [(-> & _) | (_ & ? & _)]; [done | by simpl]. }
  repeat split; unfold Commit, RenewLease, SetMaintenance; intros H; case_in H; auto.
Qed.

(** ** Tenant isolation *)

Lemma fenceKey_inj t i t' i' :
  contains_byte t 0 = false -> contains_byte t' 0 = false ->
  fenceKey t i = fenceKey t' i' -> t = t' /\ i = i'.
Proof.
  intros Ht%contains_byte_false Ht'%contains_byte_false H.
  apply (f_equal bytes_of) in H. unfold fenceKey in H. rewrite !bytes_of_app in H.
  apply (split_at_nul (bytes_of t) (bytes_of t')) in H as [H1 H2]; [split; by apply bytes_of_inj | done | done].
Qed.

(** tenant isolation. Committing a record for one tenant and instance changes no other record of the
    store, even when identifiers contain one another: a NUL-free tenant and an instance name one
    key. *)
Theorem commit_isolated n r e fault tenant inst :
  contains_byte tenant 0 = false -> (tenant, inst) <> (TenantID r, InstanceID r) ->
  Record_ (mem (Commit n r e fault).1) tenant inst = Record_ (mem n) tenant inst.
Proof.
  intros Ht Hne. unfold Commit.
  destruct (negb (valid_coordinates r e)) eqn:Hv; [done|].
  destruct (negb (valid_lease r)); [done|]. destruct (e <? _); [done|].
  destruct (Generation r <? _); [done|]. destruct (_ && _ && _); [done|].
  match goal with |- context [install n ?s fault] => destruct (install n s fault) as [n' res] eqn:Hi end.
  destruct (install_spec _ _ _ _ _ Hi) as [(_ & Hm & _) | (_ & Hm & _)]; simpl; rewrite Hm; [|done].
  unfold Record_. simpl. apply lookup_insert_ne. intros Hk.
  apply fenceKey_inj in Hk as [? ?]; [congruence | | done].
  unfold valid_coordinates, bounded in Hv. breflect. done.
Qed.

Lemma commit_isolated_witness :
  let n := mkNode sample_store (Some (sample_snapshot sample_store)) in
  Record_ (mem (Commit n (sample_record "tenant" "agent2" 1) 3 None).1) "tenant" "agent"
  = Some (sample_record "tenant" "agent" 7).
Proof.
  cbv zeta. rewrite commit_isolated; [vm_compute; reflexivity | reflexivity | by vm_compute].
Defined.

(** ** Workload leases *)

(** Lease renewal. A renewal that succeeds names a present record at exactly its generation, ends after
    [now] and at most seven minutes later, never before the lease already held, and changes nothing of
    the record but its lease. *)
Theorem renew_extends_lease n t i g x now fault n' :
  RenewLease n t i g x now fault = (n', Ok tt) ->
  exists r expires, Record_ (mem n) t i = Some r /\ Present r = true /\ Generation r = g /\
    lease_time x = Some expires /\ now < expires <= now + 7 * minute /\
    (LeaseExpiresAt r = ""%string \/
     exists cur, canonical_time (LeaseExpiresAt r) = Some cur /\ cur <= expires) /\
    Record_ (mem n') t i = Some (with_lease r x).
Proof.
  unfold RenewLease. intros H. destruct (negb _); [done|].
  destruct (lease_time x) as [expires|] eqn:Hx; [|done].
  destruct (negb (now <? expires) || (now + (MaxWorkloadLeaseDuration + CommandClockSkew) <? expires)) eqn:Hw;
    [done|].
  apply orb_false_iff in Hw as [Hw1%negb_false_iff%Z.ltb_lt Hw2%Z.ltb_ge].
  destruct (byInstance (mem n) !! _) as [r|] eqn:Hl; [|done].
  destruct (negb _) eqn:Hpg; [done|]. breflect.
  exists r, expires. unfold Record_. rewrite Hl.
  do 4 (split; [done|]). split; [unfold MaxWorkloadLeaseDuration, CommandClockSkew, minute, second in *; lia|].
  assert (Hinst : forall k, (install n (set_record (mem n) (fenceKey t i) (with_lease r x)) fault) = (n', Ok tt) ->
            k = fenceKey t i -> byInstance (mem n') !! k = Some (with_lease r x)).
  { intros k Hi ->. destruct (install_spec _ _ _ _ _ Hi) as [(_ & -> & _) | ([? ?] & _)]; [|done].
    simpl. by rewrite lookup_insert_eq. }
  destruct (bool_decide (LeaseExpiresAt r = ""%string)) eqn:He; breflect; [by eauto|].
  destruct (canonical_time (LeaseExpiresAt r)) as [cur|] eqn:Hc; [|done].
  destruct (expires <? cur) eqn:E1; [done|]. breflect.
  split; [by eauto|]. destruct (expires =? cur) eqn:E2; breflect; [|by eauto].
  simplify_eq. rewrite Hl. f_equal.
  assert (x = LeaseExpiresAt r) as ->; [|by destruct r].
  unfold lease_time in Hx. destruct (canonical_time x) as [tx|] eqn:Hcx; [|done].
  apply canonical_time_sound in Hcx, Hc. case_in Hx. congruence.
Qed.

Definition sample_leased : FenceStore :=
  set_record sample_store (fenceKey "tenant" "agent")
    (with_lease (sample_record "tenant" "agent" 7) "2024-07-05T18:05:07.123Z").

Lemma renew_extends_lease_witness :
  let n := mkNode sample_leased (Some (sample_snapshot sample_leased)) in
  let n' := (RenewLease n "tenant" "agent" 7 "2024-07-05T18:06:00Z" 63855799507000000000 None).1 in
  exists r expires, Record_ (mem n) "tenant" "agent" = Some r /\ lease_time "2024-07-05T18:06:00Z" = Some expires /\
    Record_ (mem n') "tenant" "agent" = Some (with_lease r "2024-07-05T18:06:00Z").
Proof.
  cbv zeta. destruct (renew_extends_lease (mkNode sample_leased (Some (sample_snapshot sample_leased)))
    "tenant" "agent" 7 "2024-07-05T18:06:00Z" 63855799507000000000 None
    (RenewLease (mkNode sample_leased (Some (sample_snapshot sample_leased))) "tenant" "agent" 7
       "2024-07-05T18:06:00Z" 63855799507000000000 None).1) as (r & ex & H1 & _ & _ & H2 & _ & _ & H3).
  - vm_compute. reflexivity.
  - eauto.
Defined.

(** an expired lease can be revived. A present record whose lease ended at or before [now] accepts a
    renewal to any later instant within the bound, as long as the snapshot can be written; only
    shortening is refused. *)
Theorem renew_revives_expired_lease n t i g x now r cur expires :
  bounded t 128 = true -> bounded i 256 = true -> g <> 0 -> now <> 0 ->
  Record_ (mem n) t i = Some r -> Present r = true -> Generation r = g ->
  canonical_time (LeaseExpiresAt r) = Some cur -> cur <= now ->
  lease_time x = Some expires -> now < expires <= now + 7 * minute ->
  is_ok (encode (set_record (mem n) (fenceKey t i) (with_lease r x))) = true ->
  (RenewLease n t i g x now None).2 = Ok tt /\
  Record_ (mem (RenewLease n t i g x now None).1) t i = Some (with_lease r x).
Proof.
  intros Ht Hi Hg Hnow Hr Hp Hrg Hc Hexp Hx Hwin Henc. unfold Record_ in Hr. unfold RenewLease.
  assert (is_zero now = false) as Hz by (by apply Z.eqb_neq). rewrite Ht, Hi, Hz, (proj2 (Z.eqb_neq g 0)) by done.
  cbn [negb andb]. rewrite Hx.
  unfold MaxWorkloadLeaseDuration, CommandClockSkew.
  rewrite (proj2 (Z.ltb_lt now expires)), (proj2 (Z.ltb_ge _ expires)) by lia. cbn [negb orb].
  rewrite Hr, Hp, Hrg, Z.eqb_refl. cbn [negb andb].
  rewrite bool_decide_false by (intros E; rewrite E in Hc; done). rewrite Hc.
  rewrite (proj2 (Z.ltb_ge expires cur)), (proj2 (Z.eqb_neq expires cur)) by lia.
  unfold install, persistLocked.
  destruct (encode _) as [raw|]; [|done].
  pose proof (run_replace_no_fault persist_steps raw (disk n)) as Hok.
  destruct (run_replace persist_steps None raw (disk n)) as [res d]. simpl in Hok. subst res. simpl.
  split; [done|]. unfold Record_. simpl. by rewrite lookup_insert_eq.
Qed.

Lemma renew_revives_expired_lease_witness :
  let n := mkNode sample_leased (Some (sample_snapshot sample_leased)) in
  let now := 63855799507123000000 + hour in
  (RenewLease n "tenant" "agent" 7 "2024-07-05T19:06:00Z" now None).2 = Ok tt /\
  Record_ (mem (RenewLease n "tenant" "agent" 7 "2024-07-05T19:06:00Z" now None).1) "tenant" "agent"
  = Some (with_lease (sample_record "tenant" "agent" 7) "2024-07-05T19:06:00Z").
Proof.
  cbv zeta.
  apply (renew_revives_expired_lease (mkNode sample_leased (Some (sample_snapshot sample_leased)))
    "tenant" "agent" 7 "2024-07-05T19:06:00Z" (63855799507123000000 + hour)
    (with_lease (sample_record "tenant" "agent" 7) "2024-07-05T18:05:07.123Z")
    63855799507123000000 63855803160000000000);
    vm_compute; try reflexivity; congruence || (split; congruence).
Defined.

End FenceStore.
