(* ===== verification/GoJson.v ===== *)
(** * JSON as Go's [encoding/json] reads and writes it

    [json] is a decoded JSON text; [json_print] is [json.Marshal] (compact, HTML characters
    escaped, members in the order of the struct), [json_parse] the decoder's grammar. A round-trip theorem
    relates the two: what is printed is read back, except that bytes that are not UTF-8 come back as
    U+FFFD. *)

From Stdlib Require Import Ascii.
From S2P Require Import Prelude GoText.

Inductive json :=
| JNull
| JBool (b : bool)
| JNum (lit : bytes)
| JStr (s : string)
| JArr (vs : list json)
| JObj (fs : list (string * json)).

(** The induction principle that reaches through arrays and objects. *)
Section json_ind.
Context (P : json -> Prop) (Hnull : P JNull) (Hbool : forall b, P (JBool b))
  (Hnum : forall lit, P (JNum lit)) (Hstr : forall s, P (JStr s))
  (Harr : forall vs, Forall P vs -> P (JArr vs))
  (Hobj : forall fs, Forall (fun f => P f.2) fs -> P (JObj fs)).
Fixpoint json_ind' (v : json) : P v :=
  match v with
  | JNull => Hnull
  | JBool b => Hbool b
  | JNum lit => Hnum lit
  | JStr s => Hstr s
  | JArr vs => Harr vs ((fix go vs := match vs return Forall P vs with
      | [] => Forall_nil_2 _
      | v :: vs => Forall_cons_2 _ _ _ (json_ind' v) (go vs) end) vs)
  | JObj fs => Hobj fs ((fix go fs := match fs return Forall (fun f => P f.2) fs with
      | [] => Forall_nil_2 _
      | f :: fs => Forall_cons_2 _ _ _ (json_ind' f.2) (go fs) end) fs)
  end.
End json_ind.

(** ** Runes *)

(** [utf8.AppendRune]: surrogates and values out of range encode as U+FFFD. *)
Definition encode_rune (r : Z) : bytes :=
  if r <? 128 then [byte_of_Z r]
  else if r <? 2048 then [byte_of_Z (192 + r / 64); byte_of_Z (128 + r mod 64)]
  else if ((55296 <=? r) && (r <=? 57343)) || (1114111 <? r)
  then [byte_of_Z 239; byte_of_Z 191; byte_of_Z 189]
  else if r <? 65536
  then [byte_of_Z (224 + r / 4096); byte_of_Z (128 + r / 64 mod 64); byte_of_Z (128 + r mod 64)]
  else [byte_of_Z (240 + r / 262144); byte_of_Z (128 + r / 4096 mod 64);
        byte_of_Z (128 + r / 64 mod 64); byte_of_Z (128 + r mod 64)].

(** The runes of a text with the bytes each one was read from. *)
Fixpoint segs (l : bytes) : list (Z * bytes) :=
  match l with
  | [] => []
  | b0 :: t0 =>
      let '(r, w) := decode_rune l in
      match w, t0 with
      | 2%nat, b1 :: t1 => (r, [b0; b1]) :: segs t1
      | 3%nat, b1 :: b2 :: t2 => (r, [b0; b1; b2]) :: segs t2
      | 4%nat, b1 :: b2 :: b3 :: t3 => (r, [b0; b1; b2; b3]) :: segs t3
      | _, _ => (r, [b0]) :: segs t0
      end
  end.

(** ** Printing *)

Definition hex_digit (z : Z) : ascii :=
  byte_of_Z (if z <? 10 then 48 + z else 87 + z).

(** [appendString]'s treatment of one ASCII byte, with HTML escaping. *)
Definition escape_ascii (b : ascii) : bytes :=
  let z := u8 b in
  if (z =? 34) || (z =? 92) then ["\"%char; b]
  else if z =? 8 then ["\"%char; "b"%char]
  else if z =? 12 then ["\"%char; "f"%char]
  else if z =? 10 then ["\"%char; "n"%char]
  else if z =? 13 then ["\"%char; "r"%char]
  else if z =? 9 then ["\"%char; "t"%char]
  else if (z <? 32) || (z =? 60) || (z =? 62) || (z =? 38)
  then bytes_of "\u00" ++ [hex_digit (z / 16); hex_digit (z mod 16)]
  else [b].

Definition quote_rune (s : Z * bytes) : bytes :=
  let '(r, raw) := s in
  match raw with
  | [b] => if u8 b <? 128 then escape_ascii b else bytes_of "\ufffd"
  | _ => if (r =? 8232) || (r =? 8233)
         then bytes_of "\u202" ++ [hex_digit (Z.land r 15)] else raw
  end.

Definition quote_body (s : string) : bytes := concat (quote_rune <$> segs (bytes_of s)).
Definition quotation : ascii := byte_of_Z 34.
Definition quote (s : string) : bytes := quotation :: quote_body s ++ [quotation].

(** [strconv.AppendUint(_, z, 10)], and [AppendInt] for a negative number. *)
Fixpoint digits (fuel : nat) (z : Z) : bytes :=
  match fuel with
  | O => []
  | S f => (if z <? 10 then [] else digits f (z / 10)) ++ [byte_of_Z (48 + z mod 10)]
  end.
Definition itoa_abs (z : Z) : bytes := digits (S (Z.to_nat (Z.log2 z))) z.
Definition itoa (z : Z) : bytes := if z <? 0 then "-"%char :: itoa_abs (- z) else itoa_abs z.

Definition sep_by {A} (f : A -> bytes) (l : list A) : bytes :=
  match l with
  | [] => []
  | x :: l => f x ++ concat ((fun y => ","%char :: f y) <$> l)
  end.

Fixpoint json_print (v : json) : bytes :=
  match v with
  | JNull => bytes_of "null"
  | JBool b => bytes_of (if b then "true" else "false")
  | JNum lit => lit
  | JStr s => quote s
  | JArr vs => "["%char :: sep_by json_print vs ++ ["]"%char]
  | JObj fs => "{"%char :: sep_by (fun f => quote f.1 ++ ":"%char :: json_print f.2) fs ++ ["}"%char]
  end.

Definition json_int (z : Z) : json := JNum (itoa z).

(** ** Reading *)

Definition json_space (b : ascii) : bool :=
  existsb (Z.eqb (u8 b)) [32; 9; 13; 10].
Fixpoint skip_ws (l : bytes) : bytes :=
  match l with
  | b :: t => if json_space b then skip_ws t else l
  | [] => []
  end.

Definition hex_value (b : ascii) : option Z :=
  let z := u8 b in
  if (48 <=? z) && (z <=? 57) then Some (z - 48)
  else if (97 <=? z) && (z <=? 102) then Some (z - 87)
  else if (65 <=? z) && (z <=? 70) then Some (z - 55)
  else None.

Definition get_u4 (l : bytes) : option (Z * bytes) :=
  match l with
  | a :: b :: c :: d :: t =>
      match hex_value a, hex_value b, hex_value c, hex_value d with
      | Some x, Some y, Some z, Some w => Some (((x * 16 + y) * 16 + z) * 16 + w, t)
      | _, _, _, _ => None
      end
  | _ => None
  end.

(** The second half of a surrogate pair, [\uXXXX]. *)
Definition get_low_surrogate (high : Z) (l : bytes) : option (Z * bytes) :=
  match l with
  | a :: b :: t =>
      if (u8 a =? 92) && (u8 b =? 117) then
        match get_u4 t with
        | Some (low, t) =>
            if (55296 <=? high) && (high <? 56320) && (56320 <=? low) && (low <? 57344)
            then Some ((high - 55296) * 1024 + (low - 56320) + 65536, t) else None
        | None => None
        end
      else None
  | _ => None
  end.

Definition simple_escape (e : ascii) : option Z :=
  let z := u8 e in
  if (z =? 34) || (z =? 92) || (z =? 47) then Some z
  else if z =? 98 then Some 8
  else if z =? 102 then Some 12
  else if z =? 110 then Some 10
  else if z =? 114 then Some 13
  else if z =? 116 then Some 9
  else None.

Definition prepend {A} (p : bytes) (o : option (bytes * A)) : option (bytes * A) :=
  match o with Some (s, t) => Some (p ++ s, t) | None => None end.

(** The text after an opening quote: its unquoted content and what follows the closing quote. *)
Fixpoint scan_string (fuel : nat) (l : bytes) : option (bytes * bytes) :=
  match fuel with
  | O => None
  | S f =>
      match l with
      | [] => None
      | c :: t =>
          if u8 c =? 34 then Some ([], t)
          else if u8 c =? 92 then
            match t with
            | [] => None
            | e :: t' =>
                match simple_escape e with
                | Some z => prepend [byte_of_Z z] (scan_string f t')
                | None =>
                    if u8 e =? 117 then
                      match get_u4 t' with
                      | None => None
                      | Some (rr, t2) =>
                          if (55296 <=? rr) && (rr <? 57344) then
                            match get_low_surrogate rr t2 with
                            | Some (r, t3) => prepend (encode_rune r) (scan_string f t3)
                            | None => prepend (encode_rune 65533) (scan_string f t2)
                            end
                          else prepend (encode_rune rr) (scan_string f t2)
                      end
                    else None
                end
            end
          else if u8 c <? 32 then None
          else let '(r, w) := decode_rune l in prepend (encode_rune r) (scan_string f (drop w l))
      end
  end.

Definition digit (b : ascii) : bool := (48 <=? u8 b) && (u8 b <=? 57).
Fixpoint span_digits (l : bytes) : bytes * bytes :=
  match l with
  | b :: t => if digit b then let '(d, r) := span_digits t in (b :: d, r) else ([], l)
  | [] => ([], [])
  end.

Definition scan_frac (l : bytes) : option (bytes * bytes) :=
  match l with
  | b :: t =>
      if u8 b =? 46 then
        match span_digits t with ([], _) => None | (d, r) => Some (b :: d, r) end
      else Some ([], l)
  | [] => Some ([], [])
  end.

Definition scan_exp (l : bytes) : option (bytes * bytes) :=
  match l with
  | b :: t =>
      if (u8 b =? 101) || (u8 b =? 69) then
        let '(sign, t) := match t with
          | s :: t' => if (u8 s =? 43) || (u8 s =? 45) then ([s], t') else ([], t)
          | [] => ([], []) end in
        match span_digits t with ([], _) => None | (d, r) => Some (b :: sign ++ d, r) end
      else Some ([], l)
  | [] => Some ([], [])
  end.

(** A number literal: the longest prefix the grammar allows. *)
Definition scan_number (l : bytes) : option (bytes * bytes) :=
  let '(sign, l) := match l with
    | b :: t => if u8 b =? 45 then ([b], t) else ([], l)
    | [] => ([], []) end in
  let int := match l with
    | b :: t => if u8 b =? 48 then Some ([b], t)
                else if digit b then Some (span_digits l) else None
    | [] => None end in
  match int with
  | None => None
  | Some (i, l) =>
      match scan_frac l with
      | None => None
      | Some (fr, l) =>
          match scan_exp l with
          | None => None
          | Some (ex, l) => Some (sign ++ i ++ fr ++ ex, l)
          end
      end
  end.

Definition expect (word : string) (v : json) (l : bytes) : option (json * bytes) :=
  let w := bytes_of word in
  if bool_decide (take (length w) l = w) then Some (v, drop (length w) l) else None.

Fixpoint parse_value (fuel : nat) (l : bytes) : option (json * bytes) :=
  match fuel with
  | O => None
  | S f =>
      let l := skip_ws l in
      match l with
      | [] => None
      | c :: t =>
          if u8 c =? 123 then
            match skip_ws t with
            | d :: r => if u8 d =? 125 then Some (JObj [], r) else
                match parse_members f t with Some (fs, r) => Some (JObj fs, r) | None => None end
            | [] => None
            end
          else if u8 c =? 91 then
            match skip_ws t with
            | d :: r => if u8 d =? 93 then Some (JArr [], r) else
                match parse_elements f t with Some (vs, r) => Some (JArr vs, r) | None => None end
            | [] => None
            end
          else if u8 c =? 34 then
            match scan_string (length t) t with Some (s, r) => Some (JStr (string_of s), r) | None => None end
          else if u8 c =? 116 then expect "true" (JBool true) l
          else if u8 c =? 102 then expect "false" (JBool false) l
          else if u8 c =? 110 then expect "null" JNull l
          else match scan_number l with Some (n, r) => Some (JNum n, r) | None => None end
      end
  end
with parse_members (fuel : nat) (l : bytes) : option (list (string * json) * bytes) :=
  match fuel with
  | O => None
  | S f =>
      match skip_ws l with
      | q :: t =>
          if negb (u8 q =? 34) then None else
          match scan_string (length t) t with
          | None => None
          | Some (k, t) =>
              match skip_ws t with
              | c :: t =>
                  if negb (u8 c =? 58) then None else
                  match parse_value f t with
                  | None => None
                  | Some (v, t) =>
                      match skip_ws t with
                      | e :: t =>
                          if u8 e =? 125 then Some ([(string_of k, v)], t)
                          else if u8 e =? 44 then
                            match parse_members f t with
                            | Some (fs, r) => Some ((string_of k, v) :: fs, r)
                            | None => None
                            end
                          else None
                      | [] => None
                      end
                  end
              | [] => None
              end
          end
      | [] => None
      end
  end
with parse_elements (fuel : nat) (l : bytes) : option (list json * bytes) :=
  match fuel with
  | O => None
  | S f =>
      match parse_value f l with
      | None => None
      | Some (v, t) =>
          match skip_ws t with
          | e :: t =>
              if u8 e =? 93 then Some ([v], t)
              else if u8 e =? 44 then
                match parse_elements f t with
                | Some (vs, r) => Some (v :: vs, r)
                | None => None
                end
              else None
          | [] => None
          end
      end
  end.

(** One JSON text and nothing but space around it. Every recursive call reads at least one byte,
    or moves from a list of elements to its first element, so twice the length is enough fuel. *)
Definition json_parse (raw : bytes) : option json :=
  match parse_value (2 * length raw + 2) raw with
  | Some (v, rest) => if bool_decide (skip_ws rest = []) then Some v else None
  | None => None
  end.

(** The members of an object with the bytes of their values, as [json.RawMessage] keeps them, and those of one member (none when it is missing). *)
Fixpoint raw_members (fuel : nat) (l : bytes) : list (string * bytes) :=
  match fuel with
  | O => []
  | S f =>
      match skip_ws l with
      | _ :: t =>
          match scan_string (length t) t with
          | Some (k, t) =>
              match skip_ws t with
              | _ :: t =>
                  let t := skip_ws t in
                  match parse_value (2 * length t + 2) t with
                  | Some (_, rest) =>
                      (string_of k, take (length t - length rest) t) ::
                      match skip_ws rest with _ :: t => raw_members f t | [] => [] end
                  | None => []
                  end
              | [] => []
              end
          | None => []
          end
      | [] => []
      end
  end.
Definition raw_member (key : string) (raw : bytes) : bytes :=
  match skip_ws raw with
  | _ :: t => from_option snd [] (List.find (fun m => String.eqb (fst m) key) (raw_members (length t) t))
  | [] => []
  end.


(** ** UTF-8 facts *)

Lemma decode_rune_cons b0 t :
  let '(r, w) := decode_rune (b0 :: t) in
  (w = 1%nat /\ 128 <= u8 b0 /\ r = 65533) \/
  (w = 1%nat /\ u8 b0 < 128 /\ r = u8 b0) \/
  (exists raw t', (2 <= w <= 4)%nat /\ 128 <= u8 b0 /\ b0 :: t = raw ++ t' /\ length raw = w /\
     encode_rune r = raw /\ 128 <= r /\ forall tl, decode_rune (raw ++ tl) = (r, w)).
Proof.
  unfold decode_rune. destruct (u8 b0 <? 128) eqn:E0; [apply Z.ltb_lt in E0; auto|].
  pose proof (proj1 (Z.ltb_ge _ _) E0).
  destruct t as [|b1 t2]; [auto|].
  pose proof (u8_range b0). pose proof (u8_range b1).
  destruct ((194 <=? u8 b0) && (u8 b0 <=? 223)) eqn:E1.
  { destruct (cont (u8 b1)) eqn:E2; [|auto]. right; right. exists [b0; b1], t2.
    assert (Hd : forall tl, decode_rune ([b0; b1] ++ tl) = ((u8 b0 - 192) * 64 + (u8 b1 - 128), 2%nat))
      by (intros tl; simpl; by rewrite E0, E1, E2).
    unfold cont in E2. breflect.
    repeat split; try lia.
    - unfold encode_rune. rewrite (proj2 (Z.ltb_ge _ 128)), (proj2 (Z.ltb_lt _ 2048)) by lia.
      f_equal; [|f_equal]; apply u8_inj; rewrite u8_byte_of_Z; Z.to_euclidean_division_equations; lia.
    - exact Hd. }
  destruct t2 as [|b2 t3]; [auto|]. pose proof (u8_range b2).
  destruct ((224 <=? u8 b0) && (u8 b0 <=? 239)) eqn:E3.
  { destruct (((if u8 b0 =? 224 then 160 else 128) <=? u8 b1) &&
              (u8 b1 <=? (if u8 b0 =? 237 then 159 else 191)) && cont (u8 b2)) eqn:E2; [|auto].
    right; right. exists [b0; b1; b2], t3.
    assert (Hd : forall tl, decode_rune ([b0; b1; b2] ++ tl) =
        ((u8 b0 - 224) * 4096 + (u8 b1 - 128) * 64 + (u8 b2 - 128), 3%nat))
      by (intros tl; simpl; by rewrite E0, E1, E3, E2).
    unfold cont in E2.
    assert (128 <= u8 b1 <= 191 /\ (u8 b0 = 224 -> 160 <= u8 b1) /\ (u8 b0 = 237 -> u8 b1 <= 159))
      by (destruct (u8 b0 =? 224) eqn:?, (u8 b0 =? 237) eqn:?; breflect; lia).
    breflect. repeat split; try lia.
    - unfold encode_rune.
      rewrite (proj2 (Z.ltb_ge _ 128)), (proj2 (Z.ltb_ge _ 2048)), (proj2 (Z.ltb_ge 1114111 _)),
        (proj2 (Z.ltb_lt _ 65536)) by lia.
      rewrite (proj2 (andb_false_iff _ _)) by (rewrite !Z.leb_gt; lia). simpl orb. cbv iota.
      f_equal; [|f_equal; [|f_equal]]; apply u8_inj; rewrite u8_byte_of_Z;
        Z.to_euclidean_division_equations; lia.
    - exact Hd. }
  destruct t3 as [|b3 t4]; [auto|]. pose proof (u8_range b3).
  match goal with |- context [if ?c then _ else _] =>
    match c with context [cont (u8 b3)] => destruct c eqn:E2 end end; [|auto].
  right; right. exists [b0; b1; b2; b3], t4.
  assert (Hd : forall tl, decode_rune ([b0; b1; b2; b3] ++ tl) =
      ((u8 b0 - 240) * 262144 + (u8 b1 - 128) * 4096 + (u8 b2 - 128) * 64 + (u8 b3 - 128), 4%nat))
    by (intros tl; simpl; by rewrite E0, E1, E3, E2).
  unfold cont in E2.
  assert (128 <= u8 b1 <= 191 /\ 240 <= u8 b0 <= 244 /\ (u8 b0 = 240 -> 144 <= u8 b1) /\ (u8 b0 = 244 -> u8 b1 <= 143))
    by (destruct (u8 b0 =? 240) eqn:?, (u8 b0 =? 244) eqn:?; breflect; lia).
  breflect. repeat split; try lia.
  - unfold encode_rune.
    rewrite (proj2 (Z.ltb_ge _ 128)), (proj2 (Z.ltb_ge _ 2048)), (proj2 (Z.ltb_ge 1114111 _)),
      (proj2 (Z.ltb_ge _ 65536)) by lia.
    rewrite (proj2 (andb_false_iff _ _)) by (rewrite !Z.leb_gt; lia). simpl orb. cbv iota.
    f_equal; [|f_equal; [|f_equal; [|f_equal]]]; apply u8_inj; rewrite u8_byte_of_Z;
      Z.to_euclidean_division_equations; lia.
  - exact Hd.
Qed.

(** Induction along the runes of a text. *)
Lemma segs_ind (P : bytes -> list (Z * bytes) -> Prop) :
  P [] [] ->
  (forall b t, 128 <= u8 b -> decode_rune (b :: t) = (65533, 1%nat) -> P t (segs t) ->
     P (b :: t) ((65533, [b]) :: segs t)) ->
  (forall b t, u8 b < 128 -> P t (segs t) -> P (b :: t) ((u8 b, [b]) :: segs t)) ->
  (forall b raw r t, (2 <= length (b :: raw) <= 4)%nat -> 128 <= u8 b -> encode_rune r = b :: raw -> 128 <= r ->
     (forall tl, decode_rune ((b :: raw) ++ tl) = (r, length (b :: raw))) -> P t (segs t) ->
     P ((b :: raw) ++ t) ((r, b :: raw) :: segs t)) ->
  forall l, P l (segs l).
Proof.
  intros Hnil Hbad Hascii Hmulti l. remember (length l) as n eqn:Hn.
  revert l Hn. induction (lt_wf n) as [n _ IH]. intros l ->.
  destruct l as [|b t]; [done|].
  pose proof (decode_rune_cons b t) as Hd.
  destruct (decode_rune (b :: t)) as [r w] eqn:E.
  assert (IHt : P t (segs t)) by (eapply IH; [|done]; simpl; lia).
  destruct Hd as [(-> & Hb & ->) | [(-> & Hb & ->) | (raw & t' & Hw & Hb & Ht & Hl & He & Hr & Hdec)]].
  - cbn [segs]. rewrite E. by apply Hbad.
  - cbn [segs]. rewrite E. by apply Hascii.
  - destruct raw as [|b' raw]; [simpl in Hl; lia|].
    injection Ht as <- ->.
    assert (Hs : segs (b :: raw ++ t') = (r, b :: raw) :: segs t').
    { cbn [segs]. rewrite E. destruct raw as [|b1 [|b2 [|b3 [|b4 raw]]]]; simpl in Hl; try lia; by subst w. }
    rewrite Hs. rewrite <- Hl in Hw, Hdec. apply (Hmulti b raw r t'); try done.
    eapply IH; [|done]. simpl. rewrite length_app. lia.
Qed.

(** What a text becomes when it is written and read back. *)
Definition sanitize (s : string) : string :=
  string_of (concat ((fun sg => encode_rune sg.1) <$> segs (bytes_of s))).

Lemma runes_segs l : runes 0 l = (fun sg => (sg.1, length sg.2)) <$> segs l.
Proof.
  pattern l, (segs l). apply segs_ind; clear l.
  - done.
  - intros b t Hb Hd IH. cbn [runes]. rewrite Hd. simpl. by rewrite IH.
  - intros b t Hb IH. cbn [runes decode_rune]. rewrite (proj2 (Z.ltb_lt _ 128)) by done. simpl. by rewrite IH.
  - intros b raw r t Hl Hb He Hr Hd IH. cbn [runes app]. specialize (Hd t). cbn [app] in Hd. rewrite Hd, fmap_cons, <- IH.
    cbn [fst snd]. f_equal. clear Hd IH He.
    destruct raw as [|b1 [|b2 [|b3 [|b4 raw]]]]; simpl in Hl; try lia; done.
Qed.

Lemma utf8_valid_sanitize s : utf8_valid s = true -> sanitize s = s.
Proof.
  unfold utf8_valid, sanitize. rewrite runes_segs. intros H.
  rewrite <- (string_of_bytes_of s) at 2. f_equal. revert H.
  pattern (bytes_of s), (segs (bytes_of s)). apply segs_ind.
  - done.
  - intros b t Hb Hd IH H. done.
  - intros b t Hb IH H. simpl in H. breflect.
    rewrite fmap_cons, concat_cons, IH by done. cbn [fst]. unfold encode_rune at 1.
    by rewrite (proj2 (Z.ltb_lt _ 128)), byte_of_Z_u8 by done.
  - intros b raw r t Hl Hb He Hr Hd IH H. simpl in H. apply andb_true_iff in H as [_ H].
    rewrite fmap_cons, concat_cons, IH by done. simpl fst. by rewrite He.
Qed.

(** ** Strings round-trip *)

Lemma scan_escape_ascii b f tl :
  u8 b < 128 -> scan_string (S f) (escape_ascii b ++ tl) = prepend [b] (scan_string f tl).
Proof.
  destruct b as [[] [] [] [] [] [] [] []]; intros H; first [done | by vm_compute in H].
Qed.

Lemma prepend_cons_app {A} p q (o : option (bytes * A)) : prepend p (prepend q o) = prepend (p ++ q) o.
Proof. destruct o as [[s t]|]; simpl; [by rewrite <- app_assoc | done]. Qed.

Lemma scan_multi b raw r f tl :
  128 <= u8 b -> encode_rune r = b :: raw ->
  decode_rune ((b :: raw) ++ tl) = (r, length (b :: raw)) ->
  scan_string (S f) ((b :: raw) ++ tl) = prepend (b :: raw) (scan_string f tl).
Proof.
  intros Hb He Hd. cbn [scan_string app].
  rewrite (proj2 (Z.eqb_neq _ 34)), (proj2 (Z.eqb_neq _ 92)), (proj2 (Z.ltb_ge _ 32)) by lia.
  cbn [app] in Hd. rewrite Hd, He. f_equal. f_equal. apply (drop_app_length (b :: raw)).
Qed.

Lemma scan_quote_body l f tl :
  (length (segs l) < f)%nat ->
  scan_string f (concat (quote_rune <$> segs l) ++ quotation :: tl)
  = Some (concat ((fun sg => encode_rune sg.1) <$> segs l), tl).
Proof.
  revert f. pattern l, (segs l). apply segs_ind; clear l.
  - intros [|f] Hf; [simpl in Hf; lia | done].
  - intros b t Hb Hd IH [|f] Hf; [simpl in Hf; lia|]. simpl in Hf.
    rewrite !fmap_cons, !concat_cons, <- app_assoc. simpl quote_rune.
    rewrite (proj2 (Z.ltb_ge _ 128)) by done.
    transitivity (prepend (encode_rune 65533)
      (scan_string f (concat (quote_rune <$> segs t) ++ quotation :: tl))); [done|].
    rewrite IH by lia. done.
  - intros b t Hb IH [|f] Hf; [simpl in Hf; lia|]. simpl in Hf.
    rewrite !fmap_cons, !concat_cons, <- app_assoc. simpl quote_rune.
    rewrite (proj2 (Z.ltb_lt _ 128)) by done.
    rewrite scan_escape_ascii, IH by (done || lia). cbn [fst prepend].
    unfold encode_rune at 2. rewrite (proj2 (Z.ltb_lt _ 128)), byte_of_Z_u8 by done. done.
  - intros b raw r t Hl Hb He Hr Hd IH [|f] Hf; [simpl in Hf; lia|]. simpl in Hf.
    rewrite !fmap_cons, !concat_cons, <- app_assoc. simpl fst. rewrite He.
    assert (Hq : quote_rune (r, b :: raw) = if (r =? 8232) || (r =? 8233)
         then bytes_of "\u202" ++ [hex_digit (Z.land r 15)] else b :: raw)
      by (destruct raw; [simpl in Hl; lia | done]).
    rewrite Hq. destruct ((r =? 8232) || (r =? 8233)) eqn:Es.
    + transitivity (prepend (encode_rune r)
        (scan_string f (concat (quote_rune <$> segs t) ++ quotation :: tl))).
      * apply orb_true_iff in Es as [->%Z.eqb_eq | ->%Z.eqb_eq]; done.
      * rewrite IH by lia. by rewrite He.
    + rewrite (scan_multi b raw r), IH by (done || lia). done.
Qed.

Lemma quote_rune_nonempty l sg : sg ∈ segs l -> (1 <= length (quote_rune sg))%nat.
Proof.
  intros H. destruct sg as [r raw].
  destruct raw as [|b raw].
  { exfalso. revert H. pattern l, (segs l). apply segs_ind; clear; try set_solver. }
  destruct raw as [|b1 raw]; simpl quote_rune.
  - destruct (u8 b <? 128); [|vm_compute; lia].
    destruct b as [[] [] [] [] [] [] [] []]; vm_compute; lia.
  - destruct (_ || _); simpl; lia.
Qed.

Lemma length_concat_ge {A B} (f : A -> list B) l :
  (forall x, x ∈ l -> (1 <= length (f x))%nat) -> (length l <= length (concat (f <$> l)))%nat.
Proof.
  induction l as [|x l IH]; intros H; [simpl; lia|]. rewrite fmap_cons, concat_cons, length_app. cbn [length].
  pose proof (H x ltac:(set_solver)). specialize (IH ltac:(set_solver)). lia.
Qed.

(** Writing a string and reading it back yields it with invalid bytes replaced. *)
Lemma scan_quote s tl :
  scan_string (length (quote_body s ++ quotation :: tl)) (quote_body s ++ quotation :: tl)
  = Some (bytes_of (sanitize s), tl).
Proof.
  unfold quote_body, sanitize. rewrite bytes_of_string_of. apply scan_quote_body.
  rewrite length_app. simpl.
  pose proof (length_concat_ge quote_rune (segs (bytes_of s)) (quote_rune_nonempty _)). lia.
Qed.

(** ** Numbers *)

(** [strconv.ParseUint(lit, 10, 64)] and [ParseInt] without their range checks. *)
Definition dec_value (l : bytes) : Z := foldl (fun acc b => acc * 10 + (u8 b - 48)) 0 l.
Definition parse_nat (l : bytes) : option Z :=
  if negb (bool_decide (l = [])) && forallb digit l then Some (dec_value l) else None.
Definition parse_int (l : bytes) : option Z :=
  match l with
  | b :: t => if u8 b =? 45 then Z.opp <$> parse_nat t else parse_nat l
  | [] => None
  end.

Lemma dec_value_snoc l b : dec_value (l ++ [b]) = dec_value l * 10 + (u8 b - 48).
Proof. unfold dec_value. by rewrite foldl_app. Qed.

Lemma u8_digit d : 0 <= d < 10 -> u8 (byte_of_Z (48 + d)) = 48 + d.
Proof. intros. rewrite u8_byte_of_Z. apply Z.mod_small. lia. Qed.

Lemma digits_spec f z :
  0 <= z < 2 ^ Z.of_nat f -> (0 < f)%nat ->
  dec_value (digits f z) = z /\ forallb digit (digits f z) = true /\
  (z = 0 -> digits f z = ["0"%char]) /\
  (0 < z -> exists b t, digits f z = b :: t /\ 49 <= u8 b <= 57).
Proof.
  revert z. induction f as [|f IH]; intros z Hz Hf; [lia|]. cbn [digits].
  assert (Hd : u8 (byte_of_Z (48 + z mod 10)) = 48 + z mod 10)
    by (apply u8_digit, Z.mod_pos_bound; lia).
  pose proof (Z.mod_pos_bound z 10 ltac:(lia)).
  assert (Hdig : digit (byte_of_Z (48 + z mod 10)) = true).
  { unfold digit. rewrite Hd, !(proj2 (Z.leb_le _ _)) by lia. done. }
  destruct (z <? 10) eqn:E; breflect.
  - rewrite (Z.mod_small z 10) in * by lia. rewrite app_nil_l. unfold dec_value. cbn [foldl].
    rewrite Hd. repeat split; [lia | by rewrite forallb_forall; intros ? [<-|[]] | by intros -> |].
    intros. eexists _, _. split; [done|]. rewrite Hd. lia.
  - rewrite Nat2Z.inj_succ, Z.pow_succ_r in Hz by lia.
    assert (0 < z / 10 < 2 ^ Z.of_nat f)
      by (split; [apply Z.div_str_pos; lia | apply Z.div_lt_upper_bound; lia]).
    destruct f as [|f]; [simpl in *; lia|].
    destruct (IH (z / 10) ltac:(lia) ltac:(lia)) as (Hv & Ha & _ & Hh).
    rewrite dec_value_snoc, Hv, Hd, forallb_app, Ha. cbn [forallb]. rewrite Hdig.
    repeat split; [pose proof (Z.div_mod z 10); lia | lia |].
    intros _. destruct (Hh ltac:(lia)) as (b & t & -> & Hb). simpl. eauto.
Qed.

Lemma itoa_abs_spec z :
  0 <= z -> dec_value (itoa_abs z) = z /\ forallb digit (itoa_abs z) = true /\
  (z = 0 -> itoa_abs z = ["0"%char]) /\
  (0 < z -> exists b t, itoa_abs z = b :: t /\ 49 <= u8 b <= 57).
Proof.
  intros Hz. apply digits_spec; [|lia].
  rewrite Nat2Z.inj_succ, Z2Nat.id by apply Z.log2_nonneg.
  destruct (decide (z = 0)) as [->|]; [done|]. pose proof (Z.log2_spec z ltac:(lia)). lia.
Qed.

Lemma itoa_abs_head z : 0 <= z -> exists b t, itoa_abs z = b :: t /\ digit b = true.
Proof.
  intros Hz. destruct (itoa_abs_spec z Hz) as (_ & Ha & H0 & Hp).
  destruct (decide (z = 0)) as [E|]; [rewrite H0 by done; by eexists _, _|].
  destruct Hp as (b & t & E & _); [lia|]. rewrite E in *. simpl in Ha. breflect. eauto.
Qed.

Lemma parse_int_itoa z : parse_int (itoa z) = Some z.
Proof.
  assert (Hn : forall z, 0 <= z -> parse_nat (itoa_abs z) = Some z).
  { intros y Hy. unfold parse_nat. destruct (itoa_abs_head y Hy) as (b & t & E & _).
    destruct (itoa_abs_spec y Hy) as (Hv & Ha & _). rewrite Ha, Hv, E. done. }
  unfold itoa. destruct (z <? 0) eqn:E; breflect.
  - cbn [parse_int]. rewrite (Hn (- z)) by lia. simpl. f_equal. lia.
  - destruct (itoa_abs_head z E) as (b & t & Eb & Hd). rewrite <- (Hn z) by done. rewrite Eb.
    cbn [parse_int]. unfold digit in Hd. breflect. by rewrite (proj2 (Z.eqb_neq _ 45)) by lia.
Qed.

Lemma itoa_inj x y : itoa x = itoa y -> x = y.
Proof. intros E. apply (f_equal parse_int) in E. rewrite !parse_int_itoa in E. congruence. Qed.

Lemma digits_length f z k : 0 <= z < 10 ^ Z.of_nat k -> (0 < k)%nat -> (length (digits f z) <= k)%nat.
Proof.
  revert z k. induction f as [|f IH]; intros z k Hz Hk; cbn [digits length]; [lia|].
  rewrite length_app. cbn [length]. destruct (z <? 10) eqn:E; breflect; [simpl; lia|].
  destruct k as [|k]; [lia|]. rewrite Nat2Z.inj_succ, Z.pow_succ_r in Hz by lia.
  destruct k as [|k]; [simpl in Hz; lia|].
  specialize (IH (z / 10) (S k)). assert (0 <= z / 10 < 10 ^ Z.of_nat (S k)); [|lia].
  split; [apply Z.div_pos; lia | apply Z.div_lt_upper_bound; lia].
Qed.

(** A [uint64] prints in at most twenty digits. *)
Lemma zlen_itoa_u64 z : in_u64 z -> 1 <= zlen (itoa z) <= 20.
Proof.
  unfold in_u64. intros Hz. unfold itoa. rewrite (proj2 (Z.ltb_ge z 0)) by lia.
  destruct (itoa_abs_head z ltac:(lia)) as (b & t & E & _).
  assert (length (itoa_abs z) <= 20)%nat by (apply digits_length; simpl in *; lia).
  unfold zlen. rewrite E in *. simpl in *. lia.
Qed.

(** Where a number literal ends. *)
Definition num_end (tl : bytes) : bool :=
  match tl with
  | [] => true
  | b :: _ => negb (digit b || (u8 b =? 46) || (u8 b =? 101) || (u8 b =? 69))
  end.

Lemma span_digits_app l tl :
  forallb digit l = true -> num_end tl = true -> span_digits (l ++ tl) = (l, tl).
Proof.
  intros Hl Ht. induction l as [|b l IH]; simpl in *.
  - destruct tl as [|b t]; [done|]. simpl in *. breflect. by rewrite H.
  - breflect. by rewrite H, IH.
Qed.

Lemma scan_frac_end tl : num_end tl = true -> scan_frac tl = Some ([], tl).
Proof. destruct tl as [|b t]; [done|]. simpl. intros H. breflect. by rewrite (proj2 (Z.eqb_neq _ _)). Qed.
Lemma scan_exp_end tl : num_end tl = true -> scan_exp tl = Some ([], tl).
Proof.
  destruct tl as [|b t]; [done|]. simpl. intros H. breflect.
  by rewrite !(proj2 (Z.eqb_neq _ _)).
Qed.

Lemma scan_number_itoa z tl : num_end tl = true -> scan_number (itoa z ++ tl) = Some (itoa z, tl).
Proof.
  intros Ht.
  assert (Hpos : forall y, 0 <= y ->
    (match itoa_abs y ++ tl with
     | b :: t => if u8 b =? 48 then Some ([b], t) else if digit b then Some (span_digits (itoa_abs y ++ tl)) else None
     | [] => None end) = Some (itoa_abs y, tl)).
  { intros y Hy. destruct (itoa_abs_spec y Hy) as (_ & Ha & H0 & Hp).
    destruct (decide (y = 0)) as [->|]; [by rewrite H0|].
    rewrite span_digits_app by done.
    destruct Hp as (b & t & E & Hb); [lia|]. rewrite E in *. cbn [app].
    simpl in Ha. breflect. by rewrite (proj2 (Z.eqb_neq _ 48)), H by lia. }
  unfold scan_number, itoa. destruct (z <? 0) eqn:E; breflect.
  - cbn [app]. change (u8 "-"%char =? 45) with true. cbv iota.
    rewrite Hpos by lia. rewrite scan_frac_end, scan_exp_end by done. by rewrite !app_nil_r.
  - specialize (Hpos z E). destruct (itoa_abs_head z E) as (b & t & Eb & Hd).
    rewrite Eb in *. cbn [app] in *. unfold digit in Hd. breflect.
    rewrite (proj2 (Z.eqb_neq _ 45)) by lia. rewrite Hpos, scan_frac_end, scan_exp_end by done.
    by rewrite !app_nil_r.
Qed.

(** ** Values round-trip *)

(** What Go writes: its texts are UTF-8 and its numbers integers. *)
Fixpoint json_ok (v : json) : Prop :=
  match v with
  | JNull | JBool _ => True
  | JNum lit => exists z, lit = itoa z
  | JStr s => utf8_valid s = true
  | JArr vs => foldr (fun v acc => json_ok v /\ acc) True vs
  | JObj fs => foldr (fun f acc => (utf8_valid f.1 = true /\ json_ok f.2) /\ acc) True fs
  end.

Lemma json_ok_arr vs : json_ok (JArr vs) <-> Forall json_ok vs.
Proof. simpl. induction vs as [|v vs IH]; simpl; [split; constructor|]. by rewrite Forall_cons, IH. Qed.
Lemma json_ok_obj fs :
  json_ok (JObj fs) <-> Forall (fun f => utf8_valid f.1 = true /\ json_ok f.2) fs.
Proof. simpl. induction fs as [|f fs IH]; simpl; [split; constructor|]. by rewrite Forall_cons, IH. Qed.

(** The value as it is read back: the texts sanitized. It only has to have integers for numbers. *)
Fixpoint reread (v : json) : json :=
  match v with
  | JStr s => JStr (sanitize s)
  | JArr vs => JArr (reread <$> vs)
  | JObj fs => JObj ((fun f => (sanitize f.1, reread f.2)) <$> fs)
  | _ => v
  end.
Fixpoint json_shown (v : json) : Prop :=
  match v with
  | JNull | JBool _ | JStr _ => True
  | JNum lit => exists z, lit = itoa z
  | JArr vs => foldr (fun v acc => json_shown v /\ acc) True vs
  | JObj fs => foldr (fun f acc => json_shown f.2 /\ acc) True fs
  end.

Lemma json_shown_arr vs : json_shown (JArr vs) <-> Forall json_shown vs.
Proof. simpl. induction vs as [|v vs IH]; simpl; [split; constructor|]. by rewrite Forall_cons, IH. Qed.
Lemma json_shown_obj fs : json_shown (JObj fs) <-> Forall (fun f => json_shown f.2) fs.
Proof. simpl. induction fs as [|f fs IH]; simpl; [split; constructor|]. by rewrite Forall_cons, IH. Qed.

Lemma shown_reread v : json_shown (reread v) -> json_shown v.
Proof.
  induction v as [|b|lit|s|vs IH|fs IH] using json_ind'; cbn [reread]; try done.
  - rewrite !json_shown_arr, Forall_fmap. intros H. induction H; inversion_clear IH; constructor; auto.
  - rewrite !json_shown_obj, Forall_fmap. intros H. induction H; inversion_clear IH; constructor; auto.
Qed.

Lemma json_ok_reread v : json_ok v -> json_shown v /\ reread v = v.
Proof.
  induction v as [|b|lit|s|vs IH|fs IH] using json_ind'; intros H; try done.
  - cbn [reread]. by rewrite utf8_valid_sanitize.
  - apply json_ok_arr in H. rewrite json_shown_arr. assert (Ha : Forall (fun v => json_shown v /\ reread v = v) vs).
    { apply Forall_forall. intros v Hv. rewrite Forall_forall in IH, H. auto. }
    split; [by eapply Forall_impl; [exact Ha | intros ? []]|]. cbn [reread]. f_equal.
    induction Ha as [|v vs [_ Hv] _ IHa]; [done|]. inversion_clear IH. inversion_clear H. rewrite fmap_cons, Hv. f_equal. auto.
  - apply json_ok_obj in H. rewrite json_shown_obj. assert (Ha : Forall (fun f => json_shown f.2 /\ (sanitize f.1, reread f.2) = f) fs).
    { apply Forall_forall. intros [k v] Hv. rewrite Forall_forall in IH, H. destruct (H _ Hv) as [Hk Hok]. destruct (IH _ Hv Hok) as [? Hr].
      split; [done|]. cbn [fst snd] in *. by rewrite utf8_valid_sanitize, Hr. }
    split; [by eapply Forall_impl; [exact Ha | intros ? []]|]. cbn [reread]. f_equal.
    induction Ha as [|f fs [_ Hf] _ IHa]; [done|]. inversion_clear IH. inversion_clear H. rewrite fmap_cons, Hf. f_equal. auto.
Qed.

(** The first byte of a printed value decides how it is read. *)
Definition head_ok (v : json) (c : ascii) : Prop :=
  json_space c = false /\ u8 c <> 93 /\ u8 c <> 125 /\
  match v with
  | JNull => u8 c = 110
  | JBool b => u8 c = if b then 116 else 102
  | JNum _ => u8 c <> 123 /\ u8 c <> 91 /\ u8 c <> 34 /\ u8 c <> 116 /\ u8 c <> 102 /\ u8 c <> 110
  | JStr _ => u8 c = 34
  | JArr _ => u8 c = 91
  | JObj _ => u8 c = 123
  end.

Lemma json_space_digit c : (45 <=? u8 c) = true -> json_space c = false.
Proof. unfold json_space. simpl. intros H. breflect. rewrite !(proj2 (Z.eqb_neq _ _)) by lia. done. Qed.

Lemma shown_head v : json_shown v -> exists c t, json_print v = c :: t /\ head_ok v c.
Proof.
  destruct v as [|[]|lit|s|vs|fs]; intros Hok; try by (eexists _, _).
  destruct Hok as [z ->]. simpl.
  assert (exists c t, itoa z = c :: t /\ (digit c = true \/ u8 c = 45)) as (c & t & E & Hc).
  { unfold itoa. destruct (z <? 0) eqn:Ez; breflect; [eexists _, _; by eauto|].
    destruct (itoa_abs_head z) as (b & t & -> & ?); eauto. }
  exists c, t. split; [done|].
  assert (45 <= u8 c <= 57) by (destruct Hc as [Hc|]; [unfold digit in Hc; breflect; lia | lia]).
  unfold head_ok. rewrite json_space_digit by (apply Z.leb_le; lia). lia.
Qed.

Lemma json_print_head v : json_ok v -> exists c t, json_print v = c :: t /\ head_ok v c.
Proof. intros [H _]%json_ok_reread. by apply shown_head. Qed.

Lemma skip_ws_head c t : json_space c = false -> skip_ws (c :: t) = c :: t.
Proof. intros H. simpl. by rewrite H. Qed.

Lemma sep_by_cons {A} (f : A -> bytes) x y l : sep_by f (x :: y :: l) = f x ++ ","%char :: sep_by f (y :: l).
Proof. simpl. done. Qed.

Definition parses (v : json) : Prop :=
  json_shown v -> forall f tl, num_end tl = true -> (2 * length (json_print v) <= f)%nat ->
  parse_value f (json_print v ++ tl) = Some (reread v, tl).

Lemma parse_elements_print vs :
  vs <> [] -> Forall parses vs -> Forall json_shown vs -> forall f tl,
  (2 * length (sep_by json_print vs) < f)%nat ->
  parse_elements f (sep_by json_print vs ++ "]"%char :: tl) = Some (reread <$> vs, tl).
Proof.
  induction vs as [|v vs IH]; intros Hne HP Hok f tl Hf; [done|].
  inversion_clear HP as [|? ? Hv HP']. inversion_clear Hok as [|? ? Hokv Hok'].
  destruct f as [|f]; [lia|]. cbn [parse_elements]. destruct vs as [|w vs].
  - unfold sep_by in *. cbn [fmap list_fmap concat] in *. rewrite app_nil_r in *.
    rewrite Hv by (done || lia). done.
  - rewrite sep_by_cons, length_app in Hf. cbn [length] in Hf.
    rewrite sep_by_cons, <- app_assoc. rewrite Hv by (done || lia).
    cbn [app]. rewrite skip_ws_head by done.
    change (u8 ","%char =? 93) with false. change (u8 ","%char =? 44) with true. cbv iota.
    rewrite IH by (done || lia). done.
Qed.

Abbreviation print_member := (fun f : string * json => quote f.1 ++ ":"%char :: json_print f.2).

Lemma length_quote s : (2 <= length (quote s))%nat.
Proof. unfold quote. simpl. rewrite length_app. simpl. lia. Qed.

(** One member: its key, its value and what ends it. *)
Lemma parse_member_print k v f tl :
  parses v -> json_shown v -> num_end tl = true ->
  (2 * length (json_print v) <= f)%nat ->
  parse_members (S f) (print_member (k, v) ++ tl) =
  match skip_ws tl with
  | e :: t =>
      if u8 e =? 125 then Some ([(sanitize k, reread v)], t)
      else if u8 e =? 44 then
        match parse_members f t with Some (fs, r) => Some ((sanitize k, reread v) :: fs, r) | None => None end
      else None
  | [] => None
  end.
Proof.
  intros Hv Hok Ht Hf. cbn [parse_members]. cbn [fst snd]. unfold quote.
  rewrite <- app_assoc. cbn [app]. rewrite skip_ws_head by done.
  change (negb (u8 quotation =? 34)) with false. cbv iota. rewrite <- app_assoc. cbn [app].
  rewrite scan_quote. rewrite skip_ws_head by done. change (negb (u8 ":"%char =? 58)) with false. cbv iota.
  rewrite Hv by done. by rewrite string_of_bytes_of.
Qed.

Lemma parse_members_print fs :
  fs <> [] -> Forall (fun m => parses m.2) fs ->
  Forall (fun m => json_shown m.2) fs -> forall f tl,
  (2 * length (sep_by print_member fs) <= f)%nat ->
  parse_members f (sep_by print_member fs ++ "}"%char :: tl) = Some ((fun f => (sanitize f.1, reread f.2)) <$> fs, tl).
Proof.
  induction fs as [|[k v] fs IH]; intros Hne HP Hok f tl Hf; [done|].
  inversion_clear HP as [|? ? Hv HP']. inversion_clear Hok as [|? ? Hokv Hok'].
  pose proof (length_quote k). cbn [fst snd] in *.
  destruct f as [|f].
  { unfold sep_by in Hf. cbn [fst snd] in Hf. rewrite !length_app in Hf. lia. }
  destruct fs as [|w fs].
  - unfold sep_by in *. cbn [fmap list_fmap concat fst snd] in *. rewrite app_nil_r in *.
    rewrite length_app in Hf. cbn [length] in Hf.
    rewrite (parse_member_print k v) by (done || lia). done.
  - rewrite sep_by_cons, !length_app in Hf. cbn [length fst snd] in Hf.
    rewrite sep_by_cons, <- app_assoc, (parse_member_print k v) by (done || lia).
    cbn [app]. rewrite skip_ws_head by done.
    change (u8 ","%char =? 125) with false. change (u8 ","%char =? 44) with true. cbv iota.
    rewrite IH by (done || lia). done.
Qed.

Lemma parse_value_shown v : parses v.
Proof.
  induction v as [|b|lit|s|vs IH|fs IH] using json_ind'; intros Hok f tl Ht Hf;
    destruct (shown_head _ Hok) as (c & t & Ep & Hsp & H93 & H125 & Hc);
    (destruct f as [|f]; [rewrite Ep in Hf; simpl in Hf; lia|]).
  - done.
  - by destruct b.
  - destruct Hok as [z ->]. cbn [parse_value json_print] in *.
    assert (Hs : skip_ws (itoa z ++ tl) = itoa z ++ tl) by (rewrite Ep; by apply skip_ws_head).
    rewrite Hs. pose proof (scan_number_itoa z tl Ht) as Hn. rewrite Ep in *. cbn [app] in *.
    rewrite !(proj2 (Z.eqb_neq _ _)) by tauto. by rewrite Hn.
  - cbn [parse_value json_print]. unfold quote. cbn [app]. rewrite skip_ws_head by done.
    change (u8 quotation =? 123) with false. change (u8 quotation =? 91) with false.
    change (u8 quotation =? 34) with true. cbv iota. rewrite <- app_assoc. cbn [app].
    by rewrite scan_quote, string_of_bytes_of.
  - destruct vs as [|v vs]; [done|]. cbn [parse_value json_print] in *. cbn [app] in *.
    rewrite skip_ws_head by done.
    change (u8 "["%char =? 123) with false. change (u8 "["%char =? 91) with true. cbv iota.
    apply json_shown_arr in Hok as Hoks.
    destruct (shown_head v) as (d & t' & Ed & Hd & Hd93 & _); [by inversion Hoks|].
    rewrite <- app_assoc. cbn [app]. cbn [length] in Hf. rewrite length_app in Hf. cbn [length] in Hf.
    rewrite (parse_elements_print (v :: vs)) by (done || lia).
    unfold sep_by. rewrite Ed. cbn [app]. rewrite skip_ws_head by done.
    by rewrite (proj2 (Z.eqb_neq _ 93)).
  - destruct fs as [|m fs]; [done|]. cbn [parse_value json_print] in *. cbn [app] in *.
    rewrite skip_ws_head by done. change (u8 "{"%char =? 123) with true. cbv iota.
    apply json_shown_obj in Hok as Hoks.
    rewrite <- app_assoc. cbn [app]. cbn [length] in Hf. rewrite length_app in Hf. cbn [length] in Hf.
    rewrite (parse_members_print (m :: fs)) by (done || lia).
    unfold sep_by, quote. cbn [app]. by rewrite skip_ws_head by done.
Qed.

Lemma parse_value_print v : json_ok v -> forall f tl, num_end tl = true -> (2 * length (json_print v) <= f)%nat ->
  parse_value f (json_print v ++ tl) = Some (v, tl).
Proof. intros [H E]%json_ok_reread f tl Ht Hf. rewrite <- E at 2. by apply parse_value_shown. Qed.

(** What is written is read back with its texts sanitized. *)
Lemma json_parse_shown v : json_shown v -> json_parse (json_print v) = Some (reread v).
Proof.
  intros Hok. unfold json_parse.
  pose proof (parse_value_shown v Hok (2 * length (json_print v) + 2)%nat [] eq_refl) as H.
  rewrite app_nil_r in H. rewrite H by lia. by rewrite bool_decide_true.
Qed.

(** Go reads back what it wrote. *)
Theorem json_parse_print v : json_ok v -> json_parse (json_print v) = Some v.
Proof.
  intros Hok. unfold json_parse.
  pose proof (parse_value_print v Hok (2 * length (json_print v) + 2)%nat [] eq_refl) as H.
  rewrite app_nil_r in H. rewrite H by lia. by rewrite bool_decide_true.
Qed.

(** [json.NewEncoder(w).Encode(v)] writes a newline after the value. *)
Lemma json_parse_encode v : json_ok v -> json_parse (json_print v ++ [byte_of_Z 10]) = Some v.
Proof.
  intros Hok. unfold json_parse.
  rewrite (parse_value_print v Hok _ [byte_of_Z 10] eq_refl) by (rewrite length_app; lia). done.
Qed.

Lemma json_print_inj v w : json_ok v -> json_ok w -> json_print v = json_print w -> v = w.
Proof.
  intros Hv Hw E. pose proof (json_parse_print v Hv) as H. rewrite E, json_parse_print in H; congruence.
Qed.

(** The raw members of a written object are its values as they were written. *)
Lemma raw_members_print fs : fs <> [] -> Forall (fun m => utf8_valid m.1 = true /\ json_ok m.2) fs -> forall f, (length fs <= f)%nat ->
  raw_members f (sep_by print_member fs ++ ["}"%char]) = (fun m => (m.1, json_print m.2)) <$> fs.
Proof.
  induction fs as [|[k v] fs IH]; intros Hne Hok f Hf; [done|]. inversion_clear Hok as [|? ? [Hk Hv] Hok']. cbn [fst snd] in *. destruct f as [|f]; [cbn [length] in Hf; lia|].
  assert (Hstep : forall tl, num_end tl = true -> raw_members (S f) (print_member (k, v) ++ tl) = (k, json_print v) :: match skip_ws tl with _ :: t => raw_members f t | [] => [] end).
  { intros tl Ht. cbn [raw_members fst snd]. unfold quote. rewrite <- app_assoc. cbn [app]. rewrite skip_ws_head by done. rewrite <- app_assoc. cbn [app].
    rewrite scan_quote, skip_ws_head by done. destruct (json_print_head v Hv) as (c & t & Ep & Hsp & _).
    assert (Hs : skip_ws (json_print v ++ tl) = json_print v ++ tl) by (rewrite Ep; by apply skip_ws_head). rewrite Hs.
    rewrite (parse_value_print v Hv _ tl Ht) by (rewrite length_app; lia). rewrite utf8_valid_sanitize, string_of_bytes_of by done. f_equal. f_equal.
    rewrite length_app. replace (length (json_print v) + length tl - length tl)%nat with (length (json_print v)) by lia. by rewrite take_app_length. }
  destruct fs as [|w fs].
  - unfold sep_by. cbn [fmap list_fmap concat]. rewrite app_nil_r, Hstep by done. cbn [fmap list_fmap fst snd]. rewrite skip_ws_head by done. by destruct f.
  - rewrite sep_by_cons, <- app_assoc, Hstep by done. cbn [app]. rewrite skip_ws_head by done. rewrite IH by (done || (cbn [length] in *; lia)). done.
Qed.

Lemma raw_member_print fs k v : Forall (fun m => utf8_valid m.1 = true /\ json_ok m.2) fs -> NoDup (fst <$> fs) -> (k, v) ∈ fs -> raw_member k (json_print (JObj fs)) = json_print v.
Proof.
  intros Hok Hnd Hin. unfold raw_member. cbn [json_print]. rewrite skip_ws_head by done. rewrite raw_members_print; [|by intros ->; apply not_elem_of_nil in Hin | done |].
  - assert (Hnd' : NoDup (fst <$> ((fun m : string * json => (m.1, json_print m.2)) <$> fs))) by (rewrite <- list_fmap_compose; exact Hnd).
    rewrite (proj2 (find_unique fst k _ (k, json_print v) Hnd')); [done | split; [|done]; apply list_elem_of_fmap; by exists (k, v)].
  - rewrite length_app. cbn [length]. clear. induction fs as [|m [|n fs] IH]; [cbn; lia | cbn; lia|]. rewrite sep_by_cons, length_app. cbn [length] in *. lia.
Qed.

(** ** Sizes

    [len(json.Marshal(v))], used where the program reserves room for values it has not written yet. *)

Lemma quote_rune_size l sg : sg ∈ segs l -> zlen sg.2 <= zlen (quote_rune sg) <= 6 * zlen sg.2.
Proof.
  intros H. destruct sg as [r raw]. cbn [snd].
  assert (Hl : (1 <= length raw <= 4)%nat /\ (r = 8232 \/ r = 8233 -> length raw = 3%nat)).
  { revert H. pattern l, (segs l). apply segs_ind; clear l.
    - intros H%not_elem_of_nil. done.
    - intros b t Hb Hd IH [[= -> ->] | H]%elem_of_cons; [simpl; lia | auto].
    - intros b t Hb IH [[= -> ->] | H]%elem_of_cons; [simpl; lia | auto].
    - intros b raw' r' t Hl Hb He Hr Hd IH [[= -> ->] | H]%elem_of_cons; [|auto]. split; [lia|].
      intros [-> | ->]; rewrite <- He; done. }
  destruct raw as [|b [|b1 raw]]; [simpl in Hl; lia| |].
  - simpl quote_rune. destruct (u8 b <? 128) eqn:E; [|vm_compute; split; congruence].
    destruct b as [[] [] [] [] [] [] [] []]; vm_compute; split; congruence.
  - unfold quote_rune. destruct ((r =? 8232) || (r =? 8233)) eqn:E.
    + assert (length (b :: b1 :: raw) = 3%nat) as H3.
      { apply Hl. apply orb_true_iff in E as [E%Z.eqb_eq | E%Z.eqb_eq]; auto. }
      unfold zlen. rewrite H3. rewrite length_app. simpl. lia.
    + pose proof (zlen_nonneg (b :: b1 :: raw)). lia.
Qed.

Lemma concat_segs l : concat (snd <$> segs l) = l.
Proof.
  pattern l, (segs l). apply segs_ind; clear l.
  - done.
  - intros b t _ _ IH. rewrite fmap_cons, concat_cons, IH. done.
  - intros b t _ IH. rewrite fmap_cons, concat_cons, IH. done.
  - intros b raw r t _ _ _ _ _ IH. rewrite fmap_cons, concat_cons, IH. done.
Qed.

Lemma zlen_concat {A B} (f : A -> list B) l : zlen (concat (f <$> l)) = zsum (fun x => zlen (f x)) l.
Proof. induction l as [|x l IH]; [done|]. rewrite fmap_cons, concat_cons, zlen_app, IH. done. Qed.

Lemma zsum_scale {A} c (f : A -> Z) l : zsum (fun x => c * f x) l = c * zsum f l.
Proof. induction l; simpl; lia. Qed.

(** A quoted string is at least as long as the string, and at most six times. *)
Lemma quote_size s : slen s + 2 <= zlen (quote s) <= 6 * slen s + 2.
Proof.
  unfold quote. rewrite zlen_cons, zlen_app, zlen_cons, zlen_nil. unfold quote_body. rewrite zlen_concat.
  assert (Hs : slen s = zsum (fun sg => zlen sg.2) (segs (bytes_of s))).
  { rewrite <- (zlen_concat snd), concat_segs. by rewrite zlen_bytes_of. }
  rewrite Hs. split.
  - enough (zsum (fun sg => zlen sg.2) (segs (bytes_of s)) <= zsum (fun sg => zlen (quote_rune sg)) (segs (bytes_of s))) by lia.
    apply zsum_le. intros x Hx. apply quote_rune_size in Hx. lia.
  - rewrite <- zsum_scale.
    enough (zsum (fun sg => zlen (quote_rune sg)) (segs (bytes_of s)) <= zsum (fun sg => 6 * zlen sg.2) (segs (bytes_of s))) by lia.
    apply zsum_le. intros x Hx. apply quote_rune_size in Hx. lia.
Qed.

(** Bytes that are written as they are. *)
Definition plain_byte (z : Z) : bool :=
  (32 <=? z) && (z <? 128) && negb ((z =? 34) || (z =? 92) || (z =? 60) || (z =? 62) || (z =? 38)).

Lemma quote_plain s : all_bytes plain_byte s = true -> quote_body s = bytes_of s.
Proof.
  unfold all_bytes, quote_body. generalize (bytes_of s). intros l.
  pattern l, (segs l). apply segs_ind; clear l.
  - done.
  - intros b t Hb _ _ H. simpl in H. unfold plain_byte in H at 1. breflect. lia.
  - intros b t Hb IH H. simpl in H. apply andb_true_iff in H as [Hp H].
    rewrite fmap_cons, concat_cons, IH by done. cbn [quote_rune].
    rewrite (proj2 (Z.ltb_lt _ 128)) by done.
    destruct b as [[] [] [] [] [] [] [] []]; first [done | by vm_compute in Hp].
  - intros b raw r t Hl Hb _ _ _ _ H. simpl in H. unfold plain_byte in H at 1. breflect. lia.
Qed.

Lemma plain_utf8 s : all_bytes plain_byte s = true -> utf8_valid s = true.
Proof.
  unfold all_bytes, utf8_valid. rewrite runes_segs. generalize (bytes_of s). intros l.
  pattern l, (segs l). apply segs_ind; clear l.
  - done.
  - intros b t Hb _ _ H. simpl in H. unfold plain_byte in H at 1. breflect. lia.
  - intros b t Hb IH H. simpl in H. apply andb_true_iff in H as [Hp H]. simpl.
    rewrite (proj2 (Z.eqb_neq _ _)) by lia. by apply IH.
  - intros b raw r t Hl Hb _ _ _ _ H. simpl in H. unfold plain_byte in H at 1. breflect. lia.
Qed.

Lemma all_bytes_mono (p q : Z -> bool) s : (forall z, p z = true -> q z = true) -> all_bytes p s = true -> all_bytes q s = true.
Proof. unfold all_bytes. rewrite !forallb_forall. auto. Qed.

Lemma all_bytes_app p s t : all_bytes p (s +:+ t) = all_bytes p s && all_bytes p t.
Proof. unfold all_bytes. by rewrite bytes_of_app, forallb_app. Qed.

Lemma hex_digit_plain z : lower_hex_byte z = true -> plain_byte z = true.
Proof. unfold lower_hex_byte, plain_byte. intros H. breflect. destruct H; breflect; repeat (apply andb_true_iff; split); lia. Qed.

Lemma sha256_digest_plain s : sha256_digest s = true -> all_bytes plain_byte s = true.
Proof.
  unfold sha256_digest. intros H. breflect. rewrite (trim_prefix_app s "sha256:") by done. rewrite all_bytes_app.
  apply andb_true_iff. split; [reflexivity|]. by eapply all_bytes_mono; [apply hex_digit_plain|].
Qed.

Lemma zlen_quote_plain s : all_bytes plain_byte s = true -> zlen (quote s) = slen s + 2.
Proof.
  intros H. unfold quote. rewrite quote_plain by done. rewrite zlen_cons, zlen_app, zlen_bytes_of, zlen_cons, zlen_nil. lia.
Qed.

Lemma zlen_sep_by {A} (f : A -> bytes) l :
  zlen (sep_by f l) = Z.max 0 (zsum (fun x => zlen (f x) + 1) l - 1).
Proof.
  destruct l as [|x l]; [done|]. unfold sep_by. rewrite zlen_app.
  assert (Hc : zlen (concat ((fun y => ","%char :: f y) <$> l)) = zsum (fun x => zlen (f x) + 1) l).
  { induction l as [|y l IH]; [done|]. rewrite fmap_cons, concat_cons, zlen_app, zlen_cons, IH. simpl. lia. }
  rewrite Hc. simpl. pose proof (zlen_nonneg (f x)).
  pose proof (zsum_nonneg (fun x => zlen (f x) + 1) l) as Hn.
  cbn beta in Hn. rewrite Z.max_r; [lia|].
  enough (0 <= zsum (fun x => zlen (f x) + 1) l) by lia. apply Hn. intros y _. pose proof (zlen_nonneg (f y)). lia.
Qed.

(** One member of an object, its colon and its comma included. *)
Definition member_size (f : string * json) : Z := zlen (quote f.1) + zlen (json_print f.2) + 2.

Lemma zlen_print_obj fs : zlen (json_print (JObj fs)) = 1 + Z.max 1 (zsum member_size fs).
Proof.
  change (json_print (JObj fs)) with ("{"%char :: sep_by print_member fs ++ ["}"%char]).
  rewrite (zlen_cons "{"%char), zlen_app, zlen_sep_by. change (zlen ["}"%char]) with 1.
  assert (zsum (fun f => zlen (print_member f) + 1) fs = zsum member_size fs) as ->; [|lia].
  unfold zsum. induction fs as [|f fs IH]; [done|]. cbn [foldr]. rewrite IH. unfold member_size at 2.
  rewrite zlen_app, zlen_cons. lia.
Qed.

Lemma zlen_print_arr vs :
  zlen (json_print (JArr vs)) = 1 + Z.max 1 (zsum (fun v => zlen (json_print v) + 1) vs).
Proof.
  change (json_print (JArr vs)) with ("["%char :: sep_by json_print vs ++ ["]"%char]).
  rewrite (zlen_cons "["%char), zlen_app, zlen_sep_by. change (zlen ["]"%char]) with 1. lia.
Qed.

(** ** Texts that are not UTF-8

    A text written and read back is UTF-8, so reading it back again changes nothing; and each byte that was replaced takes three bytes less. *)

Definition plain_seg (sg : Z * bytes) : bool := negb ((sg.1 =? 65533) && Nat.eqb (length sg.2) 1).

Lemma utf8_segs s : utf8_valid s = forallb plain_seg (segs (bytes_of s)).
Proof. unfold utf8_valid. rewrite runes_segs. induction (segs (bytes_of s)) as [|sg l IH]; [done|]. rewrite fmap_cons. cbn [forallb]. by rewrite IH. Qed.

Lemma segs_multi b raw r t : (2 <= length (b :: raw) <= 4)%nat -> (forall tl, decode_rune ((b :: raw) ++ tl) = (r, length (b :: raw))) ->
  segs ((b :: raw) ++ t) = (r, b :: raw) :: segs t.
Proof.
  intros Hl Hd. specialize (Hd t). cbn [app] in Hd |- *. cbn [segs]. rewrite Hd.
  destruct raw as [|b1 [|b2 [|b3 [|b4 raw]]]]; simpl in Hl; try lia; done.
Qed.

Lemma segs_sanitize s : segs (bytes_of (sanitize s)) = (fun sg => (sg.1, encode_rune sg.1)) <$> segs (bytes_of s).
Proof.
  unfold sanitize. rewrite bytes_of_string_of. pattern (bytes_of s), (segs (bytes_of s)). apply segs_ind.
  - done.
  - intros b t Hb _ IH. rewrite !fmap_cons, concat_cons, <- IH. cbn [fst].
    change (encode_rune 65533) with [byte_of_Z 239; byte_of_Z 191; byte_of_Z 189]. apply segs_multi; [simpl; lia | done].
  - intros b t Hb IH. rewrite !fmap_cons, concat_cons, <- IH. cbn [fst].
    replace (encode_rune (u8 b)) with [b] by (unfold encode_rune; by rewrite (proj2 (Z.ltb_lt _ 128)), byte_of_Z_u8).
    cbn [app segs decode_rune]. by rewrite (proj2 (Z.ltb_lt _ 128)).
  - intros b raw r t Hl Hb He Hr Hd IH. rewrite !fmap_cons, concat_cons, <- IH. cbn [fst]. rewrite He. by apply segs_multi.
Qed.

Lemma encode_bad : length (encode_rune 65533) = 3%nat.
Proof. done. Qed.

Lemma utf8_sanitize s : utf8_valid (sanitize s) = true.
Proof.
  rewrite utf8_segs, segs_sanitize. apply forallb_forall. intros sg (x & -> & _)%list_elem_of_In%list_elem_of_fmap.
  unfold plain_seg. cbn [fst snd]. destruct (Z.eqb_spec x.1 65533) as [->|]; done.
Qed.

Lemma sanitize_twice s : sanitize (sanitize s) = sanitize s.
Proof. apply utf8_valid_sanitize, utf8_sanitize. Qed.

Lemma quote_shrinks_segs l :
  (length (concat (quote_rune <$> ((fun sg => (sg.1, encode_rune sg.1)) <$> segs l))) <= length (concat (quote_rune <$> segs l)))%nat /\
  (forallb plain_seg (segs l) = false ->
   (length (concat (quote_rune <$> ((fun sg => (sg.1, encode_rune sg.1)) <$> segs l))) < length (concat (quote_rune <$> segs l)))%nat).
Proof.
  pattern l, (segs l). apply segs_ind; clear l.
  - done.
  - intros b t Hb _ [IH _]. rewrite !fmap_cons, !concat_cons, !length_app.
    replace (quote_rune (65533, [b])) with (bytes_of "\ufffd") by (cbn [quote_rune]; by rewrite (proj2 (Z.ltb_ge _ 128))).
    change (length (quote_rune ((65533, [b]).1, encode_rune (65533, [b]).1))) with 3%nat. change (length (bytes_of "\ufffd")) with 6%nat. lia.
  - intros b t Hb [IH IH']. rewrite !fmap_cons, !concat_cons, !length_app. cbn [fst].
    replace (encode_rune (u8 b)) with [b] by (unfold encode_rune; by rewrite (proj2 (Z.ltb_lt _ 128)), byte_of_Z_u8).
    cbn [forallb]. unfold plain_seg at 1. cbn [fst snd]. rewrite (proj2 (Z.eqb_neq (u8 b) 65533)) by lia. cbn [negb andb]. split; [lia|].
    intros H%IH'. lia.
  - intros b raw r t Hl Hb He Hr Hd [IH IH']. rewrite !fmap_cons, !concat_cons, !length_app. cbn [fst]. rewrite He.
    cbn [forallb]. unfold plain_seg at 1. cbn [fst snd]. rewrite (proj2 (Nat.eqb_neq _ 1)) by lia. rewrite andb_false_r. cbn [negb andb].
    split; [lia|]. intros H%IH'. lia.
Qed.

Lemma zlen_quote s : zlen (quote s) = zlen (quote_body s) + 2.
Proof. unfold quote. rewrite zlen_cons, zlen_app. change (zlen [quotation]) with 1. lia. Qed.

Lemma quote_shrinks s : zlen (quote (sanitize s)) <= zlen (quote s) /\ (utf8_valid s = false -> zlen (quote (sanitize s)) < zlen (quote s)).
Proof.
  rewrite !zlen_quote. unfold quote_body. rewrite segs_sanitize, utf8_segs. pose proof (quote_shrinks_segs (bytes_of s)) as [H1 H2]. unfold zlen.
  split; [lia|]. intros H%H2. lia.
Qed.

(** Only a text that was ASCII is read back as ASCII. *)
Lemma sanitize_ascii s : Forall (fun b => u8 b < 128) (bytes_of (sanitize s)) -> utf8_valid s = true.
Proof.
  rewrite utf8_segs. unfold sanitize. rewrite bytes_of_string_of. pattern (bytes_of s), (segs (bytes_of s)). apply segs_ind.
  - done.
  - intros b t Hb _ _. rewrite fmap_cons, concat_cons. intros H%Forall_app. destruct H as [H _]. inversion_clear H as [|? ? Hx _]. by vm_compute in Hx.
  - intros b t Hb IH. rewrite fmap_cons, concat_cons. intros [_ H]%Forall_app. cbn [forallb]. unfold plain_seg at 1. cbn [fst snd].
    rewrite (proj2 (Z.eqb_neq (u8 b) 65533)) by lia. by apply IH.
  - intros b raw r t Hl Hb He Hr Hd IH. rewrite fmap_cons, concat_cons. intros [H _]%Forall_app. cbn [fst] in H. rewrite He in H.
    inversion_clear H. lia.
Qed.
