(* ===== verification/GoCrypto.v ===== *)
(** * Digests and text encodings of the Go standard library

    [crypto/sha256] as FIPS 180-4 defines it, [encoding/hex] and the standard padded alphabet of
    [encoding/base64]. *)

From Stdlib Require Import Ascii.
From S2P Require Import Prelude GoText.

(** ** SHA-256 *)

Module Sha256.

Definition w32 (z : Z) : Z := z mod 2 ^ 32.
Definition rotr (n x : Z) : Z := Z.lor (Z.shiftr x n) (w32 (Z.shiftl x (32 - n))).
Definition not32 (x : Z) : Z := 4294967295 - x.

Definition ch (x y z : Z) : Z := Z.lxor (Z.land x y) (Z.land (not32 x) z).
Definition maj (x y z : Z) : Z := Z.lxor (Z.lxor (Z.land x y) (Z.land x z)) (Z.land y z).
Definition bsig0 (x : Z) : Z := Z.lxor (Z.lxor (rotr 2 x) (rotr 13 x)) (rotr 22 x).
Definition bsig1 (x : Z) : Z := Z.lxor (Z.lxor (rotr 6 x) (rotr 11 x)) (rotr 25 x).
Definition ssig0 (x : Z) : Z := Z.lxor (Z.lxor (rotr 7 x) (rotr 18 x)) (Z.shiftr x 3).
Definition ssig1 (x : Z) : Z := Z.lxor (Z.lxor (rotr 17 x) (rotr 19 x)) (Z.shiftr x 10).

Definition K : list Z :=
  [1116352408; 1899447441; 3049323471; 3921009573; 961987163; 1508970993; 2453635748; 2870763221;
   3624381080; 310598401; 607225278; 1426881987; 1925078388; 2162078206; 2614888103; 3248222580;
   3835390401; 4022224774; 264347078; 604807628; 770255983; 1249150122; 1555081692; 1996064986;
   2554220882; 2821834349; 2952996808; 3210313671; 3336571891; 3584528711; 113926993; 338241895;
   666307205; 773529912; 1294757372; 1396182291; 1695183700; 1986661051; 2177026350; 2456956037;
   2730485921; 2820302411; 3259730800; 3345764771; 3516065817; 3600352804; 4094571909; 275423344;
   430227734; 506948616; 659060556; 883997877; 958139571; 1322822218; 1537002063; 1747873779;
   1955562222; 2024104815; 2227730452; 2361852424; 2428436474; 2756734187; 3204031479; 3329325298].

Definition H0 : list Z :=
  [1779033703; 3144134277; 1013904242; 2773480762; 1359893119; 2600822924; 528734635; 1541459225].

(** The padding: 0x80, zeros, and the length in bits on eight bytes. *)
Definition pad (m : bytes) : bytes :=
  m ++ byte_of_Z 128 :: repeat (byte_of_Z 0) (Z.to_nat ((55 - zlen m) mod 64)) ++ be_encode 8 (8 * zlen m).

Fixpoint words (l : bytes) : list Z :=
  match l with
  | a :: b :: c :: d :: t => be_decode [a; b; c; d] :: words t
  | _ => []
  end.

(** The message schedule; [w] holds its last sixteen words, the newest first. *)
Fixpoint schedule (n : nat) (w : list Z) : list Z :=
  match n with
  | O => []
  | S n =>
      let at_ i := nth i w 0 in
      let x := w32 (ssig1 (at_ 1%nat) + at_ 6%nat + ssig0 (at_ 14%nat) + at_ 15%nat) in
      x :: schedule n (x :: take 15 w)
  end.

Definition round (s : list Z) (kw : Z * Z) : list Z :=
  match s with
  | [a; b; c; d; e; f; g; h] =>
      let t1 := w32 (h + bsig1 e + ch e f g + fst kw + snd kw) in
      let t2 := w32 (bsig0 a + maj a b c) in
      [w32 (t1 + t2); a; b; c; w32 (d + t1); e; f; g]
  | _ => s
  end.

Definition compress (s : list Z) (block : bytes) : list Z :=
  let w := words block in
  zip_with (fun x y => w32 (x + y)) s (foldl round s (zip K (w ++ schedule 48 (rev w)))).

Fixpoint blocks (n : nat) (l : bytes) : list bytes :=
  match n with
  | O => []
  | S n => take 64 l :: blocks n (drop 64 l)
  end.

Definition sum (m : bytes) : bytes :=
  let p := pad m in
  foldl compress H0 (blocks (length p / 64) p) ≫= be_encode 4.

(** The digest has 32 bytes. *)
Lemma length_round s kw : length s = 8%nat -> length (round s kw) = 8%nat.
Proof. intros Hs. do 9 (destruct s as [|? s]; try discriminate Hs). done. Qed.

Lemma length_compress s block : length s = 8%nat -> length (compress s block) = 8%nat.
Proof.
  intros Hs. unfold compress. rewrite length_zip_with, Hs. apply Nat.min_l.
  enough (length (foldl round s (zip K (words block ++ schedule 48 (rev (words block))))) = 8%nat) by lia.
  generalize (zip K (words block ++ schedule 48 (rev (words block)))). intros l. revert s Hs.
  induction l as [|kw l IH]; intros s Hs; [done|]. cbn [foldl]. by apply IH, length_round.
Qed.

Lemma length_sum m : length (sum m) = 32%nat.
Proof.
  unfold sum. generalize (blocks (length (pad m) / 64) (pad m)). intros bs.
  assert (H : length (foldl compress H0 bs) = 8%nat).
  { assert (H8 : length H0 = 8%nat) by done. revert H8. generalize H0. induction bs as [|b bs IH]; intros s Hs; [done|]. cbn [foldl]. by apply IH, length_compress. }
  revert H. generalize (foldl compress H0 bs). intros l Hl. do 9 (destruct l as [|? l]; try discriminate Hl).
  cbn [mbind list_bind]. by rewrite !length_app, !length_be_encode.
Qed.

End Sha256.

(** [hex.EncodeToString], also [fmt.Sprintf("%x", _)]. *)
Definition hex_char (z : Z) : ascii := byte_of_Z (if z <? 10 then 48 + z else 87 + z).
Definition hex_encode (l : bytes) : bytes :=
  l ≫= (fun b => [hex_char (u8 b / 16); hex_char (u8 b mod 16)]).

Lemma hex_char_inj x y : 0 <= x < 16 -> 0 <= y < 16 -> hex_char x = hex_char y -> x = y.
Proof.
  intros Hx Hy E. apply (f_equal u8) in E. unfold hex_char in E. rewrite !u8_byte_of_Z in E.
  destruct (x <? 10) eqn:?, (y <? 10) eqn:?; breflect; rewrite !Z.mod_small in E by lia; lia.
Qed.

Lemma hex_encode_inj k l : hex_encode k = hex_encode l -> k = l.
Proof.
  unfold hex_encode. revert l. induction k as [|a k IH]; intros [|b l] E; [done..|].
  cbn [mbind list_bind app] in E. injection E as E1 E2 E3.
  pose proof (u8_range a). pose proof (u8_range b).
  apply hex_char_inj in E1, E2; try (Z.to_euclidean_division_equations; lia).
  f_equal; [|by apply IH]. apply u8_inj. rewrite (Z.div_mod (u8 a) 16), (Z.div_mod (u8 b) 16) by lia. lia.
Qed.

Lemma hex_char_lower z : 0 <= z < 16 -> lower_hex_byte (u8 (hex_char z)) = true.
Proof.
  intros Hz. unfold hex_char, lower_hex_byte. rewrite u8_byte_of_Z. destruct (z <? 10) eqn:E; breflect; rewrite Z.mod_small by lia;
    apply orb_true_iff; [left | right]; apply andb_true_iff; lia.
Qed.

Lemma hex_encode_lower l : forallb (fun c => lower_hex_byte (u8 c)) (hex_encode l) = true /\ length (hex_encode l) = (2 * length l)%nat.
Proof.
  unfold hex_encode. induction l as [|b l [IH1 IH2]]; [done|]. cbn [mbind list_bind app forallb length] in *. rewrite IH1. pose proof (u8_range b).
  rewrite !hex_char_lower by (Z.to_euclidean_division_equations; lia). split; [done | lia].
Qed.

(** The text of a digest is one. *)
(** [DigestJSON], [KeyID] and the like: the digest of a message as a text. *)
Definition sha256_text (m : bytes) : string := "sha256:" +:+ string_of (hex_encode (Sha256.sum m)).

Lemma sha256_text_inj a b : sha256_text a = sha256_text b -> Sha256.sum a = Sha256.sum b.
Proof.
  unfold sha256_text. intros H. apply hex_encode_inj. apply (f_equal bytes_of) in H. rewrite !bytes_of_app in H. apply app_inv_head in H.
  by rewrite !bytes_of_string_of in H.
Qed.

Lemma sha256_digest_text m : sha256_digest ("sha256:" +:+ string_of (hex_encode (Sha256.sum m))) = true.
Proof.
  destruct (hex_encode_lower (Sha256.sum m)) as [H1 H2]. unfold sha256_digest. rewrite has_prefix_app, slen_app.
  assert (trim_prefix ("sha256:" +:+ string_of (hex_encode (Sha256.sum m))) "sha256:" = string_of (hex_encode (Sha256.sum m))) as ->.
  { unfold trim_prefix. by rewrite has_prefix_app. }
  assert (slen (string_of (hex_encode (Sha256.sum m))) = 64) as -> by (rewrite <- zlen_bytes_of, bytes_of_string_of; unfold zlen; rewrite H2, Sha256.length_sum; done).
  unfold all_bytes. by rewrite bytes_of_string_of, H1.
Qed.

Example sha256_abc :
  string_of (hex_encode (Sha256.sum (bytes_of "abc")))
  = "ba7816bf8f01cfea414140de5dae2223b00361a396177a9cb410ff61f20015ad"%string.
Proof. vm_compute. reflexivity. Qed.

Example sha256_two_blocks :
  string_of (hex_encode (Sha256.sum (bytes_of "abcdbcdecdefdefgefghfghighijhijkijkljklmklmnlmnomnopnopq")))
  = "248d6a61d20638b8e5c026930c3e6039a33ce45964ff2167f6ecedd419db06c1"%string.
Proof. vm_compute. reflexivity. Qed.

(** ** Base64 *)

Definition b64_char (z : Z) : ascii :=
  byte_of_Z (if z <? 26 then 65 + z else if z <? 52 then 71 + z else if z <? 62 then z - 4
             else if z =? 62 then 43 else 47).

Definition b64_value (b : ascii) : option Z :=
  let z := u8 b in
  if (65 <=? z) && (z <=? 90) then Some (z - 65)
  else if (97 <=? z) && (z <=? 122) then Some (z - 71)
  else if (48 <=? z) && (z <=? 57) then Some (z + 4)
  else if z =? 43 then Some 62
  else if z =? 47 then Some 63
  else None.

(** [base64.StdEncoding.EncodeToString]. *)
Fixpoint b64_encode (l : bytes) : bytes :=
  match l with
  | [] => []
  | [a] => [b64_char (u8 a / 4); b64_char (u8 a mod 4 * 16); "="%char; "="%char]
  | [a; b] => [b64_char (u8 a / 4); b64_char (u8 a mod 4 * 16 + u8 b / 16);
               b64_char (u8 b mod 16 * 4); "="%char]
  | a :: b :: c :: t =>
      b64_char (u8 a / 4) :: b64_char (u8 a mod 4 * 16 + u8 b / 16)
      :: b64_char (u8 b mod 16 * 4 + u8 c / 64) :: b64_char (u8 c mod 64) :: b64_encode t
  end.

(** Groups of four characters; padding ends the text and its spare bits are ignored. *)
Fixpoint b64_groups (l : bytes) : option bytes :=
  match l with
  | [] => Some []
  | a :: b :: c :: d :: t =>
      match b64_value a, b64_value b with
      | Some x, Some y =>
          match b64_value c, b64_value d with
          | Some z, Some w =>
              match b64_groups t with
              | Some r => Some (byte_of_Z (x * 4 + y / 16) :: byte_of_Z (y mod 16 * 16 + z / 4)
                                :: byte_of_Z (z mod 4 * 64 + w) :: r)
              | None => None
              end
          | Some z, None =>
              if (u8 d =? 61) && bool_decide (t = [])
              then Some [byte_of_Z (x * 4 + y / 16); byte_of_Z (y mod 16 * 16 + z / 4)] else None
          | None, _ =>
              if (u8 c =? 61) && (u8 d =? 61) && bool_decide (t = [])
              then Some [byte_of_Z (x * 4 + y / 16)] else None
          end
      | _, _ => None
      end
  | _ => None
  end.

(** [base64.StdEncoding.DecodeString] skips line breaks wherever they stand. *)
Definition b64_decode (l : bytes) : option bytes :=
  b64_groups (List.filter (fun b => negb ((u8 b =? 10) || (u8 b =? 13))) l).

Definition b64_encode_string (l : bytes) : string := string_of (b64_encode l).
Definition b64_decode_string (s : string) : option bytes := b64_decode (bytes_of s).

(** [base64.StdEncoding.EncodedLen]. *)
Definition b64_encoded_len (n : Z) : Z := (n + 2) / 3 * 4.

Lemma b64_value_char z : 0 <= z < 64 -> b64_value (b64_char z) = Some z.
Proof.
  intros Hz. assert (Hall : forallb (fun i => bool_decide (b64_value (b64_char i) = Some i)) (seqZ 0 64) = true)
    by (vm_compute; reflexivity).
  rewrite forallb_forall in Hall. apply (bool_decide_eq_true_1 _), Hall, list_elem_of_In, elem_of_seqZ. lia.
Qed.

Lemma b64_char_printable z : 0 <= z < 64 -> 43 <= u8 (b64_char z) <= 122.
Proof.
  intros Hz. unfold b64_char. rewrite u8_byte_of_Z.
  destruct (z <? 26) eqn:?, (z <? 52) eqn:?, (z <? 62) eqn:?, (z =? 62) eqn:?; breflect;
    rewrite Z.mod_small by lia; lia.
Qed.

(** Induction by groups of three bytes. *)
Lemma triples_ind (P : bytes -> Prop) :
  P [] -> (forall a, P [a]) -> (forall a b, P [a; b]) ->
  (forall a b c t, P t -> P (a :: b :: c :: t)) -> forall l, P l.
Proof.
  intros H0 H1 H2 H3. refine (fix go l := match l with
    | [] => H0 | [a] => H1 a | [a; b] => H2 a b | a :: b :: c :: t => H3 a b c t (go t) end).
Qed.

Ltac bits := repeat match goal with
  | b : ascii |- _ => match goal with
      | H : 0 <= u8 b < 256 |- _ => fail 1
      | _ => pose proof (u8_range b)
      end
  end; Z.to_euclidean_division_equations; lia.

Lemma b64_encode_clean l :
  List.filter (fun b => negb ((u8 b =? 10) || (u8 b =? 13))) (b64_encode l) = b64_encode l.
Proof.
  assert (Hc : forall z, 0 <= z < 64 ->
    negb ((u8 (b64_char z) =? 10) || (u8 (b64_char z) =? 13)) = true).
  { intros z Hz. pose proof (b64_char_printable z Hz).
    by rewrite !(proj2 (Z.eqb_neq _ _)) by lia. }
  induction l as [|a|a b|a b c t IH] using triples_ind; cbn [b64_encode List.filter].
  - done.
  - rewrite !Hc by bits. done.
  - rewrite !Hc by bits. done.
  - rewrite !Hc by bits. by rewrite IH.
Qed.

Lemma byte_eq z a : z = u8 a -> byte_of_Z z = a.
Proof. intros ->. apply byte_of_Z_u8. Qed.

Lemma b64_groups_encode l : b64_groups (b64_encode l) = Some l.
Proof.
  induction l as [|a|a b|a b c t IH] using triples_ind; cbn [b64_encode b64_groups].
  - done.
  - rewrite !b64_value_char by bits. simpl. do 2 f_equal. apply byte_eq; bits.
  - rewrite !b64_value_char by bits. simpl. do 2 f_equal; [|f_equal]; apply byte_eq; bits.
  - rewrite !b64_value_char, IH by bits. do 2 f_equal; [|f_equal; [|f_equal]]; apply byte_eq; bits.
Qed.

(** Decoding inverts encoding. *)
Theorem b64_decode_encode l : b64_decode (b64_encode l) = Some l.
Proof. unfold b64_decode. by rewrite b64_encode_clean, b64_groups_encode. Qed.

Lemma b64_encode_inj k l : b64_encode k = b64_encode l -> k = l.
Proof. intros E. apply (f_equal b64_decode) in E. rewrite !b64_decode_encode in E. congruence. Qed.
