(* ===== verification/Strict.v ===== *)
(** * Strict JSON decoding ([src/internal/dsse/dsse.go], [DecodeStrictInto])

    Steward reads every JSON artifact through [DecodeStrictInto]: a first pass checks the text against
    the destination's shape (exact field names, no duplicate members, bounded nesting, no stray null), a second decodes
    it. [GoJSON] is the contract of a Go type that is written with [json.Marshal] and read back this way; the components
    that keep state in JSON files discharge it for their structs. *)

From Stdlib Require Import Ascii.
From S2P Require Import Prelude GoText GoJson.

(** ** Shapes

    The part of [reflect.Type] that [validateJSONValue] inspects. *)

Inductive shape :=
| KString
| KBool
| KInt
| KStruct (fields : list (string * shape))
| KSlice (elem : shape)
| KMap (elem : shape)
| KPointer (elem : shape)
| KRawMessage.

Definition allow_null (expected : shape) : bool :=
  match expected with KPointer _ | KSlice _ | KMap _ | KRawMessage => true | _ => false end.

Fixpoint strip_pointer (expected : shape) : shape :=
  match expected with KPointer e => strip_pointer e | _ => expected end.

Fixpoint assoc {V} (k : string) (l : list (string * V)) : option V :=
  match l with
  | [] => None
  | (k', v) :: l => if String.eqb k k' then Some v else assoc k l
  end.

Definition seenb (k : string) (seen : list string) : bool := existsb (String.eqb k) seen.

(** The loops over the members of an object and the elements of an array. *)
Definition check_members (check : string -> json -> result unit) :=
  fix go (seen : list string) (fs : list (string * json)) : result unit :=
    match fs with
    | [] => Ok tt
    | (key, value) :: fs =>
        if seenb key seen then Err "duplicate JSON field" else
        let* _ := check key value in go (key :: seen) fs
    end.
Definition check_elements (check : json -> result unit) :=
  fix go (vs : list json) : result unit :=
    match vs with
    | [] => Ok tt
    | value :: vs => let* _ := check value in go vs
    end.

(** [json.RawMessage] members: any value, still without duplicate keys or deep nesting. *)
Fixpoint validateArbitraryJSON (depth : nat) (v : json) : result unit :=
  if Nat.ltb 32 depth then Err "JSON nesting exceeds limit" else
  match v with
  | JNull | JBool _ | JNum _ | JStr _ => Ok tt
  | JObj fs => check_members (fun _ value => validateArbitraryJSON (S depth) value) [] fs
  | JArr vs => check_elements (fun value => validateArbitraryJSON (S depth) value) vs
  end.

(** A key seen before is a known one, so it does not matter that the source looks the field up before it looks
    for a duplicate. *)
Fixpoint validateJSONValue (expected : shape) (depth : nat) (v : json) {struct v} : result unit :=
  if Nat.ltb 32 depth then Err "JSON nesting exceeds limit" else
  match v with
  | JNull => if allow_null expected then Ok tt else Err "null is not valid"
  | _ =>
      match strip_pointer expected with
      | KRawMessage => validateArbitraryJSON depth v
      | KStruct fields =>
          match v with
          | JObj fs => check_members (fun key value =>
              match assoc key fields with
              | None => Err "unknown JSON field"
              | Some field => validateJSONValue field (S depth) value
              end) [] fs
          | _ => Err "expected object"
          end
      | KSlice elem =>
          match v with
          | JArr vs => check_elements (fun value => validateJSONValue elem (S depth) value) vs
          | _ => Err "expected array"
          end
      | KMap elem =>
          match v with
          | JObj fs => check_members (fun _ value => validateJSONValue elem (S depth) value) [] fs
          | _ => Err "expected string-keyed object"
          end
      | KString => match v with JStr _ => Ok tt | _ => Err "expected string" end
      | KBool => match v with JBool _ => Ok tt | _ => Err "expected boolean" end
      | KInt => match v with JNum _ => Ok tt | _ => Err "expected integer" end
      | KPointer _ => Err "unsupported strict JSON type"
      end
  end.

(** ** Decoding into Go values *)

Definition dec_string (v : json) : option string := match v with JStr s => Some s | _ => None end.
Definition dec_bool (v : json) : option bool := match v with JBool b => Some b | _ => None end.

(** [int] and [int64], then [uint64]. *)
Definition dec_int (v : json) : option Z :=
  match v with
  | JNum lit =>
      match parse_int lit with
      | Some z => if (- 2 ^ 63 <=? z) && (z <? 2 ^ 63) then Some z else None
      | None => None
      end
  | _ => None
  end.
Definition dec_u64 (v : json) : option Z :=
  match v with
  | JNum lit => match parse_nat lit with Some z => if in_u64b z then Some z else None | None => None end
  | _ => None
  end.

(** A pointer ([None] is nil) and a slice ([None] is the nil slice). *)
Definition dec_ptr {A} (dec : json -> option A) (v : json) : option (option A) :=
  match v with JNull => Some None | _ => Some <$> dec v end.
Definition dec_slice {A} (dec : json -> option A) (v : json) : option (option (list A)) :=
  match v with JNull => Some None | JArr vs => Some <$> mapM dec vs | _ => None end.

Definition enc_ptr {A} (enc : A -> json) (p : option A) : json := from_option enc JNull p.
Definition enc_slice {A} (enc : A -> json) (s : option (list A)) : json :=
  from_option (fun l => JArr (enc <$> l)) JNull s.

(** A field that the text leaves out keeps its zero value. *)
Definition field {A} (fs : list (string * json)) (k : string) (dec : json -> option A) (zero : A)
  : option A := match assoc k fs with Some v => dec v | None => Some zero end.

(** A struct is written member by member; [omitempty] leaves out a zero value. *)
Definition member : Type := string * bool * json.
Definition always (k : string) (v : json) : member := (k, false, v).
Definition omitempty (k : string) (empty : bool) (v : json) : member := (k, empty, v).
Fixpoint members (ms : list member) : list (string * json) :=
  match ms with
  | [] => []
  | (k, e, v) :: ms => if e then members ms else (k, v) :: members ms
  end.
Definition obj (ms : list member) : json := JObj (members ms).
Definition nil_slice {A} (s : option (list A)) : bool :=
  match s with None | Some [] => true | _ => false end.
Definition nil_ptr {A} (p : option A) : bool := match p with None => true | _ => false end.
Definition empty_string (s : string) : bool := String.eqb s "".

(** A type that is written with [json.Marshal] and read with [DecodeStrictInto]; [storable] says
    which values survive the trip (UTF-8 texts, integers of their width). *)
Class GoJSON (A : Type) := {
  go_shape : shape;
  to_json : A -> json;
  of_json : json -> option A;
  storable : A -> bool;
}.

(** A type that is only decoded. *)
Definition read_only {A} (sh : shape) (dec : json -> option A) : GoJSON A :=
  {| go_shape := sh; to_json := fun _ => JNull; of_json := dec; storable := fun _ => false |}.

Definition DecodeStrictInto {A} `{GoJSON A} (raw : bytes) (maxBytes : Z) : result A :=
  if (maxBytes <=? 0) || bool_decide (raw = []) || (maxBytes <? zlen raw)
  then Err "JSON input is empty or exceeds its limit" else
  match json_parse raw with
  | None => Err "invalid JSON"
  | Some v =>
      let* _ := validateJSONValue go_shape 0 v in
      opt_ok (of_json v) "JSON value does not fit its field"
  end.

(** What the round trip relies on. [depth] bounds the nesting of the type. *)
Class GoJSONLaws (A : Type) `{GoJSON A} (depth : nat) := {
  to_json_ok a : storable a = true -> json_ok (to_json a);
  to_json_shape a d : storable a = true -> (d + depth <= 32)%nat ->
    validateJSONValue go_shape d (to_json a) = Ok tt;
  of_to_json a : storable a = true -> of_json (to_json a) = Some a;
}.

(** ** Structs *)

Definition keys (ms : list member) : list string := (fun m : member => m.1.1) <$> ms.

Lemma assoc_members (ms : list member) k (e : bool) (v : json) :
  NoDup (keys ms) -> assoc k ((fun m : member => (m.1.1, (m.1.2, m.2))) <$> ms) = Some (e, v) ->
  assoc k (members ms) = if e then None else Some v.
Proof.
  induction ms as [|[[k' e'] v'] ms IH]; [done|]. unfold keys. rewrite !fmap_cons, NoDup_cons. simpl.
  intros [Hni Hnd]. destruct (String.eqb_spec k k') as [->|Hne].
  - intros [= -> ->]. destruct e; simpl; [|by rewrite String.eqb_refl].
    clear IH Hnd. induction ms as [|[[k e] w] ms IH]; [done|]. simpl in *.
    rewrite not_elem_of_cons in Hni. destruct Hni as [Hk Hni].
    destruct e; simpl; [by apply IH|]. rewrite (proj2 (String.eqb_neq _ _)) by done. by apply IH.
  - intros Ha. destruct e'; simpl; [by apply IH|].
    rewrite (proj2 (String.eqb_neq _ _)) by done. by apply IH.
Qed.

(** Reading the field named [k] of a written struct. *)
Lemma field_members {A} (ms : list member) k (dec : json -> option A) zero (e : bool) (v : json) :
  NoDup (keys ms) -> assoc k ((fun m : member => (m.1.1, (m.1.2, m.2))) <$> ms) = Some (e, v) ->
  field (members ms) k dec zero = if e then Some zero else dec v.
Proof. intros Hnd Ha. unfold field. rewrite (assoc_members ms k e v) by done. by destruct e. Qed.

Lemma json_ok_members ms :
  Forall (fun m : member => m.1.2 = false -> utf8_valid m.1.1 = true /\ json_ok m.2) ms -> json_ok (obj ms).
Proof.
  intros H. apply json_ok_obj. induction H as [|[[k e] v] ms Hm _ IH]; [constructor|].
  simpl in *. destruct e; [done|]. constructor; [by apply Hm | done].
Qed.

Lemma seenb_false k seen : k ∉ seen -> seenb k seen = false.
Proof.
  unfold seenb. induction seen as [|x seen IH]; [done|].
  rewrite not_elem_of_cons. intros [? ?]. simpl.
  rewrite (proj2 (String.eqb_neq _ _)) by done. by apply IH.
Qed.

Lemma seenb_true k seen : seenb k seen = true <-> k ∈ seen.
Proof.
  unfold seenb. rewrite existsb_exists. split.
  - intros (x & Hx & ->%String.eqb_eq). by apply list_elem_of_In.
  - intros Hx%list_elem_of_In. exists k. split; [done | apply String.eqb_refl].
Qed.

Lemma check_members_ok check seen fs :
  check_members check seen fs = Ok tt <->
  NoDup (fst <$> fs) /\ (forall k v, (k, v) ∈ fs -> k ∉ seen /\ check k v = Ok tt).
Proof.
  revert seen. induction fs as [|[k v] fs IH]; intros seen.
  { split; [|done]. intros _. split; [constructor | by intros ? ? ?%not_elem_of_nil]. }
  cbn [check_members]. rewrite fmap_cons, NoDup_cons. cbn [fst]. split.
  - intros H. destruct (seenb k seen) eqn:E; [done|]. destruct (check k v) as [[]|] eqn:Ec; [|done].
    assert (k ∉ seen) by (rewrite <- seenb_true; congruence).
    apply IH in H as [Hnd Hall]. split; [split; [|done]|].
    + intros ([k' v'] & -> & Hin)%list_elem_of_fmap. destruct (Hall _ _ Hin) as [Hn _]. apply Hn. left.
    + intros k' v' [[= -> ->] | Hin]%elem_of_cons; [done|].
      destruct (Hall _ _ Hin) as [Hn ?]. split; [|done]. intros ?. apply Hn. by right.
  - intros [[Hni Hnd] Hall]. destruct (Hall k v ltac:(left)) as [Hn ->].
    rewrite seenb_false by done. apply IH. split; [done|]. intros k' v' Hin.
    destruct (Hall k' v' ltac:(by right)) as [Hn' ?]. split; [|done].
    rewrite not_elem_of_cons. split; [|done]. intros ->. apply Hni. apply list_elem_of_fmap. by exists (k, v').
Qed.

Lemma check_elements_ok check vs : check_elements check vs = Ok tt <-> Forall (fun v => check v = Ok tt) vs.
Proof.
  induction vs as [|v vs IH]; [split; constructor|]. cbn [check_elements]. rewrite Forall_cons, <- IH.
  destruct (check v) as [[]|]; [tauto|]. split; [done | by intros [? _]].
Qed.

Lemma keys_members ms : NoDup (keys ms) -> NoDup (fst <$> members ms).
Proof.
  intros Hnd. induction ms as [|[[k e] v] ms IH]; [constructor|].
  unfold keys in Hnd. rewrite fmap_cons in Hnd. apply NoDup_cons in Hnd as [Hni Hnd]. cbn [fst] in Hni. simpl.
  destruct e; [by apply IH|]. rewrite fmap_cons, NoDup_cons. split; [|by apply IH]. cbn [fst].
  intros ([k' v'] & -> & Hin)%list_elem_of_fmap. apply Hni. clear -Hin.
  induction ms as [|[[k e] w] ms IH]; simpl in *; [by apply not_elem_of_nil in Hin|].
  destruct e; [right; by apply IH|]. apply elem_of_cons in Hin as [[= <- <-] | Hin]; [left | right; by apply IH].
Qed.

Lemma elem_of_members k v ms : (k, v) ∈ members ms -> (k, false, v) ∈ ms.
Proof.
  induction ms as [|[[k' e] w] ms IH]; simpl; [by intros ?%not_elem_of_nil|].
  destruct e; [intros; right; by apply IH|].
  intros [[= <- <-] | Hin]%elem_of_cons; [left | right; by apply IH].
Qed.

(** A written struct passes the strict validator. *)
Lemma validate_struct fields ms d :
  (d <= 32)%nat -> NoDup (keys ms) ->
  Forall (fun m : member => m.1.2 = false ->
    from_option (fun sh => validateJSONValue sh (S d) m.2 = Ok tt) False (assoc m.1.1 fields)) ms ->
  validateJSONValue (KStruct fields) d (obj ms) = Ok tt.
Proof.
  intros Hd Hnd HF. unfold obj. cbn [validateJSONValue strip_pointer].
  rewrite (proj2 (Nat.ltb_ge 32 d)) by lia.
  apply check_members_ok. split; [by apply keys_members|]. intros k v Hin%elem_of_members.
  split; [apply not_elem_of_nil|]. rewrite Forall_forall in HF. specialize (HF _ Hin eq_refl). cbn [fst snd] in HF.
  by destruct (assoc k fields).
Qed.

Lemma validate_slice elem vs d :
  (d <= 32)%nat -> Forall (fun v => validateJSONValue elem (S d) v = Ok tt) vs ->
  validateJSONValue (KSlice elem) d (JArr vs) = Ok tt.
Proof.
  intros Hd HF. cbn [validateJSONValue strip_pointer]. rewrite (proj2 (Nat.ltb_ge 32 d)) by lia.
  by apply check_elements_ok.
Qed.

Lemma validate_leaf d v sh :
  (d <= 32)%nat -> match sh, v with KString, JStr _ | KBool, JBool _ | KInt, JNum _ => True | _, _ => False end ->
  validateJSONValue sh d v = Ok tt.
Proof.
  intros Hd H. destruct v, sh; try done;
    cbn [validateJSONValue strip_pointer]; by rewrite (proj2 (Nat.ltb_ge 32 d)) by lia.
Qed.

(** A pointer to a value is validated as the value. *)
Lemma validate_pointer sh d v :
  v <> JNull -> validateJSONValue (KPointer sh) d v = validateJSONValue sh d v.
Proof. destruct v; done. Qed.

Lemma validate_null sh d : (d <= 32)%nat -> allow_null sh = true -> validateJSONValue sh d JNull = Ok tt.
Proof. intros Hd Hn. simpl. by rewrite (proj2 (Nat.ltb_ge 32 d)), Hn by lia. Qed.

(** ** Fields *)

Definition in_int64b (z : Z) : bool := (- 2 ^ 63 <=? z) && (z <? 2 ^ 63).

Lemma dec_int_json z : in_int64b z = true -> dec_int (json_int z) = Some z.
Proof. intros Hz. unfold dec_int, json_int. rewrite parse_int_itoa. fold (in_int64b z). by rewrite Hz. Qed.

Lemma in_u64b_true z : in_u64b z = true <-> in_u64 z.
Proof. unfold in_u64b, in_u64. rewrite andb_true_iff, Z.leb_le, Z.ltb_lt. done. Qed.

Lemma dec_u64_json z : in_u64b z = true -> dec_u64 (json_int z) = Some z.
Proof.
  intros Hz. unfold dec_u64, json_int. pose proof (parse_int_itoa z) as H.
  apply in_u64b_true in Hz as Hr. unfold itoa in *. destruct (z <? 0) eqn:E; breflect; [unfold in_u64 in Hr; lia|].
  destruct (itoa_abs_head z E) as (b & t & Eb & Hd). rewrite Eb in *. cbn [parse_int] in H.
  unfold digit in Hd. breflect. rewrite (proj2 (Z.eqb_neq _ 45)) in H by lia. by rewrite H, Hz.
Qed.

Lemma omit_string s : (if empty_string s then Some ""%string else dec_string (JStr s)) = Some s.
Proof. unfold empty_string. destruct (String.eqb_spec s ""); simpl; congruence. Qed.
Lemma omit_bool b : (if negb b then Some false else dec_bool (JBool b)) = Some b.
Proof. by destruct b. Qed.
Lemma omit_u64 z : in_u64b z = true -> (if z =? 0 then Some 0 else dec_u64 (json_int z)) = Some z.
Proof. intros. destruct (z =? 0) eqn:E; breflect; [by subst | by apply dec_u64_json]. Qed.

Lemma omit_int z : in_int64b z = true -> (if z =? 0 then Some 0 else dec_int (json_int z)) = Some z.
Proof. intros H. rewrite dec_int_json by done. destruct (Z.eqb_spec z 0) as [-> |]; done. Qed.
Lemma omit_ptr {A} (dec : json -> option A) enc p :
  (forall a, p = Some a -> dec (enc a) = Some a /\ enc a <> JNull) ->
  (if nil_ptr p then Some None else dec_ptr dec (enc_ptr enc p)) = Some p.
Proof.
  destruct p as [a|]; [|done]. intros H. destruct (H a eq_refl) as [Hd Hn].
  simpl. unfold dec_ptr. destruct (enc a); rewrite ?Hd; done.
Qed.

Lemma mapM_dec {A} (dec : json -> option A) enc l :
  Forall (fun a => dec (enc a) = Some a) l -> mapM dec (enc <$> l) = Some l.
Proof. induction 1 as [|a l Ha _ IH]; [done|]. rewrite fmap_cons. simpl. rewrite Ha. simpl. by rewrite IH. Qed.

(** A slice survives unless it is empty but not nil, which [omitempty] turns into nil. *)
Definition slice_ok {A} (ok : A -> bool) (s : option (list A)) : bool :=
  match s with None => true | Some l => negb (bool_decide (length l = 0%nat)) && forallb ok l end.

Lemma omit_slice {A} (dec : json -> option A) enc (ok : A -> bool) s :
  slice_ok ok s = true -> (forall a, ok a = true -> dec (enc a) = Some a) ->
  (if nil_slice s then Some None else dec_slice dec (enc_slice enc s)) = Some s.
Proof.
  destruct s as [l|]; [|done]. simpl. intros H Hdec. breflect.
  destruct l as [|a l]; [done|]. unfold dec_slice, enc_slice. simpl from_option.
  rewrite mapM_dec; [done|]. apply Forall_forall. intros x Hx. apply Hdec.
  rewrite forallb_forall in H0. by apply H0, list_elem_of_In.
Qed.

(** Slices of a type with the contract; [forallb storable] says that their elements survive. *)
Section slices.
Context {A : Type} {depth : nat} `{GoJSON A} `{!GoJSONLaws A depth}.
Implicit Types s : option (list A).

Definition storable_slice s : bool := from_option (forallb storable) true s.

Lemma storable_elem s l a : storable_slice s = true -> s = Some l -> a ∈ l -> storable a = true.
Proof. intros Hs -> Ha. simpl in Hs. rewrite forallb_forall in Hs. by apply Hs, list_elem_of_In. Qed.

Lemma json_ok_slice s : storable_slice s = true -> json_ok (enc_slice to_json s).
Proof.
  destruct s as [l|]; [|done]. intros Hs. apply json_ok_arr, Forall_fmap, Forall_forall.
  intros a Ha. apply to_json_ok. by eapply storable_elem.
Qed.

Lemma validate_enc_slice s d :
  storable_slice s = true -> (d + S depth <= 32)%nat ->
  validateJSONValue (KSlice go_shape) d (enc_slice to_json s) = Ok tt.
Proof.
  destruct s as [l|]; intros Hs Hd; [|apply validate_null; [lia | done]].
  apply validate_slice; [lia|]. apply Forall_fmap, Forall_forall. intros a Ha.
  apply to_json_shape; [by eapply storable_elem | lia].
Qed.

Lemma dec_enc_slice s : storable_slice s = true -> dec_slice of_json (enc_slice to_json s) = Some s.
Proof.
  destruct s as [l|]; intros Hs; [|done]. simpl. rewrite mapM_dec; [done|].
  apply Forall_forall. intros a Ha. apply of_to_json. by eapply storable_elem.
Qed.
End slices.

(** Slices behind [omitempty], and pointers to structs. *)
Section omitted.
Context {A : Type} {depth : nat} `{GoJSON A} `{!GoJSONLaws A depth}.

Lemma slice_ok_storable (s : option (list A)) : slice_ok storable s = true -> storable_slice s = true.
Proof. destruct s; [|done]. simpl. intros H'. by breflect. Qed.

Lemma omit_storable_slice (s : option (list A)) :
  slice_ok storable s = true ->
  (if nil_slice s then Some None else dec_slice of_json (enc_slice to_json s)) = Some s.
Proof. intros Hs. apply (omit_slice _ _ storable); [done | apply of_to_json]. Qed.

Lemma json_ok_ptr (p : option A) : from_option storable true p = true -> json_ok (enc_ptr to_json p).
Proof. destruct p; [apply to_json_ok | done]. Qed.

Lemma validate_enc_ptr (p : option A) d :
  from_option storable true p = true -> (d + S depth <= 32)%nat ->
  validateJSONValue (KPointer go_shape) d (enc_ptr to_json p) = Ok tt.
Proof.
  destruct p as [a|]; intros Hs Hd; [|apply validate_null; [lia | done]]. simpl in *.
  destruct (to_json a) eqn:E; [apply validate_null; [lia | done]|..];
    rewrite validate_pointer by done; rewrite <- E; (apply to_json_shape; [done | lia]).
Qed.

Lemma omit_storable_ptr (p : option A) :
  from_option storable true p = true -> (forall a, to_json a <> JNull) ->
  (if nil_ptr p then Some None else dec_ptr of_json (enc_ptr to_json p)) = Some p.
Proof. intros Hs Hn. apply omit_ptr. intros a ->. split; [by apply of_to_json | done]. Qed.
End omitted.

(** Decoding the text of a value. *)
Lemma DecodeStrictInto_print {A} `{GoJSON A} (v : json) (a : A) maxBytes : json_ok v -> validateJSONValue go_shape 0 v = Ok tt -> of_json v = Some a ->
  zlen (json_print v) <= maxBytes -> DecodeStrictInto (json_print v) maxBytes = Ok a.
Proof.
  intros Hok Hv Ha Hmax. destruct (json_print_head _ Hok) as (c & t & Ep & _). unfold DecodeStrictInto.
  assert (0 < zlen (json_print v)) as Hpos by (rewrite Ep, zlen_cons; pose proof (zlen_nonneg t); lia).
  rewrite (proj2 (Z.leb_gt _ _)), (proj2 (Z.ltb_ge _ _)), bool_decide_false by (lia || (rewrite Ep; done)). cbn [orb].
  by rewrite json_parse_print, Hv, Ha.
Qed.

(** A text whose strings are not UTF-8 is decoded as the value it is read back as. *)
Lemma DecodeStrictInto_reread {A} `{GoJSON A} (v w : json) (a b : A) maxBytes :
  json_shown v -> reread v = w -> of_json w = Some a -> DecodeStrictInto (json_print v) maxBytes = Ok b -> b = a.
Proof.
  intros Hv <- Ha. unfold DecodeStrictInto. destruct (_ || _); [done|]. rewrite json_parse_shown by done.
  destruct (validateJSONValue _ _ _); [|done]. cbn. rewrite Ha. cbn. congruence.
Qed.

Lemma reread_struct (ms ms' : list member) :
  Forall2 (fun m m' => m.1 = m'.1 /\ reread m.2 = reread m'.2) ms ms' -> reread (obj ms) = reread (obj ms').
Proof.
  unfold obj. cbn [reread]. intros Hm. f_equal. induction Hm as [|[[k e] v] [[k' e'] v'] ms ms' [E Ev] _ IH]; [done|].
  cbn [fst snd] in *. injection E as -> ->. cbn [members]. destruct e'; [done|]. rewrite !fmap_cons, IH. cbn [fst snd]. by rewrite Ev.
Qed.

(** The round trip through a file, against the contract. *)
Section round_trip.
Context {A : Type} {depth : nat} `{GoJSON A} `{!GoJSONLaws A depth}.

Lemma DecodeStrictInto_marshal a tail maxBytes :
  storable a = true -> (depth <= 32)%nat -> tail = [] \/ tail = [byte_of_Z 10] ->
  zlen (json_print (to_json a) ++ tail) <= maxBytes ->
  DecodeStrictInto (json_print (to_json a) ++ tail) maxBytes = Ok a.
Proof.
  intros Hs Hd Ht Hmax. pose proof (to_json_ok a Hs) as Hok.
  destruct (json_print_head _ Hok) as (c & t & Ep & _).
  unfold DecodeStrictInto.
  assert (0 < zlen (json_print (to_json a) ++ tail)) as Hpos
    by (rewrite Ep; cbn [app]; rewrite zlen_cons; pose proof (zlen_nonneg (t ++ tail)); lia).
  rewrite (proj2 (Z.leb_gt _ _)), (proj2 (Z.ltb_ge _ _)), bool_decide_false by (lia || (rewrite Ep; done)).
  cbn [orb].
  assert (json_parse (json_print (to_json a) ++ tail) = Some (to_json a)) as ->.
  { destruct Ht as [-> | ->]; [rewrite app_nil_r; by apply json_parse_print | by apply json_parse_encode]. }
  rewrite (to_json_shape (A := A) a 0) by (done || lia). rewrite (of_to_json (A := A) a) by done. done.
Qed.
End round_trip.

(** ** What strict decoding accepts

    [strict sh v] states the documented contract, without depth or order of checks. *)

Inductive unique_keys : json -> Prop :=
| uk_leaf v : match v with JArr _ | JObj _ => False | _ => True end -> unique_keys v
| uk_arr vs : (forall v, v ∈ vs -> unique_keys v) -> unique_keys (JArr vs)
| uk_obj fs : NoDup (fst <$> fs) -> (forall k v, (k, v) ∈ fs -> unique_keys v) -> unique_keys (JObj fs).

Inductive strict : shape -> json -> Prop :=
| strict_null sh : allow_null sh = true -> strict sh JNull
| strict_pointer sh v : strict sh v -> strict (KPointer sh) v
| strict_string s : strict KString (JStr s)
| strict_bool b : strict KBool (JBool b)
| strict_int lit : strict KInt (JNum lit)
| strict_struct fields fs :
    NoDup (fst <$> fs) -> (forall k v, (k, v) ∈ fs -> exists sh, assoc k fields = Some sh /\ strict sh v) ->
    strict (KStruct fields) (JObj fs)
| strict_slice sh vs : (forall v, v ∈ vs -> strict sh v) -> strict (KSlice sh) (JArr vs)
| strict_map sh fs :
    NoDup (fst <$> fs) -> (forall k v, (k, v) ∈ fs -> strict sh v) -> strict (KMap sh) (JObj fs)
| strict_raw v : unique_keys v -> strict KRawMessage v.

Fixpoint jdepth (v : json) : nat :=
  match v with
  | JArr vs => S (foldr (fun v acc => max (jdepth v) acc) 0 vs)
  | JObj fs => S (foldr (fun f acc => max (jdepth f.2) acc) 0 fs)
  | _ => 1
  end%nat.

Lemma jdepth_pos v : (1 <= jdepth v)%nat.
Proof. destruct v; simpl; lia. Qed.
Lemma jdepth_arr vs d :
  (d + jdepth (JArr vs) <= 33 <-> d <= 32 /\ forall v, v ∈ vs -> S d + jdepth v <= 33)%nat.
Proof.
  rewrite <- Forall_forall. cbn [jdepth].
  induction vs as [|v vs [IH1 IH2]]; cbn [foldr]; [rewrite Forall_nil; split; [intros; split; [lia | done] | lia]|].
  rewrite Forall_cons. split.
  - intros Hj. destruct IH1 as [? ?]; [lia|]. split_and!; done || lia.
  - intros (Hd & Hv & HF). specialize (IH2 (conj Hd HF)). lia.
Qed.
Lemma jdepth_obj fs d :
  (d + jdepth (JObj fs) <= 33 <-> d <= 32 /\ forall k v, (k, v) ∈ fs -> S d + jdepth v <= 33)%nat.
Proof.
  transitivity (d <= 32 /\ Forall (fun f => (S d + jdepth f.2 <= 33)%nat) fs)%nat.
  - cbn [jdepth].
    induction fs as [|[k v] fs [IH1 IH2]]; cbn [foldr snd]; [rewrite Forall_nil; split; [intros; split; [lia | done] | lia]|].
    rewrite Forall_cons. cbn [snd]. split.
    + intros Hj. destruct IH1 as [? ?]; [lia|]. split_and!; done || lia.
    + intros (Hd & Hv & HF). specialize (IH2 (conj Hd HF)). lia.
  - rewrite Forall_forall. split; intros [? H]; (split; [done|]); [intros k v; apply H | intros [k v]; apply H].
Qed.

(** The two nested cases of both validators. *)
Lemma elements_iff (P : json -> Prop) check vs d :
  (d <= 32)%nat -> (forall v, v ∈ vs -> check v = Ok tt <-> P v /\ (S d + jdepth v <= 33)%nat) ->
  check_elements check vs = Ok tt <-> (forall v, v ∈ vs -> P v) /\ (d + jdepth (JArr vs) <= 33)%nat.
Proof.
  intros Hd H. rewrite check_elements_ok, jdepth_arr, Forall_forall. split.
  - intros Hall. split; [|split; [done|]]; intros v Hv; by apply H, Hall.
  - intros (HP & _ & Hj) v Hv. apply H; auto.
Qed.
Lemma members_iff (P : string -> json -> Prop) check fs d :
  (d <= 32)%nat -> (forall k v, (k, v) ∈ fs -> check k v = Ok tt <-> P k v /\ (S d + jdepth v <= 33)%nat) ->
  check_members check [] fs = Ok tt <->
  NoDup (fst <$> fs) /\ (forall k v, (k, v) ∈ fs -> P k v) /\ (d + jdepth (JObj fs) <= 33)%nat.
Proof.
  intros Hd H. rewrite check_members_ok, jdepth_obj. split.
  - intros [Hnd Hall]. split; [done|]. split; [|split; [done|]]; intros k v Hv; by apply (H _ _ Hv), (Hall _ _ Hv).
  - intros (Hnd & HP & _ & Hj). split; [done|]. intros k v Hv. split; [apply not_elem_of_nil|].
    apply (H _ _ Hv). eauto.
Qed.

Lemma validateArbitraryJSON_iff v d :
  validateArbitraryJSON d v = Ok tt <-> unique_keys v /\ (d + jdepth v <= 33)%nat.
Proof.
  destruct (Nat.ltb 32 d) eqn:Hd.
  { pose proof (jdepth_pos v). split; [destruct v; simpl; by rewrite Hd | apply Nat.ltb_lt in Hd; lia]. }
  apply Nat.ltb_ge in Hd. revert d Hd.
  induction v as [|b|lit|s|vs IH|fs IH] using json_ind'; intros d Hd;
    cbn [validateArbitraryJSON]; rewrite (proj2 (Nat.ltb_ge 32 d)) by lia;
    try (split; [intros _; split; [by constructor | simpl; lia] | done]).
  - rewrite (elements_iff unique_keys _ _ d Hd).
    + split; intros [Hu Hj]; (split; [|done]); [by constructor | by inversion Hu; subst].
    + intros v Hv. rewrite Forall_forall in IH. destruct (decide (S d <= 32)%nat); [by apply IH|].
      pose proof (jdepth_pos v). split; [destruct v; simpl; by rewrite (proj2 (Nat.ltb_lt 32 (S d))) by lia | lia].
  - rewrite (members_iff (fun _ => unique_keys) _ _ d Hd).
    + split; [intros (? & ? & ?); split; [by constructor | done]|].
      intros [Hu Hj]. inversion Hu; subst; done.
    + intros k v Hv. rewrite Forall_forall in IH. destruct (decide (S d <= 32)%nat); [by apply (IH _ Hv)|].
      pose proof (jdepth_pos v). split; [destruct v; simpl; by rewrite (proj2 (Nat.ltb_lt 32 (S d))) by lia | lia].
Qed.

Lemma strict_strip sh v : v <> JNull -> strict sh v <-> strict (strip_pointer sh) v.
Proof.
  intros Hv. induction sh as [| | | | | |sh IH|]; try done. simpl. rewrite <- IH. split; [|by constructor].
  inversion 1; subst; [done | done].
Qed.

Lemma strip_pointer_strip sh e : strip_pointer sh <> KPointer e.
Proof. by induction sh. Qed.

Lemma validate_too_deep sh d v : (32 < d)%nat -> validateJSONValue sh d v <> Ok tt.
Proof. intros Hd. destruct v; simpl; by rewrite (proj2 (Nat.ltb_lt 32 d)). Qed.

Lemma within_depth v sh d :
  ((d <= 32)%nat -> validateJSONValue sh d v = Ok tt <-> strict sh v /\ (d + jdepth v <= 33)%nat) ->
  validateJSONValue sh d v = Ok tt <-> strict sh v /\ (d + jdepth v <= 33)%nat.
Proof.
  intros H. destruct (decide (32 < d)%nat) as [Hd|Hd]; [|apply H; lia].
  pose proof (jdepth_pos v). split; [by intros ?%validate_too_deep | lia].
Qed.

(** The validator decides [strict] together with the depth. *)
Lemma validateJSONValue_iff v sh d :
  validateJSONValue sh d v = Ok tt <-> strict sh v /\ (d + jdepth v <= 33)%nat.
Proof.
  apply within_depth. revert sh d.
  induction v as [|b|lit|s|vs IH|fs IH] using json_ind'; intros sh d Hd;
    cbn [validateJSONValue]; rewrite (proj2 (Nat.ltb_ge 32 d)) by lia;
    [|rewrite strict_strip by done; pose proof (strip_pointer_strip sh) as Hnp;
      destruct (strip_pointer sh) as [| | |fields|sh'|sh'|sh'|]; try (by exfalso; eapply Hnp);
      try (split; [done | intros [Hs _]; by inversion Hs]);
      try (rewrite (validateArbitraryJSON_iff _ d); split; intros [Hs ?]; (split; [|done]);
           [by constructor | by inversion Hs]);
      try (split; [intros _; split; [constructor | simpl; lia] | done])..].
  - destruct (allow_null sh) eqn:En; [split; [intros _; split; [by constructor | simpl; lia] | done]|].
    split; [done|]. intros [Hs _]. inversion Hs; subst; simpl in En; congruence.
  - rewrite (elements_iff (strict sh') _ _ d Hd).
    + split; intros [Hs Hj]; (split; [|done]); [by constructor | by inversion Hs].
    + intros v Hv. rewrite Forall_forall in IH. apply within_depth. intros. by apply IH.
  - rewrite (members_iff (fun k v => exists sh, assoc k fields = Some sh /\ strict sh v) _ _ d Hd).
    + split; [intros (? & ? & ?); split; [by constructor | done]|].
      intros [Hs Hj]. by inversion Hs.
    + intros k v Hv. rewrite Forall_forall in IH. destruct (assoc k fields) as [sh'|].
      * rewrite (within_depth v sh' (S d)) by (intros; by apply (IH _ Hv)).
        split; intros [H Hj]; (split; [|done]); [eauto | by destruct H as (? & [= ->] & ?)].
      * split; [done|]. by intros [(? & ? & ?) _].
  - rewrite (members_iff (fun _ => strict sh') _ _ d Hd).
    + split; [intros (? & ? & ?); split; [by constructor | done]|].
      intros [Hs Hj]. by inversion Hs.
    + intros k v Hv. rewrite Forall_forall in IH. apply within_depth. intros. by apply (IH _ Hv).
Qed.

Lemma strict_unique sh v : strict sh v -> unique_keys v.
Proof.
  revert sh. induction v as [|b|lit|s|vs IH|fs IH] using json_ind'; intros sh Hs; try by constructor.
  - apply uk_arr. intros v Hv. rewrite Forall_forall in IH. remember (JArr vs) as w eqn:E.
    induction Hs as [|? ? Hs IHs| | | | |? ? Hf| |? Hu]; simplify_eq.
    + by apply IHs.
    + by eapply IH, Hf.
    + inversion Hu; subst; [done | eauto].
  - rewrite Forall_forall in IH. remember (JObj fs) as w eqn:E.
    induction Hs as [|? ? Hs IHs| | | |? ? Hnd Hf| |? ? Hnd Hf|? Hu]; simplify_eq; [by apply IHs|..|done].
    + apply uk_obj; [done|]. intros k v Hv. destruct (Hf _ _ Hv) as (sh' & _ & Hs'). by apply (IH _ Hv _ Hs').
    + apply uk_obj; [done|]. intros k v Hv. by apply (IH _ Hv _ (Hf _ _ Hv)).
Qed.

Lemma DecodeStrictInto_intro {A} `{GoJSON A} raw maxBytes v (a : A) :
  0 < zlen raw <= maxBytes -> json_parse raw = Some v -> strict go_shape v -> (jdepth v <= 33)%nat ->
  of_json v = Some a -> DecodeStrictInto raw maxBytes = Ok a.
Proof.
  intros Hl Hp Hs Hj Ho. unfold DecodeStrictInto. rewrite Hp.
  assert (raw <> []) by (intros ->; unfold zlen in Hl; simpl in Hl; lia).
  rewrite (proj2 (Z.leb_gt maxBytes 0)), (proj2 (Z.ltb_ge maxBytes (zlen raw))), bool_decide_false by (done || lia).
  cbn [orb]. rewrite (proj2 (validateJSONValue_iff v go_shape 0)) by done. by rewrite Ho.
Qed.

(** C34: strict decoding accepts exactly the bounded texts of the destination's shape: one JSON value, known fields
    only, no member twice in any object at any depth, null only where a pointer, slice or map takes it, at most 33
    levels, every number within its field's width; and it returns what the text says. *)
Theorem DecodeStrictInto_iff {A} `{GoJSON A} raw maxBytes (a : A) :
  DecodeStrictInto raw maxBytes = Ok a <->
  0 < zlen raw <= maxBytes /\
  exists v, json_parse raw = Some v /\ strict go_shape v /\ (jdepth v <= 33)%nat /\ of_json v = Some a.
Proof.
  split; [|intros (? & ? & ? & ? & ? & ?); by eapply DecodeStrictInto_intro].
  unfold DecodeStrictInto. intros Hd. case_in Hd. breflect. pose proof (zlen_nonneg raw).
  assert (zlen raw <> 0) by (unfold zlen; destruct raw; [done | simpl; lia]).
  split; [lia|]. match goal with u : unit |- _ => destruct u end.
  match goal with Hv : validateJSONValue _ _ _ = Ok _ |- _ => apply validateJSONValue_iff in Hv as [? ?] end.
  unfold opt_ok in Hd. case_in Hd. simplify_eq. eauto.
Qed.

(** ** Sizes of written structs *)

(** The bytes of one member, its colon and separator included; nothing when it is left out. *)
Definition msize (m : member) : Z := if m.1.2 then 0 else member_size (m.1.1, m.2).

Lemma msize_nonneg m : 0 <= msize m.
Proof.
  destruct m as [[k e] v]. unfold msize, member_size. cbn [fst snd]. destruct e; [lia|].
  pose proof (zlen_nonneg (quote k)). pose proof (zlen_nonneg (json_print v)). lia.
Qed.

Lemma zlen_print_struct ms : zlen (json_print (obj ms)) = 1 + Z.max 1 (zsum msize ms).
Proof.
  unfold obj. rewrite zlen_print_obj. do 2 f_equal. unfold zsum. induction ms as [|[[k e] v] ms IH]; [done|].
  cbn [members foldr]. unfold msize at 1. cbn [fst snd]. destruct e; [lia|]. cbn [foldr]. by rewrite IH.
Qed.

(** A longer member makes a longer struct. *)
Lemma longer_member ms1 k v w ms2 : zlen (json_print v) < zlen (json_print w) ->
  zlen (json_print (obj (ms1 ++ always k v :: ms2))) < zlen (json_print (obj (ms1 ++ always k w :: ms2))).
Proof.
  intros H. rewrite !zlen_print_struct. assert (Hs : forall x, zsum msize (ms1 ++ always k x :: ms2) = zsum msize ms1 + msize (always k x) + zsum msize ms2).
  { intros x. unfold zsum. induction ms1 as [|m ms1 IH]; cbn [app foldr]; lia. }
  assert (Hn : forall ms, 0 <= zsum msize ms) by (intros ms; unfold zsum; induction ms as [|m ms IH]; cbn [foldr]; [lia | pose proof (msize_nonneg m); lia]).
  rewrite !Hs. pose proof (Hn ms1). pose proof (Hn ms2). change (msize (always k v)) with (zlen (quote k) + zlen (json_print v) + 2).
  change (msize (always k w)) with (zlen (quote k) + zlen (json_print w) + 2).
  pose proof (zlen_nonneg (json_print v)). pose proof (zlen_nonneg (quote k)). lia.
Qed.

Lemma msize_always k v : msize (always k v) = zlen (quote k) + zlen (json_print v) + 2.
Proof. done. Qed.
Lemma msize_omit k e v : msize (omitempty k e v) = if e then 0 else zlen (quote k) + zlen (json_print v) + 2.
Proof. done. Qed.

Lemma zlen_print_str s : zlen (json_print (JStr s)) = zlen (quote s).
Proof. done. Qed.
Lemma zlen_print_int z : zlen (json_print (json_int z)) = zlen (itoa z).
Proof. done. Qed.

Lemma zsum_msize_le ms bs : Forall2 (fun m b => msize m <= b) ms bs -> zsum msize ms <= foldr Z.add 0 bs.
Proof. unfold zsum. induction 1; cbn [foldr]; lia. Qed.

Lemma msize_str k (o : bool) s n : slen s <= n -> msize (k, o, JStr s) <= zlen (quote k) + 6 * n + 4.
Proof.
  intros Hs. unfold msize, member_size. cbn [fst snd]. rewrite zlen_print_str. pose proof (quote_size s). pose proof (slen_nonneg s).
  pose proof (zlen_nonneg (quote k)). destruct o; lia.
Qed.

Lemma msize_int k (o : bool) z : in_u64 z -> msize (k, o, json_int z) <= zlen (quote k) + 22.
Proof.
  intros Hz. unfold msize, member_size. cbn [fst snd]. rewrite zlen_print_int. pose proof (zlen_itoa_u64 z Hz). pose proof (zlen_nonneg (quote k)).
  destruct o; lia.
Qed.

Lemma zlen_itoa_i64 z : in_int64b z = true -> zlen (itoa z) <= 20.
Proof.
  unfold in_int64b. intros H. apply andb_true_iff in H as [H1 H2]. apply Z.leb_le in H1. apply Z.ltb_lt in H2. unfold itoa, zlen.
  destruct (z <? 0) eqn:E; [apply Z.ltb_lt in E | apply Z.ltb_ge in E].
  - assert (length (itoa_abs (- z)) <= 19)%nat by (apply digits_length; simpl in *; lia). cbn [length]. lia.
  - assert (length (itoa_abs z) <= 19)%nat by (apply digits_length; simpl in *; lia). lia.
Qed.

Lemma msize_i64 k (o : bool) z : in_int64b z = true -> msize (k, o, json_int z) <= zlen (quote k) + 22.
Proof.
  intros Hz. unfold msize, member_size. cbn [fst snd]. rewrite zlen_print_int. pose proof (zlen_itoa_i64 z Hz). pose proof (zlen_nonneg (quote k)). destruct o; lia.
Qed.

Lemma msize_bool k (o : bool) b : msize (k, o, JBool b) <= zlen (quote k) + 7.
Proof.
  unfold msize, member_size. cbn [fst snd]. pose proof (zlen_nonneg (quote k)). assert (zlen (json_print (JBool b)) <= 5) by (destruct b; vm_compute; congruence).
  destruct o; lia.
Qed.

Lemma msize_any k (o : bool) v n : zlen (json_print v) <= n -> msize (k, o, v) <= zlen (quote k) + n + 2.
Proof.
  intros H. unfold msize, member_size. cbn [fst snd]. pose proof (zlen_nonneg (json_print v)). pose proof (zlen_nonneg (quote k)). destruct o; lia.
Qed.

(** A slice of [n] values of at most [b] bytes. *)
Lemma slice_size {A} (enc : A -> json) (s : option (list A)) n b :
  0 <= b -> zlen (default [] s) <= n -> (forall a, a ∈ default [] s -> zlen (json_print (enc a)) <= b) -> zlen (json_print (enc_slice enc s)) <= n * (b + 1) + 4.
Proof.
  intros Hb Hn H. destruct s as [l|]; cbn [default from_option id enc_slice] in *; [|change (zlen (json_print JNull)) with 4; change (zlen (@nil A)) with 0 in Hn; nia].
  rewrite zlen_print_arr. pose proof (zlen_nonneg l).
  assert (zsum (fun v => zlen (json_print v) + 1) (enc <$> l) <= zlen l * (b + 1)); [|nia].
  clear Hn. unfold zsum. induction l as [|a l IH]; [done|]. rewrite fmap_cons, zlen_cons. cbn [foldr]. pose proof (H a ltac:(left)).
  pose proof (IH (fun x Hx => H x ltac:(by right)) (zlen_nonneg l)). nia.
Qed.

Lemma str_size s n : slen s <= n -> zlen (json_print (JStr s)) <= 6 * n + 2.
Proof. intros H. rewrite zlen_print_str. pose proof (quote_size s). lia. Qed.

(** [struct_bound] bounds the text of a struct from bounds on its members among the hypotheses. *)
Ltac member_bound := match goal with
  | |- msize (_, _, JStr _) <= _ => eapply msize_str; eassumption
  | |- msize (_, _, json_int _) <= _ => first [eapply msize_int; (eassumption || (unfold in_u64; lia)) | eapply msize_i64; eassumption]
  | |- msize (_, _, JBool _) <= _ => eapply msize_bool
  | H : zlen (json_print ?v) <= _ |- msize (_, _, ?v) <= _ => exact (msize_any _ _ _ _ H)
  end.
Ltac struct_bound :=
  rewrite zlen_print_struct; unfold always, omitempty;
  match goal with |- 1 + Z.max 1 (zsum msize ?ms) <= _ =>
    let H := fresh in
    eassert (H : zsum msize ms <= _);
    [ apply zsum_msize_le; repeat (apply Forall2_cons_2; [member_bound|]); apply Forall2_nil_2
    | vm_compute foldr in H; clear - H; lia ]
  end.

(** ** Bounded texts *)

Definition text_ok (n : Z) (s : string) : Prop := utf8_valid s = true /\ slen s <= n.

Lemma text_plain n s : all_bytes plain_byte s = true -> slen s <= n -> text_ok n s.
Proof. split; [by apply plain_utf8 | done]. Qed.

(** ** Automation for structs

    [struct_read] reads every field of a written struct back, [struct_ok] and [struct_shape] reduce the other two
    laws of [GoJSONLaws] to the fields. *)

Create Rewrite HintDb json.
#[export] Hint Rewrite omit_string omit_bool : json.

Ltac nodup_keys := apply (bool_decide_unpack _); vm_compute; exact I.
Ltac struct_read :=
  unfold obj; repeat (erewrite field_members; [|nodup_keys|reflexivity]);
  cbn [always omitempty fst snd]; autorewrite with json; cbn [dec_string dec_bool mbind option_bind].
Ltac each_member tac :=
  repeat first [apply Forall_nil_2 | apply Forall_cons_2; [cbn [fst snd always omitempty assoc String.eqb Ascii.eqb Bool.eqb from_option]; tac|]].
Ltac struct_ok tac := apply json_ok_members; each_member ltac:(intros _; split; [vm_compute; reflexivity | tac]).
Ltac member_ok := first
  [ done | by eexists | by apply to_json_ok | by apply json_ok_slice | by apply json_ok_slice, slice_ok_storable
  | by apply json_ok_ptr ].
Ltac member_shape := first
  [ by apply validate_leaf; [lia|] | by apply to_json_shape; [|lia]
  | by apply validate_enc_slice; [|lia] | by apply validate_enc_slice; [apply slice_ok_storable|lia]
  | by apply validate_enc_ptr; [|lia] ].
Ltac struct_shape tac :=
  apply validate_struct; [lia | nodup_keys | each_member ltac:(intros _; tac)].

(** [struct_laws]: the three laws of a struct, from the laws of its fields. *)
Ltac unfold_json := match goal with
  | H : context [@storable _ ?I _] |- _ => let I' := eval red in I in
      change I with I' in *; cbn [storable to_json of_json go_shape] in *
  end.
Ltac field_back := first
  [ rewrite omit_u64 by assumption | rewrite omit_int by assumption | rewrite dec_u64_json by assumption | rewrite dec_int_json by assumption
  | rewrite of_to_json by assumption | rewrite omit_storable_slice by assumption
  | rewrite dec_enc_slice by assumption | rewrite omit_storable_ptr by (assumption || done) ].
Ltac struct_laws :=
  split;
  [ intros r H; unfold_json; breflect; struct_ok ltac:(member_ok)
  | intros r d H Hd; unfold_json; breflect; struct_shape ltac:(member_shape)
  | intros r H; unfold_json; breflect; struct_read;
    repeat (field_back; cbn [mbind option_bind]); by destruct r ].

(** Texts. *)
#[global] Instance string_json : GoJSON string := {
  go_shape := KString; to_json := JStr; of_json := dec_string; storable := utf8_valid }.

#[global] Instance string_laws : GoJSONLaws string 0.
Proof. split; [done | intros; apply validate_leaf; [lia | done] | done]. Qed.
