(* ===== verification/Dsse.v ===== *)
(** * DSSE envelopes ([src/internal/dsse/dsse.go])

    The signed artifacts of Steward: the pre-authentication encoding that is signed, the envelope and its
    strict parser, signing, adding a signature, and the two verifiers. Ed25519 is a parameter; the facts
    the code relies on are hypotheses of the theorems that need them. *)

From Stdlib Require Import Ascii.
From S2P Require Import Prelude GoText GoJson GoCrypto Strict.

Module Dsse.

Definition DefaultMaxEnvelopeBytes : Z := Z.shiftl 1 20.
Definition MaxPayloadBytes : Z := Z.shiftl 512 10.
Definition PublicKeySize : Z := 32.
Definition PrivateKeySize : Z := 64.
Definition SignatureSize : Z := 64.

Record Signature := mkSignature { KeyID : string; Sig : string }.
Record Envelope := mkEnvelope { PayloadType : string; Payload : string; Signatures : option (list Signature) }.

#[global] Instance Signature_eq_dec : EqDecision Signature.
Proof. solve_decision. Defined.
#[global] Instance Envelope_eq_dec : EqDecision Envelope.
Proof. solve_decision. Defined.

(** ** JSON *)

#[global] Instance Signature_json : GoJSON Signature := {
  go_shape := KStruct [("keyid", KString); ("sig", KString)]%string;
  to_json s := obj [always "keyid" (JStr (KeyID s)); always "sig" (JStr (Sig s))];
  of_json v := match v with
    | JObj fs =>
        keyid ← field fs "keyid" dec_string ""%string;
        sig ← field fs "sig" dec_string ""%string;
        Some (mkSignature keyid sig)
    | _ => None end;
  storable s := utf8_valid (KeyID s) && utf8_valid (Sig s);
}.

#[global] Instance Envelope_json : GoJSON Envelope := {
  go_shape := KStruct [("payloadType", KString); ("payload", KString);
                       ("signatures", KSlice (go_shape (A := Signature)))]%string;
  to_json e := obj [always "payloadType" (JStr (PayloadType e)); always "payload" (JStr (Payload e));
                    always "signatures" (enc_slice to_json (Signatures e))];
  of_json v := match v with
    | JObj fs =>
        payloadType ← field fs "payloadType" dec_string ""%string;
        payload ← field fs "payload" dec_string ""%string;
        signatures ← field fs "signatures" (dec_slice of_json) None;
        Some (mkEnvelope payloadType payload signatures)
    | _ => None end;
  storable e := utf8_valid (PayloadType e) && utf8_valid (Payload e)
                && storable_slice (Signatures e);
}.

(** ** Operations *)

Definition itoa_string (z : Z) : string := string_of (itoa z).

Definition PAE (payloadType : string) (payload : bytes) : bytes :=
  bytes_of "DSSEv1 " ++ itoa (slen payloadType) ++ bytes_of " " ++ bytes_of payloadType
  ++ bytes_of " " ++ itoa (zlen payload) ++ bytes_of " " ++ payload.

(** [strings.TrimSpace(v) == "" || len(v) > 256 || strings.ContainsRune(v, '\x00')], negated. *)
Definition valid_name (v : string) : bool :=
  negb (bool_decide (trim_space v = ""%string)) && negb (256 <? slen v) && negb (contains_byte v 0).

Definition sigs (e : Envelope) : list Signature := default [] (Signatures e).

Fixpoint validate_signatures (seen : list string) (l : list Signature) : result unit :=
  match l with
  | [] => Ok tt
  | s :: l =>
      require valid_name (KeyID s) else "invalid signature key ID" in
      require negb (seenb (KeyID s) seen) else "duplicate signature key ID" in
      require negb ((slen (Sig s) =? 0) || (b64_encoded_len SignatureSize <? slen (Sig s)))
        else "invalid signature" in
      validate_signatures (KeyID s :: seen) l
  end.

Definition validateEnvelope (e : Envelope) : result unit :=
  require valid_name (PayloadType e) else "invalid payload type" in
  require negb ((slen (Payload e) =? 0) || (b64_encoded_len MaxPayloadBytes <? slen (Payload e)))
    else "invalid payload length" in
  require negb ((zlen (sigs e) =? 0) || (16 <? zlen (sigs e))) else "invalid signature count" in
  validate_signatures [] (sigs e).

Definition Marshal (e : Envelope) : result bytes :=
  let* _ := validateEnvelope e in Ok (json_print (to_json e)).

Definition Parse (raw : bytes) : result Envelope :=
  let* envelope := DecodeStrictInto raw DefaultMaxEnvelopeBytes in
  let* _ := validateEnvelope envelope in Ok envelope.

(** [dsse.Digest]. *)
Definition Digest (raw : bytes) : string := "sha256:" +:+ string_of (hex_encode (Sha256.sum raw)).

Definition key_le (a b : Signature) : Prop := String.le (KeyID a) (KeyID b).
#[global] Instance key_le_dec : RelDecision key_le.
Proof. intros a b. unfold key_le. apply _. Defined.

Section Ed25519.
Context (sign : bytes -> bytes -> bytes) (verify : bytes -> bytes -> bytes -> bool).

Definition Sign (payloadType : string) (payload : bytes) (keyID : string) (privateKey : bytes) : result Envelope :=
  require valid_name payloadType else "invalid payload type" in
  require valid_name keyID else "invalid key ID" in
  require zlen privateKey =? PrivateKeySize else "invalid private key" in
  require negb (MaxPayloadBytes <? zlen payload) else "payload exceeds limit" in
  let signature := sign privateKey (PAE payloadType payload) in
  Ok (mkEnvelope payloadType (b64_encode_string payload) (Some [mkSignature keyID (b64_encode_string signature)])).

Definition AddSignature (envelope : Envelope) (keyID : string) (privateKey : bytes) : result Envelope :=
  let* _ := validateEnvelope envelope in
  require valid_name keyID && (zlen privateKey =? PrivateKeySize) else "invalid signing identity" in
  require negb (16 <=? zlen (sigs envelope)) else "invalid signature count" in
  require negb (existsb (fun s => String.eqb (KeyID s) keyID) (sigs envelope)) else "duplicate signature key ID" in
  match b64_decode_string (Payload envelope) with
  | None => Err "invalid payload encoding"
  | Some payload =>
      require bool_decide (b64_encode_string payload = Payload envelope) else "invalid payload encoding" in
      let signature := sign privateKey (PAE (PayloadType envelope) payload) in
      Ok (mkEnvelope (PayloadType envelope) (Payload envelope)
            (Some (merge_sort key_le (sigs envelope ++ [mkSignature keyID (b64_encode_string signature)]))))
  end.

(** The signature is a trusted key's over [message]. *)
Definition signature_valid (trusted : gmap string bytes) (message : bytes) (s : Signature) : bool :=
  match trusted !! KeyID s with
  | Some key =>
      (zlen key =? PublicKeySize) &&
      match b64_decode_string (Sig s) with
      | Some sig => (zlen sig =? SignatureSize) && verify key message sig
      | None => false
      end
  | None => false
  end.

Definition Verify (raw : bytes) (expectedPayloadType : string) (trusted : gmap string bytes)
  : result (bytes * string) :=
  let* envelope := Parse raw in
  require bool_decide (PayloadType envelope = expectedPayloadType) else "unexpected payload type" in
  match b64_decode_string (Payload envelope) with
  | None => Err "invalid payload encoding"
  | Some payload =>
      require negb (MaxPayloadBytes <? zlen payload) else "invalid payload encoding" in
      let message := PAE (PayloadType envelope) payload in
      match List.find (signature_valid trusted message) (sigs envelope) with
      | Some s => Ok (payload, KeyID s)
      | None => Err "DSSE envelope has no trusted valid signature"
      end
  end.

(** [VerifyAll] also refuses a signature that is not in canonical base64. *)
Definition canonical_signature_valid (trusted : gmap string bytes) (message : bytes) (s : Signature) : bool :=
  signature_valid trusted message s
  && from_option (fun sig => bool_decide (b64_encode_string sig = Sig s)) false (b64_decode_string (Sig s)).

(** The loop of [VerifyAll]; [previous] is the key ID before the current signature. *)
Fixpoint verify_all (trusted : gmap string bytes) (message : bytes) (previous : option string)
    (l : list Signature) : result (list string) :=
  match l with
  | [] => Ok []
  | s :: l =>
      require from_option (fun p => str_lt p (KeyID s)) true previous
        else "signatures are not in canonical key ID order" in
      require canonical_signature_valid trusted message s
        else "DSSE envelope has no trusted valid signature" in
      let* keyIDs := verify_all trusted message (Some (KeyID s)) l in
      Ok (KeyID s :: keyIDs)
  end.

Definition VerifyAll (raw : bytes) (expectedPayloadType : string) (trusted : gmap string bytes)
  : result (bytes * list string) :=
  let* envelope := Parse raw in
  require bool_decide (PayloadType envelope = expectedPayloadType) else "unexpected payload type" in
  match b64_decode_string (Payload envelope) with
  | None => Err "invalid payload encoding"
  | Some payload =>
      require negb (MaxPayloadBytes <? zlen payload)
              && bool_decide (b64_encode_string payload = Payload envelope)
        else "invalid payload encoding" in
      let message := PAE (PayloadType envelope) payload in
      let* keyIDs := verify_all trusted message None (sigs envelope) in
      Ok (payload, keyIDs)
  end.

End Ed25519.

(** ** The envelope survives its JSON form *)

#[global] Instance Signature_laws : GoJSONLaws Signature 1.
Proof. struct_laws. Qed.

#[global] Instance Envelope_laws : GoJSONLaws Envelope 3.
Proof. struct_laws. Qed.

#[global] Instance key_le_trans : Transitive key_le.
Proof. intros a b c. unfold key_le. apply transitivity. Qed.
#[global] Instance key_le_total : Total key_le.
Proof. intros a b. apply (total String.le). Qed.

(** ** The signed message *)

Lemma itoa_space_inj x y k l :
  itoa x ++ " "%char :: k = itoa y ++ " "%char :: l -> 0 <= x -> 0 <= y -> x = y /\ k = l.
Proof.
  intros E Hx Hy. apply (f_equal scan_number) in E.
  rewrite !scan_number_itoa in E by done. injection E as Ex Ek. split; [by apply itoa_inj | done].
Qed.

(** The pre-authentication encoding is injective: a signature over one payload type and payload authenticates
    no other pair, whatever bytes they contain. *)
Theorem PAE_injective t p t' p' : PAE t p = PAE t' p' -> t = t' /\ p = p'.
Proof.
  unfold PAE. intros E%app_inv_head.
  change (bytes_of " ") with [" "%char] in E. cbn [app] in E.
  apply itoa_space_inj in E as [El E]; [|apply slen_nonneg..].
  rewrite <- !zlen_bytes_of in El. unfold zlen in El.
  apply app_inj_1 in E as [Et E]; [|lia]. injection E as E.
  apply itoa_space_inj in E as [_ Ep]; [|apply zlen_nonneg..].
  split; [by apply bytes_of_inj | done].
Qed.

Lemma PAE_injective_witness :
  PAE "a" (bytes_of "1 b") = PAE "a" (bytes_of "1 b") /\ PAE "a 1" (bytes_of "b") <> PAE "a" (bytes_of "1 b").
Proof.
  split; [reflexivity|]. intros E. destruct (PAE_injective _ _ _ _ E) as [Ht _]. discriminate Ht.
Defined.

(** ** Envelopes on the wire *)

Lemma b64_encode_bytes l :
  forallb (fun c => plain_byte (u8 c)) (b64_encode l) = true /\ zlen (b64_encode l) = b64_encoded_len (zlen l).
Proof.
  assert (Hp : forall z, 0 <= z < 64 -> plain_byte (u8 (b64_char z)) = true).
  { intros z Hz. assert (Hall : forallb (fun i => plain_byte (u8 (b64_char i))) (seqZ 0 64) = true)
      by (vm_compute; reflexivity).
    rewrite forallb_forall in Hall. apply Hall, list_elem_of_In, elem_of_seqZ. lia. }
  unfold b64_encoded_len.
  induction l as [|a|a b|a b c t [IH1 IH2]] using triples_ind; cbn [b64_encode forallb].
  - done.
  - rewrite !Hp by bits. done.
  - rewrite !Hp by bits. done.
  - rewrite !Hp by bits. split; [done|]. rewrite !zlen_cons, IH2.
    replace (1 + (1 + (1 + zlen t)) + 2) with ((zlen t + 2) + 1 * 3) by lia.
    rewrite Z.div_add by lia. lia.
Qed.

Lemma b64_string_plain l : all_bytes plain_byte (b64_encode_string l) = true.
Proof. unfold all_bytes, b64_encode_string. rewrite bytes_of_string_of. apply b64_encode_bytes. Qed.
Lemma b64_string_len l : slen (b64_encode_string l) = b64_encoded_len (zlen l).
Proof. unfold b64_encode_string. rewrite <- zlen_bytes_of, bytes_of_string_of. apply b64_encode_bytes. Qed.
Lemma b64_string_decode l : b64_decode_string (b64_encode_string l) = Some l.
Proof. unfold b64_decode_string, b64_encode_string. rewrite bytes_of_string_of. apply b64_decode_encode. Qed.

(** The texts of an envelope that base64 wrote. *)
Definition canonical (e : Envelope) : bool :=
  utf8_valid (PayloadType e) && all_bytes plain_byte (Payload e)
  && forallb (fun s => utf8_valid (KeyID s) && all_bytes plain_byte (Sig s)) (sigs e)
  && negb (nil_ptr (Signatures e)).

Lemma canonical_storable e : canonical e = true -> storable e = true.
Proof.
  unfold canonical. destruct e as [t p [s|]]; simpl; intros H; breflect; [|done].
  rewrite H, (plain_utf8 p) by done. simpl. rewrite forallb_forall in *. intros x Hx.
  specialize (H1 x Hx). breflect. apply andb_true_iff. split; [done | by apply plain_utf8].
Qed.

Lemma valid_name_len v : valid_name v = true -> slen v <= 256.
Proof. unfold valid_name. intros H. breflect. done. Qed.

Lemma validate_signatures_inv seen l :
  validate_signatures seen l = Ok tt <->
  NoDup (KeyID <$> l) /\ (forall s, s ∈ l -> KeyID s ∉ seen /\ valid_name (KeyID s) = true /\
    0 < slen (Sig s) <= b64_encoded_len SignatureSize).
Proof.
  revert seen. induction l as [|s l IH]; intros seen.
  { split; [|done]. intros _. split; [constructor | by intros ? ?%not_elem_of_nil]. }
  cbn [validate_signatures]. rewrite fmap_cons, NoDup_cons.
  assert (Hseen : seenb (KeyID s) seen = true <-> KeyID s ∈ seen).
  { unfold seenb. rewrite existsb_exists. split.
    - intros (x & Hx & ->%String.eqb_eq). by apply list_elem_of_In.
    - intros Hx%list_elem_of_In. exists (KeyID s). split; [done | apply String.eqb_refl]. }
  pose proof (slen_nonneg (Sig s)). split.
  - intros H'. case_in H'. apply IH in H' as [Hnd Hall].
    assert (KeyID s ∉ seen) by (rewrite <- Hseen; breflect; congruence). breflect.
    split; [split; [|done]|].
    + intros (x & Hx & Hin)%list_elem_of_fmap. destruct (Hall x Hin) as [Hn _]. apply Hn. rewrite Hx. left.
    + intros x [-> | Hx]%elem_of_cons; [repeat split; done || lia|].
      destruct (Hall x Hx) as [Hn ?]. split; [|done]. intros Hin. apply Hn. by right.
  - intros [[Hni Hnd] Hall]. destruct (Hall s ltac:(left)) as (Hns & Hv & Hs). rewrite Hv.
    destruct (seenb (KeyID s) seen) eqn:E; [exfalso; by apply Hns, Hseen|]. cbn [negb].
    rewrite (proj2 (Z.eqb_neq _ _)), (proj2 (Z.ltb_ge _ _)) by lia. cbn [negb orb].
    apply IH. split; [done|]. intros x Hx. destruct (Hall x ltac:(by right)) as [Hn ?].
    split; [|done]. rewrite not_elem_of_cons. split; [|done]. intros Ek. apply Hni. rewrite <- Ek.
    apply list_elem_of_fmap. eauto.
Qed.

Lemma validateEnvelope_inv e :
  validateEnvelope e = Ok tt <->
  valid_name (PayloadType e) = true /\ 0 < slen (Payload e) <= b64_encoded_len MaxPayloadBytes /\
  1 <= zlen (sigs e) <= 16 /\ validate_signatures [] (sigs e) = Ok tt.
Proof.
  unfold validateEnvelope. pose proof (slen_nonneg (Payload e)). pose proof (zlen_nonneg (sigs e)). split.
  - intros H'. case_in H'. breflect. repeat split; done || lia.
  - intros (-> & Hp & Hs & Hv).
    rewrite (proj2 (Z.eqb_neq _ _)), (proj2 (Z.ltb_ge _ _)) by lia. cbn [negb orb].
    rewrite (proj2 (Z.eqb_neq _ _)), (proj2 (Z.ltb_ge _ _)) by lia. done.
Qed.

Lemma Parse_valid raw e :
  Parse raw = Ok e -> valid_name (PayloadType e) = true /\ 0 < slen (Payload e) <= b64_encoded_len MaxPayloadBytes /\
  1 <= zlen (sigs e) <= 16 /\ validate_signatures [] (sigs e) = Ok tt.
Proof.
  unfold Parse. intros H. case_in H. simplify_eq. apply validateEnvelope_inv.
  by match goal with E : validateEnvelope _ = Ok ?u |- _ => destruct u end.
Qed.

Lemma print_str s : json_print (JStr s) = quote s.
Proof. done. Qed.

(** A valid envelope with canonical texts fits the parser's limit. *)
Lemma envelope_size e :
  validateEnvelope e = Ok tt -> canonical e = true -> zlen (json_print (to_json e)) <= DefaultMaxEnvelopeBytes.
Proof.
  rewrite validateEnvelope_inv, validate_signatures_inv. intros (Ht & Hp & Hn & _ & Hs) Hc.
  unfold canonical in Hc. destruct e as [t p [s|]]; [|apply andb_true_iff in Hc as [_ Hc]; done].
  change (sigs (mkEnvelope t p (Some s))) with s in *. cbn [PayloadType Payload Signatures] in *. breflect.
  match goal with |- zlen (json_print ?v) <= _ => change v with (JObj [("payloadType"%string, JStr t);
    ("payload"%string, JStr p); ("signatures"%string, JArr (to_json <$> s))]) end.
  rewrite zlen_print_obj. cbn [zsum foldr]. unfold member_size. cbn [fst snd].
  rewrite !print_str, (zlen_quote_plain p) by done.
  pose proof (quote_size t). apply valid_name_len in Ht.
  change (zlen (quote "payloadType")) with 13. change (zlen (quote "payload")) with 9.
  change (zlen (quote "signatures")) with 12. rewrite zlen_print_arr.
  assert (Hz : zsum (fun v => zlen (json_print v) + 1) (to_json <$> s) <= zlen s * 2000).
  { clear -Hs H1. unfold zsum. induction s as [|x s IH]; [done|].
    rewrite fmap_cons, zlen_cons. cbn [foldr]. simpl in H1. breflect.
    specialize (IH ltac:(set_solver) ltac:(done)). destruct (Hs x ltac:(left)) as (_ & Hk & Hg).
    enough (zlen (json_print (to_json x)) <= 1999) by lia.
    change (to_json x) with (JObj [("keyid"%string, JStr (KeyID x)); ("sig"%string, JStr (Sig x))]).
    rewrite zlen_print_obj. cbn [zsum foldr].
    unfold member_size. cbn [fst snd]. rewrite !print_str, (zlen_quote_plain (Sig x)) by done.
    change (zlen (quote "keyid")) with 7. change (zlen (quote "sig")) with 5.
    pose proof (quote_size (KeyID x)). apply valid_name_len in Hk.
    change (b64_encoded_len SignatureSize) with 88 in Hg. lia. }
  change (b64_encoded_len MaxPayloadBytes) with 699052 in Hp. change DefaultMaxEnvelopeBytes with 1048576. lia.
Qed.

Lemma marshal_parse e :
  validateEnvelope e = Ok tt -> canonical e = true -> Parse (json_print (to_json e)) = Ok e.
Proof.
  intros Hv Hc. unfold Parse. rewrite <- (app_nil_r (json_print _)).
  rewrite (DecodeStrictInto_marshal (depth := 3)); [by rewrite Hv | by apply canonical_storable | lia | by left|].
  rewrite app_nil_r. by apply envelope_size.
Qed.

(** ** Verification *)

Section Verification.
Context (sign : bytes -> bytes -> bytes) (verify : bytes -> bytes -> bytes -> bool).

(** [key] signed [payload] as [payloadType], under the identity [keyID]. *)
Definition authenticated (trusted : gmap string bytes) (payloadType : string) (payload : bytes) (keyID : string) : Prop :=
  exists key sig, trusted !! keyID = Some key /\ zlen key = PublicKeySize /\ zlen sig = SignatureSize /\
    verify key (PAE payloadType payload) sig = true.

Lemma signature_valid_inv trusted t p s :
  signature_valid verify trusted (PAE t p) s = true -> authenticated trusted t p (KeyID s).
Proof.
  unfold signature_valid. intros H. case_in H.
  - breflect. eexists _, _. eauto.
  - breflect. done.
Qed.

Lemma Verify_inv raw t trusted payload keyID :
  Verify verify raw t trusted = Ok (payload, keyID) ->
  authenticated trusted t payload keyID /\ zlen payload <= MaxPayloadBytes.
Proof.
  unfold Verify. intros H. case_in H. breflect. simplify_eq.
  match goal with E : List.find _ _ = Some _ |- _ => apply List.find_some in E as [_ Hv] end.
  split; [by apply signature_valid_inv | done].
Qed.

(** C12: a payload [Verify] returns is bounded and carries a valid signature of the trusted key whose ID is returned, over
    the expected payload type and exactly these payload bytes. *)
Theorem Verify_sound raw t trusted payload keyID :
  Verify verify raw t trusted = Ok (payload, keyID) ->
  authenticated trusted t payload keyID /\ zlen payload <= MaxPayloadBytes.
Proof. apply Verify_inv. Qed.

(** The payload is the decoded one of the envelope. *)
Lemma Verify_payload raw t trusted payload keyID : Verify verify raw t trusted = Ok (payload, keyID) ->
  exists envelope, Parse raw = Ok envelope /\ b64_decode_string (Payload envelope) = Some payload.
Proof.
  unfold Verify. intros H. destruct (Parse raw) as [envelope|]; [|done]. exists envelope. split; [done|]. destruct (bool_decide _) in H; [|done].
  destruct (b64_decode_string (Payload envelope)) as [p|]; [|done]. destruct (negb _) in H; [|done]. destruct (List.find _ _) in H; [|done]. congruence.
Qed.

Lemma Verify_type raw t trusted payload keyID : Verify verify raw t trusted = Ok (payload, keyID) -> exists envelope, Parse raw = Ok envelope /\ PayloadType envelope = t.
Proof. unfold Verify. intros H. destruct (Parse raw) as [envelope|]; [|done]. exists envelope. split; [done|]. destruct (bool_decide _) eqn:E in H; [|done]. by apply bool_decide_eq_true in E. Qed.

Lemma verify_all_inv trusted m prev l ids :
  verify_all verify trusted m prev l = Ok ids ->
  ids = KeyID <$> l /\ Forall (fun s => canonical_signature_valid verify trusted m s = true) l /\
  StronglySorted (fun a b => str_lt a b = true) (option_list prev ++ ids).
Proof.
  revert prev ids. induction l as [|s l IH]; intros prev ids H; cbn [verify_all] in H.
  { simplify_eq. split_and!; [done | constructor|]. destruct prev; repeat constructor. }
  case_in H. simplify_eq. breflect.
  destruct (IH _ _ E1) as (-> & Hall & Hsorted). simpl in Hsorted.
  split_and!; [done | by constructor|]. destruct prev as [p|]; [|done]. simpl in *.
  constructor; [done|]. constructor; [done|].
  inversion_clear Hsorted as [|? ? _ HF]. eapply Forall_impl; [exact HF|].
  intros k Hk. by eapply str_lt_trans.
Qed.

(** [VerifyAll] accepts an envelope only when it holds between one and sixteen signatures, every one of them is valid
    under a trusted key over the returned payload, and the returned key IDs are strictly ascending, so no key
    counts twice towards a threshold. *)
Theorem VerifyAll_sound raw t trusted payload ids :
  VerifyAll verify raw t trusted = Ok (payload, ids) ->
  Forall (authenticated trusted t payload) ids /\
  StronglySorted (fun a b => str_lt a b = true) ids /\ 1 <= zlen ids <= 16 /\
  exists e, Parse raw = Ok e /\ ids = KeyID <$> sigs e /\ Payload e = b64_encode_string payload.
Proof.
  unfold VerifyAll. intros H. case_in H. breflect. simplify_eq.
  destruct (verify_all_inv _ _ _ _ _ E3) as (-> & Hall & Hsorted).
  split; [|split; [done | split]].
  - apply Forall_fmap. eapply Forall_impl; [exact Hall|]. intros s [Hs _]%andb_true_iff. by apply signature_valid_inv.
  - destruct (Parse_valid _ _ E) as (_ & _ & Hn & _). unfold zlen in *. by rewrite length_fmap.
  - eauto.
Qed.

(** What the round trips need of Ed25519: a key pair's signatures have their size and verify. *)
Definition key_pair (priv pub : bytes) : Prop :=
  zlen priv = PrivateKeySize /\ zlen pub = PublicKeySize /\
  forall m, zlen (sign priv m) = SignatureSize /\ verify pub m (sign priv m) = true.

Lemma own_signature_valid trusted priv pub keyID m :
  key_pair priv pub -> trusted !! keyID = Some pub ->
  let s := mkSignature keyID (b64_encode_string (sign priv m)) in
  signature_valid verify trusted m s = true /\ canonical_signature_valid verify trusted m s = true.
Proof.
  intros (_ & Hpub & Hs) Ht. destruct (Hs m) as [Hl Hv]. cbv zeta.
  unfold canonical_signature_valid, signature_valid. cbn [KeyID Sig]. rewrite Ht, b64_string_decode, Hl, Hpub, Hv. simpl. by rewrite bool_decide_true.
Qed.

Lemma own_signature_size priv pub m :
  key_pair priv pub -> 0 < slen (b64_encode_string (sign priv m)) <= b64_encoded_len SignatureSize.
Proof.
  intros (_ & _ & Hs). destruct (Hs m) as [Hl _]. rewrite b64_string_len, Hl. vm_compute. split; congruence.
Qed.

Lemma b64_encoded_len_mono a b : 0 <= a <= b -> b64_encoded_len a <= b64_encoded_len b.
Proof.
  unfold b64_encoded_len. intros H. apply Z.mul_le_mono_nonneg_r; [lia|]. apply Z.div_le_mono; lia.
Qed.

Lemma Sign_inv t p k priv pub e :
  key_pair priv pub -> p <> [] -> Sign sign t p k priv = Ok e -> utf8_valid t = true -> utf8_valid k = true ->
  e = mkEnvelope t (b64_encode_string p) (Some [mkSignature k (b64_encode_string (sign priv (PAE t p)))]) /\
  validateEnvelope e = Ok tt /\ canonical e = true /\ zlen p <= MaxPayloadBytes.
Proof.
  intros Hk Hne H Ht Hkey. unfold Sign in H. case_in H. breflect. simplify_eq. split_and!; [done| | |done].
  - apply validateEnvelope_inv. cbn [PayloadType Payload]. rewrite b64_string_len. split_and!.
    + done.
    + destruct p as [|c p]; [done|]. pose proof (zlen_nonneg p). rewrite zlen_cons in *.
      unfold b64_encoded_len. assert (1 <= (1 + zlen p + 2) / 3) by (apply Z.div_le_lower_bound; lia). lia.
    + pose proof (zlen_nonneg p). apply b64_encoded_len_mono. lia.
    + done.
    + done.
    + apply validate_signatures_inv. split; [apply NoDup_singleton|].
      intros s ->%list_elem_of_singleton. cbn [KeyID Sig]. split; [apply not_elem_of_nil|]. split; [done|].
      by eapply own_signature_size.
  - unfold canonical. simpl. by rewrite Ht, Hkey, !b64_string_plain.
Qed.

Lemma signed_verifies t p k priv pub trusted e :
  key_pair priv pub -> trusted !! k = Some pub -> p <> [] -> utf8_valid t = true -> utf8_valid k = true ->
  Sign sign t p k priv = Ok e ->
  Marshal e = Ok (json_print (to_json e)) /\ Parse (json_print (to_json e)) = Ok e /\
  Verify verify (json_print (to_json e)) t trusted = Ok (p, k) /\ VerifyAll verify (json_print (to_json e)) t trusted = Ok (p, [k]).
Proof.
  intros Hkp Htr Hne Ht Hk HS.
  destruct (Sign_inv _ _ _ _ _ _ Hkp Hne HS Ht Hk) as (He & Hv & Hc & Hl).
  unfold Marshal, Verify, VerifyAll. rewrite marshal_parse, Hv by done.
  subst e. cbn [PayloadType Payload sigs Signatures default from_option id].
  destruct (own_signature_valid trusted priv pub k (PAE t p) Hkp Htr) as [Hval Hcan]. cbv zeta in Hval, Hcan.
  rewrite b64_string_decode, !bool_decide_true, (proj2 (Z.ltb_ge _ _)) by done. cbn [negb andb List.find verify_all from_option].
  by rewrite Hval, Hcan.
Qed.

(** An envelope [Sign] made verifies: marshalled and given to [Verify] or [VerifyAll] with the signer among the
    trusted keys, it yields the payload and the signer's key ID. *)
Theorem sign_then_verify t p k priv pub trusted e :
  key_pair priv pub -> trusted !! k = Some pub -> p <> [] -> utf8_valid t = true -> utf8_valid k = true ->
  Sign sign t p k priv = Ok e ->
  exists raw, Marshal e = Ok raw /\ Verify verify raw t trusted = Ok (p, k) /\ VerifyAll verify raw t trusted = Ok (p, [k]).
Proof.
  intros Hkp Htr Hne Ht Hk HS. destruct (signed_verifies _ _ _ _ _ _ _ Hkp Htr Hne Ht Hk HS) as (? & _ & ? & ?). eauto.
Qed.

Lemma verify_all_ok trusted m prev l :
  Forall (fun s => canonical_signature_valid verify trusted m s = true) l ->
  StronglySorted (fun a b => str_lt a b = true) (option_list prev ++ (KeyID <$> l)) ->
  verify_all verify trusted m prev l = Ok (KeyID <$> l).
Proof.
  intros Hall. revert prev. induction Hall as [|s l Hs _ IH]; intros prev Hsorted; [done|]. cbn [verify_all].
  assert (from_option (fun p => str_lt p (KeyID s)) true prev = true) as ->.
  { destruct prev as [p|]; [|done]. simpl in *. inversion_clear Hsorted as [|? ? _ HF]. by inversion_clear HF. }
  rewrite Hs, IH; [done|]. destruct prev as [p|]; [|done]. simpl in *. by inversion_clear Hsorted.
Qed.

Lemma key_le_strict l :
  StronglySorted key_le l -> NoDup (KeyID <$> l) -> StronglySorted (fun a b => str_lt a b = true) (KeyID <$> l).
Proof.
  induction 1 as [|s l _ IH HF]; [constructor|]. rewrite fmap_cons, NoDup_cons. intros [Hni Hnd].
  constructor; [by apply IH|]. apply Forall_fmap, Forall_forall. intros x Hx. rewrite Forall_forall in HF.
  apply str_lt_spec. split; [by apply HF|]. intros E. apply Hni. rewrite E. apply list_elem_of_fmap. eauto.
Qed.

(** One more signature under a fresh key ID keeps an envelope valid and canonical. *)
Lemma extend_valid e new l :
  validateEnvelope e = Ok tt -> l ≡ₚ new :: sigs e -> zlen (new :: sigs e) <= 16 ->
  KeyID new ∉ KeyID <$> sigs e -> valid_name (KeyID new) = true ->
  0 < slen (Sig new) <= b64_encoded_len SignatureSize ->
  validateEnvelope (mkEnvelope (PayloadType e) (Payload e) (Some l)) = Ok tt /\ NoDup (KeyID <$> l).
Proof.
  rewrite !validateEnvelope_inv, !validate_signatures_inv.
  intros (Ht & Hp & Hn & Hnd & Hs) Hperm Hlen Hni Hvn Hsz. cbn [PayloadType Payload sigs Signatures default from_option id].
  assert (NoDup (KeyID <$> l)) as Hnd' by (rewrite Hperm, fmap_cons, NoDup_cons; done).
  assert (zlen l = zlen (new :: sigs e)) as -> by (unfold zlen; by rewrite Hperm).
  rewrite zlen_cons in *. split; [|done]. split; [done|]. split; [done|]. split; [lia|]. split; [done|].
  intros s. rewrite Hperm, elem_of_cons. intros [-> | Hin]; [|auto]. split; [apply not_elem_of_nil|]. done.
Qed.

Lemma extend_canonical e new l :
  canonical e = true -> l ≡ₚ new :: sigs e -> utf8_valid (KeyID new) = true -> all_bytes plain_byte (Sig new) = true ->
  canonical (mkEnvelope (PayloadType e) (Payload e) (Some l)) = true.
Proof.
  unfold canonical. intros H Hperm Hk Hs. apply andb_true_iff in H as [H _].
  apply andb_true_iff in H as [H Hall]. cbn [PayloadType Payload]. rewrite H. cbn [andb nil_ptr Signatures negb].
  rewrite andb_true_r. apply forallb_forall. intros x Hx%list_elem_of_In.
  change (sigs _) with l in Hx. rewrite Hperm, elem_of_cons in Hx. destruct Hx as [-> | Hx]; [by rewrite Hk, Hs|].
  rewrite forallb_forall in Hall. by apply Hall, list_elem_of_In.
Qed.

(** Adding a signature keeps what was signed. If every signature of an envelope verifies, the envelope
    [AddSignature] returns verifies in full as well, with the same payload and the new key ID added. *)
Theorem add_signature_verifies t p k priv pub trusted e e' ids :
  key_pair priv pub -> trusted !! k = Some pub -> utf8_valid k = true -> canonical e = true ->
  VerifyAll verify (json_print (to_json e)) t trusted = Ok (p, ids) ->
  AddSignature sign e k priv = Ok e' ->
  exists raw ids', Marshal e' = Ok raw /\ VerifyAll verify raw t trusted = Ok (p, ids') /\ ids' ≡ₚ k :: ids.
Proof.
  intros Hkp Htr Hk Hc HV HA. unfold AddSignature in HA.
  destruct (validateEnvelope e) as [[]|] eqn:Hv; [|done].
  unfold VerifyAll in HV. rewrite marshal_parse in HV by done.
  destruct (b64_decode_string (Payload e)) as [p0|] eqn:Hd; [|case_in HA].
  case_in HA. case_in HV. breflect. simplify_eq.
  set (new := mkSignature k (b64_encode_string (sign priv (PAE (PayloadType e) p)))) in *.
  set (l := merge_sort key_le (sigs e ++ [new])).
  assert (Hperm : l ≡ₚ new :: sigs e) by (unfold l; rewrite merge_sort_Permutation; by rewrite Permutation_app_comm).
  match goal with E : verify_all _ _ _ _ _ = Ok _ |- _ => destruct (verify_all_inv _ _ _ _ _ E) as (-> & Hall & Hsorted) end.
  destruct (own_signature_valid trusted priv pub k (PAE (PayloadType e) p) Hkp Htr) as [_ Hnew].
  assert (Hnk : k ∉ KeyID <$> sigs e).
  { intros (s & Hs & Hin)%list_elem_of_fmap.
    match goal with E : existsb _ _ = false |- _ => apply not_true_iff_false in E; apply E end.
    apply existsb_exists. exists s. split; [by apply list_elem_of_In | by apply String.eqb_eq]. }
  destruct (extend_valid e new l Hv Hperm) as [Hv' Hn]; try done.
  { rewrite zlen_cons. lia. }
  { by eapply own_signature_size. }
  exists (json_print (to_json (mkEnvelope (PayloadType e) (Payload e) (Some l)))), (KeyID <$> l).
  split_and!.
  - unfold Marshal. by rewrite Hv'.
  - unfold VerifyAll. rewrite marshal_parse; [|done | by apply (extend_canonical e new); [..|apply b64_string_plain]].
    cbn [PayloadType Payload sigs Signatures default from_option id].
    rewrite Hd, !bool_decide_true, (proj2 (Z.ltb_ge _ _)) by done. cbn [negb andb].
    rewrite verify_all_ok; [done | by rewrite Hperm; constructor|]. simpl.
    apply key_le_strict; [apply (StronglySorted_merge_sort key_le) | done].
  - by rewrite Hperm.
Qed.

End Verification.

Lemma plain_quote s : all_bytes plain_byte s = true -> Forall (fun c => 32 <= u8 c) (quote s).
Proof.
  intros H. unfold quote. rewrite quote_plain by done. constructor; [done|]. apply Forall_app. split; [|by repeat constructor].
  unfold all_bytes in H. rewrite forallb_forall in H. apply Forall_forall. intros c Hc%list_elem_of_In. specialize (H c Hc). unfold plain_byte in H.
  breflect. done.
Qed.

(** An envelope with one signature is printed without control bytes and within this many of them. *)
Lemma envelope_print t p k s :
  all_bytes plain_byte t = true -> all_bytes plain_byte p = true -> all_bytes plain_byte k = true -> all_bytes plain_byte s = true ->
  let raw := json_print (to_json (mkEnvelope t p (Some [mkSignature k s]))) in
  Forall (fun c => 32 <= u8 c) raw /\ zlen raw = slen t + slen p + slen k + slen s + 68.
Proof.
  intros Ht Hp Hk Hs raw.
  assert (Hraw : raw = bytes_of "{" ++ quote "payloadType" ++ bytes_of ":" ++ quote t ++ bytes_of "," ++ quote "payload" ++ bytes_of ":" ++ quote p
    ++ bytes_of "," ++ quote "signatures" ++ bytes_of ":[{" ++ quote "keyid" ++ bytes_of ":" ++ quote k ++ bytes_of "," ++ quote "sig" ++ bytes_of ":"
    ++ quote s ++ bytes_of "}]}").
  { unfold raw.
    change (to_json (mkEnvelope t p (Some [mkSignature k s]))) with
      (JObj [("payloadType"%string, JStr t); ("payload"%string, JStr p); ("signatures"%string, JArr [JObj [("keyid"%string, JStr k); ("sig"%string, JStr s)]])]).
    cbn [json_print sep_by fmap list_fmap concat fst snd app bytes_of]. do 14 (rewrite <- ?app_assoc; rewrite ?app_nil_r; cbn [app]). reflexivity. }
  rewrite Hraw. split.
  - rewrite !Forall_app. split_and!; try (by apply plain_quote); repeat constructor; vm_compute; congruence.
  - rewrite !zlen_app, !zlen_quote_plain by done. change (slen "payloadType") with 11. change (slen "payload") with 7. change (slen "signatures") with 10.
    change (slen "keyid") with 5. change (slen "sig") with 3. change (zlen (bytes_of "{")) with 1. change (zlen (bytes_of ":")) with 1.
    change (zlen (bytes_of ",")) with 1. change (zlen (bytes_of ":[{")) with 3. change (zlen (bytes_of "}]}")) with 3. lia.
Qed.

(** ** A toy signature scheme, for concrete runs

    The "signature" repeats the public half of the key and the head of the message. *)

Definition toy_sign (priv m : bytes) : bytes := take 32 priv ++ take 32 (m ++ repeat "0"%char 32).
Definition toy_verify (pub m sig : bytes) : bool := bool_decide (sig = pub ++ take 32 (m ++ repeat "0"%char 32)).

Lemma toy_key_pair pub : zlen pub = 32 -> key_pair toy_sign toy_verify (pub ++ pub) pub.
Proof.
  intros Hl. unfold key_pair, toy_verify, toy_sign, zlen in *.
  assert (Ht : take 32 (pub ++ pub) = pub) by (rewrite take_app_length'; [done | lia]).
  rewrite Ht, length_app. split; [unfold PrivateKeySize; lia|]. split; [done|]. intros m. split; [|by apply bool_decide_eq_true].
  rewrite length_app, length_take, length_app, repeat_length. unfold SignatureSize. lia.
Qed.

Definition toy_pub (c : ascii) : bytes := repeat c 32.
Definition toy_priv (c : ascii) : bytes := toy_pub c ++ toy_pub c.
Definition toy_trusted : gmap string bytes := {[ "alice" := toy_pub "a"; "bob" := toy_pub "b" ]}%string.
Definition toy_envelope : Envelope :=
  mkEnvelope "application/test" (b64_encode_string (bytes_of "hello"))
    (Some [mkSignature "bob" (b64_encode_string (toy_sign (toy_priv "b") (PAE "application/test" (bytes_of "hello"))))]).

Lemma sign_then_verify_witness :
  exists raw, Marshal toy_envelope = Ok raw /\
    Verify toy_verify raw "application/test" toy_trusted = Ok (bytes_of "hello", "bob"%string) /\
    VerifyAll toy_verify raw "application/test" toy_trusted = Ok (bytes_of "hello", ["bob"%string]).
Proof.
  apply (sign_then_verify toy_sign toy_verify "application/test" (bytes_of "hello") "bob" (toy_priv "b") (toy_pub "b"));
    [by apply toy_key_pair | vm_compute; reflexivity | discriminate | vm_compute; reflexivity..].
Defined.

Lemma Verify_sound_witness :
  authenticated toy_verify toy_trusted "application/test" (bytes_of "hello") "bob" /\
  zlen (bytes_of "hello") <= MaxPayloadBytes.
Proof.
  apply (Verify_sound toy_verify (json_print (to_json toy_envelope))). vm_compute. reflexivity.
Defined.

Lemma VerifyAll_sound_witness :
  Forall (authenticated toy_verify toy_trusted "application/test" (bytes_of "hello")) ["bob"%string] /\
  StronglySorted (fun a b => str_lt a b = true) ["bob"%string].
Proof.
  destruct (VerifyAll_sound toy_verify (json_print (to_json toy_envelope)) "application/test" toy_trusted
    (bytes_of "hello") ["bob"%string]) as (H1 & H2 & _); [vm_compute; reflexivity|]. split; assumption.
Defined.

Definition toy_cosigned : Envelope :=
  match AddSignature toy_sign toy_envelope "alice" (toy_priv "a") with Ok e => e | Err _ => toy_envelope end.

Lemma add_signature_verifies_witness :
  exists raw ids, Marshal toy_cosigned = Ok raw /\
    VerifyAll toy_verify raw "application/test" toy_trusted = Ok (bytes_of "hello", ids) /\
    ids ≡ₚ ["alice"; "bob"]%string.
Proof.
  apply (add_signature_verifies toy_sign toy_verify "application/test" (bytes_of "hello") "alice" (toy_priv "a") (toy_pub "a")
    toy_trusted toy_envelope toy_cosigned ["bob"%string]);
    [by apply toy_key_pair | vm_compute; reflexivity..].
Defined.

(** The envelope of a payload, and of a document, signed with a toy key. *)
Definition toy_sealed (t k : string) (c : ascii) (payload : bytes) : Envelope :=
  mkEnvelope t (b64_encode_string payload) (Some [mkSignature k (b64_encode_string (toy_sign (toy_priv c) (PAE t payload)))]).
Definition toy_seal {A} `{GoJSON A} (t k : string) (c : ascii) (a : A) : bytes := json_print (to_json (toy_sealed t k c (json_print (to_json a)))).

Lemma toy_sealed_opens t k c payload trusted : trusted !! k = Some (toy_pub c) -> valid_name t && valid_name k && utf8_valid t && utf8_valid k = true ->
  payload <> [] -> zlen payload <= MaxPayloadBytes ->
  Verify toy_verify (json_print (to_json (toy_sealed t k c payload))) t trusted = Ok (payload, k) /\
  Parse (json_print (to_json (toy_sealed t k c payload))) = Ok (toy_sealed t k c payload).
Proof.
  intros Htr Hn Hne Hp. breflect. assert (Hpair : key_pair toy_sign toy_verify (toy_priv c) (toy_pub c)) by by apply toy_key_pair.
  destruct (signed_verifies toy_sign toy_verify t payload k (toy_priv c) (toy_pub c) trusted (toy_sealed t k c payload) Hpair Htr Hne) as (_ & Hpa & Hv & _); try done.
  unfold Sign. repeat match goal with Hx : valid_name _ = true |- _ => rewrite Hx; clear Hx end. destruct Hpair as [-> _]. rewrite Z.eqb_refl.
  rewrite (proj2 (Z.ltb_ge MaxPayloadBytes _)) by done. done.
Qed.

Lemma toy_seal_opens {A} {depth : nat} `{GoJSON A} `{!GoJSONLaws A depth} t k c (a : A) trusted maximum :
  trusted !! k = Some (toy_pub c) -> valid_name t && valid_name k && utf8_valid t && utf8_valid k = true -> storable a = true -> (depth <= 32)%nat ->
  zlen (json_print (to_json a)) <= MaxPayloadBytes -> zlen (json_print (to_json a)) <= maximum ->
  Verify toy_verify (toy_seal t k c a) t trusted = Ok (json_print (to_json a), k) /\ DecodeStrictInto (json_print (to_json a)) maximum = Ok a /\
  Parse (toy_seal t k c a) = Ok (toy_sealed t k c (json_print (to_json a))).
Proof.
  intros Htr Hn Hs Hd Hp Hm.
  assert (Hne : json_print (to_json a) <> []) by (destruct (json_print_head _ (to_json_ok a Hs)) as (x & l & -> & _); done).
  destruct (toy_sealed_opens t k c _ trusted Htr Hn Hne Hp) as [Hv Hpa]. split_and!; [exact Hv | | exact Hpa].
  rewrite <- (app_nil_r (json_print (to_json a))). apply (DecodeStrictInto_marshal (depth := depth)); auto. by rewrite app_nil_r.
Qed.

End Dsse.
