(* ===== verification/ControlProtocol.v ===== *)
(** * The node-to-control-plane protocol ([src/internal/controlprotocol])

    The executor wire records of protocols 3 and 4, their validation, their JSON form and the identity of a delivery.
    [executor_v3.go], [executor_v4.go] and [activation_canary.go] are modelled; a nil slice or pointer is
    [None]. *)

From Stdlib Require Import Ascii.
From S2P Require Import Prelude GoText GoJson GoCrypto Strict Dsse.

Module ControlProtocol.

Definition ExecutorProtocolV3 : Z := 3.
Definition ExecutorProtocolV4 : Z := 4.
Definition MaxExecutorDeliveries : Z := 128.
Definition MaxExecutorDeliveryBytes : Z := Z.shiftl 1 20.
Definition MaxExecutorReportBytes : Z := Z.shiftl 16 10.
Definition MaxExecutorActivationCanaryResultBytes : Z := Z.shiftl 12 10.
Definition maxExecutorActivationCanaryTerminalBytes : Z := Z.shiftl 4 10.
Definition maxExecutorActivationCanaryEvidenceBytes : Z := Z.shiftl 8 10.
Definition maxExecutorTaskAuthorities : Z := 8.
Definition maxExecutorAdmissionRouteOrConnectorIDs : Z := 32.

Definition ExecutorStatusDone : string := "done".
Definition ExecutorStatusFailed : string := "failed".
Definition ExecutorStatusRejected : string := "rejected".
Definition ExecutorStatusOutcomeUnknown : string := "outcome_unknown".
Definition ExecutorAdmissionProjectionSchemaV1 : string := "steward.executor-admission-projection.v1".
Definition ExecutorActivationCanaryResultSchemaV1 : string := "steward.activation-canary-result.v1".
Definition executorEgressProxyV1 : string := "http://steward-relay:8082".
Definition executorConnectorURLV1 : string := "http://steward-relay:8081".
Definition executorEventURLV1 : string := "http://steward-relay:8083/v1/events".

(** ** Records *)

Record ExecutorDeliveryV3 := mkDeliveryV3 {
  dv_DeliveryID : string; dv_DeliveryGeneration : Z; dv_CommandID : string; dv_CommandDigest : string;
  dv_CommandDSSEBase64 : string }.

(** Protocol 4 repeats the shape as a type of its own. *)
Record ExecutorDeliveryV4 := mkDeliveryV4 {
  d4_DeliveryID : string; d4_DeliveryGeneration : Z; d4_CommandID : string; d4_CommandDigest : string;
  d4_CommandDSSEBase64 : string }.

Record ExecutorReportResultV3 := mkResultV3 {
  rr_RuntimeRef : string; rr_Error : string; rr_Replayed : bool; rr_Absent : bool }.

Record ExecutorReportV3 := mkReportV3 {
  r_ProtocolVersion : Z; r_DeliveryID : string; r_DeliveryGeneration : Z; r_CommandID : string;
  r_CommandDigest : string; r_Status : string; r_ReportedStatus : string; r_ClaimGeneration : Z;
  r_ErrorCode : string; r_Result : ExecutorReportResultV3 }.

Record ExecutorTaskAuthorityV1 := mkTaskAuthority { ta_KeyID : string; ta_PublicKey : string }.

Record ExecutorAdmissionProjectionV1 := mkAdmission {
  a_SchemaVersion : string; a_RuntimeRef : string; a_Status : string; a_CapsuleDigest : string;
  a_PolicyDigest : string; a_Generation : Z; a_EvidenceKeyID : string; a_GrantID : string;
  a_ServicePath : string; a_ServiceID : string; a_TaskAuthorities : option (list ExecutorTaskAuthorityV1);
  a_EgressProxy : string; a_EgressRouteIDs : option (list string); a_ConnectorURL : string;
  a_ConnectorIDs : option (list string); a_EventURL : string; a_RoutePolicyDigest : string;
  a_ActivationID : string; a_ActivationBeginDigest : string }.

Record ExecutorActivationCanaryResultV1 := mkCanary {
  c_SchemaVersion : string; c_ActivationID : string; c_AdmissionDigest : string; c_TaskDigest : string;
  c_PermitDigest : string; c_RunID : string; c_TerminalResultDigest : string; c_TerminalResultBytes : Z;
  c_TerminalResultBase64 : string; c_GatewayEvidenceBase64 : string; c_ActivationCheckpointDigest : string;
  c_Qualified : bool }.

Record ExecutorReportResultV4 := mkResultV4 {
  q_RuntimeRef : string; q_Error : string; q_Replayed : bool; q_Absent : bool;
  q_Admission : option ExecutorAdmissionProjectionV1;
  q_ActivationCanary : option ExecutorActivationCanaryResultV1 }.

Record ExecutorReportV4 := mkReportV4 {
  p_ProtocolVersion : Z; p_DeliveryID : string; p_DeliveryGeneration : Z; p_CommandID : string;
  p_CommandDigest : string; p_Status : string; p_ReportedStatus : string; p_ClaimGeneration : Z;
  p_ErrorCode : string; p_Result : ExecutorReportResultV4 }.

#[global] Instance ReportResultV3_eq_dec : EqDecision ExecutorReportResultV3.
Proof. solve_decision. Defined.
#[global] Instance ReportV3_eq_dec : EqDecision ExecutorReportV3.
Proof. solve_decision. Defined.
#[global] Instance TaskAuthority_eq_dec : EqDecision ExecutorTaskAuthorityV1.
Proof. solve_decision. Defined.
#[global] Instance Admission_eq_dec : EqDecision ExecutorAdmissionProjectionV1.
Proof. solve_decision. Defined.
#[global] Instance Canary_eq_dec : EqDecision ExecutorActivationCanaryResultV1.
Proof. solve_decision. Defined.

(** ** JSON *)

#[global] Instance DeliveryV3_json : GoJSON ExecutorDeliveryV3 := {
  go_shape := KStruct [("delivery_id", KString); ("delivery_generation", KInt); ("command_id", KString);
    ("command_digest", KString); ("command_dsse_base64", KString)]%string;
  to_json d := obj [
    always "delivery_id" (JStr (dv_DeliveryID d));
    always "delivery_generation" (json_int (dv_DeliveryGeneration d));
    always "command_id" (JStr (dv_CommandID d));
    always "command_digest" (JStr (dv_CommandDigest d));
    always "command_dsse_base64" (JStr (dv_CommandDSSEBase64 d))];
  of_json v := match v with
    | JObj fs =>
        deliveryID ← field fs "delivery_id" dec_string ""%string;
        deliveryGeneration ← field fs "delivery_generation" dec_u64 0;
        commandID ← field fs "command_id" dec_string ""%string;
        commandDigest ← field fs "command_digest" dec_string ""%string;
        commandDSSEBase64 ← field fs "command_dsse_base64" dec_string ""%string;
        Some (mkDeliveryV3 deliveryID deliveryGeneration commandID commandDigest commandDSSEBase64)
    | _ => None end;
  storable d := utf8_valid (dv_DeliveryID d) && in_u64b (dv_DeliveryGeneration d) && utf8_valid (dv_CommandID d)
    && utf8_valid (dv_CommandDigest d) && utf8_valid (dv_CommandDSSEBase64 d);
}.

#[global] Instance ReportResultV3_json : GoJSON ExecutorReportResultV3 := {
  go_shape := KStruct [("runtime_ref", KString); ("error", KString); ("replayed", KBool); ("absent", KBool)]%string;
  to_json r := obj [
    omitempty "runtime_ref" (empty_string (rr_RuntimeRef r)) (JStr (rr_RuntimeRef r));
    omitempty "error" (empty_string (rr_Error r)) (JStr (rr_Error r));
    omitempty "replayed" (negb (rr_Replayed r)) (JBool (rr_Replayed r));
    omitempty "absent" (negb (rr_Absent r)) (JBool (rr_Absent r))];
  of_json v := match v with
    | JObj fs =>
        runtimeRef ← field fs "runtime_ref" dec_string ""%string;
        error ← field fs "error" dec_string ""%string;
        replayed ← field fs "replayed" dec_bool false;
        absent ← field fs "absent" dec_bool false;
        Some (mkResultV3 runtimeRef error replayed absent)
    | _ => None end;
  storable r := utf8_valid (rr_RuntimeRef r) && utf8_valid (rr_Error r);
}.

#[global] Instance ReportV3_json : GoJSON ExecutorReportV3 := {
  go_shape := KStruct [("protocol_version", KInt); ("delivery_id", KString); ("delivery_generation", KInt);
    ("command_id", KString); ("command_digest", KString); ("status", KString); ("reported_status", KString);
    ("claim_generation", KInt); ("error_code", KString);
    ("result", go_shape (A := ExecutorReportResultV3))]%string;
  to_json r := obj [
    always "protocol_version" (json_int (r_ProtocolVersion r));
    always "delivery_id" (JStr (r_DeliveryID r));
    always "delivery_generation" (json_int (r_DeliveryGeneration r));
    always "command_id" (JStr (r_CommandID r));
    always "command_digest" (JStr (r_CommandDigest r));
    always "status" (JStr (r_Status r));
    always "reported_status" (JStr (r_ReportedStatus r));
    always "claim_generation" (json_int (r_ClaimGeneration r));
    omitempty "error_code" (empty_string (r_ErrorCode r)) (JStr (r_ErrorCode r));
    always "result" (to_json (r_Result r))];
  of_json v := match v with
    | JObj fs =>
        protocolVersion ← field fs "protocol_version" dec_int 0;
        deliveryID ← field fs "delivery_id" dec_string ""%string;
        deliveryGeneration ← field fs "delivery_generation" dec_u64 0;
        commandID ← field fs "command_id" dec_string ""%string;
        commandDigest ← field fs "command_digest" dec_string ""%string;
        status ← field fs "status" dec_string ""%string;
        reportedStatus ← field fs "reported_status" dec_string ""%string;
        claimGeneration ← field fs "claim_generation" dec_u64 0;
        errorCode ← field fs "error_code" dec_string ""%string;
        result ← field fs "result" of_json (mkResultV3 "" "" false false);
        Some (mkReportV3 protocolVersion deliveryID deliveryGeneration commandID commandDigest status
                reportedStatus claimGeneration errorCode result)
    | _ => None end;
  storable r := in_int64b (r_ProtocolVersion r) && utf8_valid (r_DeliveryID r) && in_u64b (r_DeliveryGeneration r)
    && utf8_valid (r_CommandID r) && utf8_valid (r_CommandDigest r) && utf8_valid (r_Status r)
    && utf8_valid (r_ReportedStatus r) && in_u64b (r_ClaimGeneration r) && utf8_valid (r_ErrorCode r)
    && storable (r_Result r);
}.

#[global] Instance TaskAuthority_json : GoJSON ExecutorTaskAuthorityV1 := {
  go_shape := KStruct [("key_id", KString); ("public_key", KString)]%string;
  to_json t := obj [always "key_id" (JStr (ta_KeyID t)); always "public_key" (JStr (ta_PublicKey t))];
  of_json v := match v with
    | JObj fs =>
        keyID ← field fs "key_id" dec_string ""%string;
        publicKey ← field fs "public_key" dec_string ""%string;
        Some (mkTaskAuthority keyID publicKey)
    | _ => None end;
  storable t := utf8_valid (ta_KeyID t) && utf8_valid (ta_PublicKey t);
}.

#[global] Instance Admission_json : GoJSON ExecutorAdmissionProjectionV1 := {
  go_shape := KStruct [("schema_version", KString); ("runtime_ref", KString); ("status", KString);
    ("capsule_digest", KString); ("policy_digest", KString); ("generation", KInt); ("evidence_key_id", KString);
    ("grant_id", KString); ("service_path", KString); ("service_id", KString);
    ("task_authorities", KSlice (go_shape (A := ExecutorTaskAuthorityV1))); ("egress_proxy", KString);
    ("egress_route_ids", KSlice (go_shape (A := string))); ("connector_url", KString);
    ("connector_ids", KSlice (go_shape (A := string))); ("event_url", KString); ("route_policy_digest", KString);
    ("activation_id", KString); ("activation_begin_digest", KString)]%string;
  to_json a := obj [
    always "schema_version" (JStr (a_SchemaVersion a));
    always "runtime_ref" (JStr (a_RuntimeRef a));
    always "status" (JStr (a_Status a));
    always "capsule_digest" (JStr (a_CapsuleDigest a));
    always "policy_digest" (JStr (a_PolicyDigest a));
    always "generation" (json_int (a_Generation a));
    always "evidence_key_id" (JStr (a_EvidenceKeyID a));
    omitempty "grant_id" (empty_string (a_GrantID a)) (JStr (a_GrantID a));
    omitempty "service_path" (empty_string (a_ServicePath a)) (JStr (a_ServicePath a));
    omitempty "service_id" (empty_string (a_ServiceID a)) (JStr (a_ServiceID a));
    omitempty "task_authorities" (nil_slice (a_TaskAuthorities a)) (enc_slice to_json (a_TaskAuthorities a));
    omitempty "egress_proxy" (empty_string (a_EgressProxy a)) (JStr (a_EgressProxy a));
    omitempty "egress_route_ids" (nil_slice (a_EgressRouteIDs a)) (enc_slice to_json (a_EgressRouteIDs a));
    omitempty "connector_url" (empty_string (a_ConnectorURL a)) (JStr (a_ConnectorURL a));
    omitempty "connector_ids" (nil_slice (a_ConnectorIDs a)) (enc_slice to_json (a_ConnectorIDs a));
    omitempty "event_url" (empty_string (a_EventURL a)) (JStr (a_EventURL a));
    omitempty "route_policy_digest" (empty_string (a_RoutePolicyDigest a)) (JStr (a_RoutePolicyDigest a));
    omitempty "activation_id" (empty_string (a_ActivationID a)) (JStr (a_ActivationID a));
    omitempty "activation_begin_digest" (empty_string (a_ActivationBeginDigest a)) (JStr (a_ActivationBeginDigest a))];
  of_json v := match v with
    | JObj fs =>
        schemaVersion ← field fs "schema_version" dec_string ""%string;
        runtimeRef ← field fs "runtime_ref" dec_string ""%string;
        status ← field fs "status" dec_string ""%string;
        capsuleDigest ← field fs "capsule_digest" dec_string ""%string;
        policyDigest ← field fs "policy_digest" dec_string ""%string;
        generation ← field fs "generation" dec_u64 0;
        evidenceKeyID ← field fs "evidence_key_id" dec_string ""%string;
        grantID ← field fs "grant_id" dec_string ""%string;
        servicePath ← field fs "service_path" dec_string ""%string;
        serviceID ← field fs "service_id" dec_string ""%string;
        taskAuthorities ← field fs "task_authorities" (dec_slice of_json) None;
        egressProxy ← field fs "egress_proxy" dec_string ""%string;
        egressRouteIDs ← field fs "egress_route_ids" (dec_slice of_json) None;
        connectorURL ← field fs "connector_url" dec_string ""%string;
        connectorIDs ← field fs "connector_ids" (dec_slice of_json) None;
        eventURL ← field fs "event_url" dec_string ""%string;
        routePolicyDigest ← field fs "route_policy_digest" dec_string ""%string;
        activationID ← field fs "activation_id" dec_string ""%string;
        activationBeginDigest ← field fs "activation_begin_digest" dec_string ""%string;
        Some (mkAdmission schemaVersion runtimeRef status capsuleDigest policyDigest generation evidenceKeyID
                grantID servicePath serviceID taskAuthorities egressProxy egressRouteIDs connectorURL connectorIDs
                eventURL routePolicyDigest activationID activationBeginDigest)
    | _ => None end;
  storable a := utf8_valid (a_SchemaVersion a) && utf8_valid (a_RuntimeRef a) && utf8_valid (a_Status a)
    && utf8_valid (a_CapsuleDigest a) && utf8_valid (a_PolicyDigest a) && in_u64b (a_Generation a)
    && utf8_valid (a_EvidenceKeyID a) && utf8_valid (a_GrantID a) && utf8_valid (a_ServicePath a)
    && utf8_valid (a_ServiceID a) && slice_ok storable (a_TaskAuthorities a) && utf8_valid (a_EgressProxy a)
    && slice_ok storable (a_EgressRouteIDs a) && utf8_valid (a_ConnectorURL a)
    && slice_ok storable (a_ConnectorIDs a) && utf8_valid (a_EventURL a) && utf8_valid (a_RoutePolicyDigest a)
    && utf8_valid (a_ActivationID a) && utf8_valid (a_ActivationBeginDigest a);
}.

#[global] Instance Canary_json : GoJSON ExecutorActivationCanaryResultV1 := {
  go_shape := KStruct [("schema_version", KString); ("activation_id", KString); ("admission_digest", KString);
    ("task_digest", KString); ("permit_digest", KString); ("run_id", KString); ("terminal_result_digest", KString);
    ("terminal_result_bytes", KInt); ("terminal_result_base64", KString); ("gateway_evidence_base64", KString);
    ("activation_checkpoint_digest", KString); ("qualified", KBool)]%string;
  to_json c := obj [
    always "schema_version" (JStr (c_SchemaVersion c));
    always "activation_id" (JStr (c_ActivationID c));
    always "admission_digest" (JStr (c_AdmissionDigest c));
    always "task_digest" (JStr (c_TaskDigest c));
    always "permit_digest" (JStr (c_PermitDigest c));
    always "run_id" (JStr (c_RunID c));
    always "terminal_result_digest" (JStr (c_TerminalResultDigest c));
    always "terminal_result_bytes" (json_int (c_TerminalResultBytes c));
    always "terminal_result_base64" (JStr (c_TerminalResultBase64 c));
    always "gateway_evidence_base64" (JStr (c_GatewayEvidenceBase64 c));
    always "activation_checkpoint_digest" (JStr (c_ActivationCheckpointDigest c));
    always "qualified" (JBool (c_Qualified c))];
  of_json v := match v with
    | JObj fs =>
        schemaVersion ← field fs "schema_version" dec_string ""%string;
        activationID ← field fs "activation_id" dec_string ""%string;
        admissionDigest ← field fs "admission_digest" dec_string ""%string;
        taskDigest ← field fs "task_digest" dec_string ""%string;
        permitDigest ← field fs "permit_digest" dec_string ""%string;
        runID ← field fs "run_id" dec_string ""%string;
        terminalResultDigest ← field fs "terminal_result_digest" dec_string ""%string;
        terminalResultBytes ← field fs "terminal_result_bytes" dec_int 0;
        terminalResultBase64 ← field fs "terminal_result_base64" dec_string ""%string;
        gatewayEvidenceBase64 ← field fs "gateway_evidence_base64" dec_string ""%string;
        activationCheckpointDigest ← field fs "activation_checkpoint_digest" dec_string ""%string;
        qualified ← field fs "qualified" dec_bool false;
        Some (mkCanary schemaVersion activationID admissionDigest taskDigest permitDigest runID
                terminalResultDigest terminalResultBytes terminalResultBase64 gatewayEvidenceBase64
                activationCheckpointDigest qualified)
    | _ => None end;
  storable c := utf8_valid (c_SchemaVersion c) && utf8_valid (c_ActivationID c) && utf8_valid (c_AdmissionDigest c)
    && utf8_valid (c_TaskDigest c) && utf8_valid (c_PermitDigest c) && utf8_valid (c_RunID c)
    && utf8_valid (c_TerminalResultDigest c) && in_int64b (c_TerminalResultBytes c)
    && utf8_valid (c_TerminalResultBase64 c) && utf8_valid (c_GatewayEvidenceBase64 c)
    && utf8_valid (c_ActivationCheckpointDigest c);
}.

#[global] Instance ReportResultV4_json : GoJSON ExecutorReportResultV4 := {
  go_shape := KStruct [("runtime_ref", KString); ("error", KString); ("replayed", KBool); ("absent", KBool);
    ("admission", KPointer (go_shape (A := ExecutorAdmissionProjectionV1)));
    ("activation_canary", KPointer (go_shape (A := ExecutorActivationCanaryResultV1)))]%string;
  to_json r := obj [
    omitempty "runtime_ref" (empty_string (q_RuntimeRef r)) (JStr (q_RuntimeRef r));
    omitempty "error" (empty_string (q_Error r)) (JStr (q_Error r));
    omitempty "replayed" (negb (q_Replayed r)) (JBool (q_Replayed r));
    omitempty "absent" (negb (q_Absent r)) (JBool (q_Absent r));
    omitempty "admission" (nil_ptr (q_Admission r)) (enc_ptr to_json (q_Admission r));
    omitempty "activation_canary" (nil_ptr (q_ActivationCanary r)) (enc_ptr to_json (q_ActivationCanary r))];
  of_json v := match v with
    | JObj fs =>
        runtimeRef ← field fs "runtime_ref" dec_string ""%string;
        error ← field fs "error" dec_string ""%string;
        replayed ← field fs "replayed" dec_bool false;
        absent ← field fs "absent" dec_bool false;
        admission ← field fs "admission" (dec_ptr of_json) None;
        activationCanary ← field fs "activation_canary" (dec_ptr of_json) None;
        Some (mkResultV4 runtimeRef error replayed absent admission activationCanary)
    | _ => None end;
  storable r := utf8_valid (q_RuntimeRef r) && utf8_valid (q_Error r)
    && from_option storable true (q_Admission r) && from_option storable true (q_ActivationCanary r);
}.

#[global] Instance ReportV4_json : GoJSON ExecutorReportV4 := {
  go_shape := KStruct [("protocol_version", KInt); ("delivery_id", KString); ("delivery_generation", KInt);
    ("command_id", KString); ("command_digest", KString); ("status", KString); ("reported_status", KString);
    ("claim_generation", KInt); ("error_code", KString);
    ("result", go_shape (A := ExecutorReportResultV4))]%string;
  to_json r := obj [
    always "protocol_version" (json_int (p_ProtocolVersion r));
    always "delivery_id" (JStr (p_DeliveryID r));
    always "delivery_generation" (json_int (p_DeliveryGeneration r));
    always "command_id" (JStr (p_CommandID r));
    always "command_digest" (JStr (p_CommandDigest r));
    always "status" (JStr (p_Status r));
    always "reported_status" (JStr (p_ReportedStatus r));
    always "claim_generation" (json_int (p_ClaimGeneration r));
    omitempty "error_code" (empty_string (p_ErrorCode r)) (JStr (p_ErrorCode r));
    always "result" (to_json (p_Result r))];
  of_json v := match v with
    | JObj fs =>
        protocolVersion ← field fs "protocol_version" dec_int 0;
        deliveryID ← field fs "delivery_id" dec_string ""%string;
        deliveryGeneration ← field fs "delivery_generation" dec_u64 0;
        commandID ← field fs "command_id" dec_string ""%string;
        commandDigest ← field fs "command_digest" dec_string ""%string;
        status ← field fs "status" dec_string ""%string;
        reportedStatus ← field fs "reported_status" dec_string ""%string;
        claimGeneration ← field fs "claim_generation" dec_u64 0;
        errorCode ← field fs "error_code" dec_string ""%string;
        result ← field fs "result" of_json (mkResultV4 "" "" false false None None);
        Some (mkReportV4 protocolVersion deliveryID deliveryGeneration commandID commandDigest status
                reportedStatus claimGeneration errorCode result)
    | _ => None end;
  storable r := in_int64b (p_ProtocolVersion r) && utf8_valid (p_DeliveryID r) && in_u64b (p_DeliveryGeneration r)
    && utf8_valid (p_CommandID r) && utf8_valid (p_CommandDigest r) && utf8_valid (p_Status r)
    && utf8_valid (p_ReportedStatus r) && in_u64b (p_ClaimGeneration r) && utf8_valid (p_ErrorCode r)
    && storable (p_Result r);
}.

(** ** Validation *)

Definition boundedText (value : string) (limit : Z) : bool :=
  negb (bool_decide (trim_space value = ""%string)) && (slen value <=? limit) && negb (contains_line_or_nul value).

Definition ValidSHA256Digest (value : string) : bool := sha256_digest value.

Definition lowerHex (value : string) (length : Z) : bool :=
  (slen value =? length) && all_bytes lower_hex_byte value.

Definition executorRuntimeRef (value : string) : bool :=
  has_prefix value "executor-" && lowerHex (trim_prefix value "executor-") 64.
Definition executorGrantID (value : string) : bool :=
  has_prefix value "grant-" && lowerHex (trim_prefix value "grant-") 64.

Definition alnum (z : Z) : bool :=
  ((65 <=? z) && (z <=? 90)) || ((97 <=? z) && (z <=? 122)) || ((48 <=? z) && (z <=? 57)).

(** A byte of a multi-byte rune is in none of the ranges, so testing bytes tests runes. *)
Definition routeIdentifier (value : string) : bool :=
  if (slen value =? 0) || (128 <? slen value) then false else
  match bytes_of value with
  | [] => false
  | first :: rest =>
      alnum (u8 first) &&
      forallb (fun c => alnum (u8 c) || (u8 c =? 46) || (u8 c =? 95) || (u8 c =? 45)) rest
  end.

(** What is hashed into the identity of a delivery. *)
Definition delivery_preimage (tenantID nodeID commandID : string) : bytes :=
  bytes_of "steward-control-delivery-v1" ++ byte_of_Z 0 :: bytes_of tenantID ++ byte_of_Z 0 :: bytes_of nodeID
  ++ byte_of_Z 0 :: bytes_of commandID.

Definition ExecutorDeliveryID (tenantID nodeID commandID : string) : result string :=
  require boundedText tenantID 128 && boundedText nodeID 128 && boundedText commandID 256
    else "delivery tenant, node, and command identity must be bounded" in
  Ok ("delivery-" +:+ string_of (hex_encode (Sha256.sum (delivery_preimage tenantID nodeID commandID)))).

Definition ExecutorDeliveryV3_Validate (d : ExecutorDeliveryV3) : result unit :=
  require boundedText (dv_DeliveryID d) 256 && boundedText (dv_CommandID d) 256 && negb (dv_DeliveryGeneration d =? 0)
    else "delivery identity and positive generation are required" in
  require ValidSHA256Digest (dv_CommandDigest d) else "delivery command_digest must be canonical SHA-256" in
  require negb (bool_decide (trim_space (dv_CommandDSSEBase64 d) = ""%string)
                || (MaxExecutorDeliveryBytes <? slen (dv_CommandDSSEBase64 d)))
    else "delivery command DSSE is empty or exceeds its limit" in
  Ok tt.

Definition executorDeliveryV3 (d : ExecutorDeliveryV4) : ExecutorDeliveryV3 :=
  mkDeliveryV3 (d4_DeliveryID d) (d4_DeliveryGeneration d) (d4_CommandID d) (d4_CommandDigest d)
    (d4_CommandDSSEBase64 d).

Definition ExecutorDeliveryV4_Validate (d : ExecutorDeliveryV4) : result unit :=
  ExecutorDeliveryV3_Validate (executorDeliveryV3 d).

Definition DecodeExecutorDeliveryV3 (raw : bytes) : result ExecutorDeliveryV3 :=
  let* delivery := DecodeStrictInto raw MaxExecutorDeliveryBytes in
  let* _ := ExecutorDeliveryV3_Validate delivery in Ok delivery.

(** The type of protocol 4 has the fields, the tags and the validation of protocol 3. *)
Definition executorDeliveryV4 (d : ExecutorDeliveryV3) : ExecutorDeliveryV4 :=
  mkDeliveryV4 (dv_DeliveryID d) (dv_DeliveryGeneration d) (dv_CommandID d) (dv_CommandDigest d) (dv_CommandDSSEBase64 d).
Definition DecodeExecutorDeliveryV4 (raw : bytes) : result ExecutorDeliveryV4 :=
  let* delivery := DecodeStrictInto raw MaxExecutorDeliveryBytes in
  let delivery := executorDeliveryV4 delivery in
  let* _ := ExecutorDeliveryV4_Validate delivery in Ok delivery.

Definition valid_status (status : string) : bool :=
  existsb (String.eqb status)
    [ExecutorStatusDone; ExecutorStatusFailed; ExecutorStatusRejected; ExecutorStatusOutcomeUnknown].

Definition ExecutorReportV3_Validate (r : ExecutorReportV3) : result unit :=
  require (r_ProtocolVersion r =? ExecutorProtocolV3) && boundedText (r_DeliveryID r) 256
          && negb (r_DeliveryGeneration r =? 0) && boundedText (r_CommandID r) 256
          && ValidSHA256Digest (r_CommandDigest r) else "report delivery identity is invalid" in
  require valid_status (r_Status r) else "report status is invalid" in
  require boundedText (r_ReportedStatus r) 64 && (slen (r_ErrorCode r) <=? 128)
          && (slen (rr_Error (r_Result r)) <=? 4096) && (slen (rr_RuntimeRef (r_Result r)) <=? 1024)
    else "report outcome exceeds its limits" in
  Ok tt.

Definition slice_len {A} (s : option (list A)) : Z := zlen (default [] s).
Definition non_nil {A} (s : option (list A)) : bool := negb (nil_ptr s).
Definition nonempty (s : string) : bool := negb (empty_string s).

Definition hasRuntimeTopology (p : ExecutorAdmissionProjectionV1) : bool :=
  nonempty (a_ServicePath p) || nonempty (a_ServiceID p) || non_nil (a_TaskAuthorities p)
  || nonempty (a_EgressProxy p) || non_nil (a_EgressRouteIDs p) || nonempty (a_ConnectorURL p)
  || non_nil (a_ConnectorIDs p) || nonempty (a_EventURL p) || nonempty (a_RoutePolicyDigest p)
  || nonempty (a_ActivationID p) || nonempty (a_ActivationBeginDigest p).

(** The loop over the task authorities; [previous] is the key ID before the current one. *)
Fixpoint validate_authorities (previous : option string) (seenPublicKeys : list bytes)
    (l : list ExecutorTaskAuthorityV1) : result unit :=
  match l with
  | [] => Ok tt
  | authority :: l =>
      require routeIdentifier (ta_KeyID authority)
              && from_option (fun p => str_lt p (ta_KeyID authority)) true previous
        else "admission projection task authorities are invalid or non-canonical" in
      match b64_decode_string (ta_PublicKey authority) with
      | None => Err "admission projection task authority public key is not canonical Ed25519"
      | Some public =>
          require (zlen public =? 32) && bool_decide (b64_encode_string public = ta_PublicKey authority)
            else "admission projection task authority public key is not canonical Ed25519" in
          require negb (bool_decide (public ∈ seenPublicKeys))
            else "admission projection task authority public key is duplicated" in
          validate_authorities (Some (ta_KeyID authority)) (public :: seenPublicKeys) l
      end
  end.

Definition validateService (p : ExecutorAdmissionProjectionV1) : result unit :=
  if empty_string (a_ServicePath p) then
    require negb (nonempty (a_ServiceID p) || non_nil (a_TaskAuthorities p))
      else "admission projection service authority requires a service path" in Ok tt
  else
    require bool_decide (a_ServicePath p = "/v1/services/" +:+ a_GrantID p +:+ "/")
      else "admission projection service path does not match its grant" in
    require eqb (empty_string (a_ServiceID p)) (slice_len (a_TaskAuthorities p) =? 0)
      else "admission projection service ID and task authorities must appear together" in
    require negb (non_nil (a_TaskAuthorities p) && (slice_len (a_TaskAuthorities p) =? 0))
      else "admission projection task authorities must be omitted or non-empty" in
    if empty_string (a_ServiceID p) then Ok tt else
    require routeIdentifier (a_ServiceID p) else "admission projection service ID is invalid" in
    require negb (maxExecutorTaskAuthorities <? slice_len (a_TaskAuthorities p))
      else "admission projection contains too many task authorities" in
    validate_authorities None [] (default [] (a_TaskAuthorities p)).

Fixpoint validate_ids (previous : option string) (ids : list string) : bool :=
  match ids with
  | [] => true
  | id :: ids => routeIdentifier id && from_option (fun p => str_lt p id) true previous && validate_ids (Some id) ids
  end.

Definition validateAdmissionRouteSet (ids : option (list string)) (endpoint expectedEndpoint : string) : result unit :=
  require negb (non_nil ids && (slice_len ids =? 0)) else "admission projection IDs must be omitted or non-empty" in
  require eqb (slice_len ids =? 0) (empty_string endpoint)
    else "admission projection endpoint and IDs must appear together" in
  if slice_len ids =? 0 then Ok tt else
  require bool_decide (endpoint = expectedEndpoint) else "admission projection endpoint is invalid" in
  require negb (maxExecutorAdmissionRouteOrConnectorIDs <? slice_len ids)
    else "admission projection contains too many IDs" in
  require validate_ids None (default [] ids) else "admission projection IDs are invalid or non-canonical" in
  Ok tt.

Definition ExecutorAdmissionProjectionV1_Validate (p : ExecutorAdmissionProjectionV1) : result unit :=
  require bool_decide (a_SchemaVersion p = ExecutorAdmissionProjectionSchemaV1) && executorRuntimeRef (a_RuntimeRef p)
          && ValidSHA256Digest (a_CapsuleDigest p) && ValidSHA256Digest (a_PolicyDigest p)
          && negb (a_Generation p =? 0) && lowerHex (a_EvidenceKeyID p) 32
    else "admission projection identity is invalid" in
  require existsb (String.eqb (a_Status p)) ["created"; "running"; "exited"]%string
    else "admission projection status is invalid" in
  let hasGrant := nonempty (a_GrantID p) in
  require negb (hasGrant && negb (executorGrantID (a_GrantID p))) else "admission projection grant ID is invalid" in
  require negb (negb hasGrant && hasRuntimeTopology p) else "admission projection topology requires a grant ID" in
  require negb (nonempty (a_RoutePolicyDigest p) && negb (ValidSHA256Digest (a_RoutePolicyDigest p)))
    else "admission projection route policy digest is invalid" in
  let* _ := validateService p in
  let* _ := validateAdmissionRouteSet (a_EgressRouteIDs p) (a_EgressProxy p) executorEgressProxyV1 in
  let* _ := validateAdmissionRouteSet (a_ConnectorIDs p) (a_ConnectorURL p) executorConnectorURLV1 in
  require negb (nonempty (a_EventURL p) && negb (bool_decide (a_EventURL p = executorEventURLV1)))
    else "admission projection controller event URL is invalid" in
  require negb (((0 <? slice_len (a_TaskAuthorities p)) || (0 <? slice_len (a_EgressRouteIDs p))
                 || (0 <? slice_len (a_ConnectorIDs p)) || nonempty (a_EventURL p))
                && empty_string (a_RoutePolicyDigest p))
    else "admission projection policy-bearing grant requires a route policy digest" in
  require negb ((nonempty (a_ActivationID p) || nonempty (a_ActivationBeginDigest p))
                && negb (hasGrant && routeIdentifier (a_ActivationID p)
                         && ValidSHA256Digest (a_ActivationBeginDigest p)))
    else "admission projection activation identity is invalid" in
  Ok tt.

Definition decodeExecutorCanaryBase64 (value : string) (maximum : Z) : result bytes :=
  require negb (empty_string value || (maximum <=? 0) || (b64_encoded_len maximum <? slen value))
    else "base64 value is empty or exceeds its limit" in
  match b64_decode_string value with
  | None => Err "base64 value is not one canonical standard encoding"
  | Some raw =>
      require negb ((zlen raw =? 0) || (maximum <? zlen raw)) && bool_decide (b64_encode_string raw = value)
        else "base64 value is not one canonical standard encoding" in
      Ok raw
  end.

Definition count_byte (b : Z) (l : bytes) : Z := zlen (List.filter (fun c => u8 c =? b) l).

Definition ExecutorActivationCanaryResultV1_Validate (r : ExecutorActivationCanaryResultV1) : result unit :=
  require bool_decide (c_SchemaVersion r = ExecutorActivationCanaryResultSchemaV1) && routeIdentifier (c_ActivationID r)
          && ValidSHA256Digest (c_AdmissionDigest r) && ValidSHA256Digest (c_TaskDigest r)
          && ValidSHA256Digest (c_PermitDigest r) && has_prefix (c_RunID r) "run_"
          && lowerHex (trim_prefix (c_RunID r) "run_") 32 && ValidSHA256Digest (c_TerminalResultDigest r)
          && ValidSHA256Digest (c_ActivationCheckpointDigest r) && c_Qualified r
    else "activation canary result identity, digest, run, or qualification is invalid" in
  match decodeExecutorCanaryBase64 (c_TerminalResultBase64 r) maxExecutorActivationCanaryTerminalBytes with
  | Err _ => Err "activation canary terminal result encoding, length, or digest is invalid"
  | Ok terminal =>
      require (c_TerminalResultBytes r =? zlen terminal)
              && bool_decide (c_TerminalResultDigest r = Dsse.Digest terminal)
        else "activation canary terminal result encoding, length, or digest is invalid" in
      match decodeExecutorCanaryBase64 (c_GatewayEvidenceBase64 r) maxExecutorActivationCanaryEvidenceBytes with
      | Err _ => Err "activation canary evidence is not three canonical receipt lines"
      | Ok receipts =>
          require from_option (fun c => u8 c =? 10) false (last receipts) && (count_byte 10 receipts =? 3)
                  && (count_byte 13 receipts =? 0)
            else "activation canary evidence is not three canonical receipt lines" in
          require zlen (json_print (to_json r)) <=? MaxExecutorActivationCanaryResultBytes
            else "activation canary result exceeds its limit" in
          Ok tt
      end
  end.

(** The checks on the admission and on the canary a report carries. *)
Definition validate_admission (report : ExecutorReportV4) : result unit :=
  let r := p_Result report in
  match q_Admission r with
  | None => Ok tt
  | Some admission =>
      let* _ := ExecutorAdmissionProjectionV1_Validate admission in
      require bool_decide (p_Status report = ExecutorStatusDone) && empty_string (p_ErrorCode report)
              && empty_string (q_Error r) && negb (q_Replayed r) && negb (q_Absent r)
        else "admission projection requires an unambiguous successful report" in
      require bool_decide (q_RuntimeRef r = a_RuntimeRef admission)
        else "admission projection runtime does not match the report result" in
      let expectedStatus := if String.eqb (a_Status admission) "running" then "running"%string else "stopped"%string in
      require bool_decide (p_ReportedStatus report = expectedStatus)
        else "admission projection status does not match the reported status" in
      Ok tt
  end.

Definition validate_canary (report : ExecutorReportV4) : result unit :=
  let r := p_Result report in
  match q_ActivationCanary r with
  | None => Ok tt
  | Some canary =>
      let* _ := ExecutorActivationCanaryResultV1_Validate canary in
      require bool_decide (p_Status report = ExecutorStatusDone) && String.eqb (p_ReportedStatus report) "running"
              && empty_string (p_ErrorCode report) && empty_string (q_Error r) && negb (q_Replayed r)
              && negb (q_Absent r) && nil_ptr (q_Admission r) && executorRuntimeRef (q_RuntimeRef r)
        else "activation canary projection requires an unambiguous successful report with its runtime" in
      Ok tt
  end.

Definition ExecutorReportV4_Validate (report : ExecutorReportV4) : result unit :=
  require (p_ProtocolVersion report =? ExecutorProtocolV4) && boundedText (p_DeliveryID report) 256
          && negb (p_DeliveryGeneration report =? 0) && boundedText (p_CommandID report) 256
          && ValidSHA256Digest (p_CommandDigest report) else "report delivery identity is invalid" in
  require valid_status (p_Status report) else "report status is invalid" in
  require negb (negb (bool_decide (p_Status report = ExecutorStatusRejected)) && (p_ClaimGeneration report =? 0))
    else "report claim generation must be positive after command verification" in
  require boundedText (p_ReportedStatus report) 64 && (slen (p_ErrorCode report) <=? 128)
          && (slen (q_Error (p_Result report)) <=? 4096) && (slen (q_RuntimeRef (p_Result report)) <=? 1024)
    else "report outcome exceeds its limits" in
  let* _ := validate_admission report in
  let* _ := validate_canary report in
  require zlen (json_print (to_json report)) <=? MaxExecutorReportBytes else "executor report v4 exceeds its limit" in
  Ok tt.

Definition DecodeExecutorReportV4 (raw : bytes) : result ExecutorReportV4 :=
  let* report := DecodeStrictInto raw MaxExecutorReportBytes in
  let* _ := ExecutorReportV4_Validate report in Ok report.

(** ** The records survive their JSON form *)

#[global] Instance DeliveryV3_laws : GoJSONLaws ExecutorDeliveryV3 1.
Proof. struct_laws. Qed.

#[global] Instance ReportResultV3_laws : GoJSONLaws ExecutorReportResultV3 1.
Proof. struct_laws. Qed.

#[global] Instance ReportV3_laws : GoJSONLaws ExecutorReportV3 2.
Proof. struct_laws. Qed.

#[global] Instance TaskAuthority_laws : GoJSONLaws ExecutorTaskAuthorityV1 1.
Proof. struct_laws. Qed.

#[global] Instance Admission_laws : GoJSONLaws ExecutorAdmissionProjectionV1 3.
Proof. struct_laws. Qed.

#[global] Instance Canary_laws : GoJSONLaws ExecutorActivationCanaryResultV1 1.
Proof. struct_laws. Qed.

#[global] Instance ReportResultV4_laws : GoJSONLaws ExecutorReportResultV4 5.
Proof. struct_laws. Qed.

#[global] Instance ReportV4_laws : GoJSONLaws ExecutorReportV4 6.
Proof. struct_laws. Qed.

(** a report the node validated reaches the controller unchanged. Marshalling a valid protocol-4 report and
    decoding the bytes strictly, with the decoder's own validation, yields the same report: the size check of [Validate] is
    the size limit of the decoder. *)
Theorem report_v4_roundtrip report :
  ExecutorReportV4_Validate report = Ok tt -> storable report = true ->
  DecodeExecutorReportV4 (json_print (to_json report)) = Ok report.
Proof.
  intros Hv Hs. unfold DecodeExecutorReportV4. rewrite <- (app_nil_r (json_print _)).
  rewrite (DecodeStrictInto_marshal (depth := 6)); [by rewrite Hv | done | lia | by left|].
  rewrite app_nil_r. unfold ExecutorReportV4_Validate in Hv. case_in Hv. by breflect.
Qed.

Definition sample_digest : string := "sha256:e3b0c44298fc1c149afbf4c8996fb92427ae41e4649b934ca495991b7852b855".
Definition sample_ref : string := "executor-e3b0c44298fc1c149afbf4c8996fb92427ae41e4649b934ca495991b7852b855".
Definition sample_admission : ExecutorAdmissionProjectionV1 :=
  mkAdmission ExecutorAdmissionProjectionSchemaV1 sample_ref "running" sample_digest sample_digest 3
    "0123456789abcdef0123456789abcdef" "" "" "" None "" None "" None "" "" "" "".
Definition sample_report_v4 : ExecutorReportV4 :=
  mkReportV4 4 "delivery-1" 2 "command-1" sample_digest ExecutorStatusDone "running" 7 ""
    (mkResultV4 sample_ref "" false false (Some sample_admission) None).

Lemma report_v4_roundtrip_witness :
  DecodeExecutorReportV4 (json_print (to_json sample_report_v4)) = Ok sample_report_v4.
Proof. apply report_v4_roundtrip; vm_compute; reflexivity. Defined.

Lemma boundedText_nul v n : boundedText v n = true -> Forall (fun c => u8 c <> 0) (bytes_of v).
Proof.
  unfold boundedText, contains_line_or_nul. intros H. apply contains_byte_false. breflect. done.
Qed.

Lemma delivery_preimage_inj t n c t' n' c' limit :
  boundedText t limit = true -> boundedText t' limit = true -> boundedText n limit = true -> boundedText n' limit = true ->
  delivery_preimage t n c = delivery_preimage t' n' c' -> t = t' /\ n = n' /\ c = c'.
Proof.
  intros Ht%boundedText_nul Ht'%boundedText_nul Hn%boundedText_nul Hn'%boundedText_nul E%app_inv_head.
  injection E as E. apply split_at_nul in E as [Et E]; [|done..]. apply split_at_nul in E as [En Ec]; [|done..].
  by apply bytes_of_inj in Et, En, Ec.
Qed.

(** a delivery identity binds tenant, node and command. Two triples that get the same delivery ID are the same triple,
    or their preimages are a SHA-256 collision. *)
Theorem delivery_id_binding t n c t' n' c' id :
  ExecutorDeliveryID t n c = Ok id -> ExecutorDeliveryID t' n' c' = Ok id ->
  (t = t' /\ n = n' /\ c = c') \/
  (delivery_preimage t n c <> delivery_preimage t' n' c' /\
   Sha256.sum (delivery_preimage t n c) = Sha256.sum (delivery_preimage t' n' c')).
Proof.
  unfold ExecutorDeliveryID. intros H H'. case_in H. case_in H'. breflect. simplify_eq.
  match goal with Hs : string_of _ = string_of _ |- _ => apply (f_equal bytes_of) in Hs;
    rewrite !bytes_of_string_of in Hs; apply hex_encode_inj in Hs end.
  destruct (decide (delivery_preimage t n c = delivery_preimage t' n' c')) as [E|]; [|auto].
  left. by apply (delivery_preimage_inj _ _ _ _ _ _ 128) in E.
Qed.

Lemma delivery_id_binding_witness :
  let id := match ExecutorDeliveryID "tenant" "node" "command" with Ok id => id | Err _ => ""%string end in
  ("tenant" = "tenant" /\ "node" = "node" /\ "command" = "command")%string \/
  (delivery_preimage "tenant" "node" "command" <> delivery_preimage "tenant" "node" "command" /\
   Sha256.sum (delivery_preimage "tenant" "node" "command") = Sha256.sum (delivery_preimage "tenant" "node" "command")).
Proof. intros id. apply (delivery_id_binding _ _ _ _ _ _ id); vm_compute; reflexivity. Defined.

End ControlProtocol.
