(* ===== verification/DeliveryStore.v ===== *)
(** * The delivery ledger ([src/internal/executoruplink/delivery_state.go])

    The node's durable record of leased commands: which delivery may enter the local handler, what its terminal report was
    and whether the controller acknowledged it. The file is one JSON document, replaced atomically; every
    mutation persists the new ledger before it installs it in memory. *)

From Stdlib Require Import Ascii.
From S2P Require Import Prelude GoText GoFS GoJson GoCrypto Strict Dsse ControlProtocol.
Import ControlProtocol.

Module DeliveryStore.

Definition deliveryStateReadMinVersion : Z := 2.
Definition deliveryStateReadMaxVersion : Z := 4.
Definition deliveryStateWriteVersion : Z := 4.
Definition maxDeliveryStateBytes : Z := Z.shiftl 8 20.
Definition maxDeliveryRecords : Z := 4096.
Definition maxDeliveryRecordsPerTenant : Z := 32.
Definition maxDeliveryReservedBytesPerTenant : Z := maxDeliveryStateBytes / 8.
Definition deliveryCompactionTarget : Z := maxDeliveryRecords * 3 / 4.
Definition tenantDeliveryCompactionTarget : Z := maxDeliveryRecordsPerTenant * 3 / 4.
Definition deliveryCompactionTargetBytes : Z := maxDeliveryStateBytes * 3 / 4.

Definition deliveryPhaseAccepted : string := "accepted".
Definition deliveryPhaseExecuting : string := "executing".
Definition deliveryPhaseTerminal : string := "terminal".

Record deliveryRecord := mkRecord {
  ProtocolVersion : Z; DeliveryID : string; DeliveryGeneration : Z; SettledGeneration : Z; TenantID : string;
  CommandID : string; CommandDigest : string; CommandKind : string; ClaimGeneration : Z; Phase : string;
  Terminal : option ExecutorReportV3; Admission : option ExecutorAdmissionProjectionV1;
  ActivationCanary : option ExecutorActivationCanaryResultV1 }.

#[global] Instance deliveryRecord_eq_dec : EqDecision deliveryRecord.
Proof. solve_decision. Defined.

Record deliveryStateFile := mkFile { fVersion : Z; fNodeID : string; fRecords : option (list deliveryRecord) }.

Record deliveryRecordV3 := mkRecordV3 {
  l3_ProtocolVersion : Z; l3_DeliveryID : string; l3_DeliveryGeneration : Z; l3_SettledGeneration : Z;
  l3_TenantID : string; l3_CommandID : string; l3_CommandDigest : string; l3_ClaimGeneration : Z; l3_Phase : string;
  l3_Terminal : option ExecutorReportV3; l3_Admission : option ExecutorAdmissionProjectionV1;
  l3_ActivationCanary : option ExecutorActivationCanaryResultV1 }.
Record deliveryStateFileV3 := mkFileV3 { f3_Version : Z; f3_NodeID : string; f3_Records : option (list deliveryRecordV3) }.

Record deliveryRecordV2 := mkRecordV2 {
  l2_DeliveryID : string; l2_DeliveryGeneration : Z; l2_SettledGeneration : Z; l2_TenantID : string;
  l2_CommandID : string; l2_CommandDigest : string; l2_Phase : string; l2_Terminal : option ExecutorReportV3 }.
Record deliveryStateFileV2 := mkFileV2 { f2_Version : Z; f2_NodeID : string; f2_Records : option (list deliveryRecordV2) }.

(** The in-memory ledger, and the node: ledger and file. The path is fixed. *)
Record DeliveryStore := mkStore { nodeID : string; formatVersion : Z; records : gmap string deliveryRecord }.
Record Node := mkNode { mem : DeliveryStore; disk : option bytes }.

Inductive deliveryDecision := deliveryExecute | deliveryReport | deliveryStale.

(** ** JSON *)

Abbreviation record_fields :=
  ([("protocol_version", KInt); ("delivery_id", KString); ("delivery_generation", KInt); ("settled_generation", KInt);
   ("tenant_id", KString); ("command_id", KString); ("command_digest", KString); ("command_kind", KString);
   ("claim_generation", KInt); ("phase", KString); ("terminal", KPointer (go_shape (A := ExecutorReportV3)));
   ("admission", KPointer (go_shape (A := ExecutorAdmissionProjectionV1)));
   ("activation_canary", KPointer (go_shape (A := ExecutorActivationCanaryResultV1)))]%string).

#[global] Instance deliveryRecord_json : GoJSON deliveryRecord := {
  go_shape := KStruct record_fields;
  to_json r := obj [
    always "protocol_version" (json_int (ProtocolVersion r));
    always "delivery_id" (JStr (DeliveryID r));
    always "delivery_generation" (json_int (DeliveryGeneration r));
    omitempty "settled_generation" (SettledGeneration r =? 0) (json_int (SettledGeneration r));
    omitempty "tenant_id" (empty_string (TenantID r)) (JStr (TenantID r));
    always "command_id" (JStr (CommandID r));
    always "command_digest" (JStr (CommandDigest r));
    omitempty "command_kind" (empty_string (CommandKind r)) (JStr (CommandKind r));
    omitempty "claim_generation" (ClaimGeneration r =? 0) (json_int (ClaimGeneration r));
    always "phase" (JStr (Phase r));
    omitempty "terminal" (nil_ptr (Terminal r)) (enc_ptr to_json (Terminal r));
    omitempty "admission" (nil_ptr (Admission r)) (enc_ptr to_json (Admission r));
    omitempty "activation_canary" (nil_ptr (ActivationCanary r)) (enc_ptr to_json (ActivationCanary r))];
  of_json v := match v with
    | JObj fs =>
        protocolVersion ← field fs "protocol_version" dec_int 0;
        deliveryID ← field fs "delivery_id" dec_string ""%string;
        deliveryGeneration ← field fs "delivery_generation" dec_u64 0;
        settledGeneration ← field fs "settled_generation" dec_u64 0;
        tenantID ← field fs "tenant_id" dec_string ""%string;
        commandID ← field fs "command_id" dec_string ""%string;
        commandDigest ← field fs "command_digest" dec_string ""%string;
        commandKind ← field fs "command_kind" dec_string ""%string;
        claimGeneration ← field fs "claim_generation" dec_u64 0;
        phase ← field fs "phase" dec_string ""%string;
        terminal ← field fs "terminal" (dec_ptr of_json) None;
        admission ← field fs "admission" (dec_ptr of_json) None;
        activationCanary ← field fs "activation_canary" (dec_ptr of_json) None;
        Some (mkRecord protocolVersion deliveryID deliveryGeneration settledGeneration tenantID commandID commandDigest
                commandKind claimGeneration phase terminal admission activationCanary)
    | _ => None end;
  storable r := in_int64b (ProtocolVersion r) && utf8_valid (DeliveryID r) && in_u64b (DeliveryGeneration r)
    && in_u64b (SettledGeneration r) && utf8_valid (TenantID r) && utf8_valid (CommandID r)
    && utf8_valid (CommandDigest r) && utf8_valid (CommandKind r) && in_u64b (ClaimGeneration r)
    && utf8_valid (Phase r) && from_option storable true (Terminal r) && from_option storable true (Admission r)
    && from_option storable true (ActivationCanary r);
}.

#[global] Instance deliveryStateFile_json : GoJSON deliveryStateFile := {
  go_shape := KStruct [("version", KInt); ("node_id", KString); ("records", KSlice (go_shape (A := deliveryRecord)))]%string;
  to_json f := obj [always "version" (json_int (fVersion f)); always "node_id" (JStr (fNodeID f));
                    always "records" (enc_slice to_json (fRecords f))];
  of_json v := match v with
    | JObj fs =>
        version ← field fs "version" dec_int 0;
        nodeID ← field fs "node_id" dec_string ""%string;
        records ← field fs "records" (dec_slice of_json) None;
        Some (mkFile version nodeID records)
    | _ => None end;
  storable f := in_int64b (fVersion f) && utf8_valid (fNodeID f) && storable_slice (fRecords f);
}.

(** The older formats are only read; [storable] and [to_json] are not used for them. *)
Definition dec_record_v3 (v : json) : option deliveryRecordV3 :=
  match v with
  | JObj fs =>
      protocolVersion ← field fs "protocol_version" dec_int 0;
      deliveryID ← field fs "delivery_id" dec_string ""%string;
      deliveryGeneration ← field fs "delivery_generation" dec_u64 0;
      settledGeneration ← field fs "settled_generation" dec_u64 0;
      tenantID ← field fs "tenant_id" dec_string ""%string;
      commandID ← field fs "command_id" dec_string ""%string;
      commandDigest ← field fs "command_digest" dec_string ""%string;
      claimGeneration ← field fs "claim_generation" dec_u64 0;
      phase ← field fs "phase" dec_string ""%string;
      terminal ← field fs "terminal" (dec_ptr of_json) None;
      admission ← field fs "admission" (dec_ptr of_json) None;
      activationCanary ← field fs "activation_canary" (dec_ptr of_json) None;
      Some (mkRecordV3 protocolVersion deliveryID deliveryGeneration settledGeneration tenantID commandID commandDigest
              claimGeneration phase terminal admission activationCanary)
  | _ => None
  end.

Definition dec_record_v2 (v : json) : option deliveryRecordV2 :=
  match v with
  | JObj fs =>
      deliveryID ← field fs "delivery_id" dec_string ""%string;
      deliveryGeneration ← field fs "delivery_generation" dec_u64 0;
      settledGeneration ← field fs "settled_generation" dec_u64 0;
      tenantID ← field fs "tenant_id" dec_string ""%string;
      commandID ← field fs "command_id" dec_string ""%string;
      commandDigest ← field fs "command_digest" dec_string ""%string;
      phase ← field fs "phase" dec_string ""%string;
      terminal ← field fs "terminal" (dec_ptr of_json) None;
      Some (mkRecordV2 deliveryID deliveryGeneration settledGeneration tenantID commandID commandDigest phase terminal)
  | _ => None
  end.

Definition dec_file {A B} (dec : json -> option A) (mk : Z -> string -> option (list A) -> B) (v : json) : option B :=
  match v with
  | JObj fs =>
      version ← field fs "version" dec_int 0;
      nodeID ← field fs "node_id" dec_string ""%string;
      records ← field fs "records" (dec_slice dec) None;
      Some (mk version nodeID records)
  | _ => None
  end.
Definition file_shape (record : shape) : shape :=
  KStruct [("version", KInt); ("node_id", KString); ("records", KSlice record)]%string.

Definition FileV3_json : GoJSON deliveryStateFileV3 :=
  read_only (file_shape (KStruct (List.filter (fun f => negb (String.eqb f.1 "command_kind")) record_fields)))
    (dec_file dec_record_v3 mkFileV3).
Definition FileV2_json : GoJSON deliveryStateFileV2 :=
  read_only (file_shape (KStruct (List.filter (fun f => negb (existsb (String.eqb f.1)
      ["protocol_version"; "command_kind"; "claim_generation"; "admission"; "activation_canary"]%string)) record_fields)))
    (dec_file dec_record_v2 mkFileV2).

(** The first look at a file reads only its version; the records stay raw. *)
Definition envelope_json : GoJSON Z :=
  read_only (KStruct [("version", KInt); ("node_id", KString); ("records", KRawMessage)]%string)
    (fun v => match v with JObj fs => field fs "version" dec_int 0 | _ => None end).

(** ** Reports of a record *)

Definition boundedDeliveryText (value : string) (limit : Z) : bool := boundedText value limit.

(** A copy shares nothing with its source; an empty slice becomes nil ([append(nil, s...)]). *)
Definition clone_slice {A} (s : option (list A)) : option (list A) :=
  match s with Some (_ :: _) => s | _ => None end.
Definition cloneAdmissionProjection (p : option ExecutorAdmissionProjectionV1) : option ExecutorAdmissionProjectionV1 :=
  (fun a => mkAdmission (a_SchemaVersion a) (a_RuntimeRef a) (a_Status a) (a_CapsuleDigest a) (a_PolicyDigest a)
     (a_Generation a) (a_EvidenceKeyID a) (a_GrantID a) (a_ServicePath a) (a_ServiceID a)
     (clone_slice (a_TaskAuthorities a)) (a_EgressProxy a) (clone_slice (a_EgressRouteIDs a)) (a_ConnectorURL a)
     (clone_slice (a_ConnectorIDs a)) (a_EventURL a) (a_RoutePolicyDigest a) (a_ActivationID a)
     (a_ActivationBeginDigest a)) <$> p.
Definition cloneActivationCanaryResult (r : option ExecutorActivationCanaryResultV1) := r.
Definition cloneExecutorReport (r : option ExecutorReportV3) := r.

Definition cloneDeliveryRecord (r : deliveryRecord) : deliveryRecord :=
  mkRecord (ProtocolVersion r) (DeliveryID r) (DeliveryGeneration r) (SettledGeneration r) (TenantID r) (CommandID r)
    (CommandDigest r) (CommandKind r) (ClaimGeneration r) (Phase r) (cloneExecutorReport (Terminal r))
    (cloneAdmissionProjection (Admission r)) (cloneActivationCanaryResult (ActivationCanary r)).
Definition cloneDeliveryRecords (source : gmap string deliveryRecord) : gmap string deliveryRecord :=
  cloneDeliveryRecord <$> source.

Definition outcomeUnknownReport (r : deliveryRecord) : ExecutorReportV3 :=
  mkReportV3 ExecutorProtocolV3 (DeliveryID r) (DeliveryGeneration r) (CommandID r) (CommandDigest r)
    ExecutorStatusOutcomeUnknown "failed" (ClaimGeneration r) "outcome_unknown"
    (mkResultV3 "" "execution may have changed the node; reconcile before issuing another command" false false).

Definition executorReportV4Record (report : ExecutorReportV4)
  : ExecutorReportV3 * option ExecutorAdmissionProjectionV1 * option ExecutorActivationCanaryResultV1 :=
  (mkReportV3 ExecutorProtocolV3 (p_DeliveryID report) (p_DeliveryGeneration report) (p_CommandID report)
     (p_CommandDigest report) (p_Status report) (p_ReportedStatus report) (p_ClaimGeneration report) (p_ErrorCode report)
     (mkResultV3 (q_RuntimeRef (p_Result report)) (q_Error (p_Result report)) (q_Replayed (p_Result report))
        (q_Absent (p_Result report))),
   cloneAdmissionProjection (q_Admission (p_Result report)),
   cloneActivationCanaryResult (q_ActivationCanary (p_Result report))).

(** The report [executorReportV4FromRecord] rebuilds from the stored parts. *)
Definition stored_report_v4 (common : ExecutorReportV3) (r : deliveryRecord) : ExecutorReportV4 :=
  mkReportV4 ExecutorProtocolV4 (r_DeliveryID common) (r_DeliveryGeneration common) (r_CommandID common)
    (r_CommandDigest common) (r_Status common) (r_ReportedStatus common) (r_ClaimGeneration common) (r_ErrorCode common)
    (mkResultV4 (rr_RuntimeRef (r_Result common)) (rr_Error (r_Result common)) (rr_Replayed (r_Result common))
       (rr_Absent (r_Result common)) (cloneAdmissionProjection (Admission r))
       (cloneActivationCanaryResult (ActivationCanary r))).

Definition executorReportV4FromRecord (r : deliveryRecord) : result ExecutorReportV4 :=
  match Terminal r with
  | None => Err "delivery record does not contain a protocol-4 terminal report"
  | Some common =>
      require ProtocolVersion r =? ExecutorProtocolV4 else "delivery record does not contain a protocol-4 terminal report" in
      require r_ProtocolVersion common =? ExecutorProtocolV3 else "protocol-4 terminal storage marker is invalid" in
      require ClaimGeneration r =? r_ClaimGeneration common
        else "protocol-4 terminal report changed its signed claim generation" in
      let report := stored_report_v4 common r in
      let* _ := ExecutorReportV4_Validate report in Ok report
  end.

(** ** Validation of a record *)

Definition activationCanaryTerminalErrorCode (value : string) : bool :=
  String.eqb value "activation_canary_failed" || String.eqb value "activation_canary_cancelled".

Definition validActivationCanaryTerminalFailure (report : option ExecutorReportV3) : bool :=
  match report with
  | None => false
  | Some r =>
      if negb (String.eqb (r_Status r) ExecutorStatusFailed) || empty_string (rr_Error (r_Result r)) then false
      else if String.eqb (r_ErrorCode r) "activation_canary_failed" then String.eqb (r_ReportedStatus r) "failed"
      else if String.eqb (r_ErrorCode r) "activation_canary_cancelled" then String.eqb (r_ReportedStatus r) "cancelled"
      else false
  end.

Definition validate_terminal (r : deliveryRecord) : result unit :=
  match Terminal r with
  | None => Err "terminal delivery report does not match its record"
  | Some t =>
      require bool_decide (r_DeliveryID t = DeliveryID r) && (r_DeliveryGeneration t =? DeliveryGeneration r)
              && bool_decide (r_CommandID t = CommandID r) && bool_decide (r_CommandDigest t = CommandDigest r)
        else "terminal delivery report does not match its record" in
      let* _ :=
        if ProtocolVersion r =? ExecutorProtocolV3 then
          require nil_ptr (Admission r) && nil_ptr (ActivationCanary r)
            else "protocol-3 terminal delivery contains a protocol-4 projection" in
          ExecutorReportV3_Validate t
        else if ProtocolVersion r =? ExecutorProtocolV4 then
          let* _ := executorReportV4FromRecord r in Ok tt
        else Ok tt in
      require negb (activationCanaryTerminalErrorCode (r_ErrorCode t)
                    && (negb (ProtocolVersion r =? ExecutorProtocolV4)
                        || nonempty (CommandKind r) && negb (String.eqb (CommandKind r) "activation-canary")
                        || negb (validActivationCanaryTerminalFailure (Terminal r))))
        else "activation canary terminal error code is not bound to a failed canary command" in
      require negb (empty_string (TenantID r) && negb (String.eqb (r_Status t) ExecutorStatusRejected))
        else "only a pre-verification rejected delivery may omit tenant identity" in
      Ok tt
  end.

Definition nonterminal (phase : string) : bool :=
  String.eqb phase deliveryPhaseAccepted || String.eqb phase deliveryPhaseExecuting.

Definition valid_identity (r : deliveryRecord) : bool :=
  ((ProtocolVersion r =? ExecutorProtocolV3) || (ProtocolVersion r =? ExecutorProtocolV4))
  && boundedDeliveryText (DeliveryID r) 256 && negb (DeliveryGeneration r =? 0)
  && boundedDeliveryText (CommandID r) 256 && ValidSHA256Digest (CommandDigest r)
  && negb (DeliveryGeneration r <? SettledGeneration r)
  && (empty_string (TenantID r) || boundedDeliveryText (TenantID r) 128).
Definition valid_kind (r : deliveryRecord) : bool :=
  negb (nonempty (CommandKind r) && negb (boundedDeliveryText (CommandKind r) 64 && (slen (CommandKind r) <=? 64))).

(** What a record in an early phase may hold. *)
Definition validate_pending (r : deliveryRecord) : result unit :=
  require nil_ptr (Terminal r) && nil_ptr (Admission r) && nil_ptr (ActivationCanary r) && (SettledGeneration r =? 0)
    else "non-terminal delivery contains terminal state" in
  require negb ((ProtocolVersion r =? ExecutorProtocolV4) && (ClaimGeneration r =? 0))
    else "protocol-4 non-terminal delivery is missing its verified claim generation" in
  Ok tt.

Definition validateDeliveryRecord (r : deliveryRecord) : result unit :=
  require valid_identity r else "invalid delivery identity or generation" in
  require valid_kind r else "invalid verified delivery command kind" in
  let* _ :=
    if nonterminal (Phase r) then validate_pending r
    else if String.eqb (Phase r) deliveryPhaseTerminal then validate_terminal r
    else Err "invalid delivery phase" in
  require negb (empty_string (TenantID r) && negb (String.eqb (Phase r) deliveryPhaseTerminal))
    else "non-terminal delivery is missing verified tenant identity" in
  Ok tt.

(** A record that may be dropped: its terminal outcome is acknowledged and needs no reconciliation. *)
Definition safeAcknowledgedDelivery (r : deliveryRecord) : bool :=
  match Terminal r with
  | None => false
  | Some t =>
      if negb (String.eqb (Phase r) deliveryPhaseTerminal) || negb (SettledGeneration r =? DeliveryGeneration r) then false
      else if String.eqb (r_Status t) ExecutorStatusDone || String.eqb (r_Status t) ExecutorStatusRejected then true
      else (ProtocolVersion r =? ExecutorProtocolV4) && String.eqb (CommandKind r) "activation-canary"
           && validActivationCanaryTerminalFailure (Terminal r)
  end.

(** ** The terminal reserve *)

Definition repeat_byte (n : nat) (b : Z) : string := string_of (repeat (byte_of_Z b) n).

Definition reservedExecutorReport (r : deliveryRecord) : ExecutorReportV3 :=
  if ProtocolVersion r =? ExecutorProtocolV4 then outcomeUnknownReport r else
  mkReportV3 ExecutorProtocolV3 (DeliveryID r) (DeliveryGeneration r) (CommandID r) (CommandDigest r)
    ExecutorStatusOutcomeUnknown (repeat_byte 64 60) maxUint64 (repeat_byte 128 0)
    (mkResultV3 (repeat_byte 1024 0) (repeat_byte 4096 0) true true).

Definition reservedDeliveryRecord (r : deliveryRecord) : deliveryRecord :=
  let r := if nonterminal (Phase r)
    then mkRecord (ProtocolVersion r) (DeliveryID r) (DeliveryGeneration r) (SettledGeneration r) (TenantID r)
           (CommandID r) (CommandDigest r) (CommandKind r) (ClaimGeneration r) deliveryPhaseTerminal
           (Some (reservedExecutorReport r)) None None
    else r in
  if String.eqb (Phase r) deliveryPhaseTerminal && negb (SettledGeneration r =? DeliveryGeneration r)
  then mkRecord (ProtocolVersion r) (DeliveryID r) (DeliveryGeneration r) (DeliveryGeneration r) (TenantID r)
         (CommandID r) (CommandDigest r) (CommandKind r) (ClaimGeneration r) (Phase r) (Terminal r) (Admission r)
         (ActivationCanary r)
  else r.

Definition deliveryTerminalReserveExtra (r : deliveryRecord) : Z :=
  if (ProtocolVersion r =? ExecutorProtocolV4) && nonterminal (Phase r) then MaxExecutorReportBytes else 0.

(** [len(json.Marshal(r))]. *)
Definition record_size (r : deliveryRecord) : Z := zlen (json_print (to_json r)).

(** Sums over a map do not depend on Go's order of iteration. *)
Definition map_sum (f : deliveryRecord -> Z) (m : gmap string deliveryRecord) : Z := zsum f (snd <$> map_to_list m).
Definition values (m : gmap string deliveryRecord) : list deliveryRecord := snd <$> map_to_list m.

(** A record's share of its tenant's reserve, the comma of the enclosing array included. *)
Definition reserved_bytes (r : deliveryRecord) : Z :=
  record_size (reservedDeliveryRecord r) + 1 + deliveryTerminalReserveExtra r.

Definition reservedDeliveryBytesForTenant (m : gmap string deliveryRecord) (tenantID : string) : Z :=
  map_sum (fun r => if String.eqb (TenantID r) tenantID then reserved_bytes r else 0) m.

(** ** The file *)

Definition record_le (a b : deliveryRecord) : Prop := String.le (DeliveryID a) (DeliveryID b).
#[global] Instance record_le_dec : RelDecision record_le.
Proof. intros a b. unfold record_le. apply _. Defined.

Definition default_protocol (r : deliveryRecord) : deliveryRecord :=
  if ProtocolVersion r =? 0
  then mkRecord ExecutorProtocolV3 (DeliveryID r) (DeliveryGeneration r) (SettledGeneration r) (TenantID r) (CommandID r)
         (CommandDigest r) (CommandKind r) (ClaimGeneration r) (Phase r) (Terminal r) (Admission r) (ActivationCanary r)
  else r.
Definition canonicalDeliveryRecords (m : gmap string deliveryRecord) : gmap string deliveryRecord :=
  default_protocol <$> cloneDeliveryRecords m.

Definition state_file (node : string) (ordered : list deliveryRecord) : deliveryStateFile :=
  mkFile deliveryStateWriteVersion node (Some ordered).

(** Which invalid record is reported depends on the order of iteration; any one fails the call. *)
Definition marshalDeliveryState (node : string) (m : gmap string deliveryRecord) : result bytes :=
  require boundedDeliveryText node 128 && (Z.of_nat (size m) <=? maxDeliveryRecords)
    else "invalid executor delivery state identity or capacity" in
  require forallb (fun r => is_ok (validateDeliveryRecord (default_protocol r))) (values m)
    else "invalid delivery record" in
  let ordered := merge_sort record_le ((fun r => cloneDeliveryRecord (default_protocol r)) <$> values m) in
  Ok (json_print (to_json (state_file node ordered)) ++ [byte_of_Z 10]).

Definition encodeDeliveryState (node : string) (m : gmap string deliveryRecord) : result bytes :=
  let* raw := marshalDeliveryState node m in
  require zlen raw <=? maxDeliveryStateBytes else "executor delivery state would exceed its limit" in
  Ok raw.

Definition reservedDeliveryStateSize (node : string) (m : gmap string deliveryRecord) : result Z :=
  let* raw := marshalDeliveryState node (reservedDeliveryRecord <$> m) in
  Ok (zlen raw + map_sum deliveryTerminalReserveExtra m).

Definition ensureDeliveryTerminalCapacity (node : string) (m : gmap string deliveryRecord) : result unit :=
  require forallb (fun r => empty_string (TenantID r)
                   || (reservedDeliveryBytesForTenant m (TenantID r) <=? maxDeliveryReservedBytesPerTenant)) (values m)
    else "tenant needs more reserved terminal bytes than its limit" in
  let* raw := marshalDeliveryState node (reservedDeliveryRecord <$> m) in
  require zlen raw + map_sum deliveryTerminalReserveExtra m <=? maxDeliveryStateBytes
    else "reserve worst-case terminal delivery state" in
  Ok tt.

Definition from_v3 (r : deliveryRecordV3) : deliveryRecord :=
  mkRecord (l3_ProtocolVersion r) (l3_DeliveryID r) (l3_DeliveryGeneration r) (l3_SettledGeneration r) (l3_TenantID r)
    (l3_CommandID r) (l3_CommandDigest r) "" (l3_ClaimGeneration r) (l3_Phase r) (cloneExecutorReport (l3_Terminal r))
    (cloneAdmissionProjection (l3_Admission r)) (cloneActivationCanaryResult (l3_ActivationCanary r)).
Definition from_v2 (r : deliveryRecordV2) : deliveryRecord :=
  mkRecord ExecutorProtocolV3 (l2_DeliveryID r) (l2_DeliveryGeneration r) (l2_SettledGeneration r) (l2_TenantID r)
    (l2_CommandID r) (l2_CommandDigest r) "" (from_option r_ClaimGeneration 0 (l2_Terminal r)) (l2_Phase r)
    (cloneExecutorReport (l2_Terminal r)) None None.

(** The file in any readable format, with the records of an older one converted; [make] turns a nil array into an
    empty one there, so only the current format can lack its records. *)
Definition decode_file (raw : bytes) : result deliveryStateFile :=
  let* version := DecodeStrictInto (H := envelope_json) raw maxDeliveryStateBytes in
  require (deliveryStateReadMinVersion <=? version) && (version <=? deliveryStateReadMaxVersion)
    else "executor delivery state has unsupported format version" in
  if version =? 2 then
    let* legacy := DecodeStrictInto (H := FileV2_json) raw maxDeliveryStateBytes in
    Ok (mkFile (f2_Version legacy) (f2_NodeID legacy) (Some (from_v2 <$> default [] (f2_Records legacy))))
  else if version =? 3 then
    let* legacy := DecodeStrictInto (H := FileV3_json) raw maxDeliveryStateBytes in
    Ok (mkFile (f3_Version legacy) (f3_NodeID legacy) (Some (from_v3 <$> default [] (f3_Records legacy))))
  else DecodeStrictInto (A := deliveryStateFile) raw maxDeliveryStateBytes.

Fixpoint load_records (l : list deliveryRecord) (m : gmap string deliveryRecord) : result (gmap string deliveryRecord) :=
  match l with
  | [] => Ok m
  | r :: l =>
      match validateDeliveryRecord r with
      | Err e => Err e
      | Ok _ =>
          match m !! DeliveryID r with
          | Some _ => Err "executor delivery state contains duplicate delivery ID"
          | None => load_records l (<[DeliveryID r := cloneDeliveryRecord r]> m)
          end
      end
  end.

(** [decodeDeliveryState] of the bytes the path names. *)
Definition decodeDeliveryState (raw : bytes) : result (deliveryStateFile * gmap string deliveryRecord) :=
  let* state := decode_file raw in
  require boundedDeliveryText (fNodeID state) 128 else "executor delivery state has an invalid node ID" in
  match fRecords state with
  | None => Err "executor delivery state is missing its records array"
  | Some l =>
      require zlen l <=? maxDeliveryRecords else "executor delivery state has too many records" in
      let* m := load_records l ∅ in
      let* _ := ensureDeliveryTerminalCapacity (fNodeID state) m in
      Ok (state, m)
  end.

(** [readDeliveryState]: the file must be regular, owner-only, non-empty and bounded. *)
Definition readDeliveryState (st : lstat) (content : bytes) (readOk : bool) : result bytes :=
  match st with
  | NotExist | StatError => Err "stat executor delivery state"
  | Info regular perm =>
      require regular && owner_only perm && (0 <? zlen content) && (zlen content <=? maxDeliveryStateBytes)
        else "executor delivery state must be a non-empty owner-only regular file" in
      require readOk else "read executor delivery state" in
      Ok content
  end.

Definition LoadDeliveryStore (path : string) (node : string) (st : lstat) (content : bytes) (readOk : bool)
  : result Node :=
  require nonempty path && boundedDeliveryText node 128
    else "delivery state path and bounded node ID are required" in
  let* raw := readDeliveryState st content readOk in
  let* (state, m) := decodeDeliveryState raw in
  require bool_decide (fNodeID state = node) else "executor delivery state belongs to another node" in
  Ok (mkNode (mkStore node (fVersion state) m) (Some content)).

Definition InspectDeliveryStateFormat (st : lstat) (content : bytes) (readOk : bool) : result (bool * Z) :=
  let* raw := readDeliveryState st content readOk in
  let* (state, _) := decodeDeliveryState raw in
  Ok (true, fVersion state).

(** [writeExclusiveSynced] creates the file or leaves none behind. *)
Definition InitializeDeliveryStore (path node : string) (before : option bytes) (ioOk : bool)
  : result unit * option bytes :=
  if negb (nonempty path && boundedDeliveryText node 128)
  then (Err "delivery state path and bounded node ID are required", before)
  else match encodeDeliveryState node ∅, before with
  | Err e, _ => (Err e, before)
  | Ok _, Some _ => (Err "file exists", before)
  | Ok raw, None => if ioOk then (Ok tt, Some raw) else (Err "i/o error", None)
  end.

Definition replace_steps : list fs_step :=
  [CreateTemp; ChmodTemp; WriteTemp; SyncTemp; CloseTemp; Rename; OpenDir; SyncDir].

(** [persistLocked]: nothing in memory changes unless the file was replaced and synced. *)
Definition persistLocked (n : Node) (next : gmap string deliveryRecord) (fault : option fs_step) : Node * result unit :=
  let next := canonicalDeliveryRecords next in
  match ensureDeliveryTerminalCapacity (nodeID (mem n)) next with
  | Err e => (n, Err e)
  | Ok _ =>
      match encodeDeliveryState (nodeID (mem n)) next with
      | Err e => (n, Err e)
      | Ok raw =>
          let '(res, d) := run_replace replace_steps fault raw (disk n) in
          match res with
          | Err e => (mkNode (mem n) d, Err e)
          | Ok _ => (mkNode (mkStore (nodeID (mem n)) deliveryStateWriteVersion next) d, Ok tt)
          end
      end
  end.

Definition MigrateFormat (n : Node) (fault : option fs_step) : Node * result unit :=
  if formatVersion (mem n) =? deliveryStateWriteVersion then (n, Ok tt)
  else persistLocked n (cloneDeliveryRecords (records (mem n))) fault.

(** One record of another protocol that is not safely acknowledged stops the selection. *)
Definition PrepareProtocol (n : Node) (protocolVersion : Z) (validateOnly : bool) (fault : option fs_step)
  : Node * result unit :=
  if negb ((protocolVersion =? ExecutorProtocolV3) || (protocolVersion =? ExecutorProtocolV4))
  then (n, Err "executor delivery protocol selection is invalid") else
  let m := cloneDeliveryRecords (records (mem n)) in
  if negb (forallb (fun r => (ProtocolVersion r =? protocolVersion) || safeAcknowledgedDelivery r) (values m))
  then (n, Err "executor delivery state retains a record of another protocol") else
  let next := filter (fun kv => ProtocolVersion kv.2 = protocolVersion) m in
  let changed := negb (Nat.eqb (size next) (size m)) in
  if negb changed || validateOnly then (n, Ok tt) else persistLocked n next fault.

(** ** Reports waiting for their acknowledgement *)

Definition unacknowledged (protocolVersion : Z) (r : deliveryRecord) : bool :=
  (ProtocolVersion r =? protocolVersion) && String.eqb (Phase r) deliveryPhaseTerminal && negb (nil_ptr (Terminal r))
  && negb (SettledGeneration r =? DeliveryGeneration r).

(** The identifiers of the records that satisfy [p], sorted. *)
Definition ids_where (p : deliveryRecord -> bool) (m : gmap string deliveryRecord) : list string :=
  sort_strings (fst <$> List.filter (fun kv => p kv.2) (map_to_list m)).

Definition UnacknowledgedReports (s : DeliveryStore) (limit : Z) : result (list ExecutorReportV3 * bool) :=
  require (0 <? limit) && (limit <=? MaxExecutorDeliveries) else "unacknowledged delivery report limit is invalid" in
  let ids := ids_where (unacknowledged ExecutorProtocolV3) (records s) in
  let more := limit <? zlen ids in
  let ids := if more then take (Z.to_nat limit) ids else ids in
  Ok (omap (fun id => r ← records s !! id; cloneExecutorReport (Terminal r)) ids, more).

Fixpoint reports_v4 (m : gmap string deliveryRecord) (ids : list string) : result (list ExecutorReportV4) :=
  match ids with
  | [] => Ok []
  | id :: ids =>
      match m !! id with
      | None => Err "delivery record does not contain a protocol-4 terminal report"
      | Some r =>
          let* report := executorReportV4FromRecord r in
          let* reports := reports_v4 m ids in Ok (report :: reports)
      end
  end.

Definition UnacknowledgedReportsV4 (s : DeliveryStore) (limit : Z) : result (list ExecutorReportV4 * bool) :=
  require (0 <? limit) && (limit <=? MaxExecutorDeliveries) else "unacknowledged delivery report limit is invalid" in
  let ids := ids_where (unacknowledged ExecutorProtocolV4) (records s) in
  let more := limit <? zlen ids in
  let ids := if more then take (Z.to_nat limit) ids else ids in
  let* reports := reports_v4 (records s) ids in
  Ok (reports, more).

(** ** Recovery *)

Definition finish (r : deliveryRecord) (t : ExecutorReportV3) : deliveryRecord :=
  mkRecord (ProtocolVersion r) (DeliveryID r) (DeliveryGeneration r) (SettledGeneration r) (TenantID r) (CommandID r)
    (CommandDigest r) (CommandKind r) (ClaimGeneration r) deliveryPhaseTerminal (Some t) (Admission r)
    (ActivationCanary r).
Definition executing (r : deliveryRecord) : bool := String.eqb (Phase r) deliveryPhaseExecuting.
Definition recover (r : deliveryRecord) : deliveryRecord :=
  if executing r then finish r (outcomeUnknownReport r) else r.

Definition RecoverExecuting (n : Node) (fault : option fs_step) : Node * result unit :=
  let m := cloneDeliveryRecords (records (mem n)) in
  if existsb executing (values m) then persistLocked n (recover <$> m) fault else (n, Ok tt).

(** ** Compaction *)

Definition deliveryRecordsForTenant (m : gmap string deliveryRecord) (tenantID : string) : Z :=
  zlen (List.filter (fun r => String.eqb (TenantID r) tenantID) (values m)).

Definition delete_all (ids : list string) (m : gmap string deliveryRecord) : gmap string deliveryRecord :=
  foldl (fun m id => delete id m) m ids.

Definition removeAcknowledgedDeliveries (m : gmap string deliveryRecord) (tenantID : string) (remove : Z)
  : gmap string deliveryRecord :=
  if remove <=? 0 then m else
  let candidates := ids_where (fun r => (empty_string tenantID || String.eqb (TenantID r) tenantID)
                                        && safeAcknowledgedDelivery r) m in
  delete_all (take (Z.to_nat remove) candidates) m.

Definition compactAcknowledgedDeliveries (m : gmap string deliveryRecord) (tenantID : string) : gmap string deliveryRecord :=
  let m :=
    if nonempty tenantID then
      let count := deliveryRecordsForTenant m tenantID in
      if maxDeliveryRecordsPerTenant <=? count
      then removeAcknowledgedDeliveries m tenantID (count - tenantDeliveryCompactionTarget) else m
    else m in
  let count := Z.of_nat (size m) in
  if maxDeliveryRecords <=? count then removeAcknowledgedDeliveries m "" (count - deliveryCompactionTarget) else m.

Fixpoint delete_until_tenant_fits (ids : list string) (tenantID : string) (m : gmap string deliveryRecord)
  : gmap string deliveryRecord :=
  match ids with
  | [] => m
  | id :: ids =>
      let m := delete id m in
      if reservedDeliveryBytesForTenant m tenantID <=? maxDeliveryReservedBytesPerTenant then m
      else delete_until_tenant_fits ids tenantID m
  end.
Definition compactTenantReservedBytes (m : gmap string deliveryRecord) (tenantID : string) : gmap string deliveryRecord :=
  if reservedDeliveryBytesForTenant m tenantID <=? maxDeliveryReservedBytesPerTenant then m else
  delete_until_tenant_fits
    (ids_where (fun r => String.eqb (TenantID r) tenantID && safeAcknowledgedDelivery r) m) tenantID m.

Fixpoint delete_bytes (ids : list string) (removeBytes : Z) (m : gmap string deliveryRecord) : gmap string deliveryRecord :=
  match ids with
  | [] => m
  | id :: ids =>
      let freed := from_option (fun r => record_size (reservedDeliveryRecord r) + 1) 0 (m !! id) in
      let m := delete id m in
      if removeBytes - freed <=? 0 then m else delete_bytes ids (removeBytes - freed) m
  end.
Definition compactGlobalReservedBytes (m : gmap string deliveryRecord) (node : string) : gmap string deliveryRecord :=
  match reservedDeliveryStateSize node m with
  | Err _ => m
  | Ok sz =>
      if sz <=? maxDeliveryStateBytes then m
      else delete_bytes (ids_where safeAcknowledgedDelivery m) (sz - deliveryCompactionTargetBytes) m
  end.

(** ** Accepting a lease *)

(** The identity checks against a retained record; [Ok true] is a stale generation. *)
Definition check_reuse (r : deliveryRecord) (d : ExecutorDeliveryV3) (tenantID : string) (protocolVersion claimGeneration : Z)
    (commandKind : string) : result bool :=
  require ProtocolVersion r =? protocolVersion else "delivery ID was reused across executor protocol versions" in
  require bool_decide (CommandID r = dv_CommandID d) && bool_decide (CommandDigest r = dv_CommandDigest d)
    else "delivery ID was reused for another command" in
  require negb (nonempty (CommandKind r) && nonempty commandKind && negb (String.eqb (CommandKind r) commandKind))
    else "delivery ID was reused across verified command kinds" in
  require negb (nonempty (TenantID r) && negb (String.eqb (TenantID r) tenantID))
    else "delivery ID was reused across verified tenants" in
  if dv_DeliveryGeneration d <? DeliveryGeneration r then Ok true else
  require negb (negb (ClaimGeneration r =? 0) && negb (claimGeneration =? 0) && negb (ClaimGeneration r =? claimGeneration))
    else "delivery ID was reused across signed claim generations" in
  Ok false.

Definition set_report_generation (t : ExecutorReportV3) (generation : Z) : ExecutorReportV3 :=
  mkReportV3 (r_ProtocolVersion t) (r_DeliveryID t) generation (r_CommandID t) (r_CommandDigest t) (r_Status t)
    (r_ReportedStatus t) (r_ClaimGeneration t) (r_ErrorCode t) (r_Result t).

(** What a repeated lease adds to the record: tenant, kind and claim that were unknown, and a newer generation. *)
Definition refresh (r : deliveryRecord) (d : ExecutorDeliveryV3) (tenantID : string) (claimGeneration : Z)
    (commandKind : string) : deliveryRecord :=
  let newer := DeliveryGeneration r <? dv_DeliveryGeneration d in
  mkRecord (ProtocolVersion r) (DeliveryID r)
    (if newer then dv_DeliveryGeneration d else DeliveryGeneration r)
    (if newer then 0 else SettledGeneration r)
    (if empty_string (TenantID r) then tenantID else TenantID r)
    (CommandID r) (CommandDigest r)
    (if empty_string (CommandKind r) && nonempty commandKind then commandKind else CommandKind r)
    (if negb (String.eqb (Phase r) deliveryPhaseTerminal) && (ClaimGeneration r =? 0) && negb (claimGeneration =? 0)
     then claimGeneration else ClaimGeneration r)
    (Phase r)
    (if newer then (fun t => set_report_generation t (dv_DeliveryGeneration d)) <$> Terminal r else Terminal r)
    (Admission r) (ActivationCanary r).
Definition refreshes (r : deliveryRecord) (d : ExecutorDeliveryV3) (claimGeneration : Z) (commandKind : string) : bool :=
  empty_string (TenantID r)
  || empty_string (CommandKind r) && nonempty commandKind
  || negb (String.eqb (Phase r) deliveryPhaseTerminal) && (ClaimGeneration r =? 0) && negb (claimGeneration =? 0)
  || (DeliveryGeneration r <? dv_DeliveryGeneration d).

(** The lease of a retained record: persist what changed, then decide by phase. *)
Definition accept_retained (n : Node) (r : deliveryRecord) (d : ExecutorDeliveryV3) (tenantID : string)
    (protocolVersion claimGeneration : Z) (commandKind : string) (fault fault2 : option fs_step)
  : Node * result (deliveryDecision * option deliveryRecord) :=
  match check_reuse r d tenantID protocolVersion claimGeneration commandKind with
  | Err e => (n, Err e)
  | Ok true => (n, Ok (deliveryStale, None))
  | Ok false =>
      let record := refresh r d tenantID claimGeneration commandKind in
      let '(n, res) :=
        if refreshes r d claimGeneration commandKind
        then persistLocked n (<[dv_DeliveryID d := record]> (cloneDeliveryRecords (records (mem n)))) fault
        else (n, Ok tt) in
      match res with
      | Err e => (n, Err e)
      | Ok _ =>
          if String.eqb (Phase record) deliveryPhaseAccepted then (n, Ok (deliveryExecute, None))
          else if String.eqb (Phase record) deliveryPhaseExecuting then
            let record := finish record (outcomeUnknownReport record) in
            let '(n, res) :=
              persistLocked n (<[dv_DeliveryID d := record]> (cloneDeliveryRecords (records (mem n)))) fault2 in
            match res with
            | Err e => (n, Err e)
            | Ok _ => (n, Ok (deliveryReport, Some (cloneDeliveryRecord record)))
            end
          else if String.eqb (Phase record) deliveryPhaseTerminal
          then (n, Ok (deliveryReport, Some (cloneDeliveryRecord record)))
          else (n, Err "delivery record has invalid phase")
      end
  end.

(** A new delivery: make room, check the tenant's share, record it as accepted. *)
Definition accept_new (n : Node) (d : ExecutorDeliveryV3) (tenantID : string) (protocolVersion claimGeneration : Z)
    (commandKind : string) (fault : option fs_step) : Node * result (deliveryDecision * option deliveryRecord) :=
  let next := compactAcknowledgedDeliveries (cloneDeliveryRecords (records (mem n))) tenantID in
  if maxDeliveryRecordsPerTenant <=? deliveryRecordsForTenant next tenantID
  then (n, Err "executor delivery state tenant reached its record safety limit")
  else if maxDeliveryRecords <=? Z.of_nat (size next)
  then (n, Err "executor delivery state reached its record limit")
  else
  let record := mkRecord protocolVersion (dv_DeliveryID d) (dv_DeliveryGeneration d) 0 tenantID (dv_CommandID d)
    (dv_CommandDigest d) commandKind claimGeneration deliveryPhaseAccepted None None None in
  let next := compactTenantReservedBytes (<[dv_DeliveryID d := record]> next) tenantID in
  if maxDeliveryReservedBytesPerTenant <? reservedDeliveryBytesForTenant next tenantID
  then (n, Err "executor delivery state tenant reached its terminal reserve")
  else
  let '(n, res) := persistLocked n (compactGlobalReservedBytes next (nodeID (mem n))) fault in
  match res with
  | Err e => (n, Err e)
  | Ok _ => (n, Ok (deliveryExecute, None))
  end.

(** [fault2] strikes the second replacement of a call that makes two. *)
Definition acceptDelivery (n : Node) (d : ExecutorDeliveryV3) (tenantID : string) (protocolVersion claimGeneration : Z)
    (commandKind : string) (fault fault2 : option fs_step) : Node * result (deliveryDecision * option deliveryRecord) :=
  if negb (boundedDeliveryText tenantID 128) then (n, Err "verified delivery tenant ID is invalid") else
  match cloneDeliveryRecords (records (mem n)) !! dv_DeliveryID d with
  | Some r => accept_retained n r d tenantID protocolVersion claimGeneration commandKind fault fault2
  | None => accept_new n d tenantID protocolVersion claimGeneration commandKind fault
  end.

Definition Accept (n : Node) (d : ExecutorDeliveryV3) (tenantID : string) (fault fault2 : option fs_step)
  : Node * result (deliveryDecision * option ExecutorReportV3) :=
  match ExecutorDeliveryV3_Validate d with
  | Err e => (n, Err e)
  | Ok _ =>
      let '(n, res) := acceptDelivery n d tenantID ExecutorProtocolV3 0 "" fault fault2 in
      (n, let* (decision, terminal) := res in
          Ok (decision, r ← terminal; cloneExecutorReport (Terminal r)))
  end.

Definition AcceptV4 (n : Node) (d : ExecutorDeliveryV4) (tenantID : string) (claimGeneration : Z) (commandKind : string)
    (fault fault2 : option fs_step) : Node * result (deliveryDecision * option ExecutorReportV4) :=
  match ExecutorDeliveryV4_Validate d with
  | Err e => (n, Err e)
  | Ok _ =>
      if claimGeneration =? 0 then (n, Err "verified protocol-4 delivery claim generation is required")
      else if negb (boundedDeliveryText commandKind 64) || (64 <? slen commandKind)
      then (n, Err "verified protocol-4 command kind is invalid")
      else
      let '(n, res) := acceptDelivery n (executorDeliveryV3 d) tenantID ExecutorProtocolV4 claimGeneration commandKind
                         fault fault2 in
      (n, let* (decision, terminal) := res in
          match terminal with
          | None => Ok (decision, None)
          | Some r => let* report := executorReportV4FromRecord r in Ok (decision, Some report)
          end)
  end.

(** ** Rejecting a lease *)

(** The record of a rejected delivery. [previous] is the record it replaces, if any. *)
Definition rejected_record (d : ExecutorDeliveryV3) (protocolVersion : Z) (previous : option deliveryRecord)
    (rejected : ExecutorReportV3) (admission : option ExecutorAdmissionProjectionV1)
    (canary : option ExecutorActivationCanaryResultV1) : deliveryRecord :=
  let rejected := set_report_generation rejected (dv_DeliveryGeneration d) in
  mkRecord protocolVersion (dv_DeliveryID d) (dv_DeliveryGeneration d) 0 (from_option TenantID ""%string previous)
    (dv_CommandID d) (dv_CommandDigest d) "" (r_ClaimGeneration rejected) deliveryPhaseTerminal (Some rejected)
    (cloneAdmissionProjection admission) (cloneActivationCanaryResult canary).

Definition advance (r : deliveryRecord) (generation : Z) : deliveryRecord :=
  if DeliveryGeneration r <? generation
  then mkRecord (ProtocolVersion r) (DeliveryID r) generation 0 (TenantID r) (CommandID r) (CommandDigest r)
         (CommandKind r) (ClaimGeneration r) (Phase r) (Terminal r) (Admission r) (ActivationCanary r)
  else r.

Definition set_terminal (r : deliveryRecord) (t : ExecutorReportV3) : deliveryRecord :=
  mkRecord (ProtocolVersion r) (DeliveryID r) (DeliveryGeneration r) (SettledGeneration r) (TenantID r) (CommandID r)
    (CommandDigest r) (CommandKind r) (ClaimGeneration r) (Phase r) (Some t) (Admission r) (ActivationCanary r).

Definition install_rejected (n : Node) (next : gmap string deliveryRecord) (record : deliveryRecord)
    (fault : option fs_step) : Node * result (option deliveryRecord) :=
  let next := compactGlobalReservedBytes (<[DeliveryID record := record]> next) (nodeID (mem n)) in
  let '(n, res) := persistLocked n next fault in
  (n, let* _ := res in Ok (Some (cloneDeliveryRecord record))).

Definition rejectDelivery (n : Node) (d : ExecutorDeliveryV3) (protocolVersion : Z) (rejected : ExecutorReportV3)
    (admission : option ExecutorAdmissionProjectionV1) (canary : option ExecutorActivationCanaryResultV1)
    (fault : option fs_step) : Node * result (option deliveryRecord) :=
  let next := cloneDeliveryRecords (records (mem n)) in
  match next !! dv_DeliveryID d with
  | Some r =>
      if negb (ProtocolVersion r =? protocolVersion)
      then (n, Err "delivery ID was reused across executor protocol versions")
      else if negb (bool_decide (CommandID r = dv_CommandID d) && bool_decide (CommandDigest r = dv_CommandDigest d))
      then (n, Err "delivery ID was reused for another command")
      else if dv_DeliveryGeneration d <? DeliveryGeneration r then (n, Ok None)
      else
      let r := advance r (dv_DeliveryGeneration d) in
      match (if String.eqb (Phase r) deliveryPhaseTerminal then Terminal r else None) with
      | Some t =>
          let record := set_terminal r (set_report_generation t (DeliveryGeneration r)) in
          let '(n, res) := persistLocked n (<[dv_DeliveryID d := record]> next) fault in
          (n, let* _ := res in Ok (Some (cloneDeliveryRecord record)))
      | None =>
          if executing r
          then install_rejected n next
                 (rejected_record d protocolVersion (Some r) (outcomeUnknownReport r) None None) fault
          else install_rejected n next (rejected_record d protocolVersion (Some r) rejected admission canary) fault
      end
  | None =>
      let next := compactAcknowledgedDeliveries next "" in
      if maxDeliveryRecords <=? Z.of_nat (size next)
      then (n, Err "executor delivery state reached its record limit")
      else install_rejected n next (rejected_record d protocolVersion None rejected admission canary) fault
  end.

Definition Reject (n : Node) (d : ExecutorDeliveryV3) (rejected : ExecutorReportV3) (fault : option fs_step)
  : Node * result (option ExecutorReportV3) :=
  match ExecutorDeliveryV3_Validate d with
  | Err e => (n, Err e)
  | Ok _ =>
      if negb (is_ok (ExecutorReportV3_Validate rejected) && String.eqb (r_Status rejected) ExecutorStatusRejected)
      then (n, Err "invalid rejected delivery report") else
      let '(n, res) := rejectDelivery n d ExecutorProtocolV3 rejected None None fault in
      (n, let* terminal := res in Ok (r ← terminal; cloneExecutorReport (Terminal r)))
  end.

Definition RejectV4 (n : Node) (d : ExecutorDeliveryV4) (rejected : ExecutorReportV4) (fault : option fs_step)
  : Node * result (option ExecutorReportV4) :=
  match ExecutorDeliveryV4_Validate d with
  | Err e => (n, Err e)
  | Ok _ =>
      if negb (is_ok (ExecutorReportV4_Validate rejected) && String.eqb (p_Status rejected) ExecutorStatusRejected
               && nil_ptr (q_Admission (p_Result rejected)) && nil_ptr (q_ActivationCanary (p_Result rejected)))
      then (n, Err "invalid rejected delivery report") else
      let '(common, admission, canary) := executorReportV4Record rejected in
      let '(n, res) := rejectDelivery n (executorDeliveryV3 d) ExecutorProtocolV4 common admission canary fault in
      (n, let* terminal := res in
          match terminal with
          | None => Ok None
          | Some r => let* report := executorReportV4FromRecord r in Ok (Some report)
          end)
  end.

(** ** Running a delivery *)

Definition set_phase (r : deliveryRecord) (phase : string) : deliveryRecord :=
  mkRecord (ProtocolVersion r) (DeliveryID r) (DeliveryGeneration r) (SettledGeneration r) (TenantID r) (CommandID r)
    (CommandDigest r) (CommandKind r) (ClaimGeneration r) phase (Terminal r) (Admission r) (ActivationCanary r).

Definition MarkExecuting (n : Node) (deliveryID : string) (fault : option fs_step) : Node * result unit :=
  match records (mem n) !! deliveryID with
  | None => (n, Err "delivery is not durably accepted")
  | Some r =>
      if negb (String.eqb (Phase r) deliveryPhaseAccepted) then (n, Err "delivery is not durably accepted") else
      persistLocked n
        (<[deliveryID := set_phase r deliveryPhaseExecuting]> (cloneDeliveryRecords (records (mem n)))) fault
  end.

(** The report belongs to the executing delivery [r]. *)
Definition terminal_matches (r : deliveryRecord) (protocolVersion : Z) (deliveryGeneration : Z)
    (commandID commandDigest : string) (report : ExecutorReportV3) : bool :=
  (ProtocolVersion r =? protocolVersion) && executing r && (DeliveryGeneration r =? deliveryGeneration)
  && bool_decide (CommandID r = commandID) && bool_decide (CommandDigest r = commandDigest)
  && negb (negb (ClaimGeneration r =? 0) && negb (ClaimGeneration r =? r_ClaimGeneration report)).

Definition terminal_record (r : deliveryRecord) (report : ExecutorReportV3)
    (admission : option ExecutorAdmissionProjectionV1) (canary : option ExecutorActivationCanaryResultV1) : deliveryRecord :=
  mkRecord (ProtocolVersion r) (DeliveryID r) (DeliveryGeneration r) (SettledGeneration r) (TenantID r) (CommandID r)
    (CommandDigest r) (CommandKind r) (if ClaimGeneration r =? 0 then r_ClaimGeneration report else ClaimGeneration r)
    deliveryPhaseTerminal (cloneExecutorReport (Some report)) (cloneAdmissionProjection admission)
    (cloneActivationCanaryResult canary).

Definition markTerminal (n : Node) (deliveryID : string) (deliveryGeneration : Z) (commandID commandDigest : string)
    (protocolVersion : Z) (report : ExecutorReportV3) (admission : option ExecutorAdmissionProjectionV1)
    (canary : option ExecutorActivationCanaryResultV1) (fault : option fs_step) : Node * result unit :=
  match records (mem n) !! deliveryID with
  | None => (n, Err "terminal report does not match an executing delivery")
  | Some r =>
      if negb (terminal_matches r protocolVersion deliveryGeneration commandID commandDigest report)
      then (n, Err "terminal report does not match an executing delivery") else
      persistLocked n
        (<[deliveryID := terminal_record r report admission canary]> (cloneDeliveryRecords (records (mem n)))) fault
  end.

Definition MarkTerminal (n : Node) (report : ExecutorReportV3) (fault : option fs_step) : Node * result unit :=
  match ExecutorReportV3_Validate report with
  | Err e => (n, Err e)
  | Ok _ => markTerminal n (r_DeliveryID report) (r_DeliveryGeneration report) (r_CommandID report)
              (r_CommandDigest report) ExecutorProtocolV3 report None None fault
  end.

Definition MarkTerminalV4 (n : Node) (report : ExecutorReportV4) (fault : option fs_step) : Node * result unit :=
  match ExecutorReportV4_Validate report with
  | Err e => (n, Err e)
  | Ok _ =>
      let '(common, admission, canary) := executorReportV4Record report in
      markTerminal n (p_DeliveryID report) (p_DeliveryGeneration report) (p_CommandID report) (p_CommandDigest report)
        ExecutorProtocolV4 common admission canary fault
  end.

Definition set_settled (r : deliveryRecord) (generation : Z) : deliveryRecord :=
  mkRecord (ProtocolVersion r) (DeliveryID r) (DeliveryGeneration r) generation (TenantID r) (CommandID r)
    (CommandDigest r) (CommandKind r) (ClaimGeneration r) (Phase r) (Terminal r) (Admission r) (ActivationCanary r).

Definition Settle (n : Node) (deliveryID : string) (generation : Z) (fault : option fs_step) : Node * result unit :=
  match records (mem n) !! deliveryID with
  | None => (n, Err "acknowledgement does not match a terminal delivery")
  | Some r =>
      if negb (String.eqb (Phase r) deliveryPhaseTerminal && (generation =? DeliveryGeneration r))
      then (n, Err "acknowledgement does not match a terminal delivery")
      else if SettledGeneration r =? generation then (n, Ok tt)
      else persistLocked n
             (<[deliveryID := set_settled r generation]> (cloneDeliveryRecords (records (mem n)))) fault
  end.

(** ** The file format round-trips *)

#[global] Instance deliveryRecord_laws : GoJSONLaws deliveryRecord 5.
Proof. struct_laws. Qed.

#[global] Instance deliveryStateFile_laws : GoJSONLaws deliveryStateFile 7.
Proof. struct_laws. Qed.

End DeliveryStore.
