(* ===== verification/DeliveryLedger.v ===== *)
(** * Correctness of the delivery ledger

    Lemmas about [DeliveryStore]: the file reloads to the ledger it was written from, and every operation keeps the
    invariant and lets records only advance. *)

From Stdlib Require Import Ascii.
From S2P Require Import Prelude GoText GoFS GoJson GoCrypto Strict Dsse ControlProtocol DeliveryStore.
Import ControlProtocol DeliveryStore.

Module DeliveryLedger.

(** ** Records that are ready to be stored *)

Lemma clone_slice_ok {A} (ok : A -> bool) (s : option (list A)) : slice_ok ok s = true -> clone_slice s = s.
Proof. destruct s as [[|a l]|]; done. Qed.

Lemma clone_admission_id p : from_option storable true p = true -> cloneAdmissionProjection p = p.
Proof.
  destruct p as [a|]; [|done]. cbn [from_option]. intros H. unfold_json. breflect.
  unfold cloneAdmissionProjection. cbn [fmap option_fmap option_map].
  rewrite !(clone_slice_ok storable) by done. by destruct a.
Qed.

Lemma clone_storable r : storable r = true -> cloneDeliveryRecord r = r.
Proof.
  intros H. unfold_json. breflect. unfold cloneDeliveryRecord. rewrite clone_admission_id by done. by destruct r.
Qed.

Lemma validate_inv r :
  validateDeliveryRecord r = Ok tt <->
  valid_identity r = true /\ valid_kind r = true /\
  (nonterminal (Phase r) = true /\ validate_pending r = Ok tt /\ TenantID r <> ""%string \/
   Phase r = deliveryPhaseTerminal /\ validate_terminal r = Ok tt).
Proof.
  unfold validateDeliveryRecord. destruct (valid_identity r); [|naive_solver].
  destruct (valid_kind r); [|naive_solver].
  destruct (String.eqb_spec (Phase r) deliveryPhaseTerminal) as [Ep|Ep].
  - rewrite Ep. cbn [negb andb]. rewrite andb_false_r. cbn [negb].
    change (nonterminal deliveryPhaseTerminal) with false.
    destruct (validate_terminal r) as [[]|]; naive_solver.
  - cbn [negb]. rewrite andb_true_r. unfold empty_string.
    destruct (nonterminal (Phase r)); [|naive_solver].
    destruct (validate_pending r) as [[]|]; [|naive_solver].
    destruct (String.eqb_spec (TenantID r) ""); naive_solver.
Qed.

Lemma validate_protocol r :
  validateDeliveryRecord r = Ok tt -> ProtocolVersion r = ExecutorProtocolV3 \/ ProtocolVersion r = ExecutorProtocolV4.
Proof.
  intros [Hi _]%validate_inv. unfold valid_identity in Hi. rewrite !andb_true_iff, orb_true_iff, !Z.eqb_eq in Hi. tauto.
Qed.

Lemma default_protocol_valid r : validateDeliveryRecord r = Ok tt -> default_protocol r = r.
Proof. intros H. unfold default_protocol. by destruct (validate_protocol r H) as [-> | ->]. Qed.

(** A record as the ledger keeps it under the key [id]. *)
Definition record_ok (id : string) (r : deliveryRecord) : Prop :=
  DeliveryID r = id /\ validateDeliveryRecord r = Ok tt /\ storable r = true.
Definition ledger_ok (m : gmap string deliveryRecord) : Prop := map_Forall record_ok m.

Lemma ledger_clone m : ledger_ok m -> cloneDeliveryRecords m = m.
Proof.
  intros H. apply map_eq. intros id. unfold cloneDeliveryRecords. rewrite lookup_fmap.
  destruct (m !! id) as [r|] eqn:E; [|done]. simpl. f_equal. apply clone_storable. by apply (H id r E).
Qed.

Lemma ledger_canonical m : ledger_ok m -> canonicalDeliveryRecords m = m.
Proof.
  intros H. unfold canonicalDeliveryRecords. rewrite ledger_clone by done. apply map_eq. intros id. rewrite lookup_fmap.
  destruct (m !! id) as [r|] eqn:E; [|done]. simpl. f_equal. apply default_protocol_valid. by apply (H id r E).
Qed.

Lemma elem_of_values r m : r ∈ values m <-> exists id, m !! id = Some r.
Proof.
  unfold values. rewrite list_elem_of_fmap. split.
  - intros ([id r'] & -> & Hin%elem_of_map_to_list). eauto.
  - intros [id Hin%elem_of_map_to_list]. by exists (id, r).
Qed.

Lemma length_values m : zlen (values m) = Z.of_nat (size m).
Proof. unfold zlen, values. by rewrite length_fmap, length_map_to_list. Qed.

Lemma ledger_values_clone m :
  ledger_ok m -> (fun r => cloneDeliveryRecord (default_protocol r)) <$> values m = values m.
Proof.
  intros H. rewrite <- (list_fmap_id (values m)) at 2. apply list_fmap_ext. intros i r Hi.
  assert (exists id, m !! id = Some r) as [id Hid] by (by apply elem_of_values, list_elem_of_lookup; eauto).
  destruct (H id r Hid) as (_ & Hv & Hs). by rewrite default_protocol_valid, clone_storable.
Qed.

Lemma ledger_valid m :
  ledger_ok m -> forallb (fun r => is_ok (validateDeliveryRecord (default_protocol r))) (values m) = true.
Proof.
  intros H. apply forallb_forall. intros r [id Hid]%list_elem_of_In%elem_of_values.
  destruct (H id r Hid) as (_ & Hv & _). by rewrite default_protocol_valid, Hv.
Qed.

(** What marshalling a well-formed ledger writes. *)
Lemma marshal_ledger node m raw :
  ledger_ok m -> marshalDeliveryState node m = Ok raw <->
  boundedDeliveryText node 128 = true /\ Z.of_nat (size m) <= maxDeliveryRecords /\
  raw = json_print (to_json (state_file node (merge_sort record_le (values m)))) ++ [byte_of_Z 10].
Proof.
  intros H. unfold marshalDeliveryState. rewrite ledger_valid, ledger_values_clone by done. split.
  - intros H'. case_in H'. breflect. simplify_eq. done.
  - intros (Hn & Hs & ->). by rewrite Hn, (proj2 (Z.leb_le _ _)).
Qed.

(** ** Loading what was written *)

#[global] Instance record_le_trans : Transitive record_le.
Proof. intros a b c. unfold record_le. apply transitivity. Qed.
#[global] Instance record_le_total : Total record_le.
Proof. intros a b. apply (total String.le). Qed.

Lemma ledger_ids m : ledger_ok m -> NoDup (DeliveryID <$> values m).
Proof.
  intros H. unfold values. rewrite <- list_fmap_compose.
  rewrite (list_fmap_ext _ fst); [apply NoDup_fst_map_to_list|].
  intros i [id r] Hi. simpl. assert (m !! id = Some r) as E by (by apply elem_of_map_to_list, list_elem_of_lookup; eauto).
  by apply (H id r E).
Qed.

(** Loading distinct well-formed records adds each of them. *)
Lemma load_records_ok l m0 :
  NoDup (DeliveryID <$> l) -> (forall r, r ∈ l -> record_ok (DeliveryID r) r /\ m0 !! DeliveryID r = None) ->
  exists m, load_records l m0 = Ok m /\
    (forall id, m !! id = match list_find (fun r => DeliveryID r = id) l with Some (_, r) => Some r | None => m0 !! id end).
Proof.
  revert m0. induction l as [|r l IH]; intros m0 Hnd Hall; [by exists m0|].
  rewrite fmap_cons, NoDup_cons in Hnd. destruct Hnd as [Hni Hnd].
  destruct (Hall r ltac:(left)) as [(_ & Hv & Hs) Hn]. cbn [load_records]. rewrite Hv, Hn, clone_storable by done.
  destruct (IH (<[DeliveryID r := r]> m0)) as (m & Hm & Hl); [done| |].
  { intros x Hx. destruct (Hall x ltac:(by right)) as [Hx' Hxn]. split; [done|].
    rewrite lookup_insert_ne; [done|]. intros E. apply Hni. rewrite E. apply list_elem_of_fmap. eauto. }
  exists m. split; [done|]. intros id. rewrite Hl. cbn [list_find].
  destruct (decide (DeliveryID r = id)) as [<-|Hne].
  - destruct (list_find _ l) as [[j x]|] eqn:Ef; [|by rewrite lookup_insert_eq].
    apply list_find_Some in Ef as (Hx & Hid & _). exfalso. apply Hni. rewrite <- Hid.
    apply list_elem_of_fmap. exists x. split; [done|]. apply list_elem_of_lookup. eauto.
  - destruct (list_find _ l) as [[j x]|] eqn:Ef; simpl; [done|]. by rewrite lookup_insert_ne.
Qed.

Lemma load_ledger m : ledger_ok m -> load_records (merge_sort record_le (values m)) ∅ = Ok m.
Proof.
  intros H. destruct (load_records_ok (merge_sort record_le (values m)) ∅) as (m' & Hm & Hl).
  - rewrite merge_sort_Permutation. by apply ledger_ids.
  - intros r. rewrite merge_sort_Permutation, elem_of_values. intros [id Hid]. split; [|apply lookup_empty].
    destruct (H id r Hid) as (E & ?). by rewrite E.
  - rewrite Hm. f_equal. apply map_eq. intros id. rewrite Hl.
    destruct (m !! id) as [r|] eqn:E.
    + destruct (H id r E) as (Hid & _).
      destruct (list_find _ _) as [[j x]|] eqn:Ef.
      * apply list_find_Some in Ef as (Hx & Hx' & _). f_equal.
        assert (x ∈ merge_sort record_le (values m)) as Hin by (apply list_elem_of_lookup; eauto).
        rewrite merge_sort_Permutation, elem_of_values in Hin. destruct Hin as [id' Hid'].
        destruct (H id' x Hid') as (E' & _). congruence.
      * exfalso. apply list_find_None in Ef. rewrite Forall_forall in Ef. apply (Ef r); [|done].
        rewrite merge_sort_Permutation. apply elem_of_values. eauto.
    + destruct (list_find _ _) as [[j x]|] eqn:Ef; [|apply lookup_empty].
      apply list_find_Some in Ef as (Hx & Hx' & _).
      assert (x ∈ merge_sort record_le (values m)) as Hin by (apply list_elem_of_lookup; eauto).
      rewrite merge_sort_Permutation, elem_of_values in Hin. destruct Hin as [id' Hid'].
      destruct (H id' x Hid') as (E' & _). congruence.
Qed.

(** The first look at a file this release wrote finds its version. *)
Lemma envelope_version f raw :
  storable f = true -> zlen raw <= maxDeliveryStateBytes -> json_parse raw = Some (to_json f) -> 0 < zlen raw ->
  DecodeStrictInto (H := envelope_json) raw maxDeliveryStateBytes = Ok (fVersion f).
Proof.
  intros Hs Hl Hp Hpos. pose proof (to_json_shape (depth := 7) f 0 Hs ltac:(lia)) as Hv.
  apply validateJSONValue_iff in Hv as [Hst Hj].
  apply (DecodeStrictInto_intro (H := envelope_json) raw maxDeliveryStateBytes (to_json f) (fVersion f)); [done|done| |done|].
  - cbn [go_shape envelope_json read_only]. cbn [to_json deliveryStateFile_json] in *. unfold obj in *. cbn [members always] in *.
    apply strict_struct.
    + apply (bool_decide_unpack _). vm_compute. exact I.
    + inversion Hst as [| | | | |? ? _ Hf| | |]; subst. intros k v Hin. destruct (Hf _ _ Hin) as (sh & Hsh & Hsv).
      repeat (apply elem_of_cons in Hin as [[= -> ->] | Hin]); [| | |by apply not_elem_of_nil in Hin];
        cbn [assoc String.eqb Ascii.eqb Bool.eqb] in *; eexists; split; try reflexivity; simplify_eq.
      * constructor.
      * constructor.
      * apply strict_raw. by eapply strict_unique.
  - cbn [of_json envelope_json read_only to_json deliveryStateFile_json]. struct_read.
    apply dec_int_json. cbn [storable deliveryStateFile_json] in Hs. breflect. done.
Qed.

Definition storable_node (node : string) : Prop := utf8_valid node = true.

Lemma state_file_storable node m :
  ledger_ok m -> storable_node node -> storable (state_file node (merge_sort record_le (values m))) = true.
Proof.
  intros H Hn. cbn [storable deliveryStateFile_json state_file fVersion fNodeID fRecords].
  rewrite Hn. cbn [in_int64b]. apply andb_true_iff. split; [done|]. cbn [storable_slice from_option].
  apply forallb_forall. intros r Hr%list_elem_of_In. rewrite merge_sort_Permutation, elem_of_values in Hr.
  destruct Hr as [id Hid]. by apply (H id r Hid).
Qed.

(** Reading back the file of a well-formed ledger. *)
Lemma decode_encoded node m raw :
  ledger_ok m -> storable_node node -> ensureDeliveryTerminalCapacity node m = Ok tt ->
  encodeDeliveryState node m = Ok raw ->
  decodeDeliveryState raw = Ok (state_file node (merge_sort record_le (values m)), m).
Proof.
  intros H Hn Hcap He. unfold encodeDeliveryState in He. case_in He. simplify_eq. breflect.
  match goal with Hm : marshalDeliveryState _ _ = Ok _ |- _ => apply marshal_ledger in Hm as (Hb & Hsz & ->); [|done] end.
  set (f := state_file node (merge_sort record_le (values m))) in *.
  assert (Hs : storable f = true) by (by apply state_file_storable).
  assert (Hpos : 0 < zlen (json_print (to_json f) ++ [byte_of_Z 10]))
    by (rewrite zlen_app; change (zlen [byte_of_Z 10]) with 1; pose proof (zlen_nonneg (json_print (to_json f))); lia).
  unfold decodeDeliveryState, decode_file.
  rewrite (envelope_version f) by (done || by apply json_parse_encode, to_json_ok).
  change (fVersion f) with 4. change ((deliveryStateReadMinVersion <=? 4) && (4 <=? deliveryStateReadMaxVersion)) with true.
  change (4 =? 2) with false. change (4 =? 3) with false. cbv iota.
  rewrite (DecodeStrictInto_marshal (depth := 7) f) by (done || lia || by right).
  change (fNodeID f) with node. change (fRecords f) with (Some (merge_sort record_le (values m))). rewrite Hb.
  assert (zlen (merge_sort record_le (values m)) = Z.of_nat (size m)) as ->.
  { rewrite <- length_values. unfold zlen. by rewrite merge_sort_Permutation. }
  rewrite (proj2 (Z.leb_le (Z.of_nat (size m)) maxDeliveryRecords)) by done.
  rewrite load_ledger by done. by rewrite Hcap.
Qed.

(** ** The invariant of a running node *)

(** The file reloads to the ledger [m] of this node. *)
Definition file_holds (n : Node) (m : gmap string deliveryRecord) : Prop :=
  exists raw f, disk n = Some raw /\ 0 < zlen raw <= maxDeliveryStateBytes /\ decodeDeliveryState raw = Ok (f, m) /\
    fNodeID f = nodeID (mem n).

Definition ledger_fits (node : string) (m : gmap string deliveryRecord) : Prop :=
  ledger_ok m /\ ensureDeliveryTerminalCapacity node m = Ok tt.

Definition node_ok (n : Node) : Prop :=
  storable_node (nodeID (mem n)) /\ ledger_fits (nodeID (mem n)) (records (mem n)) /\
  exists m, file_holds n m /\ ledger_fits (nodeID (mem n)) m.

(** What an operation hands to [persistLocked]: records under their identifiers that JSON can carry. *)
Definition record_pre (id : string) (r : deliveryRecord) : Prop :=
  DeliveryID r = id /\ storable r = true /\ ProtocolVersion r <> 0.
Definition ledger_pre (m : gmap string deliveryRecord) : Prop := map_Forall record_pre m.

Lemma ledger_ok_pre m : ledger_ok m -> ledger_pre m.
Proof.
  intros H id r Hr. destruct (H id r Hr) as (? & Hv & ?). split; [done|]. split; [done|].
  by destruct (validate_protocol r Hv) as [-> | ->].
Qed.

Lemma ledger_pre_canonical m : ledger_pre m -> canonicalDeliveryRecords m = m.
Proof.
  intros H. apply map_eq. intros id. unfold canonicalDeliveryRecords, cloneDeliveryRecords. rewrite !lookup_fmap.
  destruct (m !! id) as [r|] eqn:E; [|done]. simpl. f_equal. destruct (H id r E) as (_ & Hs & Hp).
  rewrite clone_storable by done. unfold default_protocol. by rewrite (proj2 (Z.eqb_neq _ _)).
Qed.

Lemma encode_valid node m raw : ledger_pre m -> encodeDeliveryState node m = Ok raw -> ledger_ok m.
Proof.
  intros H He id r Hr. destruct (H id r Hr) as (Hid & Hs & Hp). split; [done|]. split; [|done].
  unfold encodeDeliveryState, marshalDeliveryState in He. case_in He.
  match goal with E : forallb _ _ = true |- _ => rewrite forallb_forall in E; specialize (E r) end.
  assert (Hin : In r (values m)) by (apply list_elem_of_In, elem_of_values; eauto).
  specialize (E0 Hin). unfold default_protocol in E0. rewrite (proj2 (Z.eqb_neq _ _)) in E0 by done.
  by destruct (validateDeliveryRecord r) as [[]|].
Qed.

(** Persisting a ledger installs it, or fails and keeps the memory; the file then holds the old or the new ledger. *)
Lemma persist_spec n next fault n' res :
  storable_node (nodeID (mem n)) -> ledger_pre next -> persistLocked n next fault = (n', res) ->
  nodeID (mem n') = nodeID (mem n) /\
  ((res = Ok tt /\ records (mem n') = next /\ file_holds n' next /\ ledger_fits (nodeID (mem n)) next) \/
   (exists e, res = Err e) /\ mem n' = mem n /\
   (disk n' = disk n \/ file_holds n' next /\ ledger_fits (nodeID (mem n)) next)).
Proof.
  intros Hn Hpre. unfold persistLocked. rewrite ledger_pre_canonical by done.
  destruct (ensureDeliveryTerminalCapacity _ next) as [[]|] eqn:Hcap; [|intros [= <- <-]; by eauto 10].
  destruct (encodeDeliveryState _ next) as [raw|] eqn:He; [|intros [= <- <-]; by eauto 10].
  assert (Hok : ledger_ok next) by (by eapply encode_valid).
  assert (Hd : decodeDeliveryState raw = Ok (state_file (nodeID (mem n)) (merge_sort record_le (values next)), next))
    by (by apply decode_encoded).
  assert (Hl : 0 < zlen raw <= maxDeliveryStateBytes).
  { unfold encodeDeliveryState in He. case_in He. breflect. simplify_eq. split; [|done].
    apply marshal_ledger in E as (_ & _ & ->); [|done]. rewrite zlen_app. change (zlen [byte_of_Z 10]) with 1.
    pose proof (zlen_nonneg (json_print (to_json (state_file (nodeID (mem n)) (merge_sort record_le (values next)))))). lia. }
  destruct (run_replace replace_steps fault raw (disk n)) as [r d] eqn:Hr.
  pose proof (run_replace_atomic replace_steps fault raw (disk n)) as Hat.
  pose proof (run_replace_ok replace_steps fault raw (disk n)) as Hrok. rewrite Hr in Hat, Hrok. cbn [fst snd] in *.
  assert (Hfile : forall s, nodeID s = nodeID (mem n) -> file_holds (mkNode s (Some raw)) next)
    by (intros s Hs; by exists raw, (state_file (nodeID (mem n)) (merge_sort record_le (values next)))).
  destruct r as [[]|e]; intros [= <- <-]; cbn [mem nodeID records disk]; (split; [done|]).
  - left. rewrite Hrok by (done || by repeat constructor). split_and!; [done|done|by apply Hfile|done].
  - right. split; [eauto|]. split; [done|]. destruct Hat as [-> | ->]; [by left|]. right. split; [|done].
    by apply Hfile.
Qed.

(** ** How a record may change *)

Definition rank (phase : string) : Z :=
  if String.eqb phase deliveryPhaseAccepted then 0 else if String.eqb phase deliveryPhaseExecuting then 1 else 2.

(** The outcome of a terminal record: everything its report says, but for the lease generation it answers. *)
Definition outcome (r : deliveryRecord) :=
  ((fun t => (r_Status t, r_ReportedStatus t, r_ClaimGeneration t, r_ErrorCode t, r_Result t)) <$> Terminal r,
   Admission r, ActivationCanary r).

Record advances (r r' : deliveryRecord) : Prop := {
  adv_id : DeliveryID r' = DeliveryID r;
  adv_protocol : ProtocolVersion r' = ProtocolVersion r;
  adv_command : CommandID r' = CommandID r /\ CommandDigest r' = CommandDigest r;
  adv_tenant : TenantID r <> ""%string -> TenantID r' = TenantID r;
  adv_generation : DeliveryGeneration r <= DeliveryGeneration r';
  adv_phase : rank (Phase r) <= rank (Phase r');
  adv_outcome : Phase r = deliveryPhaseTerminal -> Phase r' = deliveryPhaseTerminal /\ outcome r' = outcome r;
}.

#[global] Instance advances_preorder : PreOrder advances.
Proof.
  split; [intros r; by split|]. intros a b c [] []. split; try congruence || lia.
  - intuition congruence.
  - intros Ht. rewrite adv_tenant1; [auto|]. rewrite adv_tenant0; done.
  - intros Hp. destruct (adv_outcome0 Hp) as [Hb Ho]. destruct (adv_outcome1 Hb) as [Hc Ho']. split; congruence.
Qed.

(** Only a safely acknowledged record may leave the ledger. *)
Definition evolves (m m' : gmap string deliveryRecord) : Prop :=
  forall id r, m !! id = Some r ->
    match m' !! id with Some r' => advances r r' | None => safeAcknowledgedDelivery r = true end.

Lemma evolves_refl m : evolves m m.
Proof. intros id r ->. reflexivity. Qed.

Lemma evolves_insert m id r' :
  (forall r, m !! id = Some r -> advances r r') -> evolves m (<[id := r']> m).
Proof.
  intros H id' r Hr. destruct (decide (id' = id)) as [->|Hne].
  - rewrite lookup_insert_eq. by apply H.
  - rewrite lookup_insert_ne, Hr by done. reflexivity.
Qed.

Lemma evolves_insert_new m m' id r' : m !! id = None -> evolves m m' -> evolves m (<[id := r']> m').
Proof.
  intros Hn H id' r Hr. rewrite lookup_insert_ne by congruence. by apply H.
Qed.

(** ** Compaction drops only safely acknowledged records *)

(** [m'] is [m] without some records that were safe to drop. *)
Definition compacts (m m' : gmap string deliveryRecord) : Prop :=
  m' ⊆ m /\ forall id r, m !! id = Some r -> m' !! id = None -> safeAcknowledgedDelivery r = true.

Lemma compacts_refl m : compacts m m.
Proof. split; [done|]. intros; congruence. Qed.

Lemma compacts_trans a b c : compacts a b -> compacts b c -> compacts a c.
Proof.
  intros [Hab Sab] [Hbc Sbc]. split; [by etrans|]. intros id r Hr Hn.
  destruct (b !! id) as [r'|] eqn:E; [|eauto]. rewrite (lookup_weaken b a id r' E Hab) in Hr. simplify_eq. eauto.
Qed.

Lemma compacts_evolves m m' : compacts m m' -> evolves m m'.
Proof.
  intros [Hs H] id r Hr. destruct (m' !! id) as [r'|] eqn:E; [|eauto].
  rewrite (lookup_weaken m' m id r' E Hs) in Hr. by simplify_eq.
Qed.

Lemma ids_where_safe p m id :
  id ∈ ids_where p m <-> exists r, m !! id = Some r /\ p r = true.
Proof.
  unfold ids_where. rewrite elem_of_sort_strings, list_elem_of_fmap. split.
  - intros ([id' r] & -> & Hin). apply list_elem_of_In, filter_In in Hin as [Hin Hp].
    apply list_elem_of_In, elem_of_map_to_list in Hin. eauto.
  - intros (r & Hr & Hp). exists (id, r). split; [done|]. apply list_elem_of_In, filter_In. split; [|done].
    by apply list_elem_of_In, elem_of_map_to_list.
Qed.

Lemma ids_where_nodup p (m : gmap string deliveryRecord) : NoDup (fst <$> List.filter (fun kv => p kv.2) (map_to_list m)).
Proof.
  pose proof (NoDup_fst_map_to_list m) as H. induction (map_to_list m) as [|[k r] l IH]; [constructor|].
  rewrite fmap_cons, NoDup_cons in H. destruct H as [Hni Hnd]. cbn [List.filter]. destruct (p _); [|by apply IH].
  rewrite fmap_cons, NoDup_cons. split; [|by apply IH]. intros ([k' r'] & E & Hin)%list_elem_of_fmap. apply Hni.
  apply list_elem_of_In, filter_In in Hin as [Hin%list_elem_of_In _]. apply list_elem_of_fmap. by exists (k', r').
Qed.

(** Candidates for deletion: every one of them is absent or safe. *)
Definition droppable (m : gmap string deliveryRecord) (ids : list string) : Prop :=
  forall id r, id ∈ ids -> m !! id = Some r -> safeAcknowledgedDelivery r = true.

Lemma droppable_sub m m' ids : m' ⊆ m -> droppable m ids -> droppable m' ids.
Proof. intros Hs H id r Hin Hr. eapply H; [done|]. by eapply lookup_weaken. Qed.

Lemma droppable_where m p :
  (forall r, p r = true -> safeAcknowledgedDelivery r = true) -> droppable m (ids_where p m).
Proof. intros Hp id r (r' & Hr' & Hpr)%ids_where_safe Hr. simplify_eq. auto. Qed.

Lemma compacts_delete m id ids : droppable m (id :: ids) -> compacts m (delete id m) /\ droppable (delete id m) ids.
Proof.
  intros H. split.
  - split; [apply delete_subseteq|]. intros id' r Hr Hd. apply lookup_delete_None in Hd as [<- | Hn]; [|congruence].
    eapply H; [left | done].
  - eapply (droppable_sub m); [apply delete_subseteq|]. intros id' r Hin. apply H. by right.
Qed.

Lemma compacts_delete_all ids m : droppable m ids -> compacts m (delete_all ids m).
Proof.
  revert m. induction ids as [|id ids IH]; intros m H; [apply compacts_refl|].
  destruct (compacts_delete m id ids H) as [Hc Hd]. eapply compacts_trans; [exact Hc|]. by apply (IH (delete id m)).
Qed.

Lemma compacts_remove m tenantID k : compacts m (removeAcknowledgedDeliveries m tenantID k).
Proof.
  unfold removeAcknowledgedDeliveries. destruct (k <=? 0); [apply compacts_refl|]. apply compacts_delete_all.
  intros id r Hin%subseteq_take. revert id r Hin.
  apply droppable_where. by intros ? [_ ?]%andb_true_iff.
Qed.

Lemma compacts_acknowledged m tenantID : compacts m (compactAcknowledgedDeliveries m tenantID).
Proof.
  unfold compactAcknowledgedDeliveries. cbv zeta.
  match goal with |- context [size ?x] => set (m1 := x) end.
  assert (Hm1 : compacts m m1).
  { unfold m1. destruct (nonempty tenantID); [|apply compacts_refl]. destruct (_ <=? _); [apply compacts_remove | apply compacts_refl]. }
  clearbody m1. destruct (_ <=? _); [|done]. eapply compacts_trans; [done | apply compacts_remove].
Qed.

Lemma compacts_until_tenant_fits ids tenantID m : droppable m ids -> compacts m (delete_until_tenant_fits ids tenantID m).
Proof.
  revert m. induction ids as [|id ids IH]; intros m H; [apply compacts_refl|].
  destruct (compacts_delete m id ids H) as [Hc Hd]. cbn [delete_until_tenant_fits].
  destruct (_ <=? _); [done|]. eapply compacts_trans; [exact Hc | by apply IH].
Qed.

Lemma compacts_tenant_bytes m tenantID : compacts m (compactTenantReservedBytes m tenantID).
Proof.
  unfold compactTenantReservedBytes. destruct (_ <=? _); [apply compacts_refl|].
  apply compacts_until_tenant_fits, droppable_where. by intros ? [_ ?]%andb_true_iff.
Qed.

Lemma compacts_delete_bytes ids k m : droppable m ids -> compacts m (delete_bytes ids k m).
Proof.
  revert m k. induction ids as [|id ids IH]; intros m k H; [apply compacts_refl|].
  destruct (compacts_delete m id ids H) as [Hc Hd]. cbn [delete_bytes].
  destruct (_ <=? _); [done|]. eapply compacts_trans; [exact Hc | by apply IH].
Qed.

Lemma compacts_global_bytes m node : compacts m (compactGlobalReservedBytes m node).
Proof.
  unfold compactGlobalReservedBytes. destruct (reservedDeliveryStateSize node m) as [sz|]; [|apply compacts_refl].
  destruct (_ <=? _); [apply compacts_refl|]. by apply compacts_delete_bytes, droppable_where.
Qed.

Lemma ledger_pre_compacts m m' : compacts m m' -> ledger_pre m -> ledger_pre m'.
Proof. intros [Hs _] H id r Hr. apply H. by eapply lookup_weaken. Qed.

(** A new record is not dropped by the compaction that follows its insertion. *)
Lemma evolves_new m m1 m2 id r :
  m !! id = None -> compacts m m1 -> compacts (<[id := r]> m1) m2 -> evolves m m2.
Proof.
  intros Hn H1 [Hs H2] id' r' Hr'. assert (id' <> id) by congruence.
  destruct (m2 !! id') as [r2|] eqn:E.
  - apply (lookup_weaken m2 (<[id := r]> m1) id' r2) in E; [|exact Hs]. rewrite lookup_insert_ne in E by done.
    apply (lookup_weaken m1 m id' r2) in E; [|apply H1]. simplify_eq. reflexivity.
  - destruct (m1 !! id') as [r1|] eqn:E1; [|by eapply H1].
    assert (<[id := r]> m1 !! id' = Some r1) as E2 by (by rewrite lookup_insert_ne).
    pose proof (lookup_weaken m1 m id' r1 E1 (proj1 H1)). simplify_eq. by eapply H2.
Qed.

(** ** The records an operation writes can be stored *)

Ltac storable_parts :=
  repeat match goal with
  | H : (_ && _) = true |- _ => apply andb_true_iff in H as [? ?]
  end.
Ltac storable_goal :=
  repeat match goal with |- (_ && _) = true => apply andb_true_iff; split end; try assumption; try reflexivity.

Ltac fields := cbn [ProtocolVersion DeliveryID DeliveryGeneration SettledGeneration TenantID CommandID CommandDigest
  CommandKind ClaimGeneration Phase Terminal Admission ActivationCanary from_option r_ProtocolVersion r_DeliveryID
  r_DeliveryGeneration r_CommandID r_CommandDigest r_Status r_ReportedStatus r_ClaimGeneration r_ErrorCode r_Result
  set_report_generation outcomeUnknownReport finish set_phase set_settled set_terminal refresh terminal_record
  rejected_record cloneExecutorReport].

Lemma storable_report_generation t g :
  storable t = true -> in_u64b g = true -> storable (set_report_generation t g) = true.
Proof. intros H Hg. cbn [storable ReportV3_json set_report_generation] in *. storable_parts. fields. storable_goal. Qed.

Lemma storable_outcome_unknown r : storable r = true -> storable (outcomeUnknownReport r) = true.
Proof.
  intros H. cbn [storable deliveryRecord_json] in H. storable_parts. cbn [storable ReportV3_json outcomeUnknownReport]. fields.
  storable_goal.
Qed.

Lemma storable_finish r t : storable r = true -> storable t = true -> storable (finish r t) = true.
Proof.
  intros H Ht. cbn [storable deliveryRecord_json] in *. storable_parts.
  fields. storable_goal.
Qed.

Lemma storable_phase r p : storable r = true -> utf8_valid p = true -> storable (set_phase r p) = true.
Proof. intros H Hp. cbn [storable deliveryRecord_json set_phase] in *. storable_parts. fields. storable_goal. Qed.

Lemma storable_settled r g : storable r = true -> in_u64b g = true -> storable (set_settled r g) = true.
Proof. intros H Hp. cbn [storable deliveryRecord_json set_settled] in *. storable_parts. fields. storable_goal. Qed.

Lemma storable_set_terminal r t : storable r = true -> storable t = true -> storable (set_terminal r t) = true.
Proof.
  intros H Ht. cbn [storable deliveryRecord_json] in *. storable_parts.
  fields. storable_goal.
Qed.

Lemma storable_advance r g : storable r = true -> in_u64b g = true -> storable (advance r g) = true.
Proof.
  intros H Hg. unfold advance. destruct (_ <? _); [|done]. cbn [storable deliveryRecord_json] in *. storable_parts.
  fields. storable_goal.
Qed.

Lemma storable_terminal r t : storable r = true -> Terminal r = Some t -> storable t = true.
Proof. intros H E. cbn [storable deliveryRecord_json] in H. storable_parts. rewrite E in *. done. Qed.

Lemma storable_refresh r d tenantID claim kind :
  storable r = true -> storable d = true -> utf8_valid tenantID = true -> in_u64b claim = true -> utf8_valid kind = true ->
  storable (refresh r d tenantID claim kind) = true.
Proof.
  intros H Hd Ht Hc Hk. pose proof H as Hr. cbn [storable deliveryRecord_json DeliveryV3_json] in *. storable_parts.
  fields.
  storable_goal.
  - by destruct (DeliveryGeneration r <? dv_DeliveryGeneration d).
  - by destruct (DeliveryGeneration r <? dv_DeliveryGeneration d).
  - by destruct (empty_string (TenantID r)).
  - by destruct (empty_string (CommandKind r) && nonempty kind).
  - by destruct (negb (String.eqb (Phase r) deliveryPhaseTerminal) && (ClaimGeneration r =? 0) && negb (claim =? 0)).
  - destruct (_ <? _); [|done]. destruct (Terminal r) as [t|] eqn:E; [|done]. cbn [fmap option_fmap option_map from_option].
    apply storable_report_generation; [done|done].
Qed.

Lemma storable_new d tenantID protocolVersion claim kind :
  storable d = true -> utf8_valid tenantID = true -> in_int64b protocolVersion = true -> in_u64b claim = true ->
  utf8_valid kind = true ->
  storable (mkRecord protocolVersion (dv_DeliveryID d) (dv_DeliveryGeneration d) 0 tenantID (dv_CommandID d)
    (dv_CommandDigest d) kind claim deliveryPhaseAccepted None None None) = true.
Proof.
  intros Hd Ht Hp Hc Hk. cbn [storable deliveryRecord_json DeliveryV3_json] in *. storable_parts. fields. storable_goal.
Qed.

Lemma storable_terminal_record r t a c :
  storable r = true -> storable t = true -> from_option storable true a = true -> from_option storable true c = true ->
  storable (terminal_record r t a c) = true.
Proof.
  intros H Ht Ha Hc. pose proof Ht as Ht'. cbn [storable deliveryRecord_json ReportV3_json] in *. storable_parts.
  fields.
  rewrite clone_admission_id by done. storable_goal. by destruct (_ =? 0).
Qed.

Lemma storable_rejected d protocolVersion prev t a c :
  storable d = true -> in_int64b protocolVersion = true -> from_option storable true prev = true -> storable t = true ->
  from_option storable true a = true -> from_option storable true c = true ->
  storable (rejected_record d protocolVersion prev t a c) = true.
Proof.
  intros Hd Hp Hprev Ht Ha Hc. pose proof (storable_report_generation t (dv_DeliveryGeneration d) Ht) as Ht'.
  pose proof Hd as Hd'. cbn [storable DeliveryV3_json] in Hd'. storable_parts. specialize (Ht' ltac:(done)).
  pose proof Ht' as Ht2. cbn [storable ReportV3_json] in Ht2. storable_parts.
  cbn [storable deliveryRecord_json]. fields.
  rewrite clone_admission_id by done. storable_goal. destruct prev as [p|]; [|done]. cbn [from_option] in *.
  cbn [storable deliveryRecord_json] in Hprev. storable_parts. done.
Qed.

(** ** Every operation follows the ledger *)

(** From [n] to [n'] by an operation: the invariant holds again, memory evolved, and the file holds what it held, memory
    being as it was, or a ledger that evolved from memory as it was and as it is. *)
Definition follows (n n' : Node) : Prop :=
  node_ok n' /\ nodeID (mem n') = nodeID (mem n) /\ evolves (records (mem n)) (records (mem n')) /\
  forall m, file_holds n' m ->
    (file_holds n m /\ records (mem n') = records (mem n)) \/
    (evolves (records (mem n)) m /\ evolves (records (mem n')) m).

Lemma follows_refl n : node_ok n -> follows n n.
Proof. intros Hn. split; [done|]. split; [done|]. split; [apply evolves_refl | auto]. Qed.

Lemma file_holds_fun n m m' : file_holds n m -> file_holds n m' -> m = m'.
Proof. intros (raw & f & Hd & _ & Hm & _) (raw' & f' & Hd' & _ & Hm' & _). congruence. Qed.

(** The file of [n'] holds what that of [n] holds when nothing was written. *)
Lemma file_holds_same n n' m :
  disk n' = disk n -> nodeID (mem n') = nodeID (mem n) -> file_holds n' m <-> file_holds n m.
Proof. unfold file_holds. intros -> ->. done. Qed.

Lemma persist_follows n next fault n' res :
  node_ok n -> ledger_pre next -> evolves (records (mem n)) next -> persistLocked n next fault = (n', res) ->
  follows n n' /\ (res = Ok tt -> records (mem n') = next /\ file_holds n' next /\ ledger_fits (nodeID (mem n)) next) /\
  (res <> Ok tt -> mem n' = mem n) /\ (forall m, file_holds n' m -> file_holds n m \/ m = next).
Proof.
  intros Hn Hpre Hev Hp.
  assert (Hfile : forall m, file_holds n' m -> file_holds n m \/ m = next).
  { destruct (persist_spec _ _ _ _ _ (proj1 Hn) Hpre Hp) as [Hid [(_ & _ & Hfile & _) | (_ & _ & [Hd | [Hfile _]])]];
      intros m Hm; [right; by eapply file_holds_fun | left; by eapply file_holds_same in Hm | right; by eapply file_holds_fun]. }
  assert (Hgoal : follows n n' /\ (res = Ok tt -> records (mem n') = next /\ file_holds n' next /\ ledger_fits (nodeID (mem n)) next)
    /\ (res <> Ok tt -> mem n' = mem n)); [|tauto]. clear Hfile.
  destruct Hn as (Hs & Hf & m & Hm & Hfm). destruct (persist_spec _ _ _ _ _ Hs Hpre Hp) as [Hid Hcases].
  unfold follows, node_ok. rewrite Hid.
  destruct Hcases as [(-> & Hr & Hfile & Hfit) | ([e ->] & Hmem & Hdisk)].
  - rewrite Hr. split; [|done]. split; [split; [done|]; split; [done|]; by exists next|].
    split; [done|]. split; [done|]. intros m' Hm'. right. rewrite (file_holds_fun _ _ _ Hm' Hfile).
    split; [done | apply evolves_refl].
  - rewrite Hmem. split; [|done]. destruct Hdisk as [Hd | [Hfile Hfit]].
    + pose proof (file_holds_same n n') as Hsame. split; [split; [done|]; split; [done|]; exists m; by rewrite Hsame|].
      split; [done|]. split; [apply evolves_refl|]. intros m' Hm'. left. split; [by apply Hsame | done].
    + split; [split; [done|]; split; [done|]; by exists next|].
      split; [done|]. split; [apply evolves_refl|]. intros m' Hm'. right. by rewrite (file_holds_fun _ _ _ Hm' Hfile).
Qed.

Lemma node_ledger n : node_ok n -> ledger_ok (records (mem n)).
Proof. by intros (_ & [? _] & _). Qed.
Lemma node_clone n : node_ok n -> cloneDeliveryRecords (records (mem n)) = records (mem n).
Proof. intros. by apply ledger_clone, node_ledger. Qed.
Lemma node_pre n : node_ok n -> ledger_pre (records (mem n)).
Proof. intros. by apply ledger_ok_pre, node_ledger. Qed.

Lemma record_pre_of n id r :
  node_ok n -> records (mem n) !! id = Some r -> record_pre id r /\ validateDeliveryRecord r = Ok tt.
Proof. intros Hn Hr. split; [by apply node_pre in Hn; apply Hn | by apply node_ledger in Hn; apply (Hn id r Hr)]. Qed.

(** Replacing one record. *)
Lemma persist_one n id r r' fault n' res :
  node_ok n -> records (mem n) !! id = Some r -> storable r' = true -> advances r r' ->
  persistLocked n (<[id := r']> (cloneDeliveryRecords (records (mem n)))) fault = (n', res) ->
  follows n n' /\ (res = Ok tt -> records (mem n') = <[id := r']> (records (mem n)) /\
    file_holds n' (<[id := r']> (records (mem n)))) /\ (res <> Ok tt -> mem n' = mem n) /\
  (forall m, file_holds n' m -> file_holds n m \/ m = <[id := r']> (records (mem n))).
Proof.
  intros Hn Hr Hst Hadv. rewrite node_clone by done. intros Hp.
  destruct (record_pre_of n id r Hn Hr) as [(Hid & _ & Hpv) _].
  assert (Hpre : ledger_pre (<[id := r']> (records (mem n)))).
  { apply map_Forall_insert_2; [|by apply node_pre]. destruct Hadv. split; [congruence|]. split; [done | congruence]. }
  assert (Hev : evolves (records (mem n)) (<[id := r']> (records (mem n)))).
  { apply evolves_insert. intros r0 Hr0. by simplify_eq. }
  destruct (persist_follows _ _ _ _ _ Hn Hpre Hev Hp) as (Hf & Hok & Herr & Hfile). split; [done|]. split; [|done].
  intros Hres. by destruct (Hok Hres) as (? & ? & _).
Qed.

Lemma rank_nonneg p : 0 <= rank p <= 2.
Proof. unfold rank. destruct (String.eqb _ _); [lia|]. destruct (String.eqb _ _); lia. Qed.

(** The steps a record takes are advances. *)
Lemma advances_executing r : Phase r = deliveryPhaseAccepted -> advances r (set_phase r deliveryPhaseExecuting).
Proof. intros Hp. split; fields; try done; rewrite Hp; done. Qed.

Lemma advances_finish r t : Phase r = deliveryPhaseExecuting -> advances r (finish r t).
Proof. intros Hp. split; fields; try done; rewrite Hp; done. Qed.

Lemma advances_terminal r t a c : Phase r = deliveryPhaseExecuting -> advances r (terminal_record r t a c).
Proof. intros Hp. split; fields; try done; rewrite Hp; done. Qed.

Lemma advances_settled r g : advances r (set_settled r g).
Proof. split; fields; done. Qed.

Lemma advances_refresh r d tenantID claim kind : advances r (refresh r d tenantID claim kind).
Proof.
  unfold refresh. destruct (_ <? _) eqn:E; breflect; split; try done; fields; try lia.
  - intros Ht. unfold empty_string. by rewrite (proj2 (String.eqb_neq _ _)).
  - intros Hp. split; [done|]. unfold outcome. fields. by destruct (Terminal r).
  - intros Ht. unfold empty_string. by rewrite (proj2 (String.eqb_neq _ _)).
Qed.

Lemma advances_advance r g : advances r (advance r g).
Proof. unfold advance. destruct (_ <? _) eqn:E; [|reflexivity]. breflect. split; try done; fields; lia. Qed.

Lemma advances_regenerate r t g :
  Terminal r = Some t -> advances r (set_terminal r (set_report_generation t g)).
Proof.
  intros Ht. split; try done; fields; try lia. intros Hp. split; [done|]. unfold outcome. fields. by rewrite Ht.
Qed.

Lemma advances_rejected r d protocolVersion t a c :
  ProtocolVersion r = protocolVersion -> DeliveryID r = dv_DeliveryID d -> CommandID r = dv_CommandID d ->
  CommandDigest r = dv_CommandDigest d -> DeliveryGeneration r <= dv_DeliveryGeneration d ->
  Phase r <> deliveryPhaseTerminal -> advances r (rejected_record d protocolVersion (Some r) t a c).
Proof.
  intros Hv Hid Hc Hcd Hg Hp. split; fields; try done; try congruence. apply rank_nonneg.
Qed.

Lemma MarkExecuting_follows n id fault :
  node_ok n -> follows n (MarkExecuting n id fault).1 /\
  ((MarkExecuting n id fault).2 = Ok tt -> exists r, records (mem n) !! id = Some r /\ Phase r = deliveryPhaseAccepted /\
     let r' := set_phase r deliveryPhaseExecuting in
     records (mem (MarkExecuting n id fault).1) = <[id := r']> (records (mem n)) /\
     file_holds (MarkExecuting n id fault).1 (<[id := r']> (records (mem n)))).
Proof.
  intros Hn. unfold MarkExecuting. destruct (records (mem n) !! id) as [r|] eqn:Hr; [|split; [by apply follows_refl | done]].
  destruct (String.eqb_spec (Phase r) deliveryPhaseAccepted) as [Hp|]; cbn [negb]; [|split; [by apply follows_refl | done]].
  destruct (persistLocked _ _ fault) as [n' res] eqn:E.
  destruct (record_pre_of n id r Hn Hr) as [(_ & Hst & _) _].
  destruct (persist_one _ _ _ _ _ _ _ Hn Hr (storable_phase r deliveryPhaseExecuting Hst eq_refl) (advances_executing r Hp) E)
    as (Hf & Hok & _).
  split; [done|]. cbn [fst snd]. intros Hres. eauto.
Qed.

Lemma markTerminal_follows n id g cmd dig pv t a c fault :
  node_ok n -> storable t = true -> from_option storable true a = true -> from_option storable true c = true ->
  follows n (markTerminal n id g cmd dig pv t a c fault).1.
Proof.
  intros Hn Ht Ha Hc. unfold markTerminal. destruct (records (mem n) !! id) as [r|] eqn:Hr; [|by apply follows_refl].
  destruct (negb _) eqn:Hm; [by apply follows_refl|]. apply negb_false_iff in Hm.
  unfold terminal_matches, executing in Hm. rewrite !andb_true_iff in Hm. destruct Hm as [[[[[_ Hp%String.eqb_eq] _] _] _] _].
  destruct (persistLocked _ _ fault) as [n' res] eqn:E.
  destruct (record_pre_of n id r Hn Hr) as [(_ & Hst & _) _].
  by destruct (persist_one _ _ _ _ _ _ _ Hn Hr (storable_terminal_record r t a c Hst Ht Ha Hc) (advances_terminal r t a c Hp) E).
Qed.

Lemma storable_v4_parts report :
  storable report = true ->
  let '(t, a, c) := executorReportV4Record report in
  storable t = true /\ from_option storable true a = true /\ from_option storable true c = true.
Proof.
  intros H. cbn [storable ReportV4_json ReportResultV4_json] in H. storable_parts. unfold executorReportV4Record.
  rewrite clone_admission_id by done. split_and!; [|done|done].
  cbn [storable ReportV3_json ReportResultV3_json]. fields. cbn [rr_RuntimeRef rr_Error]. storable_goal.
Qed.

Lemma Settle_follows n id g fault : node_ok n -> in_u64b g = true -> follows n (Settle n id g fault).1.
Proof.
  intros Hn Hg. unfold Settle. destruct (records (mem n) !! id) as [r|] eqn:Hr; [|by apply follows_refl].
  destruct (negb _); [by apply follows_refl|]. destruct (SettledGeneration r =? g); [by apply follows_refl|].
  destruct (persistLocked _ _ fault) as [n' res] eqn:E.
  destruct (record_pre_of n id r Hn Hr) as [(_ & Hst & _) _].
  by destruct (persist_one _ _ _ _ _ _ _ Hn Hr (storable_settled r g Hst Hg) (advances_settled r g) E).
Qed.

Lemma RecoverExecuting_spec n fault :
  node_ok n -> follows n (RecoverExecuting n fault).1 /\
  ((RecoverExecuting n fault).2 = Ok tt ->
     records (mem (RecoverExecuting n fault).1) = recover <$> records (mem n) /\
     (file_holds n (records (mem n)) -> file_holds (RecoverExecuting n fault).1 (recover <$> records (mem n)))).
Proof.
  intros Hn. unfold RecoverExecuting. rewrite node_clone by done.
  destruct (existsb executing (values (records (mem n)))) eqn:Ex.
  - destruct (persistLocked _ _ fault) as [n' res] eqn:E. cbn [fst snd].
    assert (Hpre : ledger_pre (recover <$> records (mem n))).
    { intros id r'. rewrite lookup_fmap. destruct (records (mem n) !! id) as [r|] eqn:Hr; intros [= <-].
      destruct (record_pre_of n id r Hn Hr) as [(Hid & Hst & Hpv) _]. unfold recover. destruct (executing r); [|done].
      split; [done|]. split; [|done]. by apply storable_finish; [|apply storable_outcome_unknown]. }
    assert (Hev : evolves (records (mem n)) (recover <$> records (mem n))).
    { intros id r Hr. rewrite lookup_fmap, Hr. cbn [fmap option_fmap option_map]. unfold recover, executing.
      destruct (String.eqb_spec (Phase r) deliveryPhaseExecuting); [by apply advances_finish | reflexivity]. }
    destruct (persist_follows _ _ _ _ _ Hn Hpre Hev E) as (Hf & Hok & _). split; [done|]. intros Hres.
    by destruct (Hok Hres) as (? & ? & _).
  - split; [by apply follows_refl|]. intros _. cbn [fst].
    assert (recover <$> records (mem n) = records (mem n)) as ->; [|done].
    apply map_eq. intros id. rewrite lookup_fmap. destruct (records (mem n) !! id) as [r|] eqn:Hr; [|done].
    cbn [fmap option_fmap option_map]. f_equal. unfold recover. destruct (executing r) eqn:Er; [|done]. exfalso.
    apply not_true_iff_false in Ex. apply Ex, existsb_exists. exists r. split; [|done].
    apply list_elem_of_In, elem_of_values. eauto.
Qed.

Lemma MigrateFormat_follows n fault : node_ok n -> follows n (MigrateFormat n fault).1.
Proof.
  intros Hn. unfold MigrateFormat. destruct (_ =? _); [by apply follows_refl|]. rewrite node_clone by done.
  destruct (persistLocked _ _ fault) as [n' res] eqn:E.
  by destruct (persist_follows _ _ _ _ _ Hn (node_pre _ Hn) (evolves_refl _) E).
Qed.

Lemma PrepareProtocol_follows n pv validateOnly fault : node_ok n -> follows n (PrepareProtocol n pv validateOnly fault).1.
Proof.
  intros Hn. unfold PrepareProtocol. destruct (negb _); [by apply follows_refl|]. rewrite node_clone by done.
  destruct (negb (forallb _ _)) eqn:Hall; [by apply follows_refl|]. apply negb_false_iff in Hall.
  rewrite forallb_forall in Hall.
  destruct (negb _ || validateOnly); [by apply follows_refl|].
  destruct (persistLocked _ _ fault) as [n' res] eqn:E.
  assert (Hc : compacts (records (mem n)) (filter (fun kv => ProtocolVersion kv.2 = pv) (records (mem n)))).
  { split; [apply map_filter_subseteq|]. intros id r Hr Hnone. apply map_lookup_filter_None in Hnone as [?|Hne]; [congruence|].
    specialize (Hall r). rewrite orb_true_iff, Z.eqb_eq in Hall. destruct Hall as [Hpv|]; [|by exfalso; eapply Hne|done].
    apply list_elem_of_In, elem_of_values. eauto. }
  by destruct (persist_follows _ _ _ _ _ Hn (ledger_pre_compacts _ _ Hc (node_pre _ Hn)) (compacts_evolves _ _ Hc) E).
Qed.

(** Adding a record under a fresh identifier, with compaction before and after. *)
Lemma persist_new n id r m1 m2 fault n' res :
  node_ok n -> records (mem n) !! id = None -> record_pre id r ->
  compacts (records (mem n)) m1 -> compacts (<[id := r]> m1) m2 ->
  persistLocked n m2 fault = (n', res) -> follows n n'.
Proof.
  intros Hn Hnone Hpre H1 H2 E.
  assert (ledger_pre m2).
  { apply (ledger_pre_compacts _ _ H2), map_Forall_insert_2; [done|]. apply (ledger_pre_compacts _ _ H1). by apply node_pre. }
  by destruct (persist_follows _ _ _ _ _ Hn H (evolves_new _ _ _ _ _ Hnone H1 H2) E).
Qed.

Definition known_protocol (pv : Z) : Prop := pv = ExecutorProtocolV3 \/ pv = ExecutorProtocolV4.
Lemma known_protocol_ok pv : known_protocol pv -> in_int64b pv = true /\ pv <> 0.
Proof. by intros [-> | ->]. Qed.

Lemma accept_new_follows n d tenantID pv claim kind fault :
  node_ok n -> records (mem n) !! dv_DeliveryID d = None -> storable d = true -> utf8_valid tenantID = true ->
  known_protocol pv -> in_u64b claim = true -> utf8_valid kind = true ->
  follows n (accept_new n d tenantID pv claim kind fault).1.
Proof.
  intros Hn Hnone Hd Ht [Hpv Hpv0]%known_protocol_ok Hc Hk. unfold accept_new. rewrite node_clone by done.
  destruct (_ <=? _); [by apply follows_refl|]. destruct (_ <=? _); [by apply follows_refl|].
  destruct (_ <? _); [by apply follows_refl|].
  destruct (persistLocked _ _ fault) as [n' res] eqn:E.
  assert (follows n n'); [|by destruct res].
  refine (persist_new _ (dv_DeliveryID d) _ _ _ _ _ _ Hn Hnone _ (compacts_acknowledged _ tenantID)
    (compacts_trans _ _ _ (compacts_tenant_bytes _ tenantID) (compacts_global_bytes _ (nodeID (mem n)))) E).
  split; [done|]. split; [by apply storable_new | done].
Qed.

(** Replacing a record twice, the second time after the first succeeded. *)
Lemma persist_twice n id r r1 r2 fault1 fault2 n1 n2 res :
  node_ok n -> records (mem n) !! id = Some r -> storable r1 = true -> storable r2 = true -> advances r r1 ->
  advances r1 r2 ->
  persistLocked n (<[id := r1]> (cloneDeliveryRecords (records (mem n)))) fault1 = (n1, Ok tt) ->
  persistLocked n1 (<[id := r2]> (cloneDeliveryRecords (records (mem n1)))) fault2 = (n2, res) ->
  follows n n2.
Proof.
  intros Hn Hr Hs1 Hs2 Ha1 Ha2 E1 E2.
  destruct (persist_one _ _ _ _ _ _ _ Hn Hr Hs1 Ha1 E1) as ((Hn1 & Hid1 & _ & _) & Hok1 & _ & Hf1).
  destruct (Hok1 eq_refl) as [Hm1 Hfile1].
  assert (Hr1 : records (mem n1) !! id = Some r1) by (by rewrite Hm1, lookup_insert_eq).
  destruct (persist_one _ _ _ _ _ _ _ Hn1 Hr1 Hs2 Ha2 E2) as ((Hn2 & Hid2 & _ & _) & Hok2 & Herr2 & Hf2).
  assert (Hev1 : evolves (records (mem n)) (<[id := r1]> (records (mem n))))
    by (apply evolves_insert; intros ? ?; by simplify_eq).
  assert (Hev2 : evolves (records (mem n)) (<[id := r2]> (records (mem n1)))).
  { rewrite Hm1, insert_insert_eq. apply evolves_insert. intros ? ?. simplify_eq. by etrans. }
  split; [done|]. split; [congruence|]. split.
  - destruct (decide (res = Ok tt)) as [Eok|Ne].
    + destruct (Hok2 Eok) as [-> _]. done.
    + rewrite (Herr2 Ne), Hm1. done.
  - intros m Hm. right. split.
    + destruct (Hf2 m Hm) as [Hm' | ->]; [|done]. by rewrite (file_holds_fun _ _ _ Hm' Hfile1).
    + destruct (decide (res = Ok tt)) as [Eok|Ne].
      * destruct (Hok2 Eok) as [-> Hfile2]. rewrite (file_holds_fun _ _ _ Hm Hfile2). apply evolves_refl.
      * rewrite (Herr2 Ne). destruct (Hf2 m Hm) as [Hm' | ->].
        -- rewrite (file_holds_fun _ _ _ Hm' Hfile1), Hm1. apply evolves_refl.
        -- apply evolves_insert. intros r0 Hr0. by simplify_eq.
Qed.

Lemma accept_retained_follows n r d tenantID pv claim kind fault fault2 :
  node_ok n -> records (mem n) !! dv_DeliveryID d = Some r -> storable d = true -> utf8_valid tenantID = true ->
  in_u64b claim = true -> utf8_valid kind = true ->
  follows n (accept_retained n r d tenantID pv claim kind fault fault2).1.
Proof.
  intros Hn Hr Hd Ht Hc Hk. unfold accept_retained.
  destruct (check_reuse r d tenantID pv claim kind) as [[]|]; [by apply follows_refl| |by apply follows_refl].
  destruct (record_pre_of n _ r Hn Hr) as [(Hid & Hst & _) _].
  pose proof (storable_refresh r d tenantID claim kind Hst Hd Ht Hc Hk) as Hst1.
  pose proof (advances_refresh r d tenantID claim kind) as Ha1.
  set (r1 := refresh r d tenantID claim kind) in *. clearbody r1.
  pose proof (storable_finish r1 (outcomeUnknownReport r1) Hst1 (storable_outcome_unknown r1 Hst1)) as Hst2.
  destruct (refreshes r d claim kind).
  - destruct (persistLocked n _ fault) as [n1 res1] eqn:E1.
    destruct (persist_one _ _ _ _ _ _ _ Hn Hr Hst1 Ha1 E1) as (Hf1 & _).
    destruct res1 as [[]|]; [|done].
    destruct (String.eqb_spec (Phase r1) deliveryPhaseAccepted); [done|].
    destruct (String.eqb_spec (Phase r1) deliveryPhaseExecuting) as [Hp|]; [|by destruct (String.eqb _ _)].
    destruct (persistLocked n1 _ fault2) as [n2 res2] eqn:E2.
    pose proof (persist_twice _ _ _ _ _ _ _ _ _ _ Hn Hr Hst1 Hst2 Ha1 (advances_finish r1 _ Hp) E1 E2). by destruct res2.
  - destruct (String.eqb_spec (Phase r1) deliveryPhaseAccepted); [by apply follows_refl|].
    destruct (String.eqb_spec (Phase r1) deliveryPhaseExecuting) as [Hp|];
      [|destruct (String.eqb _ _); by apply follows_refl].
    destruct (persistLocked n _ fault2) as [n2 res2] eqn:E2.
    pose proof (transitivity Ha1 (advances_finish r1 (outcomeUnknownReport r1) Hp)) as Ha2.
    destruct (persist_one _ _ _ _ _ _ _ Hn Hr Hst2 Ha2 E2) as (Hf2 & _). by destruct res2.
Qed.

Lemma acceptDelivery_follows n d tenantID pv claim kind fault fault2 :
  node_ok n -> storable d = true -> utf8_valid tenantID = true -> known_protocol pv -> in_u64b claim = true ->
  utf8_valid kind = true -> follows n (acceptDelivery n d tenantID pv claim kind fault fault2).1.
Proof.
  intros Hn Hd Ht Hpv Hc Hk. unfold acceptDelivery. destruct (negb _); [by apply follows_refl|]. rewrite node_clone by done.
  destruct (records (mem n) !! dv_DeliveryID d) as [r|] eqn:Hr; [by apply accept_retained_follows | by apply accept_new_follows].
Qed.

Lemma evolves_insert_compact m m1 m2 id r' :
  (forall r, m !! id = Some r -> advances r r') -> safeAcknowledgedDelivery r' = false ->
  compacts m m1 -> compacts (<[id := r']> m1) m2 -> evolves m m2.
Proof.
  intros Ha Hns H1 H2. destruct (m !! id) as [r0|] eqn:E0; [|by eapply evolves_new].
  intros id' r Hr. destruct (decide (id' = id)) as [->|Hne].
  - simplify_eq. assert (Hi : <[id := r']> m1 !! id = Some r') by apply lookup_insert_eq.
    destruct (m2 !! id) as [r2|] eqn:E2; [|pose proof (proj2 H2 _ _ Hi E2); congruence].
    pose proof (lookup_weaken m2 _ id r2 E2 (proj1 H2)). simplify_eq. auto.
  - assert (Hev : evolves (delete id m) m2).
    { eapply (evolves_new _ (delete id m1)); [apply lookup_delete_eq| |].
      - split; [by apply delete_mono, H1|]. intros k x Hk Hn. apply lookup_delete_Some in Hk as [Hki Hk].
        rewrite lookup_delete_ne in Hn by done. by eapply H1.
      - rewrite insert_delete_eq. exact H2. }
    apply Hev. by rewrite lookup_delete_ne.
Qed.

Lemma rejected_unsafe d pv prev t a c :
  dv_DeliveryGeneration d <> 0 -> safeAcknowledgedDelivery (rejected_record d pv prev t a c) = false.
Proof.
  intros Hg. unfold safeAcknowledgedDelivery. fields. rewrite (proj2 (Z.eqb_neq 0 _)) by done. by rewrite orb_true_r.
Qed.

Lemma install_rejected_follows n m1 prev d pv t a c fault :
  node_ok n -> compacts (records (mem n)) m1 -> known_protocol pv -> dv_DeliveryGeneration d <> 0 ->
  storable (rejected_record d pv prev t a c) = true ->
  (forall r, records (mem n) !! dv_DeliveryID d = Some r -> advances r (rejected_record d pv prev t a c)) ->
  follows n (install_rejected n m1 (rejected_record d pv prev t a c) fault).1.
Proof.
  intros Hn H1 [_ Hpv]%known_protocol_ok Hg Hst Ha. unfold install_rejected.
  change (DeliveryID (rejected_record d pv prev t a c)) with (dv_DeliveryID d).
  pose proof (compacts_global_bytes (<[dv_DeliveryID d := rejected_record d pv prev t a c]> m1) (nodeID (mem n))) as H2.
  destruct (persistLocked _ _ fault) as [n' res] eqn:E. cbn [fst].
  assert (Hpre : ledger_pre (<[dv_DeliveryID d := rejected_record d pv prev t a c]> m1)).
  { apply map_Forall_insert_2; [done|]. apply (ledger_pre_compacts _ _ H1). by apply node_pre. }
  by destruct (persist_follows _ _ _ _ _ Hn (ledger_pre_compacts _ _ H2 Hpre)
    (evolves_insert_compact _ _ _ _ _ Ha (rejected_unsafe _ _ _ _ _ _ Hg) H1 H2) E).
Qed.

Lemma advance_generation r g : DeliveryGeneration r <= g -> DeliveryGeneration (advance r g) = g.
Proof. intros H. unfold advance. destruct (_ <? _) eqn:E; breflect; [done | lia]. Qed.

Lemma advance_keeps r g : Phase (advance r g) = Phase r /\ Terminal (advance r g) = Terminal r.
Proof. unfold advance. by destruct (_ <? _). Qed.

Lemma terminal_report r :
  validateDeliveryRecord r = Ok tt -> Phase r = deliveryPhaseTerminal -> exists t, Terminal r = Some t.
Proof.
  intros (_ & _ & [(Hp & _) | (_ & Hv)])%validate_inv Ep; [by rewrite Ep in Hp|].
  unfold validate_terminal in Hv. destruct (Terminal r); [eauto | done].
Qed.

Lemma rejectDelivery_follows n d pv t a c fault :
  node_ok n -> storable d = true -> known_protocol pv -> dv_DeliveryGeneration d <> 0 -> storable t = true ->
  from_option storable true a = true -> from_option storable true c = true ->
  follows n (rejectDelivery n d pv t a c fault).1.
Proof.
  intros Hn Hd Hpv Hg Ht Ha Hc. unfold rejectDelivery. rewrite node_clone by done.
  pose proof (known_protocol_ok pv Hpv) as [Hpi _].
  destruct (records (mem n) !! dv_DeliveryID d) as [r|] eqn:Hr.
  - destruct (ProtocolVersion r =? pv) eqn:Ev; cbn [negb]; [|by apply follows_refl].
    destruct (bool_decide (CommandID r = _) && _) eqn:Ec; cbn [negb]; [|by apply follows_refl].
    destruct (dv_DeliveryGeneration d <? DeliveryGeneration r) eqn:Eg; [by apply follows_refl|]. breflect.
    destruct (record_pre_of n _ r Hn Hr) as [(Hid & Hst & _) Hv].
    assert (Hug : in_u64b (dv_DeliveryGeneration d) = true) by (cbn [storable DeliveryV3_json] in Hd; by storable_parts).
    pose proof (storable_advance r _ Hst Hug) as Hst1. pose proof (advances_advance r (dv_DeliveryGeneration d)) as Ha1.
    pose proof (advance_generation r _ Eg) as Hg1.
    pose proof (advance_keeps r (dv_DeliveryGeneration d)) as [Hkp Hkt].
    set (r1 := advance r (dv_DeliveryGeneration d)) in *. clearbody r1.
    destruct (if String.eqb (Phase r1) deliveryPhaseTerminal then Terminal r1 else None) as [t1|] eqn:Et.
    + assert (Terminal r1 = Some t1) as Et1 by (destruct (String.eqb _ _); [done | done]).
      destruct (persistLocked _ _ fault) as [n' res] eqn:E. cbn [fst].
      rewrite <- (node_clone n Hn) in E.
      eapply (persist_one _ _ _ _ _ _ _ Hn Hr) in E; [by destruct E | |etrans; [exact Ha1 | by apply advances_regenerate]].
      apply storable_set_terminal; [done|]. apply storable_report_generation; [by eapply storable_terminal | by rewrite Hg1].
    + assert (Hadv : forall t a c, Phase r1 <> deliveryPhaseTerminal -> forall r0, records (mem n) !! dv_DeliveryID d = Some r0 ->
        advances r0 (rejected_record d pv (Some r1) t a c)).
      { intros t' a' c' Hnt r0 Hr0. simplify_eq. etrans; [exact Ha1|]. destruct Ha1 as [Hi Hpv' [Hcm Hcd] _ _ _ _].
        apply advances_rejected; congruence || lia. }
      assert (Hnt : Phase r1 <> deliveryPhaseTerminal).
      { intros Hp. rewrite Hp in Et. change (String.eqb deliveryPhaseTerminal deliveryPhaseTerminal) with true in Et. cbv iota in Et.
        destruct (terminal_report r Hv) as [? ?]; congruence. }
      destruct (executing r1); apply install_rejected_follows; auto using compacts_refl, storable_rejected, storable_outcome_unknown.
  - destruct (_ <=? _); [by apply follows_refl|].
    apply install_rejected_follows; auto using compacts_acknowledged, storable_rejected. intros r0 Hr0. congruence.
Qed.

End DeliveryLedger.
