(* ===== verification/AtMostOnce.v ===== *)
(** * At-most-once execution

    Runs of a node over its delivery ledger: any sequence of ledger operations, each with its own input and disk fault, with
    restarts in between. The theorems show that a delivery enters the handler at most once while its record is retained, that a
    retained outcome never changes, and that a restart always finds a usable ledger. *)

From Stdlib Require Import Ascii.
From S2P Require Import Prelude GoText GoFS GoJson GoCrypto Strict Dsse ControlProtocol DeliveryStore DeliveryLedger.
Import ControlProtocol DeliveryStore DeliveryLedger.

Module AtMostOnce.

(** ** Runs *)

Inductive op :=
| OAccept (d : ExecutorDeliveryV3) (tenantID : string) (fault fault2 : option fs_step)
| OAcceptV4 (d : ExecutorDeliveryV4) (tenantID : string) (claimGeneration : Z) (commandKind : string)
    (fault fault2 : option fs_step)
| OReject (d : ExecutorDeliveryV3) (rejected : ExecutorReportV3) (fault : option fs_step)
| ORejectV4 (d : ExecutorDeliveryV4) (rejected : ExecutorReportV4) (fault : option fs_step)
| OMarkExecuting (deliveryID : string) (fault : option fs_step)
| OMarkTerminal (report : ExecutorReportV3) (fault : option fs_step)
| OMarkTerminalV4 (report : ExecutorReportV4) (fault : option fs_step)
| OSettle (deliveryID : string) (generation : Z) (fault : option fs_step)
| ORecoverExecuting (fault : option fs_step)
| OMigrateFormat (fault : option fs_step)
| OPrepareProtocol (protocolVersion : Z) (validateOnly : bool) (fault : option fs_step)
| ORestart.

(** The owner-only regular file the node replaced. *)
Definition own_file : lstat := Info true 384.
Definition restart (n : Node) : result Node :=
  match disk n with
  | Some raw => LoadDeliveryStore "deliveries.json" (nodeID (mem n)) own_file raw true
  | None => Err "stat executor delivery state"
  end.

Definition step (n : Node) (o : op) : Node :=
  match o with
  | OAccept d t f f2 => (Accept n d t f f2).1
  | OAcceptV4 d t c k f f2 => (AcceptV4 n d t c k f f2).1
  | OReject d r f => (Reject n d r f).1
  | ORejectV4 d r f => (RejectV4 n d r f).1
  | OMarkExecuting id f => (MarkExecuting n id f).1
  | OMarkTerminal r f => (MarkTerminal n r f).1
  | OMarkTerminalV4 r f => (MarkTerminalV4 n r f).1
  | OSettle id g f => (Settle n id g f).1
  | ORecoverExecuting f => (RecoverExecuting n f).1
  | OMigrateFormat f => (MigrateFormat n f).1
  | OPrepareProtocol v b f => (PrepareProtocol n v b f).1
  | ORestart => match restart n with Ok n' => n' | Err _ => n end
  end.
Definition run (n : Node) (ops : list op) : Node := foldl step n ops.

(** The delivery whose handler is entered by an operation: the handler is called when [MarkExecuting] succeeded. *)
Definition enters (n : Node) (o : op) : option string :=
  match o with
  | OMarkExecuting id f => if is_ok (MarkExecuting n id f).2 then Some id else None
  | _ => None
  end.

(** The inputs are Go values that went through a JSON decoder: UTF-8 texts and integers of their width. *)
Definition op_wf (o : op) : bool :=
  match o with
  | OAccept d t _ _ => storable d && utf8_valid t
  | OAcceptV4 d t c k _ _ => storable (executorDeliveryV3 d) && utf8_valid t && in_u64b c && utf8_valid k
  | OReject d r _ => storable d && storable r
  | ORejectV4 d r _ => storable (executorDeliveryV3 d) && storable r
  | OMarkTerminal r _ => storable r
  | OMarkTerminalV4 r _ => storable r
  | OSettle _ g _ => in_u64b g
  | _ => true
  end.

(** The record under [id] may be dropped by compaction. *)
Definition safe_at (id : string) (n : Node) : bool :=
  from_option safeAcknowledgedDelivery false (records (mem n) !! id).

(** ** A step of a run *)

Lemma delivery_generation d : ExecutorDeliveryV3_Validate d = Ok tt -> dv_DeliveryGeneration d <> 0.
Proof.
  unfold ExecutorDeliveryV3_Validate. intros H. destruct (_ && negb (dv_DeliveryGeneration d =? 0)) eqn:E; [|done].
  apply andb_true_iff in E as [_ E]. by breflect.
Qed.

Lemma restart_ok n m :
  node_ok n -> file_holds n m ->
  exists n', restart n = Ok n' /\ records (mem n') = m /\ nodeID (mem n') = nodeID (mem n) /\ disk n' = disk n.
Proof.
  intros (_ & _ & _) (raw & f & Hd & Hl & Hdec & Hid). unfold restart. rewrite Hd. unfold LoadDeliveryStore.
  assert (Hb : boundedDeliveryText (nodeID (mem n)) 128 = true).
  { unfold decodeDeliveryState in Hdec. rewrite <- Hid. destruct (decode_file raw) as [f'|]; [|done].
    destruct (boundedDeliveryText (fNodeID f') 128) eqn:Eb; [|done]. case_in Hdec. by simplify_eq. }
  rewrite Hb. change (nonempty "deliveries.json" && true) with true. cbv iota. unfold readDeliveryState, own_file.
  change (true && owner_only 384) with true. cbn [andb].
  rewrite (proj2 (Z.ltb_lt _ _)), (proj2 (Z.leb_le _ _)) by lia. cbn [andb]. rewrite Hdec.
  rewrite Hid, bool_decide_true by done. eexists. split; [done|]. done.
Qed.

(** Every operation but a restart follows the ledger. *)
Lemma step_follows n o : node_ok n -> op_wf o = true -> o <> ORestart -> follows n (step n o).
Proof.
  intros Hn Hwf Hne. destruct o; cbn [step op_wf] in *; storable_parts.
  - unfold Accept. destruct (ExecutorDeliveryV3_Validate d) as [[]|]; [|by apply follows_refl].
    pose proof (acceptDelivery_follows n d tenantID ExecutorProtocolV3 0 "" fault fault2) as Hf.
    destruct (acceptDelivery _ _ _ _ _ _ _ _) as [n' res]. apply Hf; auto. by left.
  - unfold AcceptV4. destruct (ExecutorDeliveryV4_Validate d); [|by apply follows_refl].
    destruct (_ =? 0); [by apply follows_refl|]. destruct (_ || _); [by apply follows_refl|].
    pose proof (acceptDelivery_follows n (executorDeliveryV3 d) tenantID ExecutorProtocolV4 claimGeneration commandKind fault fault2) as Hf.
    destruct (acceptDelivery _ _ _ _ _ _ _ _) as [n' res]. apply Hf; auto. by right.
  - unfold Reject. destruct (ExecutorDeliveryV3_Validate d) as [[]|] eqn:Ev; [|by apply follows_refl].
    destruct (negb _); [by apply follows_refl|].
    pose proof (rejectDelivery_follows n d ExecutorProtocolV3 rejected None None fault) as Hf.
    destruct (rejectDelivery _ _ _ _ _ _ _) as [n' res]. apply Hf; auto using delivery_generation. by left.
  - unfold RejectV4. destruct (ExecutorDeliveryV4_Validate d) as [[]|] eqn:Ev; [|by apply follows_refl].
    destruct (negb _); [by apply follows_refl|].
    pose proof (storable_v4_parts rejected) as Hp. destruct (executorReportV4Record rejected) as [[t ad] cn].
    destruct Hp as (? & ? & ?); [done|].
    pose proof (rejectDelivery_follows n (executorDeliveryV3 d) ExecutorProtocolV4 t ad cn fault) as Hf.
    destruct (rejectDelivery _ _ _ _ _ _ _) as [n' res]. apply Hf; auto using delivery_generation. by right.
  - by apply MarkExecuting_follows.
  - unfold MarkTerminal. destruct (ExecutorReportV3_Validate report); [|by apply follows_refl]. by apply markTerminal_follows.
  - unfold MarkTerminalV4. destruct (ExecutorReportV4_Validate report); [|by apply follows_refl].
    pose proof (storable_v4_parts report) as Hp. destruct (executorReportV4Record report) as [[t ad] cn].
    destruct Hp as (? & ? & ?); [done|]. by apply markTerminal_follows.
  - by apply Settle_follows.
  - by apply RecoverExecuting_spec.
  - by apply MigrateFormat_follows.
  - by apply PrepareProtocol_follows.
  - done.
Qed.

Lemma node_ok_restart n n' : node_ok n -> restart n = Ok n' -> node_ok n'.
Proof.
  intros Hn Hr. pose proof Hn as (Hs & _ & m & Hm & Hfit).
  destruct (restart_ok n m Hn Hm) as (n1 & Hr1 & Hrec & Hid & Hd).
  assert (n1 = n') as -> by congruence. subst m. unfold node_ok. rewrite Hid. split; [done|]. split; [done|].
  exists (records (mem n')). split; [|done]. by eapply file_holds_same.
Qed.

Lemma step_ok n o : node_ok n -> op_wf o = true -> node_ok (step n o).
Proof.
  intros Hn Hwf. destruct o; try (by destruct (step_follows n _ Hn Hwf ltac:(discriminate))).
  cbn [step]. destruct (restart n) as [n'|] eqn:E; [by eapply node_ok_restart | done].
Qed.

(** [P] holds of the record under [id], in memory and after a restart. *)
Definition retains (P : deliveryRecord -> Prop) (id : string) (n : Node) : Prop :=
  (exists r, records (mem n) !! id = Some r /\ P r) /\
  (forall m, file_holds n m -> exists r, m !! id = Some r /\ P r).

Lemma retains_step (P : deliveryRecord -> Prop) id n o :
  (forall r r', P r -> advances r r' -> P r') -> node_ok n -> op_wf o = true -> retains P id n -> safe_at id n = false ->
  retains P id (step n o).
Proof.
  intros HP Hn Hwf [(r & Hr & Hpr) Hfile] Hsafe. unfold safe_at in Hsafe. rewrite Hr in Hsafe. cbn [from_option] in Hsafe.
  assert (Hev : forall m, evolves (records (mem n)) m -> exists r', m !! id = Some r' /\ P r').
  { intros m Hev. specialize (Hev id r Hr). destruct (m !! id) as [r'|]; [eauto | congruence]. }
  assert (o = ORestart \/ o <> ORestart) as [-> | Hne] by (destruct o; auto).
  - cbn [step]. pose proof Hn as (_ & _ & m & Hm & _).
    destruct (restart_ok n m Hn Hm) as (n' & -> & Hrec & Hid & Hd). rewrite <- Hrec in Hm.
    split; [by apply Hfile|]. intros m' Hm'. eapply file_holds_same in Hm'; [|done|done]. auto.
  - destruct (step_follows n o Hn Hwf Hne) as (_ & _ & Hmem & Hf). split; [auto|].
    intros m Hm. destruct (Hf m Hm) as [[? _] | [? _]]; auto.
Qed.

(** The operation takes the record under [id], acknowledged, out of memory. *)
Definition drops (n : Node) (o : op) (id : string) : Prop :=
  exists r, records (mem n) !! id = Some r /\ safeAcknowledgedDelivery r = true /\ records (mem (step n o)) !! id = None.

(** [P] holds of the record in memory, and of the one in the file unless a compaction that was not synced left it out. *)
Definition keeps (P : deliveryRecord -> Prop) (id : string) (n : Node) : Prop :=
  exists r, records (mem n) !! id = Some r /\ P r /\
    forall m, file_holds n m ->
      match m !! id with Some r' => P r' | None => safeAcknowledgedDelivery r = true end.

Lemma keeps_step (P : deliveryRecord -> Prop) id n o :
  (forall r r', P r -> advances r r' -> P r') -> node_ok n -> op_wf o = true -> keeps P id n ->
  keeps P id (step n o) \/ drops n o id.
Proof.
  intros HP Hn Hwf (r & Hr & Hpr & Hfile).
  assert (o = ORestart \/ o <> ORestart) as [-> | Hne] by (destruct o; auto).
  - pose proof Hn as (_ & _ & m & Hm & _).
    destruct (restart_ok n m Hn Hm) as (n' & Hre & Hrec & Hid & Hd).
    assert (Hs : step n ORestart = n') by (cbn [step]; by rewrite Hre).
    pose proof (Hfile m Hm) as Hmid. destruct (m !! id) as [r'|] eqn:Em.
    + left. exists r'. rewrite Hs, Hrec. split; [done|]. split; [done|]. intros m' Hm'.
      apply (file_holds_same n n' m' Hd Hid) in Hm'. by rewrite (file_holds_fun _ _ _ Hm' Hm), Em.
    + right. exists r. by rewrite Hs, Hrec.
  - destruct (step_follows n o Hn Hwf Hne) as (_ & _ & Hmem & Hf). pose proof (Hmem id r Hr) as Hid.
    destruct (records (mem (step n o)) !! id) as [r'|] eqn:Er'; [|right; by exists r].
    left. exists r'. split; [done|]. split; [eauto|]. intros m Hm.
    destruct (Hf m Hm) as [[Hm' Hsame] | [_ Hev]].
    + assert (r' = r) as -> by congruence. by apply Hfile.
    + specialize (Hev id r' Er'). destruct (m !! id); eauto.
Qed.

Lemma keeps_run (P : deliveryRecord -> Prop) id n ops :
  (forall r r', P r -> advances r r' -> P r') -> node_ok n -> forallb op_wf ops = true -> keeps P id n ->
  keeps P id (run n ops) \/ exists k o, ops !! k = Some o /\ drops (run n (take k ops)) o id.
Proof.
  intros HP. revert n. induction ops as [|o ops IH]; intros n Hn Hwf Hk; [by left|]. simpl in Hwf. breflect.
  destruct (keeps_step P id n o HP Hn ltac:(done) Hk) as [Hk' | Hd]; [|right; by exists 0%nat, o].
  destruct (IH (step n o)) as [? | (k & o' & Ho & Hd)]; [by apply step_ok | done | done | by left|].
  right. by exists (S k), o'.
Qed.

Lemma run_ok n ops : node_ok n -> forallb op_wf ops = true -> node_ok (run n ops).
Proof.
  revert n. induction ops as [|o ops IH]; intros n Hn Hwf; [done|]. simpl in Hwf. breflect.
  apply IH; [by apply step_ok | done].
Qed.

Lemma retains_run (P : deliveryRecord -> Prop) id n ops :
  (forall r r', P r -> advances r r' -> P r') -> node_ok n -> forallb op_wf ops = true -> retains P id n ->
  (forall k, (k < length ops)%nat -> safe_at id (run n (take k ops)) = false) -> retains P id (run n ops).
Proof.
  intros HP. revert n. induction ops as [|o ops IH]; intros n Hn Hwf Hr Hsafe; [done|]. simpl in Hwf. breflect.
  pose proof (Hsafe 0%nat ltac:(simpl; lia)) as Hs0. simpl in Hs0.
  apply (IH (step n o)); [by apply step_ok | done | by apply retains_step|].
  intros k Hk. apply (Hsafe (S k)). simpl. lia.
Qed.

Lemma run_node n ops : node_ok n -> forallb op_wf ops = true -> nodeID (mem (run n ops)) = nodeID (mem n).
Proof.
  revert n. induction ops as [|o ops IH]; intros n Hn Hwf; [done|]. simpl in Hwf. breflect.
  change (run n (o :: ops)) with (run (step n o) ops). rewrite IH by (done || by apply step_ok).
  assert (o = ORestart \/ o <> ORestart) as [-> | Hne] by (destruct o; auto).
  - cbn [step]. pose proof Hn as (_ & _ & m & Hm & _). by destruct (restart_ok n m Hn Hm) as (n' & -> & _ & ? & _).
  - by destruct (step_follows n o Hn ltac:(done) Hne) as (_ & ? & _).
Qed.

(** ** A fresh ledger *)

(** The node that was initialised and loaded. *)
Definition fresh (node : string) : Node :=
  match InitializeDeliveryStore "deliveries.json" node None true with
  | (Ok _, Some raw) =>
      match LoadDeliveryStore "deliveries.json" node own_file raw true with
      | Ok n => n
      | Err _ => mkNode (mkStore node 0 ∅) None
      end
  | _ => mkNode (mkStore node 0 ∅) None
  end.

Lemma ledger_ok_empty : ledger_ok ∅.
Proof. apply map_Forall_empty. Qed.

Lemma encode_empty node :
  boundedDeliveryText node 128 = true ->
  exists raw, encodeDeliveryState node ∅ = Ok raw /\ ensureDeliveryTerminalCapacity node ∅ = Ok tt /\
    0 < zlen raw <= maxDeliveryStateBytes.
Proof.
  intros Hb. pose proof Hb as Hlen. unfold boundedDeliveryText, boundedText in Hlen. breflect.
  set (raw := json_print (to_json (state_file node [])) ++ [byte_of_Z 10]).
  assert (Hm : marshalDeliveryState node ∅ = Ok raw).
  { apply marshal_ledger; [apply ledger_ok_empty|]. split; [done|]. rewrite map_size_empty. split; [done|].
    unfold values. rewrite map_to_list_empty. done. }
  assert (Hz : 0 < zlen raw <= maxDeliveryStateBytes).
  { unfold raw. rewrite zlen_app. change (zlen [byte_of_Z 10]) with 1.
    change (to_json (state_file node [])) with
      (JObj [("version"%string, json_int 4); ("node_id"%string, JStr node); ("records"%string, JArr [])]).
    rewrite zlen_print_obj. cbn [zsum foldr]. unfold member_size. cbn [fst snd].
    change (zlen (quote "version")) with 9. change (zlen (quote "node_id")) with 9. change (zlen (quote "records")) with 9.
    change (zlen (json_print (json_int 4))) with 1. change (zlen (json_print (JArr []))) with 2.
    change (json_print (JStr node)) with (quote node). pose proof (quote_size node).
    change maxDeliveryStateBytes with 8388608. lia. }
  exists raw. unfold encodeDeliveryState, ensureDeliveryTerminalCapacity. rewrite Hm, fmap_empty, Hm.
  rewrite (proj2 (Z.leb_le _ _)) by lia. split; [done|]. split; [|done].
  change (map_sum deliveryTerminalReserveExtra ∅) with 0.
  rewrite (proj2 (Z.leb_le _ _)) by lia. unfold values. rewrite map_to_list_empty. done.
Qed.

Lemma fresh_ok node :
  boundedDeliveryText node 128 = true -> utf8_valid node = true -> node_ok (fresh node) /\ mem (fresh node) = mkStore node 4 ∅.
Proof.
  intros Hb Hu. destruct (encode_empty node Hb) as (raw & He & Hcap & Hl).
  pose proof (decode_encoded node ∅ raw ledger_ok_empty Hu Hcap He) as Hdec.
  set (n0 := mkNode (mkStore node 4 ∅) (Some raw)).
  assert (Hn0 : node_ok n0).
  { split; [done|]. split; [by split; [apply ledger_ok_empty|]|]. exists ∅. split; [|by split; [apply ledger_ok_empty|]].
    eexists raw, _. split; [done|]. split; [done|]. split; [exact Hdec | done]. }
  assert (fresh node = n0) as ->; [|done]. unfold fresh, InitializeDeliveryStore. rewrite Hb, He.
  change (negb (nonempty "deliveries.json" && true)) with false. cbv iota.
  destruct (restart_ok n0 ∅ Hn0) as (n' & Hr & Hrec & Hid & Hd).
  { eexists raw, _. split; [done|]. split; [done|]. split; [exact Hdec | done]. }
  unfold restart in Hr. change (disk n0) with (Some raw) in Hr. change (nodeID (mem n0)) with node in Hr. rewrite Hr.
  unfold LoadDeliveryStore in Hr. rewrite Hb in Hr. change (nonempty "deliveries.json" && true) with true in Hr. cbv iota in Hr.
  unfold readDeliveryState, own_file in Hr. change (true && owner_only 384) with true in Hr. cbn [andb] in Hr.
  rewrite (proj2 (Z.ltb_lt _ _)), (proj2 (Z.leb_le _ _)) in Hr by lia. cbn [andb] in Hr. rewrite Hdec in Hr.
  rewrite bool_decide_true in Hr by done. by simplify_eq.
Qed.

(** ** Concrete inputs *)

Definition sample_delivery (id : string) (generation : Z) : ExecutorDeliveryV3 :=
  mkDeliveryV3 id generation "command-1" sample_digest "e30=".
Definition sample_report (id : string) (generation : Z) : ExecutorReportV3 :=
  mkReportV3 3 id generation "command-1" sample_digest ExecutorStatusDone "running" 7 "" (mkResultV3 sample_ref "" false false).
Definition accepted_node : Node := step (fresh "node-1") (OAccept (sample_delivery "delivery-1" 1) "tenant-1" None None).
Definition executing_node : Node := step accepted_node (OMarkExecuting "delivery-1" None).

Lemma accepted_node_ok : node_ok accepted_node.
Proof. apply step_ok; [apply fresh_ok|]; vm_compute; reflexivity. Qed.

Lemma executing_node_ok : node_ok executing_node.
Proof. apply step_ok; [apply accepted_node_ok | vm_compute; reflexivity]. Qed.

Definition executing_record : deliveryRecord :=
  mkRecord 3 "delivery-1" 1 0 "tenant-1" "command-1" sample_digest "" 0 deliveryPhaseExecuting None None None.

(** ** Theorems *)

(** C1: at most once. After the handler of a delivery was entered, an operation enters it again only if some operation in
    between dropped its record from the ledger while the record was safely acknowledged: terminal, done, rejected or a closed
    canary failure, and settled at its current generation. So as long as the record is retained, whatever leases, rejections,
    reports, settlements, disk faults and restarts come in between, the handler is not entered a second time. *)
Theorem at_most_once n f id ops o :
  node_ok n -> (MarkExecuting n id f).2 = Ok tt -> forallb op_wf ops = true ->
  let n1 := (MarkExecuting n id f).1 in
  enters (run n1 ops) o = Some id ->
  exists k o', ops !! k = Some o' /\ drops (run n1 (take k ops)) o' id.
Proof.
  intros Hn Hok Hwf n1 Hent. destruct (MarkExecuting_follows n id f Hn) as [(Hn1 & _) Hspec].
  destruct (Hspec Hok) as (r & Hr & Hp & Hm1 & Hf1). fold n1 in Hn1, Hm1, Hf1.
  assert (Hkeep : keeps (fun r => 1 <= rank (Phase r)) id n1).
  { eexists. split; [by rewrite Hm1, lookup_insert_eq|]. split; [done|]. intros m Hm.
    by rewrite (file_holds_fun _ _ _ Hm Hf1), lookup_insert_eq. }
  assert (Hadv : forall a b, 1 <= rank (Phase a) -> advances a b -> 1 <= rank (Phase b)).
  { intros a b Ha Hab. pose proof (adv_phase a b Hab). lia. }
  destruct (keeps_run _ id n1 ops Hadv Hn1 Hwf Hkeep) as [(r' & Hr' & Hrank & _) | Hd]; [|exact Hd].
  exfalso. destruct o; try done. cbn [enters] in Hent. destruct (is_ok _) eqn:E; [|done]. injection Hent as ->.
  pose proof (run_ok n1 ops Hn1 Hwf) as Hrun.
  destruct (MarkExecuting_follows (run n1 ops) id fault Hrun) as [_ Hspec'].
  destruct (MarkExecuting (run n1 ops) id fault).2 as [[]|] eqn:E2; [|done].
  destruct (Hspec' eq_refl) as (r2 & Hr2 & Hp2 & _). simplify_eq. rewrite Hp2 in Hrank. done.
Qed.

(** A delivery that is reported, settled, dropped by a change of protocol and leased afresh. *)
Definition redelivery : list op :=
  [ORestart; OMarkTerminal (sample_report "delivery-1" 1) None; OSettle "delivery-1" 1 None;
   OPrepareProtocol ExecutorProtocolV4 false None; OPrepareProtocol ExecutorProtocolV3 false None;
   OAccept (sample_delivery "delivery-1" 1) "tenant-1" None None].

Lemma at_most_once_witness :
  exists k o', redelivery !! k = Some o' /\ drops (run executing_node (take k redelivery)) o' "delivery-1".
Proof.
  apply (at_most_once accepted_node None "delivery-1" redelivery (OMarkExecuting "delivery-1" None)).
  - apply accepted_node_ok.
  - vm_compute. reflexivity.
  - vm_compute. reflexivity.
  - vm_compute. reflexivity.
Defined.

Definition outcome_is (o : option (string * string * Z * string * ExecutorReportResultV3) *
    option ExecutorAdmissionProjectionV1 * option ExecutorActivationCanaryResultV1) (r : deliveryRecord) : Prop :=
  Phase r = deliveryPhaseTerminal /\ outcome r = o.

(** Outcomes are stable. Once [MarkTerminal] recorded the report of a delivery, every later state, restarts included,
    retains that status, reported status, claim, error and result under the delivery's identifier, until the record may be
    dropped. *)
Theorem terminal_outcome_stable n report f ops :
  node_ok n -> storable report = true -> (MarkTerminal n report f).2 = Ok tt -> forallb op_wf ops = true ->
  let n1 := (MarkTerminal n report f).1 in
  (forall k, (k < length ops)%nat -> safe_at (r_DeliveryID report) (run n1 (take k ops)) = false) ->
  exists r, records (mem (run n1 ops)) !! r_DeliveryID report = Some r /\ Phase r = deliveryPhaseTerminal /\
    outcome r = (Some (r_Status report, r_ReportedStatus report, r_ClaimGeneration report, r_ErrorCode report, r_Result report),
                 None, None).
Proof.
  intros Hn Hst. unfold MarkTerminal. destruct (ExecutorReportV3_Validate report); [|done]. unfold markTerminal.
  destruct (records (mem n) !! r_DeliveryID report) as [r|] eqn:Hr; [|done].
  destruct (negb _) eqn:Hm; [done|]. apply negb_false_iff in Hm.
  unfold terminal_matches, executing in Hm. rewrite !andb_true_iff in Hm. destruct Hm as [[[[[_ Hp%String.eqb_eq] _] _] _] _].
  destruct (persistLocked _ _ f) as [n1 res] eqn:E. cbn [fst snd]. intros -> Hwf Hsafe.
  destruct (record_pre_of n _ r Hn Hr) as [(_ & Hsr & _) _].
  destruct (persist_one _ _ _ _ _ _ _ Hn Hr (storable_terminal_record r report None None Hsr Hst eq_refl eq_refl)
    (advances_terminal r report None None Hp) E) as ((Hn1 & _) & Hok & _).
  destruct (Hok eq_refl) as [Hm1 Hf1].
  destruct (retains_run (outcome_is (outcome (terminal_record r report None None))) (r_DeliveryID report) n1 ops)
    as [(r' & Hr' & Hp' & Ho) _]; [|done|done| |done|by exists r'].
  - intros x y [Hx Hox] Hxy. destruct (adv_outcome x y Hxy Hx) as [? ?]. split; congruence.
  - split; [by rewrite Hm1, lookup_insert_eq; eexists|]. intros m Hmf. rewrite (file_holds_fun _ _ _ Hmf Hf1), lookup_insert_eq.
    by eexists.
Qed.

Definition late_operations : list op :=
  [OAccept (sample_delivery "delivery-1" 2) "tenant-1" None (Some SyncDir);
   OReject (sample_delivery "delivery-1" 3)
     (mkReportV3 3 "delivery-1" 3 "command-1" sample_digest ExecutorStatusRejected "failed" 0 "expired" (mkResultV3 "" "late" false false)) None;
   ORestart].

Lemma terminal_outcome_stable_witness :
  exists r, records (mem (run (MarkTerminal executing_node (sample_report "delivery-1" 1) None).1 late_operations)) !! "delivery-1"%string
    = Some r /\ Phase r = deliveryPhaseTerminal /\
    outcome r = (Some (ExecutorStatusDone, "running"%string, 7, ""%string, mkResultV3 sample_ref "" false false), None, None).
Proof.
  apply (terminal_outcome_stable executing_node (sample_report "delivery-1" 1) None late_operations).
  - apply executing_node_ok.
  - vm_compute. reflexivity.
  - vm_compute. reflexivity.
  - vm_compute. reflexivity.
  - intros [|[|[|k]]] Hk; [vm_compute; reflexivity..|]. simpl in Hk. lia.
Defined.

(** Only acknowledged work is forgotten. An operation that removes a record from the ledger removes one whose terminal outcome
    the controller acknowledged for its current generation; accepted, executing, unacknowledged and ambiguous
    deliveries stay. Every other record keeps its identity, command, tenant and outcome, and its generation and phase never go
    back. *)
Theorem only_acknowledged_dropped n o id r :
  node_ok n -> op_wf o = true -> o <> ORestart -> records (mem n) !! id = Some r ->
  match records (mem (step n o)) !! id with
  | None => safeAcknowledgedDelivery r = true
  | Some r' => advances r r'
  end.
Proof. intros Hn Hwf Hne Hr. destruct (step_follows n o Hn Hwf Hne) as (_ & _ & Hev & _). by apply Hev. Qed.

Lemma only_acknowledged_dropped_witness :
  match records (mem (step executing_node (OMarkTerminal (sample_report "delivery-1" 1) None))) !! "delivery-1"%string with
  | None => safeAcknowledgedDelivery executing_record = true
  | Some r' => advances executing_record r'
  end.
Proof.
  apply only_acknowledged_dropped; [apply executing_node_ok | vm_compute; reflexivity | discriminate | vm_compute; reflexivity].
Defined.

(** C9: a restart always finds its ledger. From a freshly initialised node, after any run of operations with any disk faults,
    loading the file succeeds, and in memory and in the file every record is valid and stored under its own identifier,
    within the node's record and byte limits. *)
Theorem restart_always_recovers node ops :
  boundedDeliveryText node 128 = true -> utf8_valid node = true -> forallb op_wf ops = true ->
  let n := run (fresh node) ops in
  exists n', restart n = Ok n' /\
    forall s, s = mem n \/ s = mem n' ->
      ensureDeliveryTerminalCapacity node (records s) = Ok tt /\
      forall id r, records s !! id = Some r -> DeliveryID r = id /\ validateDeliveryRecord r = Ok tt.
Proof.
  intros Hb Hu Hwf n. destruct (fresh_ok node Hb Hu) as [Hf Hfm].
  pose proof (run_ok (fresh node) ops Hf Hwf) as Hn. fold n in Hn.
  assert (Hid : nodeID (mem n) = node).
  { unfold n. rewrite run_node by done. by rewrite Hfm. }
  pose proof Hn as (_ & [Hok Hcap] & m & Hm & [Hok' Hcap']). rewrite Hid in *.
  destruct (restart_ok n m Hn Hm) as (n' & Hr & Hrec & _ & _). exists n'. split; [done|].
  intros s [-> | ->]; [|rewrite Hrec]; (split; [done|]); intros id r Hir;
    [destruct (Hok id r Hir) as (? & ? & _) | destruct (Hok' id r Hir) as (? & ? & _)]; done.
Qed.

Lemma restart_always_recovers_witness :
  let n := run (fresh "node-1") (OAccept (sample_delivery "delivery-1" 1) "tenant-1" None None
                                 :: OMarkExecuting "delivery-1" (Some SyncDir) :: late_operations) in
  exists n', restart n = Ok n' /\
    forall s, s = mem n \/ s = mem n' ->
      ensureDeliveryTerminalCapacity "node-1" (records s) = Ok tt /\
      forall id r, records s !! id = Some r -> DeliveryID r = id /\ validateDeliveryRecord r = Ok tt.
Proof. apply restart_always_recovers; vm_compute; reflexivity. Defined.

(** Recovery after a crash. [RecoverExecuting] turns exactly the deliveries that were executing into ambiguous terminal
    outcomes and leaves every other record as it was; afterwards nothing is executing, in memory or in the
    file. *)
Theorem recover_executing_exact n f :
  node_ok n -> file_holds n (records (mem n)) -> (RecoverExecuting n f).2 = Ok tt ->
  let n' := (RecoverExecuting n f).1 in
  file_holds n' (records (mem n')) /\
  forall id r, records (mem n) !! id = Some r ->
    exists r', records (mem n') !! id = Some r' /\ Phase r' <> deliveryPhaseExecuting /\
      (Phase r <> deliveryPhaseExecuting -> r' = r) /\
      (Phase r = deliveryPhaseExecuting -> r_Status <$> Terminal r' = Some ExecutorStatusOutcomeUnknown).
Proof.
  intros Hn Hf Hok. destruct (RecoverExecuting_spec n f Hn) as [_ Hspec]. destruct (Hspec Hok) as [Hm Hfile].
  cbv zeta. rewrite Hm. split; [auto|]. intros id r Hr. exists (recover r). rewrite lookup_fmap, Hr. split; [done|].
  unfold recover, executing. destruct (String.eqb_spec (Phase r) deliveryPhaseExecuting); [|done].
  split; [done|]. split; [done|]. done.
Qed.

Lemma recover_executing_exact_witness :
  let n' := (RecoverExecuting executing_node None).1 in
  file_holds n' (records (mem n')) /\
  exists r', records (mem n') !! "delivery-1"%string = Some r' /\ r_Status <$> Terminal r' = Some ExecutorStatusOutcomeUnknown.
Proof.
  cbv zeta. destruct (recover_executing_exact executing_node None) as [Hf Hall].
  - apply executing_node_ok.
  - destruct (MarkExecuting_follows accepted_node "delivery-1" None accepted_node_ok) as [_ Hspec].
    destruct (Hspec ltac:(vm_compute; reflexivity)) as (r & _ & _ & Hm & Hf).
    change executing_node with (MarkExecuting accepted_node "delivery-1" None).1. by rewrite Hm.
  - vm_compute. reflexivity.
  - split; [exact Hf|].
    destruct (Hall "delivery-1"%string executing_record) as (r' & Hr' & _ & _ & Hst); [vm_compute; reflexivity|].
    exists r'. split; [exact Hr' | by apply Hst].
Defined.

(** ** Reports to retry *)

(** no terminal report is lost. The batch of unacknowledged reports holds, in ascending order of delivery, the terminal reports of
    protocol-3 deliveries whose current generation was not acknowledged: all of them when no more are announced, the first
    [limit] otherwise. *)
Theorem unacknowledged_reports_complete s limit reports more :
  UnacknowledgedReports s limit = Ok (reports, more) ->
  exists ids rest, StronglySorted (fun a b => str_lt a b = true) (ids ++ rest) /\
    (forall id, id ∈ ids ++ rest <-> exists r, records s !! id = Some r /\ unacknowledged ExecutorProtocolV3 r = true) /\
    Forall2 (fun id t => exists r, records s !! id = Some r /\ Terminal r = Some t) ids reports /\
    (more = false -> rest = []) /\ (more = true -> zlen ids = limit /\ rest <> []).
Proof.
  unfold UnacknowledgedReports. destruct (_ && _) eqn:El; [|done]. breflect.
  set (all := ids_where _ (records s)). intros [= <- <-].
  set (ids := if limit <? zlen all then take (Z.to_nat limit) all else all).
  exists ids, (if limit <? zlen all then drop (Z.to_nat limit) all else []).
  assert (Happ : ids ++ (if limit <? zlen all then drop (Z.to_nat limit) all else []) = all).
  { unfold ids. destruct (_ <? _); [apply take_drop | apply app_nil_r]. }
  rewrite Happ. split; [|split; [|split; [|split]]].
  - apply sort_strings_strict. by apply ids_where_nodup.
  - intros id. apply ids_where_safe.
  - assert (Hin : forall id, id ∈ ids -> exists r t, records s !! id = Some r /\ Terminal r = Some t).
    { intros id Hid. assert (id ∈ all) as Ha.
      { unfold ids in Hid. destruct (_ <? _); [by apply subseteq_take in Hid | done]. }
      apply ids_where_safe in Ha as (r & Hr & Hu). unfold unacknowledged in Hu. breflect.
      destruct (Terminal r) as [t|] eqn:Et; [eauto | done]. }
    clearbody ids. clear -Hin. induction ids as [|id ids IH]; [constructor|].
    destruct (Hin id ltac:(left)) as (r & t & Hr & Ht). cbn [omap list_omap]. rewrite Hr. cbn [mbind option_bind].
    unfold cloneExecutorReport at 1. rewrite Ht. constructor; [eauto|]. apply IH. intros id' Hid'. apply Hin. by right.
  - by intros ->.
  - intros Hm. unfold ids. rewrite Hm. apply Z.ltb_lt in Hm. unfold zlen in *. rewrite length_take. split; [lia|].
    intros Hd. apply (f_equal length) in Hd. rewrite length_drop in Hd. simpl in Hd. lia.
Qed.

Definition reported_node : Node := step executing_node (OMarkTerminal (sample_report "delivery-1" 1) None).

Lemma unacknowledged_reports_complete_witness :
  exists ids rest, Forall2 (fun id t => exists r, records (mem reported_node) !! id = Some r /\ Terminal r = Some t) ids
    [sample_report "delivery-1" 1] /\ rest = @nil string.
Proof.
  destruct (unacknowledged_reports_complete (mem reported_node) 1 [sample_report "delivery-1" 1] false)
    as (ids & rest & _ & _ & H & Hrest & _); [vm_compute; reflexivity|]. exists ids, rest. auto.
Defined.

End AtMostOnce.
