(* ===== verification/GoRune.v ===== *)
(** * Go's conversions between strings and runes

    [[]rune(s)] decodes every byte, an invalid one as U+FFFD; [string(rs)] encodes. Encoding what was decoded gives valid UTF-8, and decoding
    that gives the same runes. *)

From Stdlib Require Import Ascii.
From S2P Require Import Prelude GoText GoJson.

Definition to_runes (s : string) : list Z := fst <$> segs (bytes_of s).
Definition encode_runes (rs : list Z) : bytes := concat (encode_rune <$> rs).
Definition of_runes (rs : list Z) : string := string_of (encode_runes rs).

(** A rune that decodes from its own encoding, whatever follows. *)
Definition wf_rune (r : Z) : Prop :=
  encode_rune r <> [] /\ (r = 65533 -> length (encode_rune r) <> 1%nat) /\
  forall tl, decode_rune (encode_rune r ++ tl) = (r, length (encode_rune r)).

Lemma wf_ascii b : u8 b < 128 -> wf_rune (u8 b) /\ encode_rune (u8 b) = [b].
Proof.
  intros Hb. pose proof (u8_range b). assert (He : encode_rune (u8 b) = [b]).
  { unfold encode_rune. by rewrite (proj2 (Z.ltb_lt _ _)), byte_of_Z_u8. }
  split; [|done]. unfold wf_rune. rewrite He. split_and!; [done|lia|]. intros tl. cbn [app decode_rune].
  by rewrite (proj2 (Z.ltb_lt _ _)).
Qed.

Lemma wf_replacement : wf_rune 65533.
Proof. split_and!; done. Qed.

Lemma wf_segs l : Forall wf_rune (fst <$> segs l).
Proof.
  pattern l, (segs l). apply segs_ind; clear l.
  - constructor.
  - intros b t _ _ IH. rewrite fmap_cons. constructor; [apply wf_replacement | done].
  - intros b t Hb IH. rewrite fmap_cons. constructor; [by apply wf_ascii | done].
  - intros b raw r t Hl Hb He Hr Hd IH. rewrite fmap_cons. constructor; [|done]. cbn [fst]. unfold wf_rune. rewrite He.
    split_and!; [done | lia | done].
Qed.
Lemma wf_to_runes s : Forall wf_rune (to_runes s).
Proof. apply wf_segs. Qed.

Lemma segs_step r tl : wf_rune r -> segs (encode_rune r ++ tl) = (r, encode_rune r) :: segs tl.
Proof.
  intros (Hne & _ & Hd). specialize (Hd tl).
  assert (Hl : (length (encode_rune r) <= 4)%nat) by (unfold encode_rune; case_goal; simpl; lia).
  destruct (encode_rune r) as [|b0 [|b1 [|b2 [|b3 [|b4 l]]]]]; [done| | | | |simpl in Hl; lia]; cbn [app] in Hd |- *; cbn [segs]; rewrite Hd; done.
Qed.

Lemma segs_encode rs tl : Forall wf_rune rs ->
  segs (encode_runes rs ++ tl) = ((fun r => (r, encode_rune r)) <$> rs) ++ segs tl.
Proof.
  induction 1 as [|r rs Hr Hrs IH]; [done|]. unfold encode_runes in *. rewrite !fmap_cons. cbn [concat].
  rewrite <- app_assoc, segs_step, IH by done. done.
Qed.

(** [[]rune(string(rs)) == rs] *)
Lemma to_of_runes rs : Forall wf_rune rs -> to_runes (of_runes rs) = rs.
Proof.
  intros Hrs. unfold to_runes, of_runes. rewrite bytes_of_string_of, <- (app_nil_r (encode_runes rs)), segs_encode by done.
  rewrite app_nil_r, <- list_fmap_compose. apply list_fmap_id.
Qed.

Lemma utf8_of_runes rs : Forall wf_rune rs -> utf8_valid (of_runes rs) = true.
Proof.
  intros Hrs. unfold utf8_valid, of_runes. rewrite bytes_of_string_of, runes_segs, <- (app_nil_r (encode_runes rs)), segs_encode by done.
  rewrite app_nil_r, <- list_fmap_compose. induction Hrs as [|r rs Hr Hrs IH]; [done|].
  rewrite fmap_cons. cbn [forallb compose fst snd]. rewrite IH, andb_true_r. destruct Hr as (_ & H & _).
  destruct (Z.eqb_spec r 65533) as [->|]; [|done]. apply negb_true_iff, Nat.eqb_neq. by apply H.
Qed.

(** [string([]rune(s)) == s] for valid UTF-8. *)
Lemma of_to_runes s : utf8_valid s = true -> of_runes (to_runes s) = s.
Proof.
  intros Hs%utf8_valid_sanitize. unfold sanitize in Hs. unfold of_runes, to_runes, encode_runes. by rewrite <- list_fmap_compose.
Qed.

Lemma to_runes_app s t : utf8_valid s = true -> to_runes (s +:+ t) = to_runes s ++ to_runes t.
Proof.
  intros Hs. rewrite <- (of_to_runes s Hs) at 1. unfold of_runes, to_runes at 1.
  rewrite bytes_of_app, bytes_of_string_of, segs_encode, fmap_app by apply wf_to_runes. f_equal.
  rewrite <- list_fmap_compose. apply list_fmap_id.
Qed.

Lemma of_runes_nil rs : Forall wf_rune rs -> of_runes rs = ""%string -> rs = [].
Proof. intros Hrs E. rewrite <- (to_of_runes rs Hrs), E. done. Qed.

(** ASCII text is its own list of runes. *)
Lemma to_runes_ascii s : Forall (fun b => u8 b < 128) (bytes_of s) -> to_runes s = u8 <$> bytes_of s.
Proof.
  unfold to_runes. generalize (bytes_of s). intros l. induction 1 as [|b l Hb Hl IH]; [done|].
  cbn [segs decode_rune]. rewrite (proj2 (Z.ltb_lt _ _)) by done. rewrite fmap_cons. cbn [fst]. by rewrite IH.
Qed.
Lemma utf8_ascii s : Forall (fun b => u8 b < 128) (bytes_of s) -> utf8_valid s = true.
Proof.
  unfold utf8_valid. generalize (bytes_of s). intros l. rewrite runes_segs. induction 1 as [|b l Hb Hl IH]; [done|].
  cbn [segs decode_rune]. rewrite (proj2 (Z.ltb_lt _ _)) by done. rewrite fmap_cons. cbn [forallb fst snd].
  rewrite IH, (proj2 (Z.eqb_neq _ _)) by lia. done.
Qed.

(** ** ASCII texts without spaces *)

Lemma runes_all_ascii l : Forall (fun b => u8 b < 128) l -> runes 0 l = (fun b => (u8 b, 1%nat)) <$> l.
Proof.
  induction 1 as [|b l Hb _ IH]; [done|]. rewrite fmap_cons, <- IH. cbn [runes]. unfold decode_rune. pose proof (u8_range b).
  rewrite (proj2 (Z.ltb_lt _ _)) by done. done.
Qed.

Lemma leading_space_visible l : Forall (fun b => 32 < u8 b < 128) l -> leading_space ((fun b => (u8 b, 1%nat)) <$> l) = 0%nat.
Proof.
  intros H. destruct H as [|b l Hb _]; [done|]. rewrite fmap_cons. cbn [leading_space].
  assert (is_space (u8 b) = false) as ->; [|done]. unfold is_space. cbn [existsb]. rewrite !(proj2 (Z.eqb_neq _ _)) by lia. cbn [orb].
  apply andb_false_iff. left. apply Z.leb_gt. lia.
Qed.

Lemma trim_space_visible s : Forall (fun b => 32 < u8 b < 128) (bytes_of s) -> trim_space s = s.
Proof.
  intros H. unfold trim_space. rewrite runes_all_ascii by (eapply Forall_impl; [exact H|]; simpl; lia).
  rewrite <- (List.map_rev (fun b => (u8 b, 1%nat))), !leading_space_visible by (done || by apply Forall_rev). rewrite !Nat.sub_0_r, drop_0, firstn_all.
  destruct s; [done|]. change (string_of (bytes_of (String a s)) = String a s). apply string_of_bytes_of.
Qed.


(** ** Printed JSON is UTF-8

    Whatever text is quoted: invalid bytes are printed as an escape. *)

Definition utf8 (l : bytes) : Prop := exists rs, Forall wf_rune rs /\ l = encode_runes rs.

Lemma utf8_bytes_valid l : utf8 l -> utf8_valid (string_of l) = true.
Proof. intros (rs & Hrs & ->). by apply utf8_of_runes. Qed.

Lemma utf8_nil : utf8 [].
Proof. by exists []. Qed.
Lemma utf8_app k l : utf8 k -> utf8 l -> utf8 (k ++ l).
Proof.
  intros (rs & Hr & ->) (ts & Ht & ->). exists (rs ++ ts). split; [by apply Forall_app|]. unfold encode_runes. by rewrite fmap_app, concat_app.
Qed.
Lemma utf8_cons b l : u8 b < 128 -> utf8 l -> utf8 (b :: l).
Proof. intros [Hw He]%wf_ascii Hl. apply (utf8_app [b]); [|done]. exists [u8 b]. split; [by apply Forall_singleton|]. unfold encode_runes. cbn. by rewrite He. Qed.
Lemma utf8_ascii_bytes l : Forall (fun b => u8 b < 128) l -> utf8 l.
Proof. induction 1; [apply utf8_nil | by apply utf8_cons]. Qed.
Lemma utf8_concat ls : Forall utf8 ls -> utf8 (concat ls).
Proof. induction 1; [apply utf8_nil | by apply utf8_app]. Qed.

Lemma hex_digit_ascii z : 0 <= z < 16 -> u8 (hex_digit z) < 128.
Proof. intros Hz. unfold hex_digit. rewrite u8_byte_of_Z. destruct (z <? 10) eqn:?; breflect; rewrite Z.mod_small; lia. Qed.

Lemma escape_ascii_utf8 b : u8 b < 128 -> utf8 (escape_ascii b).
Proof.
  intros Hb. pose proof (u8_range b). apply utf8_ascii_bytes. unfold escape_ascii.
  repeat match goal with |- context [if ?c then _ else _] => destruct c eqn:? end; repeat constructor; try done; apply hex_digit_ascii; Z.to_euclidean_division_equations; lia.
Qed.

Lemma quote_utf8 s : utf8 (quote s).
Proof.
  unfold quote, quote_body. apply utf8_cons; [done|]. apply utf8_app; [|by repeat apply utf8_cons; [|apply utf8_nil]]. apply utf8_concat, Forall_fmap.
  generalize (bytes_of s). intros l. pattern l, (segs l). apply segs_ind; clear l.
  - constructor.
  - intros b t Hb _ IH. constructor; [|done]. cbn. rewrite (proj2 (Z.ltb_ge _ _)) by done. apply utf8_ascii_bytes. by repeat constructor.
  - intros b t Hb IH. constructor; [|done]. cbn. rewrite (proj2 (Z.ltb_lt _ _)) by done. by apply escape_ascii_utf8.
  - intros b raw r t Hl Hb He Hr Hd IH. constructor; [|done]. unfold compose, quote_rune. destruct raw as [|b' raw]; [simpl in Hl; lia|].
    destruct (_ || _) eqn:E.
    + apply utf8_ascii_bytes. apply Forall_app. split; [by repeat constructor|]. repeat constructor. apply hex_digit_ascii. breflect. destruct E as [E|E]; breflect; subst r; done.
    + exists [r]. split; [|unfold encode_runes; cbn [fmap list_fmap concat]; by rewrite He, app_nil_r]. apply Forall_singleton. unfold wf_rune. rewrite He. split_and!; [done | simpl in *; lia | done].
Qed.

Lemma itoa_utf8 z : utf8 (itoa z).
Proof.
  assert (Hd : forall f z, 0 <= z -> Forall (fun b => u8 b < 128) (digits f z)).
  { induction f as [|f IH]; intros y Hy; [constructor|]. cbn [digits]. apply Forall_app. split; [destruct (y <? 10); [constructor|]; apply IH; by apply Z.div_pos|].
    repeat constructor. rewrite u8_byte_of_Z. pose proof (Z.mod_pos_bound y 10). rewrite Z.mod_small; lia. }
  apply utf8_ascii_bytes. unfold itoa, itoa_abs. destruct (z <? 0) eqn:E; breflect; [constructor; [done|]|]; apply Hd; lia.
Qed.

Lemma sep_by_utf8 {A} (f : A -> bytes) l : Forall (fun x => utf8 (f x)) l -> utf8 (sep_by f l).
Proof.
  intros H. destruct H as [|x l Hx H]; [apply utf8_nil|]. cbn [sep_by]. apply utf8_app; [done|]. apply utf8_concat, Forall_fmap.
  eapply Forall_impl; [exact H|]. intros y Hy. by apply utf8_cons.
Qed.

Lemma json_print_utf8 v : json_ok v -> utf8 (json_print v).
Proof.
  induction v as [|b|lit|s|vs IH|fs IH] using json_ind'; intros Hok; cbn [json_print].
  - apply utf8_ascii_bytes. by repeat constructor.
  - apply utf8_ascii_bytes. destruct b; by repeat constructor.
  - destruct Hok as [z ->]. apply itoa_utf8.
  - apply quote_utf8.
  - apply utf8_cons; [done|]. apply utf8_app; [|by apply utf8_cons; [|apply utf8_nil]]. apply sep_by_utf8. apply json_ok_arr in Hok.
    eapply Forall_impl; [exact (proj2 (Forall_and _ _) (conj IH Hok))|]. intros x [Hx Ho]. by apply Hx.
  - apply utf8_cons; [done|]. apply utf8_app; [|by apply utf8_cons; [|apply utf8_nil]]. apply sep_by_utf8. apply json_ok_obj in Hok.
    eapply Forall_impl; [exact (proj2 (Forall_and _ _) (conj IH Hok))|]. intros x [Hx [_ Ho]]. apply utf8_app; [apply quote_utf8|]. apply utf8_cons; [done|]. by apply Hx.
Qed.
