(* ===== verification/Tracker.v ===== *)
(** * The instance tracker ([src/internal/runtime/runtime.go], [persist.go])

    Which agent instances a node runs, in what lifecycle status and at which generation. A durable tracker writes a snapshot of all
    instances before it confirms a mutation, and takes the mutation back when the write fails. Process supervision is off, which is the
    default. The state file is modelled as the snapshot it decodes to; [encode_instance] is what writing and reading make of one
    instance. *)

From Stdlib Require Import Ascii.
From S2P Require Import Prelude GoText GoFS GoJson GoCrypto.

Module Tracker.

Definition StatusPending : string := "PENDING".
Definition StatusRunning : string := "RUNNING".
Definition StatusStopped : string := "STOPPED".
Definition StatusHibernated : string := "HIBERNATED".
Definition StatusDestroyed : string := "DESTROYED".
Definition StatusFailed : string := "FAILED".
Definition DefaultMaxInstances : Z := 1024.
Definition stateVersion : Z := 1.

Definition ErrNotFound : string := "unknown runtime_ref".
Definition ErrCapacityExceeded : string := "instance capacity exceeded".
Definition ErrInvalidStateTransition : string := "invalid state transition".
Definition ErrProcessExecDisabled : string := "process execution is disabled but the spec has a command".

Definition one_of (s : string) (l : list string) : bool := existsb (String.eqb s) l.

Definition Valid (s : string) : bool :=
  one_of s [StatusPending; StatusRunning; StatusStopped; StatusHibernated; StatusDestroyed; StatusFailed].

Definition transitionAllowed (from to : string) : bool :=
  if String.eqb from to then true
  else if String.eqb to StatusRunning then one_of from [StatusPending; StatusStopped; StatusHibernated]
  else if String.eqb to StatusStopped then one_of from [StatusRunning; StatusHibernated]
  else if String.eqb to StatusHibernated then one_of from [StatusRunning; StatusStopped]
  else false.

(** [CreatedAt] is in nanoseconds; an absent spec is empty. *)
Record Instance := mkInstance {
  InstanceID : string; RuntimeRef : string; Status : string; Generation : Z; CreatedAt : Z; Spec : bytes;
  PID : Z; ProcStartToken : string; LastExitCode : option Z; LastExitReason : string }.

#[global] Instance Instance_eq_dec : EqDecision Instance.
Proof. solve_decision. Defined.

(** [durable]: a state file is configured. *)
Record Tracker := mkTracker {
  byRef : gmap string Instance; byID : gmap string string; maxInstances : Z; durable : bool }.

Record snapshot := mkSnapshot { Version : Z; Instances : list Instance }.

(** The tracker and the snapshot its state file holds. *)
Record Node := mkNode { mem : Tracker; disk : option snapshot }.

Definition with_status (i : Instance) (s : string) : Instance :=
  mkInstance (InstanceID i) (RuntimeRef i) s (Generation i) (CreatedAt i) (Spec i) (PID i) (ProcStartToken i)
    (LastExitCode i) (LastExitReason i).
Definition with_generation (i : Instance) (g : Z) : Instance :=
  mkInstance (InstanceID i) (RuntimeRef i) (Status i) g (CreatedAt i) (Spec i) (PID i) (ProcStartToken i)
    (LastExitCode i) (LastExitReason i).

(** ** Specs *)

Definition trim_bytes (raw : bytes) : bytes := bytes_of (trim_space (string_of raw)).

Definition IsJSONObject (raw : bytes) : bool :=
  match trim_bytes raw with c :: _ => u8 c =? 123 | [] => false end.

Record processSpec := mkProcessSpec {
  Command : string; Args : list string; Env : gmap string string; WorkingDir : string }.

(** A [string] target of [json.Unmarshal] keeps its zero value on null. *)
Definition text_value (v : json) : option string :=
  match v with JStr s => Some s | JNull => Some ""%string | _ => None end.
Definition text_array (v : json) : option (list string) :=
  match v with JArr l => mapM text_value l | _ => None end.
Definition text_object (v : json) : option (gmap string string) :=
  match v with
  | JObj fs => foldl (fun m f => m ← m; s ← text_value f.2; Some (<[f.1 := s]> m)) (Some ∅) fs
  | _ => None
  end.

(** The members of a [map[string]json.RawMessage]: the last of equal keys. *)
Definition member_of (fs : list (string * json)) (k : string) : option json :=
  snd <$> last (List.filter (fun f => String.eqb f.1 k) fs).
Definition optional {A} (fs : list (string * json)) (k : string) (dec : json -> option A) (zero : A) : option A :=
  match member_of fs k with None | Some JNull => Some zero | Some v => dec v end.

(** [(ps, hasCommand, err)]: whether the spec asks for a process, and the parsed request or what is wrong with it. *)
Definition parseProcessSpec (spec : bytes) : bool * result (option processSpec) :=
  match trim_bytes spec with
  | [] => (false, Ok None)
  | trimmed =>
      match json_parse trimmed with
      | Some (JObj fs) =>
          match member_of fs "command" with
          | None | Some JNull => (false, Ok None)
          | Some v =>
              (true,
               match text_value v with
               | None => Err "command must be a JSON string"
               | Some command =>
                   require negb (String.eqb command "") else "command must be a non-empty string" in
                   let* args := opt_ok (optional fs "args" text_array []) "args must be a JSON array of strings" in
                   let* env := opt_ok (optional fs "env" text_object ∅) "env must be a JSON object with string values" in
                   let* dir := opt_ok (optional fs "working_dir" text_value ""%string) "working_dir must be a JSON string" in
                   Ok (Some (mkProcessSpec command args env dir))
               end)
          end
      | _ => (false, Ok None)
      end
  end.

(** ** The state file *)

Definition ref_le (a b : Instance) : Prop := String.le (RuntimeRef a) (RuntimeRef b).
#[global] Instance ref_le_dec : RelDecision ref_le.
Proof. intros a b. unfold ref_le. apply _. Defined.

Definition values (m : gmap string Instance) : list Instance := snd <$> map_to_list m.

Definition snapshotLocked (t : Tracker) : snapshot :=
  mkSnapshot stateVersion (merge_sort ref_le (values (byRef t))).

(** [json.Compact]: space outside string literals is dropped. *)
Fixpoint compact (in_string escaped : bool) (l : bytes) : bytes :=
  match l with
  | [] => []
  | c :: l =>
      if in_string then
        c :: compact (negb (negb escaped && (u8 c =? 34))) (negb escaped && (u8 c =? 92)) l
      else if json_space c then compact false false l
      else c :: compact (u8 c =? 34) false l
  end.

(** An instance written and read back: invalid UTF-8 is replaced, the spec is compacted; a spec that is not JSON does not
    marshal. *)
Definition encode_instance (i : Instance) : option Instance :=
  let spec :=
    match Spec i with
    | [] => Some []
    | s => match json_parse s with Some _ => Some (compact false false s) | None => None end
    end in
  s ← spec;
  Some (mkInstance (sanitize (InstanceID i)) (sanitize (RuntimeRef i)) (sanitize (Status i)) (Generation i) (CreatedAt i)
          s (PID i) (sanitize (ProcStartToken i)) (LastExitCode i) (sanitize (LastExitReason i))).
Definition encode_snapshot (s : snapshot) : option snapshot :=
  l ← mapM encode_instance (Instances s); Some (mkSnapshot (Version s) l).

Definition save_steps : list fs_step := [CreateTemp; WriteTemp; SyncTemp; CloseTemp; Rename].

Definition saveSnapshot (s : snapshot) (fault : option fs_step) (d : option snapshot) : result unit * option snapshot :=
  match encode_snapshot s with
  | None => (Err "marshal state", d)
  | Some s => run_replace save_steps fault s d
  end.

Definition persistLocked (t : Tracker) (fault : option fs_step) (d : option snapshot) : result unit * option snapshot :=
  if negb (durable t) then (Ok tt, d) else saveSnapshot (snapshotLocked t) fault d.

(** What reading and unmarshalling the state file gave. *)
Inductive file_read := FileMissing | FileUnreadable | FileMalformed | FileSnapshot (s : snapshot).

Definition corrupt (i : Instance) : option string :=
  if String.eqb (InstanceID i) "" then Some "an instance is missing instance_id"%string
  else if String.eqb (RuntimeRef i) "" then Some "instance is missing runtime_ref"%string
  else if negb (Valid (Status i)) then Some "instance has unknown status"%string
  else if Generation i <? 0 then Some "instance has a negative generation"%string
  else if PID i <? 0 then Some "instance has a negative pid"%string
  else if negb (bool_decide (Spec i = [])) && negb (IsJSONObject (Spec i)) then Some "instance has a non-object spec"%string
  else None.

Fixpoint load_instances (l : list Instance) (refs : gmap string Instance) (ids : gmap string string)
  : result (gmap string Instance * gmap string string) :=
  match l with
  | [] => Ok (refs, ids)
  | i :: l =>
      match corrupt i with
      | Some e => Err e
      | None =>
          match refs !! RuntimeRef i, ids !! InstanceID i with
          | Some _, _ => Err "duplicate runtime_ref"
          | _, Some _ => Err "duplicate instance_id"
          | None, None => load_instances l (<[RuntimeRef i := i]> refs) (<[InstanceID i := RuntimeRef i]> ids)
          end
      end
  end.

Definition newTracker (limit : Z) (stateFile : bool) : Tracker :=
  mkTracker ∅ ∅ (if limit <=? 0 then DefaultMaxInstances else limit) stateFile.
Definition NewTracker (limit : Z) : Node := mkNode (newTracker limit false) None.

Definition LoadTracker (limit : Z) (stateFile : bool) (file : file_read) : result Node :=
  let t := newTracker limit stateFile in
  if negb stateFile then Ok (mkNode t None) else
  match file with
  | FileMissing => Ok (mkNode t None)
  | FileUnreadable => Err "read state file"
  | FileMalformed => Err "state file is not valid Steward state JSON"
  | FileSnapshot s =>
      require Version s =? stateVersion else "state file has unsupported format version" in
      let* (refs, ids) := load_instances (Instances s) ∅ ∅ in
      Ok (mkNode (mkTracker refs ids (maxInstances t) (durable t)) (Some s))
  end.

(** ** Operations *)

(** What a call takes from its environment: the random reference (it may depend on the references in use, so that an environment can
    promise a new one), the clock and the system call that fails. *)
Record env := mkEnv { random : gset string -> bytes; now : Z; fault : option fs_step }.

Definition newRuntimeRef (e : env) (t : Tracker) : string :=
  "rt_" +:+ string_of (hex_encode (random e (dom (byRef t)))).

Definition set_maps (t : Tracker) (refs : gmap string Instance) (ids : gmap string string) : Tracker :=
  mkTracker refs ids (maxInstances t) (durable t).

(** Persists [after]; when that fails, memory becomes [rollback]. *)
Definition commit (n : Node) (after rollback : Tracker) (e : env) : Node * result unit :=
  let '(res, d) := persistLocked after (fault e) (disk n) in
  (mkNode (if is_ok res then after else rollback) d, res).

(** The part of [Provision] for an identifier that is not tracked. *)
Definition provision_new (n : Node) (instanceID : string) (generation : Z) (spec : bytes) (e : env)
  : Node * result (Instance * bool) :=
  let t := mem n in
  if fst (parseProcessSpec spec) then (n, Err ErrProcessExecDisabled)
  else if maxInstances t <=? Z.of_nat (size (byRef t)) then (n, Err ErrCapacityExceeded)
  else
  let ref := newRuntimeRef e t in
  let stored := mkInstance instanceID ref StatusPending generation (now e) spec 0 "" None "" in
  let after := set_maps t (<[ref := stored]> (byRef t)) (<[instanceID := ref]> (byID t)) in
  let rollback := set_maps t (delete ref (byRef t)) (delete instanceID (byID t)) in
  let '(n, res) := commit n after rollback e in
  (n, let* _ := res in Ok (stored, true)).

Definition Provision (n : Node) (instanceID : string) (generation : Z) (spec : bytes) (e : env)
  : Node * result (Instance * bool) :=
  let t := mem n in
  match byID t !! instanceID with
  | None => provision_new n instanceID generation spec e
  | Some ref =>
      match byRef t !! ref with
      | None =>
          provision_new (mkNode (set_maps t (byRef t) (delete instanceID (byID t))) (disk n)) instanceID generation spec e
      | Some existing =>
          if Generation existing <? generation then
            let raised := with_generation existing generation in
            let '(n, res) := commit n (set_maps t (<[ref := raised]> (byRef t)) (byID t)) t e in
            (n, let* _ := res in Ok (raised, false))
          else (n, Ok (existing, false))
      end
  end.

Definition transition (n : Node) (runtimeRef status : string) (e : env) : Node * result Instance :=
  let t := mem n in
  match byRef t !! runtimeRef with
  | None => (n, Err ErrNotFound)
  | Some inst =>
      if negb (transitionAllowed (Status inst) status) then (n, Err ErrInvalidStateTransition) else
      let inst := with_status inst status in
      let '(n, res) := commit n (set_maps t (<[runtimeRef := inst]> (byRef t)) (byID t)) t e in
      (n, let* _ := res in Ok inst)
  end.

Definition Start (n : Node) (runtimeRef : string) (e : env) := transition n runtimeRef StatusRunning e.
Definition Stop (n : Node) (runtimeRef : string) (e : env) := transition n runtimeRef StatusStopped e.
Definition Hibernate (n : Node) (runtimeRef : string) (e : env) := transition n runtimeRef StatusHibernated e.

Definition Destroy (n : Node) (runtimeRef : string) (e : env) : Node * result Instance :=
  let t := mem n in
  match byRef t !! runtimeRef with
  | None => (n, Err ErrNotFound)
  | Some inst =>
      let after := set_maps t (delete runtimeRef (byRef t)) (delete (InstanceID inst) (byID t)) in
      let rollback := set_maps t (<[runtimeRef := inst]> (delete runtimeRef (byRef t)))
                        (<[InstanceID inst := runtimeRef]> (delete (InstanceID inst) (byID t))) in
      let '(n, res) := commit n after rollback e in
      (n, let* _ := res in Ok (with_status inst StatusDestroyed))
  end.

Definition SetMaxInstances (n : Node) (limit : Z) : Node :=
  mkNode (mkTracker (byRef (mem n)) (byID (mem n)) limit (durable (mem n))) (disk n).

(** ** Queries *)

Definition Len (t : Tracker) : Z := Z.of_nat (size (byRef t)).
Definition MaxInstances (t : Tracker) : Z := maxInstances t.
Definition Durable (t : Tracker) : bool := durable t.
Definition Status_ (t : Tracker) (runtimeRef : string) : result Instance := opt_ok (byRef t !! runtimeRef) ErrNotFound.
Definition List_ (t : Tracker) : list Instance := Instances (snapshotLocked t).

Definition StatusCounts (t : Tracker) : gmap string Z :=
  foldl (fun counts i => <[Status i := default 0 (counts !! Status i) + 1]> counts) ∅ (values (byRef t)).

(** A zero [CreatedSince] is [None]. *)
Record ListFilter := mkFilter { fStatus : string; fInstanceIDPrefix : string; fCreatedSince : option Z }.
Definition matches (f : ListFilter) (i : Instance) : bool :=
  (String.eqb (fStatus f) "" || String.eqb (Status i) (fStatus f))
  && (String.eqb (fInstanceIDPrefix f) "" || has_prefix (InstanceID i) (fInstanceIDPrefix f))
  && from_option (fun since => since <=? CreatedAt i) true (fCreatedSince f).
Definition ListFiltered (t : Tracker) (f : ListFilter) : list Instance := List.filter (matches f) (List_ t).

Definition RefForInstance (t : Tracker) (instanceID : string) : option string := byID t !! instanceID.
Definition GenerationForInstance (t : Tracker) (instanceID : string) : option Z :=
  ref ← byID t !! instanceID; Generation <$> byRef t !! ref.

(** ** Well-formedness *)

Record instance_ok (i : Instance) : Prop := {
  ok_sound : corrupt i = None;
  ok_text : Forall (fun s => utf8_valid s = true) [InstanceID i; RuntimeRef i; Status i; ProcStartToken i; LastExitReason i] }.

(** The two indexes agree and every instance is sound. *)
Record tracker_ok (t : Tracker) : Prop := {
  ok_ref ref i : byRef t !! ref = Some i -> RuntimeRef i = ref /\ byID t !! InstanceID i = Some ref /\ instance_ok i;
  ok_id id ref : byID t !! id = Some ref -> exists i, byRef t !! ref = Some i /\ InstanceID i = id }.

(** What a tracked instance may look like in the file. *)
Definition with_spec (i : Instance) (s : bytes) : Instance :=
  mkInstance (InstanceID i) (RuntimeRef i) (Status i) (Generation i) (CreatedAt i) s (PID i) (ProcStartToken i)
    (LastExitCode i) (LastExitReason i).
Definition stored_as (i j : Instance) : Prop :=
  instance_ok j /\ exists s, j = with_spec i s /\ (s = Spec i \/ s = compact false false (Spec i)).

(** A list of instances describes an index, in any order. *)
Record holds (l : list Instance) (m : gmap string Instance) : Prop := {
  holds_refs : NoDup (RuntimeRef <$> l);
  holds_sound j : j ∈ l -> exists i, m !! RuntimeRef j = Some i /\ stored_as i j;
  holds_all ref i : m !! ref = Some i -> exists j, j ∈ l /\ stored_as i j }.

Definition file_ok (n : Node) : Prop :=
  durable (mem n) = true ->
  match disk n with
  | None => byRef (mem n) = ∅
  | Some s => Version s = stateVersion /\ holds (Instances s) (byRef (mem n))
  end.
(** A durable tracker only keeps specs it can write. *)
Definition marshals (i : Instance) : Prop := Spec i = [] \/ is_Some (json_parse (Spec i)).
Definition specs_ok (t : Tracker) : Prop := durable t = true -> forall ref i, byRef t !! ref = Some i -> marshals i.

Record node_ok (n : Node) : Prop := { ok_tracker : tracker_ok (mem n); ok_file : file_ok n; ok_specs : specs_ok (mem n) }.

(** The environment never repeats a reference in use. *)
Definition good_env (e : env) : Prop :=
  forall used, "rt_" +:+ string_of (hex_encode (random e used)) ∉ used.

(** *** The first byte of a spec *)

Fixpoint widths (rs : list (Z * nat)) : nat := match rs with [] => 0 | r :: rs => r.2 + widths rs end.

Lemma widths_app a b : widths (a ++ b) = (widths a + widths b)%nat.
Proof. induction a as [|x a IH]; cbn; [done|]. lia. Qed.
Lemma widths_rev l : widths (rev l) = widths l.
Proof. induction l as [|x l IH]; [done|]. cbn [rev]. rewrite widths_app, IH. cbn. lia. Qed.

Lemma widths_runes l : widths (runes 0 l) = length l.
Proof.
  rewrite runes_segs. pattern l, (segs l). apply segs_ind; clear l.
  - done.
  - intros b t _ _ IH. cbn. by f_equal.
  - intros b t _ IH. cbn. by f_equal.
  - intros b raw r t _ _ _ _ _ IH. rewrite length_app, <- IH. done.
Qed.

Lemma leading_space_stop a r w b : is_space r = false -> (leading_space (a ++ (r, w) :: b) <= widths a)%nat.
Proof.
  intros Hr. induction a as [|[r' k] a IH]; cbn; [by rewrite Hr|]. destruct (is_space r'); lia.
Qed.

Lemma runes_ascii c t : u8 c < 128 -> runes 0 (c :: t) = (u8 c, 1%nat) :: runes 0 t.
Proof. intros Hc. cbn [runes decode_rune]. by rewrite (proj2 (Z.ltb_lt _ _)). Qed.

Lemma json_space_cases b : json_space b = true -> u8 b = 32 \/ u8 b = 9 \/ u8 b = 13 \/ u8 b = 10.
Proof. unfold json_space. cbn [existsb]. rewrite !orb_true_iff, !Z.eqb_eq. intuition done. Qed.

(** Trimming leaves a text that starts with anything but space, after JSON space, at that byte. *)
Lemma trim_bytes_head w c t :
  Forall (fun b => json_space b = true) w -> u8 c < 128 -> is_space (u8 c) = false ->
  exists t', trim_bytes (w ++ c :: t) = c :: t'.
Proof.
  intros Hw Hc Hs. unfold trim_bytes, trim_space. rewrite bytes_of_string_of.
  assert (Hr : runes 0 (w ++ c :: t) = ((fun b => (u8 b, 1%nat)) <$> w) ++ (u8 c, 1%nat) :: runes 0 t).
  { induction Hw as [|b w Hb Hw IH]; [by apply runes_ascii|]. simpl app. rewrite runes_ascii, IH; [done|].
    pose proof (json_space_cases b Hb). lia. }
  assert (Hf : leading_space (runes 0 (w ++ c :: t)) = length w).
  { rewrite Hr. clear Hr. induction Hw as [|b w Hb Hw IH]; [simpl; by rewrite Hs|].
    rewrite fmap_cons. cbn [app leading_space]. rewrite IH.
    replace (is_space (u8 b)) with true; [done|]. by destruct (json_space_cases b Hb) as [->|[->|[-> | ->]]]. }
  assert (Hb : (leading_space (rev (runes 0 (w ++ c :: t))) <= length t)%nat).
  { rewrite Hr, rev_app_distr. simpl rev. rewrite <- app_assoc. simpl app.
    etrans; [by apply leading_space_stop|]. by rewrite widths_rev, widths_runes. }
  rewrite Hf, length_app. cbn [length].
  rewrite (proj2 (Nat.leb_gt _ _)) by lia. rewrite bytes_of_string_of, drop_app_length.
  replace (length w + S (length t) - leading_space (rev (runes 0 (w ++ c :: t))) - length w)%nat
    with (S (length t - leading_space (rev (runes 0 (w ++ c :: t)))))%nat by lia.
  by eexists.
Qed.

Lemma skip_ws_split l : exists w, l = w ++ skip_ws l /\ Forall (fun b => json_space b = true) w.
Proof.
  induction l as [|b l (w & Hl & Hw)]; [by exists []|]. simpl. destruct (json_space b) eqn:E.
  - exists (b :: w). split; [simpl; by f_equal | by constructor].
  - by exists [].
Qed.
Lemma skip_ws_stop l : match skip_ws l with c :: _ => json_space c = false | [] => True end.
Proof. induction l as [|b l IH]; [done|]. simpl. by destruct (json_space b) eqn:E. Qed.

(** A JSON text starts, after space, with a byte that is not Unicode space either. *)
Lemma parse_head raw v :
  json_parse raw = Some v -> exists c t, skip_ws raw = c :: t /\ u8 c < 128 /\ is_space (u8 c) = false.
Proof.
  unfold json_parse. destruct (parse_value _ raw) as [[v' rest]|] eqn:E; [|done]. intros _.
  rewrite Nat.add_comm in E. cbn [parse_value Nat.add] in E. destruct (skip_ws raw) as [|c t] eqn:Es; [done|].
  exists c, t. split; [done|].
  pose proof (skip_ws_stop raw) as Hj. rewrite Es in Hj. unfold json_space in Hj. cbn [existsb] in Hj. breflect.
  destruct (decide (u8 c < 128 /\ is_space (u8 c) = false)) as [|Hno]; [done|exfalso].
  assert (Hc : 128 <= u8 c \/ u8 c = 11 \/ u8 c = 12).
  { destruct (Z.ltb_spec (u8 c) 128); [|lia]. destruct (is_space (u8 c)) eqn:E1; [|by destruct Hno]. unfold is_space in E1.
    cbn [existsb] in E1. rewrite !orb_true_iff, !Z.eqb_eq, andb_true_iff, Z.leb_le in E1. lia. }
  unfold scan_number, digit in E.
  rewrite !(proj2 (Z.eqb_neq _ _)) in E by lia.
  replace ((48 <=? u8 c) && (u8 c <=? 57)) with false in E; [done|].
  symmetry. apply andb_false_iff. rewrite Z.leb_gt, Z.leb_gt. lia.
Qed.

Lemma compact_space w l : Forall (fun b => json_space b = true) w -> compact false false (w ++ l) = compact false false l.
Proof. induction 1 as [|b w Hb Hw IH]; [done|]. cbn [app compact]. by rewrite Hb. Qed.

Lemma compact_object s v : json_parse s = Some v -> IsJSONObject s = true -> IsJSONObject (compact false false s) = true.
Proof.
  intros Hp Ho. destruct (parse_head s v Hp) as (c & t & Hs & Hc & Hns). destruct (skip_ws_split s) as (w & Hl & Hw).
  pose proof (skip_ws_stop s) as Hj. rewrite Hs in Hl, Hj. rewrite Hl in *. clear Hl Hs Hp.
  destruct (trim_bytes_head w c t Hw Hc Hns) as (t1 & E1). unfold IsJSONObject in Ho. rewrite E1 in Ho.
  rewrite compact_space by done. cbn [compact]. rewrite Hj.
  destruct (trim_bytes_head [] c (compact (u8 c =? 34) false t) ltac:(constructor) Hc Hns) as (t2 & E2).
  unfold IsJSONObject. cbn [app] in E2. by rewrite E2.
Qed.

(** ** Writing the file *)

Lemma corrupt_iff i :
  corrupt i = None <->
  InstanceID i <> ""%string /\ RuntimeRef i <> ""%string /\ Valid (Status i) = true /\ 0 <= Generation i /\ 0 <= PID i /\
  (Spec i = [] \/ IsJSONObject (Spec i) = true).
Proof.
  unfold corrupt. destruct (String.eqb_spec (InstanceID i) ""); [naive_solver|].
  destruct (String.eqb_spec (RuntimeRef i) ""); [naive_solver|].
  destruct (Valid (Status i)); cbn [negb]; [|naive_solver].
  destruct (Z.ltb_spec (Generation i) 0); [naive_solver lia|]. destruct (Z.ltb_spec (PID i) 0); [naive_solver lia|].
  case_bool_decide; destruct (IsJSONObject (Spec i)); cbn [negb andb]; naive_solver.
Qed.

Lemma stored_refl i : instance_ok i -> stored_as i i.
Proof. intros Hi. split; [done|]. exists (Spec i). by destruct i; auto. Qed.

Lemma encode_stored i j : instance_ok i -> encode_instance i = Some j -> stored_as i j.
Proof.
  intros [Hc Ht] He. unfold encode_instance in He. rewrite !Forall_cons in Ht. destruct Ht as (H1 & H2 & H3 & H4 & H5 & _).
  rewrite !utf8_valid_sanitize in He by done.
  assert (Hs : exists s, j = with_spec i s /\ (s = Spec i \/ s = compact false false (Spec i)) /\ corrupt (with_spec i s) = None).
  { destruct (Spec i) as [|b l] eqn:Es; [|destruct (json_parse (b :: l)) as [v|] eqn:Ev; [|done]]; injection He as <-.
    - exists []. split_and!; [done|by left|]. rewrite <- Es. by destruct i.
    - exists (compact false false (b :: l)). split_and!; [done|by right|]. apply corrupt_iff in Hc. apply corrupt_iff.
      destruct Hc as (? & ? & ? & ? & ? & [Hs | Hs]); [congruence|]. rewrite Es in Hs. split_and!; try done. right.
      by apply (compact_object _ v). }
  destruct Hs as (s & -> & Hs & Hcs). split; [|by exists s]. split; [done|]. rewrite !Forall_cons. done.
Qed.

Lemma elem_of_instances i m : i ∈ values m <-> exists ref, m !! ref = Some i.
Proof.
  unfold values. rewrite list_elem_of_fmap. split.
  - intros ((ref & j) & -> & Hj). exists ref. by apply elem_of_map_to_list in Hj.
  - intros (ref & Hr). exists (ref, i). split; [done|]. by apply elem_of_map_to_list.
Qed.
Lemma elem_of_snapshot i t : i ∈ Instances (snapshotLocked t) <-> exists ref, byRef t !! ref = Some i.
Proof. cbn [snapshotLocked Instances]. by rewrite merge_sort_Permutation, elem_of_instances. Qed.

Lemma snapshot_sound t i : tracker_ok t -> i ∈ Instances (snapshotLocked t) -> byRef t !! RuntimeRef i = Some i /\ instance_ok i.
Proof. intros Ht (ref & Hr)%elem_of_snapshot. by destruct (ok_ref t Ht ref i Hr) as (-> & _ & ?). Qed.

Lemma save_run (s : snapshot) fault d :
  run_replace save_steps fault s d = (Ok tt, Some s) \/ exists m, run_replace save_steps fault s d = (Err m, d).
Proof. destruct fault as [[]|]; vm_compute; eauto. Qed.

Lemma stored_ref i j : stored_as i j -> RuntimeRef j = RuntimeRef i /\ InstanceID j = InstanceID i.
Proof. by intros (_ & s & -> & _). Qed.

Lemma values_refs t : tracker_ok t -> RuntimeRef <$> values (byRef t) = fst <$> map_to_list (byRef t).
Proof.
  intros Ht. unfold values. rewrite <- list_fmap_compose. apply list_fmap_ext. intros k (ref & i) Hi.
  apply list_elem_of_lookup_2, elem_of_map_to_list in Hi. by destruct (ok_ref t Ht ref i Hi).
Qed.

Lemma stored_holds t l :
  tracker_ok t -> Forall2 stored_as (Instances (snapshotLocked t)) l -> holds l (byRef t).
Proof.
  intros Ht Hl. split.
  - assert (Hr : RuntimeRef <$> l = RuntimeRef <$> Instances (snapshotLocked t)).
    { clear Ht. induction Hl as [|i j k l Hij Hl IH]; [done|]. rewrite !fmap_cons, IH. f_equal. by apply stored_ref. }
    rewrite Hr. cbn [snapshotLocked Instances]. rewrite merge_sort_Permutation, values_refs by done. apply NoDup_fst_map_to_list.
  - intros j (k & Hk)%list_elem_of_lookup. destruct (Forall2_lookup_r _ _ _ _ _ Hl Hk) as (i & Hi & Hij). exists i.
    apply list_elem_of_lookup_2 in Hi. destruct (snapshot_sound t i Ht Hi) as (Hi' & _). by rewrite (proj1 (stored_ref i j Hij)).
  - intros ref i Hi. assert (Hs : i ∈ Instances (snapshotLocked t)) by (apply elem_of_snapshot; eauto).
    apply list_elem_of_lookup in Hs as (k & Hk). destruct (Forall2_lookup_l _ _ _ _ _ Hl Hk) as (j & Hj & Hij).
    exists j. split; [|done]. by eapply list_elem_of_lookup_2.
Qed.

Lemma encode_snapshot_stored t s :
  tracker_ok t -> encode_snapshot (snapshotLocked t) = Some s -> Version s = stateVersion /\ holds (Instances s) (byRef t).
Proof.
  intros Ht He. unfold encode_snapshot in He. destruct (mapM _ _) as [l|] eqn:El; [|done]. injection He as <-.
  split; [done|]. cbn [Instances]. apply stored_holds; [done|]. apply mapM_Some in El. eapply Forall2_weaken; [|exact El|apply encode_stored].
  apply Forall_forall. intros i Hi. by apply (snapshot_sound t).
Qed.

Lemma encode_is_some i : is_Some (encode_instance i) <-> marshals i.
Proof.
  unfold encode_instance, marshals. destruct (Spec i) as [|b l]; [split; eauto|].
  destruct (json_parse (b :: l)) as [v|]; split; try (by eauto).
  - by intros [? ?].
  - intros [? | [? ?]]; done.
Qed.
Lemma encode_snapshot_is_some t :
  is_Some (encode_snapshot (snapshotLocked t)) <-> forall ref i, byRef t !! ref = Some i -> marshals i.
Proof.
  unfold encode_snapshot. transitivity (is_Some (mapM encode_instance (Instances (snapshotLocked t)))).
  { destruct (mapM _ _); simpl; split; intros [? ?]; try done; eauto. }
  rewrite mapM_is_Some, Forall_forall. setoid_rewrite encode_is_some. setoid_rewrite elem_of_snapshot. naive_solver.
Qed.

(** A mutation either reaches the file before it is confirmed, or leaves both memory and file as they were. *)
Lemma commit_ok n after e n' res :
  node_ok n -> tracker_ok after -> durable after = durable (mem n) -> commit n after (mem n) e = (n', res) ->
  node_ok n' /\ durable (mem n') = durable (mem n) /\ mem n' = if is_ok res then after else mem n.
Proof.
  intros [Ht Hf Hs] Ha Hd. unfold commit, persistLocked. destruct (durable after) eqn:Ed; cbn [negb].
  - unfold saveSnapshot. destruct (encode_snapshot (snapshotLocked after)) as [s|] eqn:Es.
    + destruct (save_run s (fault e) (disk n)) as [-> | (m & ->)]; intros [= <- <-]; cbn [is_ok mem].
      * split_and!; [|congruence|done]. split; [done| |].
        -- intros _. by apply encode_snapshot_stored.
        -- intros _. apply (encode_snapshot_is_some after). rewrite Es. by eexists.
      * split_and!; [|congruence|done]. by split.
    + intros [= <- <-]. cbn [is_ok mem]. split_and!; [|congruence|done]. by split.
  - intros [= <- <-]. cbn [is_ok mem]. split_and!; [|congruence|done].
    split; [done| |]; intros H; cbn [mem] in H; congruence.
Qed.

Lemma commit_error n after rollback e n' : commit n after rollback e <> (n', Err ErrNotFound).
Proof.
  unfold commit, persistLocked, saveSnapshot. destruct (negb _); [done|]. destruct (encode_snapshot _) as [s|]; [|done].
  destruct (fault e) as [[]|]; vm_compute; congruence.
Qed.

(** ** The indexes under each change *)

Lemma update_ok t ref i i' :
  tracker_ok t -> byRef t !! ref = Some i -> instance_ok i' -> InstanceID i' = InstanceID i -> RuntimeRef i' = ref ->
  tracker_ok (set_maps t (<[ref := i']> (byRef t)) (byID t)).
Proof.
  intros Ht Hi Hok Hid Href. destruct (ok_ref t Ht ref i Hi) as (_ & Hb & _). split; cbn [set_maps byRef byID].
  - intros r j. destruct (decide (r = ref)) as [-> | Hne].
    + rewrite lookup_insert_eq. intros [= <-]. by rewrite Hid.
    + rewrite lookup_insert_ne by done. by apply ok_ref.
  - intros id r Hr. destruct (ok_id t Ht id r Hr) as (j & Hj & <-). destruct (decide (r = ref)) as [-> | Hne].
    + exists i'. rewrite lookup_insert_eq. split; [done|]. rewrite Hid. congruence.
    + exists j. by rewrite lookup_insert_ne.
Qed.

Lemma add_ok t id i :
  tracker_ok t -> byID t !! id = None -> byRef t !! RuntimeRef i = None -> InstanceID i = id -> instance_ok i ->
  tracker_ok (set_maps t (<[RuntimeRef i := i]> (byRef t)) (<[id := RuntimeRef i]> (byID t))).
Proof.
  intros Ht Hid Href <- Hok. split; cbn [set_maps byRef byID].
  - intros r j. destruct (decide (r = RuntimeRef i)) as [-> | Hne].
    + rewrite lookup_insert_eq. intros [= <-]. by rewrite lookup_insert_eq.
    + rewrite lookup_insert_ne by done. intros Hj. destruct (ok_ref t Ht r j Hj) as (? & Hb & ?).
      rewrite lookup_insert_ne by congruence. done.
  - intros id r. destruct (decide (id = InstanceID i)) as [-> | Hne].
    + rewrite lookup_insert_eq. intros [= <-]. exists i. by rewrite lookup_insert_eq.
    + rewrite lookup_insert_ne by done. intros Hr. destruct (ok_id t Ht id r Hr) as (j & Hj & <-).
      exists j. rewrite lookup_insert_ne by congruence. done.
Qed.

Lemma remove_ok t ref i :
  tracker_ok t -> byRef t !! ref = Some i ->
  tracker_ok (set_maps t (delete ref (byRef t)) (delete (InstanceID i) (byID t))).
Proof.
  intros Ht Hi. destruct (ok_ref t Ht ref i Hi) as (_ & Hb & _). split; cbn [set_maps byRef byID].
  - intros r j (Hne & Hj)%lookup_delete_Some. destruct (ok_ref t Ht r j Hj) as (? & Hbj & ?).
    rewrite lookup_delete_ne; [done|]. congruence.
  - intros id r (Hne & Hr)%lookup_delete_Some. destruct (ok_id t Ht id r Hr) as (j & Hj & <-).
    exists j. rewrite lookup_delete_ne; [done|]. congruence.
Qed.

(** ** What a client sees

    Clients name an instance by its identifier and depend on its status and generation only. *)

Definition view (t : Tracker) : gmap string (string * Z) :=
  omap (fun ref => i ← byRef t !! ref; Some (Status i, Generation i)) (byID t).

Lemma view_lookup t id : view t !! id = (ref ← byID t !! id; i ← byRef t !! ref; Some (Status i, Generation i)).
Proof. apply lookup_omap. Qed.

Lemma view_tracked t ref i : tracker_ok t -> byRef t !! ref = Some i -> view t !! InstanceID i = Some (Status i, Generation i).
Proof. intros Ht Hi. destruct (ok_ref t Ht ref i Hi) as (_ & Hb & _). by rewrite view_lookup, Hb; simpl; rewrite Hi. Qed.

Lemma view_known t id : tracker_ok t -> is_Some (view t !! id) <-> is_Some (byID t !! id).
Proof.
  intros Ht. rewrite view_lookup. destruct (byID t !! id) as [ref|] eqn:E; simpl; [|done].
  destruct (ok_id t Ht id ref E) as (i & -> & _). simpl. by split; eauto.
Qed.

Lemma view_update t ref i i' :
  tracker_ok t -> byRef t !! ref = Some i -> InstanceID i' = InstanceID i ->
  view (set_maps t (<[ref := i']> (byRef t)) (byID t)) = <[InstanceID i := (Status i', Generation i')]> (view t).
Proof.
  intros Ht Hi Hid. destruct (ok_ref t Ht ref i Hi) as (_ & Hb & _). apply map_eq. intros id.
  rewrite view_lookup. cbn [set_maps byRef byID]. destruct (decide (id = InstanceID i)) as [-> | Hne].
  - rewrite lookup_insert_eq, Hb. simpl. by rewrite lookup_insert_eq.
  - rewrite lookup_insert_ne, view_lookup by done. destruct (byID t !! id) as [r|] eqn:E; [|done]. simpl.
    destruct (ok_id t Ht id r E) as (j & Hj & <-). rewrite lookup_insert_ne by congruence. done.
Qed.

Lemma view_add t id i :
  tracker_ok t -> byRef t !! RuntimeRef i = None ->
  view (set_maps t (<[RuntimeRef i := i]> (byRef t)) (<[id := RuntimeRef i]> (byID t))) =
  <[id := (Status i, Generation i)]> (view t).
Proof.
  intros Ht Href. apply map_eq. intros k. rewrite view_lookup. cbn [set_maps byRef byID].
  destruct (decide (k = id)) as [-> | Hne].
  - rewrite !lookup_insert_eq. simpl. by rewrite lookup_insert_eq.
  - rewrite !lookup_insert_ne, view_lookup by done. destruct (byID t !! k) as [r|] eqn:E; [|done]. simpl.
    destruct (ok_id t Ht k r E) as (j & Hj & _). by rewrite lookup_insert_ne by congruence.
Qed.

Lemma view_remove t ref i :
  tracker_ok t -> byRef t !! ref = Some i ->
  view (set_maps t (delete ref (byRef t)) (delete (InstanceID i) (byID t))) = delete (InstanceID i) (view t).
Proof.
  intros Ht Hi. apply map_eq. intros k. rewrite view_lookup. cbn [set_maps byRef byID].
  destruct (decide (k = InstanceID i)) as [-> | Hne].
  - by rewrite !lookup_delete_eq.
  - rewrite !lookup_delete_ne, view_lookup by done. destruct (byID t !! k) as [r|] eqn:E; [|done]. simpl.
    destruct (ok_id t Ht k r E) as (j & Hj & <-). rewrite lookup_delete_ne by congruence. done.
Qed.

(** ** The operations *)

Lemma set_maps_id t : set_maps t (byRef t) (byID t) = t.
Proof. by destruct t. Qed.

Lemma instance_ok_status i s : instance_ok i -> one_of s [StatusRunning; StatusStopped; StatusHibernated] = true -> instance_ok (with_status i s).
Proof.
  intros [(? & ? & ? & ? & ? & ?)%corrupt_iff Ht] Hs. split.
  - apply corrupt_iff. cbn [with_status InstanceID RuntimeRef Status Generation PID Spec]. split_and!; try done.
    unfold one_of in Hs. cbn [existsb] in Hs. rewrite !orb_true_iff, !String.eqb_eq in Hs.
    by destruct Hs as [-> | [-> | [-> | ?]]].
  - rewrite !Forall_cons in Ht |- *. cbn [with_status InstanceID RuntimeRef Status ProcStartToken LastExitReason].
    split_and!; try apply Ht. unfold one_of in Hs. cbn [existsb] in Hs. rewrite !orb_true_iff, !String.eqb_eq in Hs.
    by destruct Hs as [-> | [-> | [-> | ?]]].
Qed.

Lemma instance_ok_generation i g : instance_ok i -> Generation i < g -> instance_ok (with_generation i g).
Proof.
  intros [(? & ? & ? & ? & ? & ?)%corrupt_iff Ht] Hg. split; [|done]. apply corrupt_iff.
  cbn [with_generation InstanceID RuntimeRef Status Generation PID Spec]. split_and!; try done. lia.
Qed.

Definition verb (s : string) : bool := one_of s [StatusRunning; StatusStopped; StatusHibernated].

Lemma transition_spec n ref s e n' res :
  node_ok n -> verb s = true -> transition n ref s e = (n', res) ->
  node_ok n' /\
  match res with
  | Err _ => view (mem n') = view (mem n)
  | Ok i => exists from, byRef (mem n) !! ref = Some from /\ i = with_status from s /\ transitionAllowed (Status from) s = true /\
      view (mem n') = <[InstanceID i := (s, Generation i)]> (view (mem n))
  end.
Proof.
  intros Hn Hs. unfold transition. destruct (byRef (mem n) !! ref) as [i|] eqn:Ei; [|by intros [= <- <-]].
  destruct (transitionAllowed (Status i) s) eqn:Ea; cbn [negb]; [|by intros [= <- <-]].
  destruct (commit _ _ _ _) as [n2 r] eqn:Ec. intros [= <- <-].
  pose proof (ok_tracker n Hn) as Ht. destruct (ok_ref _ Ht ref i Ei) as (Hr & Hb & Hok).
  assert (Hnew : tracker_ok (set_maps (mem n) (<[ref := with_status i s]> (byRef (mem n))) (byID (mem n)))).
  { apply (update_ok _ _ i); try done. by apply instance_ok_status. }
  destruct (commit_ok n _ e n2 r Hn Hnew eq_refl Ec) as (Hn2 & _ & Hm). split; [done|].
  destruct r as [[]|]; cbn [is_ok] in Hm; rewrite Hm; [|done]. exists i. split_and!; try done.
  by rewrite (view_update _ _ i).
Qed.

(** Without a fault an allowed transition succeeds. *)
Lemma transition_reliable n ref s e i :
  node_ok n -> byRef (mem n) !! ref = Some i -> transitionAllowed (Status i) s = true -> fault e = None ->
  (transition n ref s e).2 = Ok (with_status i s).
Proof.
  intros Hn Hi Ha He. unfold transition. rewrite Hi, Ha. cbn [negb]. unfold commit, persistLocked. cbn [set_maps durable].
  destruct (durable (mem n)) eqn:Ed; cbn [negb]; [|done]. unfold saveSnapshot.
  destruct (encode_snapshot_is_some (set_maps (mem n) (<[ref := with_status i s]> (byRef (mem n))) (byID (mem n)))) as [_ Hs].
  destruct Hs as [f Hf].
  { pose proof (ok_specs n Hn Ed) as Hsp. intros r j. cbn [set_maps byRef]. destruct (decide (r = ref)) as [-> | Hne].
    - rewrite lookup_insert_eq. intros [= <-]. by apply (Hsp _ _ Hi).
    - rewrite lookup_insert_ne by done. apply Hsp. }
  rewrite Hf, He. pose proof (run_replace_no_fault save_steps f (disk n)) as Hr.
  destruct (run_replace save_steps None f (disk n)) as [r d]. cbn [fst] in Hr. by subst r.
Qed.

Lemma destroy_spec n ref e n' res :
  node_ok n -> Destroy n ref e = (n', res) ->
  node_ok n' /\
  match res with
  | Err err => view (mem n') = view (mem n) /\ (is_Some (byRef (mem n) !! ref) -> err <> ErrNotFound)
  | Ok i => exists from, byRef (mem n) !! ref = Some from /\ i = with_status from StatusDestroyed /\
      view (mem n') = delete (InstanceID i) (view (mem n))
  end.
Proof.
  intros Hn. unfold Destroy. destruct (byRef (mem n) !! ref) as [i|] eqn:Ei.
  2: { intros [= <- <-]. split_and!; [done|done|]. by intros [? ?]. }
  destruct (commit _ _ _ _) as [n2 r] eqn:Ec. intros [= <- <-].
  pose proof (ok_tracker n Hn) as Ht. destruct (ok_ref _ Ht ref i Ei) as (Hr & Hb & Hok).
  rewrite !insert_delete_eq, !insert_id, set_maps_id in Ec by done.
  destruct (commit_ok n _ e n2 r Hn (remove_ok _ _ _ Ht Ei) eq_refl Ec) as (Hn2 & _ & Hm). split; [done|].
  destruct r as [[]|err]; cbn [is_ok] in Hm; rewrite Hm.
  - exists i. split_and!; try done. by apply (view_remove _ _ i).
  - split; [done|]. intros _ ->. by apply commit_error in Ec.
Qed.

(** A move keeps every reference. *)
Lemma transition_ids n ref s e : byID (mem (transition n ref s e).1) = byID (mem n).
Proof.
  unfold transition. destruct (byRef _ !! _); [|done]. destruct (negb _); [done|].
  unfold commit. destruct (persistLocked _ _ _) as [r d]. cbn [fst mem]. by destruct (is_ok r).
Qed.

(** A request for an instance, as the callers guarantee it. *)
Definition typed_provision (id : string) (g : Z) (spec : bytes) : Prop :=
  id <> ""%string /\ utf8_valid id = true /\ 0 <= g /\ (spec = [] \/ IsJSONObject spec = true).

Lemma hex_char_plain x : 0 <= x < 16 -> plain_byte (u8 (hex_char x)) = true.
Proof.
  intros Hx. assert (Hall : Forall (fun x => plain_byte (u8 (hex_char x)) = true) (seqZ 0 16)) by repeat constructor.
  rewrite Forall_forall in Hall. apply Hall, elem_of_seqZ. lia.
Qed.
Lemma hex_plain l : forallb (fun c => plain_byte (u8 c)) (hex_encode l) = true.
Proof.
  induction l as [|b l IH]; [done|]. unfold hex_encode in *. rewrite bind_cons. cbn [app forallb].
  pose proof (u8_range b). rewrite !hex_char_plain by (Z.to_euclidean_division_equations; lia). done.
Qed.

Lemma new_ref_ok e t :
  good_env e -> byRef t !! newRuntimeRef e t = None /\ newRuntimeRef e t <> ""%string /\ utf8_valid (newRuntimeRef e t) = true.
Proof.
  intros He. split_and!.
  - apply not_elem_of_dom. apply He.
  - done.
  - apply plain_utf8. unfold newRuntimeRef, all_bytes. rewrite bytes_of_app, bytes_of_string_of, forallb_app.
    by rewrite hex_plain.
Qed.

Definition provisioned (t : Tracker) (id : string) (g : Z) (i : Instance) (created : bool) : Prop :=
  match view t !! id with
  | None => created = true /\ Status i = StatusPending /\ Generation i = g
  | Some (st, g0) => created = false /\ Status i = st /\ Generation i = Z.max g0 g
  end.

Lemma provision_new_spec n id g spec e n' res :
  node_ok n -> good_env e -> typed_provision id g spec -> byID (mem n) !! id = None ->
  provision_new n id g spec e = (n', res) ->
  node_ok n' /\
  match res with
  | Err _ => view (mem n') = view (mem n)
  | Ok (i, created) => InstanceID i = id /\ byRef (mem n') !! RuntimeRef i = Some i /\ provisioned (mem n) id g i created /\
      view (mem n') = <[id := (Status i, Generation i)]> (view (mem n))
  end.
Proof.
  intros Hn He (Hid & Hu & Hg & Hspec) Hb. unfold provision_new.
  destruct (fst (parseProcessSpec spec)); [by intros [= <- <-]|].
  destruct (maxInstances (mem n) <=? Z.of_nat (size (byRef (mem n)))); [by intros [= <- <-]|].
  destruct (new_ref_ok e (mem n) He) as (Hfresh & Hne & Hru). set (ref := newRuntimeRef e (mem n)) in *.
  destruct (commit _ _ _ _) as [n2 r] eqn:Ec. intros [= <- <-].
  pose proof (ok_tracker n Hn) as Ht. rewrite !delete_id, set_maps_id in Ec by done.
  set (i := mkInstance id ref StatusPending g (now e) spec 0 "" None "") in *.
  assert (Hi : instance_ok i).
  { split; [by apply corrupt_iff|]. repeat constructor; done. }
  destruct (commit_ok n _ e n2 r Hn (add_ok _ id i Ht Hb Hfresh eq_refl Hi) eq_refl Ec) as (Hn2 & _ & Hm).
  split; [done|]. destruct r as [[]|]; cbn [is_ok] in Hm; rewrite Hm; [|done]. split_and!; try done.
  - cbn [set_maps byRef]. by rewrite lookup_insert_eq.
  - unfold provisioned. by rewrite view_lookup, Hb.
  - by apply (view_add _ id i).
Qed.

Lemma provision_spec n id g spec e n' res :
  node_ok n -> good_env e -> typed_provision id g spec -> Provision n id g spec e = (n', res) ->
  node_ok n' /\
  match res with
  | Err _ => view (mem n') = view (mem n)
  | Ok (i, created) => InstanceID i = id /\ byRef (mem n') !! RuntimeRef i = Some i /\ provisioned (mem n) id g i created /\
      view (mem n') = <[id := (Status i, Generation i)]> (view (mem n))
  end.
Proof.
  intros Hn He Hty. unfold Provision. destruct (byID (mem n) !! id) as [ref|] eqn:Eb; [|by apply provision_new_spec].
  pose proof (ok_tracker n Hn) as Ht. destruct (ok_id _ Ht id ref Eb) as (i & Ei & Hid). rewrite Ei.
  assert (Hv : view (mem n) !! id = Some (Status i, Generation i)) by (subst id; by apply (view_tracked _ ref)).
  destruct (Z.ltb_spec (Generation i) g) as [Hg | Hg].
  - destruct (commit _ _ _ _) as [n2 r] eqn:Ec. intros [= <- <-]. destruct (ok_ref _ Ht ref i Ei) as (Hr & Hb & Hok).
    assert (Hnew : tracker_ok (set_maps (mem n) (<[ref := with_generation i g]> (byRef (mem n))) (byID (mem n)))).
    { apply (update_ok _ _ i); try done. by apply instance_ok_generation. }
    destruct (commit_ok n _ e n2 r Hn Hnew eq_refl Ec) as (Hn2 & _ & Hm). split; [done|].
    destruct r as [[]|]; cbn [is_ok] in Hm; rewrite Hm; [|done]. split_and!; try done.
    + cbn [set_maps byRef with_generation RuntimeRef]. by rewrite Hr, lookup_insert_eq.
    + unfold provisioned. rewrite Hv. cbn [with_generation Status Generation]. split_and!; try done. lia.
    + rewrite (view_update _ _ i) by done. by rewrite Hid.
  - intros [= <- <-]. split; [done|]. split_and!; [done| | |].
    + by destruct (ok_ref _ Ht ref i Ei) as (-> & _ & _).
    + unfold provisioned. rewrite Hv. split_and!; try done. lia.
    + by rewrite insert_id.
Qed.

Lemma provision_again n id g spec e n1 i created spec' e' :
  node_ok n -> good_env e -> typed_provision id g spec -> Provision n id g spec e = (n1, Ok (i, created)) ->
  Provision n1 id g spec' e' = (n1, Ok (i, false)).
Proof.
  intros Hn He Hty Hp. destruct (provision_spec _ _ _ _ _ _ _ Hn He Hty Hp) as (Hn1 & Hid & Hi & Hpr & Hv).
  destruct (ok_ref _ (ok_tracker n1 Hn1) _ _ Hi) as (_ & Hb & _). rewrite Hid in Hb.
  assert (Hg : g <= Generation i).
  { unfold provisioned in Hpr. destruct (view (mem n) !! id) as [[st g0]|]; destruct Hpr as (_ & _ & ->); lia. }
  unfold Provision. rewrite Hb, Hi. by rewrite (proj2 (Z.ltb_ge _ _)).
Qed.

(** ** Loading *)

Definition texts_ok (i : Instance) : Prop :=
  Forall (fun s => utf8_valid s = true) [InstanceID i; RuntimeRef i; Status i; ProcStartToken i; LastExitReason i].

Abbreviation ref_map l := (list_to_map ((fun j => (RuntimeRef j, j)) <$> l) : gmap string Instance).
Abbreviation id_map l := (list_to_map ((fun j => (InstanceID j, RuntimeRef j)) <$> l) : gmap string string).

Definition loadable (l : list Instance) (refs : gmap string Instance) (ids : gmap string string) : Prop :=
  Forall (fun j => corrupt j = None /\ refs !! RuntimeRef j = None /\ ids !! InstanceID j = None) l /\
  NoDup (RuntimeRef <$> l) /\ NoDup (InstanceID <$> l).

Lemma load_instances_ok l refs ids :
  loadable l refs ids -> load_instances l refs ids = Ok (ref_map l ∪ refs, id_map l ∪ ids).
Proof.
  revert refs ids. induction l as [|j l IH]; intros refs ids (Hl & Hr & Hi).
  - cbn. by rewrite !map_empty_union.
  - rewrite Forall_cons in Hl. destruct Hl as ((Hc & Hnr & Hni) & Hl). rewrite !fmap_cons, NoDup_cons in Hr, Hi.
    destruct Hr as (Hr1 & Hr), Hi as (Hi1 & Hi). cbn [load_instances]. rewrite Hc, Hnr, Hni. rewrite IH.
    + rewrite !fmap_cons. cbn [list_to_map foldr]. f_equal. f_equal.
      * rewrite <- insert_union_r; [by rewrite insert_union_l|]. apply not_elem_of_list_to_map_1.
        by rewrite <- list_fmap_compose.
      * rewrite <- insert_union_r; [by rewrite insert_union_l|]. apply not_elem_of_list_to_map_1.
        by rewrite <- list_fmap_compose.
    + split_and!; try done. rewrite Forall_forall in Hl |- *. intros k Hk. destruct (Hl k Hk) as (? & ? & ?).
      split_and!; [done| |]; (rewrite lookup_insert_ne; [done|]).
      * intros E. apply Hr1. rewrite E. by apply list_elem_of_fmap_2.
      * intros E. apply Hi1. rewrite E. by apply list_elem_of_fmap_2.
Qed.

Lemma load_instances_inv l refs ids r d : load_instances l refs ids = Ok (r, d) -> loadable l refs ids.
Proof.
  revert refs ids. induction l as [|j l IH]; intros refs ids; cbn [load_instances].
  - intros _. split_and!; constructor.
  - destruct (corrupt j) eqn:Hc; [done|]. destruct (refs !! RuntimeRef j) eqn:Er; [done|].
    destruct (ids !! InstanceID j) eqn:Ei; [done|]. intros (Hl & Hr & Hi)%IH. rewrite Forall_forall in Hl.
    split_and!.
    + constructor; [done|]. apply Forall_forall. intros k Hk. destruct (Hl k Hk) as (? & (? & ?)%lookup_insert_None & (? & ?)%lookup_insert_None).
      done.
    + rewrite fmap_cons. apply NoDup_cons. split; [|done]. intros (k & E & Hk)%list_elem_of_fmap.
      destruct (Hl k Hk) as (_ & (_ & ?)%lookup_insert_None & _). done.
    + rewrite fmap_cons. apply NoDup_cons. split; [|done]. intros (k & E & Hk)%list_elem_of_fmap.
      destruct (Hl k Hk) as (_ & _ & (_ & ?)%lookup_insert_None). done.
Qed.

Lemma ref_map_lookup l ref j : NoDup (RuntimeRef <$> l) -> ref_map l !! ref = Some j <-> j ∈ l /\ RuntimeRef j = ref.
Proof.
  intros Hn. rewrite <- elem_of_list_to_map; [|by rewrite <- list_fmap_compose]. rewrite list_elem_of_fmap. naive_solver.
Qed.
Lemma id_map_lookup l id ref :
  NoDup (InstanceID <$> l) -> id_map l !! id = Some ref <-> exists j, j ∈ l /\ InstanceID j = id /\ RuntimeRef j = ref.
Proof.
  intros Hn. rewrite <- elem_of_list_to_map; [|by rewrite <- list_fmap_compose]. rewrite list_elem_of_fmap. naive_solver.
Qed.

Lemma loaded_ok l max d :
  loadable l ∅ ∅ -> Forall texts_ok l -> tracker_ok (mkTracker (ref_map l) (id_map l) max d).
Proof.
  intros (Hl & Hr & Hi) Ht. rewrite Forall_forall in Hl, Ht. split; cbn [byRef byID].
  - intros ref j (Hj & <-)%ref_map_lookup; [|done]. split_and!; [done| |].
    + apply id_map_lookup; [done|]. eauto.
    + split; [by apply Hl | by apply Ht].
  - intros id ref (j & Hj & <- & <-)%id_map_lookup; [|done]. exists j. split; [by apply ref_map_lookup | done].
Qed.

Definition file_of (n : Node) : file_read := from_option FileSnapshot FileMissing (disk n).

(** Every string of a file that was read as JSON is valid UTF-8, and every raw value of it is JSON. *)
Definition decoded (f : file_read) : Prop :=
  match f with FileSnapshot s => Forall (fun i => texts_ok i /\ marshals i) (Instances s) | _ => True end.

Lemma empty_ok max d : tracker_ok (mkTracker ∅ ∅ max d).
Proof. split; cbn [byRef byID]; intros ? ?; by rewrite lookup_empty. Qed.

Lemma load_node_ok limit stateFile f n : LoadTracker limit stateFile f = Ok n -> decoded f -> node_ok n.
Proof.
  unfold LoadTracker. destruct stateFile; cbn [negb].
  - destruct f as [| | |s]; try done.
    + intros [= <-] _. split; [apply empty_ok | done |]. intros _ ref i. cbn [mem newTracker byRef]. by rewrite lookup_empty.
    + destruct (Z.eqb_spec (Version s) stateVersion) as [Hv|]; [|done].
      destruct (load_instances (Instances s) ∅ ∅) as [[r d]|] eqn:El; [|done]. intros [= <-] Hd.
      pose proof (load_instances_inv _ _ _ _ _ El) as Hl. rewrite (load_instances_ok _ _ _ Hl), !map_union_empty in El.
      injection El as <- <-. pose proof (loaded_ok _ (maxInstances (newTracker limit true)) (durable (newTracker limit true)) Hl
        (Forall_impl _ _ _ Hd (fun i H => proj1 H))) as Ht.
      destruct Hl as (_ & Hr & _). split; [done| |]; intros _; cbn [mem disk byRef]; [split; [done|]; split; [done| |]|].
      * intros j Hj. exists j. assert (Hm : ref_map (Instances s) !! RuntimeRef j = Some j) by (by apply ref_map_lookup).
        split; [done|]. apply stored_refl. by apply (ok_ref _ Ht (RuntimeRef j)).
      * intros ref i Hi. pose proof Hi as (Hj & _)%ref_map_lookup; [|done]. exists i. split; [done|].
        apply stored_refl. by apply (ok_ref _ Ht ref).
      * intros ref i (Hi & _)%ref_map_lookup; [|done]. cbn [decoded] in Hd. rewrite Forall_forall in Hd. by apply Hd.
  - intros [= <-] _. by split; [apply empty_ok | |].
Qed.

Lemma holds_loadable l t : tracker_ok t -> holds l (byRef t) -> loadable l ∅ ∅.
Proof.
  intros Ht [Hr Hs _]. split_and!; [|done|].
  - apply Forall_forall. intros j Hj. destruct (Hs j Hj) as (i & _ & [Hok _] & _). by rewrite !lookup_empty.
  - apply NoDup_fmap_2_strong; [|by eapply NoDup_fmap_1]. intros j k Hj Hk E.
    destruct (Hs j Hj) as (i & Hi & Hij), (Hs k Hk) as (i' & Hi' & Hik).
    destruct (stored_ref _ _ Hij) as (_ & Ej), (stored_ref _ _ Hik) as (_ & Ek).
    destruct (ok_ref t Ht _ _ Hi) as (_ & Hb & _), (ok_ref t Ht _ _ Hi') as (_ & Hb' & _).
    assert (Href : RuntimeRef j = RuntimeRef k) by congruence.
    apply (inj Some). rewrite <- (proj2 (ref_map_lookup l (RuntimeRef j) j Hr)) by done.
    by rewrite <- (proj2 (ref_map_lookup l (RuntimeRef j) k Hr)).
Qed.

(** The tracker a restart loads: the same instances under the same references and identifiers. *)
Definition same_instances (t t' : Tracker) : Prop :=
  (forall ref, option_Forall2 stored_as (byRef t !! ref) (byRef t' !! ref)) /\ byID t' = byID t /\ view t' = view t.

Lemma holds_same l t max d :
  tracker_ok t -> holds l (byRef t) -> same_instances t (mkTracker (ref_map l) (id_map l) max d).
Proof.
  intros Ht Hh. pose proof (holds_loadable l t Ht Hh) as (_ & Hr & Hi). destruct Hh as [_ Hs Ha].
  assert (Href : forall ref, option_Forall2 stored_as (byRef t !! ref) (ref_map l !! ref)).
  { intros ref. destruct (byRef t !! ref) as [i|] eqn:E.
    - destruct (Ha ref i E) as (j & Hj & Hij). destruct (stored_ref _ _ Hij) as (Erj & _). destruct (ok_ref t Ht _ _ E) as (Eri & _).
      rewrite (proj2 (ref_map_lookup l ref j Hr)) by (split; [done|congruence]). by constructor.
    - destruct (ref_map l !! ref) as [j|] eqn:Ej; [|constructor]. apply ref_map_lookup in Ej as (Hj & <-); [|done].
      destruct (Hs j Hj) as (i & Hi' & _). congruence. }
  assert (Hid : id_map l = byID t).
  { apply map_eq. intros id. apply option_eq. intros ref. rewrite id_map_lookup by done. split.
    - intros (j & Hj & <- & <-). destruct (Hs j Hj) as (i & Hi' & Hij). destruct (stored_ref _ _ Hij) as (_ & ->).
      by destruct (ok_ref t Ht _ _ Hi') as (_ & ? & _).
    - intros Hb. destruct (ok_id t Ht _ _ Hb) as (i & Hi' & <-). destruct (Ha _ _ Hi') as (j & Hj & Hij).
      destruct (stored_ref _ _ Hij) as (Er & Ei). destruct (ok_ref t Ht _ _ Hi') as (<- & _). exists j. done. }
  split_and!; [done|done|]. apply map_eq. intros id. rewrite !view_lookup. cbn [byRef byID]. rewrite Hid.
  destruct (byID t !! id) as [ref|]; [|done]. simpl. destruct (Href ref) as [i j (_ & sp & -> & _)|]; done.
Qed.

Lemma reload n limit :
  node_ok n -> durable (mem n) = true ->
  exists n', LoadTracker limit true (file_of n) = Ok n' /\ same_instances (mem n) (mem n').
Proof.
  intros [Ht Hf _] Hd. specialize (Hf Hd). unfold file_of. destruct (disk n) as [s|].
  - destruct Hf as (Hv & Hh). cbn [LoadTracker from_option negb].
    rewrite (proj2 (Z.eqb_eq _ _)) by done. rewrite (load_instances_ok _ _ _ (holds_loadable _ _ Ht Hh)), !map_union_empty.
    eexists. split; [done|]. by apply holds_same.
  - eexists. split; [done|]. cbn [mem newTracker].
    assert (Hi : byID (mem n) = ∅).
    { apply map_empty. intros id. destruct (byID (mem n) !! id) as [ref|] eqn:E; [|done].
      destruct (ok_id _ Ht _ _ E) as (i & Hi & _). by rewrite Hf, lookup_empty in Hi. }
    split_and!.
    + intros ref. cbn [byRef]. rewrite Hf, lookup_empty. constructor.
    + by rewrite Hi.
    + apply map_eq. intros id. by rewrite !view_lookup, Hi.
Qed.

(** ** Runs *)

Inductive call :=
| CProvision (id : string) (generation : Z) (spec : bytes)
| CStart (ref : string) | CStop (ref : string) | CHibernate (ref : string) | CDestroy (ref : string)
| CSetMaxInstances (limit : Z).

Definition run_call (n : Node) (c : call * env) : Node :=
  match c.1 with
  | CProvision id g spec => (Provision n id g spec c.2).1
  | CStart ref => (Start n ref c.2).1
  | CStop ref => (Stop n ref c.2).1
  | CHibernate ref => (Hibernate n ref c.2).1
  | CDestroy ref => (Destroy n ref c.2).1
  | CSetMaxInstances limit => SetMaxInstances n limit
  end.

Definition typed_call (c : call * env) : Prop :=
  good_env c.2 /\ match c.1 with CProvision id g spec => typed_provision id g spec | _ => True end.

(** What one call may do to one instance. *)
(** The statuses of an instance that was started at least once. *)
Definition has_run (st : string) : Prop := st ∈ [StatusRunning; StatusStopped; StatusHibernated].

(** What may become of an instance, written independently of the transition table. *)
Inductive lifecycle : option (string * Z) -> option (string * Z) -> Prop :=
| life_same o : lifecycle o o
| life_new g : 0 <= g -> lifecycle None (Some (StatusPending, g))
| life_raise st g g' : g < g' -> lifecycle (Some (st, g)) (Some (st, g'))
| life_start st g : st = StatusPending \/ has_run st -> lifecycle (Some (st, g)) (Some (StatusRunning, g))
| life_rest st st' g : has_run st -> st' = StatusStopped \/ st' = StatusHibernated -> lifecycle (Some (st, g)) (Some (st', g))
| life_end st g : lifecycle (Some (st, g)) None.

Lemma one_of_elem s l : one_of s l = true <-> s ∈ l.
Proof. unfold one_of. rewrite existsb_exists. setoid_rewrite String.eqb_eq. rewrite list_elem_of_In. naive_solver. Qed.

Lemma transition_table st s g : verb s = true -> transitionAllowed st s = true -> lifecycle (Some (st, g)) (Some (s, g)).
Proof.
  intros Hv%one_of_elem. unfold transitionAllowed, has_run. destruct (String.eqb_spec st s) as [->|_]; [intros _; constructor|].
  rewrite !elem_of_cons, elem_of_nil in Hv. destruct Hv as [-> | [-> | [-> | []]]]; cbn [String.eqb Ascii.eqb Bool.eqb];
    intros Ha%one_of_elem; [apply life_start | apply life_rest | apply life_rest]; unfold has_run; set_solver.
Qed.

Lemma transition_life n ref s e id :
  node_ok n -> verb s = true ->
  node_ok (transition n ref s e).1 /\ lifecycle (view (mem n) !! id) (view (mem (transition n ref s e).1) !! id).
Proof.
  intros Hn Hs. destruct (transition n ref s e) as [n' res] eqn:E. destruct (transition_spec _ _ _ _ _ _ Hn Hs E) as (Hn' & Hres).
  split; [done|]. cbn [fst]. destruct res as [i|]; [|rewrite Hres; constructor].
  destruct Hres as (from & Hf & -> & Ha & ->). cbn [with_status InstanceID Generation].
  destruct (decide (id = InstanceID from)) as [-> | Hne]; [|rewrite lookup_insert_ne by done; constructor].
  rewrite lookup_insert_eq, (view_tracked _ _ _ (ok_tracker n Hn) Hf). by apply transition_table.
Qed.

Lemma run_call_life n c id :
  node_ok n -> typed_call c ->
  node_ok (run_call n c) /\ lifecycle (view (mem n) !! id) (view (mem (run_call n c)) !! id).
Proof.
  intros Hn (He & Hc). destruct c as [[id' g spec|ref|ref|ref|ref|limit] e]; unfold run_call; cbn [fst snd] in *.
  - destruct (Provision n id' g spec e) as [n' res] eqn:E. destruct (provision_spec _ _ _ _ _ _ _ Hn He Hc E) as (Hn' & Hres).
    split; [done|]. cbn [fst]. destruct res as [[i created]|]; [|rewrite Hres; constructor].
    destruct Hres as (Hid & _ & Hp & ->). destruct (decide (id = id')) as [-> | Hne]; [|rewrite lookup_insert_ne by done; constructor].
    rewrite lookup_insert_eq. unfold provisioned in Hp. destruct (view (mem n) !! id') as [[st g0]|].
    + destruct Hp as (_ & -> & ->). destruct (Z.max_spec g0 g) as [(? & ->) | (? & ->)]; by constructor.
    + destruct Hp as (_ & -> & ->). constructor. by destruct Hc as (_ & _ & ? & _).
  - by apply transition_life.
  - by apply transition_life.
  - by apply transition_life.
  - destruct (Destroy n ref e) as [n' res] eqn:E. destruct (destroy_spec _ _ _ _ _ Hn E) as (Hn' & Hres).
    split; [done|]. cbn [fst]. destruct res as [i|]; [|destruct Hres as (-> & _); constructor].
    destruct Hres as (from & Hf & -> & ->). cbn [with_status InstanceID].
    destruct (decide (id = InstanceID from)) as [-> | Hne]; [|rewrite lookup_delete_ne by done; constructor].
    rewrite lookup_delete_eq, (view_tracked _ _ _ (ok_tracker n Hn) Hf). constructor.
  - split; [|constructor]. destruct Hn as [[Hr Hi] Hf Hs]. split; [by split | done | done].
Qed.

Lemma run_calls_ok n cs : node_ok n -> Forall typed_call cs -> node_ok (foldl run_call n cs).
Proof.
  intros Hn Hcs. revert n Hn. induction Hcs as [|c cs Hc _ IH]; intros n Hn; [done|]. cbn [foldl]. apply IH.
  by apply (run_call_life n c "").
Qed.

Lemma commit_durable n after rollback e n' res :
  commit n after rollback e = (n', res) -> durable after = durable (mem n) -> durable rollback = durable (mem n) ->
  durable (mem n') = durable (mem n).
Proof. unfold commit. destruct (persistLocked _ _ _). intros [= <- <-] Ha Hr. cbn [mem]. by case_match. Qed.

(** Finds the commit at the end of an operation. *)
Ltac by_commit :=
  match goal with
  | |- context [commit ?n ?a ?r ?e] =>
      let E := fresh "E" in destruct (commit n a r e) as [? ?] eqn:E; by apply (commit_durable _ _ _ _ _ _ E)
  end.

Lemma transition_durable n ref s e : durable (mem (transition n ref s e).1) = durable (mem n).
Proof. unfold transition. destruct (byRef _ !! _); [|done]. destruct (negb _); [done|]. by_commit. Qed.
Lemma provision_new_durable n id g spec e : durable (mem (provision_new n id g spec e).1) = durable (mem n).
Proof. unfold provision_new. destruct (fst (parseProcessSpec spec)); [done|]. destruct (_ <=? _); [done|]. by_commit. Qed.

Lemma run_call_durable n c : durable (mem (run_call n c)) = durable (mem n).
Proof.
  destruct c as [[] e]; unfold run_call; cbn [fst snd]; try apply transition_durable; [| |done].
  - unfold Provision. destruct (byID _ !! _); [|apply provision_new_durable].
    destruct (byRef _ !! _); [|by rewrite provision_new_durable]. destruct (_ <? _); [by_commit | done].
  - unfold Destroy. destruct (byRef _ !! _); [by_commit | done].
Qed.
Lemma run_durable n cs : durable (mem (foldl run_call n cs)) = durable (mem n).
Proof. revert n. induction cs as [|c cs IH]; intros n; [done|]. cbn [foldl]. by rewrite IH, run_call_durable. Qed.

Lemma load_durable limit f n : LoadTracker limit true f = Ok n -> durable (mem n) = true.
Proof. unfold LoadTracker. cbn [negb]. intros H. case_in H; by injection H as <-. Qed.

(** ** Theorems *)

(** C13: tracked instances survive a restart. Load a durable tracker and make any calls, with any system calls failing: loading the file
    they leave succeeds and yields the same instances under the same references and identifiers, with the status, generation and
    every other field they had in memory; only space inside a spec may be gone. *)
Theorem tracker_survives_restart limit f n cs limit' :
  LoadTracker limit true f = Ok n -> decoded f -> Forall typed_call cs ->
  let n' := foldl run_call n cs in
  exists n2, LoadTracker limit' true (file_of n') = Ok n2 /\ same_instances (mem n') (mem n2).
Proof.
  intros Hl Hd Hcs n'. apply reload.
  - apply run_calls_ok; [|done]. by eapply load_node_ok.
  - unfold n'. rewrite run_durable. by eapply load_durable.
Qed.

(** The lifecycle of an instance. In every state reached from a loaded tracker the two indexes agree, and one more call leaves an
    instance alone, creates it pending, raises its generation, starts it, stops or hibernates it after it has run, or ends it. So a
    generation is never lowered while an instance lives, and an instance that never ran is not stopped or hibernated. *)
Theorem tracker_lifecycle limit stateFile f n cs c id ref :
  LoadTracker limit stateFile f = Ok n -> decoded f -> Forall typed_call cs -> typed_call c ->
  let n1 := foldl run_call n cs in
  lifecycle (view (mem n1) !! id) (view (mem (run_call n1 c)) !! id) /\
  (RefForInstance (mem n1) id = Some ref <->
   exists i, Status_ (mem n1) ref = Ok i /\ InstanceID i = id /\ RuntimeRef i = ref).
Proof.
  intros Hl Hd Hcs Hc n1. assert (Hn : node_ok n1) by (apply run_calls_ok; [by eapply load_node_ok | done]).
  split; [by apply run_call_life|]. destruct Hn as [Ht _ _]. unfold RefForInstance, Status_. split.
  - intros Hb. destruct (ok_id _ Ht _ _ Hb) as (i & Hi & Hid). destruct (ok_ref _ Ht _ _ Hi) as (Hr & _ & _).
    exists i. by rewrite Hi.
  - intros (i & Hi & <- & Hr). destruct (byRef (mem n1) !! ref) as [j|] eqn:E; [|done]. injection Hi as ->.
    by destruct (ok_ref _ Ht _ _ E) as (_ & ? & _).
Qed.

(** retrying a provision is safe. After a successful [Provision], the same request again returns the same instance as already
    existing and changes nothing, whatever spec it carries, even when the tracker is full or its disk fails. *)
Theorem provision_retry n id g spec e n1 i created spec' e' :
  node_ok n -> good_env e -> typed_provision id g spec -> Provision n id g spec e = (n1, Ok (i, created)) ->
  Provision n1 id g spec' e' = (n1, Ok (i, false)) /\ view (mem n1) !! id = Some (Status i, Generation i).
Proof.
  intros Hn He Hty Hp. split; [by eapply provision_again|].
  destruct (provision_spec _ _ _ _ _ _ _ Hn He Hty Hp) as (_ & _ & _ & _ & ->). by rewrite lookup_insert_eq.
Qed.

(** ** Examples *)

(** Longer than every reference in use, so new. *)
Definition fresh_random (used : gset string) : bytes :=
  repeat "0"%char (foldr (fun s m => Nat.max (String.length s) m) 0%nat (elements used)).
Definition sample_env (fault : option fs_step) : env := mkEnv fresh_random 1700000000000000000 fault.

Lemma hex_length l : length (hex_encode l) = (2 * length l)%nat.
Proof. induction l as [|b l IH]; [done|]. unfold hex_encode in *. rewrite bind_cons, length_app, IH. simpl. lia. Qed.

Lemma sample_env_good fault : good_env (sample_env fault).
Proof.
  intros used Hin. apply elem_of_elements in Hin. revert Hin. cbn [sample_env random]. unfold fresh_random.
  set (l := elements used). set (s := "rt_" +:+ _).
  assert (Hlen : (foldr (fun s m => Nat.max (String.length s) m) 0%nat l < String.length s)%nat).
  { unfold s. pose proof (slen_app "rt_" (string_of (hex_encode (repeat "0"%char
      (foldr (fun s m => Nat.max (String.length s) m) 0%nat l))))) as H.
    rewrite <- (zlen_bytes_of (string_of _)), bytes_of_string_of in H. unfold zlen, slen in H.
    rewrite hex_length, repeat_length in H. simpl String.length in H |- *. lia. }
  clearbody s. clearbody l. induction l as [|x l IH]; intros Hin; [by apply not_elem_of_nil in Hin|].
  cbn [foldr] in Hlen. apply elem_of_cons in Hin as [<- | Hin]; [lia|]. apply IH; [lia | done].
Qed.

Definition sample_spec : bytes := bytes_of "{ }".
Definition sample_calls : list (call * env) :=
  [(CProvision "web" 3 sample_spec, sample_env None); (CStart "rt_", sample_env None); (CStop "rt_", sample_env (Some SyncTemp));
   (CProvision "db" 1 [], sample_env None)].
Definition sample_node : Node := mkNode (newTracker 2 true) None.

Lemma sample_typed : typed_provision "web" 3 sample_spec.
Proof. split_and!; [done | done | done |]. right. by vm_compute. Qed.
Lemma sample_calls_typed : Forall typed_call sample_calls.
Proof.
  unfold sample_calls. repeat (apply Forall_cons_2; [split; [apply sample_env_good | cbn [fst]]|]); [|done|done| |by constructor].
  - apply sample_typed.
  - split_and!; try done. by left.
Qed.
Lemma empty_node_ok : node_ok sample_node.
Proof. by apply (load_node_ok 2 true FileMissing). Qed.

Lemma tracker_survives_restart_witness :
  exists n2, LoadTracker 5 true (file_of (foldl run_call sample_node sample_calls)) = Ok n2 /\
    same_instances (mem (foldl run_call sample_node sample_calls)) (mem n2).
Proof. apply (tracker_survives_restart 2 FileMissing sample_node sample_calls 5); [done | done | apply sample_calls_typed]. Defined.

Lemma tracker_lifecycle_witness :
  let n1 := foldl run_call sample_node sample_calls in
  lifecycle (Some (StatusRunning, 3)) (view (mem (run_call n1 (CStop "rt_", sample_env None))) !! "web"%string) /\
  view (mem n1) !! "web"%string = Some (StatusRunning, 3).
Proof.
  assert (E : view (mem (foldl run_call sample_node sample_calls)) !! "web"%string = Some (StatusRunning, 3)) by (vm_compute; reflexivity).
  split; [|exact E]. rewrite <- E.
  apply (tracker_lifecycle 2 true FileMissing sample_node sample_calls (CStop "rt_", sample_env None) "web" "rt_").
  - done.
  - done.
  - apply sample_calls_typed.
  - split; [apply sample_env_good | done].
Defined.

Definition sample_provisioned : Node := (Provision sample_node "web" 3 sample_spec (sample_env None)).1.
Definition sample_instance : Instance :=
  mkInstance "web" "rt_" StatusPending 3 1700000000000000000 sample_spec 0 "" None "".

Lemma provision_retry_witness :
  Provision sample_provisioned "web" 3 [] (sample_env (Some Rename)) = (sample_provisioned, Ok (sample_instance, false)) /\
  view (mem sample_provisioned) !! "web"%string = Some (StatusPending, 3).
Proof.
  apply (provision_retry sample_node "web" 3 sample_spec (sample_env None) sample_provisioned sample_instance true).
  - apply empty_node_ok.
  - apply sample_env_good.
  - apply sample_typed.
  - vm_compute. reflexivity.
Defined.

End Tracker.
