(* ===== verification/Uplink.v ===== *)
(** * The uplink command dispatcher ([src/internal/uplink/dispatch.go], [executeBatch] of [poller.go])

    Commands polled from the control plane are executed against the tracker and answered with reports. The dispatcher depends on
    the tracker through an interface, as in the source: [TrackerOps] has its methods, [TrackerLaws] what it promises, stated on the view
    (status and generation by identifier). The theorems are proved against the interface; [Tracker] implements it. Logging, metrics and the
    audit log are left out; a Go run-time panic is [None]. *)

From Stdlib Require Import Ascii.
From S2P Require Import Prelude GoText GoFS GoJson GoCrypto GoRune Tracker.
Import Tracker.

Module Uplink.

Definition runtimeRefPrefix : string := "uplink:".
Definition kindProvision : string := "provision".
Definition kindStart : string := "start".
Definition kindStop : string := "stop".
Definition kindHibernate : string := "hibernate".
Definition kindDestroy : string := "destroy".
Definition statusDone : string := "done".
Definition statusFailed : string := "failed".

Record command := mkCommand {
  CommandID : string; NodeID : string; cRuntimeRef : string; Kind : string; Payload : bytes;
  ClaimGeneration : Z; InstanceGeneration : Z }.

Record report := mkReport {
  rCommandID : string; rStatus : string; ReportedStatus : string; rClaimGeneration : Z; Result : bytes }.

(** ** Runtime references *)


Definition digit_rune (r : Z) : bool := (48 <=? r) && (r <=? 57).
Definition netstringLength (s : list Z) : result Z :=
  require negb (bool_decide (s = [])) else "empty node_id length" in
  require forallb digit_rune s else "non-numeric node_id length" in
  let value := foldl (fun acc r => acc * 10 + (r - 48)) 0 s in
  require value <=? 2 ^ 63 - 1 else "value out of range" in
  Ok value.

Fixpoint indexRune (rs : list Z) (target : Z) : option nat :=
  match rs with
  | [] => None
  | r :: rs => if r =? target then Some 0%nat else S <$> indexRune rs target
  end.

(** [body[a:b]] panics unless [0 <= a <= b]; [b <= len(body)] was checked. *)
Definition parseRuntimeRef (ref : string) : option (result (string * string)) :=
  if negb (has_prefix ref runtimeRefPrefix) then Some (Err "runtime_ref does not begin with its prefix") else
  let body := to_runes (trim_prefix ref runtimeRefPrefix) in
  match indexRune body 58 with
  | None => Some (Err "runtime_ref is missing the node_id length separator")
  | Some sep =>
      match netstringLength (take sep body) with
      | Err _ => Some (Err "runtime_ref has a bad node_id length")
      | Ok length =>
          let contentStart := Z.of_nat sep + 1 in
          let contentEnd := int64 (contentStart + length) in
          if zlen body <? contentEnd then Some (Err "runtime_ref node_id length overruns the ref")
          else if contentEnd <? contentStart then None
          else
          let nodeID := of_runes (take (Z.to_nat length) (drop (Z.to_nat contentStart) body)) in
          match drop (Z.to_nat contentEnd) body with
          | [] => Some (Err "runtime_ref is missing the separator after node_id")
          | r :: rest =>
              if negb (r =? 58) then Some (Err "runtime_ref is missing the separator after node_id") else
              let instanceID := of_runes rest in
              if String.eqb nodeID "" || String.eqb instanceID ""
              then Some (Err "runtime_ref has an empty node_id or instance_id")
              else Some (Ok (nodeID, instanceID))
          end
      end
  end.

(** ** Reports *)

Definition reportedStatus (s : string) : option string :=
  if String.eqb s StatusPending then Some "provisioning"%string
  else if String.eqb s StatusRunning then Some "running"%string
  else if String.eqb s StatusStopped then Some "stopped"%string
  else if String.eqb s StatusHibernated then Some "hibernated"%string
  else if String.eqb s StatusFailed then Some "failed"%string
  else if String.eqb s StatusDestroyed then Some "stopped"%string
  else None.

Definition emptyResult : bytes := bytes_of "{}".
Definition errorResult (reason : string) : bytes := json_print (JObj [("error"%string, JStr reason)]).

Definition fail (rep : report) (reason : string) : report :=
  mkReport (rCommandID rep) statusFailed "failed" (rClaimGeneration rep) (errorResult reason).
Definition succeed (rep : report) (status : string) : report :=
  match reportedStatus status with
  | None => fail rep "unmappable tracker status"
  | Some reported => mkReport (rCommandID rep) statusDone reported (rClaimGeneration rep) emptyResult
  end.

(** ** The interface *)

Class TrackerOps (T E : Type) := {
  provision_ : T -> string -> Z -> bytes -> E -> T * result (Instance * bool);
  start_ : T -> string -> E -> T * result Instance;
  stop_ : T -> string -> E -> T * result Instance;
  hibernate_ : T -> string -> E -> T * result Instance;
  destroy_ : T -> string -> E -> T * result Instance;
  refForInstance : T -> string -> option string;
  generationForInstance : T -> string -> option Z;
}.

(** [execute] returns [(rep, retry, fenced)]: a report to send, a report to defer, or nothing. *)
Inductive outcome :=
| Reported (rep : report)
| Deferred (rep : report)
| Fenced.

Section dispatcher.
Context {T E : Type} `{TrackerOps T E}.
Variable nodeID : string.

Definition provision (t : T) (rep : report) (instanceID : string) (generation : Z) (payload : bytes) (e : E) : T * report :=
  let spec := if bool_decide (trim_bytes payload = bytes_of "null") then [] else payload in
  if negb (bool_decide (spec = [])) && negb (IsJSONObject spec)
  then (t, fail rep "provision payload must be a JSON object") else
  let '(t, res) := provision_ t instanceID generation spec e in
  match res with
  | Err _ => (t, fail rep "provision failed")
  | Ok (inst, _) => (t, succeed rep (Status inst))
  end.

Definition transition (t : T) (rep : report) (instanceID kind : string) (op : T -> string -> E -> T * result Instance) (e : E)
  : T * outcome :=
  match refForInstance t instanceID with
  | None =>
      let rep := fail rep (kind +:+ " names an unknown instance") in
      (t, if negb (String.eqb kind kindStart) then Reported rep else Deferred rep)
  | Some ref =>
      let '(t, res) := op t ref e in
      match res with
      | Err _ => (t, Reported (fail rep (kind +:+ " failed")))
      | Ok inst => (t, Reported (succeed rep (Status inst)))
      end
  end.

Definition destroy (t : T) (rep : report) (instanceID : string) (e : E) : T * report :=
  match refForInstance t instanceID with
  | None => (t, succeed rep StatusDestroyed)
  | Some ref =>
      let '(t, res) := destroy_ t ref e in
      match res with
      | Err err => (t, if String.eqb err ErrNotFound then succeed rep StatusDestroyed else fail rep "destroy failed")
      | Ok inst => (t, succeed rep (Status inst))
      end
  end.

Definition reported (p : T * report) : T * outcome := (p.1, Reported p.2).

Definition execute (t : T) (cmd : command) (e : E) : option (T * outcome) :=
  let rep := mkReport (CommandID cmd) "" "" (ClaimGeneration cmd) [] in
  match parseRuntimeRef (cRuntimeRef cmd) with
  | None => None
  | Some (Err _) => Some (t, Reported (fail rep "runtime_ref is unparseable"))
  | Some (Ok (refNode, instanceID)) =>
      if negb (String.eqb (NodeID cmd) nodeID) || negb (String.eqb refNode nodeID) || negb (String.eqb (NodeID cmd) refNode)
      then Some (t, Reported (fail rep "command node_id and runtime_ref must address this node")) else
      let generation := if InstanceGeneration cmd <? 0 then 0 else InstanceGeneration cmd in
      if from_option (fun tracked => negb (generation =? 0) && (generation <? tracked)) false (generationForInstance t instanceID)
      then Some (t, Fenced) else
      Some (
        if String.eqb (Kind cmd) kindProvision then reported (provision t rep instanceID generation (Payload cmd) e)
        else if String.eqb (Kind cmd) kindStart then transition t rep instanceID (Kind cmd) start_ e
        else if String.eqb (Kind cmd) kindStop then transition t rep instanceID (Kind cmd) stop_ e
        else if String.eqb (Kind cmd) kindHibernate then transition t rep instanceID (Kind cmd) hibernate_ e
        else if String.eqb (Kind cmd) kindDestroy then reported (destroy t rep instanceID e)
        else (t, Reported (fail rep "unknown command kind")))
  end.

(** ** A batch

    Every executed command takes one environment of the list; the list ends where the context is cancelled. *)

(** The first pass: the reports sent, the commands deferred and what is left of the environments, or [Err] on cancellation. *)
Fixpoint first_pass (t : T) (cmds : list command) (envs : list E) : option (T * list report * list command * option (list E)) :=
  match cmds, envs with
  | [], _ => Some (t, [], [], Some envs)
  | _ :: _, [] => Some (t, [], [], None)
  | cmd :: cmds, e :: envs =>
      match execute t cmd e with
      | None => None
      | Some (t, o) =>
          match first_pass t cmds envs with
          | None => None
          | Some (t, reps, deferred, rest) =>
              Some (match o with
                    | Fenced => (t, reps, deferred, rest)
                    | Deferred _ => (t, reps, cmd :: deferred, rest)
                    | Reported rep => (t, rep :: reps, deferred, rest)
                    end)
          end
      end
  end.

(** The retry pass over the deferred starts: an instance that is still unknown is reported as failed. *)
Fixpoint retry_pass (t : T) (cmds : list command) (envs : list E) : option (T * list report) :=
  match cmds, envs with
  | [], _ | _, [] => Some (t, [])
  | cmd :: cmds, e :: envs =>
      match execute t cmd e with
      | None => None
      | Some (t, o) =>
          match retry_pass t cmds envs with
          | None => None
          | Some (t, reps) =>
              Some (t, match o with Fenced => reps | Deferred rep | Reported rep => rep :: reps end)
          end
      end
  end.

Definition executeBatch (t : T) (cmds : list command) (envs : list E) : option (T * list report) :=
  match first_pass t cmds envs with
  | None => None
  | Some (t, reps, _, None) => Some (t, reps)
  | Some (t, reps, deferred, Some envs) =>
      match retry_pass t deferred envs with
      | None => None
      | Some (t, more) => Some (t, reps ++ more)
      end
  end.

End dispatcher.

(** ** What the tracker promises *)

Section laws.
Context {T E : Type} `{TrackerOps T E}.
Variables (good : T -> Prop) (sound reliable : E -> Prop) (seen : T -> gmap string (string * Z)).

(** [op] moves an instance to status [s] when the table allows it, and never fails on its own. *)
Definition moves (op : T -> string -> E -> T * result Instance) (s : string) : Prop :=
  forall t id ref e, good t -> refForInstance t id = Some ref ->
  let '(t', res) := op t ref e in
  good t' /\ refForInstance t' id = Some ref /\
  (forall st g, seen t !! id = Some (st, g) -> transitionAllowed st s = true -> reliable e -> is_ok res = true) /\
  match res with
  | Err _ => seen t' = seen t
  | Ok i => exists st g, seen t !! id = Some (st, g) /\ transitionAllowed st s = true /\ Status i = s /\
      seen t' = <[id := (s, g)]> (seen t)
  end.
End laws.

Class TrackerLaws (T E : Type) `{TrackerOps T E} := {
  good : T -> Prop;
  sound : E -> Prop;
  reliable : E -> Prop;
  seen : T -> gmap string (string * Z);
  law_ref t id : good t -> is_Some (refForInstance t id) <-> is_Some (seen t !! id);
  law_generation t id : good t -> generationForInstance t id = snd <$> seen t !! id;
  law_provision t id g spec e : good t -> sound e -> typed_provision id g spec ->
    let '(t', res) := provision_ t id g spec e in
    good t' /\
    match res with
    | Err _ => seen t' = seen t
    | Ok (i, _) =>
        seen t' = <[id := (Status i, Generation i)]> (seen t) /\
        match seen t !! id with
        | None => Status i = StatusPending /\ Generation i = g
        | Some (st, g0) => Status i = st /\ Generation i = Z.max g0 g
        end /\
        (forall spec' e', provision_ t' id g spec' e' = (t', Ok (i, false)))
    end;
  law_start : moves good reliable seen start_ StatusRunning;
  law_stop : moves good reliable seen stop_ StatusStopped;
  law_hibernate : moves good reliable seen hibernate_ StatusHibernated;
  law_destroy t id ref e : good t -> refForInstance t id = Some ref ->
    let '(t', res) := destroy_ t ref e in
    good t' /\
    match res with
    | Err err => err <> ErrNotFound /\ seen t' = seen t
    | Ok i => Status i = StatusDestroyed /\ seen t' = delete id (seen t)
    end;
}.

(** ** The tracker keeps the promise *)

#[global] Instance tracker_ops : TrackerOps Node env := {
  provision_ := Provision; start_ := Start; stop_ := Stop; hibernate_ := Hibernate; destroy_ := Destroy;
  refForInstance n id := RefForInstance (mem n) id;
  generationForInstance n id := GenerationForInstance (mem n) id;
}.

Lemma tracker_moves s : verb s = true -> moves (E := env) node_ok (fun e => fault e = None) (fun n => view (mem n)) (fun n ref e => Tracker.transition n ref s e) s.
Proof.
  intros Hs n id ref e Hn Href. pose proof (transition_reliable n ref s e) as Hrel. pose proof (transition_ids n ref s e) as Hids.
  destruct (Tracker.transition n ref s e) as [n' res] eqn:Et. cbn [fst snd] in Hrel, Hids.
  destruct (transition_spec n ref s e n' res Hn Hs Et) as (Hn' & Hres).
  cbn [refForInstance tracker_ops] in Href |- *. unfold RefForInstance in *.
  destruct (ok_id _ (ok_tracker n Hn) _ _ Href) as (i & Hi & Hid).
  assert (Hv : view (mem n) !! id = Some (Status i, Generation i)) by (subst id; by apply (view_tracked _ ref _ (ok_tracker n Hn))).
  split_and!; [done | by rewrite Hids | |].
  - intros st g Hst Ha He. rewrite Hv in Hst. injection Hst as <- <-. by rewrite (Hrel i).
  - destruct res as [j|]; [|done]. destruct Hres as (from & Hf & -> & Ha & ->). rewrite Hi in Hf. injection Hf as <-.
    exists (Status i), (Generation i). cbn [with_status Status Generation InstanceID]. by rewrite Hid.
Qed.

#[global, program] Instance tracker_laws : TrackerLaws Node env := {
  good := node_ok; sound := good_env; reliable e := fault e = None; seen n := view (mem n) }.
Next Obligation. intros n id Hn. symmetry. apply view_known, Hn. Qed.
Next Obligation.
  intros n id Hn. cbn. unfold GenerationForInstance. rewrite view_lookup.
  destruct (byID (mem n) !! id) as [ref|]; [|done]. simpl. by destruct (byRef (mem n) !! ref).
Qed.
Next Obligation.
  intros n id g spec e Hn He Hty. cbn [provision_ tracker_ops].
  destruct (Provision n id g spec e) as [n' res] eqn:Ep. destruct (provision_spec _ _ _ _ _ _ _ Hn He Hty Ep) as (Hn' & Hres).
  split; [done|]. destruct res as [[i created]|]; [|done]. destruct Hres as (Hid & Hi & Hpr & Hv). split; [done|].
  unfold provisioned in Hpr. split; [by destruct (view (mem n) !! id) as [[]|]; destruct Hpr as (_ & ? & ?)|].
  intros spec' e'. by apply (provision_again n id g spec e n' i created).
Qed.
Next Obligation. by apply tracker_moves. Qed.
Next Obligation. by apply tracker_moves. Qed.
Next Obligation. by apply tracker_moves. Qed.
Next Obligation.
  intros n id ref e Hn Href. cbn in Href |- *. unfold RefForInstance in Href.
  destruct (Destroy n ref e) as [n' res] eqn:Ed. destruct (destroy_spec _ _ _ _ _ Hn Ed) as (Hn' & Hres). split; [done|].
  destruct (ok_id _ (ok_tracker n Hn) _ _ Href) as (i & Hi & Hid). destruct res as [j|err].
  - destruct Hres as (from & Hf & -> & ->). rewrite Hi in Hf. injection Hf as <-. cbn [with_status InstanceID Status]. by rewrite Hid.
  - destruct Hres as (Hv & Hne). split; [by apply Hne; rewrite Hi | done].
Qed.

(** ** Properties of references *)

(** The control plane's format: the node's length counts code points. *)
Definition format_runtime_ref (node inst : string) : string :=
  runtimeRefPrefix +:+ string_of (itoa (zlen (to_runes node))) +:+ ":" +:+ node +:+ ":" +:+ inst.

Lemma parse_sound ref node inst :
  parseRuntimeRef ref = Some (Ok (node, inst)) -> inst <> ""%string /\ utf8_valid inst = true.
Proof.
  unfold parseRuntimeRef. destruct (negb _); [done|]. set (body := to_runes _).
  assert (Hwf : Forall wf_rune body) by apply wf_to_runes.
  destruct (indexRune body 58) as [sep|]; [|done]. destruct (netstringLength _) as [len|]; [|done].
  destruct (_ <? _); [done|]. destruct (_ <? _); [done|].
  destruct (drop _ body) as [|r rest] eqn:Ed; [done|]. destruct (negb _); [done|].
  destruct (String.eqb_spec (of_runes rest) ""); [by rewrite orb_true_r|]. destruct (_ || _); [done|].
  intros [= _ <-]. split; [done|]. apply utf8_of_runes. apply (Forall_drop _ (Z.to_nat (int64 (Z.of_nat sep + 1 + len)))) in Hwf.
  rewrite Ed in Hwf. by apply Forall_cons in Hwf as (_ & ?).
Qed.

Lemma indexRune_first l k : Forall (fun r => r <> 58) l -> indexRune (l ++ 58 :: k) 58 = Some (length l).
Proof.
  induction 1 as [|r l Hr Hl IH]; [done|]. cbn [app indexRune length]. by rewrite (proj2 (Z.eqb_neq _ _)), IH.
Qed.

Lemma digits_runes z : 0 <= z -> Forall (fun r => digit_rune r = true) (u8 <$> itoa z).
Proof.
  intros Hz. unfold itoa. rewrite (proj2 (Z.ltb_ge _ _)) by lia. destruct (itoa_abs_spec z Hz) as (_ & Hd & _).
  apply Forall_fmap, Forall_forall. intros b Hb. rewrite forallb_forall in Hd. by apply Hd, list_elem_of_In.
Qed.

Lemma fold_runes l : forall acc,
  foldl (fun acc r => acc * 10 + (r - 48)) acc (u8 <$> l) = foldl (fun acc b => acc * 10 + (u8 b - 48)) acc l.
Proof. induction l as [|b l IH]; intros acc; [done|]. apply IH. Qed.

Lemma netstring_itoa z : 0 <= z <= 2 ^ 63 - 1 -> netstringLength (u8 <$> itoa z) = Ok z.
Proof.
  intros Hz. pose proof (digits_runes z ltac:(lia)) as Hd. unfold netstringLength.
  assert (He : itoa z = itoa_abs z) by (unfold itoa; by rewrite (proj2 (Z.ltb_ge _ _)) by lia).
  destruct (itoa_abs_head z ltac:(lia)) as (b & t & Eb & _). destruct (itoa_abs_spec z ltac:(lia)) as (Hv & _).
  rewrite bool_decide_false by (by rewrite He, Eb). cbn [negb].
  replace (forallb digit_rune (u8 <$> itoa z)) with true.
  2: { symmetry. rewrite forallb_forall. intros r Hr%list_elem_of_In. rewrite Forall_forall in Hd. by apply Hd. }
  rewrite fold_runes, He. fold (dec_value (itoa_abs z)). rewrite Hv. by rewrite (proj2 (Z.leb_le _ _)) by lia.
Qed.

Lemma itoa_ascii z : 0 <= z -> Forall (fun b => u8 b < 128) (itoa z).
Proof.
  intros Hz. pose proof (digits_runes z Hz) as Hd. rewrite Forall_fmap in Hd. eapply Forall_impl; [exact Hd|].
  intros b Hb. unfold compose, digit_rune in Hb. breflect. lia.
Qed.

Lemma format_runes node inst :
  utf8_valid node = true ->
  to_runes (string_of (itoa (zlen (to_runes node))) +:+ ":" +:+ node +:+ ":" +:+ inst) =
  (u8 <$> itoa (zlen (to_runes node))) ++ 58 :: to_runes node ++ 58 :: to_runes inst.
Proof.
  intros Hn. pose proof (itoa_ascii (zlen (to_runes node)) ltac:(auto with len)) as Ha.
  rewrite to_runes_app by (apply utf8_ascii; by rewrite bytes_of_string_of).
  rewrite to_runes_ascii, bytes_of_string_of by (by rewrite bytes_of_string_of). f_equal.
  rewrite to_runes_app by done. change (to_runes ":") with [58]. cbn [app]. f_equal.
  rewrite to_runes_app by done. by f_equal.
Qed.

Lemma trim_ref_prefix rest :
  trim_prefix (runtimeRefPrefix +:+ rest) runtimeRefPrefix = rest /\ has_prefix (runtimeRefPrefix +:+ rest) runtimeRefPrefix = true.
Proof. unfold trim_prefix. rewrite has_prefix_app. by split. Qed.

Lemma zlen_to_runes s : zlen (to_runes s) <= slen s.
Proof.
  rewrite <- zlen_bytes_of. unfold to_runes. generalize (bytes_of s). intros l. pattern l, (segs l). apply segs_ind; clear l.
  - done.
  - intros b t _ _ IH. rewrite fmap_cons, !zlen_cons. lia.
  - intros b t _ IH. rewrite fmap_cons, !zlen_cons. lia.
  - intros b raw r t Hl _ _ _ _ IH. rewrite fmap_cons, zlen_cons, zlen_app. unfold zlen in *. lia.
Qed.

(** ** Execution against the interface *)

(** The instance a command addresses on this node. *)
Definition addressed (nodeID : string) (cmd : command) : option string :=
  match parseRuntimeRef (cRuntimeRef cmd) with
  | Some (Ok (node, inst)) => if String.eqb (NodeID cmd) nodeID && String.eqb node nodeID then Some inst else None
  | _ => None
  end.

Definition echoes (cmd : command) (o : outcome) : Prop :=
  match o with
  | Fenced => True
  | Reported rep | Deferred rep => rCommandID rep = CommandID cmd /\ rClaimGeneration rep = ClaimGeneration cmd
  end.

Section properties.
Context {T E : Type} `{TrackerLaws T E}.
Variable nodeID : string.

(** The generation a command is fenced with. *)
Definition generation_of (cmd : command) : Z := if InstanceGeneration cmd <? 0 then 0 else InstanceGeneration cmd.
Definition stale (t : T) (cmd : command) (id : string) : bool :=
  from_option (fun tracked => negb (generation_of cmd =? 0) && (generation_of cmd <? tracked)) false (generationForInstance t id).

(** The dispatch behind the address check and the fence. *)
Definition dispatch (t : T) (cmd : command) (id : string) (e : E) : T * outcome :=
  let rep := mkReport (CommandID cmd) "" "" (ClaimGeneration cmd) [] in
  if String.eqb (Kind cmd) kindProvision then reported (provision t rep id (generation_of cmd) (Payload cmd) e)
  else if String.eqb (Kind cmd) kindStart then transition t rep id (Kind cmd) start_ e
  else if String.eqb (Kind cmd) kindStop then transition t rep id (Kind cmd) stop_ e
  else if String.eqb (Kind cmd) kindHibernate then transition t rep id (Kind cmd) hibernate_ e
  else if String.eqb (Kind cmd) kindDestroy then reported (destroy t rep id e)
  else (t, Reported (fail rep "unknown command kind")).

Lemma execute_cases t cmd e :
  match addressed nodeID cmd with
  | Some id =>
      id <> ""%string /\ utf8_valid id = true /\
      execute nodeID t cmd e = Some (if stale t cmd id then (t, Fenced) else dispatch t cmd id e)
  | None => execute nodeID t cmd e = None /\ parseRuntimeRef (cRuntimeRef cmd) = None \/
      exists reason, execute nodeID t cmd e =
        Some (t, Reported (fail (mkReport (CommandID cmd) "" "" (ClaimGeneration cmd) []) reason))
  end.
Proof.
  unfold addressed, execute. destruct (parseRuntimeRef (cRuntimeRef cmd)) as [[[node inst]|err]|] eqn:Ep; [|eauto|by left].
  destruct (String.eqb_spec (NodeID cmd) nodeID) as [E1|], (String.eqb_spec node nodeID) as [E2|]; cbn [negb orb andb]; eauto.
  destruct (parse_sound _ _ _ Ep) as (? & ?). rewrite E1, E2, String.eqb_refl. cbn [negb]. split_and!; [done|done|].
  unfold stale, dispatch, generation_of. by destruct (from_option _ _ _).
Qed.

Lemma succeed_echo rep st : rCommandID (succeed rep st) = rCommandID rep /\ rClaimGeneration (succeed rep st) = rClaimGeneration rep.
Proof. unfold succeed. by destruct (reportedStatus st). Qed.

(** What a dispatched command does: at most its own instance changes, and the report carries the command's identity. *)
Definition confined (t : T) (cmd : command) (id : string) (p : T * outcome) : Prop :=
  good p.1 /\ (forall id', id' <> id -> seen p.1 !! id' = seen t !! id') /\ echoes cmd p.2 /\ p.2 <> Fenced.

Lemma transition_confined t cmd id kind op s e :
  good t -> moves good reliable seen op s ->
  confined t cmd id (transition t (mkReport (CommandID cmd) "" "" (ClaimGeneration cmd) []) id kind op e).
Proof.
  intros Ht Hop. unfold transition, confined. destruct (refForInstance t id) as [ref|] eqn:Er.
  - specialize (Hop t id ref e Ht Er). destruct (op t ref e) as [t' [i|err]]; cbn [fst snd].
    + destruct Hop as (Hg & _ & _ & st & g & _ & _ & _ & ->). split_and!; [done| |apply succeed_echo|done].
      intros id' Hne. by rewrite lookup_insert_ne.
    + destruct Hop as (Hg & _ & _ & ->). done.
  - by destruct (negb _).
Qed.

(** The spec [provision] passes on. *)
Definition spec_of (payload : bytes) : bytes := if bool_decide (trim_bytes payload = bytes_of "null") then [] else payload.
Definition spec_ok (payload : bytes) : bool := bool_decide (spec_of payload = []) || IsJSONObject (spec_of payload).

Lemma provision_cases t rep id g payload e :
  provision t rep id g payload e =
  if spec_ok payload then
    let '(t, res) := provision_ t id g (spec_of payload) e in
    match res with Err _ => (t, fail rep "provision failed") | Ok (inst, _) => (t, succeed rep (Status inst)) end
  else (t, fail rep "provision payload must be a JSON object").
Proof.
  unfold provision, spec_ok. fold (spec_of payload).
  destruct (bool_decide (spec_of payload = [])), (IsJSONObject (spec_of payload)); done.
Qed.

Lemma spec_typed cmd id payload :
  id <> ""%string -> utf8_valid id = true -> spec_ok payload = true -> typed_provision id (generation_of cmd) (spec_of payload).
Proof.
  intros Hid Hu Hs. split_and!; [done|done| |].
  - unfold generation_of. case_match; [lia|]. by breflect.
  - unfold spec_ok in Hs. breflect. destruct Hs as [Hs | Hs]; breflect; auto.
Qed.

Lemma dispatch_confined t cmd id e :
  good t -> sound e -> id <> ""%string -> utf8_valid id = true -> confined t cmd id (dispatch t cmd id e).
Proof.
  intros Ht He Hid Hu. unfold dispatch.
  destruct (String.eqb (Kind cmd) kindProvision).
  { rewrite provision_cases. destruct (spec_ok (Payload cmd)) eqn:Es; [|done].
    pose proof (law_provision t id _ _ e Ht He (spec_typed cmd id _ Hid Hu Es)) as Hl.
    destruct (provision_ _ _ _ _ _) as [t' [[i c]|err]]; unfold confined, reported; cbn [fst snd].
    - destruct Hl as (Hg & -> & _). split_and!; [done| |apply succeed_echo|done]. intros id' Hne. by rewrite lookup_insert_ne.
    - by destruct Hl as (Hg & ->). }
  destruct (String.eqb (Kind cmd) kindStart); [eapply transition_confined, law_start; done|].
  destruct (String.eqb (Kind cmd) kindStop); [eapply transition_confined, law_stop; done|].
  destruct (String.eqb (Kind cmd) kindHibernate); [eapply transition_confined, law_hibernate; done|].
  destruct (String.eqb (Kind cmd) kindDestroy); [|done].
  unfold destroy, confined, reported. destruct (refForInstance t id) as [ref|] eqn:Er; [|cbn [fst snd]; split_and!; try done; apply succeed_echo].
  pose proof (law_destroy t id ref e Ht Er) as Hl. destruct (destroy_ _ _ _) as [t' [i|err]]; cbn [fst snd].
  - destruct Hl as (Hg & _ & ->). split_and!; [done| |apply succeed_echo|done]. intros id' Hne. by rewrite lookup_delete_ne.
  - destruct Hl as (Hg & _ & ->). split_and!; [done|done| |done]. destruct (String.eqb _ _); [apply succeed_echo | done].
Qed.

(** C14: a command is confined. It changes at most the instance its reference names, and only when both node identifiers are this node's;
    a command for another node or with an unreadable reference changes nothing and is reported failed. A command is fenced exactly when it carries
    a positive generation below the tracked one, and then nothing changes and nothing is reported. Every other outcome echoes the command's
    identifier and claim generation. *)
Theorem execute_confined t cmd e t' o :
  good t -> sound e -> execute nodeID t cmd e = Some (t', o) ->
  good t' /\ echoes cmd o /\
  (forall id, addressed nodeID cmd <> Some id -> seen t' !! id = seen t !! id) /\
  (addressed nodeID cmd = None -> t' = t /\ exists rep, o = Reported rep /\ rStatus rep = statusFailed) /\
  (o = Fenced <-> exists id st g, addressed nodeID cmd = Some id /\ seen t !! id = Some (st, g) /\ 0 < InstanceGeneration cmd < g) /\
  (o = Fenced -> t' = t).
Proof.
  intros Ht He Hx. pose proof (execute_cases t cmd e) as Hc. destruct (addressed nodeID cmd) as [id|].
  - destruct Hc as (Hid & Hu & Hc). rewrite Hx in Hc. injection Hc as Hc.
    assert (Hst : stale t cmd id = true <-> exists st g, seen t !! id = Some (st, g) /\ 0 < InstanceGeneration cmd < g).
    { unfold stale. rewrite law_generation by done. destruct (seen t !! id) as [[st g]|] eqn:Es; cbn [fmap option_fmap option_map from_option snd];
        [|naive_solver]. rewrite andb_true_iff, negb_true_iff, Z.eqb_neq, Z.ltb_lt. unfold generation_of.
      destruct (Z.ltb_spec (InstanceGeneration cmd) 0); naive_solver lia. }
    destruct (stale t cmd id) eqn:Es.
    + injection Hc as -> ->. split_and!; try done. split; [|done]. intros _. destruct (proj1 Hst eq_refl) as (st & g & ? & ?). eauto 6.
    + pose proof (dispatch_confined t cmd id e Ht He Hid Hu) as Hd. rewrite <- Hc in Hd. destruct Hd as (Hg & Hoth & Hecho & Hnf).
      cbn [fst snd] in *. split_and!; try done.
      * intros id' Hne. apply Hoth. congruence.
      * split; [done|]. intros (id' & st & g & [= <-] & Hrest). assert (false = true) by (apply Hst; eauto). done.
  - destruct Hc as [(Hc & _) | (reason & Hc)]; [congruence|]. rewrite Hx in Hc. injection Hc as -> ->. split_and!; try done; [eauto|].
    split; [done|]. by intros (? & ? & ? & ? & _).
Qed.

Lemma transition_again t rep id kind op s e t' rep' e' :
  good t -> moves good reliable seen op s -> reportedStatus s <> None -> reliable e' ->
  transition t rep id kind op e = (t', Reported rep') -> rStatus rep' = statusDone ->
  exists t2, transition t' rep id kind op e' = (t2, Reported rep') /\ seen t2 = seen t' /\
    generationForInstance t' id = generationForInstance t id.
Proof.
  intros Ht Hop Hs He'. unfold transition. destruct (refForInstance t id) as [ref|] eqn:Er.
  2: { destruct (negb _); [|done]. by intros [= <- <-] Hd. }
  pose proof (Hop t id ref e Ht Er) as Hl. destruct (op t ref e) as [t1 [i|err]]; [|by intros [= <- <-] Hd].
  intros [= <- <-] _. destruct Hl as (Hg & Hr & _ & st & g & Hv & Ha & Hi & Hv'). rewrite Hr.
  pose proof (Hop t1 id ref e' Hg Hr) as Hl. destruct (op t1 ref e') as [t2 [j|err]]; destruct Hl as (Hg2 & _ & Hok & Hl).
  - destruct Hl as (st2 & g2 & Hv2 & _ & Hj & Hv2'). exists t2. rewrite Hi, Hj. split_and!; [done| |].
    + rewrite Hv' in Hv2. rewrite lookup_insert_eq in Hv2. injection Hv2 as <- <-. by rewrite Hv2', Hv', insert_insert_eq.
    + rewrite !law_generation by done. by rewrite Hv', lookup_insert_eq, Hv.
  - exfalso. assert (is_ok (@Err Instance err) = true); [|done]. apply (Hok s g); [by rewrite Hv', lookup_insert_eq| |done].
    unfold transitionAllowed. by rewrite String.eqb_refl.
Qed.

Lemma stale_same t t' cmd id :
  stale t cmd id = false -> generationForInstance t' id = generationForInstance t id -> stale t' cmd id = false.
Proof. unfold stale. by intros ? ->. Qed.

Lemma dispatch_again t cmd id e t' rep e' :
  good t -> sound e -> reliable e' -> id <> ""%string -> utf8_valid id = true -> stale t cmd id = false ->
  dispatch t cmd id e = (t', Reported rep) -> rStatus rep = statusDone ->
  exists t2, dispatch t' cmd id e' = (t2, Reported rep) /\ seen t2 = seen t' /\ stale t' cmd id = false.
Proof.
  intros Ht He He' Hid Hu Hs. unfold dispatch.
  destruct (String.eqb (Kind cmd) kindProvision).
  { rewrite !provision_cases. destruct (spec_ok (Payload cmd)) eqn:Esp; [|by intros [= <- <-] Hd].
    pose proof (law_provision t id _ _ e Ht He (spec_typed cmd id _ Hid Hu Esp)) as Hl.
    destruct (provision_ t _ _ _ _) as [t1 [[i c]|err]]; unfold reported; cbn [fst snd]; [|by intros [= <- <-] Hd].
    destruct Hl as (Hg & Hv & Hi & Hag). intros [= <- <-] _. exists t1. rewrite Hag. cbn [fst snd]. split_and!; [done|done|].
    unfold stale in *. rewrite law_generation in Hs |- * by done. rewrite Hv, lookup_insert_eq. cbn [fmap option_fmap option_map from_option snd].
    destruct (seen t !! id) as [[st g0]|]; cbn [fmap option_fmap option_map from_option snd] in Hs.
    - destruct Hi as (_ & ->). rewrite andb_false_iff, negb_false_iff, Z.eqb_eq, Z.ltb_ge in Hs |- *. lia.
    - destruct Hi as (_ & ->). rewrite Z.ltb_irrefl. by rewrite andb_false_r. }
  assert (Hmove : forall op s, moves good reliable seen op s -> reportedStatus s <> None ->
    forall r0, transition t r0 id (Kind cmd) op e = (t', Reported rep) -> rStatus rep = statusDone ->
    exists t2, transition t' r0 id (Kind cmd) op e' = (t2, Reported rep) /\ seen t2 = seen t' /\ stale t' cmd id = false).
  { intros op s Hop Hrs r0 Htr Hd. destruct (transition_again _ _ _ _ _ _ _ _ _ _ Ht Hop Hrs He' Htr Hd) as (t2 & ? & ? & Hge).
    exists t2. split_and!; try done. by eapply stale_same. }
  destruct (String.eqb (Kind cmd) kindStart); [apply (Hmove _ _ law_start); done|].
  destruct (String.eqb (Kind cmd) kindStop); [apply (Hmove _ _ law_stop); done|].
  destruct (String.eqb (Kind cmd) kindHibernate); [apply (Hmove _ _ law_hibernate); done|].
  destruct (String.eqb (Kind cmd) kindDestroy); [|by intros [= <- <-] Hd].
  unfold destroy, reported. destruct (refForInstance t id) as [ref|] eqn:Er; cbn [fst snd].
  - pose proof (law_destroy t id ref e Ht Er) as Hl. destruct (destroy_ t ref e) as [t1 [i|err]]; cbn [fst snd].
    + destruct Hl as (Hg & Hi & Hv). intros [= <- <-] _. assert (Hn : refForInstance t1 id = None).
      { apply eq_None_not_Some. rewrite law_ref by done. rewrite Hv, lookup_delete_eq. by intros [? ?]. }
      rewrite Hn, Hi. exists t1. split_and!; try done. unfold stale. by rewrite law_generation, Hv, lookup_delete_eq by done.
    + destruct Hl as (_ & Hne & _). destruct (String.eqb_spec err ErrNotFound); [done|]. by intros [= <- <-] Hd.
  - intros [= <- <-] _. exists t. by rewrite Er.
Qed.

(** Redelivery is harmless. If a command was executed and reported done, executing it again on a node whose disk works gives the
    same report and leaves every instance as it was, for each of the five kinds of command. *)
Theorem redelivery_idempotent t cmd e t' rep e' :
  good t -> sound e -> reliable e' ->
  execute nodeID t cmd e = Some (t', Reported rep) -> rStatus rep = statusDone ->
  exists t2, execute nodeID t' cmd e' = Some (t2, Reported rep) /\ seen t2 = seen t'.
Proof.
  intros Ht He He' Hx Hd. pose proof (execute_cases t cmd e) as Hc. pose proof (execute_cases t' cmd e') as Hc'.
  destruct (addressed nodeID cmd) as [id|].
  - destruct Hc as (Hid & Hu & Hc), Hc' as (_ & _ & Hc'). rewrite Hx in Hc. injection Hc as Hc.
    destruct (stale t cmd id) eqn:Es; [done|].
    destruct (dispatch_again t cmd id e t' rep e' Ht He He' Hid Hu Es (eq_sym Hc) Hd) as (t2 & H2 & Hv & Hs').
    exists t2. rewrite Hc', Hs', H2. done.
  - destruct Hc as [(Hc & _) | (reason & Hc)]; rewrite Hx in Hc; [done|]. injection Hc as -> ->. done.
Qed.

(** ** Batches *)

Definition ident (cmd : command) : string * Z := (CommandID cmd, ClaimGeneration cmd).
Definition report_ident (rep : report) : string * Z := (rCommandID rep, rClaimGeneration rep).

Lemma execute_good t cmd e t' o :
  good t -> sound e -> execute nodeID t cmd e = Some (t', o) -> good t' /\ echoes cmd o.
Proof.
  intros Ht He Hx. pose proof (execute_cases t cmd e) as Hc. destruct (addressed nodeID cmd) as [id|].
  - destruct Hc as (Hid & Hu & Hc). rewrite Hx in Hc. injection Hc as Hc. destruct (stale t cmd id).
    + by injection Hc as -> ->.
    + pose proof (dispatch_confined t cmd id e Ht He Hid Hu) as Hd. rewrite <- Hc in Hd. by destruct Hd as (? & _ & ? & _).
  - destruct Hc as [(Hc & _) | (reason & Hc)]; [congruence|]. rewrite Hx in Hc. by injection Hc as -> ->.
Qed.

Lemma execute_total t cmd e : parseRuntimeRef (cRuntimeRef cmd) <> None -> is_Some (execute nodeID t cmd e).
Proof.
  intros Hp. pose proof (execute_cases t cmd e) as Hc. destruct (addressed nodeID cmd); [destruct Hc as (_ & _ & ->); eauto|].
  destruct Hc as [(_ & ?) | (reason & ->)]; [done | eauto].
Qed.

Abbreviation parses cmds := (Forall (fun cmd => parseRuntimeRef (cRuntimeRef cmd) <> None) cmds).

Lemma first_pass_spec cmds : forall t envs,
  good t -> Forall sound envs -> parses cmds -> (length cmds <= length envs)%nat ->
  exists t' reps deferred fenced rest,
    first_pass nodeID t cmds envs = Some (t', reps, deferred, Some rest) /\ good t' /\ Forall sound rest /\ parses deferred /\
    (length rest + length cmds = length envs)%nat /\ (length deferred <= length cmds)%nat /\
    (report_ident <$> reps) ++ (ident <$> deferred) ++ fenced ≡ₚ ident <$> cmds.
Proof.
  induction cmds as [|cmd cmds IH]; intros t envs Ht He Hp Hl; cbn [first_pass].
  { exists t, [], [], [], envs. by split_and!. }
  destruct envs as [|e envs]; [simpl in Hl; lia|]. apply Forall_cons in He as (He & Hes), Hp as (Hp & Hps).
  destruct (execute_total t cmd e Hp) as [[t1 o] Hx]. rewrite Hx. destruct (execute_good _ _ _ _ _ Ht He Hx) as (Ht1 & Ho).
  simpl in Hl. destruct (IH t1 envs Ht1 Hes Hps ltac:(lia)) as (t' & reps & deferred & fenced & rest & -> & Hg & Hr & Hd & Hlr & Hld & Hperm).
  destruct o as [rep|rep|]; cbn [echoes] in Ho.
  - exists t', (rep :: reps), deferred, fenced, rest. split_and!; try done; [simpl; lia | simpl; lia |].
    rewrite !fmap_cons. cbn [app]. rewrite Hperm. unfold report_ident at 1, ident at 1. by destruct Ho as (-> & ->).
  - exists t', reps, (cmd :: deferred), fenced, rest. split_and!; try done; [by constructor | simpl; lia | simpl; lia |].
    rewrite !fmap_cons. cbn [app]. rewrite <- Permutation_middle, Hperm. done.
  - exists t', reps, deferred, (ident cmd :: fenced), rest. split_and!; try done; [simpl; lia | simpl; lia |].
    rewrite fmap_cons. rewrite !(app_assoc (report_ident <$> reps)), <- Permutation_middle, <- app_assoc, Hperm. done.
Qed.

Lemma retry_pass_spec cmds : forall t envs,
  good t -> Forall sound envs -> parses cmds -> (length cmds <= length envs)%nat ->
  exists t' reps fenced, retry_pass nodeID t cmds envs = Some (t', reps) /\ good t' /\
    (report_ident <$> reps) ++ fenced ≡ₚ ident <$> cmds.
Proof.
  induction cmds as [|cmd cmds IH]; intros t envs Ht He Hp Hl; cbn [retry_pass].
  { exists t, [], []. done. }
  destruct envs as [|e envs]; [simpl in Hl; lia|]. apply Forall_cons in He as (He & Hes), Hp as (Hp & Hps).
  destruct (execute_total t cmd e Hp) as [[t1 o] Hx]. rewrite Hx. destruct (execute_good _ _ _ _ _ Ht He Hx) as (Ht1 & Ho).
  simpl in Hl. destruct (IH t1 envs Ht1 Hes Hps ltac:(lia)) as (t' & reps & fenced & -> & Hg & Hperm).
  assert (Hrep : forall rep, rCommandID rep = CommandID cmd /\ rClaimGeneration rep = ClaimGeneration cmd ->
    (report_ident <$> rep :: reps) ++ fenced ≡ₚ ident <$> cmd :: cmds).
  { intros rep (H1 & H2). rewrite !fmap_cons. cbn [app]. rewrite Hperm. unfold report_ident at 1, ident at 1. by rewrite H1, H2. }
  destruct o as [rep|rep|]; cbn [echoes] in Ho; [exists t', (rep :: reps), fenced; by auto | exists t', (rep :: reps), fenced; by auto |].
  exists t', reps, (ident cmd :: fenced). split_and!; try done. by rewrite <- Permutation_middle, Hperm, fmap_cons.
Qed.

(** One report per command. A batch whose references are readable runs to its end, and each command is reported exactly once, under its own
    identifier and claim generation, or is fenced; a deferred start is reported in the retry pass only. *)
Theorem batch_reports_once t cmds envs :
  good t -> Forall sound envs -> parses cmds -> (2 * length cmds <= length envs)%nat ->
  exists t' reps fenced, executeBatch nodeID t cmds envs = Some (t', reps) /\ good t' /\
    (report_ident <$> reps) ++ fenced ≡ₚ ident <$> cmds.
Proof.
  intros Ht He Hp Hl. unfold executeBatch.
  destruct (first_pass_spec cmds t envs Ht He Hp ltac:(lia)) as (t1 & reps & deferred & fenced & rest & -> & Ht1 & Hr & Hd & Hlr & Hld & Hperm).
  destruct (retry_pass_spec deferred t1 rest Ht1 Hr Hd ltac:(lia)) as (t2 & more & fenced2 & -> & Ht2 & Hperm2).
  exists t2, (reps ++ more), (fenced2 ++ fenced). split_and!; [done|done|].
  rewrite <- Hperm, fmap_app, <- Hperm2, <- !app_assoc. done.
Qed.

(** a start may arrive before its provision. In a batch that starts an unknown instance and then provisions it at the same generation, the
    start is retried after the provision: both are reported done and the instance runs. *)
Theorem start_before_provision t start prov id e1 e2 e3 i b :
  good t -> sound e2 -> reliable e3 -> seen t !! id = None ->
  addressed nodeID start = Some id -> addressed nodeID prov = Some id ->
  Kind start = kindStart -> Kind prov = kindProvision -> InstanceGeneration start = InstanceGeneration prov ->
  spec_ok (Payload prov) = true -> (provision_ t id (generation_of prov) (spec_of (Payload prov)) e2).2 = Ok (i, b) ->
  exists t' rp rs, executeBatch nodeID t [start; prov] [e1; e2; e3] = Some (t', [rp; rs]) /\
    rStatus rp = statusDone /\ rStatus rs = statusDone /\ ReportedStatus rs = "running"%string /\
    seen t' = <[id := (StatusRunning, generation_of prov)]> (seen t).
Proof.
  intros Ht He2 He3 Hn Hs Hp Hks Hkp Hg Hsp Hok. unfold executeBatch. cbn [first_pass].
  pose proof (execute_cases t start e1) as Hc1. rewrite Hs in Hc1. destruct Hc1 as (Hid & Hu & Hc1).
  assert (Href : refForInstance t id = None).
  { apply eq_None_not_Some. rewrite law_ref by done. rewrite Hn. by intros [? ?]. }
  assert (Hgen : generationForInstance t id = None) by (by rewrite law_generation, Hn by done).
  assert (Hns : forall cmd, stale t cmd id = false) by (intros cmd; unfold stale; by rewrite Hgen).
  rewrite Hns in Hc1. unfold dispatch in Hc1. rewrite Hks in Hc1. cbn [String.eqb Ascii.eqb Bool.eqb kindStart kindProvision] in Hc1.
  unfold transition in Hc1. rewrite Href in Hc1. change (negb (String.eqb kindStart kindStart)) with false in Hc1.
  cbv iota in Hc1. rewrite Hc1. clear Hc1.
  pose proof (execute_cases t prov e2) as Hc2. rewrite Hp in Hc2. destruct Hc2 as (_ & _ & Hc2).
  rewrite Hns in Hc2. unfold dispatch in Hc2. rewrite Hkp, String.eqb_refl, provision_cases, Hsp in Hc2.
  pose proof (law_provision t id _ _ e2 Ht He2 (spec_typed prov id _ Hid Hu Hsp)) as Hl.
  destruct (provision_ t id _ _ e2) as [t1 res]. cbn [snd] in Hok. subst res. rewrite Hc2. unfold reported. cbn [fst snd].
  destruct Hl as (Ht1 & Hv1 & Hi & _). rewrite Hn in Hi. destruct Hi as (Hi1 & Hi2). cbn [first_pass retry_pass].
  pose proof (execute_cases t1 start e3) as Hc3. rewrite Hs in Hc3. destruct Hc3 as (_ & _ & Hc3).
  assert (Hg1 : generationForInstance t1 id = Some (generation_of prov)) by (by rewrite law_generation, Hv1, lookup_insert_eq, Hi2 by done).
  assert (Hge : generation_of start = generation_of prov) by (unfold generation_of; by rewrite Hg).
  unfold stale in Hc3. rewrite Hg1 in Hc3. cbn [from_option] in Hc3. rewrite Hge, Z.ltb_irrefl, andb_false_r in Hc3.
  unfold dispatch in Hc3. rewrite Hks in Hc3. cbn [String.eqb Ascii.eqb Bool.eqb kindStart kindProvision] in Hc3. unfold transition in Hc3.
  destruct (refForInstance t1 id) as [ref|] eqn:Er.
  2: { exfalso. apply eq_None_not_Some in Er. apply Er. rewrite law_ref, Hv1, lookup_insert_eq by done. by eexists. }
  pose proof (law_start t1 id ref e3 Ht1 Er) as Hl. destruct (start_ t1 ref e3) as [t2 [j|err]].
  - destruct Hl as (_ & _ & _ & st & g & Hst & _ & Hj & Hv2). rewrite Hc3. rewrite Hi1, Hj. eexists t2, _, _. split; [done|].
    split_and!; try done. rewrite Hv1, lookup_insert_eq in Hst. injection Hst as <- <-. by rewrite Hv2, Hv1, insert_insert_eq, Hi2.
  - destruct Hl as (_ & _ & Hrel & _). exfalso. assert (is_ok (@Err Instance err) = true); [|done].
    apply (Hrel StatusPending (generation_of prov)); [|done|done]. by rewrite Hv1, lookup_insert_eq, Hi1, Hi2.
Qed.

End properties.

(** References are read back as they were written: for a node and an instance with any valid text, colons included, parsing the formatted
    reference yields exactly the two. *)
Theorem parse_format node inst :
  utf8_valid node = true -> utf8_valid inst = true -> node <> ""%string -> inst <> ""%string -> slen node < 2 ^ 62 ->
  parseRuntimeRef (format_runtime_ref node inst) = Some (Ok (node, inst)).
Proof.
  intros Hn Hi Hne Hie Hl. unfold parseRuntimeRef, format_runtime_ref.
  destruct (trim_ref_prefix (string_of (itoa (zlen (to_runes node))) +:+ ":" +:+ node +:+ ":" +:+ inst)) as (-> & ->).
  rewrite format_runes by done. cbn [negb]. set (ds := u8 <$> itoa _). set (nr := to_runes node). set (ir := to_runes inst).
  pose proof (zlen_to_runes node) as Hb. fold nr in Hb. pose proof (zlen_nonneg nr).
  rewrite indexRune_first.
  2: { eapply Forall_impl; [apply digits_runes; auto with len|]. intros r Hr ->. done. }
  rewrite take_app_length. unfold ds at 1. rewrite netstring_itoa by (fold nr; lia). fold nr.
  assert (Hds : Z.of_nat (length ds) <= 20).
  { unfold ds. rewrite length_fmap. pose proof (zlen_itoa_u64 (zlen nr)) as Hz. unfold zlen at 2 3 in Hz. fold nr.
    apply Hz. unfold in_u64. lia. }
  rewrite int64_small by lia.
  rewrite (proj2 (Z.ltb_ge _ _)) by (autorewrite with len; unfold zlen at 2; pose proof (zlen_nonneg ir); lia).
  rewrite (proj2 (Z.ltb_ge _ _)) by lia.
  replace (Z.to_nat (Z.of_nat (length ds) + 1)) with (S (length ds)) by lia.
  replace (Z.to_nat (Z.of_nat (length ds) + 1 + zlen nr)) with (S (length ds) + length nr)%nat by (unfold zlen; lia).
  rewrite <- drop_drop. change (ds ++ 58 :: nr ++ 58 :: ir) with (ds ++ [58] ++ nr ++ 58 :: ir). rewrite app_assoc.
  replace (S (length ds)) with (length (ds ++ [58])) by (rewrite length_app; simpl; lia).
  rewrite !drop_app_length. unfold zlen. rewrite Nat2Z.id, take_app_length. cbn [negb].
  unfold nr, ir. rewrite !of_to_runes by done.
  destruct (String.eqb_spec node ""); [done|]. destruct (String.eqb_spec inst ""); [done|]. done.
Qed.

(** C39: a reference can crash the node. Whatever follows, a reference whose length field is the largest [int] makes the end of the node
    identifier overflow to a negative index; it passes the overrun check and the slice expression panics. *)
Theorem oversized_reference_panics rest :
  parseRuntimeRef ("uplink:9223372036854775807:" +:+ rest) = None.
Proof.
  unfold parseRuntimeRef.
  change ("uplink:9223372036854775807:" +:+ rest) with (runtimeRefPrefix +:+ ("9223372036854775807:" +:+ rest)).
  destruct (trim_ref_prefix ("9223372036854775807:" +:+ rest)) as (-> & ->). cbn [negb]. rewrite to_runes_app by done.
  change (to_runes "9223372036854775807:") with ((u8 <$> bytes_of "9223372036854775807") ++ [58]). rewrite <- app_assoc. cbn [app].
  rewrite indexRune_first by (vm_compute; repeat constructor; done). rewrite take_app_length.
  change (netstringLength (u8 <$> bytes_of "9223372036854775807")) with (@Ok Z 9223372036854775807).
  cbv beta iota.
  change (int64 (Z.of_nat (length (u8 <$> bytes_of "9223372036854775807")) + 1 + 9223372036854775807)) with (-9223372036854775789).
  rewrite (proj2 (Z.ltb_ge _ _)) by (pose proof (zlen_nonneg ((u8 <$> bytes_of "9223372036854775807") ++ 58 :: to_runes rest)); lia).
  done.
Qed.

(** ** Examples *)

Definition sample_command (kind : string) (generation : Z) : command :=
  mkCommand (kind +:+ "-1") "n1" "uplink:2:n1:web" kind (bytes_of "{}") 5 generation.

Lemma sample_provisioned_ok : node_ok sample_provisioned.
Proof.
  unfold sample_provisioned. destruct (Provision _ _ _ _ _) as [n res] eqn:Ep.
  apply (provision_spec _ _ _ _ _ _ _ empty_node_ok (sample_env_good None) sample_typed Ep).
Qed.

Lemma execute_confined_witness :
  execute "n1" sample_provisioned (sample_command kindStop 2) (sample_env None) = Some (sample_provisioned, Fenced) /\
  (Fenced = Fenced -> sample_provisioned = sample_provisioned).
Proof.
  assert (Hx : execute "n1" sample_provisioned (sample_command kindStop 2) (sample_env None) = Some (sample_provisioned, Fenced))
    by (vm_compute; reflexivity).
  split; [exact Hx|].
  apply (execute_confined "n1" sample_provisioned (sample_command kindStop 2) (sample_env None) sample_provisioned Fenced);
    [apply sample_provisioned_ok | apply sample_env_good | exact Hx].
Defined.

Definition sample_start_report : report := mkReport "start-1" statusDone "running" 5 emptyResult.
Definition sample_started : Node := (Start sample_provisioned "rt_" (sample_env None)).1.

Lemma redelivery_idempotent_witness :
  exists t2, execute "n1" sample_started (sample_command kindStart 3) (sample_env None) = Some (t2, Reported sample_start_report) /\
    seen t2 = seen sample_started.
Proof.
  apply (redelivery_idempotent "n1" sample_provisioned (sample_command kindStart 3) (sample_env None)).
  - apply sample_provisioned_ok.
  - apply sample_env_good.
  - reflexivity.
  - vm_compute. reflexivity.
  - reflexivity.
Defined.

Lemma batch_reports_once_witness :
  exists t' reps fenced,
    executeBatch "n1" sample_node [sample_command kindStart 3; sample_command kindProvision 3] (replicate 4 (sample_env None)) = Some (t', reps) /\
    good t' /\ (report_ident <$> reps) ++ fenced ≡ₚ ident <$> [sample_command kindStart 3; sample_command kindProvision 3].
Proof.
  apply (batch_reports_once "n1" sample_node [sample_command kindStart 3; sample_command kindProvision 3]).
  - apply empty_node_ok.
  - apply Forall_replicate, sample_env_good.
  - repeat constructor; vm_compute; discriminate.
  - simpl. lia.
Defined.

Definition sample_created : Instance :=
  mkInstance "web" "rt_" StatusPending 3 1700000000000000000 (bytes_of "{}") 0 "" None "".

Lemma start_before_provision_witness :
  exists t' rp rs,
    executeBatch "n1" sample_node [sample_command kindStart 3; sample_command kindProvision 3]
      [sample_env None; sample_env None; sample_env None] = Some (t', [rp; rs]) /\
    rStatus rp = statusDone /\ rStatus rs = statusDone /\ ReportedStatus rs = "running"%string /\
    seen t' = <["web"%string := (StatusRunning, 3)]> (seen sample_node).
Proof.
  apply (start_before_provision "n1" sample_node (sample_command kindStart 3) (sample_command kindProvision 3) "web"
    (sample_env None) (sample_env None) (sample_env None) sample_created true); try (vm_compute; reflexivity).
  - apply empty_node_ok.
  - apply sample_env_good.
Defined.

Lemma parse_format_witness : parseRuntimeRef (format_runtime_ref "node:1" "a:b") = Some (Ok ("node:1", "a:b")%string).
Proof. apply parse_format; try (vm_compute; reflexivity); discriminate. Defined.

End Uplink.
