(* ===== verification/CommandQueue.v ===== *)
(** * The bounded command queue ([src/internal/uplink/queue.go], [consume] of [poller.go])

    A FIFO between the poll loop, which enqueues, and the consumer, which drains, executes and completes. It bounds the work taken on, skips a command that
    is still queued or executing, and wakes the consumer through a one-element channel. The two goroutines are a step relation whose
    steps are the critical sections, the channel operations and the cancellation of the consumer's context, which [Run] also causes by returning. *)

From Stdlib Require Import Ascii.
From S2P Require Import Prelude GoText GoJson GoRune Tracker Uplink.
Import Uplink.

Module CommandQueue.

Definition DefaultCommandQueueDepth : Z := 256.

(** [wake] is whether the channel holds its one signal. *)
Record commandQueue := mkQueue {
  depth : Z; items : list command; inflight : gset string; outstanding : Z; wake : bool }.

Definition newCommandQueue (depth : Z) : commandQueue := mkQueue depth [] ∅ 0 false.

(** The loop of [enqueue] under the lock: the queue, the rejected and the duplicate commands, the number admitted. *)
Fixpoint enqueue_loop (q : commandQueue) (cmds : list command) : commandQueue * list command * list command * Z :=
  match cmds with
  | [] => (q, [], [], 0)
  | c :: cmds =>
      let id := CommandID c in
      if negb (String.eqb id "") && bool_decide (id ∈ inflight q) then
        let '(q, rejected, duplicates, admitted) := enqueue_loop q cmds in (q, rejected, c :: duplicates, admitted)
      else if depth q <=? outstanding q then
        let '(q, rejected, duplicates, admitted) := enqueue_loop q cmds in (q, c :: rejected, duplicates, admitted)
      else
        let q := mkQueue (depth q) (items q ++ [c]) (if String.eqb id "" then inflight q else {[id]} ∪ inflight q)
                   (outstanding q + 1) (wake q) in
        let '(q, rejected, duplicates, admitted) := enqueue_loop q cmds in (q, rejected, duplicates, admitted + 1)
  end.

(** A send that does not block: a full channel keeps its signal. *)
Definition signal (q : commandQueue) : commandQueue := mkQueue (depth q) (items q) (inflight q) (outstanding q) true.

Definition enqueue (q : commandQueue) (cmds : list command) : commandQueue * list command * list command :=
  let '(q, rejected, duplicates, admitted) := enqueue_loop q cmds in
  (if 0 <? admitted then signal q else q, rejected, duplicates).

(** The cases of the [select] of [waitForWork] that are ready, each with its result; [done]: the context is cancelled. Go takes any of
    them, so a cancelled wait may still receive the signal, and blocks when there is none. *)
Definition waitForWork (done : bool) (q : commandQueue) : list (bool * commandQueue) :=
  (if done then [(false, q)] else []) ++
  (if wake q then [(true, mkQueue (depth q) (items q) (inflight q) (outstanding q) false)] else []).

Definition drain (q : commandQueue) : commandQueue * list command :=
  (mkQueue (depth q) [] (inflight q) (outstanding q) (wake q), items q).

Definition complete_one (q : commandQueue) (c : command) : commandQueue :=
  mkQueue (depth q) (items q) (if String.eqb (CommandID c) "" then inflight q else inflight q ∖ {[CommandID c]})
    (if 0 <? outstanding q then outstanding q - 1 else outstanding q) (wake q).
Definition complete (q : commandQueue) (batch : list command) : commandQueue := foldl complete_one q batch.

Definition outstandingNow (q : commandQueue) : Z := outstanding q.
Definition commandIDs (cmds : list command) : string := String.concat "," (CommandID <$> cmds).
Definition runtimeRefs (cmds : list command) : string := String.concat "," (cRuntimeRef <$> cmds).

(** ** The two goroutines *)

(** Where [consume] is: in [waitForWork], past it, in [executeBatch] with a batch it drained, or returned. *)
Inductive consumer := Waiting | Woken | Executing (batch : list command) | Returned.

(** [unsignalled]: the producer has left the critical section of [enqueue] and not sent its signal yet; [cancelled]: the consumer's context
    is done. *)
Record system := mkSystem { queue : commandQueue; unsignalled : bool; at_ : consumer; cancelled : bool }.

(** The steps other than a poll and a cancellation. *)
Inductive quiet : system -> system -> Prop :=
| quiet_signal q at_ x : quiet (mkSystem q true at_ x) (mkSystem (signal q) false at_ x)
| quiet_wake q u x q' : (true, q') ∈ waitForWork x q -> quiet (mkSystem q u Waiting x) (mkSystem q' u Woken x)
| quiet_return q u x q' : (false, q') ∈ waitForWork x q -> quiet (mkSystem q u Waiting x) (mkSystem q' u Returned x)
| quiet_spurious q u x q' : drain q = (q', []) -> quiet (mkSystem q u Woken x) (mkSystem q' u Waiting x)
| quiet_drain q u x q' c batch :
    drain q = (q', c :: batch) -> quiet (mkSystem q u Woken x) (mkSystem q' u (Executing (c :: batch)) x)
| quiet_complete q u x batch : quiet (mkSystem q u (Executing batch) x) (mkSystem (complete q batch) u Waiting x).

Inductive step : system -> system -> Prop :=
| step_enqueue q at_ x cmds q' rejected duplicates admitted :
    enqueue_loop q cmds = (q', rejected, duplicates, admitted) ->
    step (mkSystem q false at_ x) (mkSystem q' (0 <? admitted) at_ x)
| step_cancel q u at_ x : step (mkSystem q u at_ x) (mkSystem q u at_ true)
| step_quiet s s' : quiet s s' -> step s s'.

Definition init (depth : Z) : system := mkSystem (newCommandQueue depth) false Waiting false.
Definition reachable (depth : Z) (s : system) : Prop := rtc step (init depth) s.

(** ** Invariants *)

Definition batch_of (s : system) : list command := match at_ s with Executing batch => batch | _ => [] end.

(** The commands queued or executing. *)
Definition held (s : system) : list command := items (queue s) ++ batch_of s.
Definition ids (l : list command) : list string := List.filter (fun id => negb (String.eqb id "")) (CommandID <$> l).

Record accounted (d : Z) (q : commandQueue) (l : list command) : Prop := {
  acc_depth : depth q = d;
  acc_count : outstanding q = zlen l;
  acc_bound : outstanding q <= Z.max 0 d;
  acc_nodup : NoDup (ids l);
  acc_ids id : id ∈ inflight q <-> id ∈ ids l }.

Lemma ids_app l k : ids (l ++ k) = ids l ++ ids k.
Proof. unfold ids. by rewrite fmap_app, List.filter_app. Qed.
Lemma ids_one c : ids [c] = if String.eqb (CommandID c) "" then [] else [CommandID c].
Proof. unfold ids. simpl. by destruct (String.eqb (CommandID c) ""). Qed.
Lemma elem_of_ids id l : id ∈ ids l <-> id <> ""%string /\ id ∈ CommandID <$> l.
Proof.
  unfold ids. rewrite !list_elem_of_In, List.filter_In, negb_true_iff, <- !list_elem_of_In. destruct (String.eqb_spec id ""); naive_solver.
Qed.

Lemma accounted_perm d q l k : l ≡ₚ k -> accounted d q l -> accounted d q k.
Proof.
  intros Hp [Hd Hc Hb Hn Hi]. assert (Hids : ids l ≡ₚ ids k).
  { unfold ids. assert (Hf : CommandID <$> l ≡ₚ CommandID <$> k) by (by rewrite Hp). clear -Hf.
    induction Hf; simpl; try case_match; try case_match; [done|by constructor|done| | | | |by etrans]; try done. constructor. }
  split; try done.
  - rewrite Hc. unfold zlen. by rewrite Hp.
  - by rewrite <- Hids.
  - intros id. by rewrite <- Hids.
Qed.

Lemma accounted_admit d q l c :
  accounted d q l -> (CommandID c = ""%string \/ CommandID c ∉ inflight q) -> outstanding q < d ->
  accounted d (mkQueue (depth q) (items q ++ [c]) (if String.eqb (CommandID c) "" then inflight q else {[CommandID c]} ∪ inflight q)
                 (outstanding q + 1) (wake q)) (l ++ [c]).
Proof.
  intros [Hd Hc Hb Hn Hi] Hnew Hlt. split; cbn [depth outstanding inflight].
  - done.
  - by rewrite zlen_app, Hc.
  - lia.
  - rewrite ids_app, ids_one. destruct (String.eqb_spec (CommandID c) "") as [|Hne]; [by rewrite app_nil_r|].
    apply NoDup_app. split_and!; [done| |apply NoDup_singleton]. intros id Hid ->%list_elem_of_singleton. rewrite <- Hi in Hid.
    by destruct Hnew.
  - intros id. rewrite ids_app, ids_one. destruct (String.eqb (CommandID c) ""); [rewrite app_nil_r; apply Hi|].
    rewrite elem_of_union, elem_of_singleton, elem_of_app, list_elem_of_singleton, Hi. naive_solver.
Qed.

(** What [enqueue] does with a batch [cmds]: it admits, in order, what is new and fits. *)
Lemma enqueue_loop_spec d b cmds : forall q q' rejected duplicates admitted,
  accounted d q (items q ++ b) -> enqueue_loop q cmds = (q', rejected, duplicates, admitted) ->
  exists new, items q' = items q ++ new /\ new `sublist_of` cmds /\ new ++ rejected ++ duplicates ≡ₚ cmds /\ admitted = zlen new /\
    accounted d q' (items q' ++ b) /\ wake q' = wake q /\ (rejected <> [] -> d <= outstanding q') /\
    outstanding q <= outstanding q' /\ inflight q ⊆ inflight q' /\
    Forall (fun c => CommandID c <> ""%string /\ CommandID c ∈ inflight q') duplicates.
Proof.
  induction cmds as [|c cmds IH]; intros q q' rejected duplicates admitted Ha; cbn [enqueue_loop].
  { intros [= <- <- <- <-]. exists []. rewrite app_nil_r. by split_and!. }
  destruct (negb _ && _) eqn:Edup.
  - destruct (enqueue_loop q cmds) as [[[q1 r1] d1] a1] eqn:E. intros [= <- <- <- <-].
    destruct (IH _ _ _ _ _ Ha E) as (new & Hit & Hsub & Hp & Had & Hacc & Hw & Hfull & Hout & Hinf & Hdup).
    exists new. rewrite andb_true_iff, negb_true_iff, bool_decide_eq_true, String.eqb_neq in Edup. destruct Edup as (Hne & Hin).
    split_and!; try done; [by constructor | | constructor; set_solver]. by rewrite app_assoc, <- Permutation_middle, <- app_assoc, Hp.
  - assert (Hnew : CommandID c = ""%string \/ CommandID c ∉ inflight q).
    { rewrite andb_false_iff, negb_false_iff, bool_decide_eq_false, String.eqb_eq in Edup. done. }
    destruct (Z.leb_spec (depth q) (outstanding q)) as [Hge | Hlt].
    + destruct (enqueue_loop q cmds) as [[[q1 r1] d1] a1] eqn:E. intros [= <- <- <- <-].
      destruct (IH _ _ _ _ _ Ha E) as (new & Hit & Hsub & Hp & Had & Hacc & Hw & Hfull & Hout & Hinf & Hdup).
      pose proof (acc_depth _ _ _ Ha). exists new. split_and!; try done; [by constructor | | lia].
      cbn [app]. by rewrite <- Permutation_middle, Hp.
    + set (q1 := mkQueue _ _ _ _ _). destruct (enqueue_loop q1 cmds) as [[[q2 r2] d2] a2] eqn:E. intros [= <- <- <- <-].
      assert (Ha1 : accounted d q1 (items q1 ++ b)).
      { cbn [q1 items]. eapply accounted_perm; [|apply (accounted_admit d q (items q ++ b) c); [done|done|]].
        - rewrite <- !app_assoc. f_equiv. apply Permutation_app_comm.
        - pose proof (acc_depth _ _ _ Ha). lia. }
      destruct (IH _ _ _ _ _ Ha1 E) as (new & Hit & Hsub & Hp & Had & Hacc & Hw & Hfull & Hout & Hinf & Hdup).
      cbn [q1 items wake outstanding inflight] in *. exists (c :: new). rewrite Hit, <- app_assoc. split_and!; try done.
      * by constructor.
      * cbn [app]. by rewrite Hp.
      * rewrite zlen_cons. lia.
      * rewrite Hit, <- !app_assoc in Hacc. by rewrite <- ?app_assoc.
      * lia.
      * destruct (String.eqb (CommandID c) ""); set_solver.
Qed.

Lemma accounted_complete d q l c b :
  accounted d q (l ++ c :: b) -> accounted d (complete_one q c) (l ++ b).
Proof.
  intros Ha. assert (Hp : l ++ c :: b ≡ₚ (l ++ b) ++ [c]) by (by rewrite <- Permutation_middle, Permutation_cons_append).
  apply (accounted_perm _ _ _ _ Hp) in Ha. clear Hp. revert Ha. generalize (l ++ b). clear l b. intros l [Hd Hc Hb Hn Hi].
  rewrite zlen_app in Hc. change (zlen [c]) with 1 in Hc. pose proof (zlen_nonneg l). rewrite ids_app, ids_one in Hn.
  unfold complete_one. rewrite (proj2 (Z.ltb_lt 0 (outstanding q))) by lia.
  split; cbn [depth outstanding inflight]; [done|lia|lia| |].
  - by apply NoDup_app in Hn as (? & _ & _).
  - intros id. specialize (Hi id). rewrite ids_app, ids_one in Hi. destruct (String.eqb_spec (CommandID c) "") as [|Hne].
    + by rewrite app_nil_r in Hi.
    + apply NoDup_app in Hn as (_ & Hdisj & _). rewrite elem_of_difference, elem_of_singleton, Hi, elem_of_app, list_elem_of_singleton.
      specialize (Hdisj id). rewrite list_elem_of_singleton in Hdisj. naive_solver.
Qed.

Lemma complete_spec d b : forall q, accounted d q (items q ++ b) ->
  accounted d (complete q b) (items q) /\ items (complete q b) = items q /\ wake (complete q b) = wake q.
Proof.
  induction b as [|c b IH]; intros q Ha; [by rewrite app_nil_r in Ha|]. cbn [complete foldl].
  apply accounted_complete in Ha. apply (IH (complete_one q c)) in Ha. done.
Qed.

(** The invariant of the two goroutines. *)
Record queue_ok (d : Z) (s : system) : Prop := {
  ok_account : accounted d (queue s) (held s);
  ok_wake : items (queue s) <> [] -> unsignalled s = true \/ wake (queue s) = true \/ at_ s = Woken;
  ok_returned : at_ s = Returned -> cancelled s = true }.

(** The two results of the wait. *)
Lemma wait_woken x q q' : (true, q') ∈ waitForWork x q <->
  wake q = true /\ q' = mkQueue (depth q) (items q) (inflight q) (outstanding q) false.
Proof. unfold waitForWork. destruct x, (wake q); set_solver. Qed.
Lemma wait_done x q q' : (false, q') ∈ waitForWork x q <-> x = true /\ q' = q.
Proof. unfold waitForWork. destruct x, (wake q); set_solver. Qed.

Lemma queue_ok_init d : queue_ok d (init d).
Proof. split; [|done|done]. split; cbn; [done|done|lia|constructor|]. intros id. by rewrite elem_of_empty, elem_of_nil. Qed.

Lemma queue_ok_step d s s' : queue_ok d s -> step s s' -> queue_ok d s'.
Proof.
  intros [Ha Hw Hr] Hs.
  destruct Hs as [q a x cmds q' rej dup adm E|q u a x|s s' [q a x|q u x q' E|q u x q' E|q u x q' E|q u x q' c b E|q u x b]];
    unfold held in *; cbn [queue at_ batch_of unsignalled cancelled] in *.
  - destruct (enqueue_loop_spec d _ cmds q q' rej dup adm Ha E) as (new & Hit & _ & _ & Had & Hacc & Hwake & _).
    split; [done| |done]. cbn [queue unsignalled at_]. intros Hne. destruct new as [|c new].
    + rewrite app_nil_r in Hit. rewrite Hit in Hne. destruct (Hw Hne) as [? | [? | ?]]; [done| |by auto]. rewrite Hwake. by auto.
    + left. apply Z.ltb_lt. rewrite Had, zlen_cons. pose proof (zlen_nonneg new). lia.
  - split; [by destruct Ha|done|done].
  - split; [by destruct Ha| |done]. intros _. by right; left.
  - apply wait_woken in E as [_ ->]. split; [by destruct Ha| |done]. intros _. by right; right.
  - apply wait_done in E as [-> ->]. split; [by destruct Ha| |done]. cbn [queue unsignalled at_]. intros [? | [? | ?]]%Hw; [auto|auto|done].
  - injection E as <- E. unfold held. rewrite E in Ha. split; [|done|done]. cbn [queue items at_ batch_of]. by destruct Ha.
  - injection E as <- E. rewrite E in Ha. split; [|done|done]. unfold held. cbn [queue items at_ batch_of app].
    rewrite app_nil_r in Ha. by destruct Ha.
  - destruct (complete_spec d b q Ha) as (Hacc & Hit & Hwk). split; unfold held; cbn [queue at_ batch_of unsignalled]; [| |done].
    + by rewrite app_nil_r, Hit.
    + rewrite Hit, Hwk. intros Hne. by destruct (Hw Hne) as [? | [? | ?]]; auto.
Qed.

Lemma reachable_ok d s : reachable d s -> queue_ok d s.
Proof.
  unfold reachable. intros H. assert (Hgen : forall x, rtc step x s -> queue_ok d x -> queue_ok d s); [|apply (Hgen _ H), queue_ok_init].
  clear H. induction 1; eauto using queue_ok_step.
Qed.

(** ** Theorems *)

(** C36: backpressure and deduplication. In every interleaving of poll loop and consumer, the count of outstanding commands is the number queued or executing
    and never exceeds the configured depth, and no command identifier is held twice: a redelivered command is not executed while its first copy is
    pending. *)
Theorem queue_bounded_deduplicated d s :
  reachable d s ->
  outstandingNow (queue s) = zlen (held s) /\ zlen (held s) <= Z.max 0 d /\ NoDup (ids (held s)) /\
  forall id, id ∈ inflight (queue s) <-> id <> ""%string /\ id ∈ CommandID <$> held s.
Proof.
  intros [[Hd Hc Hb Hn Hi] _ _]%reachable_ok. rewrite Hc in Hb. split_and!; try done. intros id. by rewrite Hi, elem_of_ids.
Qed.

(** Every run of [R] reaches [P], and none stops before. *)
Inductive inevitable {A} (R : A -> A -> Prop) (P : A -> Prop) (s : A) : Prop :=
| inevitable_now : P s -> inevitable R P s
| inevitable_later : (exists s', R s s') -> (forall s', R s s' -> inevitable R P s') -> inevitable R P s.

(** Work [l] is queued, the consumer has been or will be told, and nothing has stopped it. *)
Definition pending (l : list command) (s : system) : Prop :=
  items (queue s) = l /\ l <> [] /\ (unsignalled s = true \/ wake (queue s) = true \/ at_ s = Woken) /\
  cancelled s = false /\ at_ s <> Returned.
Definition drained (l : list command) (s : system) : Prop := at_ s = Executing l /\ items (queue s) = [].

(** What is left to do without a poll; each quiet step lowers it. *)
Definition steps_left (s : system) : nat :=
  4 * Nat.b2n (unsignalled s) + 3 * Nat.b2n (wake (queue s)) +
  match at_ s with Returned => 0 | Waiting => 1 | Executing _ => 2 | Woken => 3 end.

Lemma complete_keeps b : forall q, items (complete q b) = items q /\ wake (complete q b) = wake q.
Proof. induction b as [|c b IH]; intros q; [done|]. exact (IH (complete_one q c)). Qed.

Lemma quiet_steps s s' : quiet s s' -> (steps_left s' < steps_left s)%nat /\ cancelled s' = cancelled s.
Proof.
  unfold steps_left. intros [q a x|q u x q' E|q u x q' E|q u x q' E|q u x q' c b E|q u x b]; cbn [queue unsignalled at_ cancelled]; (split; [|done]).
  - cbn. destruct (wake q); cbn; lia.
  - apply wait_woken in E as [-> ->]. cbn. lia.
  - apply wait_done in E as [-> ->]. lia.
  - injection E as <- _. cbn. lia.
  - injection E as <- _. cbn. lia.
  - destruct (complete_keeps b q) as [_ ->]. lia.
Qed.

(** A quiet run reaches [P] when [I] holds until then and enables a step. *)
Lemma quiet_inevitable (I P : system -> Prop) :
  (forall s, I s -> P s \/ exists s', quiet s s') -> (forall s s', I s -> quiet s s' -> P s' \/ I s') ->
  forall s, I s -> inevitable quiet P s.
Proof.
  intros Hgo Hkeep. enough (Hk : forall k s, (steps_left s < k)%nat -> I s -> inevitable quiet P s) by (intros s; by apply (Hk (S (steps_left s))); lia).
  induction k as [|k IH]; intros s Hk HI; [lia|]. destruct (Hgo s HI) as [HP | Hs]; [by apply inevitable_now|]. apply inevitable_later; [done|].
  intros s' Hq. destruct (Hkeep s s' HI Hq) as [? | ?]; [by apply inevitable_now|]. apply IH; [|done]. apply quiet_steps in Hq. lia.
Qed.

Lemma quiet_progress l s : pending l s -> exists s', quiet s s'.
Proof.
  destruct s as [q u a x]. intros (Hl & Hne & Hw & Hx & Hr). cbn [queue unsignalled at_ cancelled] in *. destruct u; [eauto using quiet|].
  destruct a as [| |b|]; [| |eauto using quiet|done].
  - destruct Hw as [? | [Hw | ?]]; [done| |done]. eexists. apply quiet_wake, wait_woken. done.
  - destruct (items q) as [|c b] eqn:E; [by subst|]. eexists. apply quiet_drain. unfold drain. by rewrite E.
Qed.

Lemma quiet_pending l s s' : pending l s -> quiet s s' -> drained l s' \/ pending l s'.
Proof.
  intros (Hl & Hne & Hw & Hx & Hr) Hs. unfold drained, pending.
  destruct Hs as [q a x|q u x q' E|q u x q' E|q u x q' E|q u x q' c b E|q u x b]; cbn [queue unsignalled at_ cancelled] in *.
  - right. split_and!; auto.
  - apply wait_woken in E as [_ ->]. right. split_and!; auto.
  - apply wait_done in E as [-> _]. done.
  - injection E as <- E. congruence.
  - injection E as <- E. left. by rewrite <- Hl, E.
  - destruct (complete_keeps b q) as [Hi Hk]. rewrite Hi, Hk. right. split_and!; auto. by destruct Hw as [? | [? | ?]]; auto.
Qed.

(** Once cancelled, the consumer can always go on, if only to return. *)
Lemma cancelled_progress s : cancelled s = true -> at_ s = Returned \/ exists s', quiet s s'.
Proof.
  destruct s as [q u a x]. cbn [cancelled at_]. intros ->. destruct a as [| |b|]; [right|right|right|by left].
  - eexists. apply quiet_return, wait_done. done.
  - destruct (drain q) as [q' [|c b]] eqn:E; eauto using quiet.
  - eauto using quiet.
Qed.

(** C35: no lost wake-up, and no consumer left behind. Take any reachable state and let no further poll arrive. If the context is not cancelled and
    commands are queued, every run drains them and calls [executeBatch] with exactly the queued commands, in order: the consumer is never left waiting
    for a signal that nobody will send. If the context is cancelled, [waitForWork] may return false with commands still queued, which are then not
    executed, and every run ends with [consume] returned, so that [Run], which waits for it, does not block. *)
Theorem no_lost_wakeup d s :
  reachable d s ->
  (cancelled s = false -> items (queue s) <> [] -> inevitable quiet (drained (items (queue s))) s) /\
  (cancelled s = true -> inevitable quiet (fun s' => at_ s' = Returned) s).
Proof.
  intros [_ Hw Hr]%reachable_ok. split.
  - intros Hx Hne. apply (quiet_inevitable (pending (items (queue s)))); eauto using quiet_progress, quiet_pending.
    split_and!; auto. intros Ha. rewrite Hr in Hx; done.
  - apply (quiet_inevitable (fun s => cancelled s = true)); eauto using cancelled_progress. intros s1 s2 H1 [_ H2]%quiet_steps. right. congruence.
Qed.

(** what [enqueue] does with a poll batch. In a reachable state it appends, in order, commands of the batch to the queue and accounts for every other one as rejected or
    duplicate; it rejects only when the queue is full, and calls a duplicate only a command whose identifier is held. *)
Theorem enqueue_classifies d s cmds q' rejected duplicates :
  reachable d s -> enqueue (queue s) cmds = (q', rejected, duplicates) ->
  exists new, items q' = items (queue s) ++ new /\ new `sublist_of` cmds /\ new ++ rejected ++ duplicates ≡ₚ cmds /\
    (rejected <> [] -> d <= outstandingNow q') /\ (new <> [] -> wake q' = true) /\
    Forall (fun c => CommandID c ∈ CommandID <$> held s ++ new) duplicates.
Proof.
  intros [Ha _ _]%reachable_ok. unfold enqueue. destruct (enqueue_loop (queue s) cmds) as [[[q1 r1] d1] a1] eqn:E. intros [= <- <- <-].
  destruct (enqueue_loop_spec d (batch_of s) cmds _ _ _ _ _ Ha E) as (new & Hit & Hsub & Hp & Had & Hacc & Hw & Hfull & _ & _ & Hdup).
  exists new. assert (Hsame : items (if 0 <? a1 then signal q1 else q1) = items q1) by (by destruct (0 <? a1)).
  assert (Hout : outstandingNow (if 0 <? a1 then signal q1 else q1) = outstanding q1) by (by destruct (0 <? a1)).
  rewrite Hsame, Hout. split_and!; try done.
  - intros Hne. rewrite (proj2 (Z.ltb_lt 0 a1)); [done|]. destruct new; [done|]. rewrite Had, zlen_cons. pose proof (zlen_nonneg new). lia.
  - eapply Forall_impl; [exact Hdup|]. intros c (_ & Hin). apply (acc_ids _ _ _ Hacc), elem_of_ids in Hin as (_ & Hin).
    unfold held. rewrite Hit in Hin. rewrite !fmap_app, !elem_of_app in Hin |- *. tauto.
Qed.

(** ** Examples *)

Definition sample_batch : list command :=
  [sample_command kindStart 3; sample_command kindStart 3; sample_command kindStop 3; sample_command kindDestroy 3].
Definition sample_queue : commandQueue := (enqueue_loop (newCommandQueue 2) sample_batch).1.1.1.
Definition sample_system : system := mkSystem sample_queue true Waiting false.

Lemma sample_reachable : reachable 2 sample_system.
Proof.
  apply rtc_once. apply (step_enqueue _ _ _ sample_batch sample_queue [sample_command kindDestroy 3] [sample_command kindStart 3] 2).
  vm_compute. reflexivity.
Qed.

Lemma queue_bounded_deduplicated_witness :
  outstandingNow sample_queue = 2 /\ zlen (held sample_system) <= Z.max 0 2 /\ NoDup (ids (held sample_system)) /\
  forall id, id ∈ inflight sample_queue <-> id <> ""%string /\ id ∈ CommandID <$> held sample_system.
Proof. apply (queue_bounded_deduplicated 2 sample_system). apply sample_reachable. Defined.

(** The same commands queued, the context cancelled: the consumer may return and leave them. *)
Definition sample_cancelled : system := mkSystem sample_queue true Waiting true.

Lemma sample_cancelled_reachable : reachable 2 sample_cancelled.
Proof. eapply rtc_r; [apply sample_reachable | apply step_cancel]. Qed.

Example cancelled_leaves_work :
  reachable 2 (mkSystem sample_queue true Returned true) /\ items sample_queue = [sample_command kindStart 3; sample_command kindStop 3].
Proof.
  split; [|by vm_compute]. eapply rtc_r; [apply sample_cancelled_reachable|]. apply step_quiet, quiet_return, wait_done. done.
Qed.

Lemma no_lost_wakeup_witness :
  inevitable quiet (drained [sample_command kindStart 3; sample_command kindStop 3]) sample_system /\
  inevitable quiet (fun s' => at_ s' = Returned) sample_cancelled.
Proof.
  split.
  - apply (no_lost_wakeup 2 sample_system); [apply sample_reachable | reflexivity | discriminate].
  - apply (no_lost_wakeup 2 sample_cancelled); [apply sample_cancelled_reachable | reflexivity].
Defined.

Lemma enqueue_classifies_witness :
  exists new, items (enqueue sample_queue [sample_command kindHibernate 3]).1.1 = items sample_queue ++ new /\
    new `sublist_of` [sample_command kindHibernate 3] /\ new ++ [sample_command kindHibernate 3] ++ [] ≡ₚ [sample_command kindHibernate 3] /\
    ([sample_command kindHibernate 3] <> [] -> 2 <= outstandingNow (enqueue sample_queue [sample_command kindHibernate 3]).1.1) /\
    (new <> [] -> wake (enqueue sample_queue [sample_command kindHibernate 3]).1.1 = true) /\
    Forall (fun c => CommandID c ∈ CommandID <$> held sample_system ++ new) [].
Proof.
  apply (enqueue_classifies 2 sample_system [sample_command kindHibernate 3]); [apply sample_reachable | vm_compute; reflexivity].
Defined.

End CommandQueue.
