(* ===== verification/GoNet.v ===== *)
(** * Addresses of the Go standard library

    What the gateway uses of [net/netip] and [net]: addresses, their textual form, prefixes and the classes of addresses. *)

From Stdlib Require Import Ascii.
From S2P Require Import Prelude GoText.

(** The zero [netip.Addr] is invalid; an IPv6 address may carry a zone. *)
Inductive Addr := AddrInvalid | V4 (z : Z) | V6 (z : Z) (zone : string).

#[global] Instance Addr_eq_dec : EqDecision Addr.
Proof. solve_decision. Defined.

(** Addresses of their width. *)
Definition addr_wf (a : Addr) : Prop :=
  match a with AddrInvalid => True | V4 z => 0 <= z < 2 ^ 32 | V6 z _ => 0 <= z < 2 ^ 128 end.

(** ** Parsing *)

Definition digit (c : ascii) : bool := (48 <=? u8 c) && (u8 c <=? 57).

(** The loop of [parseIPv4Fields]: [start] at the first byte, [dot] after a dot. *)
Fixpoint v4_fields (l : bytes) (start dot : bool) (val digLen pos acc : Z) : option Z :=
  match l with
  | [] => if pos <? 3 then None else Some (acc * 256 + val)
  | c :: l =>
      if digit c then
        if (digLen =? 1) && (val =? 0) then None else
        let val := val * 10 + (u8 c - 48) in
        if 255 <? val then None else v4_fields l false false val (digLen + 1) pos acc
      else if u8 c =? 46 then
        if start || bool_decide (l = []) || dot then None else
        if pos =? 3 then None else v4_fields l false true 0 0 (pos + 1) (acc * 256 + val)
      else None
  end.
Definition parse_ipv4 (l : bytes) : option Z := v4_fields l true false 0 0 0 0.

Definition hex_digit (c : ascii) : option Z :=
  let b := u8 c in
  if digit c then Some (b - 48)
  else if (97 <=? b) && (b <=? 102) then Some (b - 87)
  else if (65 <=? b) && (b <=? 70) then Some (b - 55)
  else None.

(** One group of hexadecimal digits: its value, its length and what follows; at most four digits. *)
Fixpoint hex_group (l : bytes) (off acc : Z) : option (Z * Z * bytes) :=
  match l with
  | [] => Some (acc, off, [])
  | c :: tl =>
      match hex_digit c with
      | None => Some (acc, off, l)
      | Some d => if 3 <? off then None else hex_group tl (off + 1) (acc * 16 + d)
      end
  end.

(** The loop of [parseIPv6]: [ip] are the bytes so far, [ellipsis] where [::] stood; every turn adds at least two bytes, so eight
    turns are enough. The result has the text that was not consumed. *)
Fixpoint v6_groups (turns : nat) (s : bytes) (ip : list Z) (ellipsis : option nat) : option (list Z * option nat * bytes) :=
  match turns with
  | O => Some (ip, ellipsis, s)
  | S turns =>
      match hex_group s 0 0 with
      | None => None
      | Some (acc, off, rest) =>
          if off =? 0 then None else
          let dotted := match rest with c :: _ => u8 c =? 46 | [] => false end in
          if dotted then
            if bool_decide (ellipsis = None) && negb (zlen ip =? 12) then None
            else if 16 <? zlen ip + 4 then None
            else z ← parse_ipv4 s; Some (ip ++ (u8 <$> be_encode 4 z), ellipsis, [])
          else
            let ip := ip ++ [acc / 256; acc mod 256] in
            match rest with
            | [] => Some (ip, ellipsis, [])
            | c :: rest =>
                if negb (u8 c =? 58) || bool_decide (rest = []) then None else
                match rest with
                | d :: rest' =>
                    if u8 d =? 58 then
                      if bool_decide (ellipsis <> None) then None
                      else if bool_decide (rest' = []) then Some (ip, Some (length ip), [])
                      else v6_groups turns rest' ip (Some (length ip))
                    else v6_groups turns rest ip ellipsis
                | [] => None
                end
            end
      end
  end.

Definition v6_value (ip : list Z) : Z := foldl (fun acc b => acc * 256 + b) 0 ip.

(** [parseIPv6] without its zone. *)
Definition parse_ipv6 (s : bytes) : option Z :=
  let '(s, ellipsis) :=
    match s with
    | c :: d :: rest => if (u8 c =? 58) && (u8 d =? 58) then (rest, Some 0%nat) else (s, None)
    | _ => (s, None)
    end in
  if bool_decide (s = []) && bool_decide (ellipsis <> None) then Some 0 else
  match v6_groups 8 s [] ellipsis with
  | Some (ip, ellipsis, []) =>
      if zlen ip <? 16 then
        e ← ellipsis; Some (v6_value (take e ip ++ replicate (16 - length ip) 0 ++ drop e ip))
      else if bool_decide (ellipsis <> None) then None else Some (v6_value ip)
  | _ => None
  end.

Fixpoint cut_byte (b : Z) (l : bytes) : bytes * option bytes :=
  match l with
  | [] => ([], None)
  | c :: l => if u8 c =? b then ([], Some l) else let '(p, q) := cut_byte b l in (c :: p, q)
  end.

(** [netip.ParseAddr]. *)
Definition ParseAddr (s : string) : option Addr :=
  let l := bytes_of s in
  match List.find (fun c => existsb (Z.eqb (u8 c)) [46; 58; 37]) l with
  | Some c =>
      if u8 c =? 46 then V4 <$> parse_ipv4 l
      else if u8 c =? 58 then
        match cut_byte 37 l with
        | (l, None) => (fun z => V6 z "") <$> parse_ipv6 l
        | (_, Some []) => None
        | (l, Some zone) => (fun z => V6 z (string_of zone)) <$> parse_ipv6 l
        end
      else None
  | None => None
  end.

(** [net.ParseIP(s) != nil]: a zone is refused. *)
Definition ParseIP (s : string) : bool :=
  match ParseAddr s with Some (V4 _) | Some (V6 _ ""%string) => true | _ => false end.

(** ** Classes of addresses *)

Definition Is4In6 (a : Addr) : bool := match a with V6 z _ => Z.shiftr z 32 =? 65535 | _ => false end.
Definition Unmap (a : Addr) : Addr :=
  match a with V6 z _ => if Is4In6 a then V4 (z mod 2 ^ 32) else a | _ => a end.
Definition Is6 (a : Addr) : bool := match a with V6 _ _ => true | _ => false end.
Definition IsValid (a : Addr) : bool := match a with AddrInvalid => false | _ => true end.
Definition IsUnspecified (a : Addr) : bool := bool_decide (a = V4 0 \/ a = V6 0 "").
Definition IsMulticast (a : Addr) : bool :=
  match Unmap a with
  | V4 z => Z.land (Z.shiftr z 24) 240 =? 224
  | V6 z _ => Z.shiftr z 120 =? 255
  | AddrInvalid => false
  end.
Definition IsLoopback (a : Addr) : bool :=
  match Unmap a with V4 z => Z.shiftr z 24 =? 127 | V6 z _ => z =? 1 | AddrInvalid => false end.
Definition IsLinkLocalUnicast (a : Addr) : bool :=
  match Unmap a with
  | V4 z => Z.shiftr z 16 =? 169 * 256 + 254
  | V6 z _ => Z.land (Z.shiftr z 112) 65472 =? 65152
  | AddrInvalid => false
  end.
Definition IsGlobalUnicast (a : Addr) : bool :=
  match Unmap a with
  | AddrInvalid => false
  | a => negb (bool_decide (a = V4 0 \/ a = V4 (2 ^ 32 - 1))) && negb (bool_decide (a = V6 0 ""))
         && negb (IsLoopback a) && negb (IsMulticast a) && negb (IsLinkLocalUnicast a)
  end.

(** ** Prefixes *)

(** A valid [netip.Prefix]: it has no zone. *)
Inductive Prefix := P4 (z bits : Z) | P6 (z bits : Z).

#[global] Instance Prefix_eq_dec : EqDecision Prefix.
Proof. solve_decision. Defined.

Definition prefix_wf (p : Prefix) : Prop :=
  match p with
  | P4 z bits => 0 <= z < 2 ^ 32 /\ 0 <= bits <= 32
  | P6 z bits => 0 <= z < 2 ^ 128 /\ 0 <= bits <= 128
  end.

Definition Contains (p : Prefix) (a : Addr) : bool :=
  match p, a with
  | P4 z bits, V4 x => Z.shiftr (Z.lxor x z) (32 - bits) =? 0
  | P6 z bits, V6 x ""%string => Z.shiftr (Z.lxor x z) (128 - bits) =? 0
  | _, _ => false
  end.

Definition number (l : bytes) : option Z :=
  match l with
  | [] => None
  | _ => if forallb digit l then Some (foldl (fun acc c => acc * 10 + (u8 c - 48)) 0 l) else None
  end.

(** [netip.ParsePrefix]: address, slash, length without sign or leading zero. *)
Definition ParsePrefix (s : string) : option Prefix :=
  match cut_byte 47 (rev (bytes_of s)) with
  | (rbits, Some raddr) =>
      let bits := rev rbits in
      match bits with
      | c :: _ :: _ => if u8 c =? 48 then None else Some tt
      | _ => Some tt
      end ≫= fun _ =>
      n ← number bits;
      match ParseAddr (string_of (rev raddr)) with
      | Some (V4 z) => if n <=? 32 then Some (P4 z n) else None
      | Some (V6 z ""%string) => if n <=? 128 then Some (P6 z n) else None
      | _ => None
      end
  | _ => None
  end.

(** ** Hosts and ports *)

Definition has_byte (b : Z) (l : bytes) : bool := existsb (fun c => u8 c =? b) l.

(** [strconv.Atoi]. *)
Definition Atoi (s : string) : option Z :=
  let signed :=
    match bytes_of s with
    | c :: l => if u8 c =? 45 then Z.opp <$> number l else if u8 c =? 43 then number l else number (c :: l)
    | [] => None
    end in
  z ← signed; if (- 2 ^ 63 <=? z) && (z <? 2 ^ 63) then Some z else None.

(** [net.SplitHostPort]: the text before and after the last colon; an IPv6 host stands in brackets. *)
Definition SplitHostPort (s : string) : option (string * string) :=
  let l := bytes_of s in
  match cut_byte 58 (rev l) with
  | (_, None) => None
  | (rport, Some rbefore) =>
      let before := rev rbefore in
      match l with
      | c :: l1 =>
          if u8 c =? 91 then
            match cut_byte 93 l1 with
            | (_, None) => None
            | (host, Some after) =>
                if negb (bool_decide (before = c :: host ++ [byte_of_Z 93])) || has_byte 91 l1 || has_byte 93 after then None
                else Some (string_of host, string_of (rev rport))
            end
          else if has_byte 58 before || has_byte 91 l || has_byte 93 l then None
          else Some (string_of before, string_of (rev rport))
      | [] => None
      end
  end.

(** [Hostname] and [Port] of a [url.URL] with the given [Host]. *)
Definition url_host_port (h : string) : string * string :=
  let l := bytes_of h in
  let '(host, port) :=
    match cut_byte 58 (rev l) with
    | (rport, Some rhost) => if forallb digit rport then (rev rhost, rev rport) else (l, [])
    | (_, None) => (l, [])
    end in
  let host :=
    match host with
    | c :: tl => match rev tl with
                 | d :: mid => if (u8 c =? 91) && (u8 d =? 93) then rev mid else host
                 | [] => host
                 end
    | [] => host
    end in
  (string_of host, string_of port).

(** ** Prefixes are intervals *)

Lemma shiftr_lxor_zero x z k :
  0 <= x -> 0 <= z -> 0 <= k -> (Z.shiftr (Z.lxor x z) k =? 0) = true <-> x / 2 ^ k = z / 2 ^ k.
Proof. intros Hx Hz Hk. by rewrite Z.eqb_eq, Z.shiftr_lxor, Z.lxor_eq_0_iff, !Z.shiftr_div_pow2 by done. Qed.

(** The addresses of a prefix as numbers. *)
Definition lowest (z width bits : Z) : Z := z / 2 ^ (width - bits) * 2 ^ (width - bits).
Definition within (z width bits x : Z) : Prop := lowest z width bits <= x < lowest z width bits + 2 ^ (width - bits).

Lemma within_spec x z width bits :
  0 <= x -> 0 <= z -> 0 <= bits <= width ->
  (Z.shiftr (Z.lxor x z) (width - bits) =? 0) = true <-> within z width bits x.
Proof.
  intros Hx Hz Hb. rewrite shiftr_lxor_zero by lia. unfold within, lowest.
  assert (0 < 2 ^ (width - bits)) by (apply Z.pow_pos_nonneg; lia). set (k := 2 ^ (width - bits)) in *.
  pose proof (Z.div_mod x k ltac:(lia)). pose proof (Z.mod_pos_bound x k ltac:(lia)). split; intros H'.
  - rewrite <- H'. nia.
  - symmetry. apply (Z.div_unique _ _ _ (x - z / k * k)); [left; lia | lia].
Qed.

Lemma Contains_v4 x z bits :
  0 <= x -> prefix_wf (P4 z bits) -> Contains (P4 z bits) (V4 x) = true <-> within z 32 bits x.
Proof. intros Hx [Hz Hb]. cbn [Contains]. apply within_spec; lia. Qed.

Lemma Contains_v6 x z bits :
  0 <= x -> prefix_wf (P6 z bits) -> Contains (P6 z bits) (V6 x "") = true <-> within z 128 bits x.
Proof. intros Hx [Hz Hb]. cbn [Contains]. apply within_spec; lia. Qed.

Lemma Unmap_wf a : addr_wf a -> addr_wf (Unmap a).
Proof.
  destruct a as [|z|z zone]; cbn [Unmap]; intros H; [exact H | exact H |]. destruct (Is4In6 _); [|exact H].
  apply Z.mod_pos_bound. reflexivity.
Qed.

Lemma Unmap_idem a : Unmap (Unmap a) = Unmap a.
Proof.
  destruct a as [|z|z zone]; cbn [Unmap]; [reflexivity | reflexivity |].
  destruct (Is4In6 (V6 z zone)) eqn:E; [reflexivity|]. cbn [Unmap]. rewrite E. reflexivity.
Qed.

(** ** Parsed addresses have their width *)

Lemma v4_fields_wf l : forall start dot val digLen pos acc z,
  0 <= val <= 255 -> 0 <= pos <= 3 -> 0 <= acc < 256 ^ pos -> v4_fields l start dot val digLen pos acc = Some z -> 0 <= z < 2 ^ 32.
Proof.
  induction l as [|c l IH]; intros start dot val digLen pos acc z Hv Hp Ha; cbn [v4_fields].
  - destruct (pos <? 3) eqn:E; [done|]. intros [= <-]. breflect. assert (pos = 3) as -> by lia. change (256 ^ 3) with 16777216 in Ha. lia.
  - destruct (digit c) eqn:Ed.
    + destruct (_ && _); [done|]. destruct (255 <? _) eqn:Ev; [done|]. breflect. apply IH; [|done|done].
      unfold digit in Ed. breflect. lia.
    + destruct (u8 c =? 46); [|done]. destruct (_ || _); [done|]. destruct (pos =? 3) eqn:E3; [done|]. breflect.
      apply IH; [done | lia|]. rewrite Z.pow_add_r by lia. change (256 ^ 1) with 256. nia.
Qed.

Lemma parse_ipv4_wf l z : parse_ipv4 l = Some z -> 0 <= z < 2 ^ 32.
Proof. unfold parse_ipv4. apply v4_fields_wf; [done | done | by split]. Qed.

Definition octets (ip : list Z) : Prop := Forall (fun b => 0 <= b < 256) ip.

Lemma v6_value_bound ip : octets ip -> 0 <= v6_value ip < 256 ^ zlen ip.
Proof.
  unfold v6_value. intros H. enough (Hg : forall acc, 0 <= acc -> 0 <= foldl (fun acc b => acc * 256 + b) acc ip < (acc + 1) * 256 ^ zlen ip).
  { specialize (Hg 0 ltac:(done)). lia. }
  induction H as [|b ip Hb _ IH]; intros acc Ha; cbn [foldl]; [change (zlen []) with 0; rewrite Z.pow_0_r; lia|].
  specialize (IH (acc * 256 + b) ltac:(lia)). rewrite zlen_cons, Z.pow_add_r by (pose proof (zlen_nonneg ip); lia).
  change (256 ^ 1) with 256. pose proof (Z.pow_pos_nonneg 256 (zlen ip) ltac:(done) (zlen_nonneg ip)). nia.
Qed.

Lemma hex_digit_range c d : hex_digit c = Some d -> 0 <= d < 16.
Proof.
  unfold hex_digit, digit. destruct (_ && _) eqn:E1; [intros [= <-]; breflect; lia|].
  destruct (_ && _) eqn:E2 in |- *; [intros [= <-]; breflect; lia|]. destruct (_ && _) eqn:E3 in |- *; [intros [= <-]; breflect; lia | done].
Qed.

Lemma hex_group_range l : forall off acc v n rest,
  0 <= off <= 4 -> 0 <= acc < 16 ^ off -> hex_group l off acc = Some (v, n, rest) -> 0 <= v < 65536.
Proof.
  assert (H4 : forall off v, 0 <= off <= 4 -> 0 <= v < 16 ^ off -> 0 <= v < 65536).
  { intros off v Ho Hv. pose proof (Z.pow_le_mono_r 16 off 4 ltac:(done) ltac:(lia)). change (16 ^ 4) with 65536 in *. lia. }
  induction l as [|c l IH]; intros off acc v n rest Ho Ha; cbn [hex_group]; [intros [= <- _ _]; by apply (H4 off)|].
  destruct (hex_digit c) as [d|] eqn:Ed; [|intros [= <- _ _]; by apply (H4 off)]. destruct (3 <? off) eqn:E; [done|]. breflect.
  apply hex_digit_range in Ed. apply IH; [lia|]. rewrite Z.pow_add_r by lia. change (16 ^ 1) with 16. nia.
Qed.

Lemma v6_groups_wf turns : forall s ip e ip' e' rest,
  octets ip -> zlen ip + 2 * Z.of_nat turns <= 16 -> v6_groups turns s ip e = Some (ip', e', rest) -> octets ip' /\ zlen ip' <= 16.
Proof.
  induction turns as [|turns IH]; intros s ip e ip' e' rest Hip Hl; cbn [v6_groups]; [intros [= <- _ _]; split; [done | lia]|].
  destruct (hex_group s 0 0) as [[[acc off] rest0]|] eqn:Eh; [|done]. apply hex_group_range in Eh; [|done|by split].
  destruct (off =? 0); [done|]. destruct (match rest0 with c :: _ => u8 c =? 46 | [] => false end).
  { destruct (_ && _); [done|]. destruct (16 <? zlen ip + 4) eqn:E16; [done|]. breflect. destruct (parse_ipv4 s) as [z|]; [|done]. cbn [mbind option_bind].
    intros [= <- _ _]. split; [apply Forall_app; split; [done|]; repeat (apply Forall_cons; split; [apply u8_range|]); constructor|].
    rewrite zlen_app. unfold zlen at 2. cbn [length]. lia. }
  assert (Hip2 : octets (ip ++ [acc / 256; acc mod 256]) /\ zlen (ip ++ [acc / 256; acc mod 256]) + 2 * Z.of_nat turns <= 16).
  { split; [|rewrite zlen_app; change (zlen [acc / 256; acc mod 256]) with 2; lia].
    apply Forall_app. split; [done|]. repeat constructor; try (apply Z.mod_pos_bound; lia); [apply Z.div_pos; lia | apply Z.div_lt_upper_bound; lia]. }
  destruct Hip2 as [Hip2 Hl2]. destruct rest0 as [|c rest0]; [intros [= <- _ _]; split; [done | lia]|]. destruct (_ || _); [done|].
  destruct rest0 as [|d rest']; [done|]. destruct (u8 d =? 58); [|by apply IH]. destruct (bool_decide (e <> None)); [done|].
  destruct (bool_decide (rest' = [])); [intros [= <- _ _]; split; [done | lia] | by apply IH].
Qed.

Lemma parse_ipv6_wf l z : parse_ipv6 l = Some z -> 0 <= z < 2 ^ 128.
Proof.
  unfold parse_ipv6. destruct (match l with c :: d :: rest => _ | _ => _ end) as [s e]. destruct (_ && _); [intros [= <-]; done|].
  destruct (v6_groups 8 s [] e) as [[[ip e'] rest]|] eqn:E; [|done]. destruct rest; [|done].
  apply v6_groups_wf in E as [Hip Hl]; [|constructor|done]. destruct (zlen ip <? 16) eqn:E16; breflect.
  - destruct e' as [e'|]; [|done]. cbn [mbind option_bind]. intros [= <-].
    assert (Hw : octets (take e' ip ++ replicate (16 - length ip) 0 ++ drop e' ip)).
    { rewrite <- (take_drop e' ip) in Hip. apply Forall_app in Hip as [H1 H2]. apply Forall_app. split; [done|]. apply Forall_app. split; [|done].
      apply Forall_replicate. lia. }
    apply v6_value_bound in Hw. replace (zlen (take e' ip ++ replicate (16 - length ip) 0 ++ drop e' ip)) with 16 in Hw; [exact Hw|].
    unfold zlen in *. rewrite !length_app, length_replicate, length_take, length_drop. lia.
  - destruct (bool_decide (e' <> None)); [done|]. intros [= <-]. apply v6_value_bound in Hip. replace (zlen ip) with 16 in Hip by lia. exact Hip.
Qed.

Lemma ParseAddr_wf s a : ParseAddr s = Some a -> addr_wf a.
Proof.
  unfold ParseAddr. destruct (List.find _ _) as [c|]; [|done]. destruct (u8 c =? 46).
  - destruct (parse_ipv4 _) as [z|] eqn:E; [|done]. intros [= <-]. exact (parse_ipv4_wf _ _ E).
  - destruct (u8 c =? 58); [|done]. destruct (cut_byte 37 (bytes_of s)) as [l [[|d zone]|]]; [done| |];
      (destruct (parse_ipv6 l) as [z|] eqn:E; [|done]; intros [= <-]; exact (parse_ipv6_wf _ _ E)).
Qed.

(** ** Examples *)

Example parse_v4 : ParseAddr "192.168.1.250" = Some (V4 3232236026).
Proof. vm_compute. reflexivity. Qed.
Example parse_v4_octal : ParseAddr "192.168.01.250" = None.
Proof. vm_compute. reflexivity. Qed.
Example parse_v6 : ParseAddr "fe80::1%eth0" = Some (V6 (65152 * 2 ^ 112 + 1) "eth0").
Proof. vm_compute. reflexivity. Qed.
Example parse_mapped : Unmap <$> ParseAddr "::ffff:10.0.0.1" = Some (V4 167772161).
Proof. vm_compute. reflexivity. Qed.
Example parse_v6_tail : ParseAddr "2001:db8::" = Some (V6 (8193 * 2 ^ 112 + 3512 * 2 ^ 96) "").
Proof. vm_compute. reflexivity. Qed.
Example parse_v6_full : ParseAddr "1:2:3:4:5:6:7:8:9" = None /\ ParseAddr "1::2:3:4:5:6:7:8" = None /\ is_Some (ParseAddr "1::3:4:5:6:7:8").
Proof. vm_compute. eauto. Qed.
Example split_host : SplitHostPort "[::1]:443" = Some ("::1"%string, "443"%string) /\ SplitHostPort "a:b:1" = None /\ SplitHostPort "a]:1" = None.
Proof. vm_compute. eauto. Qed.
Example parse_prefix : ParsePrefix "172.16.0.0/12" = Some (P4 2886729728 12) /\ ParsePrefix "10.0.0.0/08" = None.
Proof. vm_compute. eauto. Qed.
