(* ===== verification/ClientHello.v ===== *)
(** * The TLS ClientHello reader ([src/internal/gateway/tlshello.go])

    Before the gateway forwards a tunnel it reads the first TLS records, finds the server name the client asks for and keeps the bytes.
    The theorems give the exact grammar it accepts: a message that is not of that form, or names two hosts, is refused. *)

From Stdlib Require Import Ascii.
From S2P Require Import Prelude GoText GoJson GoRune GoNet.

Module ClientHello.

Definition maxTLSClientHello : Z := 65536.
Definition maxTLSClientHelloRecord : Z := 16384 + 2048.
Definition maxTLSHelloRecords : Z := 8.

(** ** The cursor *)

Record helloCursor := mkCursor { raw : bytes; offset : nat }.

Definition remaining (c : helloCursor) : Z := zlen (raw c) - Z.of_nat (offset c).

Definition take_ (c : helloCursor) (length : Z) : option bytes * helloCursor :=
  if (length <? 0) || (remaining c <? length) then (None, c)
  else (Some (take (Z.to_nat length) (drop (offset c) (raw c))), mkCursor (raw c) (offset c + Z.to_nat length)).

Definition vector8 (c : helloCursor) : option bytes * helloCursor :=
  match take_ c 1 with (None, c) => (None, c) | (Some l, c) => take_ c (be_decode l) end.
Definition vector16 (c : helloCursor) : option bytes * helloCursor :=
  match take_ c 2 with (None, c) => (None, c) | (Some l, c) => take_ c (be_decode l) end.

(** ** Host names *)

Definition alnum_byte (b : Z) : bool :=
  ((48 <=? b) && (b <=? 57)) || ((65 <=? b) && (b <=? 90)) || ((97 <=? b) && (b <=? 122)).

(** [[A-Za-z0-9](?:[A-Za-z0-9-]{0,61}[A-Za-z0-9])?] *)
Definition label (l : bytes) : bool :=
  match l with
  | [] => false
  | c :: _ =>
      alnum_byte (u8 c) && match last l with Some d => alnum_byte (u8 d) | None => false end
      && (zlen l <=? 63) && forallb (fun c => alnum_byte (u8 c) || (u8 c =? 45)) l
  end.

(** The parts between dots. *)
Fixpoint split_dots (l : bytes) : list bytes :=
  match l with
  | [] => [[]]
  | c :: l =>
      if u8 c =? 46 then [] :: split_dots l
      else match split_dots l with p :: ps => (c :: p) :: ps | [] => [[c]] end
  end.

(** [egressHostPattern.MatchString]: an optional wildcard, then labels. *)
Definition egressHostPattern (s : string) : bool :=
  forallb label (split_dots (bytes_of (trim_prefix s "*."))).

Definition trim_dot (s : string) : string :=
  match rev (bytes_of s) with c :: l => if u8 c =? 46 then string_of (rev l) else s | [] => s end.

Definition valid_host (name : string) : bool :=
  negb (has_prefix name "*." || (253 <? slen name) || negb (egressHostPattern name) || ParseIP name).

(** [strings.ToLower]. [lower_rune] is [unicode.ToLower] on the runes that are not ASCII. *)
Section Parser.
Context (lower_rune : Z -> Z).

Definition to_lower (s : string) : string :=
  of_runes ((fun r => if r <? 128 then if (65 <=? r) && (r <=? 90) then r + 32 else r else lower_rune r) <$> to_runes s).

(** ** The parsers

    A loop runs on fuel; [outOfFuel] is never returned when it has the length of its input ([client_hello_total]). *)

Definition outOfFuel : string := "out of fuel".

Fixpoint server_names (fuel : nat) (c : helloCursor) (serverName : string) : result string :=
  if remaining c <=? 0 then Ok serverName else
  match fuel with
  | O => Err outOfFuel
  | S fuel =>
      match take_ c 1 with
      | (None, _) => Err "truncated TLS server name"
      | (Some nameType, c) =>
          match vector16 c with
          | (None, _) | (Some [], _) => Err "invalid TLS server name"
          | (Some name, c) =>
              if negb (be_decode nameType =? 0) then server_names fuel c serverName else
              if negb (String.eqb serverName "") then Err "duplicate TLS host name" else
              let serverName := to_lower (trim_dot (string_of name)) in
              if negb (valid_host serverName) then Err "invalid TLS host name" else
              server_names fuel c serverName
          end
      end
  end.

Definition parseTLSServerNameExtension (extension : bytes) : result string :=
  match vector16 (mkCursor extension 0) with
  | (Some names, c) =>
      if negb (remaining c =? 0) || (zlen names =? 0) then Err "invalid TLS server name list"
      else server_names (length names) (mkCursor names 0) ""
  | (None, _) => Err "invalid TLS server name list"
  end.

Fixpoint extensions (fuel : nat) (c : helloCursor) (seen : bool) (serverName : string) : result string :=
  if remaining c <=? 0 then Ok serverName else
  match fuel with
  | O => Err outOfFuel
  | S fuel =>
      let '(typeBytes, c) := take_ c 2 in
      let '(value, c) := vector16 c in
      match typeBytes, value with
      | Some typeBytes, Some value =>
          if negb (be_decode typeBytes =? 0) then extensions fuel c seen serverName else
          if seen then Err "duplicate TLS server name extension" else
          let* name := parseTLSServerNameExtension value in
          extensions fuel c true name
      | _, _ => Err "truncated TLS extension"
      end
  end.

Definition parseTLSClientHelloServerName (hello : bytes) : result string :=
  let c := mkCursor hello 0 in
  match take_ c (2 + 32) with
  | (None, _) => Err "truncated TLS ClientHello"
  | (Some _, c) =>
      match vector8 c with
      | (None, _) => Err "invalid TLS session ID"
      | (Some _, c) =>
          match vector16 c with
          | (None, _) => Err "invalid TLS cipher suites"
          | (Some ciphers, c) =>
              if (zlen ciphers =? 0) || negb (zlen ciphers mod 2 =? 0) then Err "invalid TLS cipher suites" else
              match vector8 c with
              | (None, _) => Err "invalid TLS compression methods"
              | (Some compression, c) =>
                  if zlen compression =? 0 then Err "invalid TLS compression methods" else
                  if remaining c =? 0 then Ok ""%string else
                  match vector16 c with
                  | (None, _) => Err "invalid TLS extensions"
                  | (Some exts, c) =>
                      if negb (remaining c =? 0) then Err "invalid TLS extensions"
                      else extensions (length exts) (mkCursor exts 0) false ""
                  end
              end
          end
      end
  end.

(** [io.ReadFull] of [n] bytes: the stream ends where the connection fails. *)
Definition read_full (n : Z) (stream : bytes) : option (bytes * bytes) :=
  if zlen stream <? n then None else Some (take (Z.to_nat n) stream, drop (Z.to_nat n) stream).

(** The loop over at most [records] records: the bytes read, the server name and what is left of the stream. *)
Fixpoint read_records (records : nat) (stream raw handshake : bytes) : result (bytes * string * bytes) :=
  match records with
  | O => Err "TLS ClientHello is too fragmented"
  | S records =>
      match read_full 5 stream with
      | None => Err "read TLS record header"
      | Some (header, stream) =>
          let length := be_decode (drop 3 header) in
          if negb (be_decode (take 1 header) =? 22) || negb (be_decode (take 1 (drop 1 header)) =? 3)
             || (length <? 1) || (maxTLSClientHelloRecord <? length)
          then Err "invalid TLS ClientHello record" else
          if maxTLSClientHello + maxTLSHelloRecords * 5 <? zlen raw + zlen header + length
          then Err "TLS ClientHello exceeds limit" else
          match read_full length stream with
          | None => Err "read TLS record"
          | Some (payload, stream) =>
              let raw := raw ++ header ++ payload in
              let handshake := handshake ++ payload in
              if zlen handshake <? 4 then read_records records stream raw handshake else
              if negb (be_decode (take 1 handshake) =? 1) then Err "first TLS handshake message is not ClientHello" else
              let messageLength := be_decode (take 3 (drop 1 handshake)) in
              if (messageLength <? 1) || (maxTLSClientHello <? messageLength) then Err "invalid TLS ClientHello length" else
              if zlen handshake <? 4 + messageLength then read_records records stream raw handshake else
              let* name := parseTLSClientHelloServerName (take (Z.to_nat messageLength) (drop 4 handshake)) in
              Ok (raw, name, stream)
          end
      end
  end.

Definition readTLSClientHello (stream : bytes) : result (bytes * string * bytes) :=
  read_records (Z.to_nat maxTLSHelloRecords) stream [] [].

(** ** The grammar *)

Definition vec8 (b : bytes) : bytes := be_encode 1 (zlen b) ++ b.
Definition vec16 (b : bytes) : bytes := be_encode 2 (zlen b) ++ b.
Definition small8 (b : bytes) : Prop := zlen b < 2 ^ 8.
Definition small16 (b : bytes) : Prop := zlen b < 2 ^ 16.

(** A tagged vector: the tag has [n] bytes. *)
Definition tagged (n : nat) (e : Z * bytes) : bytes := be_encode n e.1 ++ vec16 e.2.
Definition tagged_ok (n : nat) (e : Z * bytes) : Prop := 0 <= e.1 < 256 ^ Z.of_nat n /\ small16 e.2.
Definition all_tagged (n : nat) (l : list (Z * bytes)) : bytes := concat (tagged n <$> l).

(** The values with tag zero. *)
Definition zeros (l : list (Z * bytes)) : list bytes := (List.filter (fun e => e.1 =? 0) l).*2.

Definition normal_host (name : bytes) : string := to_lower (trim_dot (string_of name)).

(** At most one host name, well formed; none is the empty name. *)
Definition names_give (l : list (Z * bytes)) (name : string) : Prop :=
  match zeros l with
  | [] => name = ""%string
  | [n] => name = normal_host n /\ valid_host name = true
  | _ => False
  end.

Definition server_name_list (value : bytes) (name : string) : Prop :=
  exists l, value = vec16 (all_tagged 1 l) /\ small16 (all_tagged 1 l) /\ l <> [] /\
    Forall (fun e => tagged_ok 1 e /\ e.2 <> []) l /\ names_give l name.

(** At most one server name extension. *)
Definition extensions_give (l : list (Z * bytes)) (name : string) : Prop :=
  match zeros l with
  | [] => name = ""%string
  | [v] => server_name_list v name
  | _ => False
  end.

Definition client_hello (hello : bytes) (name : string) : Prop :=
  exists start session ciphers compression,
    zlen start = 34 /\ small8 session /\ small16 ciphers /\ ciphers <> [] /\ zlen ciphers mod 2 = 0 /\
    small8 compression /\ compression <> [] /\
    ((hello = start ++ vec8 session ++ vec16 ciphers ++ vec8 compression /\ name = ""%string) \/
     exists l, hello = start ++ vec8 session ++ vec16 ciphers ++ vec8 compression ++ vec16 (all_tagged 2 l) /\
       small16 (all_tagged 2 l) /\ Forall (tagged_ok 2) l /\ extensions_give l name).

(** The host name as it stands in the message, before it is lower-cased: the value of the only host name of the only server
    name extension. *)
Definition carries (hello : bytes) (sni : option bytes) : Prop :=
  exists start session ciphers compression,
    zlen start = 34 /\ small8 session /\ small16 ciphers /\ small8 compression /\
    ((hello = start ++ vec8 session ++ vec16 ciphers ++ vec8 compression /\ sni = None) \/
     exists l, hello = start ++ vec8 session ++ vec16 ciphers ++ vec8 compression ++ vec16 (all_tagged 2 l) /\
       small16 (all_tagged 2 l) /\ Forall (tagged_ok 2) l /\
       match zeros l with
       | [] => sni = None
       | [v] => exists names, v = vec16 (all_tagged 1 names) /\ Forall (tagged_ok 1) names /\ zeros names = option_list sni
       | _ => False
       end).

(** The runes that the lower case of a host name turns into the ASCII byte [c]: ASCII letters of either case, every other ASCII
    byte as it is, and the only two runes beyond ASCII whose lower case is an ASCII letter, U+0130 and U+212A. *)
Definition folds (r c : Z) : Prop :=
  (65 <= r <= 90 /\ c = r + 32) \/ (r < 128 /\ ~ 65 <= r <= 90 /\ c = r) \/ (r = 304 /\ c = 105) \/ (r = 8490 /\ c = 107).

(** [name], without one final dot, is [host] up to [folds]. *)
Definition spells (name : bytes) (host : string) : Prop :=
  Forall2 folds (to_runes (trim_dot (string_of name))) (u8 <$> bytes_of host).

(** What Unicode says of [unicode.ToLower] beyond ASCII: U+0130 becomes i and U+212A becomes k, and no other rune becomes an
    ASCII one. *)
Definition lower_rune_ok : Prop :=
  lower_rune 304 = 105 /\ lower_rune 8490 = 107 /\ forall r, 128 <= r -> r <> 304 -> r <> 8490 -> 128 <= lower_rune r.

(** ** Vectors and cursors *)

Definition rest (c : helloCursor) : bytes := drop (offset c) (raw c).
Definition cursor_ok (c : helloCursor) : Prop := (offset c <= length (raw c))%nat.

Lemma remaining_rest c : cursor_ok c -> remaining c = zlen (rest c).
Proof. unfold cursor_ok, remaining, rest, zlen. rewrite length_drop. lia. Qed.

Lemma take_spec c n :
  cursor_ok c -> 0 <= n ->
  match take_ c n with
  | (Some v, c') => cursor_ok c' /\ rest c = v ++ rest c' /\ zlen v = n
  | (None, _) => zlen (rest c) < n
  end.
Proof.
  intros Hc Hn. unfold take_. rewrite remaining_rest by done. destruct (n <? 0) eqn:E0; breflect; [lia|]. cbn [orb].
  destruct (zlen (rest c) <? n) eqn:E; breflect; [done|]. unfold rest, cursor_ok in *. cbn [raw offset]. split_and!.
  - unfold zlen in E. rewrite length_drop in E. lia.
  - rewrite <- drop_drop. symmetry. apply take_drop.
  - unfold zlen in *. rewrite length_take. lia.
Qed.

Lemma decode_length n (v : bytes) : 0 <= zlen v < 256 ^ Z.of_nat n -> be_decode (be_encode n (zlen v)) = zlen v.
Proof. intros H. by apply be_decode_encode_small. Qed.

(** Reads the length of [n] bytes and the vector behind it. *)
Lemma vector_spec (n : nat) c :
  cursor_ok c ->
  match match take_ c (Z.of_nat n) with (None, c) => (None, c) | (Some l, c) => take_ c (be_decode l) end with
  | (Some v, c') => cursor_ok c' /\ rest c = be_encode n (zlen v) ++ v ++ rest c' /\ zlen v < 256 ^ Z.of_nat n
  | (None, _) => forall v t, zlen v < 256 ^ Z.of_nat n -> rest c <> be_encode n (zlen v) ++ v ++ t
  end.
Proof.
  intros Hc. pose proof (take_spec c (Z.of_nat n) Hc ltac:(lia)) as H1. destruct (take_ c (Z.of_nat n)) as [[l|] c1].
  - destruct H1 as (Hc1 & E1 & Hl). pose proof (be_decode_bound l) as Hb. rewrite Hl in Hb.
    assert (El : l = be_encode n (be_decode l)) by (rewrite <- (be_encode_decode l) at 1; f_equal; unfold zlen in Hl; lia).
    pose proof (take_spec c1 (be_decode l) Hc1 ltac:(lia)) as H2. destruct (take_ c1 (be_decode l)) as [[v|] c2].
    + destruct H2 as (Hc2 & E2 & Hv). rewrite Hv. split_and!; [done| |lia]. by rewrite E1, E2, <- El.
    + intros v t Hv E. rewrite E1 in E. apply app_inj_1 in E as [El' E2]; [|rewrite length_be_encode; unfold zlen in Hl; lia].
      rewrite El', decode_length, E2 in H2 by (pose proof (zlen_nonneg v); lia). autorewrite with len in H2.
      pose proof (zlen_nonneg t). lia.
  - intros v t Hv E. rewrite E in H1. autorewrite with len in H1. pose proof (zlen_nonneg v). pose proof (zlen_nonneg t). lia.
Qed.

Lemma vector8_spec c :
  cursor_ok c ->
  match vector8 c with
  | (Some v, c') => cursor_ok c' /\ rest c = vec8 v ++ rest c' /\ small8 v
  | (None, _) => forall v t, small8 v -> rest c <> vec8 v ++ t
  end.
Proof.
  intros Hc. pose proof (vector_spec 1 c Hc) as H. unfold vector8, vec8, small8. change (Z.of_nat 1) with 1 in H.
  destruct (match take_ c 1 with (None, c) => (None, c) | (Some l, c) => take_ c (be_decode l) end) as [[v|] c'].
  - by rewrite <- app_assoc.
  - intros v t. rewrite <- app_assoc. apply H.
Qed.

Lemma vector16_spec c :
  cursor_ok c ->
  match vector16 c with
  | (Some v, c') => cursor_ok c' /\ rest c = vec16 v ++ rest c' /\ small16 v
  | (None, _) => forall v t, small16 v -> rest c <> vec16 v ++ t
  end.
Proof.
  intros Hc. pose proof (vector_spec 2 c Hc) as H. unfold vector16, vec16, small16. change (Z.of_nat 2) with 2 in H.
  destruct (match take_ c 2 with (None, c) => (None, c) | (Some l, c) => take_ c (be_decode l) end) as [[v|] c'].
  - by rewrite <- app_assoc.
  - intros v t. rewrite <- app_assoc. apply H.
Qed.

Lemma vector_inj n (v v' t t' : bytes) :
  zlen v < 256 ^ Z.of_nat n -> zlen v' < 256 ^ Z.of_nat n ->
  be_encode n (zlen v) ++ v ++ t = be_encode n (zlen v') ++ v' ++ t' -> v = v' /\ t = t'.
Proof.
  intros Hv Hv' E. apply app_inj_1 in E as [El E]; [|by rewrite !length_be_encode].
  apply (f_equal be_decode) in El. rewrite !decode_length in El by (split; [apply zlen_nonneg | done]).
  apply app_inj_1 in E; [done | unfold zlen in El; lia].
Qed.

Lemma vec8_inj v v' (t t' : bytes) : small8 v -> small8 v' -> vec8 v ++ t = vec8 v' ++ t' -> v = v' /\ t = t'.
Proof. unfold vec8, small8. rewrite <- !app_assoc. apply (vector_inj 1). Qed.
Lemma vec16_inj v v' (t t' : bytes) : small16 v -> small16 v' -> vec16 v ++ t = vec16 v' ++ t' -> v = v' /\ t = t'.
Proof. unfold vec16, small16. rewrite <- !app_assoc. apply (vector_inj 2). Qed.

Lemma tagged_inj n e e' (t t' : bytes) : tagged_ok n e -> tagged_ok n e' -> tagged n e ++ t = tagged n e' ++ t' -> e = e' /\ t = t'.
Proof.
  intros [Ht Hv] [Ht' Hv']. unfold tagged. rewrite <- !app_assoc. intros E.
  apply app_inj_1 in E as [El E]; [|by rewrite !length_be_encode]. apply (f_equal be_decode) in El.
  rewrite !be_decode_encode_small in El by done. apply vec16_inj in E as [Ev Et]; [|done|done]. destruct e, e'; simpl in *. by subst.
Qed.

Lemma zlen_tagged n e : zlen (tagged n e) = Z.of_nat n + 2 + zlen e.2.
Proof. unfold tagged, vec16. autorewrite with len. lia. Qed.

(** The tag and the vector that follow the cursor. *)
Lemma tagged_spec (n : nat) c :
  cursor_ok c ->
  match take_ c (Z.of_nat n) with
  | (Some t, c1) =>
      match vector16 c1 with
      | (Some v, c2) => cursor_ok c2 /\ rest c = tagged n (be_decode t, v) ++ rest c2 /\ tagged_ok n (be_decode t, v)
      | (None, _) => forall e tl, tagged_ok n e -> rest c <> tagged n e ++ tl
      end
  | (None, _) => forall e tl, tagged_ok n e -> rest c <> tagged n e ++ tl
  end.
Proof.
  intros Hc. pose proof (take_spec c (Z.of_nat n) Hc ltac:(lia)) as H1. destruct (take_ c (Z.of_nat n)) as [[t|] c1].
  - destruct H1 as (Hc1 & E1 & Ht). pose proof (vector16_spec c1 Hc1) as H2. pose proof (be_decode_bound t) as Hb. rewrite Ht in Hb.
    destruct (vector16 c1) as [[v|] c2].
    + destruct H2 as (Hc2 & E2 & Hv). split_and!; [done| |done]. unfold tagged. cbn [fst snd]. rewrite E1, E2, <- app_assoc. f_equal.
      rewrite <- (be_encode_decode t) at 1. f_equal. unfold zlen in Ht. lia.
    + intros [x v] tl [_ Hv] E. unfold tagged in E. rewrite E1, <- app_assoc in E.
      apply app_inj_1 in E as [_ E]; [|rewrite length_be_encode; unfold zlen in Ht; lia]. by apply H2 in E.
  - intros e tl _ E. rewrite E in H1. autorewrite with len in H1. rewrite zlen_tagged in H1.
    pose proof (zlen_nonneg e.2). pose proof (zlen_nonneg tl). lia.
Qed.

(** ** The loops *)

Lemma rest_start l : rest (mkCursor l 0) = l /\ cursor_ok (mkCursor l 0).
Proof. unfold rest, cursor_ok. cbn [raw offset]. split; [apply drop_0 | lia]. Qed.

Lemma zeros_cons e l : zeros (e :: l) = if e.1 =? 0 then e.2 :: zeros l else zeros l.
Proof. unfold zeros. cbn [List.filter]. by destruct (e.1 =? 0). Qed.

Lemma rest_shorter n c e c' : rest c = tagged n e ++ rest c' -> (length (rest c') < length (rest c))%nat.
Proof.
  intros E. assert (H : zlen (rest c) = Z.of_nat n + 2 + zlen e.2 + zlen (rest c')) by (by rewrite E, zlen_app, zlen_tagged).
  pose proof (zlen_nonneg e.2). unfold zlen in *. lia.
Qed.

Lemma remaining_zero c : cursor_ok c -> (remaining c <=? 0) = true <-> rest c = [].
Proof.
  intros Hc. rewrite remaining_rest, Z.leb_le by done. split; [|by intros ->]. intros H. apply nil_length_inv. unfold zlen in H. lia.
Qed.

(** The rest of the input is a list of tagged vectors with [P]. *)
Definition decoded (n : nat) (wf : Z * bytes -> Prop) (c : helloCursor) (P : list (Z * bytes) -> Prop) : Prop :=
  exists l, rest c = all_tagged n l /\ Forall (fun e => tagged_ok n e /\ wf e) l /\ P l.

Lemma decoded_cons n wf c P :
  decoded n wf c P <->
  (rest c = [] /\ P []) \/
  exists e tl, rest c = tagged n e ++ tl /\ tagged_ok n e /\ wf e /\
    exists l, tl = all_tagged n l /\ Forall (fun e => tagged_ok n e /\ wf e) l /\ P (e :: l).
Proof.
  split.
  - intros ([|e l] & El & Hl & HP); [by left|]. right. apply Forall_cons in Hl as [[He Hw] Hl]. exists e, (all_tagged n l). eauto 10.
  - intros [[Er HP] | (e & tl & Er & He & Hw & l & -> & Hl & HP)]; [by exists []|]. exists (e :: l). split_and!; [done| |done]. by constructor.
Qed.

Lemma decoded_end n wf c P : rest c = [] -> decoded n wf c P <-> P [].
Proof.
  intros E. rewrite decoded_cons. split; [|by auto]. intros [[_ HP] | (e & tl & Er & _)]; [done|].
  rewrite E in Er. apply (f_equal zlen) in Er. autorewrite with len in Er. rewrite zlen_tagged in Er.
  pose proof (zlen_nonneg e.2). pose proof (zlen_nonneg tl). lia.
Qed.

Lemma decoded_bad n wf c P :
  rest c <> [] -> (forall e tl, tagged_ok n e -> rest c <> tagged n e ++ tl) -> ~ decoded n wf c P.
Proof. intros Hne Hbad. rewrite decoded_cons. intros [[? _] | (e & tl & Er & He & _)]; [done | by apply (Hbad e tl)]. Qed.

Lemma decoded_step n wf c e c' P :
  rest c = tagged n e ++ rest c' -> tagged_ok n e ->
  decoded n wf c P <-> wf e /\ decoded n wf c' (fun l => P (e :: l)).
Proof.
  intros Er He. rewrite decoded_cons. split.
  - intros [[E _] | (e' & tl & E' & He' & Hw & H)].
    + apply (f_equal zlen) in E. rewrite Er in E. autorewrite with len in E. rewrite zlen_tagged in E.
      pose proof (zlen_nonneg e.2). pose proof (zlen_nonneg (rest c')). lia.
    + rewrite Er in E'. destruct (tagged_inj _ _ _ _ _ He He' E') as [<- <-]. done.
  - intros (Hw & l & El & Hl & HP). right. exists e, (rest c'). eauto 10.
Qed.

Lemma decoded_iff n wf c (P Q : list (Z * bytes) -> Prop) : (forall l, P l <-> Q l) -> decoded n wf c P <-> decoded n wf c Q.
Proof. intros H. unfold decoded. by setoid_rewrite H. Qed.

(** What the names still to come add to the name found so far. *)
Definition names_from (acc : string) (l : list (Z * bytes)) (name : string) : Prop :=
  if String.eqb acc "" then names_give l name else zeros l = [] /\ name = acc.

Lemma valid_host_nonempty name : valid_host name = true -> String.eqb name "" = false.
Proof. intros H. apply String.eqb_neq. by intros ->. Qed.

Lemma names_from_cons acc e l name :
  names_from acc (e :: l) name <->
  if negb (e.1 =? 0) then names_from acc l name
  else acc = ""%string /\ valid_host (normal_host e.2) = true /\ names_from (normal_host e.2) l name.
Proof.
  unfold names_from, names_give. rewrite zeros_cons. destruct (e.1 =? 0); cbn [negb]; [|done].
  destruct (String.eqb_spec acc "") as [-> | Hne]; [|naive_solver]. split.
  - destruct (zeros l); [|done]. intros [-> Hv]. rewrite (valid_host_nonempty _ Hv). done.
  - intros (_ & Hv & H). rewrite (valid_host_nonempty _ Hv) in H. destruct H as [-> ->]. done.
Qed.

Definition nonempty (e : Z * bytes) : Prop := e.2 <> [].

Lemma server_names_spec fuel : forall c acc name,
  cursor_ok c -> (length (rest c) <= fuel)%nat ->
  server_names fuel c acc <> Err outOfFuel /\
  (server_names fuel c acc = Ok name <-> decoded 1 nonempty c (fun l => names_from acc l name)).
Proof.
  induction fuel as [|fuel IH]; intros c acc name Hc Hf; cbn [server_names];
    pose proof (remaining_zero c Hc) as Hz; destruct (remaining c <=? 0) eqn:E0.
  1, 3: rewrite decoded_end by (by apply Hz); unfold names_from, names_give; cbn [zeros List.filter fmap list_fmap];
    split; [done|]; destruct (String.eqb_spec acc ""); naive_solver.
  { exfalso. destruct (rest c); [discriminate (proj2 Hz eq_refl) | simpl in Hf; lia]. }
  assert (Hne : rest c <> []) by (intros E; discriminate (proj2 Hz E)).
  pose proof (tagged_spec 1 c Hc) as Ht. change (Z.of_nat 1) with 1 in Ht.
  destruct (take_ c 1) as [[t|] c1]; [|split; [done|]; split; [done | by intros []%decoded_bad]].
  destruct (vector16 c1) as [[v|] c2]; [|split; [done|]; split; [done | by intros []%decoded_bad]].
  destruct Ht as (Hc2 & Er & Hok). pose proof (rest_shorter _ _ _ _ Er) as Hlt. rewrite (decoded_step _ _ _ _ _ _ Er Hok).
  unfold nonempty at 1. cbn [snd]. destruct v as [|b v]; [split; [done|]; naive_solver|].
  rewrite (decoded_iff _ _ _ _ _ (fun l => names_from_cons _ _ l _)). cbn [fst snd].
  destruct (negb (be_decode t =? 0)).
  { destruct (IH c2 acc name Hc2 ltac:(lia)) as [H1 H2]. split; [done|]. rewrite H2. naive_solver. }
  fold (normal_host (b :: v)). destruct (String.eqb_spec acc "") as [-> | Hacc]; cbn [negb];
    [|split; [done|]; split; [done|]; intros (_ & l & _ & _ & ? & _); done].
  destruct (valid_host (normal_host (b :: v))) eqn:Ev; cbn [negb]; [|split; [done|]; split; [done|]; intros (_ & l & _ & _ & _ & ? & _); done].
  destruct (IH c2 (normal_host (b :: v)) name Hc2 ltac:(lia)) as [H1 H2]. split; [done|]. rewrite H2.
  split; [intros H; split; [done|]; revert H | intros [_ H]; revert H]; apply decoded_iff; naive_solver.
Qed.

Lemma server_name_extension_spec v name :
  parseTLSServerNameExtension v <> Err outOfFuel /\ (parseTLSServerNameExtension v = Ok name <-> server_name_list v name).
Proof.
  unfold parseTLSServerNameExtension. destruct (rest_start v) as [Er Hc]. pose proof (vector16_spec _ Hc) as H. rewrite Er in H.
  destruct (vector16 (mkCursor v 0)) as [[names|] c]; cycle 1.
  { split; [done|]. split; [done|]. intros (l & -> & Hs & _). specialize (H _ [] Hs). by rewrite app_nil_r in H. }
  destruct H as (Hc' & -> & Hs). rewrite remaining_rest by done.
  assert (Hl : forall l, vec16 names ++ rest c = vec16 (all_tagged 1 l) -> small16 (all_tagged 1 l) -> names = all_tagged 1 l /\ rest c = []).
  { intros l E Hsl. rewrite <- (app_nil_r (vec16 (all_tagged 1 l))) in E. by apply vec16_inj in E. }
  destruct (rest_start names) as [En Hn]. destruct (server_names_spec (length names) (mkCursor names 0) "" name Hn) as [H1 H2]; [by rewrite En|].
  destruct (zlen (rest c) =? 0) eqn:Ec; breflect; cbn [negb orb]; cycle 1.
  { split; [done|]. split; [done|]. intros (l & E & Hsl & _). destruct (Hl l E Hsl) as [_ E0]. by rewrite E0 in Ec. }
  assert (Ec0 : rest c = []) by (apply nil_length_inv; unfold zlen in Ec; lia).
  destruct (zlen names =? 0) eqn:E0; breflect.
  { split; [done|]. split; [done|]. intros (l & E & Hsl & Hne & _). destruct (Hl l E Hsl) as [-> _]. destruct l as [|e l]; [done|].
    change (all_tagged 1 (e :: l)) with (tagged 1 e ++ all_tagged 1 l) in E0. rewrite zlen_app, zlen_tagged in E0.
    pose proof (zlen_nonneg e.2). pose proof (zlen_nonneg (all_tagged 1 l)). lia. }
  split; [done|]. rewrite H2. unfold decoded, server_name_list. rewrite En, Ec0, app_nil_r. split.
  - intros (l & -> & Hl' & Hx). exists l. split_and!; try done. by intros ->.
  - intros (l & E & Hsl & _ & Hl' & Hx). destruct (Hl l) as [-> _]; [by rewrite Ec0, app_nil_r | done |]. by exists l.
Qed.

(** The extensions still to come; [seen] when the server name was found already. *)
Definition extensions_from (seen : bool) (acc : string) (l : list (Z * bytes)) (name : string) : Prop :=
  if seen then zeros l = [] /\ name = acc
  else match zeros l with [] => name = acc | [v] => server_name_list v name | _ => False end.

Lemma extensions_from_cons seen acc e l name :
  extensions_from seen acc (e :: l) name <->
  if negb (e.1 =? 0) then extensions_from seen acc l name
  else seen = false /\ exists found, server_name_list e.2 found /\ extensions_from true found l name.
Proof.
  unfold extensions_from. rewrite zeros_cons. destruct (e.1 =? 0); cbn [negb]; [|done].
  destruct seen; [naive_solver|]. destruct (zeros l); naive_solver.
Qed.

Definition anything (e : Z * bytes) : Prop := True.

Lemma extensions_spec fuel : forall c seen acc name,
  cursor_ok c -> (length (rest c) <= fuel)%nat ->
  extensions fuel c seen acc <> Err outOfFuel /\
  (extensions fuel c seen acc = Ok name <-> decoded 2 anything c (fun l => extensions_from seen acc l name)).
Proof.
  induction fuel as [|fuel IH]; intros c seen acc name Hc Hf; cbn [extensions];
    pose proof (remaining_zero c Hc) as Hz; destruct (remaining c <=? 0) eqn:E0.
  1, 3: rewrite decoded_end by (by apply Hz); unfold extensions_from; cbn [zeros List.filter fmap list_fmap];
    split; [done|]; destruct seen; naive_solver.
  { exfalso. destruct (rest c); [discriminate (proj2 Hz eq_refl) | simpl in Hf; lia]. }
  assert (Hne : rest c <> []) by (intros E; discriminate (proj2 Hz E)).
  pose proof (tagged_spec 2 c Hc) as Ht. change (Z.of_nat 2) with 2 in Ht.
  destruct (take_ c 2) as [[t|] c1]; [|destruct (vector16 c1) as [[v|] c2]; (split; [done|]; split; [done | by intros []%decoded_bad])].
  destruct (vector16 c1) as [[v|] c2]; [|split; [done|]; split; [done | by intros []%decoded_bad]].
  destruct Ht as (Hc2 & Er & Hok). pose proof (rest_shorter _ _ _ _ Er) as Hlt. rewrite (decoded_step _ _ _ _ _ _ Er Hok).
  rewrite (decoded_iff _ _ _ _ _ (fun l => extensions_from_cons _ _ _ l _)). cbn [fst snd].
  destruct (negb (be_decode t =? 0)).
  { destruct (IH c2 seen acc name Hc2 ltac:(lia)) as [H1 H2]. split; [done|]. rewrite H2. unfold anything. naive_solver. }
  destruct seen; [split; [done|]; split; [done|]; intros (_ & l & _ & _ & ? & _); done|].
  destruct (server_name_extension_spec v (default ""%string (match parseTLSServerNameExtension v with Ok n => Some n | _ => None end))) as [Hx1 Hx2].
  destruct (parseTLSServerNameExtension v) as [found|err] eqn:Ep; cbn [default from_option] in *; cycle 1.
  { split; [congruence|]. split; [done|]. intros (_ & l & _ & _ & _ & found & Hf' & _).
    apply (proj2 (server_name_extension_spec v found)) in Hf'. congruence. }
  destruct (IH c2 true found name Hc2 ltac:(lia)) as [H1 H2]. split; [done|]. rewrite H2. unfold anything.
  assert (Hu : forall n, server_name_list v n -> n = found).
  { intros n Hn. apply (proj2 (server_name_extension_spec v n)) in Hn. congruence. }
  rewrite (decoded_iff _ _ _ _ (fun l => false = false /\ exists n, server_name_list v n /\ extensions_from true n l name)); [naive_solver|].
  intros l. split.
  - intros Hl. split; [done|]. exists found. split; [by apply Hx2 | done].
  - intros (_ & n & Hn & Hl). by rewrite (Hu n Hn) in Hl.
Qed.

(** ** The message *)

Lemma take_app c v t : cursor_ok c -> rest c = v ++ t -> exists c', take_ c (zlen v) = (Some v, c') /\ cursor_ok c' /\ rest c' = t.
Proof.
  intros Hc Er. pose proof (take_spec c (zlen v) Hc (zlen_nonneg v)) as H. destruct (take_ c (zlen v)) as [[w|] c'].
  - destruct H as (Hc' & E & Hw). rewrite Er in E. apply app_inj_1 in E as [<- ->]; [eauto | unfold zlen in Hw; lia].
  - rewrite Er, zlen_app in H. pose proof (zlen_nonneg t). lia.
Qed.

Lemma vector8_app c v t : cursor_ok c -> small8 v -> rest c = vec8 v ++ t -> exists c', vector8 c = (Some v, c') /\ cursor_ok c' /\ rest c' = t.
Proof.
  intros Hc Hv Er. pose proof (vector8_spec c Hc) as H. destruct (vector8 c) as [[w|] c']; [|by apply H in Er].
  destruct H as (Hc' & E & Hw). rewrite Er in E. apply vec8_inj in E as [<- ->]; eauto.
Qed.

Lemma vector16_app c v t : cursor_ok c -> small16 v -> rest c = vec16 v ++ t -> exists c', vector16 c = (Some v, c') /\ cursor_ok c' /\ rest c' = t.
Proof.
  intros Hc Hv Er. pose proof (vector16_spec c Hc) as H. destruct (vector16 c) as [[w|] c']; [|by apply H in Er].
  destruct H as (Hc' & E & Hw). rewrite Er in E. apply vec16_inj in E as [<- ->]; eauto.
Qed.

Lemma zlen_zero {A} (l : list A) : (zlen l =? 0) = true <-> l = [].
Proof. rewrite Z.eqb_eq. split; [|by intros ->]. intros H. apply nil_length_inv. unfold zlen in H. lia. Qed.

Lemma extensions_whole l exts name :
  exts = all_tagged 2 l -> Forall (tagged_ok 2) l -> extensions_give l name ->
  extensions (length exts) (mkCursor exts 0) false "" = Ok name.
Proof.
  intros -> Hl Hn. destruct (rest_start (all_tagged 2 l)) as [Er Hc].
  apply (extensions_spec (length (all_tagged 2 l)) _ _ _ _ Hc); [by rewrite Er|]. exists l. rewrite Er.
  split_and!; [done | by eapply Forall_impl; [exact Hl|]; intros e He | done].
Qed.

Lemma parse_complete hello name : client_hello hello name -> parseTLSClientHelloServerName hello = Ok name.
Proof.
  intros (start & session & ciphers & compression & Hst & Hse & Hci & Hci0 & Hci2 & Hco & Hco0 & Hx). unfold parseTLSClientHelloServerName.
  destruct (rest_start hello) as [Er Hc]. assert (exists ext, hello = start ++ vec8 session ++ vec16 ciphers ++ vec8 compression ++ ext /\
    ((ext = [] /\ name = ""%string) \/
     exists l, ext = vec16 (all_tagged 2 l) /\ small16 (all_tagged 2 l) /\ Forall (tagged_ok 2) l /\ extensions_give l name)) as (ext & Eh & He).
  { destruct Hx as [[-> ->] | (l & -> & ? & ? & ?)]; [exists [] | exists (vec16 (all_tagged 2 l))]; rewrite ?app_nil_r; split; eauto 10. }
  clear Hx. rewrite Eh in Er at 2. change (2 + 32) with 34. rewrite <- Hst.
  destruct (take_app _ _ _ Hc Er) as (c1 & -> & Hc1 & E1). destruct (vector8_app _ _ _ Hc1 Hse E1) as (c2 & -> & Hc2 & E2).
  destruct (vector16_app _ _ _ Hc2 Hci E2) as (c3 & -> & Hc3 & E3). rewrite Hci2. destruct (zlen ciphers =? 0) eqn:E; [by apply zlen_zero in E|].
  cbn [orb negb Z.eqb]. destruct (vector8_app _ _ _ Hc3 Hco E3) as (c4 & -> & Hc4 & E4).
  destruct (zlen compression =? 0) eqn:E'; [by apply zlen_zero in E'|]. rewrite remaining_rest, E4 by done.
  destruct He as [[-> ->] | (l & -> & Hs & Hl & Hn)]; [done|]. destruct (zlen (vec16 (all_tagged 2 l)) =? 0) eqn:E5; [by apply zlen_zero in E5|].
  destruct (vector16_app c4 (all_tagged 2 l) [] Hc4 Hs) as (c5 & -> & Hc5 & E6); [by rewrite E4, app_nil_r|].
  rewrite remaining_rest, E6 by done. cbn [zlen length negb Z.eqb Z.of_nat]. by apply (extensions_whole l).
Qed.

Lemma parse_hello_sound hello :
  parseTLSClientHelloServerName hello <> Err outOfFuel /\
  forall name, parseTLSClientHelloServerName hello = Ok name -> client_hello hello name.
Proof.
  unfold parseTLSClientHelloServerName. destruct (rest_start hello) as [Er Hc]. change (2 + 32) with 34.
  pose proof (take_spec _ 34 Hc ltac:(lia)) as H1. destruct (take_ _ 34) as [[start|] c1]; [|by split].
  destruct H1 as (Hc1 & E1 & Hst). rewrite Er in E1. pose proof (vector8_spec c1 Hc1) as H2. destruct (vector8 c1) as [[session|] c2]; [|by split].
  destruct H2 as (Hc2 & E2 & Hse). pose proof (vector16_spec c2 Hc2) as H3. destruct (vector16 c2) as [[ciphers|] c3]; [|by split].
  destruct H3 as (Hc3 & E3 & Hci). destruct (zlen ciphers =? 0) eqn:Ec0; [by split|].
  destruct (zlen ciphers mod 2 =? 0) eqn:Ec2; [|by split]. cbn [orb negb]. breflect.
  pose proof (vector8_spec c3 Hc3) as H4. destruct (vector8 c3) as [[compression|] c4]; [|by split].
  destruct H4 as (Hc4 & E4 & Hco). destruct (zlen compression =? 0) eqn:Eo; [by split|]. breflect.
  rewrite E2, E3, E4 in E1. clear E2 E3 E4 Er. rewrite remaining_rest by done.
  assert (Hgo : forall name, (rest c4 = [] /\ name = ""%string) \/ (exists l, rest c4 = vec16 (all_tagged 2 l) /\ small16 (all_tagged 2 l) /\
      Forall (tagged_ok 2) l /\ extensions_give l name) -> client_hello hello name).
  { intros name Hx. exists start, session, ciphers, compression. split_and!; try done; [by intros -> | by intros -> |].
    destruct Hx as [[Ex ->] | (l & Ex & Hs & Hl & Hn)]; rewrite Ex in E1; [left | right; exists l]; rewrite ?app_nil_r in E1; eauto. }
  destruct (zlen (rest c4) =? 0) eqn:E5; [apply zlen_zero in E5; split; [done|]; intros name [= <-]; by apply Hgo; left|].
  pose proof (vector16_spec c4 Hc4) as H6. destruct (vector16 c4) as [[exts|] c5]; [|by split]. destruct H6 as (Hc5 & E6 & Hx).
  rewrite remaining_rest by done. destruct (zlen (rest c5) =? 0) eqn:E7; cbn [negb]; [|by split]. apply zlen_zero in E7.
  destruct (rest_start exts) as [En Hn]. split.
  - apply (extensions_spec (length exts) _ false "" "" Hn). by rewrite En.
  - intros name Hok. apply (extensions_spec (length exts) _ false "" name Hn) in Hok as (l & El & Hl & Hg); [|by rewrite En].
    rewrite En in El. subst exts. apply Hgo. right. exists l. rewrite E6, E7, app_nil_r. split_and!; try done.
    eapply Forall_impl; [exact Hl|]. by intros e [He _].
Qed.

(** ** Records *)

(** A handshake record: its minor version and its payload. *)
Definition record_bytes (r : ascii * bytes) : bytes := byte_of_Z 22 :: byte_of_Z 3 :: r.1 :: vec16 r.2.
Definition record_ok (r : ascii * bytes) : Prop := 1 <= zlen r.2 <= maxTLSClientHelloRecord.
Definition all_records (l : list (ascii * bytes)) : bytes := concat (record_bytes <$> l).
Definition payloads (l : list (ascii * bytes)) : bytes := concat l.*2.

(** A handshake message of the type ClientHello. *)
Definition message (hello : bytes) : bytes := be_encode 1 1 ++ be_encode 3 (zlen hello) ++ hello.

(** The records [l], after the bytes [before] of the message, end in the record that completes a ClientHello with server name
    [name]. *)
Definition completes (before : bytes) (l : list (ascii * bytes)) (name : string) : Prop :=
  exists hello extra final, before ++ payloads l = message hello ++ extra /\ 1 <= zlen hello <= maxTLSClientHello /\
    last l = Some final /\ zlen extra < zlen final.2 /\ client_hello hello name.

Lemma read_full_app n (v t : bytes) : zlen v = n -> read_full n (v ++ t) = Some (v, t).
Proof.
  intros <-. unfold read_full. rewrite zlen_app. pose proof (zlen_nonneg t). destruct (_ <? _) eqn:E; breflect; [lia|].
  unfold zlen. rewrite Nat2Z.id, take_app_length, drop_app_length. done.
Qed.

Lemma read_full_inv n s v t : 0 <= n -> read_full n s = Some (v, t) -> s = v ++ t /\ zlen v = n.
Proof.
  intros Hn. unfold read_full. destruct (_ <? _) eqn:E; [done|]. intros [= <- <-]. breflect. rewrite take_drop.
  split; [done|]. unfold zlen in *. rewrite length_take. lia.
Qed.

Lemma header_inv (h : bytes) n :
  zlen h = 5 -> be_decode (take 1 h) = 22 -> be_decode (take 1 (drop 1 h)) = 3 -> be_decode (drop 3 h) = n ->
  exists m, h = byte_of_Z 22 :: byte_of_Z 3 :: m :: be_encode 2 n.
Proof.
  intros Hl H1 H2 <-. destruct h as [|a [|b [|m [|x [|y [|? h]]]]]]; try (unfold zlen in Hl; simpl in Hl; lia).
  cbn [take drop] in *. unfold be_decode in H1, H2. cbn [foldl] in H1, H2. exists m. change 2%nat with (length [x; y]). rewrite be_encode_decode. repeat f_equal.
  - rewrite <- (byte_of_Z_u8 a). f_equal. lia.
  - rewrite <- (byte_of_Z_u8 b). f_equal. lia.
Qed.

Lemma message_head hs more hello extra :
  hs ++ more = message hello ++ extra -> 4 <= zlen hs -> zlen hello < 2 ^ 24 ->
  be_decode (take 1 hs) = 1 /\ be_decode (take 3 (drop 1 hs)) = zlen hello /\
  (4 + zlen hello <= zlen hs -> take (Z.to_nat (zlen hello)) (drop 4 hs) = hello).
Proof.
  intros E Hl Hh. assert (Hp : forall (a b : bytes) n, (n <= length a)%nat -> take n (a ++ b) = take n a) by (intros; by apply take_app_le).
  assert (E4 : take 4 hs = be_encode 1 1 ++ be_encode 3 (zlen hello)).
  { rewrite <- (Hp hs more) by (unfold zlen in Hl; lia). rewrite E. unfold message. rewrite <- !app_assoc, app_assoc.
    apply take_app_length'. by rewrite length_app, !length_be_encode. }
  assert (E1 : take 1 hs = take 1 (take 4 hs)) by (by rewrite take_take). assert (E3 : take 3 (drop 1 hs) = drop 1 (take 4 hs)) by (by rewrite skipn_firstn_comm).
  split_and!.
  - rewrite E1, E4. rewrite (take_app_length' (be_encode 1 1)) by done. done.
  - rewrite E3, E4, (drop_app_length' (be_encode 1 1)) by done. apply be_decode_encode_small. split; [apply zlen_nonneg | done].
  - intros Hlen. rewrite take_drop_commute.
    rewrite <- (Hp hs more) by (unfold zlen in *; lia). rewrite E. unfold message.
    rewrite <- take_drop_commute, <- !app_assoc, (app_assoc (be_encode 1 1)), drop_app_length' by (by rewrite length_app, !length_be_encode).
    apply take_app_length'. unfold zlen. lia.
Qed.

Lemma zlen_message hello : zlen (message hello) = 4 + zlen hello.
Proof. unfold message. autorewrite with len. lia. Qed.

Definition limit : Z := maxTLSClientHello + maxTLSHelloRecords * 5.

(** What the loop does once a record is read. *)
Definition after_record (k : nat) (stream raw handshake : bytes) : result (bytes * string * bytes) :=
  if zlen handshake <? 4 then read_records k stream raw handshake else
  if negb (be_decode (take 1 handshake) =? 1) then Err "first TLS handshake message is not ClientHello" else
  let n := be_decode (take 3 (drop 1 handshake)) in
  if (n <? 1) || (maxTLSClientHello <? n) then Err "invalid TLS ClientHello length" else
  if zlen handshake <? 4 + n then read_records k stream raw handshake else
  let* name := parseTLSClientHelloServerName (take (Z.to_nat n) (drop 4 handshake)) in Ok (raw, name, stream).

Lemma record_split r t : record_bytes r ++ t = (byte_of_Z 22 :: byte_of_Z 3 :: r.1 :: be_encode 2 (zlen r.2)) ++ r.2 ++ t.
Proof. unfold record_bytes, vec16. by rewrite !app_comm_cons, <- app_assoc. Qed.

Lemma zlen_record r : zlen (record_bytes r) = 5 + zlen r.2.
Proof. unfold record_bytes, vec16. autorewrite with len. lia. Qed.

Lemma read_record k r t raw handshake :
  record_ok r -> zlen raw + zlen (record_bytes r) <= limit ->
  read_records (S k) (record_bytes r ++ t) raw handshake = after_record k t (raw ++ record_bytes r) (handshake ++ r.2).
Proof.
  intros Hr Hl. rewrite zlen_record in Hl. rewrite record_split. cbn [read_records].
  rewrite (read_full_app 5) by (autorewrite with len; lia). cbn [take drop].
  assert (Hn : be_decode (be_encode 2 (zlen r.2)) = zlen r.2).
  { apply be_decode_encode_small. unfold record_ok, maxTLSClientHelloRecord in Hr. change (256 ^ Z.of_nat 2) with 65536. lia. }
  rewrite drop_0, Hn. unfold record_ok in Hr. change (be_decode [byte_of_Z 22]) with 22. change (be_decode [byte_of_Z 3]) with 3. cbn [Z.eqb Pos.eqb negb orb].
  destruct (zlen r.2 <? 1) eqn:E1; breflect; [lia|]. destruct (maxTLSClientHelloRecord <? zlen r.2) eqn:E2; breflect; [lia|]. cbn [orb].
  replace (zlen (byte_of_Z 22 :: byte_of_Z 3 :: r.1 :: be_encode 2 (zlen r.2))) with 5 by (autorewrite with len; lia).
  unfold limit in Hl. destruct (maxTLSClientHello + maxTLSHelloRecords * 5 <? zlen raw + 5 + zlen r.2) eqn:E3; breflect; [lia|].
  rewrite (read_full_app (zlen r.2)) by done. unfold record_bytes, vec16. rewrite !app_comm_cons. done.
Qed.

Lemma read_record_inv k stream raw handshake v :
  read_records (S k) stream raw handshake = Ok v ->
  exists r t, stream = record_bytes r ++ t /\ record_ok r /\ zlen raw + zlen (record_bytes r) <= limit.
Proof.
  cbn [read_records]. destruct (read_full 5 stream) as [[h s1]|] eqn:E; [|done]. apply read_full_inv in E as [-> Hh]; [|done].
  destruct (be_decode (take 1 h) =? 22) eqn:E1; [|done]. destruct (be_decode (take 1 (drop 1 h)) =? 3) eqn:E2; [|done].
  destruct (be_decode (drop 3 h) <? 1) eqn:E3; [done|]. destruct (maxTLSClientHelloRecord <? be_decode (drop 3 h)) eqn:E4; [done|]. cbn [negb orb].
  destruct (_ <? zlen raw + zlen h + be_decode (drop 3 h)) eqn:E5; [done|]. destruct (read_full _ s1) as [[p s2]|] eqn:E6; [|done]. intros _.
  breflect. apply read_full_inv in E6 as [-> Hp]; [|lia]. destruct (header_inv h _ Hh E1 E2 eq_refl) as (m & Em).
  exists (m, p), s2. split_and!.
  - rewrite record_split. cbn [fst snd]. by rewrite Hp, <- Em.
  - unfold record_ok. cbn [snd]. lia.
  - rewrite zlen_record. cbn [snd]. unfold limit. lia.
Qed.

(** The message is not complete in [hs]. *)
Definition incomplete (hs : bytes) : Prop := zlen hs < 4 \/ zlen hs < 4 + be_decode (take 3 (drop 1 hs)).

Lemma whole_message hs :
  4 <= zlen hs -> be_decode (take 1 hs) = 1 -> 4 + be_decode (take 3 (drop 1 hs)) <= zlen hs ->
  let n := be_decode (take 3 (drop 1 hs)) in
  let hello := take (Z.to_nat n) (drop 4 hs) in zlen hello = n /\ hs = message hello ++ drop (4 + Z.to_nat n) hs.
Proof.
  intros H4 H1 Hn n hello. fold n in Hn. pose proof (be_decode_bound (take 3 (drop 1 hs))) as Hb. fold n in Hb.
  assert (Hl : zlen hello = n) by (unfold hello, zlen in *; rewrite length_take, length_drop; lia). split; [done|].
  assert (E1 : be_encode 1 1 = take 1 hs).
  { rewrite <- H1. rewrite <- (be_encode_decode (take 1 hs)). f_equal; [unfold zlen in H4; rewrite length_take; lia|].
    by rewrite be_encode_decode. }
  assert (E3 : be_encode 3 n = take 3 (drop 1 hs)).
  { unfold n. rewrite <- (be_encode_decode (take 3 (drop 1 hs))) at 2. f_equal. unfold zlen in H4. rewrite length_take, length_drop. lia. }
  unfold message. rewrite Hl, E1, E3. unfold hello. rewrite <- !app_assoc. rewrite <- (take_drop 1 hs) at 1. f_equal.
  rewrite <- (take_drop 3 (drop 1 hs)) at 1. f_equal. rewrite drop_drop.
  rewrite <- (take_drop (Z.to_nat n) (drop (1 + 3) hs)) at 1. f_equal. by rewrite drop_drop.
Qed.

(** ** Theorems *)

Lemma read_records_sound k : forall stream raw hs out name left,
  incomplete hs -> read_records k stream raw hs = Ok (out, name, left) ->
  exists l, (length l <= k)%nat /\ stream = all_records l ++ left /\ out = raw ++ all_records l /\ Forall record_ok l /\
    zlen out <= limit /\ completes hs l name.
Proof.
  induction k as [|k IH]; intros stream raw hs out name left Hi; [done|]. intros H.
  destruct (read_record_inv _ _ _ _ _ H) as (r & t & -> & Hr & Hl). rewrite read_record in H by done.
  assert (Hgo : incomplete (hs ++ r.2) -> read_records k t (raw ++ record_bytes r) (hs ++ r.2) = Ok (out, name, left) ->
    exists l, (length l <= S k)%nat /\ record_bytes r ++ t = all_records l ++ left /\ out = raw ++ all_records l /\ Forall record_ok l /\
      zlen out <= limit /\ completes hs l name).
  { intros Hi' H'. destruct (IH _ _ _ _ _ _ Hi' H') as (l & Hk & -> & -> & Hok & Hz & hello & extra & final & E & Hh & Hf & Hx & Hcl).
    exists (r :: l). change (all_records (r :: l)) with (record_bytes r ++ all_records l). rewrite <- !app_assoc in *.
    split_and!; try done; [simpl; lia | by constructor |]. exists hello, extra, final. split_and!; try done; try lia; try (by destruct l). }
  unfold after_record in H. destruct (zlen (hs ++ r.2) <? 4) eqn:E4; [breflect; apply Hgo; [by left | done]|].
  destruct (be_decode (take 1 (hs ++ r.2)) =? 1) eqn:E1; [|done]. cbn [negb] in H.
  set (n := be_decode (take 3 (drop 1 (hs ++ r.2)))) in *. destruct (n <? 1) eqn:En; [done|]. destruct (maxTLSClientHello <? n) eqn:En'; [done|].
  cbn [orb] in H. destruct (zlen (hs ++ r.2) <? 4 + n) eqn:Ec; [breflect; apply Hgo; [by right | done]|]. breflect.
  destruct (parseTLSClientHelloServerName _) as [nm|] eqn:Ep; [|done]. injection H as <- <- <-.
  destruct (whole_message (hs ++ r.2)) as [Hlen Hm]; [lia | lia | fold n; lia|]. fold n in Hlen, Hm.
  set (hello := take (Z.to_nat n) (drop 4 (hs ++ r.2))) in *. set (extra := drop (4 + Z.to_nat n) (hs ++ r.2)) in *.
  exists [r]. unfold all_records. cbn [fmap list_fmap concat]. rewrite app_nil_r. split_and!; try done; [simpl; lia | by constructor | by rewrite zlen_app |].
  exists hello, extra, r. split_and!; try done; [by unfold payloads; cbn [fmap list_fmap concat]; rewrite app_nil_r | lia | lia | | by apply parse_hello_sound].
  apply (f_equal zlen) in Hm as Hm'. rewrite !zlen_app, zlen_message, Hlen in Hm'. rewrite zlen_app in *.
  assert (zlen hs < 4 + n); [|lia]. destruct Hi as [Hi | Hi]; [lia|]. destruct (decide (zlen hs < 4)); [lia|].
  replace n with (be_decode (take 3 (drop 1 hs))); [done|]. unfold n. f_equal. unfold zlen in *.
  rewrite drop_app_le, take_app_le by (rewrite ?length_drop; lia). done.
Qed.

Lemma read_records_complete k : forall stream raw hs name left l,
  (length l <= k)%nat -> stream = all_records l ++ left -> Forall record_ok l ->
  zlen (raw ++ all_records l) <= limit -> completes hs l name ->
  read_records k stream raw hs = Ok (raw ++ all_records l, name, left).
Proof.
  induction k as [|k IH]; intros stream raw hs name left l Hk -> Hok Hz (hello & extra & final & E & Hh & Hf & Hx & Hc).
  { destruct l; [done | simpl in Hk; lia]. }
  destruct l as [|r l]; [done|]. apply Forall_cons in Hok as [Hr Hok]. change (all_records (r :: l)) with (record_bytes r ++ all_records l) in *.
  change (payloads (r :: l)) with (r.2 ++ payloads l) in E. rewrite app_assoc in E. rewrite <- (app_assoc (record_bytes r)), (app_assoc raw). rewrite !zlen_app in Hz.
  pose proof (zlen_nonneg (all_records l)) as Hnn. rewrite read_record by (done || lia). unfold after_record.
  assert (Hgo : l <> [] -> read_records k (all_records l ++ left) (raw ++ record_bytes r) (hs ++ r.2) = Ok ((raw ++ record_bytes r) ++ all_records l, name, left)).
  { intros Hne. apply IH; try done; [simpl in Hk; lia | rewrite !zlen_app; lia |]. exists hello, extra, final. split_and!; try done; [lia|lia|]. by destruct l. }
  assert (Hlen : zlen (hs ++ r.2) + zlen (payloads l) = 4 + zlen hello + zlen extra) by (by rewrite <- zlen_app, E, zlen_app, zlen_message).
  assert (Hlast : l = [] -> 4 + zlen hello <= zlen (hs ++ r.2)).
  { intros ->. cbn in Hf. injection Hf as <-. change (zlen (payloads [])) with 0 in Hlen. pose proof (zlen_nonneg extra). lia. }
  assert (Hmore : l <> [] -> zlen (hs ++ r.2) < 4 + zlen hello).
  { intros Hne. assert (zlen final.2 <= zlen (payloads l)); [|lia]. destruct l as [|r' l]; [done|]. clear -Hf. revert r' Hf.
    induction l as [|q l IHl]; intros r' Hf; [injection Hf as <-|]; unfold payloads in *; cbn [fmap list_fmap concat] in *; rewrite zlen_app.
    - pose proof (zlen_nonneg (@nil ascii)). unfold zlen in *. simpl. lia.
    - specialize (IHl q Hf). pose proof (zlen_nonneg r'.2). lia. }
  destruct (zlen (hs ++ r.2) <? 4) eqn:E4; breflect.
  { apply Hgo. intros ->. specialize (Hlast eq_refl). lia. }
  destruct (message_head _ _ _ _ E E4) as (H1 & H2 & H3); [unfold maxTLSClientHello in Hh; lia|]. rewrite H1, H2. cbn [Z.eqb Pos.eqb negb].
  destruct (zlen hello <? 1) eqn:E5; breflect; [lia|]. destruct (maxTLSClientHello <? zlen hello) eqn:E6; breflect; [lia|]. cbn [orb].
  destruct (zlen (hs ++ r.2) <? 4 + zlen hello) eqn:E7; breflect.
  - apply Hgo. intros ->. specialize (Hlast eq_refl). lia.
  - assert (l = []) as -> by (destruct l; [done|]; specialize (Hmore ltac:(done)); lia).
    rewrite H3, (parse_complete _ _ Hc) by done. by rewrite !app_nil_r.
Qed.

Lemma encode_beyond r : 128 <= r -> exists b t, encode_rune r = b :: t /\ 128 <= u8 b.
Proof.
  intros Hr. unfold encode_rune. rewrite (proj2 (Z.ltb_ge _ _)) by lia.
  destruct (r <? 2048) eqn:E1; breflect.
  { eexists _, _. split; [done|]. rewrite u8_byte_of_Z, Z.mod_small; pose proof (Z.div_pos r 64); pose proof (Z.div_lt_upper_bound r 64 32); lia. }
  destruct (_ || _) eqn:E2; [eexists _, _; split; [done | by vm_compute]|]. breflect.
  destruct (r <? 65536) eqn:E3; breflect; (eexists _, _; split; [done|]; rewrite u8_byte_of_Z, Z.mod_small).
  all: pose proof (Z.div_pos r 4096); pose proof (Z.div_lt_upper_bound r 4096 16);
    pose proof (Z.div_pos r 262144); pose proof (Z.div_lt_upper_bound r 262144 5); lia.
Qed.

Lemma wf_rune_nonneg r : wf_rune r -> 0 <= r.
Proof.
  intros (_ & _ & Hd). destruct (decide (0 <= r)) as [|Hr]; [done|]. specialize (Hd []). unfold encode_rune in Hd.
  rewrite (proj2 (Z.ltb_lt _ _)) in Hd by lia. cbn [app decode_rune] in Hd. pose proof (u8_range (byte_of_Z r)).
  destruct (_ <? 128) in Hd; injection Hd; lia.
Qed.

Lemma host_folds rs (host : bytes) :
  lower_rune_ok -> Forall (fun r => 0 <= r) rs -> Forall (fun b => u8 b < 128) host ->
  encode_runes ((fun r => if r <? 128 then if (65 <=? r) && (r <=? 90) then r + 32 else r else lower_rune r) <$> rs) = host ->
  Forall2 folds rs (u8 <$> host).
Proof.
  intros (Hi & Hk & Hl) Hrs. revert host. induction Hrs as [|r rs Hr Hrs IH]; intros host Hh; [intros <-; constructor|].
  rewrite fmap_cons. unfold encode_runes. rewrite fmap_cons. cbn [concat].
  set (f := fun r : Z => if r <? 128 then if (65 <=? r) && (r <=? 90) then r + 32 else r else lower_rune r) in *. intros E. change (encode_rune (f r) ++ encode_runes (f <$> rs) = host) in E.
  assert (Hf : 0 <= f r < 128 /\ folds r (f r)).
  { destruct (decide (128 <= f r)) as [Hb|Hb].
    - exfalso. destruct (encode_beyond (f r) Hb) as (b & t & Eb & Hb'). rewrite Eb in E. rewrite <- E in Hh.
      apply Forall_cons in Hh as [Hh _]. lia.
    - revert Hb. unfold f, folds. destruct (r <? 128) eqn:E1; breflect; [destruct (_ && _) eqn:E2; breflect; lia|]. intros Hb.
      destruct (decide (r = 304)) as [->|N1]; [lia|]. destruct (decide (r = 8490)) as [->|N2]; [lia|].
      specialize (Hl r ltac:(lia) N1 N2). lia. }
  destruct Hf as [Hf Hfold]. unfold encode_rune at 1 in E. rewrite (proj2 (Z.ltb_lt _ _)) in E by lia. cbn [app] in E. subst host.
  apply Forall_cons in Hh as [_ Hh]. rewrite fmap_cons. constructor; [rewrite u8_byte_of_Z, Z.mod_small by lia; done|]. by apply IH.
Qed.

Lemma label_ascii l : label l = true -> Forall (fun b => u8 b < 128) l.
Proof.
  unfold label. destruct l as [|c l']; [done|]. intros H. breflect. apply Forall_forall. intros b Hb.
  rewrite forallb_forall in H0. specialize (H0 b (proj1 (list_elem_of_In _ _) Hb)). unfold alnum_byte in H0.
  apply orb_true_iff in H0 as [H0 | H0]; [|breflect; lia]. apply orb_true_iff in H0 as [H0 | H0]; [|breflect; lia].
  apply orb_true_iff in H0 as [H0 | H0]; breflect; lia.
Qed.

Lemma labels_ascii l : forallb label (split_dots l) = true -> Forall (fun b => u8 b < 128) l.
Proof.
  intros H. assert (Hp : Forall (Forall (fun b => u8 b < 128)) (split_dots l)).
  { apply Forall_forall. intros p Hp. apply label_ascii. rewrite forallb_forall in H. by apply H, list_elem_of_In. }
  clear H. revert Hp. induction l as [|c l IH]; [constructor|]. cbn [split_dots].
  destruct (u8 c =? 46) eqn:E; breflect.
  - intros [_ Hp]%Forall_cons. constructor; [lia | auto].
  - destruct (split_dots l) as [|q qs]; intros Hp; apply Forall_cons in Hp as [Hc Hq]; apply Forall_cons in Hc as [Hc Hc'].
    + constructor; [done|]. apply IH. constructor.
    + constructor; [done|]. apply IH. by constructor.
Qed.

Lemma valid_host_ascii name : valid_host name = true -> name <> ""%string /\ Forall (fun b => u8 b < 128) (bytes_of name).
Proof.
  unfold valid_host. rewrite negb_true_iff, !orb_false_iff, negb_false_iff. intros [[[Hw _] Hp] _].
  split; [intros ->; by vm_compute in Hp|]. apply labels_ascii. unfold egressHostPattern, trim_prefix in Hp. by rewrite Hw in Hp.
Qed.

(** The accepted name is the one the message carries, up to [folds]. *)
Lemma accepted_name_spells hello name :
  lower_rune_ok -> client_hello hello name ->
  (carries hello None /\ name = ""%string) \/
  exists sni, carries hello (Some sni) /\ spells sni name /\ valid_host name = true.
Proof.
  intros Hlow (start & session & ciphers & compression & Hs & Hse & Hci & _ & _ & Hco & _ & Hx).
  destruct Hx as [[-> ->] | (l & -> & Hl & Hok & Hg)].
  { left. split; [|done]. exists start, session, ciphers, compression. split_and!; auto. }
  assert (Hc : forall sni, match zeros l with [] => sni = None | [v] => exists names, v = vec16 (all_tagged 1 names) /\
      Forall (tagged_ok 1) names /\ zeros names = option_list sni | _ => False end ->
    carries (start ++ vec8 session ++ vec16 ciphers ++ vec8 compression ++ vec16 (all_tagged 2 l)) sni).
  { intros sni H. exists start, session, ciphers, compression. split_and!; [done..|]. right. by exists l. }
  unfold extensions_give in Hg. destruct (zeros l) as [|v [|? ?]]; [|clear Hl|done].
  { left. split; [by apply Hc | done]. }
  destruct Hg as (names & -> & _ & _ & Hn & Hg). assert (Hn' : Forall (tagged_ok 1) names) by (eapply Forall_impl; [exact Hn|]; by intros e [? _]).
  unfold names_give in Hg. destruct (zeros names) as [|n [|? ?]] eqn:En; [| |done].
  { left. split; [|done]. apply Hc. exists names. by rewrite En. }
  destruct Hg as [Hname Hv]. right. exists n. split; [apply Hc; exists names; by rewrite En|]. split; [|done].
  destruct (valid_host_ascii name Hv) as [_ Ha]. unfold spells. apply host_folds; [done | | done |].
  - eapply Forall_impl; [apply wf_to_runes|]. apply wf_rune_nonneg.
  - rewrite Hname. unfold normal_host, to_lower, of_runes. by rewrite bytes_of_string_of.
Qed.

(** C24: what passes as a ClientHello. The reader accepts a stream exactly when it starts with one to eight handshake records, of at most 64 KiB and their
    headers, whose payloads begin with a ClientHello that is complete in the last of them; the name it returns is the only host name of the only server name
    extension, lower-cased and valid, or empty when there is none. The bytes it returns are exactly those records, and nothing behind them
    is consumed. *)
Theorem client_hello_accepted_exactly stream raw name left :
  readTLSClientHello stream = Ok (raw, name, left) <->
  exists l, (1 <= length l <= 8)%nat /\ stream = raw ++ left /\ raw = all_records l /\ Forall record_ok l /\ zlen raw <= limit /\
    completes [] l name.
Proof.
  unfold readTLSClientHello. change (Z.to_nat maxTLSHelloRecords) with 8%nat. split.
  - intros H. destruct (read_records_sound 8 _ _ [] _ _ _ (or_introl eq_refl) H) as (l & Hk & -> & -> & Hok & Hz & Hc). exists l. split_and!; try done.
    destruct l; [|simpl; lia]. destruct Hc as (? & ? & ? & _ & _ & Hl & _). discriminate Hl.
  - intros (l & Hk & -> & -> & Hok & Hz & Hc). apply (read_records_complete 8 _ [] [] name left l); try done. lia.
Qed.

(** C37: the parser always ends with an answer: its loops consume at least three bytes a turn, so they never run out of fuel on any input. *)
Theorem client_hello_total hello : parseTLSClientHelloServerName hello <> Err outOfFuel.
Proof. apply parse_hello_sound. Qed.

End Parser.

(** ** Examples *)

Definition sample_hello (host : bytes) : bytes :=
  replicate 34 (byte_of_Z 7) ++ vec8 [] ++ vec16 [byte_of_Z 19; byte_of_Z 1] ++ vec8 [byte_of_Z 0] ++
  vec16 (all_tagged 2 [(43, [byte_of_Z 2]); (0, vec16 (all_tagged 1 [(0, host)]))]).

Definition sample_stream (host : bytes) : bytes :=
  let m := message (sample_hello host) in
  record_bytes (byte_of_Z 1, take 3 m) ++ record_bytes (byte_of_Z 3, drop 3 m) ++ bytes_of "later".

Example reads_fragmented :
  readTLSClientHello (fun r => r) (sample_stream (bytes_of "API.Example.")) =
  Ok (take 83 (sample_stream (bytes_of "API.Example.")), "api.example"%string, bytes_of "later").
Proof. vm_compute. reflexivity. Qed.

(** The host name that is compared is not always the one that is forwarded: [unicode.ToLower] maps the Kelvin sign U+212A to the letter k, so a name
    with that rune passes as an ASCII name. *)
Theorem kelvin_sign_accepted lower_rune :
  lower_rune 8490 = 107 ->
  parseTLSClientHelloServerName lower_rune (sample_hello (encode_runes [8490; 46; 111; 114; 103])) = Ok "k.org"%string.
Proof.
  intros H. apply parse_complete. set (host := encode_runes [8490; 46; 111; 114; 103]).
  assert (Hn : normal_host lower_rune host = "k.org"%string).
  { unfold normal_host, to_lower. replace (to_runes (trim_dot (string_of host))) with [8490; 46; 111; 114; 103] by (vm_compute; reflexivity).
    cbn [fmap list_fmap]. rewrite H. vm_compute. reflexivity. }
  exists (replicate 34 (byte_of_Z 7)), [], [byte_of_Z 19; byte_of_Z 1], [byte_of_Z 0]. split_and!; try done. right.
  exists [(43, [byte_of_Z 2]); (0, vec16 (all_tagged 1 [(0, host)]))]. split_and!; [done | done | repeat constructor; done |].
  unfold extensions_give, zeros. cbn [List.filter fst Z.eqb fmap list_fmap snd].
  exists [(0, host)]. split_and!; [done | done | done | apply Forall_singleton; split_and!; done |]. split; [done | by vm_compute].
Qed.

End ClientHello.
