(* ===== verification/AddressPolicy.v ===== *)
(** * The address policy of egress ([src/internal/gateway/address_policy.go], [resolveAllowedIP] of [egress.go])

    Which resolved addresses the gateway may connect to: by default only public unicast, with explicit prefixes only what they contain,
    and never a destination that no unicast connection can have. The theorem restates the tables of prefixes as numeric intervals. *)

From Stdlib Require Import Ascii.
From S2P Require Import Prelude GoText GoNet.

Module AddressPolicy.

Definition specialPurposePrefixes : list Prefix :=
  omap ParsePrefix
    ["0.0.0.0/8"; "10.0.0.0/8"; "100.64.0.0/10"; "127.0.0.0/8"; "169.254.0.0/16"; "172.16.0.0/12"; "192.0.0.0/24"; "192.0.2.0/24";
     "192.31.196.0/24"; "192.52.193.0/24"; "192.88.99.0/24"; "192.168.0.0/16"; "192.175.48.0/24"; "198.18.0.0/15"; "198.51.100.0/24";
     "203.0.113.0/24"; "240.0.0.0/4";
     "64:ff9b::/96"; "64:ff9b:1::/48"; "100::/64"; "100:0:0:1::/64"; "2001::/23"; "2001:db8::/32"; "2002::/16"; "2620:4f:8000::/48";
     "3fff::/20"; "5f00::/16"; "fc00::/7"; "fe80::/10"]%string.

Definition currentlyAllocatedIPv6GlobalUnicast : option Prefix := ParsePrefix "2000::/3".
Definition limitedIPv4Broadcast : option Addr := ParseAddr "255.255.255.255".

Definition addressAllowed (address : Addr) (prefixes : list Prefix) : bool :=
  if negb (IsValid address) then false else
  let mappedIPv4 := Is4In6 address in
  let address := Unmap address in
  if IsUnspecified address || IsMulticast address || bool_decide (Some address = limitedIPv4Broadcast) then false else
  match prefixes with
  | _ :: _ => existsb (fun p => Contains p address) prefixes
  | [] =>
      if mappedIPv4 then false else
      if negb (IsGlobalUnicast address)
         || (Is6 address && negb (from_option (fun p => Contains p address) false currentlyAllocatedIPv6GlobalUnicast)) then false else
      negb (existsb (fun p => Contains p address) specialPurposePrefixes)
  end.

Definition errAddressDenied : string := "resolved address is outside the allowed policy".
Definition errAddressResolutionFailed : string := "address resolution failed".

(** [resolver] is the system resolver: [None] when it fails. *)
Definition resolveAllowedIP (resolver : string -> option (list Addr)) (host : string) (prefixes : list Prefix) : result Addr :=
  let addresses := match ParseAddr host with Some literal => Some [literal] | None => resolver host end in
  match addresses with
  | None | Some [] => Err errAddressResolutionFailed
  | Some addresses =>
      match List.find (fun a => addressAllowed a prefixes) addresses with
      | Some address => Ok (Unmap address)
      | None => Err errAddressDenied
      end
  end.

(** ** The policy as intervals *)

(** The number with the given leading bytes, or leading groups of 16 bits. *)
Fixpoint leading (width unit : Z) (l : list Z) : Z :=
  match l with [] => 0 | x :: l => x * 2 ^ (width - unit) + leading (width - unit) unit l end.
Definition ip4 (l : list Z) : Z := leading 32 8 l.
Definition ip6 (l : list Z) : Z := leading 128 16 l.

(** [x] shares its first [bits] bits with the base. *)
Definition block (width : Z) (b : Z * Z) (x : Z) : Prop := b.1 <= x < b.1 + 2 ^ (width - b.2).

(** Not public in IPv4: this network, private, shared, loopback, link-local, protocol assignments, documentation, anycast, benchmarking,
    multicast, reserved. *)
Definition blocked4 : list (Z * Z) :=
  [(ip4 [0], 8); (ip4 [10], 8); (ip4 [100; 64], 10); (ip4 [127], 8); (ip4 [169; 254], 16); (ip4 [172; 16], 12); (ip4 [192; 0; 0], 24);
   (ip4 [192; 0; 2], 24); (ip4 [192; 31; 196], 24); (ip4 [192; 52; 193], 24); (ip4 [192; 88; 99], 24); (ip4 [192; 168], 16);
   (ip4 [192; 175; 48], 24); (ip4 [198; 18], 15); (ip4 [198; 51; 100], 24); (ip4 [203; 0; 113], 24); (ip4 [224], 4); (ip4 [240], 4)].

(** The special blocks inside the allocated global unicast space [2000::/3]. *)
Definition allocated6 : Z * Z := (ip6 [0x2000], 3).
Definition blocked6 : list (Z * Z) :=
  [(ip6 [0x2001], 23); (ip6 [0x2001; 0xdb8], 32); (ip6 [0x2002], 16); (ip6 [0x2620; 0x4f; 0x8000], 48); (ip6 [0x3fff], 20)].

Definition public (a : Addr) : Prop :=
  match a with
  | V4 z => Forall (fun b => ~ block 32 b z) blocked4
  | V6 z ""%string => block 128 allocated6 z /\ Forall (fun b => ~ block 128 b z) blocked6
  | _ => False
  end.

(** Destinations no exception can allow: unspecified, multicast, limited broadcast. *)
Definition unreachable (a : Addr) : Prop :=
  match a with
  | AddrInvalid => True
  | V4 z => z = 0 \/ block 32 (ip4 [224], 4) z \/ z = ip4 [255; 255; 255; 255]
  | V6 z zone => (z = 0 /\ zone = ""%string) \/ block 128 (ip6 [0xff00], 8) z
  end.

Definition inside (p : Prefix) (a : Addr) : Prop :=
  match p, a with
  | P4 z bits, V4 x => within z 32 bits x
  | P6 z bits, V6 x ""%string => within z 128 bits x
  | _, _ => False
  end.

(** The policy: public addresses in their own form, or with exceptions what they contain, mapped or not. *)
Definition permitted (a : Addr) (prefixes : list Prefix) : Prop :=
  match prefixes with
  | [] => public a
  | _ => ~ unreachable (Unmap a) /\ exists p, p ∈ prefixes /\ inside p (Unmap a)
  end.

Lemma Contains_inside p a : addr_wf a -> prefix_wf p -> Contains p a = true <-> inside p a.
Proof.
  destruct p as [z bits|z bits], a as [|x|x zone]; intros Ha Hp; cbn [inside]; try (split; [discriminate | intros []]).
  - destruct Ha. by apply Contains_v4.
  - destruct zone; [destruct Ha; by apply Contains_v6 | split; [discriminate | intros []]].
Qed.

(** ** The tables as blocks *)

Definition blocks4 (l : list Prefix) : list (Z * Z) :=
  omap (fun p => match p with P4 z bits => Some (lowest z 32 bits, bits) | P6 _ _ => None end) l.
Definition blocks6 (l : list Prefix) : list (Z * Z) :=
  omap (fun p => match p with P6 z bits => Some (lowest z 128 bits, bits) | P4 _ _ => None end) l.

Lemma no_prefix4 l z :
  Forall prefix_wf l -> 0 <= z < 2 ^ 32 ->
  existsb (fun p => Contains p (V4 z)) l = false <-> Forall (fun b => ~ block 32 b z) (blocks4 l).
Proof.
  intros Hl Hz. induction Hl as [|p l Hp Hl IH]; [by split|]. cbn [existsb]. rewrite orb_false_iff, IH.
  rewrite <- not_true_iff_false, (Contains_inside p (V4 z)) by done.
  destruct p as [x bits|x bits]; cbn [inside].
  - change (blocks4 (P4 x bits :: l)) with ((lowest x 32 bits, bits) :: blocks4 l). by rewrite Forall_cons.
  - change (blocks4 (P6 x bits :: l)) with (blocks4 l). tauto.
Qed.

Lemma no_prefix6 l z :
  Forall prefix_wf l -> 0 <= z < 2 ^ 128 ->
  existsb (fun p => Contains p (V6 z "")) l = false <-> Forall (fun b => ~ block 128 b z) (blocks6 l).
Proof.
  intros Hl Hz. induction Hl as [|p l Hp Hl IH]; [by split|]. cbn [existsb]. rewrite orb_false_iff, IH.
  rewrite <- not_true_iff_false, (Contains_inside p (V6 z "")) by done.
  destruct p as [x bits|x bits]; cbn [inside].
  - change (blocks6 (P4 x bits :: l)) with (blocks6 l). tauto.
  - change (blocks6 (P6 x bits :: l)) with ((lowest x 128 bits, bits) :: blocks6 l). by rewrite Forall_cons.
Qed.

Definition prefix_wfb (p : Prefix) : bool :=
  match p with
  | P4 z bits => (0 <=? z) && (z <? 2 ^ 32) && (0 <=? bits) && (bits <=? 32)
  | P6 z bits => (0 <=? z) && (z <? 2 ^ 128) && (0 <=? bits) && (bits <=? 128)
  end.

Lemma special_wf : Forall prefix_wf specialPurposePrefixes.
Proof.
  apply Forall_forall. intros p Hp. assert (H : forallb prefix_wfb specialPurposePrefixes = true) by (vm_compute; reflexivity).
  rewrite forallb_forall in H. specialize (H p (proj1 (list_elem_of_In _ _) Hp)). unfold prefix_wf.
  destruct p; cbn [prefix_wfb] in H; breflect; lia.
Qed.

(** The table read from its text is the list of intervals above. *)
Lemma special_blocks4 : forall z, Forall (fun b => ~ block 32 b z) blocked4 <->
  Forall (fun b => ~ block 32 b z) (blocks4 specialPurposePrefixes) /\ ~ block 32 (ip4 [224], 4) z.
Proof.
  intros z. replace (blocks4 specialPurposePrefixes) with (take 16 blocked4 ++ drop 17 blocked4) by (vm_compute; reflexivity).
  rewrite <- (take_drop 16 blocked4) at 1. rewrite !Forall_app. cbn [drop blocked4]. rewrite !Forall_cons. tauto.
Qed.

Definition apart (width : Z) (b c : Z * Z) : bool :=
  (b.1 + 2 ^ (width - b.2) <=? c.1) || (c.1 + 2 ^ (width - c.2) <=? b.1).

Lemma apart_spec width b c x : apart width b c = true -> block width b x -> ~ block width c x.
Proof. unfold apart, block. intros H. apply orb_true_iff in H as [H | H]; breflect; lia. Qed.

Lemma special_blocks6 z : block 128 allocated6 z ->
  Forall (fun b => ~ block 128 b z) blocked6 <-> Forall (fun b => ~ block 128 b z) (blocks6 specialPurposePrefixes).
Proof.
  intros Hz. assert (H : forallb (fun b => bool_decide (b ∈ blocked6) || apart 128 allocated6 b) (blocks6 specialPurposePrefixes) = true)
    by (vm_compute; reflexivity).
  assert (H' : forallb (fun b => bool_decide (b ∈ blocks6 specialPurposePrefixes)) blocked6 = true) by (vm_compute; reflexivity).
  rewrite forallb_forall in H, H'. rewrite !Forall_forall. split; intros Hb b Hin.
  - specialize (H b (proj1 (list_elem_of_In _ _) Hin)). apply orb_true_iff in H as [H | H]; [breflect; by apply Hb|].
    by apply (apart_spec _ _ _ _ H).
  - specialize (H' b (proj1 (list_elem_of_In _ _) Hin)). breflect. by apply Hb.
Qed.

(** ** Classes as blocks *)

Lemma shiftr_block x k n : 0 <= k -> Z.shiftr x k = n <-> n * 2 ^ k <= x < n * 2 ^ k + 2 ^ k.
Proof.
  intros Hk. rewrite Z.shiftr_div_pow2 by done. assert (0 < 2 ^ k) by (apply Z.pow_pos_nonneg; lia).
  pose proof (Z.div_mod x (2 ^ k) ltac:(lia)). pose proof (Z.mod_pos_bound x (2 ^ k) ltac:(lia)). split; intros E.
  - subst n. lia.
  - symmetry. apply (Z.div_unique _ _ _ (x - n * 2 ^ k)); [left; lia | lia].
Qed.

Lemma multicast4 z : 0 <= z < 2 ^ 32 -> IsMulticast (V4 z) = true <-> block 32 (ip4 [224], 4) z.
Proof.
  intros Hz. cbn [IsMulticast Unmap]. assert (Hy : 0 <= Z.shiftr z 24 < 256).
  { rewrite Z.shiftr_div_pow2 by done. split; [apply Z.div_pos; lia|]. apply Z.div_lt_upper_bound; lia. }
  assert (H : forallb (fun y => Bool.eqb (Z.land y 240 =? 224) ((224 <=? y) && (y <? 240))) (seqZ 0 256) = true) by (vm_compute; reflexivity).
  rewrite forallb_forall in H. specialize (H (Z.shiftr z 24)). rewrite <- list_elem_of_In, elem_of_seqZ in H. specialize (H ltac:(lia)).
  apply Bool.eqb_prop in H. rewrite H, andb_true_iff, Z.leb_le, Z.ltb_lt, Z.shiftr_div_pow2 by done.
  unfold block. change (ip4 [224], 4).1 with (224 * 2 ^ 24). change (2 ^ (32 - (ip4 [224], 4).2)) with (16 * 2 ^ 24).
  pose proof (Z.div_mod z (2 ^ 24) ltac:(done)). pose proof (Z.mod_pos_bound z (2 ^ 24) ltac:(done)). lia.
Qed.

Lemma multicast6 z zone : Is4In6 (V6 z zone) = false -> IsMulticast (V6 z zone) = true <-> block 128 (ip6 [0xff00], 8) z.
Proof. intros E. unfold IsMulticast, Unmap. rewrite E, Z.eqb_eq, shiftr_block by done. reflexivity. Qed.

Lemma loopback4 z : IsLoopback (V4 z) = true <-> block 32 (ip4 [127], 8) z.
Proof. unfold IsLoopback, Unmap. rewrite Z.eqb_eq, shiftr_block by done. reflexivity. Qed.

Lemma link_local4 z : IsLinkLocalUnicast (V4 z) = true <-> block 32 (ip4 [169; 254], 16) z.
Proof. unfold IsLinkLocalUnicast, Unmap. rewrite Z.eqb_eq, shiftr_block by done. reflexivity. Qed.

Lemma broadcast_value : limitedIPv4Broadcast = Some (V4 (ip4 [255; 255; 255; 255])).
Proof. vm_compute. reflexivity. Qed.
Lemma allocated_value : currentlyAllocatedIPv6GlobalUnicast = Some (P6 (ip6 [0x2000]) 3).
Proof. vm_compute. reflexivity. Qed.

(** The first test of [addressAllowed]. *)
Definition refused (a : Addr) : bool := IsUnspecified a || IsMulticast a || bool_decide (Some a = limitedIPv4Broadcast).

Lemma refused_spec a : IsValid a = true -> addr_wf a -> Is4In6 a = false -> refused a = true <-> unreachable a.
Proof.
  intros Hv Ha Hm. unfold refused, IsUnspecified. rewrite broadcast_value, !orb_true_iff, !bool_decide_eq_true.
  destruct a as [|z|z zone]; [done| |].
  - rewrite multicast4 by done. unfold unreachable. split.
    + intros [[[[= ->] | [=]] | ?] | [= ->]]; auto.
    + intros [-> | [? | ->]]; auto.
  - rewrite multicast6 by done. unfold unreachable. split.
    + intros [[[[=] | [= -> ->]] | ?] | [=]]; auto.
    + intros [[-> ->] | ?]; auto.
Qed.

Lemma mapped_unmap a : Is4In6 (Unmap a) = false.
Proof. destruct a as [|z|z zone]; [done..|]. unfold Unmap. by destruct (Is4In6 (V6 z zone)) eqn:E. Qed.
Lemma valid_unmap a : IsValid (Unmap a) = IsValid a.
Proof. destruct a as [|z|z zone]; [done..|]. unfold Unmap. by destruct (Is4In6 (V6 z zone)). Qed.
Lemma unmap_id a : Is4In6 a = false -> Unmap a = a.
Proof. destruct a as [|z|z zone]; [done..|]. unfold Unmap. by intros ->. Qed.

Lemma allowed_default4 z :
  0 <= z < 2 ^ 32 -> refused (V4 z) = false /\ IsGlobalUnicast (V4 z) = true /\
    existsb (fun p => Contains p (V4 z)) specialPurposePrefixes = false <-> public (V4 z).
Proof.
  intros Hz. rewrite no_prefix4 by (apply special_wf || done). unfold public. rewrite special_blocks4.
  assert (Hr : refused (V4 z) = false <-> ~ unreachable (V4 z)) by (rewrite <- refused_spec, not_true_iff_false; done).
  split.
  - intros (H1 & H2 & H3). split; [done|]. apply Hr in H1. unfold unreachable in H1. tauto.
  - intros (H1 & H2). assert (Hin : forall b, b ∈ blocks4 specialPurposePrefixes -> ~ block 32 b z) by (by apply Forall_forall).
    assert (H0 : ~ block 32 (ip4 [0], 8) z) by (apply Hin; apply (bool_decide_eq_true_1 _); vm_compute; reflexivity).
    assert (H127 : ~ block 32 (ip4 [127], 8) z) by (apply Hin; apply (bool_decide_eq_true_1 _); vm_compute; reflexivity).
    assert (H169 : ~ block 32 (ip4 [169; 254], 16) z) by (apply Hin; apply (bool_decide_eq_true_1 _); vm_compute; reflexivity).
    assert (H240 : ~ block 32 (ip4 [240], 4) z) by (apply Hin; apply (bool_decide_eq_true_1 _); vm_compute; reflexivity).
    assert (Hz0 : z <> 0) by (intros ->; by apply H0). assert (Hzb : z <> ip4 [255; 255; 255; 255]) by (intros ->; by apply H240).
    split_and!; [apply Hr; unfold unreachable; tauto | | done].
    unfold IsGlobalUnicast. change (Unmap (V4 z)) with (V4 z).
    rewrite <- loopback4 in H127. rewrite <- link_local4 in H169. rewrite <- multicast4 in H2 by done.
    apply not_true_iff_false in H127, H169, H2. rewrite H127, H169, H2.
    rewrite !bool_decide_eq_false_2; [done | by intros [=] | intros [[=] | [= ->]]; [done | by apply Hzb]].
Qed.
Lemma allocated6_spec z zone : 0 <= z < 2 ^ 128 ->
  Contains (P6 (ip6 [0x2000]) 3) (V6 z zone) = true <-> zone = ""%string /\ block 128 allocated6 z.
Proof.
  intros Hz. rewrite Contains_inside by (done || (split; done)). destruct zone; [|by split; [intros [] | intros [? _]]].
  unfold inside. split; [intros H; split; [done | exact H] | by intros [_ H]].
Qed.

(** Allocated addresses are not in the classes the other tests look for. *)
Lemma allocated_classes z :
  0 <= z < 2 ^ 128 -> block 128 allocated6 z ->
  Is4In6 (V6 z "") = false /\ refused (V6 z "") = false /\ IsGlobalUnicast (V6 z "") = true.
Proof.
  intros Hz Hb. unfold block in Hb. change allocated6.1 with (2 ^ 125) in Hb. change (2 ^ (128 - allocated6.2)) with (2 ^ 125) in Hb.
  assert (H6 : Is4In6 (V6 z "") = false).
  { unfold Is4In6. apply Z.eqb_neq. rewrite shiftr_block by done. lia. }
  assert (Hm : IsMulticast (V6 z "") = false).
  { apply not_true_iff_false. rewrite multicast6 by done. unfold block.
    change (ip6 [0xff00], 8).1 with (255 * 2 ^ 120). lia. }
  split_and!; [done| |].
  - apply not_true_iff_false. rewrite refused_spec by done. unfold unreachable. rewrite <- multicast6 by done. rewrite Hm. intros [[? _] | [=]]. lia.
  - unfold IsGlobalUnicast. rewrite (unmap_id _ H6), Hm. unfold IsLoopback, IsLinkLocalUnicast. rewrite (unmap_id _ H6).
    destruct (z =? 1) eqn:E1; breflect; [lia|].
    replace (Z.land (Z.shiftr z 112) 65472 =? 65152) with false.
    2: { symmetry. apply Z.eqb_neq. intros E. assert (Ht : Z.testbit (Z.land (Z.shiftr z 112) 65472) 15 = true) by (rewrite E; reflexivity).
         rewrite Z.land_spec, andb_true_iff, Z.shiftr_spec in Ht by done. destruct Ht as [Ht _]. change (15 + 112) with 127 in Ht.
         rewrite Z.testbit_true in Ht by done. rewrite Z.div_small in Ht by lia. discriminate Ht. }
    rewrite !bool_decide_eq_false_2; [done | intros [= ->]; lia | by intros [[=] | [=]]].
Qed.

Lemma allowed_default6 z zone :
  0 <= z < 2 ^ 128 ->
  Is4In6 (V6 z zone) = false /\ refused (V6 z zone) = false /\ IsGlobalUnicast (V6 z zone) = true /\
    Contains (P6 (ip6 [0x2000]) 3) (V6 z zone) = true /\ existsb (fun p => Contains p (V6 z zone)) specialPurposePrefixes = false
  <-> public (V6 z zone).
Proof.
  intros Hz. rewrite allocated6_spec by done. split.
  - intros (_ & _ & _ & [-> Hb] & Hs). rewrite no_prefix6 in Hs by (apply special_wf || done). unfold public. by rewrite special_blocks6.
  - destruct zone; [|intros []]. intros [Hb Hs]. destruct (allocated_classes z Hz Hb) as (H6 & Hr & Hg).
    rewrite no_prefix6, <- special_blocks6 by (apply special_wf || done). done.
Qed.

(** ** Theorem *)

Lemma default_tests (v m r g s c e : bool) :
  (if negb v then false else if r then false else if m then false else if negb g || (s && negb c) then false else negb e) = true <->
  v = true /\ m = false /\ r = false /\ g = true /\ (s = true -> c = true) /\ e = false.
Proof. destruct v, m, r, g, s, c, e; cbn; intuition congruence. Qed.

Lemma addressAllowed_default a :
  addressAllowed a [] = true <->
  IsValid a = true /\ Is4In6 a = false /\ refused a = false /\ IsGlobalUnicast a = true /\
    (Is6 a = true -> Contains (P6 (ip6 [0x2000]) 3) a = true) /\ existsb (fun p => Contains p a) specialPurposePrefixes = false.
Proof.
  unfold addressAllowed. rewrite allocated_value. cbn [from_option]. fold (refused (Unmap a)). rewrite default_tests.
  split; intros (Hv & Hm & H); rewrite (unmap_id a Hm) in *; exact (conj Hv (conj Hm H)).
Qed.

Lemma addressAllowed_exceptions a p ps : addr_wf a -> Forall prefix_wf (p :: ps) ->
  addressAllowed a (p :: ps) = true <-> permitted a (p :: ps).
Proof.
  intros Ha Hp. unfold addressAllowed, permitted. fold (refused (Unmap a)). destruct (IsValid a) eqn:Ev; cbn [negb].
  2: { destruct a; [|discriminate Ev..]. split; [discriminate|]. intros [H _]. by destruct H. }
  assert (Hr : refused (Unmap a) = true <-> unreachable (Unmap a)).
  { apply refused_spec; [by rewrite valid_unmap | by apply Unmap_wf | apply mapped_unmap]. }
  assert (Hc : existsb (fun p => Contains p (Unmap a)) (p :: ps) = true <-> exists q, q ∈ p :: ps /\ inside q (Unmap a)).
  { rewrite existsb_exists. setoid_rewrite <- list_elem_of_In. rewrite Forall_forall in Hp.
    split; intros (q & Hq & Hi); exists q; (split; [done|]); apply (Contains_inside q (Unmap a)); auto using Unmap_wf. }
  destruct (refused (Unmap a)); [|rewrite Hc]; split; [discriminate | intros [H _]; destruct (H (proj1 Hr eq_refl)) | | by intros [_ ?]].
  intros H. split; [|exact H]. intros Hu. apply Hr in Hu. discriminate Hu.
Qed.

Lemma address_allowed_permitted a prefixes :
  addr_wf a -> Forall prefix_wf prefixes -> addressAllowed a prefixes = true <-> permitted a prefixes.
Proof.
  intros Ha Hp. destruct prefixes as [|p ps]; [|by apply addressAllowed_exceptions]. rewrite addressAllowed_default. unfold permitted.
  destruct a as [|z|z zone].
  - split; [by intros [? _] | intros []].
  - rewrite <- allowed_default4 by exact Ha. split.
    + intros (_ & _ & H1 & H2 & _ & H3). exact (conj H1 (conj H2 H3)).
    + intros (H1 & H2 & H3). refine (conj eq_refl (conj eq_refl (conj H1 (conj H2 (conj _ H3))))). discriminate.
  - rewrite <- allowed_default6 by exact Ha. split.
    + intros (_ & H6 & H1 & H2 & H5 & H3). exact (conj H6 (conj H1 (conj H2 (conj (H5 eq_refl) H3)))).
    + intros (H6 & H1 & H2 & H5 & H3). exact (conj eq_refl (conj H6 (conj H1 (conj H2 (conj (fun _ => H5) H3))))).
Qed.

(** C23: the address policy, exactly. Without exceptions an address is allowed if and only if it is a public unicast address written in its own family: an IPv4
    address outside the eighteen private, loopback, link-local, multicast, reserved and documentation blocks, or an IPv6 address without zone in 2000::/3
    outside its five special blocks. With exceptions it is allowed if and only if one of them contains it, mapped IPv4 read as IPv4, and it is not
    unspecified, multicast or the limited broadcast. *)
Theorem address_policy_exact a prefixes :
  addr_wf a -> Forall prefix_wf prefixes -> addressAllowed a prefixes = true <-> permitted a prefixes.
Proof. apply address_allowed_permitted. Qed.

Lemma address_policy_exact_witness :
  addressAllowed (V4 (ip4 [169; 254; 169; 254])) [] = true <-> permitted (V4 (ip4 [169; 254; 169; 254])) [].
Proof. apply (address_policy_exact (V4 (ip4 [169; 254; 169; 254])) []); [by vm_compute | constructor]. Defined.

(** ** Resolution *)

Lemma resolve_allowed resolver host prefixes ip :
  resolveAllowedIP resolver host prefixes = Ok ip ->
  exists a addresses, match ParseAddr host with Some literal => Some [literal] | None => resolver host end = Some addresses /\
    a ∈ addresses /\ addressAllowed a prefixes = true /\ ip = Unmap a.
Proof.
  unfold resolveAllowedIP. destruct (match ParseAddr host with Some _ => _ | None => _ end) as [[|x l]|]; [done| |done].
  destruct (List.find _ _) as [a|] eqn:E; [|done]. intros [= <-]. apply List.find_some in E as [Hin Ha]. exists a, (x :: l).
  split_and!; try done. by apply list_elem_of_In.
Qed.

End AddressPolicy.
