(* ===== verification/DenialLimiter.v ===== *)
(** * The limiter of denied egress attempts ([src/internal/gateway/egress.go])

    Every denied attempt costs a synchronous write to the audit log. Fixed windows of a minute, per grant, per tenant and for the host, bound how many
    denials are recorded. The theorem bounds the rate over every minute, not only over the windows. *)

From S2P Require Import Prelude.

Module DenialLimiter.

Definition maxEgressDeniedAttemptsPerGrantMinute : Z := 30.
Definition maxEgressDeniedAttemptsPerTenantMinute : Z := 120.
Definition maxEgressDeniedAttemptsHostMinute : Z := 480.
Definition minute : Z := 60 * 10 ^ 9.

(** Instants are in nanoseconds; the zero time is 0. *)
Record egressDeniedAttemptWindow := mkWindow { started : Z; count : Z }.
Definition no_window : egressDeniedAttemptWindow := mkWindow 0 0.

Inductive egressDenialDecision := egressDenialAllowed | egressDenialRateLimited | egressDenialGrantMissing.

#[global] Instance egressDenialDecision_eq_dec : EqDecision egressDenialDecision.
Proof. solve_decision. Defined.

(** The three maps of the server; [Grants] has the tenant of each registered grant. *)
Record limiter := mkLimiter {
  egressDeniedAttempts : gmap string egressDeniedAttemptWindow;
  egressTenantDenials : gmap string egressDeniedAttemptWindow;
  egressHostDenials : egressDeniedAttemptWindow }.

Definition new_limiter : limiter := mkLimiter ∅ ∅ no_window.

Definition expired (now : Z) (w : egressDeniedAttemptWindow) : bool :=
  negb (started w =? 0) && negb (now <? started w) && (minute <=? now - started w).

Definition pruneExpiredEgressTenantDenialsLocked (now : Z) (m : gmap string egressDeniedAttemptWindow)
  : gmap string egressDeniedAttemptWindow :=
  filter (fun kw => expired now kw.2 = false) m.

Definition availableEgressDenialWindow (w : egressDeniedAttemptWindow) (now limit : Z) : egressDeniedAttemptWindow * bool :=
  if negb (started w =? 0) && (now <? started w) then (w, false) else
  let w := if (started w =? 0) || (minute <=? now - started w) then mkWindow now 0 else w in
  (w, count w <? limit).

Definition use (w : egressDeniedAttemptWindow) : egressDeniedAttemptWindow := mkWindow (started w) (count w + 1).
Definition window_of (m : gmap string egressDeniedAttemptWindow) (k : string) : egressDeniedAttemptWindow := default no_window (m !! k).

Definition reserveEgressDeniedAttemptLocked (grants : gmap string string) (l : limiter) (grantID : string) (now : Z)
  : limiter * egressDenialDecision :=
  match grants !! grantID with
  | None => (l, egressDenialGrantMissing)
  | Some tenantID =>
      let tenants := pruneExpiredEgressTenantDenialsLocked now (egressTenantDenials l) in
      let '(grantWindow, grantAllowed) :=
        availableEgressDenialWindow (window_of (egressDeniedAttempts l) grantID) now maxEgressDeniedAttemptsPerGrantMinute in
      let '(tenantWindow, tenantAllowed) :=
        availableEgressDenialWindow (window_of tenants tenantID) now maxEgressDeniedAttemptsPerTenantMinute in
      let '(hostWindow, hostAllowed) := availableEgressDenialWindow (egressHostDenials l) now maxEgressDeniedAttemptsHostMinute in
      if negb grantAllowed || negb tenantAllowed || negb hostAllowed
      then (mkLimiter (egressDeniedAttempts l) tenants (egressHostDenials l), egressDenialRateLimited)
      else (mkLimiter (<[grantID := use grantWindow]> (egressDeniedAttempts l)) (<[tenantID := use tenantWindow]> tenants) (use hostWindow),
            egressDenialAllowed)
  end.

(** ** Runs

    An attempt is made while some grants are registered; unregistering a grant drops its window. *)
Inductive event := Attempt (grants : gmap string string) (grantID : string) (now : Z) | Unregister (grantID : string).

(** The attempts whose denial was recorded, latest first: their tenant and instant. *)
Definition run_event (s : limiter * list (string * Z)) (e : event) : limiter * list (string * Z) :=
  let '(l, recorded) := s in
  match e with
  | Attempt grants grantID now =>
      let '(l, d) := reserveEgressDeniedAttemptLocked grants l grantID now in
      (l, if bool_decide (d = egressDenialAllowed) then (default ""%string (grants !! grantID), now) :: recorded else recorded)
  | Unregister grantID => (mkLimiter (delete grantID (egressDeniedAttempts l)) (egressTenantDenials l) (egressHostDenials l), recorded)
  end.
Definition run (es : list event) : limiter * list (string * Z) := foldl run_event (new_limiter, []) es.

(** The clock does not go back: instants of attempts from [t] on. *)
Fixpoint clocked (t : Z) (es : list event) : Prop :=
  match es with
  | [] => True
  | Attempt _ _ now :: es => t <= now /\ clocked now es
  | Unregister _ :: es => clocked t es
  end.

(** The number of instants in [[a, b)]. *)
Definition between (a b : Z) (l : list Z) : Z := zlen (List.filter (fun t => (a <=? t) && (t <? b)) l).

(** ** One window *)

Lemma between_cons a b t l : between a b (t :: l) = (if (a <=? t) && (t <? b) then 1 else 0) + between a b l.
Proof. unfold between. cbn [List.filter]. destruct ((a <=? t) && (t <? b)); [apply zlen_cons | done]. Qed.

Lemma between_split a m b l : between a b l <= between a m l + between m b l.
Proof.
  induction l as [|t l IH]; [done|]. rewrite !between_cons.
  destruct (a <=? t) eqn:E1, (t <? b) eqn:E2, (t <? m) eqn:E3, (m <=? t) eqn:E4; cbn [andb]; breflect; lia.
Qed.

Lemma between_mono a b a' b' l : a' <= a -> b <= b' -> between a b l <= between a' b' l.
Proof.
  intros Ha Hb. induction l as [|t l IH]; [done|]. rewrite !between_cons.
  destruct (a <=? t) eqn:E1, (t <? b) eqn:E2, (a' <=? t) eqn:E3, (t <? b') eqn:E4; cbn [andb]; breflect; lia.
Qed.

Lemma between_none a b l : Forall (fun t => t < a) l -> between a b l = 0.
Proof.
  induction 1 as [|t l Ht _ IH]; [done|]. rewrite between_cons, IH. destruct (a <=? t) eqn:E; breflect; cbn [andb]; lia.
Qed.

(** [hist] was recorded under windows of [limit], the last started at [s] with [c] uses. *)
Record bounded (limit s c : Z) (hist : list Z) : Prop := {
  bd_before : Forall (fun t => t < s + minute) hist;
  bd_current : forall b, between s b hist <= c;
  bd_count : c <= limit;
  bd_previous : forall a, s - minute < a -> between a s hist <= limit;
  bd_any : forall t, between t (t + minute) hist <= 2 * limit }.

Lemma bounded_none limit s : 0 <= limit -> bounded limit s 0 [].
Proof. intros H. split; [constructor|..]; intros; change (between _ _ []) with 0; lia. Qed.

Lemma bounded_use limit s c hist t :
  bounded limit s c hist -> s <= t < s + minute -> c < limit -> bounded limit s (c + 1) (t :: hist).
Proof.
  intros [Hb Hc Hn Hp Ha] Ht Hl.
  assert (Hnew : forall b, between s b (t :: hist) <= c + 1).
  { intros b. rewrite between_cons. specialize (Hc b). destruct ((s <=? t) && (t <? b)); lia. }
  assert (Hold : forall a, s - minute < a -> between a s (t :: hist) <= limit).
  { intros a H. rewrite between_cons. destruct (t <? s) eqn:E; breflect; [lia|]. rewrite andb_false_r. by apply Hp. }
  split; [constructor; [lia | done] | done | lia | done |].
  intros u. destruct ((u <=? t) && (t <? u + minute)) eqn:E; [|rewrite between_cons, E; specialize (Ha u); lia]. breflect.
  pose proof (between_split u s (u + minute) (t :: hist)). specialize (Hnew (u + minute)).
  specialize (Hold u ltac:(lia)). lia.
Qed.

Lemma bounded_restart limit s c hist t : bounded limit s c hist -> s + minute <= t -> 0 <= limit -> bounded limit t 0 hist.
Proof.
  intros [Hb Hc Hn Hp Ha] Ht Hl. split.
  - eapply Forall_impl; [exact Hb|]. intros x Hx. assert (0 < minute) by done. cbv beta in *. lia.
  - intros b. rewrite between_none; [done|]. eapply Forall_impl; [exact Hb|]. intros x Hx. cbv beta in *. lia.
  - done.
  - intros a H. etrans; [apply (between_mono a t s t); lia|]. etrans; [apply Hc | done].
  - done.
Qed.

(** The window [w] accounts for [hist] at instant [now]: it is the current one, or there is none and the last is over. *)
Definition accounts (limit now : Z) (w : egressDeniedAttemptWindow) (hist : list Z) : Prop :=
  (started w <> 0 /\ bounded limit (started w) (count w) hist) \/
  (started w = 0 /\ (hist = [] \/ exists s c, bounded limit s c hist /\ s + minute <= now)).

Lemma accounts_later limit t now w hist : t <= now -> accounts limit t w hist -> accounts limit now w hist.
Proof. intros Ht [H | [H0 [-> | (s & c & Hb & Hs)]]]; [by left | right; auto | right]. split; [done|]. right. exists s, c. split; [done | lia]. Qed.

Lemma accounts_pruned limit now w hist : accounts limit now w hist -> expired now w = true -> accounts limit now no_window hist.
Proof.
  unfold expired. intros [[H0 Hb] | [H0 H]] He; breflect; [|done]. right. split; [done|]. right. exists (started w), (count w). split; [done | lia].
Qed.

Lemma accounts_use limit now w hist w' :
  0 < limit -> 0 < now -> accounts limit now w hist -> availableEgressDenialWindow w now limit = (w', true) ->
  accounts limit now (use w') (now :: hist).
Proof.
  intros Hl Hn Ha. unfold availableEgressDenialWindow.
  assert (Hfresh : forall s c, bounded limit s c hist -> s + minute <= now -> accounts limit now (use (mkWindow now 0)) (now :: hist)).
  { intros s c Hb Hs. left. split; [cbn; lia|]. cbn [use started count]. apply bounded_use; [by apply (bounded_restart _ s c); [| |lia] | |lia].
    assert (0 < minute) by done. lia. }
  destruct Ha as [[H0 Hb] | [H0 Ha]].
  - destruct (started w =? 0) eqn:E; breflect; [done|]. cbn [negb andb orb].
    destruct (now <? started w) eqn:E1; breflect; [intros [= _ ?]; done|].
    destruct (minute <=? now - started w) eqn:E2; breflect; intros [= <- Hc]; [apply (Hfresh (started w) (count w)); [done | lia]|]. breflect.
    left. split; [done|]. cbn [use started count]. apply bounded_use; [done | lia | done].
  - rewrite H0. cbn [Z.eqb negb andb orb]. intros [= <- Hc]. destruct Ha as [-> | (s & c & Hb & Hs)]; [|by apply (Hfresh s c)].
    apply (Hfresh (now - minute) 0); [apply bounded_none|]; lia.
Qed.

Lemma accounts_any limit now w hist t : 0 <= limit -> accounts limit now w hist -> between t (t + minute) hist <= 2 * limit.
Proof. intros Hl [[_ [_ _ _ _ H]] | [_ [-> | (s & c & [_ _ _ _ H] & _)]]]; [done | change (between t _ []) with 0; lia | done]. Qed.

(** ** Runs *)

Definition times (tenant : string) (recorded : list (string * Z)) : list Z := (List.filter (fun r => String.eqb r.1 tenant) recorded).*2.

Definition state_ok (now : Z) (s : limiter * list (string * Z)) : Prop :=
  accounts maxEgressDeniedAttemptsHostMinute now (egressHostDenials s.1) s.2.*2 /\
  forall tenant, accounts maxEgressDeniedAttemptsPerTenantMinute now (window_of (egressTenantDenials s.1) tenant) (times tenant s.2).

Lemma pruned_ok now m tenant hist :
  accounts maxEgressDeniedAttemptsPerTenantMinute now (window_of m tenant) hist ->
  accounts maxEgressDeniedAttemptsPerTenantMinute now (window_of (pruneExpiredEgressTenantDenialsLocked now m) tenant) hist.
Proof.
  unfold window_of, pruneExpiredEgressTenantDenialsLocked. intros H. destruct (m !! tenant) as [w|] eqn:E; cbn [default] in H.
  - destruct (expired now w) eqn:Ex.
    + rewrite (map_lookup_filter_None_2 _ m tenant); [by apply (accounts_pruned _ _ w)|]. right. intros x Hx. rewrite E in Hx. injection Hx as <-. cbn. by rewrite Ex.
    + by rewrite (map_lookup_filter_Some_2 _ m tenant w).
  - rewrite (map_lookup_filter_None_2 _ m tenant); [done | by left].
Qed.

Lemma times_cons tenant r recorded :
  times tenant (r :: recorded) = if String.eqb r.1 tenant then r.2 :: times tenant recorded else times tenant recorded.
Proof. unfold times. cbn [List.filter]. by destruct (String.eqb r.1 tenant). Qed.

Lemma attempt_ok t now s grants grantID :
  state_ok t s -> t <= now -> 0 < now -> state_ok now (run_event s (Attempt grants grantID now)).
Proof.
  destruct s as [l recorded]. intros [Hh Ht] Hn H0. cbn [fst snd] in *.
  apply (accounts_later _ t now) in Hh; [|done].
  assert (Ht' : forall tenant, accounts maxEgressDeniedAttemptsPerTenantMinute now (window_of (egressTenantDenials l) tenant) (times tenant recorded))
    by (intros tenant; by apply (accounts_later _ t now)). clear Ht.
  cbn [run_event]. unfold reserveEgressDeniedAttemptLocked. destruct (grants !! grantID) as [tenantID|] eqn:Eg; [|by split].
  destruct (availableEgressDenialWindow (window_of (egressDeniedAttempts l) _) _ _) as [gw ga].
  set (tenants := pruneExpiredEgressTenantDenialsLocked now (egressTenantDenials l)).
  assert (Hp : forall tenant, accounts maxEgressDeniedAttemptsPerTenantMinute now (window_of tenants tenant) (times tenant recorded))
    by (intros tenant; by apply pruned_ok).
  destruct (availableEgressDenialWindow (window_of tenants tenantID) _ _) as [tw ta] eqn:Et.
  destruct (availableEgressDenialWindow (egressHostDenials l) _ _) as [hw ha] eqn:Eh.
  destruct ga; [|by split]. destruct ta; [|by split]. destruct ha; [|by split]. cbn [negb orb].
  rewrite bool_decide_eq_true_2 by done. cbn [default from_option id]. split; cbn [fst snd egressHostDenials egressTenantDenials].
  - cbn [fmap list_fmap snd]. by eapply accounts_use; [| |exact Hh|exact Eh].
  - intros tenant. rewrite times_cons. cbn [fst snd]. unfold window_of. destruct (String.eqb_spec tenantID tenant) as [<- | Hne].
    + rewrite lookup_insert_eq. cbn [default from_option id]. by eapply accounts_use; [| |exact (Hp tenantID)|exact Et].
    + rewrite lookup_insert_ne by done. apply Hp.
Qed.

Lemma run_state_ok es : forall t s, 0 < t -> state_ok t s -> clocked t es -> exists now, state_ok now (foldl run_event s es).
Proof.
  induction es as [|[grants grantID now|grantID] es IH]; intros t s Ht Hs Hc; [by exists t| |]; cbn [foldl clocked] in *.
  - destruct Hc as [Hn Hc]. apply (IH now); [lia | by apply (attempt_ok t); [| |lia] | done].
  - apply (IH t); [done| |done]. by destruct s as [l recorded].
Qed.

(** The rate of recorded denials. Whatever attempts are made, by whatever grants, and however grants come and go, as long as the clock does not go back: in
    no interval of a minute, however placed, are more than 960 denials recorded for the host, or more than 240 for one tenant. *)
Theorem denials_bounded es t tenant :
  clocked 1 es ->
  between t (t + minute) (run es).2.*2 <= 2 * maxEgressDeniedAttemptsHostMinute /\
  between t (t + minute) (times tenant (run es).2) <= 2 * maxEgressDeniedAttemptsPerTenantMinute.
Proof.
  intros Hc. destruct (run_state_ok es 1 (new_limiter, [])) as (now & Hh & Ht); [done | | done |].
  - split; [|intros tenant']; right; (split; [done | by left]).
  - split; [by apply (accounts_any _ now (egressHostDenials (run es).1)) | by apply (accounts_any _ now (window_of (egressTenantDenials (run es).1) tenant))].
Qed.

(** ** Examples *)

Definition sample_grants : gmap string string := {["g1"%string := "acme"%string]}.
Definition sample_events : list event := replicate 35 (Attempt sample_grants "g1" 5).

Example limited_to_thirty : zlen (run sample_events).2 = 30.
Proof. vm_compute. reflexivity. Qed.

Lemma denials_bounded_witness :
  between 5 (5 + minute) (run sample_events).2.*2 <= 2 * maxEgressDeniedAttemptsHostMinute /\
  between 5 (5 + minute) (times "acme" (run sample_events).2) <= 2 * maxEgressDeniedAttemptsPerTenantMinute.
Proof. apply (denials_bounded sample_events 5 "acme"). repeat (split; [done|]). exact I. Defined.

End DenialLimiter.
