(* ===== verification/Egress.v ===== *)
(** * Egress decisions of the gateway ([src/internal/gateway/egress.go])

    The handler of an agent's proxy request: destination, granted route, address, TLS server name, audit, connection. One request is run to
    its end; what other requests and the network do to it is its environment [env]: whether the route has a free slot, whether the grant is
    revoked meanwhile, what names resolve to, which audit writes succeed and what bytes each direction of a tunnel reads before it is closed. *)

From Stdlib Require Import Ascii.
From S2P Require Import Prelude GoText GoJson GoRune GoNet ClientHello AddressPolicy DenialLimiter.
Import ClientHello AddressPolicy DenialLimiter.

Module Egress.

(** The fields of a grant that egress reads. *)
Record Grant := mkGrant {
  GrantID : string; TenantID : string; InstanceID : string; EgressRouteIDs : list string; Active : bool }.

Record loadedEgressDestination := mkDestination { Host : string; Ports : list Z; prefixes : list Prefix }.
Record loadedEgressRoute := mkRoute {
  ID : string; MaxRequestBytes : Z; MaxResponseBytes : Z; destinations : list loadedEgressDestination }.

Record egressAuditEvent := mkEvent {
  Decision : string; Reason : string; eGrantID : string; eTenantID : string; eInstanceID : string; eRouteID : string; eMethod : string;
  eHost : string; ePort : Z; eBytesFromAgent : Z; eBytesToAgent : Z }.

(** [LastObservedAt] is the instant. *)
Record EgressStats := mkStats {
  Allowed : Z; Denied : Z; BytesFromAgent : Z; BytesToAgent : Z; LastDestination : string; LastDecision : string; LastObservedAt : Z }.

(** [audit]: the events written, latest first. *)
Record Server := mkServer {
  grants : gmap string Grant; egressRoutes : gmap string loadedEgressRoute; limits : limiter; egressStats : gmap string EgressStats;
  audit : list egressAuditEvent }.

(** The parts of an absolute request URL; [Scheme] is empty when it is not absolute. *)
Record URL := mkURL { Scheme : string; User : bool; Fragment : string; uHost : string }.
Record Request := mkRequest { Method : string; rHost : string; rURL : option URL; ContentLength : Z }.

(** How the forwarding of an HTTP request went: no request could be built, the upstream failed, it announced too long a response, or the response was copied
    with this reason and length. *)
Inductive http_exchange := RequestInvalid | UpstreamFailed | ResponseTooLarge | Copied (reason : string) (written : Z).

(** Whether [Hijack] gives the connection of a CONNECT request: the writer has no such method, it or the flush of the response fails, or it succeeds. *)
Inductive hijack := NoHijacker | HijackFailed | Hijacked.

Record env := mkEnv {
  lower_rune : Z -> Z;
  now : Z;
  slot_free : bool;
  revoked : bool;
  resolver : string -> option (list Addr);
  appends : egressAuditEvent -> bool;
  hijacks : hijack;
  stream : bytes;
  dials : bool;
  hello_written : bool;
  upstream : bytes;
  exchange : http_exchange }.

(** What the agent observes: an HTTP error, a closed connection, a failed or an open connection to an address. *)
Inductive outcome :=
| Responded (status : Z) (code : string)
| Closed
| Unreachable (ip : Addr) (port : Z)
| Tunnelled (ip : Addr) (port : Z) (sent received : bytes)
| Proxied (ip : Addr) (port : Z).

(** ** Destinations and routes *)

Definition invalidExplicitPort (rawHost hostname : string) : bool :=
  if negb (contains_byte rawHost 58) then false
  else if negb (ParseIP hostname) then true
  else if negb (has_prefix rawHost "[") then true
  else negb (match rev (bytes_of rawHost) with c :: _ => u8 c =? 93 | [] => false end).

Definition proxyDestination (lower : Z -> Z) (r : Request) : result (string * Z) :=
  if String.eqb (Method r) "CONNECT" then
    match SplitHostPort (rHost r) with
    | Some (host, portText) =>
        match Atoi portText with
        | Some port =>
            if String.eqb host "" || (port <? 1) || (65535 <? port) then Err "CONNECT requires an explicit hostname and port"
            else Ok (to_lower lower (trim_dot host), port)
        | None => Err "CONNECT requires an explicit hostname and port"
        end
    | None => Err "CONNECT requires an explicit hostname and port"
    end
  else
    match rURL r with
    | None => Err "proxy request requires an absolute HTTP(S) URL"
    | Some u =>
        if String.eqb (Scheme u) "" || User u || negb (String.eqb (Fragment u) "")
           || (negb (String.eqb (Scheme u) "http") && negb (String.eqb (Scheme u) "https"))
        then Err "proxy request requires an absolute HTTP(S) URL" else
        let '(hostname, portText) := url_host_port (uHost u) in
        let host := to_lower lower (trim_dot hostname) in
        let port :=
          if String.eqb portText "" then
            if invalidExplicitPort (uHost u) host then None else Some (if String.eqb (Scheme u) "https" then 443 else 80)
          else match Atoi portText with Some p => if (p <? 1) || (65535 <? p) then None else Some p | None => None end in
        match port with
        | None => Err "proxy URL has an invalid port"
        | Some port => if String.eqb host "" then Err "proxy URL requires a hostname" else Ok (host, port)
        end
    end.

Definition has_suffix (s t : string) : bool :=
  (slen t <=? slen s) && bool_decide (drop (length (bytes_of s) - length (bytes_of t)) (bytes_of s) = bytes_of t).

Definition hostMatches (pattern host : string) : bool :=
  if negb (has_prefix pattern "*.") then String.eqb pattern host
  else let suffix := trim_prefix pattern "*" in (slen suffix <? slen host) && has_suffix host suffix.

Definition containsPort (ports : list Z) (port : Z) : bool := existsb (fun allowed => allowed =? port) ports.

Definition matching (host : string) (port : Z) (d : loadedEgressDestination) : bool :=
  hostMatches (Host d) host && containsPort (Ports d) port.

Fixpoint selectEgressRoute (s : Server) (ids : list string) (host : string) (port : Z)
  : option (string * loadedEgressRoute * loadedEgressDestination) :=
  match ids with
  | [] => None
  | id :: ids =>
      let route := default (mkRoute "" 0 0 []) (egressRoutes s !! id) in
      match List.find (matching host port) (destinations route) with
      | Some d => Some (id, route, d)
      | None => selectEgressRoute s ids host port
      end
  end.

(** ** Audit and statistics *)

Definition JoinHostPort (host port : string) : string :=
  if contains_byte host 58 then "[" +:+ host +:+ "]:" +:+ port else host +:+ ":" +:+ port.

Definition no_stats : EgressStats := mkStats 0 0 0 0 "" "" 0.

Definition updateEgressStats (s : Server) (id : string) (event : egressAuditEvent) (now : Z) : Server :=
  let st := default no_stats (egressStats s !! id) in
  let st := mkStats
    (if String.eqb (Decision event) "allow" then u64 (Allowed st + 1) else Allowed st)
    (if String.eqb (Decision event) "deny" then u64 (Denied st + 1) else Denied st)
    (if 0 <? eBytesFromAgent event then u64 (BytesFromAgent st + eBytesFromAgent event) else BytesFromAgent st)
    (if 0 <? eBytesToAgent event then u64 (BytesToAgent st + eBytesToAgent event) else BytesToAgent st)
    (if String.eqb (eHost event) "" then LastDestination st else JoinHostPort (eHost event) (string_of (itoa (ePort event))))
    (Decision event +:+ ":" +:+ Reason event) now in
  mkServer (grants s) (egressRoutes s) (limits s) (<[id := st]> (egressStats s)) (audit s).

(** [s.audit.Append]: the event is in the log when the append succeeded. The log is enabled whenever a route is configured; a rotation that
    is due is one of the ways the append fails. *)
Definition Append (s : Server) (e : env) (event : egressAuditEvent) : Server * bool :=
  if appends e event then (mkServer (grants s) (egressRoutes s) (limits s) (egressStats s) (event :: audit s), true) else (s, false).

Definition event_of (g : Grant) (decision reason routeID method host : string) (port fromAgent toAgent : Z) : egressAuditEvent :=
  mkEvent decision reason (GrantID g) (TenantID g) (InstanceID g) routeID method host port fromAgent toAgent.

Definition recordEgressAllow (s : Server) (e : env) (g : Grant) (routeID method host : string) (port : Z) : Server * bool :=
  let event := event_of g "allow" "route_allowed" routeID method host port 0 0 in
  let '(s, ok) := Append s e event in
  if ok then (updateEgressStats s (GrantID g) event (now e), true) else (s, false).

Definition finishEgress (s : Server) (e : env) (g : Grant) (routeID reason method host : string) (port fromAgent toAgent : Z) : Server :=
  let event := event_of g "terminal" reason routeID method host port fromAgent toAgent in
  updateEgressStats (fst (Append s e event)) (GrantID g) event (now e).

Definition set_limits (s : Server) (l : limiter) : Server := mkServer (grants s) (egressRoutes s) l (egressStats s) (audit s).

Definition denyEgress (s : Server) (e : env) (g : Grant) (reason method host : string) (port : Z) : Server * egressDenialDecision :=
  let '(l, d) := reserveEgressDeniedAttemptLocked (TenantID <$> grants s) (limits s) (GrantID g) (now e) in
  let s := set_limits s l in
  match d with
  | egressDenialAllowed =>
      let event := event_of g "deny" reason "" method host port 0 0 in
      (updateEgressStats (fst (Append s e event)) (GrantID g) event (now e), d)
  | _ => (s, d)
  end.

Definition rejectEgress (s : Server) (e : env) (g : Grant) (reason method host : string) (port status : Z) : Server * outcome :=
  let '(s, d) := denyEgress s e g reason method host port in
  (s, match d with
      | egressDenialRateLimited =>
          if String.eqb reason "grant_inactive" || String.eqb reason "grant_revoked" then Responded status reason
          else Responded 429 "egress_rate_limited"
      | _ => Responded status reason
      end).

(** ** Connections *)

Definition tlsServerNameAllowed (host serverName : string) : bool :=
  if ParseIP host then String.eqb serverName "" else String.eqb serverName host.

(** [copyBounded]: the bytes delivered and the count returned, which is one more than the maximum when there was more to read. *)
Definition copyBounded (source : bytes) (maximum : Z) : bytes * Z :=
  let written := take (Z.to_nat maximum) source in
  (written, if zlen written <? maximum then zlen written
            else if maximum <? zlen source then zlen written + 1 else zlen written).

Definition classifyAddressFailure (err : string) (revoked : bool) : Z * string :=
  if revoked then (503, "grant_revoked"%string)
  else if String.eqb err errAddressDenied then (403, "address_denied"%string)
  else (502, "resolution_failed"%string).

Definition proxyConnect (s : Server) (e : env) (g : Grant) (routeID : string) (route : loadedEgressRoute) (method host : string) (port : Z)
    (ip : Addr) : Server * outcome :=
  match hijacks e with
  | NoHijacker => (s, Responded 500 "tunnel_unavailable")
  | HijackFailed => (s, Closed)
  | Hijacked =>
  match readTLSClientHello (lower_rune e) (stream e) with
  | Ok (clientHello, serverName, later) =>
      if negb (tlsServerNameAllowed host serverName) then (fst (denyEgress s e g "tls_server_name_denied" method host port), Closed) else
      if MaxRequestBytes route <? zlen clientHello then (fst (denyEgress s e g "byte_limit" method host port), Closed) else
      let '(s, ok) := recordEgressAllow s e g routeID method host port in
      if negb ok then
        (updateEgressStats s (GrantID g) (mkEvent "deny" "audit_unavailable" "" "" "" "" "" host port 0 0) (now e), Closed) else
      if negb (dials e) || negb (hello_written e) then (finishEgress s e g routeID "upstream_unavailable" method host port (zlen clientHello) 0, Unreachable ip port) else
      let '(sent, n) := copyBounded later (MaxRequestBytes route - zlen clientHello) in
      let '(received, toAgent) := copyBounded (upstream e) (MaxResponseBytes route) in
      let fromAgent := zlen clientHello + n in
      let reason := if (MaxRequestBytes route <? fromAgent) || (MaxResponseBytes route <? toAgent) then "byte_limit" else "completed" in
      (finishEgress s e g routeID reason method host port (Z.min fromAgent (MaxRequestBytes route)) (Z.min toAgent (MaxResponseBytes route)),
       Tunnelled ip port (clientHello ++ sent) received)
  | Err _ => (fst (denyEgress s e g "tls_server_name_denied" method host port), Closed)
  end
  end.

Definition proxyHTTP (s : Server) (e : env) (g : Grant) (routeID : string) (route : loadedEgressRoute) (r : Request) (host : string) (port : Z)
    (ip : Addr) : Server * outcome :=
  if MaxRequestBytes route <? ContentLength r
  then (finishEgress s e g routeID "request_too_large" (Method r) host port 0 0, Responded 413 "request_too_large") else
  match exchange e with
  | RequestInvalid => (s, Responded 400 "invalid_request")
  | UpstreamFailed => (finishEgress s e g routeID "upstream_unavailable" (Method r) host port (ContentLength r) 0, Unreachable ip port)
  | ResponseTooLarge => (finishEgress s e g routeID "response_too_large" (Method r) host port (ContentLength r) 0, Proxied ip port)
  | Copied reason written =>
      (finishEgress s e g routeID reason (Method r) host port (Z.max (ContentLength r) 0) (Z.min written (MaxResponseBytes route)), Proxied ip port)
  end.

Definition egressHandler (s : Server) (id : string) (r : Request) (e : env) : Server * outcome :=
  match grants s !! id with
  | None => (s, Responded 503 "grant_inactive")
  | Some g =>
      if bool_decide (EgressRouteIDs g = []) then (s, Responded 503 "grant_inactive") else
      if negb (Active g) then rejectEgress s e g "grant_inactive" (Method r) "" 0 503 else
      match proxyDestination (lower_rune e) r with
      | Err _ => rejectEgress s e g "invalid_destination" (Method r) "" 0 400
      | Ok (host, port) =>
          match selectEgressRoute s (EgressRouteIDs g) host port with
          | None => rejectEgress s e g "route_denied" (Method r) host port 403
          | Some (routeID, route, destination) =>
              if negb (slot_free e) then rejectEgress s e g "route_busy" (Method r) host port 429 else
              match resolveAllowedIP (resolver e) host (prefixes destination) with
              | Err err => let '(status, code) := classifyAddressFailure err (revoked e) in rejectEgress s e g code (Method r) host port status
              | Ok ip =>
                  if String.eqb (Method r) "CONNECT" then proxyConnect s e g routeID route (Method r) host port ip else
                  let '(s, ok) := recordEgressAllow s e g routeID (Method r) host port in
                  if negb ok then (s, Responded 503 "audit_unavailable") else proxyHTTP s e g routeID route r host port ip
              end
          end
      end
  end.

(** ** Specification *)

(** A pattern names one host, or with a wildcard every proper subdomain. *)
Definition host_named (pattern host : string) : Prop :=
  (has_prefix pattern "*." = false /\ host = pattern) \/
  exists domain sub, pattern = "*." +:+ domain /\ sub <> ""%string /\ host = sub +:+ "." +:+ domain.

(** The address and port a connection is made to. *)
Definition reaches (o : outcome) : option (Addr * Z) :=
  match o with
  | Unreachable ip port | Tunnelled ip port _ _ | Proxied ip port => Some (ip, port)
  | Responded _ _ | Closed => None
  end.

(** [a] is what the host stands for: the address it spells, or one the resolver gives. *)
Definition stands_for (e : env) (host : string) (a : Addr) : Prop :=
  match ParseAddr host with
  | Some literal => a = literal
  | None => exists l, resolver e host = Some l /\ a ∈ l
  end.

(** The resolver gives well-formed addresses, and [lower_rune] is what Unicode says. *)
Definition env_wf (e : env) : Prop :=
  (forall host l, resolver e host = Some l -> Forall addr_wf l) /\ lower_rune_ok (lower_rune e).

(** The routes as the configuration was validated: a destination has a host, and its exceptions are prefixes. *)
Definition routes_wf (s : Server) : Prop :=
  forall id route d, egressRoutes s !! id = Some route -> d ∈ destinations route -> Host d <> ""%string /\ Forall prefix_wf (prefixes d).

(** What a tunnel may carry: handshake records with a ClientHello for this host, then the bytes behind them, within the limits of
    the route. For an address the ClientHello has no server name; for a host it has one that spells the host. *)
Definition tunnel_ok (e : env) (route : loadedEgressRoute) (host : string) (sent received : bytes) : Prop :=
  exists l hello extra sni later more,
    stream e = all_records l ++ later /\ Forall record_ok l /\ payloads l = message hello ++ extra /\ carries hello sni /\
    match sni with Some n => ParseIP host = false /\ spells n host | None => ParseIP host = true end /\
    sent = all_records l ++ more /\ (exists unsent, later = more ++ unsent) /\
    zlen sent <= MaxRequestBytes route /\ zlen received <= Z.max 0 (MaxResponseBytes route).

(** ** Lemmas *)

Lemma has_suffix_app s t : has_suffix s t = true <-> exists x, s = x +:+ t.
Proof.
  unfold has_suffix. rewrite andb_true_iff, Z.leb_le, bool_decide_eq_true. split.
  - intros [Hl Hd]. exists (string_of (take (length (bytes_of s) - length (bytes_of t)) (bytes_of s))).
    apply bytes_of_inj. rewrite bytes_of_app, bytes_of_string_of. rewrite <- Hd at 2. symmetry. apply take_drop.
  - intros (x & ->). split; [rewrite slen_app; pose proof (slen_nonneg x); lia|].
    rewrite bytes_of_app, length_app. replace (_ + _ - _)%nat with (length (bytes_of x)) by lia. apply drop_app_length.
Qed.

Lemma hostMatches_spec pattern host : hostMatches pattern host = true <-> host_named pattern host.
Proof.
  unfold hostMatches, host_named. destruct (has_prefix pattern "*.") eqn:E; cbn [negb].
  - assert (exists domain, pattern = "*." +:+ domain) as (domain & ->) by (exists (trim_prefix pattern "*."); by apply trim_prefix_app).
    change (trim_prefix ("*." +:+ domain) "*") with ("." +:+ domain). rewrite andb_true_iff, Z.ltb_lt, has_suffix_app. split.
    + intros [Hl (x & ->)]. right. exists domain, x. split_and!; [done| |done]. intros ->. exact (Z.lt_irrefl _ Hl).
    + intros [[[=] _] | (d & x & Hd & Hx & ->)]. assert (domain = d) as <- by (injection Hd; done). split; [|eauto]. rewrite (slen_app x).
      pose proof (slen_nonneg x). assert (slen x <> 0) by (by rewrite slen_zero). lia.
  - rewrite String.eqb_eq. split; [intros ->; by left|]. intros [[_ ->] | (d & x & -> & _)]; [done|]. by rewrite has_prefix_app in E.
Qed.

Lemma select_spec s ids host port id route d :
  selectEgressRoute s ids host port = Some (id, route, d) ->
  id ∈ ids /\ egressRoutes s !! id = Some route /\ d ∈ destinations route /\ host_named (Host d) host /\ port ∈ Ports d.
Proof.
  induction ids as [|x ids IH]; [done|]. cbn [selectEgressRoute].
  destruct (List.find (matching host port) _) as [d'|] eqn:E.
  - intros [= <- <- <-]. apply List.find_some in E as [Hin Hm]. destruct (egressRoutes s !! x) as [r|]; [|done].
    unfold matching in Hm. breflect. split_and!; [left | done | by apply list_elem_of_In | by apply hostMatches_spec |].
    unfold containsPort in *. apply existsb_exists in H0 as (p & Hp & Hq). breflect. subst. by apply list_elem_of_In.
  - intros H. destruct (IH H) as (? & ?). split; [by right | done].
Qed.

Lemma resolve_spec e host ps ip :
  env_wf e -> Forall prefix_wf ps -> resolveAllowedIP (resolver e) host ps = Ok ip ->
  exists a, ip = Unmap a /\ stands_for e host a /\ addr_wf a /\ addressAllowed a ps = true.
Proof.
  intros [He _] Hp H. apply resolve_allowed in H as (a & l & Hl & Ha & Hok & ->). exists a. unfold stands_for.
  destruct (ParseAddr host) as [x|] eqn:E.
  - injection Hl as <-. apply list_elem_of_singleton in Ha as ->. split_and!; try done. by apply (ParseAddr_wf host).
  - split_and!; eauto. specialize (He _ _ Hl). rewrite Forall_forall in He. by apply He.
Qed.

(** Logging keeps what was logged, and adds the allow event when it succeeds. *)
Definition logged (s s' : Server) (event : egressAuditEvent) : Prop := exists new, audit s' = new ++ audit s /\ event ∈ new.

Lemma record_logged s e g routeID method host port s' :
  recordEgressAllow s e g routeID method host port = (s', true) ->
  logged s s' (event_of g "allow" "route_allowed" routeID method host port 0 0).
Proof.
  unfold recordEgressAllow, Append. destruct (appends e _); [|done]. intros [= <-]. eexists [_]. split; [done|]. by apply list_elem_of_singleton.
Qed.

Lemma finish_logged s s1 e g routeID reason method host port a b event :
  logged s s1 event -> logged s (finishEgress s1 e g routeID reason method host port a b) event.
Proof.
  intros (new & Hn & Hin). unfold finishEgress, Append. destruct (appends e _); [|by exists new].
  eexists (_ :: new). cbn [audit updateEgressStats fst]. rewrite Hn. split; [done | by right].
Qed.

Lemma copy_spec source maximum written n :
  copyBounded source maximum = (written, n) -> (exists unsent, source = written ++ unsent) /\ zlen written <= Z.max 0 maximum.
Proof.
  unfold copyBounded. intros [= <- _]. split; [eexists; symmetry; apply take_drop|]. unfold zlen. rewrite length_take. lia.
Qed.

(** The name that passes the check is the one in the ClientHello. *)
Lemma hello_name e host raw name later :
  lower_rune_ok (lower_rune e) -> host <> ""%string -> readTLSClientHello (lower_rune e) (stream e) = Ok (raw, name, later) ->
  tlsServerNameAllowed host name = true ->
  exists l hello extra sni, stream e = raw ++ later /\ raw = all_records l /\ Forall record_ok l /\
    payloads l = message hello ++ extra /\ carries hello sni /\
    match sni with Some n => ParseIP host = false /\ spells n host | None => ParseIP host = true end.
Proof.
  intros Hl Hne Hr Hn. assert (Hi : incomplete []) by (by left). destruct (read_records_sound _ 8 _ [] [] _ _ _ Hi Hr)
    as (l & _ & Hs & -> & Hok & _ & hello & extra & final & Hp & _ & _ & _ & Hc). cbn [app] in *.
  unfold tlsServerNameAllowed in Hn. destruct (accepted_name_spells _ hello name Hl Hc) as [[Hca ->] | (sni & Hca & Hsp & Hv)].
  - exists l, hello, extra, None. do 5 (split; [done|]). destruct (ParseIP host); [done|]. by apply String.eqb_eq in Hn.
  - exists l, hello, extra, (Some sni). do 5 (split; [done|]). destruct (ParseIP host); apply String.eqb_eq in Hn; subst name.
    + by apply valid_host_ascii in Hv as [? _].
    + done.
Qed.

Lemma connect_spec s e g routeID route method host port ip s' o :
  lower_rune_ok (lower_rune e) -> host <> ""%string ->
  proxyConnect s e g routeID route method host port ip = (s', o) ->
  reaches o = None \/
  (reaches o = Some (ip, port) /\ logged s s' (event_of g "allow" "route_allowed" routeID method host port 0 0) /\
   forall i p sent received, o = Tunnelled i p sent received -> tunnel_ok e route host sent received).
Proof.
  intros Hlow Hne. unfold proxyConnect. destruct (hijacks e); [intros [= <- <-]; by left..|]. destruct (readTLSClientHello _ _) as [[[hello name] later]|] eqn:Er; [|intros [= <- <-]; by left].
  destruct (tlsServerNameAllowed host name) eqn:En; cbn [negb]; [|intros [= <- <-]; by left].
  destruct (MaxRequestBytes route <? zlen hello) eqn:El; [intros [= <- <-]; by left|].
  destruct (recordEgressAllow s e g routeID method host port) as [s1 ok] eqn:Ea. destruct ok; cbn [negb]; [|intros [= <- <-]; by left].
  apply record_logged in Ea. breflect. destruct (negb (dials e) || negb (hello_written e)).
  1: { intros [= <- <-]. right. split_and!; [done | by apply finish_logged | done]. }
  destruct (copyBounded later _) as [sent n] eqn:E1. destruct (copyBounded (upstream e) _) as [received m] eqn:E2. intros [= <- <-].
  apply copy_spec in E1 as [Hu Hs], E2 as [_ Hr]. right. split_and!; [done | by apply finish_logged|]. intros i p x y [= <- <- <- <-].
  destruct (hello_name _ _ _ _ _ Hlow Hne Er En) as (l & hs & extra & sni & Hst & -> & Hok & Hp & Hca & Hsni).
  exists l, hs, extra, sni, later, sent. split_and!; try done. rewrite zlen_app. lia.
Qed.

Lemma http_spec s e g routeID route r host port ip s1 s' o :
  logged s s1 (event_of g "allow" "route_allowed" routeID (Method r) host port 0 0) ->
  proxyHTTP s1 e g routeID route r host port ip = (s', o) ->
  reaches o = None \/
  (reaches o = Some (ip, port) /\ logged s s' (event_of g "allow" "route_allowed" routeID (Method r) host port 0 0) /\
   forall i p sent received, o <> Tunnelled i p sent received).
Proof.
  intros Hl. unfold proxyHTTP. destruct (_ <? _); [intros [= <- <-]; by left|].
  destruct (exchange e); intros [= <- <-]; [by left|right..]; (split_and!; [done | by apply finish_logged | done]).
Qed.

Lemma reject_unreached s e g reason method host port status : reaches (rejectEgress s e g reason method host port status).2 = None.
Proof. unfold rejectEgress. destruct (denyEgress _ _ _ _ _ _ _) as [s1 []]; try done. cbn [snd]. by destruct (_ || _). Qed.

Lemma destination_port lower r host port : proxyDestination lower r = Ok (host, port) -> 1 <= port <= 65535.
Proof.
  unfold proxyDestination. destruct (String.eqb _ _).
  - destruct (SplitHostPort _) as [[h t]|]; [|done]. destruct (Atoi t) as [p|]; [|done]. destruct (_ || _) eqn:E; [done|]. intros [= _ <-]. breflect. lia.
  - destruct (rURL r) as [u|]; [|done]. destruct (_ || _); [done|]. destruct (url_host_port _) as [h t]. destruct (String.eqb t "").
    + destruct (invalidExplicitPort _ _); [done|]. destruct (String.eqb _ ""); [done|]. intros [= _ <-]. by destruct (String.eqb _ _).
    + destruct (Atoi t) as [p|]; [|done]. destruct (_ || _) eqn:E; [done|]. destruct (String.eqb _ ""); [done|]. intros [= _ <-]. breflect. lia.
Qed.

(** ** Theorems *)

(** C2: where egress can reach. If the handler connects an agent anywhere, the grant is registered and active; the lower-cased host and the port of the
    request are those of a destination of one of its routes; the address is one the host stands for and the address policy permits it under that
    destination's exceptions; and the audit log has the allow event. A CONNECT tunnel carries, before anything else, handshake records with a ClientHello,
    and never more bytes than the route allows in either direction. When the host is a name, the ClientHello has a server name, and that name, read byte by
    byte from the message and without one final dot, is the host up to the case of ASCII letters, where U+0130 may stand for i and U+212A for k; when the
    host is an address, the ClientHello has no server name. Assumed: the routes as validated, a resolver that gives well-formed addresses, and
    [unicode.ToLower] beyond ASCII as Unicode has it. *)
Theorem egress_confined s id r e s' o ip port :
  routes_wf s -> env_wf e -> egressHandler s id r e = (s', o) -> reaches o = Some (ip, port) ->
  exists g host routeID route d a,
    grants s !! id = Some g /\ Active g = true /\
    proxyDestination (lower_rune e) r = Ok (host, port) /\ 1 <= port <= 65535 /\
    routeID ∈ EgressRouteIDs g /\ egressRoutes s !! routeID = Some route /\ d ∈ destinations route /\
    host_named (Host d) host /\ port ∈ Ports d /\
    ip = Unmap a /\ stands_for e host a /\ permitted a (prefixes d) /\
    logged s s' (event_of g "allow" "route_allowed" routeID (Method r) host port 0 0) /\
    (forall i p sent received, o = Tunnelled i p sent received -> Method r = "CONNECT"%string /\ tunnel_ok e route host sent received).
Proof.
  intros Hs He H Ho. unfold egressHandler in H. destruct (grants s !! id) as [g|] eqn:Eg; [|by injection H as <- <-].
  assert (Hrej : forall reason host p status, rejectEgress s e g reason (Method r) host p status = (s', o) -> False).
  { intros reason host p status E. pose proof (reject_unreached s e g reason (Method r) host p status) as Hn. rewrite E in Hn. cbn [snd] in Hn. congruence. }
  destruct (bool_decide _); [by injection H as <- <-|]. destruct (Active g) eqn:Ea; cbn [negb] in H; [|by apply Hrej in H].
  destruct (proxyDestination (lower_rune e) r) as [[host p]|] eqn:Ed; [|by apply Hrej in H].
  destruct (selectEgressRoute _ _ _ _) as [[[routeID route] d]|] eqn:Er; [|by apply Hrej in H].
  apply select_spec in Er as (Hid & Hrt & Hd & Hh & Hp). destruct (slot_free e); cbn [negb] in H; [|by apply Hrej in H].
  destruct (Hs _ _ _ Hrt Hd) as [Hhost Hpre].
  assert (Hne : host <> ""%string).
  { destruct Hh as [[_ ->] | (domain & sub & _ & Hsub & ->)]; [done|]. by destruct sub. }
  destruct (resolveAllowedIP _ _ _) as [x|err] eqn:Ei; [|destruct (classifyAddressFailure err (revoked e)); by apply Hrej in H].
  apply resolve_spec in Ei as (a & -> & Hst & Hwf & Hok); [|done|done]. apply address_allowed_permitted in Hok; [|done|done].
  assert (Hgo : reaches o = Some (Unmap a, p) -> logged s s' (event_of g "allow" "route_allowed" routeID (Method r) host p 0 0) ->
    (forall i q sent received, o = Tunnelled i q sent received -> Method r = "CONNECT"%string /\ tunnel_ok e route host sent received) ->
    exists g' host' routeID' route' d' a', Some g = Some g' /\ Active g' = true /\ Ok (host, p) = Ok (host', port) /\ 1 <= port <= 65535 /\
      routeID' ∈ EgressRouteIDs g' /\ egressRoutes s !! routeID' = Some route' /\ d' ∈ destinations route' /\
      host_named (Host d') host' /\ port ∈ Ports d' /\ ip = Unmap a' /\ stands_for e host' a' /\ permitted a' (prefixes d') /\
      logged s s' (event_of g' "allow" "route_allowed" routeID' (Method r) host' port 0 0) /\
      (forall i q sent received, o = Tunnelled i q sent received -> Method r = "CONNECT"%string /\ tunnel_ok e route' host' sent received)).
  { intros Ho' Hl Ht. rewrite Ho' in Ho. injection Ho as <- <-. pose proof (destination_port _ _ _ _ Ed). exists g, host, routeID, route, d, a. split_and!; done || lia. }
  destruct (String.eqb_spec (Method r) "CONNECT") as [Em | Em].
  - destruct (connect_spec _ _ _ _ _ _ _ _ _ _ _ (proj2 He) Hne H) as [Hn | (Hr & Hl & Ht)]; [congruence|]. apply Hgo; [done | done|].
    intros i q sent received E. split; [done | by eapply Ht].
  - destruct (recordEgressAllow _ _ _ _ _ _ _) as [s1 ok] eqn:Eok. destruct ok; cbn [negb] in H; [|by injection H as <- <-].
    apply record_logged in Eok. destruct (http_spec _ _ _ _ _ _ _ _ _ _ _ _ Eok H) as [Hn | (Hr & Hl & Ht)]; [congruence|].
    apply Hgo; [done | done|]. intros i q sent received E. by destruct (Ht i q sent received).
Qed.

(** ** Examples *)

Definition sample_route : loadedEgressRoute := mkRoute "web" 4096 4096 [mkDestination "*.example" [443] []].
Definition sample_server : Server :=
  mkServer {["g"%string := mkGrant "g" "acme" "agent" ["web"%string] true]} {["web"%string := sample_route]} new_limiter ∅ [].
(** A [unicode.ToLower] that changes no other rune beyond ASCII. *)
Definition unicode_lower (r : Z) : Z := if r =? 304 then 105 else if r =? 8490 then 107 else r.
Lemma unicode_lower_ok : lower_rune_ok unicode_lower.
Proof. split_and!; [done..|]. intros r Hr H1 H2. unfold unicode_lower. by rewrite !(proj2 (Z.eqb_neq _ _)). Qed.

Definition sample_env (address : Addr) (host : string) : env :=
  mkEnv unicode_lower 5 true false (fun _ => Some [address]) (fun _ => true) Hijacked (sample_stream (bytes_of host)) true true (bytes_of "hello") UpstreamFailed.
Definition sample_request : Request := mkRequest "CONNECT" "API.example:443" None 0.

Example tunnel_opened :
  reaches (egressHandler sample_server "g" sample_request (sample_env (V4 (ip4 [93; 184; 216; 34])) "api.example")).2 =
  Some (V4 (ip4 [93; 184; 216; 34]), 443).
Proof. vm_compute. reflexivity. Qed.
Example private_address_denied :
  (egressHandler sample_server "g" sample_request (sample_env (V4 (ip4 [10; 0; 0; 1])) "api.example")).2 = Responded 403 "address_denied".
Proof. vm_compute. reflexivity. Qed.
Example other_name_denied :
  (egressHandler sample_server "g" sample_request (sample_env (V4 (ip4 [93; 184; 216; 34])) "other.example")).2 = Closed.
Proof. vm_compute. reflexivity. Qed.

(** The server name is lower-cased before it is compared: one with the Kelvin sign passes as the ASCII host, and is forwarded as it is. *)
Example kelvin_name_forwarded :
  exists sent received, (egressHandler sample_server "g" (mkRequest "CONNECT" "k.example:443" None 0)
    (sample_env (V4 (ip4 [93; 184; 216; 34])) (string_of (encode_runes (8490 :: (u8 <$> bytes_of ".example"))%list)))).2 =
  Tunnelled (V4 (ip4 [93; 184; 216; 34])) 443 sent received.
Proof. eexists _, _. vm_compute. reflexivity. Qed.

Lemma egress_confined_witness :
  let e := sample_env (V4 (ip4 [93; 184; 216; 34])) "api.example" in
  let o := (egressHandler sample_server "g" sample_request e).2 in
  exists g host routeID route d a,
    grants sample_server !! "g"%string = Some g /\ Active g = true /\
    proxyDestination (lower_rune e) sample_request = Ok (host, 443) /\ 1 <= 443 <= 65535 /\
    routeID ∈ EgressRouteIDs g /\ egressRoutes sample_server !! routeID = Some route /\ d ∈ destinations route /\
    host_named (Host d) host /\ 443 ∈ Ports d /\
    V4 (ip4 [93; 184; 216; 34]) = Unmap a /\ stands_for e host a /\ permitted a (prefixes d) /\
    logged sample_server (egressHandler sample_server "g" sample_request e).1
      (event_of g "allow" "route_allowed" routeID (Method sample_request) host 443 0 0) /\
    (forall i p sent received, o = Tunnelled i p sent received -> Method sample_request = "CONNECT"%string /\ tunnel_ok e route host sent received).
Proof.
  intros e o. apply (egress_confined sample_server "g" sample_request e (egressHandler sample_server "g" sample_request e).1 o).
  - intros id route d Hr Hd. unfold sample_server in Hr. cbn [egressRoutes] in Hr. apply lookup_singleton_Some in Hr as [_ <-]. apply list_elem_of_singleton in Hd as ->. by split; [|constructor].
  - split; [|apply unicode_lower_ok]. intros host l [= <-]. apply Forall_singleton. by vm_compute.
  - apply surjective_pairing.
  - vm_compute. reflexivity.
Defined.

End Egress.
