(* ===== verification/ConnectorEvent.v ===== *)
(** * Events and receipts of the connector ledger ([src/internal/connectorledger])

    The record of one mediated call ([Event]), the signed receipt that carries it, their JSON form and every check of [ledger.go] and
    [run_control.go] that looks at one or two of them. The ledger itself is in [ConnectorLedger]. *)

From Stdlib Require Import Ascii.
From S2P Require Import Prelude GoText GoTime GoJson GoCrypto Strict.

Module ConnectorEvent.

Definition PayloadTypeV1 : string := "application/vnd.steward.connector-receipt.v1+json".
Definition PayloadTypeV2 : string := "application/vnd.steward.connector-receipt.v2+json".
Definition PayloadTypeV3 : string := "application/vnd.steward.connector-receipt.v3+json".
Definition PayloadTypeV4 : string := "application/vnd.steward.connector-receipt.v4+json".
Definition PayloadTypeV5 : string := "application/vnd.steward.connector-receipt.v5+json".
Definition PayloadTypeV6 : string := "application/vnd.steward.connector-receipt.v6+json".
Definition PayloadTypeV7 : string := "application/vnd.steward.connector-receipt.v7+json".
Definition PayloadTypeV8 : string := "application/vnd.steward.connector-receipt.v8+json".
Definition PayloadTypeV9 : string := "application/vnd.steward.connector-receipt.v9+json".
Definition PayloadTypeV10 : string := "application/vnd.steward.connector-receipt.v10+json".
Definition SchemaV1 : string := "steward.connector-receipt.v1".
Definition SchemaV2 : string := "steward.connector-receipt.v2".
Definition SchemaV3 : string := "steward.connector-receipt.v3".
Definition SchemaV4 : string := "steward.connector-receipt.v4".
Definition SchemaV5 : string := "steward.connector-receipt.v5".
Definition SchemaV6 : string := "steward.connector-receipt.v6".
Definition SchemaV7 : string := "steward.connector-receipt.v7".
Definition SchemaV8 : string := "steward.connector-receipt.v8".
Definition SchemaV9 : string := "steward.connector-receipt.v9".
Definition SchemaV10 : string := "steward.connector-receipt.v10".

Definition MaxLineBytes : Z := Z.shiftl 128 10.
Definition TaskProtocolLifecycleV1 : string := "steward.task-lifecycle.v1".
Definition EffectModeAuthorized : string := "authorized".

Definition Authorize : string := "authorize".
Definition Dispatch : string := "dispatch".
Definition Deny : string := "deny".
Definition Terminal : string := "terminal".

Definition Allowed : string := "allowed".
Definition Denied : string := "denied".
Definition Responded : string := "responded".
Definition Failed : string := "failed".

Definition ConnectorCall : string := "connector_call".
Definition ServiceTask : string := "service_task".
Definition InferenceAttempt : string := "inference_attempt".

Definition TaskStatusAgentReportedCompleted : string := "agent_reported_completed".
Definition TaskStatusAgentReportedFailed : string := "agent_reported_failed".
Definition TaskStatusAgentReportedCancelled : string := "agent_reported_cancelled".

(** ** Records *)

Record Event := mkEvent {
  Phase : string; Outcome : string; Kind : string; EffectMode : string; TenantID : string; RuntimeRef : string; CapsuleDigest : string;
  PolicyDigest : string; RoutePolicyDigest : string; Generation : Z; GrantID : string; ConnectorID : string; ServiceID : string;
  OperationID : string; OperationPolicyDigest : string; TaskDigest : string; AuthorityKeyID : string; AuthorityKeySet : string;
  ApprovalThreshold : Z; PermitDigest : string; RequestDigest : string; HTTPStatus : Z; RequestBytes : Z; ResponseBytes : Z; ErrorCode : string;
  RunID : string; TaskProtocol : string; TaskStatus : string; ResultDigest : string; InfluenceSequence : Z; InfluenceHash : string;
  ResponseDigest : string; TargetRunID : string; TargetTaskDigest : string; InferenceTaskDigest : string; InferencePermitDigest : string;
  InferenceRequestDigest : string }.

Record Receipt := mkReceipt {
  SchemaVersion : string; NodeID : string; Epoch : Z; Sequence : Z; PreviousHash : string; ObservedAt : string; REvent : Event;
  TaskSequence : Z; PreviousTaskHash : string }.

Record VerifiedReceipt := mkVerified { VReceipt : Receipt; Raw : bytes; Hash : string }.

Record taskCoordinate := mkCoordinate { sequence : Z; hash : string }.

(** ** JSON *)

#[global] Instance Event_json : GoJSON Event := {
  go_shape := KStruct [
    ("phase", KString); ("outcome", KString); ("kind", KString); ("effect_mode", KString); ("tenant_id", KString); ("runtime_ref", KString);
    ("capsule_digest", KString); ("policy_digest", KString); ("route_policy_digest", KString); ("generation", KInt); ("grant_id", KString);
    ("connector_id", KString); ("service_id", KString); ("operation_id", KString); ("operation_policy_digest", KString); ("task_digest", KString);
    ("authority_key_id", KString); ("authority_key_set", KString); ("approval_threshold", KInt); ("permit_digest", KString);
    ("request_digest", KString); ("http_status", KInt); ("request_bytes", KInt); ("response_bytes", KInt); ("error_code", KString);
    ("run_id", KString); ("task_protocol", KString); ("task_status", KString); ("result_digest", KString); ("influence_sequence", KInt);
    ("influence_hash", KString); ("response_digest", KString); ("target_run_id", KString); ("target_task_digest", KString);
    ("inference_task_digest", KString); ("inference_permit_digest", KString); ("inference_request_digest", KString)]%string;
  to_json e := obj [
    always "phase" (JStr (Phase e)); always "outcome" (JStr (Outcome e)); omitempty "kind" (empty_string (Kind e)) (JStr (Kind e));
    omitempty "effect_mode" (empty_string (EffectMode e)) (JStr (EffectMode e)); always "tenant_id" (JStr (TenantID e));
    always "runtime_ref" (JStr (RuntimeRef e)); always "capsule_digest" (JStr (CapsuleDigest e)); always "policy_digest" (JStr (PolicyDigest e));
    always "route_policy_digest" (JStr (RoutePolicyDigest e)); always "generation" (json_int (Generation e)); always "grant_id" (JStr (GrantID e));
    always "connector_id" (JStr (ConnectorID e)); omitempty "service_id" (empty_string (ServiceID e)) (JStr (ServiceID e));
    always "operation_id" (JStr (OperationID e));
    omitempty "operation_policy_digest" (empty_string (OperationPolicyDigest e)) (JStr (OperationPolicyDigest e));
    always "task_digest" (JStr (TaskDigest e)); omitempty "authority_key_id" (empty_string (AuthorityKeyID e)) (JStr (AuthorityKeyID e));
    omitempty "authority_key_set" (empty_string (AuthorityKeySet e)) (JStr (AuthorityKeySet e));
    omitempty "approval_threshold" (ApprovalThreshold e =? 0) (json_int (ApprovalThreshold e));
    omitempty "permit_digest" (empty_string (PermitDigest e)) (JStr (PermitDigest e));
    omitempty "request_digest" (empty_string (RequestDigest e)) (JStr (RequestDigest e));
    omitempty "http_status" (HTTPStatus e =? 0) (json_int (HTTPStatus e)); always "request_bytes" (json_int (RequestBytes e));
    always "response_bytes" (json_int (ResponseBytes e)); omitempty "error_code" (empty_string (ErrorCode e)) (JStr (ErrorCode e));
    omitempty "run_id" (empty_string (RunID e)) (JStr (RunID e)); omitempty "task_protocol" (empty_string (TaskProtocol e)) (JStr (TaskProtocol e));
    omitempty "task_status" (empty_string (TaskStatus e)) (JStr (TaskStatus e));
    omitempty "result_digest" (empty_string (ResultDigest e)) (JStr (ResultDigest e));
    omitempty "influence_sequence" (InfluenceSequence e =? 0) (json_int (InfluenceSequence e));
    omitempty "influence_hash" (empty_string (InfluenceHash e)) (JStr (InfluenceHash e));
    omitempty "response_digest" (empty_string (ResponseDigest e)) (JStr (ResponseDigest e));
    omitempty "target_run_id" (empty_string (TargetRunID e)) (JStr (TargetRunID e));
    omitempty "target_task_digest" (empty_string (TargetTaskDigest e)) (JStr (TargetTaskDigest e));
    omitempty "inference_task_digest" (empty_string (InferenceTaskDigest e)) (JStr (InferenceTaskDigest e));
    omitempty "inference_permit_digest" (empty_string (InferencePermitDigest e)) (JStr (InferencePermitDigest e));
    omitempty "inference_request_digest" (empty_string (InferenceRequestDigest e)) (JStr (InferenceRequestDigest e))];
  of_json v := match v with
    | JObj fs =>
        v_Phase ← field fs "phase" dec_string ""%string; v_Outcome ← field fs "outcome" dec_string ""%string;
        v_Kind ← field fs "kind" dec_string ""%string; v_EffectMode ← field fs "effect_mode" dec_string ""%string;
        v_TenantID ← field fs "tenant_id" dec_string ""%string; v_RuntimeRef ← field fs "runtime_ref" dec_string ""%string;
        v_CapsuleDigest ← field fs "capsule_digest" dec_string ""%string; v_PolicyDigest ← field fs "policy_digest" dec_string ""%string;
        v_RoutePolicyDigest ← field fs "route_policy_digest" dec_string ""%string; v_Generation ← field fs "generation" dec_u64 0;
        v_GrantID ← field fs "grant_id" dec_string ""%string; v_ConnectorID ← field fs "connector_id" dec_string ""%string;
        v_ServiceID ← field fs "service_id" dec_string ""%string; v_OperationID ← field fs "operation_id" dec_string ""%string;
        v_OperationPolicyDigest ← field fs "operation_policy_digest" dec_string ""%string;
        v_TaskDigest ← field fs "task_digest" dec_string ""%string; v_AuthorityKeyID ← field fs "authority_key_id" dec_string ""%string;
        v_AuthorityKeySet ← field fs "authority_key_set" dec_string ""%string; v_ApprovalThreshold ← field fs "approval_threshold" dec_int 0;
        v_PermitDigest ← field fs "permit_digest" dec_string ""%string; v_RequestDigest ← field fs "request_digest" dec_string ""%string;
        v_HTTPStatus ← field fs "http_status" dec_int 0; v_RequestBytes ← field fs "request_bytes" dec_int 0;
        v_ResponseBytes ← field fs "response_bytes" dec_int 0; v_ErrorCode ← field fs "error_code" dec_string ""%string;
        v_RunID ← field fs "run_id" dec_string ""%string; v_TaskProtocol ← field fs "task_protocol" dec_string ""%string;
        v_TaskStatus ← field fs "task_status" dec_string ""%string; v_ResultDigest ← field fs "result_digest" dec_string ""%string;
        v_InfluenceSequence ← field fs "influence_sequence" dec_u64 0; v_InfluenceHash ← field fs "influence_hash" dec_string ""%string;
        v_ResponseDigest ← field fs "response_digest" dec_string ""%string; v_TargetRunID ← field fs "target_run_id" dec_string ""%string;
        v_TargetTaskDigest ← field fs "target_task_digest" dec_string ""%string;
        v_InferenceTaskDigest ← field fs "inference_task_digest" dec_string ""%string;
        v_InferencePermitDigest ← field fs "inference_permit_digest" dec_string ""%string;
        v_InferenceRequestDigest ← field fs "inference_request_digest" dec_string ""%string;
        Some (mkEvent
          v_Phase v_Outcome v_Kind v_EffectMode v_TenantID v_RuntimeRef v_CapsuleDigest v_PolicyDigest v_RoutePolicyDigest v_Generation v_GrantID
          v_ConnectorID v_ServiceID v_OperationID v_OperationPolicyDigest v_TaskDigest v_AuthorityKeyID v_AuthorityKeySet v_ApprovalThreshold
          v_PermitDigest v_RequestDigest v_HTTPStatus v_RequestBytes v_ResponseBytes v_ErrorCode v_RunID v_TaskProtocol v_TaskStatus v_ResultDigest
          v_InfluenceSequence v_InfluenceHash v_ResponseDigest v_TargetRunID v_TargetTaskDigest v_InferenceTaskDigest v_InferencePermitDigest
          v_InferenceRequestDigest)
    | _ => None end;
  storable e :=
    utf8_valid (Phase e) && utf8_valid (Outcome e) && utf8_valid (Kind e) && utf8_valid (EffectMode e) && utf8_valid (TenantID e) &&
    utf8_valid (RuntimeRef e) && utf8_valid (CapsuleDigest e) && utf8_valid (PolicyDigest e) && utf8_valid (RoutePolicyDigest e) &&
    in_u64b (Generation e) && utf8_valid (GrantID e) && utf8_valid (ConnectorID e) && utf8_valid (ServiceID e) && utf8_valid (OperationID e) &&
    utf8_valid (OperationPolicyDigest e) && utf8_valid (TaskDigest e) && utf8_valid (AuthorityKeyID e) && utf8_valid (AuthorityKeySet e) &&
    in_int64b (ApprovalThreshold e) && utf8_valid (PermitDigest e) && utf8_valid (RequestDigest e) && in_int64b (HTTPStatus e) &&
    in_int64b (RequestBytes e) && in_int64b (ResponseBytes e) && utf8_valid (ErrorCode e) && utf8_valid (RunID e) && utf8_valid (TaskProtocol e) &&
    utf8_valid (TaskStatus e) && utf8_valid (ResultDigest e) && in_u64b (InfluenceSequence e) && utf8_valid (InfluenceHash e) &&
    utf8_valid (ResponseDigest e) && utf8_valid (TargetRunID e) && utf8_valid (TargetTaskDigest e) && utf8_valid (InferenceTaskDigest e) &&
    utf8_valid (InferencePermitDigest e) && utf8_valid (InferenceRequestDigest e);
}.

Definition zero_event : Event :=
  mkEvent "" "" "" "" "" "" "" "" "" 0 "" "" "" "" "" "" "" "" 0 "" "" 0 0 0 "" "" "" "" "" 0 "" "" "" "" "" "" "".

#[global] Instance Receipt_json : GoJSON Receipt := {
  go_shape := KStruct [("schema_version", KString); ("node_id", KString); ("epoch", KInt); ("sequence", KInt); ("previous_hash", KString);
    ("observed_at", KString); ("event", go_shape (A := Event)); ("task_sequence", KInt); ("previous_task_hash", KString)]%string;
  to_json r := obj [
    always "schema_version" (JStr (SchemaVersion r)); always "node_id" (JStr (NodeID r)); always "epoch" (json_int (Epoch r));
    always "sequence" (json_int (Sequence r)); always "previous_hash" (JStr (PreviousHash r)); always "observed_at" (JStr (ObservedAt r));
    always "event" (to_json (REvent r)); omitempty "task_sequence" (TaskSequence r =? 0) (json_int (TaskSequence r));
    omitempty "previous_task_hash" (empty_string (PreviousTaskHash r)) (JStr (PreviousTaskHash r))];
  of_json v := match v with
    | JObj fs =>
        schemaVersion ← field fs "schema_version" dec_string ""%string;
        nodeID ← field fs "node_id" dec_string ""%string;
        epoch ← field fs "epoch" dec_u64 0;
        sequence ← field fs "sequence" dec_u64 0;
        previousHash ← field fs "previous_hash" dec_string ""%string;
        observedAt ← field fs "observed_at" dec_string ""%string;
        event ← field fs "event" of_json zero_event;
        taskSequence ← field fs "task_sequence" dec_u64 0;
        previousTaskHash ← field fs "previous_task_hash" dec_string ""%string;
        Some (mkReceipt schemaVersion nodeID epoch sequence previousHash observedAt event taskSequence previousTaskHash)
    | _ => None end;
  storable r := utf8_valid (SchemaVersion r) && utf8_valid (NodeID r) && in_u64b (Epoch r) && in_u64b (Sequence r)
    && utf8_valid (PreviousHash r) && utf8_valid (ObservedAt r) && storable (REvent r) && in_u64b (TaskSequence r)
    && utf8_valid (PreviousTaskHash r);
}.

(** The three laws of the event one by one: together they are slow to check. *)
Lemma event_json_ok (r : Event) : storable r = true -> json_ok (to_json r).
Proof. intros H; unfold_json; breflect; struct_ok ltac:(member_ok). Qed.
Lemma event_json_shape (r : Event) d :
  storable r = true -> (d + 1 <= 32)%nat -> validateJSONValue (go_shape (A := Event)) d (to_json r) = Ok tt.
Proof. intros H Hd; unfold_json; breflect; struct_shape ltac:(member_shape). Qed.
Lemma event_of_json (r : Event) : storable r = true -> of_json (to_json r) = Some r.
Proof. intros H; unfold_json; breflect. struct_read. repeat (field_back; cbn [mbind option_bind]). by destruct r. Qed.

#[global] Instance Event_laws : GoJSONLaws Event 1.
Proof. split; [apply event_json_ok | apply event_json_shape | apply event_of_json]. Qed.

Lemma receipt_json_ok (r : Receipt) : storable r = true -> json_ok (to_json r).
Proof. intros H; unfold_json; breflect; struct_ok ltac:(member_ok). Qed.
Lemma receipt_json_shape (r : Receipt) d :
  storable r = true -> (d + 2 <= 32)%nat -> validateJSONValue (go_shape (A := Receipt)) d (to_json r) = Ok tt.
Proof. intros H Hd; unfold_json; breflect; struct_shape ltac:(member_shape). Qed.
Lemma receipt_of_json (r : Receipt) : storable r = true -> of_json (to_json r) = Some r.
Proof.
  intros H. unfold_json. breflect.
  match goal with He : storable (REvent r) = true |- _ => pose proof (event_of_json _ He) as Hev; clear He end.
  revert Hev. generalize (to_json (REvent r)). intros J Hev.
  struct_read. rewrite Hev. cbn [mbind option_bind]. repeat (field_back; cbn [mbind option_bind]). by destruct r.
Qed.

#[global] Instance Receipt_laws : GoJSONLaws Receipt 2.
Proof. split; [apply receipt_json_ok | apply receipt_json_shape | apply receipt_of_json]. Qed.

(** ** Texts *)

Definition alnum (z : Z) : bool :=
  ((65 <=? z) && (z <=? 90)) || ((97 <=? z) && (z <=? 122)) || ((48 <=? z) && (z <=? 57)).

Definition identifier (value : string) : bool :=
  if (slen value =? 0) || (128 <? slen value) then false else
  match bytes_of value with
  | [] => false
  | first :: rest => alnum (u8 first) && forallb (fun c => alnum (u8 c) || (u8 c =? 46) || (u8 c =? 95) || (u8 c =? 45)) rest
  end.

Definition digest (value : string) : bool := sha256_digest value.

Definition lowerHex (value : string) : bool := negb (slen value =? 0) && all_bytes lower_hex_byte value.
Definition runtimeRef (value : string) : bool :=
  has_prefix value "executor-" && (slen value =? 9 + 64) && lowerHex (trim_prefix value "executor-").
Definition grantID (value : string) : bool :=
  has_prefix value "grant-" && (slen value =? 6 + 64) && lowerHex (trim_prefix value "grant-").

Definition validText (value : string) (limit : Z) : bool :=
  negb (String.eqb value "") && (slen value <=? limit) && utf8_valid value && String.eqb (trim_space value) value && negb (contains_byte value 0).
Definition publicIdentity (value : string) (limit : Z) : bool :=
  negb (String.eqb (trim_space value) "") && (slen value <=? limit) && utf8_valid value && negb (contains_byte value 0).

Definition serviceTaskSuccessStatus (status : Z) : bool := (status =? 200) || (status =? 201) || (status =? 202).
Definition validTaskStatus (status : string) : bool :=
  String.eqb status TaskStatusAgentReportedCompleted || String.eqb status TaskStatusAgentReportedFailed
  || String.eqb status TaskStatusAgentReportedCancelled.

(** ** Digests *)


Definition KeyID (public : bytes) : string := sha256_text public.
Definition TaskDigest_ (taskID : string) : result string :=
  require identifier taskID else "task id must use 1-128 letters, digits, dot, underscore, or hyphen" in
  Ok (sha256_text (bytes_of "steward-connector-task-v1" ++ byte_of_Z 0 :: bytes_of taskID)).
Definition chainDomain : bytes := bytes_of "steward-connector-ledger-v1" ++ [byte_of_Z 0].
Definition hashLine (raw : bytes) : string := sha256_text (chainDomain ++ raw).
Definition zeroHash : string := "sha256:0000000000000000000000000000000000000000000000000000000000000000".

(** ** Stopping a run ([run_control.go]) *)

(** [^run_[0-9a-f]{32}$] *)
Definition hermesRunID (s : string) : bool :=
  has_prefix s "run_" && (slen s =? 4 + 32) && all_bytes lower_hex_byte (trim_prefix s "run_").

(** [{"run_id":"..."}] *)
Definition HermesStopRequest (runID : string) : result bytes :=
  require hermesRunID runID else "stop target is not a native Hermes run identity" in
  Ok (("{"%char :: quotation :: bytes_of "run_id") ++ (quotation :: ":"%char :: quotation :: bytes_of runID) ++ [quotation; "}"%char]).

Definition empty (s : string) : bool := String.eqb s "".

Definition validateRunControl (e : Event) : result unit :=
  if empty (TargetTaskDigest e) && empty (TargetRunID e) then Ok tt else
  let* body := HermesStopRequest (TargetRunID e) in
  require negb (negb (String.eqb (Kind e) ServiceTask) || negb (String.eqb (TaskProtocol e) TaskProtocolLifecycleV1)
    || negb (String.eqb (OperationID e) "hermes.stop") || negb (digest (TargetTaskDigest e))
    || String.eqb (TargetTaskDigest e) (TaskDigest e) || String.eqb (Phase e) Deny
    || negb (RequestBytes e =? zlen body) || negb (String.eqb (RequestDigest e) (sha256_text body))
    || (negb (empty (RunID e)) && negb (String.eqb (RunID e) (TargetRunID e))))
    else "stop receipt does not bind one canonical request and original task" in Ok tt.

(** Grant, service and run identifier. *)
Definition runOwnership : Type := string * string * string.
Definition runOwnershipFor (e : Event) : runOwnership := (GrantID e, ServiceID e, RunID e).

Definition validateRunControlOwner (e : Event) (owners : gmap runOwnership Event) : result unit :=
  if empty (TargetTaskDigest e) then Ok tt else
  match owners !! (GrantID e, ServiceID e, TargetRunID e) with
  | None => Err "stop receipt has no matching previously dispatched task"
  | Some owner =>
      require negb (negb (String.eqb (TaskDigest owner) (TargetTaskDigest e)) || negb (empty (TargetTaskDigest owner))
        || negb (String.eqb (Kind owner) ServiceTask) || negb (String.eqb (TaskProtocol owner) TaskProtocolLifecycleV1)
        || negb (String.eqb (TenantID owner) (TenantID e)) || negb (String.eqb (RuntimeRef owner) (RuntimeRef e))
        || negb (String.eqb (CapsuleDigest owner) (CapsuleDigest e)) || negb (String.eqb (PolicyDigest owner) (PolicyDigest e))
        || negb (String.eqb (RoutePolicyDigest owner) (RoutePolicyDigest e)) || negb (Generation owner =? Generation e)
        || negb (String.eqb (AuthorityKeyID owner) (AuthorityKeyID e)))
        else "stop receipt has no matching previously dispatched task" in Ok tt
  end.

Definition errInferenceScopeDenied : string := "inference scope has no matching live service-task authorization".
Definition validateInferenceScopeOwner (e : Event) (pending : gmap string Event) : result unit :=
  if empty (InferenceTaskDigest e) then Ok tt else
  match pending !! InferenceTaskDigest e with
  | None => Err errInferenceScopeDenied
  | Some parent =>
      require negb (negb (String.eqb (Kind parent) ServiceTask) || negb (String.eqb (TaskProtocol parent) TaskProtocolLifecycleV1)
        || negb (empty (TargetTaskDigest parent)) || negb (String.eqb (TenantID parent) (TenantID e))
        || negb (String.eqb (RuntimeRef parent) (RuntimeRef e)) || negb (String.eqb (CapsuleDigest parent) (CapsuleDigest e))
        || negb (String.eqb (PolicyDigest parent) (PolicyDigest e)) || negb (String.eqb (RoutePolicyDigest parent) (RoutePolicyDigest e))
        || negb (String.eqb (GrantID parent) (GrantID e)) || negb (Generation parent =? Generation e)
        || negb (String.eqb (PermitDigest parent) (InferencePermitDigest e)) || negb (String.eqb (RequestDigest parent) (InferenceRequestDigest e)))
        else errInferenceScopeDenied in Ok tt
  end.

(** ** Steps of a call *)

Definition sameCall (left right : Event) : bool :=
  String.eqb (Kind left) (Kind right) && String.eqb (EffectMode left) (EffectMode right) && String.eqb (TenantID left) (TenantID right) &&
  String.eqb (RuntimeRef left) (RuntimeRef right) && String.eqb (CapsuleDigest left) (CapsuleDigest right) && String.eqb (PolicyDigest left)
  (PolicyDigest right) && String.eqb (RoutePolicyDigest left) (RoutePolicyDigest right) && (Generation left =? Generation right) && String.eqb
  (GrantID left) (GrantID right) && String.eqb (ConnectorID left) (ConnectorID right) && String.eqb (ServiceID left) (ServiceID right) &&
  String.eqb (OperationID left) (OperationID right) && String.eqb (OperationPolicyDigest left) (OperationPolicyDigest right) && String.eqb
  (TaskDigest left) (TaskDigest right) && String.eqb (AuthorityKeyID left) (AuthorityKeyID right) && String.eqb (AuthorityKeySet left)
  (AuthorityKeySet right) && (ApprovalThreshold left =? ApprovalThreshold right) && String.eqb (PermitDigest left) (PermitDigest right) &&
  String.eqb (RequestDigest left) (RequestDigest right) && (RequestBytes left =? RequestBytes right) && String.eqb (TaskProtocol left)
  (TaskProtocol right) && (InfluenceSequence left =? InfluenceSequence right) && String.eqb (InfluenceHash left) (InfluenceHash right) &&
  String.eqb (TargetRunID left) (TargetRunID right) && String.eqb (TargetTaskDigest left) (TargetTaskDigest right) && String.eqb
  (InferenceTaskDigest left) (InferenceTaskDigest right) && String.eqb (InferencePermitDigest left) (InferencePermitDigest right) && String.eqb
  (InferenceRequestDigest left) (InferenceRequestDigest right).

Definition validateTransition (previous next : Event) : result unit :=
  require sameCall previous next else "connector lifecycle event does not match its authorization" in
  if empty (TaskProtocol previous) then
    require String.eqb (Phase previous) Authorize && String.eqb (Phase next) Terminal
      else "legacy connector call has an invalid phase transition" in Ok tt
  else
  require
    (String.eqb (Phase previous) Authorize
     && (String.eqb (Phase next) Dispatch
         || (String.eqb (Phase next) Terminal && String.eqb (Outcome next) Failed && empty (RunID next) && empty (TaskStatus next))))
    || (String.eqb (Phase previous) Dispatch
        && String.eqb (Phase next) Terminal && String.eqb (RunID next) (RunID previous)
        && ((String.eqb (Outcome next) Responded && negb (empty (TaskStatus next)))
            || (String.eqb (Outcome next) Failed && empty (TaskStatus next))))
    else "connector lifecycle event has an invalid phase transition" in Ok tt.

Definition no_coordinate : taskCoordinate := mkCoordinate 0 "".

Definition validateTaskCoordinate (record : VerifiedReceipt) (previous : taskCoordinate) (first : bool) : result unit :=
  if empty (TaskProtocol (REvent (VReceipt record))) then Ok tt else
  require first || negb ((sequence previous =? 0) || empty (hash previous)) else "connector lifecycle receipt has no previous task-chain record" in
  let expectedSequence := if first then 1 else u64 (sequence previous + 1) in
  let expectedHash := if first then zeroHash else hash previous in
  require (TaskSequence (VReceipt record) =? expectedSequence) && String.eqb (PreviousTaskHash (VReceipt record)) expectedHash
    else "connector lifecycle task-chain coordinates do not match" in Ok tt.

(** ** Validation of an event

    [validateEvent] in its order: inference scope, run control, bounds, influence, permit, authorities, kind, phase. *)

Definition validate_scope (e : Event) : result unit :=
  if empty (InferenceTaskDigest e) && empty (InferencePermitDigest e) && empty (InferenceRequestDigest e) then Ok tt else
  require negb (negb (String.eqb (Kind e) InferenceAttempt) || negb (digest (InferenceTaskDigest e)) || negb (digest (InferencePermitDigest e))
    || negb (digest (InferenceRequestDigest e)) || String.eqb (InferenceTaskDigest e) (TaskDigest e))
    else "inference scope requires a distinct task and its exact permit and request digests" in Ok tt.

Definition validate_bounds (e : Event) : result unit :=
  require negb (negb (publicIdentity (TenantID e) 128) || negb (runtimeRef (RuntimeRef e))
    || negb (digest (CapsuleDigest e)) || negb (digest (PolicyDigest e)) || negb (digest (RoutePolicyDigest e)) || (Generation e =? 0)
    || negb (grantID (GrantID e)) || negb (identifier (OperationID e))
    || negb (digest (TaskDigest e)) || (RequestBytes e <? 0) || (Z.shiftl 1 30 <? RequestBytes e)
    || (ResponseBytes e <? 0) || (Z.shiftl 1 30 <? ResponseBytes e) || (HTTPStatus e <? 0) || (599 <? HTTPStatus e)
    || (negb (empty (ErrorCode e)) && negb (identifier (ErrorCode e))))
    else "invalid bounded connector event" in Ok tt.

Definition validate_influence (e : Event) : result unit :=
  require negb ((negb (InfluenceSequence e =? 0) && empty (InfluenceHash e))
    || (negb (empty (InfluenceHash e)) && negb (digest (InfluenceHash e)))
    || (negb (empty (ResponseDigest e)) && negb (digest (ResponseDigest e))))
    else "connector influence context is invalid" in Ok tt.

Definition validate_permit (e : Event) : result unit :=
  if String.eqb (Kind e) ConnectorCall && String.eqb (EffectMode e) EffectModeAuthorized && String.eqb (Phase e) Deny then
    require negb (negb (empty (AuthorityKeyID e)) || negb (empty (AuthorityKeySet e)) || negb (ApprovalThreshold e =? 0)
      || negb (empty (PermitDigest e)) || negb (digest (RequestDigest e)))
      else "authorized connector denial must bind the request without claiming a permit authority" in Ok tt
  else
    require negb (xorb (empty (PermitDigest e)) (empty (RequestDigest e))
      || xorb (empty (PermitDigest e)) (empty (AuthorityKeyID e) && empty (AuthorityKeySet e))
      || (negb (empty (PermitDigest e)) && (negb (digest (PermitDigest e)) || negb (digest (RequestDigest e)))))
      else "connector permit and request digests must be valid and present together" in Ok tt.

(** [strings.Split(value, ",")]. *)
Fixpoint split_commas (l : bytes) : list bytes :=
  match l with
  | [] => [[]]
  | c :: l =>
      if u8 c =? 44 then [] :: split_commas l
      else match split_commas l with p :: ps => (c :: p) :: ps | [] => [[c]] end
  end.
Definition key_ids (e : Event) : list string := string_of <$> split_commas (bytes_of (AuthorityKeySet e)).

Fixpoint canonical_keys (previous : option string) (l : list string) : bool :=
  match l with
  | [] => true
  | k :: l => identifier k && from_option (fun p => str_lt p k) true previous && canonical_keys (Some k) l
  end.

Definition validate_authority (e : Event) : result unit :=
  require negb (negb (empty (AuthorityKeyID e)) && negb (identifier (AuthorityKeyID e))) else "connector action authority key ID is invalid" in
  if negb (empty (AuthorityKeySet e)) then
    require negb (negb (empty (AuthorityKeyID e)) || (ApprovalThreshold e <? 2) || negb (ApprovalThreshold e =? zlen (key_ids e))
      || (8 <? zlen (key_ids e)))
      else "connector multi-party approval authority set is invalid" in
    require canonical_keys None (key_ids e) else "connector multi-party approval key IDs are not canonical" in Ok tt
  else require ApprovalThreshold e =? 0 else "connector approval threshold has no authority set" in Ok tt.

Definition validate_inference (e : Event) : result unit :=
  require negb ((negb (String.eqb (Phase e) Authorize) && negb (String.eqb (Phase e) Terminal)) || (RequestBytes e =? 0)
    || negb (empty (EffectMode e)) || negb (empty (ConnectorID e)) || negb (empty (ServiceID e))
    || negb (empty (OperationPolicyDigest e)) || negb (empty (AuthorityKeyID e)) || negb (empty (AuthorityKeySet e))
    || negb (ApprovalThreshold e =? 0) || negb (empty (PermitDigest e)) || negb (empty (RequestDigest e))
    || negb (empty (RunID e)) || negb (empty (TaskProtocol e)) || negb (empty (TaskStatus e)) || negb (empty (ResultDigest e))
    || negb (empty (InfluenceHash e)) || negb (empty (ResponseDigest e)) || negb (ResponseBytes e =? 0))
    else "inference attempt contains task authority or output claims" in Ok tt.

Definition validate_legacy (e : Event) : result unit :=
  require negb (negb (empty (EffectMode e)) || negb (identifier (ConnectorID e)) || negb (empty (ServiceID e))
    || negb (empty (OperationPolicyDigest e)) || negb (empty (RunID e))
    || negb (empty (TaskProtocol e)) || negb (empty (TaskStatus e)) || negb (empty (ResultDigest e)))
    else "legacy connector event contains service task fields" in Ok tt.

Definition validate_connector (e : Event) : result unit :=
  require negb (negb (identifier (ConnectorID e)) || negb (empty (ServiceID e)) || negb (empty (RunID e))
    || negb (empty (TaskProtocol e)) || negb (empty (TaskStatus e)) || negb (empty (ResultDigest e)))
    else "connector call event contains incoherent fields" in
  let* _ :=
    if empty (EffectMode e) then
      require empty (OperationPolicyDigest e) else "legacy connector call contains an operation policy digest" in Ok tt
    else if String.eqb (EffectMode e) EffectModeAuthorized then
      require digest (OperationPolicyDigest e) else "authorized connector call requires an operation policy digest" in
      require negb ((String.eqb (Phase e) Authorize || String.eqb (Phase e) Terminal)
        && ((empty (AuthorityKeyID e) && empty (AuthorityKeySet e)) || empty (PermitDigest e) || empty (RequestDigest e)))
        else "authorized connector call requires permit and request bindings" in Ok tt
    else Err "connector call uses an unsupported effect mode" in
  require negb (negb (empty (ResponseDigest e)) && (negb (String.eqb (Phase e) Terminal) || negb (String.eqb (Outcome e) Responded)))
    else "connector response digest requires a responded terminal event" in
  require negb (negb (empty (InfluenceHash e)) && String.eqb (Phase e) Terminal && String.eqb (Outcome e) Responded
    && negb (digest (ResponseDigest e)))
    else "context-bound connector response requires a response digest" in Ok tt.

Definition validate_legacy_service (e : Event) : result unit :=
  require negb (String.eqb (Phase e) Dispatch || negb (empty (TaskStatus e)) || negb (empty (ResultDigest e)))
    else "legacy service task contains lifecycle fields" in
  let success := String.eqb (Phase e) Terminal && String.eqb (Outcome e) Responded && serviceTaskSuccessStatus (HTTPStatus e) in
  require negb (xorb success (negb (empty (RunID e))) || (negb (empty (RunID e)) && negb (identifier (RunID e))))
    else "service task run ID does not match a successful terminal response" in Ok tt.

Definition validate_lifecycle (e : Event) : result unit :=
  require String.eqb (TaskProtocol e) TaskProtocolLifecycleV1 else "service task uses an unsupported lifecycle protocol" in
  if String.eqb (Phase e) Authorize then
    require negb (negb (empty (RunID e)) || negb (empty (TaskStatus e)) || negb (empty (ResultDigest e)))
      else "lifecycle authorization contains service output" in Ok tt
  else if String.eqb (Phase e) Dispatch then
    require negb (negb (String.eqb (Outcome e) Responded) || negb (serviceTaskSuccessStatus (HTTPStatus e)) || (ResponseBytes e =? 0)
      || negb (identifier (RunID e)) || negb (empty (TaskStatus e)) || negb (empty (ResultDigest e)) || negb (empty (ErrorCode e)))
      else "invalid lifecycle dispatch event" in Ok tt
  else if String.eqb (Phase e) Terminal then
    if empty (TaskStatus e) then
      require negb (negb (String.eqb (Outcome e) Failed) || negb (empty (ResultDigest e)) || (negb (empty (RunID e)) && negb (identifier (RunID e))))
        else "invalid lifecycle terminal failure" in Ok tt
    else
      require negb (negb (validTaskStatus (TaskStatus e)) || negb (String.eqb (Outcome e) Responded) || negb (HTTPStatus e =? 200)
        || (ResponseBytes e =? 0) || negb (identifier (RunID e)) || negb (digest (ResultDigest e)) || negb (empty (ErrorCode e)))
        else "invalid agent-reported lifecycle terminal event" in Ok tt
  else Err "invalid lifecycle service task phase".

Definition validate_service (e : Event) : result unit :=
  require negb (negb (empty (EffectMode e)) || negb (empty (ConnectorID e)) || negb (identifier (ServiceID e))
    || negb (digest (OperationPolicyDigest e)))
    else "service task event contains incoherent fields" in
  require negb ((String.eqb (Phase e) Authorize || String.eqb (Phase e) Dispatch || String.eqb (Phase e) Terminal)
    && (empty (AuthorityKeyID e) || empty (PermitDigest e) || empty (RequestDigest e) || (RequestBytes e =? 0)))
    else "service task authorization requires permit and request bindings" in
  if empty (TaskProtocol e) then validate_legacy_service e else validate_lifecycle e.

Definition validate_kind (e : Event) : result unit :=
  if String.eqb (Kind e) InferenceAttempt then validate_inference e
  else if String.eqb (Kind e) "" then validate_legacy e
  else if String.eqb (Kind e) ConnectorCall then validate_connector e
  else if String.eqb (Kind e) ServiceTask then validate_service e
  else Err "invalid connector receipt event kind".

Definition validate_phase (e : Event) : result unit :=
  if String.eqb (Phase e) Authorize then
    require negb (negb (String.eqb (Outcome e) Allowed) || negb (HTTPStatus e =? 0) || negb (ResponseBytes e =? 0) || negb (empty (ErrorCode e)))
      else "invalid connector authorization event" in Ok tt
  else if String.eqb (Phase e) Deny then
    require negb (negb (String.eqb (Outcome e) Denied) || negb (HTTPStatus e =? 0) || negb (ResponseBytes e =? 0) || empty (ErrorCode e))
      else "invalid connector denial event" in Ok tt
  else if String.eqb (Phase e) Dispatch then
    require negb (negb (String.eqb (Kind e) ServiceTask) || negb (String.eqb (TaskProtocol e) TaskProtocolLifecycleV1)
      || negb (String.eqb (Outcome e) Responded) || (HTTPStatus e <? 100) || (599 <? HTTPStatus e) || negb (empty (ErrorCode e)))
      else "invalid connector dispatch event" in Ok tt
  else if String.eqb (Phase e) Terminal then
    require String.eqb (Outcome e) Responded || String.eqb (Outcome e) Failed else "invalid connector terminal outcome" in
    require negb (String.eqb (Outcome e) Responded && ((HTTPStatus e <? 100) || (599 <? HTTPStatus e) || negb (empty (ErrorCode e))))
      else "responded connector outcome requires an HTTP status and no transport error" in
    require negb (String.eqb (Outcome e) Failed && empty (ErrorCode e)) else "failed connector outcome requires an error code" in Ok tt
  else Err "invalid connector phase".

Definition validateEvent (e : Event) : result unit :=
  let* _ := validate_scope e in
  let* _ := validateRunControl e in
  let* _ := validate_bounds e in
  let* _ := validate_influence e in
  let* _ := validate_permit e in
  let* _ := validate_authority e in
  let* _ := validate_kind e in
  validate_phase e.

(** ** Receipts *)

(** The format [appendLocked] picks for an event. *)
Definition receipt_format (e : Event) : string * string :=
  if String.eqb (Kind e) InferenceAttempt then
    if negb (empty (InferenceTaskDigest e)) then (PayloadTypeV10, SchemaV10) else (PayloadTypeV9, SchemaV9)
  else if negb (empty (TargetTaskDigest e)) then (PayloadTypeV8, SchemaV8)
  else if negb (empty (InfluenceHash e)) || negb (empty (ResponseDigest e)) then (PayloadTypeV7, SchemaV7)
  else if (1 <? ApprovalThreshold e) || negb (empty (AuthorityKeySet e)) then (PayloadTypeV6, SchemaV6)
  else if negb (empty (EffectMode e)) then (PayloadTypeV5, SchemaV5)
  else if negb (empty (TaskProtocol e)) then (PayloadTypeV4, SchemaV4)
  else if negb (empty (Kind e)) then (PayloadTypeV3, SchemaV3)
  else if negb (empty (PermitDigest e)) then (PayloadTypeV2, SchemaV2)
  else (PayloadTypeV1, SchemaV1).

Definition schema_of (payloadType : string) : string :=
  if String.eqb payloadType PayloadTypeV2 then SchemaV2 else if String.eqb payloadType PayloadTypeV3 then SchemaV3
  else if String.eqb payloadType PayloadTypeV4 then SchemaV4 else if String.eqb payloadType PayloadTypeV5 then SchemaV5
  else if String.eqb payloadType PayloadTypeV6 then SchemaV6 else if String.eqb payloadType PayloadTypeV7 then SchemaV7
  else if String.eqb payloadType PayloadTypeV8 then SchemaV8 else if String.eqb payloadType PayloadTypeV9 then SchemaV9
  else if String.eqb payloadType PayloadTypeV10 then SchemaV10 else SchemaV1.

(** An effect that the format 5, 6 or 7 records. *)
Definition authorized_effect (e : Event) : bool :=
  String.eqb (Kind e) ConnectorCall && String.eqb (EffectMode e) EffectModeAuthorized && digest (OperationPolicyDigest e) && empty (TaskProtocol e).

(** The condition of [validateReceipt] that ties the format to the fields of the event. *)
Definition format_matches (payloadType : string) (e : Event) : bool :=
  let ty v := String.eqb payloadType v in
  negb (
    (ty PayloadTypeV1 && (negb (empty (PermitDigest e)) || negb (empty (Kind e)) || negb (empty (EffectMode e))))
    || (ty PayloadTypeV2 && (empty (PermitDigest e) || negb (empty (Kind e)) || negb (empty (EffectMode e))))
    || (ty PayloadTypeV3 && (empty (Kind e) || negb (empty (TaskProtocol e)) || negb (empty (EffectMode e))))
    || (ty PayloadTypeV4 && (negb (String.eqb (Kind e) ServiceTask) || empty (TaskProtocol e) || negb (empty (EffectMode e))))
    || (ty PayloadTypeV5 && (negb (authorized_effect e) || negb (ApprovalThreshold e =? 0) || negb (empty (AuthorityKeySet e))))
    || (ty PayloadTypeV6 && (negb (authorized_effect e) || (ApprovalThreshold e <? 2) || negb (zlen (key_ids e) =? ApprovalThreshold e)
                             || negb (empty (AuthorityKeyID e))))
    || (ty PayloadTypeV7 && (negb (authorized_effect e) || negb (digest (InfluenceHash e))))
    || (negb (ty PayloadTypeV7) && (negb (InfluenceSequence e =? 0) || negb (empty (InfluenceHash e)) || negb (empty (ResponseDigest e))))
    || (ty PayloadTypeV8 && empty (TargetTaskDigest e))
    || (negb (ty PayloadTypeV8) && (negb (empty (TargetTaskDigest e)) || negb (empty (TargetRunID e))))
    || xorb (ty PayloadTypeV9 || ty PayloadTypeV10) (String.eqb (Kind e) InferenceAttempt)
    || xorb (ty PayloadTypeV10) (negb (empty (InferenceTaskDigest e)))).

Definition validateReceipt (r : Receipt) (payloadType nodeID : string) (epoch sequence : Z) (previous : string) : result unit :=
  require String.eqb (SchemaVersion r) (schema_of payloadType) && String.eqb (NodeID r) nodeID && (Epoch r =? epoch)
    && (Sequence r =? sequence) && String.eqb (PreviousHash r) previous
    else "connector receipt chain coordinates do not match" in
  require from_option (fun t => negb (is_zero t)) false (canonical_time (ObservedAt r)) else "connector receipt has an invalid observation time" in
  require format_matches payloadType (REvent r) else "connector receipt schema does not match its permit fields" in
  let* _ :=
    if String.eqb payloadType PayloadTypeV4 || String.eqb payloadType PayloadTypeV8 then
      require negb ((TaskSequence r =? 0) || negb (digest (PreviousTaskHash r)))
        else "connector lifecycle receipt has invalid task-chain coordinates" in Ok tt
    else require (TaskSequence r =? 0) && empty (PreviousTaskHash r) else "legacy connector receipt contains task-chain coordinates" in Ok tt in
  validateEvent (REvent r).

End ConnectorEvent.
