(* ===== verification/ConnectorReceipt.v ===== *)
(** * Valid events and the receipts that carry them

    Lemmas on [ConnectorEvent]: the texts of a valid event are bounded UTF-8, so a receipt survives its JSON form and fits a line; and which
    valid events get a format that the verifier accepts. *)

From Stdlib Require Import Ascii.
From S2P Require Import Prelude GoText GoTime GoJson GoCrypto Strict ConnectorEvent.
Import ConnectorEvent.

Module ConnectorReceipt.

(** ** Texts of a valid event are bounded UTF-8 *)

Lemma alnum_plain z : alnum z = true -> plain_byte z = true.
Proof. unfold alnum, plain_byte. intros H. breflect. destruct H as [H | H]; breflect; [destruct H|]; breflect; repeat (apply andb_true_iff; split); lia. Qed.

Lemma text_empty n s : 0 <= n -> empty s = true -> text_ok n s.
Proof. intros Hn H. apply String.eqb_eq in H as ->. split; [done | exact Hn]. Qed.

(** A prefix followed by lower-case hexadecimal digits. *)
Lemma text_prefixed n p s :
  all_bytes plain_byte p = true -> has_prefix s p = true -> all_bytes lower_hex_byte (trim_prefix s p) = true -> slen s <= n -> text_ok n s.
Proof.
  intros Hp Hs Hx Hn. apply text_plain; [|done]. rewrite (trim_prefix_app s p Hs), all_bytes_app, Hp. cbn [andb].
  by eapply all_bytes_mono; [apply hex_digit_plain|].
Qed.

Lemma text_digest s : digest s = true -> text_ok 128 s.
Proof. unfold digest, sha256_digest. intros H. breflect. apply (text_prefixed _ "sha256:"); [reflexivity | done | done | lia]. Qed.
Lemma text_runtimeRef s : runtimeRef s = true -> text_ok 128 s.
Proof. unfold runtimeRef, lowerHex. intros H. breflect. apply (text_prefixed _ "executor-"); [reflexivity | done | done | lia]. Qed.
Lemma text_grantID s : grantID s = true -> text_ok 128 s.
Proof. unfold grantID, lowerHex. intros H. breflect. apply (text_prefixed _ "grant-"); [reflexivity | done | done | lia]. Qed.
Lemma text_hermes s : hermesRunID s = true -> text_ok 128 s.
Proof. unfold hermesRunID. intros H. breflect. apply (text_prefixed _ "run_"); [reflexivity | done | done | lia]. Qed.

Lemma identifier_bytes s : identifier s = true -> all_bytes plain_byte s = true /\ 1 <= slen s <= 128.
Proof.
  unfold identifier. intros H. pose proof (slen_nonneg s). destruct (_ || _) eqn:E; [done|]. breflect.
  split; [|lia]. unfold all_bytes. destruct (bytes_of s) as [|c l]; [done|]. breflect. cbn [forallb]. rewrite alnum_plain by done. cbn [andb].
  match goal with Hl : forallb _ l = true |- _ => revert Hl end. rewrite !forallb_forall. intros Hl x Hx. specialize (Hl x Hx). breflect.
  destruct Hl as [Hl | Hl]; [breflect; destruct Hl as [Hl | Hl]; [breflect; destruct Hl as [Hl | Hl]; [by apply alnum_plain|]|]|]; breflect; rewrite Hl; reflexivity.
Qed.

Lemma text_identifier s : identifier s = true -> text_ok 128 s.
Proof. intros H. destruct (identifier_bytes s H). apply text_plain; [done | lia]. Qed.

Lemma text_publicIdentity s n : publicIdentity s n = true -> text_ok n s.
Proof. unfold publicIdentity. intros H. breflect. done. Qed.

Lemma text_status s : validTaskStatus s = true -> text_ok 128 s.
Proof.
  unfold validTaskStatus. intros H. breflect. destruct H as [H | H]; [breflect; destruct H as [H | H]|];
    apply String.eqb_eq in H as ->; (split; [reflexivity | vm_compute; congruence]).
Qed.

Create HintDb texts.
#[export] Hint Resolve text_digest text_runtimeRef text_grantID text_hermes text_identifier text_publicIdentity text_status : texts.

(** [solve_text] reads the bound of a text off the tests that passed. *)
Ltac solve_text :=
  first
  [ solve [auto with texts nocore]
  | match goal with H : empty ?s = true |- text_ok _ ?s => apply text_empty; [lia | exact H] end
  | match goal with H : String.eqb ?s _ = true |- text_ok _ ?s => apply String.eqb_eq in H; rewrite H; split; [reflexivity | vm_compute; congruence] end
  | match goal with H : _ \/ _ |- text_ok _ _ => destruct H; breflect; first [discriminate | solve_text] end ].

Lemma validateEvent_inv e :
  validateEvent e = Ok tt <->
  validate_scope e = Ok tt /\ validateRunControl e = Ok tt /\ validate_bounds e = Ok tt /\ validate_influence e = Ok tt /\
  validate_permit e = Ok tt /\ validate_authority e = Ok tt /\ validate_kind e = Ok tt /\ validate_phase e = Ok tt.
Proof.
  unfold validateEvent. split.
  - intros H. destruct (validate_scope e) as [[]|]; [|done]. destruct (validateRunControl e) as [[]|]; [|done].
    destruct (validate_bounds e) as [[]|]; [|done]. destruct (validate_influence e) as [[]|]; [|done].
    destruct (validate_permit e) as [[]|]; [|done]. destruct (validate_authority e) as [[]|]; [|done].
    destruct (validate_kind e) as [[]|]; [|done]. by split_and!.
  - intros (-> & -> & -> & -> & -> & -> & -> & ->). done.
Qed.

Lemma scope_texts e : validate_scope e = Ok tt ->
  text_ok 128 (InferenceTaskDigest e) /\ text_ok 128 (InferencePermitDigest e) /\ text_ok 128 (InferenceRequestDigest e).
Proof. unfold validate_scope. intros H. case_in H; breflect; split_and!; solve_text. Qed.

Lemma control_texts e : validateRunControl e = Ok tt -> text_ok 128 (TargetRunID e) /\ text_ok 128 (TargetTaskDigest e).
Proof. unfold validateRunControl, HermesStopRequest. intros H. case_in H; breflect; split; solve_text. Qed.

Lemma bounds_texts e : validate_bounds e = Ok tt ->
  text_ok 128 (TenantID e) /\ text_ok 128 (RuntimeRef e) /\ text_ok 128 (CapsuleDigest e) /\ text_ok 128 (PolicyDigest e) /\
  text_ok 128 (RoutePolicyDigest e) /\ text_ok 128 (GrantID e) /\ text_ok 128 (OperationID e) /\ text_ok 128 (TaskDigest e) /\
  text_ok 128 (ErrorCode e) /\ 0 <= RequestBytes e <= 2 ^ 30 /\ 0 <= ResponseBytes e <= 2 ^ 30 /\ 0 <= HTTPStatus e <= 599.
Proof.
  unfold validate_bounds. change (Z.shiftl 1 30) with (2 ^ 30). intros H. case_in H. clear H. breflect. split_and!; [solve_text..|lia | lia | lia | lia | lia | lia].
Qed.

Lemma influence_texts e : validate_influence e = Ok tt -> text_ok 128 (InfluenceHash e) /\ text_ok 128 (ResponseDigest e).
Proof. unfold validate_influence. intros H. case_in H. breflect. split; solve_text. Qed.

Lemma permit_texts e : validate_permit e = Ok tt -> text_ok 128 (PermitDigest e) /\ text_ok 128 (RequestDigest e).
Proof.
  unfold validate_permit. intros H. destruct (_ && _) in H; case_in H; breflect; [split; solve_text|].
  destruct (empty (PermitDigest e)) eqn:E1, (empty (RequestDigest e)) eqn:E2; try done; split; solve_text.
Qed.

Lemma kind_texts e : validate_kind e = Ok tt ->
  text_ok 128 (Kind e) /\ text_ok 128 (EffectMode e) /\ text_ok 128 (ConnectorID e) /\ text_ok 128 (ServiceID e) /\
  text_ok 128 (OperationPolicyDigest e) /\ text_ok 128 (RunID e) /\ text_ok 128 (TaskProtocol e) /\ text_ok 128 (TaskStatus e) /\
  text_ok 128 (ResultDigest e).
Proof.
  unfold validate_kind. destruct (String.eqb (Kind e) InferenceAttempt) eqn:E1.
  { unfold validate_inference. intros H. case_in H. breflect. split_and!; solve_text. }
  destruct (String.eqb (Kind e) "") eqn:E2.
  { unfold validate_legacy. intros H. case_in H. breflect. split_and!; solve_text. }
  destruct (String.eqb (Kind e) ConnectorCall) eqn:E3.
  { unfold validate_connector. intros H. case_in H; breflect; split_and!; solve_text. }
  destruct (String.eqb (Kind e) ServiceTask) eqn:E4; [|done].
  unfold validate_service, validate_legacy_service, validate_lifecycle. intros H. case_in H; breflect; split_and!; solve_text.
Qed.

Lemma phase_texts e : validate_phase e = Ok tt -> text_ok 128 (Phase e) /\ text_ok 128 (Outcome e).
Proof. unfold validate_phase. intros H. case_in H; breflect; split; solve_text. Qed.

Lemma split_commas_nonempty l : split_commas l <> [].
Proof. destruct l as [|c l]; [done|]. cbn [split_commas]. destruct (u8 c =? 44); [done|]. by destruct (split_commas l). Qed.

Lemma split_commas_spec l :
  zlen l + 1 = zsum (fun p => zlen p + 1) (split_commas l) /\
  (forall q : Z -> bool, q 44 = true -> Forall (fun p => forallb (fun c => q (u8 c)) p = true) (split_commas l) -> forallb (fun c => q (u8 c)) l = true).
Proof.
  induction l as [|c l [IHn IHp]]; [done|]. cbn [split_commas]. destruct (Z.eqb_spec (u8 c) 44) as [Hc | Hc].
  - cbn [zsum foldr]. rewrite zlen_cons. change (zlen (@nil ascii)) with 0. unfold zsum in IHn. split; [lia|].
    intros q Hq Hall. apply Forall_cons in Hall as [_ Hall]. cbn [forallb]. rewrite Hc, Hq. cbn [andb]. by apply IHp.
  - pose proof (split_commas_nonempty l). destruct (split_commas l) as [|p ps]; [done|]. cbn [zsum foldr] in *. rewrite !zlen_cons. split; [lia|].
    intros q Hq Hall. apply Forall_cons in Hall as [Hp Hall]. cbn [forallb] in *. apply andb_true_iff in Hp as [-> Hp]. cbn [andb].
    apply IHp; [done|]. by constructor.
Qed.

Lemma canonical_keys_identifiers previous l : canonical_keys previous l = true -> Forall (fun k => identifier k = true) l.
Proof. revert previous. induction l as [|k l IH]; intros previous H; [constructor|]. cbn [canonical_keys] in H. breflect. constructor; [done | by eapply IH]. Qed.

Lemma authority_texts e : validate_authority e = Ok tt ->
  text_ok 128 (AuthorityKeyID e) /\ text_ok 1031 (AuthorityKeySet e) /\ 0 <= ApprovalThreshold e <= 8.
Proof.
  unfold validate_authority. intros H. case_in H; breflect; (split; [solve_text|]).
  2: { split; [solve_text | lia]. }
  split; [|pose proof (zlen_nonneg (key_ids e)); lia].
  match goal with Hk : canonical_keys _ _ = true |- _ => apply canonical_keys_identifiers in Hk; rename Hk into Hids end.
  unfold key_ids in *. rewrite Forall_fmap in Hids. destruct (split_commas_spec (bytes_of (AuthorityKeySet e))) as [Hn Hp].
  apply text_plain.
  - apply (Hp plain_byte); [reflexivity|]. eapply Forall_impl; [exact Hids|]. intros p Hi. apply identifier_bytes in Hi as [Hi _].
    unfold all_bytes in Hi. by rewrite bytes_of_string_of in Hi.
  - rewrite zlen_bytes_of in Hn. unfold zlen in *. rewrite length_fmap in *.
    assert (zsum (fun p => Z.of_nat (length p) + 1) (split_commas (bytes_of (AuthorityKeySet e))) <=
            zsum (fun _ => 129) (split_commas (bytes_of (AuthorityKeySet e)))) as Hle.
    { apply zsum_le. intros p Hin. rewrite Forall_forall in Hids. specialize (Hids p Hin). apply identifier_bytes in Hids as [_ Hl].
      rewrite <- zlen_bytes_of, bytes_of_string_of in Hl. unfold zlen in Hl. lia. }
    rewrite zsum_const in Hle. unfold zlen in Hle. lia.
Qed.

(** The integers of an event have the width of their Go types; [validateEvent] bounds the others. *)
Definition event_typed (e : Event) : bool := in_u64b (Generation e) && in_u64b (InfluenceSequence e).

(** All texts of an event but the key set, and the key set. *)
Definition texts_of (e : Event) : list string :=
  [Phase e; Outcome e; Kind e; EffectMode e; TenantID e; RuntimeRef e; CapsuleDigest e; PolicyDigest e; RoutePolicyDigest e; GrantID e;
   ConnectorID e; ServiceID e; OperationID e; OperationPolicyDigest e; TaskDigest e; AuthorityKeyID e; PermitDigest e; RequestDigest e; ErrorCode e;
   RunID e; TaskProtocol e; TaskStatus e; ResultDigest e; InfluenceHash e; ResponseDigest e; TargetRunID e; TargetTaskDigest e;
   InferenceTaskDigest e; InferencePermitDigest e; InferenceRequestDigest e].

Lemma valid_texts e : validateEvent e = Ok tt ->
  Forall (text_ok 128) (texts_of e) /\ text_ok 1031 (AuthorityKeySet e) /\ 0 <= ApprovalThreshold e <= 8 /\
  0 <= RequestBytes e <= 2 ^ 30 /\ 0 <= ResponseBytes e <= 2 ^ 30 /\ 0 <= HTTPStatus e <= 599.
Proof.
  intros H. apply validateEvent_inv in H as (H1 & H2 & H3 & H4 & H5 & H6 & H7 & H8).
  apply scope_texts in H1. apply control_texts in H2. apply bounds_texts in H3. apply influence_texts in H4. apply permit_texts in H5.
  apply authority_texts in H6. apply kind_texts in H7. apply phase_texts in H8. destruct_and!. split_and!; try lia; [|done].
  unfold texts_of. repeat (apply Forall_cons_2; [assumption|]). apply Forall_nil_2.
Qed.

Lemma valid_storable e : validateEvent e = Ok tt -> event_typed e = true -> storable e = true.
Proof.
  intros H Ht. apply valid_texts in H as (Hall & Hset & Ha & Hq & Hr & Hs). unfold event_typed in Ht. apply andb_true_iff in Ht as [Hg Hi].
  assert (Hint : forall z, 0 <= z <= 2 ^ 30 -> in_int64b z = true) by (intros z Hz; apply andb_true_iff; lia).
  unfold texts_of in Hall. rewrite !Forall_cons in Hall. unfold text_ok in Hall. destruct_and!. destruct Hset as [Hset _].
  change (storable e) with (@storable _ Event_json e). cbn [storable Event_json].
  rewrite Hg, Hi, Hset, !Hint by lia. repeat (apply andb_true_iff; split); done.
Qed.

(** ** The size of a receipt *)

Lemma event_size e : validateEvent e = Ok tt -> event_typed e = true -> zlen (json_print (to_json e)) <= 34000.
Proof.
  intros H Ht. apply valid_texts in H as (Hall & [_ Hset] & Ha & Hq & Hr & Hs). unfold event_typed in Ht. apply andb_true_iff in Ht as [Hg Hi].
  apply in_u64b_true in Hg, Hi. unfold texts_of in Hall. rewrite !Forall_cons in Hall. unfold text_ok in Hall. destruct_and!.
  change (to_json e) with (@to_json _ Event_json e). cbn [to_json Event_json]. struct_bound.
Qed.

Lemma receipt_size r :
  validateEvent (REvent r) = Ok tt -> event_typed (REvent r) = true -> text_ok 256 (NodeID r) -> in_u64 (Epoch r) -> in_u64 (Sequence r) ->
  in_u64 (TaskSequence r) -> text_ok 128 (SchemaVersion r) -> text_ok 128 (PreviousHash r) -> text_ok 128 (ObservedAt r) ->
  text_ok 128 (PreviousTaskHash r) -> zlen (json_print (to_json r)) <= 40000.
Proof.
  intros Hv Ht [_ Hn] He Hs Hts [_ H1] [_ H2] [_ H3] [_ H4]. pose proof (event_size _ Hv Ht) as Hev.
  change (to_json r) with (@to_json _ Receipt_json r). cbn [to_json Receipt_json]. struct_bound.
Qed.

Lemma receipt_storable r :
  validateEvent (REvent r) = Ok tt -> event_typed (REvent r) = true -> text_ok 256 (NodeID r) -> in_u64 (Epoch r) -> in_u64 (Sequence r) ->
  in_u64 (TaskSequence r) -> text_ok 128 (SchemaVersion r) -> text_ok 128 (PreviousHash r) -> text_ok 128 (ObservedAt r) ->
  text_ok 128 (PreviousTaskHash r) -> storable r = true.
Proof.
  intros Hv Ht [Hn _] He Hs Hts [H1 _] [H2 _] [H3 _] [H4 _]. apply in_u64b_true in He, Hs, Hts.
  change (storable r) with (@storable _ Receipt_json r). cbn [storable Receipt_json].
  rewrite Hn, He, Hs, Hts, H1, H2, H3, H4, (valid_storable _ Hv Ht). done.
Qed.

(** ** The format of a receipt fits its event

    [appendLocked] picks a format for every valid event, and [validateReceipt] accepts it exactly for the coherent ones: influence and approval sets belong
    to authorized connector calls, and a response digest needs an influence context. *)

Definition coherent (e : Event) : bool :=
  (empty (InfluenceHash e) && empty (ResponseDigest e) && empty (AuthorityKeySet e))
  || (String.eqb (Kind e) ConnectorCall && String.eqb (EffectMode e) EffectModeAuthorized
      && (empty (ResponseDigest e) || negb (empty (InfluenceHash e)))).

(** What the kind of a valid event says about the fields that the formats look at. *)
Lemma kind_fields e : validateEvent e = Ok tt ->
  (Kind e = InferenceAttempt /\ EffectMode e = ""%string /\ AuthorityKeySet e = ""%string /\ TaskProtocol e = ""%string /\ InfluenceHash e = ""%string /\
    ResponseDigest e = ""%string) \/
  (Kind e = ""%string /\ EffectMode e = ""%string /\ TaskProtocol e = ""%string) \/
  (Kind e = ConnectorCall /\ TaskProtocol e = ""%string /\
    (EffectMode e = ""%string \/ (EffectMode e = EffectModeAuthorized /\ digest (OperationPolicyDigest e) = true))) \/
  (Kind e = ServiceTask /\ EffectMode e = ""%string /\ (TaskProtocol e = ""%string \/ TaskProtocol e = TaskProtocolLifecycleV1)).
Proof.
  rewrite validateEvent_inv. intros (_ & _ & _ & _ & _ & _ & H & _). revert H. unfold validate_kind.
  destruct (String.eqb_spec (Kind e) InferenceAttempt) as [E1 | _].
  { unfold validate_inference. intros H. case_in H. breflect. left. split_and!; first [done | by apply String.eqb_eq]. }
  destruct (String.eqb_spec (Kind e) "") as [E2 | _].
  { unfold validate_legacy. intros H. case_in H. breflect. right. left. split_and!; first [done | by apply String.eqb_eq]. }
  destruct (String.eqb_spec (Kind e) ConnectorCall) as [E3 | _].
  { unfold validate_connector. intros H. right. right. left. destruct (negb _) eqn:E in H; [|done]. breflect.
    split_and!; [done | by apply String.eqb_eq|]. destruct (empty (EffectMode e)) eqn:Em; [left; by apply String.eqb_eq|].
    destruct (String.eqb_spec (EffectMode e) EffectModeAuthorized) as [Ea | Ea]; [|done]. destruct (digest _) eqn:Ed; [|done]. right. done. }
  destruct (String.eqb_spec (Kind e) ServiceTask) as [E4 | _]; [|done].
  unfold validate_service, validate_lifecycle. intros H. right. right. right. destruct (negb _) eqn:E in H; [|done]. breflect.
  destruct (negb _) eqn:E' in H; [|done]. split_and!; [done | by apply String.eqb_eq|].
  destruct (empty (TaskProtocol e)) eqn:Ep; [left; by apply String.eqb_eq|].
  destruct (String.eqb_spec (TaskProtocol e) TaskProtocolLifecycleV1); [by right | done].
Qed.

(** ... and the same for the fields whose tests are independent of the kind. *)
Lemma optional_fields e : validateEvent e = Ok tt ->
  (empty (TargetTaskDigest e) = true /\ TargetRunID e = ""%string \/
   empty (TargetTaskDigest e) = false /\ Kind e = ServiceTask /\ TaskProtocol e = TaskProtocolLifecycleV1) /\
  (empty (InferenceTaskDigest e) = true \/ Kind e = InferenceAttempt) /\
  (empty (InfluenceHash e) = true /\ InfluenceSequence e = 0 \/ empty (InfluenceHash e) = false /\ digest (InfluenceHash e) = true) /\
  (empty (AuthorityKeySet e) = true /\ ApprovalThreshold e = 0 \/
   empty (AuthorityKeySet e) = false /\ empty (AuthorityKeyID e) = true /\ 2 <= ApprovalThreshold e /\ zlen (key_ids e) = ApprovalThreshold e).
Proof.
  rewrite validateEvent_inv. intros (Hs & Hr & _ & Hi & _ & Ha & _). split_and!.
  - unfold validateRunControl in Hr. destruct (empty (TargetTaskDigest e)) eqn:E1, (empty (TargetRunID e)) eqn:E2; cbn [andb] in Hr;
      [left; split; [done | by apply String.eqb_eq] | exfalso|right..]; case_in Hr; breflect.
    1: { apply String.eqb_eq in E1. by rewrite E1 in *. }
    all: split_and!; [done | by apply String.eqb_eq | by apply String.eqb_eq].
  - unfold validate_scope in Hs. destruct (empty (InferenceTaskDigest e)); [by left|]. right. cbn [andb] in Hs. case_in Hs. breflect. by apply String.eqb_eq.
  - unfold validate_influence in Hi. case_in Hi. breflect. destruct (empty (InfluenceHash e)) eqn:E1; [left | right]; split; try done.
    all: repeat match goal with H : _ \/ _ |- _ => destruct H; breflect; try done end.
  - unfold validate_authority in Ha. case_in Ha; breflect; [right | left]; split_and!; done || lia.
Qed.

(** A stop carries a single authority. *)
Lemma stop_authority e : validateEvent e = Ok tt -> empty (TargetTaskDigest e) = false -> empty (AuthorityKeySet e) = true.
Proof.
  intros H Ht. destruct (optional_fields e H) as ([[Hx _] | (_ & K & _)] & _ & _ & Ha); [congruence|].
  destruct Ha as [[? _] | (_ & Hid & _)]; [done|]. apply validateEvent_inv in H as (_ & Hr & _ & _ & _ & _ & Hk & Hp).
  unfold validateRunControl in Hr. rewrite Ht in Hr. cbn [andb] in Hr. case_in Hr. breflect.
  unfold validate_kind in Hk. rewrite K in Hk. change (validate_service e = Ok tt) in Hk. unfold validate_service in Hk. rewrite Hid in Hk.
  unfold validate_phase in Hp. destruct (String.eqb (Phase e) Authorize), (String.eqb (Phase e) Deny), (String.eqb (Phase e) Dispatch), (String.eqb (Phase e) Terminal);
    cbn [orb andb negb] in Hk; try done; by destruct (negb _) in Hk.
Qed.

Lemma format_coherent e : validateEvent e = Ok tt -> format_matches (receipt_format e).1 e = coherent e.
Proof.
  intros H. pose proof (kind_fields e H) as Hk. destruct (optional_fields e H) as (Ht & Hs & Hi & Ha). pose proof (stop_authority e H) as Hsa. clear H.
  assert (Htr : empty (TargetTaskDigest e) = true -> empty (TargetRunID e) = true) by (destruct Ht as [[_ E] | [E _]]; [by rewrite E | congruence]).
  assert (HT : Kind e <> ServiceTask -> empty (TargetTaskDigest e) = true) by (destruct Ht as [[? _] | (_ & ? & _)]; done).
  assert (HS : Kind e <> InferenceAttempt -> empty (InferenceTaskDigest e) = true) by (destruct Hs; done).
  assert (Hdi : empty (InfluenceHash e) = true -> digest (InfluenceHash e) = false) by (intros Hx; apply String.eqb_eq in Hx; by rewrite Hx).
  clear Hs. unfold receipt_format, format_matches, authorized_effect, coherent.
  destruct Hk as [(K & E & A & P & I & R) | [(K & E & P) | [(K & P & E) | (K & E & P)]]].
  - assert (InfluenceSequence e = 0) as S0 by (destruct Hi as [[_ ?] | [Hx _]]; [done | by rewrite I in Hx]).
    rewrite K in HT. specialize (HT ltac:(done)). rewrite K, E, A, P, I, R, HT, (Htr HT), S0.
    destruct (empty (InferenceTaskDigest e)); reflexivity.
  - rewrite K in HT, HS. specialize (HT ltac:(done)). specialize (HS ltac:(done)). rewrite K, E, P, HT, (Htr HT), HS.
    destruct Hi as [[I S0] | [I D]]; rewrite I; [rewrite S0, ?(Hdi I) | rewrite D];
    destruct Ha as [[A Th] | (A & Hid & Th & Hn)]; rewrite A; [rewrite Th| rewrite Hid |rewrite Th|rewrite Hid]; destruct (empty (ResponseDigest e));
    destruct (empty (PermitDigest e)); try reflexivity; destruct (1 <? ApprovalThreshold e); reflexivity.
  - rewrite K in HT, HS. specialize (HT ltac:(done)). specialize (HS ltac:(done)). rewrite K, P, HT, (Htr HT), HS.
    assert (Hthr : 2 <= ApprovalThreshold e -> (1 <? ApprovalThreshold e) = true /\ (ApprovalThreshold e <? 2) = false) by lia.
    destruct E as [E | [E Ed]]; rewrite E; [|rewrite Ed];
    (destruct Hi as [[I S0] | [I D]]; rewrite I; [rewrite S0, ?(Hdi I) | rewrite D]);
    (destruct Ha as [[A Th] | (A & Hid & Th & Hn)]; rewrite A; [rewrite Th| destruct (Hthr Th) as [-> ->]; rewrite Hid, Hn, Z.eqb_refl]);
    destruct (empty (ResponseDigest e)); reflexivity.
  - rewrite K in HS. specialize (HS ltac:(done)). rewrite K, E, HS.
    (destruct Hi as [[I S0] | [I D]]; rewrite I; [rewrite S0, ?(Hdi I) | rewrite D]);
    (destruct Ht as [[T Tr] | (T & _ & Tp)]; rewrite T; [rewrite Tr; destruct P as [P | P]; rewrite P | rewrite Tp]);
    (destruct Ha as [[A Th] | (A & Hid & Th & Hn)]; rewrite A in *; [rewrite Th| rewrite Hid]); try (by specialize (Hsa eq_refl));
    destruct (empty (ResponseDigest e)); try reflexivity; try (by specialize (Hsa T)); destruct (InfluenceSequence e =? 0), (1 <? ApprovalThreshold e); reflexivity.
Qed.

(** Task-chain coordinates are written for the events whose format carries them. *)
Lemma lifecycle_format e : validateEvent e = Ok tt -> coherent e = true ->
  String.eqb (receipt_format e).1 PayloadTypeV4 || String.eqb (receipt_format e).1 PayloadTypeV8 = negb (empty (TaskProtocol e)).
Proof.
  intros H Hc. pose proof (kind_fields e H) as Hk. destruct (optional_fields e H) as (Ht & _ & _ & Ha). clear H.
  unfold coherent in Hc. unfold receipt_format.
  assert (Hthr : empty (AuthorityKeySet e) = true -> (1 <? ApprovalThreshold e) = false) by (destruct Ha as [[_ ->] | [? _]]; [done | congruence]).
  destruct Ht as [[T _] | (T & K & P)]; rewrite T; [|rewrite K, P; reflexivity].
  destruct Hk as [(K & _ & _ & P & _) | [(K & E & P) | [(K & P & E) | (K & E & P)]]]; rewrite K in *; rewrite ?P in *.
  - destruct (empty (InferenceTaskDigest e)); reflexivity.
  - rewrite E. cbn -[PayloadTypeV1 Z.ltb empty] in *. 
    destruct (empty (InfluenceHash e)), (empty (ResponseDigest e)), (empty (AuthorityKeySet e)), (empty (PermitDigest e)), (1 <? ApprovalThreshold e); reflexivity.
  - destruct (empty (InfluenceHash e)), (empty (ResponseDigest e)), (empty (AuthorityKeySet e)), (empty (EffectMode e)), (1 <? ApprovalThreshold e); reflexivity.
  - change (String.eqb ServiceTask ConnectorCall) with false in Hc. cbn [andb] in Hc. rewrite orb_false_r in Hc. breflect. rewrite E, H, H0, H1, Hthr by done.
    destruct (empty (TaskProtocol e)); reflexivity.
Qed.

Lemma schema_format e : schema_of (receipt_format e).1 = (receipt_format e).2.
Proof.
  unfold receipt_format. repeat match goal with |- context [if ?b then _ else _] => destruct b; try reflexivity end.
Qed.

Lemma known_texts e : text_ok 128 (receipt_format e).1 /\ text_ok 128 (receipt_format e).2.
Proof.
  unfold receipt_format. repeat match goal with |- context [if ?b then _ else _] => destruct b; try (split; split; [reflexivity | vm_compute; congruence | reflexivity | vm_compute; congruence]) end.
Qed.

End ConnectorReceipt.
