(* ===== verification/ConnectorLedger.v ===== *)
(** * The connector ledger ([src/internal/connectorledger/ledger.go])

    The append-only file of signed, hash-linked receipts: opening it verifies and replays every line, the five operations append one line
    each, and space for the lines an open call still owes is reserved per tenant and in total. An append can fail at each system call; a
    write or sync that fails poisons the handle. One handle has the file (the lock), and the mutex serialises its calls. *)

From Stdlib Require Import Ascii.
From S2P Require Import Prelude GoText GoTime GoFS GoJson GoCrypto Strict Dsse ConnectorEvent.
Import ConnectorEvent.

Module ConnectorLedger.

Definition MaxLogBytes : Z := Z.shiftl 64 20.
Definition MaxTenantBudgets : Z := 128.
Definition DefaultMaxTenants : Z := 16.
Definition DefaultMaxBytesPerTenant : Z := Z.shiftl 4 20.
Definition terminalReserveBytes : Z := MaxLineBytes + 1.
Definition minimumTenantBytes : Z := 2 * terminalReserveBytes.

(** ** Limits *)

(** [TenantBudgets] is [None] when nil. *)
Record Limits := mkLimits { MaxTenants : Z; MaxBytesPerTenant : Z; TenantBudgets : option (gmap string Z) }.

Definition DefaultLimits : Limits := mkLimits DefaultMaxTenants DefaultMaxBytesPerTenant None.

(** The loop over the budgets, which Go visits in any order. *)
Fixpoint check_budgets (total : Z) (budgets : list (string * Z)) : result unit :=
  match budgets with
  | [] => Ok tt
  | (tenantID, quota) :: budgets =>
      require publicIdentity tenantID 128 else "connector ledger tenant budget has an invalid tenant identity" in
      require minimumTenantBytes <=? quota else "connector ledger tenant byte quota is too small" in
      require total <=? MaxLogBytes - quota else "connector ledger tenant quotas exceed total capacity" in
      check_budgets (total + quota) budgets
  end.

Definition Limits_Validate (limits : Limits) : result unit :=
  match TenantBudgets limits with
  | Some budgets =>
      require (MaxTenants limits =? 0) && (MaxBytesPerTenant limits =? 0)
        else "connector ledger explicit and uniform tenant limits cannot be combined" in
      require Z.of_nat (size budgets) <=? MaxTenantBudgets else "connector ledger permits too many tenant budgets" in
      check_budgets 0 (map_to_list budgets)
  | None =>
      require 0 <? MaxTenants limits else "connector ledger max tenants must be positive" in
      require minimumTenantBytes <=? MaxBytesPerTenant limits else "connector ledger tenant byte quota is too small" in
      require MaxTenants limits <=? MaxLogBytes / MaxBytesPerTenant limits else "connector ledger tenant quotas exceed total capacity" in Ok tt
  end.

Definition errTenantQuotaExceeded : string := "connector ledger tenant byte quota exceeded".
Definition errTenantUnbudgeted : string := "connector ledger tenant is not budgeted".
Definition errTenantIdentityCapacity : string := "connector ledger tenant identity capacity exceeded".
Definition errCapacity : string := "connector ledger capacity exceeded".
Definition errInferenceQuotaExceeded : string := "inference attempt allowance exhausted".
Definition errRunIDConflict : string := "connector ledger service run ID conflict".

Definition tenantQuota (limits : Limits) (tenantID : string) : result Z :=
  match TenantBudgets limits with
  | Some budgets => opt_ok (budgets !! tenantID) errTenantUnbudgeted
  | None => Ok (MaxBytesPerTenant limits)
  end.

(** No free identity is left for a new tenant. *)
Definition identities_full (limits : Limits) (usage : gmap string Z) : bool :=
  match TenantBudgets limits with None => MaxTenants limits <=? Z.of_nat (size usage) | Some _ => false end.

Definition is_new {V} (m : gmap string V) (k : string) : bool := match m !! k with None => true | Some _ => false end.

Definition addTenantUsage (usage : gmap string Z) (tenantID : string) (delta : Z) (limits : Limits) : result (gmap string Z) :=
  let current := default 0 (usage !! tenantID) in
  require negb (is_new usage tenantID && identities_full limits usage) else errTenantIdentityCapacity in
  let* quota := tenantQuota limits tenantID in
  require negb ((delta <? 0) || (quota - delta <? current)) else errTenantQuotaExceeded in
  Ok (<[tenantID := current + delta]> usage).

Definition pendingReservation (e : Event) : Z :=
  if String.eqb (TaskProtocol e) TaskProtocolLifecycleV1 && String.eqb (Phase e) Authorize then 2 * terminalReserveBytes else terminalReserveBytes.

(** ** History *)

(** The maps that [updateHistory] rebuilds and the operations keep. *)
Record History := mkHistory {
  pending : gmap string Event; spent : gset string; taskHeads : gmap string taskCoordinate; runOwners : gmap runOwnership Event }.

Definition no_history : History := mkHistory ∅ ∅ ∅ ∅.

Definition head_of (h : History) (e : Event) : taskCoordinate := default no_coordinate (taskHeads h !! TaskDigest e).

(** [taskHeads[event.TaskDigest] = ...] for the events of a lifecycle. *)
Definition set_head (h : History) (e : Event) (c : taskCoordinate) : History :=
  if empty (TaskProtocol e) then h else mkHistory (pending h) (spent h) (<[TaskDigest e := c]> (taskHeads h)) (runOwners h).

Definition add_authorization (h : History) (e : Event) : History :=
  mkHistory (<[TaskDigest e := e]> (pending h)) ({[TaskDigest e]} ∪ spent h) (taskHeads h) (runOwners h).
Definition add_dispatch (h : History) (e : Event) : History :=
  mkHistory (<[TaskDigest e := e]> (pending h)) (spent h) (taskHeads h)
    (if empty (TargetTaskDigest e) then <[runOwnershipFor e := e]> (runOwners h) else runOwners h).
Definition add_terminal (h : History) (e : Event) : History :=
  mkHistory (delete (TaskDigest e) (pending h)) (spent h) (taskHeads h) (runOwners h).

(** Another task holds the run identifier. *)
Definition run_conflict (h : History) (e : Event) : bool :=
  match runOwners h !! runOwnershipFor e with
  | Some owner => negb (String.eqb (TaskDigest owner) (TaskDigest e)) && empty (TargetTaskDigest e)
  | None => false
  end.

(** The pending event that [e] continues. *)
Definition continues (h : History) (e : Event) (err : string) : result Event :=
  match pending h !! TaskDigest e with
  | Some previous => require is_ok (validateTransition previous e) else err in Ok previous
  | None => Err err
  end.

Definition updateHistory (h : History) (record : VerifiedReceipt) : result History :=
  let e := REvent (VReceipt record) in
  let* h :=
    if String.eqb (Phase e) Authorize then
      require negb (bool_decide (TaskDigest e ∈ spent h)) else "connector ledger contains a duplicate spent authorization" in
      let* _ := validateTaskCoordinate record (head_of h e) true in
      let* _ := validateRunControlOwner e (runOwners h) in
      let* _ := validateInferenceScopeOwner e (pending h) in
      Ok (add_authorization h e)
    else if String.eqb (Phase e) Dispatch then
      let* _ := continues h e "connector ledger dispatch has no matching lifecycle authorization" in
      let* _ := validateTaskCoordinate record (head_of h e) false in
      let* _ := validateRunControlOwner e (runOwners h) in
      require negb (run_conflict h e) else errRunIDConflict in
      Ok (add_dispatch h e)
    else if String.eqb (Phase e) Terminal then
      let* _ := continues h e "connector ledger terminal has no matching authorization" in
      let* _ := validateTaskCoordinate record (head_of h e) false in
      Ok (add_terminal h e)
    else Ok h in
  Ok (set_head h e (mkCoordinate (TaskSequence (VReceipt record)) (Hash record))).

(** ** Verification of the file *)

Record Head := mkHead { HNodeID : string; HEpoch : Z; HSequence : Z; ChainHash : string; HKeyID : string }.

(** The lines of a text, as [bufio.ScanLines] cuts them; a final carriage return is dropped. *)
Fixpoint scan_lines (l : bytes) : list bytes :=
  match l with
  | [] => []
  | c :: l =>
      if u8 c =? 10 then [] :: scan_lines l
      else match scan_lines l with p :: ps => (c :: p) :: ps | [] => [[c]] end
  end.
Definition drop_cr (l : bytes) : bytes :=
  match last l with Some c => if u8 c =? 13 then take (length l - 1) l else l | None => l end.

Definition known_format (payloadType : string) : bool :=
  existsb (String.eqb payloadType)
    [PayloadTypeV1; PayloadTypeV2; PayloadTypeV3; PayloadTypeV4; PayloadTypeV5; PayloadTypeV6; PayloadTypeV7; PayloadTypeV8; PayloadTypeV9;
     PayloadTypeV10].

Section Ed25519.
Context (sign : bytes -> bytes -> bytes) (verify : bytes -> bytes -> bytes -> bool).

(** One line: the scanner's buffer holds a line of [MaxLineBytes] and its newline. *)
Definition verify_line (public : bytes) (nodeID : string) (epoch number : Z) (previous : string) (line : bytes) : result VerifiedReceipt :=
  require zlen line <=? MaxLineBytes else "read connector ledger" in
  let raw := drop_cr line in
  require negb ((zlen raw =? 0) || (MaxLineBytes <? zlen raw)) else "connector ledger line is empty or oversized" in
  let* envelope := Dsse.Parse raw in
  require known_format (Dsse.PayloadType envelope) else "unsupported receipt envelope" in
  let* (payload, keyID) := Dsse.Verify verify raw (Dsse.PayloadType envelope) {[KeyID public := public]} in
  require String.eqb keyID (KeyID public) else "verify connector ledger line" in
  let* receipt := DecodeStrictInto payload MaxLineBytes in
  let* _ := validateReceipt receipt (Dsse.PayloadType envelope) nodeID epoch number previous in
  Ok (mkVerified receipt raw (hashLine raw)).

(** The loop, with the state the visitor accumulates; [number] is that of the last line and [previous] its hash. *)
Fixpoint verify_lines {A} (visit : A -> VerifiedReceipt -> result A) (public : bytes) (nodeID : string) (epoch : Z)
    (number : Z) (previous : string) (s : A) (lines : list bytes) : result (Z * string * A) :=
  match lines with
  | [] => Ok (number, previous, s)
  | line :: lines =>
      let* record := verify_line public nodeID epoch (number + 1) previous line in
      let* s := visit s record in
      verify_lines visit public nodeID epoch (number + 1) (Hash record) s lines
  end.

Definition verifyFile {A} (visit : A -> VerifiedReceipt -> result A) (s : A) (file public : bytes) (nodeID : string) (epoch : Z)
  : result (Head * A) :=
  require match last file with Some c => u8 c =? 10 | None => true end else "connector ledger has an incomplete final record" in
  let* (number, previous, s) := verify_lines visit public nodeID epoch 0 zeroHash s (scan_lines file) in
  Ok (mkHead nodeID epoch number previous (KeyID public), s).

(** What [os.Lstat] and the calls of opening answer; [valid_path] is [validPath] of the path. *)
Record opening := mkOpening {
  valid_path : bool; stat : lstat; opened : bool; locked : bool; chmod_ok : bool; directory_synced : bool; unchanged : bool; sized : bool }.

Definition validFileInfo (regular : bool) (perm : Z) (file : bytes) : bool := regular && owner_only perm && (zlen file <=? MaxLogBytes).

(** [visit] of the caller only accepts or refuses: what it accumulates is its own. *)
Definition VerifyRecords {A} (o : opening) (file public : bytes) (nodeID : string) (epoch : Z) (visit : A -> VerifiedReceipt -> result A) (s : A)
  : result (Head * A) :=
  require valid_path o && (zlen public =? Dsse.PublicKeySize) && validText nodeID 256 && negb (epoch =? 0)
    else "connector ledger verification arguments are invalid" in
  match stat o with
  | Info regular perm =>
      require validFileInfo regular perm file else "connector ledger must be a bounded owner-only regular file" in
      require opened o && unchanged o else "connector ledger changed while opening" in
      let* (head, (_, s)) :=
        verifyFile (fun '(h, s) record => let* h := updateHistory h record in let* s := visit s record in Ok (h, s))
          (no_history, s) file public nodeID epoch in
      Ok (head, s)
  | NotExist | StatError => Err "stat connector ledger"
  end.

(** ** The open ledger *)

(** [is_open] is [file != nil]; the public key is the second half of [private]. *)
Record Log := mkLog {
  is_open : bool; private : bytes; nodeID : string; epoch : Z; keyID : string; next : Z; last_hash : string; failed : bool; reserved : Z;
  history : History; limits : Limits; tenantBytes : gmap string Z; inferenceCounts : gmap (string * string) Z }.

Definition public_of (private : bytes) : bytes := drop 32 private.

(** The owner of an inference allowance. *)
Definition inferenceOwner (e : Event) : string * string := (TenantID e, GrantID e).
Definition count_of (counts : gmap (string * string) Z) (owner : string * string) : Z := default 0 (counts !! owner).
Definition count_inference (counts : gmap (string * string) Z) (e : Event) : gmap (string * string) Z :=
  if String.eqb (Kind e) InferenceAttempt then <[inferenceOwner e := count_of counts (inferenceOwner e) + 1]> counts else counts.

(** What replaying one record does: history, usage, count, and the caller's visitor. *)
Definition replay_record (limits : Limits) (visit : VerifiedReceipt -> result unit)
    (s : History * gmap string Z * gmap (string * string) Z) (record : VerifiedReceipt)
  : result (History * gmap string Z * gmap (string * string) Z) :=
  let '(h, usage, counts) := s in
  let e := REvent (VReceipt record) in
  let* h := updateHistory h record in
  let* usage := addTenantUsage usage (TenantID e) (zlen (Raw record) + 1) limits in
  let counts := if String.eqb (Phase e) Authorize then count_inference counts e else counts in
  let* _ := visit record in
  Ok (h, usage, counts).

(** The reservations of the calls left open, which Go visits in any order. *)
Fixpoint reserve_pending (limits : Limits) (usage : gmap string Z) (reserved : Z) (events : list Event) : result (gmap string Z * Z) :=
  match events with
  | [] => Ok (usage, reserved)
  | e :: events =>
      let* usage := addTenantUsage usage (TenantID e) (pendingReservation e) limits in
      reserve_pending limits usage (reserved + pendingReservation e) events
  end.

Definition values {K V} `{Countable K} (m : gmap K V) : list V := (map_to_list m).*2.

(** [file] is the content the path has, empty when the file is created. *)
Definition OpenWithLimits (o : opening) (file private : bytes) (nodeID : string) (epoch : Z) (limits : Limits)
    (visit : VerifiedReceipt -> result unit) : result Log :=
  require valid_path o && (zlen private =? Dsse.PrivateKeySize) && validText nodeID 256 && negb (epoch =? 0)
    else "connector ledger requires a clean path, Ed25519 key, bounded node id, and positive epoch" in
  let* _ := Limits_Validate limits in
  let* _ :=
    match stat o with
    | NotExist =>
        require opened o && locked o && chmod_ok o && directory_synced o else "open connector ledger" in Ok tt
    | StatError => Err "stat connector ledger"
    | Info regular perm =>
        require validFileInfo regular perm file else "connector ledger must be a bounded owner-only regular file" in
        require opened o && locked o && unchanged o else "connector ledger changed while opening" in Ok tt
    end in
  let public := public_of private in
  let* (head, (h, usage, counts)) := verifyFile (replay_record limits visit) (no_history, ∅, ∅) file public nodeID epoch in
  let* (usage, reserved) := reserve_pending limits usage 0 (values (pending h)) in
  require sized o else "stat connector ledger" in
  require negb (MaxLogBytes <? zlen file + reserved) else "connector ledger cannot reserve remaining records for incomplete calls" in
  Ok (mkLog true private nodeID epoch (KeyID public) (u64 (HSequence head + 1)) (ChainHash head) false reserved h limits usage counts).

Definition ValidateWithLimits (o : opening) (file private : bytes) (nodeID : string) (epoch : Z) (limits : Limits) : result Head :=
  require valid_path o && (zlen private =? Dsse.PrivateKeySize) && validText nodeID 256 && negb (epoch =? 0)
    else "connector ledger requires a clean path, Ed25519 key, bounded node id, and positive epoch" in
  let* _ := Limits_Validate limits in
  let public := public_of private in
  match stat o with
  | NotExist => Ok (mkHead nodeID epoch 0 zeroHash (KeyID public))
  | StatError => Err "stat connector ledger"
  | Info _ _ =>
      let* (head, (h, usage)) :=
        VerifyRecords o file public nodeID epoch
          (fun '(h, usage) record =>
             let* h := updateHistory h record in
             let* usage := addTenantUsage usage (TenantID (REvent (VReceipt record))) (zlen (Raw record) + 1) limits in Ok (h, usage))
          (no_history, ∅) in
      let* _ := reserve_pending limits usage 0 (values (pending h)) in
      Ok head
  end.

(** ** Appending *)

Definition headLocked (l : Log) : Head :=
  mkHead (nodeID l) (epoch l) (if 0 <? next l then next l - 1 else 0) (last_hash l) (keyID l).

(** The receipt of an event at the end of the chain, and the line that carries it. *)
Definition receipt_for (l : Log) (now : Z) (e : Event) : result Receipt :=
  let coordinate := head_of (history l) e in
  if empty (TaskProtocol e) then
    Ok (mkReceipt (receipt_format e).2 (nodeID l) (epoch l) (next l) (last_hash l) (format_rfc3339nano now) e 0 "")
  else
    require negb (sequence coordinate =? maxUint64) else "connector task sequence exhausted" in
    Ok (mkReceipt (receipt_format e).2 (nodeID l) (epoch l) (next l) (last_hash l) (format_rfc3339nano now) e (sequence coordinate + 1)
          (if empty (hash coordinate) then zeroHash else hash coordinate)).

Definition signed_line (l : Log) (e : Event) (receipt : Receipt) : result bytes :=
  let payload := json_print (to_json receipt) in
  let* envelope := Dsse.Sign sign (receipt_format e).1 payload (keyID l) (private l) in
  let* raw := Dsse.Marshal envelope in
  require negb ((zlen raw =? 0) || (MaxLineBytes <? zlen raw)) else "connector receipt exceeds line limit" in
  Ok raw.

Definition poison (l : Log) : Log :=
  mkLog (is_open l) (private l) (nodeID l) (epoch l) (keyID l) (next l) (last_hash l) true (reserved l) (history l) (limits l) (tenantBytes l)
    (inferenceCounts l).

Definition set_history (l : Log) (h : History) : Log :=
  mkLog (is_open l) (private l) (nodeID l) (epoch l) (keyID l) (next l) (last_hash l) (failed l) (reserved l) h (limits l) (tenantBytes l)
    (inferenceCounts l).

Definition newline : ascii := byte_of_Z 10.

(** [appendLocked]: the file and the log afterwards. [fault] is what the system calls answer; a failing write leaves a part of the line. *)
Definition appendLocked (now : Z) (fault : append_fault) (file : bytes) (l : Log) (e : Event) (reservationDelta : Z)
  : bytes * Log * result Head :=
  if negb (is_open l) then (file, l, Err "connector ledger is closed") else
  if failed l then (file, l, Err "connector ledger requires reopen after an ambiguous write") else
  match (let* receipt := receipt_for l now e in let* raw := signed_line l e receipt in Ok (receipt, raw)) with
  | Err err => (file, l, Err err)
  | Ok (receipt, raw) =>
      if match fault with FailStat => true | _ => false end then (file, l, Err "i/o error") else
      let reserved' := reserved l + reservationDelta in
      if (reserved' <? 0) || (MaxLogBytes <? zlen file + (zlen raw + 1) + reserved') then (file, l, Err errCapacity) else
      match tenantQuota (limits l) (TenantID e) with
      | Err err => (file, l, Err err)
      | Ok quota =>
          let tenantUsage := default 0 (tenantBytes l !! TenantID e) + (zlen raw + 1) + reservationDelta in
          if (tenantUsage <? 0) || (quota <? tenantUsage) then (file, l, Err errTenantQuotaExceeded) else
          if is_new (tenantBytes l) (TenantID e) && identities_full (limits l) (tenantBytes l) then (file, l, Err errTenantIdentityCapacity) else
          let '(written, file) := append_frame fault [] (raw ++ [newline]) file in
          match written with
          | Err err => (file, poison l, Err err)
          | Ok _ =>
              let last := hashLine raw in
              let l := mkLog (is_open l) (private l) (nodeID l) (epoch l) (keyID l) (u64 (next l + 1)) last (failed l) reserved'
                         (set_head (history l) e (mkCoordinate (TaskSequence receipt) last)) (limits l)
                         (<[TenantID e := tenantUsage]> (tenantBytes l)) (inferenceCounts l) in
              (file, l, Ok (headLocked l))
          end
      end
  end.

(** ** Operations *)

Definition Append (now : Z) (fault : append_fault) (file : bytes) (l : Log) (e : Event) : bytes * Log * result Head :=
  match validateEvent e with
  | Err err => (file, l, Err err)
  | Ok _ =>
      if negb (String.eqb (Phase e) Deny) then (file, l, Err "connector authorization and terminal events require Begin and Finish")
      else appendLocked now fault file l e 0
  end.

Definition set_counts (l : Log) (counts : gmap (string * string) Z) : Log :=
  mkLog (is_open l) (private l) (nodeID l) (epoch l) (keyID l) (next l) (last_hash l) (failed l) (reserved l) (history l) (limits l)
    (tenantBytes l) counts.

Definition begin (now : Z) (fault : append_fault) (file : bytes) (l : Log) (e : Event) (maximum : Z) : bytes * Log * result Head :=
  let checks :=
    let* _ := validateEvent e in
    require String.eqb (Phase e) Authorize else "connector Begin requires an authorization event" in
    require negb (bool_decide (TaskDigest e ∈ spent (history l))) else "connector authorization task is already spent" in
    let* _ := validateRunControlOwner e (runOwners (history l)) in
    let* _ := validateInferenceScopeOwner e (pending (history l)) in
    require negb (failed l || negb (is_open l)) else "connector ledger is closed or requires reopen after an ambiguous write" in
    require negb ((0 <? maximum) && (maximum <=? count_of (inferenceCounts l) (inferenceOwner e))) else errInferenceQuotaExceeded in
    Ok tt in
  match checks with
  | Err err => (file, l, Err err)
  | Ok _ =>
      match appendLocked now fault file l e (pendingReservation e) with
      | (file, l, Err err) => (file, l, Err err)
      | (file, l, Ok head) =>
          (file, set_counts (set_history l (add_authorization (history l) e)) (count_inference (inferenceCounts l) e), Ok head)
      end
  end.

Definition Begin (now : Z) (fault : append_fault) (file : bytes) (l : Log) (e : Event) : bytes * Log * result Head :=
  begin now fault file l e 0.

Definition BeginInference (now : Z) (fault : append_fault) (file : bytes) (l : Log) (e : Event) (maximum : Z) : bytes * Log * result Head :=
  if negb (String.eqb (Kind e) InferenceAttempt) || (maximum <? 1) || (1000000 <? maximum)
  then (file, l, Err "inference allowance requires an inference event and maximum from 1 to 1000000")
  else begin now fault file l e maximum.

Definition Dispatch_ (now : Z) (fault : append_fault) (file : bytes) (l : Log) (e : Event) : bytes * Log * result Head :=
  let h := history l in
  let checks :=
    let* _ := validateEvent e in
    require String.eqb (Phase e) Dispatch else "connector Dispatch requires a dispatch event" in
    let* _ := continues h e "connector dispatch event has no matching lifecycle authorization" in
    let* _ := validateRunControlOwner e (runOwners h) in
    require negb (run_conflict h e) else errRunIDConflict in
    Ok tt in
  match checks with
  | Err err => (file, l, Err err)
  | Ok _ =>
      match appendLocked now fault file l e (- terminalReserveBytes) with
      | (file, l, Err err) => (file, l, Err err)
      | (file, l, Ok head) => (file, set_history l (add_dispatch (history l) e), Ok head)
      end
  end.

Definition Finish (now : Z) (fault : append_fault) (file : bytes) (l : Log) (e : Event) : bytes * Log * result Head :=
  let checks :=
    let* _ := validateEvent e in
    require String.eqb (Phase e) Terminal else "connector Finish requires a terminal event" in
    continues (history l) e "connector terminal event has no matching authorization" in
  match checks with
  | Err err => (file, l, Err err)
  | Ok previous =>
      match appendLocked now fault file l e (- pendingReservation previous) with
      | (file, l, Err err) => (file, l, Err err)
      | (file, l, Ok head) => (file, set_history l (add_terminal (history l) e), Ok head)
      end
  end.

Definition Pending (l : Log) : list Event := values (pending (history l)).
Definition Head_ (l : Log) : Head := headLocked l.
Definition Failed_ (l : Log) : bool := failed l.
Definition Close (l : Log) : Log :=
  mkLog false (private l) (nodeID l) (epoch l) (keyID l) (next l) (last_hash l) (failed l) (reserved l) (history l) (limits l) (tenantBytes l)
    (inferenceCounts l).

End Ed25519.

End ConnectorLedger.
