(* ===== verification/LedgerReplay.v ===== *)
(** * Replaying the connector ledger

    Lemmas and theorems on [ConnectorLedger]: a line it writes verifies again, opening the file replays exactly the state in memory, and the
    reserved space is enough to finish every call that was begun. *)

From Stdlib Require Import Ascii.
From S2P Require Import Prelude GoText GoTime GoFS GoJson GoRune GoCrypto Strict Dsse ConnectorEvent ConnectorReceipt ConnectorLedger.
Import ConnectorEvent ConnectorReceipt ConnectorLedger.

(** A lemma depends on the section hypotheses its proof uses. *)
Unset Default Proof Using.

Module LedgerReplay.

(** ** Lines *)

Definition join (ls : list bytes) : bytes := concat ((fun r => r ++ [newline]) <$> ls).
Definition one_line (r : bytes) : Prop := Forall (fun c => u8 c <> 10) r.

Lemma join_app ls ks : join (ls ++ ks) = join ls ++ join ks.
Proof. unfold join. by rewrite fmap_app, concat_app. Qed.

Lemma scan_line r rest : one_line r -> scan_lines (r ++ newline :: rest) = r :: scan_lines rest.
Proof.
  induction 1 as [|c r Hc _ IH]; [done|]. cbn [app scan_lines]. rewrite (proj2 (Z.eqb_neq _ _)) by done. by rewrite IH.
Qed.

Lemma scan_join ls : Forall one_line ls -> scan_lines (join ls) = ls.
Proof.
  induction 1 as [|r ls Hr _ IH]; [done|]. unfold join in *. rewrite fmap_cons, concat_cons, <- app_assoc. cbn [app]. by rewrite scan_line, IH.
Qed.

(** A file that ends in a newline is the lines the scanner finds. *)
Lemma join_scan file :
  match last file with Some c => u8 c =? 10 | None => true end = true -> join (scan_lines file) = file /\ Forall one_line (scan_lines file).
Proof.
  induction file as [|c file IH]; [done|]. intros Hl. cbn [scan_lines]. destruct (Z.eqb_spec (u8 c) 10) as [Hc | Hc].
  - assert (c = newline) as -> by (apply u8_inj; by rewrite Hc). destruct (decide (file = [])) as [-> | Hne]; [split; [done | by repeat constructor]|].
    rewrite last_cons in Hl. destruct (last file) as [d|] eqn:E; [|by apply last_None in E]. destruct (IH Hl) as [IHj IHo].
    split; [|by constructor; [constructor|]]. unfold join in *. by rewrite fmap_cons, concat_cons, IHj.
  - destruct (decide (file = [])) as [-> | Hne]; [cbn in Hl; by apply Z.eqb_eq in Hl|].
    rewrite last_cons in Hl. destruct (last file) as [d|] eqn:E; [|by apply last_None in E]. destruct (IH Hl) as [IHj IHo].
    destruct (scan_lines file) as [|p ps] eqn:Es; [by rewrite <- IHj in Hne|]. split.
    + unfold join in *. rewrite fmap_cons, concat_cons in *. cbn [app]. by rewrite IHj.
    + apply Forall_cons in IHo as [Hp Hps]. constructor; [by constructor | done].
Qed.

Lemma last_join ls : match last (join ls) with Some c => u8 c =? 10 | None => true end = true.
Proof.
  destruct ls as [|r ls] using rev_ind; [done|]. rewrite join_app. unfold join at 2. cbn [fmap list_fmap concat]. rewrite app_nil_r, app_assoc, last_snoc. done.
Qed.

(** ** Verification line by line *)

Section Ed25519.
Context (sign : bytes -> bytes -> bytes) (verify : bytes -> bytes -> bytes -> bool).

Lemma verify_lines_app {A} (visit : A -> VerifiedReceipt -> result A) public nodeID epoch n prev s ls ks :
  verify_lines verify visit public nodeID epoch n prev s (ls ++ ks) =
  match verify_lines verify visit public nodeID epoch n prev s ls with
  | Ok (n, prev, s) => verify_lines verify visit public nodeID epoch n prev s ks
  | Err e => Err e
  end.
Proof.
  revert n prev s. induction ls as [|l ls IH]; intros n prev s; [done|]. cbn [app verify_lines].
  destruct (verify_line _ _ _ _ _ _ _) as [record|]; [|done]. destruct (visit s record) as [s'|]; [|done]. apply IH.
Qed.

Lemma verify_lines_number {A} (visit : A -> VerifiedReceipt -> result A) public nodeID epoch n prev s ls n' prev' s' :
  verify_lines verify visit public nodeID epoch n prev s ls = Ok (n', prev', s') -> n' = n + zlen ls.
Proof.
  revert n prev s. induction ls as [|l ls IH]; intros n prev s H; cbn [verify_lines] in H.
  { injection H as <- _ _. change (zlen (@nil bytes)) with 0. lia. }
  destruct (verify_line _ _ _ _ _ _ _) as [record|]; [|done]. destruct (visit s record) as [s1|]; [|done]. apply IH in H. rewrite zlen_cons. lia.
Qed.

(** ** A line the ledger signs *)

Lemma b64_byte c l : c ∈ b64_encode l -> plain_byte (u8 c) = true.
Proof. intros Hc. destruct (Dsse.b64_encode_bytes l) as [H _]. rewrite forallb_forall in H. by apply H, list_elem_of_In. Qed.

Lemma sha256_text_digest m : digest (sha256_text m) = true.
Proof. apply sha256_digest_text. Qed.

Lemma zero_digest : digest zeroHash = true.
Proof. vm_compute. reflexivity. Qed.

Lemma digest_nonempty s : digest s = true -> empty s = false.
Proof. intros H. apply String.eqb_neq. by intros ->. Qed.

(** The key pair of the ledger; the clock reads a year of four digits. *)
Context (priv : bytes) (Hkey : Dsse.key_pair sign verify priv (public_of priv)).

Definition clock_ok (now : Z) : Prop := four_digit_year now /\ now <> 0.

Record chain_ok (l : Log) : Prop := {
  chain_private : private l = priv;
  chain_key : keyID l = KeyID (public_of priv);
  chain_node : validText (nodeID l) 256 = true;
  chain_epoch : in_u64 (epoch l) /\ epoch l <> 0;
  chain_next : 1 <= next l < 2 ^ 63;
  chain_last : digest (last_hash l) = true;
}.

Definition coordinate_ok (c : taskCoordinate) : Prop := 0 <= sequence c < 2 ^ 63 /\ (empty (hash c) = true \/ digest (hash c) = true).

Lemma clock_text now : clock_ok now -> text_ok 128 (format_rfc3339nano now).
Proof.
  intros [Hy _]. destruct (canonical_time_bytes _ _ (canonical_time_format now Hy)) as [Hl Hb]. split; [|lia].
  apply utf8_ascii, Forall_forall. intros c Hc%list_elem_of_In. unfold all_bytes in Hb. rewrite forallb_forall in Hb.
  specialize (Hb c Hc). unfold time_byte in Hb. breflect. lia.
Qed.

Lemma node_text l : chain_ok l -> text_ok 256 (nodeID l).
Proof. intros H. pose proof (chain_node l H) as Hn. unfold validText in Hn. breflect. done. Qed.

(** What the receipt for an event says. *)
Definition receipt_of (l : Log) (now : Z) (e : Event) : Receipt :=
  let c := head_of (history l) e in
  mkReceipt (receipt_format e).2 (nodeID l) (epoch l) (next l) (last_hash l) (format_rfc3339nano now) e
    (if empty (TaskProtocol e) then 0 else sequence c + 1)
    (if empty (TaskProtocol e) then ""%string else if empty (hash c) then zeroHash else hash c).

Lemma receipt_for_ok l now e : coordinate_ok (head_of (history l) e) -> receipt_for l now e = Ok (receipt_of l now e).
Proof.
  intros [Hs _]. unfold receipt_for, receipt_of. destruct (empty (TaskProtocol e)); [done|].
  rewrite (proj2 (Z.eqb_neq _ _)) by (unfold maxUint64; lia). done.
Qed.

Lemma receipt_texts l now e :
  chain_ok l -> coordinate_ok (head_of (history l) e) -> clock_ok now ->
  let r := receipt_of l now e in
  text_ok 256 (NodeID r) /\ in_u64 (Epoch r) /\ in_u64 (Sequence r) /\ in_u64 (TaskSequence r) /\ text_ok 128 (SchemaVersion r) /\
  text_ok 128 (PreviousHash r) /\ text_ok 128 (ObservedAt r) /\ text_ok 128 (PreviousTaskHash r).
Proof.
  intros Hc [Hs Hh] Hnow r. unfold r, receipt_of. cbn [NodeID Epoch Sequence TaskSequence SchemaVersion PreviousHash ObservedAt PreviousTaskHash].
  pose proof (chain_next l Hc). split_and!.
  - by apply node_text.
  - by destruct (chain_epoch l Hc).
  - unfold in_u64. lia.
  - unfold in_u64. destruct (empty (TaskProtocol e)); lia.
  - apply known_texts.
  - by apply text_digest, chain_last.
  - by apply clock_text.
  - destruct (empty (TaskProtocol e)); [split; [done | vm_compute; congruence]|].
    destruct Hh as [-> | Hd]; [apply text_digest, zero_digest|]. rewrite digest_nonempty by done. by apply text_digest.
Qed.

Lemma raw_last raw : Forall (fun c => 32 <= u8 c) raw -> drop_cr raw = raw.
Proof.
  intros H. unfold drop_cr. destruct (last raw) as [c|] eqn:E; [|done]. apply last_Some_elem_of in E. rewrite Forall_forall in H. specialize (H c E).
  rewrite (proj2 (Z.eqb_neq _ _)) by lia. done.
Qed.

Lemma format_plain e : all_bytes plain_byte (receipt_format e).1 = true /\ slen (receipt_format e).1 <= 64 /\ Dsse.valid_name (receipt_format e).1 = true
  /\ known_format (receipt_format e).1 = true.
Proof.
  unfold receipt_format. repeat match goal with |- context [if ?b then _ else _] =>
    destruct b; try (split_and!; [reflexivity | vm_compute; congruence | reflexivity | reflexivity]) end.
Qed.

Lemma digest_name s : digest s = true -> Dsse.valid_name s = true.
Proof.
  intros H. pose proof (sha256_digest_length s H) as Hl. pose proof (sha256_digest_nul s H) as Hn.
  assert (Hv : Forall (fun b => 32 < u8 b < 128) (bytes_of s)).
  { unfold digest, sha256_digest in H. breflect. rewrite (trim_prefix_app s "sha256:"), bytes_of_app by done. apply Forall_app. split.
    - repeat constructor; vm_compute; congruence.
    - unfold all_bytes in *. rewrite forallb_forall in *. apply Forall_forall. intros c Hc%list_elem_of_In.
      match goal with Hx : forall x, In x _ -> _ |- _ => specialize (Hx c Hc); unfold lower_hex_byte in Hx; apply orb_true_iff in Hx as [Hx | Hx]; breflect; lia end. }
  unfold Dsse.valid_name. rewrite (trim_space_visible s Hv), Hn, Hl, bool_decide_false; [done|]. by intros ->.
Qed.

(** The line of a receipt: it is always short enough, has no control byte, and its envelope verifies to the receipt. *)
Lemma signed_line_spec l now e :
  chain_ok l -> coordinate_ok (head_of (history l) e) -> clock_ok now -> validateEvent e = Ok tt -> event_typed e = true ->
  let r := receipt_of l now e in
  exists raw envelope, signed_line sign l e r = Ok raw /\ Forall (fun c => 32 <= u8 c) raw /\ 1 <= zlen raw <= MaxLineBytes /\
    Dsse.Parse raw = Ok envelope /\ Dsse.PayloadType envelope = (receipt_format e).1 /\
    Dsse.Verify verify raw (receipt_format e).1 {[KeyID (public_of priv) := public_of priv]} = Ok (json_print (to_json r), KeyID (public_of priv)) /\
    DecodeStrictInto (json_print (to_json r)) MaxLineBytes = Ok r.
Proof.
  intros Hc Hco Hnow Hv Ht r. destruct (receipt_texts l now e Hc Hco Hnow) as (Hnode & He & Hs & Hts & Hsv & Hph & Hob & Hpt). fold r in Hnode, He, Hs, Hts, Hsv, Hph, Hob, Hpt.
  assert (Hst : storable r = true) by (apply receipt_storable; done).
  assert (Hsz : zlen (json_print (to_json r)) <= 40000) by (apply receipt_size; done).
  destruct (format_plain e) as (Hfp & Hfl & Hfn & _). pose proof (sha256_text_digest (public_of priv)) as Hkd. fold (KeyID (public_of priv)) in Hkd.
  pose proof (sha256_digest_plain _ Hkd) as Hkp. pose proof (sha256_digest_length _ Hkd) as Hkl.
  pose proof Hkey as (Hpl & Hpub & Hsig). set (payload := json_print (to_json r)) in *.
  set (envelope := Dsse.mkEnvelope (receipt_format e).1 (b64_encode_string payload)
    (Some [Dsse.mkSignature (KeyID (public_of priv)) (b64_encode_string (sign priv (Dsse.PAE (receipt_format e).1 payload)))])).
  assert (Hsign : Dsse.Sign sign (receipt_format e).1 payload (KeyID (public_of priv)) priv = Ok envelope).
  { unfold Dsse.Sign. rewrite Hfn, (digest_name _ Hkd), (proj2 (Z.eqb_eq _ _)), (proj2 (Z.ltb_ge _ _)) by (done || (unfold Dsse.MaxPayloadBytes; change (Z.shiftl 512 10) with 524288; lia)). done. }
  assert (Hne : payload <> []) by (destruct (json_print_head (to_json r)) as (c & tl & Hp & _); [by apply receipt_json_ok | unfold payload; by rewrite Hp]).
  destruct (Dsse.signed_verifies sign verify _ _ _ _ _ {[KeyID (public_of priv) := public_of priv]} _ Hkey (lookup_singleton_eq _ _) Hne
    (plain_utf8 _ Hfp) (plain_utf8 _ Hkp) Hsign) as (Hm & Hparse & Hver & _).
  destruct (Dsse.envelope_print (receipt_format e).1 (b64_encode_string payload) (KeyID (public_of priv))
    (b64_encode_string (sign priv (Dsse.PAE (receipt_format e).1 payload)))) as [Hctl Hlen]; [done | apply Dsse.b64_string_plain | done | apply Dsse.b64_string_plain|].
  fold envelope in Hctl, Hlen. rewrite !Dsse.b64_string_len, Hkl, (proj1 (Hsig _)) in Hlen.
  change (b64_encoded_len Dsse.SignatureSize) with 88 in Hlen. pose proof (slen_nonneg (receipt_format e).1).
  assert (0 <= b64_encoded_len (zlen payload) <= 53336) as Hb.
  { pose proof (zlen_nonneg payload). split; [unfold b64_encoded_len; apply Z.mul_nonneg_nonneg; [apply Z.div_pos; lia | lia]|].
    etransitivity; [apply (Dsse.b64_encoded_len_mono _ 40000); lia | vm_compute; congruence]. }
  assert (HM : MaxLineBytes = 131072) by reflexivity.
  exists (json_print (to_json envelope)), envelope. split_and!; try done.
  - unfold signed_line. fold payload. rewrite (chain_key l Hc), (chain_private l Hc), Hsign, Hm.
    rewrite (proj2 (Z.eqb_neq _ _)), (proj2 (Z.ltb_ge _ _)) by lia. done.
  - lia.
  - lia.
  - unfold payload. rewrite <- (app_nil_r (json_print (to_json r))). apply (DecodeStrictInto_marshal (depth := 2)); [done | lia | by left|]. rewrite app_nil_r. fold payload. lia.
Qed.

(** The verifier accepts the line of a coherent event. *)
Lemma line_verifies l now e :
  chain_ok l -> coordinate_ok (head_of (history l) e) -> clock_ok now -> validateEvent e = Ok tt -> event_typed e = true -> coherent e = true ->
  exists raw, signed_line sign l e (receipt_of l now e) = Ok raw /\ Forall (fun c => 32 <= u8 c) raw /\ 1 <= zlen raw <= MaxLineBytes /\
    verify_line verify (public_of priv) (nodeID l) (epoch l) (next l) (last_hash l) raw = Ok (mkVerified (receipt_of l now e) raw (hashLine raw)).
Proof.
  intros Hc Hco Hnow Hv Ht Hcoh. destruct (signed_line_spec l now e Hc Hco Hnow Hv Ht) as (raw & envelope & Hs & Hctl & Hlen & Hp & Hty & Hver & Hdec).
  exists raw. split_and!; [done | done | lia | lia|]. destruct (format_plain e) as (_ & _ & _ & Hkn).
  unfold verify_line. rewrite (proj2 (Z.leb_le _ _)), raw_last, (proj2 (Z.eqb_neq _ _)), (proj2 (Z.ltb_ge _ _)), Hp, Hty, Hkn, Hver, String.eqb_refl, Hdec by (done || lia).
  cbn [orb negb]. unfold validateReceipt. unfold receipt_of.
  cbn [SchemaVersion NodeID Epoch Sequence PreviousHash ObservedAt REvent TaskSequence PreviousTaskHash].
  rewrite schema_format, !String.eqb_refl, !Z.eqb_refl. cbn [andb]. destruct Hnow as [Hy Hz].
  rewrite canonical_time_format by done. cbn [from_option]. unfold is_zero. rewrite (proj2 (Z.eqb_neq _ _)) by done. cbn [negb].
  rewrite format_coherent, Hcoh by done. rewrite lifecycle_format by done. destruct Hco as [Hq Hh].
  destruct (empty (TaskProtocol e)); cbn [negb andb]; [by rewrite Hv|].
  rewrite (proj2 (Z.eqb_neq _ _)) by lia. cbn [orb].
  assert (digest (if empty (hash (head_of (history l) e)) then zeroHash else hash (head_of (history l) e)) = true) as ->.
  { destruct Hh as [-> | Hd]; [apply zero_digest|]. by rewrite digest_nonempty. }
  cbn [negb]. by rewrite Hv.
Qed.

(** ** Sums over maps *)

Definition msum {K V} `{Countable K} (f : V -> Z) (m : gmap K V) : Z := zsum f (values m).

Lemma values_insert {K V} `{Countable K} (m : gmap K V) k v : m !! k = None -> values (<[k := v]> m) ≡ₚ v :: values m.
Proof. intros Hk. unfold values. by rewrite map_to_list_insert. Qed.

Lemma values_delete {K V} `{Countable K} (m : gmap K V) k v : m !! k = Some v -> values m ≡ₚ v :: values (delete k m).
Proof. intros Hk. unfold values. by rewrite <- (map_to_list_delete m k v). Qed.

Lemma msum_insert {K V} `{Countable K} f (m : gmap K V) k v : m !! k = None -> msum f (<[k := v]> m) = f v + msum f m.
Proof. intros Hk. unfold msum. by rewrite (zsum_perm f _ _ (values_insert m k v Hk)). Qed.

Lemma msum_delete {K V} `{Countable K} f (m : gmap K V) k v : m !! k = Some v -> msum f m = f v + msum f (delete k m).
Proof. intros Hk. unfold msum. by rewrite (zsum_perm f _ _ (values_delete m k v Hk)). Qed.

Lemma msum_replace {K V} `{Countable K} f (m : gmap K V) k v w : m !! k = Some v -> msum f (<[k := w]> m) = msum f m + f w - f v.
Proof.
  intros Hk. rewrite <- insert_delete_eq, msum_insert by apply lookup_delete_eq. rewrite (msum_delete f m k v Hk). lia.
Qed.

Lemma msum_nonneg {K V} `{Countable K} f (m : gmap K V) : (forall v, 0 <= f v) -> 0 <= msum f m.
Proof. intros Hf. apply zsum_nonneg. auto. Qed.

Lemma elem_of_map_values {K V} `{Countable K} (m : gmap K V) v : v ∈ values m <-> exists k, m !! k = Some v.
Proof.
  unfold values. rewrite list_elem_of_fmap. split.
  - intros ([k w] & -> & Hk). apply elem_of_map_to_list in Hk. eauto.
  - intros (k & Hk). exists (k, v). split; [done|]. by apply elem_of_map_to_list.
Qed.

(** ** Reservations *)

(** What the calls of one tenant still owe. *)
Definition owed (t : string) (e : Event) : Z := if String.eqb (TenantID e) t then pendingReservation e else 0.

Lemma reservation_pos e : terminalReserveBytes <= pendingReservation e /\ 0 < terminalReserveBytes.
Proof. unfold pendingReservation. destruct (_ && _); vm_compute; split; congruence. Qed.

Lemma owed_nonneg t e : 0 <= owed t e.
Proof. unfold owed. pose proof (reservation_pos e). destruct (String.eqb _ _); lia. Qed.

Definition within (limits : Limits) (t : string) (u : Z) : Prop := exists quota, tenantQuota limits t = Ok quota /\ u <= quota.

(** The loop of [OpenWithLimits] over the pending events, in whatever order. *)
Lemma reserve_pending_spec limits events : forall usage r,
  (forall e, e ∈ events -> is_Some (usage !! TenantID e)) ->
  (forall t u, usage !! t = Some u -> within limits t (u + zsum (owed t) events)) ->
  exists usage', reserve_pending limits usage r events = Ok (usage', r + zsum pendingReservation events) /\
    forall t, usage' !! t = (fun u => u + zsum (owed t) events) <$> usage !! t.
Proof.
  induction events as [|e events IH]; intros usage r Hin Hq.
  { exists usage. cbn [reserve_pending zsum foldr]. rewrite Z.add_0_r. split; [done|]. intros t. destruct (usage !! t); [|done]. cbn [fmap option_fmap option_map]. by rewrite Z.add_0_r. }
  destruct (Hin e) as [u Hu]; [left|]. destruct (Hq _ _ Hu) as (quota & Hquota & Hle). pose proof (reservation_pos e).
  assert (Hown : owed (TenantID e) e = pendingReservation e) by (unfold owed; by rewrite String.eqb_refl).
  pose proof (zsum_nonneg (owed (TenantID e)) events (fun x _ => owed_nonneg _ x)).
  cbn [zsum foldr] in Hle. rewrite Hown in Hle. fold (zsum (owed (TenantID e)) events) in Hle.
  cbn [reserve_pending]. unfold addTenantUsage, is_new. rewrite Hu. cbn [andb negb default from_option id]. rewrite Hquota.
  rewrite !(proj2 (Z.ltb_ge _ _)) by lia. cbn [orb negb].
  destruct (IH (<[TenantID e := u + pendingReservation e]> usage) (r + pendingReservation e)) as (usage' & Hr & Hl).
  - intros x Hx. destruct (decide (TenantID x = TenantID e)) as [-> | Hne]; [by rewrite lookup_insert_eq|]. rewrite lookup_insert_ne by done. apply Hin. by right.
  - intros t v. destruct (decide (t = TenantID e)) as [-> | Hne].
    + rewrite lookup_insert_eq. intros [= <-]. exists quota. split; [done|]. lia.
    + rewrite lookup_insert_ne by done. intros Hv. specialize (Hq _ _ Hv). cbn [zsum foldr] in Hq. unfold owed in Hq at 1.
      by rewrite (proj2 (String.eqb_neq _ _)) in Hq by done.
  - exists usage'. rewrite Hr. split; [f_equal; f_equal; cbn [zsum foldr]; unfold zsum; lia|]. intros t. rewrite Hl. cbn [zsum foldr]. fold (zsum (owed t) events).
    destruct (decide (t = TenantID e)) as [-> | Hne].
    + rewrite lookup_insert_eq, Hu. cbn [fmap option_fmap option_map]. rewrite Hown. f_equal. lia.
    + rewrite lookup_insert_ne by done. unfold owed at 2. by rewrite (proj2 (String.eqb_neq _ _)) by done.
Qed.

(** ** What an append can do *)

(** The log after a complete append. *)
Definition appended (l : Log) (e : Event) (receipt : Receipt) (raw : bytes) (delta : Z) : Log :=
  mkLog (is_open l) (private l) (nodeID l) (epoch l) (keyID l) (u64 (next l + 1)) (hashLine raw) (failed l) (reserved l + delta)
    (set_head (history l) e (mkCoordinate (TaskSequence receipt) (hashLine raw))) (limits l)
    (<[TenantID e := default 0 (tenantBytes l !! TenantID e) + (zlen raw + 1) + delta]> (tenantBytes l)) (inferenceCounts l).

(** The append had room: it wrote the line, or a part of it and poisoned the log. *)
Definition wrote (now : Z) (file : bytes) (l : Log) (e : Event) (delta : Z) (receipt : Receipt) (raw : bytes) : Prop :=
  is_open l = true /\ failed l = false /\ receipt_for l now e = Ok receipt /\ signed_line sign l e receipt = Ok raw /\
  0 <= reserved l + delta /\ zlen file + (zlen raw + 1) + (reserved l + delta) <= MaxLogBytes /\
  within (limits l) (TenantID e) (default 0 (tenantBytes l !! TenantID e) + (zlen raw + 1) + delta) /\
  is_new (tenantBytes l) (TenantID e) && identities_full (limits l) (tenantBytes l) = false.

Lemma appendLocked_cases now fault file l e delta file' l' res :
  appendLocked sign now fault file l e delta = (file', l', res) ->
  (file' = file /\ l' = l /\ exists err, res = Err err) \/
  exists receipt raw, wrote now file l e delta receipt raw /\
    ((fault = AppendOk /\ file' = file ++ raw ++ [newline] /\ l' = appended l e receipt raw delta /\ res = Ok (headLocked l')) \/
     (l' = poison l /\ (exists err, res = Err err) /\ exists k, file' = file ++ take k (raw ++ [newline]))).
Proof.
  unfold appendLocked. intros H.
  assert (Hleft : forall err, (file, l, Err err) = (file', l', res) -> file' = file /\ l' = l /\ exists err, res = Err err) by (intros err [= <- <- <-]; eauto).
  destruct (is_open l) eqn:Eo; cbn [negb] in H; [|left; by eapply Hleft]. destruct (failed l) eqn:Ef; [left; by eapply Hleft|].
  destruct (receipt_for l now e) as [receipt|err] eqn:Er; [|left; by eapply Hleft].
  destruct (signed_line sign l e receipt) as [raw|err] eqn:Es; [|left; by eapply Hleft].
  destruct (match fault with FailStat => true | _ => false end) eqn:Est; [left; by eapply Hleft|].
  destruct (_ || _) eqn:Ec in H; [left; by eapply Hleft|]. destruct (tenantQuota _ _) as [quota|err] eqn:Eq; [|left; by eapply Hleft].
  destruct (_ || _) eqn:Eu in H; [left; by eapply Hleft|]. destruct (_ && _) eqn:Ei in H; [left; by eapply Hleft|]. clear Hleft.
  apply orb_false_iff in Ec as [Ec1 Ec2], Eu as [Eu1 Eu2]. apply Z.ltb_ge in Ec1, Ec2, Eu1, Eu2. right. exists receipt, raw. split.
  { unfold wrote. split_and!; try done. exists quota. split; [done | lia]. }
  unfold append_frame in H. destruct fault; try discriminate Est.
  - left. injection H as <- <- <-. cbn [app]. unfold appended. by rewrite Eo, Ef.
  - right. injection H as <- <- <-. rewrite take_nil, app_nil_r. split; [done|]. split; [eauto|]. exists 0%nat. by rewrite take_0, app_nil_r.
  - right. injection H as <- <- <-. cbn [app]. eauto.
  - right. injection H as <- <- <-. cbn [app]. split; [done|]. split; [eauto|]. exists (length (raw ++ [newline])). by rewrite firstn_all.
Qed.

(** With room and no fault the line is written. *)
Lemma appendLocked_room now file l e delta receipt raw :
  wrote now file l e delta receipt raw -> 0 <= default 0 (tenantBytes l !! TenantID e) + (zlen raw + 1) + delta ->
  appendLocked sign now AppendOk file l e delta = (file ++ raw ++ [newline], appended l e receipt raw delta, Ok (headLocked (appended l e receipt raw delta))).
Proof.
  intros (Eo & Ef & Er & Es & H1 & H2 & (quota & Eq & Hle) & Ei) Hpos. unfold appendLocked. rewrite Eo, Ef, Er, Es, Eq, Ei. cbn [negb].
  rewrite (proj2 (Z.ltb_ge (reserved l + delta) 0)), (proj2 (Z.ltb_ge MaxLogBytes _)) by lia. cbn [orb].
  rewrite (proj2 (Z.ltb_ge _ 0)), (proj2 (Z.ltb_ge quota _)) by lia. cbn [orb append_frame app]. unfold appended. by rewrite Eo, Ef.
Qed.

(** ** The invariant of an open ledger *)

(** A visitor that accepts. *)
Context (visit : VerifiedReceipt -> result unit) (Hvisit : forall r, visit r = Ok tt).

Record history_ok (n : Z) (h : History) : Prop := {
  pending_spent k e : pending h !! k = Some e ->
    TaskDigest e = k /\ k ∈ spent h /\ (empty (TaskProtocol e) = false -> is_Some (taskHeads h !! k));
  heads_spent k c : taskHeads h !! k = Some c -> k ∈ spent h /\ 1 <= sequence c <= n /\ digest (hash c) = true;
}.

Definition replayed (l : Log) (ls : list bytes) (usage : gmap string Z) : Prop :=
  verify_lines verify (replay_record (limits l) visit) (public_of priv) (nodeID l) (epoch l) 0 zeroHash (no_history, ∅, ∅) ls
  = Ok (next l - 1, last_hash l, (history l, usage, inferenceCounts l)).

(** [ls] are the lines of the file and [usage] the bytes each tenant has in it. *)
Record ledger_inv (file : bytes) (l : Log) (ls : list bytes) (usage : gmap string Z) : Prop := {
  inv_chain : chain_ok l;
  inv_limits : Limits_Validate (limits l) = Ok tt;
  inv_file : file = join ls;
  inv_lines : Forall one_line ls;
  inv_replay : replayed l ls usage;
  inv_tenants t : tenantBytes l !! t = (fun u => u + msum (owed t) (pending (history l))) <$> usage !! t;
  inv_owner k e : pending (history l) !! k = Some e -> is_Some (usage !! TenantID e);
  inv_reserved : reserved l = msum pendingReservation (pending (history l));
  inv_capacity : zlen file + reserved l <= MaxLogBytes;
  inv_quota t u : tenantBytes l !! t = Some u -> within (limits l) t u;
  inv_history : history_ok (next l - 1) (history l);
}.

Lemma head_coordinate n h e : n < 2 ^ 63 -> history_ok n h -> coordinate_ok (head_of h e).
Proof.
  intros Hn Hh. unfold head_of. destruct (taskHeads h !! TaskDigest e) as [c|] eqn:E; cbn [default from_option id].
  - destruct (heads_spent _ _ Hh _ _ E) as (_ & ? & ?). split; [lia | by right].
  - split; [cbn; lia | by left].
Qed.

Lemma join_length ls : zlen ls <= zlen (join ls).
Proof.
  unfold join. induction ls as [|r ls IH]; [done|]. rewrite fmap_cons, concat_cons, zlen_cons, !zlen_app. change (zlen [newline]) with 1.
  pose proof (zlen_nonneg r). lia.
Qed.

Lemma dom_size (m k : gmap string Z) (f : string -> Z -> Z) : (forall t, m !! t = f t <$> k !! t) -> size m = size k /\ forall t, is_new m t = is_new k t.
Proof.
  intros H. split.
  - rewrite <- !size_dom. f_equal. apply set_eq. intros t. rewrite !elem_of_dom, H. by rewrite fmap_is_Some.
  - intros t. unfold is_new. rewrite H. by destruct (k !! t).
Qed.

Lemma zsum_zero {A} (f : A -> Z) l : (forall x, x ∈ l -> f x = 0) -> zsum f l = 0.
Proof.
  intros H. induction l as [|x l IH]; [done|]. cbn [zsum foldr]. fold (zsum f l). rewrite (H x), IH; [done | intros y Hy; apply H; by right | left].
Qed.

(** A tenant's bytes in memory are those of its lines and of its reservations. *)
Lemma tenant_total file l ls usage t :
  ledger_inv file l ls usage -> default 0 (tenantBytes l !! t) = default 0 (usage !! t) + msum (owed t) (pending (history l)).
Proof.
  intros H. rewrite (inv_tenants _ _ _ _ H). destruct (usage !! t) as [u|] eqn:E; [done|]. cbn [fmap option_fmap option_map default from_option id].
  symmetry. apply zsum_zero. intros e He. apply elem_of_map_values in He as (k & Hk). destruct (inv_owner _ _ _ _ H k e Hk) as [u Hu].
  unfold owed. destruct (String.eqb_spec (TenantID e) t) as [Ht |]; [|done]. congruence.
Qed.

Definition counts_after (l : Log) (e : Event) : gmap (string * string) Z :=
  if String.eqb (Phase e) Authorize then count_inference (inferenceCounts l) e else inferenceCounts l.

(** The log after an operation: appended, with the history and counts the operation leaves. *)
Definition stepped (l : Log) (e : Event) (receipt : Receipt) (raw : bytes) (delta : Z) (h : History) : Log :=
  set_counts (set_history (appended l e receipt raw delta) h) (counts_after l e).

(** How the pending calls change: only [e]'s tenant owes [delta] more. *)
Definition owes (l : Log) (usage : gmap string Z) (e : Event) (delta : Z) (h : History) : Prop :=
  (forall t, msum (owed t) (pending h) = msum (owed t) (pending (history l)) + if String.eqb (TenantID e) t then delta else 0) /\
  msum pendingReservation (pending h) = msum pendingReservation (pending (history l)) + delta /\
  (forall k x, pending h !! k = Some x -> TenantID x = TenantID e \/ is_Some (usage !! TenantID x)).

Lemma append_step file l ls usage now e delta raw h :
  ledger_inv file l ls usage -> clock_ok now -> validateEvent e = Ok tt -> event_typed e = true -> coherent e = true ->
  wrote now file l e delta (receipt_of l now e) raw ->
  updateHistory (history l) (mkVerified (receipt_of l now e) raw (hashLine raw)) = Ok h ->
  owes l usage e delta h -> history_ok (next l) h ->
  exists usage', ledger_inv (file ++ raw ++ [newline]) (stepped l e (receipt_of l now e) raw delta h) (ls ++ [raw]) usage'.
Proof.
  intros Hi Hnow Hv Ht Hcoh (Ho & Hf & Hr & Hs & Hres & Hcap & (quota & Hq & Hle) & Hnew) Hup (Howe & Htot & Howner) Hh.
  pose proof (inv_chain _ _ _ _ Hi) as Hc. pose proof (chain_next l Hc) as Hn.
  assert (Hco : coordinate_ok (head_of (history l) e)) by (eapply (head_coordinate (next l - 1)); [lia | apply (inv_history _ _ _ _ Hi)]).
  destruct (line_verifies l now e Hc Hco Hnow Hv Ht Hcoh) as (raw' & Hs' & Hctl & Hlen & Hver). rewrite Hs in Hs'. injection Hs' as <-.
  pose proof (inv_replay _ _ _ _ Hi) as Hrep. unfold replayed in Hrep. pose proof (verify_lines_number _ _ _ _ _ _ _ _ _ _ _ Hrep) as Hnum.
  assert (Hone : one_line raw) by (eapply Forall_impl; [exact Hctl|]; simpl; lia).
  assert (Hjoin : file ++ raw ++ [newline] = join (ls ++ [raw])).
  { rewrite join_app, (inv_file _ _ _ _ Hi). unfold join at 3. cbn [fmap list_fmap concat]. by rewrite app_nil_r. }
  assert (Hnext : u64 (next l + 1) = next l + 1) by (apply u64_small; unfold in_u64; lia).
  pose proof (tenant_total _ _ _ _ (TenantID e) Hi) as Htt.
  destruct (dom_size _ _ (fun t u => u + msum (owed t) (pending (history l))) (inv_tenants _ _ _ _ Hi)) as [Hsize Hisnew].
  assert (Hpos : forall t, 0 <= msum (owed t) (pending h)) by (intros t; apply msum_nonneg, owed_nonneg).
  pose proof (Hpos (TenantID e)) as Hpe. rewrite (Howe (TenantID e)), String.eqb_refl in Hpe.
  set (usage' := <[TenantID e := default 0 (usage !! TenantID e) + (zlen raw + 1)]> usage).
  assert (Hadd : addTenantUsage usage (TenantID e) (zlen raw + 1) (limits l) = Ok usage').
  { unfold addTenantUsage. rewrite <- Hisnew. unfold identities_full in *. rewrite <- Hsize, Hnew, Hq. cbn [negb].
    rewrite !(proj2 (Z.ltb_ge _ _)) by lia. done. }
  exists usage'. split; unfold stepped, appended, set_history, set_counts;
    cbn [limits nodeID epoch private keyID next last_hash history tenantBytes reserved inferenceCounts].
  - destruct Hc as [H1 H2 H3 H4 H5 H6]. split; cbn [limits nodeID epoch private keyID next last_hash]; try done; [|apply sha256_text_digest].
    rewrite Hnext. pose proof (join_length (ls ++ [raw])) as Hj. rewrite <- Hjoin in Hj. rewrite zlen_app in Hj. change (zlen [raw]) with 1 in Hj.
    rewrite !zlen_app in Hj. change (zlen [newline]) with 1 in Hj. assert (MaxLogBytes = 67108864) by reflexivity. lia.
  - apply (inv_limits _ _ _ _ Hi).
  - done.
  - apply Forall_app. split; [apply (inv_lines _ _ _ _ Hi) | by constructor].
  - unfold replayed. cbn [limits nodeID epoch next last_hash history inferenceCounts]. rewrite verify_lines_app, Hrep. cbn [verify_lines].
    replace (next l - 1 + 1) with (next l) by lia. rewrite Hver. cbn [replay_record VReceipt Raw Hash].
    change (REvent (receipt_of l now e)) with e. rewrite Hup, Hadd, Hvisit. rewrite Hnext. unfold counts_after.
    replace (next l + 1 - 1) with (next l) by lia. done.
  - intros t. unfold usage'. destruct (decide (t = TenantID e)) as [-> | Hne].
    + rewrite !lookup_insert_eq. cbn [fmap option_fmap option_map]. rewrite Htt, (Howe (TenantID e)), String.eqb_refl. f_equal. lia.
    + rewrite !lookup_insert_ne by done. rewrite (inv_tenants _ _ _ _ Hi), (Howe t), (proj2 (String.eqb_neq _ _)), Z.add_0_r by done. done.
  - intros k x Hx. unfold usage'. destruct (Howner k x Hx) as [-> | Hin]; [by rewrite lookup_insert_eq|].
    destruct (decide (TenantID x = TenantID e)) as [-> | Hne]; [by rewrite lookup_insert_eq | by rewrite lookup_insert_ne].
  - rewrite Htot. by rewrite (inv_reserved _ _ _ _ Hi).
  - rewrite !zlen_app. change (zlen [newline]) with 1. lia.
  - intros t u. destruct (decide (t = TenantID e)) as [-> | Hne].
    + rewrite lookup_insert_eq. intros [= <-]. by exists quota.
    + rewrite lookup_insert_ne by done. apply (inv_quota _ _ _ _ Hi).
  - rewrite Hnext. by replace (next l + 1 - 1) with (next l) by lia.
Qed.

(** ** The histories the operations leave *)

Lemma transition_inv previous e : validateTransition previous e = Ok tt ->
  TenantID previous = TenantID e /\ TaskProtocol previous = TaskProtocol e /\ GrantID previous = GrantID e /\ Kind previous = Kind e /\
  (Phase e = Dispatch -> empty (TaskProtocol e) = false -> Phase previous = Authorize).
Proof.
  unfold validateTransition, sameCall. intros H. destruct (_ && _) eqn:E in H; [|done]. breflect.
  repeat match goal with Hx : String.eqb _ _ = true |- _ => apply String.eqb_eq in Hx end. split_and!; try done.
  intros Hp Hne. assert (Htp : TaskProtocol previous = TaskProtocol e) by done. rewrite Htp, Hne in H. destruct (_ || _) eqn:Ex in H; [|done]. apply orb_true_iff in Ex as [Ex | Ex]; breflect;
    repeat match goal with Hx : String.eqb _ _ = true |- _ => apply String.eqb_eq in Hx end; [done|].
  match goal with Hx : Phase e = Terminal |- _ => rewrite Hp in Hx; discriminate Hx end.
Qed.

Lemma deny_protocol e : validateEvent e = Ok tt -> Phase e = Deny -> empty (TaskProtocol e) = true.
Proof.
  intros H Hp. destruct (kind_fields e H) as [(_ & _ & _ & -> & _) | [(_ & _ & ->) | [(_ & -> & _) | (K & _ & P)]]]; try done.
  destruct P as [-> | P]; [done|]. apply validateEvent_inv in H as (_ & _ & _ & _ & _ & _ & Hk & _). unfold validate_kind in Hk. rewrite K in Hk.
  change (validate_service e = Ok tt) in Hk. unfold validate_service, validate_lifecycle in Hk. rewrite P, Hp in Hk. cbn in Hk. by destruct (negb _) in Hk.
Qed.

Lemma dispatch_protocol e : validateEvent e = Ok tt -> Phase e = Dispatch -> TaskProtocol e = TaskProtocolLifecycleV1.
Proof.
  intros H Hp. apply validateEvent_inv in H as (_ & _ & _ & _ & _ & _ & _ & Hph). unfold validate_phase in Hph. rewrite Hp in Hph.
  cbn -[negb orb String.eqb] in Hph. change (String.eqb Dispatch Authorize) with false in Hph. change (String.eqb Dispatch Deny) with false in Hph.
  change (String.eqb Dispatch Dispatch) with true in Hph. cbn iota in Hph. destruct (negb _) eqn:E in Hph; [|done]. breflect. by apply String.eqb_eq.
Qed.

Lemma continues_inv h e err previous :
  continues h e err = Ok previous -> pending h !! TaskDigest e = Some previous /\ validateTransition previous e = Ok tt.
Proof.
  unfold continues. destruct (pending h !! TaskDigest e) as [p|]; [|done]. destruct (validateTransition p e) as [[]|] eqn:E; [|done]. by intros [= <-].
Qed.

Lemma set_head_fields h e c : pending (set_head h e c) = pending h /\ spent (set_head h e c) = spent h /\ runOwners (set_head h e c) = runOwners h.
Proof. unfold set_head. by destruct (empty (TaskProtocol e)). Qed.

Lemma set_head_lookup h e c k : taskHeads (set_head h e c) !! k =
  if empty (TaskProtocol e) then taskHeads h !! k else if decide (TaskDigest e = k) then Some c else taskHeads h !! k.
Proof.
  unfold set_head. destruct (empty (TaskProtocol e)); [done|]. cbn [taskHeads]. destruct (decide _) as [<- | Hne]; [by rewrite lookup_insert_eq | by rewrite lookup_insert_ne].
Qed.

(** The coordinates in a receipt are the ones the verifier expects. *)
Lemma coordinate_first l now e raw h : taskHeads (history l) !! TaskDigest e = None ->
  validateTaskCoordinate (mkVerified (receipt_of l now e) raw h) (head_of (history l) e) true = Ok tt.
Proof.
  intros Hn. unfold validateTaskCoordinate, receipt_of, head_of. rewrite Hn. cbn [VReceipt REvent TaskSequence PreviousTaskHash].
  destruct (empty (TaskProtocol e)); [done|]. reflexivity.
Qed.

Lemma coordinate_next l now e raw h c n : taskHeads (history l) !! TaskDigest e = Some c -> history_ok n (history l) -> n < 2 ^ 63 ->
  validateTaskCoordinate (mkVerified (receipt_of l now e) raw h) (head_of (history l) e) false = Ok tt.
Proof.
  intros Hc Hh Hn. destruct (heads_spent _ _ Hh _ _ Hc) as (_ & Hs & Hd). unfold validateTaskCoordinate, receipt_of, head_of. rewrite Hc.
  cbn [VReceipt REvent TaskSequence PreviousTaskHash default from_option id]. destruct (empty (TaskProtocol e)); [done|].
  rewrite digest_nonempty, (proj2 (Z.eqb_neq _ _)) by (done || lia). cbn [orb negb]. rewrite u64_small by (unfold in_u64; lia).
  by rewrite Z.eqb_refl, String.eqb_refl.
Qed.

Lemma history_after n h h1 e s raw :
  history_ok n h -> 0 <= n ->
  (forall k x, pending h1 !! k = Some x -> (k = TaskDigest e /\ x = e) \/ pending h !! k = Some x) ->
  taskHeads h1 = taskHeads h -> spent h ⊆ spent h1 -> TaskDigest e ∈ spent h1 -> (empty (TaskProtocol e) = false -> 1 <= s <= n + 1) ->
  history_ok (n + 1) (set_head h1 e (mkCoordinate s (hashLine raw))).
Proof.
  clear Hkey Hvisit sign verify priv visit. intros Hh Hn Hp Ht Hs He Hq. destruct (set_head_fields h1 e (mkCoordinate s (hashLine raw))) as (Hpe & Hse & _). split.
  - intros k x. rewrite Hpe, Hse, set_head_lookup. intros Hx. destruct (Hp k x Hx) as [[-> ->] | Hold].
    + split_and!; [done | done|]. intros ->. by rewrite decide_True.
    + destruct (pending_spent _ _ Hh _ _ Hold) as (<- & Hsp & Hhd). split_and!; [done | set_solver|]. intros Hne. rewrite Ht.
      destruct (empty (TaskProtocol e)); [auto|]. destruct (decide _); [done | auto].
  - intros k c. rewrite Hse, set_head_lookup, Ht. destruct (empty (TaskProtocol e)) eqn:Ee.
    + intros Hc. destruct (heads_spent _ _ Hh _ _ Hc) as (? & ? & ?). split_and!; [set_solver | lia | lia | done].
    + destruct (decide _) as [<- | Hne].
      * intros [= <-]. cbn [sequence hash]. specialize (Hq eq_refl). split_and!; [done | lia | lia | apply sha256_text_digest].
      * intros Hc. destruct (heads_spent _ _ Hh _ _ Hc) as (? & ? & ?). split_and!; [set_solver | lia | lia | done].
Qed.

Section operations.
Context (file : bytes) (l : Log) (ls : list bytes) (usage : gmap string Z) (Hi : ledger_inv file l ls usage).
Context (now : Z) (e : Event) (raw : bytes).
Let h := history l.
Let record := mkVerified (receipt_of l now e) raw (hashLine raw).
Let head := mkCoordinate (TaskSequence (receipt_of l now e)) (hashLine raw).

Lemma sequence_after : empty (TaskProtocol e) = false -> 1 <= TaskSequence (receipt_of l now e) <= next l - 1 + 1.
Proof.
  intros He. unfold receipt_of. cbn [TaskSequence]. rewrite He. pose proof (chain_next l (inv_chain _ _ _ _ Hi)). unfold head_of.
  destruct (taskHeads (history l) !! TaskDigest e) as [c|] eqn:Ec; cbn [default from_option id]; [|cbn; lia].
  destruct (heads_spent _ _ (inv_history _ _ _ _ Hi) _ _ Ec) as (_ & ? & _). lia.
Qed.

Lemma next_history h1 :
  (forall k x, pending h1 !! k = Some x -> (k = TaskDigest e /\ x = e) \/ pending h !! k = Some x) ->
  taskHeads h1 = taskHeads h -> spent h ⊆ spent h1 -> TaskDigest e ∈ spent h1 -> history_ok (next l) (set_head h1 e head).
Proof.
  intros Hp Ht Hs He. pose proof (chain_next l (inv_chain _ _ _ _ Hi)). replace (next l) with (next l - 1 + 1) by lia.
  eapply history_after; [apply (inv_history _ _ _ _ Hi) | lia | exact Hp | exact Ht | exact Hs | exact He | apply sequence_after].
Qed.

Lemma deny_history : validateEvent e = Ok tt -> Phase e = Deny ->
  updateHistory h record = Ok h /\ owes l usage e 0 h /\ history_ok (next l) h.
Proof.
  intros Hv Hp. pose proof (deny_protocol e Hv Hp) as Hd. unfold updateHistory. change (REvent (VReceipt record)) with e. rewrite Hp.
  change (String.eqb Deny Authorize) with false. change (String.eqb Deny Dispatch) with false. change (String.eqb Deny Terminal) with false.
  unfold set_head. rewrite Hd. split_and!; [done| |].
  - split_and!; [intros t; destruct (String.eqb _ _); unfold h; lia | unfold h; lia|]. intros k x Hx. right. by eapply inv_owner.
  - destruct (inv_history _ _ _ _ Hi) as [H1 H2]. split; [done|]. intros k c Hc. destruct (H2 k c Hc) as (? & ? & ?). split_and!; done || lia.
Qed.

Lemma authorize_history : validateEvent e = Ok tt -> Phase e = Authorize -> TaskDigest e ∉ spent h ->
  validateRunControlOwner e (runOwners h) = Ok tt -> validateInferenceScopeOwner e (pending h) = Ok tt ->
  let h' := set_head (add_authorization h e) e head in
  updateHistory h record = Ok h' /\ owes l usage e (pendingReservation e) h' /\ history_ok (next l) h'.
Proof.
  clear Hkey Hvisit sign. intros Hv Hp Hns Hro Hsc h'. pose proof (inv_history _ _ _ _ Hi) as Hh. fold h in Hh.
  assert (Hnp : pending h !! TaskDigest e = None).
  { destruct (pending h !! TaskDigest e) as [x|] eqn:Ex; [|done]. by destruct (pending_spent _ _ Hh _ _ Ex) as (_ & ? & _). }
  assert (Hnt : taskHeads h !! TaskDigest e = None).
  { destruct (taskHeads h !! TaskDigest e) as [x|] eqn:Ex; [|done]. by destruct (heads_spent _ _ Hh _ _ Ex) as (? & _). }
  destruct (set_head_fields (add_authorization h e) e head) as (Hpe & _ & _). split_and!.
  - unfold updateHistory. change (REvent (VReceipt record)) with e. rewrite Hp. change (String.eqb Authorize Authorize) with true.
    rewrite bool_decide_false by done. unfold record, h. rewrite coordinate_first by done. fold h. by rewrite Hro, Hsc.
  - unfold owes. unfold h'. rewrite Hpe. cbn [add_authorization pending]. fold h. split_and!.
    + intros t. rewrite msum_insert by done. unfold owed at 1. destruct (String.eqb _ _); lia.
    + rewrite msum_insert by done. lia.
    + intros k x. destruct (decide (TaskDigest e = k)) as [<- | Hne]; [rewrite lookup_insert_eq; intros [= <-]; by left|].
      rewrite lookup_insert_ne by done. intros Hx. right. by eapply inv_owner.
  - apply next_history; [|done | cbn [add_authorization spent]; set_solver..]. cbn [add_authorization pending]. intros k x.
    destruct (decide (TaskDigest e = k)) as [<- | Hne]; [rewrite lookup_insert_eq; intros [= <-]; by left|]. rewrite lookup_insert_ne by done. by right.
Qed.

Lemma continued err previous : continues h e err = Ok previous ->
  pending h !! TaskDigest e = Some previous /\ TenantID previous = TenantID e /\ TaskDigest e ∈ spent h /\
  validateTaskCoordinate record (head_of h e) false = Ok tt.
Proof.
  intros Hc. apply continues_inv in Hc as [Hp Htr]. destruct (transition_inv _ _ Htr) as (Hten & Hpr & _).
  pose proof (inv_history _ _ _ _ Hi) as Hh. fold h in Hh. destruct (pending_spent _ _ Hh _ _ Hp) as (_ & Hsp & Hhd). split_and!; try done.
  unfold validateTaskCoordinate. change (REvent (VReceipt record)) with e. destruct (empty (TaskProtocol e)) eqn:Ee; [done|].
  rewrite Hpr in Hhd. destruct (Hhd Ee) as [c Hcc]. pose proof (chain_next l (inv_chain _ _ _ _ Hi)).
  pose proof (coordinate_next l now e raw (hashLine raw) c (next l - 1) Hcc Hh ltac:(lia)) as Hco. unfold validateTaskCoordinate in Hco.
  fold record in Hco. change (REvent (VReceipt record)) with e in Hco. by rewrite Ee in Hco.
Qed.

Lemma dispatch_history err previous : validateEvent e = Ok tt -> Phase e = Dispatch -> continues h e err = Ok previous ->
  validateRunControlOwner e (runOwners h) = Ok tt -> run_conflict h e = false ->
  let h' := set_head (add_dispatch h e) e head in
  updateHistory h record = Ok h' /\ owes l usage e (- terminalReserveBytes) h' /\ history_ok (next l) h'.
Proof.
  clear Hkey Hvisit sign. intros Hv Hp Hco Hro Hrc h'. destruct (continued err previous Hco) as (Hpend & Hten & Hsp & Hcoord). apply continues_inv in Hco as [_ Htr].
  destruct (transition_inv _ _ Htr) as (_ & Hpr & _ & _ & Hph). pose proof (dispatch_protocol e Hv Hp) as Hlife.
  specialize (Hph Hp ltac:(by rewrite Hlife)). destruct (set_head_fields (add_dispatch h e) e head) as (Hpe & _ & _).
  assert (Hr1 : pendingReservation previous = 2 * terminalReserveBytes) by (unfold pendingReservation; by rewrite Hpr, Hlife, Hph).
  assert (Hr2 : pendingReservation e = terminalReserveBytes) by (unfold pendingReservation; by rewrite Hlife, Hp).
  split_and!.
  - unfold updateHistory. change (REvent (VReceipt record)) with e. rewrite Hp. change (String.eqb Dispatch Authorize) with false.
    change (String.eqb Dispatch Dispatch) with true. unfold continues. rewrite Hpend, Htr, Hcoord, Hro, Hrc. done.
  - unfold owes. unfold h'. rewrite Hpe. cbn [add_dispatch pending]. fold h. split_and!.
    + intros t. rewrite (msum_replace _ _ _ previous) by done. unfold owed at 2 3. rewrite Hten, Hr1, Hr2. destruct (String.eqb _ _); lia.
    + rewrite (msum_replace _ _ _ previous) by done. lia.
    + intros k x. destruct (decide (TaskDigest e = k)) as [<- | Hne]; [rewrite lookup_insert_eq; intros [= <-]; by left|].
      rewrite lookup_insert_ne by done. intros Hx. right. by eapply inv_owner.
  - apply next_history; [|done | cbn [add_dispatch spent]; set_solver..]. cbn [add_dispatch pending]. intros k x.
    destruct (decide (TaskDigest e = k)) as [<- | Hne]; [rewrite lookup_insert_eq; intros [= <-]; by left|]. rewrite lookup_insert_ne by done. by right.
Qed.

Lemma finish_history err previous : Phase e = Terminal -> continues h e err = Ok previous ->
  let h' := set_head (add_terminal h e) e head in
  updateHistory h record = Ok h' /\ owes l usage e (- pendingReservation previous) h' /\ history_ok (next l) h'.
Proof.
  intros Hp Hco h'. destruct (continued err previous Hco) as (Hpend & Hten & Hsp & Hcoord). apply continues_inv in Hco as [_ Htr].
  destruct (set_head_fields (add_terminal h e) e head) as (Hpe & _ & _). split_and!.
  - unfold updateHistory. change (REvent (VReceipt record)) with e. rewrite Hp. change (String.eqb Terminal Authorize) with false.
    change (String.eqb Terminal Dispatch) with false. change (String.eqb Terminal Terminal) with true. unfold continues. rewrite Hpend, Htr, Hcoord. done.
  - unfold owes. unfold h'. rewrite Hpe. cbn [add_terminal pending]. fold h. split_and!.
    + intros t. rewrite (msum_delete _ (pending h) _ previous) by done. unfold owed at 2. rewrite Hten. destruct (String.eqb _ _); lia.
    + rewrite (msum_delete _ (pending h) _ previous) by done. lia.
    + intros k x Hx. apply lookup_delete_Some in Hx as [_ Hx]. right. by eapply inv_owner.
  - apply next_history; [|done | done | done]. cbn [add_terminal pending]. intros k x Hx. apply lookup_delete_Some in Hx as [_ Hx]. by right.
Qed.

End operations.

(** ** Calls *)

Inductive operation := OpAppend | OpBegin | OpBeginInference (maximum : Z) | OpDispatch | OpFinish.
Record call := mkCall { op : operation; at_time : Z; fault : append_fault; event : Event }.

Definition run_call (file : bytes) (l : Log) (c : call) : bytes * Log * result Head :=
  match op c with
  | OpAppend => Append sign (at_time c) (fault c) file l (event c)
  | OpBegin => Begin sign (at_time c) (fault c) file l (event c)
  | OpBeginInference maximum => BeginInference sign (at_time c) (fault c) file l (event c) maximum
  | OpDispatch => Dispatch_ sign (at_time c) (fault c) file l (event c)
  | OpFinish => Finish sign (at_time c) (fault c) file l (event c)
  end.

Definition call_ok (c : call) : Prop := clock_ok (at_time c) /\ event_typed (event c) = true /\ coherent (event c) = true.

Lemma set_head_authorization h e c : add_authorization (set_head h e c) e = set_head (add_authorization h e) e c.
Proof. unfold set_head. by destruct (empty (TaskProtocol e)). Qed.
Lemma set_head_dispatch h e c : add_dispatch (set_head h e c) e = set_head (add_dispatch h e) e c.
Proof. unfold set_head, add_dispatch. by destruct (empty (TaskProtocol e)). Qed.
Lemma set_head_terminal h e c : add_terminal (set_head h e c) e = set_head (add_terminal h e) e c.
Proof. unfold set_head. by destruct (empty (TaskProtocol e)). Qed.

(** What one call does to a ledger in its invariant: nothing; or it appends one line, completely, or in part and poisons the log. *)
Definition called (file : bytes) (l : Log) (c : call) (file' : bytes) (l' : Log) (res : result Head) : Prop :=
  (file' = file /\ l' = l /\ exists err, res = Err err) \/
  exists raw delta h,
    let receipt := receipt_of l (at_time c) (event c) in
    let l1 := stepped l (event c) receipt raw delta h in
    validateEvent (event c) = Ok tt /\
    wrote (at_time c) file l (event c) delta receipt raw /\
    updateHistory (history l) (mkVerified receipt raw (hashLine raw)) = Ok h /\
    (forall usage ls, ledger_inv file l ls usage -> owes l usage (event c) delta h /\ history_ok (next l) h) /\
    ((fault c = AppendOk /\ file' = file ++ raw ++ [newline] /\ l' = l1 /\ exists head, res = Ok head) \/
     (l' = poison l /\ (exists err, res = Err err) /\ exists k, file' = file ++ take k (raw ++ [newline]))).

Lemma called_append file l c ls usage delta file' l1 res :
  ledger_inv file l ls usage -> appendLocked sign (at_time c) (fault c) file l (event c) delta = (file', l1, res) ->
  (file' = file /\ l1 = l /\ exists err, res = Err err) \/
  exists raw, wrote (at_time c) file l (event c) delta (receipt_of l (at_time c) (event c)) raw /\
    ((fault c = AppendOk /\ file' = file ++ raw ++ [newline] /\ l1 = appended l (event c) (receipt_of l (at_time c) (event c)) raw delta /\ res = Ok (headLocked l1)) \/
     (l1 = poison l /\ (exists err, res = Err err) /\ exists k, file' = file ++ take k (raw ++ [newline]))).
Proof.
  intros Hi H. destruct (appendLocked_cases _ _ _ _ _ _ _ _ _ H) as [Hn | (receipt & raw & Hw & Hr)]; [by left|]. right. exists raw.
  assert (receipt = receipt_of l (at_time c) (event c)) as ->.
  { destruct Hw as (_ & _ & Hrf & _). rewrite receipt_for_ok in Hrf; [by injection Hrf as <-|].
    pose proof (chain_next l (inv_chain _ _ _ _ Hi)). eapply (head_coordinate (next l - 1)); [lia | apply (inv_history _ _ _ _ Hi)]. }
  done.
Qed.

Lemma unchanged_call file l c err : called file l c file l (Err err).
Proof. left. eauto. Qed.

Ltac refused H := injection H as <- <- <-; apply unchanged_call.

Lemma begin_called file l c ls usage maximum file' l' res :
  ledger_inv file l ls usage -> begin sign (at_time c) (fault c) file l (event c) maximum = (file', l', res) -> called file l c file' l' res.
Proof.
  intros Hi H. unfold begin in H. set (e := event c) in *.
  destruct (validateEvent e) as [[]|] eqn:Hv; [|refused H].
  destruct (String.eqb_spec (Phase e) Authorize) as [Hp | _]; [|refused H].
  destruct (bool_decide (TaskDigest e ∈ spent (history l))) eqn:Hs; cbn [negb] in H; [refused H|].
  destruct (validateRunControlOwner e (runOwners (history l))) as [[]|] eqn:Hro; [|refused H].
  destruct (validateInferenceScopeOwner e (pending (history l))) as [[]|] eqn:Hsc; [|refused H].
  destruct (negb (failed l || _)); [|refused H].
  destruct (negb ((0 <? maximum) && _)); [|refused H].
  destruct (appendLocked sign (at_time c) (fault c) file l e (pendingReservation e)) as [[file1 l1] r1] eqn:Ea. apply bool_decide_eq_false in Hs.
  destruct (called_append _ _ c _ _ _ _ _ _ Hi Ea) as [(-> & -> & err & ->) | (raw & Hw & Hr)]; [refused H|].
  right. exists raw, (pendingReservation e), (set_head (add_authorization (history l) e) e (mkCoordinate (TaskSequence (receipt_of l (at_time c) e)) (hashLine raw))).
  fold e in Hr, Hw |- *. cbv zeta. split_and!; [done | done | by eapply authorize_history| |].
  { intros u k Hi'. destruct (authorize_history file l k u Hi' (at_time c) e raw Hv Hp Hs Hro Hsc) as (_ & ? & ?). done. }
  destruct Hr as [(Hf & -> & -> & ->) | (-> & (err & ->) & k & ->)]; [left | right; injection H as <- <- <-; eauto].
  injection H as <- <- <-. split_and!; [done | done | | eauto]. unfold stepped, counts_after. rewrite Hp. change (String.eqb Authorize Authorize) with true.
  f_equal. f_equal. cbn [appended history]. apply set_head_authorization.
Qed.

Lemma append_called file l c ls usage file' l' res :
  ledger_inv file l ls usage -> Append sign (at_time c) (fault c) file l (event c) = (file', l', res) -> called file l c file' l' res.
Proof.
  intros Hi H. unfold Append in H. set (e := event c) in *.
  destruct (validateEvent e) as [[]|] eqn:Hv; [|refused H].
  destruct (String.eqb_spec (Phase e) Deny) as [Hp | _]; cbn [negb] in H; [|refused H].
  destruct (called_append _ _ c _ _ _ _ _ _ Hi H) as [(-> & -> & err & ->) | (raw & Hw & Hr)]; [apply unchanged_call|].
  right. exists raw, 0, (history l). fold e in Hr, Hw |- *. cbv zeta. split_and!; [done | done | by eapply deny_history| |].
  { intros u k Hi'. destruct (deny_history file l k u Hi' (at_time c) e raw Hv Hp) as (_ & ? & ?). done. }
  destruct Hr as [(Hf & -> & -> & ->) | Hr]; [left | by right]. split_and!; [done | done | | eauto].
  unfold stepped, appended, set_history, set_counts, counts_after, set_head. rewrite (deny_protocol e Hv Hp), Hp. done.
Qed.

Lemma dispatch_called file l c ls usage file' l' res :
  ledger_inv file l ls usage -> Dispatch_ sign (at_time c) (fault c) file l (event c) = (file', l', res) -> called file l c file' l' res.
Proof.
  intros Hi H. unfold Dispatch_ in H. set (e := event c) in *.
  destruct (validateEvent e) as [[]|] eqn:Hv; [|refused H].
  destruct (String.eqb_spec (Phase e) Dispatch) as [Hp | _]; [|refused H].
  destruct (continues (history l) e _) as [previous|] eqn:Hc; [|refused H].
  destruct (validateRunControlOwner e (runOwners (history l))) as [[]|] eqn:Hro; [|refused H].
  destruct (run_conflict (history l) e) eqn:Hrc; cbn [negb] in H; [refused H|].
  destruct (appendLocked sign (at_time c) (fault c) file l e (- terminalReserveBytes)) as [[file1 l1] r1] eqn:Ea.
  destruct (called_append _ _ c _ _ _ _ _ _ Hi Ea) as [(-> & -> & err & ->) | (raw & Hw & Hr)]; [refused H|].
  right. exists raw, (- terminalReserveBytes), (set_head (add_dispatch (history l) e) e (mkCoordinate (TaskSequence (receipt_of l (at_time c) e)) (hashLine raw))).
  fold e in Hr, Hw |- *. cbv zeta. split_and!; [done | done | by eapply dispatch_history| |].
  { intros u k Hi'. destruct (dispatch_history file l k u Hi' (at_time c) e raw _ previous Hv Hp Hc Hro Hrc) as (_ & ? & ?). done. }
  destruct Hr as [(Hf & -> & -> & ->) | (-> & (err & ->) & k & ->)]; [left | right; injection H as <- <- <-; eauto].
  injection H as <- <- <-. split_and!; [done | done | | eauto]. unfold stepped, counts_after. rewrite Hp. change (String.eqb Dispatch Authorize) with false.
  unfold set_counts, set_history, appended. cbn [history]. by rewrite set_head_dispatch.
Qed.

Lemma finish_called file l c ls usage file' l' res :
  ledger_inv file l ls usage -> Finish sign (at_time c) (fault c) file l (event c) = (file', l', res) -> called file l c file' l' res.
Proof.
  intros Hi H. unfold Finish in H. set (e := event c) in *.
  destruct (validateEvent e) as [[]|] eqn:Hv; [|refused H].
  destruct (String.eqb_spec (Phase e) Terminal) as [Hp | _]; [|refused H].
  destruct (continues (history l) e _) as [previous|] eqn:Hc; [|refused H].
  destruct (appendLocked sign (at_time c) (fault c) file l e (- pendingReservation previous)) as [[file1 l1] r1] eqn:Ea.
  destruct (called_append _ _ c _ _ _ _ _ _ Hi Ea) as [(-> & -> & err & ->) | (raw & Hw & Hr)]; [refused H|].
  right. exists raw, (- pendingReservation previous), (set_head (add_terminal (history l) e) e (mkCoordinate (TaskSequence (receipt_of l (at_time c) e)) (hashLine raw))).
  fold e in Hr, Hw |- *. cbv zeta. split_and!; [done | done | by eapply finish_history| |].
  { intros u k Hi'. destruct (finish_history file l k u Hi' (at_time c) e raw _ previous Hp Hc) as (_ & ? & ?). done. }
  destruct Hr as [(Hf & -> & -> & ->) | (-> & (err & ->) & k & ->)]; [left | right; injection H as <- <- <-; eauto].
  injection H as <- <- <-. split_and!; [done | done | | eauto]. unfold stepped, counts_after. rewrite Hp. change (String.eqb Terminal Authorize) with false.
  unfold set_counts, set_history, appended. cbn [history]. by rewrite set_head_terminal.
Qed.

Lemma call_called file l c ls usage file' l' res :
  ledger_inv file l ls usage -> run_call file l c = (file', l', res) -> called file l c file' l' res.
Proof.
  intros Hi H. unfold run_call in H. destruct (op c).
  - by eapply append_called.
  - by eapply begin_called.
  - unfold BeginInference in H. destruct (_ || _) in H; [refused H|]. by eapply begin_called.
  - by eapply dispatch_called.
  - by eapply finish_called.
Qed.

End Ed25519.

Arguments chain_private {priv l}. Arguments chain_key {priv l}. Arguments chain_node {priv l}. Arguments chain_epoch {priv l}.
Arguments chain_next {priv l}. Arguments chain_last {priv l}.
Arguments inv_chain {verify priv visit file l ls usage}. Arguments inv_limits {verify priv visit file l ls usage}.
Arguments inv_file {verify priv visit file l ls usage}. Arguments inv_lines {verify priv visit file l ls usage}.
Arguments inv_replay {verify priv visit file l ls usage}. Arguments inv_tenants {verify priv visit file l ls usage} _ t.
Arguments inv_owner {verify priv visit file l ls usage} _ k e. Arguments inv_reserved {verify priv visit file l ls usage}.
Arguments inv_capacity {verify priv visit file l ls usage}. Arguments inv_quota {verify priv visit file l ls usage} _ t u.
Arguments inv_history {verify priv visit file l ls usage}.

End LedgerReplay.
