(* ===== verification/LedgerSafety.v ===== *)
(** * What the connector ledger guarantees

    Theorems on [ConnectorLedger] over whole runs: calls, failing system calls and restarts. *)

From Stdlib Require Import Ascii.
From S2P Require Import Prelude GoText GoTime GoFS GoJson GoCrypto Strict Dsse ConnectorEvent ConnectorReceipt ConnectorLedger LedgerReplay.
Import ConnectorEvent ConnectorReceipt ConnectorLedger LedgerReplay.

(** A lemma depends on the section hypotheses its proof uses. *)
Unset Default Proof Using.

Module LedgerSafety.

Section Ed25519.
Context (sign : bytes -> bytes -> bytes) (verify : bytes -> bytes -> bytes -> bool).
Context (priv : bytes) (Hkey : Dsse.key_pair sign verify priv (public_of priv)).
Context (visit : VerifiedReceipt -> result unit) (Hvisit : forall r, visit r = Ok tt).

Notation inv := (ledger_inv verify priv visit).

Lemma called_inv file l ls usage c file' l' head :
  inv file l ls usage -> call_ok c -> run_call sign file l c = (file', l', Ok head) -> exists ls' usage', inv file' l' ls' usage'.
Proof.
  intros Hi (Hnow & Ht & Hcoh) H. destruct (call_called sign verify priv visit _ _ _ _ _ _ _ _ Hi H) as [(_ & _ & err & E) | (raw & delta & h & Hc)]; [discriminate E|].
  destruct Hc as (Hv & Hw & Hup & Hoh & Hr). destruct (Hoh _ _ Hi) as [Ho Hh].
  destruct Hr as [(_ & -> & -> & _) | (_ & (err & E) & _)]; [|discriminate E].
  exists (ls ++ [raw]). by eapply append_step.
Qed.

(** The verifier refuses the line of an event that is not coherent, in whatever place. *)
Lemma incoherent_refused l now e raw :
  chain_ok priv l -> coordinate_ok (head_of (history l) e) -> clock_ok now -> validateEvent e = Ok tt -> event_typed e = true -> coherent e = false ->
  signed_line sign l e (receipt_of l now e) = Ok raw -> forall node epoch n prev record,
  verify_line verify (public_of priv) node epoch n prev raw <> Ok record.
Proof.
  intros Hc Hco Hnow Hv Ht Hcoh Hs node epoch n prev record. destruct (signed_line_spec sign verify priv Hkey l now e Hc Hco Hnow Hv Ht) as (raw' & envelope & Hs' & Hctl & Hlen & Hp & Hty & Hver & Hdec).
  rewrite Hs in Hs'. injection Hs' as <-. unfold verify_line. rewrite raw_last by done. destruct (zlen raw <=? _); [|done]. destruct (negb _); [|done].
  rewrite Hp, Hty. destruct (known_format _); [|done]. rewrite Hver, String.eqb_refl, Hdec. unfold validateReceipt. destruct (_ && _); [|done].
  destruct (from_option _ _ _); [|done]. change (REvent (receipt_of l now e)) with e. by rewrite format_coherent, Hcoh.
Qed.

(** ** Opening *)

(** The system calls of opening an existing or a fresh file succeed. *)
Definition opens (o : opening) (file : bytes) : Prop :=
  valid_path o = true /\ opened o = true /\ locked o = true /\ sized o = true /\
  match stat o with
  | NotExist => chmod_ok o = true /\ directory_synced o = true /\ file = []
  | StatError => False
  | Info regular perm => regular = true /\ owner_only perm = true /\ unchanged o = true
  end.

Lemma reserved_nonneg file l ls usage : inv file l ls usage -> 0 <= reserved l.
Proof.
  intros Hi. rewrite (inv_reserved Hi). apply msum_nonneg. intros e. pose proof (reservation_pos e). lia.
Qed.

(** The file of a ledger verifies to its head. *)
Lemma ledger_verifies file l ls usage :
  inv file l ls usage ->
  verifyFile verify (replay_record (limits l) visit) (no_history, ∅, ∅) file (public_of priv) (nodeID l) (epoch l)
  = Ok (mkHead (nodeID l) (epoch l) (next l - 1) (last_hash l) (KeyID (public_of priv)), (history l, usage, inferenceCounts l)).
Proof.
  intros Hi. unfold verifyFile. rewrite (inv_file Hi), last_join, scan_join by apply (inv_lines Hi).
  pose proof (inv_replay Hi) as Hr. unfold replayed in Hr. by rewrite Hr.
Qed.

(** Opening the file of a ledger gives the ledger. *)
Lemma open_gives file l ls usage o :
  inv file l ls usage -> is_open l = true -> failed l = false -> opens o file ->
  OpenWithLimits verify o file priv (nodeID l) (epoch l) (limits l) visit = Ok l.
Proof.
  intros Hi Hop Hfa (Hpath & Hopened & Hlock & Hsized & Hstat). pose proof (inv_chain Hi) as Hc.
  pose proof (reserved_nonneg _ _ _ _ Hi) as Hrn. pose proof (inv_capacity Hi) as Hcap.
  pose proof (chain_next Hc) as Hnext. destruct (chain_epoch Hc) as [_ Hep].
  unfold OpenWithLimits. rewrite Hpath, (chain_node Hc), (inv_limits Hi), (proj1 Hkey), Z.eqb_refl, (proj2 (Z.eqb_neq _ _)) by done. cbn [andb negb].
  assert (match stat o with
    | NotExist => require opened o && locked o && chmod_ok o && directory_synced o else "open connector ledger" in Ok tt
    | StatError => Err "stat connector ledger"
    | Info regular perm => require validFileInfo regular perm file else "connector ledger must be a bounded owner-only regular file" in
        require opened o && locked o && unchanged o else "connector ledger changed while opening" in Ok tt
    end = Ok tt) as ->.
  { destruct (stat o) as [| |regular perm]; [by destruct Hstat as (-> & -> & _); rewrite Hopened, Hlock | done|]. destruct Hstat as (-> & Hperm & Hun).
    unfold validFileInfo. rewrite Hperm, Hopened, Hlock, Hun, (proj2 (Z.leb_le _ _)) by lia. done. }
  pose proof (ledger_verifies _ _ _ _ Hi) as Hver.
  rewrite Hver.
  destruct (reserve_pending_spec (limits l) (values (pending (history l))) usage 0) as (usage' & Hres & Hus).
  { intros e He. apply elem_of_map_values in He as (k & Hk). by eapply inv_owner. }
  { intros t u Hu. apply (inv_quota Hi). rewrite (inv_tenants Hi), Hu. done. }
  rewrite Hres, Hsized. fold (msum pendingReservation (pending (history l))). rewrite <- (inv_reserved Hi). cbn [Z.add].
  rewrite (proj2 (Z.ltb_ge _ _)) by lia. cbn [negb HSequence ChainHash]. replace (next l - 1 + 1) with (next l) by lia.
  rewrite u64_small by (unfold in_u64; lia).
  assert (usage' = tenantBytes l) as -> by (apply map_eq; intros t; by rewrite Hus, (inv_tenants Hi)).
  rewrite <- (chain_key Hc), <- (chain_private Hc). destruct l; cbn in Hop, Hfa. subst. reflexivity.
Qed.

(** ** What an accepted file contains *)

Lemma verify_line_inv public node epoch number prev line record :
  verify_line verify public node epoch number prev line = Ok record ->
  Raw record = drop_cr line /\ Hash record = hashLine (Raw record) /\ validateEvent (REvent (VReceipt record)) = Ok tt.
Proof.
  unfold verify_line. intros H. case_in H. injection H as <-. cbn [Raw Hash VReceipt]. split_and!; try done.
  match goal with E : validateReceipt _ _ _ _ _ _ = Ok ?u |- _ => destruct u; unfold validateReceipt in E;
    destruct (_ && _) in E; [|done]; destruct (from_option _ _ _) in E; [|done]; destruct (format_matches _ _) in E; [|done];
    destruct (if _ || _ then _ else _) as [[]|] in E; [done | done] end.
Qed.

(** What replaying keeps: the history is in order, and every tenant with a line is within its quota. *)
Definition replay_ok (lim : Limits) (n : Z) (s : History * gmap string Z * gmap (string * string) Z) : Prop :=
  let '(h, usage, _) := s in
  history_ok n h /\ (forall k e, pending h !! k = Some e -> is_Some (usage !! TenantID e)) /\ (forall t u, usage !! t = Some u -> within lim t u).

Lemma coordinate_inv record c first n :
  validateTaskCoordinate record c first = Ok tt -> (first = true \/ 0 <= sequence c <= n) -> 0 <= n < 2 ^ 63 ->
  empty (TaskProtocol (REvent (VReceipt record))) = false -> 1 <= TaskSequence (VReceipt record) <= n + 1.
Proof.
  unfold validateTaskCoordinate. intros H Hc Hn He. rewrite He in H. destruct (_ || _) eqn:E1 in H; [|done]. destruct (_ && _) eqn:E2 in H; [|done].
  apply andb_true_iff in E2 as [E2 _]. apply Z.eqb_eq in E2. destruct first; [lia|]. destruct Hc as [? | Hc]; [done|].
  rewrite u64_small in E2 by (unfold in_u64; lia). lia.
Qed.

Lemma head_bound n h e : history_ok n h -> 0 <= n -> 0 <= sequence (head_of h e) <= n.
Proof.
  intros Hh Hn. unfold head_of. destruct (taskHeads h !! TaskDigest e) as [c|] eqn:E; cbn [default from_option id]; [|cbn; lia].
  destruct (heads_spent _ _ Hh _ _ E) as (_ & ? & _). lia.
Qed.

Lemma updateHistory_inv n h record h' :
  history_ok n h -> 0 <= n < 2 ^ 63 -> validateEvent (REvent (VReceipt record)) = Ok tt -> Hash record = hashLine (Raw record) ->
  updateHistory h record = Ok h' ->
  history_ok (n + 1) h' /\
  (forall k x, pending h' !! k = Some x -> x = REvent (VReceipt record) \/ pending h !! k = Some x) /\ spent h ⊆ spent h' /\
  (Phase (REvent (VReceipt record)) = Authorize -> TaskDigest (REvent (VReceipt record)) ∉ spent h /\ TaskDigest (REvent (VReceipt record)) ∈ spent h').
Proof.
  intros Hh Hn Hv Hhash H. unfold updateHistory in H. set (e := REvent (VReceipt record)) in *. rewrite Hhash in H.
  assert (Hstep : forall h1 first, validateTaskCoordinate record (head_of h e) first = Ok tt ->
    (forall k x, pending h1 !! k = Some x -> (k = TaskDigest e /\ x = e) \/ pending h !! k = Some x) ->
    taskHeads h1 = taskHeads h -> spent h ⊆ spent h1 -> TaskDigest e ∈ spent h1 ->
    set_head h1 e (mkCoordinate (TaskSequence (VReceipt record)) (hashLine (Raw record))) = h' ->
    history_ok (n + 1) h' /\ (forall k x, pending h' !! k = Some x -> x = e \/ pending h !! k = Some x) /\ spent h ⊆ spent h' /\ TaskDigest e ∈ spent h').
  { intros h1 first Hco Hp Ht Hs He <-. destruct (set_head_fields h1 e (mkCoordinate (TaskSequence (VReceipt record)) (hashLine (Raw record)))) as (Hpe & Hse & _).
    rewrite Hpe, Hse. split_and!; try done; [|intros k x Hx; destruct (Hp k x Hx) as [[_ ->] |]; auto].
    eapply history_after; [exact Hh | lia | exact Hp | exact Ht | exact Hs | exact He|]. eapply coordinate_inv; [exact Hco| |lia].
    right. apply head_bound; [done | lia]. }
  destruct (String.eqb_spec (Phase e) Authorize) as [Ha | Ha].
  { destruct (bool_decide (TaskDigest e ∈ spent h)) eqn:Hb; cbn [negb] in H; [done|]. apply bool_decide_eq_false in Hb.
    destruct (validateTaskCoordinate _ _ _) as [[]|] eqn:Hco; [|done]. destruct (validateRunControlOwner _ _); [|done].
    destruct (validateInferenceScopeOwner _ _); [|done]. injection H as H.
    destruct (Hstep (add_authorization h e) true Hco) as (? & ? & ? & ?); [|done | cbn [add_authorization spent]; set_solver | cbn [add_authorization spent]; set_solver | exact H |by split_and!].
    intros k x. cbn [add_authorization pending]. destruct (decide (TaskDigest e = k)) as [<- | Hne]; [rewrite lookup_insert_eq; intros [= <-]; by left|]. rewrite lookup_insert_ne by done. by right. }
  destruct (String.eqb_spec (Phase e) Dispatch) as [Hd | Hd].
  { destruct (continues _ _ _) as [previous|] eqn:Hc; [|done]. apply continues_inv in Hc as [Hpend _].
    destruct (validateTaskCoordinate _ _ _) as [[]|] eqn:Hco; [|done]. destruct (validateRunControlOwner _ _); [|done]. destruct (negb _); [|done]. injection H as H.
    destruct (pending_spent _ _ Hh _ _ Hpend) as (_ & Hsp & _).
    destruct (Hstep (add_dispatch h e) false Hco) as (? & ? & ? & ?); [|done | done | done | exact H | by split_and!].
    intros k x. cbn [add_dispatch pending]. destruct (decide (TaskDigest e = k)) as [<- | Hne]; [rewrite lookup_insert_eq; intros [= <-]; by left|]. rewrite lookup_insert_ne by done. by right. }
  destruct (String.eqb_spec (Phase e) Terminal) as [Ht | Ht].
  { destruct (continues _ _ _) as [previous|] eqn:Hc; [|done]. apply continues_inv in Hc as [Hpend _].
    destruct (validateTaskCoordinate _ _ _) as [[]|] eqn:Hco; [|done]. injection H as H. destruct (pending_spent _ _ Hh _ _ Hpend) as (_ & Hsp & _).
    destruct (Hstep (add_terminal h e) false Hco) as (? & ? & ? & ?); [|done | done | done | exact H | by split_and!].
    intros k x Hx. cbn [add_terminal pending] in Hx. apply lookup_delete_Some in Hx as [_ Hx]. by right. }
  assert (Hden : Phase e = Deny).
  { apply validateEvent_inv in Hv as (_ & _ & _ & _ & _ & _ & _ & Hph). unfold validate_phase in Hph.
    rewrite !(proj2 (String.eqb_neq _ _)) in Hph by done. destruct (String.eqb_spec (Phase e) Deny); [done|].
    rewrite !(proj2 (String.eqb_neq _ _)) in Hph by done. done. }
  injection H as <-. unfold set_head. rewrite (deny_protocol e Hv Hden). split_and!; [|auto | done | done].
  split; [apply Hh|]. intros k c Hc. destruct (heads_spent _ _ Hh _ _ Hc) as (? & ? & ?). split_and!; done || lia.
Qed.

Lemma replay_step lim n s record s' :
  replay_ok lim n s -> 0 <= n < 2 ^ 63 -> validateEvent (REvent (VReceipt record)) = Ok tt -> Hash record = hashLine (Raw record) ->
  replay_record lim visit s record = Ok s' -> replay_ok lim (n + 1) s'.
Proof.
  destruct s as [[h usage] counts]. intros (Hh & Hp & Hq) Hn Hv Hhash H. unfold replay_record in H.
  destruct (updateHistory h record) as [h1|] eqn:Hu; [|done].
  destruct (addTenantUsage _ _ _ _) as [usage1|] eqn:Ha; [|done]. destruct (visit record); [|done]. injection H as <-.
  destruct (updateHistory_inv n h record h1 Hh Hn Hv Hhash Hu) as (Hh1 & Hp1 & _).
  unfold addTenantUsage in Ha. destruct (negb _) in Ha; [|done]. destruct (tenantQuota lim _) as [quota|] eqn:Hquota; [|done].
  destruct (negb _) eqn:Hle in Ha; [|done]. injection Ha as <-. breflect. split_and!; [done| |].
  - intros k x Hx. destruct (Hp1 k x Hx) as [-> | Hold]; [by rewrite lookup_insert_eq|].
    destruct (decide (TenantID x = TenantID (REvent (VReceipt record)))) as [-> | Hne]; [by rewrite lookup_insert_eq|]. rewrite lookup_insert_ne by done. eauto.
  - intros t u. destruct (decide (TenantID (REvent (VReceipt record)) = t)) as [<- | Hne]; [|rewrite lookup_insert_ne by done; apply Hq].
    rewrite lookup_insert_eq. intros [= <-]. exists quota. split; [done | lia].
Qed.

Lemma replay_lines lim public node epoch ls : forall n prev s n' prev' s',
  replay_ok lim n s -> 0 <= n -> n + zlen ls < 2 ^ 63 -> digest prev = true ->
  verify_lines verify (replay_record lim visit) public node epoch n prev s ls = Ok (n', prev', s') -> replay_ok lim n' s' /\ digest prev' = true.
Proof.
  induction ls as [|line ls IH]; intros n prev s n' prev' s' Hs Hn Hlen Hd H; cbn [verify_lines] in H; [by injection H as <- <- <-|].
  rewrite zlen_cons in Hlen. pose proof (zlen_nonneg ls). destruct (verify_line _ _ _ _ _ _ _) as [record|] eqn:Hl; [|done].
  destruct (replay_record _ _ s record) as [s1|] eqn:Hr; [|done]. destruct (verify_line_inv _ _ _ _ _ _ _ Hl) as (_ & Hhash & Hv).
  apply (IH (n + 1) (Hash record) s1); [|lia|lia| |exact H].
  - eapply replay_step; [exact Hs | lia | exact Hv | exact Hhash | exact Hr].
  - rewrite Hhash. apply sha256_text_digest.
Qed.

(** The reservations that opening makes. *)
Lemma reserve_pending_inv lim events : forall usage r usage' r',
  (forall e, e ∈ events -> is_Some (usage !! TenantID e)) -> (forall t u, usage !! t = Some u -> within lim t u) ->
  reserve_pending lim usage r events = Ok (usage', r') ->
  r' = r + zsum pendingReservation events /\ (forall t, usage' !! t = (fun u => u + zsum (owed t) events) <$> usage !! t) /\
  (forall t u, usage' !! t = Some u -> within lim t u).
Proof.
  induction events as [|e events IH]; intros usage r usage' r' Hin Hq H; cbn [reserve_pending] in H.
  { injection H as <- <-. cbn [zsum foldr]. rewrite Z.add_0_r. split_and!; [done| |done]. intros t. destruct (usage !! t); [|done]. cbn [fmap option_fmap option_map]. by rewrite Z.add_0_r. }
  destruct (addTenantUsage _ _ _ _) as [usage1|] eqn:Ha; [|done]. unfold addTenantUsage in Ha. destruct (negb _) in Ha; [|done].
  destruct (tenantQuota lim _) as [quota|] eqn:Hquota; [|done]. destruct (negb _) eqn:Hle in Ha; [|done]. injection Ha as <-. breflect.
  destruct (Hin e) as [u Hu]; [left|]. rewrite Hu in *. cbn [default from_option id] in *.
  apply IH in H as (-> & Hl & Hq').
  - split_and!; [cbn [zsum foldr]; unfold zsum; lia| |done]. intros t. rewrite Hl. cbn [zsum foldr]. fold (zsum (owed t) events). unfold owed at 2.
    destruct (decide (TenantID e = t)) as [<- | Hne].
    + rewrite lookup_insert_eq, Hu, String.eqb_refl. cbn [fmap option_fmap option_map]. f_equal. lia.
    + rewrite lookup_insert_ne, (proj2 (String.eqb_neq _ _)) by done. done.
  - intros x Hx. destruct (decide (TenantID e = TenantID x)) as [<- | Hne]; [by rewrite lookup_insert_eq|]. rewrite lookup_insert_ne by done. apply Hin. by right.
  - intros t v. destruct (decide (TenantID e = t)) as [<- | Hne]; [|rewrite lookup_insert_ne by done; apply Hq].
    rewrite lookup_insert_eq. intros [= <-]. exists quota. split; [done | lia].
Qed.

(** An opened ledger is in its invariant. *)
Lemma opened_inv o file node ep lim l :
  OpenWithLimits verify o file priv node ep lim visit = Ok l -> in_u64 ep -> (stat o = NotExist -> file = []) ->
  is_open l = true /\ failed l = false /\ nodeID l = node /\ epoch l = ep /\ limits l = lim /\ exists ls usage, inv file l ls usage.
Proof.
  intros H Hep Hnew. unfold OpenWithLimits in H. destruct (_ && _) eqn:E1 in H; [|done].
  destruct (Limits_Validate lim) as [[]|] eqn:Hlim; [|done].
  match type of H with (match ?c with Ok _ => _ | Err _ => _ end) = _ => destruct c as [[]|] eqn:Hst; [|done] end.
  assert (Hsz : zlen file <= MaxLogBytes).
  { destruct (stat o) as [| |regular perm]; [rewrite (Hnew eq_refl); vm_compute; congruence | done|].
    destruct (validFileInfo regular perm file) eqn:Hf; [|done]. unfold validFileInfo in Hf. breflect. done. }
  unfold verifyFile in H. destruct (match last file with Some c => u8 c =? 10 | None => true end) eqn:Hlast; [|done].
  destruct (verify_lines _ _ _ _ _ _ _ _ _) as [[[n prev] [[h usage] counts]]|] eqn:Hver; [|done].
  destruct (reserve_pending _ _ _ _) as [[usage' r]|] eqn:Hres; [|done]. destruct (sized o); [|done]. destruct (negb _) eqn:Hcap in H; [|done].
  cbn [HSequence ChainHash] in H. injection H as <-. cbn [is_open failed nodeID epoch limits]. split_and!; try done.
  destruct (join_scan file Hlast) as [Hjoin Hone]. pose proof (join_length (scan_lines file)) as Hjl. rewrite Hjoin in Hjl.
  pose proof (verify_lines_number _ _ _ _ _ _ _ _ _ _ _ _ Hver) as Hnum. cbn [Z.add] in Hnum. pose proof (zlen_nonneg (scan_lines file)).
  assert (Hmax : MaxLogBytes = 67108864) by reflexivity. breflect.
  destruct (replay_lines lim (public_of priv) node ep (scan_lines file) 0 zeroHash (no_history, ∅, ∅) _ _ _
    ltac:(split_and!; [split; done | done | done]) ltac:(lia) ltac:(lia) zero_digest Hver) as [(Hh & Hp & Hq) Hd].
  destruct (reserve_pending_inv lim (values (pending h)) usage 0 usage' r) as (Hr & Hus & Hq'); [|done | done|].
  { intros e He. apply elem_of_map_values in He as (k & Hk). eauto. }
  assert (Hnx : u64 (n + 1) = n + 1) by (apply u64_small; unfold in_u64; lia).
  exists (scan_lines file), usage. split; cbn [is_open private nodeID epoch keyID next last_hash failed reserved history limits tenantBytes inferenceCounts]; try done.
  - split; cbn [is_open private nodeID epoch keyID next last_hash]; try done. rewrite Hnx. lia.
  - unfold replayed. cbn [nodeID epoch next last_hash history limits inferenceCounts]. rewrite Hver, Hnx. by replace (n + 1 - 1) with n by lia.
  - rewrite Hnx. by replace (n + 1 - 1) with n by lia.
Qed.

(** What the system calls of opening answer does not show in the ledger that is opened. *)
Lemma open_unique o o' file node ep lim l l' :
  OpenWithLimits verify o file priv node ep lim visit = Ok l -> OpenWithLimits verify o' file priv node ep lim visit = Ok l' -> l = l'.
Proof.
  clear Hkey Hvisit. unfold OpenWithLimits. intros H H'. destruct (_ && _) in H; [|done]. destruct (_ && _) in H'; [|done]. destruct (Limits_Validate lim); [|done].
  destruct (match stat o with NotExist => _ | StatError => _ | Info _ _ => _ end); [|done].
  destruct (match stat o' with NotExist => _ | StatError => _ | Info _ _ => _ end); [|done].
  destruct (verifyFile _ _ _ _ _ _ _) as [[head [[h usage] counts]]|]; [|done].
  destruct (reserve_pending _ _ _ _) as [[usage' r]|]; [|done]. destruct (sized o); [|done]. destruct (sized o'); [|done]. destruct (negb _); [|done].
  congruence.
Qed.

(** ** Runs with restarts *)

(** One handle on the file at a time: a call on it, or closing it and opening the file again. *)
Inductive action := Call (c : call) | Restart (o : opening).

Record Node := mkNode { content : bytes; live : option Log; begun : list string }.

(** The task a call authorized, when it did. *)
Definition began (c : call) (res : result Head) : list string :=
  match op c, res with
  | OpBegin, Ok _ | OpBeginInference _, Ok _ => [TaskDigest (event c)]
  | _, _ => []
  end.

Context (node : string) (ep : Z) (lim : Limits) (Hep : in_u64 ep).

Definition reopen (o : opening) (file : bytes) : option Log :=
  match OpenWithLimits verify o file priv node ep lim visit with Ok l => Some l | Err _ => None end.

Definition act (n : Node) (a : action) : Node :=
  match a, live n with
  | Call c, Some l => let '(file, l', res) := run_call sign (content n) l c in mkNode file (Some l') (began c res ++ begun n)
  | Call _, None => n
  | Restart o, _ => mkNode (content n) (reopen o (content n)) (begun n)
  end.

Definition run (n : Node) (actions : list action) : Node := foldl act n actions.

(** The calls carry events of Go types, and the clock reads a year of four digits. *)
Definition call_typed (c : call) : Prop := clock_ok (at_time c) /\ event_typed (event c) = true.
Definition action_typed (a : action) : Prop := match a with Call c => call_typed c | Restart _ => True end.

(** Calls that carry an event which is not coherent. *)
Definition incoherent (a : action) : Prop := match a with Call c => coherent (event c) = false | Restart _ => False end.

(** The calls also carry coherent events. *)
Definition action_ok (a : action) : Prop := match a with Call c => call_ok c | Restart _ => True end.

Lemma action_ok_typed a : action_ok a -> action_typed a /\ ~ incoherent a.
Proof. destruct a as [c|o]; [|by intros _; split; [|intros []]]. intros (? & ? & Hc). split; [done|]. cbn [incoherent]. by rewrite Hc. Qed.

Definition no_cr (file : bytes) : Prop := Forall (fun b => u8 b <> 13) file.

(** Either the file is that of a ledger [l] in its invariant, which is the live one unless that failed, or it ends in part of a line. [start]
    are the tasks spent when the node started, and [tidy] says that the file had no carriage return then. *)
Definition whole (start : gset string) (tidy : Prop) (n : Node) : Prop :=
  exists l ls usage, inv (content n) l ls usage /\ (tidy -> no_cr (content n)) /\ is_open l = true /\ failed l = false /\ nodeID l = node /\ epoch l = ep /\ limits l = lim /\
    start ⊆ spent (history l) /\ (forall d, d ∈ begun n -> d ∈ spent (history l)) /\
    match live n with None => True | Some k => k = l \/ failed k = true end.
Definition torn (n : Node) : Prop :=
  (exists c, last (content n) = Some c /\ u8 c <> 10) /\ match live n with None => True | Some k => failed k = true end.


(** The file has lines that the verifier refuses, whatever follows them; the live ledger, when there is one, knows the spent tasks. *)
Definition unreadable (file : bytes) : Prop :=
  exists ls rest err, file = join ls ++ rest /\ Forall one_line ls /\
    verify_lines verify (replay_record lim visit) (public_of priv) node ep 0 zeroHash (no_history, ∅, ∅) ls = Err err.
Definition shut (start : gset string) (n : Node) : Prop :=
  unreadable (content n) /\
  match live n with None => True | Some k => start ⊆ spent (history k) /\ forall d, d ∈ begun n -> d ∈ spent (history k) end.

(** [bad] says that a call carried an incoherent event. *)
Record node_ok (start : gset string) (tidy bad : Prop) (n : Node) : Prop := {
  ok_state : whole start tidy n \/ torn n \/ (bad /\ shut start n);
  ok_once : NoDup (begun n);
  ok_fresh d : d ∈ begun n -> d ∉ start;
}.

Lemma failed_call file l c : failed l = true -> exists err, run_call sign file l c = (file, l, Err err).
Proof.
  clear Hkey Hvisit. intros Hf. assert (Ha : forall delta, exists err, appendLocked sign (at_time c) (fault c) file l (event c) delta = (file, l, Err err)).
  { intros delta. unfold appendLocked. rewrite Hf. destruct (negb (is_open l)); eauto. }
  assert (Hb : forall maximum, exists err, begin sign (at_time c) (fault c) file l (event c) maximum = (file, l, Err err)).
  { intros maximum. unfold begin. rewrite Hf. cbn [orb negb]. destruct (validateEvent _); [|eauto]. destruct (String.eqb _ _); [|eauto]. destruct (negb _); [|eauto].
    destruct (validateRunControlOwner _ _); [|eauto]. destruct (validateInferenceScopeOwner _ _); eauto. }
  unfold run_call. destruct (op c) as [| |maximum| |].
  - unfold Append. destruct (validateEvent _); [|eauto]. destruct (negb _); eauto.
  - apply Hb.
  - unfold BeginInference. destruct (_ || _); [eauto | apply Hb].
  - unfold Dispatch_. destruct (let* _ := validateEvent (event c) in _); [|eauto]. destruct (Ha (- terminalReserveBytes)) as [err ->]. eauto.
  - unfold Finish. destruct (let* _ := validateEvent (event c) in _) as [previous|]; [|eauto]. destruct (Ha (- pendingReservation previous)) as [err ->]. eauto.
Qed.

Lemma began_authorizes file l c file' l' res d :
  run_call sign file l c = (file', l', res) -> d ∈ began c res -> d = TaskDigest (event c) /\ Phase (event c) = Authorize /\ exists head, res = Ok head.
Proof.
  clear Hkey Hvisit. intros H Hd.
  assert (Hb : forall maximum, begin sign (at_time c) (fault c) file l (event c) maximum = (file', l', res) -> forall head, res = Ok head -> Phase (event c) = Authorize).
  { intros maximum Hm head ->. unfold begin in Hm. destruct (validateEvent _); [|done]. destruct (String.eqb_spec (Phase (event c)) Authorize); [done | discriminate Hm]. }
  unfold began in Hd. unfold run_call in H. destruct (op c) as [| |maximum| |]; try (destruct res; by apply not_elem_of_nil in Hd).
  - destruct res as [head|]; [|by apply not_elem_of_nil in Hd]. apply list_elem_of_singleton in Hd as ->. unfold Begin in H. eauto.
  - destruct res as [head|]; [|by apply not_elem_of_nil in Hd]. apply list_elem_of_singleton in Hd as ->.
    unfold BeginInference in H. destruct (_ || _) in H; [discriminate H|]. eauto.
Qed.

Lemma began_err c err : began c (Err err) = [].
Proof. unfold began. by destruct (op c). Qed.

(** Whatever a call does, in memory no task is forgotten, and a task it authorized was not spent before; the file only grows. *)
Lemma ledger_append_memory now f file l e delta file' l' res :
  appendLocked sign now f file l e delta = (file', l', res) ->
  spent (history l') = spent (history l) /\ exists extra, file' = file ++ extra.
Proof.
  clear Hkey Hvisit. intros H. destruct (appendLocked_cases sign _ _ _ _ _ _ _ _ _ H) as [(-> & -> & _) | (receipt & raw & _ & [(_ & -> & -> & _) | (-> & _ & k & ->)])].
  - split; [done|]. exists []. by rewrite app_nil_r.
  - split; [|eauto]. cbn [appended history]. apply set_head_fields.
  - split; [done | eauto].
Qed.

Lemma call_memory file l c file' l' res :
  run_call sign file l c = (file', l', res) ->
  spent (history l) ⊆ spent (history l') /\ (exists extra, file' = file ++ extra) /\
  forall d, d ∈ began c res -> d ∉ spent (history l) /\ d ∈ spent (history l').
Proof.
  clear Hkey Hvisit. intros H.
  assert (Hid : forall err, (file, l, Err err) = (file', l', res) -> spent (history l) ⊆ spent (history l') /\ (exists extra, file' = file ++ extra) /\
    forall d, d ∈ began c res -> d ∉ spent (history l) /\ d ∈ spent (history l')).
  { intros err [= <- <- <-]. split; [done|]. split; [exists []; by rewrite app_nil_r|]. intros d. rewrite began_err. by intros ?%not_elem_of_nil. }
  assert (Hkeep : began c res = [] -> forall file1 l1 r1 delta, appendLocked sign (at_time c) (fault c) file l (event c) delta = (file1, l1, r1) ->
    file' = file1 -> spent (history l') = spent (history l1) -> spent (history l) ⊆ spent (history l') /\ (exists extra, file' = file ++ extra) /\
    forall d, d ∈ began c res -> d ∉ spent (history l) /\ d ∈ spent (history l')).
  { intros Hb file1 l1 r1 delta Ea -> Es. destruct (ledger_append_memory _ _ _ _ _ _ _ _ _ Ea) as [Hs Hx]. rewrite Es, Hs, Hb.
    split_and!; [done | done | by intros d ?%not_elem_of_nil]. }
  assert (Hb : forall maximum, (began c res = [] \/ began c res = [TaskDigest (event c)]) -> begin sign (at_time c) (fault c) file l (event c) maximum = (file', l', res) ->
    spent (history l) ⊆ spent (history l') /\ (exists extra, file' = file ++ extra) /\ forall d, d ∈ began c res -> d ∉ spent (history l) /\ d ∈ spent (history l')).
  { intros maximum Hbegan Hm. unfold begin in Hm.
    destruct (validateEvent _); [|by eapply Hid]. destruct (String.eqb _ _); [|by eapply Hid].
    destruct (bool_decide (TaskDigest (event c) ∈ spent (history l))) eqn:Hns; cbn [negb] in Hm; [by eapply Hid|]. apply bool_decide_eq_false in Hns.
    destruct (validateRunControlOwner _ _); [|by eapply Hid]. destruct (validateInferenceScopeOwner _ _); [|by eapply Hid].
    destruct (negb (failed l || _)); [|by eapply Hid]. destruct (negb (_ && _)); [|by eapply Hid].
    destruct (appendLocked _ _ _ _ _ _ _) as [[file1 l1] r1] eqn:Ea. destruct (ledger_append_memory _ _ _ _ _ _ _ _ _ Ea) as [Hs Hx].
    destruct r1 as [head|]; injection Hm as <- <- <-.
    - cbn [set_counts set_history history add_authorization spent]. rewrite Hs. split_and!; [set_solver | done|]. intros d Hd.
      destruct Hbegan as [Hbegan | Hbegan]; rewrite Hbegan in Hd; [by apply not_elem_of_nil in Hd|]. apply list_elem_of_singleton in Hd as ->. set_solver.
    - rewrite Hs. split_and!; [done | done|]. intros d. rewrite began_err. by intros ?%not_elem_of_nil. }
  unfold run_call in H. unfold began in *. destruct (op c) as [| |maximum| |].
  - unfold Append in H. destruct (validateEvent _); [|by eapply Hid]. destruct (negb _); [by eapply Hid|]. by eapply Hkeep.
  - unfold Begin in H. eapply Hb; [|exact H]. destruct res; auto.
  - unfold BeginInference in H. destruct (_ || _); [by eapply Hid|]. eapply Hb; [|exact H]. destruct res; auto.
  - unfold Dispatch_ in H. destruct (let* _ := validateEvent (event c) in _); [|by eapply Hid].
    destruct (appendLocked _ _ _ _ _ _ _) as [[file1 l1] [head|]] eqn:Ea; injection H as <- <- <-; by eapply Hkeep.
  - unfold Finish in H. destruct (let* _ := validateEvent (event c) in _) as [previous|]; [|by eapply Hid].
    destruct (appendLocked _ _ _ _ _ _ _) as [[file1 l1] [head|]] eqn:Ea; injection H as <- <- <-; by eapply Hkeep.
Qed.

(** A line that reached the file whole: of a coherent event it leaves a ledger in its invariant, of another a file that is refused. *)
Lemma line_step file l ls usage c raw delta h :
  inv file l ls usage -> call_typed c -> validateEvent (event c) = Ok tt ->
  wrote sign (at_time c) file l (event c) delta (receipt_of l (at_time c) (event c)) raw ->
  updateHistory (history l) (mkVerified (receipt_of l (at_time c) (event c)) raw (hashLine raw)) = Ok h ->
  owes l usage (event c) delta h -> history_ok (next l) h ->
  Forall (fun b => 32 <= u8 b) raw /\ spent (history l) ⊆ spent h /\
  (Phase (event c) = Authorize -> TaskDigest (event c) ∉ spent (history l) /\ TaskDigest (event c) ∈ spent h) /\
  if coherent (event c)
  then exists ls' usage', inv (file ++ raw ++ [newline]) (stepped l (event c) (receipt_of l (at_time c) (event c)) raw delta h) ls' usage'
  else nodeID l = node -> epoch l = ep -> limits l = lim -> unreadable (file ++ raw ++ [newline]).
Proof.
  intros Hi (Hnow & Ht) Hv Hw Hup Hoh Hh. pose proof (inv_chain Hi) as Hc. pose proof (chain_next Hc) as Hn.
  assert (Hco : coordinate_ok (head_of (history l) (event c))) by (eapply (head_coordinate (next l - 1)); [lia | apply (inv_history Hi)]).
  destruct (signed_line_spec sign verify priv Hkey l _ _ Hc Hco Hnow Hv Ht) as (raw' & _ & Hs & Hctl & _).
  pose proof Hw as (_ & _ & _ & Hs' & _). rewrite Hs in Hs'. injection Hs' as ->.
  destruct (updateHistory_inv (next l - 1) (history l) (mkVerified (receipt_of l (at_time c) (event c)) raw (hashLine raw)) h
    (inv_history Hi) ltac:(lia) Hv eq_refl Hup) as (_ & _ & Hsp & Hau). split_and!; try done.
  destruct (coherent (event c)) eqn:Hcoh; [exists (ls ++ [raw]); by eapply append_step|]. intros Hnd Hepo Hli.
  exists (ls ++ [raw]), []. pose proof (inv_replay Hi) as Hrep. unfold replayed in Hrep. rewrite Hnd, Hepo, Hli in Hrep. rewrite verify_lines_app, Hrep. cbn [verify_lines].
  destruct (verify_line _ _ _ _ _ _ raw) as [record|err] eqn:El; [by eapply incoherent_refused in El|]. exists err. split_and!; [|by apply Forall_app; split; [apply (inv_lines Hi) | repeat constructor; eapply Forall_impl; [exact Hctl|]; simpl; lia] | done].
  rewrite app_nil_r, join_app, (inv_file Hi). unfold join at 3. cbn [fmap list_fmap concat]. by rewrite app_nil_r.
Qed.

Lemma cut_line (file raw : bytes) k :
  Forall (fun b => 32 <= u8 b) raw ->
  file ++ take k (raw ++ [newline]) = file \/ file ++ take k (raw ++ [newline]) = file ++ raw ++ [newline] \/
  exists c, last (file ++ take k (raw ++ [newline])) = Some c /\ u8 c <> 10.
Proof.
  intros Hraw. destruct (decide (length raw < k)%nat) as [Hk | Hk].
  { right. left. rewrite take_ge; [done|]. rewrite length_app. cbn [length]. lia. }
  rewrite take_app_le by lia. destruct (last (take k raw)) as [c|] eqn:E.
  - right. right. exists c. rewrite last_app, E. split; [done|]. apply last_Some_elem_of in E.
    eapply Forall_take in Hraw. rewrite Forall_forall in Hraw. specialize (Hraw c E). lia.
  - left. apply last_None in E. by rewrite E, app_nil_r.
Qed.

(** A call on the live ledger. *)
Lemma call_whole start tidy bad n l c :
  whole start tidy n -> live n = Some l -> failed l = false -> NoDup (begun n) -> (forall d, d ∈ begun n -> d ∉ start) -> call_typed c ->
  (coherent (event c) = false -> bad) -> node_ok start tidy bad (act n (Call c)).
Proof.
  intros (l0 & ls & usage & Hi & Htidy & Ho & Hf & Hnd & He & Hl & Hst & Hbe & Hlive) Hlv Hfl Hdup Hfr Hok Hbad. rewrite Hlv in Hlive.
  destruct Hlive as [<- | ?]; [|congruence]. unfold act. rewrite Hlv. destruct (run_call sign (content n) l c) as [[file' l'] res] eqn:Hr.
  pose proof (began_authorizes _ _ _ _ _ _ (TaskDigest (event c)) Hr) as Hba.
  destruct (call_called sign verify priv visit _ _ _ _ _ _ _ _ Hi Hr) as [(-> & -> & err & ->) | (raw & delta & h & Hv & Hw & Hup & Hoh & Hres)].
  { rewrite began_err. cbn [app]. split; [|done | done]. left. exists l, ls, usage. cbn [content live begun]. split_and!; auto. }
  destruct (Hoh _ _ Hi) as [How Hh]. destruct (line_step _ _ _ _ _ _ _ _ Hi Hok Hv Hw Hup How Hh) as (Hraw & Hsp & Hau & Hline).
  set (l1 := stepped l (event c) (receipt_of l (at_time c) (event c)) raw delta h) in *.
  assert (Hwhole : forall k b, (k = l1 /\ (forall d, d ∈ b -> d ∈ spent h)) \/ (k = poison l /\ b = begun n) ->
    whole start tidy (mkNode (content n ++ raw ++ [newline]) (Some k) b) \/ (bad /\ shut start (mkNode (content n ++ raw ++ [newline]) (Some k) b))).
  { intros k b Hk. destruct (coherent (event c)).
    - left. destruct Hline as (ls' & usage' & Hi'). exists l1, ls', usage'. cbn [content live begun]. split; [exact Hi'|]. split.
      { intros H. unfold no_cr. rewrite !Forall_app. split_and!; [by apply Htidy | eapply Forall_impl; [exact Hraw|]; simpl; lia | by repeat constructor]. }
      cbn [l1 stepped set_counts set_history appended is_open failed nodeID epoch limits history]. split_and!; try done; [set_solver | |].
      + destruct Hk as [[_ Hb] | [_ ->]]; auto.
      + destruct Hk as [[-> _] | [-> _]]; [by left | by right].
    - right. split; [by apply Hbad|]. split; [by apply Hline|]. cbn [live begun]. destruct Hk as [[-> Hb] | [-> ->]]; [split; [set_solver | exact Hb] | by split]. }
  destruct Hres as [(_ & -> & -> & head & ->) | (-> & (err & ->) & k & ->)].
  - assert (Hb : forall d, d ∈ began c (Ok head) -> d = TaskDigest (event c) /\ Phase (event c) = Authorize) by (intros d Hd; by destruct (began_authorizes _ _ _ _ _ _ d Hr Hd) as (? & ? & _)).
    split; cbn [begun].
    + destruct (Hwhole l1 (began c (Ok head) ++ begun n)) as [? | ?]; [|by left | by right; right]. left. split; [done|].
      intros d [Hd | Hd]%elem_of_app; [destruct (Hb d Hd) as [-> Hp]; by apply Hau | apply Hsp; auto].
    + apply NoDup_app. split_and!; [|intros d Hd Hd'; destruct (Hb d Hd) as [-> Hp]; destruct (Hau Hp) as [Hn _]; auto | done].
      unfold began. destruct (op c); try apply NoDup_nil_2; apply NoDup_singleton.
    + intros d [Hd | Hd]%elem_of_app; [|auto]. destruct (Hb d Hd) as [-> Hp]. destruct (Hau Hp) as [Hn _]. set_solver.
  - rewrite began_err. cbn [app]. split; [|done | done]. destruct (cut_line (content n) raw k Hraw) as [-> | [-> | Htorn]].
    + left. exists l, ls, usage. cbn [content live begun poison failed]. split_and!; auto.
    + destruct (Hwhole (poison l) (begun n)) as [? | ?]; [by right | by left | by right; right].
    + by right; left.
Qed.

Lemma scan_join_app ls rest : Forall one_line ls -> scan_lines (join ls ++ rest) = ls ++ scan_lines rest.
Proof.
  clear Hkey Hvisit. induction 1 as [|r ls Hr _ IH]; [done|]. unfold join in *. rewrite fmap_cons, concat_cons, <- !app_assoc. cbn [app]. by rewrite scan_line, IH.
Qed.

(** Nothing makes a file readable again. *)
Lemma unreadable_app file extra : unreadable file -> unreadable (file ++ extra).
Proof. clear Hkey Hvisit. intros (ls & rest & err & -> & Hls & Hv). exists ls, (rest ++ extra), err. by rewrite app_assoc. Qed.

Lemma unreadable_refused o file l : unreadable file -> OpenWithLimits verify o file priv node ep lim visit <> Ok l.
Proof.
  clear Hkey Hvisit. intros (ls & rest & err & -> & Hls & Hv) H. unfold OpenWithLimits in H. destruct (_ && _) in H; [|done]. destruct (Limits_Validate lim); [|done].
  destruct (match stat o with NotExist => _ | StatError => _ | Info _ _ => _ end); [|done].
  unfold verifyFile in H. destruct (match last _ with Some c => _ | None => _ end); [|done]. by rewrite scan_join_app, verify_lines_app, Hv in H.
Qed.

Lemma shut_call start tidy bad n l c :
  bad -> shut start n -> live n = Some l -> NoDup (begun n) -> (forall d, d ∈ begun n -> d ∉ start) -> node_ok start tidy bad (act n (Call c)).
Proof.
  intros Hbad [Hun Hlive] Hlv Hdup Hfr. unfold act. rewrite Hlv in *. destruct Hlive as [Hst Hbe].
  destruct (run_call sign (content n) l c) as [[file' l'] res] eqn:Hr. destruct (call_memory _ _ _ _ _ _ Hr) as (Hsp & [extra ->] & Hb). split; cbn [begun].
  - right. right. split; [done|]. split; [by apply unreadable_app|]. cbn [live begun]. split; [set_solver|]. intros d [Hd | Hd]%elem_of_app; [by apply Hb | auto].
  - apply NoDup_app. split_and!; [|intros d Hd Hd'; destruct (Hb d Hd) as [Hn _]; auto | done].
    unfold began. destruct (op c), res; try apply NoDup_nil_2; apply NoDup_singleton.
  - intros d [Hd | Hd]%elem_of_app; [|auto]. destruct (Hb d Hd) as [Hn _]. set_solver.
Qed.

Definition good_opening : opening := mkOpening true (Info true 384) true true true true true true.

Lemma good_opens file : opens good_opening file.
Proof. done. Qed.

Lemma torn_refused o n l : torn n -> OpenWithLimits verify o (content n) priv node ep lim visit <> Ok l.
Proof.
  clear Hkey Hvisit. intros [(c & Hc & Hne) _] H. unfold OpenWithLimits in H. destruct (_ && _) in H; [|done]. destruct (Limits_Validate lim); [|done].
  destruct (match stat o with NotExist => _ | StatError => _ | Info _ _ => _ end); [|done].
  unfold verifyFile in H. rewrite Hc, (proj2 (Z.eqb_neq _ _)) in H by done. done.
Qed.

(** Whatever opens a whole file gives its ledger. *)
Lemma whole_opens start tidy n :
  whole start tidy n -> exists l, (forall o, opens o (content n) -> OpenWithLimits verify o (content n) priv node ep lim visit = Ok l) /\
    (forall o k, OpenWithLimits verify o (content n) priv node ep lim visit = Ok k -> k = l) /\
    start ⊆ spent (history l) /\ (forall d, d ∈ begun n -> d ∈ spent (history l)) /\ match live n with None => True | Some k => k = l \/ failed k = true end.
Proof.
  intros (l & ls & usage & Hi & Htidy & Ho & Hf & <- & <- & <- & Hst & Hbe & Hlive). exists l.
  assert (Hg : forall o, opens o (content n) -> OpenWithLimits verify o (content n) priv (nodeID l) (epoch l) (limits l) visit = Ok l) by (intros o; by eapply open_gives).
  split_and!; try done. intros o k Hk. eapply open_unique; [exact Hk | apply (Hg good_opening), good_opens].
Qed.

Lemma act_ok start tidy bad n a : node_ok start tidy bad n -> action_typed a -> (incoherent a -> bad) -> node_ok start tidy bad (act n a).
Proof.
  intros Hn Ha Hbad. destruct a as [c | o].
  - destruct (live n) as [l|] eqn:Hlv; [|unfold act; by rewrite Hlv]. destruct Hn as [[Hw | [Ht | [Hb Hs]]] Hd Hfr].
    + destruct (failed l) eqn:Hf; [|by eapply call_whole]. unfold act. rewrite Hlv. destruct (failed_call (content n) l c Hf) as [err ->]. rewrite began_err. cbn [app]. rewrite <- Hlv.
      destruct n. split; auto.
    + pose proof (proj2 Ht) as Hf. rewrite Hlv in Hf. unfold act. rewrite Hlv. destruct (failed_call (content n) l c Hf) as [err ->]. rewrite began_err. cbn [app]. rewrite <- Hlv.
      destruct n. split; auto.
    + by eapply shut_call.
  - unfold act, reopen. destruct Hn as [Hs Hd Hfr]. split; cbn [begun]; [|done | done]. destruct Hs as [Hw | [Ht | [Hb Hs]]].
    + left. destruct (whole_opens start tidy n Hw) as (l1 & Hop & Hun & _). destruct Hw as (l & ls & usage & Hi & Htidy & Ho & Hf & <- & <- & <- & Hst & Hbe & Hlive).
      assert (Hl : l = l1) by (eapply Hun; eapply open_gives; [exact Hi | done | done | apply good_opens]). subst l1.
      exists l, ls, usage. cbn [content live begun]. split_and!; try done. destruct (OpenWithLimits _ _ _ _ _ _ _ _) as [k|] eqn:Ek; [|done]. left. eauto.
    + right. left. destruct (OpenWithLimits _ _ _ _ _ _ _ _) as [k|] eqn:Ek; [by eapply torn_refused in Ek|]. by destruct Ht as [Ht _].
    + right. right. split; [done|]. destruct Hs as [Hs _]. split; [done|]. cbn [live content].
      destruct (OpenWithLimits _ _ _ _ _ _ _ _) as [k|] eqn:Ek; [by eapply unreadable_refused in Ek | done].
Qed.

Lemma ledger_run_ok start tidy bad n actions :
  node_ok start tidy bad n -> Forall action_typed actions -> Forall (fun a => incoherent a -> bad) actions -> node_ok start tidy bad (run n actions).
Proof.
  intros Hn Ha. revert n Hn. induction Ha as [|a actions Ha _ IH]; intros n Hn Hb; [done|]. apply Forall_cons in Hb as [Hb Hbs]. cbn [run foldl]. apply IH; [by apply act_ok | done].
Qed.

(** A node that has just opened the file. *)
Context (o : opening) (file : bytes) (l : Log).
Context (Hopen : OpenWithLimits verify o file priv node ep lim visit = Ok l) (Hnew : stat o = NotExist -> file = []).

Lemma start_ok bad : node_ok (spent (history l)) (no_cr file) bad (mkNode file (Some l) []).
Proof.
  destruct (opened_inv _ _ _ _ _ _ Hopen Hep Hnew) as (Ho & Hf & Hn & He & Hl & ls & usage & Hi).
  split; cbn [begun]; [|apply NoDup_nil_2 | intros d Hd; by apply not_elem_of_nil in Hd]. left. exists l, ls, usage. cbn [content live begun]. split_and!; try done; [|by left].
  intros d Hd. by apply not_elem_of_nil in Hd.
Qed.

Lemma run_from_start actions :
  Forall action_typed actions -> node_ok (spent (history l)) (no_cr file) (Exists incoherent actions) (run (mkNode file (Some l) []) actions).
Proof.
  intros Ha. apply ledger_run_ok; [apply start_ok | done|]. apply Forall_forall. intros a Hin Hi. apply Exists_exists. eauto.
Qed.

(** The ledger behind a handle that has not failed. *)
Lemma live_ledger actions k :
  Forall action_ok actions ->
  let n := run (mkNode file (Some l) []) actions in
  live n = Some k -> failed k = false ->
  (exists ls usage, inv (content n) k ls usage) /\ is_open k = true /\ limits k = lim /\ (no_cr file -> no_cr (content n)).
Proof.
  intros Ha n Hlv Hf. assert (Hn : node_ok (spent (history l)) (no_cr file) False n).
  { apply ledger_run_ok; [apply start_ok | |]; (eapply Forall_impl; [exact Ha|]); intros a Hok; by apply action_ok_typed in Hok as [? ?]. }
  destruct (ok_state _ _ _ _ Hn) as [Hw | [[_ Ht] | [[] _]]]; [|rewrite Hlv in Ht; congruence].
  destruct Hw as (k' & ls & usage & Hi & Htidy & Ho & _ & _ & _ & Hl & _ & _ & Hlive). rewrite Hlv in Hlive. destruct Hlive as [-> | ?]; [|congruence].
  split_and!; eauto.
Qed.

(** C3: Over any sequence of ledger calls with whatever events, system-call failures and restarts, a task is authorized at most once: the calls
    to [Begin] and [BeginInference] that succeeded name pairwise different tasks, none of which the file had spent when the node started. The calls
    may be refused, and they may carry events that the ledger writes and later refuses to read; assumed is only that the integers of an
    event are [uint64], that the clock reads a year of four digits, and that the visitor of the replay accepts. *)
Theorem task_authorized_once actions :
  Forall action_typed actions ->
  let n := run (mkNode file (Some l) []) actions in
  NoDup (begun n) /\ forall d, d ∈ begun n -> d ∉ spent (history l).
Proof. intros Ha n. by destruct (run_from_start actions Ha) as [_ Hd Hf]. Qed.

(** C10: Opening the ledger again recovers it. While the live handle has not failed, the file replays to exactly the state the handle has in memory;
    after a failed write or sync the file is refused because of its incomplete final record, or opens with every successfully authorized task spent.
    The one exception is named: when a call of the run carried an event that is not coherent (an influence hash, response digest or approval key set on an
    event that is not an authorized connector call, which [validateEvent] lets through and no caller in the repository sends), the file may hold a line that the verifier
    refuses, and then no opening succeeds any more. *)
Theorem ledger_recovers actions o' :
  Forall action_typed actions ->
  let n := run (mkNode file (Some l) []) actions in
  opens o' (content n) ->
  (match live n with
   | Some k => failed k = false -> OpenWithLimits verify o' (content n) priv node ep lim visit = Ok k
   | None => True
   end /\
   match OpenWithLimits verify o' (content n) priv node ep lim visit with
   | Ok k => (forall d, d ∈ begun n -> d ∈ spent (history k)) /\ spent (history l) ⊆ spent (history k)
   | Err _ => exists c, last (content n) = Some c /\ u8 c <> 10
   end) \/
  (Exists incoherent actions /\ unreadable (content n) /\ forall o k, OpenWithLimits verify o (content n) priv node ep lim visit <> Ok k).
Proof.
  intros Ha n Ho. pose proof (ok_state _ _ _ _ (run_from_start actions Ha)) as Hs. fold n in Hs. destruct Hs as [Hw | [Ht | [Hb [Hun _]]]].
  - left. destruct (whole_opens _ _ _ Hw) as (k & Hop & _ & Hst & Hbe & Hlive). rewrite (Hop o' Ho). split; [|done].
    destruct (live n) as [k'|]; [|done]. intros Hf. destruct Hlive as [-> | ?]; [done | congruence].
  - left. destruct (OpenWithLimits verify o' (content n) priv node ep lim visit) as [k|] eqn:Ek; [by eapply torn_refused in Ek|]. destruct Ht as [Ht Hlive]. split; [|done].
    destruct (live n) as [k'|]; [congruence | done].
  - right. split_and!; [done | done|]. intros o1 k. by apply unreadable_refused.
Qed.

End Ed25519.

(** ** A run of a node *)

Definition sample_priv : bytes := Dsse.toy_priv "k".
Definition sample_now : Z := 1700000000000000000.

Definition sample_task (c : ascii) : string := "sha256:" +:+ string_of (repeat c 64).

(** The legacy connector call of a task in one phase. *)
Definition sample_event (tenant task phase outcome error : string) (status : Z) : Event :=
  mkEvent phase outcome "" "" tenant ("executor-" +:+ string_of (repeat "a"%char 64)) zeroHash zeroHash zeroHash 1
    ("grant-" +:+ string_of (repeat "b"%char 64)) "github" "" "create-issue" "" task "" "" 0 "" "" status 12 0 error
    "" "" "" "" 0 "" "" "" "" "" "" "".
Definition sample_begin (task : ascii) (f : append_fault) : call := mkCall OpBegin sample_now f (sample_event "tenant-a" (sample_task task) Authorize Allowed "" 0).
Definition sample_finish (task : ascii) : call := mkCall OpFinish sample_now AppendOk (sample_event "tenant-a" (sample_task task) Terminal Responded "" 200).
Definition sample_log : Log :=
  mkLog true sample_priv "node-1" 1 (KeyID (public_of sample_priv)) 1 zeroHash false 0 no_history DefaultLimits ∅ ∅.
Definition accepting (r : VerifiedReceipt) : result unit := Ok tt.

(** A task is begun and finished, the node restarts, the task is presented again, and the write of another authorization is cut short. *)
Definition sample_actions : list action :=
  [Call (sample_begin "1" AppendOk); Call (sample_finish "1"); Restart good_opening; Call (sample_begin "1" AppendOk);
   Call (sample_begin "2" AppendOk); Call (sample_begin "3" (FailPayload 10)); Call (sample_begin "4" AppendOk)].

Lemma sample_key : Dsse.key_pair Dsse.toy_sign Dsse.toy_verify sample_priv (public_of sample_priv).
Proof. by apply Dsse.toy_key_pair. Qed.

Lemma sample_clock : clock_ok sample_now.
Proof. split; [split; vm_compute; congruence | done]. Qed.

Lemma sample_begin_ok task f : call_ok (sample_begin task f).
Proof. split; [apply sample_clock | split; reflexivity]. Qed.
Lemma sample_finish_ok task : call_ok (sample_finish task).
Proof. split; [apply sample_clock | split; reflexivity]. Qed.

Lemma sample_ok : Forall action_ok sample_actions.
Proof. unfold sample_actions. rewrite !Forall_cons, Forall_nil. cbn [action_ok]. split_and!; solve [auto using sample_begin_ok, sample_finish_ok]. Qed.

Lemma sample_open : OpenWithLimits Dsse.toy_verify good_opening [] sample_priv "node-1" 1 DefaultLimits accepting = Ok sample_log.
Proof. vm_compute. reflexivity. Qed.

Lemma sample_actions_typed : Forall action_typed sample_actions.
Proof. eapply Forall_impl; [apply sample_ok|]. intros a Ha. by apply action_ok_typed in Ha as [? _]. Qed.

Lemma sample_coherent : ~ Exists incoherent sample_actions.
Proof. rewrite Exists_exists. intros (a & Ha & Hi). pose proof sample_ok as Hs. rewrite Forall_forall in Hs. specialize (Hs a Ha). by apply action_ok_typed in Hs as [_ ?]. Qed.

Definition sample_run (actions : list action) : Node :=
  run Dsse.toy_sign Dsse.toy_verify sample_priv accepting "node-1" 1 DefaultLimits (mkNode [] (Some sample_log) []) actions.

Definition one_begun : list action := [Call (sample_begin "1" AppendOk)].
Definition sample_live : Log := (run_call Dsse.toy_sign [] sample_log (sample_begin "1" AppendOk)).1.2.

Lemma one_begun_ok : Forall action_ok one_begun.
Proof. apply Forall_cons. split; [apply sample_begin_ok | done]. Qed.

Lemma one_begun_live : live (sample_run one_begun) = Some sample_live.
Proof.
  unfold sample_run, run, one_begun, sample_live. cbn [foldl act live content]. by destruct (run_call _ _ _ _) as [[file l] res].
Qed.

Lemma task_authorized_once_witness :
  let n := sample_run sample_actions in NoDup (begun n) /\ forall d, d ∈ begun n -> d ∉ spent (history sample_log).
Proof.
  exact (task_authorized_once Dsse.toy_sign Dsse.toy_verify sample_priv sample_key accepting (fun _ => eq_refl) "node-1" 1 DefaultLimits
    ltac:(unfold in_u64; lia) good_opening [] sample_log sample_open (fun _ => eq_refl) sample_actions sample_actions_typed).
Defined.

Lemma ledger_recovers_witness :
  let n := sample_run (take 5 sample_actions) in
  match live n with
  | Some k => failed k = false -> OpenWithLimits Dsse.toy_verify good_opening (content n) sample_priv "node-1" 1 DefaultLimits accepting = Ok k
  | None => True
  end.
Proof.
  intros n.
  destruct (ledger_recovers Dsse.toy_sign Dsse.toy_verify sample_priv sample_key accepting (fun _ => eq_refl) "node-1" 1 DefaultLimits
    ltac:(unfold in_u64; lia) good_opening [] sample_log sample_open (fun _ => eq_refl) (take 5 sample_actions) good_opening
    (Forall_take _ 5 _ sample_actions_typed) (good_opens _)) as [[H _] | [H _]]; [exact H|].
  exfalso. apply sample_coherent. rewrite <- (take_drop 5 sample_actions). apply Exists_app. by left.
Defined.

End LedgerSafety.
