(* ===== verification/LedgerCapacity.v ===== *)
(** * The space of the connector ledger

    The reservations of [ConnectorLedger]: a call that was begun can always be finished, and a tenant within its own quota is never refused
    because of what the others wrote. *)

From Stdlib Require Import Ascii.
From S2P Require Import Prelude GoText GoTime GoFS GoJson GoCrypto Strict Dsse ConnectorEvent ConnectorReceipt ConnectorLedger LedgerReplay LedgerSafety.
Import ConnectorEvent ConnectorReceipt ConnectorLedger LedgerReplay LedgerSafety.

(** A lemma depends on the section hypotheses its proof uses. *)
Unset Default Proof Using.

Module LedgerCapacity.

(** ** The books *)

(** The tenants' bytes add up to [total], and there are no more tenants than the limits allow. *)
Definition tally (lim : Limits) (usage : gmap string Z) (total : Z) : Prop :=
  (forall t u, usage !! t = Some u -> 0 <= u) /\ msum id usage = total /\
  match TenantBudgets lim with None => Z.of_nat (size usage) <= MaxTenants lim | Some _ => True end.

Lemma tally_empty lim : Limits_Validate lim = Ok tt -> tally lim ∅ 0.
Proof.
  intros H. split_and!; [done | done|]. unfold Limits_Validate in H. destruct (TenantBudgets lim); [done|]. destruct (0 <? MaxTenants lim) eqn:E; [|done].
  apply Z.ltb_lt in E. rewrite map_size_empty. lia.
Qed.

Lemma msum_set (m : gmap string Z) t u : msum id (<[t := u]> m) = msum id m + u - default 0 (m !! t).
Proof.
  destruct (m !! t) as [v|] eqn:E; cbn [default from_option id].
  - rewrite (msum_replace id m t v) by done. unfold id. lia.
  - rewrite msum_insert by done. unfold id. lia.
Qed.

Lemma tally_set lim usage total t u :
  tally lim usage total -> 0 <= u -> is_new usage t && identities_full lim usage = false ->
  tally lim (<[t := u]> usage) (total + u - default 0 (usage !! t)).
Proof.
  intros (Hn & Ht & Hs) Hu Hf. split_and!.
  - intros t' v. destruct (decide (t = t')) as [<- | Hne]; [rewrite lookup_insert_eq; by intros [= <-]|]. rewrite lookup_insert_ne by done. apply Hn.
  - rewrite msum_set. lia.
  - unfold is_new, identities_full in Hf. destruct (TenantBudgets lim); [done|]. destruct (usage !! t) as [v|] eqn:E.
    + by rewrite map_size_insert_Some by (by rewrite E).
    + rewrite map_size_insert_None by done. cbn [andb] in Hf. apply Z.leb_gt in Hf. lia.
Qed.

Lemma tally_add lim usage total t delta usage' :
  tally lim usage total -> addTenantUsage usage t delta lim = Ok usage' -> tally lim usage' (total + delta).
Proof.
  intros Ht H. unfold addTenantUsage in H. destruct (_ && _) eqn:E in H; [done|]. cbn [negb] in H. destruct (tenantQuota lim t) as [quota|]; [|done].
  destruct (delta <? 0) eqn:Hd; [done|]. destruct (quota - delta <? _); [done|]. cbn [orb negb] in H. injection H as <-. apply Z.ltb_ge in Hd.
  pose proof Ht as (Hn & _). assert (0 <= default 0 (usage !! t)) by (destruct (usage !! t) as [u|] eqn:Eu; cbn [default from_option id]; [by eapply Hn | lia]).
  replace (total + delta) with (total + (default 0 (usage !! t) + delta) - default 0 (usage !! t)) by lia. apply tally_set; [done | lia | done].
Qed.

Lemma tally_reserve lim events : forall usage total r usage' r',
  tally lim usage total -> reserve_pending lim usage r events = Ok (usage', r') -> tally lim usage' (total + r' - r).
Proof.
  induction events as [|e events IH]; intros usage total r usage' r' Ht H; cbn [reserve_pending] in H.
  { injection H as <- <-. by replace (total + r - r) with total by lia. }
  destruct (addTenantUsage _ _ _ _) as [usage1|] eqn:Ha; [|done]. specialize (IH _ _ _ _ _ (tally_add _ _ _ _ _ _ Ht Ha) H).
  by replace (total + r' - r) with (total + pendingReservation e + r' - (r + pendingReservation e)) by lia.
Qed.

(** The bytes of the lines without their carriage returns. *)
Definition line_bytes (line : bytes) : Z := zlen (drop_cr line) + 1.

Lemma tally_replay verify lim visit public node epoch ls : forall total n prev h usage counts n' prev' h' usage' counts',
  tally lim usage total ->
  verify_lines verify (replay_record lim visit) public node epoch n prev (h, usage, counts) ls = Ok (n', prev', (h', usage', counts')) ->
  tally lim usage' (total + zsum line_bytes ls).
Proof.
  induction ls as [|line ls IH]; intros total n prev h usage counts n' prev' h' usage' counts' Ht H; cbn [verify_lines] in H.
  { injection H as <- <- <- <- <-. cbn [zsum foldr]. by rewrite Z.add_0_r. }
  destruct (verify_line _ _ _ _ _ _ _) as [record|] eqn:Hl; [|done]. unfold replay_record at 1 in H.
  destruct (updateHistory h record) as [h1|]; [|done]. destruct (addTenantUsage _ _ _ _) as [usage1|] eqn:Ha; [|done]. destruct (visit record); [|done].
  destruct (verify_line_inv _ _ _ _ _ _ _ _ Hl) as (Hraw & _). rewrite Hraw in Ha. fold (line_bytes line) in Ha.
  specialize (IH _ _ _ _ _ _ _ _ _ _ _ (tally_add _ _ _ _ _ _ Ht Ha) H). cbn [zsum foldr]. fold (zsum line_bytes ls).
  by replace (total + (line_bytes line + zsum line_bytes ls)) with (total + line_bytes line + zsum line_bytes ls) by lia.
Qed.

Lemma lines_total ls : no_cr (join ls) -> zsum line_bytes ls = zlen (join ls).
Proof.
  unfold join. induction ls as [|line ls IH]; [done|]. rewrite fmap_cons, concat_cons. unfold no_cr. rewrite !Forall_app. intros [[Hl _] Hls].
  cbn [zsum foldr]. fold (zsum line_bytes ls). rewrite IH, !zlen_app by done. change (zlen [newline]) with 1. unfold line_bytes.
  replace (drop_cr line) with line; [done|]. unfold drop_cr. destruct (last line) as [c|] eqn:E; [|done]. apply last_Some_elem_of in E.
  rewrite Forall_forall in Hl. by rewrite (proj2 (Z.eqb_neq _ _)) by (by apply Hl).
Qed.

(** ** Quotas *)

Lemma zsum_fmap {A B} (f : B -> Z) (g : A -> B) l : zsum f (g <$> l) = zsum (fun x => f (g x)) l.
Proof. unfold zsum. induction l as [|x l IH]; [done|]. cbn [fmap list_fmap foldr]. by rewrite <- IH. Qed.

Lemma check_budgets_total budgets : forall total,
  check_budgets total budgets = Ok tt -> total <= MaxLogBytes ->
  total + zsum snd budgets <= MaxLogBytes /\ Forall (fun b => 0 <= b.2) budgets.
Proof.
  induction budgets as [|[t q] budgets IH]; intros total H Ht; cbn [check_budgets] in H; [cbn [zsum foldr]; split; [lia | done]|].
  destruct (publicIdentity t 128); [|done]. destruct (minimumTenantBytes <=? q) eqn:Hq; [|done]. destruct (total <=? MaxLogBytes - q) eqn:Hc; [|done].
  apply Z.leb_le in Hq, Hc. assert (minimumTenantBytes = 262146) by reflexivity. destruct (IH _ H ltac:(lia)) as [Hs Hf]. cbn [zsum foldr snd]. fold (zsum snd budgets).
  split; [lia|]. constructor; [cbn [snd]; lia | done].
Qed.

Lemma msum_below (m : gmap string Z) : forall budgets : gmap string Z,
  (forall t u, m !! t = Some u -> exists q, budgets !! t = Some q /\ u <= q) -> (forall t q, budgets !! t = Some q -> 0 <= q) ->
  msum id m <= msum id budgets.
Proof.
  induction m as [|t u m Hm IH] using map_ind; intros budgets Hb Hq; [apply zsum_nonneg; intros x Hx; apply elem_of_map_values in Hx as (t & Ht); eauto|].
  destruct (Hb t u) as (q & Hbt & Hle); [by rewrite lookup_insert_eq|]. rewrite msum_insert, (msum_delete id budgets t q) by done.
  assert (msum id m <= msum id (delete t budgets)); [|unfold id in *; lia]. apply IH.
  - intros t' v Hv. destruct (decide (t = t')) as [<- | Hne]; [congruence|]. rewrite lookup_delete_ne by done. apply Hb. by rewrite lookup_insert_ne.
  - intros t' v [_ Hv]%lookup_delete_Some. eauto.
Qed.

Lemma msum_uniform (m : gmap string Z) q : (forall t u, m !! t = Some u -> u <= q) -> msum id m <= Z.of_nat (size m) * q.
Proof.
  induction m as [|t u m Hm IH] using map_ind; intros Hq; [done|]. rewrite msum_insert, map_size_insert_None by done.
  pose proof (Hq t u (lookup_insert_eq _ _ _)). assert (msum id m <= Z.of_nat (size m) * q); [|unfold id in *; lia].
  apply IH. intros t' v Hv. apply (Hq t'). rewrite lookup_insert_ne; [done | congruence].
Qed.

(** Tenants within their quotas are together within the log. *)
Lemma quotas_total lim usage total :
  Limits_Validate lim = Ok tt -> tally lim usage total -> (forall t u, usage !! t = Some u -> within lim t u) -> total <= MaxLogBytes.
Proof.
  intros Hv (_ & <- & Hs) Hw. unfold Limits_Validate in Hv. unfold within, tenantQuota in Hw. destruct (TenantBudgets lim) as [budgets|].
  - destruct (_ && _) in Hv; [|done]. destruct (_ <=? _) in Hv; [|done]. destruct (check_budgets_total _ _ Hv) as [Ht Hf]; [vm_compute; congruence|].
    etransitivity; [apply (msum_below usage budgets)|].
    + intros t u Hu. destruct (Hw t u Hu) as (q & Hq & Hle). unfold opt_ok in Hq. destruct (budgets !! t); [|done]. injection Hq as ->. eauto.
    + intros t q Hq. apply elem_of_map_to_list in Hq. rewrite Forall_forall in Hf. by apply (Hf (t, q)).
    + unfold msum, values. rewrite zsum_fmap. exact Ht.
  - destruct (0 <? MaxTenants lim) eqn:E1; [|done]. destruct (minimumTenantBytes <=? _) eqn:E2; [|done]. destruct (_ <=? MaxLogBytes / _) eqn:E3; [|done].
    apply Z.ltb_lt in E1. apply Z.leb_le in E2, E3. assert (minimumTenantBytes = 262146) by reflexivity.
    etransitivity; [apply (msum_uniform usage (MaxBytesPerTenant lim))|].
    + intros t u Hu. destruct (Hw t u Hu) as (q & [= <-] & Hle). done.
    + pose proof (Z.mul_div_le MaxLogBytes (MaxBytesPerTenant lim) ltac:(lia)). nia.
Qed.

(** ** Appending within the space *)

Section Ed25519.
Context (sign : bytes -> bytes -> bytes) (verify : bytes -> bytes -> bytes -> bool).
Context (priv : bytes) (Hkey : Dsse.key_pair sign verify priv (public_of priv)).
Context (visit : VerifiedReceipt -> result unit) (Hvisit : forall r, visit r = Ok tt).

Notation inv := (ledger_inv verify priv visit).

(** The books of a ledger: its file and its reservations. *)
Lemma ledger_tally file l ls usage :
  inv file l ls usage -> is_open l = true -> failed l = false ->
  tally (limits l) usage (zsum line_bytes ls) /\ (no_cr file -> tally (limits l) (tenantBytes l) (zlen file + reserved l)).
Proof.
  intros Hi Ho Hf. pose proof (tally_replay verify (limits l) visit _ _ _ ls 0 _ _ _ _ _ _ _ _ _ _ (tally_empty _ (inv_limits Hi)) (inv_replay Hi)) as Ht.
  cbn [Z.add] in Ht. split; [done|]. intros Hcr. rewrite (inv_file Hi) in Hcr. rewrite lines_total, <- (inv_file Hi) in Ht by done.
  destruct (reserve_pending_spec (limits l) (values (pending (history l))) usage 0) as (usage' & Hres & Hus).
  { intros e He. apply elem_of_map_values in He as (k & Hk). by eapply inv_owner. }
  { intros t u Hu. apply (inv_quota Hi). rewrite (inv_tenants Hi), Hu. done. }
  assert (usage' = tenantBytes l) as -> by (apply map_eq; intros t; by rewrite Hus, (inv_tenants Hi)).
  apply (tally_reserve _ _ _ _ _ _ _ Ht) in Hres. rewrite (inv_reserved Hi). fold (msum pendingReservation (pending (history l))) in Hres.
  by replace (zlen file + msum pendingReservation (pending (history l))) with (zlen file + (0 + msum pendingReservation (pending (history l))) - 0) by lia.
Qed.

Definition fits (c : call) (file : bytes) (l : Log) (delta : Z) : Prop :=
  exists file' l' head, appendLocked sign (at_time c) (fault c) file l (event c) delta = (file', l', Ok head).

Section append.
Context (file : bytes) (l : Log) (ls : list bytes) (usage : gmap string Z) (Hi : inv file l ls usage) (Ho : is_open l = true) (Hf : failed l = false).
Context (c : call) (Hnow : clock_ok (at_time c)) (Htyped : event_typed (event c) = true) (Hfault : fault c = AppendOk).
Context (Hvalid : validateEvent (event c) = Ok tt).

(** The line is at most [MaxLineBytes] long: with room for as much, the append succeeds. *)
Lemma room_fits delta :
  0 <= reserved l + delta -> zlen file + terminalReserveBytes + (reserved l + delta) <= MaxLogBytes ->
  0 <= default 0 (tenantBytes l !! TenantID (event c)) + delta ->
  within (limits l) (TenantID (event c)) (default 0 (tenantBytes l !! TenantID (event c)) + terminalReserveBytes + delta) ->
  is_new (tenantBytes l) (TenantID (event c)) && identities_full (limits l) (tenantBytes l) = false -> fits c file l delta.
Proof.
  intros H1 H2 H3 (quota & Hq & Hle) Hn. pose proof (inv_chain Hi) as Hc. pose proof (chain_next Hc) as Hnx.
  assert (Hco : coordinate_ok (head_of (history l) (event c))) by (eapply (head_coordinate (next l - 1)); [lia | apply (inv_history Hi)]).
  destruct (signed_line_spec sign verify priv Hkey l _ _ Hc Hco Hnow Hvalid Htyped) as (raw & _ & Hs & _ & Hlen & _).
  unfold terminalReserveBytes in *. unfold fits. rewrite Hfault. do 3 eexists. apply (appendLocked_room sign _ _ _ _ _ (receipt_of l (at_time c) (event c)) raw); [|lia].
  unfold wrote. split_and!; try done; [by apply receipt_for_ok | lia|]. exists quota. split; [done | lia].
Qed.

(** A call that is pending has the space of its next line reserved. *)
Lemma pending_fits previous delta :
  pending (history l) !! TaskDigest (event c) = Some previous -> TenantID previous = TenantID (event c) ->
  - pendingReservation previous <= delta <= - terminalReserveBytes -> fits c file l delta.
Proof.
  intros Hp Ht Hd. pose proof (reservation_pos previous) as Hr. destruct (inv_owner Hi _ _ Hp) as [u Hu]. rewrite Ht in Hu.
  pose proof (inv_tenants Hi (TenantID (event c))) as Hten. rewrite Hu in Hten. cbn [fmap option_fmap option_map] in Hten.
  assert (0 <= u) by (destruct (ledger_tally _ _ _ _ Hi Ho Hf) as [(Hnn & _) _]; eauto).
  assert (pendingReservation previous <= reserved l).
  { rewrite (inv_reserved Hi), (msum_delete _ _ _ _ Hp). pose proof (msum_nonneg pendingReservation (delete (TaskDigest (event c)) (pending (history l))) (fun e => ltac:(pose proof (reservation_pos e); lia))). lia. }
  assert (pendingReservation previous <= msum (owed (TenantID (event c))) (pending (history l))).
  { rewrite (msum_delete _ _ _ _ Hp). unfold owed at 1. rewrite Ht, String.eqb_refl.
    pose proof (msum_nonneg (owed (TenantID (event c))) (delete (TaskDigest (event c)) (pending (history l))) (owed_nonneg _)). lia. }
  pose proof (inv_capacity Hi). destruct (inv_quota Hi _ _ Hten) as (quota & Hq & Hle).
  apply room_fits; unfold is_new; rewrite ?Hten; cbn [default from_option id andb]; try lia; try done. exists quota. split; [done | lia].
Qed.

(** A tenant's quota is its own. *)
Lemma quota_fits delta :
  no_cr file -> 0 <= delta ->
  within (limits l) (TenantID (event c)) (default 0 (tenantBytes l !! TenantID (event c)) + terminalReserveBytes + delta) ->
  is_new (tenantBytes l) (TenantID (event c)) && identities_full (limits l) (tenantBytes l) = false -> fits c file l delta.
Proof.
  intros Hcr Hd Hw Hn. destruct (ledger_tally _ _ _ _ Hi Ho Hf) as [_ Ht]. specialize (Ht Hcr). pose proof Ht as (Hnn & _). pose proof (reserved_nonneg _ _ _ _ _ _ _ Hi).
  set (t := TenantID (event c)) in *. set (u := default 0 (tenantBytes l !! t)) in *. assert (terminalReserveBytes = 131073) by reflexivity.
  assert (0 <= u) by (unfold u; destruct (tenantBytes l !! t) as [v|] eqn:Ev; cbn [default from_option id]; [by eapply Hnn | lia]).
  apply room_fits; fold t u; try done; try lia.
  pose proof (tally_set (limits l) (tenantBytes l) (zlen file + reserved l) t (u + terminalReserveBytes + delta) Ht ltac:(lia) Hn) as Ht'. fold u in Ht'.
  apply quotas_total in Ht'; [lia | apply (inv_limits Hi)|]. intros t' v. destruct (decide (t = t')) as [<- | Hne]; [rewrite lookup_insert_eq; by intros [= <-]|].
  rewrite lookup_insert_ne by done. apply (inv_quota Hi).
Qed.

End append.

(** ** Guarantees over whole runs *)

Context (node : string) (ep : Z) (lim : Limits) (Hep : in_u64 ep) (o : opening) (file : bytes) (l : Log).
Context (Hopen : OpenWithLimits verify o file priv node ep lim visit = Ok l) (Hnew : stat o = NotExist -> file = []).

(** The call succeeds. *)
Definition succeeds (n : Node) (k : Log) (c : call) : Prop := exists file' k' head, run_call sign (content n) k c = (file', k', Ok head).

(** C32: A call that the ledger let begin can always be completed: whatever calls, failures and restarts came before, on a handle that has not
    failed the dispatch and the terminal receipt of a pending call are written when the system calls succeed, since every begun call holds
    the space of its remaining lines, in its tenant's quota and in the log. *)
Theorem begun_call_completes actions c k previous :
  Forall action_ok actions ->
  let n := run sign verify priv visit node ep lim (mkNode file (Some l) []) actions in
  live n = Some k -> failed k = false ->
  clock_ok (at_time c) -> event_typed (event c) = true -> fault c = AppendOk -> validateEvent (event c) = Ok tt ->
  pending (history k) !! TaskDigest (event c) = Some previous -> validateTransition previous (event c) = Ok tt ->
  op c = OpFinish /\ Phase (event c) = Terminal \/
  op c = OpDispatch /\ Phase (event c) = Dispatch /\ validateRunControlOwner (event c) (runOwners (history k)) = Ok tt /\ run_conflict (history k) (event c) = false ->
  succeeds n k c.
Proof.
  intros Ha n Hlv Hf Hnow Hty Hfa Hv Hp Htr Hop. destruct (transition_inv _ _ Htr) as (Hten & Hpr & _ & _ & Hph).
  destruct (live_ledger sign verify priv Hkey visit Hvisit node ep lim Hep o file l Hopen Hnew actions k Ha Hlv Hf) as ((ls & usage & Hi) & Ho & _ & _).
  fold n in Hi. unfold succeeds, run_call. destruct Hop as [[-> Hphase] | (-> & Hphase & Hro & Hrc)].
  - unfold Finish, continues. rewrite Hv, Hphase, Hp, Htr. change (String.eqb Terminal Terminal) with true. cbn [is_ok].
    pose proof (reservation_pos previous). destruct (pending_fits _ _ _ _ Hi Ho Hf c Hnow Hty Hfa Hv previous (- pendingReservation previous) Hp Hten ltac:(lia)) as (file' & k' & head & ->). eauto.
  - unfold Dispatch_, continues. rewrite Hv, Hphase, Hp, Htr, Hro, Hrc. change (String.eqb Dispatch Dispatch) with true. cbn [is_ok negb].
    pose proof (dispatch_protocol _ Hv Hphase) as Hl. specialize (Hph Hphase ltac:(by rewrite Hl)).
    assert (Hr1 : pendingReservation previous = 2 * terminalReserveBytes) by (unfold pendingReservation; by rewrite Hpr, Hl, Hph).
    pose proof (reservation_pos previous). destruct (pending_fits _ _ _ _ Hi Ho Hf c Hnow Hty Hfa Hv previous (- terminalReserveBytes) Hp Hten ltac:(lia)) as (file' & k' & head & ->). eauto.
Qed.

(** A tenant's byte quota is guaranteed: when the file had no carriage returns, a fresh valid authorization whose tenant has room in its own
    quota for one line and the reservation, and is known or finds a free identity, is accepted, however much the other tenants wrote. *)
Theorem tenant_quota_guaranteed actions c k :
  Forall action_ok actions ->
  let n := run sign verify priv visit node ep lim (mkNode file (Some l) []) actions in
  no_cr file -> live n = Some k -> failed k = false ->
  op c = OpBegin -> clock_ok (at_time c) -> event_typed (event c) = true -> fault c = AppendOk -> validateEvent (event c) = Ok tt ->
  Phase (event c) = Authorize -> TaskDigest (event c) ∉ spent (history k) ->
  validateRunControlOwner (event c) (runOwners (history k)) = Ok tt -> validateInferenceScopeOwner (event c) (pending (history k)) = Ok tt ->
  within lim (TenantID (event c)) (default 0 (tenantBytes k !! TenantID (event c)) + terminalReserveBytes + pendingReservation (event c)) ->
  is_new (tenantBytes k) (TenantID (event c)) && identities_full lim (tenantBytes k) = false ->
  succeeds n k c.
Proof.
  intros Ha n Hcr Hlv Hf Hop Hnow Hty Hfa Hv Hph Hsp Hro Hsc Hw Hid.
  destruct (live_ledger sign verify priv Hkey visit Hvisit node ep lim Hep o file l Hopen Hnew actions k Ha Hlv Hf) as ((ls & usage & Hi) & Ho & Hl & Hno).
  fold n in Hi, Hno. rewrite <- Hl in Hw, Hid. pose proof (reservation_pos (event c)). unfold succeeds, run_call. rewrite Hop. unfold Begin, begin.
  rewrite Hv, Hph, Hro, Hsc, Hf, Ho, bool_decide_false by done. change (String.eqb Authorize Authorize) with true. cbn [negb orb andb]. change (0 <? 0) with false. cbn [andb negb].
  destruct (quota_fits _ _ _ _ Hi Ho Hf c Hnow Hty Hfa Hv (pendingReservation (event c)) (Hno Hcr) ltac:(lia) Hw Hid) as (file' & k' & head & ->). eauto.
Qed.

End Ed25519.

(** ** A run of a node *)

Ltac run_it := vm_compute; reflexivity.

Lemma begun_call_completes_witness : succeeds Dsse.toy_sign (sample_run one_begun) sample_live (sample_finish "1").
Proof.
  apply (begun_call_completes Dsse.toy_sign Dsse.toy_verify sample_priv sample_key accepting (fun _ => eq_refl) "node-1" 1 DefaultLimits
    ltac:(unfold in_u64; lia) good_opening [] sample_log sample_open (fun _ => eq_refl) one_begun (sample_finish "1") sample_live
    (event (sample_begin "1" AppendOk)) one_begun_ok one_begun_live);
    [run_it | apply sample_clock | run_it | run_it | run_it | run_it | run_it | left; split; run_it].
Defined.

Lemma tenant_quota_guaranteed_witness : succeeds Dsse.toy_sign (sample_run []) sample_log (sample_begin "1" AppendOk).
Proof.
  apply (tenant_quota_guaranteed Dsse.toy_sign Dsse.toy_verify sample_priv sample_key accepting (fun _ => eq_refl) "node-1" 1 DefaultLimits
    ltac:(unfold in_u64; lia) good_opening [] sample_log sample_open (fun _ => eq_refl) [] (sample_begin "1" AppendOk) sample_log (Forall_nil_2 _));
    [constructor | reflexivity | reflexivity | reflexivity | apply sample_clock | run_it | run_it | run_it | run_it | | run_it | run_it | | run_it].
  - apply not_elem_of_empty.
  - exists DefaultMaxBytesPerTenant. split; [reflexivity | vm_compute; congruence].
Defined.

End LedgerCapacity.
