(* ===== verification/LedgerAudit.v ===== *)
(** * Auditing the connector ledger

    What a verified ledger file says about its history, and which events the ledger writes but does not read back. *)

From Stdlib Require Import Ascii.
From S2P Require Import Prelude GoText GoTime GoFS GoJson GoCrypto Strict Dsse ConnectorEvent ConnectorReceipt ConnectorLedger LedgerReplay LedgerSafety.
Import ConnectorEvent ConnectorReceipt ConnectorLedger LedgerReplay LedgerSafety.

(** A lemma depends on the section hypotheses its proof uses. *)
Unset Default Proof Using.

Module LedgerAudit.

(** The records of a file, as they are hashed. *)
Definition records (file : bytes) : list bytes := drop_cr <$> scan_lines file.

Section Ed25519.
Context (sign : bytes -> bytes -> bytes) (verify : bytes -> bytes -> bytes -> bool).

(** A record names its predecessor. *)
Lemma verify_line_previous public node epoch n m prev prev' line line' record record' :
  verify_line verify public node epoch n prev line = Ok record -> verify_line verify public node epoch m prev' line' = Ok record' ->
  drop_cr line = drop_cr line' -> prev = prev'.
Proof.
  assert (Hp : forall r t n p, validateReceipt r t node epoch n p = Ok tt -> PreviousHash r = p).
  { intros r t k p H. unfold validateReceipt in H. destruct (_ && _) eqn:E in H; [|done]. apply andb_true_iff in E as [_ E]. by apply String.eqb_eq. }
  unfold verify_line. intros H H' E. rewrite E in H. clear E. destruct (zlen line <=? _); [|done]. destruct (zlen line' <=? _); [|done]. destruct (negb _); [|done].
  destruct (Dsse.Parse _) as [envelope|]; [|done]. destruct (known_format _); [|done]. destruct (Dsse.Verify _ _ _ _) as [[payload keyID]|]; [|done].
  destruct (String.eqb _ _); [|done]. destruct (DecodeStrictInto _ _) as [receipt|]; [|done].
  destruct (validateReceipt receipt _ _ _ n prev) as [[]|] eqn:E; [|done]. destruct (validateReceipt receipt _ _ _ m prev') as [[]|] eqn:E'; [|done].
  by rewrite <- (Hp _ _ _ _ E), <- (Hp _ _ _ _ E').
Qed.

(** Two different records with the same hash at the same place. *)
Definition collide (ls ks : list bytes) : Prop :=
  exists (i : nat) a b, ls !! i = Some a /\ ks !! i = Some b /\ a <> b /\ Sha256.sum (chainDomain ++ a) = Sha256.sum (chainDomain ++ b).

Lemma chains_agree {A B} (visitA : A -> VerifiedReceipt -> result A) (visitB : B -> VerifiedReceipt -> result B) public node epoch s t ls :
  forall ks n hash s' t',
  verify_lines verify visitA public node epoch 0 zeroHash s ls = Ok (n, hash, s') ->
  verify_lines verify visitB public node epoch 0 zeroHash t ks = Ok (n, hash, t') ->
  drop_cr <$> ls = drop_cr <$> ks \/ collide (drop_cr <$> ls) (drop_cr <$> ks).
Proof.
  induction ls as [|x ls IH] using rev_ind; intros ks n hash s' t' H K.
  { apply verify_lines_number in H, K. destruct ks as [|y ks]; [by left|]. rewrite zlen_cons in K. change (zlen (@nil bytes)) with 0 in H. pose proof (zlen_nonneg ks). lia. }
  pose proof (verify_lines_number _ _ _ _ _ _ _ _ _ _ _ _ H) as Hn. pose proof (verify_lines_number _ _ _ _ _ _ _ _ _ _ _ _ K) as Kn.
  destruct ks as [|y ks _] using rev_ind; [rewrite zlen_app in Hn; change (zlen [x]) with 1 in Hn; change (zlen (@nil bytes)) with 0 in Kn; pose proof (zlen_nonneg ls); lia|].
  rewrite !zlen_app in Hn, Kn. change (zlen [x]) with 1 in Hn. change (zlen [y]) with 1 in Kn. rewrite verify_lines_app in H, K.
  destruct (verify_lines _ _ _ _ _ _ _ _ ls) as [[[n1 h1] s1]|] eqn:Hl; [|done]. destruct (verify_lines _ _ _ _ _ _ _ _ ks) as [[[n2 h2] t1]|] eqn:Kl; [|done].
  cbn [verify_lines] in H, K. destruct (verify_line _ _ _ _ _ _ x) as [r|] eqn:Hx; [|done]. destruct (verify_line _ _ _ _ _ _ y) as [q|] eqn:Ky; [|done].
  destruct (visitA s1 r) as [s2|]; [|done]. destruct (visitB t1 q) as [t2|]; [|done]. injection H as _ Hh _. injection K as _ Kh _.
  destruct (verify_line_inv _ _ _ _ _ _ _ _ Hx) as (Hr & Hrh & _). destruct (verify_line_inv _ _ _ _ _ _ _ _ Ky) as (Hq & Hqh & _).
  rewrite !fmap_app. cbn [fmap list_fmap]. assert (Hlen : length (drop_cr <$> ls) = length (drop_cr <$> ks)) by (rewrite !length_fmap; unfold zlen in *; lia).
  destruct (decide (drop_cr x = drop_cr y)) as [E | E].
  - assert (h1 = h2) as <- by (eapply verify_line_previous; [exact Hx | exact Ky | exact E]).
    assert (n1 = n2) as <- by (apply verify_lines_number in Hl, Kl; lia). destruct (IH ks _ _ _ _ eq_refl Kl) as [-> | (i & a & b & Ha & Hb & Hc)].
    + left. by rewrite E.
    + right. exists i, a, b. split_and!; [by apply lookup_app_l_Some.. | apply Hc | apply Hc].
  - right. exists (length (drop_cr <$> ls)), (drop_cr x), (drop_cr y). split_and!; try done.
    + by apply list_lookup_middle.
    + by apply list_lookup_middle.
    + apply sha256_text_inj. change (hashLine (drop_cr x) = hashLine (drop_cr y)). rewrite <- Hr, <- Hq, <- Hrh, <- Hqh. congruence.
Qed.

(** C33: A ledger head pins the history: two files that verify under the same key, node and epoch to the same head hold the same records in the same
    order, unless two of their records at one place are different and have the same SHA-256 digest. The heads may come from different
    visitors, and need no trust in either file. *)
Theorem head_pins_history {A B} (visitA : A -> VerifiedReceipt -> result A) (visitB : B -> VerifiedReceipt -> result B) s t fileA fileB public node epoch head s' t' :
  verifyFile verify visitA s fileA public node epoch = Ok (head, s') -> verifyFile verify visitB t fileB public node epoch = Ok (head, t') ->
  records fileA = records fileB \/ collide (records fileA) (records fileB).
Proof.
  unfold verifyFile. intros H K. destruct (match last fileA with Some c => _ | None => _ end); [|done]. destruct (match last fileB with Some c => _ | None => _ end); [|done].
  destruct (verify_lines _ visitA _ _ _ _ _ _ _) as [[[n h] s1]|] eqn:Hl; [|done]. destruct (verify_lines _ visitB _ _ _ _ _ _ _) as [[[n2 h2] t1]|] eqn:Kl; [|done].
  injection H as <- <-. injection K as <- <- _. unfold records. eapply chains_agree; [exact Hl | exact Kl].
Qed.

(** ** Events that are written and not read back *)

Context (priv : bytes) (Hkey : Dsse.key_pair sign verify priv (public_of priv)).
Context (visit : VerifiedReceipt -> result unit).

(** The ledger accepts an event that is valid but not [coherent], such as a denied service task that names an influence hash: the call succeeds, and
    after it the file can never be opened again, with all the other tenants' receipts in it. *)
Theorem incoherent_event_closes_ledger file l ls usage c file' l' head o :
  ledger_inv verify priv visit file l ls usage -> clock_ok (at_time c) -> event_typed (event c) = true -> coherent (event c) = false ->
  run_call sign file l c = (file', l', Ok head) ->
  forall k, OpenWithLimits verify o file' priv (nodeID l) (epoch l) (limits l) visit <> Ok k.
Proof.
  intros Hi Hnow Ht Hcoh Hr k Hk. destruct (call_called sign verify priv visit _ _ _ _ _ _ _ _ Hi Hr) as [(_ & _ & err & E) | (raw & delta & h & Hv & Hw & _ & _ & Hres)]; [discriminate E|].
  destruct Hres as [(_ & -> & _) | (_ & (err & E) & _)]; [|discriminate E]. destruct Hw as (_ & _ & _ & Hs & _).
  pose proof (inv_chain Hi) as Hc. pose proof (chain_next Hc) as Hn.
  assert (Hco : coordinate_ok (head_of (history l) (event c))) by (eapply (head_coordinate (next l - 1)); [lia | apply (inv_history Hi)]).
  assert (Hone : one_line raw).
  { destruct (signed_line_spec sign verify priv Hkey l _ _ Hc Hco Hnow Hv Ht) as (raw' & _ & Hs' & Hctl & _). rewrite Hs in Hs'. injection Hs' as <-.
    eapply Forall_impl; [exact Hctl|]. simpl. lia. }
  assert (Hjoin : file ++ raw ++ [newline] = join (ls ++ [raw])).
  { rewrite join_app, (inv_file Hi). unfold join at 3. cbn [fmap list_fmap concat]. by rewrite app_nil_r. }
  unfold OpenWithLimits in Hk. destruct (_ && _) in Hk; [|done]. destruct (Limits_Validate _); [|done].
  destruct (match stat o with NotExist => _ | StatError => _ | Info _ _ => _ end); [|done].
  unfold verifyFile in Hk. rewrite Hjoin, last_join, scan_join in Hk by (apply Forall_app; split; [apply (inv_lines Hi) | by constructor]).
  rewrite verify_lines_app in Hk. destruct (verify_lines _ _ _ _ _ _ _ _ ls) as [[[n p] s]|]; [|done]. cbn [verify_lines] in Hk.
  destruct (verify_line _ _ _ _ _ _ raw) as [record|] eqn:El; [|done]. by eapply (incoherent_refused sign) in El.
Qed.

End Ed25519.

(** ** A run of a node *)

(** The file after one authorization. *)
Definition sample_file : bytes := content (sample_run one_begun).

Lemma head_pins_history_witness :
  exists head s, verifyFile Dsse.toy_verify (replay_record (limits sample_live) accepting) (no_history, ∅, ∅) sample_file
      (public_of sample_priv) (nodeID sample_live) (epoch sample_live) = Ok (head, s) /\
    (records sample_file = records sample_file \/ collide (records sample_file) (records sample_file)).
Proof.
  destruct (live_ledger Dsse.toy_sign Dsse.toy_verify sample_priv sample_key accepting (fun _ => eq_refl) "node-1" 1 DefaultLimits
    ltac:(unfold in_u64; lia) good_opening [] sample_log sample_open (fun _ => eq_refl) one_begun sample_live one_begun_ok one_begun_live
    ltac:(vm_compute; reflexivity)) as ((ls & usage & Hi) & _).
  pose proof (ledger_verifies Dsse.toy_verify sample_priv accepting _ _ _ _ Hi) as V. do 2 eexists. split; [exact V|].
  exact (head_pins_history Dsse.toy_verify _ _ _ _ _ _ _ _ _ _ _ _ V V).
Defined.

(** A denied connector call that names an influence hash. *)
Definition stray_denial : Event :=
  mkEvent Deny Denied "" "" "tenant-a" ("executor-" +:+ string_of (repeat "a"%char 64)) zeroHash zeroHash zeroHash 1
    ("grant-" +:+ string_of (repeat "b"%char 64)) "github" "" "create-issue" "" (sample_task "1") "" "" 0 "" "" 0 12 0 "policy" "" "" "" "" 0 zeroHash
    "" "" "" "" "" "".

Example stray_denial_closes_ledger :
  match Append Dsse.toy_sign sample_now AppendOk [] sample_log stray_denial with
  | (file, _, Ok _) => OpenWithLimits Dsse.toy_verify good_opening file sample_priv "node-1" 1 DefaultLimits accepting
      = Err "connector receipt schema does not match its permit fields"
  | (_, _, Err _) => False
  end.
Proof. vm_compute. reflexivity. Qed.

End LedgerAudit.
