(* ===== verification/AgentModel.v ===== *)
(** * Agent applications ([src/internal/agentapp/model.go], [templates.go])

    Portable agent definitions and bundles: their JSON form, validation, digests, building and the built-in templates. A slice is [None] when nil. *)

From Stdlib Require Import Ascii.
From S2P Require Import Prelude GoText GoTime GoJson GoRune GoCrypto Strict.

Module AgentModel.

Definition DefinitionSchema : string := "steward.agent.v1".
Definition BundleSchema : string := "steward.agent.bundle.v1".
Definition InventorySchema : string := "steward.nodes.v1".
Definition SnapshotSchema : string := "steward.agent.snapshot.v1".
Definition ForkSchema : string := "steward.agent.fork.v1".
Definition MaxArtifactBytes : Z := Z.shiftl 1 20.
Definition HermesAdapterContractV1 : string := "steward.hermes-agent.v1".
Definition HermesAdapterContractV2 : string := "steward.hermes-agent.v2".

(** [agentservice.RuntimeEngine] and [agentservice.AdapterContractV1]. *)
Definition RuntimeEngine : string := "agent-service".
Definition AdapterContractV1 : string := "steward.agent-service.v1".

(** ** Data *)

Record Runtime := mkRuntime {
  rt_Engine : string; rt_Image : string; rt_AdapterContract : string }.

Record Model := mkModel {
  md_Route : string }.

Record CapabilityRequests := mkCapabilityRequests {
  cp_EgressRouteIDs : option (list string); cp_ConnectorIDs : option (list string); cp_ControllerEvents : bool }.

Record Resources := mkResources {
  rs_CPUMillis : Z; rs_MemoryMiB : Z; rs_DiskMiB : Z; rs_PIDs : Z }.

Record Label := mkLabel {
  lb_Key : string; lb_Value : string }.

Record Placement := mkPlacement {
  pl_Architectures : option (list string); pl_Isolation : string; pl_RequiredLabels : option (list Label); pl_PreferredLabels : option (list Label);
  pl_Tolerations : option (list string); pl_SpreadBy : string }.

Record State := mkState {
  st_Persistent : bool; st_SnapshotID : string }.

Record Lifetime := mkLifetime {
  lt_Mode : string; lt_TTLSeconds : Z; lt_OnExpiry : string }.

Record PolicyEvidence := mkPolicyEvidence {
  pe_BundleDigest : string; pe_Query : string; pe_Allowed : bool }.

Record AgentDefinition := mkAgentDefinition {
  df_Schema : string; df_Name : string; df_Runtime : Runtime; df_ToolProfile : string; df_Model : Model; df_Skills : option (list string);
  df_MCP : option (list string); df_Capabilities : CapabilityRequests; df_Resources : Resources; df_Placement : Placement; df_State : State;
  df_Lifetime : Lifetime }.

Record Bundle := mkBundle {
  bn_Schema : string; bn_SourceDigest : string; bn_Definition : AgentDefinition; bn_Policy : option PolicyEvidence }.

(** ** JSON *)

Definition zero_Runtime : Runtime := mkRuntime "" "" "".

#[global] Instance Runtime_json : GoJSON Runtime := {
  go_shape := KStruct [
    ("engine", KString); ("image", KString); ("adapter_contract", KString)]%string;
  to_json x := obj [
    always "engine" (JStr (rt_Engine x)); always "image" (JStr (rt_Image x)); always "adapter_contract" (JStr (rt_AdapterContract x))];
  of_json v := match v with
    | JObj fs =>
        v_Engine ← field fs "engine" dec_string ""%string; v_Image ← field fs "image" dec_string ""%string;
        v_AdapterContract ← field fs "adapter_contract" dec_string ""%string;
        Some (mkRuntime v_Engine v_Image v_AdapterContract)
    | _ => None end;
  storable x :=
    utf8_valid (rt_Engine x) && utf8_valid (rt_Image x) && utf8_valid (rt_AdapterContract x);
}.

Definition zero_Model : Model := mkModel "".

#[global] Instance Model_json : GoJSON Model := {
  go_shape := KStruct [
    ("route", KString)]%string;
  to_json x := obj [
    always "route" (JStr (md_Route x))];
  of_json v := match v with
    | JObj fs =>
        v_Route ← field fs "route" dec_string ""%string;
        Some (mkModel v_Route)
    | _ => None end;
  storable x :=
    utf8_valid (md_Route x);
}.

Definition zero_CapabilityRequests : CapabilityRequests := mkCapabilityRequests None None false.

#[global] Instance CapabilityRequests_json : GoJSON CapabilityRequests := {
  go_shape := KStruct [
    ("egress_route_ids", KSlice (go_shape (A := string))); ("connector_ids", KSlice (go_shape (A := string))); ("controller_events", KBool)]%string;
  to_json x := obj [
    omitempty "egress_route_ids" (nil_slice (cp_EgressRouteIDs x)) (enc_slice to_json (cp_EgressRouteIDs x));
    omitempty "connector_ids" (nil_slice (cp_ConnectorIDs x)) (enc_slice to_json (cp_ConnectorIDs x));
    omitempty "controller_events" (negb (cp_ControllerEvents x)) (JBool (cp_ControllerEvents x))];
  of_json v := match v with
    | JObj fs =>
        v_EgressRouteIDs ← field fs "egress_route_ids" (dec_slice of_json) None; v_ConnectorIDs ← field fs "connector_ids" (dec_slice of_json) None;
        v_ControllerEvents ← field fs "controller_events" dec_bool false;
        Some (mkCapabilityRequests v_EgressRouteIDs v_ConnectorIDs v_ControllerEvents)
    | _ => None end;
  storable x :=
    slice_ok storable (cp_EgressRouteIDs x) && slice_ok storable (cp_ConnectorIDs x);
}.

Definition zero_Resources : Resources := mkResources 0 0 0 0.

#[global] Instance Resources_json : GoJSON Resources := {
  go_shape := KStruct [
    ("cpu_millis", KInt); ("memory_mib", KInt); ("disk_mib", KInt); ("pids", KInt)]%string;
  to_json x := obj [
    always "cpu_millis" (json_int (rs_CPUMillis x)); always "memory_mib" (json_int (rs_MemoryMiB x)); always "disk_mib" (json_int (rs_DiskMiB x));
    always "pids" (json_int (rs_PIDs x))];
  of_json v := match v with
    | JObj fs =>
        v_CPUMillis ← field fs "cpu_millis" dec_int 0; v_MemoryMiB ← field fs "memory_mib" dec_int 0; v_DiskMiB ← field fs "disk_mib" dec_int 0;
        v_PIDs ← field fs "pids" dec_int 0;
        Some (mkResources v_CPUMillis v_MemoryMiB v_DiskMiB v_PIDs)
    | _ => None end;
  storable x :=
    in_int64b (rs_CPUMillis x) && in_int64b (rs_MemoryMiB x) && in_int64b (rs_DiskMiB x) && in_int64b (rs_PIDs x);
}.

Definition zero_Label : Label := mkLabel "" "".

#[global] Instance Label_json : GoJSON Label := {
  go_shape := KStruct [
    ("key", KString); ("value", KString)]%string;
  to_json x := obj [
    always "key" (JStr (lb_Key x)); always "value" (JStr (lb_Value x))];
  of_json v := match v with
    | JObj fs =>
        v_Key ← field fs "key" dec_string ""%string; v_Value ← field fs "value" dec_string ""%string;
        Some (mkLabel v_Key v_Value)
    | _ => None end;
  storable x :=
    utf8_valid (lb_Key x) && utf8_valid (lb_Value x);
}.

Definition zero_Placement : Placement := mkPlacement None "" None None None "".

#[global] Instance Placement_json : GoJSON Placement := {
  go_shape := KStruct [
    ("architectures", KSlice (go_shape (A := string))); ("isolation", KString); ("required_labels", KSlice (go_shape (A := Label)));
    ("preferred_labels", KSlice (go_shape (A := Label))); ("tolerations", KSlice (go_shape (A := string))); ("spread_by", KString)]%string;
  to_json x := obj [
    always "architectures" (enc_slice to_json (pl_Architectures x)); always "isolation" (JStr (pl_Isolation x));
    omitempty "required_labels" (nil_slice (pl_RequiredLabels x)) (enc_slice to_json (pl_RequiredLabels x));
    omitempty "preferred_labels" (nil_slice (pl_PreferredLabels x)) (enc_slice to_json (pl_PreferredLabels x));
    omitempty "tolerations" (nil_slice (pl_Tolerations x)) (enc_slice to_json (pl_Tolerations x));
    omitempty "spread_by" (empty_string (pl_SpreadBy x)) (JStr (pl_SpreadBy x))];
  of_json v := match v with
    | JObj fs =>
        v_Architectures ← field fs "architectures" (dec_slice of_json) None; v_Isolation ← field fs "isolation" dec_string ""%string;
        v_RequiredLabels ← field fs "required_labels" (dec_slice of_json) None;
        v_PreferredLabels ← field fs "preferred_labels" (dec_slice of_json) None; v_Tolerations ← field fs "tolerations" (dec_slice of_json) None;
        v_SpreadBy ← field fs "spread_by" dec_string ""%string;
        Some (mkPlacement v_Architectures v_Isolation v_RequiredLabels v_PreferredLabels v_Tolerations v_SpreadBy)
    | _ => None end;
  storable x :=
    storable_slice (pl_Architectures x) && utf8_valid (pl_Isolation x) && slice_ok storable (pl_RequiredLabels x) &&
    slice_ok storable (pl_PreferredLabels x) && slice_ok storable (pl_Tolerations x) && utf8_valid (pl_SpreadBy x);
}.

Definition zero_State : State := mkState false "".

#[global] Instance State_json : GoJSON State := {
  go_shape := KStruct [
    ("persistent", KBool); ("snapshot_id", KString)]%string;
  to_json x := obj [
    always "persistent" (JBool (st_Persistent x)); omitempty "snapshot_id" (empty_string (st_SnapshotID x)) (JStr (st_SnapshotID x))];
  of_json v := match v with
    | JObj fs =>
        v_Persistent ← field fs "persistent" dec_bool false; v_SnapshotID ← field fs "snapshot_id" dec_string ""%string;
        Some (mkState v_Persistent v_SnapshotID)
    | _ => None end;
  storable x :=
    utf8_valid (st_SnapshotID x);
}.

Definition zero_Lifetime : Lifetime := mkLifetime "" 0 "".

#[global] Instance Lifetime_json : GoJSON Lifetime := {
  go_shape := KStruct [
    ("mode", KString); ("ttl_seconds", KInt); ("on_expiry", KString)]%string;
  to_json x := obj [
    always "mode" (JStr (lt_Mode x)); omitempty "ttl_seconds" (lt_TTLSeconds x =? 0) (json_int (lt_TTLSeconds x));
    omitempty "on_expiry" (empty_string (lt_OnExpiry x)) (JStr (lt_OnExpiry x))];
  of_json v := match v with
    | JObj fs =>
        v_Mode ← field fs "mode" dec_string ""%string; v_TTLSeconds ← field fs "ttl_seconds" dec_int 0;
        v_OnExpiry ← field fs "on_expiry" dec_string ""%string;
        Some (mkLifetime v_Mode v_TTLSeconds v_OnExpiry)
    | _ => None end;
  storable x :=
    utf8_valid (lt_Mode x) && in_int64b (lt_TTLSeconds x) && utf8_valid (lt_OnExpiry x);
}.

Definition zero_PolicyEvidence : PolicyEvidence := mkPolicyEvidence "" "" false.

#[global] Instance PolicyEvidence_json : GoJSON PolicyEvidence := {
  go_shape := KStruct [
    ("bundle_digest", KString); ("query", KString); ("allowed", KBool)]%string;
  to_json x := obj [
    always "bundle_digest" (JStr (pe_BundleDigest x)); always "query" (JStr (pe_Query x)); always "allowed" (JBool (pe_Allowed x))];
  of_json v := match v with
    | JObj fs =>
        v_BundleDigest ← field fs "bundle_digest" dec_string ""%string; v_Query ← field fs "query" dec_string ""%string;
        v_Allowed ← field fs "allowed" dec_bool false;
        Some (mkPolicyEvidence v_BundleDigest v_Query v_Allowed)
    | _ => None end;
  storable x :=
    utf8_valid (pe_BundleDigest x) && utf8_valid (pe_Query x);
}.

Definition zero_AgentDefinition : AgentDefinition := mkAgentDefinition "" "" zero_Runtime "" zero_Model None None zero_CapabilityRequests zero_Resources zero_Placement zero_State zero_Lifetime.

#[global] Instance AgentDefinition_json : GoJSON AgentDefinition := {
  go_shape := KStruct [
    ("schema", KString); ("name", KString); ("runtime", go_shape (A := Runtime)); ("tool_profile", KString); ("model", go_shape (A := Model));
    ("skills", KSlice (go_shape (A := string))); ("mcp_servers", KSlice (go_shape (A := string)));
    ("capabilities", go_shape (A := CapabilityRequests)); ("resources", go_shape (A := Resources)); ("placement", go_shape (A := Placement));
    ("state", go_shape (A := State)); ("lifetime", go_shape (A := Lifetime))]%string;
  to_json x := obj [
    always "schema" (JStr (df_Schema x)); always "name" (JStr (df_Name x)); always "runtime" (to_json (df_Runtime x));
    omitempty "tool_profile" (empty_string (df_ToolProfile x)) (JStr (df_ToolProfile x)); always "model" (to_json (df_Model x));
    omitempty "skills" (nil_slice (df_Skills x)) (enc_slice to_json (df_Skills x));
    omitempty "mcp_servers" (nil_slice (df_MCP x)) (enc_slice to_json (df_MCP x)); always "capabilities" (to_json (df_Capabilities x));
    always "resources" (to_json (df_Resources x)); always "placement" (to_json (df_Placement x)); always "state" (to_json (df_State x));
    always "lifetime" (to_json (df_Lifetime x))];
  of_json v := match v with
    | JObj fs =>
        v_Schema ← field fs "schema" dec_string ""%string; v_Name ← field fs "name" dec_string ""%string;
        v_Runtime ← field fs "runtime" of_json zero_Runtime; v_ToolProfile ← field fs "tool_profile" dec_string ""%string;
        v_Model ← field fs "model" of_json zero_Model; v_Skills ← field fs "skills" (dec_slice of_json) None;
        v_MCP ← field fs "mcp_servers" (dec_slice of_json) None; v_Capabilities ← field fs "capabilities" of_json zero_CapabilityRequests;
        v_Resources ← field fs "resources" of_json zero_Resources; v_Placement ← field fs "placement" of_json zero_Placement;
        v_State ← field fs "state" of_json zero_State; v_Lifetime ← field fs "lifetime" of_json zero_Lifetime;
        Some (mkAgentDefinition v_Schema v_Name v_Runtime v_ToolProfile v_Model v_Skills v_MCP v_Capabilities v_Resources v_Placement v_State v_Lifetime)
    | _ => None end;
  storable x :=
    utf8_valid (df_Schema x) && utf8_valid (df_Name x) && storable (df_Runtime x) && utf8_valid (df_ToolProfile x) && storable (df_Model x) &&
    slice_ok storable (df_Skills x) && slice_ok storable (df_MCP x) && storable (df_Capabilities x) && storable (df_Resources x) &&
    storable (df_Placement x) && storable (df_State x) && storable (df_Lifetime x);
}.

Definition zero_Bundle : Bundle := mkBundle "" "" zero_AgentDefinition None.

#[global] Instance Bundle_json : GoJSON Bundle := {
  go_shape := KStruct [
    ("schema", KString); ("source_digest", KString); ("definition", go_shape (A := AgentDefinition));
    ("policy", KPointer (go_shape (A := PolicyEvidence)))]%string;
  to_json x := obj [
    always "schema" (JStr (bn_Schema x)); always "source_digest" (JStr (bn_SourceDigest x)); always "definition" (to_json (bn_Definition x));
    omitempty "policy" (nil_ptr (bn_Policy x)) (enc_ptr to_json (bn_Policy x))];
  of_json v := match v with
    | JObj fs =>
        v_Schema ← field fs "schema" dec_string ""%string; v_SourceDigest ← field fs "source_digest" dec_string ""%string;
        v_Definition ← field fs "definition" of_json zero_AgentDefinition; v_Policy ← field fs "policy" (dec_ptr of_json) None;
        Some (mkBundle v_Schema v_SourceDigest v_Definition v_Policy)
    | _ => None end;
  storable x :=
    utf8_valid (bn_Schema x) && utf8_valid (bn_SourceDigest x) && storable (bn_Definition x) && from_option storable true (bn_Policy x);
}.

#[global] Instance Runtime_laws : GoJSONLaws Runtime 1.
Proof. struct_laws. Qed.
#[global] Instance Model_laws : GoJSONLaws Model 1.
Proof. struct_laws. Qed.
#[global] Instance CapabilityRequests_laws : GoJSONLaws CapabilityRequests 2.
Proof. struct_laws. Qed.
#[global] Instance Resources_laws : GoJSONLaws Resources 1.
Proof. struct_laws. Qed.
#[global] Instance Label_laws : GoJSONLaws Label 1.
Proof. struct_laws. Qed.
#[global] Instance Placement_laws : GoJSONLaws Placement 3.
Proof. struct_laws. Qed.
#[global] Instance State_laws : GoJSONLaws State 1.
Proof. struct_laws. Qed.
#[global] Instance Lifetime_laws : GoJSONLaws Lifetime 1.
Proof. struct_laws. Qed.
#[global] Instance PolicyEvidence_laws : GoJSONLaws PolicyEvidence 1.
Proof. struct_laws. Qed.
#[global] Instance AgentDefinition_laws : GoJSONLaws AgentDefinition 4.
Proof. struct_laws. Qed.
#[global] Instance Bundle_laws : GoJSONLaws Bundle 5.
Proof. struct_laws. Qed.

(** ** Texts *)

Definition validName (value : string) : bool :=
  if (slen value <? 1) || (63 <? slen value) then false else
  if from_option (fun c => u8 c =? 45) false (head (bytes_of value)) || from_option (fun c => u8 c =? 45) false (last (bytes_of value)) then false else
  forallb (fun character => negb (((character <? 97) || (122 <? character)) && ((character <? 48) || (57 <? character)) && negb (character =? 45)))
    (to_runes value).

Definition validToken (value : string) (maximum : Z) : bool :=
  if String.eqb value "" || (maximum <? slen value) || negb (String.eqb (trim_space value) value) then false else
  forallb (fun character => negb ((character <? 33) || (126 <? character) || (character =? 92) || (character =? 34))) (to_runes value).

Definition alphanumeric (character : Z) : bool :=
  ((97 <=? character) && (character <=? 122)) || ((65 <=? character) && (character <=? 90)) || ((48 <=? character) && (character <=? 57)).
Definition validRouteIdentifier (value : string) (maximum : Z) : bool :=
  if (slen value <? 1) || (maximum <? slen value) then false else
  match to_runes value with
  | [] => true
  | first :: rest =>
      alphanumeric first &&
      forallb (fun character => alphanumeric character || (character =? 46) || (character =? 95) || (character =? 45)) rest
  end.

(** [hex.DecodeString] succeeds. *)
Definition isHex (value : string) : bool := Z.even (slen value) && all_bytes hex_byte value.

Definition validImage (value : string) : bool :=
  match split_on (bytes_of "@sha256:") (bytes_of value) with
  | [name; sum] => (slen value <=? 512) && negb (bool_decide (name = [])) && (zlen sum =? 64) && isHex (string_of sum)
  | _ => false
  end.

Definition validDigest (value : string) : bool :=
  has_prefix value "sha256:" && (slen value =? 71) && isHex (trim_prefix value "sha256:").

Definition validQuery (value : string) : bool :=
  (slen "data.a" <=? slen value) && (slen value <=? 256) && has_prefix value "data." && validToken value 256.

Definition validateLabels (values : option (list Label)) (maximum : Z) : result unit :=
  require zlen (items values) <=? maximum else "exceeds entries" in
  let bad := "keys and values must be bounded printable identifiers"%string in
  each_new lb_Key (fun label => require validToken (lb_Key label) 63 && validToken (lb_Value label) 128 else bad in Ok tt) bad (fun _ => Ok tt) [] (items values).

Definition ParseModelRoute (value : string) : result (string * string) :=
  match split_on (bytes_of "/") (bytes_of value) with
  | [route; alias] =>
      require validRouteIdentifier (string_of route) 128 && validRouteIdentifier (string_of alias) 256
        else "model route must be route-id/model-alias using bounded logical identifiers" in
      Ok (string_of route, string_of alias)
  | _ => Err "model route must be route-id/model-alias using bounded logical identifiers"
  end.

Definition ValidateName (value : string) : result unit :=
  require validName value else "agent name must be 1-63 lowercase letters, digits, or hyphens" in Ok tt.

(** ** Definitions *)

Definition EffectiveToolProfile (value : AgentDefinition) : string :=
  if String.eqb (df_ToolProfile value) "" then "workspace" else df_ToolProfile value.

(** [wantContract]. *)
Definition want_contract (engine : string) : option string :=
  if String.eqb engine "hermes" then Some HermesAdapterContractV2 else if String.eqb engine RuntimeEngine then Some AdapterContractV1 else None.

Definition validate_runtime (value : AgentDefinition) : result unit :=
  let runtime := df_Runtime value in
  let legacyHermes := String.eqb (rt_Engine runtime) "hermes" && String.eqb (rt_AdapterContract runtime) HermesAdapterContractV1 in
  require match want_contract (rt_Engine runtime) with Some contract => String.eqb (rt_AdapterContract runtime) contract || legacyHermes | None => false end
    else "runtime must select a supported engine with its exact Steward adapter contract" in
  require validImage (rt_Image runtime) else "runtime image must be a bounded OCI reference pinned by sha256 digest" in
  require negb (String.eqb (rt_Engine runtime) RuntimeEngine && negb (String.eqb (EffectiveToolProfile value) "workspace"))
    else "agent-service runtime accepts only the neutral workspace tool profile" in Ok tt.

Definition validate_profile (value : AgentDefinition) : result unit :=
  let connectors := items (cp_ConnectorIDs (df_Capabilities value)) in
  let skills := items (df_Skills value) in
  let profile := EffectiveToolProfile value in
  if String.eqb profile "workspace" then Ok tt
  else if String.eqb profile "research" then
    require cp_ControllerEvents (df_Capabilities value) && is_in "steward-browser-search" connectors && is_in "steward-browser-read" connectors
      && is_in "steward-research-search" connectors && is_in "steward-research-extract" connectors && is_in "steward-research" skills
      else "research tool profile requires its signed skill, search, extract, browser-search and browser-read connectors, and controller events" in Ok tt
  else if String.eqb profile "developer" then
    require is_in "steward-coding-worker" skills && (is_in "steward-codex" connectors || is_in "steward-claude-code" connectors)
      else "developer tool profile requires its signed skill and at least one coding-worker connector" in Ok tt
  else Err "tool_profile must be workspace, research, or developer".

Definition between (low value high : Z) : bool := (low <=? value) && (value <=? high).

Definition validate_resources (value : Resources) : result unit :=
  require between 10 (rs_CPUMillis value) 128000 && between 64 (rs_MemoryMiB value) 1048576 && between 64 (rs_DiskMiB value) 10485760
    && between 16 (rs_PIDs value) 1048576
    else "resources are outside Steward's bounded CPU, memory, disk, or PID range" in Ok tt.

Fixpoint architecture_loop (seen : list string) (values : list string) : result unit :=
  match values with
  | [] => Ok tt
  | architecture :: values =>
      require is_in architecture ["amd64"; "arm64"]%string else "placement architectures support amd64 and arm64" in
      require negb (is_in architecture seen) else "placement architectures must be unique" in
      architecture_loop (architecture :: seen) values
  end.

Definition validate_placement (value : Placement) : result unit :=
  let architectures := items (pl_Architectures value) in
  require negb (bool_decide (architectures = [])) && (zlen architectures <=? 4) else "placement must contain 1-4 architectures" in
  let* _ := architecture_loop [] architectures in
  require is_in (pl_Isolation value) ["development"; "hardened"]%string else "placement isolation must be development or hardened" in
  let* _ := validateLabels (pl_RequiredLabels value) 32 in
  let* _ := validateLabels (pl_PreferredLabels value) 32 in
  require String.eqb (pl_SpreadBy value) "" || validToken (pl_SpreadBy value) 63 else "spread_by must be a valid label name" in Ok tt.

(** The loop over a sorted copy of a list. *)
Fixpoint adjacent_distinct (l : list string) : bool :=
  match l with
  | x :: (y :: _) as l' => negb (String.eqb x y) && adjacent_distinct l'
  | _ => true
  end.
Definition check_values (ok : string -> bool) (maximum : Z) (many bad : string) (values : option (list string)) : result unit :=
  require zlen (items values) <=? maximum else many in
  let copyValues := sort_strings (items values) in
  require forallb ok copyValues && adjacent_distinct copyValues else bad in Ok tt.

Definition validate_lists (value : AgentDefinition) : result unit :=
  let tokens := check_values (fun item => validToken item 128) 64 "exceed the 64-entry limit" "must contain unique bounded identifiers" in
  let routes := check_values (fun item => validRouteIdentifier item 128) 32 "exceed the 32-entry admission limit" "must contain unique route identifiers" in
  let* _ := tokens (df_Skills value) in
  let* _ := tokens (df_MCP value) in
  let* _ := tokens (pl_Tolerations (df_Placement value)) in
  let* _ := routes (cp_EgressRouteIDs (df_Capabilities value)) in
  routes (cp_ConnectorIDs (df_Capabilities value)).

Definition validate_lifetime (value : Lifetime) : result unit :=
  if is_in (lt_Mode value) ["task"; "service"]%string then
    require (lt_TTLSeconds value =? 0) && String.eqb (lt_OnExpiry value) "" else "task and service lifetimes cannot set expiry fields" in Ok tt
  else if String.eqb (lt_Mode value) "temporary" then
    require between 60 (lt_TTLSeconds value) (30 * day / second) && is_in (lt_OnExpiry value) ["destroy"; "hibernate"]%string
      else "temporary lifetime requires a 60s-30d TTL and destroy or hibernate expiry" in Ok tt
  else Err "lifetime mode must be task, service, or temporary".

Definition Definition_Validate (value : AgentDefinition) : result unit :=
  require String.eqb (df_Schema value) DefinitionSchema else "agent definition schema must be steward.agent.v1" in
  let* _ := ValidateName (df_Name value) in
  let* _ := validate_runtime value in
  let* _ := validate_profile value in
  let* _ := ParseModelRoute (md_Route (df_Model value)) in
  let* _ := validate_resources (df_Resources value) in
  let* _ := validate_placement (df_Placement value) in
  let* _ := validate_lists value in
  let state := df_State value in
  require String.eqb (st_SnapshotID state) "" || (st_Persistent state && validToken (st_SnapshotID state) 128)
    else "snapshot_id requires persistent state and a bounded identifier" in
  validate_lifetime (df_Lifetime value).

(** ** Bundles *)

Definition DigestJSON {A} `{GoJSON A} (value : A) : string := sha256_text (json_print (to_json value)).

Definition MarshalCanonical {A} `{GoJSON A} (value : A) : result bytes :=
  let raw := json_print (to_json value) in
  require zlen raw <=? MaxArtifactBytes else "agent artifact exceeds 1 MiB" in Ok (raw ++ [byte_of_Z 10]).

Definition DecodeDefinition (raw : bytes) : result AgentDefinition :=
  let* value := DecodeStrictInto raw MaxArtifactBytes in
  let* _ := Definition_Validate value in Ok value.

Definition policy_ok (policy : PolicyEvidence) : bool := validDigest (pe_BundleDigest policy) && validQuery (pe_Query policy) && pe_Allowed policy.

Definition Bundle_Validate (value : Bundle) : result unit :=
  require String.eqb (bn_Schema value) BundleSchema else "agent bundle schema must be steward.agent.bundle.v1" in
  let* _ := Definition_Validate (bn_Definition value) in
  require String.eqb (bn_SourceDigest value) (DigestJSON (bn_Definition value)) else "agent bundle source_digest does not match its definition" in
  match bn_Policy value with
  | None => Ok tt
  | Some policy => require policy_ok policy else "agent bundle policy evidence is invalid or denied" in Ok tt
  end.

Definition DecodeBundle (raw : bytes) : result Bundle :=
  let* value := DecodeStrictInto raw MaxArtifactBytes in
  let* _ := Bundle_Validate value in Ok value.

Definition Build (definition : AgentDefinition) (policy : option PolicyEvidence) : result Bundle :=
  let* _ := Definition_Validate definition in
  DecodeBundle (json_print (to_json (mkBundle BundleSchema (DigestJSON definition) definition policy))).

(** ** Templates *)

Record Template := mkTemplate {
  tm_ID : string; tm_Summary : string; tm_ToolProfile : string; tm_Skills : list string; tm_Connectors : list string; tm_Events : bool;
  tm_Resources : Resources }.

Definition builtinTemplates : list Template := [
  mkTemplate "workspace" "General Hermes workspace with durable state and no optional network capability." "workspace" ["workspace-audit"] [] false
    (mkResources 1000 1024 2048 256);
  mkTemplate "research" "Source-grounded web research through policy-bound search, read, and extraction connectors." "research" ["steward-research"]
    ["steward-browser-read"; "steward-browser-search"; "steward-research-extract"; "steward-research-search"] true (mkResources 2000 4096 8192 512);
  mkTemplate "developer" "Hermes coding worker using the policy-bound Codex connector." "developer" ["steward-coding-worker"] ["steward-codex"] false
    (mkResources 4000 8192 16384 1024)]%string.

Definition GetTemplate (id : string) : result Template :=
  opt_ok (List.find (fun template => String.eqb (tm_ID template) id) builtinTemplates) "agent template must be workspace, research, or developer".

(** Appending an empty slice to a nil one leaves it nil. *)
Definition copied {A} (l : list A) : option (list A) := match l with [] => None | _ => Some l end.

Definition DefinitionFromTemplate (id name image : string) : result AgentDefinition :=
  let* template := GetTemplate id in
  let definition := mkAgentDefinition DefinitionSchema name (mkRuntime "hermes" image HermesAdapterContractV2) (tm_ToolProfile template)
    (mkModel "local/default") (copied (tm_Skills template)) None (mkCapabilityRequests None (copied (tm_Connectors template)) (tm_Events template))
    (tm_Resources template) (mkPlacement (Some ["amd64"%string]) "hardened" None None None "") (mkState true "") (mkLifetime "service" 0 "") in
  let* _ := Definition_Validate definition in
  Ok definition.

End AgentModel.
