(* ===== verification/AgentBundle.v ===== *)
(** * What agent bundles guarantee

    Lemmas and theorems on [AgentModel]: a valid definition always builds, and its bundle is read back as written. *)

From Stdlib Require Import Ascii.
From S2P Require Import Prelude GoText GoTime GoJson GoRune GoCrypto Strict AgentModel.
Import AgentModel.

Module AgentBundle.

Lemma definition_inv d : Definition_Validate d = Ok tt ->
  df_Schema d = DefinitionSchema /\ validName (df_Name d) = true /\ validate_runtime d = Ok tt /\ validate_profile d = Ok tt /\
  is_ok (ParseModelRoute (md_Route (df_Model d))) = true /\ validate_resources (df_Resources d) = Ok tt /\ validate_placement (df_Placement d) = Ok tt /\
  validate_lists d = Ok tt /\ (st_SnapshotID (df_State d) = ""%string \/ validToken (st_SnapshotID (df_State d)) 128 = true) /\
  validate_lifetime (df_Lifetime d) = Ok tt.
Proof.
  unfold Definition_Validate, ValidateName. intros H. do 8 step H. repeat match goal with u : unit |- _ => destruct u end.
  match goal with Hn : (if validName _ then _ else _) = _ |- _ => step Hn end. step H.
  split_and!; try done. 1: by apply String.eqb_eq. all: try match goal with |- is_ok ?c = true => by match goal with E : c = _ |- _ => rewrite E end end. all: idtac.
  match goal with Hs : (_ || _) = true |- _ => apply orb_true_iff in Hs as [Hs | Hs]; [left; by apply String.eqb_eq | right; by apply andb_true_iff in Hs as [_ ?]] end.
Qed.

Lemma bundle_inv bundle : Bundle_Validate bundle = Ok tt ->
  bn_Schema bundle = BundleSchema /\ Definition_Validate (bn_Definition bundle) = Ok tt /\ bn_SourceDigest bundle = DigestJSON (bn_Definition bundle) /\
  from_option policy_ok true (bn_Policy bundle) = true.
Proof.
  unfold Bundle_Validate. intros H. do 3 step H. repeat match goal with u : unit |- _ => destruct u end.
  split_and!; try done; [by apply String.eqb_eq.. |]. destruct (bn_Policy bundle) as [policy|]; [|done]. by step H.
Qed.

Lemma token_nonempty s n : validToken s n = true -> s <> ""%string.
Proof. intros H ->. done. Qed.

Lemma validateLabels_inv labels maximum : validateLabels labels maximum = Ok tt ->
  zlen (items labels) <= maximum /\ NoDup (lb_Key <$> items labels) /\
  forall label, label ∈ items labels -> validToken (lb_Key label) 63 = true /\ validToken (lb_Value label) 128 = true.
Proof.
  unfold validateLabels. intros H. step H. breflect. apply each_new_ok in H as [Hnd H]. split_and!; [done | done|].
  intros label Hl. destruct (H label Hl) as (_ & Hb & _). step Hb. by breflect.
Qed.

Lemma placement_inv p : validate_placement p = Ok tt ->
  zlen (items (pl_Architectures p)) <= 4 /\ architecture_loop [] (items (pl_Architectures p)) = Ok tt /\ pl_Isolation p ∈ ["development"; "hardened"]%string /\
  validateLabels (pl_RequiredLabels p) 32 = Ok tt /\ validateLabels (pl_PreferredLabels p) 32 = Ok tt /\
  (pl_SpreadBy p = ""%string \/ validToken (pl_SpreadBy p) 63 = true).
Proof.
  unfold validate_placement. intros H. do 6 step H. repeat match goal with u : unit |- _ => destruct u end. breflect.
  split_and!; try done; try lia; try by apply is_in_spec.
  match goal with Hs : _ \/ _ |- _ => destruct Hs as [Hs | Hs]; [left; by apply String.eqb_eq | by right] end.
Qed.

(** ** The texts of a valid definition *)

Lemma ascii_of_runes (p : Z -> bool) s : (forall r, p r = true -> r < 128) -> forallb p (to_runes s) = true -> Forall (fun b => u8 b < 128) (bytes_of s).
Proof.
  intros Hp. unfold to_runes. generalize (bytes_of s). intros l. pattern l, (segs l). apply segs_ind; clear l; try (intros *; rewrite ?fmap_cons; cbn [forallb fst]).
  - constructor.
  - intros _ _ _ H. breflect. match goal with H : p 65533 = true |- _ => apply Hp in H; lia end.
  - intros Hb IH H. breflect. constructor; auto.
  - intros _ _ _ Hr _ _ H. breflect. match goal with H : p r = true |- _ => apply Hp in H; lia end.
Qed.

Definition ascii_text (n : Z) (s : string) : Prop := Forall (fun b => u8 b < 128) (bytes_of s) /\ slen s <= n.

Lemma ascii_text_ok n s : ascii_text n s -> text_ok n s.
Proof. intros [H Hn]. split; [by apply utf8_ascii | done]. Qed.

Lemma runes_text (p : Z -> bool) s n : (forall r, p r = true -> r < 128) -> forallb p (to_runes s) = true -> slen s <= n -> ascii_text n s.
Proof. intros Hp H Hn. split; [by eapply ascii_of_runes | done]. Qed.

Lemma name_text s : validName s = true -> ascii_text 63 s.
Proof.
  unfold validName. intros H. destruct (_ || _) eqn:E1 in H; [done|]. destruct (_ || _) eqn:E2 in H; [done|]. breflect.
  eapply runes_text; [|exact H | lia]. cbv beta. lia.
Qed.

Lemma token_text s n : validToken s n = true -> ascii_text n s.
Proof.
  unfold validToken. intros H. destruct (_ || _) eqn:E1 in H; [done|]. breflect. eapply runes_text; [|exact H | lia]. cbv beta. lia.
Qed.

Lemma alphanumeric_ascii r : alphanumeric r = true -> r < 128.
Proof. unfold alphanumeric. lia. Qed.

Lemma route_text s n : validRouteIdentifier s n = true -> ascii_text n s.
Proof.
  unfold validRouteIdentifier. intros H. destruct (_ || _) eqn:E1 in H; [done|]. breflect.
  apply (runes_text (fun r => r <? 128)); [intros r Hr; lia | | lia]. destruct (to_runes s) as [|r rs]; [done|]. breflect. cbn [forallb].
  rewrite (proj2 (Z.ltb_lt r 128)) by by apply alphanumeric_ascii. apply forallb_forall. intros x Hx. apply Z.ltb_lt.
  match goal with Hf : forallb _ rs = true |- _ => apply (proj1 (forallb_forall _ _) Hf) in Hx end.
  cbv beta in Hx. pose proof (alphanumeric_ascii x). destruct (alphanumeric x); [auto | lia].
Qed.

(** What [strings.Split] by one byte returns, joined by it. *)
Lemma split_join c l : match split_on [c] l with p :: ps => l = p ++ concat (cons c <$> ps) | [] => False end.
Proof.
  unfold split_on. induction l as [|x l IH]; [done|]. cbn [split_from starts_with length Nat.sub]. rewrite andb_true_r. destruct (Ascii.eqb_spec c x) as [<- | _].
  - destruct (split_from [c] 0 l) as [|p ps]; [done|]. rewrite fmap_cons. cbn [concat app]. by rewrite IH at 1.
  - destruct (split_from [c] 0 l) as [|p ps]; [done|]. cbn [app]. by rewrite IH at 1.
Qed.

Lemma model_text value : is_ok (ParseModelRoute value) = true -> ascii_text 385 value.
Proof.
  unfold ParseModelRoute. pose proof (split_join (byte_of_Z 47) (bytes_of value)) as Hj. change (bytes_of "/") with [byte_of_Z 47].
  destruct (split_on _ _) as [|route [|alias [|]]]; try done. destruct (_ && _) eqn:E; [|done]. intros _. breflect.
  match goal with H1 : validRouteIdentifier (string_of route) _ = true, H2 : validRouteIdentifier (string_of alias) _ = true |- _ => apply route_text in H1 as [U1 L1]; apply route_text in H2 as [U2 L2] end.
  rewrite <- zlen_bytes_of, bytes_of_string_of in L1, L2. rewrite bytes_of_string_of in U1, U2. split.
  - rewrite Hj. cbn [fmap list_fmap concat]. rewrite app_nil_r. apply Forall_app. split; [done|]. by constructor.
  - rewrite <- zlen_bytes_of, Hj. cbn [fmap list_fmap concat]. rewrite app_nil_r, zlen_app, zlen_cons. lia.
Qed.

(** ** Writing definitions

    [omitempty] drops an empty slice, which is read back as nil. *)

Definition normal_slice {A} (s : option (list A)) : option (list A) := match s with Some [] => None | _ => s end.
Definition normal_capabilities (c : CapabilityRequests) : CapabilityRequests :=
  mkCapabilityRequests (normal_slice (cp_EgressRouteIDs c)) (normal_slice (cp_ConnectorIDs c)) (cp_ControllerEvents c).
Definition normal_placement (p : Placement) : Placement :=
  mkPlacement (pl_Architectures p) (pl_Isolation p) (normal_slice (pl_RequiredLabels p)) (normal_slice (pl_PreferredLabels p))
    (normal_slice (pl_Tolerations p)) (pl_SpreadBy p).
Definition normal (d : AgentDefinition) : AgentDefinition :=
  mkAgentDefinition (df_Schema d) (df_Name d) (df_Runtime d) (df_ToolProfile d) (df_Model d) (normal_slice (df_Skills d)) (normal_slice (df_MCP d))
    (normal_capabilities (df_Capabilities d)) (df_Resources d) (normal_placement (df_Placement d)) (df_State d) (df_Lifetime d).

Lemma items_normal {A} (s : option (list A)) : items (normal_slice s) = items s.
Proof. by destruct s as [[|]|]. Qed.

Lemma json_normal_capabilities c : to_json (normal_capabilities c) = to_json c.
Proof. destruct c as [[[|]|] [[|]|] ?]; reflexivity. Qed.
Lemma json_normal_placement p : to_json (normal_placement p) = to_json p.
Proof. destruct p as [? ? [[|]|] [[|]|] [[|]|] ?]; reflexivity. Qed.
Lemma json_normal d : to_json (normal d) = to_json d.
Proof.
  cbn [to_json AgentDefinition_json normal df_Schema df_Name df_Runtime df_ToolProfile df_Model df_Skills df_MCP df_Capabilities df_Resources df_Placement df_State df_Lifetime].
  rewrite json_normal_capabilities, json_normal_placement. destruct (df_Skills d) as [[|]|], (df_MCP d) as [[|]|]; reflexivity.
Qed.

Lemma validate_normal d : Definition_Validate (normal d) = Definition_Validate d.
Proof.
  destruct d as [schema name runtime profile model skills mcp [routes connectors events] resources [arch iso req pre tol spread] state lifetime].
  unfold Definition_Validate, validate_runtime, validate_profile, validate_placement, validate_lists, validateLabels, check_values, normal, normal_capabilities, normal_placement.
  cbn [df_Schema df_Name df_Runtime df_ToolProfile df_Model df_Skills df_MCP df_Capabilities df_Resources df_Placement df_State df_Lifetime EffectiveToolProfile
       cp_EgressRouteIDs cp_ConnectorIDs cp_ControllerEvents pl_Architectures pl_Isolation pl_RequiredLabels pl_PreferredLabels pl_Tolerations pl_SpreadBy].
  by rewrite !items_normal.
Qed.

(** A value survives being written and read, and its text has at most [n] bytes. *)
Definition written {A} `{GoJSON A} (n : Z) (x : A) : Prop := storable x = true /\ zlen (json_print (to_json x)) <= n.

Lemma written_string n s : text_ok n s -> written (6 * n + 2) s.
Proof. intros [Hu Hn]. split; [done|]. by apply str_size. Qed.

Lemma written_slice {A} `{GoJSON A} n b (s : option (list A)) : 0 <= b -> zlen (items s) <= n -> (forall x, x ∈ items s -> written b x) ->
  slice_ok storable (normal_slice s) = true /\ zlen (json_print (enc_slice to_json s)) <= n * (b + 1) + 4.
Proof.
  intros Hb Hn Hx. split; [|apply slice_size; try done; intros a Ha; by apply Hx]. destruct s as [[|a l]|]; [done | | done]. cbn [normal_slice slice_ok length].
  rewrite bool_decide_eq_false_2 by done. apply forallb_forall. intros x Hin%list_elem_of_In. by apply Hx.
Qed.

Lemma written_values ok n maximum many bad values : 0 <= n -> (forall s, ok s = true -> ascii_text n s) ->
  check_values ok maximum many bad values = Ok tt ->
  slice_ok storable (normal_slice values) = true /\ zlen (json_print (enc_slice to_json values)) <= maximum * (6 * n + 3) + 4.
Proof.
  intros Hn Hok H. unfold check_values in H. do 2 step H. breflect. replace (6 * n + 3) with ((6 * n + 2) + 1) by lia. apply written_slice; [lia | done|].
  intros x Hx. apply written_string, ascii_text_ok, Hok. match goal with Hf : forallb _ _ = true |- _ => apply (proj1 (forallb_forall _ _) Hf) end.
  by apply list_elem_of_In, elem_of_sort_strings.
Qed.

(** [written_fields I] proves [written] of a struct whose instance is [I] from [text_ok], [written] and slice facts on its fields. *)
Ltac field_facts := repeat match goal with
  | H : ascii_text _ _ |- _ => apply ascii_text_ok in H
  | H : text_ok _ _ |- _ => destruct H
  | H : written _ _ |- _ => destruct H
  | H : _ /\ _ |- _ => destruct H
  end.
Ltac written_fields I :=
  field_facts; split; [cbn [storable I]; rewrite ?andb_true_iff; split_and?; assumption | cbn [to_json I]; struct_bound].

Lemma written_label label : validToken (lb_Key label) 63 = true -> validToken (lb_Value label) 128 = true -> written 1300 label.
Proof.
  intros H1%token_text H2%token_text. written_fields Label_json.
Qed.

Lemma written_labels labels : validateLabels labels 32 = Ok tt ->
  slice_ok storable (normal_slice labels) = true /\ zlen (json_print (enc_slice to_json labels)) <= 42000.
Proof.
  intros (Hn & _ & Hall)%validateLabels_inv. destruct (written_slice 32 1300 labels) as [? ?]; [lia | done | | split; [done | lia]].
  intros x Hx. destruct (Hall x Hx). by apply written_label.
Qed.

Lemma member_text n x l : x ∈ l -> Forall (text_ok n) l -> text_ok n x.
Proof. rewrite Forall_forall. auto. Qed.
Ltac known_text := eapply member_text; [eassumption | repeat constructor; vm_compute; congruence].

Lemma architecture_loop_inv seen l : architecture_loop seen l = Ok tt -> Forall (fun x => x ∈ ["amd64"; "arm64"]%string) l.
Proof.
  revert seen. induction l as [|x l IH]; intros seen H; [constructor|]. cbn [architecture_loop] in H. do 2 step H. constructor; [by apply is_in_spec | by eapply IH].
Qed.

Lemma written_architectures s : zlen (items s) <= 4 -> architecture_loop [] (items s) = Ok tt ->
  storable_slice s = true /\ zlen (json_print (enc_slice to_json s)) <= 136.
Proof.
  intros Hn H%architecture_loop_inv. rewrite Forall_forall in H. assert (Hw : forall x, x ∈ items s -> written (6 * 5 + 2) x).
  { intros x Hx. apply H in Hx. apply written_string. known_text. }
  split; [|apply (slice_size to_json s 4 32); [lia | done|]; intros a Ha; by apply Hw]. destruct s as [l|]; [|done]. apply forallb_forall. intros x Hx%list_elem_of_In. by apply Hw.
Qed.

Lemma written_placement p : validate_placement p = Ok tt ->
  slice_ok storable (normal_slice (pl_Tolerations p)) = true /\ zlen (json_print (enc_slice to_json (pl_Tolerations p))) <= 49348 ->
  written 134500 (normal_placement p).
Proof.
  intros (Hn & Ha & Hi & Hr & Hp & Hs)%placement_inv Ht. apply written_labels in Hr, Hp. pose proof (written_architectures _ Hn Ha).
  assert (text_ok 11 (pl_Isolation p)) by known_text.
  assert (text_ok 63 (pl_SpreadBy p)) by (destruct Hs as [-> | Hs]; [done | by apply ascii_text_ok, token_text]).
  unfold written. rewrite json_normal_placement. field_facts. split; [cbn [storable Placement_json]; rewrite ?andb_true_iff; split_and!; assumption|].
  cbn [to_json Placement_json]. struct_bound.
Qed.

Lemma lists_inv d : validate_lists d = Ok tt -> exists m1 b1 m2 b2,
  let tokens := check_values (fun item => validToken item 128) 64 m1 b1 in
  let routes := check_values (fun item => validRouteIdentifier item 128) 32 m2 b2 in
  tokens (df_Skills d) = Ok tt /\ tokens (df_MCP d) = Ok tt /\ tokens (pl_Tolerations (df_Placement d)) = Ok tt /\
  routes (cp_EgressRouteIDs (df_Capabilities d)) = Ok tt /\ routes (cp_ConnectorIDs (df_Capabilities d)) = Ok tt.
Proof.
  unfold validate_lists. intros H. do 4 step H. repeat match goal with u : unit |- _ => destruct u end. do 4 eexists. split_and!; eassumption.
Qed.

Lemma written_capabilities c m b :
  check_values (fun item => validRouteIdentifier item 128) 32 m b (cp_EgressRouteIDs c) = Ok tt ->
  check_values (fun item => validRouteIdentifier item 128) 32 m b (cp_ConnectorIDs c) = Ok tt -> written 49500 (normal_capabilities c).
Proof.
  intros H1 H2. eapply (written_values _ 128) in H1, H2; try lia; try (intros s; apply route_text).
  unfold written. rewrite json_normal_capabilities. field_facts. split; [cbn [storable CapabilityRequests_json]; rewrite ?andb_true_iff; split_and!; assumption|].
  cbn [to_json CapabilityRequests_json]. struct_bound.
Qed.

Lemma written_resources r : validate_resources r = Ok tt -> written 200 r.
Proof.
  unfold validate_resources, between. intros H. step H. breflect.
  assert (in_int64b (rs_CPUMillis r) = true /\ in_int64b (rs_MemoryMiB r) = true /\ in_int64b (rs_DiskMiB r) = true /\ in_int64b (rs_PIDs r) = true)
    by (unfold in_int64b; split_and!; lia).
  written_fields Resources_json.
Qed.

Lemma written_lifetime l : validate_lifetime l = Ok tt -> written 250 l.
Proof.
  unfold validate_lifetime. intros H.
  assert (text_ok 9 (lt_Mode l) /\ in_int64b (lt_TTLSeconds l) = true /\ text_ok 9 (lt_OnExpiry l)); [|written_fields Lifetime_json].
  destruct (is_in (lt_Mode l) _) eqn:E; [apply is_in_spec in E | destruct (String.eqb_spec (lt_Mode l) "temporary") as [Em|]; [|done]]; step H; unfold between in *; breflect.
  - split_and!; [known_text | unfold in_int64b; lia |]. match goal with Ho : String.eqb (lt_OnExpiry l) _ = true |- _ => apply String.eqb_eq in Ho as -> end. done.
  - split_and!; [by rewrite Em | unfold in_int64b; change (30 * day / second) with 2592000 in *; lia|].
    match goal with Ho : is_in (lt_OnExpiry l) _ = true |- _ => apply is_in_spec in Ho end. known_text.
Qed.

Lemma image_length s : validImage s = true -> slen s <= 512.
Proof. unfold validImage. intros H. destruct (split_on _ _) as [|? [|? [|]]]; try done. breflect. lia. Qed.

(** The definition with another image in it. *)
Definition with_image (d : AgentDefinition) (image : string) : AgentDefinition :=
  mkAgentDefinition (df_Schema d) (df_Name d) (mkRuntime (rt_Engine (df_Runtime d)) image (rt_AdapterContract (df_Runtime d))) (df_ToolProfile d) (df_Model d)
    (df_Skills d) (df_MCP d) (df_Capabilities d) (df_Resources d) (df_Placement d) (df_State d) (df_Lifetime d).

Lemma with_same_image d : with_image d (rt_Image (df_Runtime d)) = d.
Proof. by destruct d as [? ? [] ? ? ? ? ? ? ? ? ?]. Qed.

Lemma written_runtime d image : validate_runtime d = Ok tt -> text_ok 3072 image ->
  written 19500 (df_Runtime (with_image d image)).
Proof.
  unfold validate_runtime. intros H Hu. do 3 step H. cbn [with_image df_Runtime].
  assert (text_ok 13 (rt_Engine (df_Runtime d)) /\ text_ok 24 (rt_AdapterContract (df_Runtime d))); [|written_fields Runtime_json].
  unfold want_contract in *. destruct (String.eqb_spec (rt_Engine (df_Runtime d)) "hermes") as [Eh|].
  - rewrite Eh. split; [done|]. cbv beta iota in *. breflect. destruct E as [E | E]; breflect;
      match goal with Hc : String.eqb (rt_AdapterContract _) _ = true |- _ => apply String.eqb_eq in Hc as -> end; done.
  - destruct (String.eqb_spec (rt_Engine (df_Runtime d)) RuntimeEngine) as [Ea|]; [|done]. rewrite Ea. split; [done|]. cbv beta iota in *. cbn [andb orb] in *. rewrite orb_false_r in *.
    match goal with Hc : String.eqb (rt_AdapterContract _) _ = true |- _ => apply String.eqb_eq in Hc as -> end. done.
Qed.

Lemma profile_text d : validate_profile d = Ok tt -> text_ok 9 (df_ToolProfile d).
Proof.
  unfold validate_profile, EffectiveToolProfile. intros H. destruct (String.eqb_spec (df_ToolProfile d) "") as [-> | _]; [done|].
  destruct (String.eqb_spec (df_ToolProfile d) "workspace") as [-> | _]; [done|]. destruct (String.eqb_spec (df_ToolProfile d) "research") as [-> | _]; [done|].
  destruct (String.eqb_spec (df_ToolProfile d) "developer") as [-> | _]; done.
Qed.

Lemma written_model m : text_ok 385 (md_Route m) -> written 3000 m.
Proof. intros H. written_fields Model_json. Qed.

Lemma written_state s : text_ok 128 (st_SnapshotID s) -> written 1000 s.
Proof. intros H. written_fields State_json. Qed.

(** Every valid definition, with any UTF-8 text for its image, is written in full, in less than half of [MaxArtifactBytes]. *)
Lemma written_definition d image : Definition_Validate d = Ok tt -> text_ok 3072 image -> written 400000 (normal (with_image d image)).
Proof.
  intros (Hs & Hn & Hr & Hp & Hm & Hres & Hpl & Hl & Hst & Hlt)%definition_inv Hu. apply (written_runtime _ image) in Hr; [|done]. apply profile_text in Hp.
  apply model_text in Hm. apply written_resources in Hres. apply written_lifetime in Hlt. apply name_text in Hn. apply lists_inv in Hl as (m1 & b1 & m2 & b2 & L1 & L2 & L3 & L4 & L5).
  pose proof (written_capabilities _ _ _ L4 L5) as Hc. eapply (written_values _ 128) in L1, L2, L3; try lia; try (intros s; apply token_text).
  apply written_placement in Hpl; [|done]. assert (Hsc : text_ok 16 (df_Schema d)) by (rewrite Hs; done).
  assert (Hm' : written 3000 (df_Model d)) by by apply written_model, ascii_text_ok.
  assert (Hst' : written 1000 (df_State d)).
  { apply written_state. destruct Hst as [-> | Hst]; [done | by apply ascii_text_ok, token_text]. }
  clear Hm L4 L5. unfold written in Hc, Hpl. rewrite json_normal_capabilities in Hc. rewrite json_normal_placement in Hpl. unfold written. rewrite json_normal. clear Hu. cbn [with_image df_Runtime] in Hr. field_facts.
  split; [cbn [storable AgentDefinition_json with_image df_Schema df_Name df_Runtime df_ToolProfile df_Model df_Skills df_MCP df_Capabilities df_Resources df_Placement df_State df_Lifetime normal]; rewrite ?andb_true_iff; split_and!; assumption|].
  cbn [to_json AgentDefinition_json with_image df_Schema df_Name df_Runtime df_ToolProfile df_Model df_Skills df_MCP df_Capabilities df_Resources df_Placement df_State df_Lifetime]. struct_bound.
Qed.

Lemma image_text d : Definition_Validate d = Ok tt -> slen (rt_Image (df_Runtime d)) <= 512.
Proof. intros (_ & _ & Hr & _)%definition_inv. unfold validate_runtime in Hr. do 3 step Hr. by apply image_length. Qed.

Lemma written_valid d : Definition_Validate d = Ok tt -> utf8_valid (rt_Image (df_Runtime d)) = true -> written 400000 (normal d).
Proof.
  intros Hd Hu. rewrite <- (with_same_image d) at 1. apply written_definition; [done|]. pose proof (image_text d Hd). split; [done | lia].
Qed.

(** ** Bundles *)

Lemma json_digest_text {A} `{GoJSON A} (x : A) : text_ok 71 (DigestJSON x).
Proof.
  unfold DigestJSON, sha256_text. destruct (hex_encode_lower (Sha256.sum (json_print (to_json x)))) as [H1 H2]. apply text_plain.
  - rewrite all_bytes_app. apply andb_true_iff. split; [done|]. unfold all_bytes. rewrite bytes_of_string_of. apply forallb_forall. intros c Hc.
    apply (proj1 (forallb_forall _ _) H1) in Hc. unfold lower_hex_byte, plain_byte in *. lia.
  - rewrite slen_app, <- (zlen_bytes_of (string_of _)), bytes_of_string_of. unfold zlen. rewrite H2, Sha256.length_sum. done.
Qed.

Lemma digest_ascii text : isHex text = true -> Forall (fun b => u8 b < 128) (bytes_of text).
Proof.
  unfold isHex. intros [_ H]%andb_true_iff. unfold all_bytes in H. apply Forall_forall. intros b Hb%list_elem_of_In.
  apply (proj1 (forallb_forall _ _) H) in Hb. unfold hex_byte, lower_hex_byte in Hb. lia.
Qed.

Lemma policy_texts p : policy_ok p = true ->
  Forall (fun b => u8 b < 128) (bytes_of (pe_BundleDigest p)) /\ slen (pe_BundleDigest p) <= 71 /\ ascii_text 256 (pe_Query p).
Proof.
  unfold policy_ok, validDigest, validQuery. intros H. breflect. split_and!; [|lia|by apply token_text].
  match goal with Hp : has_prefix _ _ = true, Hh : isHex _ = true |- _ => rewrite (trim_prefix_app _ _ Hp), bytes_of_app; apply Forall_app;
    split; [repeat constructor | by apply digest_ascii] end.
Qed.

Lemma written_policy p : policy_ok p = true -> written 2100 p.
Proof.
  intros (Hb & Hl & Hq)%policy_texts. assert (ascii_text 71 (pe_BundleDigest p)) by done. assert (in_int64b 0 = true) by done. written_fields PolicyEvidence_json.
Qed.

(** The definition and the policy evidence as they are read back from their JSON. *)
Definition readable (d : AgentDefinition) : AgentDefinition := with_image d (sanitize (rt_Image (df_Runtime d))).
Definition readable_policy (p : PolicyEvidence) : PolicyEvidence :=
  mkPolicyEvidence (sanitize (pe_BundleDigest p)) (sanitize (pe_Query p)) (pe_Allowed p).

Lemma readable_same d : utf8_valid (rt_Image (df_Runtime d)) = true -> readable d = d.
Proof. intros H. unfold readable. by rewrite utf8_valid_sanitize, with_same_image. Qed.

(** A policy that is valid once read back was not changed by it. *)
Lemma readable_policy_ok p : policy_ok (readable_policy p) = true -> readable_policy p = p.
Proof.
  intros (Hb & _ & Hq & _)%policy_texts. destruct p as [digest query allowed]. cbn [readable_policy pe_BundleDigest pe_Query pe_Allowed] in *.
  apply sanitize_ascii in Hb, Hq. unfold readable_policy. cbn [pe_BundleDigest pe_Query pe_Allowed]. by rewrite !utf8_valid_sanitize.
Qed.

Lemma storable_readable_policy p : storable (readable_policy p) = true.
Proof. cbn [storable PolicyEvidence_json readable_policy pe_BundleDigest pe_Query]. by rewrite !utf8_sanitize. Qed.

Lemma sanitized_image d : Definition_Validate d = Ok tt -> text_ok 3072 (sanitize (rt_Image (df_Runtime d))).
Proof.
  intros H%image_text. split; [apply utf8_sanitize|]. pose proof (quote_size (rt_Image (df_Runtime d))).
  pose proof (quote_size (sanitize (rt_Image (df_Runtime d)))). destruct (quote_shrinks (rt_Image (df_Runtime d))) as [? _]. lia.
Qed.

Ltac same_members := apply reread_struct; rewrite ?Forall2_cons; split_and!;
  cbn [always fst snd reread readable with_image df_Runtime rt_Image readable_policy pe_BundleDigest pe_Query]; rewrite ?sanitize_twice; try reflexivity; [.. | constructor].

Lemma reread_definition d : reread (to_json d) = reread (to_json (readable d)).
Proof.
  cbn [to_json AgentDefinition_json]. same_members. cbn [Runtime_json to_json]. same_members.
Qed.

Lemma reread_policy p : reread (to_json p) = reread (to_json (readable_policy p)).
Proof. cbn [to_json PolicyEvidence_json]. same_members. Qed.

(** A rewritten image makes the JSON shorter, so that it is another text. *)
Lemma readable_differs d : utf8_valid (rt_Image (df_Runtime d)) = false -> json_print (to_json d) <> json_print (to_json (readable d)).
Proof.
  intros Hu E. apply (f_equal zlen) in E. destruct (quote_shrinks (rt_Image (df_Runtime d))) as [_ H]. specialize (H Hu). revert E.
  assert (Hr : zlen (json_print (to_json (df_Runtime (readable d)))) < zlen (json_print (to_json (df_Runtime d)))).
  { cbn [to_json Runtime_json]. apply (longer_member [always _ _] "image" (JStr _) (JStr _) [_]). by rewrite !zlen_print_str. }
  intros E. apply (Z.lt_irrefl (zlen (json_print (to_json d)))). rewrite E at 1.
  exact (longer_member [always "schema" (JStr (df_Schema d)); always "name" (JStr (df_Name d))] "runtime" _ _ _ Hr).
Qed.

Section build.
Context (d : AgentDefinition) (policy : option PolicyEvidence).
Context (Himage : utf8_valid (rt_Image (df_Runtime d)) = true) (Hd : Definition_Validate d = Ok tt).

Definition built : Bundle := mkBundle BundleSchema (DigestJSON d) (normal d) policy.

Lemma json_built : to_json built = to_json (mkBundle BundleSchema (DigestJSON d) d policy).
Proof. cbn [to_json Bundle_json built bn_Schema bn_SourceDigest bn_Definition bn_Policy]. by rewrite json_normal. Qed.

Lemma storable_built : from_option policy_ok true policy = true -> storable built = true.
Proof.
  intros Hp. assert (Hpolicy : from_option storable true policy = true) by (destruct policy as [p|]; [by apply written_policy | done]).
  destruct (written_valid d Hd Himage) as [Hs _]. destruct (json_digest_text d) as [Hu _]. cbn [storable Bundle_json built bn_Schema bn_SourceDigest bn_Definition bn_Policy].
  by rewrite Hs, Hu, Hpolicy.
Qed.

Lemma size_built : from_option policy_ok true policy = true -> zlen (json_print (to_json built)) <= 410000.
Proof.
  intros Hp. destruct (written_valid d Hd Himage) as [_ Hz]. destruct (json_digest_text d) as [_ Hl].
  assert (Hz' : zlen (json_print (enc_ptr to_json policy)) <= 2100).
  { destruct policy as [p|]; [by apply written_policy | by vm_compute]. }
  rewrite json_built. rewrite json_normal in Hz. cbn [to_json Bundle_json bn_Schema bn_SourceDigest bn_Definition bn_Policy]. assert (slen BundleSchema <= 23) by done. struct_bound.
Qed.

Lemma validate_built : Bundle_Validate built = require from_option policy_ok true policy else "agent bundle policy evidence is invalid or denied" in Ok tt.
Proof.
  unfold Bundle_Validate, DigestJSON. cbn [built bn_Schema bn_SourceDigest bn_Definition bn_Policy]. rewrite String.eqb_refl, validate_normal, Hd, json_normal, String.eqb_refl.
  by destruct policy.
Qed.

Lemma decode_built tail : tail = [] \/ tail = [byte_of_Z 10] -> from_option policy_ok true policy = true ->
  DecodeBundle (json_print (to_json built) ++ tail) = Ok built.
Proof.
  intros Ht Hp. unfold DecodeBundle. rewrite DecodeStrictInto_marshal; [by rewrite validate_built, Hp | by apply storable_built | lia | done|].
  pose proof (size_built Hp). rewrite zlen_app. change MaxArtifactBytes with 1048576. assert (zlen tail <= 1) by (by destruct Ht as [-> | ->]). lia.
Qed.
End build.

(** What [Build] returns is the definition as it is read back. *)
Lemma build_reads d policy bundle : Definition_Validate d = Ok tt -> Build d policy = Ok bundle ->
  bundle = mkBundle BundleSchema (DigestJSON d) (normal (readable d)) (readable_policy <$> policy) /\ Bundle_Validate bundle = Ok tt.
Proof.
  intros Hd H. unfold Build in H. rewrite Hd in H. unfold DecodeBundle in H. step H. step H. injection H as <-.
  match goal with u : unit |- _ => destruct u end. split; [|done].
  set (y := mkBundle _ _ _ _). assert (Hy : storable y = true).
  { destruct (written_definition d _ Hd (sanitized_image d Hd)) as [Hs _]. destruct (json_digest_text d) as [Hu _].
    subst y. cbn [storable Bundle_json bn_Schema bn_SourceDigest bn_Definition bn_Policy]. unfold readable. rewrite Hs, Hu. cbn [andb].
    destruct policy as [p|]; [|reflexivity]. cbn [fmap option_fmap option_map from_option]. apply storable_readable_policy. }
  assert (Hr : reread (to_json (mkBundle BundleSchema (DigestJSON d) d policy)) = to_json y).
  { destruct (json_ok_reread _ (to_json_ok y Hy)) as [_ <-]. cbn [to_json Bundle_json]. apply reread_struct. rewrite !Forall2_cons. split_and!; [reflexivity | reflexivity | reflexivity | reflexivity | reflexivity | | destruct policy; reflexivity | | constructor];
      cbn [always omitempty fst snd bn_Definition bn_Policy y].
    - rewrite json_normal. apply reread_definition.
    - destruct policy as [p|]; [apply reread_policy | reflexivity]. }
  refine (DecodeStrictInto_reread _ _ _ _ _ _ Hr _ E); [|by apply of_to_json].
  apply shown_reread. rewrite Hr. apply json_ok_reread, to_json_ok, Hy.
Qed.

(** C22: [Build] succeeds for every valid definition with a UTF-8 image and every allowed policy evidence, within the size limit, and returns the
    definition (empty optional lists as nil) under the digest of its JSON. Conversely, whenever [Build] succeeds, the definition is valid, the evidence
    allows it and the bundle is that one, read back unchanged from its canonical file; or the image is not UTF-8, [json.Marshal] replaced its invalid
    bytes, and the rewritten definition, another text, has the same SHA-256 digest: a valid definition with such an image does not build otherwise. *)
Theorem build_exact d policy bundle :
  let raw := json_print (to_json d) in
  let rewritten := json_print (to_json (readable d)) in
  (Definition_Validate d = Ok tt -> utf8_valid (rt_Image (df_Runtime d)) = true -> from_option policy_ok true policy = true ->
   Build d policy = Ok (built d policy)) /\
  (Build d policy = Ok bundle ->
   Definition_Validate d = Ok tt /\ from_option policy_ok true policy = true /\
   (utf8_valid (rt_Image (df_Runtime d)) = true /\ bundle = built d policy /\
    (exists file, MarshalCanonical bundle = Ok file /\ DecodeBundle file = Ok bundle) \/
    utf8_valid (rt_Image (df_Runtime d)) = false /\ raw <> rewritten /\ Sha256.sum raw = Sha256.sum rewritten)).
Proof.
  intros raw rewritten. split.
  - intros Hd Hi Hp. unfold Build. rewrite Hd, <- json_built, <- (app_nil_r (json_print _)). apply decode_built; auto.
  - intros H. assert (Hd : Definition_Validate d = Ok tt) by (unfold Build in H; by destruct (Definition_Validate d) as [[]|]).
    destruct (build_reads d policy bundle Hd H) as [-> (_ & _ & Hdigest & Hp)%bundle_inv]. cbn [bn_SourceDigest bn_Definition bn_Policy] in Hdigest, Hp.
    assert (Hsame : readable_policy <$> policy = policy) by (destruct policy as [p|]; [|done]; cbn in Hp |- *; by rewrite readable_policy_ok).
    rewrite Hsame in *. split_and!; [done|done|]. destruct (utf8_valid (rt_Image (df_Runtime d))) eqn:Hi; [left | right].
    + rewrite readable_same by done. change (mkBundle _ _ _ _) with (built d policy). split_and!; [done|done|]. unfold MarshalCanonical.
      pose proof (size_built d policy Hi Hd Hp) as Hz. rewrite (proj2 (Z.leb_le _ MaxArtifactBytes)) by (change MaxArtifactBytes with 1048576; lia).
      eexists. split; [done|]. apply decode_built; auto.
    + split_and!; [done | by apply readable_differs|]. unfold DigestJSON in Hdigest. rewrite json_normal in Hdigest. by apply sha256_text_inj.
Qed.

Definition sample_image : string := "registry.example/agents/hermes@sha256:aaaaaaaaaaaaaaaaaaaaaaaaaaaaaaaaaaaaaaaaaaaaaaaaaaaaaaaaaaaaaaaa".
Definition sample_definition : AgentDefinition :=
  mkAgentDefinition DefinitionSchema "coder" (mkRuntime "hermes" sample_image HermesAdapterContractV2) "developer" (mkModel "local/default")
    (Some ["steward-coding-worker"]) (Some []) (mkCapabilityRequests None (Some ["steward-codex"]) false) (mkResources 4000 8192 16384 1024)
    (mkPlacement (Some ["amd64"; "arm64"]) "hardened" (Some [mkLabel "zone" "a"]) (Some [mkLabel "disk" "ssd"]) (Some ["batch"]) "rack") (mkState true "snap-1")
    (mkLifetime "temporary" 3600 "destroy").
Definition sample_policy : option PolicyEvidence :=
  Some (mkPolicyEvidence "sha256:aaaaaaaaaaaaaaaaaaaaaaaaaaaaaaaaaaaaaaaaaaaaaaaaaaaaaaaaaaaaaaaa" "data.steward.allow" true).

Lemma build_exact_witness : Build sample_definition sample_policy = Ok (built sample_definition sample_policy) /\
  exists raw, MarshalCanonical (built sample_definition sample_policy) = Ok raw /\ DecodeBundle raw = Ok (built sample_definition sample_policy).
Proof.
  destruct (build_exact sample_definition sample_policy (built sample_definition sample_policy)) as [H1 H2].
  assert (H : Build sample_definition sample_policy = Ok (built sample_definition sample_policy)) by (apply H1; vm_compute; reflexivity).
  destruct (H2 H) as (_ & _ & [(_ & _ & Hraw) | (Hf & _)]); [exact (conj H Hraw) | vm_compute in Hf; discriminate Hf].
Defined.

(** A valid definition whose image has a byte that is not UTF-8: it does not build. *)
Definition broken_image : string := string_of (byte_of_Z 255 :: bytes_of sample_image).
Example broken_image_refused :
  Definition_Validate (with_image sample_definition broken_image) = Ok tt /\ is_ok (Build (with_image sample_definition broken_image) None) = false.
Proof. vm_compute. split; reflexivity. Qed.

(** ** Templates *)

Lemma definition_ok d :
  df_Schema d = DefinitionSchema -> validName (df_Name d) = true -> validate_runtime d = Ok tt -> validate_profile d = Ok tt ->
  is_ok (ParseModelRoute (md_Route (df_Model d))) = true -> validate_resources (df_Resources d) = Ok tt -> validate_placement (df_Placement d) = Ok tt ->
  validate_lists d = Ok tt -> st_SnapshotID (df_State d) = ""%string -> validate_lifetime (df_Lifetime d) = Ok tt -> Definition_Validate d = Ok tt.
Proof.
  intros Hs Hn Hr Hp Hm Hres Hpl Hl Hst Hlt. unfold Definition_Validate, ValidateName. rewrite Hs, Hn, Hr, Hp, Hres, Hpl, Hl, Hst, Hlt. by destruct (ParseModelRoute _).
Qed.

(** A template yields a definition exactly for the three built-in identifiers, a valid agent name and an image pinned by digest. *)
Theorem template_exact id name image :
  is_ok (DefinitionFromTemplate id name image) = true <-> id ∈ tm_ID <$> builtinTemplates /\ validName name = true /\ validImage image = true.
Proof.
  unfold DefinitionFromTemplate, GetTemplate. split.
  - destruct (List.find _ _) as [template|] eqn:Ef; [|done]. cbn [opt_ok]. destruct (Definition_Validate _) as [[]|] eqn:Ed; [|done]. intros _.
    apply definition_inv in Ed as (_ & Hn & Hr & _). apply find_some in Ef as [Hin Hid%String.eqb_eq]. split_and!; [|done|].
    + apply list_elem_of_fmap. exists template. by rewrite list_elem_of_In.
    + unfold validate_runtime in Hr. do 2 step Hr. done.
  - intros (Hid & Hn & Hi).
    assert (Hr : forall value, rt_Engine (df_Runtime value) = "hermes"%string -> rt_AdapterContract (df_Runtime value) = HermesAdapterContractV2 ->
      rt_Image (df_Runtime value) = image -> validate_runtime value = Ok tt) by (intros value E1 E2 E3; unfold validate_runtime; by rewrite E1, E2, E3, Hi).
    cbn [fmap list_fmap builtinTemplates tm_ID] in Hid. rewrite !elem_of_cons, elem_of_nil in Hid.
    destruct Hid as [-> | [-> | [-> | []]]]; cbn [List.find builtinTemplates tm_ID opt_ok String.eqb Ascii.eqb Bool.eqb];
      (rewrite definition_ok; [done | done | done | by apply Hr | vm_compute; reflexivity..]).
Qed.

End AgentBundle.
