(* ===== verification/Scheduler.v ===== *)
(** * Placement and forks ([src/internal/agentapp/scheduler.go])

    The scheduler that picks a node of an inventory for a bundle, and the plans to fork an agent from a snapshot. *)

From Stdlib Require Import Ascii.
From S2P Require Import Prelude GoText GoTime GoJson GoRune GoCrypto Strict AgentModel.
Import AgentModel.

Module Scheduler.

(** ** Data *)

Record Node := mkNode {
  nd_ID : string; nd_Ready : bool; nd_Tenants : option (list string); nd_Architecture : string; nd_Isolation : string;
  nd_Labels : option (list Label); nd_Taints : option (list string); nd_Capacity : Resources; nd_Allocated : Resources;
  nd_Images : option (list string); nd_Snapshots : option (list string); nd_ActiveAgents : Z }.

Record NodeInventory := mkNodeInventory {
  ni_Schema : string; ni_Nodes : option (list Node) }.

Record Snapshot := mkSnapshot {
  sn_Schema : string; sn_ID : string; sn_BundleDigest : string; sn_RuntimeEngine : string; sn_StateDigest : string; sn_SourceNodeID : string;
  sn_SourceLineage : string; sn_CreatedAt : string }.

Record ForkPlan := mkForkPlan {
  fk_Schema : string; fk_DeploymentID : string; fk_SnapshotID : string; fk_BundleDigest : string; fk_InstanceID : string; fk_LineageID : string;
  fk_Generation : Z; fk_SourceNodeID : string; fk_SourceLineageID : string; fk_ExpiresAt : string; fk_OnExpiry : string }.

(** [Candidate] and [PlacementDecision]: the answer of the scheduler. *)
Record Candidate := mkCandidate { cd_NodeID : string; cd_Eligible : bool; cd_Score : Z; cd_Reasons : list string }.
Record PlacementDecision := mkPlacementDecision { pd_Schema : string; pd_BundleDigest : string; pd_SelectedNode : string; pd_Candidates : list Candidate }.

(** ** JSON *)

Definition zero_Node : Node := mkNode "" false None "" "" None None zero_Resources zero_Resources None None 0.

#[global] Instance Node_json : GoJSON Node := {
  go_shape := KStruct [
    ("id", KString); ("ready", KBool); ("tenants", KSlice (go_shape (A := string))); ("architecture", KString); ("isolation", KString);
    ("labels", KSlice (go_shape (A := Label))); ("taints", KSlice (go_shape (A := string))); ("capacity", go_shape (A := Resources));
    ("allocated", go_shape (A := Resources)); ("images", KSlice (go_shape (A := string))); ("snapshots", KSlice (go_shape (A := string)));
    ("active_agents", KInt)]%string;
  to_json x := obj [
    always "id" (JStr (nd_ID x)); always "ready" (JBool (nd_Ready x)); always "tenants" (enc_slice to_json (nd_Tenants x));
    always "architecture" (JStr (nd_Architecture x)); always "isolation" (JStr (nd_Isolation x));
    omitempty "labels" (nil_slice (nd_Labels x)) (enc_slice to_json (nd_Labels x));
    omitempty "taints" (nil_slice (nd_Taints x)) (enc_slice to_json (nd_Taints x)); always "capacity" (to_json (nd_Capacity x));
    always "allocated" (to_json (nd_Allocated x)); omitempty "images" (nil_slice (nd_Images x)) (enc_slice to_json (nd_Images x));
    omitempty "snapshots" (nil_slice (nd_Snapshots x)) (enc_slice to_json (nd_Snapshots x)); always "active_agents" (json_int (nd_ActiveAgents x))];
  of_json v := match v with
    | JObj fs =>
        v_ID ← field fs "id" dec_string ""%string; v_Ready ← field fs "ready" dec_bool false; v_Tenants ← field fs "tenants" (dec_slice of_json) None;
        v_Architecture ← field fs "architecture" dec_string ""%string; v_Isolation ← field fs "isolation" dec_string ""%string;
        v_Labels ← field fs "labels" (dec_slice of_json) None; v_Taints ← field fs "taints" (dec_slice of_json) None;
        v_Capacity ← field fs "capacity" of_json zero_Resources; v_Allocated ← field fs "allocated" of_json zero_Resources;
        v_Images ← field fs "images" (dec_slice of_json) None; v_Snapshots ← field fs "snapshots" (dec_slice of_json) None;
        v_ActiveAgents ← field fs "active_agents" dec_int 0;
        Some (mkNode v_ID v_Ready v_Tenants v_Architecture v_Isolation v_Labels v_Taints v_Capacity v_Allocated v_Images v_Snapshots v_ActiveAgents)
    | _ => None end;
  storable x :=
    utf8_valid (nd_ID x) && storable_slice (nd_Tenants x) && utf8_valid (nd_Architecture x) && utf8_valid (nd_Isolation x) &&
    slice_ok storable (nd_Labels x) && slice_ok storable (nd_Taints x) && storable (nd_Capacity x) && storable (nd_Allocated x) &&
    slice_ok storable (nd_Images x) && slice_ok storable (nd_Snapshots x) && in_int64b (nd_ActiveAgents x);
}.

Definition zero_NodeInventory : NodeInventory := mkNodeInventory "" None.

#[global] Instance NodeInventory_json : GoJSON NodeInventory := {
  go_shape := KStruct [
    ("schema", KString); ("nodes", KSlice (go_shape (A := Node)))]%string;
  to_json x := obj [
    always "schema" (JStr (ni_Schema x)); always "nodes" (enc_slice to_json (ni_Nodes x))];
  of_json v := match v with
    | JObj fs =>
        v_Schema ← field fs "schema" dec_string ""%string; v_Nodes ← field fs "nodes" (dec_slice of_json) None;
        Some (mkNodeInventory v_Schema v_Nodes)
    | _ => None end;
  storable x :=
    utf8_valid (ni_Schema x) && storable_slice (ni_Nodes x);
}.

Definition zero_Snapshot : Snapshot := mkSnapshot "" "" "" "" "" "" "" "".

#[global] Instance Snapshot_json : GoJSON Snapshot := {
  go_shape := KStruct [
    ("schema", KString); ("id", KString); ("bundle_digest", KString); ("runtime_engine", KString); ("state_digest", KString);
    ("source_node_id", KString); ("source_lineage", KString); ("created_at", KString)]%string;
  to_json x := obj [
    always "schema" (JStr (sn_Schema x)); always "id" (JStr (sn_ID x)); always "bundle_digest" (JStr (sn_BundleDigest x));
    always "runtime_engine" (JStr (sn_RuntimeEngine x)); always "state_digest" (JStr (sn_StateDigest x));
    always "source_node_id" (JStr (sn_SourceNodeID x)); always "source_lineage" (JStr (sn_SourceLineage x));
    always "created_at" (JStr (sn_CreatedAt x))];
  of_json v := match v with
    | JObj fs =>
        v_Schema ← field fs "schema" dec_string ""%string; v_ID ← field fs "id" dec_string ""%string;
        v_BundleDigest ← field fs "bundle_digest" dec_string ""%string; v_RuntimeEngine ← field fs "runtime_engine" dec_string ""%string;
        v_StateDigest ← field fs "state_digest" dec_string ""%string; v_SourceNodeID ← field fs "source_node_id" dec_string ""%string;
        v_SourceLineage ← field fs "source_lineage" dec_string ""%string; v_CreatedAt ← field fs "created_at" dec_string ""%string;
        Some (mkSnapshot v_Schema v_ID v_BundleDigest v_RuntimeEngine v_StateDigest v_SourceNodeID v_SourceLineage v_CreatedAt)
    | _ => None end;
  storable x :=
    utf8_valid (sn_Schema x) && utf8_valid (sn_ID x) && utf8_valid (sn_BundleDigest x) && utf8_valid (sn_RuntimeEngine x) &&
    utf8_valid (sn_StateDigest x) && utf8_valid (sn_SourceNodeID x) && utf8_valid (sn_SourceLineage x) && utf8_valid (sn_CreatedAt x);
}.

Definition zero_ForkPlan : ForkPlan := mkForkPlan "" "" "" "" "" "" 0 "" "" "" "".

#[global] Instance ForkPlan_json : GoJSON ForkPlan := {
  go_shape := KStruct [
    ("schema", KString); ("deployment_id", KString); ("snapshot_id", KString); ("bundle_digest", KString); ("instance_id", KString);
    ("lineage_id", KString); ("generation", KInt); ("source_node_id", KString); ("source_lineage_id", KString); ("expires_at", KString);
    ("on_expiry", KString)]%string;
  to_json x := obj [
    always "schema" (JStr (fk_Schema x)); always "deployment_id" (JStr (fk_DeploymentID x)); always "snapshot_id" (JStr (fk_SnapshotID x));
    always "bundle_digest" (JStr (fk_BundleDigest x)); always "instance_id" (JStr (fk_InstanceID x)); always "lineage_id" (JStr (fk_LineageID x));
    always "generation" (json_int (fk_Generation x)); always "source_node_id" (JStr (fk_SourceNodeID x));
    always "source_lineage_id" (JStr (fk_SourceLineageID x)); omitempty "expires_at" (empty_string (fk_ExpiresAt x)) (JStr (fk_ExpiresAt x));
    omitempty "on_expiry" (empty_string (fk_OnExpiry x)) (JStr (fk_OnExpiry x))];
  of_json v := match v with
    | JObj fs =>
        v_Schema ← field fs "schema" dec_string ""%string; v_DeploymentID ← field fs "deployment_id" dec_string ""%string;
        v_SnapshotID ← field fs "snapshot_id" dec_string ""%string; v_BundleDigest ← field fs "bundle_digest" dec_string ""%string;
        v_InstanceID ← field fs "instance_id" dec_string ""%string; v_LineageID ← field fs "lineage_id" dec_string ""%string;
        v_Generation ← field fs "generation" dec_u64 0; v_SourceNodeID ← field fs "source_node_id" dec_string ""%string;
        v_SourceLineageID ← field fs "source_lineage_id" dec_string ""%string; v_ExpiresAt ← field fs "expires_at" dec_string ""%string;
        v_OnExpiry ← field fs "on_expiry" dec_string ""%string;
        Some (mkForkPlan v_Schema v_DeploymentID v_SnapshotID v_BundleDigest v_InstanceID v_LineageID v_Generation v_SourceNodeID v_SourceLineageID v_ExpiresAt v_OnExpiry)
    | _ => None end;
  storable x :=
    utf8_valid (fk_Schema x) && utf8_valid (fk_DeploymentID x) && utf8_valid (fk_SnapshotID x) && utf8_valid (fk_BundleDigest x) &&
    utf8_valid (fk_InstanceID x) && utf8_valid (fk_LineageID x) && in_u64b (fk_Generation x) && utf8_valid (fk_SourceNodeID x) &&
    utf8_valid (fk_SourceLineageID x) && utf8_valid (fk_ExpiresAt x) && utf8_valid (fk_OnExpiry x);
}.

#[global] Instance Node_laws : GoJSONLaws Node 3.
Proof. struct_laws. Qed.
#[global] Instance NodeInventory_laws : GoJSONLaws NodeInventory 5.
Proof. struct_laws. Qed.
#[global] Instance Snapshot_laws : GoJSONLaws Snapshot 1.
Proof. struct_laws. Qed.
#[global] Instance ForkPlan_laws : GoJSONLaws ForkPlan 1.
Proof. struct_laws. Qed.

(** ** Inventories *)

Definition resourceNonNegative (value : Resources) : bool :=
  (0 <=? rs_CPUMillis value) && (0 <=? rs_MemoryMiB value) && (0 <=? rs_DiskMiB value) && (0 <=? rs_PIDs value).

Definition resourceFits (request available : Resources) : bool :=
  (rs_CPUMillis request <=? rs_CPUMillis available) && (rs_MemoryMiB request <=? rs_MemoryMiB available)
  && (rs_DiskMiB request <=? rs_DiskMiB available) && (rs_PIDs request <=? rs_PIDs available).

Definition subtractResources (left right : Resources) : Resources :=
  mkResources (int64 (rs_CPUMillis left - rs_CPUMillis right)) (int64 (rs_MemoryMiB left - rs_MemoryMiB right))
    (int64 (rs_DiskMiB left - rs_DiskMiB right)) (int64 (rs_PIDs left - rs_PIDs right)).

Fixpoint check_tokens (lists : list (list string)) : result unit :=
  match lists with
  | [] => Ok tt
  | values :: lists =>
      require zlen values <=? 256 else "node inventory list exceeds 256 entries" in
      require forallb (fun value => validToken value 512) values else "node inventory contains an invalid identifier" in
      check_tokens lists
  end.

Definition validate_node (node : Node) : result unit :=
  require is_in (nd_Architecture node) ["amd64"; "arm64"]%string else "node architecture must be amd64 or arm64" in
  require is_in (nd_Isolation node) ["development"; "hardened"]%string else "node isolation must be development or hardened" in
  let* _ := validateLabels (nd_Labels node) 64 in
  let* _ := check_tokens [items (nd_Tenants node); items (nd_Taints node); items (nd_Images node); items (nd_Snapshots node)] in
  require resourceNonNegative (nd_Capacity node) && resourceNonNegative (nd_Allocated node) && resourceFits (nd_Allocated node) (nd_Capacity node)
    && (0 <=? nd_ActiveAgents node) else "node capacity or allocation is invalid" in Ok tt.

Definition NodeInventory_Validate (inventory : NodeInventory) : result unit :=
  let nodes := items (ni_Nodes inventory) in
  require String.eqb (ni_Schema inventory) InventorySchema && negb (bool_decide (nodes = [])) && (zlen nodes <=? 4096)
    else "node inventory requires schema steward.nodes.v1 and 1-4096 nodes" in
  let bad := "node IDs must be unique bounded identifiers"%string in
  each_new nd_ID (fun node => require validToken (nd_ID node) 128 else bad in Ok tt) bad validate_node [] nodes.

Definition DecodeInventory (raw : bytes) : result NodeInventory :=
  let* inventory := DecodeStrictInto raw MaxArtifactBytes in
  let* _ := NodeInventory_Validate inventory in Ok inventory.

(** ** Placement *)

Fixpoint labelValue (labels : list Label) (key : string) : string :=
  match labels with
  | [] => ""
  | label :: labels => if String.eqb (lb_Key label) key then lb_Value label else labelValue labels key
  end.

Definition when (b : bool) (reason : string) : list string := if b then [reason] else [].

(** The reasons against a node, in the order in which they are found. *)
Definition rejections (definition : AgentDefinition) (tenant : string) (node : Node) : list string :=
  let placement := df_Placement definition in
  when (negb (nd_Ready node)) "node_not_ready" ++
  when (negb (is_in tenant (items (nd_Tenants node)))) "tenant_not_allowed" ++
  when (negb (is_in (nd_Architecture node) (items (pl_Architectures placement)))) "architecture_mismatch" ++
  when (String.eqb (pl_Isolation placement) "hardened" && negb (String.eqb (nd_Isolation node) "hardened")) "hardened_isolation_required" ++
  concat ((fun label => when (negb (String.eqb (labelValue (items (nd_Labels node)) (lb_Key label)) (lb_Value label)))
    ("required_label_mismatch:" +:+ lb_Key label)) <$> items (pl_RequiredLabels placement)) ++
  concat ((fun taint => when (negb (is_in taint (items (pl_Tolerations placement)))) ("untolerated_taint:" +:+ taint)) <$> items (nd_Taints node)) ++
  when (negb (resourceFits (df_Resources definition) (subtractResources (nd_Capacity node) (nd_Allocated node)))) "insufficient_resources".

(** One bonus of the score: its points and its reason. *)
Definition add_bonus (c : Z * list string) (b : bool) (points : Z) (reason : string) : Z * list string :=
  if b then (int64 (c.1 + points), c.2 ++ [reason]) else c.

Definition evaluateNode (definition : AgentDefinition) (tenant : string) (node : Node) : Candidate :=
  match rejections definition tenant node with
  | [] =>
      let snapshot := st_SnapshotID (df_State definition) in
      let c := (int64 (1000 - nd_ActiveAgents node), ["eligible"%string]) in
      let c := add_bonus c (is_in (rt_Image (df_Runtime definition)) (items (nd_Images node))) 200 "image_local:+200" in
      let c := add_bonus c (negb (String.eqb snapshot "") && is_in snapshot (items (nd_Snapshots node))) 200 "snapshot_local:+200" in
      let c := foldl (fun c label => add_bonus c (String.eqb (labelValue (items (nd_Labels node)) (lb_Key label)) (lb_Value label)) 25
        ("preferred_label:" +:+ lb_Key label +:+ ":+25")) c (items (pl_PreferredLabels (df_Placement definition))) in
      mkCandidate (nd_ID node) true c.1 c.2
  | reasons => mkCandidate (nd_ID node) false 0 reasons
  end.

(** [slices.SortFunc] by identifier, which are unique. *)
Definition id_le (left right : Node) : Prop := String.le (nd_ID left) (nd_ID right).
#[global] Instance id_le_dec : RelDecision id_le.
Proof. intros left right. unfold id_le. apply _. Defined.
Definition sort_nodes (nodes : list Node) : list Node := merge_sort id_le nodes.

Definition place (definition : AgentDefinition) (tenant : string) (s : string * Z * list Candidate) (node : Node) : string * Z * list Candidate :=
  let '(selected, bestScore, candidates) := s in
  let candidate := evaluateNode definition tenant node in
  let candidates := candidates ++ [candidate] in
  if cd_Eligible candidate && (String.eqb selected "" || (bestScore <? cd_Score candidate))
  then (nd_ID node, cd_Score candidate, candidates) else (selected, bestScore, candidates).

Definition noDecision : PlacementDecision := mkPlacementDecision "" "" "" [].

(** The decision and the error; without an eligible node both are returned. *)
Definition Schedule (bundle : Bundle) (tenant : string) (inventory : NodeInventory) : PlacementDecision * result unit :=
  match (let* _ := Bundle_Validate bundle in
         let* _ := NodeInventory_Validate inventory in
         require validToken tenant 128 else "tenant must be a bounded identifier" in Ok tt) with
  | Err e => (noDecision, Err e)
  | Ok _ =>
      let '(selected, _, candidates) :=
        foldl (place (bn_Definition bundle) tenant) (""%string, - 2 ^ 62, []) (sort_nodes (items (ni_Nodes inventory))) in
      (mkPlacementDecision "steward.placement.v1" (DigestJSON bundle) selected candidates,
       require negb (String.eqb selected "") else "no eligible node; inspect placement candidates for exact rejection reasons" in Ok tt)
  end.

(** ** Forks *)

Definition ForkPlan_Validate (value : ForkPlan) : result unit :=
  require String.eqb (fk_Schema value) ForkSchema && validToken (fk_DeploymentID value) 128 && validToken (fk_SnapshotID value) 128
    && validDigest (fk_BundleDigest value) && validToken (fk_InstanceID value) 128 && validToken (fk_LineageID value) 128
    && validToken (fk_SourceNodeID value) 128 && validToken (fk_SourceLineageID value) 128
    && negb (String.eqb (fk_LineageID value) (fk_SourceLineageID value)) && negb (fk_Generation value =? 0) else "fork plan is invalid" in
  if String.eqb (fk_ExpiresAt value) "" then
    require String.eqb (fk_OnExpiry value) "" else "fork plan expiry action requires expires_at" in Ok tt
  else
    require match canonical_time (fk_ExpiresAt value) with Some _ => true | None => false end && String.eqb (fk_OnExpiry value) "destroy"
      else "temporary fork plan requires a canonical expiry and destroy action" in Ok tt.

Definition DecodeForkPlan (raw : bytes) : result ForkPlan :=
  let* value := DecodeStrictInto raw MaxArtifactBytes in
  let* _ := ForkPlan_Validate value in Ok value.

Definition Snapshot_Validate (value : Snapshot) : result unit :=
  require String.eqb (sn_Schema value) SnapshotSchema && validToken (sn_ID value) 128 && validDigest (sn_BundleDigest value)
    && validDigest (sn_StateDigest value) && validToken (sn_SourceLineage value) 128 && validToken (sn_SourceNodeID value) 128
    && is_in (sn_RuntimeEngine value) ["hermes"%string; RuntimeEngine] else "snapshot metadata is invalid" in
  require parses_rfc3339nano (sn_CreatedAt value) else "snapshot created_at must be RFC3339Nano" in Ok tt.

Definition DecodeSnapshot (raw : bytes) : result Snapshot :=
  let* value := DecodeStrictInto raw MaxArtifactBytes in
  let* _ := Snapshot_Validate value in Ok value.

Definition Fork (bundle : Bundle) (snapshot : Snapshot) (deploymentID instanceID lineageID : string) (ttl : Z) (onExpiry : string) (now : Z)
  : result ForkPlan :=
  let* _ := Bundle_Validate bundle in
  let* _ := Snapshot_Validate snapshot in
  let bundleDigest := DigestJSON bundle in
  require String.eqb (sn_BundleDigest snapshot) bundleDigest && String.eqb (sn_RuntimeEngine snapshot) (rt_Engine (df_Runtime (bn_Definition bundle)))
    else "snapshot is not compatible with the selected agent bundle" in
  require validToken deploymentID 128 && validToken instanceID 128 && validToken lineageID 128 && negb (String.eqb lineageID (sn_SourceLineage snapshot))
    else "fork requires new bounded instance and lineage identities" in
  let plan expiresAt onExpiry :=
    mkForkPlan ForkSchema deploymentID (sn_ID snapshot) bundleDigest instanceID lineageID 1 (sn_SourceNodeID snapshot) (sn_SourceLineage snapshot)
      expiresAt onExpiry in
  if negb (ttl =? 0) then
    require (minute <=? ttl) && (ttl <=? 30 * day) && String.eqb onExpiry "destroy" else "fork TTL must be 1 minute-30 days with destroy expiry" in
    Ok (plan (format_rfc3339nano (now + ttl)) onExpiry)
  else
    require String.eqb onExpiry "" else "on-expiry requires a fork TTL" in Ok (plan ""%string ""%string).

End Scheduler.
