(* ===== verification/Placement.v ===== *)
(** * What the scheduler decides

    [Schedule] of [Scheduler] against its specification: the nodes that suit a definition, their scores, and the best of them. *)

From Stdlib Require Import Ascii.
From S2P Require Import Prelude GoText GoTime GoJson GoRune GoCrypto Strict AgentModel AgentBundle Scheduler.
Import AgentModel AgentBundle Scheduler.

Module Placement.

(** ** Specification *)

Definition has_label (node : Node) (label : Label) : Prop := label ∈ items (nd_Labels node).
#[global] Instance label_eq_dec : EqDecision Label.
Proof. solve_decision. Defined.
#[global] Instance has_label_dec node label : Decision (has_label node label).
Proof. unfold has_label. apply _. Defined.

(** The request and what is allocated fit into the capacity. *)
Definition room (request allocated capacity : Resources) : Prop :=
  rs_CPUMillis allocated + rs_CPUMillis request <= rs_CPUMillis capacity /\ rs_MemoryMiB allocated + rs_MemoryMiB request <= rs_MemoryMiB capacity /\
  rs_DiskMiB allocated + rs_DiskMiB request <= rs_DiskMiB capacity /\ rs_PIDs allocated + rs_PIDs request <= rs_PIDs capacity.

Record suits (definition : AgentDefinition) (tenant : string) (node : Node) : Prop := {
  suits_ready : nd_Ready node = true;
  suits_tenant : tenant ∈ items (nd_Tenants node);
  suits_architecture : nd_Architecture node ∈ items (pl_Architectures (df_Placement definition));
  suits_isolation : pl_Isolation (df_Placement definition) = "hardened"%string -> nd_Isolation node = "hardened"%string;
  suits_labels label : label ∈ items (pl_RequiredLabels (df_Placement definition)) -> has_label node label;
  suits_taints taint : taint ∈ items (nd_Taints node) -> taint ∈ items (pl_Tolerations (df_Placement definition));
  suits_room : room (df_Resources definition) (nd_Allocated node) (nd_Capacity node);
}.

Definition points (P : Prop) `{!Decision P} (n : Z) : Z := if bool_decide P then n else 0.

(** Fewer agents are better; the image, the snapshot and preferred labels on the node count for it. *)
Definition score (definition : AgentDefinition) (node : Node) : Z :=
  1000 - nd_ActiveAgents node + points (rt_Image (df_Runtime definition) ∈ items (nd_Images node)) 200
  + points (st_SnapshotID (df_State definition) <> ""%string /\ st_SnapshotID (df_State definition) ∈ items (nd_Snapshots node)) 200
  + zsum (fun label => points (has_label node label) 25) (items (pl_PreferredLabels (df_Placement definition))).

(** [node] suits the definition, no other node scores higher, and none of the same score comes before it. *)
Definition best (definition : AgentDefinition) (tenant : string) (nodes : list Node) (node : Node) : Prop :=
  node ∈ nodes /\ suits definition tenant node /\
  forall other, other ∈ nodes -> suits definition tenant other ->
    score definition other < score definition node \/ (score definition other = score definition node /\ String.le (nd_ID node) (nd_ID other)).

(** The numbers of a decoded node have their width. *)
Definition resources_typed (r : Resources) : Prop :=
  in_int64b (rs_CPUMillis r) && in_int64b (rs_MemoryMiB r) && in_int64b (rs_DiskMiB r) && in_int64b (rs_PIDs r) = true.
Definition node_typed (node : Node) : Prop := resources_typed (nd_Capacity node) /\ resources_typed (nd_Allocated node) /\ in_int64b (nd_ActiveAgents node) = true.

(** ** Validation *)

(** Looking a label up finds it when it is there, and keys are unique. *)
Lemma labelValue_spec labels label :
  NoDup (lb_Key <$> labels) -> lb_Value label <> ""%string -> labelValue labels (lb_Key label) = lb_Value label <-> label ∈ labels.
Proof.
  intros Hnd Hv. induction labels as [|x labels IH]; cbn [labelValue].
  { split; [congruence | by intros ?%not_elem_of_nil]. }
  rewrite fmap_cons, NoDup_cons in Hnd. destruct Hnd as [Hni Hnd]. rewrite elem_of_cons. destruct (String.eqb_spec (lb_Key x) (lb_Key label)) as [Hk | Hk].
  - split; [intros E; left; destruct x, label; cbn in *; congruence|]. intros [-> | Hin]; [done|]. exfalso. apply Hni. rewrite Hk. apply list_elem_of_fmap. eauto.
  - rewrite (IH Hnd). split; [by right|]. by intros [-> | ?].
Qed.

Lemma inventory_inv inventory : NodeInventory_Validate inventory = Ok tt ->
  NoDup (nd_ID <$> items (ni_Nodes inventory)) /\
  forall node, node ∈ items (ni_Nodes inventory) -> validToken (nd_ID node) 128 = true /\ validate_node node = Ok tt.
Proof.
  unfold NodeInventory_Validate. intros H. step H. apply each_new_ok in H as [Hnd H]. split; [done|].
  intros node Hn. destruct (H node Hn) as (_ & Hb & Hv). by step Hb.
Qed.

Lemma placement_labels definition : Definition_Validate definition = Ok tt ->
  (forall label, label ∈ items (pl_RequiredLabels (df_Placement definition)) -> lb_Value label <> ""%string) /\
  (forall label, label ∈ items (pl_PreferredLabels (df_Placement definition)) -> lb_Value label <> ""%string) /\
  zlen (items (pl_PreferredLabels (df_Placement definition))) <= 32.
Proof.
  intros (_ & _ & _ & _ & _ & _ & Hp & _)%definition_inv. apply placement_inv in Hp as (_ & _ & _ & H1 & H2 & _). apply validateLabels_inv in H1 as (_ & _ & H1), H2 as (? & _ & H2).
  split_and!; [intros label Hl; destruct (H1 label Hl) as [_ Hv] | intros label Hl; destruct (H2 label Hl) as [_ Hv] | done]; by eapply token_nonempty.
Qed.

(** ** Eligibility and scores *)

Lemma when_nil b reason : when b reason = [] <-> b = false.
Proof. by destruct b. Qed.

Lemma concat_when_nil {A} (f : A -> bool) (reason : A -> string) l :
  concat ((fun x => when (f x) (reason x)) <$> l) = [] <-> forall x, x ∈ l -> f x = false.
Proof.
  induction l as [|x l IH]; [by split; [intros _ ? ?%not_elem_of_nil |]|]. rewrite fmap_cons. cbn [concat]. rewrite app_nil, IH, when_nil. split.
  - intros [Hx Hl] y [-> | Hy]%elem_of_cons; auto.
  - intros H. split; [apply H; left | intros y Hy; apply H; by right].
Qed.

Lemma fits_room request allocated capacity :
  resources_typed allocated -> resources_typed capacity -> resourceNonNegative allocated = true -> resourceNonNegative capacity = true ->
  resourceFits request (subtractResources capacity allocated) = true <-> room request allocated capacity.
Proof.
  unfold resources_typed, resourceNonNegative, resourceFits, subtractResources, room, in_int64b. intros. breflect. cbn [rs_CPUMillis rs_MemoryMiB rs_DiskMiB rs_PIDs].
  rewrite !int64_small by lia. rewrite !andb_true_iff, !Z.leb_le. lia.
Qed.

Lemma node_inv node : validate_node node = Ok tt ->
  NoDup (lb_Key <$> items (nd_Labels node)) /\ resourceNonNegative (nd_Capacity node) = true /\ resourceNonNegative (nd_Allocated node) = true /\ 0 <= nd_ActiveAgents node.
Proof.
  unfold validate_node. intros H. do 5 step H. repeat match goal with u : unit |- _ => destruct u end. breflect.
  match goal with Hl : validateLabels _ _ = _ |- _ => apply validateLabels_inv in Hl as (_ & ? & _) end. done.
Qed.

Section node.
Context (definition : AgentDefinition) (tenant : string) (node : Node).
Context (Hdef : Definition_Validate definition = Ok tt) (Hnode : validate_node node = Ok tt) (Htyped : node_typed node).

Lemma label_match label : lb_Value label <> ""%string ->
  negb (String.eqb (labelValue (items (nd_Labels node)) (lb_Key label)) (lb_Value label)) = false <-> has_label node label.
Proof.
  intros Hv. rewrite negb_false_iff, String.eqb_eq. apply labelValue_spec; [|done]. by destruct (node_inv _ Hnode).
Qed.

Lemma rejections_nil : rejections definition tenant node = [] <-> suits definition tenant node.
Proof.
  destruct (placement_labels _ Hdef) as (Hreq & _). destruct (node_inv _ Hnode) as (_ & Hc & Ha & _). destruct Htyped as (Tc & Ta & _).
  unfold rejections. rewrite !app_nil, !concat_when_nil, !when_nil, !negb_false_iff, !is_in_spec, (fits_room _ _ _ Ta Tc Ha Hc). split.
  - intros (? & ? & ? & Hi & Hl & Ht & ?). constructor; try done.
    + intros E. rewrite E in Hi. cbn [String.eqb Ascii.eqb Bool.eqb andb] in Hi. apply negb_false_iff, String.eqb_eq in Hi. done.
    + intros label Hin. apply label_match; auto.
    + intros taint Hin. apply is_in_spec, negb_false_iff. auto.
  - intros [? ? ? Hi Hl Ht ?]. split_and!; try done.
    + destruct (String.eqb_spec (pl_Isolation (df_Placement definition)) "hardened") as [E|]; [|done]. rewrite (Hi E). done.
    + intros label Hin. apply label_match; auto.
    + intros taint Hin. apply negb_false_iff, is_in_spec. auto.
Qed.

Lemma bonus_points c (b : bool) (P : Prop) `{!Decision P} n reason : (b = true <-> P) -> - 2 ^ 63 <= c.1 + points P n < 2 ^ 63 ->
  (add_bonus c b n reason).1 = c.1 + points P n.
Proof.
  unfold add_bonus, points. intros Hb Hr. destruct b; case_bool_decide as HP; cbn [fst].
  - by rewrite int64_small.
  - by destruct HP; apply Hb.
  - by apply (proj2 Hb) in HP.
  - lia.
Qed.

Lemma points_range (P : Prop) `{!Decision P} n : 0 <= n -> 0 <= points P n <= n.
Proof. intros. unfold points. case_bool_decide; lia. Qed.

Lemma preferred_score reason labels c : (forall label, label ∈ labels -> lb_Value label <> ""%string) -> - 2 ^ 63 <= c.1 -> c.1 + 25 * zlen labels < 2 ^ 63 ->
  (foldl (fun c label => add_bonus c (String.eqb (labelValue (items (nd_Labels node)) (lb_Key label)) (lb_Value label)) 25 (reason label)) c labels).1
  = c.1 + zsum (fun label => points (has_label node label) 25) labels.
Proof.
  revert c. induction labels as [|label labels IH]; intros c Hv Hl Hu; [cbn; lia|]. cbn [foldl zsum foldr]. rewrite zlen_cons in Hu.
  pose proof (points_range (has_label node label) 25 ltac:(lia)). pose proof (zlen_nonneg labels).
  assert (E : (add_bonus c (String.eqb (labelValue (items (nd_Labels node)) (lb_Key label)) (lb_Value label)) 25 (reason label)).1 = c.1 + points (has_label node label) 25).
  { apply bonus_points; [|lia]. rewrite <- label_match by (apply Hv; left). by rewrite negb_false_iff. }
  rewrite IH; rewrite ?E; unfold zsum; try lia. intros l' Hl'. apply Hv. by right.
Qed.

(** A node is eligible exactly when it suits the definition, and its score does not overflow. *)
Lemma evaluate_spec :
  (cd_Eligible (evaluateNode definition tenant node) = true <-> suits definition tenant node) /\
  (suits definition tenant node -> cd_Score (evaluateNode definition tenant node) = score definition node).
Proof.
  pose proof rejections_nil as Hrej. unfold evaluateNode. destruct (rejections definition tenant node) as [|r rs]; cbn [cd_Eligible cd_Score].
  2: { split; [split; [done | intros Hs; by apply Hrej in Hs] | intros Hs; by apply Hrej in Hs]. }
  split; [by rewrite <- Hrej | intros _]. destruct (placement_labels _ Hdef) as (_ & Hpre & Hn). destruct (node_inv _ Hnode) as (_ & _ & _ & Ha). destruct Htyped as (_ & _ & Tt).
  unfold in_int64b in Tt. breflect.
  set (c1 := add_bonus _ (is_in (rt_Image _) _) _ _). set (c2 := add_bonus c1 _ _ _).
  assert (E1 : c1.1 = 1000 - nd_ActiveAgents node + points (rt_Image (df_Runtime definition) ∈ items (nd_Images node)) 200).
  { pose proof (points_range (rt_Image (df_Runtime definition) ∈ items (nd_Images node)) 200 ltac:(lia)). unfold c1.
    rewrite (bonus_points _ _ (rt_Image (df_Runtime definition) ∈ items (nd_Images node))); cbn [fst]; rewrite ?int64_small; try lia. apply is_in_spec. }
  set (P := st_SnapshotID (df_State definition) <> ""%string /\ st_SnapshotID (df_State definition) ∈ items (nd_Snapshots node)).
  assert (E2 : c2.1 = c1.1 + points P 200).
  { pose proof (points_range P 200 ltac:(lia)). pose proof (points_range (rt_Image (df_Runtime definition) ∈ items (nd_Images node)) 200 ltac:(lia)). unfold c2. apply bonus_points; [|lia].
    unfold P. rewrite andb_true_iff, negb_true_iff, String.eqb_neq, is_in_spec. done. }
  pose proof (points_range P 200 ltac:(lia)). pose proof (points_range (rt_Image (df_Runtime definition) ∈ items (nd_Images node)) 200 ltac:(lia)).
  rewrite (preferred_score (fun label => ("preferred_label:" +:+ lb_Key label +:+ ":+25")%string)) by (try done; lia). unfold score. fold P. lia.
Qed.
End node.

(** ** The choice *)

#[global] Instance id_le_trans : Transitive id_le.
Proof. intros x y z. unfold id_le. by transitivity (nd_ID y). Qed.
#[global] Instance id_le_total : Total id_le.
Proof. intros x y. unfold id_le. apply String.le_total. Qed.

Lemma sorted_sort_nodes nodes : StronglySorted id_le (sort_nodes nodes).
Proof. apply StronglySorted_merge_sort; apply _. Qed.
Lemma sort_nodes_perm nodes : sort_nodes nodes ≡ₚ nodes.
Proof. apply merge_sort_Permutation. Qed.

Section choice.
Context (definition : AgentDefinition) (tenant : string) (Hdef : Definition_Validate definition = Ok tt).

Definition node_good (node : Node) : Prop := validToken (nd_ID node) 128 = true /\ validate_node node = Ok tt /\ node_typed node.

(** What the loop over the nodes keeps: the best so far, of those seen. *)
Definition chosen (nodes : list Node) (selected : string) (bestScore : Z) : Prop :=
  (selected = ""%string /\ forall node, node ∈ nodes -> ~ suits definition tenant node) \/
  exists node, selected = nd_ID node /\ bestScore = score definition node /\ best definition tenant nodes node.

Lemma best_keeps nodes node other : best definition tenant nodes node ->
  (suits definition tenant other -> score definition other <= score definition node) -> (forall n, n ∈ nodes -> id_le n other) ->
  best definition tenant (nodes ++ [other]) node.
Proof.
  intros (Hin & Hs & Hb) Ho Hle. split_and!; [apply elem_of_app; by left | done|]. intros n [Hn | ->%list_elem_of_singleton]%elem_of_app Hsn; [auto|].
  specialize (Ho Hsn). specialize (Hle _ Hin). unfold id_le in Hle. destruct (Z.eq_dec (score definition other) (score definition node)); [by right | left; lia].
Qed.

Lemma place_loop nodes : Forall node_good nodes -> StronglySorted id_le nodes ->
  exists selected bestScore, foldl (place definition tenant) (""%string, - 2 ^ 62, []) nodes = (selected, bestScore, evaluateNode definition tenant <$> nodes) /\
    chosen nodes selected bestScore.
Proof.
  induction nodes as [|node nodes IH] using rev_ind; intros Hg Hs.
  { exists ""%string, (- 2 ^ 62). split; [done|]. left. split; [done | by intros ? ?%not_elem_of_nil]. }
  apply Forall_app in Hg as [Hg (Ht & Hv & Hty)%Forall_singleton]. apply StronglySorted_app in Hs as (Hle & Hs & _).
  destruct (IH Hg Hs) as (selected & bestScore & E & Hc). clear IH. rewrite foldl_app, E, fmap_app. cbn [foldl fmap list_fmap place].
  destruct (evaluate_spec definition tenant node Hdef Hv Hty) as [He Hsc]. assert (Hle' : forall n, n ∈ nodes -> id_le n node) by (intros n Hn; apply Hle; [done | left]).
  destruct (cd_Eligible (evaluateNode definition tenant node)) eqn:Eel; cbn [andb].
  2: { exists selected, bestScore. split; [done|]. assert (Hno : ~ suits definition tenant node) by (intros Hsu; by apply He in Hsu).
       destruct Hc as [[-> Hn] | (n & -> & -> & Hb)]; [left | right; exists n; split_and!; try done; by apply best_keeps].
       split; [done|]. intros n [? | ->%list_elem_of_singleton]%elem_of_app; auto. }
  assert (Hsu : suits definition tenant node) by by apply He. specialize (Hsc Hsu). rewrite Hsc.
  destruct Hc as [[-> Hn] | (n & -> & -> & Hb)].
  - exists (nd_ID node), (score definition node). split; [done|]. right. exists node. split_and!; try done. split_and!; [apply elem_of_app; right; left | done|].
    intros other [Ho | ->%list_elem_of_singleton]%elem_of_app Hso; [by apply Hn in Ho | right; done].
  - assert (Hid : String.eqb (nd_ID n) "" = false).
    { apply String.eqb_neq. destruct Hb as (Hin & _). rewrite Forall_forall in Hg. destruct (Hg n Hin) as (Htn & _). by eapply token_nonempty. }
    rewrite Hid. cbn [orb]. destruct (Z.ltb_spec (score definition n) (score definition node)) as [Hlt | Hge].
    + exists (nd_ID node), (score definition node). split; [done|]. right. exists node. split_and!; try done. split_and!; [apply elem_of_app; right; left | done|].
      intros other [Ho | ->%list_elem_of_singleton]%elem_of_app Hso; [left | right; done]. destruct Hb as (_ & _ & Hb). destruct (Hb other Ho Hso); lia.
    + exists (nd_ID n), (score definition n). split; [done|]. right. exists n. split_and!; try done. by apply best_keeps.
Qed.
End choice.

(** The three tests before the nodes are looked at. *)
Definition request_ok (bundle : Bundle) (tenant : string) (inventory : NodeInventory) : Prop :=
  Bundle_Validate bundle = Ok tt /\ NodeInventory_Validate inventory = Ok tt /\ validToken tenant 128 = true.

Lemma schedule_ok bundle tenant inventory : request_ok bundle tenant inventory -> Forall node_typed (items (ni_Nodes inventory)) ->
  exists selected bestScore,
    chosen (bn_Definition bundle) tenant (sort_nodes (items (ni_Nodes inventory))) selected bestScore /\
    Schedule bundle tenant inventory =
      (mkPlacementDecision "steward.placement.v1" (DigestJSON bundle) selected
         (evaluateNode (bn_Definition bundle) tenant <$> sort_nodes (items (ni_Nodes inventory))),
       require negb (String.eqb selected "") else "no eligible node; inspect placement candidates for exact rejection reasons" in Ok tt).
Proof.
  intros (Hb & Hi & Ht) Hty. unfold Schedule. rewrite Hb, Hi, Ht. destruct (inventory_inv _ Hi) as [_ Hall]. destruct (bundle_inv _ Hb) as (_ & Hdef & _).
  destruct (place_loop (bn_Definition bundle) tenant Hdef (sort_nodes (items (ni_Nodes inventory)))) as (selected & bestScore & E & Hc).
  { rewrite Forall_forall in *. intros node Hn. rewrite sort_nodes_perm in Hn. destruct (Hall _ Hn). by split_and!; auto. }
  { apply sorted_sort_nodes. }
  exists selected, bestScore. split; [done|]. by rewrite E.
Qed.

Lemma schedule_refused bundle tenant inventory : ~ request_ok bundle tenant inventory -> exists e, Schedule bundle tenant inventory = (noDecision, Err e).
Proof.
  unfold request_ok, Schedule. intros H. destruct (Bundle_Validate bundle) as [[]|]; [|eauto]. destruct (NodeInventory_Validate inventory) as [[]|]; [|eauto].
  destruct (validToken tenant 128); [|eauto]. by destruct H.
Qed.

Lemma best_perm definition tenant nodes nodes' node : nodes ≡ₚ nodes' -> best definition tenant nodes node -> best definition tenant nodes' node.
Proof.
  intros E (Hin & Hs & Hb). split_and!; [by rewrite <- E | done|]. intros other Ho. rewrite <- E in Ho. auto.
Qed.

#[global] Instance request_ok_dec bundle tenant inventory : Decision (request_ok bundle tenant inventory).
Proof. unfold request_ok. apply _. Defined.

Lemma validate_perm nodes nodes' : nodes ≡ₚ nodes' -> NodeInventory_Validate (mkNodeInventory InventorySchema (Some nodes)) = Ok tt ->
  NodeInventory_Validate (mkNodeInventory InventorySchema (Some nodes')) = Ok tt.
Proof.
  intros E. unfold NodeInventory_Validate. cbn [ni_Schema ni_Nodes items default from_option id]. rewrite String.eqb_refl. unfold zlen. rewrite <- (Permutation_length E). intros H. step H. breflect.
  rewrite bool_decide_eq_false_2. 2: { intros ->. by apply Permutation_nil_r in E. }
  replace (_ <=? _) with true by (symmetry; apply Z.leb_le; lia). apply each_new_ok in H as [Hnd Hall]. apply each_new_ok. split; [by rewrite <- E|].
  intros node Hn. rewrite <- E in Hn. auto.
Qed.

(** C21: For an inventory whose numbers have their Go width, the scheduler returns no error exactly when bundle, inventory and tenant are valid
    and some node suits the definition (ready, tenant allowed, architecture, isolation, labels, tolerated taints, and room for the resources);
    the node it then selects suits it, no suitable node has a higher score (computed without overflow), and among equal scores it has the
    least identifier. The candidates are all the nodes in the order of their identifiers, eligible exactly when they suit it. *)
Theorem schedule_best bundle tenant inventory : Forall node_typed (items (ni_Nodes inventory)) ->
  let nodes := items (ni_Nodes inventory) in
  let definition := bn_Definition bundle in
  let '(decision, res) := Schedule bundle tenant inventory in
  (res = Ok tt <-> request_ok bundle tenant inventory /\ exists node, node ∈ nodes /\ suits definition tenant node) /\
  (res = Ok tt -> exists node, best definition tenant nodes node /\ pd_SelectedNode decision = nd_ID node) /\
  (res <> Ok tt -> pd_SelectedNode decision = ""%string) /\
  (request_ok bundle tenant inventory ->
    pd_Candidates decision = evaluateNode definition tenant <$> sort_nodes nodes /\
    forall node, node ∈ nodes -> cd_Eligible (evaluateNode definition tenant node) = true <-> suits definition tenant node).
Proof.
  intros Hty nodes definition. destruct (decide (request_ok bundle tenant inventory)) as [Hr | Hr].
  2: { destruct (schedule_refused _ _ _ Hr) as [e ->]. split_and!; try done. by split; [|intros [? _]]. }
  destruct (schedule_ok _ _ _ Hr Hty) as (selected & bestScore & Hc & ->). cbn [pd_SelectedNode pd_Candidates]. fold definition nodes in Hc.
  destruct Hr as (Hb & Hi & Ht) eqn:Er. destruct (inventory_inv _ Hi) as [_ Hall].
  assert (Hel : forall node, node ∈ nodes -> cd_Eligible (evaluateNode definition tenant node) = true <-> suits definition tenant node).
  { intros node Hn. destruct (Hall node Hn). apply evaluate_spec; [|done|]. { by destruct (bundle_inv _ Hb) as (_ & ? & _). }
    rewrite Forall_forall in Hty. auto. }
  destruct Hc as [[-> Hn] | (node & -> & -> & Hbest)].
  - cbn [String.eqb negb]. split_and!; try done. split; [done|]. intros (_ & node & Hin & Hs). exfalso. apply (Hn node); [by rewrite sort_nodes_perm | done].
  - apply (best_perm _ _ _ nodes) in Hbest; [|apply sort_nodes_perm]. assert (Hid : String.eqb (nd_ID node) "" = false).
    { apply String.eqb_neq. destruct Hbest as (Hin & _). destruct (Hall node Hin). by eapply token_nonempty. }
    rewrite Hid. cbn [negb]. split_and!; try done; [|eauto]. split; [|done]. intros _. split; [done|]. destruct Hbest as (? & ? & _). eauto.
Qed.

Lemma sort_nodes_unique nodes nodes' : NoDup (nd_ID <$> nodes) -> nodes ≡ₚ nodes' -> sort_nodes nodes = sort_nodes nodes'.
Proof.
  intros Hnd E. apply (StronglySorted_unique_strong id_le); [|apply sorted_sort_nodes.. | by rewrite !sort_nodes_perm].
  intros x y Hx Hy Hxy Hyx. rewrite sort_nodes_perm in Hx, Hy. rewrite <- E in Hy. unfold id_le in *. assert (Eid : nd_ID x = nd_ID y) by by apply (anti_symm String.le).
  apply list_elem_of_lookup in Hx as [i Hi], Hy as [j Hj].
  assert (i = j) as ->; [|congruence]. eapply (NoDup_lookup _ _ _ (nd_ID x) Hnd); rewrite list_lookup_fmap; [by rewrite Hi | rewrite Hj; cbn; by rewrite Eid].
Qed.

(** The decision, and whether there is one, do not depend on the order of the nodes in the inventory. *)
Theorem schedule_order_independent bundle tenant nodes nodes' : nodes ≡ₚ nodes' ->
  let inventory l := mkNodeInventory InventorySchema (Some l) in
  (Schedule bundle tenant (inventory nodes)).1 = (Schedule bundle tenant (inventory nodes')).1 /\
  is_ok (Schedule bundle tenant (inventory nodes)).2 = is_ok (Schedule bundle tenant (inventory nodes')).2.
Proof.
  intros E inventory. destruct (decide (request_ok bundle tenant (inventory nodes))) as [Hr | Hr].
  - assert (Hr' : request_ok bundle tenant (inventory nodes')) by (destruct Hr as (? & ? & ?); split_and!; try done; by eapply validate_perm).
    destruct Hr as (Hb & Hi & Ht), Hr' as (_ & Hi' & _). destruct (inventory_inv _ Hi) as [Hnd _]. unfold Schedule. rewrite Hb, Hi, Hi', Ht.
    cbn [ni_Nodes items default from_option id inventory] in *. by rewrite (sort_nodes_unique _ _ Hnd E).
  - assert (Hr' : ~ request_ok bundle tenant (inventory nodes')) by (intros (? & ? & ?); apply Hr; split_and!; try done; by eapply validate_perm).
    destruct (schedule_refused _ _ _ Hr) as [e ->], (schedule_refused _ _ _ Hr') as [e' ->]. done.
Qed.

(** ** Forks *)

Lemma fork_fields bundle snapshot deploymentID instanceID lineageID ttl onExpiry now plan :
  Fork bundle snapshot deploymentID instanceID lineageID ttl onExpiry now = Ok plan -> four_digit_year (now + ttl) ->
  ForkPlan_Validate plan = Ok tt /\ fk_SnapshotID plan = sn_ID snapshot /\ fk_LineageID plan = lineageID /\ lineageID <> sn_SourceLineage snapshot /\
  fk_BundleDigest plan = DigestJSON bundle /\ sn_BundleDigest snapshot = DigestJSON bundle /\
  (fk_ExpiresAt plan = ""%string <-> ttl = 0) /\ (ttl <> 0 -> fk_ExpiresAt plan = format_rfc3339nano (now + ttl) /\ minute <= ttl <= 30 * day).
Proof.
  intros H Hy. unfold Fork in H. do 4 step H. repeat match goal with u : unit |- _ => destruct u end. breflect.
  match goal with Hv : Snapshot_Validate _ = _ |- _ => unfold Snapshot_Validate in Hv; step Hv; clear Hv end. breflect.
  repeat match goal with He : String.eqb _ _ = true |- _ => apply String.eqb_eq in He end.
  match goal with He : sn_BundleDigest snapshot = _ |- _ => rename He into Hdig end.
  assert (Hval : forall e a, ForkPlan_Validate (mkForkPlan ForkSchema deploymentID (sn_ID snapshot) (DigestJSON bundle) instanceID lineageID 1 (sn_SourceNodeID snapshot) (sn_SourceLineage snapshot) e a)
    = if String.eqb e "" then require String.eqb a "" else "fork plan expiry action requires expires_at" in Ok tt
      else require match canonical_time e with Some _ => true | None => false end && String.eqb a "destroy" else "temporary fork plan requires a canonical expiry and destroy action" in Ok tt).
  { intros e a. unfold ForkPlan_Validate. cbn [fk_Schema fk_DeploymentID fk_SnapshotID fk_BundleDigest fk_InstanceID fk_LineageID fk_Generation fk_SourceNodeID fk_SourceLineageID fk_ExpiresAt fk_OnExpiry].
    rewrite <- Hdig. by repeat match goal with Hb : _ = true |- _ => rewrite Hb; clear Hb | Hb : _ = false |- _ => rewrite Hb; clear Hb end. }
  match goal with He : String.eqb lineageID _ = false |- _ => apply String.eqb_neq in He end.
  destruct (Z.eqb_spec ttl 0) as [-> | Ht]; cbn [negb] in H; step H; breflect; simplify_eq; cbn [fk_SnapshotID fk_LineageID fk_BundleDigest fk_ExpiresAt]; rewrite Hval.
  - by split_and!.
  - destruct (canonical_time_bytes (format_rfc3339nano (now + ttl)) (now + ttl)) as [Hl _]; [by apply canonical_time_format|].
    assert (Hne : format_rfc3339nano (now + ttl) <> ""%string) by (intros E'; rewrite E' in Hl; vm_compute in Hl; by destruct Hl).
    rewrite canonical_time_format by done. rewrite (proj2 (String.eqb_neq _ _)) by done.
    match goal with Ho : String.eqb onExpiry _ = true |- _ => rewrite Ho end. by split_and!.
Qed.

Lemma written_plan plan : ForkPlan_Validate plan = Ok tt -> text_ok 71 (fk_BundleDigest plan) -> in_u64 (fk_Generation plan) -> written 7000 plan.
Proof.
  unfold ForkPlan_Validate. intros H Hd Hg. step H. breflect.
  assert (Hx : text_ok 30 (fk_ExpiresAt plan) /\ text_ok 7 (fk_OnExpiry plan)).
  { destruct (String.eqb_spec (fk_ExpiresAt plan) "") as [-> | _]; step H; breflect.
    - match goal with He : String.eqb (fk_OnExpiry plan) _ = true |- _ => apply String.eqb_eq in He as -> end. done.
    - match goal with He : String.eqb (fk_OnExpiry plan) _ = true |- _ => apply String.eqb_eq in He as -> end. split; [|done].
      destruct (canonical_time (fk_ExpiresAt plan)) as [t|] eqn:Et; [|done]. apply canonical_time_bytes in Et as [? Hb]. split; [|lia].
      apply utf8_ascii, Forall_forall. intros c Hc%list_elem_of_In. apply (proj1 (forallb_forall _ _) Hb) in Hc. unfold time_byte in Hc. lia. }
  match goal with He : String.eqb (fk_Schema plan) _ = true |- _ => apply String.eqb_eq in He end.
  assert (text_ok 21 (fk_Schema plan)) by (match goal with He : fk_Schema plan = _ |- _ => rewrite He end; done).
  assert (in_u64b (fk_Generation plan) = true) by by apply in_u64b_true.
  repeat match goal with Ht : validToken _ _ = true |- _ => apply token_text in Ht end. clear H. written_fields ForkPlan_json.
Qed.

(** A fork plan is always one that validation accepts: a new lineage of the snapshot of exactly this bundle, expiring after the given time
    to live or never; its canonical file is read back unchanged. *)
Theorem fork_plan_valid bundle snapshot deploymentID instanceID lineageID ttl onExpiry now plan :
  Fork bundle snapshot deploymentID instanceID lineageID ttl onExpiry now = Ok plan -> four_digit_year (now + ttl) ->
  ForkPlan_Validate plan = Ok tt /\ fk_LineageID plan <> sn_SourceLineage snapshot /\
  fk_BundleDigest plan = DigestJSON bundle /\ sn_BundleDigest snapshot = DigestJSON bundle /\
  (fk_ExpiresAt plan = ""%string <-> ttl = 0) /\ (ttl <> 0 -> canonical_time (fk_ExpiresAt plan) = Some (now + ttl) /\ minute <= ttl <= 30 * day) /\
  exists raw, MarshalCanonical plan = Ok raw /\ DecodeForkPlan raw = Ok plan.
Proof.
  intros H Hy. assert (Hg : fk_Generation plan = 1) by (unfold Fork in H; do 4 step H; destruct (negb _) in H; step H; by simplify_eq).
  destruct (fork_fields _ _ _ _ _ _ _ _ _ H Hy) as (Hv & Hs & Hl & Hne & Hd & Hsd & He & Hx).
  split_and!; try done; [congruence | intros Ht; destruct (Hx Ht) as [-> ?]; split; [by apply canonical_time_format | done] |].
  destruct (written_plan plan Hv) as [Hst Hz]; [rewrite Hd; apply json_digest_text | rewrite Hg; unfold in_u64; lia|].
  unfold MarshalCanonical. rewrite (proj2 (Z.leb_le _ MaxArtifactBytes)) by (change MaxArtifactBytes with 1048576; lia). eexists. split; [done|].
  unfold DecodeForkPlan. rewrite DecodeStrictInto_marshal; [by rewrite Hv | done | lia | by right|]. rewrite zlen_app. change MaxArtifactBytes with 1048576. change (zlen [byte_of_Z 10]) with 1. lia.
Qed.

(** ** Concrete inputs *)

Definition sample_bundle : Bundle := mkBundle BundleSchema (DigestJSON sample_definition) sample_definition None.
Definition sample_node (id : string) (agents : Z) (images : list string) : Node :=
  mkNode id true (Some ["acme"%string]) "arm64" "hardened" (Some [mkLabel "zone" "a"; mkLabel "disk" "ssd"]) (Some ["batch"%string])
    (mkResources 16000 65536 262144 8192) (mkResources 8000 16384 65536 2048) (Some images) None agents.
Definition sample_nodes : list Node :=
  [sample_node "node-c" 5 []; sample_node "node-b" 105 [sample_image]; sample_node "node-a" 5 []; sample_node "node-d" 105 [sample_image]].
Definition sample_inventory : NodeInventory := mkNodeInventory InventorySchema (Some sample_nodes).

Lemma sample_bundle_valid : Bundle_Validate sample_bundle = Ok tt.
Proof.
  unfold Bundle_Validate, sample_bundle. cbn [bn_Schema bn_Definition bn_SourceDigest bn_Policy]. rewrite !String.eqb_refl.
  assert (Definition_Validate sample_definition = Ok tt) as -> by (vm_compute; reflexivity). reflexivity.
Qed.

Lemma sample_suits id agents images : suits sample_definition "acme" (sample_node id agents images).
Proof.
  constructor; cbn [nd_Ready nd_Tenants nd_Architecture nd_Isolation nd_Taints nd_Capacity nd_Allocated sample_node]; try done.
  - left.
  - right. left.
  - intros label [-> | []%not_elem_of_nil]%elem_of_cons. left.
Qed.

Lemma schedule_best_witness :
  Forall node_typed sample_nodes /\ (Schedule sample_bundle "acme" sample_inventory).2 = Ok tt /\
  exists node, best sample_definition "acme" sample_nodes node /\ pd_SelectedNode (Schedule sample_bundle "acme" sample_inventory).1 = nd_ID node.
Proof.
  assert (Ht : Forall node_typed sample_nodes) by (repeat constructor).
  pose proof (schedule_best sample_bundle "acme" sample_inventory Ht) as H. cbv zeta in H. destruct (Schedule sample_bundle "acme" sample_inventory) as [decision res].
  destruct H as (H1 & H2 & _). assert (res = Ok tt) as Hr.
  { apply H1. split; [split; [apply sample_bundle_valid | split; vm_compute; reflexivity] | exists (sample_node "node-c" 5 []); split; [left | apply sample_suits]]. }
  exact (conj Ht (conj Hr (H2 Hr))).
Defined.

Lemma schedule_order_independent_witness :
  (Schedule sample_bundle "acme" sample_inventory).1 = (Schedule sample_bundle "acme" (mkNodeInventory InventorySchema (Some (reverse sample_nodes)))).1.
Proof.
  pose proof (schedule_order_independent sample_bundle "acme" sample_nodes (reverse sample_nodes) (symmetry (reverse_Permutation sample_nodes))) as H. cbv zeta beta in H.
  destruct H as [H _]. unfold sample_inventory. exact H.
Defined.

Definition sample_snapshot : Snapshot :=
  mkSnapshot SnapshotSchema "snap-1" (DigestJSON sample_bundle) "hermes" "sha256:bbbbbbbbbbbbbbbbbbbbbbbbbbbbbbbbbbbbbbbbbbbbbbbbbbbbbbbbbbbbbbbb" "node-a"
    "lineage-1" "2024-07-05T18:05:07.123Z".

Lemma valid_digest {A} `{GoJSON A} (x : A) : validDigest (DigestJSON x) = true.
Proof.
  unfold DigestJSON, sha256_text, validDigest, isHex, trim_prefix. destruct (hex_encode_lower (Sha256.sum (json_print (to_json x)))) as [H1 H2].
  rewrite has_prefix_app. set (h := string_of _). assert (Hl : slen h = 64) by (unfold h; rewrite <- zlen_bytes_of, bytes_of_string_of; unfold zlen; by rewrite H2, Sha256.length_sum).
  change (trim_prefix_bytes "sha256:" ("sha256:" +:+ h)) with h. rewrite slen_app, Hl. change (slen "sha256:") with 7. cbn [Z.eqb Z.add Z.even andb].
  unfold all_bytes, h. rewrite bytes_of_string_of. apply forallb_forall. intros c Hc. apply (proj1 (forallb_forall _ _) H1) in Hc. unfold hex_byte. by rewrite Hc.
Qed.

Definition sample_plan : ForkPlan :=
  mkForkPlan ForkSchema "deploy-2" "snap-1" (DigestJSON sample_bundle) "instance-2" "lineage-2" 1 "node-a" "lineage-1" "2024-07-05T19:05:07.123Z" "destroy".

Lemma sample_fork : Fork sample_bundle sample_snapshot "deploy-2" "instance-2" "lineage-2" hour "destroy" 63855799507123000000 = Ok sample_plan.
Proof.
  unfold Fork, sample_snapshot, sample_plan. rewrite sample_bundle_valid. cbv zeta. generalize (valid_digest sample_bundle). generalize (DigestJSON sample_bundle). intros digest Hd.
  unfold Snapshot_Validate. cbn [sn_Schema sn_ID sn_BundleDigest sn_StateDigest sn_SourceLineage sn_SourceNodeID sn_RuntimeEngine sn_CreatedAt]. rewrite Hd, !String.eqb_refl. reflexivity.
Qed.

Lemma fork_plan_valid_witness : ForkPlan_Validate sample_plan = Ok tt /\ exists raw, MarshalCanonical sample_plan = Ok raw /\ DecodeForkPlan raw = Ok sample_plan.
Proof.
  destruct (fork_plan_valid _ _ _ _ _ _ _ _ _ sample_fork) as (Hv & _ & _ & _ & _ & _ & Hr); [vm_compute; split; discriminate | exact (conj Hv Hr)].
Defined.

End Placement.
