(* ===== verification/Admission.v ===== *)
(** * Signed admission ([src/internal/admission/admission.go])

    Publisher-signed capsules, site policies and instance intents: their JSON form, their validation, the verification of the signed
    envelopes, and the intersection of the authorities that decides whether an instance is admitted. [verify] is Ed25519's, an instant of
    zero is Go's zero time, and a slice is [None] when nil. Error texts are shortened. *)

From Stdlib Require Import Ascii.
From S2P Require Import Prelude GoText GoTime GoFS FenceStore GoJson GoCrypto Strict Dsse GoRune GoNet.

Module Admission.

Definition CapsulePayloadType : string := "application/vnd.steward.capsule.v1+json".
Definition PolicyPayloadType : string := "application/vnd.steward.site-policy.v1+json".
Definition SchemaV1 : string := "steward.admission.v1".
Definition EffectModeStandard : string := "standard".
Definition EffectModeAuthorized : string := "authorized".
Definition AuthorizedEffectsOptional : string := "optional".
Definition AuthorizedEffectsRequired : string := "required".
Definition ActionContextRequired : string := "required".
Definition maxAllowedArtifacts : Z := 128.
Definition maxAuthorizedEffectKeys : Z := 8.

(** ** Data *)

Record ProfileRef := mkProfileRef {
  pr_ID : string; pr_Version : string }.

Record Platform := mkPlatform {
  pf_OS : string; pf_Architecture : string; pf_Variant : string }.

Record ImageIdentity := mkImageIdentity {
  ii_Repository : string; ii_ManifestDigest : string; ii_ConfigDigest : string; ii_Platform : Platform }.

Record ResourceLimits := mkResourceLimits {
  rl_MemoryBytes : Z; rl_CPUMillis : Z; rl_PIDs : Z }.

Record Capabilities := mkCapabilities {
  ca_State : bool; ca_Inference : bool; ca_Service : bool; ca_Egress : bool; ca_Connector : bool; ca_ControllerEvents : bool }.

Record ArtifactDigest := mkArtifactDigest {
  ad_Kind : string; ad_Digest : string }.

Record StateShape := mkStateShape {
  ss_SchemaVersion : string; ss_Path : string }.

Record ServiceShape := mkServiceShape {
  sv_ID : string; sv_Port : Z }.

Record ProfileCapsule := mkProfileCapsule {
  pc_SchemaVersion : string; pc_CapsuleID : string; pc_PublisherKeyID : string; pc_IssuedAt : string; pc_ExpiresAt : string; pc_Profile : ProfileRef;
  pc_Image : ImageIdentity; pc_Command : option (list string); pc_Resources : ResourceLimits; pc_Capabilities : Capabilities;
  pc_Artifacts : option (list ArtifactDigest); pc_State : StateShape; pc_Service : ServiceShape }.

Record InstanceIntent := mkInstanceIntent {
  it_TenantID : string; it_NodeID : string; it_InstanceID : string; it_LineageID : string; it_Generation : Z; it_CapsuleDigest : string;
  it_Resources : ResourceLimits; it_Capabilities : Capabilities; it_StateDisposition : string; it_InferenceRouteID : string; it_ModelAlias : string;
  it_ServiceID : string; it_EgressRouteIDs : option (list string); it_ConnectorIDs : option (list string); it_EffectMode : string }.

Record ActionKey := mkActionKey {
  ak_KeyID : string; ak_PublicKey : string; ak_ConnectorIDs : option (list string) }.

Record TaskKey := mkTaskKey {
  tk_KeyID : string; tk_PublicKey : string; tk_ServiceIDs : option (list string) }.

Record CommandKey := mkCommandKey {
  ck_KeyID : string; ck_PublicKey : string; ck_Operations : option (list string) }.

Record AuthorizedEffectsPolicy := mkAuthorizedEffectsPolicy {
  ae_Mode : string; ae_MinApprovals : Z; ae_ContextBinding : string; ae_Keys : option (list ActionKey) }.

Record PublisherRule := mkPublisherRule {
  pb_KeyID : string; pb_PublicKey : string; pb_Revoked : bool; pb_AllowedProfiles : option (list ProfileRef);
  pb_AllowedRepositories : option (list string); pb_AllowedManifestDigests : option (list string); pb_AllowedArtifacts : option (list ArtifactDigest);
  pb_ResourceCeiling : ResourceLimits }.

Record TenantRule := mkTenantRule {
  tn_TenantID : string; tn_PublisherKeyIDs : option (list string); tn_ResourceCeiling : ResourceLimits;
  tn_AllowedArtifacts : option (list ArtifactDigest); tn_InferenceRouteIDs : option (list string); tn_InferenceModelAliases : option (list string);
  tn_ServiceIDs : option (list string); tn_EgressRouteIDs : option (list string); tn_ConnectorIDs : option (list string);
  tn_CommandKeys : option (list CommandKey); tn_TaskKeys : option (list TaskKey); tn_AuthorizedEffects : option AuthorizedEffectsPolicy }.

Record SitePolicy := mkSitePolicy {
  sp_SchemaVersion : string; sp_PolicyID : string; sp_PolicyEpoch : Z; sp_SiteCleanupCommandKeys : option (list CommandKey);
  sp_Publishers : option (list PublisherRule); sp_Tenants : option (list TenantRule) }.

Record AuthenticatedIdentity := mkAuthenticatedIdentity { au_TenantID : string; au_NodeID : string }.
Record PersistedFences := mkPersistedFences { fe_Generation : Z; fe_PolicyEpoch : Z }.

(** [Profile] describes a built-in runtime adapter. *)
Record Profile := mkProfile {
  px_Ref : ProfileRef; px_UID : Z; px_GID : Z; px_StatePath : string; px_StateSchemaVersion : string; px_Command : list string;
  px_ServiceID : string; px_ServicePort : Z }.

Record EffectiveAdmission := mkEffectiveAdmission {
  ea_Capsule : ProfileCapsule; ea_SitePolicy : SitePolicy; ea_Intent : InstanceIntent; ea_Profile : Profile; ea_CapsuleDigest : string;
  ea_PolicyDigest : string; ea_PublisherKeyID : string; ea_SiteRootKeyID : string; ea_EffectiveResources : ResourceLimits }.

Record VerifiedCapsuleImport := mkVerifiedCapsuleImport {
  vi_Capsule : ProfileCapsule; vi_SitePolicy : SitePolicy; vi_Profile : Profile; vi_CapsuleDigest : string; vi_PolicyDigest : string;
  vi_PublisherKeyID : string; vi_SiteRootKeyID : string }.

Record VerifiedSitePolicy := mkVerifiedSitePolicy { vp_Policy : SitePolicy; vp_PolicyDigest : string; vp_SiteRootKeyID : string }.

#[global] Instance ProfileRef_eq_dec : EqDecision ProfileRef.
Proof. solve_decision. Defined.
#[global] Instance ArtifactDigest_eq_dec : EqDecision ArtifactDigest.
Proof. solve_decision. Defined.
#[global] Instance ResourceLimits_eq_dec : EqDecision ResourceLimits.
Proof. solve_decision. Defined.
#[global] Instance Capabilities_eq_dec : EqDecision Capabilities.
Proof. solve_decision. Defined.

(** ** JSON *)

Definition zero_ProfileRef : ProfileRef := mkProfileRef "" "".

#[global] Instance ProfileRef_json : GoJSON ProfileRef := {
  go_shape := KStruct [
    ("id", KString); ("version", KString)]%string;
  to_json x := obj [
    always "id" (JStr (pr_ID x)); always "version" (JStr (pr_Version x))];
  of_json v := match v with
    | JObj fs =>
        v_ID ← field fs "id" dec_string ""%string; v_Version ← field fs "version" dec_string ""%string;
        Some (mkProfileRef v_ID v_Version)
    | _ => None end;
  storable x :=
    utf8_valid (pr_ID x) && utf8_valid (pr_Version x);
}.

Definition zero_Platform : Platform := mkPlatform "" "" "".

#[global] Instance Platform_json : GoJSON Platform := {
  go_shape := KStruct [
    ("os", KString); ("architecture", KString); ("variant", KString)]%string;
  to_json x := obj [
    always "os" (JStr (pf_OS x)); always "architecture" (JStr (pf_Architecture x));
    omitempty "variant" (empty_string (pf_Variant x)) (JStr (pf_Variant x))];
  of_json v := match v with
    | JObj fs =>
        v_OS ← field fs "os" dec_string ""%string; v_Architecture ← field fs "architecture" dec_string ""%string;
        v_Variant ← field fs "variant" dec_string ""%string;
        Some (mkPlatform v_OS v_Architecture v_Variant)
    | _ => None end;
  storable x :=
    utf8_valid (pf_OS x) && utf8_valid (pf_Architecture x) && utf8_valid (pf_Variant x);
}.

Definition zero_ImageIdentity : ImageIdentity := mkImageIdentity "" "" "" zero_Platform.

#[global] Instance ImageIdentity_json : GoJSON ImageIdentity := {
  go_shape := KStruct [
    ("repository", KString); ("manifest_digest", KString); ("config_digest", KString); ("platform", go_shape (A := Platform))]%string;
  to_json x := obj [
    always "repository" (JStr (ii_Repository x)); always "manifest_digest" (JStr (ii_ManifestDigest x));
    always "config_digest" (JStr (ii_ConfigDigest x)); always "platform" (to_json (ii_Platform x))];
  of_json v := match v with
    | JObj fs =>
        v_Repository ← field fs "repository" dec_string ""%string; v_ManifestDigest ← field fs "manifest_digest" dec_string ""%string;
        v_ConfigDigest ← field fs "config_digest" dec_string ""%string; v_Platform ← field fs "platform" of_json zero_Platform;
        Some (mkImageIdentity v_Repository v_ManifestDigest v_ConfigDigest v_Platform)
    | _ => None end;
  storable x :=
    utf8_valid (ii_Repository x) && utf8_valid (ii_ManifestDigest x) && utf8_valid (ii_ConfigDigest x) && storable (ii_Platform x);
}.

Definition zero_ResourceLimits : ResourceLimits := mkResourceLimits 0 0 0.

#[global] Instance ResourceLimits_json : GoJSON ResourceLimits := {
  go_shape := KStruct [
    ("memory_bytes", KInt); ("cpu_millis", KInt); ("pids", KInt)]%string;
  to_json x := obj [
    always "memory_bytes" (json_int (rl_MemoryBytes x)); always "cpu_millis" (json_int (rl_CPUMillis x)); always "pids" (json_int (rl_PIDs x))];
  of_json v := match v with
    | JObj fs =>
        v_MemoryBytes ← field fs "memory_bytes" dec_int 0; v_CPUMillis ← field fs "cpu_millis" dec_int 0; v_PIDs ← field fs "pids" dec_int 0;
        Some (mkResourceLimits v_MemoryBytes v_CPUMillis v_PIDs)
    | _ => None end;
  storable x :=
    in_int64b (rl_MemoryBytes x) && in_int64b (rl_CPUMillis x) && in_int64b (rl_PIDs x);
}.

Definition zero_Capabilities : Capabilities := mkCapabilities false false false false false false.

#[global] Instance Capabilities_json : GoJSON Capabilities := {
  go_shape := KStruct [
    ("state", KBool); ("inference", KBool); ("service", KBool); ("egress", KBool); ("connector", KBool); ("controller_events", KBool)]%string;
  to_json x := obj [
    always "state" (JBool (ca_State x)); always "inference" (JBool (ca_Inference x)); always "service" (JBool (ca_Service x));
    always "egress" (JBool (ca_Egress x)); always "connector" (JBool (ca_Connector x)); always "controller_events" (JBool (ca_ControllerEvents x))];
  of_json v := match v with
    | JObj fs =>
        v_State ← field fs "state" dec_bool false; v_Inference ← field fs "inference" dec_bool false; v_Service ← field fs "service" dec_bool false;
        v_Egress ← field fs "egress" dec_bool false; v_Connector ← field fs "connector" dec_bool false;
        v_ControllerEvents ← field fs "controller_events" dec_bool false;
        Some (mkCapabilities v_State v_Inference v_Service v_Egress v_Connector v_ControllerEvents)
    | _ => None end;
  storable x := true;
}.

Definition zero_ArtifactDigest : ArtifactDigest := mkArtifactDigest "" "".

#[global] Instance ArtifactDigest_json : GoJSON ArtifactDigest := {
  go_shape := KStruct [
    ("kind", KString); ("digest", KString)]%string;
  to_json x := obj [
    always "kind" (JStr (ad_Kind x)); always "digest" (JStr (ad_Digest x))];
  of_json v := match v with
    | JObj fs =>
        v_Kind ← field fs "kind" dec_string ""%string; v_Digest ← field fs "digest" dec_string ""%string;
        Some (mkArtifactDigest v_Kind v_Digest)
    | _ => None end;
  storable x :=
    utf8_valid (ad_Kind x) && utf8_valid (ad_Digest x);
}.

Definition zero_StateShape : StateShape := mkStateShape "" "".

#[global] Instance StateShape_json : GoJSON StateShape := {
  go_shape := KStruct [
    ("schema_version", KString); ("path", KString)]%string;
  to_json x := obj [
    always "schema_version" (JStr (ss_SchemaVersion x)); always "path" (JStr (ss_Path x))];
  of_json v := match v with
    | JObj fs =>
        v_SchemaVersion ← field fs "schema_version" dec_string ""%string; v_Path ← field fs "path" dec_string ""%string;
        Some (mkStateShape v_SchemaVersion v_Path)
    | _ => None end;
  storable x :=
    utf8_valid (ss_SchemaVersion x) && utf8_valid (ss_Path x);
}.

Definition zero_ServiceShape : ServiceShape := mkServiceShape "" 0.

#[global] Instance ServiceShape_json : GoJSON ServiceShape := {
  go_shape := KStruct [
    ("id", KString); ("port", KInt)]%string;
  to_json x := obj [
    omitempty "id" (empty_string (sv_ID x)) (JStr (sv_ID x)); omitempty "port" (sv_Port x =? 0) (json_int (sv_Port x))];
  of_json v := match v with
    | JObj fs =>
        v_ID ← field fs "id" dec_string ""%string; v_Port ← field fs "port" dec_int 0;
        Some (mkServiceShape v_ID v_Port)
    | _ => None end;
  storable x :=
    utf8_valid (sv_ID x) && in_int64b (sv_Port x);
}.

Definition zero_ProfileCapsule : ProfileCapsule := mkProfileCapsule "" "" "" "" "" zero_ProfileRef zero_ImageIdentity None zero_ResourceLimits zero_Capabilities None zero_StateShape zero_ServiceShape.

#[global] Instance ProfileCapsule_json : GoJSON ProfileCapsule := {
  go_shape := KStruct [
    ("schema_version", KString); ("capsule_id", KString); ("publisher_key_id", KString); ("issued_at", KString); ("expires_at", KString);
    ("profile", go_shape (A := ProfileRef)); ("image", go_shape (A := ImageIdentity)); ("command", KSlice (go_shape (A := string)));
    ("resources", go_shape (A := ResourceLimits)); ("capabilities", go_shape (A := Capabilities));
    ("artifacts", KSlice (go_shape (A := ArtifactDigest))); ("state", go_shape (A := StateShape)); ("service", go_shape (A := ServiceShape))]%string;
  to_json x := obj [
    always "schema_version" (JStr (pc_SchemaVersion x)); always "capsule_id" (JStr (pc_CapsuleID x));
    always "publisher_key_id" (JStr (pc_PublisherKeyID x)); omitempty "issued_at" (empty_string (pc_IssuedAt x)) (JStr (pc_IssuedAt x));
    omitempty "expires_at" (empty_string (pc_ExpiresAt x)) (JStr (pc_ExpiresAt x)); always "profile" (to_json (pc_Profile x));
    always "image" (to_json (pc_Image x)); always "command" (enc_slice to_json (pc_Command x)); always "resources" (to_json (pc_Resources x));
    always "capabilities" (to_json (pc_Capabilities x)); omitempty "artifacts" (nil_slice (pc_Artifacts x)) (enc_slice to_json (pc_Artifacts x));
    always "state" (to_json (pc_State x)); always "service" (to_json (pc_Service x))];
  of_json v := match v with
    | JObj fs =>
        v_SchemaVersion ← field fs "schema_version" dec_string ""%string; v_CapsuleID ← field fs "capsule_id" dec_string ""%string;
        v_PublisherKeyID ← field fs "publisher_key_id" dec_string ""%string; v_IssuedAt ← field fs "issued_at" dec_string ""%string;
        v_ExpiresAt ← field fs "expires_at" dec_string ""%string; v_Profile ← field fs "profile" of_json zero_ProfileRef;
        v_Image ← field fs "image" of_json zero_ImageIdentity; v_Command ← field fs "command" (dec_slice of_json) None;
        v_Resources ← field fs "resources" of_json zero_ResourceLimits; v_Capabilities ← field fs "capabilities" of_json zero_Capabilities;
        v_Artifacts ← field fs "artifacts" (dec_slice of_json) None; v_State ← field fs "state" of_json zero_StateShape;
        v_Service ← field fs "service" of_json zero_ServiceShape;
        Some (mkProfileCapsule v_SchemaVersion v_CapsuleID v_PublisherKeyID v_IssuedAt v_ExpiresAt v_Profile v_Image v_Command v_Resources v_Capabilities v_Artifacts v_State v_Service)
    | _ => None end;
  storable x :=
    utf8_valid (pc_SchemaVersion x) && utf8_valid (pc_CapsuleID x) && utf8_valid (pc_PublisherKeyID x) && utf8_valid (pc_IssuedAt x) &&
    utf8_valid (pc_ExpiresAt x) && storable (pc_Profile x) && storable (pc_Image x) && storable_slice (pc_Command x) && storable (pc_Resources x) &&
    storable (pc_Capabilities x) && slice_ok storable (pc_Artifacts x) && storable (pc_State x) && storable (pc_Service x);
}.

Definition zero_InstanceIntent : InstanceIntent := mkInstanceIntent "" "" "" "" 0 "" zero_ResourceLimits zero_Capabilities "" "" "" "" None None "".

#[global] Instance InstanceIntent_json : GoJSON InstanceIntent := {
  go_shape := KStruct [
    ("tenant_id", KString); ("node_id", KString); ("instance_id", KString); ("lineage_id", KString); ("generation", KInt);
    ("capsule_digest", KString); ("resources", go_shape (A := ResourceLimits)); ("capabilities", go_shape (A := Capabilities));
    ("state_disposition", KString); ("inference_route_id", KString); ("model_alias", KString); ("service_id", KString);
    ("egress_route_ids", KSlice (go_shape (A := string))); ("connector_ids", KSlice (go_shape (A := string))); ("effect_mode", KString)]%string;
  to_json x := obj [
    always "tenant_id" (JStr (it_TenantID x)); always "node_id" (JStr (it_NodeID x)); always "instance_id" (JStr (it_InstanceID x));
    always "lineage_id" (JStr (it_LineageID x)); always "generation" (json_int (it_Generation x));
    always "capsule_digest" (JStr (it_CapsuleDigest x)); always "resources" (to_json (it_Resources x));
    always "capabilities" (to_json (it_Capabilities x)); always "state_disposition" (JStr (it_StateDisposition x));
    omitempty "inference_route_id" (empty_string (it_InferenceRouteID x)) (JStr (it_InferenceRouteID x));
    omitempty "model_alias" (empty_string (it_ModelAlias x)) (JStr (it_ModelAlias x));
    omitempty "service_id" (empty_string (it_ServiceID x)) (JStr (it_ServiceID x));
    omitempty "egress_route_ids" (nil_slice (it_EgressRouteIDs x)) (enc_slice to_json (it_EgressRouteIDs x));
    omitempty "connector_ids" (nil_slice (it_ConnectorIDs x)) (enc_slice to_json (it_ConnectorIDs x));
    omitempty "effect_mode" (empty_string (it_EffectMode x)) (JStr (it_EffectMode x))];
  of_json v := match v with
    | JObj fs =>
        v_TenantID ← field fs "tenant_id" dec_string ""%string; v_NodeID ← field fs "node_id" dec_string ""%string;
        v_InstanceID ← field fs "instance_id" dec_string ""%string; v_LineageID ← field fs "lineage_id" dec_string ""%string;
        v_Generation ← field fs "generation" dec_u64 0; v_CapsuleDigest ← field fs "capsule_digest" dec_string ""%string;
        v_Resources ← field fs "resources" of_json zero_ResourceLimits; v_Capabilities ← field fs "capabilities" of_json zero_Capabilities;
        v_StateDisposition ← field fs "state_disposition" dec_string ""%string;
        v_InferenceRouteID ← field fs "inference_route_id" dec_string ""%string; v_ModelAlias ← field fs "model_alias" dec_string ""%string;
        v_ServiceID ← field fs "service_id" dec_string ""%string; v_EgressRouteIDs ← field fs "egress_route_ids" (dec_slice of_json) None;
        v_ConnectorIDs ← field fs "connector_ids" (dec_slice of_json) None; v_EffectMode ← field fs "effect_mode" dec_string ""%string;
        Some (mkInstanceIntent v_TenantID v_NodeID v_InstanceID v_LineageID v_Generation v_CapsuleDigest v_Resources v_Capabilities v_StateDisposition v_InferenceRouteID v_ModelAlias v_ServiceID v_EgressRouteIDs v_ConnectorIDs v_EffectMode)
    | _ => None end;
  storable x :=
    utf8_valid (it_TenantID x) && utf8_valid (it_NodeID x) && utf8_valid (it_InstanceID x) && utf8_valid (it_LineageID x) &&
    in_u64b (it_Generation x) && utf8_valid (it_CapsuleDigest x) && storable (it_Resources x) && storable (it_Capabilities x) &&
    utf8_valid (it_StateDisposition x) && utf8_valid (it_InferenceRouteID x) && utf8_valid (it_ModelAlias x) && utf8_valid (it_ServiceID x) &&
    slice_ok storable (it_EgressRouteIDs x) && slice_ok storable (it_ConnectorIDs x) && utf8_valid (it_EffectMode x);
}.

Definition zero_ActionKey : ActionKey := mkActionKey "" "" None.

#[global] Instance ActionKey_json : GoJSON ActionKey := {
  go_shape := KStruct [
    ("key_id", KString); ("public_key", KString); ("connector_ids", KSlice (go_shape (A := string)))]%string;
  to_json x := obj [
    always "key_id" (JStr (ak_KeyID x)); always "public_key" (JStr (ak_PublicKey x)); always "connector_ids" (enc_slice to_json (ak_ConnectorIDs x))];
  of_json v := match v with
    | JObj fs =>
        v_KeyID ← field fs "key_id" dec_string ""%string; v_PublicKey ← field fs "public_key" dec_string ""%string;
        v_ConnectorIDs ← field fs "connector_ids" (dec_slice of_json) None;
        Some (mkActionKey v_KeyID v_PublicKey v_ConnectorIDs)
    | _ => None end;
  storable x :=
    utf8_valid (ak_KeyID x) && utf8_valid (ak_PublicKey x) && storable_slice (ak_ConnectorIDs x);
}.

Definition zero_TaskKey : TaskKey := mkTaskKey "" "" None.

#[global] Instance TaskKey_json : GoJSON TaskKey := {
  go_shape := KStruct [
    ("key_id", KString); ("public_key", KString); ("service_ids", KSlice (go_shape (A := string)))]%string;
  to_json x := obj [
    always "key_id" (JStr (tk_KeyID x)); always "public_key" (JStr (tk_PublicKey x)); always "service_ids" (enc_slice to_json (tk_ServiceIDs x))];
  of_json v := match v with
    | JObj fs =>
        v_KeyID ← field fs "key_id" dec_string ""%string; v_PublicKey ← field fs "public_key" dec_string ""%string;
        v_ServiceIDs ← field fs "service_ids" (dec_slice of_json) None;
        Some (mkTaskKey v_KeyID v_PublicKey v_ServiceIDs)
    | _ => None end;
  storable x :=
    utf8_valid (tk_KeyID x) && utf8_valid (tk_PublicKey x) && storable_slice (tk_ServiceIDs x);
}.

Definition zero_CommandKey : CommandKey := mkCommandKey "" "" None.

#[global] Instance CommandKey_json : GoJSON CommandKey := {
  go_shape := KStruct [
    ("key_id", KString); ("public_key", KString); ("operations", KSlice (go_shape (A := string)))]%string;
  to_json x := obj [
    always "key_id" (JStr (ck_KeyID x)); always "public_key" (JStr (ck_PublicKey x)); always "operations" (enc_slice to_json (ck_Operations x))];
  of_json v := match v with
    | JObj fs =>
        v_KeyID ← field fs "key_id" dec_string ""%string; v_PublicKey ← field fs "public_key" dec_string ""%string;
        v_Operations ← field fs "operations" (dec_slice of_json) None;
        Some (mkCommandKey v_KeyID v_PublicKey v_Operations)
    | _ => None end;
  storable x :=
    utf8_valid (ck_KeyID x) && utf8_valid (ck_PublicKey x) && storable_slice (ck_Operations x);
}.

Definition zero_AuthorizedEffectsPolicy : AuthorizedEffectsPolicy := mkAuthorizedEffectsPolicy "" 0 "" None.

#[global] Instance AuthorizedEffectsPolicy_json : GoJSON AuthorizedEffectsPolicy := {
  go_shape := KStruct [
    ("mode", KString); ("min_approvals", KInt); ("context_binding", KString); ("keys", KSlice (go_shape (A := ActionKey)))]%string;
  to_json x := obj [
    always "mode" (JStr (ae_Mode x)); omitempty "min_approvals" (ae_MinApprovals x =? 0) (json_int (ae_MinApprovals x));
    omitempty "context_binding" (empty_string (ae_ContextBinding x)) (JStr (ae_ContextBinding x)); always "keys" (enc_slice to_json (ae_Keys x))];
  of_json v := match v with
    | JObj fs =>
        v_Mode ← field fs "mode" dec_string ""%string; v_MinApprovals ← field fs "min_approvals" dec_int 0;
        v_ContextBinding ← field fs "context_binding" dec_string ""%string; v_Keys ← field fs "keys" (dec_slice of_json) None;
        Some (mkAuthorizedEffectsPolicy v_Mode v_MinApprovals v_ContextBinding v_Keys)
    | _ => None end;
  storable x :=
    utf8_valid (ae_Mode x) && in_int64b (ae_MinApprovals x) && utf8_valid (ae_ContextBinding x) && storable_slice (ae_Keys x);
}.

Definition zero_PublisherRule : PublisherRule := mkPublisherRule "" "" false None None None None zero_ResourceLimits.

#[global] Instance PublisherRule_json : GoJSON PublisherRule := {
  go_shape := KStruct [
    ("key_id", KString); ("public_key", KString); ("revoked", KBool); ("allowed_profiles", KSlice (go_shape (A := ProfileRef)));
    ("allowed_repositories", KSlice (go_shape (A := string))); ("allowed_manifest_digests", KSlice (go_shape (A := string)));
    ("allowed_artifacts", KSlice (go_shape (A := ArtifactDigest))); ("resource_ceiling", go_shape (A := ResourceLimits))]%string;
  to_json x := obj [
    always "key_id" (JStr (pb_KeyID x)); always "public_key" (JStr (pb_PublicKey x)); always "revoked" (JBool (pb_Revoked x));
    always "allowed_profiles" (enc_slice to_json (pb_AllowedProfiles x));
    always "allowed_repositories" (enc_slice to_json (pb_AllowedRepositories x));
    omitempty "allowed_manifest_digests" (nil_slice (pb_AllowedManifestDigests x)) (enc_slice to_json (pb_AllowedManifestDigests x));
    omitempty "allowed_artifacts" (nil_slice (pb_AllowedArtifacts x)) (enc_slice to_json (pb_AllowedArtifacts x));
    always "resource_ceiling" (to_json (pb_ResourceCeiling x))];
  of_json v := match v with
    | JObj fs =>
        v_KeyID ← field fs "key_id" dec_string ""%string; v_PublicKey ← field fs "public_key" dec_string ""%string;
        v_Revoked ← field fs "revoked" dec_bool false; v_AllowedProfiles ← field fs "allowed_profiles" (dec_slice of_json) None;
        v_AllowedRepositories ← field fs "allowed_repositories" (dec_slice of_json) None;
        v_AllowedManifestDigests ← field fs "allowed_manifest_digests" (dec_slice of_json) None;
        v_AllowedArtifacts ← field fs "allowed_artifacts" (dec_slice of_json) None;
        v_ResourceCeiling ← field fs "resource_ceiling" of_json zero_ResourceLimits;
        Some (mkPublisherRule v_KeyID v_PublicKey v_Revoked v_AllowedProfiles v_AllowedRepositories v_AllowedManifestDigests v_AllowedArtifacts v_ResourceCeiling)
    | _ => None end;
  storable x :=
    utf8_valid (pb_KeyID x) && utf8_valid (pb_PublicKey x) && storable_slice (pb_AllowedProfiles x) && storable_slice (pb_AllowedRepositories x) &&
    slice_ok storable (pb_AllowedManifestDigests x) && slice_ok storable (pb_AllowedArtifacts x) && storable (pb_ResourceCeiling x);
}.

Definition zero_TenantRule : TenantRule := mkTenantRule "" None zero_ResourceLimits None None None None None None None None None.

#[global] Instance TenantRule_json : GoJSON TenantRule := {
  go_shape := KStruct [
    ("tenant_id", KString); ("publisher_key_ids", KSlice (go_shape (A := string))); ("resource_ceiling", go_shape (A := ResourceLimits));
    ("allowed_artifacts", KSlice (go_shape (A := ArtifactDigest))); ("inference_route_ids", KSlice (go_shape (A := string)));
    ("inference_model_aliases", KSlice (go_shape (A := string))); ("service_ids", KSlice (go_shape (A := string)));
    ("egress_route_ids", KSlice (go_shape (A := string))); ("connector_ids", KSlice (go_shape (A := string)));
    ("command_keys", KSlice (go_shape (A := CommandKey))); ("task_keys", KSlice (go_shape (A := TaskKey)));
    ("authorized_effects", KPointer (go_shape (A := AuthorizedEffectsPolicy)))]%string;
  to_json x := obj [
    always "tenant_id" (JStr (tn_TenantID x)); always "publisher_key_ids" (enc_slice to_json (tn_PublisherKeyIDs x));
    always "resource_ceiling" (to_json (tn_ResourceCeiling x));
    omitempty "allowed_artifacts" (nil_slice (tn_AllowedArtifacts x)) (enc_slice to_json (tn_AllowedArtifacts x));
    omitempty "inference_route_ids" (nil_slice (tn_InferenceRouteIDs x)) (enc_slice to_json (tn_InferenceRouteIDs x));
    omitempty "inference_model_aliases" (nil_slice (tn_InferenceModelAliases x)) (enc_slice to_json (tn_InferenceModelAliases x));
    omitempty "service_ids" (nil_slice (tn_ServiceIDs x)) (enc_slice to_json (tn_ServiceIDs x));
    omitempty "egress_route_ids" (nil_slice (tn_EgressRouteIDs x)) (enc_slice to_json (tn_EgressRouteIDs x));
    omitempty "connector_ids" (nil_slice (tn_ConnectorIDs x)) (enc_slice to_json (tn_ConnectorIDs x));
    omitempty "command_keys" (nil_slice (tn_CommandKeys x)) (enc_slice to_json (tn_CommandKeys x));
    omitempty "task_keys" (nil_slice (tn_TaskKeys x)) (enc_slice to_json (tn_TaskKeys x));
    omitempty "authorized_effects" (nil_ptr (tn_AuthorizedEffects x)) (enc_ptr to_json (tn_AuthorizedEffects x))];
  of_json v := match v with
    | JObj fs =>
        v_TenantID ← field fs "tenant_id" dec_string ""%string; v_PublisherKeyIDs ← field fs "publisher_key_ids" (dec_slice of_json) None;
        v_ResourceCeiling ← field fs "resource_ceiling" of_json zero_ResourceLimits;
        v_AllowedArtifacts ← field fs "allowed_artifacts" (dec_slice of_json) None;
        v_InferenceRouteIDs ← field fs "inference_route_ids" (dec_slice of_json) None;
        v_InferenceModelAliases ← field fs "inference_model_aliases" (dec_slice of_json) None;
        v_ServiceIDs ← field fs "service_ids" (dec_slice of_json) None; v_EgressRouteIDs ← field fs "egress_route_ids" (dec_slice of_json) None;
        v_ConnectorIDs ← field fs "connector_ids" (dec_slice of_json) None; v_CommandKeys ← field fs "command_keys" (dec_slice of_json) None;
        v_TaskKeys ← field fs "task_keys" (dec_slice of_json) None; v_AuthorizedEffects ← field fs "authorized_effects" (dec_ptr of_json) None;
        Some (mkTenantRule v_TenantID v_PublisherKeyIDs v_ResourceCeiling v_AllowedArtifacts v_InferenceRouteIDs v_InferenceModelAliases v_ServiceIDs v_EgressRouteIDs v_ConnectorIDs v_CommandKeys v_TaskKeys v_AuthorizedEffects)
    | _ => None end;
  storable x :=
    utf8_valid (tn_TenantID x) && storable_slice (tn_PublisherKeyIDs x) && storable (tn_ResourceCeiling x) &&
    slice_ok storable (tn_AllowedArtifacts x) && slice_ok storable (tn_InferenceRouteIDs x) && slice_ok storable (tn_InferenceModelAliases x) &&
    slice_ok storable (tn_ServiceIDs x) && slice_ok storable (tn_EgressRouteIDs x) && slice_ok storable (tn_ConnectorIDs x) &&
    slice_ok storable (tn_CommandKeys x) && slice_ok storable (tn_TaskKeys x) && from_option storable true (tn_AuthorizedEffects x);
}.

Definition zero_SitePolicy : SitePolicy := mkSitePolicy "" "" 0 None None None.

#[global] Instance SitePolicy_json : GoJSON SitePolicy := {
  go_shape := KStruct [
    ("schema_version", KString); ("policy_id", KString); ("policy_epoch", KInt); ("site_cleanup_command_keys", KSlice (go_shape (A := CommandKey)));
    ("publishers", KSlice (go_shape (A := PublisherRule))); ("tenants", KSlice (go_shape (A := TenantRule)))]%string;
  to_json x := obj [
    always "schema_version" (JStr (sp_SchemaVersion x)); always "policy_id" (JStr (sp_PolicyID x));
    always "policy_epoch" (json_int (sp_PolicyEpoch x));
    omitempty "site_cleanup_command_keys" (nil_slice (sp_SiteCleanupCommandKeys x)) (enc_slice to_json (sp_SiteCleanupCommandKeys x));
    always "publishers" (enc_slice to_json (sp_Publishers x)); always "tenants" (enc_slice to_json (sp_Tenants x))];
  of_json v := match v with
    | JObj fs =>
        v_SchemaVersion ← field fs "schema_version" dec_string ""%string; v_PolicyID ← field fs "policy_id" dec_string ""%string;
        v_PolicyEpoch ← field fs "policy_epoch" dec_u64 0; v_SiteCleanupCommandKeys ← field fs "site_cleanup_command_keys" (dec_slice of_json) None;
        v_Publishers ← field fs "publishers" (dec_slice of_json) None; v_Tenants ← field fs "tenants" (dec_slice of_json) None;
        Some (mkSitePolicy v_SchemaVersion v_PolicyID v_PolicyEpoch v_SiteCleanupCommandKeys v_Publishers v_Tenants)
    | _ => None end;
  storable x :=
    utf8_valid (sp_SchemaVersion x) && utf8_valid (sp_PolicyID x) && in_u64b (sp_PolicyEpoch x) && slice_ok storable (sp_SiteCleanupCommandKeys x) &&
    storable_slice (sp_Publishers x) && storable_slice (sp_Tenants x);
}.

#[global] Instance ProfileRef_laws : GoJSONLaws ProfileRef 1.
Proof. struct_laws. Qed.
#[global] Instance Platform_laws : GoJSONLaws Platform 1.
Proof. struct_laws. Qed.
#[global] Instance ImageIdentity_laws : GoJSONLaws ImageIdentity 2.
Proof. struct_laws. Qed.
#[global] Instance ResourceLimits_laws : GoJSONLaws ResourceLimits 1.
Proof. struct_laws. Qed.
#[global] Instance Capabilities_laws : GoJSONLaws Capabilities 1.
Proof. struct_laws. Qed.
#[global] Instance ArtifactDigest_laws : GoJSONLaws ArtifactDigest 1.
Proof. struct_laws. Qed.
#[global] Instance StateShape_laws : GoJSONLaws StateShape 1.
Proof. struct_laws. Qed.
#[global] Instance ServiceShape_laws : GoJSONLaws ServiceShape 1.
Proof. struct_laws. Qed.
#[global] Instance ProfileCapsule_laws : GoJSONLaws ProfileCapsule 3.
Proof. struct_laws. Qed.
#[global] Instance InstanceIntent_laws : GoJSONLaws InstanceIntent 2.
Proof. struct_laws. Qed.
#[global] Instance ActionKey_laws : GoJSONLaws ActionKey 2.
Proof. struct_laws. Qed.
#[global] Instance TaskKey_laws : GoJSONLaws TaskKey 2.
Proof. struct_laws. Qed.
#[global] Instance CommandKey_laws : GoJSONLaws CommandKey 2.
Proof. struct_laws. Qed.
#[global] Instance AuthorizedEffectsPolicy_laws : GoJSONLaws AuthorizedEffectsPolicy 4.
Proof. struct_laws. Qed.
#[global] Instance PublisherRule_laws : GoJSONLaws PublisherRule 3.
Proof. struct_laws. Qed.
#[global] Instance TenantRule_laws : GoJSONLaws TenantRule 6.
Proof. struct_laws. Qed.
#[global] Instance SitePolicy_laws : GoJSONLaws SitePolicy 8.
Proof. struct_laws. Qed.

(** ** Texts *)

Definition bounded (value : string) (limit : Z) : bool := FenceStore.bounded value limit.
Definition digest (value : string) : bool := FenceStore.digest value.

(** [^[A-Za-z0-9][A-Za-z0-9._-]{0,127}$] *)
Definition route_first (z : Z) : bool := ((65 <=? z) && (z <=? 90)) || ((97 <=? z) && (z <=? 122)) || ((48 <=? z) && (z <=? 57)).
Definition route_rest (z : Z) : bool := route_first z || (z =? 46) || (z =? 95) || (z =? 45).
Definition routeID (value : string) : bool :=
  match bytes_of value with
  | first :: rest => route_first (u8 first) && forallb (fun c => route_rest (u8 c)) rest && (slen value <=? 128)
  | [] => false
  end.

Definition absolutePath (value : string) : bool :=
  (slen value <=? 512) && has_prefix value "/" && negb (contains_text (bytes_of "//") (bytes_of value))
  && negb (contains_text (bytes_of "..") (bytes_of value)) && negb (contains_byte value 0).

(** [^[a-z0-9]+(?:[._-]+[a-z0-9]+)*$]: the characters are of these classes, the first and the last of the first class. *)
Definition component_alnum (z : Z) : bool := ((97 <=? z) && (z <=? 122)) || ((48 <=? z) && (z <=? 57)).
Definition repositoryComponent (part : bytes) : bool :=
  from_option (fun c => component_alnum (u8 c)) false (head part) && from_option (fun c => component_alnum (u8 c)) false (last part)
  && forallb (fun c => component_alnum (u8 c) || (u8 c =? 46) || (u8 c =? 95) || (u8 c =? 45)) part.

(** The first part of a repository name, a host with a port. *)
Definition registryHost (part : bytes) : bool :=
  match split_on [byte_of_Z 58] part with
  | [host; port] => repositoryComponent host && from_option (fun value => (1 <=? value) && (value <=? 65535)) false (Atoi (string_of port))
  | _ => false
  end.
Definition repositoryName (value : string) : bool :=
  let l := bytes_of value in
  if negb (bounded value 512) || contains_byte value 64 || contains_byte value 92 || contains_text (bytes_of "://") l
     || has_prefix value "/" || from_option (fun c => u8 c =? 47) false (last l) || contains_text (bytes_of "//") l then false else
  match split_on [byte_of_Z 47] l with
  | first :: rest =>
      (if existsb (fun c => u8 c =? 58) first then registryHost first else repositoryComponent first) && forallb repositoryComponent rest
  | [] => false
  end.
Definition ValidRepositoryName (value : string) : bool := repositoryName value.

Definition PublicKeySize : Z := 32.
Definition decodePublicKey (encoded : string) : option bytes :=
  match b64_decode_string encoded with
  | Some decoded => if zlen decoded =? PublicKeySize then Some decoded else None
  | None => None
  end.
(** The key, when its text is also the canonical one. *)
Definition canonicalPublicKey (encoded : string) : option bytes :=
  match decodePublicKey encoded with
  | Some public => if String.eqb (b64_encode_string public) encoded then Some public else None
  | None => None
  end.

Definition contains (values : option (list string)) (wanted : string) : bool := is_in wanted (items values).
Definition containsProfile (values : option (list ProfileRef)) (wanted : ProfileRef) : bool := bool_decide (wanted ∈ items values).
Definition artifactsAllowed (artifacts rules : option (list ArtifactDigest)) : bool :=
  forallb (fun artifact => bool_decide (artifact ∈ items rules)) (items artifacts).
Definition within (request ceiling : ResourceLimits) : bool :=
  (rl_MemoryBytes request <=? rl_MemoryBytes ceiling) && (rl_CPUMillis request <=? rl_CPUMillis ceiling) && (rl_PIDs request <=? rl_PIDs ceiling).
Definition no_items {A} (s : option (list A)) : bool := zlen (items s) =? 0.

(** ** Profiles *)

Definition ProfileID : string := "agent-service-v1".
Definition ProfileVersion : string := "v1".
Definition StatePath : string := "/state".
Definition Command : string := "serve".
Definition ServiceID : string := "agent-api".
Definition ServicePort : Z := 8080.

(** The interface [Registry], and the static one. *)
Definition Registry : Type := ProfileRef -> option Profile.
Definition StaticRegistry (profiles : list Profile) : Registry := fun ref => List.find (fun profile => bool_decide (px_Ref profile = ref)) profiles.
Definition hermesProfile (id : string) : Profile := mkProfile (mkProfileRef id "v1") 65532 65532 "/opt/data" "v1" ["serve"%string] "hermes-api" 8766.
Definition DefaultProfiles : Registry := StaticRegistry [
  mkProfile (mkProfileRef "generic-v1" "v1") 65532 65532 "/state" "v1" [] "" 0;
  mkProfile (mkProfileRef ProfileID ProfileVersion) 65532 65532 StatePath "v1" [Command] ServiceID ServicePort;
  hermesProfile "hermes-v1"; hermesProfile "hermes-research-v1"; hermesProfile "hermes-developer-v1"].

(** ** Validation of capsules and intents *)

Definition ResourceLimits_Validate (r : ResourceLimits) : result unit :=
  require (0 <? rl_MemoryBytes r) && (0 <? rl_CPUMillis r) && (0 <? rl_PIDs r) else "resource limits must all be positive" in Ok tt.

Definition ProfileRef_Validate (p : ProfileRef) : result unit := require bounded (pr_ID p) 128 && bounded (pr_Version p) 128 else "invalid profile" in Ok tt.

Definition ImageIdentity_Validate (i : ImageIdentity) : result unit :=
  require repositoryName (ii_Repository i) && digest (ii_ManifestDigest i) && digest (ii_ConfigDigest i) && bounded (pf_OS (ii_Platform i)) 32
    && bounded (pf_Architecture (ii_Platform i)) 32 && (slen (pf_Variant (ii_Platform i)) <=? 32) && negb (contains_byte (pf_Variant (ii_Platform i)) 0)
    else "invalid immutable image identity" in Ok tt.

Definition validate_artifacts (artifacts : option (list ArtifactDigest)) : result unit :=
  require zlen (items artifacts) <=? 32 else "too many capsule artifacts" in
  each_new ad_Kind (fun a => require bounded (ad_Kind a) 128 && digest (ad_Digest a) else "invalid capsule artifact" in Ok tt)
    "duplicate capsule artifact kind" (fun _ => Ok tt) [] (items artifacts).

(** The times of a capsule; a zero [now] leaves out the test of the expiry. *)
Definition validate_capsule_times (c : ProfileCapsule) (now : Z) : result unit :=
  require String.eqb (pc_IssuedAt c) "" || parses_rfc3339nano (pc_IssuedAt c) else "invalid capsule issue time" in
  if String.eqb (pc_ExpiresAt c) "" then Ok tt else
  match parse_rfc3339 (pc_ExpiresAt c) with
  | None => Err "invalid capsule expiry"
  | Some expires => require is_zero now || (now <? expires) else "capsule has expired according to node time" in Ok tt
  end.

Definition ProfileCapsule_Validate (c : ProfileCapsule) (now : Z) : result unit :=
  require String.eqb (pc_SchemaVersion c) SchemaV1 && bounded (pc_CapsuleID c) 128 && bounded (pc_PublisherKeyID c) 256 else "invalid capsule identity" in
  let* _ := ProfileRef_Validate (pc_Profile c) in
  let* _ := ImageIdentity_Validate (pc_Image c) in
  let* _ := ResourceLimits_Validate (pc_Resources c) in
  require negb (no_items (pc_Command c)) && (zlen (items (pc_Command c)) <=? 64) else "capsule command must contain 1 to 64 arguments" in
  require forallb (fun argument => (slen argument <=? 4096) && negb (contains_byte argument 0)) (items (pc_Command c)) else "invalid capsule command argument" in
  require bounded (ss_SchemaVersion (pc_State c)) 128 && absolutePath (ss_Path (pc_State c)) else "invalid capsule state shape" in
  let service := pc_Service c in
  let* _ := if ca_Service (pc_Capabilities c)
    then require bounded (sv_ID service) 128 && (1 <=? sv_Port service) && (sv_Port service <=? 65535) else "invalid capsule service shape" in Ok tt
    else require String.eqb (sv_ID service) "" && (sv_Port service =? 0) else "service shape requires service capability" in Ok tt in
  let* _ := validate_artifacts (pc_Artifacts c) in
  validate_capsule_times c now.

Definition InstanceIntent_Validate (i : InstanceIntent) (caller : AuthenticatedIdentity) : result unit :=
  require bounded (it_TenantID i) 128 && bounded (it_NodeID i) 128 && bounded (it_InstanceID i) 256 && bounded (it_LineageID i) 256
    && negb (it_Generation i =? 0) && digest (it_CapsuleDigest i) else "invalid instance intent identity" in
  require String.eqb (au_TenantID caller) (it_TenantID i) && String.eqb (au_NodeID caller) (it_NodeID i)
    else "authenticated caller does not own intent tenant/node" in
  ResourceLimits_Validate (it_Resources i).

Definition SubsetOf (c maximum : Capabilities) : bool :=
  (negb (ca_State c) || ca_State maximum) && (negb (ca_Inference c) || ca_Inference maximum) && (negb (ca_Service c) || ca_Service maximum)
  && (negb (ca_Egress c) || ca_Egress maximum) && (negb (ca_Connector c) || ca_Connector maximum)
  && (negb (ca_ControllerEvents c) || ca_ControllerEvents maximum).

(** The state shape of the profile, which [Intersect] also tests. *)
Definition state_shape_matches (capsule : ProfileCapsule) (profile : Profile) : bool :=
  String.eqb (ss_Path (pc_State capsule)) (px_StatePath profile) && String.eqb (ss_SchemaVersion (pc_State capsule)) (px_StateSchemaVersion profile).

Definition ValidateProfileContract (capsule : ProfileCapsule) (profiles : Registry) : result Profile :=
  let* profile := opt_ok (profiles (pc_Profile capsule)) "unknown built-in profile" in
  require state_shape_matches capsule profile else "capsule state shape differs from built-in profile" in
  require bool_decide (px_Command profile = []) || bool_decide (items (pc_Command capsule) = px_Command profile)
    else "capsule command differs from built-in profile" in
  require String.eqb (px_ServiceID profile) "" || (String.eqb (sv_ID (pc_Service capsule)) (px_ServiceID profile) && (sv_Port (pc_Service capsule) =? px_ServicePort profile))
    else "capsule service differs from built-in profile" in
  Ok profile.

(** ** Validation of site policies *)

Definition commandOperations : list string :=
  ["admit"; "renew"; "start"; "stop"; "destroy"; "read"; "purge"; "snapshot-state"; "clone-state"; "delete-snapshot"; "activation-canary"].
Definition cleanupCommandOperations : list string := ["stop"; "destroy"; "purge"; "delete-snapshot"].

Fixpoint artifact_loop (seen : list ArtifactDigest) (rules : list ArtifactDigest) : result unit :=
  match rules with
  | [] => Ok tt
  | rule :: rules =>
      require bounded (ad_Kind rule) 128 && digest (ad_Digest rule) else "invalid allowed artifact" in
      require negb (bool_decide (rule ∈ seen)) else "duplicate allowed artifact" in
      artifact_loop (rule :: seen) rules
  end.
Definition validateAllowedArtifacts (rules : option (list ArtifactDigest)) : result unit :=
  require zlen (items rules) <=? maxAllowedArtifacts else "too many allowed artifacts" in artifact_loop [] (items rules).

Definition validate_publisher (publisher : PublisherRule) : result unit :=
  require bool_decide (is_Some (decodePublicKey (pb_PublicKey publisher))) else "invalid publisher public key" in
  let* _ := ResourceLimits_Validate (pb_ResourceCeiling publisher) in
  require negb (no_items (pb_AllowedProfiles publisher)) && (zlen (items (pb_AllowedProfiles publisher)) <=? 32)
    && negb (no_items (pb_AllowedRepositories publisher)) && (zlen (items (pb_AllowedRepositories publisher)) <=? 64)
    else "publisher has invalid allowlist" in
  let* _ := each ProfileRef_Validate (items (pb_AllowedProfiles publisher)) in
  require forallb repositoryName (items (pb_AllowedRepositories publisher)) else "invalid allowed repository" in
  require forallb digest (items (pb_AllowedManifestDigests publisher)) else "invalid allowed manifest digest" in
  let* _ := validateAllowedArtifacts (pb_AllowedArtifacts publisher) in
  require no_items (pb_AllowedArtifacts publisher) || negb (no_items (pb_AllowedManifestDigests publisher))
    else "publisher artifact authority requires an exact allowed manifest digest" in Ok tt.

Definition validate_publishers (publishers : list PublisherRule) : result unit :=
  each_new pb_KeyID (fun p => require bounded (pb_KeyID p) 256 && bounded (pb_PublicKey p) 1024 else "invalid publisher identity" in Ok tt)
    "duplicate publisher key ID" validate_publisher [] publishers.

(** The key and the operations of a command key; the limit is the number of operations there are. *)
Definition validate_operations (supported : list string) (key : CommandKey) : result unit :=
  require bool_decide (is_Some (decodePublicKey (ck_PublicKey key))) else "invalid command public key" in
  require negb (no_items (ck_Operations key)) && (zlen (items (ck_Operations key)) <=? zlen supported) else "command key has invalid operation scope" in
  each_new id (fun operation => require bounded operation 32 && is_in operation supported else "command key names unsupported operation" in Ok tt)
    "command key has duplicate operation" (fun _ => Ok tt) [] (items (ck_Operations key)).

Definition validate_command_keys (supported : list string) (collides : string -> bool) (keys : option (list CommandKey)) : result unit :=
  require zlen (items keys) <=? 32 else "too many command keys" in
  each_new ck_KeyID (fun key => require bounded (ck_KeyID key) 256 && bounded (ck_PublicKey key) 1024 else "invalid command key" in Ok tt)
    "duplicate command key ID"
    (fun key => require negb (collides (ck_KeyID key)) else "tenant command key ID collides with site cleanup command key" in validate_operations supported key)
    [] (items keys).

(** A list of unique texts. *)
Definition validate_unique (ok : string -> bool) (values : option (list string)) (bad duplicate : string) : result unit :=
  each_new id (fun value => require ok value else bad in Ok tt) duplicate (fun _ => Ok tt) [] (items values).

Definition actionApprovalThreshold (policy : AuthorizedEffectsPolicy) : Z := if ae_MinApprovals policy =? 0 then 1 else ae_MinApprovals policy.

(** Who owns a public key: [taskPublicKeyOwners] and [actionPublicKeyOwners]. *)
Notation owners := (gmap bytes string).
Definition taken (tenantID : string) (public : bytes) (o : owners) : bool :=
  match o !! public with Some owner => negb (String.eqb owner tenantID) | None => false end.

(** A scope of authorized identifiers in ascending order. *)
Definition scope_ok (authorized scope : option (list string)) : bool :=
  forallb (fun value => routeID value && contains authorized value) (items scope) && ascending (items scope).

Definition count_approvers (approvers : gmap string Z) (scope : list string) : gmap string Z :=
  foldl (fun m connectorID => <[connectorID := default 0 (m !! connectorID) + 1]> m) approvers scope.

(** The loop over the action keys or the task keys of a tenant: identifiers and public keys are used once, a public key by one tenant only, and
    the scope is authorized. The approvers of the connectors are counted after it. *)
Fixpoint key_loop {K} (keyID publicKey : K -> string) (scope : K -> option (list string)) (tenantID : string) (authorized : option (list string))
    (seenIDs : list string) (seenPublic : list bytes) (o : owners) (keys : list K) : result owners :=
  match keys with
  | [] => Ok o
  | key :: keys =>
      require routeID (keyID key) && bounded (publicKey key) 1024 && negb (no_items (scope key)) && (zlen (items (scope key)) <=? 32) else "invalid tenant key" in
      require negb (is_in (keyID key) seenIDs) else "duplicate tenant key ID" in
      let* public := opt_ok (canonicalPublicKey (publicKey key)) "invalid tenant public key" in
      require negb (bool_decide (public ∈ seenPublic)) else "tenant public key is assigned more than once" in
      require negb (taken tenantID public o) else "public key is assigned to multiple tenants" in
      require scope_ok authorized (scope key) else "key scope must be tenant-authorized, unique, and sorted" in
      key_loop keyID publicKey scope tenantID authorized (keyID key :: seenIDs) (public :: seenPublic) (<[public := tenantID]> o) keys
  end.

Definition action_key_loop (tenant : TenantRule) (o : owners) (keys : list ActionKey) : result owners :=
  key_loop ak_KeyID ak_PublicKey ak_ConnectorIDs (tn_TenantID tenant) (tn_ConnectorIDs tenant) [] [] o keys.
Definition task_key_loop (tenant : TenantRule) (o : owners) (keys : list TaskKey) : result owners :=
  key_loop tk_KeyID tk_PublicKey tk_ServiceIDs (tn_TenantID tenant) (tn_ServiceIDs tenant) [] [] o keys.

Definition validate_effects (tenant : TenantRule) (o : owners) : result owners :=
  match tn_AuthorizedEffects tenant with
  | None => Ok o
  | Some effects =>
      require is_in (ae_Mode effects) [AuthorizedEffectsOptional; AuthorizedEffectsRequired] else "invalid authorized effects policy mode" in
      require String.eqb (ae_ContextBinding effects) "" || String.eqb (ae_ContextBinding effects) ActionContextRequired
        else "invalid authorized effects context binding" in
      require negb (no_items (ae_Keys effects)) && (zlen (items (ae_Keys effects)) <=? maxAuthorizedEffectKeys)
        else "tenant authorized effects policy must contain 1 to 8 keys" in
      let threshold := actionApprovalThreshold effects in
      require (1 <=? threshold) && (threshold <=? zlen (items (ae_Keys effects))) else "tenant authorized effects approval threshold must be achievable" in
      let* o := action_key_loop tenant o (items (ae_Keys effects)) in
      let approvers := foldl (fun m key => count_approvers m (items (ak_ConnectorIDs key))) ∅ (items (ae_Keys effects)) in
      require forallb (fun kv => threshold <=? kv.2) (map_to_list approvers) else "authorized effects connector lacks enough distinct approval keys" in
      Ok o
  end.

(** The lists of a tenant rule up to its connectors. *)
Definition validate_tenant_lists (publishers : list PublisherRule) (tenant : TenantRule) : result unit :=
  let* _ := ResourceLimits_Validate (tn_ResourceCeiling tenant) in
  require forallb (fun keyID => is_in keyID (pb_KeyID <$> publishers)) (items (tn_PublisherKeyIDs tenant)) else "tenant names unknown publisher" in
  let* _ := validateAllowedArtifacts (tn_AllowedArtifacts tenant) in
  require (zlen (items (tn_InferenceRouteIDs tenant)) <=? 128) && (zlen (items (tn_InferenceModelAliases tenant)) <=? 128)
    && Bool.eqb (no_items (tn_InferenceRouteIDs tenant)) (no_items (tn_InferenceModelAliases tenant))
    else "tenant inference routes and model aliases must be configured together" in
  let* _ := validate_unique (fun route => bounded route 128) (tn_InferenceRouteIDs tenant) "invalid inference route" "duplicate tenant inference route" in
  let* _ := validate_unique (fun alias => bounded alias 256) (tn_InferenceModelAliases tenant) "invalid inference model alias" "duplicate tenant inference model alias" in
  require forallb (fun service => bounded service 128) (items (tn_ServiceIDs tenant)) else "invalid service ID" in
  require zlen (items (tn_EgressRouteIDs tenant)) <=? 128 else "tenant has too many egress routes" in
  let* _ := validate_unique routeID (tn_EgressRouteIDs tenant) "invalid egress route" "duplicate tenant egress route" in
  require zlen (items (tn_ConnectorIDs tenant)) <=? 32 else "tenant has too many connector IDs" in
  validate_unique routeID (tn_ConnectorIDs tenant) "invalid connector ID" "duplicate tenant connector ID".

(** One tenant: the owners of action keys and of task keys after it. *)
Definition validate_tenant (publishers : list PublisherRule) (siteKeys : list string) (o : owners * owners) (tenant : TenantRule) : result (owners * owners) :=
  let* _ := validate_tenant_lists publishers tenant in
  let* actionOwners := validate_effects tenant o.1 in
  let* _ := validate_command_keys commandOperations (fun keyID => is_in keyID siteKeys) (tn_CommandKeys tenant) in
  require zlen (items (tn_TaskKeys tenant)) <=? 8 else "tenant has too many task keys" in
  let* taskOwners := task_key_loop tenant o.2 (items (tn_TaskKeys tenant)) in
  Ok (actionOwners, taskOwners).

Fixpoint tenant_loop (publishers : list PublisherRule) (siteKeys : list string) (seen : list string) (o : owners * owners) (tenants : list TenantRule)
  : result unit :=
  match tenants with
  | [] => Ok tt
  | tenant :: tenants =>
      require bounded (tn_TenantID tenant) 128 && negb (no_items (tn_PublisherKeyIDs tenant)) && (zlen (items (tn_PublisherKeyIDs tenant)) <=? 64)
        else "invalid tenant policy" in
      require negb (is_in (tn_TenantID tenant) seen) else "duplicate tenant policy" in
      let* o := validate_tenant publishers siteKeys o tenant in
      tenant_loop publishers siteKeys (tn_TenantID tenant :: seen) o tenants
  end.

Definition SitePolicy_Validate (p : SitePolicy) : result unit :=
  require String.eqb (sp_SchemaVersion p) SchemaV1 && bounded (sp_PolicyID p) 128 && negb (sp_PolicyEpoch p =? 0)
    && negb (no_items (sp_Publishers p)) && (zlen (items (sp_Publishers p)) <=? 128) && (zlen (items (sp_Tenants p)) <=? 1024)
    else "invalid site policy identity" in
  let* _ := validate_publishers (items (sp_Publishers p)) in
  let* _ := validate_command_keys cleanupCommandOperations (fun _ => false) (sp_SiteCleanupCommandKeys p) in
  require negb (no_items (sp_Tenants p) && no_items (sp_SiteCleanupCommandKeys p)) else "invalid site policy identity" in
  tenant_loop (items (sp_Publishers p)) (ck_KeyID <$> items (sp_SiteCleanupCommandKeys p)) [] (∅, ∅) (items (sp_Tenants p)).

(** ** Keys of a policy *)

Definition publisher (p : SitePolicy) (keyID : string) : option PublisherRule := List.find (fun r => String.eqb (pb_KeyID r) keyID) (items (sp_Publishers p)).
Definition tenant (p : SitePolicy) (id : string) : option TenantRule := List.find (fun r => String.eqb (tn_TenantID r) id) (items (sp_Tenants p)).

(** The loops that collect decoded keys. *)
Fixpoint collect_keys (entries : list (string * string)) (keys : gmap string bytes) : result (gmap string bytes) :=
  match entries with
  | [] => Ok keys
  | (keyID, encoded) :: entries =>
      let* key := opt_ok (decodePublicKey encoded) "decode key" in
      collect_keys entries (<[keyID := key]> keys)
  end.

Definition PublisherKeys (p : SitePolicy) : result (gmap string bytes) :=
  collect_keys ((fun r => (pb_KeyID r, pb_PublicKey r)) <$> items (sp_Publishers p)) ∅.

Definition command_entries (operation : string) (keys : option (list CommandKey)) : list (string * string) :=
  (fun k => (ck_KeyID k, ck_PublicKey k)) <$> List.filter (fun k => contains (ck_Operations k) operation) (items keys).

(** The cleanup keys are added to the tenant's; the loop refuses an identifier that is already there. *)
Fixpoint collect_cleanup (entries : list (string * string)) (keys : gmap string bytes) : result (gmap string bytes) :=
  match entries with
  | [] => Ok keys
  | (keyID, encoded) :: entries =>
      require bool_decide (keys !! keyID = None) else "command key ID collision" in
      let* key := opt_ok (decodePublicKey encoded) "decode site cleanup command key" in
      collect_cleanup entries (<[keyID := key]> keys)
  end.

Definition TrustedCommandKeys (p : SitePolicy) (tenantID operation : string) : result (gmap string bytes) :=
  require is_in operation commandOperations else "unsupported command operation" in
  let cleanupOperation := is_in operation cleanupCommandOperations in
  let rule := tenant p tenantID in
  require bool_decide (is_Some rule) || cleanupOperation else "unknown command tenant" in
  let* keys := match rule with Some rule => collect_keys (command_entries operation (tn_CommandKeys rule)) ∅ | None => Ok ∅ end in
  let* keys := if cleanupOperation then collect_cleanup (command_entries operation (sp_SiteCleanupCommandKeys p)) keys else Ok keys in
  require negb (bool_decide (keys = ∅)) else "site policy has no key authorized for command tenant and operation" in
  Ok keys.

Definition TrustedTaskKeys (p : SitePolicy) (tenantID serviceID : string) : result (gmap string bytes) :=
  require routeID serviceID else "invalid task service ID" in
  match tenant p tenantID with
  | Some rule =>
      require contains (tn_ServiceIDs rule) serviceID else "unknown task tenant or service" in
      collect_keys ((fun k => (tk_KeyID k, tk_PublicKey k)) <$> List.filter (fun k => contains (tk_ServiceIDs k) serviceID) (items (tn_TaskKeys rule))) ∅
  | None => Err "unknown task tenant or service"
  end.

(** ** Authorized effects *)

Definition action_key_le (left right : ActionKey) : Prop := String.le (ak_KeyID left) (ak_KeyID right).
#[global] Instance action_key_le_dec : RelDecision action_key_le.
Proof. intros left right. unfold action_key_le. apply _. Defined.

(** The keys whose scope meets the selected connectors, narrowed to them. *)
Definition narrow_key (selected : list string) (key : ActionKey) : option ActionKey :=
  match List.filter (fun connectorID => is_in connectorID selected) (items (ak_ConnectorIDs key)) with
  | [] => None
  | scope => Some (mkActionKey (ak_KeyID key) (ak_PublicKey key) (Some scope))
  end.

(** [slices.SortFunc] is stable on the keys here, whose identifiers differ in a valid policy. *)
Definition authorizedActionKeys (rule : TenantRule) (selectedConnectorIDs : option (list string)) : result (list ActionKey) :=
  match tn_AuthorizedEffects rule with
  | None => Err "tenant has no authorized effects policy"
  | Some effects =>
      let selected := items selectedConnectorIDs in
      require zlen selected <=? 32 else "too many selected connectors for authorized effects" in
      let* _ := each_new id (fun c => require routeID c && contains (tn_ConnectorIDs rule) c else "authorized effects connector is not tenant-authorized" in Ok tt)
        "duplicate selected authorized effects connector" (fun _ => Ok tt) [] selected in
      let keys := omap (narrow_key selected) (items (ae_Keys effects)) in
      let covered : gset string := list_to_set (concat ((fun key => items (ak_ConnectorIDs key)) <$> keys)) in
      require Z.of_nat (size covered) =? zlen selected else "selected connector lacks an authorized action key" in
      Ok (merge_sort action_key_le keys)
  end.

Definition SitePolicy_AuthorizedActionKeys (p : SitePolicy) (tenantID : string) (selectedConnectorIDs : option (list string)) : result (list ActionKey) :=
  let* _ := SitePolicy_Validate p in
  match tenant p tenantID with
  | Some rule =>
      require bool_decide (is_Some (tn_AuthorizedEffects rule)) else "tenant has no authorized effects policy" in
      authorizedActionKeys rule selectedConnectorIDs
  | None => Err "tenant has no authorized effects policy"
  end.

Definition SitePolicy_AuthorizedActionApprovalThreshold (p : SitePolicy) (tenantID : string) (selectedConnectorIDs : option (list string)) : result Z :=
  let* _ := SitePolicy_Validate p in
  match r ← tenant p tenantID; e ← tn_AuthorizedEffects r; Some (r, e) with
  | Some (rule, effects) =>
      let* _ := authorizedActionKeys rule selectedConnectorIDs in Ok (actionApprovalThreshold effects)
  | None => Err "tenant has no authorized effects policy"
  end.

Definition SitePolicy_AuthorizedActionContextRequired (p : SitePolicy) (tenantID : string) : result bool :=
  match tenant p tenantID ≫= tn_AuthorizedEffects with
  | Some effects => Ok (String.eqb (ae_ContextBinding effects) ActionContextRequired)
  | None => Err "tenant has no authorized effects policy"
  end.

Definition AuthorizedActionKeys (e : EffectiveAdmission) : result (list ActionKey) :=
  require String.eqb (it_EffectMode (ea_Intent e)) EffectModeAuthorized else "instance was not admitted for authorized effects" in
  SitePolicy_AuthorizedActionKeys (ea_SitePolicy e) (it_TenantID (ea_Intent e)) (it_ConnectorIDs (ea_Intent e)).

Definition AuthorizedActionApprovalThreshold (e : EffectiveAdmission) : result Z :=
  require String.eqb (it_EffectMode (ea_Intent e)) EffectModeAuthorized else "instance was not admitted for authorized effects" in
  SitePolicy_AuthorizedActionApprovalThreshold (ea_SitePolicy e) (it_TenantID (ea_Intent e)) (it_ConnectorIDs (ea_Intent e)).

Definition AuthorizedActionContextRequired (e : EffectiveAdmission) : result bool :=
  require String.eqb (it_EffectMode (ea_Intent e)) EffectModeAuthorized else "instance was not admitted for authorized effects" in
  SitePolicy_AuthorizedActionContextRequired (ea_SitePolicy e) (it_TenantID (ea_Intent e)).

(** ** The intersection of the authorities *)

(** A copy of a list, sorted; appending nothing to a nil slice leaves it nil. *)
Definition copied {A} (l : list A) : option (list A) := match l with [] => None | _ => Some l end.
Definition CanonicalRouteIDs (routes : option (list string)) : option (list string) := copied (sort_strings (items routes)).

(** [slices.Compact]. *)
Fixpoint compact (l : list string) : list string :=
  match l with
  | x :: (y :: _) as l' => if String.eqb x y then compact l' else x :: compact l'
  | _ => l
  end.
Definition CanonicalConnectorIDs (connectors : option (list string)) : option (list string) := copied (compact (sort_strings (items connectors))).

Definition validateEffectMode (intent : InstanceIntent) (rule : TenantRule) : result unit :=
  let mode := it_EffectMode intent in
  match tn_AuthorizedEffects rule with
  | None => require String.eqb mode "" else "effect mode requires an authorized effects policy" in Ok tt
  | Some policy =>
      let* _ :=
        if String.eqb (ae_Mode policy) AuthorizedEffectsOptional then
          require is_in mode [EffectModeStandard; EffectModeAuthorized]
            else "optional authorized effects policy requires explicit standard or authorized effect mode" in Ok tt
        else if String.eqb (ae_Mode policy) AuthorizedEffectsRequired then
          require String.eqb mode EffectModeAuthorized else "required authorized effects policy forbids effect mode downgrade" in Ok tt
        else Err "invalid authorized effects policy mode" in
      if negb (String.eqb mode EffectModeAuthorized) then Ok tt else
      require ca_Connector (it_Capabilities intent) && negb (no_items (it_ConnectorIDs intent))
        else "authorized effect mode requires connector capability and at least one selected connector" in
      require negb (ca_Egress (it_Capabilities intent)) && no_items (it_EgressRouteIDs intent) else "authorized effect mode forbids generic egress" in
      let* _ := authorizedActionKeys rule (it_ConnectorIDs intent) in Ok tt
  end.

(** The routes or the connectors of an intent. *)
Definition validate_selection (granted : bool) (selected authorized : option (list string)) : result unit :=
  if granted then
    require negb (no_items selected) && (zlen (items selected) <=? 32) else "capability requires 1 to 32 IDs" in
    validate_unique (fun value => routeID value && contains authorized value) selected "ID is not authorized" "duplicate ID"
  else require no_items selected else "IDs require the capability" in Ok tt.

Definition validateRequestedCapabilities (intent : InstanceIntent) (capsule : ProfileCapsule) (rule : TenantRule) : result unit :=
  let wanted := it_Capabilities intent in
  let* _ := if ca_State wanted
    then require is_in (it_StateDisposition intent) ["new"; "resume"]%string else "state capability requires new or resume disposition" in Ok tt
    else require String.eqb (it_StateDisposition intent) "none" else "state disposition requires state capability" in Ok tt in
  let* _ := if ca_Inference wanted
    then require bounded (it_InferenceRouteID intent) 128 && bounded (it_ModelAlias intent) 256
           && contains (tn_InferenceRouteIDs rule) (it_InferenceRouteID intent) && contains (tn_InferenceModelAliases rule) (it_ModelAlias intent)
           else "inference route or model alias is not authorized" in Ok tt
    else require String.eqb (it_InferenceRouteID intent) "" && String.eqb (it_ModelAlias intent) "" else "inference route requires inference capability" in Ok tt in
  let* _ := if ca_Service wanted
    then require negb (String.eqb (it_ServiceID intent) "") && String.eqb (it_ServiceID intent) (sv_ID (pc_Service capsule))
           && contains (tn_ServiceIDs rule) (it_ServiceID intent) else "service is not authorized" in Ok tt
    else require String.eqb (it_ServiceID intent) "" else "service ID requires service capability" in Ok tt in
  let* _ := validate_selection (ca_Egress wanted) (it_EgressRouteIDs intent) (tn_EgressRouteIDs rule) in
  let* _ := validate_selection (ca_Connector wanted) (it_ConnectorIDs intent) (tn_ConnectorIDs rule) in
  validateEffectMode intent rule.

Definition with_connectors (i : InstanceIntent) (connectors : option (list string)) : InstanceIntent :=
  mkInstanceIntent (it_TenantID i) (it_NodeID i) (it_InstanceID i) (it_LineageID i) (it_Generation i) (it_CapsuleDigest i) (it_Resources i)
    (it_Capabilities i) (it_StateDisposition i) (it_InferenceRouteID i) (it_ModelAlias i) (it_ServiceID i) (it_EgressRouteIDs i) connectors (it_EffectMode i).

(** The image and the artifacts of a capsule against its publisher's rule. *)
Definition publisher_allows (rule : PublisherRule) (capsule : ProfileCapsule) : result unit :=
  require containsProfile (pb_AllowedProfiles rule) (pc_Profile capsule) else "profile is not authorized for publisher" in
  require contains (pb_AllowedRepositories rule) (ii_Repository (pc_Image capsule)) else "image repository is not authorized" in
  require no_items (pb_AllowedManifestDigests rule) || contains (pb_AllowedManifestDigests rule) (ii_ManifestDigest (pc_Image capsule))
    else "image manifest digest is not authorized" in
  require artifactsAllowed (pc_Artifacts capsule) (pb_AllowedArtifacts rule) else "capsule artifact is not authorized for publisher" in Ok tt.

Definition Intersect (capsule : ProfileCapsule) (capsuleDigest : string) (policy : SitePolicy) (policyDigest publisherKeyID siteRootKeyID : string)
    (intent : InstanceIntent) (caller : AuthenticatedIdentity) (fences : PersistedFences) (profiles : Registry) : result EffectiveAdmission :=
  let* _ := ProfileCapsule_Validate capsule 0 in
  let* _ := SitePolicy_Validate policy in
  let* _ := InstanceIntent_Validate intent caller in
  require String.eqb (it_CapsuleDigest intent) capsuleDigest else "intent capsule digest does not identify the verified envelope" in
  require fe_PolicyEpoch fences <=? sp_PolicyEpoch policy else "site policy epoch rollback" in
  require fe_Generation fences <=? it_Generation intent else "instance generation rollback" in
  let* pub := opt_ok (publisher policy publisherKeyID) "publisher is absent or revoked" in
  require negb (pb_Revoked pub) else "publisher is absent or revoked" in
  let* rule := opt_ok (tenant policy (it_TenantID intent)) "publisher is not authorized for tenant" in
  require contains (tn_PublisherKeyIDs rule) publisherKeyID else "publisher is not authorized for tenant" in
  let* _ := publisher_allows pub capsule in
  require artifactsAllowed (pc_Artifacts capsule) (tn_AllowedArtifacts rule) else "capsule artifact is not authorized for tenant" in
  let* profile := opt_ok (profiles (pc_Profile capsule)) "unknown built-in profile" in
  require state_shape_matches capsule profile else "capsule state shape differs from built-in profile" in
  require SubsetOf (it_Capabilities intent) (pc_Capabilities capsule) else "intent requests a capability outside capsule ceiling" in
  require within (it_Resources intent) (pc_Resources capsule) && within (it_Resources intent) (pb_ResourceCeiling pub)
    && within (it_Resources intent) (tn_ResourceCeiling rule) else "resource request exceeds an admission ceiling" in
  let* _ := validateRequestedCapabilities intent capsule rule in
  Ok (mkEffectiveAdmission capsule policy (with_connectors intent (CanonicalConnectorIDs (it_ConnectorIDs intent))) profile capsuleDigest policyDigest
        publisherKeyID siteRootKeyID (it_Resources intent)).

(** ** Verification of signed envelopes *)

Section verify.
Context (verify : bytes -> bytes -> bytes -> bool).

Definition VerifySitePolicy (policyEnvelope : bytes) (siteRoots : gmap string bytes) : result VerifiedSitePolicy :=
  let* (policyPayload, siteRootKeyID) := Dsse.Verify verify policyEnvelope PolicyPayloadType siteRoots in
  let* policy := DecodeStrictInto policyPayload Dsse.DefaultMaxEnvelopeBytes in
  let* _ := SitePolicy_Validate policy in
  Ok (mkVerifiedSitePolicy policy (Dsse.Digest policyEnvelope) siteRootKeyID).

Definition VerifyCapsuleForImport (capsuleEnvelope policyEnvelope : bytes) (siteRoots : gmap string bytes) (now : Z) (profiles : Registry)
  : result VerifiedCapsuleImport :=
  let* verifiedPolicy := VerifySitePolicy policyEnvelope siteRoots in
  let policy := vp_Policy verifiedPolicy in
  let* publisherKeys := PublisherKeys policy in
  let* (capsulePayload, publisherKeyID) := Dsse.Verify verify capsuleEnvelope CapsulePayloadType publisherKeys in
  let* capsule := DecodeStrictInto capsulePayload Dsse.DefaultMaxEnvelopeBytes in
  let* _ := ProfileCapsule_Validate capsule now in
  require String.eqb (pc_PublisherKeyID capsule) publisherKeyID else "capsule publisher key ID does not match verified signature" in
  let* pub := opt_ok (publisher policy publisherKeyID) "publisher is absent or revoked" in
  require negb (pb_Revoked pub) else "publisher is absent or revoked" in
  let* _ := publisher_allows pub capsule in
  let* profile := opt_ok (profiles (pc_Profile capsule)) "unknown built-in profile" in
  let* _ := ValidateProfileContract capsule profiles in
  Ok (mkVerifiedCapsuleImport capsule policy profile (Dsse.Digest capsuleEnvelope) (vp_PolicyDigest verifiedPolicy) publisherKeyID
        (vp_SiteRootKeyID verifiedPolicy)).

Definition VerifyAndAdmit (capsuleEnvelope policyEnvelope : bytes) (siteRoots : gmap string bytes) (intent : InstanceIntent)
    (caller : AuthenticatedIdentity) (fences : PersistedFences) (now : Z) (profiles : Registry) : result EffectiveAdmission :=
  let* verified := VerifyCapsuleForImport capsuleEnvelope policyEnvelope siteRoots now profiles in
  Intersect (vi_Capsule verified) (vi_CapsuleDigest verified) (vi_SitePolicy verified) (vi_PolicyDigest verified) (vi_PublisherKeyID verified)
    (vi_SiteRootKeyID verified) intent caller fences profiles.
End verify.

Definition InspectProfileCapsule (raw : bytes) (now : Z) : result ProfileCapsule :=
  require (0 <? zlen raw) && (zlen raw <=? Dsse.DefaultMaxEnvelopeBytes) else "profile capsule envelope exceeds its limit" in
  let* envelope := Dsse.Parse raw in
  require String.eqb (Dsse.PayloadType envelope) CapsulePayloadType else "parse profile capsule envelope" in
  let* payload := opt_ok (b64_decode_string (Dsse.Payload envelope)) "decode profile capsule payload" in
  require String.eqb (b64_encode_string payload) (Dsse.Payload envelope) else "decode profile capsule payload" in
  let* capsule := DecodeStrictInto payload Dsse.DefaultMaxEnvelopeBytes in
  let* _ := ProfileCapsule_Validate capsule now in
  Ok capsule.

End Admission.
