(* ===== verification/AdmissionPolicy.v ===== *)
(** * What signed admission guarantees

    Lemmas and theorems on [Admission]: which intents are admitted, what a valid site policy guarantees about its keys, and whose signatures stand
    behind an admitted instance. *)

From Stdlib Require Import Ascii.
From S2P Require Import Prelude GoText GoTime GoFS FenceStore GoJson GoCrypto Strict Dsse GoRune GoNet Admission.
Import Admission.

Module AdmissionPolicy.

Lemma opt_ok_some {A} (o : option A) e x : opt_ok o e = Ok x <-> o = Some x.
Proof. destruct o; cbn; split; congruence. Qed.

Lemma contains_spec values x : contains values x = true <-> x ∈ items values.
Proof. apply is_in_spec. Qed.

(** ** Keys *)

Section key_loop.
Context {K : Type} (keyID publicKey : K -> string) (scope : K -> option (list string)) (tenantID : string) (authorized : option (list string)).

(** The decoded public keys. *)
Definition publics (keys : list K) : list bytes := omap (fun key => canonicalPublicKey (publicKey key)) keys.

Definition key_ok (key : K) : Prop :=
  routeID (keyID key) = true /\ is_Some (canonicalPublicKey (publicKey key)) /\ items (scope key) <> [] /\ scope_ok authorized (scope key) = true.

Lemma key_loop_inv seenIDs seenPublic o keys o' :
  key_loop keyID publicKey scope tenantID authorized seenIDs seenPublic o keys = Ok o' ->
  Forall key_ok keys /\ NoDup (keyID <$> keys) /\ NoDup (publics keys) /\
  (forall key, key ∈ keys -> keyID key ∉ seenIDs) /\ (forall public, public ∈ publics keys -> public ∉ seenPublic) /\
  (forall public, public ∈ publics keys -> o !! public = None \/ o !! public = Some tenantID) /\
  (forall public, o' !! public = if bool_decide (public ∈ publics keys) then Some tenantID else o !! public).
Proof.
  revert seenIDs seenPublic o. induction keys as [|key keys IH]; intros seenIDs seenPublic o H; cbn [key_loop] in H.
  { simplify_eq. split_and!; [constructor.. | | | |]; try (by intros ? ?%not_elem_of_nil). intros public. case_bool_decide as Hn; [by apply not_elem_of_nil in Hn | done]. }
  step H. step H. destruct (canonicalPublicKey (publicKey key)) as [public|] eqn:Ep; cbn [opt_ok] in H; [|done]. do 3 step H. breflect.
  match goal with Hi : is_in _ seenIDs = false |- _ => apply is_in_false in Hi; rename Hi into Hid end.
  match goal with Ht : taken _ _ _ = false |- _ => rename Ht into Htaken end.
  apply IH in H as (Hok & Hnd & Hndp & Hids & Hpubs & Hown & Ho'). clear IH.
  assert (Epub : publics (key :: keys) = public :: publics keys) by (unfold publics; cbn [omap list_omap]; by rewrite Ep).
  rewrite Epub, fmap_cons. split_and!.
  - constructor; [|done]. unfold key_ok. rewrite Ep. split_and!; [done | by eexists | | done]. match goal with Hn : no_items _ = false |- _ => intros E'; unfold no_items in Hn; by rewrite E' in Hn end.
  - constructor; [|done]. intros (k & Hk & Hin)%list_elem_of_fmap. apply (Hids k Hin). rewrite <- Hk. left.
  - constructor; [|done]. intros Hin. apply (Hpubs _ Hin). left.
  - intros k [-> | Hk]%elem_of_cons; [done|]. specialize (Hids k Hk). rewrite not_elem_of_cons in Hids. tauto.
  - intros q [-> | Hq]%elem_of_cons; [done|]. specialize (Hpubs q Hq). rewrite not_elem_of_cons in Hpubs. tauto.
  - intros q [-> | Hq]%elem_of_cons.
    + unfold taken in Htaken. destruct (o !! public) as [owner|]; [|by left]. right. apply negb_false_iff, String.eqb_eq in Htaken. by subst.
    + specialize (Hpubs q Hq). rewrite not_elem_of_cons in Hpubs. destruct (Hown q Hq) as [Ho | Ho]; rewrite lookup_insert_ne in Ho; try tauto; naive_solver.
  - intros q. rewrite Ho'. destruct (decide (q = public)) as [-> | Hne].
    + rewrite (bool_decide_true (public ∈ public :: _)) by left. case_bool_decide; [done|]. by rewrite lookup_insert_eq.
    + rewrite lookup_insert_ne by done. assert (bool_decide (q ∈ public :: publics keys) = bool_decide (q ∈ publics keys)) as ->; [|done].
      apply bool_decide_ext. rewrite elem_of_cons. naive_solver.
Qed.
End key_loop.

(** ** Approvers *)

Definition indicator (b : bool) : Z := if b then 1 else 0.

Lemma count_approvers_lookup scope approvers connector : NoDup scope ->
  default 0 (count_approvers approvers scope !! connector) = default 0 (approvers !! connector) + indicator (is_in connector scope).
Proof.
  unfold count_approvers. revert approvers. induction scope as [|x scope IH]; intros approvers Hnd; [cbn; lia|]. apply NoDup_cons in Hnd as [Hni Hnd]. cbn [foldl].
  rewrite IH by done. unfold is_in at 2. cbn [existsb]. fold (is_in connector scope). destruct (String.eqb_spec connector x) as [-> | Hne].
  - rewrite lookup_insert_eq. apply is_in_false in Hni. rewrite Hni. cbn. lia.
  - by rewrite lookup_insert_ne.
Qed.

(** The keys that may approve an action of [connector]. *)
Definition approvers_of (connector : string) (keys : list ActionKey) : list ActionKey := List.filter (fun key => contains (ak_ConnectorIDs key) connector) keys.

Lemma approvers_count keys approvers connector : Forall (fun key => NoDup (items (ak_ConnectorIDs key))) keys ->
  default 0 (foldl (fun m key => count_approvers m (items (ak_ConnectorIDs key))) approvers keys !! connector)
  = default 0 (approvers !! connector) + zlen (approvers_of connector keys).
Proof.
  revert approvers. induction keys as [|key keys IH]; intros approvers Hnd; [cbn; change (zlen (@nil ActionKey)) with 0; lia|].
  apply Forall_cons in Hnd as [Hk Hnd]. cbn [foldl]. rewrite IH, count_approvers_lookup by done. unfold approvers_of, contains. cbn [List.filter].
  destruct (is_in connector (items (ak_ConnectorIDs key))); cbn [indicator]; rewrite ?zlen_cons; lia.
Qed.

Lemma scope_nodup authorized scope : scope_ok authorized scope = true -> NoDup (items scope).
Proof. unfold scope_ok. intros H. breflect. by apply ascending_nodup. Qed.

Lemma scope_member authorized scope x : scope_ok authorized scope = true -> x ∈ items scope -> x ∈ items authorized.
Proof.
  unfold scope_ok. intros H Hx. breflect. match goal with Hf : forallb _ _ = true |- _ => apply (proj1 (forallb_forall _ _) Hf) in Hx || (apply list_elem_of_In in Hx; apply (proj1 (forallb_forall _ _) Hf) in Hx) end.
  breflect. by apply contains_spec.
Qed.

(** ** Tenants *)

Definition action_keys (t : TenantRule) : list ActionKey := from_option (fun e => items (ae_Keys e)) [] (tn_AuthorizedEffects t).
Definition action_publics (t : TenantRule) : list bytes := publics ak_PublicKey (action_keys t).
Definition task_publics (t : TenantRule) : list bytes := publics tk_PublicKey (items (tn_TaskKeys t)).

Record effects_ok (t : TenantRule) (e : AuthorizedEffectsPolicy) : Prop := {
  eo_mode : ae_Mode e ∈ [AuthorizedEffectsOptional; AuthorizedEffectsRequired];
  eo_keys : Forall (key_ok ak_KeyID ak_PublicKey ak_ConnectorIDs (tn_ConnectorIDs t)) (items (ae_Keys e));
  eo_ids : NoDup (ak_KeyID <$> items (ae_Keys e));
  eo_publics : NoDup (publics ak_PublicKey (items (ae_Keys e)));
  eo_bounds : 1 <= actionApprovalThreshold e <= zlen (items (ae_Keys e)) /\ zlen (items (ae_Keys e)) <= maxAuthorizedEffectKeys;
  eo_threshold connector : approvers_of connector (items (ae_Keys e)) <> [] -> actionApprovalThreshold e <= zlen (approvers_of connector (items (ae_Keys e)));
}.

Lemma validate_effects_inv t o o' : validate_effects t o = Ok o' ->
  from_option (effects_ok t) True (tn_AuthorizedEffects t) /\
  (forall public, public ∈ action_publics t -> o !! public = None \/ o !! public = Some (tn_TenantID t)) /\
  (forall public, o' !! public = if bool_decide (public ∈ action_publics t) then Some (tn_TenantID t) else o !! public).
Proof.
  unfold validate_effects, action_publics, action_keys. destruct (tn_AuthorizedEffects t) as [e|]; cbn [from_option]; intros H.
  2: { simplify_eq. split_and!; [done | by intros ? ?%not_elem_of_nil |]. intros public. case_bool_decide as Hn; [by apply not_elem_of_nil in Hn | done]. }
  steps H. simplify_eq. match goal with Hk : action_key_loop _ _ _ = Ok _ |- _ => apply key_loop_inv in Hk as (Hok & Hids & Hpub & _ & _ & Hown & Ho') end.
  split_and!; [|done..]. constructor; try done.
  - by apply is_in_spec.
  - intros connector Hne. match goal with Hf : forallb _ (map_to_list ?m) = true |- _ => rename Hf into Hall; set (approvers := m) in * end.
    assert (Hc : default 0 (approvers !! connector) = zlen (approvers_of connector (items (ae_Keys e)))).
    { unfold approvers. rewrite approvers_count; [by rewrite lookup_empty|]. eapply Forall_impl; [exact Hok|]. intros key (_ & _ & _ & Hs). by eapply scope_nodup. }
    destruct (approvers !! connector) as [n|] eqn:En; cbn [default from_option id] in Hc.
    + rewrite <- Hc. apply elem_of_map_to_list in En. apply list_elem_of_In in En. apply (proj1 (forallb_forall _ _) Hall) in En. by apply Z.leb_le in En.
    + destruct (approvers_of connector _); [done|]. rewrite zlen_cons in Hc. pose proof (zlen_nonneg l). lia.
Qed.

(** The rules of the command keys. *)
Definition command_key_ok (supported : list string) (key : CommandKey) : Prop :=
  is_Some (decodePublicKey (ck_PublicKey key)) /\ items (ck_Operations key) <> [] /\ forall operation, operation ∈ items (ck_Operations key) -> operation ∈ supported.

Lemma command_keys_inv supported collides keys : validate_command_keys supported collides keys = Ok tt ->
  NoDup (ck_KeyID <$> items keys) /\ forall key, key ∈ items keys -> collides (ck_KeyID key) = false /\ command_key_ok supported key.
Proof.
  unfold validate_command_keys. intros H. step H. apply each_new_ok in H as [Hnd H]. split; [done|]. intros key Hk. destruct (H key Hk) as (_ & _ & Hv). clear H.
  step Hv. breflect. split; [done|]. unfold validate_operations in Hv. do 2 step Hv. breflect. apply each_new_ok in Hv as [_ Hv]. split_and!; [done | |].
  - match goal with Hn : no_items _ = false |- _ => intros E'; unfold no_items in Hn; by rewrite E' in Hn end.
  - intros operation Ho. destruct (Hv operation Ho) as (_ & Hb & _). step Hb. breflect. by apply is_in_spec.
Qed.

Record tenant_ok (publishers : list PublisherRule) (siteKeys : list string) (t : TenantRule) : Prop := {
  to_lists : validate_tenant_lists publishers t = Ok tt;
  to_effects : from_option (effects_ok t) True (tn_AuthorizedEffects t);
  to_commands : NoDup (ck_KeyID <$> items (tn_CommandKeys t));
  to_command key : key ∈ items (tn_CommandKeys t) -> ck_KeyID key ∉ siteKeys /\ command_key_ok commandOperations key;
  to_tasks : Forall (key_ok tk_KeyID tk_PublicKey tk_ServiceIDs (tn_ServiceIDs t)) (items (tn_TaskKeys t));
  to_task_ids : NoDup (tk_KeyID <$> items (tn_TaskKeys t));
  to_task_publics : NoDup (task_publics t);
}.

(** No public key belongs to two tenants. *)
Definition owned_once (pubs : TenantRule -> list bytes) (tenants : list TenantRule) : Prop :=
  forall t1 t2 public, t1 ∈ tenants -> t2 ∈ tenants -> public ∈ pubs t1 -> public ∈ pubs t2 -> t1 = t2.
Definition free_for (pubs : TenantRule -> list bytes) (o : owners) (t : TenantRule) : Prop :=
  forall public, public ∈ pubs t -> o !! public = None \/ o !! public = Some (tn_TenantID t).

Lemma owned_cons (pubs : TenantRule -> list bytes) (o o' : owners) t tenants :
  (forall public, o' !! public = if bool_decide (public ∈ pubs t) then Some (tn_TenantID t) else o !! public) ->
  tn_TenantID t ∉ tn_TenantID <$> tenants -> owned_once pubs tenants -> (forall t2, t2 ∈ tenants -> free_for pubs o' t2) ->
  owned_once pubs (t :: tenants) /\ forall t2, t2 ∈ tenants -> free_for pubs o t2.
Proof.
  intros Ho' Hni Honce Hfree.
  assert (Hdisj : forall t2 public, t2 ∈ tenants -> public ∈ pubs t -> public ∈ pubs t2 -> False).
  { intros t2 public Ht2 Hp Hp2. specialize (Hfree t2 Ht2 public Hp2). rewrite Ho', bool_decide_true in Hfree by done. destruct Hfree as [|[= E]]; [done|].
    apply Hni. rewrite E. by apply list_elem_of_fmap_2. }
  split.
  - intros t1 t2 public [-> | H1]%elem_of_cons [-> | H2]%elem_of_cons Hp1 Hp2; [done | by destruct (Hdisj t2 public) | by destruct (Hdisj t1 public) | by eapply Honce].
  - intros t2 Ht2 public Hp2. specialize (Hfree t2 Ht2 public Hp2). rewrite Ho' in Hfree. case_bool_decide as Hp; [by destruct (Hdisj t2 public) | done].
Qed.

Lemma tenant_loop_inv publishers siteKeys seen o tenants : tenant_loop publishers siteKeys seen o tenants = Ok tt ->
  NoDup (tn_TenantID <$> tenants) /\ (forall t, t ∈ tenants -> tn_TenantID t ∉ seen /\ tenant_ok publishers siteKeys t) /\
  owned_once action_publics tenants /\ owned_once task_publics tenants /\
  (forall t, t ∈ tenants -> free_for action_publics o.1 t /\ free_for task_publics o.2 t).
Proof.
  revert seen o. induction tenants as [|t tenants IH]; intros seen o H; cbn [tenant_loop] in H.
  { split_and!; [constructor | by intros ? ?%not_elem_of_nil | by intros ? ? ? ?%not_elem_of_nil.. | by intros ? ?%not_elem_of_nil]. }
  do 2 step H. destruct (validate_tenant publishers siteKeys o t) as [[o1 o2]|] eqn:Ev; [|done]. breflect. apply IH in H as (Hnd & Hall & Hon1 & Hon2 & Hfree). clear IH.
  match goal with Hs : is_in _ seen = false |- _ => apply is_in_false in Hs end.
  match goal with Hv : validate_tenant _ _ _ _ = Ok _ |- _ => unfold validate_tenant in Hv; steps Hv; simplify_eq end.
  match goal with He : validate_effects _ _ = Ok _ |- _ => apply validate_effects_inv in He as (Heff & Hf1 & Ho1) end.
  match goal with Hc : validate_command_keys _ _ _ = Ok _ |- _ => apply command_keys_inv in Hc as (Hcn & Hck) end.
  match goal with Hk : task_key_loop _ _ _ = Ok _ |- _ => apply key_loop_inv in Hk as (Htk & Hti & Htp & _ & _ & Hf2 & Ho2) end.
  assert (Hni : tn_TenantID t ∉ tn_TenantID <$> tenants).
  { intros (t2 & E' & Ht2)%list_elem_of_fmap. destruct (Hall t2 Ht2) as [Hns _]. apply Hns. rewrite <- E'. left. }
  destruct (owned_cons action_publics o.1 o1 t tenants Ho1 Hni Hon1) as [Hown1 Hfr1]; [by intros t2 Ht2; destruct (Hfree t2 Ht2)|].
  destruct (owned_cons task_publics o.2 o2 t tenants Ho2 Hni Hon2) as [Hown2 Hfr2]; [by intros t2 Ht2; destruct (Hfree t2 Ht2)|].
  split_and!; try done.
  - rewrite fmap_cons. by constructor.
  - intros t2 [-> | Ht2]%elem_of_cons.
    + split; [done|]. constructor; try done. intros key Hk. destruct (Hck key Hk) as [Hc ?]. split; [by apply is_in_false | done].
    + destruct (Hall t2 Ht2) as [Hns ?]. rewrite not_elem_of_cons in Hns. tauto.
  - intros t2 [-> | Ht2]%elem_of_cons; [done|]. split; auto.
Qed.

(** What a valid policy guarantees. *)
Record policy_ok (p : SitePolicy) : Prop := {
  po_publishers : NoDup (pb_KeyID <$> items (sp_Publishers p));
  po_publisher r : r ∈ items (sp_Publishers p) -> validate_publisher r = Ok tt;
  po_cleanup : NoDup (ck_KeyID <$> items (sp_SiteCleanupCommandKeys p));
  po_cleanup_key key : key ∈ items (sp_SiteCleanupCommandKeys p) -> command_key_ok cleanupCommandOperations key;
  po_tenants : NoDup (tn_TenantID <$> items (sp_Tenants p));
  po_tenant t : t ∈ items (sp_Tenants p) -> tenant_ok (items (sp_Publishers p)) (ck_KeyID <$> items (sp_SiteCleanupCommandKeys p)) t;
  po_action_owner : owned_once action_publics (items (sp_Tenants p));
  po_task_owner : owned_once task_publics (items (sp_Tenants p));
}.

Lemma policy_inv p : SitePolicy_Validate p = Ok tt -> policy_ok p.
Proof.
  unfold SitePolicy_Validate. intros H. do 4 step H. repeat match goal with u : unit |- _ => destruct u end.
  match goal with Hp : validate_publishers _ = Ok _ |- _ => apply each_new_ok in Hp as [Hpn Hpub] end.
  match goal with Hc : validate_command_keys _ _ _ = Ok _ |- _ => apply command_keys_inv in Hc as [Hcn Hclean] end.
  apply tenant_loop_inv in H as (Htn & Ht & Ha & Hk & _). constructor; try done.
  - intros r Hr. by destruct (Hpub r Hr) as (_ & _ & ?).
  - intros key Hkey. by destruct (Hclean key Hkey).
  - intros t Hin. by destruct (Ht t Hin).
Qed.

Lemma tenant_spec p id t : policy_ok p -> tenant p id = Some t <-> t ∈ items (sp_Tenants p) /\ tn_TenantID t = id.
Proof. intros Hp. apply find_unique. apply Hp. Qed.
Lemma publisher_spec p id r : policy_ok p -> publisher p id = Some r <-> r ∈ items (sp_Publishers p) /\ pb_KeyID r = id.
Proof. intros Hp. apply find_unique. apply Hp. Qed.

(** ** Which keys are trusted for a command *)

Definition decodes (entries : list (string * string)) : Prop := forall id encoded, (id, encoded) ∈ entries -> is_Some (decodePublicKey encoded).
Definition entry_key (entries : list (string * string)) (id : string) (k : bytes) : Prop := exists encoded, (id, encoded) ∈ entries /\ decodePublicKey encoded = Some k.

Lemma entry_key_cons id' encoded key entries id k : decodePublicKey encoded = Some key ->
  entry_key ((id', encoded) :: entries) id k <-> (id = id' /\ k = key) \/ entry_key entries id k.
Proof.
  intros Hd. unfold entry_key. setoid_rewrite elem_of_cons. split.
  - intros (e & [[= -> ->] | Hin] & He); [left; split; congruence | right; eauto].
  - intros [[-> ->] | (e & Hin & He)]; eauto.
Qed.

Lemma collect_keys_ok entries (keys : gmap string bytes) : NoDup (fst <$> entries) -> decodes entries ->
  exists keys', collect_keys entries keys = Ok keys' /\
    forall id k, keys' !! id = Some k <-> entry_key entries id k \/ (id ∉ fst <$> entries /\ keys !! id = Some k).
Proof.
  revert keys. induction entries as [|[id' encoded] entries IH]; intros keys Hnd Hd; cbn [collect_keys].
  { exists keys. split; [done|]. intros id k. unfold entry_key. split; [intros H; right; split; [apply not_elem_of_nil | done] | intros [(e & []%not_elem_of_nil & _) | [_ ?]]; done]. }
  rewrite fmap_cons, NoDup_cons in Hnd. cbn [fst] in Hnd. destruct Hnd as [Hni Hnd]. destruct (Hd id' encoded) as [key Hk]; [left|]. rewrite Hk. cbn [opt_ok].
  destruct (IH (<[id' := key]> keys) Hnd) as (keys' & -> & Hkeys); [intros i e He; apply (Hd i); by right|]. exists keys'. split; [done|]. intros id k.
  rewrite Hkeys, (entry_key_cons _ _ key) by done. rewrite fmap_cons, not_elem_of_cons. cbn [fst]. destruct (decide (id = id')) as [-> | Hne].
  - rewrite lookup_insert_eq. assert (~ entry_key entries id' k) by (intros (e & He & _); apply Hni; by apply (list_elem_of_fmap_2' fst _ (id', e))). naive_solver.
  - rewrite lookup_insert_ne by done. naive_solver.
Qed.

Lemma collect_cleanup_ok entries (keys : gmap string bytes) : NoDup (fst <$> entries) -> decodes entries -> (forall id, id ∈ fst <$> entries -> keys !! id = None) ->
  collect_cleanup entries keys = collect_keys entries keys.
Proof.
  revert keys. induction entries as [|[id encoded] entries IH]; intros keys Hnd Hd Hnone; [done|]. cbn [collect_cleanup collect_keys].
  rewrite fmap_cons, NoDup_cons in Hnd. destruct Hnd as [Hni Hnd]. rewrite bool_decide_true by (apply Hnone; rewrite fmap_cons; left).
  destruct (Hd id encoded) as [key Hk]; [left|]. rewrite Hk. cbn [opt_ok]. apply IH; [done | intros i e He; apply (Hd i); by right |].
  intros i Hi. rewrite lookup_insert_ne; [apply Hnone; rewrite fmap_cons; by right | by intros <-].
Qed.

(** A command key, of the tenant or of the site for cleanup operations, whose scope has the operation. *)
Definition trusted_for (p : SitePolicy) (tenantID operation id : string) (k : bytes) : Prop :=
  exists key, ck_KeyID key = id /\ operation ∈ items (ck_Operations key) /\ decodePublicKey (ck_PublicKey key) = Some k /\
    ((exists t, t ∈ items (sp_Tenants p) /\ tn_TenantID t = tenantID /\ key ∈ items (tn_CommandKeys t)) \/
     (operation ∈ cleanupCommandOperations /\ key ∈ items (sp_SiteCleanupCommandKeys p))).

Lemma entry_command operation keys id k : entry_key (command_entries operation keys) id k <->
  exists key, key ∈ items keys /\ ck_KeyID key = id /\ operation ∈ items (ck_Operations key) /\ decodePublicKey (ck_PublicKey key) = Some k.
Proof.
  unfold entry_key, command_entries. split.
  - intros (e & (key & [= -> ->] & Hin)%list_elem_of_fmap & He). apply list_elem_of_In, List.filter_In in Hin as [Hin Hc].
    exists key. split_and!; try done; [by apply list_elem_of_In | by apply contains_spec].
  - intros (key & Hin & <- & Hop & He). exists (ck_PublicKey key). split; [|done]. apply list_elem_of_fmap. exists key. split; [done|].
    apply list_elem_of_In, List.filter_In. split; [by apply list_elem_of_In | by apply contains_spec].
Qed.

Lemma command_entries_ids operation keys id : id ∈ fst <$> command_entries operation keys -> id ∈ ck_KeyID <$> items keys.
Proof.
  unfold command_entries. rewrite <- list_fmap_compose. intros (key & -> & Hin)%list_elem_of_fmap. apply list_elem_of_In, List.filter_In in Hin as [Hin _].
  apply (list_elem_of_fmap_2 ck_KeyID). by apply list_elem_of_In.
Qed.

Lemma command_entries_ok supported operation keys :
  NoDup (ck_KeyID <$> items keys) -> (forall key, key ∈ items keys -> command_key_ok supported key) ->
  NoDup (fst <$> command_entries operation keys) /\ decodes (command_entries operation keys).
Proof.
  intros Hnd Hok. split.
  - unfold command_entries. rewrite <- list_fmap_compose. change (NoDup (ck_KeyID <$> List.filter (fun k => contains (ck_Operations k) operation) (items keys))). clear Hok.
    induction (items keys) as [|key l IH]; [constructor|]. rewrite fmap_cons, NoDup_cons in Hnd. destruct Hnd as [Hni Hnd]. cbn [List.filter].
    destruct (contains _ _); [|auto]. rewrite fmap_cons. constructor; [|auto]. intros (k & E & Hin)%list_elem_of_fmap. apply Hni. rewrite E. apply list_elem_of_fmap_2.
    apply list_elem_of_In, List.filter_In in Hin as [Hin _]. by apply list_elem_of_In.
  - intros id encoded (key & [= -> ->] & Hin)%list_elem_of_fmap. apply list_elem_of_In, List.filter_In in Hin as [Hin _].
    destruct (Hok key) as [? _]; [by apply list_elem_of_In | done].
Qed.

(** The tenant's keys, as [TrustedCommandKeys] and the delegations collect them. *)
Lemma tenant_command_keys p tenantID operation : policy_ok p ->
  exists keys, match tenant p tenantID with Some rule => collect_keys (command_entries operation (tn_CommandKeys rule)) ∅ | None => Ok ∅ end = Ok keys /\
    forall id k, keys !! id = Some k <-> exists t, t ∈ items (sp_Tenants p) /\ tn_TenantID t = tenantID /\ entry_key (command_entries operation (tn_CommandKeys t)) id k.
Proof.
  intros Hp. destruct (tenant p tenantID) as [t|] eqn:Et.
  - apply tenant_spec in Et as [Hin Hid]; [|done]. destruct (po_tenant _ Hp t Hin) as [_ _ Hnd Hck _ _ _].
    destruct (command_entries_ok commandOperations operation (tn_CommandKeys t) Hnd) as [Hn Hd]; [intros key Hk; by destruct (Hck key Hk)|].
    destruct (collect_keys_ok _ ∅ Hn Hd) as (keys & -> & Hkeys). exists keys. split; [done|]. intros id k. rewrite Hkeys, lookup_empty. split; [naive_solver|].
    intros (t2 & Hin2 & Hid2 & He). left. assert (Et2 : tenant p tenantID = Some t2) by by apply tenant_spec. assert (Et : tenant p tenantID = Some t) by by apply tenant_spec. congruence.
  - exists ∅. split; [done|]. intros id k. rewrite lookup_empty. split; [done|]. intros (t & Hin & Hid & _). by apply (find_unique_none _ _ _ Et) in Hin.
Qed.

(** For a valid policy, the keys returned for a tenant and an operation are exactly the tenant's command keys scoped to the operation and, for
    stop, destroy, purge and delete-snapshot only, the site's cleanup keys; an error is returned exactly when there is none. No key collides or fails to decode. *)
Theorem trusted_command_keys_exact p tenantID operation : SitePolicy_Validate p = Ok tt ->
  match TrustedCommandKeys p tenantID operation with
  | Ok keys => keys <> ∅ /\ forall id k, keys !! id = Some k <-> trusted_for p tenantID operation id k
  | Err _ => forall id k, ~ trusted_for p tenantID operation id k
  end.
Proof.
  intros Hp%policy_inv. destruct (tenant_command_keys p tenantID operation Hp) as (tkeys & Et & Htk).
  destruct (command_entries_ok cleanupCommandOperations operation (sp_SiteCleanupCommandKeys p) (po_cleanup _ Hp) (po_cleanup_key _ Hp)) as [Hn Hd].
  assert (Hdisj : forall id, id ∈ fst <$> command_entries operation (sp_SiteCleanupCommandKeys p) -> tkeys !! id = None).
  { intros id Hid%command_entries_ids. destruct (tkeys !! id) as [k|] eqn:Ek; [|done]. apply Htk in Ek as (t & Hin & _ & He). apply entry_command in He as (key & Hkey & <- & _).
    destruct (to_command _ _ _ (po_tenant _ Hp t Hin) key Hkey) as [Hns _]. done. }
  destruct (collect_keys_ok _ tkeys Hn Hd) as (keys & Ek & Hkeys).
  assert (Htf : forall id k, trusted_for p tenantID operation id k <->
    tkeys !! id = Some k \/ (operation ∈ cleanupCommandOperations /\ entry_key (command_entries operation (sp_SiteCleanupCommandKeys p)) id k)).
  { intros id k. rewrite Htk, entry_command. unfold trusted_for. setoid_rewrite entry_command. naive_solver. }
  unfold TrustedCommandKeys. destruct (is_in operation commandOperations) eqn:Eop.
  2: { apply is_in_false in Eop. intros id k (key & _ & Hop & _ & [(t & Hin & _ & Hk) | [_ Hk]]); apply Eop.
       - by apply (to_command _ _ _ (po_tenant _ Hp t Hin) key Hk).
       - apply (po_cleanup_key _ Hp key Hk) in Hop. cbn in Hop. set_solver. }
  destruct (is_in operation cleanupCommandOperations) eqn:Ecl.
  - apply is_in_spec in Ecl. rewrite orb_true_r, Et, collect_cleanup_ok, Ek by done. case_bool_decide as Hne; cbn [negb].
    + subst keys. intros id k. rewrite Htf. intros Ht. assert (E0 : (∅ : gmap string bytes) !! id = Some k); [|by rewrite lookup_empty in E0]. apply Hkeys.
      destruct Ht as [Ht | [_ Ht]]; [right | by left]. split; [|done]. intros Hid%Hdisj. congruence.
    + split; [done|]. intros id k. rewrite Htf, Hkeys. split; [intros [? | [_ ?]]; auto|]. intros [Ht | [_ ?]]; [|auto]. right. split; [|done]. intros Hid%Hdisj. congruence.
  - apply is_in_false in Ecl. rewrite orb_false_r. destruct (tenant p tenantID) as [t|] eqn:Ett.
    + rewrite bool_decide_true by by eexists. rewrite Et. case_bool_decide as Hne; cbn [negb].
      * subst tkeys. intros id k. rewrite Htf, lookup_empty. by intros [? | [? _]].
      * split; [done|]. intros id k. rewrite Htf. tauto.
    + rewrite bool_decide_false by (intros [? ?]; done). simplify_eq. intros id k. rewrite Htf, lookup_empty. by intros [? | [? _]].
Qed.

(** ** Authorized effects *)

Lemma narrow_spec selected key narrowed : narrow_key selected key = Some narrowed <->
  narrowed = mkActionKey (ak_KeyID key) (ak_PublicKey key) (Some (List.filter (fun c => is_in c selected) (items (ak_ConnectorIDs key)))) /\
  exists c, c ∈ items (ak_ConnectorIDs key) /\ c ∈ selected.
Proof.
  unfold narrow_key. assert (Hin : forall c, c ∈ List.filter (fun c => is_in c selected) (items (ak_ConnectorIDs key)) <-> c ∈ items (ak_ConnectorIDs key) /\ c ∈ selected).
  { intros c. by rewrite list_elem_of_In, List.filter_In, <- list_elem_of_In, is_in_spec. }
  destruct (List.filter _ _) as [|c l] eqn:Ef.
  - split; [done|]. intros (_ & c & Hc & Hs). assert (c ∈ @nil string) by (apply Hin; done). by apply not_elem_of_nil in H.
  - split; [intros [= <-]; split; [done|]; exists c; apply Hin; left | by intros [-> _]].
Qed.

(** The authority of a tenant's action keys over the selected connectors. *)
Definition selection_ok (authorized : option (list string)) (selected : list string) : Prop :=
  zlen selected <= 32 /\ NoDup selected /\ forall c, c ∈ selected -> routeID c = true /\ c ∈ items authorized.

Lemma validate_unique_ok ok values bad duplicate : validate_unique ok values bad duplicate = Ok tt <-> NoDup (items values) /\ forall x, x ∈ items values -> ok x = true.
Proof.
  unfold validate_unique. rewrite each_new_ok, list_fmap_id. split; intros [Hnd H]; (split; [done|]); intros x Hx; specialize (H x Hx).
  - destruct H as (_ & Hb & _). by destruct (ok x).
  - rewrite H. split_and!; try done. apply not_elem_of_nil.
Qed.

Lemma authorizedActionKeys_spec rule effects selected keys : tn_AuthorizedEffects rule = Some effects ->
  authorizedActionKeys rule selected = Ok keys <->
  selection_ok (tn_ConnectorIDs rule) (items selected) /\
  (forall c, c ∈ items selected -> exists key, key ∈ items (ae_Keys effects) /\ c ∈ items (ak_ConnectorIDs key)) /\
  keys = merge_sort action_key_le (omap (narrow_key (items selected)) (items (ae_Keys effects))).
Proof.
  intros He. unfold authorizedActionKeys. rewrite He. set (sel := items selected). set (narrowed := omap (narrow_key sel) (items (ae_Keys effects))).
  assert (Hcov : forall c, c ∈ concat ((fun key => items (ak_ConnectorIDs key)) <$> narrowed) <->
    c ∈ sel /\ exists key, key ∈ items (ae_Keys effects) /\ c ∈ items (ak_ConnectorIDs key)).
  { intros c. rewrite list_elem_of_In, in_concat. split.
    - intros (l & Hl & Hc). apply list_elem_of_In, list_elem_of_fmap in Hl as (nk & -> & Hnk). unfold narrowed in Hnk. apply list_elem_of_omap in Hnk as (key & Hk & Hn).
      apply narrow_spec in Hn as [-> _]. apply List.filter_In in Hc as [Hc Hs]. apply is_in_spec in Hs. split; [done|]. exists key. split; [done | by apply list_elem_of_In].
    - intros (Hs & key & Hk & Hc). exists (List.filter (fun c => is_in c sel) (items (ak_ConnectorIDs key))). split.
      + apply list_elem_of_In, list_elem_of_fmap.
        exists (mkActionKey (ak_KeyID key) (ak_PublicKey key) (Some (List.filter (fun c => is_in c sel) (items (ak_ConnectorIDs key))))).
        split; [done|]. apply list_elem_of_omap. exists key. split; [done|]. apply narrow_spec. eauto.
      + apply List.filter_In. split; [by apply list_elem_of_In | by apply is_in_spec]. }
  assert (Hsub : (list_to_set (concat ((fun key => items (ak_ConnectorIDs key)) <$> narrowed)) : gset string) ⊆ list_to_set sel).
  { intros c. rewrite !elem_of_list_to_set, Hcov. tauto. }
  assert (Heach : forall dup before, each_new id before dup (fun _ => Ok tt) [] sel = Ok tt <-> NoDup sel /\ forall c, c ∈ sel -> before c = Ok tt).
  { intros dup before. rewrite each_new_ok, list_fmap_id. split; intros [? H]; (split; [done|]); intros c Hc; [by destruct (H c Hc) as (_ & ? & _) | split_and!; auto; apply not_elem_of_nil]. }
  unfold selection_ok. split.
  - intros H. do 3 step H. repeat match goal with u : unit |- _ => destruct u end. breflect. simplify_eq.
    match goal with Hn : each_new _ _ _ _ _ _ = Ok _ |- _ => apply Heach in Hn as [Hnd Hel] end.
    assert (Hall : forall c, c ∈ sel -> routeID c = true /\ c ∈ items (tn_ConnectorIDs rule)).
    { intros c Hc. specialize (Hel c Hc). step Hel. breflect. split; [done | by apply contains_spec]. }
    split_and!; try done. intros c Hc. apply Hcov. rewrite <- (elem_of_list_to_set (C := gset string)).
    rewrite (set_subseteq_size_eq _ _ Hsub); [by apply elem_of_list_to_set|]. rewrite (size_list_to_set sel) by done. unfold zlen in *. lia.
  - intros ((Hlen & Hnd & Hall) & Hc & ->). rewrite (proj2 (Z.leb_le _ _)) by done.
    rewrite (proj2 (Heach _ _)). 2: { split; [done|]. intros c Hin. destruct (Hall c Hin) as [Hr Ha]. apply contains_spec in Ha. by rewrite Hr, Ha. }
    assert (Hle : (list_to_set sel : gset string) ⊆ list_to_set (concat ((fun key => items (ak_ConnectorIDs key)) <$> narrowed))).
    { intros c. rewrite !elem_of_list_to_set, Hcov. auto. }
    apply subseteq_size in Hsub, Hle. rewrite (size_list_to_set sel) in Hsub, Hle by done. rewrite (proj2 (Z.eqb_eq _ _)); [done|]. unfold zlen. lia.
Qed.

(** ** What is admitted *)

Definition below (request ceiling : ResourceLimits) : Prop :=
  rl_MemoryBytes request <= rl_MemoryBytes ceiling /\ rl_CPUMillis request <= rl_CPUMillis ceiling /\ rl_PIDs request <= rl_PIDs ceiling.

Record capabilities_below (c maximum : Capabilities) : Prop := {
  cb_state : ca_State c = true -> ca_State maximum = true; cb_inference : ca_Inference c = true -> ca_Inference maximum = true;
  cb_service : ca_Service c = true -> ca_Service maximum = true; cb_egress : ca_Egress c = true -> ca_Egress maximum = true;
  cb_connector : ca_Connector c = true -> ca_Connector maximum = true;
  cb_events : ca_ControllerEvents c = true -> ca_ControllerEvents maximum = true;
}.

(** The identifiers of a capability: some authorized ones with it, none without. *)
Definition selected_ids (granted : bool) (authorized selected : option (list string)) : Prop :=
  if granted then items selected <> [] /\ selection_ok authorized (items selected) else items selected = [].

(** With a policy on effects the mode is explicit, the authorized one when required; in it every effect goes through connectors that have a key. *)
Definition effects_admitted (rule : TenantRule) (intent : InstanceIntent) : Prop :=
  match tn_AuthorizedEffects rule with
  | None => it_EffectMode intent = ""%string
  | Some effects =>
      (it_EffectMode intent = EffectModeAuthorized \/ (it_EffectMode intent = EffectModeStandard /\ ae_Mode effects = AuthorizedEffectsOptional)) /\
      (it_EffectMode intent = EffectModeAuthorized ->
         ca_Connector (it_Capabilities intent) = true /\ ca_Egress (it_Capabilities intent) = false /\
         forall c, c ∈ items (it_ConnectorIDs intent) -> exists key, key ∈ items (ae_Keys effects) /\ c ∈ items (ak_ConnectorIDs key))
  end.

Record admitted (capsule : ProfileCapsule) (capsuleDigest : string) (policy : SitePolicy) (publisherKeyID : string) (intent : InstanceIntent)
    (caller : AuthenticatedIdentity) (fences : PersistedFences) (profiles : Registry) (pub : PublisherRule) (rule : TenantRule) (profile : Profile) : Prop := {
  am_capsule : ProfileCapsule_Validate capsule 0 = Ok tt;
  am_policy : SitePolicy_Validate policy = Ok tt;
  am_intent : InstanceIntent_Validate intent caller = Ok tt;
  am_digest : it_CapsuleDigest intent = capsuleDigest;
  am_epoch : fe_PolicyEpoch fences <= sp_PolicyEpoch policy;
  am_generation : fe_Generation fences <= it_Generation intent;
  am_publisher : pub ∈ items (sp_Publishers policy) /\ pb_KeyID pub = publisherKeyID /\ pb_Revoked pub = false;
  am_tenant : rule ∈ items (sp_Tenants policy) /\ tn_TenantID rule = it_TenantID intent /\ publisherKeyID ∈ items (tn_PublisherKeyIDs rule);
  am_image : pc_Profile capsule ∈ items (pb_AllowedProfiles pub) /\ ii_Repository (pc_Image capsule) ∈ items (pb_AllowedRepositories pub) /\
    (items (pb_AllowedManifestDigests pub) = [] \/ ii_ManifestDigest (pc_Image capsule) ∈ items (pb_AllowedManifestDigests pub));
  am_artifacts a : a ∈ items (pc_Artifacts capsule) -> a ∈ items (pb_AllowedArtifacts pub) /\ a ∈ items (tn_AllowedArtifacts rule);
  am_profile : profiles (pc_Profile capsule) = Some profile /\ ss_Path (pc_State capsule) = px_StatePath profile /\
    ss_SchemaVersion (pc_State capsule) = px_StateSchemaVersion profile;
  am_capabilities : capabilities_below (it_Capabilities intent) (pc_Capabilities capsule);
  am_resources : below (it_Resources intent) (pc_Resources capsule) /\ below (it_Resources intent) (pb_ResourceCeiling pub) /\
    below (it_Resources intent) (tn_ResourceCeiling rule);
  am_state : if ca_State (it_Capabilities intent) then it_StateDisposition intent ∈ ["new"; "resume"]%string else it_StateDisposition intent = "none"%string;
  am_inference : if ca_Inference (it_Capabilities intent)
    then bounded (it_InferenceRouteID intent) 128 = true /\ bounded (it_ModelAlias intent) 256 = true /\
         it_InferenceRouteID intent ∈ items (tn_InferenceRouteIDs rule) /\ it_ModelAlias intent ∈ items (tn_InferenceModelAliases rule)
    else it_InferenceRouteID intent = ""%string /\ it_ModelAlias intent = ""%string;
  am_service : if ca_Service (it_Capabilities intent)
    then it_ServiceID intent <> ""%string /\ it_ServiceID intent = sv_ID (pc_Service capsule) /\ it_ServiceID intent ∈ items (tn_ServiceIDs rule)
    else it_ServiceID intent = ""%string;
  am_egress : selected_ids (ca_Egress (it_Capabilities intent)) (tn_EgressRouteIDs rule) (it_EgressRouteIDs intent);
  am_connectors : selected_ids (ca_Connector (it_Capabilities intent)) (tn_ConnectorIDs rule) (it_ConnectorIDs intent);
  am_effects : effects_admitted rule intent;
}.

Lemma no_items_spec {A} (s : option (list A)) : no_items s = true <-> items s = [].
Proof. unfold no_items, zlen. rewrite Z.eqb_eq. destruct (items s); cbn [length]; split; try done; lia. Qed.

Lemma ceiling_spec request ceiling : within request ceiling = true <-> below request ceiling.
Proof. unfold within, below. rewrite !andb_true_iff, !Z.leb_le. tauto. Qed.

Lemma negb_orb (a b : bool) : negb a || b = true <-> (a = true -> b = true).
Proof. destruct a, b; cbn; intuition. Qed.

Lemma SubsetOf_spec c maximum : SubsetOf c maximum = true <-> capabilities_below c maximum.
Proof.
  unfold SubsetOf. rewrite !andb_true_iff, !negb_orb. split; [intros (((((? & ?) & ?) & ?) & ?) & ?); by constructor | by intros []].
Qed.

Lemma artifacts_spec artifacts rules : artifactsAllowed artifacts rules = true <-> forall a, a ∈ items artifacts -> a ∈ items rules.
Proof.
  unfold artifactsAllowed. rewrite forallb_forall. setoid_rewrite bool_decide_eq_true. split; intros H a Ha; apply H; by apply list_elem_of_In.
Qed.

Lemma validate_selection_spec granted selected authorized : validate_selection granted selected authorized = Ok tt <-> selected_ids granted authorized selected.
Proof.
  unfold validate_selection, selected_ids, selection_ok. destruct granted.
  - destruct (no_items selected) eqn:En; cbn [negb andb].
    { apply no_items_spec in En. split; [done | by intros [? _]]. }
    assert (items selected <> []) by (intros E; apply no_items_spec in E; congruence).
    destruct (Z.leb_spec (zlen (items selected)) 32) as [Hl | Hl]; cbn [andb]; [|split; [done | intros (_ & ? & _); lia]].
    rewrite validate_unique_ok. setoid_rewrite andb_true_iff. setoid_rewrite contains_spec. naive_solver.
  - rewrite <- no_items_spec. by destruct (no_items selected).
Qed.

(** A test at the end of a chain. *)
Lemma require_ok (b : bool) e : (require b else e in Ok tt) = Ok tt <-> b = true.
Proof. by destruct b. Qed.

Lemma bind_unit (r k : result unit) : (let* _ := r in k) = Ok tt <-> r = Ok tt /\ k = Ok tt.
Proof. destruct r as [[]|]; split; naive_solver. Qed.

Lemma is_ok_unit {A} (r : result A) : (let* _ := r in Ok tt) = Ok tt <-> exists x, r = Ok x.
Proof. destruct r; split; naive_solver. Qed.

Lemma effect_mode_spec rule intent : selected_ids (ca_Connector (it_Capabilities intent)) (tn_ConnectorIDs rule) (it_ConnectorIDs intent) ->
  selected_ids (ca_Egress (it_Capabilities intent)) (tn_EgressRouteIDs rule) (it_EgressRouteIDs intent) ->
  (forall e, tn_AuthorizedEffects rule = Some e -> ae_Mode e ∈ [AuthorizedEffectsOptional; AuthorizedEffectsRequired]) ->
  validateEffectMode intent rule = Ok tt <-> effects_admitted rule intent.
Proof.
  intros Hsel Heg Hmode. unfold validateEffectMode, effects_admitted. destruct (tn_AuthorizedEffects rule) as [effects|] eqn:Ee.
  2: { by rewrite require_ok, String.eqb_eq. }
  rewrite bind_unit. specialize (Hmode effects eq_refl).
  assert (Hm : (if String.eqb (ae_Mode effects) AuthorizedEffectsOptional then require is_in (it_EffectMode intent) [EffectModeStandard; EffectModeAuthorized]
            else "optional authorized effects policy requires explicit standard or authorized effect mode" in Ok tt
        else if String.eqb (ae_Mode effects) AuthorizedEffectsRequired then
          require String.eqb (it_EffectMode intent) EffectModeAuthorized else "required authorized effects policy forbids effect mode downgrade" in Ok tt
        else Err "invalid authorized effects policy mode") = Ok tt <->
    (it_EffectMode intent = EffectModeAuthorized \/ (it_EffectMode intent = EffectModeStandard /\ ae_Mode effects = AuthorizedEffectsOptional))).
  { destruct (String.eqb_spec (ae_Mode effects) AuthorizedEffectsOptional) as [E|E].
    - rewrite require_ok, is_in_spec, !elem_of_cons, elem_of_nil. naive_solver.
    - rewrite !elem_of_cons, elem_of_nil in Hmode. destruct Hmode as [?|[Er|[]]]; [done|]. rewrite Er, String.eqb_refl, require_ok, String.eqb_eq. split; [by left | by intros [?|[_ ?]]]. }
  rewrite Hm. destruct (String.eqb_spec (it_EffectMode intent) EffectModeAuthorized) as [Ea|Ea]; cbn [negb]; [|split; [intros [? _]; done | intros [? _]; done]].
  enough (Hk : (require ca_Connector (it_Capabilities intent) && negb (no_items (it_ConnectorIDs intent))
        else "authorized effect mode requires connector capability and at least one selected connector" in
      require negb (ca_Egress (it_Capabilities intent)) && no_items (it_EgressRouteIDs intent) else "authorized effect mode forbids generic egress" in
      let* _ := authorizedActionKeys rule (it_ConnectorIDs intent) in Ok tt) = Ok tt <->
    (ca_Connector (it_Capabilities intent) = true /\ ca_Egress (it_Capabilities intent) = false /\
     forall c, c ∈ items (it_ConnectorIDs intent) -> exists key, key ∈ items (ae_Keys effects) /\ c ∈ items (ak_ConnectorIDs key))) by (rewrite Hk; tauto).
  unfold selected_ids in *. destruct (ca_Connector (it_Capabilities intent)); cbn [andb]; [|split; [done | by intros [? _]]].
  destruct Hsel as [Hne Hs]. destruct (no_items (it_ConnectorIDs intent)) eqn:En; [by apply no_items_spec in En|]. cbn [negb].
  destruct (ca_Egress (it_Capabilities intent)); cbn [negb andb]; [split; [done | by intros (_ & ? & _)]|]. apply no_items_spec in Heg. rewrite Heg, is_ok_unit.
  split; [intros (keys & Hkeys); apply (authorizedActionKeys_spec _ _ _ _ Ee) in Hkeys; naive_solver|].
  intros (_ & _ & Hc). eexists. apply (authorizedActionKeys_spec _ _ _ _ Ee). split_and!; [done | done | reflexivity].
Qed.

Lemma requested_spec intent capsule rule : (forall e, tn_AuthorizedEffects rule = Some e -> ae_Mode e ∈ [AuthorizedEffectsOptional; AuthorizedEffectsRequired]) ->
  validateRequestedCapabilities intent capsule rule = Ok tt <->
  (if ca_State (it_Capabilities intent) then it_StateDisposition intent ∈ ["new"; "resume"]%string else it_StateDisposition intent = "none"%string) /\
  (if ca_Inference (it_Capabilities intent)
   then bounded (it_InferenceRouteID intent) 128 = true /\ bounded (it_ModelAlias intent) 256 = true /\
        it_InferenceRouteID intent ∈ items (tn_InferenceRouteIDs rule) /\ it_ModelAlias intent ∈ items (tn_InferenceModelAliases rule)
   else it_InferenceRouteID intent = ""%string /\ it_ModelAlias intent = ""%string) /\
  (if ca_Service (it_Capabilities intent)
   then it_ServiceID intent <> ""%string /\ it_ServiceID intent = sv_ID (pc_Service capsule) /\ it_ServiceID intent ∈ items (tn_ServiceIDs rule)
   else it_ServiceID intent = ""%string) /\
  selected_ids (ca_Egress (it_Capabilities intent)) (tn_EgressRouteIDs rule) (it_EgressRouteIDs intent) /\
  selected_ids (ca_Connector (it_Capabilities intent)) (tn_ConnectorIDs rule) (it_ConnectorIDs intent) /\ effects_admitted rule intent.
Proof.
  intros Hmode. unfold validateRequestedCapabilities. rewrite !bind_unit, !validate_selection_spec. split.
  - intros (H1 & H2 & H3 & H4 & H5 & H6). apply effect_mode_spec in H6; try done. split_and!; try done.
    + destruct (ca_State _); apply require_ok in H1; [by apply is_in_spec | by apply String.eqb_eq].
    + destruct (ca_Inference _); apply require_ok in H2; breflect; [by split_and!; try done; apply contains_spec | by split; apply String.eqb_eq].
    + destruct (ca_Service _); apply require_ok in H3; [|by apply String.eqb_eq]. breflect. split_and!; [by apply String.eqb_neq | by apply String.eqb_eq | by apply contains_spec].
  - intros (H1 & H2 & H3 & H4 & H5 & H6). split_and!; try done; [| | |by apply effect_mode_spec].
    + destruct (ca_State _); apply require_ok; [by apply is_in_spec | by apply String.eqb_eq].
    + destruct (ca_Inference _); apply require_ok; rewrite ?andb_true_iff, ?contains_spec, ?String.eqb_eq; tauto.
    + destruct (ca_Service _); apply require_ok; rewrite ?andb_true_iff, ?negb_true_iff, ?contains_spec, ?String.eqb_eq, ?String.eqb_neq; tauto.
Qed.

Lemma publisher_allows_spec pub capsule : publisher_allows pub capsule = Ok tt <->
  (pc_Profile capsule ∈ items (pb_AllowedProfiles pub) /\ ii_Repository (pc_Image capsule) ∈ items (pb_AllowedRepositories pub) /\
   (items (pb_AllowedManifestDigests pub) = [] \/ ii_ManifestDigest (pc_Image capsule) ∈ items (pb_AllowedManifestDigests pub))) /\
  forall a, a ∈ items (pc_Artifacts capsule) -> a ∈ items (pb_AllowedArtifacts pub).
Proof.
  unfold publisher_allows, containsProfile. rewrite <- artifacts_spec, <- !contains_spec, <- no_items_spec, <- orb_true_iff.
  case_bool_decide as Hp; [|split; [done | tauto]]. destruct (contains (pb_AllowedRepositories pub) _); [|split; [done | naive_solver]].
  destruct (_ || _); [|split; [done | naive_solver]]. destruct (artifactsAllowed _ _); naive_solver.
Qed.

Lemma policy_modes p rule : policy_ok p -> rule ∈ items (sp_Tenants p) ->
  forall e, tn_AuthorizedEffects rule = Some e -> ae_Mode e ∈ [AuthorizedEffectsOptional; AuthorizedEffectsRequired].
Proof. intros Hp Hr e He. pose proof (to_effects _ _ _ (po_tenant _ Hp rule Hr)) as Ho. rewrite He in Ho. apply Ho. Qed.

Lemma intersect_inv capsule capsuleDigest policy policyDigest publisherKeyID siteRootKeyID intent caller fences profiles e :
  Intersect capsule capsuleDigest policy policyDigest publisherKeyID siteRootKeyID intent caller fences profiles = Ok e ->
  exists pub rule profile, admitted capsule capsuleDigest policy publisherKeyID intent caller fences profiles pub rule profile /\
    e = mkEffectiveAdmission capsule policy (with_connectors intent (CanonicalConnectorIDs (it_ConnectorIDs intent))) profile capsuleDigest policyDigest
          publisherKeyID siteRootKeyID (it_Resources intent).
Proof.
  unfold Intersect. intros H. do 6 step H. repeat match goal with u : unit |- _ => destruct u end.
  match goal with Hv : SitePolicy_Validate _ = Ok _ |- _ => pose proof (policy_inv _ Hv) as Hpol end.
  destruct (publisher policy publisherKeyID) as [pub|] eqn:Epub; [|done]. cbn [opt_ok] in H. step H.
  destruct (tenant policy (it_TenantID intent)) as [rule|] eqn:Erule; [|done]. cbn [opt_ok] in H. do 3 step H. repeat match goal with u : unit |- _ => destruct u end.
  destruct (profiles (pc_Profile capsule)) as [profile|] eqn:Eprof; [|done]. cbn [opt_ok] in H. do 4 step H. repeat match goal with u : unit |- _ => destruct u end. simplify_eq.
  apply tenant_spec in Erule as [Hr1 Hr2]; [|done]. apply publisher_spec in Epub as [Hp1 Hp2]; [|done].
  repeat match goal with
  | Ha : publisher_allows _ _ = Ok _ |- _ => apply publisher_allows_spec in Ha as [? ?]
  | Ha : artifactsAllowed _ _ = true |- _ => pose proof (proj1 (artifacts_spec _ _) Ha); clear Ha
  | Ha : validateRequestedCapabilities _ _ _ = Ok _ |- _ => apply requested_spec in Ha as (? & ? & ? & ? & ? & ?); [|by eapply policy_modes]
  | Ha : SubsetOf _ _ = true |- _ => apply SubsetOf_spec in Ha
  end.
  unfold state_shape_matches in *. breflect.
  repeat match goal with Ha : within _ _ = true |- _ => apply ceiling_spec in Ha | Ha : contains _ _ = true |- _ => apply contains_spec in Ha | Ha : String.eqb _ _ = true |- _ => apply String.eqb_eq in Ha end.
  exists pub, rule, profile. split; [|done]. constructor; try done; try lia. intros a Ha. auto.
Qed.

Lemma intersect_ok capsule capsuleDigest policy policyDigest publisherKeyID siteRootKeyID intent caller fences profiles pub rule profile :
  admitted capsule capsuleDigest policy publisherKeyID intent caller fences profiles pub rule profile ->
  Intersect capsule capsuleDigest policy policyDigest publisherKeyID siteRootKeyID intent caller fences profiles =
    Ok (mkEffectiveAdmission capsule policy (with_connectors intent (CanonicalConnectorIDs (it_ConnectorIDs intent))) profile capsuleDigest policyDigest
          publisherKeyID siteRootKeyID (it_Resources intent)).
Proof.
  intros [Hc Hp Hi Hd He Hg (Hp1 & Hp2 & Hp3) (Hr1 & Hr2 & Hr3) Him Ha (Hpr & Hs1 & Hs2) Hcap (Hre1 & Hre2 & Hre3) Hst Hinf Hsv Heg Hco Hef].
  pose proof (policy_inv _ Hp) as Hpol. unfold Intersect. rewrite Hc, Hp, Hi, Hd, String.eqb_refl, (proj2 (Z.leb_le _ _) He), (proj2 (Z.leb_le _ _) Hg).
  rewrite (proj2 (publisher_spec _ _ pub Hpol)), (proj2 (tenant_spec _ _ rule Hpol)) by done. cbn [opt_ok]. rewrite Hp3, (proj2 (contains_spec _ _) Hr3). cbn [negb].
  rewrite (proj2 (publisher_allows_spec pub capsule)) by (split; [done | intros a Hin; by destruct (Ha a Hin)]).
  rewrite (proj2 (artifacts_spec _ _)) by (intros a Hin; by destruct (Ha a Hin)). rewrite Hpr. cbn [opt_ok]. unfold state_shape_matches. rewrite Hs1, Hs2, !String.eqb_refl. cbn [andb].
  rewrite (proj2 (SubsetOf_spec _ _) Hcap), (proj2 (ceiling_spec _ _) Hre1), (proj2 (ceiling_spec _ _) Hre2), (proj2 (ceiling_spec _ _) Hre3). cbn [andb].
  rewrite (proj2 (requested_spec intent capsule rule (policy_modes _ _ Hpol Hr1))) by (split_and!; done). done.
Qed.

(** C20: An instance is admitted exactly when capsule, policy and intent are valid, the intent names this capsule at no rolled-back epoch or generation, and the
    publisher, the tenant, the profile, the image, every artifact, the capabilities, the resources and every selected route, service, model and connector are
    within what capsule, publisher rule and tenant rule all allow; the result is the intent with its connectors in canonical form. *)
Theorem intersect_exact capsule capsuleDigest policy policyDigest publisherKeyID siteRootKeyID intent caller fences profiles e :
  Intersect capsule capsuleDigest policy policyDigest publisherKeyID siteRootKeyID intent caller fences profiles = Ok e <->
  exists pub rule profile, admitted capsule capsuleDigest policy publisherKeyID intent caller fences profiles pub rule profile /\
    e = mkEffectiveAdmission capsule policy (with_connectors intent (CanonicalConnectorIDs (it_ConnectorIDs intent))) profile capsuleDigest policyDigest
          publisherKeyID siteRootKeyID (it_Resources intent).
Proof. split; [apply intersect_inv | intros (pub & rule & profile & H & ->); by eapply intersect_ok]. Qed.

(** ** Approvals of an admitted instance *)

Lemma compact_strict l : StronglySorted (fun a b => str_lt a b = true) l -> compact l = l.
Proof.
  induction 1 as [|x [|y l] Hs IH Hx]; [done | done|]. cbn [compact] in *. inversion Hx as [|? ? Hxy _]; subst.
  destruct (String.eqb_spec x y) as [-> | _]; [by rewrite str_lt_irrefl in Hxy|]. by rewrite IH.
Qed.

Lemma canonical_connectors s : NoDup (items s) -> items (CanonicalConnectorIDs s) = sort_strings (items s).
Proof.
  intros Hnd. unfold CanonicalConnectorIDs. rewrite (compact_strict _ (sort_strings_strict _ Hnd)). by destruct (sort_strings (items s)).
Qed.

Lemma approvers_sum c keys : zlen (approvers_of c keys) = zsum (fun key => indicator (contains (ak_ConnectorIDs key) c)) keys.
Proof.
  unfold approvers_of, zsum. induction keys as [|key keys IH]; [done|]. cbn [List.filter foldr]. destruct (contains _ _); cbn [indicator]; rewrite ?zlen_cons; lia.
Qed.

Lemma approvers_narrow c selected keys : c ∈ selected -> zlen (approvers_of c (omap (narrow_key selected) keys)) = zlen (approvers_of c keys).
Proof.
  intros Hc. rewrite !approvers_sum. unfold zsum. induction keys as [|key keys IH]; [done|]. cbn [omap list_omap foldr].
  destruct (narrow_key selected key) as [narrowed|] eqn:En.
  - apply narrow_spec in En as [-> _]. cbn [foldr]. rewrite IH. f_equal. f_equal. unfold contains. cbn [ak_ConnectorIDs items default from_option id].
    apply eq_true_iff_eq. rewrite !is_in_spec. by rewrite list_elem_of_In, List.filter_In, <- list_elem_of_In, is_in_spec; tauto.
  - rewrite IH. destruct (contains (ak_ConnectorIDs key) c) eqn:Ec; [|done]. apply contains_spec in Ec.
    assert (Hs : exists nk, narrow_key selected key = Some nk) by (eexists; apply narrow_spec; split; [reflexivity | eauto]). destruct Hs. congruence.
Qed.

Lemma narrow_sublist {B} (f : ActionKey -> B) selected keys : (forall key nk, narrow_key selected key = Some nk -> f nk = f key) ->
  sublist (f <$> omap (narrow_key selected) keys) (f <$> keys).
Proof.
  intros Hf. induction keys as [|key keys IH]; [constructor|]. cbn [omap list_omap]. destruct (narrow_key selected key) as [nk|] eqn:En.
  - rewrite !fmap_cons, (Hf key nk En). by constructor.
  - rewrite fmap_cons. by constructor.
Qed.

Lemma publics_sublist selected keys : sublist (publics ak_PublicKey (omap (narrow_key selected) keys)) (publics ak_PublicKey keys).
Proof.
  unfold publics. induction keys as [|key keys IH]; [constructor|]. cbn [omap list_omap]. destruct (narrow_key selected key) as [nk|] eqn:En.
  - apply narrow_spec in En as [-> _]. cbn [omap list_omap ak_PublicKey]. destruct (canonicalPublicKey _); [by constructor | done].
  - destruct (canonicalPublicKey _); [by constructor | done].
Qed.

(** C31: For an instance admitted with authorized effects, its action keys and approval threshold are always available; the keys have distinct identifiers and
    distinct public keys and cover only its connectors, and each of its connectors has at least the threshold of keys that may approve. *)
Theorem approval_reachable capsule capsuleDigest policy policyDigest publisherKeyID siteRootKeyID intent caller fences profiles e :
  Intersect capsule capsuleDigest policy policyDigest publisherKeyID siteRootKeyID intent caller fences profiles = Ok e ->
  it_EffectMode intent = EffectModeAuthorized ->
  exists keys n, AuthorizedActionKeys e = Ok keys /\ AuthorizedActionApprovalThreshold e = Ok n /\ 1 <= n <= maxAuthorizedEffectKeys /\
    NoDup (ak_KeyID <$> keys) /\ NoDup (publics ak_PublicKey keys) /\
    (forall key c, key ∈ keys -> c ∈ items (ak_ConnectorIDs key) -> c ∈ items (it_ConnectorIDs intent)) /\
    (forall c, c ∈ items (it_ConnectorIDs intent) -> n <= zlen (approvers_of c keys)).
Proof.
  intros H Hmode. apply intersect_inv in H as (pub & rule & profile & Had & ->). destruct Had as [_ Hp _ _ _ _ _ (Hr1 & Hr2 & _) _ _ _ _ _ _ _ _ _ Hco Hef].
  pose proof (policy_inv _ Hp) as Hpol. unfold effects_admitted in Hef. destruct (tn_AuthorizedEffects rule) as [effects|] eqn:Ee; [|by rewrite Hmode in Hef].
  destruct Hef as [_ Hef]. destruct (Hef Hmode) as (Hcap & _ & Hcov). rewrite Hcap in Hco. destruct Hco as [Hne (Hlen & Hnd & Hall)].
  pose proof (to_effects _ _ _ (po_tenant _ Hpol rule Hr1)) as Ho. rewrite Ee in Ho. cbn [from_option] in Ho. destruct Ho as [_ Hok Hids Hpubs [Hb1 Hb2] Hth].
  set (sel := it_ConnectorIDs intent) in *. set (canon := CanonicalConnectorIDs sel).
  assert (Hperm : items canon ≡ₚ items sel) by (unfold canon; rewrite canonical_connectors by done; apply sort_strings_perm).
  set (keys := merge_sort action_key_le (omap (narrow_key (items canon)) (items (ae_Keys effects)))).
  assert (Hk : authorizedActionKeys rule canon = Ok keys).
  { apply (authorizedActionKeys_spec _ _ _ _ Ee). split_and!; [|intros c Hc; rewrite Hperm in Hc; auto | done]. unfold selection_ok, zlen. rewrite (Permutation_length Hperm). split_and!;
      [done | by rewrite Hperm | intros c Hc; rewrite Hperm in Hc; auto]. }
  assert (Et : tenant policy (it_TenantID intent) = Some rule) by by apply tenant_spec.
  assert (Kperm : keys ≡ₚ omap (narrow_key (items canon)) (items (ae_Keys effects))) by apply merge_sort_Permutation.
  exists keys, (actionApprovalThreshold effects). split_and!; try lia.
  - unfold AuthorizedActionKeys, SitePolicy_AuthorizedActionKeys. cbn [ea_Intent ea_SitePolicy with_connectors it_EffectMode it_TenantID it_ConnectorIDs].
    rewrite Hmode, String.eqb_refl, Hp, Et, bool_decide_true by (rewrite Ee; by eexists). done.
  - unfold AuthorizedActionApprovalThreshold, SitePolicy_AuthorizedActionApprovalThreshold. cbn [ea_Intent ea_SitePolicy with_connectors it_EffectMode it_TenantID it_ConnectorIDs].
    rewrite Hmode, String.eqb_refl, Hp, Et. cbn [mbind option_bind]. rewrite Ee. cbn [mbind option_bind]. fold sel canon. by rewrite Hk.
  - rewrite Kperm. eapply sublist_NoDup; [exact Hids|]. apply narrow_sublist. by intros key nk [-> _]%narrow_spec.
  - assert (publics ak_PublicKey keys ≡ₚ publics ak_PublicKey (omap (narrow_key (items canon)) (items (ae_Keys effects)))) as -> by (unfold publics; by rewrite Kperm).
    eapply sublist_NoDup; [exact Hpubs|]. apply publics_sublist.
  - intros key c Hkey Hc. rewrite Kperm in Hkey. apply list_elem_of_omap in Hkey as (key0 & _ & [-> _]%narrow_spec). cbn [ak_ConnectorIDs items default from_option id] in Hc.
    apply list_elem_of_In, List.filter_In in Hc as [_ Hc%is_in_spec]. by rewrite <- Hperm.
  - intros c Hc. rewrite approvers_sum, (zsum_perm _ _ _ Kperm), <- approvers_sum, approvers_narrow by by rewrite Hperm. apply Hth. destruct (Hcov c Hc) as (key & Hkey & Hin).
    intros E. assert (key ∈ approvers_of c (items (ae_Keys effects))) as Hx; [|by rewrite E in Hx; apply not_elem_of_nil in Hx].
    apply list_elem_of_In, List.filter_In. split; [by apply list_elem_of_In | by apply contains_spec].
Qed.

(** ** Keys are not shared *)

Lemma publics_elem {K} (publicKey : K -> string) keys key public : key ∈ keys -> canonicalPublicKey (publicKey key) = Some public -> public ∈ publics publicKey keys.
Proof. intros Hk Hp. apply list_elem_of_omap. eauto. Qed.

Lemma publics_inj {K} (publicKey : K -> string) keys k1 k2 public : NoDup (publics publicKey keys) -> k1 ∈ keys -> k2 ∈ keys ->
  canonicalPublicKey (publicKey k1) = Some public -> canonicalPublicKey (publicKey k2) = Some public -> k1 = k2.
Proof.
  intros Hnd H1 H2 E1 E2. induction keys as [|key keys IH]; [by apply not_elem_of_nil in H1|].
  assert (Hnd' : NoDup (publics publicKey keys)) by (unfold publics in *; cbn [omap list_omap] in Hnd; destruct (canonicalPublicKey (publicKey key)); [by apply NoDup_cons in Hnd as [_ ?] | done]).
  assert (Hhead : forall k, k ∈ keys -> canonicalPublicKey (publicKey k) = Some public -> canonicalPublicKey (publicKey key) <> Some public).
  { intros k Hk Ek Ekey. unfold publics in Hnd. cbn [omap list_omap] in Hnd. rewrite Ekey in Hnd. apply NoDup_cons in Hnd as [Hni _]. apply Hni. by eapply publics_elem. }
  apply elem_of_cons in H1 as [-> | H1], H2 as [-> | H2]; [done | by destruct (Hhead k2) | by destruct (Hhead k1) | auto].
Qed.

(** In a valid policy a public key is given out once: two action keys with the same public key are the same key of the same tenant, and so are two task keys. *)
Theorem policy_keys_owned p : SitePolicy_Validate p = Ok tt ->
  (forall t1 t2 k1 k2 public, t1 ∈ items (sp_Tenants p) -> t2 ∈ items (sp_Tenants p) -> k1 ∈ action_keys t1 -> k2 ∈ action_keys t2 ->
     canonicalPublicKey (ak_PublicKey k1) = Some public -> canonicalPublicKey (ak_PublicKey k2) = Some public -> t1 = t2 /\ k1 = k2) /\
  (forall t1 t2 k1 k2 public, t1 ∈ items (sp_Tenants p) -> t2 ∈ items (sp_Tenants p) -> k1 ∈ items (tn_TaskKeys t1) -> k2 ∈ items (tn_TaskKeys t2) ->
     canonicalPublicKey (tk_PublicKey k1) = Some public -> canonicalPublicKey (tk_PublicKey k2) = Some public -> t1 = t2 /\ k1 = k2).
Proof.
  intros Hp%policy_inv. split; intros t1 t2 k1 k2 public H1 H2 Hk1 Hk2 E1 E2.
  - assert (t1 = t2) as <- by (eapply (po_action_owner _ Hp); [done | done | by eapply publics_elem..]). split; [done|]. eapply publics_inj; [|exact Hk1 | exact Hk2 | done..].
    pose proof (to_effects _ _ _ (po_tenant _ Hp t1 H1)) as Ho. unfold action_keys in *. destruct (tn_AuthorizedEffects t1) as [effects|]; [apply Ho | constructor].
  - assert (t1 = t2) as <- by (eapply (po_task_owner _ Hp); [done | done | by eapply publics_elem..]). split; [done|]. eapply publics_inj; [|exact Hk1 | exact Hk2 | done..].
    apply (po_tenant _ Hp t1 H1).
Qed.

(** ** Who signed an admitted instance *)

Lemma collect_keys_sound entries (keys keys' : gmap string bytes) id k : collect_keys entries keys = Ok keys' -> keys' !! id = Some k -> entry_key entries id k \/ keys !! id = Some k.
Proof.
  revert keys. induction entries as [|[id' encoded] entries IH]; intros keys H Hk; cbn [collect_keys] in H; [simplify_eq; by right|].
  destruct (decodePublicKey encoded) as [key|] eqn:Ed; [|done]. cbn [opt_ok] in H. destruct (IH _ H Hk) as [He | Hi]; rewrite (entry_key_cons _ _ key) by done; [by left; right|].
  destruct (decide (id = id')) as [-> | Hne]; [rewrite lookup_insert_eq in Hi; simplify_eq; left; by left | rewrite lookup_insert_ne in Hi by done; by right].
Qed.

(** C4: An instance that [VerifyAndAdmit] admits rests on a site policy signed by a site root and on a capsule signed with the key that this policy gives its
    publisher, both over exactly the decoded payloads; the capsule has not expired and the intersection of the authorities admits it. *)
Theorem verified_admission verify capsuleEnvelope policyEnvelope siteRoots intent caller fences now profiles e :
  VerifyAndAdmit verify capsuleEnvelope policyEnvelope siteRoots intent caller fences now profiles = Ok e ->
  exists policyPayload capsulePayload pub rule key,
    Dsse.authenticated verify siteRoots PolicyPayloadType policyPayload (ea_SiteRootKeyID e) /\
    DecodeStrictInto policyPayload Dsse.DefaultMaxEnvelopeBytes = Ok (ea_SitePolicy e) /\
    Dsse.authenticated verify {[ pb_KeyID pub := key ]} CapsulePayloadType capsulePayload (pb_KeyID pub) /\
    DecodeStrictInto capsulePayload Dsse.DefaultMaxEnvelopeBytes = Ok (ea_Capsule e) /\
    decodePublicKey (pb_PublicKey pub) = Some key /\ pc_PublisherKeyID (ea_Capsule e) = pb_KeyID pub /\
    ProfileCapsule_Validate (ea_Capsule e) now = Ok tt /\
    admitted (ea_Capsule e) (Dsse.Digest capsuleEnvelope) (ea_SitePolicy e) (pb_KeyID pub) intent caller fences profiles pub rule (ea_Profile e).
Proof.
  unfold VerifyAndAdmit, VerifyCapsuleForImport, VerifySitePolicy. intros H. step H. apply intersect_inv in H as (pub & rule & profile & Had & ->).
  match goal with Hi : _ = Ok ?v |- _ => rename Hi into Hv; rename v into vi end. cbn [ea_SiteRootKeyID ea_SitePolicy ea_Capsule ea_Profile].
  destruct (Dsse.Verify verify policyEnvelope PolicyPayloadType siteRoots) as [[policyPayload rootID]|] eqn:Ev1; [|done].
  destruct (DecodeStrictInto policyPayload _) as [policy|] eqn:Ed1; [|done]. destruct (SitePolicy_Validate policy) as [[]|] eqn:Evp; [|done]. cbn [vp_Policy vp_PolicyDigest vp_SiteRootKeyID] in Hv.
  destruct (PublisherKeys policy) as [keys|] eqn:Ek; [|done]. destruct (Dsse.Verify verify capsuleEnvelope CapsulePayloadType keys) as [[capsulePayload keyID]|] eqn:Ev2; [|done].
  destruct (DecodeStrictInto capsulePayload _) as [capsule|] eqn:Ed2; [|done]. destruct (ProfileCapsule_Validate capsule now) as [[]|] eqn:Evc; [|done].
  destruct (String.eqb_spec (pc_PublisherKeyID capsule) keyID) as [Eid|]; [|done].
  destruct (publisher policy keyID) as [pub'|] eqn:Epub; [|done]. cbn [opt_ok] in Hv. destruct (negb (pb_Revoked pub')); [|done]. destruct (publisher_allows pub' capsule) as [[]|]; [|done].
  destruct (profiles (pc_Profile capsule)) as [prof|]; [|done]. cbn [opt_ok] in Hv. destruct (ValidateProfileContract capsule profiles) as [?|]; [|done]. simplify_eq.
  cbn [vi_Capsule vi_SitePolicy vi_CapsuleDigest vi_PublisherKeyID vi_SiteRootKeyID] in *.
  pose proof (policy_inv _ Evp) as Hpol. apply publisher_spec in Epub as [Hin Hid]; [|done].
  destruct (am_publisher _ _ _ _ _ _ _ _ _ _ _ Had) as (Hp1 & Hp2 & _).
  apply Dsse.Verify_inv in Ev1 as [Ha1 _]. apply Dsse.Verify_inv in Ev2 as [Ha2 _]. destruct Ha2 as (key & sig & Hkey & Hrest).
  destruct (collect_keys_sound _ _ _ _ _ Ek Hkey) as [(encoded & (r & [= Er ->] & Hr)%list_elem_of_fmap & Hdec) | Hnone]; [|by rewrite lookup_empty in Hnone].
  assert (E1 : publisher policy (pc_PublisherKeyID capsule) = Some r) by (apply publisher_spec; done).
  assert (E2 : publisher policy (pc_PublisherKeyID capsule) = Some pub) by (apply publisher_spec; done). rewrite E1 in E2. injection E2 as ->.
  exists policyPayload, capsulePayload, pub, rule, key. rewrite Er in *. split_and!; try done. exists key, sig. split; [by rewrite lookup_singleton_eq | done].
Qed.

(** ** A concrete policy *)

Definition key_text (c : ascii) : string := b64_encode_string (Dsse.toy_pub c).
Definition sample_limits : ResourceLimits := mkResourceLimits 8589934592 4000 1024.
Definition sample_publisher : PublisherRule :=
  mkPublisherRule "publisher-1" (key_text "p") false (Some [mkProfileRef "hermes-v1" "v1"]) (Some ["registry.example/agents/hermes"%string]) None None sample_limits.
Definition sample_effects : AuthorizedEffectsPolicy :=
  mkAuthorizedEffectsPolicy AuthorizedEffectsRequired 2 ""
    (Some [mkActionKey "approver-b" (key_text "b") (Some ["mail"%string]); mkActionKey "approver-a" (key_text "a") (Some ["chat"; "mail"]%string);
           mkActionKey "approver-c" (key_text "c") (Some ["chat"%string])]).
Definition sample_tenant : TenantRule :=
  mkTenantRule "acme" (Some ["publisher-1"%string]) sample_limits None (Some ["local"%string]) (Some ["default"%string]) (Some ["hermes-api"%string])
    (Some ["web"%string]) (Some ["mail"; "chat"]%string)
    (Some [mkCommandKey "operator" (key_text "o") (Some ["admit"; "stop"]%string)]) (Some [mkTaskKey "tasks" (key_text "t") (Some ["hermes-api"%string])]) (Some sample_effects).
Definition sample_policy : SitePolicy :=
  mkSitePolicy SchemaV1 "policy-1" 7 (Some [mkCommandKey "janitor" (key_text "j") (Some ["stop"; "destroy"]%string)]) (Some [sample_publisher]) (Some [sample_tenant]).
Definition zero_digest : string := "sha256:aaaaaaaaaaaaaaaaaaaaaaaaaaaaaaaaaaaaaaaaaaaaaaaaaaaaaaaaaaaaaaaa".
Definition sample_capsule : ProfileCapsule :=
  mkProfileCapsule SchemaV1 "capsule-1" "publisher-1" "" "2030-01-01T00:00:00Z" (mkProfileRef "hermes-v1" "v1")
    (mkImageIdentity "registry.example/agents/hermes" zero_digest zero_digest (mkPlatform "linux" "amd64" "")) (Some ["serve"%string]) sample_limits
    (mkCapabilities true true true false true false) None (mkStateShape "v1" "/opt/data") (mkServiceShape "hermes-api" 8766).
Definition sample_intent (digest : string) : InstanceIntent :=
  mkInstanceIntent "acme" "node-1" "agent-1" "lineage-1" 3 digest (mkResourceLimits 1073741824 1000 256) (mkCapabilities true true true false true false)
    "new" "local" "default" "hermes-api" None (Some ["mail"; "chat"]%string) EffectModeAuthorized.
Definition sample_caller : AuthenticatedIdentity := mkAuthenticatedIdentity "acme" "node-1".
Definition no_fences : PersistedFences := mkPersistedFences 2 7.

Lemma sample_policy_valid : SitePolicy_Validate sample_policy = Ok tt.
Proof. vm_compute. reflexivity. Qed.

Lemma sample_admitted d policyDigest root : digest d = true ->
  exists e, Intersect sample_capsule d sample_policy policyDigest "publisher-1" root (sample_intent d) sample_caller no_fences DefaultProfiles = Ok e.
Proof.
  intros Hd. eexists. unfold Intersect. rewrite sample_policy_valid. assert (InstanceIntent_Validate (sample_intent d) sample_caller = Ok tt) as ->.
  { unfold InstanceIntent_Validate. cbn [it_CapsuleDigest sample_intent]. rewrite Hd. vm_compute. reflexivity. }
  cbn [it_CapsuleDigest sample_intent]. rewrite String.eqb_refl. vm_compute. reflexivity.
Qed.

Lemma approval_reachable_witness : exists e keys n,
  Intersect sample_capsule zero_digest sample_policy zero_digest "publisher-1" "root-1" (sample_intent zero_digest) sample_caller no_fences DefaultProfiles = Ok e /\
  AuthorizedActionKeys e = Ok keys /\ AuthorizedActionApprovalThreshold e = Ok n.
Proof.
  destruct (sample_admitted zero_digest zero_digest "root-1") as [e He]; [vm_compute; reflexivity|].
  destruct (approval_reachable _ _ _ _ _ _ _ _ _ _ _ He eq_refl) as (keys & n & H1 & H2 & _). exact (ex_intro _ e (ex_intro _ keys (ex_intro _ n (conj He (conj H1 H2))))).
Defined.

Lemma trusted_command_keys_exact_witness : exists keys, TrustedCommandKeys sample_policy "acme" "stop" = Ok keys /\
  forall id k, keys !! id = Some k <-> trusted_for sample_policy "acme" "stop" id k.
Proof.
  pose proof (trusted_command_keys_exact sample_policy "acme" "stop" sample_policy_valid) as H.
  destruct (TrustedCommandKeys sample_policy "acme" "stop") as [keys|e] eqn:E; [exact (ex_intro _ keys (conj eq_refl (proj2 H)))|]. vm_compute in E. discriminate E.
Defined.

Lemma policy_keys_owned_witness : let key := mkActionKey "approver-a" (key_text "a") (Some ["chat"; "mail"]%string) in
  key ∈ action_keys sample_tenant /\ sample_tenant = sample_tenant /\ key = key.
Proof.
  set (key := mkActionKey "approver-a" (key_text "a") (Some ["chat"; "mail"]%string)). assert (Hk : key ∈ action_keys sample_tenant) by (right; left).
  assert (Ht : sample_tenant ∈ items (sp_Tenants sample_policy)) by left.
  assert (Hp : canonicalPublicKey (ak_PublicKey key) = Some (Dsse.toy_pub "a")) by (vm_compute; reflexivity).
  exact (conj Hk (proj1 (policy_keys_owned sample_policy sample_policy_valid) _ _ _ _ _ Ht Ht Hk Hk Hp Hp)).
Defined.

(** The same, signed. *)
Definition policy_envelope : bytes := Dsse.toy_seal PolicyPayloadType "root-1" "r" sample_policy.
Definition capsule_envelope : bytes := Dsse.toy_seal CapsulePayloadType "publisher-1" "p" sample_capsule.
Definition sample_roots : gmap string bytes := {[ "root-1"%string := Dsse.toy_pub "r" ]}.

Lemma sample_import now : now <= 63000000000000000000 -> exists vi, VerifyCapsuleForImport Dsse.toy_verify capsule_envelope policy_envelope sample_roots now DefaultProfiles = Ok vi /\
  vi_Capsule vi = sample_capsule /\ vi_CapsuleDigest vi = Dsse.Digest capsule_envelope /\ vi_SitePolicy vi = sample_policy /\ vi_PublisherKeyID vi = "publisher-1"%string.
Proof.
  intros Hnow. destruct (Dsse.toy_seal_opens PolicyPayloadType "root-1" "r" sample_policy sample_roots Dsse.DefaultMaxEnvelopeBytes) as (Hv1 & Hd1 & _);
    [first [vm_compute; reflexivity | lia | vm_compute; congruence].. |].
  destruct (Dsse.toy_seal_opens CapsulePayloadType "publisher-1" "p" sample_capsule {[ "publisher-1"%string := Dsse.toy_pub "p" ]} Dsse.DefaultMaxEnvelopeBytes) as (Hv2 & Hd2 & _);
    [first [vm_compute; reflexivity | lia | vm_compute; congruence].. |].
  eexists. unfold VerifyCapsuleForImport, VerifySitePolicy, policy_envelope, capsule_envelope. rewrite Hv1, Hd1, sample_policy_valid. cbn [vp_Policy].
  assert (PublisherKeys sample_policy = Ok {[ "publisher-1"%string := Dsse.toy_pub "p" ]}) as -> by (vm_compute; reflexivity). rewrite Hv2, Hd2.
  assert (ProfileCapsule_Validate sample_capsule now = Ok tt) as ->.
  { unfold ProfileCapsule_Validate, validate_capsule_times. cbn [pc_ExpiresAt pc_IssuedAt sample_capsule].
    assert (Ep : parse_rfc3339 "2030-01-01T00:00:00Z" = Some 64029052800000000000) by (vm_compute; reflexivity). rewrite Ep.
    rewrite (proj2 (Z.ltb_lt now _)) by lia. rewrite orb_true_r. vm_compute. reflexivity. }
  assert (publisher sample_policy "publisher-1" = Some sample_publisher) as -> by (vm_compute; reflexivity). cbn [opt_ok].
  assert (publisher_allows sample_publisher sample_capsule = Ok tt) as -> by (vm_compute; reflexivity).
  assert (DefaultProfiles (pc_Profile sample_capsule) = Some (hermesProfile "hermes-v1")) as -> by (vm_compute; reflexivity). cbn [opt_ok].
  assert (ValidateProfileContract sample_capsule DefaultProfiles = Ok (hermesProfile "hermes-v1")) as -> by (vm_compute; reflexivity).
  cbn [pc_PublisherKeyID sample_capsule]. rewrite String.eqb_refl. cbn [pb_Revoked sample_publisher negb]. split_and!; reflexivity.
Qed.

Lemma verified_admission_witness : exists e policyPayload,
  VerifyAndAdmit Dsse.toy_verify capsule_envelope policy_envelope sample_roots (sample_intent (Dsse.Digest capsule_envelope)) sample_caller no_fences 0 DefaultProfiles = Ok e /\
  Dsse.authenticated Dsse.toy_verify sample_roots PolicyPayloadType policyPayload (ea_SiteRootKeyID e).
Proof.
  destruct (sample_import 0) as (vi & Hvi & Hc & Hd & Hp & Hk); [discriminate|].
  destruct (sample_admitted (Dsse.Digest capsule_envelope) (vi_PolicyDigest vi) (vi_SiteRootKeyID vi)) as [e He]; [apply sha256_digest_text|].
  assert (Ha : VerifyAndAdmit Dsse.toy_verify capsule_envelope policy_envelope sample_roots (sample_intent (Dsse.Digest capsule_envelope)) sample_caller no_fences 0 DefaultProfiles = Ok e).
  { unfold VerifyAndAdmit. rewrite Hvi, Hc, Hd, Hp, Hk. exact He. }
  destruct (verified_admission _ _ _ _ _ _ _ _ _ _ Ha) as (policyPayload & _ & _ & _ & _ & H1 & _). exact (ex_intro _ e (ex_intro _ policyPayload (conj Ha H1))).
Defined.

End AdmissionPolicy.
