(* ===== verification/Delegation.v ===== *)
(** * Signed commands and delegations ([src/internal/admission/delegation.go], [workload_lease.go], and the commands of [admission.go])

    The commands of tenants to executors, the workload leases they renew, and the delegations by which a tenant key grants a controller key a part
    of its authority. [verify] is Ed25519's; [now] is zero for Go's zero time. *)

From Stdlib Require Import Ascii.
From S2P Require Import Prelude GoText GoTime GoFS FenceStore GoJson GoCrypto Strict Dsse GoRune GoNet Admission.
Import Admission.

Module Delegation.

Definition CommandPayloadType : string := "application/vnd.steward.executor-command.v2+json".
Definition CommandSchemaV2 : string := "steward.executor-command.v2".
Definition WorkloadLeaseSchemaV1 : string := "steward.workload-lease.v1".
Definition MaxWorkloadLeaseDuration : Z := 5 * minute.
Definition CommandClockSkew : Z := 2 * minute.
Definition maxCommandPayloadBytes : Z := Z.shiftl 256 10.
Definition maxCommandLifetime : Z := 15 * minute.
Definition maxCommandClockSkew : Z := CommandClockSkew.
Definition CommandDelegationPayloadType : string := "application/vnd.steward.executor-command-delegation.v1+json".
Definition CommandDelegationSchemaV1 : string := "steward.executor-command-delegation.v1".
Definition maxCommandDelegationBytes : Z := Z.shiftl 64 10.
Definition maxCommandDelegationLifetime : Z := 24 * hour.
Definition maxForkDelegationLifetime : Z := 31 * 24 * hour.
Definition maxCommandDelegationNodes : Z := 64.
Definition maxCommandDelegationInstances : Z := 128.
Definition maxCommandPlacementLabels : Z := 32.
Definition maxCommandPlacementTolerations : Z := 32.
Definition RuntimeAssuranceSharedHost : string := "shared-host-hardened".
Definition RuntimeAssuranceDedicatedHost : string := "dedicated-host-hardened".
Definition MaxExecutorSchedulingAttribute : Z := 128.

(** ** Data *)

Record WorkloadLease := mkWorkloadLease {
  wl_SchemaVersion : string; wl_ExpiresAt : string }.

Record CommandDelegationLabel := mkCommandDelegationLabel {
  dl_Key : string; dl_Value : string }.

Record CommandDelegationPlacement := mkCommandDelegationPlacement {
  dp_RequiredIsolation : string; dp_RequiredAssurance : string; dp_RequiredLabels : option (list CommandDelegationLabel);
  dp_PreferredLabels : option (list CommandDelegationLabel); dp_SpreadBy : string; dp_Tolerations : option (list string) }.

Record CommandDelegationAdmissionTemplate := mkCommandDelegationAdmissionTemplate {
  dt_CapsuleDigest : string; dt_Resources : ResourceLimits; dt_Capabilities : Capabilities; dt_StateDisposition : string;
  dt_InferenceRouteID : string; dt_ModelAlias : string; dt_ServiceID : string; dt_EgressRouteIDs : option (list string);
  dt_ConnectorIDs : option (list string); dt_EffectMode : string; dt_Placement : option CommandDelegationPlacement }.

Record CommandDelegationInstance := mkCommandDelegationInstance {
  di_InstanceID : string; di_LineageID : string; di_MinInstanceGeneration : Z; di_MaxInstanceGeneration : Z }.

Record CommandDelegation := mkCommandDelegation {
  cd_SchemaVersion : string; cd_DelegationID : string; cd_TenantID : string; cd_ControllerKeyID : string; cd_ControllerPublicKey : string;
  cd_Operations : option (list string); cd_NodeIDs : option (list string); cd_Instances : option (list CommandDelegationInstance);
  cd_ClaimGeneration : Z; cd_Admission : option CommandDelegationAdmissionTemplate; cd_IssuedAt : string; cd_ExpiresAt : string }.

(** The payload is a [json.RawMessage]: the bytes of the value as they stand in the signed text. *)
Record CommandStatement := mkCommandStatement {
  cs_SchemaVersion : string; cs_CommandID : string; cs_AuthorizationContextDigest : string; cs_DelegationDSSEBase64 : string; cs_TenantID : string;
  cs_NodeID : string; cs_InstanceID : string; cs_RuntimeRef : string; cs_Kind : string; cs_ClaimGeneration : Z; cs_InstanceGeneration : Z;
  cs_CommandSequence : Z; cs_IssuedAt : string; cs_ExpiresAt : string; cs_Payload : bytes }.

(** The payload of an admission. *)
Record AdmitPayload := mkAdmitPayload { ap_Capsule : string; ap_Intent : InstanceIntent }.

Record VerifiedCommandDelegation := mkVerifiedCommandDelegation {
  vd_Statement : CommandDelegation; vd_EnvelopeDigest : string; vd_SignerKeyID : string; vd_ControllerKey : bytes }.

(** ** JSON *)

Definition zero_WorkloadLease : WorkloadLease := mkWorkloadLease "" "".

#[global] Instance WorkloadLease_json : GoJSON WorkloadLease := {
  go_shape := KStruct [
    ("schema_version", KString); ("expires_at", KString)]%string;
  to_json x := obj [
    always "schema_version" (JStr (wl_SchemaVersion x)); always "expires_at" (JStr (wl_ExpiresAt x))];
  of_json v := match v with
    | JObj fs =>
        v_SchemaVersion ← field fs "schema_version" dec_string ""%string; v_ExpiresAt ← field fs "expires_at" dec_string ""%string;
        Some (mkWorkloadLease v_SchemaVersion v_ExpiresAt)
    | _ => None end;
  storable x :=
    utf8_valid (wl_SchemaVersion x) && utf8_valid (wl_ExpiresAt x);
}.

Definition zero_CommandDelegationLabel : CommandDelegationLabel := mkCommandDelegationLabel "" "".

#[global] Instance CommandDelegationLabel_json : GoJSON CommandDelegationLabel := {
  go_shape := KStruct [
    ("key", KString); ("value", KString)]%string;
  to_json x := obj [
    always "key" (JStr (dl_Key x)); always "value" (JStr (dl_Value x))];
  of_json v := match v with
    | JObj fs =>
        v_Key ← field fs "key" dec_string ""%string; v_Value ← field fs "value" dec_string ""%string;
        Some (mkCommandDelegationLabel v_Key v_Value)
    | _ => None end;
  storable x :=
    utf8_valid (dl_Key x) && utf8_valid (dl_Value x);
}.

Definition zero_CommandDelegationPlacement : CommandDelegationPlacement := mkCommandDelegationPlacement "" "" None None "" None.

#[global] Instance CommandDelegationPlacement_json : GoJSON CommandDelegationPlacement := {
  go_shape := KStruct [
    ("required_isolation", KString); ("required_assurance", KString); ("required_labels", KSlice (go_shape (A := CommandDelegationLabel)));
    ("preferred_labels", KSlice (go_shape (A := CommandDelegationLabel))); ("spread_by", KString); ("tolerations", KSlice (go_shape (A := string)))]%string;
  to_json x := obj [
    omitempty "required_isolation" (empty_string (dp_RequiredIsolation x)) (JStr (dp_RequiredIsolation x));
    omitempty "required_assurance" (empty_string (dp_RequiredAssurance x)) (JStr (dp_RequiredAssurance x));
    always "required_labels" (enc_slice to_json (dp_RequiredLabels x));
    omitempty "preferred_labels" (nil_slice (dp_PreferredLabels x)) (enc_slice to_json (dp_PreferredLabels x));
    omitempty "spread_by" (empty_string (dp_SpreadBy x)) (JStr (dp_SpreadBy x)); always "tolerations" (enc_slice to_json (dp_Tolerations x))];
  of_json v := match v with
    | JObj fs =>
        v_RequiredIsolation ← field fs "required_isolation" dec_string ""%string;
        v_RequiredAssurance ← field fs "required_assurance" dec_string ""%string;
        v_RequiredLabels ← field fs "required_labels" (dec_slice of_json) None;
        v_PreferredLabels ← field fs "preferred_labels" (dec_slice of_json) None; v_SpreadBy ← field fs "spread_by" dec_string ""%string;
        v_Tolerations ← field fs "tolerations" (dec_slice of_json) None;
        Some (mkCommandDelegationPlacement v_RequiredIsolation v_RequiredAssurance v_RequiredLabels v_PreferredLabels v_SpreadBy v_Tolerations)
    | _ => None end;
  storable x :=
    utf8_valid (dp_RequiredIsolation x) && utf8_valid (dp_RequiredAssurance x) && storable_slice (dp_RequiredLabels x) &&
    slice_ok storable (dp_PreferredLabels x) && utf8_valid (dp_SpreadBy x) && storable_slice (dp_Tolerations x);
}.

Definition zero_CommandDelegationAdmissionTemplate : CommandDelegationAdmissionTemplate := mkCommandDelegationAdmissionTemplate "" zero_ResourceLimits zero_Capabilities "" "" "" "" None None "" None.

#[global] Instance CommandDelegationAdmissionTemplate_json : GoJSON CommandDelegationAdmissionTemplate := {
  go_shape := KStruct [
    ("capsule_digest", KString); ("resources", go_shape (A := ResourceLimits)); ("capabilities", go_shape (A := Capabilities));
    ("state_disposition", KString); ("inference_route_id", KString); ("model_alias", KString); ("service_id", KString);
    ("egress_route_ids", KSlice (go_shape (A := string))); ("connector_ids", KSlice (go_shape (A := string))); ("effect_mode", KString);
    ("placement", KPointer (go_shape (A := CommandDelegationPlacement)))]%string;
  to_json x := obj [
    always "capsule_digest" (JStr (dt_CapsuleDigest x)); always "resources" (to_json (dt_Resources x));
    always "capabilities" (to_json (dt_Capabilities x)); always "state_disposition" (JStr (dt_StateDisposition x));
    omitempty "inference_route_id" (empty_string (dt_InferenceRouteID x)) (JStr (dt_InferenceRouteID x));
    omitempty "model_alias" (empty_string (dt_ModelAlias x)) (JStr (dt_ModelAlias x));
    omitempty "service_id" (empty_string (dt_ServiceID x)) (JStr (dt_ServiceID x));
    omitempty "egress_route_ids" (nil_slice (dt_EgressRouteIDs x)) (enc_slice to_json (dt_EgressRouteIDs x));
    omitempty "connector_ids" (nil_slice (dt_ConnectorIDs x)) (enc_slice to_json (dt_ConnectorIDs x));
    omitempty "effect_mode" (empty_string (dt_EffectMode x)) (JStr (dt_EffectMode x));
    omitempty "placement" (nil_ptr (dt_Placement x)) (enc_ptr to_json (dt_Placement x))];
  of_json v := match v with
    | JObj fs =>
        v_CapsuleDigest ← field fs "capsule_digest" dec_string ""%string; v_Resources ← field fs "resources" of_json zero_ResourceLimits;
        v_Capabilities ← field fs "capabilities" of_json zero_Capabilities; v_StateDisposition ← field fs "state_disposition" dec_string ""%string;
        v_InferenceRouteID ← field fs "inference_route_id" dec_string ""%string; v_ModelAlias ← field fs "model_alias" dec_string ""%string;
        v_ServiceID ← field fs "service_id" dec_string ""%string; v_EgressRouteIDs ← field fs "egress_route_ids" (dec_slice of_json) None;
        v_ConnectorIDs ← field fs "connector_ids" (dec_slice of_json) None; v_EffectMode ← field fs "effect_mode" dec_string ""%string;
        v_Placement ← field fs "placement" (dec_ptr of_json) None;
        Some (mkCommandDelegationAdmissionTemplate v_CapsuleDigest v_Resources v_Capabilities v_StateDisposition v_InferenceRouteID v_ModelAlias v_ServiceID v_EgressRouteIDs v_ConnectorIDs v_EffectMode v_Placement)
    | _ => None end;
  storable x :=
    utf8_valid (dt_CapsuleDigest x) && storable (dt_Resources x) && storable (dt_Capabilities x) && utf8_valid (dt_StateDisposition x) &&
    utf8_valid (dt_InferenceRouteID x) && utf8_valid (dt_ModelAlias x) && utf8_valid (dt_ServiceID x) && slice_ok storable (dt_EgressRouteIDs x) &&
    slice_ok storable (dt_ConnectorIDs x) && utf8_valid (dt_EffectMode x) && from_option storable true (dt_Placement x);
}.

Definition zero_CommandDelegationInstance : CommandDelegationInstance := mkCommandDelegationInstance "" "" 0 0.

#[global] Instance CommandDelegationInstance_json : GoJSON CommandDelegationInstance := {
  go_shape := KStruct [
    ("instance_id", KString); ("lineage_id", KString); ("min_instance_generation", KInt); ("max_instance_generation", KInt)]%string;
  to_json x := obj [
    always "instance_id" (JStr (di_InstanceID x)); always "lineage_id" (JStr (di_LineageID x));
    always "min_instance_generation" (json_int (di_MinInstanceGeneration x)); always "max_instance_generation" (json_int (di_MaxInstanceGeneration x))];
  of_json v := match v with
    | JObj fs =>
        v_InstanceID ← field fs "instance_id" dec_string ""%string; v_LineageID ← field fs "lineage_id" dec_string ""%string;
        v_MinInstanceGeneration ← field fs "min_instance_generation" dec_u64 0;
        v_MaxInstanceGeneration ← field fs "max_instance_generation" dec_u64 0;
        Some (mkCommandDelegationInstance v_InstanceID v_LineageID v_MinInstanceGeneration v_MaxInstanceGeneration)
    | _ => None end;
  storable x :=
    utf8_valid (di_InstanceID x) && utf8_valid (di_LineageID x) && in_u64b (di_MinInstanceGeneration x) && in_u64b (di_MaxInstanceGeneration x);
}.

Definition zero_CommandDelegation : CommandDelegation := mkCommandDelegation "" "" "" "" "" None None None 0 None "" "".

#[global] Instance CommandDelegation_json : GoJSON CommandDelegation := {
  go_shape := KStruct [
    ("schema_version", KString); ("delegation_id", KString); ("tenant_id", KString); ("controller_key_id", KString);
    ("controller_public_key", KString); ("operations", KSlice (go_shape (A := string))); ("node_ids", KSlice (go_shape (A := string)));
    ("instances", KSlice (go_shape (A := CommandDelegationInstance))); ("claim_generation", KInt);
    ("admission", KPointer (go_shape (A := CommandDelegationAdmissionTemplate))); ("issued_at", KString); ("expires_at", KString)]%string;
  to_json x := obj [
    always "schema_version" (JStr (cd_SchemaVersion x)); always "delegation_id" (JStr (cd_DelegationID x)); always "tenant_id" (JStr (cd_TenantID x));
    always "controller_key_id" (JStr (cd_ControllerKeyID x)); always "controller_public_key" (JStr (cd_ControllerPublicKey x));
    always "operations" (enc_slice to_json (cd_Operations x)); always "node_ids" (enc_slice to_json (cd_NodeIDs x));
    always "instances" (enc_slice to_json (cd_Instances x)); always "claim_generation" (json_int (cd_ClaimGeneration x));
    omitempty "admission" (nil_ptr (cd_Admission x)) (enc_ptr to_json (cd_Admission x)); always "issued_at" (JStr (cd_IssuedAt x));
    always "expires_at" (JStr (cd_ExpiresAt x))];
  of_json v := match v with
    | JObj fs =>
        v_SchemaVersion ← field fs "schema_version" dec_string ""%string; v_DelegationID ← field fs "delegation_id" dec_string ""%string;
        v_TenantID ← field fs "tenant_id" dec_string ""%string; v_ControllerKeyID ← field fs "controller_key_id" dec_string ""%string;
        v_ControllerPublicKey ← field fs "controller_public_key" dec_string ""%string; v_Operations ← field fs "operations" (dec_slice of_json) None;
        v_NodeIDs ← field fs "node_ids" (dec_slice of_json) None; v_Instances ← field fs "instances" (dec_slice of_json) None;
        v_ClaimGeneration ← field fs "claim_generation" dec_u64 0; v_Admission ← field fs "admission" (dec_ptr of_json) None;
        v_IssuedAt ← field fs "issued_at" dec_string ""%string; v_ExpiresAt ← field fs "expires_at" dec_string ""%string;
        Some (mkCommandDelegation v_SchemaVersion v_DelegationID v_TenantID v_ControllerKeyID v_ControllerPublicKey v_Operations v_NodeIDs v_Instances v_ClaimGeneration v_Admission v_IssuedAt v_ExpiresAt)
    | _ => None end;
  storable x :=
    utf8_valid (cd_SchemaVersion x) && utf8_valid (cd_DelegationID x) && utf8_valid (cd_TenantID x) && utf8_valid (cd_ControllerKeyID x) &&
    utf8_valid (cd_ControllerPublicKey x) && storable_slice (cd_Operations x) && storable_slice (cd_NodeIDs x) && storable_slice (cd_Instances x) &&
    in_u64b (cd_ClaimGeneration x) && from_option storable true (cd_Admission x) && utf8_valid (cd_IssuedAt x) && utf8_valid (cd_ExpiresAt x);
}.

Definition zero_AdmitPayload : AdmitPayload := mkAdmitPayload "" zero_InstanceIntent.

#[global] Instance AdmitPayload_json : GoJSON AdmitPayload := {
  go_shape := KStruct [("capsule_dsse_base64", KString); ("intent", go_shape (A := InstanceIntent))]%string;
  to_json x := obj [always "capsule_dsse_base64" (JStr (ap_Capsule x)); always "intent" (to_json (ap_Intent x))];
  of_json v := match v with
    | JObj fs =>
        v_Capsule ← field fs "capsule_dsse_base64" dec_string ""%string; v_Intent ← field fs "intent" of_json zero_InstanceIntent;
        Some (mkAdmitPayload v_Capsule v_Intent)
    | _ => None end;
  storable x := utf8_valid (ap_Capsule x) && storable (ap_Intent x);
}.

#[global] Instance WorkloadLease_laws : GoJSONLaws WorkloadLease 1.
Proof. struct_laws. Qed.
#[global] Instance CommandDelegationLabel_laws : GoJSONLaws CommandDelegationLabel 1.
Proof. struct_laws. Qed.
#[global] Instance CommandDelegationPlacement_laws : GoJSONLaws CommandDelegationPlacement 3.
Proof. struct_laws. Qed.
#[global] Instance CommandDelegationAdmissionTemplate_laws : GoJSONLaws CommandDelegationAdmissionTemplate 5.
Proof. struct_laws. Qed.
#[global] Instance CommandDelegationInstance_laws : GoJSONLaws CommandDelegationInstance 1.
Proof. struct_laws. Qed.
#[global] Instance CommandDelegation_laws : GoJSONLaws CommandDelegation 7.
Proof. struct_laws. Qed.
#[global] Instance AdmitPayload_laws : GoJSONLaws AdmitPayload 3.
Proof. struct_laws. Qed.

Definition command_shape : shape := KStruct [
  ("schema_version", KString); ("command_id", KString); ("authorization_context_digest", KString); ("delegation_dsse_base64", KString);
  ("tenant_id", KString); ("node_id", KString); ("instance_id", KString); ("runtime_ref", KString); ("kind", KString); ("claim_generation", KInt);
  ("instance_generation", KInt); ("command_sequence", KInt); ("issued_at", KString); ("expires_at", KString); ("payload", KRawMessage)]%string.

Definition command_fields (v : json) (payload : bytes) : option CommandStatement :=
  match v with
  | JObj fs =>
      v_SchemaVersion ← field fs "schema_version" dec_string ""%string; v_CommandID ← field fs "command_id" dec_string ""%string;
      v_AuthorizationContextDigest ← field fs "authorization_context_digest" dec_string ""%string;
      v_DelegationDSSEBase64 ← field fs "delegation_dsse_base64" dec_string ""%string; v_TenantID ← field fs "tenant_id" dec_string ""%string;
      v_NodeID ← field fs "node_id" dec_string ""%string; v_InstanceID ← field fs "instance_id" dec_string ""%string;
      v_RuntimeRef ← field fs "runtime_ref" dec_string ""%string; v_Kind ← field fs "kind" dec_string ""%string;
      v_ClaimGeneration ← field fs "claim_generation" dec_u64 0; v_InstanceGeneration ← field fs "instance_generation" dec_u64 0;
      v_CommandSequence ← field fs "command_sequence" dec_u64 0; v_IssuedAt ← field fs "issued_at" dec_string ""%string;
      v_ExpiresAt ← field fs "expires_at" dec_string ""%string;
      Some (mkCommandStatement v_SchemaVersion v_CommandID v_AuthorizationContextDigest v_DelegationDSSEBase64 v_TenantID v_NodeID v_InstanceID v_RuntimeRef v_Kind v_ClaimGeneration v_InstanceGeneration v_CommandSequence v_IssuedAt v_ExpiresAt payload)
  | _ => None
  end.

(** [dsse.DecodeStrictInto] for a command. *)
Definition DecodeCommand (raw : bytes) (maxBytes : Z) : result CommandStatement :=
  if (maxBytes <=? 0) || bool_decide (raw = []) || (maxBytes <? zlen raw) then Err "JSON input is empty or exceeds its limit" else
  match json_parse raw with
  | None => Err "invalid JSON"
  | Some v =>
      let* _ := validateJSONValue command_shape 0 v in
      opt_ok (command_fields v (raw_member "payload" raw)) "JSON value does not fit its field"
  end.

(** ** Leases and commands *)

Definition DecodeWorkloadLease (raw : bytes) (observedAt : Z) : result WorkloadLease :=
  let* lease := DecodeStrictInto raw maxCommandPayloadBytes in
  require String.eqb (wl_SchemaVersion lease) WorkloadLeaseSchemaV1 else "invalid workload lease payload" in
  let* expires := opt_ok (canonical_time (wl_ExpiresAt lease)) "invalid workload lease expiry" in
  require negb (is_zero expires) else "invalid workload lease expiry" in
  require is_zero observedAt || ((observedAt <? expires) && (expires <=? observedAt + (MaxWorkloadLeaseDuration + CommandClockSkew)))
    else "workload lease expiry is outside its local bound" in
  Ok lease.

(** The window of a command or a delegation, against its longest lifetime and the clock. *)
Definition validate_window (issuedAt expiresAt : string) (lifetime now : Z) : result (Z * Z) :=
  let* issued := opt_ok (parse_rfc3339 issuedAt) "invalid issue time" in
  let* expires := opt_ok (parse_rfc3339 expiresAt) "invalid expiry" in
  require (issued <? expires) && (expires - issued <=? lifetime) else "invalid expiry" in
  require is_zero now || (issued <=? now + maxCommandClockSkew) else "issue time is too far in the future" in
  require is_zero now || (now <? expires) else "expired according to node time" in
  Ok (issued, expires).

Definition CommandStatement_Validate (c : CommandStatement) (now : Z) : result unit :=
  require String.eqb (cs_SchemaVersion c) CommandSchemaV2 && bounded (cs_CommandID c) 256 && bounded (cs_TenantID c) 128 && bounded (cs_NodeID c) 128
    && bounded (cs_InstanceID c) 256 && bounded (cs_RuntimeRef c) 1024 else "invalid command identity" in
  require String.eqb (cs_AuthorizationContextDigest c) "" || digest (cs_AuthorizationContextDigest c) else "invalid command authorization context digest" in
  require (slen (cs_DelegationDSSEBase64 c) <=? b64_encoded_len maxCommandDelegationBytes)
    && (String.eqb (cs_DelegationDSSEBase64 c) "" || negb (String.eqb (cs_AuthorizationContextDigest c) "")) else "invalid command delegation binding" in
  require is_in (cs_Kind c) commandOperations else "unsupported command operation" in
  require negb (cs_ClaimGeneration c =? 0) && negb (cs_InstanceGeneration c =? 0) && negb (cs_CommandSequence c =? 0)
    else "command generations and sequence must be positive" in
  require (0 <? zlen (cs_Payload c)) && (zlen (cs_Payload c) <=? maxCommandPayloadBytes) && bool_decide (is_Some (json_parse (cs_Payload c)))
    else "invalid command payload" in
  let* (issued, expires) := validate_window (cs_IssuedAt c) (cs_ExpiresAt c) maxCommandLifetime now in
  if String.eqb (cs_Kind c) "renew" then
    let* lease := DecodeWorkloadLease (cs_Payload c) now in
    let leaseExpiry := default 0 (parse_rfc3339 (wl_ExpiresAt lease)) in
    require (issued <? leaseExpiry) && (leaseExpiry <=? issued + MaxWorkloadLeaseDuration) && (leaseExpiry <=? expires)
      else "workload lease exceeds its signed command window" in Ok tt
  else Ok tt.

(** ** Delegations *)

Definition ValidSchedulingAttribute (value : string) : bool :=
  negb (String.eqb value "") && (slen value <=? MaxExecutorSchedulingAttribute) && utf8_valid value && String.eqb (trim_space value) value
  && forallb (fun char => ((97 <=? char) && (char <=? 122)) || ((65 <=? char) && (char <=? 90)) || ((48 <=? char) && (char <=? 57))
       || existsb (Z.eqb char) [46; 95; 58; 47; 45]) (to_runes value).

Definition labels_ok (labels : option (list CommandDelegationLabel)) : bool :=
  forallb (fun label => ValidSchedulingAttribute (dl_Key label) && ValidSchedulingAttribute (dl_Value label)) (items labels) && ascending (dl_Key <$> items labels).

Definition validCommandDelegationPlacement (placement : CommandDelegationPlacement) : bool :=
  is_in (dp_RequiredIsolation placement) [""; "gvisor"]%string
  && is_in (dp_RequiredAssurance placement) [""%string; RuntimeAssuranceSharedHost; RuntimeAssuranceDedicatedHost]
  && bool_decide (is_Some (dp_RequiredLabels placement)) && (zlen (items (dp_RequiredLabels placement)) <=? maxCommandPlacementLabels)
  && (zlen (items (dp_PreferredLabels placement)) <=? maxCommandPlacementLabels)
  && (String.eqb (dp_SpreadBy placement) "" || ValidSchedulingAttribute (dp_SpreadBy placement))
  && bool_decide (is_Some (dp_Tolerations placement)) && (zlen (items (dp_Tolerations placement)) <=? maxCommandPlacementTolerations)
  && labels_ok (dp_RequiredLabels placement) && labels_ok (dp_PreferredLabels placement)
  && forallb ValidSchedulingAttribute (items (dp_Tolerations placement)) && ascending (items (dp_Tolerations placement)).

Definition validDelegatedCapabilityFields (t : CommandDelegationAdmissionTemplate) : bool :=
  let wanted := dt_Capabilities t in
  (if ca_State wanted then is_in (dt_StateDisposition t) ["new"; "resume"]%string else String.eqb (dt_StateDisposition t) "none")
  && (if ca_Inference wanted then bounded (dt_InferenceRouteID t) 128 && bounded (dt_ModelAlias t) 256
      else String.eqb (dt_InferenceRouteID t) "" && String.eqb (dt_ModelAlias t) "")
  && (if ca_Service wanted then bounded (dt_ServiceID t) 128 else String.eqb (dt_ServiceID t) "")
  && Bool.eqb (ca_Egress wanted) (negb (no_items (dt_EgressRouteIDs t))) && Bool.eqb (ca_Connector wanted) (negb (no_items (dt_ConnectorIDs t)))
  && is_in (dt_EffectMode t) [""%string; EffectModeStandard; EffectModeAuthorized]
  && (negb (String.eqb (dt_EffectMode t) EffectModeAuthorized) || (ca_Connector wanted && negb (ca_Egress wanted))).

Definition canonicalDelegatedIDs (values : option (list string)) (limit : Z) : bool :=
  (zlen (items values) <=? limit) && forallb routeID (items values) && ascending (items values).

Definition Template_Validate (t : CommandDelegationAdmissionTemplate) : result unit :=
  require digest (dt_CapsuleDigest t) && is_ok (ResourceLimits_Validate (dt_Resources t)) && validDelegatedCapabilityFields t
    && canonicalDelegatedIDs (dt_EgressRouteIDs t) 32 && canonicalDelegatedIDs (dt_ConnectorIDs t) 32
    else "invalid command delegation admission template" in
  require from_option validCommandDelegationPlacement true (dt_Placement t) else "invalid command delegation placement" in Ok tt.

Definition instance_ok (instance : CommandDelegationInstance) : bool :=
  bounded (di_InstanceID instance) 256 && bounded (di_LineageID instance) 256 && negb (di_MinInstanceGeneration instance =? 0)
  && (di_MinInstanceGeneration instance <=? di_MaxInstanceGeneration instance).

(** The instances ascend by identifier; [previous] is the one before. *)
Fixpoint instance_loop (lineages : list string) (previous : option string) (instances : list CommandDelegationInstance) : result unit :=
  match instances with
  | [] => Ok tt
  | instance :: instances =>
      require instance_ok instance && from_option (fun p => str_lt p (di_InstanceID instance)) true previous
        else "command delegation instances are invalid or non-canonical" in
      require negb (is_in (di_LineageID instance) lineages) else "command delegation lineages must be unique" in
      instance_loop (di_LineageID instance :: lineages) (Some (di_InstanceID instance)) instances
  end.

Definition has_operation (d : CommandDelegation) (operation : string) : bool := contains (cd_Operations d) operation.

(** A delegation to fork one agent lives longer. *)
Definition max_lifetime (d : CommandDelegation) : Z :=
  match cd_Admission d with
  | Some admission =>
      if (zlen (items (cd_NodeIDs d)) =? 1) && (zlen (items (cd_Instances d)) =? 1) && String.eqb (dt_StateDisposition admission) "resume"
         && has_operation d "clone-state" && has_operation d "purge" then maxForkDelegationLifetime else maxCommandDelegationLifetime
  | None => maxCommandDelegationLifetime
  end.

Definition CommandDelegation_Validate (d : CommandDelegation) (now : Z) : result unit :=
  require String.eqb (cd_SchemaVersion d) CommandDelegationSchemaV1 && routeID (cd_DelegationID d) && bounded (cd_TenantID d) 128
    && bounded (cd_ControllerKeyID d) 256 && bounded (cd_ControllerPublicKey d) 1024 else "invalid command delegation identity" in
  require bool_decide (is_Some (canonicalPublicKey (cd_ControllerPublicKey d))) else "invalid command delegation controller key" in
  require negb (no_items (cd_Operations d)) && (zlen (items (cd_Operations d)) <=? zlen commandOperations)
    && negb (no_items (cd_NodeIDs d)) && (zlen (items (cd_NodeIDs d)) <=? maxCommandDelegationNodes)
    && negb (no_items (cd_Instances d)) && (zlen (items (cd_Instances d)) <=? maxCommandDelegationInstances) else "invalid command delegation scope" in
  require forallb (fun operation => is_in operation commandOperations) (items (cd_Operations d)) && ascending (items (cd_Operations d))
    else "command delegation operations are invalid or non-canonical" in
  require forallb (fun nodeID => bounded nodeID 128) (items (cd_NodeIDs d)) && ascending (items (cd_NodeIDs d))
    else "command delegation nodes are invalid or non-canonical" in
  let* _ := instance_loop [] None (items (cd_Instances d)) in
  require negb (cd_ClaimGeneration d =? 0) else "invalid command delegation claim generation" in
  require Bool.eqb (has_operation d "admit") (bool_decide (is_Some (cd_Admission d))) else "command delegation admission template must match admit authority" in
  let* _ := match cd_Admission d with Some admission => Template_Validate admission | None => Ok tt end in
  let* _ := validate_window (cd_IssuedAt d) (cd_ExpiresAt d) (max_lifetime d) now in Ok tt.

(** [slices.BinarySearchFunc]: the loop keeps [i <= j] and halves the rest; [fuel] is the length of the list. *)
Fixpoint binary_search (fuel : nat) (l : list CommandDelegationInstance) (wanted : string) (i j : nat) : nat :=
  match fuel with
  | O => i
  | S fuel =>
      if (i <? j)%nat then
        let h := ((i + j) / 2)%nat in
        match l !! h with
        | Some x => if str_lt (di_InstanceID x) wanted then binary_search fuel l wanted (h + 1) j else binary_search fuel l wanted i h
        | None => i
        end
      else i
  end.
Definition delegatedInstance (instances : option (list CommandDelegationInstance)) (instanceID : string) : option CommandDelegationInstance :=
  let l := items instances in
  instance ← l !! binary_search (length l) l instanceID 0 (length l);
  if String.eqb (di_InstanceID instance) instanceID then Some instance else None.

Definition matches (t : CommandDelegationAdmissionTemplate) (intent : InstanceIntent) (tenantID nodeID : string) (instance : CommandDelegationInstance) : bool :=
  String.eqb (it_TenantID intent) tenantID && String.eqb (it_NodeID intent) nodeID && String.eqb (it_InstanceID intent) (di_InstanceID instance)
  && String.eqb (it_LineageID intent) (di_LineageID instance) && (di_MinInstanceGeneration instance <=? it_Generation intent)
  && (it_Generation intent <=? di_MaxInstanceGeneration instance) && String.eqb (it_CapsuleDigest intent) (dt_CapsuleDigest t)
  && bool_decide (it_Resources intent = dt_Resources t) && bool_decide (it_Capabilities intent = dt_Capabilities t)
  && String.eqb (it_StateDisposition intent) (dt_StateDisposition t) && String.eqb (it_InferenceRouteID intent) (dt_InferenceRouteID t)
  && String.eqb (it_ModelAlias intent) (dt_ModelAlias t) && String.eqb (it_ServiceID intent) (dt_ServiceID t)
  && bool_decide (items (it_EgressRouteIDs intent) = items (dt_EgressRouteIDs t)) && bool_decide (items (it_ConnectorIDs intent) = items (dt_ConnectorIDs t))
  && String.eqb (it_EffectMode intent) (dt_EffectMode t).

Definition DecodeCommandDelegationEnvelope (encoded : string) : result bytes :=
  require negb (String.eqb encoded "") && (slen encoded <=? b64_encoded_len maxCommandDelegationBytes) else "signed command delegation exceeds its limit" in
  let* raw := opt_ok (b64_decode_string encoded) "signed command delegation is not canonical base64" in
  require String.eqb (b64_encode_string raw) encoded else "signed command delegation is not canonical base64" in
  Ok raw.

(** The admission payload of a command against the template. *)
Definition authorize_admission (statement : CommandDelegation) (command : CommandStatement) (instance : CommandDelegationInstance) : result unit :=
  let* payload := DecodeStrictInto (cs_Payload command) maxCommandPayloadBytes in
  let* capsule := opt_ok (b64_decode_string (ap_Capsule payload)) "delegated admission capsule differs from its signed scope" in
  require String.eqb (b64_encode_string capsule) (ap_Capsule payload) else "delegated admission capsule differs from its signed scope" in
  let* admission := opt_ok (cd_Admission statement) "delegated admission capsule differs from its signed scope" in
  require String.eqb (Dsse.Digest capsule) (dt_CapsuleDigest admission) else "delegated admission capsule differs from its signed scope" in
  require matches admission (ap_Intent payload) (cd_TenantID statement) (cs_NodeID command) instance
    && String.eqb (it_InstanceID (ap_Intent payload)) (cs_InstanceID command) && (it_Generation (ap_Intent payload) =? cs_InstanceGeneration command)
    else "delegated admission intent differs from its signed scope" in Ok tt.

Definition instant (s : string) : Z := default 0 (parse_rfc3339 s).

Definition Authorize (delegation : VerifiedCommandDelegation) (command : CommandStatement) (raw : bytes) : result unit :=
  let statement := vd_Statement delegation in
  let exceeds := "delegated command exceeds its signed scope"%string in
  let* instance := opt_ok (delegatedInstance (cd_Instances statement) (cs_InstanceID command)) exceeds in
  require String.eqb (cs_AuthorizationContextDigest command) (vd_EnvelopeDigest delegation) && String.eqb (Dsse.Digest raw) (vd_EnvelopeDigest delegation)
    && bool_decide (DecodeCommandDelegationEnvelope (cs_DelegationDSSEBase64 command) = Ok raw) && String.eqb (cs_TenantID command) (cd_TenantID statement) && contains (cd_NodeIDs statement) (cs_NodeID command)
    && contains (cd_Operations statement) (cs_Kind command) && (cs_ClaimGeneration command =? cd_ClaimGeneration statement)
    && (di_MinInstanceGeneration instance <=? cs_InstanceGeneration command) && (cs_InstanceGeneration command <=? di_MaxInstanceGeneration instance)
    else exceeds in
  require (instant (cd_IssuedAt statement) <=? instant (cs_IssuedAt command)) && (instant (cs_ExpiresAt command) <=? instant (cd_ExpiresAt statement))
    else "delegated command validity exceeds its signed delegation" in
  if String.eqb (cs_Kind command) "admit" then authorize_admission statement command instance else Ok tt.

(** The keys of the tenant whose scope has every delegated operation. *)
Definition delegationSignerKeys (policy : SitePolicy) (tenantID : string) (operations : option (list string)) : result (gmap string bytes) :=
  let* rule := opt_ok (tenant policy tenantID) "unknown command delegation tenant" in
  let* keys := collect_keys ((fun k => (ck_KeyID k, ck_PublicKey k)) <$>
    List.filter (fun k => forallb (fun operation => contains (ck_Operations k) operation) (items operations)) (items (tn_CommandKeys rule))) ∅ in
  require negb (bool_decide (keys = ∅)) else "no tenant command key is authorized for every delegated operation" in
  Ok keys.

(** A statement that is read before its signature is checked. *)
Definition InspectCommandDelegation (raw : bytes) (now : Z) : result CommandDelegation :=
  require (0 <? zlen raw) && (zlen raw <=? maxCommandDelegationBytes) else "command delegation envelope exceeds its limit" in
  let* envelope := Dsse.Parse raw in
  require String.eqb (Dsse.PayloadType envelope) CommandDelegationPayloadType else "parse command delegation envelope" in
  let* payload := opt_ok (b64_decode_string (Dsse.Payload envelope)) "decode command delegation payload" in
  require String.eqb (b64_encode_string payload) (Dsse.Payload envelope) else "decode command delegation payload" in
  let* statement := DecodeStrictInto payload maxCommandDelegationBytes in
  let* _ := CommandDelegation_Validate statement now in
  Ok statement.

Section verify.
Context (verify : bytes -> bytes -> bytes -> bool).

Definition VerifyCommandDelegation (raw : bytes) (policy : SitePolicy) (now : Z) : result VerifiedCommandDelegation :=
  require (0 <? zlen raw) && (zlen raw <=? maxCommandDelegationBytes) else "command delegation envelope exceeds its limit" in
  let* envelope := Dsse.Parse raw in
  require String.eqb (Dsse.PayloadType envelope) CommandDelegationPayloadType else "parse command delegation envelope" in
  let* untrustedPayload := opt_ok (b64_decode_string (Dsse.Payload envelope)) "decode command delegation routing payload" in
  let* routed := DecodeStrictInto untrustedPayload maxCommandDelegationBytes in
  let* _ := CommandDelegation_Validate routed now in
  let* keys := delegationSignerKeys policy (cd_TenantID routed) (cd_Operations routed) in
  let* (verifiedPayload, signerKeyID) := Dsse.Verify verify raw CommandDelegationPayloadType keys in
  let* statement := DecodeStrictInto verifiedPayload maxCommandDelegationBytes in
  let* _ := CommandDelegation_Validate statement now in
  let* controllerKey := opt_ok (decodePublicKey (cd_ControllerPublicKey statement)) "not an Ed25519 public key" in
  Ok (mkVerifiedCommandDelegation statement (Dsse.Digest raw) signerKeyID controllerKey).

(** A command signed by the controller of a delegation. *)
Definition verify_command (delegation : VerifiedCommandDelegation) (commandRaw delegationRaw : bytes) (now : Z) : result CommandStatement :=
  let* (verifiedPayload, _) := Dsse.Verify verify commandRaw CommandPayloadType {[ cd_ControllerKeyID (vd_Statement delegation) := vd_ControllerKey delegation ]} in
  let* command := DecodeCommand verifiedPayload Dsse.MaxPayloadBytes in
  let* _ := CommandStatement_Validate command now in
  let* _ := Authorize delegation command delegationRaw in
  Ok command.

Definition VerifyDelegatedCommand (commandRaw delegationRaw : bytes) (policy : SitePolicy) (now : Z) : result CommandStatement :=
  let* delegation := VerifyCommandDelegation delegationRaw policy now in
  verify_command delegation commandRaw delegationRaw now.

Definition VerifyControllerCommand (commandRaw delegationRaw : bytes) (now : Z) : result CommandStatement :=
  let* statement := InspectCommandDelegation delegationRaw now in
  let* controllerKey := opt_ok (decodePublicKey (cd_ControllerPublicKey statement)) "decode delegated controller key" in
  verify_command (mkVerifiedCommandDelegation statement (Dsse.Digest delegationRaw) "" controllerKey) commandRaw delegationRaw now.
End verify.

Definition MarshalCommandDelegation (statement : CommandDelegation) : result bytes :=
  let* _ := CommandDelegation_Validate statement 0 in Ok (json_print (to_json statement)).

End Delegation.
