(* ===== verification/DelegationSafety.v ===== *)
(** * What delegated commands may do

    Lemmas and theorems on [Delegation]: a delegated command stays within the delegation and within the scope of the tenant key that signed it. *)

From Stdlib Require Import Ascii.
From S2P Require Import Prelude GoText GoTime GoFS FenceStore GoJson GoCrypto Strict Dsse GoRune GoNet Admission AdmissionPolicy Delegation.
Import Admission AdmissionPolicy Delegation.

Module DelegationSafety.

(** ** The instances of a delegation *)

Definition ascends (l : list CommandDelegationInstance) : Prop := StronglySorted (fun a b => str_lt (di_InstanceID a) (di_InstanceID b) = true) l.

Lemma instance_loop_inv lineages previous l : instance_loop lineages previous l = Ok tt ->
  ascends l /\ NoDup (di_LineageID <$> l) /\ (forall i, i ∈ l -> instance_ok i = true /\ di_LineageID i ∉ lineages /\ from_option (fun p => str_lt p (di_InstanceID i) = true) True previous).
Proof.
  revert lineages previous. induction l as [|x l IH]; intros lineages previous H; cbn [instance_loop] in H.
  { split_and!; [constructor | constructor | by intros ? ?%not_elem_of_nil]. }
  do 2 step H. breflect. match goal with Hi : is_in _ _ = false |- _ => apply is_in_false in Hi end. apply IH in H as (Hs & Hnd & Hall). split_and!.
  - constructor; [done|]. apply Forall_forall. intros y Hy. by destruct (Hall y Hy) as (_ & _ & ?).
  - rewrite fmap_cons. constructor; [|done]. intros (y & E' & Hy)%list_elem_of_fmap. destruct (Hall y Hy) as (_ & Hn & _). apply Hn. rewrite <- E'. left.
  - intros i [-> | Hi]%elem_of_cons; [split_and!; try done; by destruct previous|]. destruct (Hall i Hi) as (? & Hn & Hlt). rewrite not_elem_of_cons in Hn.
    split_and!; [done | tauto |]. destruct previous as [p|]; [|done]. cbn [from_option] in *. by eapply str_lt_trans.
Qed.

Section search.
Context (l : list CommandDelegationInstance) (wanted : string) (Hs : ascends l).

Definition less (n : nat) : Prop := exists x, l !! n = Some x /\ str_lt (di_InstanceID x) wanted = true.

Lemma ascends_lookup i j x y : (i < j)%nat -> l !! i = Some x -> l !! j = Some y -> str_lt (di_InstanceID x) (di_InstanceID y) = true.
Proof.
  clear wanted. revert i j. induction Hs as [|a l' Hl IH Ha]; intros i j Hij Hi Hj; [done|]. destruct j as [|j]; [lia|]. cbn in Hj. destruct i as [|i]; cbn in Hi.
  - simplify_eq. rewrite Forall_forall in Ha. apply Ha. by eapply list_elem_of_lookup_2.
  - apply (IH Hl i j); [lia | done | done].
Qed.

Lemma search_spec fuel i j : (j - i <= fuel)%nat -> (i <= j <= length l)%nat -> (forall n, (n < i)%nat -> less n) -> (forall n, (j <= n)%nat -> ~ less n) ->
  let r := binary_search fuel l wanted i j in (r <= length l)%nat /\ (forall n, (n < r)%nat -> less n) /\ (forall n, (r <= n)%nat -> ~ less n).
Proof.
  revert i j. induction fuel as [|fuel IH]; intros i j Hf Hij Hlo Hhi; cbn [binary_search].
  { assert (i = j) as -> by lia. split_and!; [lia | done | done]. }
  destruct (Nat.ltb_spec i j) as [Hlt | Hge]. 2: { assert (i = j) as -> by lia. split_and!; [lia | done | done]. }
  set (h := ((i + j) / 2)%nat). assert (Hh : (i <= h < j)%nat) by (unfold h; split; [apply Nat.div_le_lower_bound; lia | apply Nat.div_lt_upper_bound; lia]).
  destruct (l !! h) as [x|] eqn:Ex. 2: { apply lookup_ge_None in Ex. lia. }
  destruct (str_lt (di_InstanceID x) wanted) eqn:Elt.
  - apply IH; [lia | lia | | done]. intros n Hn. destruct (decide (n = h)) as [-> | Hne]; [by exists x|].
    destruct (l !! n) as [y|] eqn:Ey. 2: { apply lookup_ge_None in Ey. lia. } exists y. split; [done|]. eapply str_lt_trans; [|exact Elt]. apply (ascends_lookup n h); [lia | done | done].
  - apply IH; [lia | lia | done |]. intros n Hn (y & Ey & Hy). destruct (decide (n = h)) as [-> | Hne]; [congruence|].
    assert (str_lt (di_InstanceID x) wanted = true); [|congruence]. eapply str_lt_trans; [|exact Hy]. apply (ascends_lookup h n); [lia | done | done].
Qed.

(** The binary search finds exactly the instance with the identifier. *)
Lemma search_exact instance : (x ← l !! binary_search (length l) l wanted 0 (length l); if String.eqb (di_InstanceID x) wanted then Some x else None) = Some instance <->
  instance ∈ l /\ di_InstanceID instance = wanted.
Proof.
  destruct (search_spec (length l) 0 (length l)) as (_ & Hlo & Hhi); [lia | lia | lia | intros n Hn (x & Hx & _); apply lookup_lt_Some in Hx; lia|].
  set (r := binary_search _ _ _ _ _) in *. split.
  - destruct (l !! r) as [x|] eqn:Ex; [|done]. cbn [mbind option_bind]. destruct (String.eqb_spec (di_InstanceID x) wanted) as [E|]; [|done]. intros [= <-]. split; [by eapply list_elem_of_lookup_2 | done].
  - intros [[n Hn]%list_elem_of_lookup_1 Hid].
    assert (~ less n) as Hnl by (intros (y & Hy & Hlt); simplify_eq; by rewrite Hid, str_lt_irrefl in Hlt).
    assert (n = r) as ->; [|by rewrite Hn; cbn [mbind option_bind]; rewrite Hid, String.eqb_refl]. destruct (Nat.lt_trichotomy n r) as [Hlt | [-> | Hgt]]; [by destruct Hnl; apply Hlo | done|].
    exfalso. destruct (l !! r) as [y|] eqn:Ey. 2: { apply lookup_ge_None in Ey. apply lookup_lt_Some in Hn. lia. }
    apply (Hhi r); [lia|]. exists y. split; [done|]. rewrite <- Hid. by apply (ascends_lookup r n).
Qed.
End search.

(** In a valid delegation the binary search for an instance finds exactly the entry with that identifier, and there is at most one. *)
Theorem delegated_instance_exact d now instanceID instance : CommandDelegation_Validate d now = Ok tt ->
  delegatedInstance (cd_Instances d) instanceID = Some instance <-> instance ∈ items (cd_Instances d) /\ di_InstanceID instance = instanceID.
Proof.
  intros H. unfold CommandDelegation_Validate in H. do 6 step H. match goal with Hi : instance_loop _ _ _ = Ok ?u |- _ => destruct u; apply instance_loop_inv in Hi as (Hs & _) end.
  by apply search_exact.
Qed.

(** ** Signers *)

Lemma signer_keys policy tenantID operations keys id key : SitePolicy_Validate policy = Ok tt -> delegationSignerKeys policy tenantID operations = Ok keys -> keys !! id = Some key ->
  exists t k, t ∈ items (sp_Tenants policy) /\ tn_TenantID t = tenantID /\ k ∈ items (tn_CommandKeys t) /\ ck_KeyID k = id /\
    decodePublicKey (ck_PublicKey k) = Some key /\ forall operation, operation ∈ items operations -> operation ∈ items (ck_Operations k).
Proof.
  intros Hp%policy_inv H Hk. unfold delegationSignerKeys in H. destruct (tenant policy tenantID) as [t|] eqn:Et; [|done]. cbn [opt_ok] in H.
  destruct (collect_keys _ _) as [keys'|] eqn:Ek; [|done]. step H. simplify_eq. apply tenant_spec in Et as [Hin Hid]; [|done].
  destruct (collect_keys_sound _ _ _ _ _ Ek Hk) as [(encoded & (k & [= -> ->] & Hf)%list_elem_of_fmap & Hdec) | Hnone]; [|by rewrite lookup_empty in Hnone].
  apply list_elem_of_In, List.filter_In in Hf as [Hf Hops]. exists t, k. split_and!; try done; [by apply list_elem_of_In|].
  intros operation Ho%list_elem_of_In. apply (proj1 (forallb_forall _ _) Hops) in Ho. by apply contains_spec.
Qed.

(** What a verified delegation is. *)
Lemma verify_delegation_inv verify raw policy now vd : VerifyCommandDelegation verify raw policy now = Ok vd -> SitePolicy_Validate policy = Ok tt ->
  exists payload t k key, t ∈ items (sp_Tenants policy) /\ tn_TenantID t = cd_TenantID (vd_Statement vd) /\ k ∈ items (tn_CommandKeys t) /\
    decodePublicKey (ck_PublicKey k) = Some key /\ (forall operation, operation ∈ items (cd_Operations (vd_Statement vd)) -> operation ∈ items (ck_Operations k)) /\
    Dsse.authenticated verify {[ ck_KeyID k := key ]} CommandDelegationPayloadType payload (ck_KeyID k) /\
    DecodeStrictInto payload maxCommandDelegationBytes = Ok (vd_Statement vd) /\ CommandDelegation_Validate (vd_Statement vd) now = Ok tt /\
    decodePublicKey (cd_ControllerPublicKey (vd_Statement vd)) = Some (vd_ControllerKey vd) /\ vd_EnvelopeDigest vd = Dsse.Digest raw.
Proof.
  unfold VerifyCommandDelegation. intros H Hp. step H. destruct (Dsse.Parse raw) as [envelope|] eqn:Eparse; [|done]. step H.
  destruct (b64_decode_string (Dsse.Payload envelope)) as [untrusted|] eqn:Eb; [|done]. cbn [opt_ok] in H. do 3 step H.
  destruct (Dsse.Verify _ _ _ _) as [[payload signer]|] eqn:Ev; [|done]. do 2 step H. repeat match goal with u : unit |- _ => destruct u end.
  destruct (decodePublicKey (cd_ControllerPublicKey _)) as [controller|] eqn:Ec; [|done]. cbn [opt_ok] in H. simplify_eq.
  destruct (Dsse.Verify_payload _ _ _ _ _ _ Ev) as (envelope' & Ep' & Eb'). rewrite Eparse in Ep'. injection Ep' as <-. rewrite Eb in Eb'. injection Eb' as <-.
  match goal with H1 : DecodeStrictInto untrusted _ = Ok ?a, H2 : DecodeStrictInto untrusted _ = Ok ?b |- _ => rewrite H1 in H2; injection H2 as -> end.
  apply Dsse.Verify_inv in Ev as [(key & sig & Hkey & Hrest) _].
  match goal with Hs : delegationSignerKeys _ _ _ = Ok _ |- _ => destruct (signer_keys _ _ _ _ _ _ Hp Hs Hkey) as (t & k & Ht & Htid & Hk & Hid & Hdec & Hops) end.
  cbn [vd_Statement vd_ControllerKey vd_EnvelopeDigest]. exists untrusted, t, k, key. split_and!; try done. exists key, sig. split; [by rewrite lookup_singleton_eq | done].
Qed.

(** ** Confinement *)

(** The scope of a delegation that a command must stay in. *)
Record within_delegation (d : CommandDelegation) (command : CommandStatement) : Prop := {
  wd_tenant : cs_TenantID command = cd_TenantID d;
  wd_node : cs_NodeID command ∈ items (cd_NodeIDs d);
  wd_operation : cs_Kind command ∈ items (cd_Operations d);
  wd_claim : cs_ClaimGeneration command = cd_ClaimGeneration d;
  wd_instance : exists i, i ∈ items (cd_Instances d) /\ di_InstanceID i = cs_InstanceID command /\
    di_MinInstanceGeneration i <= cs_InstanceGeneration command <= di_MaxInstanceGeneration i;
  wd_window : exists di de ci ce, parse_rfc3339 (cd_IssuedAt d) = Some di /\ parse_rfc3339 (cd_ExpiresAt d) = Some de /\
    parse_rfc3339 (cs_IssuedAt command) = Some ci /\ parse_rfc3339 (cs_ExpiresAt command) = Some ce /\ di <= ci /\ ci < ce /\ ce <= de /\ ce - ci <= maxCommandLifetime;
  wd_admission : cs_Kind command = "admit"%string -> exists payload admission capsule i,
    DecodeStrictInto (cs_Payload command) maxCommandPayloadBytes = Ok payload /\ cd_Admission d = Some admission /\
    b64_decode_string (ap_Capsule payload) = Some capsule /\ Dsse.Digest capsule = dt_CapsuleDigest admission /\
    i ∈ items (cd_Instances d) /\ matches admission (ap_Intent payload) (cd_TenantID d) (cs_NodeID command) i = true /\
    it_InstanceID (ap_Intent payload) = cs_InstanceID command /\ it_Generation (ap_Intent payload) = cs_InstanceGeneration command;
}.

Lemma window_inv issuedAt expiresAt lifetime now w : validate_window issuedAt expiresAt lifetime now = Ok w ->
  parse_rfc3339 issuedAt = Some w.1 /\ parse_rfc3339 expiresAt = Some w.2 /\ w.1 < w.2 /\ w.2 - w.1 <= lifetime /\ (now <> 0 -> w.1 <= now + maxCommandClockSkew /\ now < w.2).
Proof.
  unfold validate_window. intros H. destruct (parse_rfc3339 issuedAt) as [i|]; [|done]. destruct (parse_rfc3339 expiresAt) as [e|]; [|done]. cbn [opt_ok] in H. do 3 step H. breflect. simplify_eq.
  unfold is_zero in *. cbn [fst snd]. split_and!; try done. intros Hn. lia.
Qed.

Lemma delegated_search (instances : option (list CommandDelegationInstance)) id i : delegatedInstance instances id = Some i -> i ∈ items instances /\ di_InstanceID i = id.
Proof.
  unfold delegatedInstance. destruct (_ !! _) as [x|] eqn:Ex; [|done]. cbn [mbind option_bind]. destruct (String.eqb_spec (di_InstanceID x) id) as [E|]; [|done]. intros [= <-].
  split; [by eapply list_elem_of_lookup_2 | done].
Qed.

Lemma command_window c now : CommandStatement_Validate c now = Ok tt -> exists ci ce, parse_rfc3339 (cs_IssuedAt c) = Some ci /\ parse_rfc3339 (cs_ExpiresAt c) = Some ce /\
  ci < ce /\ ce - ci <= maxCommandLifetime /\ (now <> 0 -> ci <= now + maxCommandClockSkew /\ now < ce) /\
  (cs_Kind c = "renew"%string -> exists lease, DecodeWorkloadLease (cs_Payload c) now = Ok lease /\
     ci < instant (wl_ExpiresAt lease) <= ci + MaxWorkloadLeaseDuration /\ instant (wl_ExpiresAt lease) <= ce).
Proof.
  unfold CommandStatement_Validate. intros H. do 6 step H. destruct (validate_window _ _ _ _) as [[ci ce]|] eqn:Ew; [|done]. apply window_inv in Ew as (? & ? & ? & ? & ?). cbn [fst snd] in *.
  exists ci, ce. split_and!; try done. intros Hk. rewrite Hk, String.eqb_refl in H. do 2 step H. breflect. eexists. split; [done|]. unfold instant. lia.
Qed.

Lemma delegation_window d now : CommandDelegation_Validate d now = Ok tt -> exists i e, parse_rfc3339 (cd_IssuedAt d) = Some i /\ parse_rfc3339 (cd_ExpiresAt d) = Some e /\
  (now <> 0 -> now < e).
Proof.
  unfold CommandDelegation_Validate. intros H. do 10 step H. match goal with Hw : validate_window _ _ _ _ = Ok ?w |- _ => apply window_inv in Hw as (? & ? & _ & _ & Hn); exists w.1, w.2 end.
  split_and!; try done. intros Hz. by destruct (Hn Hz).
Qed.

Lemma authorize_inv vd command raw now : Authorize vd command raw = Ok tt -> CommandDelegation_Validate (vd_Statement vd) now = Ok tt -> CommandStatement_Validate command now = Ok tt ->
  within_delegation (vd_Statement vd) command /\ DecodeCommandDelegationEnvelope (cs_DelegationDSSEBase64 command) = Ok raw /\
  cs_AuthorizationContextDigest command = Dsse.Digest raw.
Proof.
  unfold Authorize. intros H Hd Hc. destruct (delegatedInstance _ _) as [i|] eqn:Ei; [|done]. cbn [opt_ok] in H. apply delegated_search in Ei as [Hin Hid]. do 2 step H. breflect.
  repeat match goal with He : String.eqb _ _ = true |- _ => apply String.eqb_eq in He | He : contains _ _ = true |- _ => apply contains_spec in He end.
  destruct (command_window _ _ Hc) as (ci & ce & Eci & Ece & Hlt & Hlife & _). destruct (delegation_window _ _ Hd) as (di & de & Edi & Ede & _).
  unfold instant in *. rewrite Eci, Ece, Edi, Ede in *. cbn [default from_option id] in *. split_and!; [|done | congruence]. constructor; try done.
  - exists i. done.
  - exists di, de, ci, ce. split_and!; done.
  - intros Ek. rewrite Ek, String.eqb_refl in H. unfold authorize_admission in H. step H. destruct (b64_decode_string _) as [capsule|] eqn:Eb; [|done]. cbn [opt_ok] in H. step H.
    destruct (cd_Admission _) as [admission|] eqn:Ea; [|done]. cbn [opt_ok] in H. do 2 step H. breflect.
    repeat match goal with He : String.eqb _ _ = true |- _ => apply String.eqb_eq in He end. eexists _, admission, capsule, i. split_and!; done.
Qed.

(** C5: A delegated command that is accepted was signed by the controller key named in a delegation which itself was signed by a command key of the tenant, in the
    current policy, whose scope has every delegated operation. The command stays within the delegation (tenant, node, operation, claim, instance and generation,
    validity window, and for an admission the exact capsule and intent), and its operation is within the scope of the tenant's own key. *)
Theorem delegated_command_confined verify commandRaw delegationRaw policy now command :
  VerifyDelegatedCommand verify commandRaw delegationRaw policy now = Ok command -> SitePolicy_Validate policy = Ok tt ->
  exists d payload commandPayload t k key controller,
    t ∈ items (sp_Tenants policy) /\ tn_TenantID t = cs_TenantID command /\ k ∈ items (tn_CommandKeys t) /\ decodePublicKey (ck_PublicKey k) = Some key /\
    (forall operation, operation ∈ items (cd_Operations d) -> operation ∈ items (ck_Operations k)) /\ cs_Kind command ∈ items (ck_Operations k) /\
    Dsse.authenticated verify {[ ck_KeyID k := key ]} CommandDelegationPayloadType payload (ck_KeyID k) /\
    DecodeStrictInto payload maxCommandDelegationBytes = Ok d /\ CommandDelegation_Validate d now = Ok tt /\
    decodePublicKey (cd_ControllerPublicKey d) = Some controller /\
    Dsse.authenticated verify {[ cd_ControllerKeyID d := controller ]} CommandPayloadType commandPayload (cd_ControllerKeyID d) /\
    DecodeCommand commandPayload Dsse.MaxPayloadBytes = Ok command /\ CommandStatement_Validate command now = Ok tt /\
    cs_AuthorizationContextDigest command = Dsse.Digest delegationRaw /\ within_delegation d command.
Proof.
  unfold VerifyDelegatedCommand, verify_command. intros H Hp. destruct (VerifyCommandDelegation _ _ _ _) as [vd|] eqn:Ev; [|done].
  destruct (verify_delegation_inv _ _ _ _ _ Ev Hp) as (payload & t & k & key & Ht & Htid & Hk & Hdec & Hops & Ha & Hd & Hv & Hc & _).
  destruct (Dsse.Verify _ commandRaw _ _) as [[commandPayload signer]|] eqn:Ec; [|done]. do 3 step H. repeat match goal with u : unit |- _ => destruct u end. simplify_eq.
  match goal with H1 : Authorize _ _ _ = Ok _, H2 : CommandStatement_Validate _ _ = Ok _ |- _ => destruct (authorize_inv _ _ _ _ H1 Hv H2) as (Hw & _ & Hdig) end.
  apply Dsse.Verify_inv in Ec as [Hauth _].
  assert (signer = cd_ControllerKeyID (vd_Statement vd)) as ->.
  { destruct Hauth as (k' & sig & Hk' & _). by apply lookup_singleton_Some in Hk' as [<- _]. }
  exists (vd_Statement vd), payload, commandPayload, t, k, key, (vd_ControllerKey vd). split_and!; try done; [rewrite (wd_tenant _ _ Hw); done | apply Hops, Hw].
Qed.

(** A workload lease in an accepted renewal ends after the command was issued, at most five minutes later, and not after the command expires; with a clock it
    lies in the future and at most seven minutes ahead. *)
Theorem renewed_lease_bounded c now : CommandStatement_Validate c now = Ok tt -> cs_Kind c = "renew"%string ->
  exists lease issued expires, DecodeWorkloadLease (cs_Payload c) now = Ok lease /\ parse_rfc3339 (cs_IssuedAt c) = Some issued /\ parse_rfc3339 (cs_ExpiresAt c) = Some expires /\
    issued < instant (wl_ExpiresAt lease) <= issued + MaxWorkloadLeaseDuration /\ instant (wl_ExpiresAt lease) <= expires /\
    exists t, canonical_time (wl_ExpiresAt lease) = Some t /\ t <> 0 /\ (now <> 0 -> now < t <= now + (MaxWorkloadLeaseDuration + CommandClockSkew)).
Proof.
  intros H Hk. destruct (command_window _ _ H) as (ci & ce & Eci & Ece & _ & _ & _ & Hr). destruct (Hr Hk) as (lease & Hl & Hb & He). exists lease, ci, ce. split_and!; try done; try lia.
  unfold DecodeWorkloadLease in Hl. do 2 step Hl. destruct (canonical_time _) as [t|] eqn:Et; [|done]. cbn [opt_ok] in Hl. do 2 step Hl. breflect. simplify_eq. exists t.
  unfold is_zero in *. split_and!; [done | lia | intros Hn; lia].
Qed.

(** ** Concrete runs

    A command as it is written, and read back with the bytes of its payload. *)

Definition command_members (c : CommandStatement) (payload : json) : list member := [
  always "schema_version" (JStr (cs_SchemaVersion c)); always "command_id" (JStr (cs_CommandID c));
  omitempty "authorization_context_digest" (empty_string (cs_AuthorizationContextDigest c)) (JStr (cs_AuthorizationContextDigest c));
  omitempty "delegation_dsse_base64" (empty_string (cs_DelegationDSSEBase64 c)) (JStr (cs_DelegationDSSEBase64 c));
  always "tenant_id" (JStr (cs_TenantID c)); always "node_id" (JStr (cs_NodeID c)); always "instance_id" (JStr (cs_InstanceID c));
  always "runtime_ref" (JStr (cs_RuntimeRef c)); always "kind" (JStr (cs_Kind c)); always "claim_generation" (json_int (cs_ClaimGeneration c));
  always "instance_generation" (json_int (cs_InstanceGeneration c)); always "command_sequence" (json_int (cs_CommandSequence c));
  always "issued_at" (JStr (cs_IssuedAt c)); always "expires_at" (JStr (cs_ExpiresAt c)); always "payload" payload].
Definition command_storable (c : CommandStatement) : bool :=
  utf8_valid (cs_SchemaVersion c) && utf8_valid (cs_CommandID c) && utf8_valid (cs_AuthorizationContextDigest c) &&
  utf8_valid (cs_DelegationDSSEBase64 c) && utf8_valid (cs_TenantID c) && utf8_valid (cs_NodeID c) && utf8_valid (cs_InstanceID c) &&
  utf8_valid (cs_RuntimeRef c) && utf8_valid (cs_Kind c) && in_u64b (cs_ClaimGeneration c) && in_u64b (cs_InstanceGeneration c) &&
  in_u64b (cs_CommandSequence c) && utf8_valid (cs_IssuedAt c) && utf8_valid (cs_ExpiresAt c).

Lemma members_always k v ms : always k v ∈ ms -> (k, v) ∈ members ms.
Proof.
  induction ms as [|[[k' e] v'] ms IH]; intros H; [by apply not_elem_of_nil in H|]. cbn [members]. apply elem_of_cons in H as [[= <- <- <-] | H]; [left|].
  destruct e; [by apply IH | right; by apply IH].
Qed.

Lemma command_json_ok c payload : command_storable c = true -> json_ok payload -> json_ok (obj (command_members c payload)).
Proof. unfold command_storable. intros H Hp. breflect. unfold command_members. struct_ok ltac:(first [done | by eexists]). Qed.

Lemma validate_raw d v : validateArbitraryJSON d v = Ok tt -> validateJSONValue KRawMessage d v = Ok tt.
Proof. destruct v; cbn [validateArbitraryJSON validateJSONValue strip_pointer allow_null]; by destruct (32 <? d)%nat. Qed.

Lemma command_json_shape c payload : command_storable c = true -> validateArbitraryJSON 1 payload = Ok tt -> validateJSONValue command_shape 0 (obj (command_members c payload)) = Ok tt.
Proof.
  unfold command_storable. intros H Hp. breflect. unfold command_members, command_shape.
  struct_shape ltac:(first [by apply validate_leaf; [lia|] | by apply validate_raw | done]).
Qed.

Lemma command_json_fields c payload : command_storable c = true -> command_fields (obj (command_members c payload)) (cs_Payload c) = Some c.
Proof. unfold command_storable. intros H. breflect. unfold command_members, command_fields. struct_read. repeat (field_back; cbn [mbind option_bind]). by destruct c. Qed.

Lemma decode_command_print c payload maximum : command_storable c = true -> json_ok payload -> validateArbitraryJSON 1 payload = Ok tt -> cs_Payload c = json_print payload ->
  zlen (json_print (obj (command_members c payload))) <= maximum -> DecodeCommand (json_print (obj (command_members c payload))) maximum = Ok c.
Proof.
  intros Hs Hok Hv Hp Hm. pose proof (command_json_ok c payload Hs Hok) as Hj. unfold DecodeCommand. destruct (json_print_head _ Hj) as (x & l & Ep & _).
  assert (0 < zlen (json_print (obj (command_members c payload)))) by (rewrite Ep, zlen_cons; pose proof (zlen_nonneg l); lia).
  rewrite (proj2 (Z.leb_gt _ _)), (proj2 (Z.ltb_ge _ _)), bool_decide_false by (lia || (rewrite Ep; done)). cbn [orb].
  rewrite json_parse_print, command_json_shape by done.
  unfold obj at 2. rewrite (raw_member_print _ "payload" payload), <- Hp, command_json_fields; [done | done | | |].
  - by apply json_ok_obj.
  - apply keys_members. nodup_keys.
  - apply members_always. unfold command_members. repeat first [left | right].
Qed.

Lemma command_size c payload : forallb (fun s => slen s <=? 128) [cs_SchemaVersion c; cs_CommandID c; cs_AuthorizationContextDigest c; cs_TenantID c; cs_NodeID c;
    cs_InstanceID c; cs_RuntimeRef c; cs_Kind c; cs_IssuedAt c; cs_ExpiresAt c] && (slen (cs_DelegationDSSEBase64 c) <=? 65536) && in_u64b (cs_ClaimGeneration c)
    && in_u64b (cs_InstanceGeneration c) && in_u64b (cs_CommandSequence c) = true -> zlen (json_print payload) <= 65536 ->
  zlen (json_print (obj (command_members c payload))) <= Dsse.MaxPayloadBytes.
Proof.
  cbn [forallb]. intros H Hp. breflect. unfold in_u64b in *. breflect. apply Z.le_trans with 500000; [|vm_compute; discriminate]. unfold command_members. struct_bound.
Qed.

Definition sample_delegation : CommandDelegation :=
  mkCommandDelegation CommandDelegationSchemaV1 "delegation-1" "acme" "controller-1" (key_text "k") (Some ["stop"%string]) (Some ["node-1"; "node-2"]%string)
    (Some [mkCommandDelegationInstance "agent-1" "lineage-1" 3 5; mkCommandDelegationInstance "agent-2" "lineage-2" 1 1]) 4 None "2030-01-01T00:00:00Z" "2030-01-01T12:00:00Z".
Definition sample_now : Z := instant "2030-01-01T00:05:00Z".
Definition delegation_envelope : bytes := Dsse.toy_seal CommandDelegationPayloadType "operator" "o" sample_delegation.
Definition stop_command (context : string) : CommandStatement :=
  mkCommandStatement CommandSchemaV2 "command-1" context (b64_encode_string delegation_envelope) "acme" "node-1" "agent-1" "runtime-1" "stop" 4 3 9
    "2030-01-01T00:04:00Z" "2030-01-01T00:14:00Z" (json_print (JObj [])).
Definition command_payload : bytes := json_print (obj (command_members (stop_command (Dsse.Digest delegation_envelope)) (JObj []))).
Definition command_envelope : bytes := json_print (to_json (Dsse.toy_sealed CommandPayloadType "controller-1" "k" command_payload)).
Definition renewal : CommandStatement :=
  mkCommandStatement CommandSchemaV2 "command-2" "" "" "acme" "node-1" "agent-1" "runtime-1" "renew" 4 3 10
    "2030-01-01T00:04:00Z" "2030-01-01T00:14:00Z" (json_print (to_json (mkWorkloadLease WorkloadLeaseSchemaV1 "2030-01-01T00:09:00Z"))).

Lemma sample_delegation_valid : CommandDelegation_Validate sample_delegation sample_now = Ok tt.
Proof. vm_compute. reflexivity. Qed.

Lemma delegated_instance_exact_witness : delegatedInstance (cd_Instances sample_delegation) "agent-2" = Some (mkCommandDelegationInstance "agent-2" "lineage-2" 1 1).
Proof.
  apply (proj2 (delegated_instance_exact sample_delegation sample_now "agent-2" (mkCommandDelegationInstance "agent-2" "lineage-2" 1 1) sample_delegation_valid)).
  split; [right; left | reflexivity].
Defined.

Lemma renewal_valid : CommandStatement_Validate renewal sample_now = Ok tt.
Proof. vm_compute. reflexivity. Qed.

Lemma renewed_lease_bounded_witness : exists lease, DecodeWorkloadLease (cs_Payload renewal) sample_now = Ok lease /\ instant (wl_ExpiresAt lease) <= instant (cs_ExpiresAt renewal).
Proof.
  destruct (renewed_lease_bounded renewal sample_now renewal_valid eq_refl) as (lease & issued & expires & Hl & _ & He & _ & Hle & _).
  exists lease. split; [exact Hl|]. unfold instant at 2. rewrite He. exact Hle.
Defined.

Section run.
Context (context : string) (Hc : digest context = true).

Lemma stop_storable : command_storable (stop_command context) = true.
Proof.
  unfold command_storable. cbn [cs_AuthorizationContextDigest stop_command]. rewrite (plain_utf8 _ (sha256_digest_plain _ Hc)). vm_compute. reflexivity.
Qed.

Lemma stop_valid : CommandStatement_Validate (stop_command context) sample_now = Ok tt.
Proof.
  unfold CommandStatement_Validate. cbn [cs_AuthorizationContextDigest stop_command]. rewrite Hc, orb_true_r.
  destruct (String.eqb_spec context "") as [-> | _]; [discriminate Hc|]. vm_compute. reflexivity.
Qed.

Lemma stop_size : zlen (json_print (obj (command_members (stop_command context) (JObj [])))) <= Dsse.MaxPayloadBytes.
Proof.
  assert (Hl : slen context <= 128) by (rewrite (sha256_digest_length _ Hc); lia).
  apply (command_size (stop_command context)); [|done]. cbn [forallb stop_command cs_AuthorizationContextDigest]. rewrite (proj2 (Z.leb_le _ _) Hl). vm_compute. reflexivity.
Qed.
End run.

Lemma sample_verified : VerifyCommandDelegation Dsse.toy_verify delegation_envelope sample_policy sample_now =
  Ok (mkVerifiedCommandDelegation sample_delegation (Dsse.Digest delegation_envelope) "operator" (Dsse.toy_pub "k")).
Proof.
  destruct (Dsse.toy_seal_opens CommandDelegationPayloadType "operator" "o" sample_delegation {[ "operator"%string := Dsse.toy_pub "o" ]} maxCommandDelegationBytes) as (Hv & Hd & Hp);
    [by rewrite lookup_singleton_eq | vm_compute; reflexivity.. | lia | vm_compute; discriminate | vm_compute; discriminate |].
  unfold VerifyCommandDelegation. assert ((0 <? zlen delegation_envelope) && (zlen delegation_envelope <=? maxCommandDelegationBytes) = true) as -> by (vm_compute; reflexivity).
  change delegation_envelope with (Dsse.toy_seal CommandDelegationPayloadType "operator" "o" sample_delegation). rewrite Hp.
  cbn [Dsse.PayloadType Dsse.Payload Dsse.toy_sealed]. rewrite String.eqb_refl, Dsse.b64_string_decode. cbn [opt_ok]. rewrite Hd, sample_delegation_valid.
  assert (delegationSignerKeys sample_policy (cd_TenantID sample_delegation) (cd_Operations sample_delegation) = Ok {[ "operator"%string := Dsse.toy_pub "o" ]}) as ->
    by (vm_compute; reflexivity).
  rewrite Hv, Hd, sample_delegation_valid. assert (decodePublicKey (cd_ControllerPublicKey sample_delegation) = Some (Dsse.toy_pub "k")) as -> by (vm_compute; reflexivity).
  reflexivity.
Qed.

Lemma sample_authorized raw context : digest context = true -> raw = delegation_envelope -> Dsse.Digest raw = context ->
  Authorize (mkVerifiedCommandDelegation sample_delegation context "operator" (Dsse.toy_pub "k")) (stop_command context) raw = Ok tt.
Proof.
  intros _ -> Hd. unfold Authorize. cbn [vd_EnvelopeDigest vd_Statement cs_AuthorizationContextDigest stop_command]. rewrite Hd, String.eqb_refl. clear Hd. vm_compute. reflexivity.
Qed.

Lemma sample_delegated : VerifyDelegatedCommand Dsse.toy_verify command_envelope delegation_envelope sample_policy sample_now =
  Ok (stop_command (Dsse.Digest delegation_envelope)).
Proof.
  unfold VerifyDelegatedCommand. rewrite sample_verified. unfold verify_command. cbn [vd_Statement vd_ControllerKey].
  assert (Hd : digest (Dsse.Digest delegation_envelope) = true) by apply sha256_digest_text.
  pose proof (sample_authorized delegation_envelope _ Hd eq_refl eq_refl) as Ha. unfold command_envelope, command_payload. revert Hd Ha.
  generalize (Dsse.Digest delegation_envelope). intros context Hd Ha.
  pose proof (stop_size context Hd) as Hsize. pose proof (command_json_ok _ (JObj []) (stop_storable context Hd) ltac:(by constructor)) as Hok.
  destruct (json_print_head _ Hok) as (x & l & Ep & _).
  destruct (Dsse.toy_sealed_opens CommandPayloadType "controller-1" "k" (json_print (obj (command_members (stop_command context) (JObj []))))
    {[ cd_ControllerKeyID sample_delegation := Dsse.toy_pub "k" ]}) as [-> _]; [by rewrite lookup_singleton_eq | vm_compute; reflexivity | by rewrite Ep | done |].
  by rewrite (decode_command_print _ (JObj []) _ (stop_storable context Hd) ltac:(by constructor) eq_refl eq_refl Hsize), stop_valid, Ha.
Qed.

Lemma delegated_command_confined_witness : exists d, VerifyDelegatedCommand Dsse.toy_verify command_envelope delegation_envelope sample_policy sample_now =
  Ok (stop_command (Dsse.Digest delegation_envelope)) /\ within_delegation d (stop_command (Dsse.Digest delegation_envelope)).
Proof.
  destruct (delegated_command_confined Dsse.toy_verify command_envelope delegation_envelope sample_policy sample_now (stop_command (Dsse.Digest delegation_envelope))
    sample_delegated sample_policy_valid) as (d & ? & ? & ? & ? & ? & ? & H). exists d. split; [exact sample_delegated|].
  do 14 destruct H as [_ H]. exact H.
Defined.

End DelegationSafety.
