(* ===== verification/AgentIntent.v ===== *)
(** * From a bundle to an admission intent ([src/internal/agentapp/admission.go])

    [BuildIntent] joins a bundle of [AgentModel] to a verified capsule and site policy of [Admission]; what it returns is admitted under every later
    fence. Generations are [uint64], memory is [int64]. *)

From Stdlib Require Import Ascii.
From S2P Require Import Prelude GoText GoTime GoJson GoCrypto Strict Dsse AgentModel AgentBundle Admission AdmissionPolicy.

Module AgentIntent.

Definition hermesProfiles : list (string * string) :=
  [("workspace", "hermes-v1"); ("research", "hermes-research-v1"); ("developer", "hermes-developer-v1")]%string.

(** An absent key of the map gives the empty text. *)
Definition agentRuntimeAdmissionContract (definition : AgentModel.AgentDefinition) : Admission.ProfileRef * string :=
  if String.eqb (AgentModel.rt_Engine (AgentModel.df_Runtime definition)) AgentModel.RuntimeEngine
  then (Admission.mkProfileRef Admission.ProfileID Admission.ProfileVersion, Admission.ServiceID)
  else (Admission.mkProfileRef (default ""%string (assoc (AgentModel.EffectiveToolProfile definition) hermesProfiles)) "v1", "hermes-api"%string).

(** The first tenant rule with the identifier decides. *)
Definition defaultEffectMode (policy : Admission.SitePolicy) (tenantID : string) : result string :=
  match List.find (fun tenant => String.eqb (Admission.tn_TenantID tenant) tenantID) (items (Admission.sp_Tenants policy)) with
  | None => Err "tenant is not present in the authenticated site policy"
  | Some tenant =>
      match Admission.tn_AuthorizedEffects tenant with
      | None => Ok ""%string
      | Some effects =>
          if String.eqb (Admission.ae_Mode effects) Admission.AuthorizedEffectsOptional then Ok Admission.EffectModeStandard
          else if String.eqb (Admission.ae_Mode effects) Admission.AuthorizedEffectsRequired then Ok Admission.EffectModeAuthorized
          else Err "tenant authorized effects policy mode is invalid"
      end
  end.

Definition wantedResources (r : AgentModel.Resources) : Admission.ResourceLimits :=
  Admission.mkResourceLimits (int64 (int64 (AgentModel.rs_MemoryMiB r * 1024) * 1024)) (AgentModel.rs_CPUMillis r) (AgentModel.rs_PIDs r).

Definition wantedCapabilities (d : AgentModel.AgentDefinition) : Admission.Capabilities :=
  let requests := AgentModel.df_Capabilities d in
  Admission.mkCapabilities (AgentModel.st_Persistent (AgentModel.df_State d)) true true (0 <? zlen (items (AgentModel.cp_EgressRouteIDs requests)))
    (0 <? zlen (items (AgentModel.cp_ConnectorIDs requests))) (AgentModel.cp_ControllerEvents requests).

Definition stateDisposition (d : AgentModel.AgentDefinition) (override : string) : result string :=
  let state := AgentModel.df_State d in
  let disposition := (if AgentModel.st_Persistent state then if String.eqb (AgentModel.st_SnapshotID state) "" then "new" else "resume" else "none")%string in
  if String.eqb override "" then Ok disposition else
  require String.eqb override "resume" && AgentModel.st_Persistent state else "resume admission requires a stateful agent bundle" in Ok override.

Definition buildIntent (bundle : AgentModel.Bundle) (verified : Admission.VerifiedCapsuleImport) (tenantID nodeID instanceID lineageID : string) (generation : Z)
    (stateDispositionOverride : string) : result Admission.InstanceIntent :=
  let* _ := AgentModel.Bundle_Validate bundle in
  require negb (generation =? 0) else "agent admission generation must be positive" in
  let capsule := Admission.vi_Capsule verified in
  let definition := AgentModel.bn_Definition bundle in
  let (profile, serviceID) := agentRuntimeAdmissionContract definition in
  require bool_decide (Admission.pc_Profile capsule = profile) else "agent runtime does not match the authenticated capsule profile" in
  let image := Admission.pc_Image capsule in
  require String.eqb (AgentModel.rt_Image (AgentModel.df_Runtime definition)) (Admission.ii_Repository image +:+ "@" +:+ Admission.ii_ManifestDigest image)
    else "agent image does not match the authenticated capsule image" in
  require String.eqb (Admission.sv_ID (Admission.pc_Service capsule)) serviceID && negb (Admission.sv_Port (Admission.pc_Service capsule) =? 0)
    else "agent runtime service does not match the authenticated capsule" in
  let* (routeID, modelAlias) := AgentModel.ParseModelRoute (AgentModel.md_Route (AgentModel.df_Model definition)) in
  let capabilities := wantedCapabilities definition in
  require Admission.SubsetOf capabilities (Admission.pc_Capabilities capsule) else "agent capabilities exceed the authenticated capsule ceiling" in
  let* disposition := stateDisposition definition stateDispositionOverride in
  let* effectMode := defaultEffectMode (Admission.vi_SitePolicy verified) tenantID in
  let requests := AgentModel.df_Capabilities definition in
  let intent := Admission.mkInstanceIntent tenantID nodeID instanceID lineageID generation (Admission.vi_CapsuleDigest verified)
    (wantedResources (AgentModel.df_Resources definition)) capabilities disposition routeID modelAlias serviceID
    (Admission.copied (items (AgentModel.cp_EgressRouteIDs requests))) (Admission.copied (items (AgentModel.cp_ConnectorIDs requests))) effectMode in
  let caller := Admission.mkAuthenticatedIdentity tenantID nodeID in
  let* _ := Admission.InstanceIntent_Validate intent caller in
  let* _ := Admission.Intersect capsule (Admission.vi_CapsuleDigest verified) (Admission.vi_SitePolicy verified) (Admission.vi_PolicyDigest verified)
    (Admission.vi_PublisherKeyID verified) (Admission.vi_SiteRootKeyID verified) intent caller (Admission.mkPersistedFences 0 0) Admission.DefaultProfiles in
  Ok intent.

Definition BuildIntent bundle verified tenantID nodeID instanceID lineageID generation : result Admission.InstanceIntent :=
  buildIntent bundle verified tenantID nodeID instanceID lineageID generation "".
Definition BuildResumeIntent bundle verified tenantID nodeID instanceID lineageID generation : result Admission.InstanceIntent :=
  buildIntent bundle verified tenantID nodeID instanceID lineageID generation "resume".

(** ** What is built is admitted *)

Import Admission AdmissionPolicy.

(** The fences only bound the epoch of the policy and the generation of the intent. *)
Lemma intersect_refence capsule capsuleDigest policy policyDigest publisherKeyID siteRootKeyID intent caller fences fences' profiles e :
  Admission.Intersect capsule capsuleDigest policy policyDigest publisherKeyID siteRootKeyID intent caller fences profiles = Ok e ->
  Admission.fe_PolicyEpoch fences' <= Admission.sp_PolicyEpoch policy -> Admission.fe_Generation fences' <= Admission.it_Generation intent ->
  Admission.Intersect capsule capsuleDigest policy policyDigest publisherKeyID siteRootKeyID intent caller fences' profiles = Ok e.
Proof.
  intros (pub & rule & profile & Ha & ->)%intersect_inv He Hg. apply (intersect_ok _ _ _ _ _ _ _ _ _ _ pub rule). destruct Ha. by constructor.
Qed.

Lemma wanted_memory d : AgentModel.Definition_Validate d = Ok tt ->
  wantedResources (AgentModel.df_Resources d) = Admission.mkResourceLimits (AgentModel.rs_MemoryMiB (AgentModel.df_Resources d) * 2 ^ 20)
    (AgentModel.rs_CPUMillis (AgentModel.df_Resources d)) (AgentModel.rs_PIDs (AgentModel.df_Resources d)).
Proof.
  intros (_ & _ & _ & _ & _ & H & _)%AgentBundle.definition_inv. unfold AgentModel.validate_resources, AgentModel.between in H. step H. breflect.
  unfold wantedResources. change (2 ^ 20) with (1024 * 1024). rewrite (int64_small (AgentModel.rs_MemoryMiB _ * 1024)), int64_small by lia. f_equal. lia.
Qed.

(** The mode a policy sets by default. *)
Definition policy_mode (rule : Admission.TenantRule) : string :=
  match Admission.tn_AuthorizedEffects rule with
  | None => ""
  | Some effects => if String.eqb (Admission.ae_Mode effects) Admission.AuthorizedEffectsRequired then Admission.EffectModeAuthorized else Admission.EffectModeStandard
  end.

Lemma items_copied {A} (l : list A) : items (Admission.copied l) = l.
Proof. by destruct l. Qed.

Lemma default_mode policy tenantID mode rule : defaultEffectMode policy tenantID = Ok mode -> Admission.SitePolicy_Validate policy = Ok tt ->
  rule ∈ items (Admission.sp_Tenants policy) -> Admission.tn_TenantID rule = tenantID -> mode = policy_mode rule.
Proof.
  intros H Hp%policy_inv Hr Hid. unfold defaultEffectMode in H. change (List.find _ _) with (Admission.tenant policy tenantID) in H.
  rewrite (proj2 (tenant_spec _ _ rule Hp) (conj Hr Hid)) in H. pose proof (policy_modes _ _ Hp Hr) as Hm. unfold policy_mode.
  destruct (Admission.tn_AuthorizedEffects rule) as [effects|]; [|by simplify_eq]. specialize (Hm effects eq_refl). rewrite !elem_of_cons, elem_of_nil in Hm.
  destruct Hm as [E | [E | []]]; rewrite E in *; symmetry; exact (f_equal (fun r => match r with Ok m => m | Err e => e end) H).
Qed.

(** An intent that is built from a bundle is admitted by the same capsule and policy under every fence its generation and the policy epoch reach. It asks for
    exactly the definition's resources, with the memory in bytes without overflow, within the ceiling of the tenant; its image is the capsule's; its model route,
    egress routes and connectors are those of the definition; its effect mode is the one the tenant's policy prescribes. *)
Theorem built_intent_admitted bundle verified tenantID nodeID instanceID lineageID generation override intent fences :
  buildIntent bundle verified tenantID nodeID instanceID lineageID generation override = Ok intent ->
  Admission.fe_PolicyEpoch fences <= Admission.sp_PolicyEpoch (Admission.vi_SitePolicy verified) -> Admission.fe_Generation fences <= generation ->
  let definition := AgentModel.bn_Definition bundle in
  exists e rule,
    Admission.Intersect (Admission.vi_Capsule verified) (Admission.vi_CapsuleDigest verified) (Admission.vi_SitePolicy verified) (Admission.vi_PolicyDigest verified)
      (Admission.vi_PublisherKeyID verified) (Admission.vi_SiteRootKeyID verified) intent (Admission.mkAuthenticatedIdentity tenantID nodeID) fences
      Admission.DefaultProfiles = Ok e /\
    Admission.ea_EffectiveResources e = Admission.mkResourceLimits (AgentModel.rs_MemoryMiB (AgentModel.df_Resources definition) * 2 ^ 20)
      (AgentModel.rs_CPUMillis (AgentModel.df_Resources definition)) (AgentModel.rs_PIDs (AgentModel.df_Resources definition)) /\
    rule ∈ items (Admission.sp_Tenants (Admission.vi_SitePolicy verified)) /\ Admission.tn_TenantID rule = tenantID /\
    below (Admission.ea_EffectiveResources e) (Admission.tn_ResourceCeiling rule) /\
    AgentModel.rt_Image (AgentModel.df_Runtime definition) =
      (Admission.ii_Repository (Admission.pc_Image (Admission.vi_Capsule verified)) +:+ "@" +:+ Admission.ii_ManifestDigest (Admission.pc_Image (Admission.vi_Capsule verified)))%string /\
    AgentModel.ParseModelRoute (AgentModel.md_Route (AgentModel.df_Model definition)) = Ok (Admission.it_InferenceRouteID intent, Admission.it_ModelAlias intent) /\
    items (Admission.it_EgressRouteIDs intent) = items (AgentModel.cp_EgressRouteIDs (AgentModel.df_Capabilities definition)) /\
    items (Admission.it_ConnectorIDs intent) = items (AgentModel.cp_ConnectorIDs (AgentModel.df_Capabilities definition)) /\
    Admission.it_EffectMode intent = policy_mode rule.
Proof.
  intros H He Hg definition. unfold buildIntent in H. destruct (AgentModel.Bundle_Validate bundle) as [[]|] eqn:Eb; [|done]. step H.
  destruct (agentRuntimeAdmissionContract _) as [profile serviceID] eqn:Ec. do 3 step H.
  destruct (AgentModel.ParseModelRoute _) as [[routeID modelAlias]|] eqn:Er; [|done]. do 2 step H.
  destruct (defaultEffectMode _ _) as [mode|] eqn:Em; [|done]. destruct (Admission.InstanceIntent_Validate _ _) as [?|] eqn:Ei; [|done].
  destruct (Admission.Intersect _ _ _ _ _ _ _ _ _ _) as [e|] eqn:Ex; [|done]. injection H as <-. breflect. apply String.eqb_eq in E1.
  pose proof (intersect_refence _ _ _ _ _ _ _ _ _ fences _ _ Ex He Hg) as Hn. apply intersect_inv in Ex as (pub & rule & prof & Ha & ->).
  eexists _, rule. split; [exact Hn|]. destruct (am_tenant _ _ _ _ _ _ _ _ _ _ _ Ha) as (Hr1 & Hr2 & _). destruct (am_resources _ _ _ _ _ _ _ _ _ _ _ Ha) as (_ & _ & Hr).
  cbn [Admission.it_TenantID Admission.it_Resources] in *. split_and!; try done.
  - apply wanted_memory. unfold AgentModel.Bundle_Validate in Eb. step Eb. by destruct (AgentModel.Definition_Validate _) as [[]|].
  - apply items_copied.
  - apply items_copied.
  - cbn [Admission.it_EffectMode]. exact (default_mode _ _ _ _ Em (am_policy _ _ _ _ _ _ _ _ _ _ _ Ha) Hr1 Hr2).
Qed.


(** ** A concrete run *)

Definition sample_definition : AgentModel.AgentDefinition :=
  AgentModel.mkAgentDefinition AgentModel.DefinitionSchema "agent-1"
    (AgentModel.mkRuntime "hermes" (ii_Repository (pc_Image sample_capsule) +:+ "@" +:+ ii_ManifestDigest (pc_Image sample_capsule)) AgentModel.HermesAdapterContractV2) ""
    (AgentModel.mkModel "local/default") None None (AgentModel.mkCapabilityRequests None (Some ["chat"; "mail"]%string) false)
    (AgentModel.mkResources 1000 1024 1024 256) (AgentModel.mkPlacement (Some ["amd64"%string]) "hardened" None None None "") (AgentModel.mkState true "") (AgentModel.mkLifetime "temporary" 3600 "destroy").
Definition sample_bundle : AgentModel.Bundle :=
  AgentModel.mkBundle AgentModel.BundleSchema (AgentModel.DigestJSON sample_definition) sample_definition None.
Definition sample_verified : VerifiedCapsuleImport := mkVerifiedCapsuleImport sample_capsule sample_policy (hermesProfile "hermes-v1") zero_digest zero_digest "publisher-1" "root-1".

Lemma intent_bundle_valid : AgentModel.Bundle_Validate sample_bundle = Ok tt.
Proof.
  unfold AgentModel.Bundle_Validate, sample_bundle. cbn [AgentModel.bn_Schema AgentModel.bn_Definition AgentModel.bn_SourceDigest AgentModel.bn_Policy].
  rewrite !String.eqb_refl. assert (AgentModel.Definition_Validate sample_definition = Ok tt) as -> by (vm_compute; reflexivity). reflexivity.
Qed.

Lemma sample_intent_built : exists intent, buildIntent sample_bundle sample_verified "acme" "node-1" "agent-1" "lineage-1" 3 "" = Ok intent.
Proof. eexists. unfold buildIntent. rewrite intent_bundle_valid. change (AgentModel.bn_Definition sample_bundle) with sample_definition. vm_compute. reflexivity. Qed.

Lemma built_intent_admitted_witness : exists intent e, buildIntent sample_bundle sample_verified "acme" "node-1" "agent-1" "lineage-1" 3 "" = Ok intent /\
  Intersect sample_capsule zero_digest sample_policy zero_digest "publisher-1" "root-1" intent (mkAuthenticatedIdentity "acme" "node-1") no_fences DefaultProfiles = Ok e /\
  rl_MemoryBytes (ea_EffectiveResources e) = 1073741824.
Proof.
  destruct sample_intent_built as [intent Hi]. exists intent.
  destruct (built_intent_admitted sample_bundle sample_verified "acme" "node-1" "agent-1" "lineage-1" 3 "" intent no_fences Hi) as (e & rule & He & Hr & _);
    [vm_compute; discriminate | vm_compute; discriminate |].
  exists e. split; [exact Hi|]. split; [exact He|]. rewrite Hr. reflexivity.
Defined.

End AgentIntent.
