(* ===== verification/Permit.v ===== *)
(** * What signed permits share ([src/internal/taskpermit], [actionpermit], [schedulepermit] and [interactionpermit])

    The four packages repeat the same tests of texts and times, open an envelope that must have one canonical spelling, and check a validity
    window; the copies are one definition here. The unpadded URL alphabet of base64 carries permits in a header. *)

From Stdlib Require Import Ascii.
From S2P Require Import Prelude GoText GoTime GoFS FenceStore GoJson GoCrypto Strict Dsse GoRune GoNet Admission ConnectorEvent ConnectorReceipt.

(** ** [base64.RawURLEncoding] *)

Definition url_char (z : Z) : ascii := if z =? 62 then "-"%char else if z =? 63 then "_"%char else b64_char z.
Definition url_value (b : ascii) : option Z :=
  if u8 b =? 45 then Some 62 else if u8 b =? 95 then Some 63 else if (u8 b =? 43) || (u8 b =? 47) then None else b64_value b.

Fixpoint url_encode (l : bytes) : bytes :=
  match l with
  | [] => []
  | [a] => [url_char (u8 a / 4); url_char (u8 a mod 4 * 16)]
  | [a; b] => [url_char (u8 a / 4); url_char (u8 a mod 4 * 16 + u8 b / 16); url_char (u8 b mod 16 * 4)]
  | a :: b :: c :: t =>
      url_char (u8 a / 4) :: url_char (u8 a mod 4 * 16 + u8 b / 16) :: url_char (u8 b mod 16 * 4 + u8 c / 64) :: url_char (u8 c mod 64) :: url_encode t
  end.

(** The spare bits of a last group of two or three characters are ignored. *)
Fixpoint url_groups (l : bytes) : option bytes :=
  match l with
  | [] => Some []
  | [_] => None
  | [a; b] => x ← url_value a; y ← url_value b; Some [byte_of_Z (x * 4 + y / 16)]
  | [a; b; c] => x ← url_value a; y ← url_value b; z ← url_value c; Some [byte_of_Z (x * 4 + y / 16); byte_of_Z (y mod 16 * 16 + z / 4)]
  | a :: b :: c :: d :: t =>
      x ← url_value a; y ← url_value b; z ← url_value c; w ← url_value d; r ← url_groups t;
      Some (byte_of_Z (x * 4 + y / 16) :: byte_of_Z (y mod 16 * 16 + z / 4) :: byte_of_Z (z mod 4 * 64 + w) :: r)
  end.
Definition url_decode (l : bytes) : option bytes := url_groups (List.filter (fun b => negb ((u8 b =? 10) || (u8 b =? 13))) l).
Definition url_encode_string (l : bytes) : string := string_of (url_encode l).
Definition url_decode_string (s : string) : option bytes := url_decode (bytes_of s).
(** [base64.RawURLEncoding.EncodedLen]. *)
Definition url_encoded_len (n : Z) : Z := n / 3 * 4 + (n mod 3 * 8 + 5) / 6.

Lemma url_value_char z : 0 <= z < 64 -> url_value (url_char z) = Some z.
Proof.
  intros Hz. assert (Hall : forallb (fun i => bool_decide (url_value (url_char i) = Some i)) (seqZ 0 64) = true) by (vm_compute; reflexivity).
  rewrite forallb_forall in Hall. apply (bool_decide_eq_true_1 _), Hall, list_elem_of_In, elem_of_seqZ. lia.
Qed.

Lemma url_char_printable z : 0 <= z < 64 -> 43 <= u8 (url_char z) <= 122.
Proof.
  intros Hz. unfold url_char. destruct (z =? 62); [done|]. destruct (z =? 63); [done|]. by apply b64_char_printable.
Qed.

Lemma url_encode_clean l : List.filter (fun b => negb ((u8 b =? 10) || (u8 b =? 13))) (url_encode l) = url_encode l.
Proof.
  assert (Hc : forall z, 0 <= z < 64 -> negb ((u8 (url_char z) =? 10) || (u8 (url_char z) =? 13)) = true).
  { intros z Hz. pose proof (url_char_printable z Hz). by rewrite !(proj2 (Z.eqb_neq _ _)) by lia. }
  induction l as [|a|a b|a b c t IH] using triples_ind; cbn [url_encode List.filter]; [done | rewrite !Hc by bits; done..|].
  rewrite !Hc by bits. by rewrite IH.
Qed.

Lemma url_groups_encode l : url_groups (url_encode l) = Some l.
Proof.
  induction l as [|a|a b|a b c t IH] using triples_ind; cbn [url_encode url_groups]; [done|..].
  - rewrite !url_value_char by bits. cbn [mbind option_bind]. do 2 f_equal. apply byte_eq; bits.
  - rewrite !url_value_char by bits. cbn [mbind option_bind]. do 2 f_equal; [|f_equal]; apply byte_eq; bits.
  - rewrite !url_value_char, IH by bits. cbn [mbind option_bind]. do 2 f_equal; [|f_equal; [|f_equal]]; apply byte_eq; bits.
Qed.

Lemma url_decode_encode l : url_decode_string (url_encode_string l) = Some l.
Proof. unfold url_decode_string, url_encode_string, url_decode. by rewrite bytes_of_string_of, url_encode_clean, url_groups_encode. Qed.

Lemma url_encode_len l : slen (url_encode_string l) = url_encoded_len (zlen l).
Proof.
  unfold url_encode_string. rewrite <- zlen_bytes_of, bytes_of_string_of. unfold url_encoded_len.
  induction l as [|a|a b|a b c t IH] using triples_ind; cbn [url_encode]; [done..|]. rewrite !zlen_cons, IH. pose proof (zlen_nonneg t).
  Z.to_euclidean_division_equations. lia.
Qed.

(** ** Members behind pointers *)

Lemma ptr_string s : dec_ptr dec_string (JStr s) = Some (Some s).
Proof. done. Qed.
Lemma ptr_u64 z : in_u64b z = true -> dec_ptr dec_u64 (json_int z) = Some (Some z).
Proof. intros H. pose proof (dec_u64_json z H) as E. unfold dec_ptr, json_int in *. by rewrite E. Qed.
Lemma ptr_int z : in_int64b z = true -> dec_ptr dec_int (json_int z) = Some (Some z).
Proof. intros H. pose proof (dec_int_json z H) as E. unfold dec_ptr, json_int in *. by rewrite E. Qed.

(** A struct that is written with plain members and read into pointers. *)
Ltac wire_shape := struct_shape ltac:(rewrite validate_pointer by done; by apply validate_leaf; [lia|]).
Ltac wire_read := struct_read; repeat (first [rewrite ptr_string | rewrite ptr_u64 by assumption | rewrite ptr_int by assumption]; cbn [mbind option_bind]).

(** Reading a member keeps the width of its type; [binds H] walks a chain of reads that all succeeded. *)
Lemma field_ptr_u64 fs k z : field fs k (dec_ptr dec_u64) None = Some (Some z) -> in_u64 z.
Proof.
  unfold field, dec_ptr, dec_u64. destruct (assoc k fs) as [[| | lit | | |]|]; try done. destruct (parse_nat lit) as [n|]; [|done]. destruct (in_u64b n) eqn:E; [|done].
  intros [= <-]. by apply in_u64b_true.
Qed.
Lemma DecodeStrictInto_read {A} `{GoJSON A} raw maxBytes (a : A) : DecodeStrictInto raw maxBytes = Ok a -> exists v, json_parse raw = Some v /\ of_json v = Some a.
Proof.
  unfold DecodeStrictInto. destruct (_ || _); [done|]. destruct (json_parse raw) as [v|]; [|done]. intros E. step E. exists v. split; [done|].
  destruct (of_json v); [by injection E as -> | done].
Qed.
Ltac binds H := repeat (let E := fresh "E" in
  match type of H with mbind _ ?o = Some _ => destruct o eqn:E; [|discriminate H]; cbn [mbind option_bind] in H end).

Module Permit.

Definition timestampLayout : string := "2006-01-02T15:04:05Z".
Definition MaxEnvelopeBytes : Z := Z.shiftl 16 10.

(** ** Texts and times *)

Definition identifier (value : string) : bool := Admission.routeID value.
Definition publicIdentity (value : string) (limit : Z) : bool := ConnectorEvent.publicIdentity value limit.
Definition digest (value : string) : bool := sha256_digest value.
Definition runtimeRef (value : string) : bool := ConnectorEvent.runtimeRef value.
Definition grantID (value : string) : bool := ConnectorEvent.grantID value.

(** [t.Format(timestampLayout)] of an instant in UTC. *)
Definition format_seconds (t : Z) : string := format_rfc3339nano (t - t mod second).

(** The layout has no fraction; only the text that [Format] writes for the parsed instant passes. *)
Definition canonicalTime (value : string) : option Z :=
  match canonical_time value with
  | Some parsed => if negb (is_zero parsed) && (parsed mod second =? 0) then Some parsed else None
  | None => None
  end.

Definition validateValidity (notBeforeValue expiresAtValue : string) (now maxValidity : Z) : result unit :=
  let* notBefore := opt_ok (canonicalTime notBeforeValue) "not_before: timestamp must be canonical UTC RFC3339 seconds" in
  let* expiresAt := opt_ok (canonicalTime expiresAtValue) "expires_at: timestamp must be canonical UTC RFC3339 seconds" in
  require (notBefore <? expiresAt) && (expiresAt - notBefore <=? maxValidity) else "validity interval is empty or exceeds the local maximum" in
  require notBefore <=? now else "permit is not yet valid according to node time" in
  require now <? expiresAt else "permit has expired according to node time" in Ok tt.

(** ** Canonical envelopes *)

Definition canonical_payload (e : Dsse.Envelope) : option bytes :=
  payload ← b64_decode_string (Dsse.Payload e); if String.eqb (b64_encode_string payload) (Dsse.Payload e) then Some payload else None.
Definition canonical_signature (s : Dsse.Signature) : bool :=
  match b64_decode_string (Dsse.Sig s) with
  | Some signature => (zlen signature =? Dsse.SignatureSize) && String.eqb (b64_encode_string signature) (Dsse.Sig s)
  | None => false
  end.
(** [utf8.Valid] on bytes. *)
Definition utf8_bytes (l : bytes) : bool := utf8_valid (string_of l).
Definition is_canonical (e : Dsse.Envelope) (raw : bytes) : bool := bool_decide (Dsse.Marshal e = Ok raw).

(** The envelope with one signature that task, schedule and interaction permits are read from: its payload and key identifier. *)
Definition inspect_envelope (payloadType : string) (maxBytes : Z) (raw : bytes) : result (bytes * string) :=
  require negb (zlen raw =? 0) && (zlen raw <=? maxBytes) else "envelope is empty or exceeds its limit" in
  let* envelope := Dsse.Parse raw in
  match Dsse.sigs envelope with
  | [signature] =>
      require String.eqb (Dsse.PayloadType envelope) payloadType else "parse canonical single-signature envelope" in
      let* payload := opt_ok (canonical_payload envelope) "permit payload is not canonical UTF-8" in
      require utf8_bytes payload else "permit payload is not canonical UTF-8" in
      require canonical_signature signature && identifier (Dsse.KeyID signature) else "permit signature encoding is invalid" in
      require is_canonical envelope raw else "permit envelope is not canonical" in
      Ok (payload, Dsse.KeyID signature)
  | _ => Err "parse canonical single-signature envelope"
  end.

(** ** Headers *)

Definition EncodeHeader (raw : bytes) : result string :=
  require negb (zlen raw =? 0) && (zlen raw <=? MaxEnvelopeBytes) else "header envelope is empty or exceeds its limit" in Ok (url_encode_string raw).

Definition DecodeHeader (value : string) : result bytes :=
  require negb (String.eqb value "") && (slen value <=? url_encoded_len MaxEnvelopeBytes) else "header is empty or exceeds the encoded limit" in
  let bad := "header is not one canonical base64url value"%string in
  let* raw := opt_ok (url_decode_string value) bad in
  require negb (zlen raw =? 0) && (zlen raw <=? MaxEnvelopeBytes) && String.eqb (url_encode_string raw) value else bad in
  Ok raw.

(** ** Lemmas *)

(** The one spelling of an envelope with one signature. *)
Definition sealed (t : string) (payload : bytes) (k : string) (signature : bytes) : Dsse.Envelope :=
  Dsse.mkEnvelope t (b64_encode_string payload) (Some [Dsse.mkSignature k (b64_encode_string signature)]).

Lemma identifier_plain s : identifier s = true -> all_bytes plain_byte s = true /\ 1 <= slen s <= 128 /\ Dsse.valid_name s = true.
Proof.
  unfold identifier, Admission.routeID. intros H. pose proof (slen_nonneg s). destruct (bytes_of s) as [|c l] eqn:E; [done|]. breflect.
  assert (Hall : Forall (fun b => Admission.route_rest (u8 b) = true) (bytes_of s)).
  { rewrite E. constructor; [by unfold Admission.route_rest; apply orb_true_iff; left; apply orb_true_iff; left; apply orb_true_iff; left|].
    apply Forall_forall. intros b Hb. rewrite forallb_forall in *. by apply H2, list_elem_of_In. }
  assert (Hp : forall z, Admission.route_rest z = true -> plain_byte z = true /\ 32 < z < 128).
  { intros z. unfold Admission.route_rest, Admission.route_first, plain_byte. lia. }
  assert (Hv : Forall (fun b => 32 < u8 b < 128) (bytes_of s)) by (eapply Forall_impl; [exact Hall|]; intros b Hb; by apply Hp).
  assert (Hpl : all_bytes plain_byte s = true).
  { unfold all_bytes. apply forallb_forall. intros b Hb%list_elem_of_In. rewrite Forall_forall in Hall. by apply Hp, Hall. }
  split_and!; [done | rewrite <- zlen_bytes_of, E, zlen_cons in *; pose proof (zlen_nonneg l); lia | lia |].
  unfold Dsse.valid_name. rewrite (trim_space_visible s Hv), bool_decide_false by (intros ->; done). rewrite (proj2 (Z.ltb_ge 256 _)) by lia. cbn [negb andb].
  by rewrite (all_bytes_contains plain_byte).
Qed.

(** A text that survives JSON, and the length of its quoted form. *)
Definition short (n : Z) (s : string) : Prop := utf8_valid s = true /\ zlen (json_print (JStr s)) <= n.

Lemma short_plain n s : all_bytes plain_byte s = true -> slen s <= n -> short (n + 2) s.
Proof. intros Hp Hl. split; [by apply plain_utf8|]. rewrite zlen_print_str, zlen_quote_plain by done. lia. Qed.
Lemma short_text n s : text_ok n s -> short (6 * n + 2) s.
Proof. intros [Hu Hl]. split; [done | by apply str_size]. Qed.

Lemma short_prefixed s prefix n : all_bytes plain_byte prefix = true -> has_prefix s prefix = true -> slen s = n -> all_bytes lower_hex_byte (trim_prefix s prefix) = true -> short (n + 2) s.
Proof.
  intros Hp Hs Hl Hh. apply short_plain; [|lia]. rewrite (trim_prefix_app s prefix), all_bytes_app, Hp by done. by eapply all_bytes_mono; [apply hex_digit_plain|].
Qed.

Lemma short_id s : identifier s = true -> short 130 s.
Proof. intros (H & ? & _)%identifier_plain. apply (short_plain 128); [done | lia]. Qed.
Lemma short_digest s : digest s = true -> short 73 s.
Proof. intros H. apply (short_plain 71); [by apply sha256_digest_plain | by rewrite (sha256_digest_length _ H)]. Qed.
Lemma short_identity s n : publicIdentity s n = true -> short (6 * n + 2) s.
Proof. intros H. by apply short_text, ConnectorReceipt.text_publicIdentity. Qed.
Lemma short_runtime s : runtimeRef s = true -> short 75 s.
Proof. unfold runtimeRef, ConnectorEvent.runtimeRef, ConnectorEvent.lowerHex. intros H. breflect. by apply (short_prefixed s "executor-" 73). Qed.
Lemma short_grant s : grantID s = true -> short 72 s.
Proof. unfold grantID, ConnectorEvent.grantID, ConnectorEvent.lowerHex. intros H. breflect. by apply (short_prefixed s "grant-" 70). Qed.

Lemma canonicalTime_inv s t : canonicalTime s = Some t -> s = format_seconds t /\ text_ok 30 s /\ t <> 0 /\ t mod second = 0.
Proof.
  unfold canonicalTime. destruct (canonical_time s) as [t'|] eqn:E; [|done]. destruct (_ && _) eqn:Eb; [|done]. intros [= ->]. unfold is_zero in Eb. breflect.
  pose proof (canonical_time_sound _ _ E). apply canonical_time_bytes in E as [? Hb]. unfold format_seconds. replace (t - t mod second) with t by lia.
  split_and!; try done. split; [|lia]. apply utf8_ascii, Forall_forall. intros c Hc%list_elem_of_In. unfold all_bytes in Hb. rewrite forallb_forall in Hb.
  specialize (Hb c Hc). unfold time_byte in Hb. breflect. lia.
Qed.
Lemma short_time s t : canonicalTime s = Some t -> short 182 s.
Proof. intros H. apply canonicalTime_inv in H as (_ & ? & _). by apply (short_text 30). Qed.

Lemma canonicalTime_format t : four_digit_year t -> t <> 0 -> t mod second = 0 -> canonicalTime (format_seconds t) = Some t.
Proof.
  intros Hy Hz Hs. unfold canonicalTime, format_seconds. replace (t - t mod second) with t by lia. rewrite canonical_time_format by done.
  unfold is_zero. by rewrite (proj2 (Z.eqb_neq _ _)), Hs by done.
Qed.

(** The window of a permit, read off a passed check. *)
Lemma validity_inv notBefore expires now maximum : validateValidity notBefore expires now maximum = Ok tt <->
  exists b e, canonicalTime notBefore = Some b /\ canonicalTime expires = Some e /\ b <= now < e /\ e - b <= maximum.
Proof.
  unfold validateValidity. split.
  - destruct (canonicalTime notBefore) as [b|]; [|done]. destruct (canonicalTime expires) as [e|]; [|done]. cbn [opt_ok]. intros H. steps H. exists b, e. split_and!; try done; lia.
  - intros (b & e & -> & -> & Hn & He). cbn [opt_ok]. rewrite (proj2 (Z.ltb_lt b e)), (proj2 (Z.leb_le (e - b) maximum)), (proj2 (Z.leb_le b now)), (proj2 (Z.ltb_lt now e)) by lia. done.
Qed.

Lemma sealed_valid t payload k signature : Dsse.valid_name t = true -> utf8_valid t = true -> payload <> [] -> zlen payload <= Dsse.MaxPayloadBytes -> identifier k = true ->
  zlen signature = Dsse.SignatureSize -> Dsse.validateEnvelope (sealed t payload k signature) = Ok tt /\ Dsse.canonical (sealed t payload k signature) = true.
Proof.
  intros Ht Hu Hne Hm (Hk & _ & Hkn)%identifier_plain Hs.
  destruct (Dsse.Sign_inv (fun _ _ => signature) (fun _ _ _ => true) t payload k (repeat "0"%char 64) (repeat "0"%char 32) (sealed t payload k signature)) as (_ & ? & ? & _); try done.
  - unfold Dsse.Sign. rewrite Ht, Hkn. cbn [negb]. by rewrite (proj2 (Z.ltb_ge _ _)) by done.
  - by apply plain_utf8.
Qed.

(** The length of an envelope with one signature. *)
Lemma sealed_size t payload k signature : all_bytes plain_byte t = true -> identifier k = true -> zlen signature = Dsse.SignatureSize ->
  zlen (json_print (to_json (sealed t payload k signature))) = slen t + b64_encoded_len (zlen payload) + slen k + 156.
Proof.
  intros Ht (Hk & _)%identifier_plain Hs. unfold sealed.
  destruct (Dsse.envelope_print t (b64_encode_string payload) k (b64_encode_string signature) Ht (Dsse.b64_string_plain _) Hk (Dsse.b64_string_plain _)) as [_ ->].
  rewrite !Dsse.b64_string_len, Hs. change (b64_encoded_len Dsse.SignatureSize) with 88. lia.
Qed.

Lemma sealed_parse t payload k signature : Dsse.valid_name t = true -> utf8_valid t = true -> payload <> [] -> zlen payload <= Dsse.MaxPayloadBytes -> identifier k = true ->
  zlen signature = Dsse.SignatureSize ->
  Dsse.Parse (json_print (to_json (sealed t payload k signature))) = Ok (sealed t payload k signature) /\
  Dsse.Marshal (sealed t payload k signature) = Ok (json_print (to_json (sealed t payload k signature))).
Proof.
  intros Ht Hu Hne Hm Hk Hs. destruct (sealed_valid t payload k signature) as [Hv Hc]; try done. split; [by apply Dsse.marshal_parse|].
  unfold Dsse.Marshal. by rewrite Hv.
Qed.

Lemma sealed_payload t payload k signature : canonical_payload (sealed t payload k signature) = Some payload.
Proof. unfold canonical_payload. cbn [sealed Dsse.Payload]. rewrite Dsse.b64_string_decode. cbn [mbind option_bind]. by rewrite String.eqb_refl. Qed.
Lemma sealed_signature k signature : zlen signature = Dsse.SignatureSize -> canonical_signature (Dsse.mkSignature k (b64_encode_string signature)) = true.
Proof. intros Hs. unfold canonical_signature. cbn [Dsse.Sig]. by rewrite Dsse.b64_string_decode, Hs, String.eqb_refl. Qed.

(** The canonical spelling passes the inspection. *)
Lemma inspect_ok t maximum payload k signature : Dsse.valid_name t = true -> utf8_valid t = true -> payload <> [] -> zlen payload <= Dsse.MaxPayloadBytes -> utf8_bytes payload = true ->
  identifier k = true -> zlen signature = Dsse.SignatureSize -> zlen (json_print (to_json (sealed t payload k signature))) <= maximum ->
  inspect_envelope t maximum (json_print (to_json (sealed t payload k signature))) = Ok (payload, k).
Proof.
  intros Ht Hu Hne Hm Hp Hk Hs Hz. destruct (sealed_parse t payload k signature) as [HP HM]; try done. unfold inspect_envelope. rewrite HP.
  cbn [Dsse.sigs sealed Dsse.Signatures default from_option id Dsse.PayloadType Dsse.KeyID]. rewrite (proj2 (Z.leb_le _ _) Hz), String.eqb_refl, sealed_signature, Hk by done.
  fold (sealed t payload k signature). rewrite sealed_payload. cbn [opt_ok]. rewrite Hp. unfold is_canonical. rewrite HM, bool_decide_true by done.
  destruct (json_print_head (to_json (sealed t payload k signature))) as (x & l & -> & _).
  - apply to_json_ok, Dsse.canonical_storable. by apply sealed_valid.
  - rewrite zlen_cons, (proj2 (Z.eqb_neq _ _)) by (pose proof (zlen_nonneg l); lia). done.
Qed.

(** The signature of key [k] on the payload verifies under the trusted key of that name. *)
Definition signed (verify : bytes -> bytes -> bytes -> bool) (trusted : gmap string bytes) (t : string) (payload : bytes) (k : string) (signature : bytes) : Prop :=
  exists public, trusted !! k = Some public /\ zlen public = Dsse.PublicKeySize /\ verify public (Dsse.PAE t payload) signature = true.

Lemma verify_sealed verify raw t payload k signature trusted r : Dsse.Parse raw = Ok (sealed t payload k signature) -> zlen signature = Dsse.SignatureSize ->
  Dsse.Verify verify raw t trusted = Ok r <-> r = (payload, k) /\ signed verify trusted t payload k signature /\ zlen payload <= Dsse.MaxPayloadBytes.
Proof.
  intros Hp Hs. unfold Dsse.Verify, signed. rewrite Hp. cbn [sealed Dsse.PayloadType Dsse.Payload Dsse.sigs Dsse.Signatures default from_option id].
  rewrite bool_decide_true, Dsse.b64_string_decode by done. destruct (Z.ltb_spec Dsse.MaxPayloadBytes (zlen payload)) as [Hm|Hm]; cbn [negb List.find].
  { split; [done | intros (_ & _ & ?); lia]. }
  unfold Dsse.signature_valid. cbn [Dsse.KeyID Dsse.Sig]. rewrite Dsse.b64_string_decode, Hs, Z.eqb_refl. cbn [andb]. destruct (trusted !! k) as [public|].
  - destruct (Z.eqb_spec (zlen public) Dsse.PublicKeySize) as [El|El]; cbn [andb]; [destruct (verify _ _ _) eqn:Ev|]; cbv iota.
    + split; [intros [= <-]; split_and!; [done | by exists public | done] | by intros [-> _]].
    + split; [done | intros (_ & (? & [= <-] & _ & ?) & _); congruence].
    + split; [done | intros (_ & (? & [= <-] & ? & _) & _); congruence].
  - split; [done | by intros (_ & (? & ? & _) & _)].
Qed.

(** An envelope that passed the tests of its spelling. *)
Lemma canonical_single e raw payload s : Dsse.sigs e = [s] -> canonical_payload e = Some payload -> canonical_signature s = true -> is_canonical e raw = true ->
  exists signature, zlen signature = Dsse.SignatureSize /\ e = sealed (Dsse.PayloadType e) payload (Dsse.KeyID s) signature /\ raw = json_print (to_json e).
Proof.
  destruct e as [t pl ss], s as [k sig]. unfold Dsse.sigs, canonical_payload, canonical_signature, is_canonical, Dsse.Marshal.
  cbn [Dsse.Signatures Dsse.Payload Dsse.Sig Dsse.PayloadType Dsse.KeyID]. intros Hs Hp Hc Hm. destruct ss as [l|]; cbn in Hs; [|done]. subst l.
  destruct (b64_decode_string pl) as [p|]; [|done]. cbn [mbind option_bind] in Hp. destruct (String.eqb_spec (b64_encode_string p) pl) as [<-|]; [|done]. injection Hp as ->.
  destruct (b64_decode_string sig) as [signature|]; [|done]. breflect. match goal with Hx : String.eqb _ _ = true |- _ => apply String.eqb_eq in Hx as <- end.
  exists signature. split_and!; [done | done|]. step Hm. by injection Hm.
Qed.

Lemma inspect_inv t maximum raw payload k : inspect_envelope t maximum raw = Ok (payload, k) ->
  exists signature, zlen signature = Dsse.SignatureSize /\ raw = json_print (to_json (sealed t payload k signature)) /\ Dsse.Parse raw = Ok (sealed t payload k signature) /\
    identifier k = true /\ utf8_bytes payload = true /\ zlen raw <= maximum.
Proof.
  unfold inspect_envelope. intros H. step H. destruct (Dsse.Parse raw) as [e|] eqn:Ep; [|done]. destruct (Dsse.sigs e) as [|s [|? ?]] eqn:Es; try done. step H.
  destruct (canonical_payload e) as [p|] eqn:Epay; [|done]. cbn [opt_ok] in H. do 3 step H. injection H as -> <-. breflect.
  match goal with Hc : canonical_signature s = true, Hi : is_canonical e raw = true, Ht : String.eqb _ t = true |- _ =>
    destruct (canonical_single e raw payload s Es Epay Hc Hi) as (signature & Hl & He & Hr); apply String.eqb_eq in Ht as <- end.
  exists signature. rewrite <- He. split_and!; done.
Qed.

(** A header value decodes to a permit exactly when it is the encoding of that permit: no second spelling of a permit is accepted, and every permit that is
    encoded is read back. *)
Theorem header_exact value raw : DecodeHeader value = Ok raw <-> EncodeHeader raw = Ok value.
Proof.
  unfold DecodeHeader, EncodeHeader. split.
  - intros H. step H. destruct (url_decode_string value) as [r|] eqn:Ed; [|done]. cbn [opt_ok] in H. step H. injection H as ->. breflect.
    rewrite (proj2 (Z.eqb_neq _ _)), (proj2 (Z.leb_le _ _)) by done. cbn [negb andb]. f_equal. by apply String.eqb_eq.
  - intros H. step H. injection H as <-. breflect. rewrite url_decode_encode, url_encode_len. cbn [opt_ok]. rewrite String.eqb_refl.
    rewrite (proj2 (Z.eqb_neq (zlen raw) 0)), (proj2 (Z.leb_le (zlen raw) _)) by done. cbn [negb andb].
    assert (url_encoded_len (zlen raw) <= url_encoded_len MaxEnvelopeBytes) as Hle.
    { pose proof (zlen_nonneg raw). unfold url_encoded_len in *. change MaxEnvelopeBytes with 16384 in *. Z.to_euclidean_division_equations. lia. }
    rewrite (proj2 (Z.leb_le _ _) Hle), andb_true_r. destruct (String.eqb_spec (url_encode_string raw) "") as [E|]; [|done].
    apply (f_equal url_decode_string) in E. rewrite url_decode_encode in E. injection E as ->. done.
Qed.

End Permit.
