(* ===== verification/TaskPermit.v ===== *)
(** * Task permits ([src/internal/taskpermit/taskpermit.go])

    Signed, short-lived permission to dispatch one exact request to an agent service. [verify] is Ed25519's; [now] is zero for Go's zero time. *)

From Stdlib Require Import Ascii.
From S2P Require Import Prelude GoText GoTime GoFS FenceStore GoJson GoCrypto Strict Dsse GoRune GoNet Admission ConnectorEvent ConnectorReceipt Permit.
Import Permit.

Module TaskPermit.

Definition PayloadType : string := "application/vnd.steward.task-permit.v1+json".
Definition SchemaV1 : string := "steward.task-permit.v1".
Definition MaxEnvelopeBytes : Z := Z.shiftl 16 10.
Definition MaxRequestBytes : Z := Z.shiftl 64 10.
Definition MaxValidity : Z := 15 * minute.
Definition taskDigestDomain : bytes := bytes_of "steward-task-permit-spend-v1" ++ [byte_of_Z 0].

Record Statement := mkStatement {
  s_SchemaVersion : string; s_NodeID : string; s_TenantID : string; s_InstanceID : string; s_RuntimeRef : string; s_GrantID : string;
  s_Generation : Z; s_CapsuleDigest : string; s_PolicyDigest : string; s_RoutePolicyDigest : string; s_ServiceID : string; s_OperationID : string;
  s_OperationPolicyDigest : string; s_TaskID : string; s_RequestDigest : string; s_RequestBytes : Z; s_ContentType : string; s_NotBefore : string;
  s_ExpiresAt : string }.

(** Pointers tell an absent member from a zero value. *)
Record wireStatement := mkwireStatement {
  w_SchemaVersion : option string; w_NodeID : option string; w_TenantID : option string; w_InstanceID : option string; w_RuntimeRef : option string;
  w_GrantID : option string; w_Generation : option Z; w_CapsuleDigest : option string; w_PolicyDigest : option string;
  w_RoutePolicyDigest : option string; w_ServiceID : option string; w_OperationID : option string; w_OperationPolicyDigest : option string;
  w_TaskID : option string; w_RequestDigest : option string; w_RequestBytes : option Z; w_ContentType : option string; w_NotBefore : option string;
  w_ExpiresAt : option string }.

Record Verified := mkVerified { v_Statement : Statement; v_KeyID : string; v_EnvelopeDigest : string }.
Record Inspected := mkInspected { i_Statement : Statement; i_KeyID : string; i_EnvelopeDigest : string }.

Definition zero_Statement : Statement := mkStatement "" "" "" "" "" "" 0 "" "" "" "" "" "" "" "" 0 "" "" "".

#[global] Instance Statement_json : GoJSON Statement := {
  go_shape := KStruct [
    ("schema_version", KString); ("node_id", KString); ("tenant_id", KString); ("instance_id", KString); ("runtime_ref", KString);
    ("grant_id", KString); ("generation", KInt); ("capsule_digest", KString); ("policy_digest", KString); ("route_policy_digest", KString);
    ("service_id", KString); ("operation_id", KString); ("operation_policy_digest", KString); ("task_id", KString); ("request_digest", KString);
    ("request_bytes", KInt); ("content_type", KString); ("not_before", KString); ("expires_at", KString)]%string;
  to_json x := obj [
    always "schema_version" (JStr (s_SchemaVersion x)); always "node_id" (JStr (s_NodeID x)); always "tenant_id" (JStr (s_TenantID x));
    always "instance_id" (JStr (s_InstanceID x)); always "runtime_ref" (JStr (s_RuntimeRef x)); always "grant_id" (JStr (s_GrantID x));
    always "generation" (json_int (s_Generation x)); always "capsule_digest" (JStr (s_CapsuleDigest x));
    always "policy_digest" (JStr (s_PolicyDigest x)); always "route_policy_digest" (JStr (s_RoutePolicyDigest x));
    always "service_id" (JStr (s_ServiceID x)); always "operation_id" (JStr (s_OperationID x));
    always "operation_policy_digest" (JStr (s_OperationPolicyDigest x)); always "task_id" (JStr (s_TaskID x));
    always "request_digest" (JStr (s_RequestDigest x)); always "request_bytes" (json_int (s_RequestBytes x));
    always "content_type" (JStr (s_ContentType x)); always "not_before" (JStr (s_NotBefore x)); always "expires_at" (JStr (s_ExpiresAt x))];
  of_json v := match v with
    | JObj fs =>
        v_SchemaVersion ← field fs "schema_version" dec_string ""%string; v_NodeID ← field fs "node_id" dec_string ""%string;
        v_TenantID ← field fs "tenant_id" dec_string ""%string; v_InstanceID ← field fs "instance_id" dec_string ""%string;
        v_RuntimeRef ← field fs "runtime_ref" dec_string ""%string; v_GrantID ← field fs "grant_id" dec_string ""%string;
        v_Generation ← field fs "generation" dec_u64 0; v_CapsuleDigest ← field fs "capsule_digest" dec_string ""%string;
        v_PolicyDigest ← field fs "policy_digest" dec_string ""%string; v_RoutePolicyDigest ← field fs "route_policy_digest" dec_string ""%string;
        v_ServiceID ← field fs "service_id" dec_string ""%string; v_OperationID ← field fs "operation_id" dec_string ""%string;
        v_OperationPolicyDigest ← field fs "operation_policy_digest" dec_string ""%string; v_TaskID ← field fs "task_id" dec_string ""%string;
        v_RequestDigest ← field fs "request_digest" dec_string ""%string; v_RequestBytes ← field fs "request_bytes" dec_int 0;
        v_ContentType ← field fs "content_type" dec_string ""%string; v_NotBefore ← field fs "not_before" dec_string ""%string;
        v_ExpiresAt ← field fs "expires_at" dec_string ""%string;
        Some (mkStatement v_SchemaVersion v_NodeID v_TenantID v_InstanceID v_RuntimeRef v_GrantID v_Generation v_CapsuleDigest v_PolicyDigest v_RoutePolicyDigest v_ServiceID v_OperationID v_OperationPolicyDigest v_TaskID v_RequestDigest v_RequestBytes v_ContentType v_NotBefore v_ExpiresAt)
    | _ => None end;
  storable x :=
    utf8_valid (s_SchemaVersion x) && utf8_valid (s_NodeID x) && utf8_valid (s_TenantID x) && utf8_valid (s_InstanceID x) &&
    utf8_valid (s_RuntimeRef x) && utf8_valid (s_GrantID x) && in_u64b (s_Generation x) && utf8_valid (s_CapsuleDigest x) &&
    utf8_valid (s_PolicyDigest x) && utf8_valid (s_RoutePolicyDigest x) && utf8_valid (s_ServiceID x) && utf8_valid (s_OperationID x) &&
    utf8_valid (s_OperationPolicyDigest x) && utf8_valid (s_TaskID x) && utf8_valid (s_RequestDigest x) && in_int64b (s_RequestBytes x) &&
    utf8_valid (s_ContentType x) && utf8_valid (s_NotBefore x) && utf8_valid (s_ExpiresAt x);
}.

#[global] Instance Statement_laws : GoJSONLaws Statement 1.
Proof. struct_laws. Qed.

#[global] Instance wireStatement_json : GoJSON wireStatement := read_only (KStruct [
    ("schema_version", KPointer KString); ("node_id", KPointer KString); ("tenant_id", KPointer KString); ("instance_id", KPointer KString);
    ("runtime_ref", KPointer KString); ("grant_id", KPointer KString); ("generation", KPointer KInt); ("capsule_digest", KPointer KString);
    ("policy_digest", KPointer KString); ("route_policy_digest", KPointer KString); ("service_id", KPointer KString);
    ("operation_id", KPointer KString); ("operation_policy_digest", KPointer KString); ("task_id", KPointer KString);
    ("request_digest", KPointer KString); ("request_bytes", KPointer KInt); ("content_type", KPointer KString); ("not_before", KPointer KString);
    ("expires_at", KPointer KString)]%string)
  (fun v => match v with
    | JObj fs =>
        v_SchemaVersion ← field fs "schema_version" (dec_ptr dec_string) None; v_NodeID ← field fs "node_id" (dec_ptr dec_string) None;
        v_TenantID ← field fs "tenant_id" (dec_ptr dec_string) None; v_InstanceID ← field fs "instance_id" (dec_ptr dec_string) None;
        v_RuntimeRef ← field fs "runtime_ref" (dec_ptr dec_string) None; v_GrantID ← field fs "grant_id" (dec_ptr dec_string) None;
        v_Generation ← field fs "generation" (dec_ptr dec_u64) None; v_CapsuleDigest ← field fs "capsule_digest" (dec_ptr dec_string) None;
        v_PolicyDigest ← field fs "policy_digest" (dec_ptr dec_string) None;
        v_RoutePolicyDigest ← field fs "route_policy_digest" (dec_ptr dec_string) None; v_ServiceID ← field fs "service_id" (dec_ptr dec_string) None;
        v_OperationID ← field fs "operation_id" (dec_ptr dec_string) None;
        v_OperationPolicyDigest ← field fs "operation_policy_digest" (dec_ptr dec_string) None;
        v_TaskID ← field fs "task_id" (dec_ptr dec_string) None; v_RequestDigest ← field fs "request_digest" (dec_ptr dec_string) None;
        v_RequestBytes ← field fs "request_bytes" (dec_ptr dec_int) None; v_ContentType ← field fs "content_type" (dec_ptr dec_string) None;
        v_NotBefore ← field fs "not_before" (dec_ptr dec_string) None; v_ExpiresAt ← field fs "expires_at" (dec_ptr dec_string) None;
        Some (mkwireStatement v_SchemaVersion v_NodeID v_TenantID v_InstanceID v_RuntimeRef v_GrantID v_Generation v_CapsuleDigest v_PolicyDigest v_RoutePolicyDigest v_ServiceID v_OperationID v_OperationPolicyDigest v_TaskID v_RequestDigest v_RequestBytes v_ContentType v_NotBefore v_ExpiresAt)
    | _ => None end).

Definition statement (wire : wireStatement) : option Statement :=
  v_SchemaVersion ← w_SchemaVersion wire; v_NodeID ← w_NodeID wire; v_TenantID ← w_TenantID wire; v_InstanceID ← w_InstanceID wire;
  v_RuntimeRef ← w_RuntimeRef wire; v_GrantID ← w_GrantID wire; v_Generation ← w_Generation wire; v_CapsuleDigest ← w_CapsuleDigest wire;
  v_PolicyDigest ← w_PolicyDigest wire; v_RoutePolicyDigest ← w_RoutePolicyDigest wire; v_ServiceID ← w_ServiceID wire;
  v_OperationID ← w_OperationID wire; v_OperationPolicyDigest ← w_OperationPolicyDigest wire; v_TaskID ← w_TaskID wire;
  v_RequestDigest ← w_RequestDigest wire; v_RequestBytes ← w_RequestBytes wire; v_ContentType ← w_ContentType wire; v_NotBefore ← w_NotBefore wire;
  v_ExpiresAt ← w_ExpiresAt wire;
  Some (mkStatement v_SchemaVersion v_NodeID v_TenantID v_InstanceID v_RuntimeRef v_GrantID v_Generation v_CapsuleDigest v_PolicyDigest v_RoutePolicyDigest v_ServiceID v_OperationID v_OperationPolicyDigest v_TaskID v_RequestDigest v_RequestBytes v_ContentType v_NotBefore v_ExpiresAt).

Definition RequestDigest (raw : bytes) : string := "sha256:" +:+ string_of (hex_encode (Sha256.sum raw)).

(** The tuple that is hashed: each text with its length in eight bytes. *)
Definition frame (value : string) : bytes := be_encode 8 (slen value) ++ bytes_of value.
Definition task_preimage (tenantID instanceID taskID : string) : bytes := taskDigestDomain ++ frame tenantID ++ frame instanceID ++ frame taskID.
Definition TaskDigest (tenantID instanceID taskID : string) : string := RequestDigest (task_preimage tenantID instanceID taskID).

Definition validateStatement (s : Statement) (now maxValidity : Z) : result unit :=
  require String.eqb (s_SchemaVersion s) SchemaV1 else "unsupported schema version" in
  require publicIdentity (s_NodeID s) 128 && publicIdentity (s_TenantID s) 128 && publicIdentity (s_InstanceID s) 256 && runtimeRef (s_RuntimeRef s)
    && grantID (s_GrantID s) && identifier (s_ServiceID s) && identifier (s_OperationID s) && identifier (s_TaskID s)
    else "statement contains an invalid identifier" in
  require negb (s_Generation s =? 0) else "generation must be positive" in
  require digest (s_CapsuleDigest s) && digest (s_PolicyDigest s) && digest (s_RoutePolicyDigest s) && digest (s_OperationPolicyDigest s)
    && digest (s_RequestDigest s) else "statement contains an invalid SHA-256 digest" in
  require (0 <? s_RequestBytes s) && (s_RequestBytes s <=? MaxRequestBytes) else "request size is outside the supported range" in
  require String.eqb (s_ContentType s) "application/json" else "content type must be application/json" in
  validateValidity (s_NotBefore s) (s_ExpiresAt s) now maxValidity.

(** The signed bytes as a statement. *)
Definition decode_statement (payload : bytes) : result Statement :=
  let* wire := DecodeStrictInto (A := wireStatement) payload MaxEnvelopeBytes in
  opt_ok (statement wire) "signed statement omits a required field".

Definition InspectUnverified (rawEnvelope : bytes) : result Inspected :=
  let* (payload, keyID) := inspect_envelope PayloadType MaxEnvelopeBytes rawEnvelope in
  let* s := decode_statement payload in
  let* notBefore := opt_ok (canonicalTime (s_NotBefore s)) "not_before: timestamp must be canonical UTC RFC3339 seconds" in
  let* _ := validateStatement s notBefore MaxValidity in
  Ok (mkInspected s keyID (Dsse.Digest rawEnvelope)).

Definition Verify (verify : bytes -> bytes -> bytes -> bool) (rawEnvelope : bytes) (trusted : gmap string bytes) (now maxValidity : Z) : result Verified :=
  require negb (zlen rawEnvelope =? 0) && (zlen rawEnvelope <=? MaxEnvelopeBytes) else "envelope is empty or exceeds its limit" in
  require negb (is_zero now) else "node time is unavailable" in
  require (0 <? maxValidity) && (maxValidity <=? MaxValidity) else "maximum validity must be positive and at most the hard limit" in
  let* envelope := Dsse.Parse rawEnvelope in
  match Dsse.sigs envelope with
  | [signature] =>
      let* _ := opt_ok (canonical_payload envelope) "permit payload is not canonical base64" in
      require canonical_signature signature else "permit signature is not canonical base64" in
      require is_canonical envelope rawEnvelope else "permit envelope is not canonical" in
      let* (payload, keyID) := Dsse.Verify verify rawEnvelope PayloadType trusted in
      require utf8_bytes payload else "signed statement is not valid UTF-8" in
      require identifier keyID else "signature key ID is not a bounded identifier" in
      let* s := decode_statement payload in
      let* _ := validateStatement s now maxValidity in
      Ok (mkVerified s keyID (Dsse.Digest rawEnvelope))
  | _ => Err "permit envelope must contain exactly one signature"
  end.

(** ** Reading back a written statement *)

Definition wire_of (s : Statement) : wireStatement :=
  mkwireStatement (Some (s_SchemaVersion s)) (Some (s_NodeID s)) (Some (s_TenantID s)) (Some (s_InstanceID s)) (Some (s_RuntimeRef s))
  (Some (s_GrantID s)) (Some (s_Generation s)) (Some (s_CapsuleDigest s)) (Some (s_PolicyDigest s)) (Some (s_RoutePolicyDigest s))
  (Some (s_ServiceID s)) (Some (s_OperationID s)) (Some (s_OperationPolicyDigest s)) (Some (s_TaskID s)) (Some (s_RequestDigest s))
  (Some (s_RequestBytes s)) (Some (s_ContentType s)) (Some (s_NotBefore s)) (Some (s_ExpiresAt s)).

Lemma wire_of_shape (s : Statement) d : storable s = true -> (d + 1 <= 32)%nat -> validateJSONValue (go_shape (A := wireStatement)) d (to_json s) = Ok tt.
Proof. intros H Hd; unfold_json; breflect. cbn [go_shape wireStatement_json read_only]. wire_shape. Qed.

Lemma wire_of_json (s : Statement) : storable s = true -> of_json (to_json s) = Some (wire_of s).
Proof. intros H; unfold_json; breflect. cbn [of_json wireStatement_json read_only]. wire_read. done. Qed.

Lemma decode_written s : storable s = true -> zlen (json_print (to_json s)) <= MaxEnvelopeBytes -> decode_statement (json_print (to_json s)) = Ok s.
Proof.
  intros Hs Hz. unfold decode_statement. rewrite (DecodeStrictInto_print (to_json s) (wire_of s)); [by destruct s | by apply to_json_ok | apply wire_of_shape; [done | lia] | by apply wire_of_json | done].
Qed.

(** ** What a permit grants *)

Record valid (s : Statement) (now maxValidity : Z) : Prop := {
  va_schema : s_SchemaVersion s = SchemaV1;
  va_identity : publicIdentity (s_NodeID s) 128 = true /\ publicIdentity (s_TenantID s) 128 = true /\ publicIdentity (s_InstanceID s) 256 = true;
  va_runtime : runtimeRef (s_RuntimeRef s) = true /\ grantID (s_GrantID s) = true;
  va_names : identifier (s_ServiceID s) = true /\ identifier (s_OperationID s) = true /\ identifier (s_TaskID s) = true;
  va_generation : s_Generation s <> 0;
  va_digests : digest (s_CapsuleDigest s) = true /\ digest (s_PolicyDigest s) = true /\ digest (s_RoutePolicyDigest s) = true /\
    digest (s_OperationPolicyDigest s) = true /\ digest (s_RequestDigest s) = true;
  va_bytes : 0 < s_RequestBytes s <= MaxRequestBytes;
  va_content : s_ContentType s = "application/json"%string;
  va_window : exists b e, canonicalTime (s_NotBefore s) = Some b /\ canonicalTime (s_ExpiresAt s) = Some e /\ b <= now < e /\ e - b <= maxValidity;
}.

Lemma validate_spec s now maxValidity : validateStatement s now maxValidity = Ok tt <-> valid s now maxValidity.
Proof.
  unfold validateStatement. split.
  - intros H. do 6 step H. breflect. apply validity_inv in H. repeat match goal with Hx : String.eqb _ _ = true |- _ => apply String.eqb_eq in Hx end.
    constructor; try done; split_and!; done.
  - intros [-> (-> & -> & ->) (-> & ->) (-> & -> & ->) Hg (-> & -> & -> & -> & ->) Hb -> Hw]. rewrite !String.eqb_refl. cbn [andb].
    rewrite (proj2 (Z.eqb_neq _ _) Hg), (proj2 (Z.ltb_lt _ _)), (proj2 (Z.leb_le _ _)) by lia. cbn [negb andb]. by apply validity_inv.
Qed.

(** The integers of a statement have their width. *)
Definition typed (s : Statement) : Prop := in_u64 (s_Generation s) /\ in_int64b (s_RequestBytes s) = true.

Lemma valid_written s now maxValidity : valid s now maxValidity -> typed s -> storable s = true /\ zlen (json_print (to_json s)) <= 6000.
Proof.
  intros [Hsc (H1%short_identity & H2%short_identity & H3%short_identity) (H4%short_runtime & H5%short_grant) (H6%short_id & H7%short_id & H8%short_id) Hg
    (H9%short_digest & H10%short_digest & H11%short_digest & H12%short_digest & H13%short_digest) Hb Hc (b & e & Hnb%short_time & Hne%short_time & _)] [Ht1 Ht2].
  assert (Hs1 : short 32 (s_SchemaVersion s)) by (rewrite Hsc; split; [reflexivity | vm_compute; congruence]).
  assert (Hs2 : short 32 (s_ContentType s)) by (rewrite Hc; split; [reflexivity | vm_compute; congruence]).
  repeat match goal with H : short _ _ |- _ => destruct H end. split.
  - cbn [storable Statement_json]. rewrite !andb_true_iff, in_u64b_true. split_and!; done.
  - cbn [to_json Statement_json]. struct_bound.
Qed.

Section verify.
Context (verify : bytes -> bytes -> bytes -> bool).

(** What an accepted permit is: the canonical envelope of a statement that one trusted key signed, valid now. *)
Record granted (raw : bytes) (trusted : gmap string bytes) (now maxValidity : Z) (v : Verified) (payload signature : bytes) : Prop := {
  gr_raw : raw = json_print (to_json (sealed PayloadType payload (v_KeyID v) signature));
  gr_size : zlen raw <= MaxEnvelopeBytes;
  gr_signature : zlen signature = Dsse.SignatureSize;
  gr_signed : signed verify trusted PayloadType payload (v_KeyID v) signature;
  gr_key : identifier (v_KeyID v) = true;
  gr_payload : utf8_bytes payload = true /\ decode_statement payload = Ok (v_Statement v);
  gr_valid : valid (v_Statement v) now maxValidity;
  gr_clock : now <> 0 /\ 0 < maxValidity <= MaxValidity;
  gr_digest : v_EnvelopeDigest v = Dsse.Digest raw;
}.

Lemma decode_nonempty payload s : decode_statement payload = Ok s -> payload <> [] /\ zlen payload <= Dsse.MaxPayloadBytes.
Proof.
  unfold decode_statement, DecodeStrictInto. intros H. destruct (_ || _) eqn:E in H; [done|]. breflect. split; [done|].
  change MaxEnvelopeBytes with 16384 in *. change Dsse.MaxPayloadBytes with 524288. lia.
Qed.

Lemma verify_granted raw trusted now maxValidity v : Verify verify raw trusted now maxValidity = Ok v <-> exists payload signature, granted raw trusted now maxValidity v payload signature.
Proof.
  unfold Verify. split.
  - intros H. do 3 step H. destruct (Dsse.Parse raw) as [e|] eqn:Ep; [|done]. destruct (Dsse.sigs e) as [|s [|? ?]] eqn:Es; try done.
    destruct (canonical_payload e) as [p|] eqn:Epay; [|done]. cbn [opt_ok] in H. do 2 step H. destruct (Dsse.Verify _ _ _ _) as [[payload k]|] eqn:Ev; [|done].
    do 2 step H. destruct (decode_statement payload) as [st|] eqn:Ed; [|done]. destruct (validateStatement _ _ _) as [[]|] eqn:Eva; [|done]. injection H as <-.
    destruct (canonical_single e raw p s Es Epay E2 E3) as (signature & Hl & He & Hr). destruct (Dsse.Verify_type _ _ _ _ _ _ Ev) as (e' & Ep' & Ht).
    rewrite Ep in Ep'. injection Ep' as <-. rewrite Ht in He. rewrite He in Ep. apply (verify_sealed _ _ _ _ _ _ _ _ Ep Hl) in Ev as ([= -> ->] & Hsig & _).
    exists p, signature. unfold is_zero in *. breflect. rewrite He in Hr. constructor; try done; by apply validate_spec.
  - intros (payload & signature & [Hr Hz Hl Hs Hk [Hu Hd] Hv [Hn Hm] Hg]). destruct (decode_nonempty _ _ Hd) as [Hne Hpm].
    destruct (sealed_parse PayloadType payload (v_KeyID v) signature) as [HP HM]; try done. rewrite <- Hr in HP, HM.
    unfold is_zero. rewrite (proj2 (Z.leb_le _ _) Hz), (proj2 (Z.eqb_neq _ _) Hn), (proj2 (Z.ltb_lt 0 _)), (proj2 (Z.leb_le maxValidity _)), HP by lia.
    cbn [Dsse.sigs sealed Dsse.Signatures default from_option id negb andb]. fold (sealed PayloadType payload (v_KeyID v) signature).
    rewrite sealed_payload, sealed_signature by done. cbn [opt_ok]. unfold is_canonical. rewrite HM, bool_decide_true by done.
    rewrite (proj2 (verify_sealed _ _ _ _ _ _ _ (payload, v_KeyID v) HP Hl)) by (split_and!; done). cbv beta iota. rewrite Hu, Hk, Hd, (proj2 (validate_spec _ _ _) Hv), <- Hg.
    assert (zlen raw <> 0) as Hz0. { unfold Dsse.Parse, DecodeStrictInto in HP. destruct raw; [|rewrite zlen_cons; pose proof (zlen_nonneg raw); lia]. by rewrite orb_true_r in HP. }
    rewrite (proj2 (Z.eqb_neq _ _) Hz0). by destruct v.
Qed.

(** A task permit is accepted exactly when its bytes are the one canonical envelope of a payload that the named trusted key signed, the payload strictly decodes
    to a statement with every member present, the statement is well formed, and the clock lies in its window, which is not longer than the local limit. *)
Theorem task_permit_exact raw trusted now maxValidity v :
  Verify verify raw trusted now maxValidity = Ok v <-> exists payload signature, granted raw trusted now maxValidity v payload signature.
Proof. apply verify_granted. Qed.

(** Whoever holds a trusted key can issue a permit for every well-formed statement: the envelope it signs fits the limit and is accepted as that statement. *)
Theorem task_permit_issued sign s k private public trusted now maxValidity : Dsse.key_pair sign verify private public -> trusted !! k = Some public -> identifier k = true ->
  valid s now maxValidity -> typed s -> now <> 0 -> 0 < maxValidity <= MaxValidity ->
  exists e raw, Dsse.Sign sign PayloadType (json_print (to_json s)) k private = Ok e /\ Dsse.Marshal e = Ok raw /\
    Verify verify raw trusted now maxValidity = Ok (mkVerified s k (Dsse.Digest raw)).
Proof.
  intros Hkp Ht Hk Hv Hty Hn Hm. destruct (valid_written _ _ _ Hv Hty) as [Hst Hz]. pose proof (to_json_ok s Hst) as Hok.
  destruct (json_print_head _ Hok) as (x & l & Ep & _). assert (Hne : json_print (to_json s) <> []) by (by rewrite Ep).
  set (payload := json_print (to_json s)) in *. pose proof Hkp as (Hpl & Hpub & Hs). destruct (Hs (Dsse.PAE PayloadType payload)) as [Hsl Hsv].
  destruct (identifier_plain k Hk) as (_ & Hkl & Hkn). set (signature := sign private (Dsse.PAE PayloadType payload)) in *.
  destruct (sealed_parse PayloadType payload k signature) as [_ HM]; try done; [change Dsse.MaxPayloadBytes with 524288; lia|].
  exists (sealed PayloadType payload k signature), (json_print (to_json (sealed PayloadType payload k signature))). split_and!; [|exact HM|].
  - unfold Dsse.Sign. rewrite Hkn, Hpl, (proj2 (Z.ltb_ge _ _)); [done|]. change Dsse.MaxPayloadBytes with 524288. lia.
  - apply verify_granted. exists payload, signature. constructor; cbn [v_KeyID v_Statement v_EnvelopeDigest]; try done.
    + rewrite sealed_size by done. change (slen PayloadType) with 43. change MaxEnvelopeBytes with 16384. unfold b64_encoded_len.
      Z.to_euclidean_division_equations. lia.
    + by exists public.
    + split; [by apply utf8_bytes_valid, json_print_utf8|]. apply decode_written; [done|]. fold payload. change MaxEnvelopeBytes with 16384. lia.
Qed.
End verify.

(** ** Replay identities *)

Lemma frame_inj a b k l : slen a < 2 ^ 63 -> slen b < 2 ^ 63 -> frame a ++ k = frame b ++ l -> a = b /\ k = l.
Proof.
  unfold frame. rewrite <- !app_assoc. intros Ha Hb E. pose proof (slen_nonneg a). pose proof (slen_nonneg b).
  apply app_inj_1 in E as [El E]; [|by rewrite !length_be_encode]. apply (f_equal be_decode) in El. rewrite !be_decode_encode_small in El by (change (256 ^ Z.of_nat 8) with (2 ^ 64); lia).
  apply app_inj_1 in E as [Eb ->]; [by apply bytes_of_inj in Eb|]. rewrite <- !zlen_bytes_of in El. unfold zlen in El. lia.
Qed.

(** The replay identity of a task binds tenant, instance and task: two tuples with the same identity are equal, or their framed texts are a SHA-256 collision. *)
Theorem task_digest_binds t i k t' i' k' : Forall (fun s => slen s < 2 ^ 63) [t; i; k; t'; i'; k'] -> TaskDigest t i k = TaskDigest t' i' k' ->
  (t = t' /\ i = i' /\ k = k') \/ (task_preimage t i k <> task_preimage t' i' k' /\ Sha256.sum (task_preimage t i k) = Sha256.sum (task_preimage t' i' k')).
Proof.
  intros Hl E. assert (Hs : Sha256.sum (task_preimage t i k) = Sha256.sum (task_preimage t' i' k')).
  { unfold TaskDigest, RequestDigest in E. apply (f_equal bytes_of) in E. rewrite !bytes_of_app, !bytes_of_string_of in E. by apply app_inv_head, hex_encode_inj in E. }
  destruct (decide (task_preimage t i k = task_preimage t' i' k')) as [Ep|]; [left | by right]. rewrite !Forall_cons in Hl. destruct Hl as (H1 & H2 & H3 & H4 & H5 & H6 & _).
  unfold task_preimage in Ep. apply app_inv_head in Ep. apply frame_inj in Ep as [-> Ep]; [|done..]. apply frame_inj in Ep as [-> Ep]; [|done..].
  rewrite <- (app_nil_r (frame k)), <- (app_nil_r (frame k')) in Ep. by apply frame_inj in Ep as [-> _].
Qed.

(** ** A concrete permit *)

Definition zeros : string := "0000000000000000000000000000000000000000000000000000000000000000".
Definition sample_digest : string := "sha256:" +:+ zeros.
Definition sample_statement : Statement :=
  mkStatement SchemaV1 "node-1" "acme" "agent-1" ("executor-" +:+ zeros) ("grant-" +:+ zeros) 3 sample_digest sample_digest sample_digest "hermes-api" "run" sample_digest
    "task-1" sample_digest 512 "application/json" "2030-01-01T00:00:00Z" "2030-01-01T00:10:00Z".
Definition sample_time : Z := 64029053100000000000.

Lemma sample_valid : valid sample_statement sample_time MaxValidity.
Proof. apply validate_spec. vm_compute. reflexivity. Qed.

Lemma task_permit_issued_witness : exists e raw, Dsse.Sign Dsse.toy_sign PayloadType (json_print (to_json sample_statement)) "tasks" (Dsse.toy_priv "t") = Ok e /\
  Dsse.Marshal e = Ok raw /\
  Verify Dsse.toy_verify raw {[ "tasks"%string := Dsse.toy_pub "t" ]} sample_time MaxValidity = Ok (mkVerified sample_statement "tasks" (Dsse.Digest raw)).
Proof.
  apply (task_permit_issued Dsse.toy_verify Dsse.toy_sign sample_statement "tasks" (Dsse.toy_priv "t") (Dsse.toy_pub "t"));
    [by apply Dsse.toy_key_pair | by rewrite lookup_singleton_eq | reflexivity | exact sample_valid | split; [split; vm_compute; congruence | reflexivity] | discriminate | split; [reflexivity | discriminate]].
Defined.

Lemma task_digest_binds_witness : ("acme" = "acme" /\ "agent-1" = "agent-1" /\ "task-1" = "task-1")%string \/
  (task_preimage "acme" "agent-1" "task-1" <> task_preimage "acme" "agent-1" "task-1" /\
   Sha256.sum (task_preimage "acme" "agent-1" "task-1") = Sha256.sum (task_preimage "acme" "agent-1" "task-1")).
Proof. apply task_digest_binds; [repeat constructor | reflexivity]. Defined.

End TaskPermit.
