(* ===== verification/SchedulePermit.v ===== *)
(** * Schedule permits ([src/internal/schedulepermit/schedulepermit.go])

    A tenant signs a finite schedule of one exact request; each run is a wrapper around the signed schedule whose identity and due time are recomputed.
    Durations are [int64] nanoseconds with their wrap-around; [now] is zero for Go's zero time. *)

From Stdlib Require Import Ascii.
From S2P Require Import Prelude GoText GoTime GoFS FenceStore GoJson GoCrypto Strict Dsse GoRune GoNet Admission ConnectorEvent ConnectorReceipt Permit TaskPermit.
Import Permit.

Module SchedulePermit.

Definition PayloadType : string := "application/vnd.steward.task-schedule.v1+json".
Definition SchemaV1 : string := "steward.task-schedule.v1".
Definition RunSchemaV1 : string := "steward.schedule-run-permit.v1".
Definition MaxEnvelopeBytes : Z := Z.shiftl 24 10.
Definition MaxRunPermitBytes : Z := Z.shiftl 32 10.
Definition MaxRuns : Z := 10000.
Definition MaxValidity : Z := 366 * 24 * hour.
Definition MaxWindow : Z := 15 * minute.
Definition MaxConcurrency : Z := 16.

Record Statement := mkStatement {
  s_SchemaVersion : string; s_ScheduleID : string; s_NodeID : string; s_TenantID : string; s_InstanceID : string; s_RuntimeRef : string;
  s_GrantID : string; s_Generation : Z; s_CapsuleDigest : string; s_PolicyDigest : string; s_RoutePolicyDigest : string; s_ServiceID : string;
  s_OperationID : string; s_OperationPolicyDigest : string; s_RequestDigest : string; s_RequestBytes : Z; s_ContentType : string; s_StartsAt : string;
  s_IntervalSeconds : Z; s_RunCount : Z; s_WindowSeconds : Z; s_MaxConcurrency : Z; s_OverlapPolicy : string; s_MissedRunPolicy : string;
  s_ProjectID : string; s_SessionID : string }.

(** Pointers tell an absent member from a zero value. *)
Record wireStatement := mkwireStatement {
  w_SchemaVersion : option string; w_ScheduleID : option string; w_NodeID : option string; w_TenantID : option string; w_InstanceID : option string;
  w_RuntimeRef : option string; w_GrantID : option string; w_Generation : option Z; w_CapsuleDigest : option string; w_PolicyDigest : option string;
  w_RoutePolicyDigest : option string; w_ServiceID : option string; w_OperationID : option string; w_OperationPolicyDigest : option string;
  w_RequestDigest : option string; w_RequestBytes : option Z; w_ContentType : option string; w_StartsAt : option string; w_IntervalSeconds : option Z;
  w_RunCount : option Z; w_WindowSeconds : option Z; w_MaxConcurrency : option Z; w_OverlapPolicy : option string; w_MissedRunPolicy : option string;
  w_ProjectID : option string; w_SessionID : option string }.

Record RunPermit := mkRunPermit {
  r_SchemaVersion : string; r_ScheduleBase64 : string; r_Ordinal : Z; r_DueAt : string; r_TaskID : string }.

Record wireRun := mkwireRun {
  q_SchemaVersion : option string; q_ScheduleBase64 : option string; q_Ordinal : option Z; q_DueAt : option string; q_TaskID : option string }.

Record Inspected := mkInspected { i_Statement : Statement; i_KeyID : string; i_EnvelopeDigest : string }.
Record VerifiedRun := mkVerifiedRun {
  v_Statement : Statement; v_KeyID : string; v_EnvelopeDigest : string; v_RunPermitDigest : string; v_TaskID : string; v_Ordinal : Z; v_DueAt : Z }.

Definition zero_Statement : Statement := mkStatement "" "" "" "" "" "" "" 0 "" "" "" "" "" "" "" 0 "" "" 0 0 0 0 "" "" "" "".

#[global] Instance Statement_json : GoJSON Statement := {
  go_shape := KStruct [
    ("schema_version", KString); ("schedule_id", KString); ("node_id", KString); ("tenant_id", KString); ("instance_id", KString);
    ("runtime_ref", KString); ("grant_id", KString); ("generation", KInt); ("capsule_digest", KString); ("policy_digest", KString);
    ("route_policy_digest", KString); ("service_id", KString); ("operation_id", KString); ("operation_policy_digest", KString);
    ("request_digest", KString); ("request_bytes", KInt); ("content_type", KString); ("starts_at", KString); ("interval_seconds", KInt);
    ("run_count", KInt); ("window_seconds", KInt); ("max_concurrency", KInt); ("overlap_policy", KString); ("missed_run_policy", KString);
    ("project_id", KString); ("session_id", KString)]%string;
  to_json x := obj [
    always "schema_version" (JStr (s_SchemaVersion x)); always "schedule_id" (JStr (s_ScheduleID x)); always "node_id" (JStr (s_NodeID x));
    always "tenant_id" (JStr (s_TenantID x)); always "instance_id" (JStr (s_InstanceID x)); always "runtime_ref" (JStr (s_RuntimeRef x));
    always "grant_id" (JStr (s_GrantID x)); always "generation" (json_int (s_Generation x)); always "capsule_digest" (JStr (s_CapsuleDigest x));
    always "policy_digest" (JStr (s_PolicyDigest x)); always "route_policy_digest" (JStr (s_RoutePolicyDigest x));
    always "service_id" (JStr (s_ServiceID x)); always "operation_id" (JStr (s_OperationID x));
    always "operation_policy_digest" (JStr (s_OperationPolicyDigest x)); always "request_digest" (JStr (s_RequestDigest x));
    always "request_bytes" (json_int (s_RequestBytes x)); always "content_type" (JStr (s_ContentType x)); always "starts_at" (JStr (s_StartsAt x));
    always "interval_seconds" (json_int (s_IntervalSeconds x)); always "run_count" (json_int (s_RunCount x));
    always "window_seconds" (json_int (s_WindowSeconds x)); always "max_concurrency" (json_int (s_MaxConcurrency x));
    always "overlap_policy" (JStr (s_OverlapPolicy x)); always "missed_run_policy" (JStr (s_MissedRunPolicy x));
    omitempty "project_id" (empty_string (s_ProjectID x)) (JStr (s_ProjectID x));
    omitempty "session_id" (empty_string (s_SessionID x)) (JStr (s_SessionID x))];
  of_json v := match v with
    | JObj fs =>
        v_SchemaVersion ← field fs "schema_version" dec_string ""%string; v_ScheduleID ← field fs "schedule_id" dec_string ""%string;
        v_NodeID ← field fs "node_id" dec_string ""%string; v_TenantID ← field fs "tenant_id" dec_string ""%string;
        v_InstanceID ← field fs "instance_id" dec_string ""%string; v_RuntimeRef ← field fs "runtime_ref" dec_string ""%string;
        v_GrantID ← field fs "grant_id" dec_string ""%string; v_Generation ← field fs "generation" dec_u64 0;
        v_CapsuleDigest ← field fs "capsule_digest" dec_string ""%string; v_PolicyDigest ← field fs "policy_digest" dec_string ""%string;
        v_RoutePolicyDigest ← field fs "route_policy_digest" dec_string ""%string; v_ServiceID ← field fs "service_id" dec_string ""%string;
        v_OperationID ← field fs "operation_id" dec_string ""%string;
        v_OperationPolicyDigest ← field fs "operation_policy_digest" dec_string ""%string;
        v_RequestDigest ← field fs "request_digest" dec_string ""%string; v_RequestBytes ← field fs "request_bytes" dec_int 0;
        v_ContentType ← field fs "content_type" dec_string ""%string; v_StartsAt ← field fs "starts_at" dec_string ""%string;
        v_IntervalSeconds ← field fs "interval_seconds" dec_int 0; v_RunCount ← field fs "run_count" dec_u64 0;
        v_WindowSeconds ← field fs "window_seconds" dec_int 0; v_MaxConcurrency ← field fs "max_concurrency" dec_int 0;
        v_OverlapPolicy ← field fs "overlap_policy" dec_string ""%string; v_MissedRunPolicy ← field fs "missed_run_policy" dec_string ""%string;
        v_ProjectID ← field fs "project_id" dec_string ""%string; v_SessionID ← field fs "session_id" dec_string ""%string;
        Some (mkStatement v_SchemaVersion v_ScheduleID v_NodeID v_TenantID v_InstanceID v_RuntimeRef v_GrantID v_Generation v_CapsuleDigest v_PolicyDigest v_RoutePolicyDigest v_ServiceID v_OperationID v_OperationPolicyDigest v_RequestDigest v_RequestBytes v_ContentType v_StartsAt v_IntervalSeconds v_RunCount v_WindowSeconds v_MaxConcurrency v_OverlapPolicy v_MissedRunPolicy v_ProjectID v_SessionID)
    | _ => None end;
  storable x :=
    utf8_valid (s_SchemaVersion x) && utf8_valid (s_ScheduleID x) && utf8_valid (s_NodeID x) && utf8_valid (s_TenantID x) &&
    utf8_valid (s_InstanceID x) && utf8_valid (s_RuntimeRef x) && utf8_valid (s_GrantID x) && in_u64b (s_Generation x) &&
    utf8_valid (s_CapsuleDigest x) && utf8_valid (s_PolicyDigest x) && utf8_valid (s_RoutePolicyDigest x) && utf8_valid (s_ServiceID x) &&
    utf8_valid (s_OperationID x) && utf8_valid (s_OperationPolicyDigest x) && utf8_valid (s_RequestDigest x) && in_int64b (s_RequestBytes x) &&
    utf8_valid (s_ContentType x) && utf8_valid (s_StartsAt x) && in_int64b (s_IntervalSeconds x) && in_u64b (s_RunCount x) &&
    in_int64b (s_WindowSeconds x) && in_int64b (s_MaxConcurrency x) && utf8_valid (s_OverlapPolicy x) && utf8_valid (s_MissedRunPolicy x) &&
    utf8_valid (s_ProjectID x) && utf8_valid (s_SessionID x);
}.

#[global] Instance Statement_laws : GoJSONLaws Statement 1.
Proof. struct_laws. Qed.

#[global] Instance wireStatement_json : GoJSON wireStatement := read_only (KStruct [
    ("schema_version", KPointer KString); ("schedule_id", KPointer KString); ("node_id", KPointer KString); ("tenant_id", KPointer KString);
    ("instance_id", KPointer KString); ("runtime_ref", KPointer KString); ("grant_id", KPointer KString); ("generation", KPointer KInt);
    ("capsule_digest", KPointer KString); ("policy_digest", KPointer KString); ("route_policy_digest", KPointer KString);
    ("service_id", KPointer KString); ("operation_id", KPointer KString); ("operation_policy_digest", KPointer KString);
    ("request_digest", KPointer KString); ("request_bytes", KPointer KInt); ("content_type", KPointer KString); ("starts_at", KPointer KString);
    ("interval_seconds", KPointer KInt); ("run_count", KPointer KInt); ("window_seconds", KPointer KInt); ("max_concurrency", KPointer KInt);
    ("overlap_policy", KPointer KString); ("missed_run_policy", KPointer KString); ("project_id", KPointer KString); ("session_id", KPointer KString)]%string)
  (fun v => match v with
    | JObj fs =>
        v_SchemaVersion ← field fs "schema_version" (dec_ptr dec_string) None; v_ScheduleID ← field fs "schedule_id" (dec_ptr dec_string) None;
        v_NodeID ← field fs "node_id" (dec_ptr dec_string) None; v_TenantID ← field fs "tenant_id" (dec_ptr dec_string) None;
        v_InstanceID ← field fs "instance_id" (dec_ptr dec_string) None; v_RuntimeRef ← field fs "runtime_ref" (dec_ptr dec_string) None;
        v_GrantID ← field fs "grant_id" (dec_ptr dec_string) None; v_Generation ← field fs "generation" (dec_ptr dec_u64) None;
        v_CapsuleDigest ← field fs "capsule_digest" (dec_ptr dec_string) None; v_PolicyDigest ← field fs "policy_digest" (dec_ptr dec_string) None;
        v_RoutePolicyDigest ← field fs "route_policy_digest" (dec_ptr dec_string) None; v_ServiceID ← field fs "service_id" (dec_ptr dec_string) None;
        v_OperationID ← field fs "operation_id" (dec_ptr dec_string) None;
        v_OperationPolicyDigest ← field fs "operation_policy_digest" (dec_ptr dec_string) None;
        v_RequestDigest ← field fs "request_digest" (dec_ptr dec_string) None; v_RequestBytes ← field fs "request_bytes" (dec_ptr dec_int) None;
        v_ContentType ← field fs "content_type" (dec_ptr dec_string) None; v_StartsAt ← field fs "starts_at" (dec_ptr dec_string) None;
        v_IntervalSeconds ← field fs "interval_seconds" (dec_ptr dec_int) None; v_RunCount ← field fs "run_count" (dec_ptr dec_u64) None;
        v_WindowSeconds ← field fs "window_seconds" (dec_ptr dec_int) None; v_MaxConcurrency ← field fs "max_concurrency" (dec_ptr dec_int) None;
        v_OverlapPolicy ← field fs "overlap_policy" (dec_ptr dec_string) None;
        v_MissedRunPolicy ← field fs "missed_run_policy" (dec_ptr dec_string) None; v_ProjectID ← field fs "project_id" (dec_ptr dec_string) None;
        v_SessionID ← field fs "session_id" (dec_ptr dec_string) None;
        Some (mkwireStatement v_SchemaVersion v_ScheduleID v_NodeID v_TenantID v_InstanceID v_RuntimeRef v_GrantID v_Generation v_CapsuleDigest v_PolicyDigest v_RoutePolicyDigest v_ServiceID v_OperationID v_OperationPolicyDigest v_RequestDigest v_RequestBytes v_ContentType v_StartsAt v_IntervalSeconds v_RunCount v_WindowSeconds v_MaxConcurrency v_OverlapPolicy v_MissedRunPolicy v_ProjectID v_SessionID)
    | _ => None end).

Definition zero_RunPermit : RunPermit := mkRunPermit "" "" 0 "" "".

#[global] Instance RunPermit_json : GoJSON RunPermit := {
  go_shape := KStruct [
    ("schema_version", KString); ("schedule_base64", KString); ("ordinal", KInt); ("due_at", KString); ("task_id", KString)]%string;
  to_json x := obj [
    always "schema_version" (JStr (r_SchemaVersion x)); always "schedule_base64" (JStr (r_ScheduleBase64 x));
    always "ordinal" (json_int (r_Ordinal x)); always "due_at" (JStr (r_DueAt x)); always "task_id" (JStr (r_TaskID x))];
  of_json v := match v with
    | JObj fs =>
        v_SchemaVersion ← field fs "schema_version" dec_string ""%string; v_ScheduleBase64 ← field fs "schedule_base64" dec_string ""%string;
        v_Ordinal ← field fs "ordinal" dec_u64 0; v_DueAt ← field fs "due_at" dec_string ""%string;
        v_TaskID ← field fs "task_id" dec_string ""%string;
        Some (mkRunPermit v_SchemaVersion v_ScheduleBase64 v_Ordinal v_DueAt v_TaskID)
    | _ => None end;
  storable x :=
    utf8_valid (r_SchemaVersion x) && utf8_valid (r_ScheduleBase64 x) && in_u64b (r_Ordinal x) && utf8_valid (r_DueAt x) && utf8_valid (r_TaskID x);
}.

#[global] Instance RunPermit_laws : GoJSONLaws RunPermit 1.
Proof. struct_laws. Qed.

#[global] Instance wireRun_json : GoJSON wireRun := read_only (KStruct [
    ("schema_version", KPointer KString); ("schedule_base64", KPointer KString); ("ordinal", KPointer KInt); ("due_at", KPointer KString);
    ("task_id", KPointer KString)]%string)
  (fun v => match v with
    | JObj fs =>
        v_SchemaVersion ← field fs "schema_version" (dec_ptr dec_string) None;
        v_ScheduleBase64 ← field fs "schedule_base64" (dec_ptr dec_string) None; v_Ordinal ← field fs "ordinal" (dec_ptr dec_u64) None;
        v_DueAt ← field fs "due_at" (dec_ptr dec_string) None; v_TaskID ← field fs "task_id" (dec_ptr dec_string) None;
        Some (mkwireRun v_SchemaVersion v_ScheduleBase64 v_Ordinal v_DueAt v_TaskID)
    | _ => None end).

Definition statement (wire : wireStatement) : option Statement :=
  v_SchemaVersion ← w_SchemaVersion wire; v_ScheduleID ← w_ScheduleID wire; v_NodeID ← w_NodeID wire; v_TenantID ← w_TenantID wire;
  v_InstanceID ← w_InstanceID wire; v_RuntimeRef ← w_RuntimeRef wire; v_GrantID ← w_GrantID wire; v_Generation ← w_Generation wire;
  v_CapsuleDigest ← w_CapsuleDigest wire; v_PolicyDigest ← w_PolicyDigest wire; v_RoutePolicyDigest ← w_RoutePolicyDigest wire;
  v_ServiceID ← w_ServiceID wire; v_OperationID ← w_OperationID wire; v_OperationPolicyDigest ← w_OperationPolicyDigest wire;
  v_RequestDigest ← w_RequestDigest wire; v_RequestBytes ← w_RequestBytes wire; v_ContentType ← w_ContentType wire; v_StartsAt ← w_StartsAt wire;
  v_IntervalSeconds ← w_IntervalSeconds wire; v_RunCount ← w_RunCount wire; v_WindowSeconds ← w_WindowSeconds wire;
  v_MaxConcurrency ← w_MaxConcurrency wire; v_OverlapPolicy ← w_OverlapPolicy wire; v_MissedRunPolicy ← w_MissedRunPolicy wire;
  Some (mkStatement v_SchemaVersion v_ScheduleID v_NodeID v_TenantID v_InstanceID v_RuntimeRef v_GrantID v_Generation v_CapsuleDigest v_PolicyDigest v_RoutePolicyDigest v_ServiceID v_OperationID v_OperationPolicyDigest v_RequestDigest v_RequestBytes v_ContentType v_StartsAt v_IntervalSeconds v_RunCount v_WindowSeconds v_MaxConcurrency v_OverlapPolicy v_MissedRunPolicy (default ""%string (w_ProjectID wire)) (default ""%string (w_SessionID wire))).

(** [^[A-Za-z0-9][A-Za-z0-9._-]{0,95}$] *)
Definition scheduleIDPattern (value : string) : bool := identifier value && (slen value <=? 96).

(** [time.Duration(n) * time.Second]. *)
Definition seconds (n : Z) : Z := int64 (n * second).

(** The due time and the task identity of a run. The division panics on zero; no validated statement gets there. *)
Definition Run (s : Statement) (ordinal : Z) : result (Z * string) :=
  require negb (ordinal =? 0) && (ordinal <=? s_RunCount s) else "run ordinal is outside the signed schedule" in
  let* start := opt_ok (canonicalTime (s_StartsAt s)) "starts_at: timestamp must be canonical UTC RFC3339 seconds" in
  require negb (negb (s_IntervalSeconds s =? 0) && (seconds (s_IntervalSeconds s) =? 0)) else "panic: integer divide by zero" in
  require negb (negb (s_IntervalSeconds s =? 0) && (Z.quot MaxValidity (seconds (s_IntervalSeconds s)) mod 2 ^ 64 <? ordinal - 1))
    else "run due time overflows its schedule" in
  let due := start + int64 (int64 (int64 (ordinal - 1) * s_IntervalSeconds s) * second) in
  let taskID := s_ScheduleID s +:+ "-" +:+ Dsse.itoa_string ordinal in
  require identifier taskID else "derived task identity is invalid" in
  Ok (due, taskID).

Definition Validate (s : Statement) : result unit :=
  let* start := opt_ok (canonicalTime (s_StartsAt s)) "starts_at: timestamp must be canonical UTC RFC3339 seconds" in
  require String.eqb (s_SchemaVersion s) SchemaV1 && scheduleIDPattern (s_ScheduleID s) && publicIdentity (s_NodeID s) 128 && publicIdentity (s_TenantID s) 128
    && publicIdentity (s_InstanceID s) 256 && runtimeRef (s_RuntimeRef s) && grantID (s_GrantID s) && negb (s_Generation s =? 0)
    && digest (s_CapsuleDigest s) && digest (s_PolicyDigest s) && digest (s_RoutePolicyDigest s) && identifier (s_ServiceID s)
    && identifier (s_OperationID s) && digest (s_OperationPolicyDigest s) && digest (s_RequestDigest s) && (0 <? s_RequestBytes s)
    && (s_RequestBytes s <=? TaskPermit.MaxRequestBytes) && String.eqb (s_ContentType s) "application/json" && negb (s_RunCount s =? 0)
    && (s_RunCount s <=? MaxRuns) && (1 <=? s_WindowSeconds s) && (seconds (s_WindowSeconds s) <=? MaxWindow)
    && (1 <=? s_MaxConcurrency s) && (s_MaxConcurrency s <=? MaxConcurrency) && is_in (s_OverlapPolicy s) ["queue"; "skip"]%string
    && String.eqb (s_MissedRunPolicy s) "skip" && Bool.eqb (String.eqb (s_ProjectID s) "") (String.eqb (s_SessionID s) "")
    && (String.eqb (s_ProjectID s) "" || identifier (s_ProjectID s)) && (String.eqb (s_SessionID s) "" || identifier (s_SessionID s))
    else "schedule statement contains an invalid binding" in
  let* _ :=
    if s_IntervalSeconds s =? 0 then require s_RunCount s =? 1 else "one-time schedule must contain exactly one run" in Ok tt
    else require (60 <=? s_IntervalSeconds s) && (s_IntervalSeconds s <=? 30 * 24 * 3600) else "recurring interval must be from 60 seconds through 30 days" in Ok tt in
  let* (last, _) := Run s (s_RunCount s) in
  require (start <=? last) && (last + seconds (s_WindowSeconds s) - start <=? MaxValidity) else "schedule duration exceeds its finite validity bound" in
  Ok tt.

(** The signed bytes as a statement. *)
Definition decode_statement (payload : bytes) : result Statement :=
  let* wire := DecodeStrictInto (A := wireStatement) payload MaxEnvelopeBytes in
  opt_ok (statement wire) "signed schedule omits a required field".

(** [trusted] is nil for a courier that only inspects. *)
Definition inspect (verify : bytes -> bytes -> bytes -> bool) (raw : bytes) (trusted : option (gmap string bytes)) : result (Statement * string * string) :=
  let* (payload, keyID) := inspect_envelope PayloadType MaxEnvelopeBytes raw in
  let* _ := match trusted with
    | None => Ok tt
    | Some trusted =>
        let* (verified, verifiedKeyID) := Dsse.Verify verify raw PayloadType trusted in
        require String.eqb verifiedKeyID keyID && bool_decide (verified = payload) else "verify schedule envelope" in Ok tt
    end in
  let* s := decode_statement payload in
  let* _ := Validate s in
  Ok (s, keyID, Dsse.Digest raw).

Definition no_verify : bytes -> bytes -> bytes -> bool := fun _ _ _ => false.
Definition InspectUnverified (raw : bytes) : result Inspected :=
  let* (s, keyID, envelopeDigest) := inspect no_verify raw None in Ok (mkInspected s keyID envelopeDigest).

Definition Sign (sign : bytes -> bytes -> bytes) (s : Statement) (keyID : string) (private : bytes) : result bytes :=
  require identifier keyID && (zlen private =? Dsse.PrivateKeySize) else "schedule signing key is invalid" in
  let* _ := Validate s in
  let* envelope := Dsse.Sign sign PayloadType (json_print (to_json s)) keyID private in
  let* raw := Dsse.Marshal envelope in
  require zlen raw <=? MaxEnvelopeBytes else "marshal schedule envelope" in Ok raw.

Definition BuildRunPermit (schedule : bytes) (ordinal : Z) : result bytes :=
  let* inspected := InspectUnverified schedule in
  let* (due, taskID) := Run (i_Statement inspected) ordinal in
  let raw := json_print (to_json (mkRunPermit RunSchemaV1 (b64_encode_string schedule) ordinal (format_seconds due) taskID)) in
  require zlen raw <=? MaxRunPermitBytes else "marshal schedule run permit" in Ok raw.

Definition run_permit (wire : wireRun) : option RunPermit :=
  v_SchemaVersion ← q_SchemaVersion wire; v_ScheduleBase64 ← q_ScheduleBase64 wire; v_Ordinal ← q_Ordinal wire; v_DueAt ← q_DueAt wire;
  v_TaskID ← q_TaskID wire; Some (mkRunPermit v_SchemaVersion v_ScheduleBase64 v_Ordinal v_DueAt v_TaskID).

Definition decodeRunPermit (raw : bytes) : result (RunPermit * bytes) :=
  require negb (zlen raw =? 0) && (zlen raw <=? MaxRunPermitBytes) else "run permit is empty or oversized" in
  let* wire := DecodeStrictInto (A := wireRun) raw MaxRunPermitBytes in
  let* run := opt_ok (run_permit wire) "decode schedule run permit" in
  require String.eqb (r_SchemaVersion run) RunSchemaV1 else "decode schedule run permit" in
  let* schedule := opt_ok (b64_decode_string (r_ScheduleBase64 run)) "schedule envelope encoding is not canonical" in
  require String.eqb (b64_encode_string schedule) (r_ScheduleBase64 run) else "schedule envelope encoding is not canonical" in
  Ok (run, schedule).

(** The wrapper against the signed schedule. *)
Definition match_run (verify : bytes -> bytes -> bytes -> bool) (raw : bytes) (trusted : option (gmap string bytes)) : result VerifiedRun :=
  let* (wrapper, schedule) := decodeRunPermit raw in
  let* (s, keyID, envelopeDigest) := inspect verify schedule trusted in
  let* (due, taskID) := Run s (r_Ordinal wrapper) in
  require String.eqb (r_DueAt wrapper) (format_seconds due) && String.eqb (r_TaskID wrapper) taskID else "run identity does not match the signed schedule" in
  Ok (mkVerifiedRun s keyID envelopeDigest (Dsse.Digest raw) taskID (r_Ordinal wrapper) due).

Definition VerifyRun (verify : bytes -> bytes -> bytes -> bool) (raw : bytes) (trusted : option (gmap string bytes)) (now : Z) : result VerifiedRun :=
  require negb (is_zero now) else "node time is unavailable" in
  let* run := match_run verify raw trusted in
  let window := seconds (s_WindowSeconds (v_Statement run)) in
  require (v_DueAt run <=? now) && (now <? v_DueAt run + window) else "run is outside its signed dispatch window" in
  Ok run.

Definition InspectRunUnverified (raw : bytes) : result VerifiedRun := match_run no_verify raw None.

End SchedulePermit.
