(* ===== verification/ScheduleRuns.v ===== *)
(** * The runs of a signed schedule

    Theorems on [SchedulePermit]: an accepted run is one of the runs the tenant signed, at its exact due time, and its identity belongs to no other run;
    a signed schedule's runs are accepted in their windows. *)

From Stdlib Require Import Ascii.
From S2P Require Import Prelude GoText GoTime GoFS FenceStore GoJson GoCrypto Strict Dsse GoRune GoNet Admission ConnectorEvent ConnectorReceipt Permit TaskPermit SchedulePermit.
Import Permit SchedulePermit.

(** A lemma depends on the section hypotheses its proof uses. *)
Unset Default Proof Using.

Module ScheduleRuns.

(** ** Valid schedules *)

Definition one_of (s : Statement) (ordinal : Z) : Prop := 1 <= ordinal <= s_RunCount s.
Definition due_at (s : Statement) (start ordinal : Z) : Z := start + (ordinal - 1) * (s_IntervalSeconds s * second).
Definition task_id (s : Statement) (ordinal : Z) : string := s_ScheduleID s +:+ "-" +:+ Dsse.itoa_string ordinal.
Definition optional_id (value : string) : Prop := value = ""%string \/ identifier value = true.

Record valid (s : Statement) (start : Z) : Prop := {
  va_start : canonicalTime (s_StartsAt s) = Some start;
  va_schema : s_SchemaVersion s = SchemaV1;
  va_id : identifier (s_ScheduleID s) = true /\ slen (s_ScheduleID s) <= 96;
  va_identity : publicIdentity (s_NodeID s) 128 = true /\ publicIdentity (s_TenantID s) 128 = true /\ publicIdentity (s_InstanceID s) 256 = true;
  va_runtime : runtimeRef (s_RuntimeRef s) = true /\ grantID (s_GrantID s) = true;
  va_generation : s_Generation s <> 0;
  va_digests : digest (s_CapsuleDigest s) = true /\ digest (s_PolicyDigest s) = true /\ digest (s_RoutePolicyDigest s) = true /\
    digest (s_OperationPolicyDigest s) = true /\ digest (s_RequestDigest s) = true;
  va_names : identifier (s_ServiceID s) = true /\ identifier (s_OperationID s) = true;
  va_bytes : 0 < s_RequestBytes s <= TaskPermit.MaxRequestBytes;
  va_content : s_ContentType s = "application/json"%string;
  va_runs : 1 <= s_RunCount s <= MaxRuns;
  va_window : 1 <= s_WindowSeconds s /\ seconds (s_WindowSeconds s) <= MaxWindow;
  va_concurrency : 1 <= s_MaxConcurrency s <= MaxConcurrency;
  va_overlap : s_OverlapPolicy s ∈ ["queue"; "skip"]%string;
  va_missed : s_MissedRunPolicy s = "skip"%string;
  va_session : (s_ProjectID s = ""%string <-> s_SessionID s = ""%string) /\ optional_id (s_ProjectID s) /\ optional_id (s_SessionID s);
  va_interval : s_IntervalSeconds s = 0 /\ s_RunCount s = 1 \/ 60 <= s_IntervalSeconds s <= 30 * 24 * 3600;
  va_finite : due_at s start (s_RunCount s) + seconds (s_WindowSeconds s) - start <= MaxValidity /\ due_at s start (s_RunCount s) - start <= MaxValidity;
}.

Lemma identifier_suffix a b : identifier a = true -> all_bytes (fun z => Admission.route_rest z) b = true -> slen a + slen b <= 128 -> identifier (a +:+ b) = true.
Proof.
  unfold identifier, Admission.routeID, all_bytes. rewrite bytes_of_app. intros Ha Hb Hl. destruct (bytes_of a) as [|c l]; [done|]. cbn [app].
  breflect. rewrite forallb_app, slen_app, Hb. rewrite !andb_true_iff. split_and!; try done. apply Z.leb_le. lia.
Qed.

Lemma itoa_digits z : 0 <= z -> forallb digit (itoa z) = true.
Proof. intros Hz. unfold itoa. rewrite (proj2 (Z.ltb_ge z 0)) by done. by apply itoa_abs_spec. Qed.

Lemma task_id_ok s start n : valid s start -> one_of s n -> identifier (task_id s n) = true.
Proof.
  intros Hv Hn. destruct (va_id _ _ Hv) as [Hi Hl]. pose proof (va_runs _ _ Hv) as Hr. unfold one_of in Hn. change MaxRuns with 10000 in Hr.
  pose proof (itoa_digits n ltac:(lia)) as Hd. pose proof (zlen_itoa_u64 n ltac:(split; lia)) as Hz.
  assert (Hs : slen (Dsse.itoa_string n) <= 20) by (unfold Dsse.itoa_string; rewrite <- zlen_bytes_of, bytes_of_string_of; lia).
  apply identifier_suffix; [done | |rewrite slen_app; change (slen "-") with 1; lia].
  rewrite all_bytes_app. apply andb_true_iff. split; [done|]. unfold all_bytes, Dsse.itoa_string. rewrite bytes_of_string_of.
  apply forallb_forall. intros b Hb. rewrite forallb_forall in Hd. specialize (Hd b Hb). unfold digit in Hd. unfold Admission.route_rest, Admission.route_first. lia.
Qed.
(** The due time does not overflow: the quotient test bounds the offset before the product is formed. *)
Lemma seconds_small i : 0 <= i <= 30 * 24 * 3600 -> seconds i = i * second.
Proof. intros H. unfold seconds. apply int64_small. unfold second. lia. Qed.

Lemma offset_exact i k : 0 <= i <= 30 * 24 * 3600 -> 0 <= k < 2 ^ 63 -> k * (i * second) <= MaxValidity -> int64 (int64 (int64 k * i) * second) = k * (i * second).
Proof.
  intros Hi Hk Hm. assert (MaxValidity = 31622400000000000) as Em by reflexivity. assert (second = 1000000000) as Es by reflexivity. rewrite Em, Es in *.
  rewrite (int64_small k), (int64_small (k * i)), (int64_small (k * i * _)) by nia. lia.
Qed.

Lemma quotient_bound i k : 60 <= i <= 30 * 24 * 3600 -> (Z.quot MaxValidity (seconds i) mod 2 ^ 64 <? k) = negb (k * (i * second) <=? MaxValidity).
Proof.
  intros Hi. rewrite seconds_small by lia. assert (MaxValidity = 31622400000000000) as Em by reflexivity. assert (second = 1000000000) as Es by reflexivity. rewrite Em, Es in *.
  rewrite Z.quot_div_nonneg, Z.mod_small by (try (split; [apply Z.div_pos | apply Z.div_lt_upper_bound]); lia).
  apply eq_true_iff_eq. rewrite negb_true_iff, Z.ltb_lt, Z.leb_gt. split; intros H; Z.to_euclidean_division_equations; nia.
Qed.

Lemma run_valid s start n : valid s start -> one_of s n -> Run s n = Ok (due_at s start n, task_id s n).
Proof.
  intros Hv Hn. pose proof (task_id_ok s start n Hv Hn) as Hid. pose proof (va_runs _ _ Hv) as Hr. destruct (va_finite _ _ Hv) as [_ Hf]. change MaxRuns with 10000 in Hr.
  unfold one_of in Hn. unfold Run. fold (task_id s n). rewrite (va_start _ _ Hv), Hid, (proj2 (Z.eqb_neq n 0)), (proj2 (Z.leb_le _ _)) by lia. cbn [negb andb opt_ok].
  unfold due_at in *. destruct (va_interval _ _ Hv) as [[Hi _] | Hi].
  - rewrite Hi. cbn [Z.eqb negb andb]. by rewrite !Z.mul_0_r.
  - rewrite (proj2 (Z.eqb_neq (s_IntervalSeconds s) 0)), quotient_bound, seconds_small by lia. assert (Hk : (n - 1) * (s_IntervalSeconds s * second) <= MaxValidity) by (unfold second in *; nia).
    rewrite (proj2 (Z.leb_le _ _) Hk), offset_exact by lia. rewrite (proj2 (Z.eqb_neq _ 0)) by (unfold second; lia). done.
Qed.

Lemma run_ordinal s n due id : Run s n = Ok (due, id) -> 0 <= n -> one_of s n /\ id = task_id s n.
Proof. unfold Run. intros H Hn. step H. destruct (canonicalTime _); [|done]. cbn [opt_ok] in H. do 3 step H. injection H as <- <-. breflect. split; [split; lia | done]. Qed.

Lemma eqb_empty a b : Bool.eqb (String.eqb a "") (String.eqb b "") = true <-> (a = ""%string <-> b = ""%string).
Proof. rewrite eqb_true_iff. destruct (String.eqb_spec a ""), (String.eqb_spec b ""); split; intros; try done; tauto. Qed.
Lemma optional_spec a : String.eqb a "" || identifier a = true <-> optional_id a.
Proof. unfold optional_id. by rewrite orb_true_iff, String.eqb_eq. Qed.

Lemma run_due s start n due id : canonicalTime (s_StartsAt s) = Some start -> s_IntervalSeconds s = 0 \/ 60 <= s_IntervalSeconds s <= 30 * 24 * 3600 -> 1 <= n < 2 ^ 63 ->
  Run s n = Ok (due, id) -> due = due_at s start n /\ due - start <= MaxValidity.
Proof.
  unfold Run, due_at. intros -> Hi Hn H. step H. cbn [opt_ok] in H. do 3 step H. injection H as <- _. destruct Hi as [Hi | Hi].
  - rewrite Hi, !Z.mul_0_r. split; [reflexivity|]. change (int64 (int64 0 * second)) with 0. change MaxValidity with 31622400000000000. lia.
  - rewrite (proj2 (Z.eqb_neq (s_IntervalSeconds s) 0)), quotient_bound in E1 by lia. cbn [negb andb] in E1. rewrite negb_involutive in E1. apply Z.leb_le in E1.
    rewrite offset_exact by lia. lia.
Qed.

Lemma schedule_valid s : 0 <= s_RunCount s -> Validate s = Ok tt -> exists start, valid s start.
Proof.
  unfold Validate. intros Hrc. destruct (canonicalTime (s_StartsAt s)) as [start|] eqn:Est; [|done]. cbn [opt_ok]. intros H. step H.
  destruct (if s_IntervalSeconds s =? 0 then _ else _) as [[]|] eqn:Ei; [|done]. destruct (Run s (s_RunCount s)) as [[last id]|] eqn:Er; [|done]. step H.
  assert (Hi : s_IntervalSeconds s = 0 /\ s_RunCount s = 1 \/ 60 <= s_IntervalSeconds s <= 30 * 24 * 3600).
  { destruct (Z.eqb_spec (s_IntervalSeconds s) 0); step Ei; breflect; [left | right]; lia. }
  unfold scheduleIDPattern in *. rewrite !andb_true_iff, !eqb_empty, !optional_spec, !String.eqb_eq, !Z.leb_le, !Z.ltb_lt, !negb_true_iff, !Z.eqb_neq in *.
  repeat match goal with Hx : _ /\ _ |- _ => destruct Hx end.
  destruct (run_due s start (s_RunCount s) last id Est ltac:(tauto) ltac:(change MaxRuns with 10000 in *; lia) Er) as [-> Hd].
  exists start. constructor; try done; try tauto; try (split_and!; done); try lia. by apply is_in_spec.
Qed.

Lemma validate_ok s start : valid s start -> Validate s = Ok tt.
Proof.
  intros Hv. assert (Hr : Run s (s_RunCount s) = Ok (due_at s start (s_RunCount s), task_id s (s_RunCount s))) by (apply run_valid; [done | split; apply (va_runs _ _ Hv) || lia]).
  assert (Hle : start <= due_at s start (s_RunCount s)) by (destruct (va_runs _ _ Hv), (va_interval _ _ Hv) as [[Ei _]|]; unfold due_at, second; nia).
  destruct Hv as [Hst Hsc [Hid Hil] (H1 & H2 & H3) (H4 & H5) Hg (H6 & H7 & H8 & H9 & H10) (H11 & H12) Hb Hc Hrc [Hw1 Hw2] Hco Hov Hmi (Hpe & Hp%optional_spec & Hs%optional_spec) Hin [Hf1 Hf2]].
  unfold Validate. rewrite Hst, Hr. cbn [opt_ok].
  assert (Hi : (if s_IntervalSeconds s =? 0 then require s_RunCount s =? 1 else "one-time schedule must contain exactly one run" in Ok tt
    else require (60 <=? s_IntervalSeconds s) && (s_IntervalSeconds s <=? 30 * 24 * 3600) else "recurring interval must be from 60 seconds through 30 days" in Ok tt) = Ok tt).
  { destruct (Z.eqb_spec (s_IntervalSeconds s) 0); [by rewrite (proj2 (Z.eqb_eq _ _)) by lia | by rewrite !(proj2 (Z.leb_le _ _)) by lia]. }
  rewrite Hi, (proj2 (Z.leb_le _ _) Hle), (proj2 (Z.leb_le _ _) Hf1). unfold scheduleIDPattern.
  rewrite Hsc, Hid, H1, H2, H3, H4, H5, H6, H7, H8, H9, H10, H11, H12, Hc, Hmi, Hp, Hs, (proj2 (eqb_empty _ _) Hpe), (proj2 (is_in_spec _ _) Hov), !String.eqb_refl.
  rewrite (proj2 (Z.eqb_neq _ _) Hg), (proj2 (Z.eqb_neq (s_RunCount s) 0)), (proj2 (Z.ltb_lt _ _)), !(proj2 (Z.leb_le _ _)) by lia. done.
Qed.

(** ** Accepted runs *)

Lemma decode_count payload s : decode_statement payload = Ok s -> in_u64 (s_RunCount s).
Proof.
  unfold decode_statement. intros H. destruct (DecodeStrictInto _ _) as [w|] eqn:E; [|done]. apply DecodeStrictInto_read in E as (v & _ & Hv). destruct (statement w) as [s1|] eqn:Es; [|done]. injection H as ->.
  cbn [of_json wireStatement_json read_only] in Hv. destruct v as [| | | | |fs]; try done. binds Hv. injection Hv as <-. unfold statement in Es.
  cbn [w_SchemaVersion w_RunCount] in Es. binds Es. injection Es as <-. cbn [s_RunCount]. subst. by eapply field_ptr_u64.
Qed.

Lemma decode_run raw w schedule : decodeRunPermit raw = Ok (w, schedule) -> in_u64 (r_Ordinal w) /\ r_ScheduleBase64 w = b64_encode_string schedule.
Proof.
  unfold decodeRunPermit. intros H. step H. destruct (DecodeStrictInto _ _) as [q|] eqn:Eq; [|done]. apply DecodeStrictInto_read in Eq as (v & _ & Hv).
  destruct (run_permit q) as [r|] eqn:Er; [|done]. cbn [opt_ok] in H. step H. destruct (b64_decode_string _) as [d|]; [|done]. cbn [opt_ok] in H.
  destruct (String.eqb_spec (b64_encode_string d) (r_ScheduleBase64 r)) as [Ed|]; [|done]. injection H as <- <-. split; [|by rewrite Ed].
  cbn [of_json wireRun_json read_only] in Hv. destruct v as [| | | | |fs]; try done. binds Hv. injection Hv as <-. unfold run_permit in Er.
  cbn [q_SchemaVersion q_Ordinal] in Er. binds Er. injection Er as <-. cbn [r_Ordinal]. subst. by eapply field_ptr_u64.
Qed.

Section verify.
Context (verify : bytes -> bytes -> bytes -> bool).

(** A schedule that the tenant's key signed, in its one spelling. *)
Record authorized (trusted : gmap string bytes) (schedule payload signature : bytes) (s : Statement) (k : string) : Prop := {
  au_raw : schedule = json_print (to_json (sealed PayloadType payload k signature));
  au_size : zlen schedule <= MaxEnvelopeBytes;
  au_signed : signed verify trusted PayloadType payload k signature;
  au_key : identifier k = true;
  au_payload : decode_statement payload = Ok s;
}.

Lemma inspect_authorized schedule trusted s k d : inspect verify schedule (Some trusted) = Ok (s, k, d) ->
  d = Dsse.Digest schedule /\ (exists start, valid s start) /\ exists payload signature, authorized trusted schedule payload signature s k.
Proof.
  unfold inspect. intros H. destruct (inspect_envelope _ _ _) as [[payload key]|] eqn:Ei; [|done]. destruct (inspect_inv _ _ _ _ _ Ei) as (signature & Hl & Hr & Hp & Hk & Hu & Hz).
  destruct (Dsse.Verify verify schedule PayloadType trusted) as [[p' k']|] eqn:Ev; [|done]. destruct (_ && _) eqn:Eb; [|done].
  apply (verify_sealed _ _ _ _ _ _ _ _ Hp Hl) in Ev as ([= -> ->] & Hs & _). destruct (decode_statement payload) as [s'|] eqn:Ed; [|done].
  destruct (Validate s') as [[]|] eqn:Eva; [|done]. injection H as <- <- <-. split_and!; [done | |by exists payload, signature].
  apply schedule_valid; [|done]. apply decode_count in Ed. unfold in_u64 in Ed. lia.
Qed.

(** What an accepted run is: one of the runs of an authorized schedule, dispatched in its window. *)
Record confined (raw : bytes) (trusted : gmap string bytes) (now : Z) (v : VerifiedRun) (start : Z) : Prop := {
  co_schedule : exists schedule payload signature, authorized trusted schedule payload signature (v_Statement v) (v_KeyID v) /\
    v_EnvelopeDigest v = Dsse.Digest schedule;
  co_digest : v_RunPermitDigest v = Dsse.Digest raw;
  co_valid : valid (v_Statement v) start;
  co_ordinal : one_of (v_Statement v) (v_Ordinal v);
  co_due : v_DueAt v = due_at (v_Statement v) start (v_Ordinal v);
  co_task : v_TaskID v = task_id (v_Statement v) (v_Ordinal v);
  co_clock : v_DueAt v <= now < v_DueAt v + MaxWindow;
  co_finite : start <= now < start + MaxValidity;
}.

Lemma due_le s start n m : valid s start -> one_of s n -> n <= m -> due_at s start n <= due_at s start m.
Proof. intros Hv Hn Hm. unfold due_at, one_of in *. destruct (va_interval _ _ Hv) as [[-> _]|]; unfold second; nia. Qed.

Lemma run_accepted raw trusted now v : VerifyRun verify raw (Some trusted) now = Ok v -> exists start, confined raw trusted now v start.
Proof.
  unfold VerifyRun. intros H. step H. destruct (match_run _ _ _) as [run|] eqn:Em; [|done]. step H. injection H as ->. unfold match_run in Em.
  destruct (decodeRunPermit raw) as [[w schedule]|] eqn:Ed; [|done]. destruct (decode_run _ _ _ Ed) as [Ho _].
  destruct (inspect _ _ _) as [[[s k] d]|] eqn:Ei; [|done]. destruct (inspect_authorized _ _ _ _ _ Ei) as (-> & [start Hv] & payload & signature & Ha).
  destruct (Run s (r_Ordinal w)) as [[due id]|] eqn:Er; [|done]. step Em. injection Em as <-. destruct (run_ordinal _ _ _ _ Er) as [Hn ->]; [unfold in_u64 in Ho; lia|].
  rewrite (run_valid s start) in Er by done. injection Er as <-. cbn [v_Statement v_DueAt] in *. breflect. destruct (va_window _ _ Hv) as [_ Hw]. destruct (va_finite _ _ Hv) as [Hf _].
  pose proof (due_le s start (r_Ordinal w) (s_RunCount s) Hv Hn ltac:(apply Hn)). pose proof (due_le s start 1 (r_Ordinal w) Hv) as Hfirst.
  assert (due_at s start 1 = start) as E1 by (unfold due_at; lia). unfold one_of in *.
  exists start. constructor; cbn [v_Statement v_KeyID v_EnvelopeDigest v_RunPermitDigest v_Ordinal v_DueAt v_TaskID]; try done; try lia. by exists schedule, payload, signature.
Qed.

(** C25: A run accepted under trusted keys belongs to a canonical schedule that one of those keys signed: its ordinal is one of the signed runs, its task identity and
    its due time, exact in spite of the 64-bit arithmetic, are those of that ordinal, and the clock is in its window, at most 15 minutes after the due time and
    less than 366 days after the schedule starts. *)
Theorem run_confined raw trusted now v : VerifyRun verify raw (Some trusted) now = Ok v -> exists start, confined raw trusted now v start.
Proof. apply run_accepted. Qed.

(** ** Identities *)

Lemma last_dash a d a' d' : Forall (fun c : ascii => c <> "-"%char) d -> Forall (fun c : ascii => c <> "-"%char) d' ->
  a ++ "-"%char :: d = a' ++ "-"%char :: d' -> a = a' /\ d = d'.
Proof.
  assert (Hgen : forall k d d', Forall (fun c : ascii => c <> "-"%char) d -> "-"%char :: d = k ++ "-"%char :: d' -> k = [] /\ d = d').
  { intros [|c k] e e' He E; cbn in E; [by injection E as ->|]. injection E as _ ->. apply Forall_app in He as [_ He]. by apply Forall_cons in He as [? _]. }
  intros Hd Hd' E. apply app_eq_inv in E as [(k & -> & Ek) | (k & -> & Ek)].
  - destruct (Hgen k d' d Hd' Ek) as [-> ->]. by rewrite app_nil_r.
  - destruct (Hgen k d d' Hd Ek) as [-> ->]. by rewrite app_nil_r.
Qed.

Lemma task_id_inj s n s' n' : 0 <= n -> 0 <= n' -> task_id s n = task_id s' n' -> s_ScheduleID s = s_ScheduleID s' /\ n = n'.
Proof.
  assert (Hd : forall z, 0 <= z -> Forall (fun c : ascii => c <> "-"%char) (itoa z)).
  { intros z Hz. apply Forall_forall. intros c Hc%list_elem_of_In ->. pose proof (itoa_digits z Hz) as H. rewrite forallb_forall in H. by specialize (H _ Hc). }
  intros Hn Hn' E. apply (f_equal bytes_of) in E. unfold task_id, Dsse.itoa_string in E. rewrite !bytes_of_app, !bytes_of_string_of in E.
  apply last_dash in E as [Ea Eb]; [|by apply Hd..]. apply bytes_of_inj in Ea. by apply itoa_inj in Eb.
Qed.

(** The task identity of an accepted run is the schedule's identifier and the ordinal, and names one run: two accepted runs with the same identity are the same ordinal of schedules with the same identifier. *)
Theorem run_identity_injective raw trusted now v raw' trusted' now' v' : VerifyRun verify raw (Some trusted) now = Ok v -> VerifyRun verify raw' (Some trusted') now' = Ok v' ->
  v_TaskID v = v_TaskID v' -> v_TaskID v = task_id (v_Statement v) (v_Ordinal v) /\ s_ScheduleID (v_Statement v) = s_ScheduleID (v_Statement v') /\ v_Ordinal v = v_Ordinal v'.
Proof.
  intros [start H]%run_accepted [start' H']%run_accepted E. split; [by apply (co_task _ _ _ _ _ H)|]. rewrite (co_task _ _ _ _ _ H), (co_task _ _ _ _ _ H') in E. destruct (co_ordinal _ _ _ _ _ H), (co_ordinal _ _ _ _ _ H').
  apply task_id_inj in E; [done | lia | lia].
Qed.
End verify.

(** ** Issuing runs *)

Definition wire_of (s : Statement) : wireStatement :=
  mkwireStatement (Some (s_SchemaVersion s)) (Some (s_ScheduleID s)) (Some (s_NodeID s)) (Some (s_TenantID s)) (Some (s_InstanceID s))
  (Some (s_RuntimeRef s)) (Some (s_GrantID s)) (Some (s_Generation s)) (Some (s_CapsuleDigest s)) (Some (s_PolicyDigest s))
  (Some (s_RoutePolicyDigest s)) (Some (s_ServiceID s)) (Some (s_OperationID s)) (Some (s_OperationPolicyDigest s)) (Some (s_RequestDigest s))
  (Some (s_RequestBytes s)) (Some (s_ContentType s)) (Some (s_StartsAt s)) (Some (s_IntervalSeconds s)) (Some (s_RunCount s))
  (Some (s_WindowSeconds s)) (Some (s_MaxConcurrency s)) (Some (s_OverlapPolicy s)) (Some (s_MissedRunPolicy s))
  (if empty_string (s_ProjectID s) then None else Some (s_ProjectID s)) (if empty_string (s_SessionID s) then None else Some (s_SessionID s)).

Lemma schedule_wire_shape (s : Statement) d : storable s = true -> (d + 1 <= 32)%nat -> validateJSONValue (go_shape (A := wireStatement)) d (to_json s) = Ok tt.
Proof. intros H Hd; unfold_json; breflect. cbn [go_shape wireStatement_json read_only]. wire_shape. Qed.

Lemma schedule_wire_read (s : Statement) : storable s = true -> of_json (to_json s) = Some (wire_of s).
Proof. intros H; unfold_json; breflect. cbn [of_json wireStatement_json read_only]. wire_read. unfold wire_of. by destruct (empty_string (s_ProjectID s)), (empty_string (s_SessionID s)). Qed.

Lemma schedule_written s : storable s = true -> zlen (json_print (to_json s)) <= MaxEnvelopeBytes -> decode_statement (json_print (to_json s)) = Ok s.
Proof.
  intros Hs Hz. unfold decode_statement.
  rewrite (DecodeStrictInto_print (to_json s) (wire_of s)); [ | by apply to_json_ok | apply schedule_wire_shape; [done | lia] | by apply schedule_wire_read | done].
  destruct s as [? ? ? ? ? ? ? ? ? ? ? ? ? ? ? ? ? ? ? ? ? ? ? ? [|] [|]]; done.
Qed.

(** The integers of a statement have their width. *)
Definition typed (s : Statement) : Prop := in_u64 (s_Generation s) /\ in_u64 (s_RunCount s) /\ in_int64b (s_WindowSeconds s) = true.

Lemma short_optional s : optional_id s -> short 130 s.
Proof. intros [-> | H]; [split; [reflexivity | vm_compute; congruence] | by apply short_id]. Qed.

Lemma schedule_size s start : valid s start -> typed s -> storable s = true /\ zlen (json_print (to_json s)) <= 7000.
Proof.
  intros [Hst%short_time Hsc [Hid%short_id _] (H1%short_identity & H2%short_identity & H3%short_identity) (H4%short_runtime & H5%short_grant) _
    (H6%short_digest & H7%short_digest & H8%short_digest & H9%short_digest & H10%short_digest) (H11%short_id & H12%short_id) Hb Hc Hrc _ Hco Hov Hmi (_ & Hp%short_optional & Hs%short_optional) Hin _] (Ht1 & Ht2 & Ht3).
  assert (Hs1 : short 32 (s_SchemaVersion s)) by (rewrite Hsc; split; [reflexivity | vm_compute; congruence]).
  assert (Hs2 : short 32 (s_ContentType s)) by (rewrite Hc; split; [reflexivity | vm_compute; congruence]).
  assert (Hs3 : short 32 (s_MissedRunPolicy s)) by (rewrite Hmi; split; [reflexivity | vm_compute; congruence]).
  assert (Hs4 : short 32 (s_OverlapPolicy s)).
  { rewrite !elem_of_cons in Hov. destruct Hov as [-> | [-> | []%elem_of_nil]]; (split; [reflexivity | vm_compute; congruence]). }
  assert (Hw : forall z, 0 <= z < 2 ^ 62 -> in_int64b z = true) by (intros z Hz; unfold in_int64b; lia).
  assert (Hi1 : in_int64b (s_RequestBytes s) = true) by (apply Hw; change TaskPermit.MaxRequestBytes with 65536 in *; lia).
  assert (Hi2 : in_int64b (s_IntervalSeconds s) = true) by (apply Hw; lia).
  assert (Hi3 : in_int64b (s_MaxConcurrency s) = true) by (apply Hw; change MaxConcurrency with 16 in *; lia).
  repeat match goal with H : short _ _ |- _ => destruct H end. split.
  - cbn [storable Statement_json]. rewrite !andb_true_iff, !in_u64b_true. split_and!; done.
  - cbn [to_json Statement_json]. struct_bound.
Qed.

(** A signed schedule in its one spelling, as [Sign] writes it. *)
Definition written (sign : bytes -> bytes -> bytes) (s : Statement) (k : string) (private : bytes) : bytes :=
  let payload := json_print (to_json s) in json_print (to_json (sealed PayloadType payload k (sign private (Dsse.PAE PayloadType payload)))).

Section issue.
Context (sign : bytes -> bytes -> bytes) (verify : bytes -> bytes -> bytes -> bool) (s : Statement) (start : Z) (k : string) (private public : bytes)
  (Hkp : Dsse.key_pair sign verify private public) (Hk : identifier k = true) (Hv : valid s start) (Hty : typed s).

Let payload := json_print (to_json s).
Let signature := sign private (Dsse.PAE PayloadType payload).

Lemma written_facts : payload <> [] /\ zlen payload <= 7000 /\ utf8_bytes payload = true /\ zlen signature = Dsse.SignatureSize /\ zlen (written sign s k private) <= 9800 /\
  decode_statement payload = Ok s.
Proof using Hkp Hk Hv Hty.
  destruct (schedule_size s start Hv Hty) as [Hst Hz]. pose proof (to_json_ok s Hst) as Hok. destruct (json_print_head _ Hok) as (x & l & Ep & _).
  destruct Hkp as (Hpl & Hpub & Hs). destruct (Hs (Dsse.PAE PayloadType payload)) as [Hsl _]. destruct (identifier_plain k Hk) as (_ & Hkl & _). split_and!; try done.
  - by apply utf8_bytes_valid, json_print_utf8.
  - unfold written. rewrite sealed_size by done. change (slen PayloadType) with 45. unfold b64_encoded_len. fold payload in Hz |- *. pose proof (zlen_nonneg payload).
    Z.to_euclidean_division_equations. lia.
  - apply schedule_written; [done|]. change MaxEnvelopeBytes with 24576. lia.
Qed.

Lemma written_inspected v trusted : match trusted with Some t => signed v t PayloadType payload k signature | None => True end ->
  inspect v (written sign s k private) trusted = Ok (s, k, Dsse.Digest (written sign s k private)).
Proof using Hkp Hk Hv Hty.
  destruct written_facts as (Hne & Hz & Hu & Hl & Hw & Hd). intros Hs. assert (Hpm : zlen payload <= Dsse.MaxPayloadBytes) by (change Dsse.MaxPayloadBytes with 524288; lia).
  unfold inspect, written in *. fold payload signature in Hw |- *. rewrite (inspect_ok PayloadType MaxEnvelopeBytes payload k signature) by (try done; change MaxEnvelopeBytes with 24576; lia).
  destruct (sealed_parse PayloadType payload k signature) as [HP _]; try done. rewrite Hd, (validate_ok s start Hv). destruct trusted as [t|]; [|done].
  rewrite (proj2 (verify_sealed v _ _ _ _ _ t (payload, k) HP Hl)) by (split_and!; done). by rewrite String.eqb_refl, bool_decide_true by done.
Qed.

Lemma signed_written : Sign sign s k private = Ok (written sign s k private).
Proof using Hkp Hk Hv Hty.
  destruct written_facts as (Hne & Hz & Hu & Hl & Hw & Hd). destruct (identifier_plain k Hk) as (_ & _ & Hkn). assert (Hpm : zlen payload <= Dsse.MaxPayloadBytes) by (change Dsse.MaxPayloadBytes with 524288; lia).
  destruct (sealed_parse PayloadType payload k signature) as [_ HM]; try done. pose proof Hkp as (Hpl & _). unfold Sign. rewrite Hk, Hpl, (validate_ok s start Hv).
  assert (Hsig : Dsse.Sign sign PayloadType payload k private = Ok (sealed PayloadType payload k signature)).
  { unfold Dsse.Sign. rewrite Hkn, Hpl, (proj2 (Z.ltb_ge _ _)) by lia. done. }
  fold payload. rewrite Hsig, HM. fold payload signature in Hw. rewrite (proj2 (Z.leb_le _ _)); [done|]. change MaxEnvelopeBytes with 24576. unfold written in Hw. fold payload signature in Hw. lia.
Qed.

(** The wrapper of a run reads back. *)
Lemma run_read r : storable r = true -> zlen (json_print (to_json r)) <= MaxRunPermitBytes -> r_SchemaVersion r = RunSchemaV1 ->
  r_ScheduleBase64 r = b64_encode_string (written sign s k private) -> decodeRunPermit (json_print (to_json r)) = Ok (r, written sign s k private).
Proof using.
  intros Hs Hz Hsc Hb. pose proof (to_json_ok r Hs) as Hok. unfold decodeRunPermit.
  rewrite (DecodeStrictInto_print (to_json r) (mkwireRun (Some (r_SchemaVersion r)) (Some (r_ScheduleBase64 r)) (Some (r_Ordinal r)) (Some (r_DueAt r)) (Some (r_TaskID r)))); [ | done | | | done].
  - destruct (json_print_head _ Hok) as (x & l & Ep & _). rewrite (proj2 (Z.leb_le _ _) Hz), (proj2 (Z.eqb_neq _ 0)) by (rewrite Ep, zlen_cons; pose proof (zlen_nonneg l); lia).
    cbn [negb andb]. unfold run_permit. cbn [q_SchemaVersion q_ScheduleBase64 q_Ordinal q_DueAt q_TaskID mbind option_bind opt_ok r_SchemaVersion r_ScheduleBase64].
    rewrite Hsc, Hb, Dsse.b64_string_decode. cbn [opt_ok]. rewrite !String.eqb_refl. rewrite <- Hsc, <- Hb. by destruct r.
  - clear - Hs. unfold_json; breflect. cbn [go_shape wireRun_json read_only]. wire_shape.
  - clear - Hs. unfold_json; breflect. cbn [of_json wireRun_json read_only]. wire_read. done.
Qed.

Definition wrapper (n : Z) : RunPermit :=
  mkRunPermit RunSchemaV1 (b64_encode_string (written sign s k private)) n (format_seconds (due_at s start n)) (task_id s n).

Lemma due_whole n : due_at s start n mod second = 0.
Proof using Hv.
  destruct (canonicalTime_inv _ _ (va_start _ _ Hv)) as (_ & _ & _ & Hm). unfold due_at. rewrite Z.mul_assoc, Z.mod_add by done. exact Hm.
Qed.

Lemma wrapper_fits n : one_of s n -> four_digit_year (due_at s start n) -> due_at s start n <> 0 -> storable (wrapper n) = true /\ zlen (json_print (to_json (wrapper n))) <= MaxRunPermitBytes.
Proof using Hkp Hk Hv Hty.
  intros Hn Hy Hz. destruct written_facts as (_ & _ & _ & _ & Hw & _). pose proof (due_whole n) as Hm. pose proof (short_time _ _ (canonicalTime_format _ Hy Hz Hm)) as [Ht1 Ht2].
  pose proof (short_id _ (task_id_ok s start n Hv Hn)) as [Hi1 Hi2].
  assert (Hb : short 13100 (b64_encode_string (written sign s k private))).
  { pose proof (short_plain 13098 (b64_encode_string (written sign s k private)) (Dsse.b64_string_plain _)) as H. apply H. rewrite Dsse.b64_string_len.
    unfold b64_encoded_len. pose proof (zlen_nonneg (written sign s k private)). Z.to_euclidean_division_equations. lia. }
  destruct Hb as [Hb1 Hb2]. assert (Hs : short 40 RunSchemaV1) by (split; [reflexivity | vm_compute; congruence]). destruct Hs as [Hs1 Hs2].
  assert (Ho : in_u64 n). { destruct (va_runs _ _ Hv), Hn. change MaxRuns with 10000 in *. split; lia. } unfold wrapper. split.
  - cbn [storable RunPermit_json r_SchemaVersion r_ScheduleBase64 r_Ordinal r_DueAt r_TaskID]. rewrite !andb_true_iff, in_u64b_true. split_and!; done.
  - cbn [to_json RunPermit_json r_SchemaVersion r_ScheduleBase64 r_Ordinal r_DueAt r_TaskID]. change MaxRunPermitBytes with 32768. struct_bound.
Qed.

Lemma run_issued trusted n now : trusted !! k = Some public -> one_of s n -> four_digit_year (due_at s start n) -> due_at s start n <> 0 -> now <> 0 ->
  due_at s start n <= now < due_at s start n + seconds (s_WindowSeconds s) ->
  exists schedule raw, Sign sign s k private = Ok schedule /\ BuildRunPermit schedule n = Ok raw /\
    VerifyRun verify raw (Some trusted) now = Ok (mkVerifiedRun s k (Dsse.Digest schedule) (Dsse.Digest raw) (task_id s n) n (due_at s start n)).
Proof using Hkp Hk Hv Hty.
  intros Ht Hn Hy Hz Hnow Hc. exists (written sign s k private), (json_print (to_json (wrapper n))).
  destruct (wrapper_fits n Hn Hy Hz) as [Hst Hsz]. pose proof (run_valid s start n Hv Hn) as Hr. split_and!; [by apply signed_written | |].
  - unfold BuildRunPermit, InspectUnverified. rewrite (written_inspected no_verify None) by done. cbn [i_Statement]. rewrite Hr. fold (wrapper n). by rewrite (proj2 (Z.leb_le _ _) Hsz).
  - unfold VerifyRun, match_run. rewrite run_read by done. rewrite (written_inspected verify (Some trusted)).
    + cbn [r_Ordinal wrapper r_DueAt r_TaskID]. rewrite Hr, !String.eqb_refl. cbn [andb v_Statement v_DueAt]. unfold is_zero.
      rewrite (proj2 (Z.eqb_neq _ _) Hnow), (proj2 (Z.leb_le _ _)), (proj2 (Z.ltb_lt _ _)) by lia. done.
    + destruct Hkp as (_ & Hpub & Hs). exists public. split_and!; [done | done |]. by apply Hs.
Qed.
(** Every run of every valid schedule can be issued and is accepted in its window: signing yields an envelope within the limit, the courier wraps any of its runs
    within the limit, and the verifier accepts the wrapper at each instant from the due time to the end of the window as exactly that run. *)
Theorem scheduled_run_issued trusted n now : trusted !! k = Some public -> one_of s n -> four_digit_year (due_at s start n) -> due_at s start n <> 0 -> now <> 0 ->
  due_at s start n <= now < due_at s start n + seconds (s_WindowSeconds s) ->
  exists schedule raw, Sign sign s k private = Ok schedule /\ BuildRunPermit schedule n = Ok raw /\
    VerifyRun verify raw (Some trusted) now = Ok (mkVerifiedRun s k (Dsse.Digest schedule) (Dsse.Digest raw) (task_id s n) n (due_at s start n)).
Proof using Hkp Hk Hv Hty. apply run_issued. Qed.
End issue.

(** ** A concrete schedule *)

Definition sample (window : Z) : Statement :=
  mkStatement SchemaV1 "nightly" "node-1" "acme" "agent-1" ("executor-" +:+ TaskPermit.zeros) ("grant-" +:+ TaskPermit.zeros) 3 TaskPermit.sample_digest TaskPermit.sample_digest
    TaskPermit.sample_digest "hermes-api" "run" TaskPermit.sample_digest TaskPermit.sample_digest 512 "application/json" "2030-01-01T00:00:00Z" 3600 24 window 1 "skip" "skip" "" "".
Definition sample_start : Z := 64029052800000000000.
Definition sample_keys : gmap string bytes := {[ "tasks"%string := Dsse.toy_pub "t" ]}.

Lemma sample_valid_schedule : valid (sample 300) sample_start.
Proof. destruct (schedule_valid (sample 300)) as [start H]; [done | vm_compute; reflexivity|]. pose proof (va_start _ _ H) as E. vm_compute in E. by injection E as <-. Qed.
Lemma schedule_typed : typed (sample 300).
Proof. repeat split; try done; vm_compute; congruence. Qed.
Lemma sample_year : four_digit_year (due_at (sample 300) sample_start 3).
Proof. vm_compute. split; congruence. Qed.

Lemma scheduled_run_issued_witness : exists schedule raw, Sign Dsse.toy_sign (sample 300) "tasks" (Dsse.toy_priv "t") = Ok schedule /\ BuildRunPermit schedule 3 = Ok raw /\
  VerifyRun Dsse.toy_verify raw (Some sample_keys) (sample_start + 7201 * second) =
    Ok (mkVerifiedRun (sample 300) "tasks" (Dsse.Digest schedule) (Dsse.Digest raw) (task_id (sample 300) 3) 3 (due_at (sample 300) sample_start 3)).
Proof.
  apply (scheduled_run_issued Dsse.toy_sign Dsse.toy_verify (sample 300) sample_start "tasks" (Dsse.toy_priv "t") (Dsse.toy_pub "t"));
    [by apply Dsse.toy_key_pair | reflexivity | exact sample_valid_schedule | exact schedule_typed | by apply lookup_singleton_eq | split; discriminate | exact sample_year | discriminate..|].
  split; [discriminate | reflexivity].
Defined.

(** An accepted run, for the witnesses of the theorems on accepted runs. *)
Lemma sample_run : exists raw v, VerifyRun Dsse.toy_verify raw (Some sample_keys) (sample_start + 7201 * second) = Ok v.
Proof.
  destruct (run_issued Dsse.toy_sign Dsse.toy_verify (sample 300) sample_start "tasks" (Dsse.toy_priv "t") (Dsse.toy_pub "t") (Dsse.toy_key_pair (Dsse.toy_pub "t") eq_refl) ltac:(reflexivity) sample_valid_schedule
    schedule_typed sample_keys 3 (sample_start + 7201 * second)) as (schedule & raw & _ & _ & H);
    [by apply lookup_singleton_eq | split; discriminate | exact sample_year | discriminate.. | split; [discriminate | reflexivity] | by eauto].
Qed.

Lemma run_confined_witness : exists raw v start, confined Dsse.toy_verify raw sample_keys (sample_start + 7201 * second) v start.
Proof. destruct sample_run as (raw & v & H). exists raw, v. apply (run_confined Dsse.toy_verify raw sample_keys (sample_start + 7201 * second) v H). Defined.

Lemma run_identity_injective_witness : exists v, v_TaskID v = task_id (v_Statement v) (v_Ordinal v) /\ s_ScheduleID (v_Statement v) = s_ScheduleID (v_Statement v) /\ v_Ordinal v = v_Ordinal v.
Proof. destruct sample_run as (raw & v & H). exists v. exact (run_identity_injective Dsse.toy_verify _ _ _ v _ _ _ v H H eq_refl). Defined.

(** The window bound is tested after the multiplication by a second has wrapped around: a schedule that signs a window of 2^55 + 900 seconds is valid, although
    a window is documented to be at most 15 minutes. *)
Theorem wide_window_accepted : Validate (sample (2 ^ 55 + 900)) = Ok tt /\ MaxWindow < s_WindowSeconds (sample (2 ^ 55 + 900)) * second.
Proof. split; vm_compute; reflexivity. Qed.
End ScheduleRuns.
