(* ===== verification/GoZone.v ===== *)
(** * Times in their own zone

    [time.Parse(time.RFC3339Nano, s)] followed by the test that [s] is the formatting of the result in the zone it was written with, and that every
    formatted instant parses. *)

From Stdlib Require Import Ascii.
From S2P Require Import Prelude GoText GoTime.

#[local] Ltac Zify.zify_post_hook ::= Z.to_euclidean_division_equations.

(** The zone as [Format] writes it: [Z] for UTC, else sign, hours and minutes. *)
Definition format_zone (offset : Z) : bytes :=
  if offset =? 0 then ["Z"%char]
  else (if offset <? 0 then "-"%char else "+"%char) :: dec_encode 2 (Z.abs offset / hour) ++ ":"%char :: dec_encode 2 (Z.abs offset / minute mod 60).

(** A text in UTC, or a local time and an offset from UTC that is not zero; the local time is read as if it were UTC. *)
Definition own_zone_time (s : string) : option Z :=
  match canonical_time s with
  | Some t => Some t
  | None =>
      let n := (String.length s - 6)%nat in
      let zone := drop n (bytes_of s) in
      local ← canonical_time (string_of (take n (bytes_of s) ++ ["Z"%char]));
      offset ← parse_zone zone;
      if negb (offset =? 0) && bool_decide (format_zone offset = zone) then Some (local - offset) else None
  end.

Lemma own_zone_format t : four_digit_year t -> own_zone_time (format_rfc3339nano t) = Some t.
Proof. intros H. unfold own_zone_time. by rewrite canonical_time_format. Qed.

Example own_zone_offset : own_zone_time "2024-07-05T18:05:07.123+02:00" = canonical_time "2024-07-05T16:05:07.123Z".
Proof. reflexivity. Qed.
Example own_zone_zero : own_zone_time "2024-07-05T18:05:07+00:00" = None.
Proof. reflexivity. Qed.

(** ** Every formatted instant parses *)

Lemma month_lengths doy : 0 <= doy < 366 ->
  let mp := (5 * doy + 2) / 153 in let dd := doy - (153 * mp + 2) / 5 + 1 in
  0 <= mp <= 11 /\ 1 <= dd /\ (mp = 1 \/ mp = 3 \/ mp = 6 \/ mp = 8 -> dd <= 30) /\ (mp = 11 -> dd <= 29 /\ (dd = 29 -> doy = 365)) /\ dd <= 31.
Proof. intros H mp dd. subst mp dd. lia. Qed.

Lemma leap_day doe : 0 <= doe < 146097 ->
  let yoe := (doe - doe / 1460 + doe / 36524 - doe / 146096) / 365 in
  doe - (365 * yoe + yoe / 4 - yoe / 100) = 365 -> (yoe + 1) mod 4 = 0 /\ ((yoe + 1) mod 100 <> 0 \/ yoe = 399).
Proof. intros H yoe. subst yoe. lia. Qed.

Lemma civil_days d : let '(y, m, dd) := civil_of_day d in dd <= days_in y m.
Proof.
  unfold civil_of_day. pose proof (Z.mod_pos_bound (d + 306) 146097 ltac:(lia)) as Hdoe. pose proof (leap_day _ Hdoe) as Hleap. pose proof (year_of_era_bounds _ Hdoe) as Hy.
  set (doe := (d + 306) mod 146097) in *. set (era := (d + 306) / 146097). set (yoe := (doe - doe / 1460 + doe / 36524 - doe / 146096) / 365) in *. cbv zeta in Hleap, Hy.
  destruct Hy as [Hy Hdoy]. set (doy := doe - (365 * yoe + yoe / 4 - yoe / 100)) in *. pose proof (month_lengths doy Hdoy) as Hm. cbv zeta in Hm.
  set (mp := (5 * doy + 2) / 153) in *. set (dd := doy - (153 * mp + 2) / 5 + 1) in *. clearbody doe era dd mp doy yoe. destruct Hm as (Hmp & Hd1 & H30 & H29 & H31).
  unfold days_in. destruct (Z.ltb_spec mp 10) as [E|E].
  - rewrite (proj2 (Z.leb_gt (mp + 3) 2)), (proj2 (Z.eqb_neq (mp + 3) 2)) by lia. destruct (_ || _) eqn:Eb; [|lia]. breflect. lia.
  - rewrite (proj2 (Z.leb_le (mp - 9) 2)) by lia. assert (mp = 10 \/ mp = 11) as [-> | ->] by lia; cbn [Z.sub Z.eqb Z.add Z.opp Z.pos_sub orb Pos.eqb]; [simpl; lia|].
    change (11 - 9 =? 2) with true. cbv iota. destruct (H29 eq_refl) as [Hle Hl]. destruct (_ && _) eqn:Eb; [lia|]. destruct (Z.eq_dec dd 29) as [E29|]; [|lia].
    destruct (Hleap (Hl E29)) as [L4 L100]. exfalso. apply andb_false_iff in Eb as [Eb | Eb]; breflect; [lia|]. destruct L100; lia.
Qed.

Lemma parse_frac_scan n acc l v : parse_frac n acc l = Some v -> scan_fraction n l = (v - acc, ["Z"%char]).
Proof.
  revert n acc. induction l as [|c l IH]; intros n acc H; [done|]. destruct l as [|c' l].
  - cbn in H. case_bool_decide; [|done]. subst. injection H as ->. cbn. f_equal. lia.
  - change (parse_frac n acc (c :: c' :: l)) with (if is_digit c then match n with O => None | S n => parse_frac n (acc + digit_val c * 10 ^ Z.of_nat n) (c' :: l) end else None) in H.
    cbn [scan_fraction]. destruct (is_digit c); [|done]. destruct n as [|n]; [done|]. apply IH in H. cbn [scan_fraction] in H. rewrite H. f_equal. lia.
Qed.

Lemma strip_zeros_digits n z : Forall (fun c => is_digit c = true) (strip_zeros (dec_encode n z)).
Proof.
  induction n as [|n IH]; [constructor|]. cbn [dec_encode strip_zeros]. assert (is_digit (digit ((z / 10 ^ Z.of_nat n) mod 10)) = true) by (apply is_digit_digit; lia).
  destruct (strip_zeros (dec_encode n z)); [case_bool_decide; by repeat constructor | by constructor].
Qed.

Lemma parse_fraction_strip v (frac := strip_zeros (dec_encode 9 v)) : 0 <= v < second ->
  parse_fraction ((if bool_decide (frac = []) then [] else "."%char :: frac) ++ ["Z"%char]) = (v, ["Z"%char]).
Proof.
  intros Hv. pose proof (parse_frac_strip 9 v 0) as Hp. fold frac in Hp. rewrite Z.mod_small, Z.add_0_l in Hp by (change (10 ^ Z.of_nat 9) with second; done).
  pose proof (strip_zeros_digits 9 v) as Hd. fold frac in Hd. apply parse_frac_scan in Hp. rewrite Z.sub_0_r in Hp. destruct (bool_decide (frac = [])) eqn:Ef; breflect.
  - rewrite Ef in Hp. cbn in Hp. injection Hp as <-. reflexivity.
  - destruct frac as [|c l]; [done|]. apply Forall_cons in Hd as [Hc _]. cbn [app] in *. unfold parse_fraction. rewrite Hc. exact Hp.
Qed.

Lemma parse_hour_encode h l : 0 <= h < 24 -> parse_hour (dec_encode 2 h ++ l) = Some (h, l).
Proof.
  intros Hh. cbn [dec_encode app parse_hour]. rewrite !is_digit_digit, !digit_val_digit by lia. do 2 f_equal. change (10 ^ Z.of_nat 1) with 10. change (10 ^ Z.of_nat 0) with 1. lia.
Qed.

(** [time.Parse] reads what [Format] writes, for every instant with a year of four digits. *)
Lemma parse_rfc3339_format t : four_digit_year t -> parse_rfc3339 (format_rfc3339nano t) = Some t.
Proof.
  unfold four_digit_year, parse_rfc3339, format_rfc3339nano. rewrite bytes_of_string_of. unfold format_bytes.
  pose proof (civil_of_day_spec (t / day)) as Hc. pose proof (civil_days (t / day)) as Hdays. destruct (civil_of_day (t / day)) as [[y m] d]. destruct Hc as (Hm & Hd & Hday).
  intros Hy. set (r := t mod day). assert (Hr : 0 <= r < day) by (apply Z.mod_pos_bound; reflexivity).
  assert (Ht : t = t / day * day + r) by (subst r; pose proof (Z.div_mod t day ltac:(discriminate)); lia).
  unfold format_year. rewrite (proj2 (Z.ltb_ge y 0)), (proj2 (Z.leb_le y 9999)) by lia.
  assert (Hparts : r = r / hour * hour + r / minute mod 60 * minute + r / second mod 60 * second + r mod second) by (unfold day, hour, minute, second in *; lia).
  assert (Hh : 0 <= r / hour < 24) by (unfold day, hour, minute, second in *; lia). assert (Hs : 0 <= r mod second < second) by (unfold second; lia).
  do 3 (rewrite parse_dec_encode_small by (change (10 ^ Z.of_nat 4) with 10000; change (10 ^ Z.of_nat 2) with 100; lia);
        cbn [mbind option_bind]; rewrite <- ?app_comm_cons, expect_cons; cbn [mbind option_bind]).
  rewrite parse_hour_encode by done. cbn [mbind option_bind]. rewrite <- ?app_comm_cons, expect_cons. cbn [mbind option_bind].
  rewrite parse_dec_encode_small by (change (10 ^ Z.of_nat 2) with 100; lia). cbn [mbind option_bind]. rewrite <- ?app_comm_cons, expect_cons. cbn [mbind option_bind].
  rewrite parse_dec_encode_small by (change (10 ^ Z.of_nat 2) with 100; lia). cbn [mbind option_bind]. rewrite parse_fraction_strip by done.
  change (parse_zone ["Z"%char]) with (Some 0). cbn [mbind option_bind].
  assert (Hmi : 0 <= r / minute mod 60 < 60) by lia. assert (Hss : 0 <= r / second mod 60 < 60) by lia.
  rewrite (proj2 (Z.leb_le 1 m)), (proj2 (Z.leb_le m 12)), (proj2 (Z.ltb_lt (r / hour) 24)), (proj2 (Z.ltb_lt (r / minute mod 60) 60)), (proj2 (Z.ltb_lt (r / second mod 60) 60)),
    (proj2 (Z.leb_le 1 d)), (proj2 (Z.leb_le d _)) by lia. cbn [andb]. rewrite Hday. f_equal.
  revert Ht Hparts. generalize (t / day * day) (r / hour * hour) (r / minute mod 60 * minute) (r / second mod 60 * second) (r mod second). clear. intros. clearbody r. lia.
Qed.
