(* ===== verification/GatewayGrant.v ===== *)
(** * Gateway grants ([src/internal/gateway/server.go], [task.go] and [config.go])

    What Executor registers with Gateway for a workload: its identity, what it may reach and the keys of its tenant that may sign tasks. [validGrantBinding] is the part
    of [validGrant] that does not depend on Gateway's own configuration. *)

From Stdlib Require Import Ascii.
From S2P Require Import Prelude GoText GoTime GoFS FenceStore GoJson GoCrypto Strict Dsse GoRune GoNet Admission ConnectorEvent ConnectorReceipt Permit.

Module GatewayGrant.

Record TaskAuthority := mkTaskAuthority { ta_KeyID : string; ta_PublicKey : string }.
Record GrantActionAuthority := mkGrantActionAuthority { ga_KeyID : string; ga_PublicKey : string; ga_ConnectorIDs : list string }.
Record Grant := mkGrant {
  g_GrantID : string; g_TenantID : string; g_NodeID : string; g_InstanceID : string; g_Generation : Z; g_RuntimeRef : string; g_CapsuleDigest : string; g_PolicyDigest : string;
  g_EffectMode : string; g_ActionApprovalThreshold : Z; g_ActionContextRequired : bool; g_ActionAuthorities : list GrantActionAuthority; g_RouteID : string;
  g_ModelAlias : string; g_Service : bool; g_ServiceID : string; g_ServiceURL : string; g_TaskAuthorities : list TaskAuthority; g_EgressRouteIDs : list string;
  g_ConnectorIDs : list string; g_ControllerEvents : bool; g_Active : bool }.

Definition EffectModeStandard : string := "standard".
Definition EffectModeAuthorized : string := "authorized".

(** ** Texts *)

(** The loop over runes accepts the texts of [^[A-Za-z0-9][A-Za-z0-9._-]{0,127}$]. *)
Definition routeID (value : string) : bool := Admission.routeID value.
Definition bounded (value : string) (limit : Z) : bool := FenceStore.bounded value limit.
Definition validExecutorRuntimeRef (value : string) : bool := ConnectorEvent.runtimeRef value.
Definition validSHA256Digest (value : string) : bool := sha256_digest value.
Definition validGrantID (id : string) : bool := ConnectorEvent.grantID id.

Definition GrantID (tenantID instanceID : string) (generation : Z) : string :=
  "grant-" +:+ string_of (hex_encode (Sha256.sum (bytes_of (tenantID +:+ FenceStore.nul +:+ instanceID +:+ FenceStore.nul +:+ Dsse.itoa_string generation)))).

(** ** Authorities *)

(** [previous] is the key identifier before, [seen] the public keys before. *)
Fixpoint valid_authorities (previous : option string) (seen : list bytes) (authorities : list TaskAuthority) : bool :=
  match authorities with
  | [] => true
  | authority :: rest =>
      routeID (ta_KeyID authority) && match previous with Some p => str_lt p (ta_KeyID authority) | None => true end &&
      match b64_decode_string (ta_PublicKey authority) with
      | None => false
      | Some public =>
          (zlen public =? Dsse.PublicKeySize) && String.eqb (b64_encode_string public) (ta_PublicKey authority) && negb (bool_decide (public ∈ seen)) &&
          valid_authorities (Some (ta_KeyID authority)) (public :: seen) rest
      end
  end.
Definition validTaskAuthorities (authorities : list TaskAuthority) : bool :=
  negb (zlen authorities =? 0) && (zlen authorities <=? 8) && valid_authorities None [] authorities.

(** The keys by identifier; a later entry would replace an earlier one. *)
Fixpoint add_keys (keys : gmap string bytes) (authorities : list TaskAuthority) : result (gmap string bytes) :=
  match authorities with
  | [] => Ok keys
  | authority :: rest =>
      let* public := opt_ok (b64_decode_string (ta_PublicKey authority)) "illegal base64 data" in add_keys (<[ta_KeyID authority := public]> keys) rest
  end.
Definition taskAuthorityKeys (authorities : list TaskAuthority) : result (gmap string bytes) :=
  require validTaskAuthorities authorities else "invalid task authority grant" in add_keys ∅ authorities.

(** ** Grants *)

Definition validGrantEvidenceContext (grant : Grant) : bool :=
  if negb (String.eqb (g_RuntimeRef grant) "") || negb (String.eqb (g_CapsuleDigest grant) "") || negb (String.eqb (g_PolicyDigest grant) "")
  then validExecutorRuntimeRef (g_RuntimeRef grant) && validSHA256Digest (g_CapsuleDigest grant) && validSHA256Digest (g_PolicyDigest grant) else true.

Definition validGrantBinding (grant : Grant) : bool :=
  let authorized := String.eqb (g_EffectMode grant) EffectModeAuthorized in
  let tasks := negb (zlen (g_TaskAuthorities grant) =? 0) in
  let nodeRequired := tasks || authorized || g_ControllerEvents grant in
  validGrantID (g_GrantID grant) && bounded (g_TenantID grant) 128 && bounded (g_InstanceID grant) 256 && negb (g_Generation grant =? 0)
  && String.eqb (g_GrantID grant) (GrantID (g_TenantID grant) (g_InstanceID grant) (g_Generation grant))
  && negb (String.eqb (g_RouteID grant) "" && negb (g_Service grant) && (zlen (g_EgressRouteIDs grant) =? 0) && (zlen (g_ConnectorIDs grant) =? 0) && negb (g_ControllerEvents grant))
  && (slen (g_ModelAlias grant) <=? 256) && (String.eqb (g_ServiceURL grant) "" || g_Service grant)
  && (g_Service grant || (String.eqb (g_ServiceID grant) "" && negb tasks))
  && is_in (g_EffectMode grant) [""; EffectModeStandard; EffectModeAuthorized]%string
  && (negb authorized || (zlen (g_EgressRouteIDs grant) =? 0))
  && (authorized || ((zlen (g_ActionAuthorities grant) =? 0) && (g_ActionApprovalThreshold grant =? 0) && negb (g_ActionContextRequired grant)))
  && validGrantEvidenceContext grant && (String.eqb (g_ServiceID grant) "" || routeID (g_ServiceID grant))
  && (if nodeRequired then bounded (g_NodeID grant) 128 else String.eqb (g_NodeID grant) "")
  && (tasks || String.eqb (g_ServiceID grant) "")
  && (negb tasks || (negb (String.eqb (g_ServiceID grant) "") && negb (String.eqb (g_RuntimeRef grant) "") && validTaskAuthorities (g_TaskAuthorities grant)))
  && (negb (g_ControllerEvents grant) || negb (String.eqb (g_RuntimeRef grant) "")).

(** ** Lemmas *)

(** What a retained question or event of a workload needs of its grant. *)
Record bound (grant : Grant) : Prop := {
  bd_grant : validGrantID (g_GrantID grant) = true;
  bd_tenant : bounded (g_TenantID grant) 128 = true;
  bd_instance : bounded (g_InstanceID grant) 256 = true;
  bd_generation : g_Generation grant <> 0;
  bd_node : bounded (g_NodeID grant) 128 = true;
  bd_evidence : validExecutorRuntimeRef (g_RuntimeRef grant) = true /\ validSHA256Digest (g_CapsuleDigest grant) = true /\ validSHA256Digest (g_PolicyDigest grant) = true;
}.

Lemma binding_bound grant : validGrantBinding grant = true -> g_ControllerEvents grant = true -> bound grant.
Proof.
  unfold validGrantBinding, validGrantEvidenceContext. intros H Hc. rewrite Hc, !orb_true_r in H. cbn [negb orb andb] in H.
  breflect. repeat match goal with Hx : String.eqb _ _ = false |- _ => rewrite Hx in * end. cbn [negb orb] in *. breflect. constructor; try done; lia.
Qed.

Lemma add_keys_lookup authorities : forall keys keys' k public, add_keys keys authorities = Ok keys' -> keys' !! k = Some public ->
  keys !! k = Some public \/ exists a, a ∈ authorities /\ ta_KeyID a = k /\ b64_decode_string (ta_PublicKey a) = Some public.
Proof.
  induction authorities as [|a l IH]; intros keys keys' k public H Hk; cbn [add_keys] in H; [injection H as ->; by left|].
  destruct (b64_decode_string (ta_PublicKey a)) as [p|] eqn:E; [|done]. cbn [opt_ok] in H. destruct (IH _ _ _ _ H Hk) as [Hl | (a' & Ha & Hid & Hd)].
  - apply lookup_insert_Some in Hl as [[<- <-] | [_ Hl]]; [right; exists a; split; [left | done] | by left].
  - right. exists a'. split; [by right | done].
Qed.

(** Every key the gateway trusts for a grant is one of its authorities. *)
Lemma authority_keys authorities keys k public : taskAuthorityKeys authorities = Ok keys -> keys !! k = Some public ->
  exists a, a ∈ authorities /\ ta_KeyID a = k /\ b64_decode_string (ta_PublicKey a) = Some public.
Proof.
  unfold taskAuthorityKeys. intros H Hk. step H. destruct (add_keys_lookup _ _ _ _ _ H Hk) as [Hl | Ha]; [|done]. by rewrite lookup_empty in Hl.
Qed.

End GatewayGrant.
