(* ===== verification/InteractionPermit.v ===== *)
(** * Interaction response permits ([src/internal/interactionpermit/interactionpermit.go])

    A tenant signs the answer to one question of a running agent: the statement binds the question's digest, the workload and the exact response bytes.
    [verify] is Ed25519's; [now] is zero for Go's zero time. *)

From Stdlib Require Import Ascii.
From S2P Require Import Prelude GoText GoTime GoFS FenceStore GoJson GoCrypto Strict Dsse GoRune GoNet Admission ConnectorEvent ConnectorReceipt Permit TaskPermit.
Import Permit.

(** A lemma depends on the section hypotheses its proof uses. *)
Unset Default Proof Using.

Module InteractionPermit.

Definition PayloadType : string := "application/vnd.steward.interaction-response.v1+json".
Definition SchemaV1 : string := "steward.interaction-response.v1".
Definition ResponseBodySchemaV1 : string := "steward.interaction-response-body.v1".
Definition MaxEnvelopeBytes : Z := Z.shiftl 16 10.
Definition MaxResponseBytes : Z := Z.shiftl 4 10.
Definition MaxValidity : Z := 24 * hour.

Record Statement := mkStatement {
  s_SchemaVersion : string; s_NodeID : string; s_TenantID : string; s_InstanceID : string; s_RuntimeRef : string; s_GrantID : string;
  s_Generation : Z; s_CapsuleDigest : string; s_PolicyDigest : string; s_InteractionID : string; s_RequestDigest : string; s_ResponseDigest : string;
  s_ResponseBytes : Z; s_NotBefore : string; s_ExpiresAt : string }.

(** Pointers tell an absent member from a zero value. *)
Record wireStatement := mkwireStatement {
  w_SchemaVersion : option string; w_NodeID : option string; w_TenantID : option string; w_InstanceID : option string; w_RuntimeRef : option string;
  w_GrantID : option string; w_Generation : option Z; w_CapsuleDigest : option string; w_PolicyDigest : option string;
  w_InteractionID : option string; w_RequestDigest : option string; w_ResponseDigest : option string; w_ResponseBytes : option Z;
  w_NotBefore : option string; w_ExpiresAt : option string }.

Record Inspected := mkInspected { i_Statement : Statement; i_KeyID : string; i_EnvelopeDigest : string }.
Record Verified := mkVerified { v_Statement : Statement; v_KeyID : string; v_EnvelopeDigest : string }.

Record ResponseBody := mkResponseBody {
  rb_SchemaVersion : string; rb_Choice : string; rb_Text : string }.

Definition zero_Statement : Statement := mkStatement "" "" "" "" "" "" 0 "" "" "" "" "" 0 "" "".

#[global] Instance Statement_json : GoJSON Statement := {
  go_shape := KStruct [
    ("schema_version", KString); ("node_id", KString); ("tenant_id", KString); ("instance_id", KString); ("runtime_ref", KString);
    ("grant_id", KString); ("generation", KInt); ("capsule_digest", KString); ("policy_digest", KString); ("interaction_id", KString);
    ("request_digest", KString); ("response_digest", KString); ("response_bytes", KInt); ("not_before", KString); ("expires_at", KString)]%string;
  to_json x := obj [
    always "schema_version" (JStr (s_SchemaVersion x)); always "node_id" (JStr (s_NodeID x)); always "tenant_id" (JStr (s_TenantID x));
    always "instance_id" (JStr (s_InstanceID x)); always "runtime_ref" (JStr (s_RuntimeRef x)); always "grant_id" (JStr (s_GrantID x));
    always "generation" (json_int (s_Generation x)); always "capsule_digest" (JStr (s_CapsuleDigest x));
    always "policy_digest" (JStr (s_PolicyDigest x)); always "interaction_id" (JStr (s_InteractionID x));
    always "request_digest" (JStr (s_RequestDigest x)); always "response_digest" (JStr (s_ResponseDigest x));
    always "response_bytes" (json_int (s_ResponseBytes x)); always "not_before" (JStr (s_NotBefore x)); always "expires_at" (JStr (s_ExpiresAt x))];
  of_json v := match v with
    | JObj fs =>
        v_SchemaVersion ← field fs "schema_version" dec_string ""%string; v_NodeID ← field fs "node_id" dec_string ""%string;
        v_TenantID ← field fs "tenant_id" dec_string ""%string; v_InstanceID ← field fs "instance_id" dec_string ""%string;
        v_RuntimeRef ← field fs "runtime_ref" dec_string ""%string; v_GrantID ← field fs "grant_id" dec_string ""%string;
        v_Generation ← field fs "generation" dec_u64 0; v_CapsuleDigest ← field fs "capsule_digest" dec_string ""%string;
        v_PolicyDigest ← field fs "policy_digest" dec_string ""%string; v_InteractionID ← field fs "interaction_id" dec_string ""%string;
        v_RequestDigest ← field fs "request_digest" dec_string ""%string; v_ResponseDigest ← field fs "response_digest" dec_string ""%string;
        v_ResponseBytes ← field fs "response_bytes" dec_int 0; v_NotBefore ← field fs "not_before" dec_string ""%string;
        v_ExpiresAt ← field fs "expires_at" dec_string ""%string;
        Some (mkStatement v_SchemaVersion v_NodeID v_TenantID v_InstanceID v_RuntimeRef v_GrantID v_Generation v_CapsuleDigest v_PolicyDigest v_InteractionID v_RequestDigest v_ResponseDigest v_ResponseBytes v_NotBefore v_ExpiresAt)
    | _ => None end;
  storable x :=
    utf8_valid (s_SchemaVersion x) && utf8_valid (s_NodeID x) && utf8_valid (s_TenantID x) && utf8_valid (s_InstanceID x) &&
    utf8_valid (s_RuntimeRef x) && utf8_valid (s_GrantID x) && in_u64b (s_Generation x) && utf8_valid (s_CapsuleDigest x) &&
    utf8_valid (s_PolicyDigest x) && utf8_valid (s_InteractionID x) && utf8_valid (s_RequestDigest x) && utf8_valid (s_ResponseDigest x) &&
    in_int64b (s_ResponseBytes x) && utf8_valid (s_NotBefore x) && utf8_valid (s_ExpiresAt x);
}.

#[global] Instance Statement_laws : GoJSONLaws Statement 1.
Proof. struct_laws. Qed.

#[global] Instance wireStatement_json : GoJSON wireStatement := read_only (KStruct [
    ("schema_version", KPointer KString); ("node_id", KPointer KString); ("tenant_id", KPointer KString); ("instance_id", KPointer KString);
    ("runtime_ref", KPointer KString); ("grant_id", KPointer KString); ("generation", KPointer KInt); ("capsule_digest", KPointer KString);
    ("policy_digest", KPointer KString); ("interaction_id", KPointer KString); ("request_digest", KPointer KString);
    ("response_digest", KPointer KString); ("response_bytes", KPointer KInt); ("not_before", KPointer KString); ("expires_at", KPointer KString)]%string)
  (fun v => match v with
    | JObj fs =>
        v_SchemaVersion ← field fs "schema_version" (dec_ptr dec_string) None; v_NodeID ← field fs "node_id" (dec_ptr dec_string) None;
        v_TenantID ← field fs "tenant_id" (dec_ptr dec_string) None; v_InstanceID ← field fs "instance_id" (dec_ptr dec_string) None;
        v_RuntimeRef ← field fs "runtime_ref" (dec_ptr dec_string) None; v_GrantID ← field fs "grant_id" (dec_ptr dec_string) None;
        v_Generation ← field fs "generation" (dec_ptr dec_u64) None; v_CapsuleDigest ← field fs "capsule_digest" (dec_ptr dec_string) None;
        v_PolicyDigest ← field fs "policy_digest" (dec_ptr dec_string) None; v_InteractionID ← field fs "interaction_id" (dec_ptr dec_string) None;
        v_RequestDigest ← field fs "request_digest" (dec_ptr dec_string) None;
        v_ResponseDigest ← field fs "response_digest" (dec_ptr dec_string) None; v_ResponseBytes ← field fs "response_bytes" (dec_ptr dec_int) None;
        v_NotBefore ← field fs "not_before" (dec_ptr dec_string) None; v_ExpiresAt ← field fs "expires_at" (dec_ptr dec_string) None;
        Some (mkwireStatement v_SchemaVersion v_NodeID v_TenantID v_InstanceID v_RuntimeRef v_GrantID v_Generation v_CapsuleDigest v_PolicyDigest v_InteractionID v_RequestDigest v_ResponseDigest v_ResponseBytes v_NotBefore v_ExpiresAt)
    | _ => None end).

Definition zero_ResponseBody : ResponseBody := mkResponseBody "" "" "".

#[global] Instance ResponseBody_json : GoJSON ResponseBody := {
  go_shape := KStruct [
    ("schema_version", KString); ("choice", KString); ("text", KString)]%string;
  to_json x := obj [
    always "schema_version" (JStr (rb_SchemaVersion x)); omitempty "choice" (empty_string (rb_Choice x)) (JStr (rb_Choice x));
    omitempty "text" (empty_string (rb_Text x)) (JStr (rb_Text x))];
  of_json v := match v with
    | JObj fs =>
        v_SchemaVersion ← field fs "schema_version" dec_string ""%string; v_Choice ← field fs "choice" dec_string ""%string;
        v_Text ← field fs "text" dec_string ""%string;
        Some (mkResponseBody v_SchemaVersion v_Choice v_Text)
    | _ => None end;
  storable x :=
    utf8_valid (rb_SchemaVersion x) && utf8_valid (rb_Choice x) && utf8_valid (rb_Text x);
}.

#[global] Instance ResponseBody_laws : GoJSONLaws ResponseBody 1.
Proof. struct_laws. Qed.

Definition statement (wire : wireStatement) : option Statement :=
  v_SchemaVersion ← w_SchemaVersion wire; v_NodeID ← w_NodeID wire; v_TenantID ← w_TenantID wire; v_InstanceID ← w_InstanceID wire;
  v_RuntimeRef ← w_RuntimeRef wire; v_GrantID ← w_GrantID wire; v_Generation ← w_Generation wire; v_CapsuleDigest ← w_CapsuleDigest wire;
  v_PolicyDigest ← w_PolicyDigest wire; v_InteractionID ← w_InteractionID wire; v_RequestDigest ← w_RequestDigest wire;
  v_ResponseDigest ← w_ResponseDigest wire; v_ResponseBytes ← w_ResponseBytes wire; v_NotBefore ← w_NotBefore wire; v_ExpiresAt ← w_ExpiresAt wire;
  Some (mkStatement v_SchemaVersion v_NodeID v_TenantID v_InstanceID v_RuntimeRef v_GrantID v_Generation v_CapsuleDigest v_PolicyDigest v_InteractionID v_RequestDigest v_ResponseDigest v_ResponseBytes v_NotBefore v_ExpiresAt).

(** ** Response bodies *)

(** [unicode.IsControl]. *)
Definition IsControl (r : Z) : bool := ((0 <=? r) && (r <=? 31)) || ((127 <=? r) && (r <=? 159)).

Definition responseText (value : string) (limit : Z) : bool :=
  negb (String.eqb value "") && (slen value <=? limit) && utf8_valid value && String.eqb (trim_space value) value && negb (existsb IsControl (to_runes value)).

Definition Validate (body : ResponseBody) (options : list string) (allowText : bool) : result unit :=
  require String.eqb (rb_SchemaVersion body) ResponseBodySchemaV1 && negb (String.eqb (rb_Choice body) "" && String.eqb (rb_Text body) "")
    && (String.eqb (rb_Choice body) "" || responseText (rb_Choice body) 128)
    && (String.eqb (rb_Text body) "" || (allowText && responseText (rb_Text body) 2048)) else "interaction response body is invalid" in
  require String.eqb (rb_Choice body) "" || is_in (rb_Choice body) options else "interaction response choice was not offered" in
  Ok tt.

Definition ResponseDigest (raw : bytes) : string := TaskPermit.RequestDigest raw.

(** ** Statements *)

Definition interactionID (value : string) : bool :=
  has_prefix value "interaction-" && (slen value =? 76) && ConnectorEvent.lowerHex (trim_prefix value "interaction-").

Definition validateStatement (s : Statement) (now maxValidity : Z) : result unit :=
  require String.eqb (s_SchemaVersion s) SchemaV1 else "unsupported schema version" in
  require publicIdentity (s_NodeID s) 128 && publicIdentity (s_TenantID s) 128 && publicIdentity (s_InstanceID s) 256 && runtimeRef (s_RuntimeRef s)
    && grantID (s_GrantID s) && interactionID (s_InteractionID s) else "statement contains an invalid identity" in
  require negb (s_Generation s =? 0) else "generation must be positive" in
  require digest (s_CapsuleDigest s) && digest (s_PolicyDigest s) && digest (s_RequestDigest s) && digest (s_ResponseDigest s)
    else "statement contains an invalid SHA-256 digest" in
  require (0 <? s_ResponseBytes s) && (s_ResponseBytes s <=? MaxResponseBytes) else "response size is outside the supported range" in
  validateValidity (s_NotBefore s) (s_ExpiresAt s) now maxValidity.

(** The signed bytes as a statement. *)
Definition decode_statement (payload : bytes) : result Statement :=
  let* wire := DecodeStrictInto (A := wireStatement) payload MaxEnvelopeBytes in
  opt_ok (statement wire) "signed statement omits a required field".

Definition inspect (raw : bytes) : result (Statement * string * string) :=
  let* (payload, keyID) := inspect_envelope PayloadType MaxEnvelopeBytes raw in
  let* s := decode_statement payload in
  Ok (s, keyID, Dsse.Digest raw).

Definition not_before (s : Statement) : result Z := opt_ok (canonicalTime (s_NotBefore s)) "not_before: timestamp must be canonical UTC RFC3339 seconds".

Definition Sign (sign : bytes -> bytes -> bytes) (s : Statement) (keyID : string) (private : bytes) : result bytes :=
  require identifier keyID && (zlen private =? Dsse.PrivateKeySize) else "response signing key is invalid" in
  let* notBefore := not_before s in
  let* _ := validateStatement s notBefore MaxValidity in
  let* envelope := Dsse.Sign sign PayloadType (json_print (to_json s)) keyID private in
  let* raw := Dsse.Marshal envelope in
  require zlen raw <=? MaxEnvelopeBytes else "marshal response envelope" in Ok raw.

Definition InspectUnverified (raw : bytes) : result Inspected :=
  let* (s, keyID, envelopeDigest) := inspect raw in
  let* notBefore := not_before s in
  let* _ := validateStatement s notBefore MaxValidity in
  Ok (mkInspected s keyID envelopeDigest).

Definition Verify (verify : bytes -> bytes -> bytes -> bool) (raw : bytes) (trusted : gmap string bytes) (now maxValidity : Z) : result Verified :=
  require negb (is_zero now) else "node time is unavailable" in
  require (0 <? maxValidity) && (maxValidity <=? MaxValidity) else "maximum validity must be positive and at most the hard limit" in
  let* (s, keyID, envelopeDigest) := inspect raw in
  let* (payload, verifiedKeyID) := Dsse.Verify verify raw PayloadType trusted in
  require String.eqb verifiedKeyID keyID && utf8_bytes payload else "verify DSSE envelope" in
  let* _ := validateStatement s now maxValidity in
  Ok (mkVerified s keyID envelopeDigest).

(** ** What an accepted response permit is *)

Record valid (s : Statement) (now maxValidity : Z) : Prop := {
  va_schema : s_SchemaVersion s = SchemaV1;
  va_identity : publicIdentity (s_NodeID s) 128 = true /\ publicIdentity (s_TenantID s) 128 = true /\ publicIdentity (s_InstanceID s) 256 = true;
  va_runtime : runtimeRef (s_RuntimeRef s) = true /\ grantID (s_GrantID s) = true /\ interactionID (s_InteractionID s) = true;
  va_generation : s_Generation s <> 0;
  va_digests : digest (s_CapsuleDigest s) = true /\ digest (s_PolicyDigest s) = true /\ digest (s_RequestDigest s) = true /\ digest (s_ResponseDigest s) = true;
  va_bytes : 0 < s_ResponseBytes s <= MaxResponseBytes;
  va_window : exists b e, canonicalTime (s_NotBefore s) = Some b /\ canonicalTime (s_ExpiresAt s) = Some e /\ b <= now < e /\ e - b <= maxValidity;
}.

Lemma response_statement_spec s now maxValidity : validateStatement s now maxValidity = Ok tt <-> valid s now maxValidity.
Proof.
  unfold validateStatement. split.
  - intros H. do 5 step H. breflect. apply validity_inv in H. repeat match goal with Hx : String.eqb _ _ = true |- _ => apply String.eqb_eq in Hx end.
    constructor; try done; split_and!; done.
  - intros [-> (-> & -> & ->) (-> & -> & ->) Hg (-> & -> & -> & ->) Hb Hw]. rewrite !String.eqb_refl. cbn [andb].
    rewrite (proj2 (Z.eqb_neq _ _) Hg), (proj2 (Z.ltb_lt _ _)), (proj2 (Z.leb_le _ _)) by lia. cbn [negb andb]. by apply validity_inv.
Qed.

Section verify.
Context (verify : bytes -> bytes -> bytes -> bool).

Record granted (raw : bytes) (trusted : gmap string bytes) (now maxValidity : Z) (v : Verified) (payload signature : bytes) : Prop := {
  gr_raw : raw = json_print (to_json (sealed PayloadType payload (v_KeyID v) signature));
  gr_size : zlen raw <= MaxEnvelopeBytes;
  gr_signature : zlen signature = Dsse.SignatureSize;
  gr_signed : signed verify trusted PayloadType payload (v_KeyID v) signature;
  gr_key : identifier (v_KeyID v) = true;
  gr_payload : utf8_bytes payload = true /\ decode_statement payload = Ok (v_Statement v);
  gr_valid : valid (v_Statement v) now maxValidity;
  gr_clock : now <> 0 /\ 0 < maxValidity <= MaxValidity;
  gr_digest : v_EnvelopeDigest v = Dsse.Digest raw;
}.

Lemma response_decode_nonempty payload s : decode_statement payload = Ok s -> payload <> [] /\ zlen payload <= Dsse.MaxPayloadBytes.
Proof.
  unfold decode_statement, DecodeStrictInto. intros H. destruct (_ || _) eqn:E in H; [done|]. breflect. split; [done|].
  change MaxEnvelopeBytes with 16384 in *. change Dsse.MaxPayloadBytes with 524288. lia.
Qed.

Lemma response_granted raw trusted now maxValidity v : Verify verify raw trusted now maxValidity = Ok v <-> exists payload signature, granted raw trusted now maxValidity v payload signature.
Proof.
  unfold Verify, inspect. split.
  - intros H. do 2 step H. destruct (inspect_envelope _ _ _) as [[payload k]|] eqn:Ei; [|done]. destruct (inspect_inv _ _ _ _ _ Ei) as (signature & Hl & Hr & Hp & Hk & Hu & Hz).
    destruct (decode_statement payload) as [s|] eqn:Ed; [|done]. destruct (Dsse.Verify _ _ _ _) as [[p' k']|] eqn:Ev; [|done]. step H.
    destruct (validateStatement _ _ _) as [[]|] eqn:Eva; [|done]. injection H as <-. apply (verify_sealed _ _ _ _ _ _ _ _ Hp Hl) in Ev as ([= -> ->] & Hsig & _).
    exists payload, signature. unfold is_zero in *. breflect. constructor; try done; by apply response_statement_spec.
  - intros (payload & signature & [Hr Hz Hl Hs Hk [Hu Hd] Hv [Hn Hm] Hg]). destruct (response_decode_nonempty _ _ Hd) as [Hne Hpm].
    destruct (sealed_parse PayloadType payload (v_KeyID v) signature) as [HP _]; try done. rewrite <- Hr in HP.
    unfold is_zero. rewrite (proj2 (Z.eqb_neq _ _) Hn), (proj2 (Z.ltb_lt 0 _)), (proj2 (Z.leb_le maxValidity _)) by lia. cbn [negb andb].
    assert (Hi : inspect_envelope PayloadType MaxEnvelopeBytes raw = Ok (payload, v_KeyID v)) by (rewrite Hr; apply inspect_ok; try done; by rewrite <- Hr).
    rewrite Hi, Hd, (proj2 (verify_sealed _ _ _ _ _ _ _ (payload, v_KeyID v) HP Hl)) by (split_and!; done).
    rewrite String.eqb_refl, Hu, (proj2 (response_statement_spec _ _ _) Hv), <- Hg. by destruct v.
Qed.
End verify.

(** ** Issuing *)

Definition wire_of (s : Statement) : wireStatement :=
  mkwireStatement (Some (s_SchemaVersion s)) (Some (s_NodeID s)) (Some (s_TenantID s)) (Some (s_InstanceID s)) (Some (s_RuntimeRef s))
  (Some (s_GrantID s)) (Some (s_Generation s)) (Some (s_CapsuleDigest s)) (Some (s_PolicyDigest s)) (Some (s_InteractionID s))
  (Some (s_RequestDigest s)) (Some (s_ResponseDigest s)) (Some (s_ResponseBytes s)) (Some (s_NotBefore s)) (Some (s_ExpiresAt s)).

Lemma response_wire_shape (s : Statement) d : storable s = true -> (d + 1 <= 32)%nat -> validateJSONValue (go_shape (A := wireStatement)) d (to_json s) = Ok tt.
Proof. intros H Hd; unfold_json; breflect. cbn [go_shape wireStatement_json read_only]. wire_shape. Qed.

Lemma response_wire_read (s : Statement) : storable s = true -> of_json (to_json s) = Some (wire_of s).
Proof. intros H; unfold_json; breflect. cbn [of_json wireStatement_json read_only]. wire_read. done. Qed.

Lemma response_written s : storable s = true -> zlen (json_print (to_json s)) <= MaxEnvelopeBytes -> decode_statement (json_print (to_json s)) = Ok s.
Proof.
  intros Hs Hz. unfold decode_statement.
  rewrite (DecodeStrictInto_print (to_json s) (wire_of s)); [by destruct s | by apply to_json_ok | apply response_wire_shape; [done | lia] | by apply response_wire_read | done].
Qed.

Lemma short_interaction s : interactionID s = true -> short 78 s.
Proof. unfold interactionID, ConnectorEvent.lowerHex. intros H. breflect. by apply (short_prefixed s "interaction-" 76). Qed.

Lemma response_size s now maxValidity : valid s now maxValidity -> in_u64 (s_Generation s) -> storable s = true /\ zlen (json_print (to_json s)) <= 5200.
Proof.
  intros [Hsc (H1%short_identity & H2%short_identity & H3%short_identity) (H4%short_runtime & H5%short_grant & H6%short_interaction) Hg
    (H9%short_digest & H10%short_digest & H11%short_digest & H12%short_digest) Hb (b & e & Hnb%short_time & Hne%short_time & _)] Ht1.
  assert (Hs1 : short 36 (s_SchemaVersion s)) by (rewrite Hsc; split; [reflexivity | vm_compute; congruence]).
  assert (Ht2 : in_int64b (s_ResponseBytes s) = true) by (change MaxResponseBytes with 4096 in *; unfold in_int64b; lia).
  repeat match goal with H : short _ _ |- _ => destruct H end. split.
  - cbn [storable Statement_json]. rewrite !andb_true_iff, in_u64b_true. split_and!; done.
  - cbn [to_json Statement_json]. struct_bound.
Qed.

(** Signing a well-formed statement yields an accepted permit of at most 7300 bytes. *)
Lemma response_issued sign verify s k private public trusted now maxValidity : Dsse.key_pair sign verify private public -> trusted !! k = Some public -> identifier k = true ->
  valid s now maxValidity -> in_u64 (s_Generation s) -> now <> 0 -> 0 < maxValidity <= MaxValidity ->
  exists raw signature, Sign sign s k private = Ok raw /\ zlen raw <= 7300 /\ granted verify raw trusted now maxValidity (mkVerified s k (Dsse.Digest raw)) (json_print (to_json s)) signature.
Proof.
  intros Hkp Ht Hk Hv Hty Hn Hm. destruct (response_size _ _ _ Hv Hty) as [Hst Hz]. pose proof (to_json_ok s Hst) as Hok. pose proof Hkp as (Hpl & Hpub & Hs).
  destruct (Hs (Dsse.PAE PayloadType (json_print (to_json s)))) as [Hsl Hsv]. destruct (identifier_plain k Hk) as (_ & Hkl & Hkn).
  set (signature := sign private (Dsse.PAE PayloadType (json_print (to_json s)))) in *. set (raw := json_print (to_json (sealed PayloadType (json_print (to_json s)) k signature))).
  assert (Hraw : zlen raw <= 7300).
  { subst raw. rewrite sealed_size by done. change (slen PayloadType) with 52. unfold b64_encoded_len. Z.to_euclidean_division_equations. lia. }
  destruct (json_print_head _ Hok) as (c & l & Ep & _). assert (Hne : json_print (to_json s) <> []) by (by rewrite Ep). change Dsse.MaxPayloadBytes with 524288 in *.
  assert (Hpm : zlen (json_print (to_json s)) <= Dsse.MaxPayloadBytes) by (change Dsse.MaxPayloadBytes with 524288; lia).
  destruct (sealed_parse PayloadType (json_print (to_json s)) k signature) as [_ HM]; try done.
  exists raw, signature. split_and!; [|done|].
  { destruct (va_window _ _ _ Hv) as (b & e & Hb & He & Hbe & Hmx). unfold Sign, not_before. rewrite Hk, Hpl, Hb. cbn [opt_ok].
    rewrite (proj2 (response_statement_spec s b MaxValidity)) by (destruct Hv; constructor; try done; exists b, e; split_and!; (done || lia)).
    assert (Hsig : Dsse.Sign sign PayloadType (json_print (to_json s)) k private = Ok (sealed PayloadType (json_print (to_json s)) k signature)).
    { unfold Dsse.Sign. rewrite Hkn, Hpl, (proj2 (Z.ltb_ge _ _)) by lia. done. }
    rewrite Hsig, HM. fold raw. rewrite (proj2 (Z.leb_le _ _)); [done|]. change MaxEnvelopeBytes with 16384. lia. }
  constructor; cbn [v_KeyID v_Statement v_EnvelopeDigest]; try done.
  - change MaxEnvelopeBytes with 16384. lia.
  - by exists public.
  - split; [by apply utf8_bytes_valid, json_print_utf8|]. apply response_written; [done|]. change MaxEnvelopeBytes with 16384. lia.
Qed.

End InteractionPermit.
