(* ===== verification/InteractionProtocol.v ===== *)
(** * Interactions on the wire ([src/internal/controlprotocol/interactions.go])

    A question of an agent as the node sends it to Control, with the digest that a signed answer binds, and the courier messages of the answers.
    The tests of texts are those of [src/internal/controlprotocol/instance_events.go]. *)

From Stdlib Require Import Ascii.
From S2P Require Import Prelude GoText GoTime GoFS FenceStore GoJson GoCrypto Strict Dsse GoRune GoNet Admission ConnectorEvent ConnectorReceipt Permit TaskPermit InteractionPermit.
Import Permit.

Module InteractionProtocol.

Definition InteractionRequestSchemaV1 : string := "steward.interaction-request.v1".
Definition InteractionBatchSchemaV1 : string := "steward.interaction-request-batch.v1".
Definition InteractionPollSchemaV1 : string := "steward.interaction-response-poll.v1".
Definition MaxInteractionBatch : Z := 64.
Definition MaxInteractionOptions : Z := 8.
Definition MaxInteractionWait : Z := 7 * 24 * hour.

Record InteractionRequestV1 := mkInteractionRequestV1 {
  r_SchemaVersion : string; r_InteractionID : string; r_IdempotencyKey : string; r_Source : string; r_TenantID : string; r_NodeID : string;
  r_InstanceID : string; r_Generation : Z; r_RuntimeRef : string; r_GrantID : string; r_CapsuleDigest : string; r_PolicyDigest : string;
  r_Kind : string; r_Title : string; r_Prompt : string; r_Options : option (list string); r_AllowText : bool; r_TaskID : string; r_RunID : string;
  r_ObservedAt : string; r_AcceptedAt : string; r_ExpiresAt : string; r_RequestDigest : string }.

Definition zero_InteractionRequestV1 : InteractionRequestV1 := mkInteractionRequestV1 "" "" "" "" "" "" "" 0 "" "" "" "" "" "" "" None false "" "" "" "" "" "".

#[global] Instance InteractionRequestV1_json : GoJSON InteractionRequestV1 := {
  go_shape := KStruct [
    ("schema_version", KString); ("interaction_id", KString); ("idempotency_key", KString); ("source", KString); ("tenant_id", KString);
    ("node_id", KString); ("instance_id", KString); ("generation", KInt); ("runtime_ref", KString); ("grant_id", KString);
    ("capsule_digest", KString); ("policy_digest", KString); ("kind", KString); ("title", KString); ("prompt", KString);
    ("options", KSlice (go_shape (A := string))); ("allow_text", KBool); ("task_id", KString); ("run_id", KString); ("observed_at", KString);
    ("accepted_at", KString); ("expires_at", KString); ("request_digest", KString)]%string;
  to_json x := obj [
    always "schema_version" (JStr (r_SchemaVersion x)); always "interaction_id" (JStr (r_InteractionID x));
    always "idempotency_key" (JStr (r_IdempotencyKey x)); always "source" (JStr (r_Source x)); always "tenant_id" (JStr (r_TenantID x));
    always "node_id" (JStr (r_NodeID x)); always "instance_id" (JStr (r_InstanceID x)); always "generation" (json_int (r_Generation x));
    always "runtime_ref" (JStr (r_RuntimeRef x)); always "grant_id" (JStr (r_GrantID x)); always "capsule_digest" (JStr (r_CapsuleDigest x));
    always "policy_digest" (JStr (r_PolicyDigest x)); always "kind" (JStr (r_Kind x)); always "title" (JStr (r_Title x));
    always "prompt" (JStr (r_Prompt x)); always "options" (enc_slice to_json (r_Options x)); always "allow_text" (JBool (r_AllowText x));
    omitempty "task_id" (empty_string (r_TaskID x)) (JStr (r_TaskID x)); omitempty "run_id" (empty_string (r_RunID x)) (JStr (r_RunID x));
    always "observed_at" (JStr (r_ObservedAt x)); always "accepted_at" (JStr (r_AcceptedAt x)); always "expires_at" (JStr (r_ExpiresAt x));
    always "request_digest" (JStr (r_RequestDigest x))];
  of_json v := match v with
    | JObj fs =>
        v_SchemaVersion ← field fs "schema_version" dec_string ""%string; v_InteractionID ← field fs "interaction_id" dec_string ""%string;
        v_IdempotencyKey ← field fs "idempotency_key" dec_string ""%string; v_Source ← field fs "source" dec_string ""%string;
        v_TenantID ← field fs "tenant_id" dec_string ""%string; v_NodeID ← field fs "node_id" dec_string ""%string;
        v_InstanceID ← field fs "instance_id" dec_string ""%string; v_Generation ← field fs "generation" dec_u64 0;
        v_RuntimeRef ← field fs "runtime_ref" dec_string ""%string; v_GrantID ← field fs "grant_id" dec_string ""%string;
        v_CapsuleDigest ← field fs "capsule_digest" dec_string ""%string; v_PolicyDigest ← field fs "policy_digest" dec_string ""%string;
        v_Kind ← field fs "kind" dec_string ""%string; v_Title ← field fs "title" dec_string ""%string;
        v_Prompt ← field fs "prompt" dec_string ""%string; v_Options ← field fs "options" (dec_slice of_json) None;
        v_AllowText ← field fs "allow_text" dec_bool false; v_TaskID ← field fs "task_id" dec_string ""%string;
        v_RunID ← field fs "run_id" dec_string ""%string; v_ObservedAt ← field fs "observed_at" dec_string ""%string;
        v_AcceptedAt ← field fs "accepted_at" dec_string ""%string; v_ExpiresAt ← field fs "expires_at" dec_string ""%string;
        v_RequestDigest ← field fs "request_digest" dec_string ""%string;
        Some (mkInteractionRequestV1 v_SchemaVersion v_InteractionID v_IdempotencyKey v_Source v_TenantID v_NodeID v_InstanceID v_Generation v_RuntimeRef v_GrantID v_CapsuleDigest v_PolicyDigest v_Kind v_Title v_Prompt v_Options v_AllowText v_TaskID v_RunID v_ObservedAt v_AcceptedAt v_ExpiresAt v_RequestDigest)
    | _ => None end;
  storable x :=
    utf8_valid (r_SchemaVersion x) && utf8_valid (r_InteractionID x) && utf8_valid (r_IdempotencyKey x) && utf8_valid (r_Source x) &&
    utf8_valid (r_TenantID x) && utf8_valid (r_NodeID x) && utf8_valid (r_InstanceID x) && in_u64b (r_Generation x) && utf8_valid (r_RuntimeRef x) &&
    utf8_valid (r_GrantID x) && utf8_valid (r_CapsuleDigest x) && utf8_valid (r_PolicyDigest x) && utf8_valid (r_Kind x) && utf8_valid (r_Title x) &&
    utf8_valid (r_Prompt x) && storable_slice (r_Options x) && utf8_valid (r_TaskID x) && utf8_valid (r_RunID x) && utf8_valid (r_ObservedAt x) &&
    utf8_valid (r_AcceptedAt x) && utf8_valid (r_ExpiresAt x) && utf8_valid (r_RequestDigest x);
}.

#[global] Instance InteractionRequestV1_laws : GoJSONLaws InteractionRequestV1 2.
Proof. struct_laws. Qed.

Record InteractionRequestBatchV1 := mkBatch { ib_SchemaVersion : string; ib_NodeID : string; ib_Interactions : list InteractionRequestV1 }.
Record InteractionResponsePollRequestV1 := mkPoll { ip_SchemaVersion : string; ip_NodeID : string; ip_Limit : Z }.

(** ** Texts *)

(** A non-empty text of letters, digits and, after the first byte, [-], [_] and [.]. *)
Definition recordID (value : string) (limit : Z) : bool :=
  match bytes_of value with
  | first :: rest => Admission.route_first (u8 first) && forallb (fun c => Admission.route_rest (u8 c)) rest && (slen value <=? limit)
  | [] => false
  end.
Definition text (value : string) (limit : Z) : bool := InteractionPermit.responseText value limit.
Definition prefixedDigest (value prefix : string) : bool :=
  has_prefix value prefix && (slen value =? slen prefix + 64) && all_bytes hex_byte (trim_prefix value prefix).
Definition sha256Digest (value : string) : bool := prefixedDigest value "sha256:".
Definition interactionID (value : string) : bool := prefixedDigest value "interaction-".

(** [time.RFC3339] drops a fraction, so only whole seconds are canonical; [time.RFC3339Nano] keeps it. *)
Definition canonical_seconds (value : string) : option Z := canonicalTime value.
Definition canonical_nano (value : string) : option Z :=
  match canonical_time value with Some parsed => if is_zero parsed then None else Some parsed | None => None end.

Definition interactionRequestID (grantID idempotencyKey : string) : string :=
  "interaction-" +:+ string_of (hex_encode (Sha256.sum (bytes_of ("steward-interaction-v1" +:+ FenceStore.nul +:+ grantID +:+ FenceStore.nul +:+ idempotencyKey)))).

(** ** The digest of a question *)

Definition document (r : InteractionRequestV1) : json := obj [
  always "schema_version" (JStr (r_SchemaVersion r)); always "interaction_id" (JStr (r_InteractionID r)); always "tenant_id" (JStr (r_TenantID r));
  always "node_id" (JStr (r_NodeID r)); always "instance_id" (JStr (r_InstanceID r)); always "generation" (json_int (r_Generation r));
  always "runtime_ref" (JStr (r_RuntimeRef r)); always "grant_id" (JStr (r_GrantID r)); always "capsule_digest" (JStr (r_CapsuleDigest r));
  always "policy_digest" (JStr (r_PolicyDigest r)); always "kind" (JStr (r_Kind r)); always "title" (JStr (r_Title r)); always "prompt" (JStr (r_Prompt r));
  always "options" (enc_slice to_json (r_Options r)); always "allow_text" (JBool (r_AllowText r));
  omitempty "task_id" (empty_string (r_TaskID r)) (JStr (r_TaskID r)); omitempty "run_id" (empty_string (r_RunID r)) (JStr (r_RunID r));
  always "observed_at" (JStr (r_ObservedAt r)); always "accepted_at" (JStr (r_AcceptedAt r)); always "expires_at" (JStr (r_ExpiresAt r))].

Definition InteractionRequestDigest (r : InteractionRequestV1) : string := sha256_text (json_print (document r)).

(** ** Validation *)

(** Every option a bounded text, none twice. *)
Fixpoint distinct_options (seen : list string) (options : list string) : result unit :=
  match options with
  | [] => Ok tt
  | option :: rest =>
      require text option 128 else "interaction option is invalid" in
      require negb (is_in option seen) else "interaction contains a duplicate option" in
      distinct_options (option :: seen) rest
  end.

Definition InteractionRequestV1_Validate (r : InteractionRequestV1) : result unit :=
  let bad := "interaction request is invalid"%string in
  let options := default [] (r_Options r) in
  let* observed := opt_ok (canonical_seconds (r_ObservedAt r)) bad in
  let* accepted := opt_ok (canonical_nano (r_AcceptedAt r)) bad in
  let* expires := opt_ok (canonical_seconds (r_ExpiresAt r)) bad in
  require String.eqb (r_SchemaVersion r) InteractionRequestSchemaV1 && interactionID (r_InteractionID r) && recordID (r_IdempotencyKey r) 128
    && String.eqb (r_InteractionID r) (interactionRequestID (r_GrantID r) (r_IdempotencyKey r))
    && String.eqb (r_Source r) "agent" && recordID (r_TenantID r) 128 && recordID (r_NodeID r) 128 && text (r_InstanceID r) 256 && negb (r_Generation r =? 0)
    && prefixedDigest (r_RuntimeRef r) "executor-" && prefixedDigest (r_GrantID r) "grant-" && sha256Digest (r_CapsuleDigest r) && sha256Digest (r_PolicyDigest r)
    && is_in (r_Kind r) ["question"; "decision"]%string && text (r_Title r) 128 && text (r_Prompt r) 4096 && (zlen options <=? MaxInteractionOptions)
    && (String.eqb (r_TaskID r) "" || text (r_TaskID r) 256) && (String.eqb (r_RunID r) "" || text (r_RunID r) 256)
    && (observed <=? accepted + 5 * minute) && (accepted <? expires) && (expires - accepted <=? MaxInteractionWait)
    && String.eqb (r_RequestDigest r) (InteractionRequestDigest r) else bad in
  require negb (String.eqb (r_Kind r) "decision" && (zlen options <? 2)) && negb ((zlen options =? 0) && negb (r_AllowText r))
    else "interaction request has no bounded response path" in
  distinct_options [] options.

Fixpoint validate_batch (nodeID : string) (seen : list string) (interactions : list InteractionRequestV1) : result unit :=
  match interactions with
  | [] => Ok tt
  | interaction :: rest =>
      require String.eqb (r_NodeID interaction) nodeID else "interaction request batch contains an invalid interaction" in
      let* _ := InteractionRequestV1_Validate interaction in
      require negb (is_in (r_InteractionID interaction) seen) else "interaction request batch contains a duplicate interaction" in
      validate_batch nodeID (r_InteractionID interaction :: seen) rest
  end.
Definition InteractionRequestBatchV1_Validate (batch : InteractionRequestBatchV1) : result unit :=
  require String.eqb (ib_SchemaVersion batch) InteractionBatchSchemaV1 && recordID (ib_NodeID batch) 128 && negb (zlen (ib_Interactions batch) =? 0)
    && (zlen (ib_Interactions batch) <=? MaxInteractionBatch) else "interaction request batch is invalid" in
  validate_batch (ib_NodeID batch) [] (ib_Interactions batch).

Definition InteractionResponsePollRequestV1_Validate (request : InteractionResponsePollRequestV1) : result unit :=
  require String.eqb (ip_SchemaVersion request) InteractionPollSchemaV1 && recordID (ip_NodeID request) 128 && (0 <? ip_Limit request)
    && (ip_Limit request <=? MaxInteractionBatch) else "interaction response poll is invalid" in Ok tt.

End InteractionProtocol.
