(* ===== verification/Interactions.v ===== *)
(** * Agent questions in the gateway ([src/internal/gateway/interactions.go])

    An admitted agent opens a question through its grant's socket; Gateway stamps it with the grant's identity, keeps it in memory and in its state file, hands it to the
    courier, and attaches an answer once a key of the grant's tenant has signed it. A handler takes the stored questions, the grants, its request and the clock
    readings it makes, and returns the new store and its reply; it holds the server's lock from its first read of the store, so handlers are atomic.
    [outcome] is what writing the state file did. *)

From Stdlib Require Import Ascii.
From S2P Require Import Prelude GoText GoTime GoFS FenceStore GoJson GoCrypto Strict Dsse GoRune GoNet Admission ConnectorEvent ConnectorReceipt Permit TaskPermit InteractionPermit InteractionProtocol GoZone GatewayGrant.
Import Permit GatewayGrant.

Module Interactions.

Definition maxInteractionRequestBytes : Z := Z.shiftl 8 10.
Definition maxInteractionCourierBytes : Z := Z.shiftl 32 10.
Definition maxInteractions : Z := 64.
Definition maxInteractionsTenant : Z := 32.
Definition maxInteractionsGrant : Z := 16.
Definition maxInteractionOptions : Z := 8.
Definition maxInteractionWait : Z := 7 * 24 * hour.

Record InteractionInput := mkInteractionInput {
  n_SchemaVersion : string; n_IdempotencyKey : string; n_Kind : string; n_Title : string; n_Prompt : string; n_Options : option (list string);
  n_AllowText : bool; n_TaskID : string; n_RunID : string; n_ObservedAt : string; n_ExpiresAt : string }.

Record InteractionResponse := mkInteractionResponse {
  a_Body : InteractionPermit.ResponseBody; a_KeyID : string; a_PermitDigest : string; a_ResponseDigest : string; a_ResolvedAt : string }.

Record Interaction := mkInteraction {
  x_SchemaVersion : string; x_InteractionID : string; x_IdempotencyKey : string; x_Source : string; x_TenantID : string; x_NodeID : string; x_InstanceID : string;
  x_Generation : Z; x_RuntimeRef : string; x_GrantID : string; x_CapsuleDigest : string; x_PolicyDigest : string; x_Kind : string; x_Title : string; x_Prompt : string;
  x_Options : option (list string); x_AllowText : bool; x_TaskID : string; x_RunID : string; x_ObservedAt : string; x_AcceptedAt : string; x_ExpiresAt : string;
  x_RequestDigest : string; x_State : string; x_ControllerAccepted : bool; x_Response : option InteractionResponse }.

Record interactionAck := mkinteractionAck {
  ak_InteractionIDs : option (list string) }.

Record interactionResponseCourier := mkinteractionResponseCourier {
  cr_InteractionID : string; cr_PermitBase64 : string; cr_ResponseBase64 : string }.

Definition zero_InteractionInput : InteractionInput := mkInteractionInput "" "" "" "" "" None false "" "" "" "".

#[global] Instance InteractionInput_json : GoJSON InteractionInput := {
  go_shape := KStruct [
    ("schema_version", KString); ("idempotency_key", KString); ("kind", KString); ("title", KString); ("prompt", KString);
    ("options", KSlice (go_shape (A := string))); ("allow_text", KBool); ("task_id", KString); ("run_id", KString); ("observed_at", KString);
    ("expires_at", KString)]%string;
  to_json x := obj [
    always "schema_version" (JStr (n_SchemaVersion x)); always "idempotency_key" (JStr (n_IdempotencyKey x)); always "kind" (JStr (n_Kind x));
    always "title" (JStr (n_Title x)); always "prompt" (JStr (n_Prompt x));
    omitempty "options" (nil_slice (n_Options x)) (enc_slice to_json (n_Options x));
    omitempty "allow_text" (negb (n_AllowText x)) (JBool (n_AllowText x)); omitempty "task_id" (empty_string (n_TaskID x)) (JStr (n_TaskID x));
    omitempty "run_id" (empty_string (n_RunID x)) (JStr (n_RunID x)); omitempty "observed_at" (empty_string (n_ObservedAt x)) (JStr (n_ObservedAt x));
    always "expires_at" (JStr (n_ExpiresAt x))];
  of_json v := match v with
    | JObj fs =>
        v_SchemaVersion ← field fs "schema_version" dec_string ""%string; v_IdempotencyKey ← field fs "idempotency_key" dec_string ""%string;
        v_Kind ← field fs "kind" dec_string ""%string; v_Title ← field fs "title" dec_string ""%string;
        v_Prompt ← field fs "prompt" dec_string ""%string; v_Options ← field fs "options" (dec_slice of_json) None;
        v_AllowText ← field fs "allow_text" dec_bool false; v_TaskID ← field fs "task_id" dec_string ""%string;
        v_RunID ← field fs "run_id" dec_string ""%string; v_ObservedAt ← field fs "observed_at" dec_string ""%string;
        v_ExpiresAt ← field fs "expires_at" dec_string ""%string;
        Some (mkInteractionInput v_SchemaVersion v_IdempotencyKey v_Kind v_Title v_Prompt v_Options v_AllowText v_TaskID v_RunID v_ObservedAt v_ExpiresAt)
    | _ => None end;
  storable x :=
    utf8_valid (n_SchemaVersion x) && utf8_valid (n_IdempotencyKey x) && utf8_valid (n_Kind x) && utf8_valid (n_Title x) && utf8_valid (n_Prompt x) &&
    slice_ok storable (n_Options x) && utf8_valid (n_TaskID x) && utf8_valid (n_RunID x) && utf8_valid (n_ObservedAt x) && utf8_valid (n_ExpiresAt x);
}.

#[global] Instance InteractionInput_laws : GoJSONLaws InteractionInput 2.
Proof. struct_laws. Qed.

Definition zero_interactionAck : interactionAck := mkinteractionAck None.

#[global] Instance interactionAck_json : GoJSON interactionAck := {
  go_shape := KStruct [
    ("interaction_ids", KSlice (go_shape (A := string)))]%string;
  to_json x := obj [
    always "interaction_ids" (enc_slice to_json (ak_InteractionIDs x))];
  of_json v := match v with
    | JObj fs =>
        v_InteractionIDs ← field fs "interaction_ids" (dec_slice of_json) None;
        Some (mkinteractionAck v_InteractionIDs)
    | _ => None end;
  storable x :=
    storable_slice (ak_InteractionIDs x);
}.

#[global] Instance interactionAck_laws : GoJSONLaws interactionAck 2.
Proof. struct_laws. Qed.

Definition zero_interactionResponseCourier : interactionResponseCourier := mkinteractionResponseCourier "" "" "".

#[global] Instance interactionResponseCourier_json : GoJSON interactionResponseCourier := {
  go_shape := KStruct [
    ("interaction_id", KString); ("permit_base64", KString); ("response_base64", KString)]%string;
  to_json x := obj [
    always "interaction_id" (JStr (cr_InteractionID x)); always "permit_base64" (JStr (cr_PermitBase64 x));
    always "response_base64" (JStr (cr_ResponseBase64 x))];
  of_json v := match v with
    | JObj fs =>
        v_InteractionID ← field fs "interaction_id" dec_string ""%string; v_PermitBase64 ← field fs "permit_base64" dec_string ""%string;
        v_ResponseBase64 ← field fs "response_base64" dec_string ""%string;
        Some (mkinteractionResponseCourier v_InteractionID v_PermitBase64 v_ResponseBase64)
    | _ => None end;
  storable x :=
    utf8_valid (cr_InteractionID x) && utf8_valid (cr_PermitBase64 x) && utf8_valid (cr_ResponseBase64 x);
}.

#[global] Instance interactionResponseCourier_laws : GoJSONLaws interactionResponseCourier 1.
Proof. struct_laws. Qed.

(** ** Requests *)

Definition eventText (value : string) (limit : Z) : bool := InteractionPermit.responseText value limit.
Definition canonicalInteractionTime (value : string) : option Z := canonicalTime value.

Definition validate (input : InteractionInput) (now : Z) : result unit :=
  let options := default [] (n_Options input) in
  require String.eqb (n_SchemaVersion input) InteractionProtocol.InteractionRequestSchemaV1 && routeID (n_IdempotencyKey input)
    && is_in (n_Kind input) ["question"; "decision"]%string && eventText (n_Title input) 128 && eventText (n_Prompt input) 4096 && (zlen options <=? maxInteractionOptions)
    && (String.eqb (n_TaskID input) "" || eventText (n_TaskID input) 256) && (String.eqb (n_RunID input) "" || eventText (n_RunID input) 256)
    else "interaction fields are invalid" in
  require negb (String.eqb (n_Kind input) "decision" && (zlen options <? 2)) && negb ((zlen options =? 0) && negb (n_AllowText input))
    else "interaction has no bounded response path" in
  let* _ := InteractionProtocol.distinct_options [] options in
  require String.eqb (n_ObservedAt input) "" || match canonicalInteractionTime (n_ObservedAt input) with Some observed => observed <=? now + 5 * minute | None => false end
    else "interaction observed_at is invalid" in
  let* expires := opt_ok (canonicalInteractionTime (n_ExpiresAt input)) "interaction expires_at is invalid" in
  require (now <? expires) && (expires <=? now + maxInteractionWait) else "interaction expires_at is invalid" in
  Ok tt.

Definition interactionID (grantID idempotencyKey : string) : string := InteractionProtocol.interactionRequestID grantID idempotencyKey.
Definition validInteractionID (value : string) : bool := InteractionProtocol.interactionID value.

(** [append([]string(nil), values...)]: nil when there is nothing to copy. *)
Definition append_nil (values : option (list string)) : option (list string) := match values with Some (v :: l) => Some (v :: l) | _ => None end.

(** The question as the digest sees it. *)
Definition request_of (value : Interaction) : InteractionProtocol.InteractionRequestV1 :=
  InteractionProtocol.mkInteractionRequestV1 (x_SchemaVersion value) (x_InteractionID value) "" "" (x_TenantID value) (x_NodeID value) (x_InstanceID value) (x_Generation value)
    (x_RuntimeRef value) (x_GrantID value) (x_CapsuleDigest value) (x_PolicyDigest value) (x_Kind value) (x_Title value) (x_Prompt value) (append_nil (x_Options value))
    (x_AllowText value) (x_TaskID value) (x_RunID value) (x_ObservedAt value) (x_AcceptedAt value) (x_ExpiresAt value) "".
Definition interactionRequestDigest (value : Interaction) : string := InteractionProtocol.InteractionRequestDigest (request_of value).

Definition interactionInputMatches (existing : Interaction) (input : InteractionInput) : bool :=
  String.eqb (x_IdempotencyKey existing) (n_IdempotencyKey input) && String.eqb (x_Kind existing) (n_Kind input) && String.eqb (x_Title existing) (n_Title input)
  && String.eqb (x_Prompt existing) (n_Prompt input) && bool_decide (default [] (x_Options existing) = default [] (n_Options input))
  && Bool.eqb (x_AllowText existing) (n_AllowText input) && String.eqb (x_TaskID existing) (n_TaskID input) && String.eqb (x_RunID existing) (n_RunID input)
  && (String.eqb (n_ObservedAt input) "" || String.eqb (x_ObservedAt existing) (n_ObservedAt input)) && String.eqb (x_ExpiresAt existing) (n_ExpiresAt input).

(** ** The store *)

Record Store := mkStore { memory : list Interaction; disk : list Interaction }.

(** The state file is replaced by a rename; an error after it leaves the new file in place. *)
Inductive Outcome := Persisted | NotWritten | WrittenUnconfirmed.

Definition persistLocked (st : Store) (outcome : Outcome) : Store * bool :=
  match outcome with
  | Persisted => (mkStore (memory st) (memory st), true)
  | NotWritten => (st, false)
  | WrittenUnconfirmed => (mkStore (memory st) (memory st), false)
  end.

Record Reply := mkReply { status : Z; code : string; body : list Interaction }.
Definition writeGatewayError (status : Z) (code : string) : Reply := mkReply status code [].

(** [http.MaxBytesReader] and [io.ReadAll]. *)
Definition read_all (limit : Z) (raw : bytes) : option bytes := if zlen raw <=? limit then Some raw else None.

(** ** Opening a question *)

Definition tenantCount (tenantID : string) (values : list Interaction) : Z := zlen (List.filter (fun x => String.eqb (x_TenantID x) tenantID) values).
Definition grantCount (grantID : string) (values : list Interaction) : Z := zlen (List.filter (fun x => String.eqb (x_GrantID x) grantID) values).

Definition new_interaction (grant : Grant) (id : string) (input : InteractionInput) (now : Z) : Interaction :=
  let observedAt := if String.eqb (n_ObservedAt input) "" then format_seconds now else n_ObservedAt input in
  let draft digest := mkInteraction InteractionProtocol.InteractionRequestSchemaV1 id (n_IdempotencyKey input) "agent" (g_TenantID grant) (g_NodeID grant) (g_InstanceID grant)
    (g_Generation grant) (g_RuntimeRef grant) (g_GrantID grant) (g_CapsuleDigest grant) (g_PolicyDigest grant) (n_Kind input) (n_Title input) (n_Prompt input)
    (append_nil (n_Options input)) (n_AllowText input) (n_TaskID input) (n_RunID input) observedAt (format_rfc3339nano now) (n_ExpiresAt input) digest "open" false None in
  draft (interactionRequestDigest (draft ""%string)).

Definition open_interaction (st : Store) (grant : Grant) (grantID : string) (input : InteractionInput) (now : Z) (outcome : Outcome) : Store * Reply :=
  let id := interactionID grantID (n_IdempotencyKey input) in
  match List.find (fun existing => String.eqb (x_InteractionID existing) id) (memory st) with
  | Some existing =>
      if interactionInputMatches existing input then (st, mkReply 202 "" [existing]) else (st, writeGatewayError 409 "interaction_conflict")
  | None =>
      if (maxInteractions <=? zlen (memory st)) || (maxInteractionsTenant <=? tenantCount (g_TenantID grant) (memory st)) || (maxInteractionsGrant <=? grantCount grantID (memory st))
      then (st, writeGatewayError 429 "interaction_queue_full") else
      let interaction := new_interaction grant id input now in
      let '(written, ok) := persistLocked (mkStore (memory st ++ [interaction]) (disk st)) outcome in
      if ok then (written, mkReply 202 "" [interaction]) else (mkStore (memory st) (disk written), writeGatewayError 503 "interaction_state_unavailable")
  end.

Definition createInteraction (st : Store) (grants : gmap string Grant) (grantID query : string) (raw : bytes) (now : Z) (outcome : Outcome) : Store * Reply :=
  if negb (String.eqb query "") then (st, writeGatewayError 400 "invalid_interaction") else
  match read_all maxInteractionRequestBytes raw with
  | None => (st, writeGatewayError 413 "interaction_too_large")
  | Some raw =>
      match DecodeStrictInto (A := InteractionInput) raw maxInteractionRequestBytes with
      | Err _ => (st, writeGatewayError 400 "invalid_interaction")
      | Ok input =>
          match validate input now with
          | Err _ => (st, writeGatewayError 400 "invalid_interaction")
          | Ok _ =>
              match grants !! grantID with
              | Some grant =>
                  if g_Active grant && g_ControllerEvents grant && negb (zlen (g_TaskAuthorities grant) =? 0) then open_interaction st grant grantID input now outcome
                  else (st, writeGatewayError 503 "interaction_grant_inactive")
              | None => (st, writeGatewayError 503 "interaction_grant_inactive")
              end
          end
      end
  end.

(** ** Reading *)

Definition with_state (state : string) (x : Interaction) : Interaction :=
  mkInteraction (x_SchemaVersion x) (x_InteractionID x) (x_IdempotencyKey x) (x_Source x) (x_TenantID x) (x_NodeID x) (x_InstanceID x) (x_Generation x) (x_RuntimeRef x)
    (x_GrantID x) (x_CapsuleDigest x) (x_PolicyDigest x) (x_Kind x) (x_Title x) (x_Prompt x) (x_Options x) (x_AllowText x) (x_TaskID x) (x_RunID x) (x_ObservedAt x)
    (x_AcceptedAt x) (x_ExpiresAt x) (x_RequestDigest x) state (x_ControllerAccepted x) (x_Response x).

Definition effectiveInteraction (value : Interaction) (now : Z) : Interaction :=
  match canonicalInteractionTime (x_ExpiresAt value) with
  | Some expires => if String.eqb (x_State value) "open" && (expires <=? now) then with_state "expired" value else value
  | None => value
  end.

(** [now i] is the clock when the [i]-th value of the list is shown. *)
Definition listGrantInteractions (st : Store) (grantID query : string) (now : nat -> Z) : Reply :=
  if negb (String.eqb query "") then writeGatewayError 400 "invalid_request"
  else mkReply 200 "" (imap (fun i x => effectiveInteraction x (now i)) (List.filter (fun x => String.eqb (x_GrantID x) grantID) (memory st))).

Definition getGrantInteraction (st : Store) (grantID query path : string) (now : Z) : Reply :=
  if negb (String.eqb query "") then writeGatewayError 400 "invalid_request" else
  let id := trim_prefix path "/v1/interactions/" in
  if negb (validInteractionID id) then writeGatewayError 404 "interaction_not_found" else
  match List.find (fun x => String.eqb (x_InteractionID x) id && String.eqb (x_GrantID x) grantID) (memory st) with
  | Some x => mkReply 200 "" [effectiveInteraction x now]
  | None => writeGatewayError 404 "interaction_not_found"
  end.

Definition interactionGrantHandler (st : Store) (grants : gmap string Grant) (grantID method path query : string) (raw : bytes) (now : nat -> Z) (outcome : Outcome) : Store * Reply :=
  if String.eqb method "POST" && String.eqb path "/v1/interactions" then createInteraction st grants grantID query raw (now 0%nat) outcome
  else if String.eqb method "GET" && String.eqb path "/v1/interactions" then (st, listGrantInteractions st grantID query now)
  else if String.eqb method "GET" && has_prefix path "/v1/interactions/" then (st, getGrantInteraction st grantID query path (now 0%nat))
  else (st, writeGatewayError 404 "interaction_route_not_found").

(** ** The outbox *)

Definition listInteractionOutbox (st : Store) (query : string) : Reply :=
  if negb (String.eqb query "") then writeGatewayError 400 "invalid_request" else mkReply 200 "" (List.filter (fun x => negb (x_ControllerAccepted x)) (memory st)).

Definition accept (x : Interaction) : Interaction :=
  mkInteraction (x_SchemaVersion x) (x_InteractionID x) (x_IdempotencyKey x) (x_Source x) (x_TenantID x) (x_NodeID x) (x_InstanceID x) (x_Generation x) (x_RuntimeRef x)
    (x_GrantID x) (x_CapsuleDigest x) (x_PolicyDigest x) (x_Kind x) (x_Title x) (x_Prompt x) (x_Options x) (x_AllowText x) (x_TaskID x) (x_RunID x) (x_ObservedAt x)
    (x_AcceptedAt x) (x_ExpiresAt x) (x_RequestDigest x) (x_State x) true (x_Response x).

(** Valid identifiers, none twice. *)
Fixpoint wanted_ids (seen ids : list string) : bool :=
  match ids with [] => true | id :: rest => validInteractionID id && negb (is_in id seen) && wanted_ids (id :: seen) rest end.

Definition ackInteractionOutbox (st : Store) (raw : bytes) (outcome : Outcome) : Store * Reply :=
  match read_all maxInteractionCourierBytes raw with
  | None => (st, writeGatewayError 413 "invalid_request")
  | Some raw =>
      match DecodeStrictInto (A := interactionAck) raw maxInteractionCourierBytes with
      | Err _ => (st, writeGatewayError 400 "invalid_request")
      | Ok input =>
          let ids := default [] (ak_InteractionIDs input) in
          if (zlen ids =? 0) || (maxInteractions <? zlen ids) || negb (wanted_ids [] ids) then (st, writeGatewayError 400 "invalid_request") else
          let '(written, ok) := persistLocked (mkStore ((fun x => if is_in (x_InteractionID x) ids then accept x else x) <$> memory st) (disk st)) outcome in
          if ok then (written, mkReply 204 "" []) else (mkStore (memory st) (disk written), writeGatewayError 503 "interaction_state_unavailable")
      end
  end.

(** ** Answers *)

Definition interactionPermitMatches (verified : InteractionPermit.Verified) (x : Interaction) (response : bytes) : bool :=
  let s := InteractionPermit.v_Statement verified in
  String.eqb (InteractionPermit.s_NodeID s) (x_NodeID x) && String.eqb (InteractionPermit.s_TenantID s) (x_TenantID x) && String.eqb (InteractionPermit.s_InstanceID s) (x_InstanceID x)
  && String.eqb (InteractionPermit.s_RuntimeRef s) (x_RuntimeRef x) && String.eqb (InteractionPermit.s_GrantID s) (x_GrantID x) && (InteractionPermit.s_Generation s =? x_Generation x)
  && String.eqb (InteractionPermit.s_CapsuleDigest s) (x_CapsuleDigest x) && String.eqb (InteractionPermit.s_PolicyDigest s) (x_PolicyDigest x)
  && String.eqb (InteractionPermit.s_InteractionID s) (x_InteractionID x) && String.eqb (InteractionPermit.s_RequestDigest s) (x_RequestDigest x)
  && String.eqb (InteractionPermit.s_ResponseDigest s) (InteractionPermit.ResponseDigest response) && (InteractionPermit.s_ResponseBytes s =? zlen response).

Definition resolve (answer : InteractionResponse) (x : Interaction) : Interaction :=
  mkInteraction (x_SchemaVersion x) (x_InteractionID x) (x_IdempotencyKey x) (x_Source x) (x_TenantID x) (x_NodeID x) (x_InstanceID x) (x_Generation x) (x_RuntimeRef x)
    (x_GrantID x) (x_CapsuleDigest x) (x_PolicyDigest x) (x_Kind x) (x_Title x) (x_Prompt x) (x_Options x) (x_AllowText x) (x_TaskID x) (x_RunID x) (x_ObservedAt x)
    (x_AcceptedAt x) (x_ExpiresAt x) (x_RequestDigest x) "resolved" (x_ControllerAccepted x) (Some answer).

(** Base64 in its one spelling. *)
Definition canonical_b64 (value : string) : option bytes := decoded ← b64_decode_string value; if String.eqb (b64_encode_string decoded) value then Some decoded else None.

(** The tests under the lock; the handler reads the clock for the expiry, for the permit and for the stamp. *)
Definition answer_interaction (verify : bytes -> bytes -> bytes -> bool) (st : Store) (grants : gmap string Grant) (id : string) (permitRaw responseRaw : bytes)
    (answer : InteractionPermit.ResponseBody) (now1 now2 now3 : Z) (outcome : Outcome) : Store * Reply :=
  match list_find (fun x => x_InteractionID x = id) (memory st) with
  | None => (st, writeGatewayError 404 "interaction_not_found")
  | Some (index, x) =>
      match InteractionPermit.Validate answer (default [] (x_Options x)) (x_AllowText x), x_Response x with
      | Err _, _ => (st, writeGatewayError 400 "invalid_interaction_response")
      | Ok _, Some given =>
          if String.eqb (a_PermitDigest given) (Dsse.Digest permitRaw) && String.eqb (a_ResponseDigest given) (InteractionPermit.ResponseDigest responseRaw)
          then (st, mkReply 200 "" [x]) else (st, writeGatewayError 409 "interaction_already_resolved")
      | Ok _, None =>
          if default 0 (canonicalInteractionTime (x_ExpiresAt x)) <=? now1 then (st, writeGatewayError 409 "interaction_expired") else
          match grants !! x_GrantID x with
          | None => (st, writeGatewayError 503 "interaction_grant_inactive")
          | Some grant =>
              if negb (g_Active grant && negb (zlen (g_TaskAuthorities grant) =? 0)) then (st, writeGatewayError 503 "interaction_grant_inactive") else
              match taskAuthorityKeys (g_TaskAuthorities grant) with
              | Err _ => (st, writeGatewayError 503 "interaction_authority_unavailable")
              | Ok trusted =>
                  match InteractionPermit.Verify verify permitRaw trusted now2 InteractionPermit.MaxValidity with
                  | Err _ => (st, writeGatewayError 403 "interaction_response_denied")
                  | Ok verified =>
                      if negb (interactionPermitMatches verified x responseRaw) then (st, writeGatewayError 403 "interaction_response_denied") else
                      let response := mkInteractionResponse answer (InteractionPermit.v_KeyID verified) (InteractionPermit.v_EnvelopeDigest verified)
                        (InteractionPermit.s_ResponseDigest (InteractionPermit.v_Statement verified)) (format_rfc3339nano now3) in
                      let '(written, ok) := persistLocked (mkStore (<[index := resolve response x]> (memory st)) (disk st)) outcome in
                      if ok then (written, mkReply 200 "" [resolve response x]) else (mkStore (memory st) (disk written), writeGatewayError 503 "interaction_state_unavailable")
                  end
              end
          end
      end
  end.

Definition resolveInteraction (verify : bytes -> bytes -> bytes -> bool) (st : Store) (grants : gmap string Grant) (raw : bytes) (now1 now2 now3 : Z) (outcome : Outcome) : Store * Reply :=
  match read_all maxInteractionCourierBytes raw with
  | None => (st, writeGatewayError 413 "invalid_request")
  | Some raw =>
      match DecodeStrictInto (A := interactionResponseCourier) raw maxInteractionCourierBytes with
      | Err _ => (st, writeGatewayError 400 "invalid_request")
      | Ok courier =>
          if negb (validInteractionID (cr_InteractionID courier)) then (st, writeGatewayError 400 "invalid_request") else
          match canonical_b64 (cr_PermitBase64 courier), canonical_b64 (cr_ResponseBase64 courier) with
          | Some permitRaw, Some responseRaw =>
              if (zlen responseRaw =? 0) || (InteractionPermit.MaxResponseBytes <? zlen responseRaw) then (st, writeGatewayError 400 "invalid_request") else
              match DecodeStrictInto (A := InteractionPermit.ResponseBody) responseRaw InteractionPermit.MaxResponseBytes with
              | Err _ => (st, writeGatewayError 400 "invalid_interaction_response")
              | Ok answer => answer_interaction verify st grants (cr_InteractionID courier) permitRaw responseRaw answer now1 now2 now3 outcome
              end
          | _, _ => (st, writeGatewayError 400 "invalid_request")
          end
      end
  end.

Definition interactionCourier (interactionID : string) (permit response : bytes) : interactionResponseCourier :=
  mkinteractionResponseCourier interactionID (b64_encode_string permit) (b64_encode_string response).

(** ** Restart *)

Definition input_of (x : Interaction) : InteractionInput :=
  mkInteractionInput (x_SchemaVersion x) (x_IdempotencyKey x) (x_Kind x) (x_Title x) (x_Prompt x) (x_Options x) (x_AllowText x) (x_TaskID x) (x_RunID x) (x_ObservedAt x) (x_ExpiresAt x).

(** The tests of one retained question by itself. *)
Definition retained_binding (x : Interaction) : bool :=
  String.eqb (x_SchemaVersion x) InteractionProtocol.InteractionRequestSchemaV1 && validInteractionID (x_InteractionID x)
  && String.eqb (x_InteractionID x) (interactionID (x_GrantID x) (x_IdempotencyKey x)) && String.eqb (x_Source x) "agent" && bounded (x_TenantID x) 128
  && bounded (x_NodeID x) 128 && bounded (x_InstanceID x) 256 && negb (x_Generation x =? 0) && validExecutorRuntimeRef (x_RuntimeRef x) && validGrantID (x_GrantID x)
  && validSHA256Digest (x_CapsuleDigest x) && validSHA256Digest (x_PolicyDigest x) && is_in (x_State x) ["open"; "resolved"]%string
  && String.eqb (x_RequestDigest x) (interactionRequestDigest x).
Definition retained_request (x : Interaction) : bool :=
  match own_zone_time (x_AcceptedAt x) with Some accepted => match validate (input_of x) accepted with Ok _ => true | Err _ => false end | None => false end.
Definition retained_answer (x : Interaction) : bool :=
  if String.eqb (x_State x) "resolved" then
    match x_Response x with
    | Some answer =>
        match InteractionPermit.Validate (a_Body answer) (default [] (x_Options x)) (x_AllowText x) with Ok _ => true | Err _ => false end
        && validSHA256Digest (a_PermitDigest answer) && validSHA256Digest (a_ResponseDigest answer) && routeID (a_KeyID answer) && parses_rfc3339nano (a_ResolvedAt answer)
    | None => false
    end
  else match x_Response x with Some _ => false | None => true end.

Definition bump (k : string) (counts : gmap string Z) : gmap string Z := <[k := default 0 (counts !! k) + 1]> counts.

Fixpoint validate_retained (ids : list string) (tenantCounts grantCounts : gmap string Z) (values : list Interaction) : result unit :=
  match values with
  | [] => Ok tt
  | x :: rest =>
      require retained_binding x else "gateway state contains an invalid interaction binding" in
      require retained_request x else "gateway state contains an invalid interaction" in
      require retained_answer x else "gateway state contains an invalid interaction response" in
      require negb (is_in (x_InteractionID x) ids) else "gateway state contains duplicate interactions" in
      let tenantCounts := bump (x_TenantID x) tenantCounts in
      let grantCounts := bump (x_GrantID x) grantCounts in
      require (default 0 (tenantCounts !! x_TenantID x) <=? maxInteractionsTenant) && (default 0 (grantCounts !! x_GrantID x) <=? maxInteractionsGrant)
        else "gateway state interaction quota is exceeded" in
      validate_retained (x_InteractionID x :: ids) tenantCounts grantCounts rest
  end.
Definition validateRetainedInteractions (values : list Interaction) : result unit :=
  require zlen values <=? maxInteractions else "gateway state contains too many interactions" in validate_retained [] ∅ ∅ values.

(** A restarted gateway loads its state file or refuses to start. *)
Definition loadExisting (st : Store) : result Store :=
  let* _ := validateRetainedInteractions (disk st) in Ok (mkStore (disk st) (disk st)).

End Interactions.
