(* ===== verification/InteractionSafety.v ===== *)
(** * Agent questions: durability and authority

    Theorems on [Interactions]: whatever requests arrive and however writing the state file fails, the state file loads again, an accepted question is kept, and an answer
    an agent can see is the one that its tenant signed for exactly that question. *)

From Stdlib Require Import Ascii.
From S2P Require Import Prelude GoText GoTime GoFS FenceStore GoJson GoCrypto Strict Dsse GoRune GoNet Admission ConnectorEvent ConnectorReceipt Permit TaskPermit InteractionPermit InteractionProtocol GoZone GatewayGrant Interactions.
Import Permit GatewayGrant Interactions.

(** A lemma depends on the section hypotheses its proof uses. *)
Unset Default Proof Using.

Module InteractionSafety.

(** ** What the state file must satisfy *)

Definition ok (x : Interaction) : Prop := retained_binding x = true /\ retained_request x = true /\ retained_answer x = true.
Definition ids (l : list Interaction) : list string := x_InteractionID <$> l.

Record retained (l : list Interaction) : Prop := {
  rt_size : zlen l <= maxInteractions;
  rt_each : Forall ok l;
  rt_ids : NoDup (ids l);
  rt_tenants : forall t, tenantCount t l <= maxInteractionsTenant;
  rt_grants : forall g, grantCount g l <= maxInteractionsGrant;
}.

Lemma count_cons {A} (p : A -> bool) x l : zlen (List.filter p (x :: l)) = (if p x then 1 else 0) + zlen (List.filter p l).
Proof. cbn [List.filter]. destruct (p x); [rewrite zlen_cons|]; lia. Qed.
Lemma tenant_cons t x l : tenantCount t (x :: l) = (if String.eqb (x_TenantID x) t then 1 else 0) + tenantCount t l.
Proof. exact (count_cons (fun y => String.eqb (x_TenantID y) t) x l). Qed.
Lemma grant_cons g x l : grantCount g (x :: l) = (if String.eqb (x_GrantID x) g then 1 else 0) + grantCount g l.
Proof. exact (count_cons (fun y => String.eqb (x_GrantID y) g) x l). Qed.
Lemma counts_nonneg t l : 0 <= tenantCount t l /\ 0 <= grantCount t l.
Proof. split; apply zlen_nonneg. Qed.

Lemma bump_lookup k j m : default 0 (bump k m !! j) = default 0 (m !! j) + (if String.eqb k j then 1 else 0).
Proof. unfold bump. destruct (String.eqb_spec k j) as [<-|]; [by rewrite lookup_insert_eq | rewrite lookup_insert_ne by done; lia]. Qed.

Lemma validate_retained_ok l : forall seen tc gc, Forall ok l -> NoDup (ids l) -> (forall i, i ∈ ids l -> i ∉ seen) ->
  (forall t, default 0 (tc !! t) + tenantCount t l <= maxInteractionsTenant) -> (forall g, default 0 (gc !! g) + grantCount g l <= maxInteractionsGrant) ->
  validate_retained seen tc gc l = Ok tt.
Proof.
  induction l as [|x l IH]; intros seen tc gc Hok Hnd Hs Ht Hg; [done|]. apply Forall_cons in Hok as [(Hb & Hr & Ha) Hok]. apply NoDup_cons in Hnd as [Hx Hnd].
  cbn [validate_retained]. rewrite Hb, Hr, Ha, (proj2 (is_in_false _ _)) by (apply Hs; left). cbn [negb].
  assert (Ht' : forall t, default 0 (bump (x_TenantID x) tc !! t) + tenantCount t l <= maxInteractionsTenant).
  { intros t. specialize (Ht t). rewrite tenant_cons in Ht. rewrite bump_lookup. lia. }
  assert (Hg' : forall g, default 0 (bump (x_GrantID x) gc !! g) + grantCount g l <= maxInteractionsGrant).
  { intros g. specialize (Hg g). rewrite grant_cons in Hg. rewrite bump_lookup. lia. }
  destruct (counts_nonneg (x_TenantID x) l) as [H1 _]. destruct (counts_nonneg (x_GrantID x) l) as [_ H2].
  rewrite (proj2 (Z.leb_le (default 0 (bump (x_TenantID x) tc !! _)) _)), (proj2 (Z.leb_le (default 0 (bump (x_GrantID x) gc !! _)) _))
    by (specialize (Ht' (x_TenantID x)); specialize (Hg' (x_GrantID x)); lia).
  apply IH; try done. intros i Hi. rewrite elem_of_cons. intros [-> | Hseen]; [done|]. by apply (Hs i); [right|].
Qed.

Lemma retained_loads l : retained l -> validateRetainedInteractions l = Ok tt.
Proof.
  intros [Hs He Hi Ht Hg]. unfold validateRetainedInteractions. rewrite (proj2 (Z.leb_le _ _) Hs). apply validate_retained_ok; try done. intros i _. apply not_elem_of_nil.
Qed.

Lemma retained_nil : retained [].
Proof. split; try done. constructor. Qed.

(** A change of single entries that keeps what the tests compare across entries. *)
Definition same_key (x y : Interaction) : Prop := x_InteractionID y = x_InteractionID x /\ x_TenantID y = x_TenantID x /\ x_GrantID y = x_GrantID x.
Lemma retained_update l l' : retained l -> Forall2 (fun x y => same_key x y /\ ok y) l l' -> retained l'.
Proof.
  intros [Hs _ Hi Ht Hg] H. assert (Hids : ids l' = ids l). { clear - H. induction H as [|x y l l' [(E & _) _] _ IH]; [done|]. unfold ids in *. rewrite !fmap_cons. by rewrite E, IH. }
  assert (Hlen : zlen l' = zlen l) by (unfold zlen; by rewrite (Forall2_length _ _ _ H)).
  assert (Hc : forall t, tenantCount t l' = tenantCount t l /\ grantCount t l' = grantCount t l).
  { intros t. clear - H. induction H as [|x y l l' [(_ & E1 & E2) _] _ [IH1 IH2]]; [done|]. by rewrite !tenant_cons, !grant_cons, E1, E2, IH1, IH2. }
  split; [lia | | by rewrite Hids | intros t; destruct (Hc t); specialize (Ht t); lia | intros t; destruct (Hc t); specialize (Hg t); lia].
  clear - H. induction H as [|x y l l' [_ Hy] _ IH]; by constructor.
Qed.

Lemma retained_snoc l x : retained l -> ok x -> x_InteractionID x ∉ ids l -> zlen l < maxInteractions -> tenantCount (x_TenantID x) l < maxInteractionsTenant ->
  grantCount (x_GrantID x) l < maxInteractionsGrant -> retained (l ++ [x]).
Proof.
  intros [Hs He Hi Ht Hg] Hok Hx Hz Htc Hgc. split.
  - rewrite zlen_app. change (zlen [x]) with 1. lia.
  - apply Forall_app. split; [done | by constructor].
  - unfold ids. rewrite fmap_app. apply NoDup_app. split_and!; [done | intros i Hin Hl; apply list_elem_of_singleton in Hl as ->; by apply Hx | apply NoDup_singleton].
  - intros t. unfold tenantCount in *. rewrite List.filter_app, zlen_app. cbn [List.filter]. destruct (String.eqb_spec (x_TenantID x) t) as [<-|];
      [change (zlen [x]) with 1; lia | change (zlen (@nil Interaction)) with 0; specialize (Ht t); lia].
  - intros g. unfold grantCount in *. rewrite List.filter_app, zlen_app. cbn [List.filter]. destruct (String.eqb_spec (x_GrantID x) g) as [<-|];
      [change (zlen [x]) with 1; lia | change (zlen (@nil Interaction)) with 0; specialize (Hg g); lia].
Qed.

(** ** Entries that pass *)

Lemma prefixed_hash prefix m : InteractionProtocol.prefixedDigest (prefix +:+ string_of (hex_encode (Sha256.sum m))) prefix = true.
Proof.
  destruct (hex_encode_lower (Sha256.sum m)) as [H1 H2]. unfold InteractionProtocol.prefixedDigest. rewrite has_prefix_app, slen_app.
  assert (trim_prefix (prefix +:+ string_of (hex_encode (Sha256.sum m))) prefix = string_of (hex_encode (Sha256.sum m))) as ->.
  { unfold trim_prefix. rewrite has_prefix_app. induction prefix as [|c p IH]; [by destruct (string_of _)|]. exact IH. }
  assert (slen (string_of (hex_encode (Sha256.sum m))) = 64) as -> by (rewrite <- zlen_bytes_of, bytes_of_string_of; unfold zlen; rewrite H2, Sha256.length_sum; done).
  rewrite Z.eqb_refl. cbn [andb]. unfold all_bytes. rewrite bytes_of_string_of. apply forallb_forall. intros c Hc. rewrite forallb_forall in H1. unfold hex_byte. by rewrite H1.
Qed.

(** The instants the clock shows: years of four digits, at least a second after the zero time. *)
Definition clock_ok (now : Z) : Prop := four_digit_year now /\ second <= now.

Lemma whole_second t : clock_ok t -> canonicalTime (format_seconds t) = Some (t - t mod second).
Proof.
  intros [Hy Hs]. pose proof (Z.mod_pos_bound t second ltac:(reflexivity)) as Hm.
  assert (Hf : format_seconds t = format_seconds (t - t mod second)).
  { unfold format_seconds. rewrite Zminus_mod_idemp_r, Z.sub_diag, Z.mod_0_l, Z.sub_0_r by done. done. }
  rewrite Hf. apply canonicalTime_format.
  - unfold four_digit_year in *. replace ((t - t mod second) / day) with (t / day); [done|]. unfold day, hour, minute in *. change second with 1000000000 in *. Z.to_euclidean_division_equations. lia.
  - change second with 1000000000 in *. lia.
  - rewrite Zminus_mod_idemp_r, Z.sub_diag. done.
Qed.

Lemma append_nil_items o : default [] (append_nil o) = default [] o.
Proof. by destruct o as [[|? ?]|]. Qed.

Lemma validate_stamped input now : validate input now = Ok tt -> clock_ok now ->
  validate (mkInteractionInput InteractionProtocol.InteractionRequestSchemaV1 (n_IdempotencyKey input) (n_Kind input) (n_Title input) (n_Prompt input) (append_nil (n_Options input))
    (n_AllowText input) (n_TaskID input) (n_RunID input) (if String.eqb (n_ObservedAt input) "" then format_seconds now else n_ObservedAt input) (n_ExpiresAt input)) now = Ok tt.
Proof.
  intros Hv Hcl. destruct input as [sc key kind title prompt options allow task run observed expires]. unfold validate in *.
  cbn [n_SchemaVersion n_IdempotencyKey n_Kind n_Title n_Prompt n_Options n_AllowText n_TaskID n_RunID n_ObservedAt n_ExpiresAt] in *. rewrite append_nil_items.
  step Hv. destruct (String.eqb_spec sc InteractionProtocol.InteractionRequestSchemaV1) as [->|]; [|done]. rewrite String.eqb_refl, E.
  destruct (negb _ && negb _); [|done]. destruct (InteractionProtocol.distinct_options _ _); [|done].
  destruct (String.eqb_spec observed "") as [->|Hne]; cbn [orb] in *; [|by rewrite (proj2 (String.eqb_neq _ _) Hne)].
  unfold canonicalInteractionTime in *. rewrite whole_second by done. pose proof (Z.mod_pos_bound now second ltac:(reflexivity)).
  rewrite (proj2 (Z.leb_le (now - now mod second) _)) by (unfold minute; change second with 1000000000 in *; lia). by rewrite orb_true_r.
Qed.

(** A question that was just opened passes the tests of the state file. *)
Lemma new_ok grant input now : bound grant -> validate input now = Ok tt -> clock_ok now -> ok (new_interaction grant (interactionID (g_GrantID grant) (n_IdempotencyKey input)) input now).
Proof.
  intros [Hg Ht Hi Hge Hn (Hr & Hc & Hp)] Hv Hcl. pose proof Hcl as [Hy Hs]. split_and!; [| |done].
  - unfold retained_binding, new_interaction. cbn [x_SchemaVersion x_InteractionID x_GrantID x_IdempotencyKey x_Source x_TenantID x_NodeID x_InstanceID x_Generation x_RuntimeRef
      x_CapsuleDigest x_PolicyDigest x_State x_RequestDigest].
    rewrite !String.eqb_refl, Hg, Ht, Hi, Hn, Hr, Hc, Hp, (proj2 (Z.eqb_neq _ _) Hge). unfold validInteractionID, interactionID, InteractionProtocol.interactionID, InteractionProtocol.interactionRequestID.
    rewrite prefixed_hash. reflexivity.
  - unfold retained_request. cbn [new_interaction x_AcceptedAt]. rewrite own_zone_format by done. unfold input_of, new_interaction.
    cbn [x_SchemaVersion x_IdempotencyKey x_Kind x_Title x_Prompt x_Options x_AllowText x_TaskID x_RunID x_ObservedAt x_ExpiresAt]. by rewrite validate_stamped.
Qed.

Lemma accept_ok x : ok x -> ok (accept x).
Proof. done. Qed.

(** The answer that the handler attaches passes them too. *)
Definition answer_ok (x : Interaction) (a : InteractionResponse) : Prop :=
  InteractionPermit.Validate (a_Body a) (default [] (x_Options x)) (x_AllowText x) = Ok tt /\ validSHA256Digest (a_PermitDigest a) = true /\
  validSHA256Digest (a_ResponseDigest a) = true /\ routeID (a_KeyID a) = true /\ parses_rfc3339nano (a_ResolvedAt a) = true.

Lemma resolve_ok x a : ok x -> answer_ok x a -> ok (resolve a x).
Proof.
  intros (Hb & Hr & _) (H1 & H2 & H3 & H4 & H5). split_and!; [| exact Hr |].
  - revert Hb. unfold retained_binding. cbn [resolve x_SchemaVersion x_InteractionID x_GrantID x_IdempotencyKey x_Source x_TenantID x_NodeID x_InstanceID x_Generation x_RuntimeRef
      x_CapsuleDigest x_PolicyDigest x_State x_RequestDigest]. change (interactionRequestDigest (resolve a x)) with (interactionRequestDigest x).
    rewrite !andb_true_iff. intros H. repeat match type of H with _ /\ _ => destruct H as [H ?] end. split_and!; done.
  - unfold retained_answer. cbn [resolve x_State x_Response x_Options x_AllowText]. by rewrite String.eqb_refl, H1, H2, H3, H4, H5.
Qed.

(** ** The invariant *)

(** A question without what handlers change later. *)
Definition question (x : Interaction) : Interaction :=
  mkInteraction (x_SchemaVersion x) (x_InteractionID x) (x_IdempotencyKey x) (x_Source x) (x_TenantID x) (x_NodeID x) (x_InstanceID x) (x_Generation x) (x_RuntimeRef x)
    (x_GrantID x) (x_CapsuleDigest x) (x_PolicyDigest x) (x_Kind x) (x_Title x) (x_Prompt x) (x_Options x) (x_AllowText x) (x_TaskID x) (x_RunID x) (x_ObservedAt x)
    (x_AcceptedAt x) (x_ExpiresAt x) (x_RequestDigest x) "" false None.

(** [y] is [x] later: the same question, with the same answer if [x] has one. *)
Definition later (x y : Interaction) : Prop := question y = question x /\ forall a, x_Response x = Some a -> x_Response y = Some a.
Definition kept (l l' : list Interaction) : Prop := forall x, x ∈ l -> exists y, y ∈ l' /\ later x y.

Lemma kept_refl l : kept l l.
Proof. intros x Hx. exists x. by split. Qed.
Lemma kept_trans l k m : kept l k -> kept k m -> kept l m.
Proof. intros H1 H2 x Hx. destruct (H1 x Hx) as (y & Hy & E1 & R1). destruct (H2 y Hy) as (z & Hz & E2 & R2). exists z. split; [done|]. split; [congruence | auto]. Qed.
Lemma kept_app l k : kept l (l ++ k).
Proof. intros x Hx. exists x. split; [apply elem_of_app; by left | done]. Qed.
Lemma kept_pointwise l l' : Forall2 later l l' -> kept l l'.
Proof. intros H x Hx. apply list_elem_of_lookup in Hx as [i Hi]. destruct (Forall2_lookup_l _ _ _ _ _ H Hi) as (y & Hy & Hl). exists y. split; [by eapply list_elem_of_lookup_2 | done]. Qed.

Section authority.
Context (verify : bytes -> bytes -> bytes -> bool) (admitted : Grant -> Prop).

(** The answer [a] to the question [q] was signed by an authority of an admitted grant of the workload that asked. *)
Record answered (q : Interaction) (a : InteractionResponse) (grant : Grant) (permit response : bytes) : Prop := {
  an_grant : admitted grant /\ g_GrantID grant = x_GrantID q;
  an_permit : exists trusted now verified payload signature, taskAuthorityKeys (g_TaskAuthorities grant) = Ok trusted /\
    InteractionPermit.granted verify permit trusted now InteractionPermit.MaxValidity verified payload signature /\
    interactionPermitMatches verified q response = true /\ a_KeyID a = InteractionPermit.v_KeyID verified;
  an_digests : a_PermitDigest a = Dsse.Digest permit /\ a_ResponseDigest a = InteractionPermit.ResponseDigest response;
  an_body : DecodeStrictInto response InteractionPermit.MaxResponseBytes = Ok (a_Body a);
}.
Definition signed_answers (l : list Interaction) : Prop :=
  forall x a, x ∈ l -> x_Response x = Some a -> exists grant permit response, answered (question x) a grant permit response.

Record inv (st : Store) : Prop := {
  iv_memory : retained (memory st) /\ signed_answers (memory st);
  iv_disk : retained (disk st) /\ signed_answers (disk st);
  iv_durable : kept (memory st) (disk st);
}.

(** Every handler that writes ends this way. *)
Definition commit (st : Store) (next : list Interaction) (outcome : Outcome) : Store :=
  let '(written, ok) := persistLocked (mkStore next (disk st)) outcome in if ok then written else mkStore (memory st) (disk written).

Lemma commit_inv st next outcome : inv st -> retained next -> signed_answers next -> kept (memory st) next ->
  inv (commit st next outcome) /\ kept (memory st) (memory (commit st next outcome)).
Proof.
  intros [[H1 H2] [H3 H4] H5] Hr Hs Hk. destruct outcome; cbn; (split; [split; cbn; try done; by apply kept_refl | try done; by apply kept_refl]).
Qed.

Lemma unchanged_inv st : inv st -> inv st /\ kept (memory st) (memory st).
Proof. intros H. split; [done | apply kept_refl]. Qed.

(** The grants of the gateway are admitted grants under their own identifiers. *)
Definition grants_ok (grants : gmap string Grant) : Prop := forall id grant, grants !! id = Some grant -> g_GrantID grant = id /\ validGrantBinding grant = true /\ admitted grant.

Lemma create_inv st grants grantID query raw now outcome : inv st -> grants_ok grants -> clock_ok now ->
  let st' := fst (createInteraction st grants grantID query raw now outcome) in inv st' /\ kept (memory st) (memory st').
Proof.
  intros Hi Hg Hc. cbv zeta. unfold createInteraction. destruct (negb _); [by apply unchanged_inv|]. destruct (read_all _ _) as [body|]; [|by apply unchanged_inv].
  destruct (DecodeStrictInto _ _) as [input|]; [|by apply unchanged_inv]. destruct (validate input now) as [[]|] eqn:Ev; [|by apply unchanged_inv].
  destruct (grants !! grantID) as [grant|] eqn:Eg; [|by apply unchanged_inv]. destruct (Hg _ _ Eg) as (Eid & Hb & _). destruct (_ && _) eqn:Ea; [|by apply unchanged_inv]. breflect.
  unfold open_interaction. destruct (List.find _ _) as [existing|] eqn:Ef; [destruct (interactionInputMatches _ _); by apply unchanged_inv|].
  destruct (_ || _) eqn:Eq; [by apply unchanged_inv|]. breflect.
  set (x := new_interaction grant (interactionID grantID (n_IdempotencyKey input)) input now). pose proof Hi as [[Hm Hs] _ _].
  assert (Hcom : inv (commit st (memory st ++ [x]) outcome) /\ kept (memory st) (memory (commit st (memory st ++ [x]) outcome))).
  { apply commit_inv; [done | | |apply kept_app].
    - apply retained_snoc; try done; [|subst x; cbn [new_interaction x_InteractionID] | by (subst x; cbn [new_interaction x_GrantID]; rewrite Eid)].
      + subst x. rewrite <- Eid. apply new_ok; [by apply binding_bound | done | done].
      + intros Hin. apply list_elem_of_fmap in Hin as (y & Ey & Hy). apply list_elem_of_In in Hy. apply (List.find_none _ _ Ef) in Hy. by rewrite <- Ey, String.eqb_refl in Hy.
    - intros y a [Hy | ->%list_elem_of_singleton]%elem_of_app Hr; [by apply (Hs y) | done]. }
  revert Hcom. unfold commit. destruct outcome; done.
Qed.

Definition mark (ids : list string) (x : Interaction) : Interaction := if is_in (x_InteractionID x) ids then accept x else x.
Lemma mark_facts ids x : later x (mark ids x) /\ same_key x (mark ids x) /\ (ok x -> ok (mark ids x)) /\ question (mark ids x) = question x /\ x_Response (mark ids x) = x_Response x.
Proof. unfold mark. by destruct (is_in _ _). Qed.

Lemma ack_inv st raw outcome : inv st -> let st' := fst (ackInteractionOutbox st raw outcome) in inv st' /\ kept (memory st) (memory st').
Proof.
  intros Hi. cbv zeta. unfold ackInteractionOutbox. destruct (read_all _ _) as [body|]; [|by apply unchanged_inv]. destruct (DecodeStrictInto _ _) as [input|]; [|by apply unchanged_inv].
  destruct (_ || _); [by apply unchanged_inv|]. set (wanted := default [] (ak_InteractionIDs input)). fold (mark wanted). pose proof Hi as [[Hm Hs] _ _].
  assert (Hcom : inv (commit st (mark wanted <$> memory st) outcome) /\ kept (memory st) (memory (commit st (mark wanted <$> memory st) outcome))).
  { apply commit_inv; [done | | |].
    - eapply retained_update; [exact Hm|]. apply Forall2_fmap_r, Forall_Forall2_diag. eapply Forall_impl; [apply (rt_each _ Hm)|]. intros x Hx. destruct (mark_facts wanted x) as (_ & H1 & H2 & _). split; auto.
    - intros y a (x & -> & Hx)%list_elem_of_fmap Hr. destruct (mark_facts wanted x) as (_ & _ & _ & E1 & E2). rewrite E1. rewrite E2 in Hr. by apply Hs.
    - apply kept_pointwise, Forall2_fmap_r, Forall_Forall2_diag, Forall_forall. intros x _. apply mark_facts. }
  revert Hcom. unfold commit. destruct outcome; done.
Qed.

(** The permit and the bytes that the handler checked make the answer it attaches a signed one. *)
Lemma answered_resolve grant trusted permit now verified payload signature x response answer stamp : admitted grant -> g_GrantID grant = x_GrantID x ->
  taskAuthorityKeys (g_TaskAuthorities grant) = Ok trusted ->
  InteractionPermit.granted verify permit trusted now InteractionPermit.MaxValidity verified payload signature -> interactionPermitMatches verified x response = true ->
  DecodeStrictInto response InteractionPermit.MaxResponseBytes = Ok answer ->
  answered (question x) (mkInteractionResponse answer (InteractionPermit.v_KeyID verified) (InteractionPermit.v_EnvelopeDigest verified)
    (InteractionPermit.s_ResponseDigest (InteractionPermit.v_Statement verified)) stamp) grant permit response.
Proof.
  intros Ha Hid Hk Hg Hm Hd. constructor; cbn [a_KeyID a_PermitDigest a_ResponseDigest a_Body]; try done.
  - exists trusted, now, verified, payload, signature. done.
  - split; [apply (InteractionPermit.gr_digest _ _ _ _ _ _ _ _ Hg)|]. unfold interactionPermitMatches in Hm. breflect.
    match goal with Hx : String.eqb _ (InteractionPermit.ResponseDigest response) = true |- _ => by apply String.eqb_eq in Hx end.
Qed.

Lemma answer_inv st grants id permit response answer n1 n2 n3 outcome : inv st -> grants_ok grants -> four_digit_year n3 ->
  DecodeStrictInto response InteractionPermit.MaxResponseBytes = Ok answer ->
  let st' := fst (answer_interaction verify st grants id permit response answer n1 n2 n3 outcome) in inv st' /\ kept (memory st) (memory st').
Proof.
  intros Hi Hg Hc Hd. cbv zeta. unfold answer_interaction. destruct (list_find _ _) as [[index x]|] eqn:Ef; [|by apply unchanged_inv].
  apply list_find_Some in Ef as (Hx & Eid & _). destruct (InteractionPermit.Validate _ _ _) as [[]|] eqn:Ev; [|by apply unchanged_inv].
  destruct (x_Response x) as [given|] eqn:Er; [destruct (_ && _); by apply unchanged_inv|]. destruct (_ <=? n1); [by apply unchanged_inv|].
  destruct (grants !! x_GrantID x) as [grant|] eqn:Eg; [|by apply unchanged_inv]. destruct (Hg _ _ Eg) as (Hid & _ & Ha).
  destruct (negb _); [by apply unchanged_inv|]. destruct (taskAuthorityKeys _) as [trusted|] eqn:Ek; [|by apply unchanged_inv].
  destruct (InteractionPermit.Verify _ _ _ _ _) as [verified|] eqn:Evf; [|by apply unchanged_inv]. destruct (interactionPermitMatches _ _ _) eqn:Em; [|by apply unchanged_inv].
  cbn [negb]. apply InteractionPermit.response_granted in Evf as (payload & signature & Hgr). set (response' := mkInteractionResponse answer _ _ _ _).
  pose proof Hi as [[Hm Hs] _ _]. assert (Hxi : x ∈ memory st) by (by eapply list_elem_of_lookup_2). pose proof (rt_each _ Hm) as He. rewrite Forall_forall in He.
  pose proof (InteractionPermit.gr_valid _ _ _ _ _ _ _ _ Hgr) as Hval. pose proof (InteractionPermit.gr_digest _ _ _ _ _ _ _ _ Hgr) as Hdig.
  assert (Hok : ok (resolve response' x)).
  { apply resolve_ok; [by apply He|]. split_and!; cbn [response' a_Body a_PermitDigest a_ResponseDigest a_KeyID a_ResolvedAt]; [done | | | |].
    - rewrite Hdig. apply sha256_digest_text.
    - apply (InteractionPermit.va_digests _ _ _ Hval).
    - apply (InteractionPermit.gr_key _ _ _ _ _ _ _ _ Hgr).
    - unfold parses_rfc3339nano. by rewrite parse_rfc3339_format. }
  assert (Hpoint : forall R : Interaction -> Interaction -> Prop, (forall y, y ∈ memory st -> R y y) -> R x (resolve response' x) -> Forall2 R (memory st) (<[index:=resolve response' x]> (memory st))).
  { intros R Hrefl Hrx. rewrite <- (list_insert_id _ _ _ Hx) at 1. apply Forall2_insert; [|done]. apply Forall_Forall2_diag, Forall_forall. auto. }
  assert (Hcom : inv (commit st (<[index:=resolve response' x]> (memory st)) outcome) /\ kept (memory st) (memory (commit st (<[index:=resolve response' x]> (memory st)) outcome))).
  { apply commit_inv; [done | | |].
    - eapply retained_update; [exact Hm|]. apply Hpoint; [intros y Hy; split; [done | by apply He] | by split].
    - intros y a (j & Hj)%list_elem_of_lookup Hr. apply list_lookup_insert_Some in Hj as [(_ & <- & _) | [_ Hj]]; [|apply (Hs y a); [by eapply list_elem_of_lookup_2 | done]]. cbn [resolve x_Response] in Hr. injection Hr as <-. exists grant, permit, response.
      apply (answered_resolve grant trusted permit n2 verified payload signature x response answer); done.
    - apply kept_pointwise, Hpoint; [by intros y _|]. split; [done|]. intros a Hr. by rewrite Er in Hr. }
  revert Hcom. unfold commit. destruct outcome; done.
Qed.

Lemma resolve_inv st grants raw n1 n2 n3 outcome : inv st -> grants_ok grants -> four_digit_year n3 ->
  let st' := fst (resolveInteraction verify st grants raw n1 n2 n3 outcome) in inv st' /\ kept (memory st) (memory st').
Proof.
  intros Hi Hg Hc. cbv zeta. unfold resolveInteraction. destruct (read_all _ _) as [body|]; [|by apply unchanged_inv]. destruct (DecodeStrictInto _ _) as [courier|]; [|by apply unchanged_inv].
  destruct (negb _); [by apply unchanged_inv|]. destruct (canonical_b64 _) as [permit|]; [|by apply unchanged_inv]. destruct (canonical_b64 _) as [response|]; [|by apply unchanged_inv].
  destruct (_ || _); [by apply unchanged_inv|]. destruct (DecodeStrictInto response _) as [answer|] eqn:Ed; [|by apply unchanged_inv]. by apply answer_inv.
Qed.

(** ** Runs *)

(** A handler with its request, its clock readings and the fate of its write, or a restart; the grants may change between any two of them. *)
Inductive step : Store -> Store -> Prop :=
| step_agent st grants grantID method path query raw now outcome : grants_ok grants -> clock_ok (now 0%nat) ->
    step st (fst (interactionGrantHandler st grants grantID method path query raw now outcome))
| step_ack st raw outcome : step st (fst (ackInteractionOutbox st raw outcome))
| step_resolve st grants raw n1 n2 n3 outcome : grants_ok grants -> four_digit_year n3 -> step st (fst (resolveInteraction verify st grants raw n1 n2 n3 outcome))
| step_restart st st' : loadExisting st = Ok st' -> step st st'.

Definition start : Store := mkStore [] [].

Lemma step_inv st st' : step st st' -> inv st -> inv st' /\ kept (memory st) (memory st').
Proof.
  intros [s grants grantID method path query raw now outcome Hg Hc | s raw outcome | s grants raw n1 n2 n3 outcome Hg Hc | s s' Hl] Hi.
  - unfold interactionGrantHandler. destruct (_ && _); [by apply create_inv|]. destruct (_ && _); [by apply unchanged_inv|]. destruct (_ && _); by apply unchanged_inv.
  - by apply ack_inv.
  - by apply resolve_inv.
  - unfold loadExisting in Hl. step Hl. injection Hl as <-. destruct Hi as [_ Hd Hk]. split; [split; cbn; [done | done | apply kept_refl] | exact Hk].
Qed.

Lemma steps_inv st st' : rtc step st st' -> inv st -> inv st' /\ kept (memory st) (memory st').
Proof.
  induction 1 as [st | st s st' Hs _ IH]; intros Hi; [by apply unchanged_inv|]. destruct (step_inv _ _ Hs Hi) as [Hi' Hk]. destruct (IH Hi') as [H Hk']. split; [done | by eapply kept_trans].
Qed.

Lemma reachable_inv st : rtc step start st -> inv st.
Proof. intros H. apply (steps_inv _ _ H). split; [by split; [apply retained_nil | intros x a Hx%elem_of_nil] | by split; [apply retained_nil | intros x a Hx%elem_of_nil] | apply kept_refl]. Qed.

(** After any run of requests, failed writes and restarts, the state file holds questions that a restarted gateway accepts. *)
Theorem interactions_reload st : rtc step start st -> loadExisting st = Ok (mkStore (disk st) (disk st)).
Proof. intros H%reachable_inv. unfold loadExisting. by rewrite retained_loads by apply H. Qed.

(** C26: An answer that an agent can see was signed: a key of an authority of an admitted grant of the workload that asked signed a permit that was in force, names that
    workload, that question and its digest, and the digest and length of bytes that decode to exactly this answer. *)
Theorem answers_signed st x a : rtc step start st -> x ∈ memory st -> x_Response x = Some a ->
  x_RequestDigest x = interactionRequestDigest x /\ exists grant permit response, answered (question x) a grant permit response.
Proof.
  intros H%reachable_inv Hx Ha. destruct (iv_memory _ H) as [Hr Hs]. split; [|by apply Hs]. pose proof (rt_each _ Hr) as He. rewrite Forall_forall in He. destruct (He x Hx) as (Hb & _).
  unfold retained_binding in Hb. breflect. match goal with Hd : String.eqb (x_RequestDigest x) _ = true |- _ => by apply String.eqb_eq in Hd end.
Qed.

(** C27: An accepted question is never lost and its answer never changes, whatever handlers run after it, however their writes fail, and across restarts. *)
Theorem answer_final st st' x : rtc step start st -> rtc step st st' -> x ∈ memory st ->
  exists y, y ∈ memory st' /\ question y = question x /\ (forall a, x_Response x = Some a -> x_Response y = Some a).
Proof. intros H%reachable_inv Hr Hx. destruct (steps_inv _ _ Hr H) as [_ Hk]. destruct (Hk x Hx) as (y & Hy & Hq & Ha). by exists y. Qed.

Lemma kept_count g l l' : NoDup (ids l) -> kept l l' -> grantCount g l <= grantCount g l'.
Proof.
  intros Hn Hk. unfold grantCount, zlen. apply inj_le. set (f := fun x => String.eqb (x_GrantID x) g).
  rewrite <- (length_fmap x_InteractionID (List.filter f l)), <- (length_fmap x_InteractionID (List.filter f l')). apply submseteq_length, NoDup_submseteq.
  - clear - Hn. unfold ids in Hn. induction l as [|x l IH]; [constructor|]. rewrite fmap_cons in Hn. apply NoDup_cons in Hn as [Hx Hn]. cbn [List.filter]. destruct (f x); [|by apply IH].
    rewrite fmap_cons. constructor; [|by apply IH]. intros (y & Ey & Hy)%list_elem_of_fmap. apply Hx. rewrite Ey. apply list_elem_of_fmap_2. apply list_elem_of_In in Hy. apply List.filter_In in Hy as [Hy _].
    by apply list_elem_of_In.
  - intros i (x & -> & Hx)%list_elem_of_fmap. apply list_elem_of_In in Hx. apply List.filter_In in Hx as [Hx Hf]. apply list_elem_of_In in Hx. destruct (Hk x Hx) as (y & Hy & Hq & _).
    apply list_elem_of_fmap. exists y. split; [by apply (f_equal x_InteractionID) in Hq|]. apply list_elem_of_In, List.filter_In. split; [by apply list_elem_of_In|].
    subst f. apply (f_equal x_GrantID) in Hq. cbn in Hq |- *. by rewrite Hq.
Qed.

(** No handler frees a question: once a workload has asked sixteen, every later request with a new key is refused as a full queue, in every state that can follow,
    whatever was answered, acknowledged or has expired. *)
Theorem full_queue_permanent st st' g grant input now outcome : rtc step start st -> grantCount g (memory st) = maxInteractionsGrant -> rtc step st st' ->
  interactionID g (n_IdempotencyKey input) ∉ ids (memory st') ->
  open_interaction st' grant g input now outcome = (st', writeGatewayError 429 "interaction_queue_full").
Proof.
  intros H%reachable_inv Hc Hr Hnew. destruct (steps_inv _ _ Hr H) as [Hi' Hk]. pose proof (kept_count g _ _ (rt_ids _ (proj1 (iv_memory _ H))) Hk) as Hle. unfold open_interaction.
  destruct (List.find _ _) as [y|] eqn:Ef.
  - apply List.find_some in Ef as [Hy E]. apply String.eqb_eq in E. destruct Hnew. rewrite <- E. apply list_elem_of_fmap_2. by apply list_elem_of_In.
  - rewrite (proj2 (Z.leb_le maxInteractionsGrant (grantCount g (memory st')))) by lia. by rewrite orb_true_r.
Qed.

End authority.

(** ** Answering *)

(** The statement that answers a question with exact bytes. *)
Definition answer_statement (x : Interaction) (response : bytes) (notBefore expiresAt : string) : InteractionPermit.Statement :=
  InteractionPermit.mkStatement InteractionPermit.SchemaV1 (x_NodeID x) (x_TenantID x) (x_InstanceID x) (x_RuntimeRef x) (x_GrantID x) (x_Generation x) (x_CapsuleDigest x)
    (x_PolicyDigest x) (x_InteractionID x) (x_RequestDigest x) (InteractionPermit.ResponseDigest response) (zlen response) notBefore expiresAt.

Lemma hash_lower g k : InteractionPermit.interactionID (interactionID g k) = true.
Proof.
  unfold interactionID, InteractionProtocol.interactionRequestID, InteractionPermit.interactionID. set (m := bytes_of _). destruct (hex_encode_lower (Sha256.sum m)) as [H1 H2].
  assert (Hl : slen (string_of (hex_encode (Sha256.sum m))) = 64) by (rewrite <- zlen_bytes_of, bytes_of_string_of; unfold zlen; rewrite H2, Sha256.length_sum; done).
  rewrite has_prefix_app, slen_app, Hl. assert (trim_prefix ("interaction-" +:+ string_of (hex_encode (Sha256.sum m))) "interaction-" = string_of (hex_encode (Sha256.sum m))) as ->.
  { unfold trim_prefix. by rewrite has_prefix_app. }
  unfold ConnectorEvent.lowerHex. rewrite Hl. unfold all_bytes. by rewrite bytes_of_string_of, H1.
Qed.

(** The identity of the workload as JSON carries it. *)
Definition readable (x : Interaction) : Prop := utf8_valid (x_NodeID x) = true /\ utf8_valid (x_TenantID x) = true /\ utf8_valid (x_InstanceID x) = true /\ in_u64 (x_Generation x).

Lemma bounded_public s n : FenceStore.bounded s n = true -> utf8_valid s = true -> publicIdentity s n = true.
Proof.
  unfold FenceStore.bounded, publicIdentity, ConnectorEvent.publicIdentity. intros H Hu. breflect. rewrite Hu. match goal with Hx : trim_space s <> _ |- _ => rewrite (proj2 (String.eqb_neq _ _) Hx) || rewrite bool_decide_false by done end.
  rewrite (proj2 (Z.leb_le _ _)) by done. match goal with Hx : contains_byte s 0 = false |- _ => by rewrite Hx end.
Qed.

Lemma answer_valid x response notBefore expiresAt b e now : ok x -> readable x -> 0 < zlen response <= InteractionPermit.MaxResponseBytes ->
  canonicalTime notBefore = Some b -> canonicalTime expiresAt = Some e -> b <= now < e -> e - b <= InteractionPermit.MaxValidity ->
  InteractionPermit.valid (answer_statement x response notBefore expiresAt) now InteractionPermit.MaxValidity.
Proof.
  intros (Hb & _) (Hn & Ht & Hi & Hg) Hz Hnb Hex Hw Hm. unfold retained_binding in Hb. breflect. unfold bounded in *.
  repeat match goal with Hx : String.eqb _ _ = true |- _ => apply String.eqb_eq in Hx end.
  constructor; cbn [answer_statement InteractionPermit.s_SchemaVersion InteractionPermit.s_NodeID InteractionPermit.s_TenantID InteractionPermit.s_InstanceID InteractionPermit.s_RuntimeRef
    InteractionPermit.s_GrantID InteractionPermit.s_Generation InteractionPermit.s_CapsuleDigest InteractionPermit.s_PolicyDigest InteractionPermit.s_InteractionID
    InteractionPermit.s_RequestDigest InteractionPermit.s_ResponseDigest InteractionPermit.s_ResponseBytes InteractionPermit.s_NotBefore InteractionPermit.s_ExpiresAt]; try done.
  - split_and!; by apply bounded_public.
  - split_and!; [done | done|]. match goal with Hx : x_InteractionID x = interactionID _ _ |- _ => rewrite Hx end. apply hash_lower.
  - split_and!; [done | done | | apply sha256_digest_text]. match goal with Hx : x_RequestDigest x = _ |- _ => rewrite Hx end. apply sha256_digest_text.
  - by exists b, e.
Qed.

Lemma matches_statement x response notBefore expiresAt k d :
  interactionPermitMatches (InteractionPermit.mkVerified (answer_statement x response notBefore expiresAt) k d) x response = true.
Proof. unfold interactionPermitMatches. cbn. by rewrite !String.eqb_refl, !Z.eqb_refl. Qed.

Lemma body_storable answer options allow : InteractionPermit.Validate answer options allow = Ok tt -> storable answer = true.
Proof.
  unfold InteractionPermit.Validate. intros H. step H. rewrite !andb_true_iff in E. destruct E as (((Hs & _) & Hc) & Ht). apply String.eqb_eq in Hs.
  assert (Hu : forall v n, InteractionPermit.responseText v n = true -> utf8_valid v = true) by (unfold InteractionPermit.responseText; intros v n Hv; by breflect).
  cbn [storable InteractionPermit.ResponseBody_json]. rewrite Hs. apply orb_true_iff in Hc as [->%String.eqb_eq | ->%Hu]; apply orb_true_iff in Ht as [->%String.eqb_eq | [_ ->%Hu]%andb_true_iff]; done.
Qed.

Section delivery.
Context (sign : bytes -> bytes -> bytes) (verify : bytes -> bytes -> bytes -> bool) (admitted : Grant -> Prop).

Lemma canonical_b64_encode l : canonical_b64 (b64_encode_string l) = Some l.
Proof. unfold canonical_b64. rewrite Dsse.b64_string_decode. cbn [mbind option_bind]. by rewrite String.eqb_refl. Qed.

Lemma short_b64 l n : zlen l <= n -> 0 <= n -> short ((n + 2) / 3 * 4 + 2) (b64_encode_string l).
Proof.
  intros H Hn. apply short_plain; [apply Dsse.b64_string_plain|]. rewrite Dsse.b64_string_len. unfold b64_encoded_len. pose proof (zlen_nonneg l).
  apply Z.mul_le_mono_nonneg_r; [lia|]. apply Z.div_le_mono; lia.
Qed.

(** The courier message of an answer is read back. *)
Lemma courier_read id permit response : InteractionPermit.interactionID id = true -> zlen permit <= 7300 -> zlen response <= 4096 ->
  let raw := json_print (to_json (interactionCourier id permit response)) in
  read_all maxInteractionCourierBytes raw = Some raw /\ DecodeStrictInto raw maxInteractionCourierBytes = Ok (interactionCourier id permit response).
Proof.
  intros Hid Hp Hr raw. destruct (InteractionPermit.short_interaction _ Hid) as [Hi1 Hi2]. destruct (short_b64 permit 7300 Hp ltac:(lia)) as [Hp1 Hp2].
  destruct (short_b64 response 4096 Hr ltac:(lia)) as [Hr1 Hr2]. change ((7300 + 2) / 3 * 4 + 2) with 9738 in Hp2. change ((4096 + 2) / 3 * 4 + 2) with 5466 in Hr2.
  assert (Hst : storable (interactionCourier id permit response) = true) by (unfold interactionCourier; cbn [storable interactionResponseCourier_json cr_InteractionID cr_PermitBase64 cr_ResponseBase64]; by rewrite Hi1, Hp1, Hr1).
  assert (Hz : zlen raw <= 16000). { subst raw. unfold interactionCourier. cbn [to_json interactionResponseCourier_json cr_InteractionID cr_PermitBase64 cr_ResponseBase64]. struct_bound. }
  change maxInteractionCourierBytes with 32768. split; [unfold read_all; by rewrite (proj2 (Z.leb_le _ _)) by lia|].
  rewrite <- (app_nil_r raw). apply DecodeStrictInto_marshal; [done | lia | by left | fold raw; rewrite app_nil_r; lia].
Qed.

Lemma decoded_size {A} `{GoJSON A} raw maxBytes (a : A) : DecodeStrictInto raw maxBytes = Ok a -> 0 < zlen raw <= maxBytes.
Proof.
  unfold DecodeStrictInto. destruct (_ || _) eqn:E; [done|]. intros _. breflect. destruct raw as [|c l]; [done|]. rewrite zlen_cons in *. pose proof (zlen_nonneg l). lia.
Qed.

Lemma interaction_utf8 id : validInteractionID id = true -> utf8_valid id = true.
Proof.
  unfold validInteractionID, InteractionProtocol.interactionID, InteractionProtocol.prefixedDigest. intros H. breflect.
  match goal with Hp : has_prefix _ _ = true |- _ => rewrite (trim_prefix_app _ _ Hp) end. apply plain_utf8. rewrite all_bytes_app. apply andb_true_iff. split; [done|].
  match goal with Hb : all_bytes hex_byte _ = true |- _ => revert Hb end. unfold all_bytes. rewrite !forallb_forall. intros Hb c Hc. specialize (Hb c Hc).
  unfold hex_byte, lower_hex_byte in Hb. unfold plain_byte. lia.
Qed.

Lemma find_question l x : NoDup (ids l) -> x ∈ l -> exists i, list_find (fun y => x_InteractionID y = x_InteractionID x) l = Some (i, x).
Proof.
  intros Hn Hx. apply list_elem_of_lookup in Hx as [i Hi]. exists i. apply list_find_Some. split_and!; [done | done|]. intros j y Hj Hlt E.
  apply (NoDup_lookup _ i j (x_InteractionID x)) in Hn; [lia | unfold ids; by rewrite list_lookup_fmap, Hi | unfold ids; by rewrite list_lookup_fmap, Hj; cbn; f_equal].
Qed.

(** What a courier message of a signed answer does, by the outcome of the write of the state file. *)
Definition attached (verify : bytes -> bytes -> bytes -> bool) st grants x a permit response n1 n2 n3 outcome : Prop :=
  let '(st', reply) := resolveInteraction verify st grants (json_print (to_json (interactionCourier (x_InteractionID x) permit response))) n1 n2 n3 outcome in
  match outcome with
  | Persisted => reply = mkReply 200 "" [resolve a x] /\ resolve a x ∈ memory st' /\ resolve a x ∈ disk st'
  | _ => reply = writeGatewayError 503 "interaction_state_unavailable" /\ memory st' = memory st
  end.

Lemma answer_attached st x grants grant trusted k private public answer response notBefore expiresAt b e n1 n2 n3 expires outcome :
  rtc (step verify admitted) start st -> x ∈ memory st -> x_Response x = None -> readable x ->
  grants !! x_GrantID x = Some grant -> g_Active grant = true -> taskAuthorityKeys (g_TaskAuthorities grant) = Ok trusted -> trusted !! k = Some public -> identifier k = true ->
  Dsse.key_pair sign verify private public ->
  InteractionPermit.Validate answer (default [] (x_Options x)) (x_AllowText x) = Ok tt ->
  canonicalTime notBefore = Some b -> canonicalTime expiresAt = Some e -> b <= n2 < e -> e - b <= InteractionPermit.MaxValidity -> n2 <> 0 ->
  canonicalInteractionTime (x_ExpiresAt x) = Some expires -> n1 < expires ->
  DecodeStrictInto response InteractionPermit.MaxResponseBytes = Ok answer ->
  exists permit a, InteractionPermit.Sign sign (answer_statement x response notBefore expiresAt) k private = Ok permit /\ a_Body a = answer /\
    attached verify st grants x a permit response n1 n2 n3 outcome.
Proof.
  intros Hreach Hx Hnone Hread Hgr Hact Hkeys Hk Hkid Hkp Hval Hb He Hw Hm Hn2 Hexp Hn1 Hdb. destruct (iv_memory _ _ _ (reachable_inv _ _ _ Hreach)) as [Hr _].
  pose proof (rt_each _ Hr) as Hall. rewrite Forall_forall in Hall. pose proof (Hall x Hx) as Hok.
  pose proof (decoded_size _ _ _ Hdb) as Hpos.
  pose proof (answer_valid x response notBefore expiresAt b e n2 Hok Hread Hpos Hb He Hw Hm) as Hsv. destruct Hread as (_ & _ & _ & Hgen).
  destruct (InteractionPermit.response_issued sign verify _ k private public trusted n2 InteractionPermit.MaxValidity Hkp Hk Hkid Hsv Hgen Hn2 ltac:(split; [reflexivity | discriminate]))
    as (permit & signature & Hsign & Hps & Hgranted).
  set (verified := InteractionPermit.mkVerified _ k _) in Hgranted.
  eexists permit, (mkInteractionResponse answer k (Dsse.Digest permit) (InteractionPermit.ResponseDigest response) (format_rfc3339nano n3)). split; [exact Hsign|]. split; [done|].
  assert (Hid : InteractionPermit.interactionID (x_InteractionID x) = true) by apply (InteractionPermit.va_runtime _ _ _ Hsv).
  destruct (courier_read _ permit response Hid Hps (proj2 Hpos)) as [Hra Hde]. destruct (find_question _ x (rt_ids _ Hr) Hx) as [i Hi].
  assert (Hvf : InteractionPermit.Verify verify permit trusted n2 InteractionPermit.MaxValidity = Ok verified) by (apply InteractionPermit.response_granted; by exists (json_print (to_json (answer_statement x response notBefore expiresAt))), signature).
  unfold attached, resolveInteraction. rewrite Hra, Hde. cbn [interactionCourier cr_InteractionID cr_PermitBase64 cr_ResponseBase64].
  assert (Hvi : validInteractionID (x_InteractionID x) = true). { destruct Hok as (Hrb & _). unfold retained_binding in Hrb. by breflect. }
  rewrite Hvi, !canonical_b64_encode, Hdb. cbn [negb]. rewrite (proj2 (Z.eqb_neq _ _)), (proj2 (Z.ltb_ge _ _)) by lia. cbn [orb].
  unfold answer_interaction. rewrite Hi, Hval, Hnone, Hexp. cbn [default from_option id]. rewrite (proj2 (Z.leb_gt _ _)) by lia. rewrite Hgr, Hact, Hkeys, Hvf.
  assert (Hta : (zlen (g_TaskAuthorities grant) =? 0) = false). { unfold taskAuthorityKeys, validTaskAuthorities in Hkeys. destruct (zlen _ =? 0); [done | done]. }
  rewrite Hta. unfold verified at 1. rewrite matches_statement. cbn [negb andb].
  assert (Hin : forall y, y ∈ <[i:=y]> (memory st)). { intros y. apply list_elem_of_lookup. exists i. apply list_lookup_insert_eq. apply list_find_Some in Hi as (Hl & _). by apply lookup_lt_Some in Hl. }
  destruct outcome; cbn [persistLocked memory disk]; split_and!; try reflexivity; apply Hin.
Qed.

(** An answer of more than [MaxResponseBytes]: no permit is signed for it, and Gateway refuses every message that carries it. *)
Lemma oversized_refused x response notBefore expiresAt k private permit st grants n1 n2 n3 outcome :
  utf8_valid (x_InteractionID x) = true -> InteractionPermit.MaxResponseBytes < zlen response ->
  is_ok (InteractionPermit.Sign sign (answer_statement x response notBefore expiresAt) k private) = false /\
  let '(st', reply) := resolveInteraction verify st grants (json_print (to_json (interactionCourier (x_InteractionID x) permit response))) n1 n2 n3 outcome in
  st' = st /\ (reply = writeGatewayError 400 "invalid_request" \/ reply = writeGatewayError 413 "invalid_request").
Proof.
  intros Hid Hz. split.
  - unfold InteractionPermit.Sign. destruct (_ && _); [|done]. destruct (InteractionPermit.not_before _) as [nb|]; [|done].
    destruct (InteractionPermit.validateStatement _ nb _) as [[]|] eqn:Ev; [|done]. apply InteractionPermit.response_statement_spec in Ev.
    pose proof (InteractionPermit.va_bytes _ _ _ Ev) as Hb. cbn [answer_statement InteractionPermit.s_ResponseBytes] in Hb. lia.
  - unfold resolveInteraction, read_all. destruct (_ <=? _); [|by split; [|right]].
    set (courier := interactionCourier _ _ _). assert (Hst : storable courier = true).
    { subst courier. unfold interactionCourier. cbn [storable interactionResponseCourier_json cr_InteractionID cr_PermitBase64 cr_ResponseBase64].
      by rewrite Hid, !(plain_utf8 _ (Dsse.b64_string_plain _)). }
    destruct (DecodeStrictInto _ _) as [courier'|] eqn:Ed; [|by split; [|left]].
    destruct (json_ok_reread _ (to_json_ok courier Hst)) as [Hs Hr].
    pose proof (DecodeStrictInto_reread _ _ _ _ _ Hs Hr (of_to_json courier Hst) Ed) as ->. subst courier. cbn [interactionCourier cr_InteractionID cr_PermitBase64 cr_ResponseBase64].
    destruct (negb _); [by split; [|left]|]. rewrite !canonical_b64_encode, (proj2 (Z.ltb_lt _ _) Hz), orb_true_r. by split; [|left].
Qed.

(** A choice, with or without a text of plain bytes, always fits. *)
Lemma plain_answer_fits answer options allow : InteractionPermit.Validate answer options allow = Ok tt -> all_bytes plain_byte (InteractionPermit.rb_Text answer) = true ->
  DecodeStrictInto (json_print (to_json answer)) InteractionPermit.MaxResponseBytes = Ok answer.
Proof.
  intros Hval Hp. pose proof (body_storable _ _ _ Hval) as Hbs. pose proof (to_json_ok answer Hbs) as Hjok. rewrite <- (app_nil_r (json_print _)).
  apply DecodeStrictInto_marshal; [done | lia | by left|]. rewrite app_nil_r. unfold InteractionPermit.Validate in Hval. step Hval. rewrite !andb_true_iff in E.
  destruct E as (((Hs & _) & Hc) & Ht). apply String.eqb_eq in Hs.
  assert (Hb : forall v n, 0 <= n -> v = ""%string \/ InteractionPermit.responseText v n = true -> slen v <= n).
  { intros v n Hn [-> | Hv]; [done|]. unfold InteractionPermit.responseText in Hv. by breflect. }
  assert (Hcl : slen (InteractionPermit.rb_Choice answer) <= 128) by (apply Hb; [done|]; apply orb_true_iff in Hc as [Hc%String.eqb_eq | Hc]; auto).
  assert (Htl : slen (InteractionPermit.rb_Text answer) <= 2048).
  { apply Hb; [done|]. apply orb_true_iff in Ht as [Ht%String.eqb_eq | [_ Ht]%andb_true_iff]; auto. }
  assert (Htq : zlen (json_print (JStr (InteractionPermit.rb_Text answer))) <= 2050) by (rewrite zlen_print_str, zlen_quote_plain by done; lia).
  assert (Hsl : slen (InteractionPermit.rb_SchemaVersion answer) <= 64) by (rewrite Hs; vm_compute; congruence).
  change InteractionPermit.MaxResponseBytes with 4096. cbn [to_json InteractionPermit.ResponseBody_json]. clear Htl Ht. struct_bound.
Qed.

(** C28: A tenant can answer. For every open, unexpired question of an active grant, whoever holds one of the grant's task keys can sign any answer that
    the question allows, as any JSON text of it of at most 4096 bytes, and the courier message that carries the permit and those bytes is accepted: when
    the state file is written, the answer is attached to that question in memory and in the file; when the write fails, the reply is 503 and the question
    stays open in memory. The JSON of a choice, with or without a text of plain bytes, fits in 4096 bytes. A longer answer, which a text of up to 2048
    bytes can need when it has to be escaped ([escaped_answer_too_long]), cannot be signed, and Gateway refuses every message that carries it. *)
Theorem answer_delivered st x grants grant trusted k private public answer response notBefore expiresAt b e n1 n2 n3 expires outcome :
  rtc (step verify admitted) start st -> x ∈ memory st -> x_Response x = None -> readable x ->
  grants !! x_GrantID x = Some grant -> g_Active grant = true -> taskAuthorityKeys (g_TaskAuthorities grant) = Ok trusted -> trusted !! k = Some public -> identifier k = true ->
  Dsse.key_pair sign verify private public ->
  InteractionPermit.Validate answer (default [] (x_Options x)) (x_AllowText x) = Ok tt ->
  canonicalTime notBefore = Some b -> canonicalTime expiresAt = Some e -> b <= n2 < e -> e - b <= InteractionPermit.MaxValidity -> n2 <> 0 ->
  canonicalInteractionTime (x_ExpiresAt x) = Some expires -> n1 < expires ->
  (DecodeStrictInto response InteractionPermit.MaxResponseBytes = Ok answer ->
   exists permit a, InteractionPermit.Sign sign (answer_statement x response notBefore expiresAt) k private = Ok permit /\ a_Body a = answer /\
     attached verify st grants x a permit response n1 n2 n3 outcome) /\
  (all_bytes plain_byte (InteractionPermit.rb_Text answer) = true ->
   DecodeStrictInto (json_print (to_json answer)) InteractionPermit.MaxResponseBytes = Ok answer) /\
  (InteractionPermit.MaxResponseBytes < zlen response -> forall permit,
   is_ok (InteractionPermit.Sign sign (answer_statement x response notBefore expiresAt) k private) = false /\
   let '(st', reply) := resolveInteraction verify st grants (json_print (to_json (interactionCourier (x_InteractionID x) permit response))) n1 n2 n3 outcome in
   st' = st /\ (reply = writeGatewayError 400 "invalid_request" \/ reply = writeGatewayError 413 "invalid_request")).
Proof.
  intros Hreach Hx Hnone Hread Hgr Hact Hkeys Hk Hkid Hkp Hval Hb He Hw Hm Hn2 Hexp Hn1. split_and!.
  - by eapply answer_attached.
  - by eapply plain_answer_fits.
  - intros Hz permit. apply oversized_refused; [|done]. destruct (iv_memory _ _ _ (reachable_inv _ _ _ Hreach)) as [Hr _].
    pose proof (rt_each _ Hr) as Hall. rewrite Forall_forall in Hall. destruct (Hall x Hx) as (Hrb & _). unfold retained_binding in Hrb. breflect.
    by apply interaction_utf8.
Qed.
End delivery.

(** ** A concrete workload *)

Definition sample_id : string := GrantID "acme" "agent-1" 3.
Definition sample_grant : Grant :=
  mkGrant sample_id "acme" "node-1" "agent-1" 3 ("executor-" +:+ TaskPermit.zeros) TaskPermit.sample_digest TaskPermit.sample_digest "" 0 false [] "" "" true "hermes-api" ""
    [mkTaskAuthority "tasks" (b64_encode_string (Dsse.toy_pub "t"))] [] [] true true.
Definition sample_grants : gmap string Grant := {[ sample_id := sample_grant ]}.
Definition sample_now : Z := 64029052800000000000.
Definition sample_input (key : string) : InteractionInput :=
  mkInteractionInput InteractionProtocol.InteractionRequestSchemaV1 key "decision" "Continue?" "Continue with the run?" (Some ["continue"; "stop"]%string) false "" "" "" "2030-01-01T01:00:00Z".
Definition sample_question (key : string) : Interaction := new_interaction sample_grant (interactionID sample_id key) (sample_input key) sample_now.
Definition good_key (key : string) : bool :=
  storable (sample_input key) && (zlen (json_print (to_json (sample_input key))) <=? maxInteractionRequestBytes) && match validate (sample_input key) sample_now with Ok _ => true | Err _ => false end.

Lemma sample_grants_ok : grants_ok (fun _ => True) sample_grants.
Proof. intros id grant H. unfold sample_grants in H. apply lookup_singleton_Some in H as [<- <-]. split; [done|]. split; [vm_compute; reflexivity | done]. Qed.
Lemma question_clock : clock_ok sample_now.
Proof. split; [split; vm_compute; congruence | discriminate]. Qed.

Lemma open_sample st key : good_key key = true -> interactionID sample_id key ∉ ids (memory st) -> zlen (memory st) < 16 ->
  fst (interactionGrantHandler st sample_grants sample_id "POST" "/v1/interactions" "" (json_print (to_json (sample_input key))) (fun _ => sample_now) Persisted)
  = mkStore (memory st ++ [sample_question key]) (memory st ++ [sample_question key]).
Proof.
  intros Hk Hn Hz. unfold good_key in Hk. rewrite !andb_true_iff in Hk. destruct Hk as [[Hs Hl] Hv]. apply Z.leb_le in Hl.
  assert (Hd : DecodeStrictInto (json_print (to_json (sample_input key))) maxInteractionRequestBytes = Ok (sample_input key)).
  { rewrite <- (app_nil_r (json_print _)). apply DecodeStrictInto_marshal; [done | lia | by left | by rewrite app_nil_r]. }
  unfold interactionGrantHandler. cbn [andb String.eqb Ascii.eqb Bool.eqb]. unfold createInteraction, read_all. rewrite (proj2 (Z.leb_le _ _) Hl), Hd.
  destruct (validate _ _) as [[]|]; [|done]. unfold sample_grants. rewrite lookup_singleton_eq. cbn [negb String.eqb g_Active g_ControllerEvents g_TaskAuthorities sample_grant andb].
  change (zlen [mkTaskAuthority "tasks" (b64_encode_string (Dsse.toy_pub "t"))] =? 0) with false. cbn [negb]. fold sample_grant. unfold open_interaction. change (n_IdempotencyKey (sample_input key)) with key.
  destruct (List.find _ _) as [y|] eqn:Ef.
  { apply List.find_some in Ef as [Hy E%String.eqb_eq]. destruct Hn. rewrite <- E. apply list_elem_of_fmap_2. by apply list_elem_of_In. }
  assert (Hc : forall p : Interaction -> bool, zlen (List.filter p (memory st)) <= zlen (memory st)).
  { intros p. unfold zlen. apply inj_le. clear. induction (memory st) as [|x l IH]; [done|]. cbn [List.filter]. destruct (p x); cbn; lia. }
  rewrite (proj2 (Z.leb_gt maxInteractions _)), (proj2 (Z.leb_gt maxInteractionsTenant _)), (proj2 (Z.leb_gt maxInteractionsGrant _)); [done | | |]; unfold tenantCount, grantCount.
  - eapply Z.le_lt_trans; [apply Hc | exact Hz].
  - eapply Z.le_lt_trans; [apply Hc|]. change maxInteractionsTenant with 32. lia.
  - change maxInteractions with 64. lia.
Qed.

Lemma open_run verify keys : Forall (fun k => good_key k = true) keys -> NoDup (interactionID sample_id <$> keys) -> zlen keys <= 16 ->
  rtc (step verify (fun _ => True)) start (mkStore (sample_question <$> keys) (sample_question <$> keys)).
Proof.
  induction keys as [|k keys IH] using rev_ind; intros Hg Hn Hl; [apply rtc_refl|]. apply Forall_app in Hg as [Hg Hk]. apply Forall_cons in Hk as [Hk _]. rewrite fmap_app in Hn. apply NoDup_app in Hn as (Hn & Hd & _).
  rewrite zlen_app in Hl. change (zlen [k]) with 1 in Hl. eapply rtc_r; [apply IH; [done | done | lia]|]. rewrite fmap_app. cbn [fmap list_fmap].
  pose proof (open_sample (mkStore (sample_question <$> keys) (sample_question <$> keys)) k Hk) as E. cbn [memory] in E. rewrite <- E.
  - apply step_agent; [exact sample_grants_ok | exact question_clock].
  - unfold ids. rewrite <- list_fmap_compose. intros Hin. eapply Hd; [exact Hin | by left].
  - unfold zlen in *. rewrite length_fmap. lia.
Qed.

Lemma one_question verify : rtc (step verify (fun _ => True)) start (mkStore [sample_question "ask"] [sample_question "ask"]).
Proof. apply (open_run verify ["ask"%string]); [by repeat constructor | apply NoDup_singleton | done]. Qed.

Lemma interactions_reload_witness : loadExisting (mkStore [sample_question "ask"] [sample_question "ask"]) = Ok (mkStore [sample_question "ask"] [sample_question "ask"]).
Proof. apply (interactions_reload Dsse.toy_verify (fun _ => True) (mkStore [sample_question "ask"] [sample_question "ask"]) (one_question _)). Defined.

Definition sample_answer : InteractionPermit.ResponseBody := InteractionPermit.mkResponseBody InteractionPermit.ResponseBodySchemaV1 "continue" "".
Definition sample_keys : gmap string bytes := {[ "tasks"%string := Dsse.toy_pub "t" ]}.

Lemma sample_authority : taskAuthorityKeys (g_TaskAuthorities sample_grant) = Ok sample_keys.
Proof. vm_compute. reflexivity. Qed.

Definition sample_response : bytes := json_print (to_json sample_answer).
Definition sample_store : Store := mkStore [sample_question "ask"] [sample_question "ask"].

(** Two thousand and forty-eight double quotes: [Validate] allows the text, but its JSON does not fit. *)
Definition escaped_answer : InteractionPermit.ResponseBody :=
  InteractionPermit.mkResponseBody InteractionPermit.ResponseBodySchemaV1 "" (string_of (replicate (Z.to_nat 2048) quotation)).
Example escaped_answer_too_long :
  InteractionPermit.Validate escaped_answer [] true = Ok tt /\ InteractionPermit.MaxResponseBytes <? zlen (json_print (to_json escaped_answer)) = true.
Proof. vm_compute. split; reflexivity. Qed.

Lemma answer_delivered_witness : DecodeStrictInto sample_response InteractionPermit.MaxResponseBytes = Ok sample_answer /\ exists permit a,
  InteractionPermit.Sign Dsse.toy_sign (answer_statement (sample_question "ask") sample_response "2030-01-01T00:00:00Z" "2030-01-01T00:10:00Z") "tasks" (Dsse.toy_priv "t") = Ok permit /\
  a_Body a = sample_answer /\
  attached Dsse.toy_verify sample_store sample_grants (sample_question "ask") a permit sample_response sample_now sample_now sample_now Persisted.
Proof.
  destruct (answer_delivered Dsse.toy_sign Dsse.toy_verify (fun _ => True) sample_store (sample_question "ask") sample_grants sample_grant sample_keys "tasks"
    (Dsse.toy_priv "t") (Dsse.toy_pub "t") sample_answer sample_response "2030-01-01T00:00:00Z" "2030-01-01T00:10:00Z" sample_now (sample_now + 600 * second) sample_now sample_now sample_now
    (sample_now + 3600 * second) Persisted) as (H1 & H2 & _);
    [exact (one_question _) | by left | reflexivity | by (split_and!; [reflexivity.. | | ]; vm_compute) | by apply lookup_singleton_eq | reflexivity | exact sample_authority | by apply lookup_singleton_eq
    | reflexivity | by apply Dsse.toy_key_pair | vm_compute; reflexivity | vm_compute; reflexivity | vm_compute; reflexivity | split; [discriminate | reflexivity] | discriminate
    | discriminate | vm_compute; reflexivity | reflexivity |].
  assert (Hd : DecodeStrictInto sample_response InteractionPermit.MaxResponseBytes = Ok sample_answer) by (apply H2; vm_compute; reflexivity).
  split; [exact Hd | exact (H1 Hd)].
Defined.

(** A state in which the question was answered. *)
Lemma answered_question : exists st x a, rtc (step Dsse.toy_verify (fun _ => True)) start st /\ x ∈ memory st /\ x_Response x = Some a.
Proof.
  destruct (answer_attached Dsse.toy_sign Dsse.toy_verify (fun _ => True) sample_store (sample_question "ask") sample_grants sample_grant sample_keys "tasks"
    (Dsse.toy_priv "t") (Dsse.toy_pub "t") sample_answer sample_response "2030-01-01T00:00:00Z" "2030-01-01T00:10:00Z" sample_now (sample_now + 600 * second) sample_now sample_now sample_now
    (sample_now + 3600 * second) Persisted) as (permit & a & _ & _ & H);
    [exact (one_question _) | by left | reflexivity | by (split_and!; [reflexivity.. | | ]; vm_compute) | by apply lookup_singleton_eq | reflexivity | exact sample_authority | by apply lookup_singleton_eq
    | reflexivity | by apply Dsse.toy_key_pair | vm_compute; reflexivity | vm_compute; reflexivity | vm_compute; reflexivity | split; [discriminate | reflexivity] | discriminate
    | discriminate | vm_compute; reflexivity | reflexivity | vm_compute; reflexivity |].
  unfold attached in H. match type of H with let '(_, _) := ?c in _ => pose proof (step_resolve Dsse.toy_verify (fun _ => True) sample_store sample_grants
    (json_print (to_json (interactionCourier (x_InteractionID (sample_question "ask")) permit sample_response))) sample_now sample_now sample_now Persisted sample_grants_ok (proj1 question_clock)) as Hs;
    destruct c as [st' reply] end.
  destruct H as (_ & Hm & _). exists st', (resolve a (sample_question "ask")), a. split; [|done]. eapply rtc_r; [apply one_question | exact Hs].
Qed.

Lemma answers_signed_witness : exists x grant permit response, x_RequestDigest x = interactionRequestDigest x /\
  exists a, answered Dsse.toy_verify (fun _ => True) (question x) a grant permit response.
Proof.
  destruct answered_question as (st & x & a & Hr & Hx & Ha). destruct (answers_signed Dsse.toy_verify (fun _ => True) st x a Hr Hx Ha) as (Hd & grant & permit & response & Hans).
  exists x, grant, permit, response. split; [exact Hd | exists a; exact Hans].
Defined.

Lemma answer_final_witness : exists st x a y, y ∈ memory st /\ question y = question x /\ x_Response y = Some a.
Proof.
  destruct answered_question as (st & x & a & Hr & Hx & Ha). destruct (answer_final Dsse.toy_verify (fun _ => True) st st x Hr (rtc_refl _ st) Hx) as (y & Hy & Hq & Hres).
  exists st, x, a, y. split; [exact Hy|]. split; [exact Hq | exact (Hres a Ha)].
Defined.

(** Sixteen questions of one workload. *)
Definition sixteen : list string := ["q0"; "q1"; "q2"; "q3"; "q4"; "q5"; "q6"; "q7"; "q8"; "q9"; "qa"; "qb"; "qc"; "qd"; "qe"; "qf"]%string.
Definition seventeen : list string := sixteen ++ ["qg"%string].

Lemma sample_id_literal : sample_id = "grant-bc28e3b51629b213fedce5044c11323e6cb49eb34ae63412bba9c5109aeb8747"%string.
Proof. vm_compute. reflexivity. Qed.

Lemma distinct_ids : NoDup (interactionID sample_id <$> seventeen).
Proof. rewrite sample_id_literal. apply (bool_decide_unpack _). vm_compute. exact I. Qed.

Lemma sixteen_questions : rtc (step Dsse.toy_verify (fun _ => True)) start (mkStore (sample_question <$> sixteen) (sample_question <$> sixteen)) /\
  grantCount sample_id (sample_question <$> sixteen) = maxInteractionsGrant /\ interactionID sample_id "qg" ∉ ids (sample_question <$> sixteen).
Proof.
  pose proof distinct_ids as Hn. unfold seventeen in Hn. rewrite fmap_app in Hn. apply NoDup_app in Hn as (Hn & Hd & _). split_and!.
  - apply open_run; [by repeat constructor | exact Hn | done].
  - assert (Hc : forall l, grantCount sample_id (sample_question <$> l) = zlen l); [|by rewrite Hc].
    intros l. induction l as [|k l IH]; [done|]. rewrite fmap_cons, grant_cons, IH, zlen_cons. cbn [sample_question new_interaction x_GrantID sample_grant g_GrantID]. rewrite String.eqb_refl. lia.
  - unfold ids. rewrite <- list_fmap_compose. intros Hin. eapply Hd; [exact Hin | by left].
Qed.

Lemma full_queue_permanent_witness : exists st, grantCount sample_id (memory st) = maxInteractionsGrant /\
  open_interaction st sample_grant sample_id (sample_input "qg") sample_now Persisted = (st, writeGatewayError 429 "interaction_queue_full").
Proof.
  destruct sixteen_questions as (Hr & Hc & Hn). exists (mkStore (sample_question <$> sixteen) (sample_question <$> sixteen)). split; [exact Hc|].
  apply (full_queue_permanent Dsse.toy_verify (fun _ => True) _ _ sample_id sample_grant (sample_input "qg") sample_now Persisted Hr Hc (rtc_refl _ _) Hn).
Defined.

End InteractionSafety.
