(* ===== verification/ActionPermit.v ===== *)
(** * Action permits ([src/internal/actionpermit/actionpermit.go])

    Signed, short-lived permission for one exact connector request (versions 1, 2, 3 and 5) or for a bounded set of them (version 4). From version 3 the
    statement names how many authorities must sign. [verify] is Ed25519's; [now] is zero for Go's zero time. Statements in this file, approvals in [ActionApproval]. *)

From Stdlib Require Import Ascii.
From S2P Require Import Prelude GoText GoTime GoFS FenceStore GoJson GoCrypto Strict Dsse GoRune GoNet Admission ConnectorEvent ConnectorReceipt Permit.
Import Permit.

Module ActionPermit.

Definition PayloadTypeV1 : string := "application/vnd.steward.action-permit.v1+json".
Definition PayloadTypeV2 : string := "application/vnd.steward.action-permit.v2+json".
Definition PayloadTypeV3 : string := "application/vnd.steward.action-permit.v3+json".
Definition PayloadTypeV4 : string := "application/vnd.steward.action-permit.v4+json".
Definition PayloadTypeV5 : string := "application/vnd.steward.action-permit.v5+json".
Definition SchemaV1 : string := "steward.action-permit.v1".
Definition SchemaV2 : string := "steward.action-permit.v2".
Definition SchemaV3 : string := "steward.action-permit.v3".
Definition SchemaV4 : string := "steward.action-permit.v4".
Definition SchemaV5 : string := "steward.action-permit.v5".
Definition EffectModeAuthorized : string := "authorized".
Definition MaxEnvelopeBytes : Z := Z.shiftl 16 10.
Definition MaxRequestBytes : Z := Z.shiftl 4 20.
Definition MaxBundleSteps : Z := 8.
Definition MaxValidity : Z := 24 * hour.

Record Statement := mkStatement {
  s_SchemaVersion : string; s_EffectMode : string; s_ApprovalThreshold : Z; s_NodeID : string; s_TenantID : string; s_InstanceID : string;
  s_Generation : Z; s_CapsuleDigest : string; s_PolicyDigest : string; s_RoutePolicyDigest : string; s_ConnectorID : string; s_OperationID : string;
  s_OperationDigest : string; s_TaskID : string; s_RequestDigest : string; s_RequestBytes : Z; s_ContentType : string; s_InfluenceSequence : Z;
  s_InfluenceHash : string; s_NotBefore : string; s_ExpiresAt : string }.

(** The same members, every one of them written. *)
Record statementV5Wire := mkstatementV5Wire {
  f_SchemaVersion : string; f_EffectMode : string; f_ApprovalThreshold : Z; f_NodeID : string; f_TenantID : string; f_InstanceID : string;
  f_Generation : Z; f_CapsuleDigest : string; f_PolicyDigest : string; f_RoutePolicyDigest : string; f_ConnectorID : string; f_OperationID : string;
  f_OperationDigest : string; f_TaskID : string; f_RequestDigest : string; f_RequestBytes : Z; f_ContentType : string; f_InfluenceSequence : Z;
  f_InfluenceHash : string; f_NotBefore : string; f_ExpiresAt : string }.

Record BundleStep := mkBundleStep {
  b_StepID : string; b_ConnectorID : string; b_OperationID : string; b_OperationDigest : string; b_TaskID : string; b_RequestDigest : string;
  b_RequestBytes : Z; b_ContentType : string }.

Record BundleStatement := mkBundleStatement {
  bs_SchemaVersion : string; bs_EffectMode : string; bs_ApprovalThreshold : Z; bs_NodeID : string; bs_TenantID : string; bs_InstanceID : string;
  bs_Generation : Z; bs_CapsuleDigest : string; bs_PolicyDigest : string; bs_RoutePolicyDigest : string; bs_BundleID : string;
  bs_Steps : option (list BundleStep); bs_NotBefore : string; bs_ExpiresAt : string }.

(** Pointers tell an absent member from a zero value; the two members behind [json.RawMessage] keep any value. *)
Record wireStatement := mkwireStatement {
  w_SchemaVersion : option string; w_EffectMode : option json; w_ApprovalThreshold : option json; w_NodeID : option string;
  w_TenantID : option string; w_InstanceID : option string; w_Generation : option Z; w_CapsuleDigest : option string; w_PolicyDigest : option string;
  w_RoutePolicyDigest : option string; w_ConnectorID : option string; w_OperationID : option string; w_OperationDigest : option string;
  w_TaskID : option string; w_RequestDigest : option string; w_RequestBytes : option Z; w_ContentType : option string; w_InfluenceSequence : option Z;
  w_InfluenceHash : option string; w_NotBefore : option string; w_ExpiresAt : option string }.

Record wireBundleStep := mkwireBundleStep {
  q_StepID : option string; q_ConnectorID : option string; q_OperationID : option string; q_OperationDigest : option string; q_TaskID : option string;
  q_RequestDigest : option string; q_RequestBytes : option Z; q_ContentType : option string }.

Record wireBundleStatement := mkwireBundleStatement {
  wb_SchemaVersion : option string; wb_EffectMode : option string; wb_ApprovalThreshold : option Z; wb_NodeID : option string;
  wb_TenantID : option string; wb_InstanceID : option string; wb_Generation : option Z; wb_CapsuleDigest : option string;
  wb_PolicyDigest : option string; wb_RoutePolicyDigest : option string; wb_BundleID : option string;
  wb_Steps : option (option (list wireBundleStep)); wb_NotBefore : option string; wb_ExpiresAt : option string }.

Record Verified := mkVerified {
  v_Statement : Statement; v_Bundle : option BundleStatement; v_KeyID : string; v_KeyIDs : list string; v_Complete : bool; v_EnvelopeDigest : string;
  v_PayloadType : string }.

Definition zero_Statement : Statement := mkStatement "" "" 0 "" "" "" 0 "" "" "" "" "" "" "" "" 0 "" 0 "" "" "".

#[global] Instance Statement_json : GoJSON Statement := {
  go_shape := KStruct [
    ("schema_version", KString); ("effect_mode", KString); ("approval_threshold", KInt); ("node_id", KString); ("tenant_id", KString);
    ("instance_id", KString); ("generation", KInt); ("capsule_digest", KString); ("policy_digest", KString); ("route_policy_digest", KString);
    ("connector_id", KString); ("operation_id", KString); ("operation_policy_digest", KString); ("task_id", KString); ("request_digest", KString);
    ("request_bytes", KInt); ("content_type", KString); ("influence_sequence", KInt); ("influence_hash", KString); ("not_before", KString);
    ("expires_at", KString)]%string;
  to_json x := obj [
    always "schema_version" (JStr (s_SchemaVersion x)); omitempty "effect_mode" (empty_string (s_EffectMode x)) (JStr (s_EffectMode x));
    omitempty "approval_threshold" (s_ApprovalThreshold x =? 0) (json_int (s_ApprovalThreshold x)); always "node_id" (JStr (s_NodeID x));
    always "tenant_id" (JStr (s_TenantID x)); always "instance_id" (JStr (s_InstanceID x)); always "generation" (json_int (s_Generation x));
    always "capsule_digest" (JStr (s_CapsuleDigest x)); always "policy_digest" (JStr (s_PolicyDigest x));
    always "route_policy_digest" (JStr (s_RoutePolicyDigest x)); always "connector_id" (JStr (s_ConnectorID x));
    always "operation_id" (JStr (s_OperationID x)); always "operation_policy_digest" (JStr (s_OperationDigest x));
    always "task_id" (JStr (s_TaskID x)); always "request_digest" (JStr (s_RequestDigest x)); always "request_bytes" (json_int (s_RequestBytes x));
    always "content_type" (JStr (s_ContentType x)); omitempty "influence_sequence" (s_InfluenceSequence x =? 0) (json_int (s_InfluenceSequence x));
    omitempty "influence_hash" (empty_string (s_InfluenceHash x)) (JStr (s_InfluenceHash x)); always "not_before" (JStr (s_NotBefore x));
    always "expires_at" (JStr (s_ExpiresAt x))];
  of_json v := match v with
    | JObj fs =>
        v_SchemaVersion ← field fs "schema_version" dec_string ""%string; v_EffectMode ← field fs "effect_mode" dec_string ""%string;
        v_ApprovalThreshold ← field fs "approval_threshold" dec_int 0; v_NodeID ← field fs "node_id" dec_string ""%string;
        v_TenantID ← field fs "tenant_id" dec_string ""%string; v_InstanceID ← field fs "instance_id" dec_string ""%string;
        v_Generation ← field fs "generation" dec_u64 0; v_CapsuleDigest ← field fs "capsule_digest" dec_string ""%string;
        v_PolicyDigest ← field fs "policy_digest" dec_string ""%string; v_RoutePolicyDigest ← field fs "route_policy_digest" dec_string ""%string;
        v_ConnectorID ← field fs "connector_id" dec_string ""%string; v_OperationID ← field fs "operation_id" dec_string ""%string;
        v_OperationDigest ← field fs "operation_policy_digest" dec_string ""%string; v_TaskID ← field fs "task_id" dec_string ""%string;
        v_RequestDigest ← field fs "request_digest" dec_string ""%string; v_RequestBytes ← field fs "request_bytes" dec_int 0;
        v_ContentType ← field fs "content_type" dec_string ""%string; v_InfluenceSequence ← field fs "influence_sequence" dec_u64 0;
        v_InfluenceHash ← field fs "influence_hash" dec_string ""%string; v_NotBefore ← field fs "not_before" dec_string ""%string;
        v_ExpiresAt ← field fs "expires_at" dec_string ""%string;
        Some (mkStatement v_SchemaVersion v_EffectMode v_ApprovalThreshold v_NodeID v_TenantID v_InstanceID v_Generation v_CapsuleDigest v_PolicyDigest v_RoutePolicyDigest v_ConnectorID v_OperationID v_OperationDigest v_TaskID v_RequestDigest v_RequestBytes v_ContentType v_InfluenceSequence v_InfluenceHash v_NotBefore v_ExpiresAt)
    | _ => None end;
  storable x :=
    utf8_valid (s_SchemaVersion x) && utf8_valid (s_EffectMode x) && in_int64b (s_ApprovalThreshold x) && utf8_valid (s_NodeID x) &&
    utf8_valid (s_TenantID x) && utf8_valid (s_InstanceID x) && in_u64b (s_Generation x) && utf8_valid (s_CapsuleDigest x) &&
    utf8_valid (s_PolicyDigest x) && utf8_valid (s_RoutePolicyDigest x) && utf8_valid (s_ConnectorID x) && utf8_valid (s_OperationID x) &&
    utf8_valid (s_OperationDigest x) && utf8_valid (s_TaskID x) && utf8_valid (s_RequestDigest x) && in_int64b (s_RequestBytes x) &&
    utf8_valid (s_ContentType x) && in_u64b (s_InfluenceSequence x) && utf8_valid (s_InfluenceHash x) && utf8_valid (s_NotBefore x) &&
    utf8_valid (s_ExpiresAt x);
}.

#[global] Instance Statement_laws : GoJSONLaws Statement 1.
Proof. struct_laws. Qed.

Definition zero_statementV5Wire : statementV5Wire := mkstatementV5Wire "" "" 0 "" "" "" 0 "" "" "" "" "" "" "" "" 0 "" 0 "" "" "".

#[global] Instance statementV5Wire_json : GoJSON statementV5Wire := {
  go_shape := KStruct [
    ("schema_version", KString); ("effect_mode", KString); ("approval_threshold", KInt); ("node_id", KString); ("tenant_id", KString);
    ("instance_id", KString); ("generation", KInt); ("capsule_digest", KString); ("policy_digest", KString); ("route_policy_digest", KString);
    ("connector_id", KString); ("operation_id", KString); ("operation_policy_digest", KString); ("task_id", KString); ("request_digest", KString);
    ("request_bytes", KInt); ("content_type", KString); ("influence_sequence", KInt); ("influence_hash", KString); ("not_before", KString);
    ("expires_at", KString)]%string;
  to_json x := obj [
    always "schema_version" (JStr (f_SchemaVersion x)); always "effect_mode" (JStr (f_EffectMode x));
    always "approval_threshold" (json_int (f_ApprovalThreshold x)); always "node_id" (JStr (f_NodeID x)); always "tenant_id" (JStr (f_TenantID x));
    always "instance_id" (JStr (f_InstanceID x)); always "generation" (json_int (f_Generation x)); always "capsule_digest" (JStr (f_CapsuleDigest x));
    always "policy_digest" (JStr (f_PolicyDigest x)); always "route_policy_digest" (JStr (f_RoutePolicyDigest x));
    always "connector_id" (JStr (f_ConnectorID x)); always "operation_id" (JStr (f_OperationID x));
    always "operation_policy_digest" (JStr (f_OperationDigest x)); always "task_id" (JStr (f_TaskID x));
    always "request_digest" (JStr (f_RequestDigest x)); always "request_bytes" (json_int (f_RequestBytes x));
    always "content_type" (JStr (f_ContentType x)); always "influence_sequence" (json_int (f_InfluenceSequence x));
    always "influence_hash" (JStr (f_InfluenceHash x)); always "not_before" (JStr (f_NotBefore x)); always "expires_at" (JStr (f_ExpiresAt x))];
  of_json v := match v with
    | JObj fs =>
        v_SchemaVersion ← field fs "schema_version" dec_string ""%string; v_EffectMode ← field fs "effect_mode" dec_string ""%string;
        v_ApprovalThreshold ← field fs "approval_threshold" dec_int 0; v_NodeID ← field fs "node_id" dec_string ""%string;
        v_TenantID ← field fs "tenant_id" dec_string ""%string; v_InstanceID ← field fs "instance_id" dec_string ""%string;
        v_Generation ← field fs "generation" dec_u64 0; v_CapsuleDigest ← field fs "capsule_digest" dec_string ""%string;
        v_PolicyDigest ← field fs "policy_digest" dec_string ""%string; v_RoutePolicyDigest ← field fs "route_policy_digest" dec_string ""%string;
        v_ConnectorID ← field fs "connector_id" dec_string ""%string; v_OperationID ← field fs "operation_id" dec_string ""%string;
        v_OperationDigest ← field fs "operation_policy_digest" dec_string ""%string; v_TaskID ← field fs "task_id" dec_string ""%string;
        v_RequestDigest ← field fs "request_digest" dec_string ""%string; v_RequestBytes ← field fs "request_bytes" dec_int 0;
        v_ContentType ← field fs "content_type" dec_string ""%string; v_InfluenceSequence ← field fs "influence_sequence" dec_u64 0;
        v_InfluenceHash ← field fs "influence_hash" dec_string ""%string; v_NotBefore ← field fs "not_before" dec_string ""%string;
        v_ExpiresAt ← field fs "expires_at" dec_string ""%string;
        Some (mkstatementV5Wire v_SchemaVersion v_EffectMode v_ApprovalThreshold v_NodeID v_TenantID v_InstanceID v_Generation v_CapsuleDigest v_PolicyDigest v_RoutePolicyDigest v_ConnectorID v_OperationID v_OperationDigest v_TaskID v_RequestDigest v_RequestBytes v_ContentType v_InfluenceSequence v_InfluenceHash v_NotBefore v_ExpiresAt)
    | _ => None end;
  storable x :=
    utf8_valid (f_SchemaVersion x) && utf8_valid (f_EffectMode x) && in_int64b (f_ApprovalThreshold x) && utf8_valid (f_NodeID x) &&
    utf8_valid (f_TenantID x) && utf8_valid (f_InstanceID x) && in_u64b (f_Generation x) && utf8_valid (f_CapsuleDigest x) &&
    utf8_valid (f_PolicyDigest x) && utf8_valid (f_RoutePolicyDigest x) && utf8_valid (f_ConnectorID x) && utf8_valid (f_OperationID x) &&
    utf8_valid (f_OperationDigest x) && utf8_valid (f_TaskID x) && utf8_valid (f_RequestDigest x) && in_int64b (f_RequestBytes x) &&
    utf8_valid (f_ContentType x) && in_u64b (f_InfluenceSequence x) && utf8_valid (f_InfluenceHash x) && utf8_valid (f_NotBefore x) &&
    utf8_valid (f_ExpiresAt x);
}.

#[global] Instance statementV5Wire_laws : GoJSONLaws statementV5Wire 1.
Proof. struct_laws. Qed.

Definition zero_BundleStep : BundleStep := mkBundleStep "" "" "" "" "" "" 0 "".

#[global] Instance BundleStep_json : GoJSON BundleStep := {
  go_shape := KStruct [
    ("step_id", KString); ("connector_id", KString); ("operation_id", KString); ("operation_policy_digest", KString); ("task_id", KString);
    ("request_digest", KString); ("request_bytes", KInt); ("content_type", KString)]%string;
  to_json x := obj [
    always "step_id" (JStr (b_StepID x)); always "connector_id" (JStr (b_ConnectorID x)); always "operation_id" (JStr (b_OperationID x));
    always "operation_policy_digest" (JStr (b_OperationDigest x)); always "task_id" (JStr (b_TaskID x));
    always "request_digest" (JStr (b_RequestDigest x)); always "request_bytes" (json_int (b_RequestBytes x));
    always "content_type" (JStr (b_ContentType x))];
  of_json v := match v with
    | JObj fs =>
        v_StepID ← field fs "step_id" dec_string ""%string; v_ConnectorID ← field fs "connector_id" dec_string ""%string;
        v_OperationID ← field fs "operation_id" dec_string ""%string; v_OperationDigest ← field fs "operation_policy_digest" dec_string ""%string;
        v_TaskID ← field fs "task_id" dec_string ""%string; v_RequestDigest ← field fs "request_digest" dec_string ""%string;
        v_RequestBytes ← field fs "request_bytes" dec_int 0; v_ContentType ← field fs "content_type" dec_string ""%string;
        Some (mkBundleStep v_StepID v_ConnectorID v_OperationID v_OperationDigest v_TaskID v_RequestDigest v_RequestBytes v_ContentType)
    | _ => None end;
  storable x :=
    utf8_valid (b_StepID x) && utf8_valid (b_ConnectorID x) && utf8_valid (b_OperationID x) && utf8_valid (b_OperationDigest x) &&
    utf8_valid (b_TaskID x) && utf8_valid (b_RequestDigest x) && in_int64b (b_RequestBytes x) && utf8_valid (b_ContentType x);
}.

#[global] Instance BundleStep_laws : GoJSONLaws BundleStep 1.
Proof. struct_laws. Qed.

Definition zero_BundleStatement : BundleStatement := mkBundleStatement "" "" 0 "" "" "" 0 "" "" "" "" None "" "".

#[global] Instance BundleStatement_json : GoJSON BundleStatement := {
  go_shape := KStruct [
    ("schema_version", KString); ("effect_mode", KString); ("approval_threshold", KInt); ("node_id", KString); ("tenant_id", KString);
    ("instance_id", KString); ("generation", KInt); ("capsule_digest", KString); ("policy_digest", KString); ("route_policy_digest", KString);
    ("bundle_id", KString); ("steps", KSlice (go_shape (A := BundleStep))); ("not_before", KString); ("expires_at", KString)]%string;
  to_json x := obj [
    always "schema_version" (JStr (bs_SchemaVersion x)); always "effect_mode" (JStr (bs_EffectMode x));
    always "approval_threshold" (json_int (bs_ApprovalThreshold x)); always "node_id" (JStr (bs_NodeID x)); always "tenant_id" (JStr (bs_TenantID x));
    always "instance_id" (JStr (bs_InstanceID x)); always "generation" (json_int (bs_Generation x));
    always "capsule_digest" (JStr (bs_CapsuleDigest x)); always "policy_digest" (JStr (bs_PolicyDigest x));
    always "route_policy_digest" (JStr (bs_RoutePolicyDigest x)); always "bundle_id" (JStr (bs_BundleID x));
    always "steps" (enc_slice to_json (bs_Steps x)); always "not_before" (JStr (bs_NotBefore x)); always "expires_at" (JStr (bs_ExpiresAt x))];
  of_json v := match v with
    | JObj fs =>
        v_SchemaVersion ← field fs "schema_version" dec_string ""%string; v_EffectMode ← field fs "effect_mode" dec_string ""%string;
        v_ApprovalThreshold ← field fs "approval_threshold" dec_int 0; v_NodeID ← field fs "node_id" dec_string ""%string;
        v_TenantID ← field fs "tenant_id" dec_string ""%string; v_InstanceID ← field fs "instance_id" dec_string ""%string;
        v_Generation ← field fs "generation" dec_u64 0; v_CapsuleDigest ← field fs "capsule_digest" dec_string ""%string;
        v_PolicyDigest ← field fs "policy_digest" dec_string ""%string; v_RoutePolicyDigest ← field fs "route_policy_digest" dec_string ""%string;
        v_BundleID ← field fs "bundle_id" dec_string ""%string; v_Steps ← field fs "steps" (dec_slice of_json) None;
        v_NotBefore ← field fs "not_before" dec_string ""%string; v_ExpiresAt ← field fs "expires_at" dec_string ""%string;
        Some (mkBundleStatement v_SchemaVersion v_EffectMode v_ApprovalThreshold v_NodeID v_TenantID v_InstanceID v_Generation v_CapsuleDigest v_PolicyDigest v_RoutePolicyDigest v_BundleID v_Steps v_NotBefore v_ExpiresAt)
    | _ => None end;
  storable x :=
    utf8_valid (bs_SchemaVersion x) && utf8_valid (bs_EffectMode x) && in_int64b (bs_ApprovalThreshold x) && utf8_valid (bs_NodeID x) &&
    utf8_valid (bs_TenantID x) && utf8_valid (bs_InstanceID x) && in_u64b (bs_Generation x) && utf8_valid (bs_CapsuleDigest x) &&
    utf8_valid (bs_PolicyDigest x) && utf8_valid (bs_RoutePolicyDigest x) && utf8_valid (bs_BundleID x) && storable_slice (bs_Steps x) &&
    utf8_valid (bs_NotBefore x) && utf8_valid (bs_ExpiresAt x);
}.

#[global] Instance BundleStatement_laws : GoJSONLaws BundleStatement 3.
Proof. struct_laws. Qed.

#[global] Instance wireStatement_json : GoJSON wireStatement := read_only (KStruct [
    ("schema_version", KPointer KString); ("effect_mode", KRawMessage); ("approval_threshold", KRawMessage); ("node_id", KPointer KString);
    ("tenant_id", KPointer KString); ("instance_id", KPointer KString); ("generation", KPointer KInt); ("capsule_digest", KPointer KString);
    ("policy_digest", KPointer KString); ("route_policy_digest", KPointer KString); ("connector_id", KPointer KString);
    ("operation_id", KPointer KString); ("operation_policy_digest", KPointer KString); ("task_id", KPointer KString);
    ("request_digest", KPointer KString); ("request_bytes", KPointer KInt); ("content_type", KPointer KString); ("influence_sequence", KPointer KInt);
    ("influence_hash", KPointer KString); ("not_before", KPointer KString); ("expires_at", KPointer KString)]%string)
  (fun v => match v with
    | JObj fs =>
        v_SchemaVersion ← field fs "schema_version" (dec_ptr dec_string) None; v_EffectMode ← field fs "effect_mode" (fun v => Some (Some v)) None;
        v_ApprovalThreshold ← field fs "approval_threshold" (fun v => Some (Some v)) None; v_NodeID ← field fs "node_id" (dec_ptr dec_string) None;
        v_TenantID ← field fs "tenant_id" (dec_ptr dec_string) None; v_InstanceID ← field fs "instance_id" (dec_ptr dec_string) None;
        v_Generation ← field fs "generation" (dec_ptr dec_u64) None; v_CapsuleDigest ← field fs "capsule_digest" (dec_ptr dec_string) None;
        v_PolicyDigest ← field fs "policy_digest" (dec_ptr dec_string) None;
        v_RoutePolicyDigest ← field fs "route_policy_digest" (dec_ptr dec_string) None;
        v_ConnectorID ← field fs "connector_id" (dec_ptr dec_string) None; v_OperationID ← field fs "operation_id" (dec_ptr dec_string) None;
        v_OperationDigest ← field fs "operation_policy_digest" (dec_ptr dec_string) None; v_TaskID ← field fs "task_id" (dec_ptr dec_string) None;
        v_RequestDigest ← field fs "request_digest" (dec_ptr dec_string) None; v_RequestBytes ← field fs "request_bytes" (dec_ptr dec_int) None;
        v_ContentType ← field fs "content_type" (dec_ptr dec_string) None; v_InfluenceSequence ← field fs "influence_sequence" (dec_ptr dec_u64) None;
        v_InfluenceHash ← field fs "influence_hash" (dec_ptr dec_string) None; v_NotBefore ← field fs "not_before" (dec_ptr dec_string) None;
        v_ExpiresAt ← field fs "expires_at" (dec_ptr dec_string) None;
        Some (mkwireStatement v_SchemaVersion v_EffectMode v_ApprovalThreshold v_NodeID v_TenantID v_InstanceID v_Generation v_CapsuleDigest v_PolicyDigest v_RoutePolicyDigest v_ConnectorID v_OperationID v_OperationDigest v_TaskID v_RequestDigest v_RequestBytes v_ContentType v_InfluenceSequence v_InfluenceHash v_NotBefore v_ExpiresAt)
    | _ => None end).

#[global] Instance wireBundleStep_json : GoJSON wireBundleStep := read_only (KStruct [
    ("step_id", KPointer KString); ("connector_id", KPointer KString); ("operation_id", KPointer KString);
    ("operation_policy_digest", KPointer KString); ("task_id", KPointer KString); ("request_digest", KPointer KString);
    ("request_bytes", KPointer KInt); ("content_type", KPointer KString)]%string)
  (fun v => match v with
    | JObj fs =>
        v_StepID ← field fs "step_id" (dec_ptr dec_string) None; v_ConnectorID ← field fs "connector_id" (dec_ptr dec_string) None;
        v_OperationID ← field fs "operation_id" (dec_ptr dec_string) None;
        v_OperationDigest ← field fs "operation_policy_digest" (dec_ptr dec_string) None; v_TaskID ← field fs "task_id" (dec_ptr dec_string) None;
        v_RequestDigest ← field fs "request_digest" (dec_ptr dec_string) None; v_RequestBytes ← field fs "request_bytes" (dec_ptr dec_int) None;
        v_ContentType ← field fs "content_type" (dec_ptr dec_string) None;
        Some (mkwireBundleStep v_StepID v_ConnectorID v_OperationID v_OperationDigest v_TaskID v_RequestDigest v_RequestBytes v_ContentType)
    | _ => None end).

#[global] Instance wireBundleStatement_json : GoJSON wireBundleStatement := read_only (KStruct [
    ("schema_version", KPointer KString); ("effect_mode", KPointer KString); ("approval_threshold", KPointer KInt); ("node_id", KPointer KString);
    ("tenant_id", KPointer KString); ("instance_id", KPointer KString); ("generation", KPointer KInt); ("capsule_digest", KPointer KString);
    ("policy_digest", KPointer KString); ("route_policy_digest", KPointer KString); ("bundle_id", KPointer KString);
    ("steps", KPointer (KSlice (go_shape (A := wireBundleStep)))); ("not_before", KPointer KString); ("expires_at", KPointer KString)]%string)
  (fun v => match v with
    | JObj fs =>
        v_SchemaVersion ← field fs "schema_version" (dec_ptr dec_string) None; v_EffectMode ← field fs "effect_mode" (dec_ptr dec_string) None;
        v_ApprovalThreshold ← field fs "approval_threshold" (dec_ptr dec_int) None; v_NodeID ← field fs "node_id" (dec_ptr dec_string) None;
        v_TenantID ← field fs "tenant_id" (dec_ptr dec_string) None; v_InstanceID ← field fs "instance_id" (dec_ptr dec_string) None;
        v_Generation ← field fs "generation" (dec_ptr dec_u64) None; v_CapsuleDigest ← field fs "capsule_digest" (dec_ptr dec_string) None;
        v_PolicyDigest ← field fs "policy_digest" (dec_ptr dec_string) None;
        v_RoutePolicyDigest ← field fs "route_policy_digest" (dec_ptr dec_string) None; v_BundleID ← field fs "bundle_id" (dec_ptr dec_string) None;
        v_Steps ← field fs "steps" (dec_ptr (dec_slice of_json)) None; v_NotBefore ← field fs "not_before" (dec_ptr dec_string) None;
        v_ExpiresAt ← field fs "expires_at" (dec_ptr dec_string) None;
        Some (mkwireBundleStatement v_SchemaVersion v_EffectMode v_ApprovalThreshold v_NodeID v_TenantID v_InstanceID v_Generation v_CapsuleDigest v_PolicyDigest v_RoutePolicyDigest v_BundleID v_Steps v_NotBefore v_ExpiresAt)
    | _ => None end).

(** ** Writing and reading statements *)

Definition RequestDigest (raw : bytes) : string := "sha256:" +:+ string_of (hex_encode (Sha256.sum raw)).

Definition statement_v5 (s : Statement) : statementV5Wire :=
  mkstatementV5Wire (s_SchemaVersion s) (s_EffectMode s) (s_ApprovalThreshold s) (s_NodeID s) (s_TenantID s) (s_InstanceID s) (s_Generation s)
  (s_CapsuleDigest s) (s_PolicyDigest s) (s_RoutePolicyDigest s) (s_ConnectorID s) (s_OperationID s) (s_OperationDigest s) (s_TaskID s)
  (s_RequestDigest s) (s_RequestBytes s) (s_ContentType s) (s_InfluenceSequence s) (s_InfluenceHash s) (s_NotBefore s) (s_ExpiresAt s).

Definition MarshalStatement (s : Statement) (payloadType : string) : bytes :=
  if negb (String.eqb payloadType PayloadTypeV5) then json_print (to_json s) else json_print (to_json (statement_v5 s)).

(** A member kept raw: [null] is refused, whatever else is decoded into its type. *)
Definition raw_member {A} (decode : json -> option A) (zero : A) (raw : option json) : option A :=
  match raw with None => Some zero | Some JNull => None | Some v => decode v end.

(** The members a version must have and must not have. *)
Definition version_mismatch (wire : wireStatement) (payloadType : string) : bool :=
  let noMode := nil_ptr (w_EffectMode wire) in let noThreshold := nil_ptr (w_ApprovalThreshold wire) in
  let noSequence := nil_ptr (w_InfluenceSequence wire) in let noHash := nil_ptr (w_InfluenceHash wire) in
  String.eqb payloadType PayloadTypeV1 && (negb noMode || negb noThreshold || negb noSequence || negb noHash)
  || String.eqb payloadType PayloadTypeV2 && (noMode || negb noThreshold || negb noSequence || negb noHash)
  || String.eqb payloadType PayloadTypeV3 && (noMode || noThreshold || negb noSequence || negb noHash)
  || String.eqb payloadType PayloadTypeV5 && (noMode || noThreshold || noSequence || noHash).

Definition statement (wire : wireStatement) (payloadType : string) : option Statement :=
  v_SchemaVersion ← w_SchemaVersion wire; v_NodeID ← w_NodeID wire; v_TenantID ← w_TenantID wire; v_InstanceID ← w_InstanceID wire;
  v_Generation ← w_Generation wire; v_CapsuleDigest ← w_CapsuleDigest wire; v_PolicyDigest ← w_PolicyDigest wire;
  v_RoutePolicyDigest ← w_RoutePolicyDigest wire; v_ConnectorID ← w_ConnectorID wire; v_OperationID ← w_OperationID wire;
  v_OperationDigest ← w_OperationDigest wire; v_TaskID ← w_TaskID wire; v_RequestDigest ← w_RequestDigest wire; v_RequestBytes ← w_RequestBytes wire;
  v_ContentType ← w_ContentType wire; v_NotBefore ← w_NotBefore wire; v_ExpiresAt ← w_ExpiresAt wire;
  if version_mismatch wire payloadType then None else
  v_EffectMode ← raw_member dec_string ""%string (w_EffectMode wire); v_ApprovalThreshold ← raw_member dec_int 0 (w_ApprovalThreshold wire);
  Some (mkStatement v_SchemaVersion v_EffectMode v_ApprovalThreshold v_NodeID v_TenantID v_InstanceID v_Generation v_CapsuleDigest v_PolicyDigest v_RoutePolicyDigest v_ConnectorID v_OperationID v_OperationDigest v_TaskID v_RequestDigest v_RequestBytes v_ContentType (default 0 (w_InfluenceSequence wire)) (default ""%string (w_InfluenceHash wire)) v_NotBefore v_ExpiresAt).

Definition decode_statement (payloadType : string) (payload : bytes) : result Statement :=
  let* wire := DecodeStrictInto (A := wireStatement) payload MaxEnvelopeBytes in
  opt_ok (statement wire payloadType) "signed statement omits a required field".

Definition step (wire : wireBundleStep) : option BundleStep :=
  v_StepID ← q_StepID wire; v_ConnectorID ← q_ConnectorID wire; v_OperationID ← q_OperationID wire; v_OperationDigest ← q_OperationDigest wire;
  v_TaskID ← q_TaskID wire; v_RequestDigest ← q_RequestDigest wire; v_RequestBytes ← q_RequestBytes wire; v_ContentType ← q_ContentType wire;
  Some (mkBundleStep v_StepID v_ConnectorID v_OperationID v_OperationDigest v_TaskID v_RequestDigest v_RequestBytes v_ContentType).

Fixpoint bundle_steps (l : list wireBundleStep) : result (list BundleStep) :=
  match l with
  | [] => Ok []
  | wireStep :: l =>
      let* s := opt_ok (step wireStep) "signed bundle step omits a required field" in
      let* steps := bundle_steps l in Ok (s :: steps)
  end.

(** The members of a bundle, every one of them present; a pointer to a nil slice holds no steps. *)
Definition bundle_members (wire : wireBundleStatement) : option (BundleStatement * list wireBundleStep) :=
  v_SchemaVersion ← wb_SchemaVersion wire; v_EffectMode ← wb_EffectMode wire; v_ApprovalThreshold ← wb_ApprovalThreshold wire;
  v_NodeID ← wb_NodeID wire; v_TenantID ← wb_TenantID wire; v_InstanceID ← wb_InstanceID wire; v_Generation ← wb_Generation wire;
  v_CapsuleDigest ← wb_CapsuleDigest wire; v_PolicyDigest ← wb_PolicyDigest wire; v_RoutePolicyDigest ← wb_RoutePolicyDigest wire;
  v_BundleID ← wb_BundleID wire; v_Steps ← wb_Steps wire; v_NotBefore ← wb_NotBefore wire; v_ExpiresAt ← wb_ExpiresAt wire;
  Some (mkBundleStatement v_SchemaVersion v_EffectMode v_ApprovalThreshold v_NodeID v_TenantID v_InstanceID v_Generation v_CapsuleDigest v_PolicyDigest v_RoutePolicyDigest v_BundleID None v_NotBefore v_ExpiresAt, default [] v_Steps).
Definition with_steps (b : BundleStatement) (steps : list BundleStep) : BundleStatement :=
  mkBundleStatement (bs_SchemaVersion b) (bs_EffectMode b) (bs_ApprovalThreshold b) (bs_NodeID b) (bs_TenantID b) (bs_InstanceID b) (bs_Generation b)
  (bs_CapsuleDigest b) (bs_PolicyDigest b) (bs_RoutePolicyDigest b) (bs_BundleID b) (Some steps) (bs_NotBefore b) (bs_ExpiresAt b).

Definition decodeBundleStatement (payload : bytes) : result BundleStatement :=
  let* wire := DecodeStrictInto (A := wireBundleStatement) payload MaxEnvelopeBytes in
  let* (b, wireSteps) := opt_ok (bundle_members wire) "signed bundle statement omits a required field" in
  let* steps := bundle_steps wireSteps in Ok (with_steps b steps).

(** ** Validation *)

Definition validateRuntimeBinding (nodeID tenantID instanceID : string) (generation : Z) (capsuleDigest policyDigest routePolicyDigest : string) : result unit :=
  require publicIdentity nodeID 128 && publicIdentity tenantID 128 && publicIdentity instanceID 256 else "statement contains an invalid identity" in
  require negb (generation =? 0) else "generation must be positive" in
  require digest capsuleDigest && digest policyDigest && digest routePolicyDigest else "statement contains an invalid SHA-256 digest" in Ok tt.

Definition validateRequestBinding (operationDigest requestDigest : string) (requestBytes : Z) (contentType : string) : result unit :=
  require digest operationDigest && digest requestDigest else "request binding contains an invalid SHA-256 digest" in
  require negb ((requestBytes <? 0) || (MaxRequestBytes <? requestBytes)) else "request size is outside the supported range" in
  require String.eqb contentType "" || String.eqb contentType "application/json" else "content type must be empty or application/json" in
  require negb (String.eqb contentType "" && (negb (requestBytes =? 0) || negb (String.eqb requestDigest (RequestDigest []))))
    else "bodyless operation must bind the empty request" in
  require negb (String.eqb contentType "application/json" && (requestBytes =? 0)) else "JSON operation must bind a non-empty request" in Ok tt.

(** The first switch of [validateStatement]. *)
Definition supported_version (s : Statement) (payloadType : string) : bool :=
  if String.eqb payloadType PayloadTypeV1 then String.eqb (s_SchemaVersion s) SchemaV1 && String.eqb (s_EffectMode s) ""
  else if String.eqb payloadType PayloadTypeV2 then
    String.eqb (s_SchemaVersion s) SchemaV2 && String.eqb (s_EffectMode s) EffectModeAuthorized && (s_ApprovalThreshold s =? 0)
  else if String.eqb payloadType PayloadTypeV3 then
    String.eqb (s_SchemaVersion s) SchemaV3 && String.eqb (s_EffectMode s) EffectModeAuthorized && (2 <=? s_ApprovalThreshold s) && (s_ApprovalThreshold s <=? 8)
  else if String.eqb payloadType PayloadTypeV5 then
    String.eqb (s_SchemaVersion s) SchemaV5 && String.eqb (s_EffectMode s) EffectModeAuthorized && (1 <=? s_ApprovalThreshold s)
    && (s_ApprovalThreshold s <=? 8) && digest (s_InfluenceHash s)
  else false.

Definition validateStatement (s : Statement) (payloadType : string) (now maxValidity : Z) : result unit :=
  require supported_version s payloadType else "payload type, schema version, and effect mode do not form a supported permit version" in
  let* _ := validateRuntimeBinding (s_NodeID s) (s_TenantID s) (s_InstanceID s) (s_Generation s) (s_CapsuleDigest s) (s_PolicyDigest s) (s_RoutePolicyDigest s) in
  require identifier (s_ConnectorID s) && identifier (s_OperationID s) && identifier (s_TaskID s) else "statement contains an invalid identifier" in
  let* _ := validateRequestBinding (s_OperationDigest s) (s_RequestDigest s) (s_RequestBytes s) (s_ContentType s) in
  validateValidity (s_NotBefore s) (s_ExpiresAt s) now maxValidity.

(** The loop over the steps: the previous step ID and the task IDs seen. *)
Fixpoint validate_steps (previousStepID : string) (seenTasks : list string) (steps : list BundleStep) : result unit :=
  match steps with
  | [] => Ok tt
  | s :: steps =>
      require identifier (b_StepID s) && identifier (b_ConnectorID s) && identifier (b_OperationID s) && identifier (b_TaskID s)
        else "bundle step contains an invalid identifier" in
      require String.eqb previousStepID "" || str_lt previousStepID (b_StepID s) else "bundle steps must have unique step IDs in ascending order" in
      require negb (seenb (b_TaskID s) seenTasks) else "bundle steps must have unique task IDs" in
      let* _ := validateRequestBinding (b_OperationDigest s) (b_RequestDigest s) (b_RequestBytes s) (b_ContentType s) in
      validate_steps (b_StepID s) (b_TaskID s :: seenTasks) steps
  end.

Definition steps_of (b : BundleStatement) : list BundleStep := default [] (bs_Steps b).

Definition validateBundleStatement (b : BundleStatement) (now maxValidity : Z) : result unit :=
  require String.eqb (bs_SchemaVersion b) SchemaV4 && String.eqb (bs_EffectMode b) EffectModeAuthorized && (1 <=? bs_ApprovalThreshold b)
    && (bs_ApprovalThreshold b <=? MaxBundleSteps) else "payload type, schema version, effect mode, and approval threshold do not form a supported bundle version" in
  let* _ := validateRuntimeBinding (bs_NodeID b) (bs_TenantID b) (bs_InstanceID b) (bs_Generation b) (bs_CapsuleDigest b) (bs_PolicyDigest b) (bs_RoutePolicyDigest b) in
  require identifier (bs_BundleID b) else "bundle contains an invalid identifier" in
  require negb (zlen (steps_of b) =? 0) && (zlen (steps_of b) <=? MaxBundleSteps) else "bundle must contain between 1 and 8 exact steps" in
  let* _ := validate_steps "" [] (steps_of b) in
  validateValidity (bs_NotBefore b) (bs_ExpiresAt b) now maxValidity.

(** ** What a valid statement is *)

Record runtime_binding (node tenant inst : string) (generation : Z) (capsule policy route : string) : Prop := {
  rb_identity : publicIdentity node 128 = true /\ publicIdentity tenant 128 = true /\ publicIdentity inst 256 = true;
  rb_generation : generation <> 0;
  rb_digests : digest capsule = true /\ digest policy = true /\ digest route = true;
}.

(** The request: no body at all, or a JSON body. *)
Record request_binding (operation request : string) (size : Z) (content : string) : Prop := {
  qb_digests : digest operation = true /\ digest request = true;
  qb_body : content = ""%string /\ size = 0 /\ request = RequestDigest [] \/ content = "application/json"%string /\ 0 < size <= MaxRequestBytes;
}.

Definition window (notBefore expires : string) (now maxValidity : Z) : Prop :=
  exists b e, canonicalTime notBefore = Some b /\ canonicalTime expires = Some e /\ b <= now < e /\ e - b <= maxValidity.

Record valid (s : Statement) (t : string) (now maxValidity : Z) : Prop := {
  va_version : supported_version s t = true;
  va_runtime : runtime_binding (s_NodeID s) (s_TenantID s) (s_InstanceID s) (s_Generation s) (s_CapsuleDigest s) (s_PolicyDigest s) (s_RoutePolicyDigest s);
  va_names : identifier (s_ConnectorID s) = true /\ identifier (s_OperationID s) = true /\ identifier (s_TaskID s) = true;
  va_request : request_binding (s_OperationDigest s) (s_RequestDigest s) (s_RequestBytes s) (s_ContentType s);
  va_window : window (s_NotBefore s) (s_ExpiresAt s) now maxValidity;
}.

Record valid_step (s : BundleStep) : Prop := {
  vs_names : identifier (b_StepID s) = true /\ identifier (b_ConnectorID s) = true /\ identifier (b_OperationID s) = true /\ identifier (b_TaskID s) = true;
  vs_request : request_binding (b_OperationDigest s) (b_RequestDigest s) (b_RequestBytes s) (b_ContentType s);
}.

Record valid_bundle (b : BundleStatement) (now maxValidity : Z) : Prop := {
  vb_version : bs_SchemaVersion b = SchemaV4 /\ bs_EffectMode b = EffectModeAuthorized /\ 1 <= bs_ApprovalThreshold b <= MaxBundleSteps;
  vb_runtime : runtime_binding (bs_NodeID b) (bs_TenantID b) (bs_InstanceID b) (bs_Generation b) (bs_CapsuleDigest b) (bs_PolicyDigest b) (bs_RoutePolicyDigest b);
  vb_name : identifier (bs_BundleID b) = true;
  vb_count : 1 <= zlen (steps_of b) <= MaxBundleSteps;
  vb_steps : Forall valid_step (steps_of b);
  vb_order : StronglySorted (fun x y => str_lt x y = true) (b_StepID <$> steps_of b);
  vb_tasks : NoDup (b_TaskID <$> steps_of b);
  vb_window : window (bs_NotBefore b) (bs_ExpiresAt b) now maxValidity;
}.

Lemma runtime_spec node tenant inst generation capsule policy route :
  validateRuntimeBinding node tenant inst generation capsule policy route = Ok tt <-> runtime_binding node tenant inst generation capsule policy route.
Proof.
  unfold validateRuntimeBinding. split.
  - intros H. steps H. breflect. constructor; try done; split_and!; done.
  - intros [(-> & -> & ->) Hg (-> & -> & ->)]. cbn [andb]. by rewrite (proj2 (Z.eqb_neq _ _) Hg).
Qed.

Lemma request_spec operation request size content : validateRequestBinding operation request size content = Ok tt <-> request_binding operation request size content.
Proof.
  unfold validateRequestBinding. change MaxRequestBytes with 4194304. split.
  - intros H. do 5 step H. destruct (String.eqb_spec content "") as [Ec|]; [|destruct (String.eqb_spec content "application/json") as [Ec|]]; cbn [andb orb] in *; try done; breflect.
    + constructor; [done|]. left. split_and!; try done. by apply String.eqb_eq.
    + constructor; [done|]. right. change MaxRequestBytes with 4194304. split; [done|lia].
  - intros [(-> & ->) [(-> & -> & ->) | (-> & Hs)]].
    + cbn [andb orb negb Z.eqb Z.ltb Z.compare String.eqb]. by rewrite String.eqb_refl.
    + change MaxRequestBytes with 4194304 in Hs. rewrite (proj2 (Z.ltb_ge size 0)), (proj2 (Z.ltb_ge _ size)), (proj2 (Z.eqb_neq size 0)) by lia. done.
Qed.

Lemma action_validate_spec s t now maxValidity : validateStatement s t now maxValidity = Ok tt <-> valid s t now maxValidity.
Proof.
  unfold validateStatement. split.
  - intros H. step H. destruct (validateRuntimeBinding _ _ _ _ _ _ _) as [[]|] eqn:Er; [|done]. step H. destruct (validateRequestBinding _ _ _ _) as [[]|] eqn:Eq; [|done].
    apply validity_inv in H. breflect. constructor; [done | by apply runtime_spec | done | by apply request_spec | done].
  - intros [-> Hr (-> & -> & ->) Hq Hw]. by rewrite (proj2 (runtime_spec _ _ _ _ _ _ _) Hr), (proj2 (request_spec _ _ _ _) Hq), (proj2 (validity_inv _ _ _ _) Hw).
Qed.

Lemma identifier_not_empty s : identifier s = true -> s <> ""%string.
Proof. intros H ->. done. Qed.

Lemma steps_spec previous seen l : (previous = ""%string \/ identifier previous = true) -> validate_steps previous seen l = Ok tt <->
  Forall valid_step l /\ StronglySorted (fun x y => str_lt x y = true) ((if String.eqb previous "" then [] else [previous]) ++ (b_StepID <$> l)) /\
  NoDup (b_TaskID <$> l) /\ (forall k, k ∈ b_TaskID <$> l -> k ∉ seen).
Proof.
  revert previous seen. induction l as [|s l IH]; intros previous seen Hp.
  { split; [|done]. intros _. split; [constructor|]. split; [destruct (String.eqb previous ""); repeat constructor|]. split; [constructor | by intros ? ?%not_elem_of_nil]. }
  cbn [validate_steps]. rewrite !fmap_cons, NoDup_cons. split.
  - intros H. do 3 step H. destruct (validateRequestBinding _ _ _ _) as [[]|] eqn:Eq; [|done]. breflect. apply IH in H as (Hl & Hs & Hn & Hd); [|by right].
    match goal with Hx : identifier (b_StepID s) = true |- _ => apply identifier_not_empty in Hx as Hne end. rewrite (proj2 (String.eqb_neq _ _) Hne) in Hs. cbn [app] in Hs.
    split_and!.
    + constructor; [constructor; [done | by apply request_spec] | done].
    + destruct (String.eqb_spec previous ""); cbn [app]; [done|]. constructor; [done|]. match goal with Hx : _ = true \/ _ = true |- _ => destruct Hx as [Hx|Hx]; [done|] end.
      inversion_clear Hs as [|? ? _ HF]. constructor; [done|]. eapply Forall_impl; [exact HF|]. intros k Hk. by eapply str_lt_trans.
    + intros Hin. apply (Hd _ Hin). by left.
    + done.
    + intros k [->|Hk]%elem_of_cons; [by rewrite <- seenb_true; intros Hx; congruence|]. intros Hin. apply (Hd _ Hk). by right.
  - intros (Hl & Hs & (Hn & Hnd) & Hd). apply Forall_cons in Hl as [[(H1 & H2 & H3 & H4) Hq] Hl']. rewrite H1, H2, H3, H4. cbn [andb].
    pose proof (identifier_not_empty _ H1) as Hne. assert (String.eqb previous "" || str_lt previous (b_StepID s) = true) as ->.
    { destruct (String.eqb_spec previous ""); [done|]. cbn [orb app] in *. inversion_clear Hs as [|? ? _ HF]. by inversion_clear HF. }
    rewrite seenb_false by (apply Hd; left). cbn [negb]. rewrite (proj2 (request_spec _ _ _ _) Hq). apply IH; [by right|]. rewrite (proj2 (String.eqb_neq _ _) Hne). cbn [app].
    split_and!; try done; [destruct (String.eqb previous ""); cbn [app] in Hs; [done | by inversion_clear Hs]|].
    intros k Hk [->|Hin]%elem_of_cons; [done|]. eapply Hd; [by right | done].
Qed.

Lemma bundle_spec b now maxValidity : validateBundleStatement b now maxValidity = Ok tt <-> valid_bundle b now maxValidity.
Proof.
  unfold validateBundleStatement. change MaxBundleSteps with 8. split.
  - intros H. step H. destruct (validateRuntimeBinding _ _ _ _ _ _ _) as [[]|] eqn:Er; [|done]. do 2 step H. destruct (validate_steps _ _ _) as [[]|] eqn:Es; [|done].
    apply validity_inv in H. apply steps_spec in Es as (Hl & Hs & Hn & _); [|by left]. pose proof (zlen_nonneg (steps_of b)). breflect.
    repeat match goal with Hx : String.eqb _ _ = true |- _ => apply String.eqb_eq in Hx end.
    constructor; try done; [by apply runtime_spec | change MaxBundleSteps with 8; lia].
  - intros [(-> & -> & Ht) Hr -> Hc Hl Hs Hn Hw]. change MaxBundleSteps with 8 in *. rewrite !String.eqb_refl, (proj2 (Z.leb_le 1 _)), (proj2 (Z.leb_le _ 8)) by lia. cbn [andb].
    rewrite (proj2 (runtime_spec _ _ _ _ _ _ _) Hr), (proj2 (Z.eqb_neq (zlen (steps_of b)) 0)), (proj2 (Z.leb_le _ 8)) by lia. cbn [negb andb].
    rewrite (proj2 (steps_spec "" [] (steps_of b) ltac:(by left))), (proj2 (validity_inv _ _ _ _) Hw); [done|]. split_and!; try done. intros k _. apply not_elem_of_nil.
Qed.

(** ** Reading back a written statement *)

Definition wire_of (s : Statement) : wireStatement :=
  mkwireStatement (Some (s_SchemaVersion s)) (if empty_string (s_EffectMode s) then None else Some (JStr (s_EffectMode s)))
  (if s_ApprovalThreshold s =? 0 then None else Some (json_int (s_ApprovalThreshold s))) (Some (s_NodeID s)) (Some (s_TenantID s))
  (Some (s_InstanceID s)) (Some (s_Generation s)) (Some (s_CapsuleDigest s)) (Some (s_PolicyDigest s)) (Some (s_RoutePolicyDigest s))
  (Some (s_ConnectorID s)) (Some (s_OperationID s)) (Some (s_OperationDigest s)) (Some (s_TaskID s)) (Some (s_RequestDigest s))
  (Some (s_RequestBytes s)) (Some (s_ContentType s)) (if s_InfluenceSequence s =? 0 then None else Some (s_InfluenceSequence s))
  (if empty_string (s_InfluenceHash s) then None else Some (s_InfluenceHash s)) (Some (s_NotBefore s)) (Some (s_ExpiresAt s)).
Definition wire_of_v5 (s : Statement) : wireStatement :=
  mkwireStatement (Some (s_SchemaVersion s)) (Some (JStr (s_EffectMode s))) (Some (json_int (s_ApprovalThreshold s))) (Some (s_NodeID s))
  (Some (s_TenantID s)) (Some (s_InstanceID s)) (Some (s_Generation s)) (Some (s_CapsuleDigest s)) (Some (s_PolicyDigest s))
  (Some (s_RoutePolicyDigest s)) (Some (s_ConnectorID s)) (Some (s_OperationID s)) (Some (s_OperationDigest s)) (Some (s_TaskID s))
  (Some (s_RequestDigest s)) (Some (s_RequestBytes s)) (Some (s_ContentType s)) (Some (s_InfluenceSequence s)) (Some (s_InfluenceHash s))
  (Some (s_NotBefore s)) (Some (s_ExpiresAt s)).

(** What a statement of a version leaves at its zero value. *)
Definition unused (s : Statement) (t : string) : Prop :=
  (t = PayloadTypeV1 -> s_ApprovalThreshold s = 0) /\ (t <> PayloadTypeV5 -> s_InfluenceSequence s = 0 /\ s_InfluenceHash s = ""%string).

(** The integers have the width of their types and the influence hash is a text. *)
Definition typed (s : Statement) : Prop := in_u64 (s_Generation s) /\ in_int64b (s_RequestBytes s) = true /\ in_u64 (s_InfluenceSequence s).

(** A text or a number is a raw message. *)
Lemma raw_leaf d v : (d <= 32)%nat -> match v with JStr _ | JNum _ => True | _ => False end -> validateJSONValue KRawMessage d v = Ok tt.
Proof. intros Hd H. destruct v; try done; cbn [validateJSONValue strip_pointer validateArbitraryJSON]; by rewrite (proj2 (Nat.ltb_ge 32 d)) by lia. Qed.
Ltac wire_member := first
  [ by apply validate_leaf; [lia|] | rewrite validate_pointer by done; by apply validate_leaf; [lia|]
  | by apply raw_leaf; [lia|] ].

Lemma action_wire_of_shape (s : Statement) d : storable s = true -> (d + 1 <= 32)%nat -> validateJSONValue (go_shape (A := wireStatement)) d (to_json s) = Ok tt.
Proof.
  intros H Hd; unfold_json; breflect. cbn [go_shape wireStatement_json read_only].
  struct_shape ltac:(wire_member).
Qed.
Lemma action_wire_of_json (s : Statement) : storable s = true -> of_json (to_json s) = Some (wire_of s).
Proof. intros H; unfold_json; breflect. cbn [of_json wireStatement_json read_only]. wire_read. unfold wire_of. by destruct (empty_string (s_EffectMode s)), (s_ApprovalThreshold s =? 0), (s_InfluenceSequence s =? 0), (empty_string (s_InfluenceHash s)). Qed.

Lemma wire_of_v5_shape (s : statementV5Wire) d : storable s = true -> (d + 1 <= 32)%nat -> validateJSONValue (go_shape (A := wireStatement)) d (to_json s) = Ok tt.
Proof. intros H Hd; unfold_json; breflect. cbn [go_shape wireStatement_json read_only]. struct_shape ltac:(wire_member). Qed.
Lemma wire_of_v5_json (s : Statement) : storable (statement_v5 s) = true -> of_json (to_json (statement_v5 s)) = Some (wire_of_v5 s).
Proof. intros H; unfold_json; breflect. cbn [of_json wireStatement_json read_only]. wire_read. done. Qed.

Lemma raw_threshold z : in_int64b z = true -> raw_member dec_int 0 (Some (json_int z)) = Some z.
Proof. intros Hz. cbn [raw_member json_int]. by apply dec_int_json. Qed.

(** The members of a supported version are the ones the reader of that version expects. *)
Lemma statement_wire s t : supported_version s t = true -> unused s t -> in_int64b (s_ApprovalThreshold s) = true ->
  statement (if String.eqb t PayloadTypeV5 then wire_of_v5 s else wire_of s) t = Some s.
Proof.
  unfold supported_version, unused. destruct s. cbn [s_SchemaVersion s_EffectMode s_ApprovalThreshold s_InfluenceSequence s_InfluenceHash].
  destruct (String.eqb_spec t PayloadTypeV1) as [->|]; [|destruct (String.eqb_spec t PayloadTypeV2) as [->|]; [|destruct (String.eqb_spec t PayloadTypeV3) as [->|]; [|
    destruct (String.eqb_spec t PayloadTypeV5) as [->|]; [|done]]]]; intros Hv [H1 H2] Hw; breflect;
    repeat match goal with Hx : String.eqb _ _ = true |- _ => apply String.eqb_eq in Hx end; subst; try (destruct H2 as [-> ->]; [done|]).
  - by rewrite H1.
  - done.
  - unfold statement, wire_of, version_mismatch. cbn [s_ApprovalThreshold]. rewrite (proj2 (Z.eqb_neq _ 0)) by lia. cbn -[json_int dec_int raw_member]. by rewrite raw_threshold.
  - unfold statement, wire_of_v5, version_mismatch. cbn -[json_int dec_int raw_member]. by rewrite raw_threshold.
Qed.
Lemma supported_members s t : supported_version s t = true -> unused s t ->
  short 32 (s_SchemaVersion s) /\ short 32 (s_EffectMode s) /\ 0 <= s_ApprovalThreshold s <= 8 /\ short 73 (s_InfluenceHash s).
Proof.
  assert (Hc : forall c n, all_bytes plain_byte c = true -> slen c + 2 <= n -> short n c).
  { intros c n Hp Hl. destruct (short_plain (slen c) c Hp (Z.le_refl _)). split; [done | lia]. }
  unfold supported_version, unused.
  destruct (String.eqb_spec t PayloadTypeV1) as [->|]; [|destruct (String.eqb_spec t PayloadTypeV2) as [->|]; [|destruct (String.eqb_spec t PayloadTypeV3) as [->|]; [|
    destruct (String.eqb_spec t PayloadTypeV5) as [->|]; [|done]]]]; intros Hv [H1 H2]; breflect;
    repeat match goal with Hx : String.eqb _ _ = true |- _ => apply String.eqb_eq in Hx; rewrite Hx end; try (destruct H2 as [_ ->]; [done|]).
  1: rewrite H1 by done.
  all: split_and!; try (by apply Hc); try lia; try done. by apply short_digest.
Qed.

Lemma action_valid_written s t now maxValidity : valid s t now maxValidity -> typed s -> unused s t ->
  storable s = true /\ storable (statement_v5 s) = true /\ zlen (MarshalStatement s t) <= MaxEnvelopeBytes.
Proof.
  intros [Hv [(H1%short_identity & H2%short_identity & H3%short_identity) Hg (H4%short_digest & H5%short_digest & H6%short_digest)] (H7%short_id & H8%short_id & H9%short_id)
    [(H10%short_digest & H11%short_digest) Hb] (b & e & Hnb%short_time & Hne%short_time & _)] (Ht1 & Ht2 & Ht3) Hu.
  destruct (supported_members s t Hv Hu) as (H12 & H13 & Ht & H14).
  assert (H15 : short 32 (s_ContentType s)) by (destruct Hb as [(-> & _) | (-> & _)]; split; [reflexivity | vm_compute; congruence | reflexivity | vm_compute; congruence]).
  assert (Hw : in_int64b (s_ApprovalThreshold s) = true) by (unfold in_int64b; lia).
  repeat match goal with H : short _ _ |- _ => destruct H end. split_and!.
  - cbn [storable Statement_json]. rewrite !andb_true_iff, !in_u64b_true. split_and!; done.
  - cbn [storable statementV5Wire_json statement_v5]. unfold statement_v5. cbn. rewrite !andb_true_iff, !in_u64b_true. split_and!; done.
  - change MaxEnvelopeBytes with 16384. unfold MarshalStatement. destruct (negb _).
    + transitivity 8000; [|lia]. cbn [to_json Statement_json]. struct_bound.
    + transitivity 8000; [|lia]. unfold statement_v5. cbn [to_json statementV5Wire_json]. struct_bound.
Qed.

Lemma action_decode_written s t now maxValidity : valid s t now maxValidity -> typed s -> unused s t -> decode_statement t (MarshalStatement s t) = Ok s.
Proof.
  intros Hv Hty Hu. destruct (action_valid_written _ _ _ _ Hv Hty Hu) as (Hs & Hs5 & Hz). pose proof (va_version _ _ _ _ Hv) as Hver.
  assert (Hw : in_int64b (s_ApprovalThreshold s) = true) by (destruct (supported_members s t Hver Hu) as (_ & _ & Ht & _); unfold in_int64b; lia).
  pose proof (statement_wire s t Hver Hu Hw) as Hst. unfold decode_statement, MarshalStatement in *. destruct (String.eqb t PayloadTypeV5); cbn [negb] in *.
  - rewrite (DecodeStrictInto_print (to_json (statement_v5 s)) (wire_of_v5 s)); [by rewrite Hst | by apply to_json_ok | apply wire_of_v5_shape; [done | lia] | by apply wire_of_v5_json | done].
  - rewrite (DecodeStrictInto_print (to_json s) (wire_of s)); [by rewrite Hst | by apply to_json_ok | apply action_wire_of_shape; [done | lia] | by apply action_wire_of_json | done].
Qed.

(** What is read has the width of its types and only the members of its version. *)
Lemma field_ptr_int fs k z : field fs k (dec_ptr dec_int) None = Some (Some z) -> in_int64b z = true.
Proof.
  unfold field, dec_ptr, dec_int. destruct (assoc k fs) as [[| | lit | | |]|]; try done. destruct (parse_int lit) as [n|]; [|done]. unfold in_int64b. destruct (_ && _) eqn:E; [|done]. by intros [= <-].
Qed.

Lemma wire_widths v wire : of_json (A := wireStatement) v = Some wire ->
  (forall z, w_Generation wire = Some z -> in_u64 z) /\ (forall z, w_RequestBytes wire = Some z -> in_int64b z = true) /\ (forall z, w_InfluenceSequence wire = Some z -> in_u64 z).
Proof.
  intros H. destruct v as [| | | | |fs]; try done. cbn [of_json wireStatement_json read_only] in H. binds H. injection H as <-. cbn [w_Generation w_RequestBytes w_InfluenceSequence].
  split_and!; intros z ->; by (eapply field_ptr_u64 || eapply field_ptr_int).
Qed.

Lemma statement_members wire t s : statement wire t = Some s ->
  w_Generation wire = Some (s_Generation s) /\ w_RequestBytes wire = Some (s_RequestBytes s) /\ s_InfluenceSequence s = default 0 (w_InfluenceSequence wire) /\
  s_InfluenceHash s = default ""%string (w_InfluenceHash wire) /\ raw_member dec_int 0 (w_ApprovalThreshold wire) = Some (s_ApprovalThreshold s) /\ version_mismatch wire t = false.
Proof. unfold statement. intros H. binds H. destruct (version_mismatch wire t); [done|]. binds H. injection H as <-. done. Qed.

Lemma decode_members t payload s : t ∈ [PayloadTypeV1; PayloadTypeV2; PayloadTypeV3; PayloadTypeV5] -> decode_statement t payload = Ok s -> typed s /\ unused s t.
Proof.
  intros Ht H. unfold decode_statement in H. destruct (DecodeStrictInto _ _) as [wire|] eqn:Ed; [|done]. apply DecodeStrictInto_read in Ed as (v & _ & Hv).
  destruct (statement wire t) as [s'|] eqn:Es; [|done]. injection H as ->. apply wire_widths in Hv as (W1 & W2 & W3). apply statement_members in Es as (E1 & E2 & E3 & E4 & E5 & Em).
  split; [split_and!; [by apply W1 | by apply W2|]|].
  - rewrite E3. destruct (w_InfluenceSequence wire); [by apply W3 | done].
  - unfold version_mismatch in Em. split.
    + intros ->. destruct (w_ApprovalThreshold wire); [by rewrite ?orb_true_r in Em | by injection E5].
    + intros Hn. rewrite E3, E4. rewrite !elem_of_cons in Ht. destruct (w_InfluenceSequence wire), (w_InfluenceHash wire); try done;
        destruct Ht as [->|[->|[->|[->|Ht%not_elem_of_nil]]]]; try done; cbn in Em; rewrite ?orb_true_r in Em; done.
Qed.

(** A well-formed statement can be carried by a permit of its version exactly when its integers have their width and the members of later versions are unset, and then what
    [MarshalStatement] writes is read back as that statement: a genesis influence sequence of zero stays present in version 5, and version 1 stays free of the later members. *)
Theorem statement_roundtrip s t now maxValidity : valid s t now maxValidity ->
  ((exists payload, decode_statement t payload = Ok s) <-> typed s /\ unused s t) /\ (typed s /\ unused s t -> decode_statement t (MarshalStatement s t) = Ok s).
Proof.
  intros Hv. assert (Hw : typed s /\ unused s t -> decode_statement t (MarshalStatement s t) = Ok s) by (intros []; by eapply action_decode_written).
  split; [|done]. split; [|eauto]. intros [payload Hd]. eapply decode_members; [|done]. pose proof (va_version _ _ _ _ Hv) as Hs. unfold supported_version in Hs. rewrite !elem_of_cons.
  destruct (String.eqb_spec t PayloadTypeV1); [by left|]. destruct (String.eqb_spec t PayloadTypeV2); [by right; left|]. destruct (String.eqb_spec t PayloadTypeV3); [by right; right; left|].
  destruct (String.eqb_spec t PayloadTypeV5); [by right; right; right; left | done].
Qed.

(** ** A concrete statement *)

Definition sample_digest : string := "sha256:0000000000000000000000000000000000000000000000000000000000000000".
Definition sample_statement : Statement :=
  mkStatement SchemaV5 EffectModeAuthorized 2 "node-1" "acme" "agent-1" 3 sample_digest sample_digest sample_digest "mail" "send" sample_digest "task-1" sample_digest 512
    "application/json" 0 sample_digest "2030-01-01T00:00:00Z" "2030-01-01T00:10:00Z".
Definition sample_time : Z := 64029053100000000000.

Lemma action_sample_valid : valid sample_statement PayloadTypeV5 sample_time MaxValidity.
Proof. apply action_validate_spec. vm_compute. reflexivity. Qed.
Lemma action_sample_typed : typed sample_statement /\ unused sample_statement PayloadTypeV5.
Proof. split; [split_and!; (done || split; vm_compute; congruence) | split; [discriminate | done]]. Qed.

Lemma statement_roundtrip_witness : decode_statement PayloadTypeV5 (MarshalStatement sample_statement PayloadTypeV5) = Ok sample_statement.
Proof. apply (statement_roundtrip sample_statement PayloadTypeV5 sample_time MaxValidity action_sample_valid). exact action_sample_typed. Defined.

End ActionPermit.
