(* ===== verification/ActionApproval.v ===== *)
(** * Approval of action permits ([verify] of [src/internal/actionpermit/actionpermit.go], and the approval step of [src/cmd/stewardctl/permit.go])

    An envelope carries the signatures of the authorities that approved it so far, in the order of their key identifiers; it is authority for an effect when their
    number is the threshold the statement signs. *)

From Stdlib Require Import Ascii.
From S2P Require Import Prelude GoText GoTime GoFS FenceStore GoJson GoCrypto Strict Dsse GoRune GoNet Admission ConnectorEvent ConnectorReceipt Permit ActionPermit.
Import Permit ActionPermit.

(** A lemma depends on the section hypotheses its proof uses. *)
Unset Default Proof Using.

Module ActionApproval.

(** ** Verification *)

Definition supported_type (payloadType : string) : bool :=
  existsb (String.eqb payloadType) [PayloadTypeV1; PayloadTypeV2; PayloadTypeV3; PayloadTypeV4; PayloadTypeV5].

(** The signed bytes: the statement, the bundle of version 4, and the threshold. *)
Definition signed_content (payloadType : string) (payload : bytes) (now maxValidity : Z) : result (Statement * option BundleStatement * Z) :=
  if String.eqb payloadType PayloadTypeV4 then
    let* parsed := decodeBundleStatement payload in
    let* _ := validateBundleStatement parsed now maxValidity in
    Ok (zero_Statement, Some parsed, bs_ApprovalThreshold parsed)
  else
    let* s := decode_statement payloadType payload in
    let* _ := validateStatement s payloadType now maxValidity in
    Ok (s, None, s_ApprovalThreshold s).

(** The last switch of [verify]: whether the signatures are complete. *)
Definition completeness (payloadType : string) (signatures approvalThreshold : Z) (allowPartial : bool) : result bool :=
  if String.eqb payloadType PayloadTypeV1 || String.eqb payloadType PayloadTypeV2 then
    require signatures =? 1 else "version 1 and 2 permits require exactly one signature" in Ok true
  else if String.eqb payloadType PayloadTypeV3 || String.eqb payloadType PayloadTypeV4 || String.eqb payloadType PayloadTypeV5 then
    require negb ((approvalThreshold <? signatures) || (negb allowPartial && negb (signatures =? approvalThreshold)))
      else "permit signature count does not match approval threshold" in Ok (signatures =? approvalThreshold)
  else Ok true.

Definition verify_permit (verify : bytes -> bytes -> bytes -> bool) (rawEnvelope : bytes) (trusted : gmap string bytes) (now maxValidity : Z) (allowPartial : bool) : result Verified :=
  require negb (zlen rawEnvelope =? 0) && (zlen rawEnvelope <=? MaxEnvelopeBytes) else "envelope is empty or exceeds its limit" in
  require negb (is_zero now) else "node time is unavailable" in
  require (0 <? maxValidity) && (maxValidity <=? MaxValidity) else "maximum validity must be positive and at most the hard limit" in
  let* envelope := Dsse.Parse rawEnvelope in
  let* payload := opt_ok (canonical_payload envelope) "permit payload is not canonical base64" in
  require forallb canonical_signature (Dsse.sigs envelope) else "permit signature is not canonical base64" in
  require is_canonical envelope rawEnvelope else "permit envelope is not canonical" in
  let payloadType := Dsse.PayloadType envelope in
  require supported_type payloadType else "unsupported permit payload type" in
  require utf8_bytes payload else "signed statement is not valid UTF-8" in
  let* (s, bundle, approvalThreshold) := signed_content payloadType payload now maxValidity in
  let* (_, keyIDs) := Dsse.VerifyAll verify rawEnvelope payloadType trusted in
  require forallb identifier keyIDs else "signature key ID is not a bounded identifier" in
  let* complete := completeness payloadType (zlen keyIDs) approvalThreshold allowPartial in
  Ok (mkVerified s bundle (default ""%string (head keyIDs)) keyIDs complete (Dsse.Digest rawEnvelope) payloadType).

Definition Verify verify rawEnvelope trusted now maxValidity := verify_permit verify rawEnvelope trusted now maxValidity false.
Definition VerifyPartial verify rawEnvelope trusted now maxValidity := verify_permit verify rawEnvelope trusted now maxValidity true.

(** One more approval: the tail of [permit approve], once the trusted keys and the operation of the connector are known. The artifact is checked, signed again
    and checked again. *)
Definition approve (sign : bytes -> bytes -> bytes) (verify : bytes -> bytes -> bytes -> bool) (raw : bytes) (envelope : Dsse.Envelope) (trusted : gmap string bytes)
    (operationDigest contentType keyID : string) (privateKey : bytes) (approvalTime validFor : Z) : result (bytes * Verified) :=
  let* before := VerifyPartial verify raw trusted approvalTime validFor in
  require negb (v_Complete before) else "multi-party permit is already complete" in
  require negb (existsb (fun existing => String.eqb existing keyID) (v_KeyIDs before)) else "the selected action authority has already approved this permit" in
  require String.eqb (s_OperationDigest (v_Statement before)) operationDigest && String.eqb (s_ContentType (v_Statement before)) contentType
    else "approval artifact does not match the trusted connector operation" in
  let* nextEnvelope := Dsse.AddSignature sign envelope keyID privateKey in
  let* nextRaw := Dsse.Marshal nextEnvelope in
  let* next := VerifyPartial verify nextRaw trusted approvalTime validFor in
  let* _ := (if v_Complete next then let* _ := Verify verify nextRaw trusted approvalTime validFor in Ok tt else Ok tt) in
  Ok (nextRaw, next).

(** ** Envelopes with several signatures *)

Definition sealed_all (t : string) (payload : bytes) (l : list (string * bytes)) : Dsse.Envelope :=
  Dsse.mkEnvelope t (b64_encode_string payload) (Some ((fun x => Dsse.mkSignature x.1 (b64_encode_string x.2)) <$> l)).

Lemma sealed_keys (l : list (string * bytes)) : Dsse.KeyID <$> ((fun x => Dsse.mkSignature x.1 (b64_encode_string x.2)) <$> l) = l.*1.
Proof. rewrite <- list_fmap_compose. by apply list_fmap_ext. Qed.

Lemma canonical_signatures l : forallb canonical_signature l = true ->
  exists m : list (string * bytes), l = (fun x => Dsse.mkSignature x.1 (b64_encode_string x.2)) <$> m /\ Forall (fun x => zlen x.2 = Dsse.SignatureSize) m.
Proof.
  induction l as [|[k sig] l IH]; cbn [forallb]; intros H; [exists []; split; [done | constructor]|]. apply andb_true_iff in H as [Hs H].
  destruct (IH H) as (m & -> & Hm). unfold canonical_signature in Hs. cbn [Dsse.Sig] in Hs. destruct (b64_decode_string sig) as [signature|]; [|done]. breflect.
  match goal with Hx : String.eqb _ _ = true |- _ => apply String.eqb_eq in Hx as <- end. exists ((k, signature) :: m). split; [done | by constructor].
Qed.

(** An envelope that passed the tests of its spelling. *)
Lemma canonical_all e raw payload : Dsse.sigs e <> [] -> canonical_payload e = Some payload -> forallb canonical_signature (Dsse.sigs e) = true -> is_canonical e raw = true ->
  exists l, e = sealed_all (Dsse.PayloadType e) payload l /\ Forall (fun x => zlen x.2 = Dsse.SignatureSize) l /\ raw = json_print (to_json e).
Proof.
  destruct e as [t pl ss]. unfold Dsse.sigs, canonical_payload, is_canonical, Dsse.Marshal. cbn [Dsse.Signatures Dsse.Payload Dsse.PayloadType]. intros Hs Hp Hc Hm.
  destruct ss as [ss|]; [|done]. cbn [default from_option id] in *. destruct (canonical_signatures ss Hc) as (l & -> & Hl).
  destruct (b64_decode_string pl) as [p|]; [|done]. cbn [mbind option_bind] in Hp. destruct (String.eqb_spec (b64_encode_string p) pl) as [<-|]; [|done]. injection Hp as ->.
  exists l. split_and!; [done | done|]. apply bool_decide_eq_true_1 in Hm. step Hm. by injection Hm.
Qed.

Lemma sorted_NoDup l : StronglySorted (fun x y => str_lt x y = true) l -> NoDup l.
Proof.
  induction 1 as [|x l _ IH HF]; constructor; [|done]. intros Hin. rewrite Forall_forall in HF. specialize (HF x Hin). by rewrite str_lt_irrefl in HF.
Qed.

Lemma sealed_all_parse t payload l : Dsse.valid_name t = true -> utf8_valid t = true -> payload <> [] -> zlen payload <= Dsse.MaxPayloadBytes -> 1 <= zlen l <= 16 ->
  Forall (fun x => identifier x.1 = true /\ zlen x.2 = Dsse.SignatureSize) l -> NoDup l.*1 ->
  Dsse.Parse (json_print (to_json (sealed_all t payload l))) = Ok (sealed_all t payload l) /\
  Dsse.Marshal (sealed_all t payload l) = Ok (json_print (to_json (sealed_all t payload l))).
Proof.
  intros Ht Hu Hne Hm Hlen Hl Hnd.
  assert (Hv : Dsse.validateEnvelope (sealed_all t payload l) = Ok tt).
  { apply Dsse.validateEnvelope_inv. unfold Dsse.sigs. cbn [sealed_all Dsse.PayloadType Dsse.Payload Dsse.Signatures default from_option id]. split_and!; [done| | | | |].
    - rewrite Dsse.b64_string_len. destruct payload as [|c p]; [done|]. rewrite zlen_cons. pose proof (zlen_nonneg p). unfold b64_encoded_len. Z.to_euclidean_division_equations. lia.
    - rewrite Dsse.b64_string_len. apply Dsse.b64_encoded_len_mono. pose proof (zlen_nonneg payload). lia.
    - unfold zlen in *. rewrite length_fmap. lia.
    - unfold zlen in *. rewrite length_fmap. lia.
    - apply Dsse.validate_signatures_inv. rewrite sealed_keys. split; [done|]. intros s (x & -> & Hx)%list_elem_of_fmap. rewrite Forall_forall in Hl.
      destruct (Hl x Hx) as [(_ & _ & Hk)%identifier_plain Hs]. cbn [Dsse.KeyID Dsse.Sig]. split; [apply not_elem_of_nil|]. split; [done|].
      rewrite Dsse.b64_string_len, Hs. vm_compute. split; congruence. }
  split; [apply Dsse.marshal_parse; [done|] | by unfold Dsse.Marshal; rewrite Hv].
  unfold Dsse.canonical, Dsse.sigs. cbn [sealed_all Dsse.PayloadType Dsse.Payload Dsse.Signatures default from_option id nil_ptr negb]. rewrite Hu, Dsse.b64_string_plain, andb_true_r. cbn [andb].
  apply forallb_forall. intros s (x & -> & Hx)%list_elem_of_In%list_elem_of_fmap. rewrite Forall_forall in Hl. destruct (Hl x Hx) as [(Hk & _)%identifier_plain _].
  cbn [Dsse.KeyID Dsse.Sig]. by rewrite Dsse.b64_string_plain, (plain_utf8 _ Hk).
Qed.

Lemma sealed_all_payload t payload l : canonical_payload (sealed_all t payload l) = Some payload.
Proof. unfold canonical_payload. cbn [sealed_all Dsse.Payload]. rewrite Dsse.b64_string_decode. cbn [mbind option_bind]. by rewrite String.eqb_refl. Qed.

Lemma sealed_all_signatures (l : list (string * bytes)) : Forall (fun x => zlen x.2 = Dsse.SignatureSize) l ->
  forallb canonical_signature ((fun x => Dsse.mkSignature x.1 (b64_encode_string x.2)) <$> l) = true.
Proof. intros H. apply forallb_forall. intros s (x & -> & Hx)%list_elem_of_In%list_elem_of_fmap. rewrite Forall_forall in H. by apply sealed_signature, H. Qed.

Section verify.
Context (verify : bytes -> bytes -> bytes -> bool).

Lemma signature_signed trusted t payload k signature : zlen signature = Dsse.SignatureSize ->
  Dsse.canonical_signature_valid verify trusted (Dsse.PAE t payload) (Dsse.mkSignature k (b64_encode_string signature)) = true <-> signed verify trusted t payload k signature.
Proof.
  intros Hs. unfold Dsse.canonical_signature_valid, Dsse.signature_valid, signed. cbn [Dsse.KeyID Dsse.Sig]. rewrite Dsse.b64_string_decode, Hs, Z.eqb_refl. cbn [andb from_option].
  rewrite bool_decide_true, andb_true_r by done. destruct (trusted !! k) as [public|].
  - rewrite andb_true_iff, Z.eqb_eq. split; [intros []; by exists public | by intros (? & [= <-] & ? & ?)].
  - split; [done | by intros (? & ? & _)].
Qed.

(** Every signature of a sealed envelope counts, in the order of the key identifiers. *)
Lemma verify_all_sealed raw t payload l trusted ids : Dsse.Parse raw = Ok (sealed_all t payload l) -> Forall (fun x => zlen x.2 = Dsse.SignatureSize) l ->
  zlen payload <= Dsse.MaxPayloadBytes ->
  Dsse.VerifyAll verify raw t trusted = Ok (payload, ids) <->
  ids = l.*1 /\ Forall (fun x => signed verify trusted t payload x.1 x.2) l /\ StronglySorted (fun x y => str_lt x y = true) ids.
Proof.
  intros Hp Hl Hm. unfold Dsse.VerifyAll, Dsse.sigs. rewrite Hp. cbn [sealed_all Dsse.PayloadType Dsse.Payload Dsse.Signatures default from_option id].
  rewrite Dsse.b64_string_decode, !bool_decide_true, (proj2 (Z.ltb_ge _ _)) by done. cbn [negb andb].
  assert (Hsig : Forall (fun s => Dsse.canonical_signature_valid verify trusted (Dsse.PAE t payload) s = true) ((fun x => Dsse.mkSignature x.1 (b64_encode_string x.2)) <$> l)
    <-> Forall (fun x => signed verify trusted t payload x.1 x.2) l).
  { rewrite Forall_fmap. clear Hp. induction Hl as [|x l Hx _ IH]; [by rewrite !Forall_nil|]. rewrite !Forall_cons, IH. unfold compose. cbn [fst snd]. by rewrite (signature_signed trusted t payload x.1 x.2 Hx). }
  split.
  - intros H. destruct (Dsse.verify_all _ _ _ _ _) as [ids'|] eqn:Ev; [|done]. injection H as <-. apply Dsse.verify_all_inv in Ev as (-> & Hall & Hs). rewrite sealed_keys in *. by rewrite <- Hsig.
  - intros (-> & Hall & Hs). rewrite Dsse.verify_all_ok; [by rewrite sealed_keys | by apply Hsig | by rewrite sealed_keys].
Qed.

(** ** What an accepted permit is *)

Definition required_signatures (payloadType : string) (approvalThreshold : Z) : Z :=
  if String.eqb payloadType PayloadTypeV1 || String.eqb payloadType PayloadTypeV2 then 1 else approvalThreshold.

(** The signed bytes mean this statement, or this bundle, with this threshold; it is well formed and the clock is in its window. *)
Inductive content (payload : bytes) (now maxValidity : Z) : string -> Statement -> option BundleStatement -> Z -> Prop :=
| content_single t s : t <> PayloadTypeV4 -> decode_statement t payload = Ok s -> valid s t now maxValidity -> content payload now maxValidity t s None (s_ApprovalThreshold s)
| content_bundle b : decodeBundleStatement payload = Ok b -> valid_bundle b now maxValidity ->
    content payload now maxValidity PayloadTypeV4 zero_Statement (Some b) (bs_ApprovalThreshold b).

(** [l] holds the authorities that approved, with their signatures. *)
Record approved (raw : bytes) (trusted : gmap string bytes) (now maxValidity : Z) (v : Verified) (payload : bytes) (l : list (string * bytes)) (threshold : Z) : Prop := {
  ap_raw : raw = json_print (to_json (sealed_all (v_PayloadType v) payload l));
  ap_size : zlen raw <= MaxEnvelopeBytes;
  ap_payload : utf8_bytes payload = true;
  ap_content : content payload now maxValidity (v_PayloadType v) (v_Statement v) (v_Bundle v) threshold;
  ap_signed : Forall (fun x => identifier x.1 = true /\ zlen x.2 = Dsse.SignatureSize /\ signed verify trusted (v_PayloadType v) payload x.1 x.2) l;
  ap_order : StronglySorted (fun x y => str_lt x y = true) l.*1;
  ap_keys : v_KeyIDs v = l.*1 /\ v_KeyID v = default ""%string (head l.*1);
  ap_count : 1 <= zlen l <= required_signatures (v_PayloadType v) threshold;
  ap_complete : v_Complete v = (zlen l =? required_signatures (v_PayloadType v) threshold);
  ap_clock : now <> 0 /\ 0 < maxValidity <= MaxValidity;
  ap_digest : v_EnvelopeDigest v = Dsse.Digest raw;
}.

Lemma content_spec t payload now maxValidity s b n : signed_content t payload now maxValidity = Ok (s, b, n) <-> content payload now maxValidity t s b n.
Proof.
  unfold signed_content. split.
  - intros H. destruct (String.eqb_spec t PayloadTypeV4) as [->|].
    + destruct (decodeBundleStatement payload) as [p|] eqn:Ed; [|done]. destruct (validateBundleStatement p now maxValidity) as [[]|] eqn:Ev; [|done]. injection H as <- <- <-.
      apply content_bundle; [done | by apply bundle_spec].
    + destruct (decode_statement t payload) as [p|] eqn:Ed; [|done]. destruct (validateStatement p t now maxValidity) as [[]|] eqn:Ev; [|done]. injection H as <- <- <-.
      apply content_single; [done | done | by apply action_validate_spec].
  - intros [t' p Ht Hd Hv|p Hd Hv]; rewrite Hd.
    + rewrite (proj2 (String.eqb_neq _ _) Ht). by rewrite (proj2 (action_validate_spec _ _ _ _) Hv).
    + rewrite String.eqb_refl. by rewrite (proj2 (bundle_spec _ _ _) Hv).
Qed.

Lemma content_payload payload now maxValidity t s b n : content payload now maxValidity t s b n -> payload <> [] /\ zlen payload <= Dsse.MaxPayloadBytes.
Proof.
  assert (Hd : forall A (HA : GoJSON A) a, DecodeStrictInto (A := A) payload MaxEnvelopeBytes = Ok a -> payload <> [] /\ zlen payload <= Dsse.MaxPayloadBytes).
  { intros A HA a. unfold DecodeStrictInto. destruct (_ || _) eqn:E; [done|]. intros _. breflect. split; [done|].
    change MaxEnvelopeBytes with 16384 in *. change Dsse.MaxPayloadBytes with 524288. lia. }
  intros [t' p _ H _|p H _]; unfold decode_statement, decodeBundleStatement in H; step H; exact (Hd _ _ _ E).
Qed.

Lemma content_type payload now maxValidity t s b n : content payload now maxValidity t s b n ->
  supported_type t = true /\ Dsse.valid_name t = true /\ utf8_valid t = true /\ required_signatures t n <= 8.
Proof.
  assert (Ht : forall t, supported_type t = true -> Dsse.valid_name t = true /\ utf8_valid t = true).
  { intros t'. unfold supported_type. cbn [existsb]. intros H.
    repeat (apply orb_true_iff in H as [->%String.eqb_eq|H]; [split; vm_compute; reflexivity|]). done. }
  intros [t' p Hne _ [Hv _ _ _ _]|p _ [(_ & _ & Hb) _ _ _ _ _ _ _]].
  - assert (supported_type t' = true /\ required_signatures t' (s_ApprovalThreshold p) <= 8) as [Hs Hr]; [|destruct (Ht _ Hs); done].
    unfold supported_version, supported_type, required_signatures in *. cbn [existsb].
    destruct (String.eqb t' PayloadTypeV1); [done|]. destruct (String.eqb t' PayloadTypeV2); [done|]. destruct (String.eqb t' PayloadTypeV3); [breflect; cbn [orb]; split; [done | lia]|].
    rewrite (proj2 (String.eqb_neq _ _) Hne). destruct (String.eqb t' PayloadTypeV5); [breflect; cbn [orb]; split; [done | lia] | done].
  - change MaxBundleSteps with 8 in Hb. split_and!; try (vm_compute; reflexivity). change (required_signatures PayloadTypeV4 (bs_ApprovalThreshold p)) with (bs_ApprovalThreshold p). lia.
Qed.

Lemma completeness_spec t k n allowPartial c : supported_type t = true -> 1 <= k ->
  completeness t k n allowPartial = Ok c <-> k <= required_signatures t n /\ (allowPartial = false -> k = required_signatures t n) /\ c = (k =? required_signatures t n).
Proof.
  unfold supported_type, completeness, required_signatures. cbn [existsb]. intros Ht Hk. destruct (String.eqb t PayloadTypeV1 || String.eqb t PayloadTypeV2) eqn:E12.
  - destruct (Z.eqb_spec k 1) as [->|]; [|split; [done | intros (? & _ & _); lia]]. split; [by intros [= <-] | by intros (_ & _ & ->)].
  - apply orb_false_iff in E12 as [E1 E2]. rewrite E1, E2 in Ht. cbn [orb] in Ht. rewrite orb_false_r in Ht. rewrite <- orb_assoc, Ht.
    destruct (Z.ltb_spec n k); cbn [orb negb]; [split; [done | intros (? & _ & _); lia]|]. destruct (Z.eqb_spec k n) as [->|]; destruct allowPartial; cbn [negb andb].
    + split; [by intros [= <-] | by intros (_ & _ & ->)].
    + split; [by intros [= <-] | by intros (_ & _ & ->)].
    + split; [intros [= <-]; split_and!; done | by intros (_ & _ & ->)].
    + split; [done | intros (_ & H' & _); by specialize (H' eq_refl)].
Qed.

Lemma verify_approved raw trusted now maxValidity allowPartial v : verify_permit verify raw trusted now maxValidity allowPartial = Ok v <->
  exists payload l n, approved raw trusted now maxValidity v payload l n /\ (allowPartial = false -> v_Complete v = true).
Proof.
  unfold verify_permit. split.
  - intros H. do 3 step H. destruct (Dsse.Parse raw) as [e|] eqn:Ep; [|done]. destruct (canonical_payload e) as [payload|] eqn:Epay; [|done]. cbn [opt_ok] in H. do 4 step H.
    destruct (signed_content _ _ _ _) as [[[s b] n]|] eqn:Ec; [|done]. destruct (Dsse.VerifyAll _ _ _ _) as [[payload' ids]|] eqn:Ev; [|done]. step H.
    destruct (completeness _ _ _ _) as [c|] eqn:Ek; [|done]. injection H as <-. apply content_spec in Ec. destruct (content_payload _ _ _ _ _ _ _ Ec) as [Hne Hm].
    destruct (Dsse.Parse_valid _ _ Ep) as (_ & _ & Hn & _). destruct (canonical_all e raw payload) as (l & He & Hl & Hr); try done; [intros Hx; rewrite Hx in Hn; unfold zlen in Hn; cbn in Hn; lia|].
    rewrite He in Ep, Hr, Hn. cbn [sealed_all Dsse.sigs Dsse.Signatures default from_option id] in Hn.
    assert (payload' = payload) as ->. { unfold Dsse.VerifyAll in Ev. rewrite Ep in Ev. cbn [sealed_all Dsse.PayloadType Dsse.Payload] in Ev. rewrite Dsse.b64_string_decode in Ev. do 3 step Ev. by injection Ev. }
    apply (verify_all_sealed _ _ _ _ _ _ Ep Hl Hm) in Ev as (-> & Hsig & Hs). assert (Hz : zlen l.*1 = zlen l) by (unfold zlen; by rewrite length_fmap).
    assert (Hz' : 1 <= zlen l) by (unfold Dsse.sigs in Hn; cbn in Hn; unfold zlen in *; rewrite length_fmap in Hn; lia).
    rewrite Hz in Ek. apply completeness_spec in Ek as (Hc1 & Hc2 & ->); [|done|done]. unfold is_zero in *. breflect. exists payload, l, n.
    split; [|cbn [v_Complete]; intros Ha; apply Z.eqb_eq; by apply Hc2]. constructor; cbn [v_PayloadType v_Statement v_Bundle v_KeyIDs v_KeyID v_Complete v_EnvelopeDigest]; try done.
    match goal with Hi : forallb identifier _ = true |- _ => rewrite forallb_forall in Hi; rename Hi into Hid end.
    rewrite !Forall_forall in *. intros x Hx. split_and!; [|by apply Hl | by apply Hsig]. apply Hid, list_elem_of_In, list_elem_of_fmap_2, Hx.
  - intros (payload & l & n & [Hr Hz Hu Hc Hl Hs [Hk1 Hk2] Hn Hco [Hnow Hmax] Hdg] & Hfinal). destruct (content_payload _ _ _ _ _ _ _ Hc) as [Hne Hm].
    destruct (content_type _ _ _ _ _ _ _ Hc) as (Hty & Hvn & Hut & Hreq). pose proof (sorted_NoDup _ Hs) as Hnd.
    destruct (sealed_all_parse (v_PayloadType v) payload l) as [HP HM]; try done; [lia | eapply Forall_impl; [exact Hl|]; by intros x (? & ? & _)|]. rewrite <- Hr in HP, HM.
    assert (Hl' : Forall (fun x => zlen x.2 = Dsse.SignatureSize) l) by (eapply Forall_impl; [exact Hl|]; by intros x (_ & ? & _)).
    assert (zlen raw <> 0) as Hz0. { unfold Dsse.Parse, DecodeStrictInto in HP. destruct raw; [|rewrite zlen_cons; pose proof (zlen_nonneg raw); lia]. by rewrite orb_true_r in HP. }
    unfold is_zero. rewrite (proj2 (Z.leb_le _ _) Hz), (proj2 (Z.eqb_neq _ _) Hnow), (proj2 (Z.ltb_lt 0 _)), (proj2 (Z.leb_le maxValidity _)), (proj2 (Z.eqb_neq _ _) Hz0), HP by lia.
    cbn [negb andb]. rewrite sealed_all_payload. unfold Dsse.sigs. cbn [opt_ok sealed_all Dsse.Signatures default from_option id Dsse.PayloadType].
    rewrite sealed_all_signatures by done. fold (sealed_all (v_PayloadType v) payload l). unfold is_canonical. rewrite HM, bool_decide_true, Hty, Hu by done.
    rewrite (proj2 (content_spec _ _ _ _ _ _ _) Hc). rewrite (proj2 (verify_all_sealed raw (v_PayloadType v) payload l trusted l.*1 HP Hl' Hm)).
    2: { split_and!; try done. eapply Forall_impl; [exact Hl|]; by intros x (_ & _ & ?). }
    cbv beta iota. rewrite (proj2 (forallb_forall identifier l.*1)).
    2: { intros k (x & -> & Hx)%list_elem_of_In%list_elem_of_fmap. rewrite Forall_forall in Hl. by apply Hl. }
    assert (zlen l.*1 = zlen l) as -> by (unfold zlen; by rewrite length_fmap). rewrite (proj2 (completeness_spec _ _ _ allowPartial (v_Complete v) Hty (proj1 Hn))).
    + rewrite <- Hdg, <- Hk2, <- Hk1. by destruct v.
    + split; [lia|]. split; [|done]. intros Ha. specialize (Hfinal Ha). rewrite Hco in Hfinal. by apply Z.eqb_eq.
Qed.

(** C29: An action permit is accepted exactly when its bytes are the one canonical envelope of a payload, at least one authority and at most the number the
    payload asks for signed it, each of them trusted, named by an identifier and counted once, in the order of their names, the payload strictly decodes to a well-formed
    statement or bundle, and the clock lies in its window. [Verify] also demands that the number is reached, [VerifyPartial] reports whether it is. *)
Theorem action_permit_exact raw trusted now maxValidity allowPartial v : verify_permit verify raw trusted now maxValidity allowPartial = Ok v <->
  exists payload l n, approved raw trusted now maxValidity v payload l n /\ (allowPartial = false -> v_Complete v = true).
Proof. apply verify_approved. Qed.

(** A partial permit is final exactly when it is complete. *)
Lemma partial_final raw trusted now maxValidity v : VerifyPartial verify raw trusted now maxValidity = Ok v ->
  Verify verify raw trusted now maxValidity = if v_Complete v then Ok v else Err "permit signature count does not match approval threshold".
Proof.
  unfold VerifyPartial, Verify, verify_permit. intros H. do 3 step H. destruct (Dsse.Parse raw) as [e|]; [|done]. destruct (canonical_payload e) as [payload|]; [|done].
  cbn [opt_ok] in *. do 4 step H. destruct (signed_content _ _ _ _) as [[[s b] n]|]; [|done]. destruct (Dsse.VerifyAll _ _ _ _) as [[payload' ids]|]; [|done]. step H.
  destruct (completeness _ _ _ true) as [c|] eqn:Ec; [|done]. injection H as <-. cbn [v_Complete]. unfold completeness in *.
  destruct (_ || _) in *; [by step Ec; injection Ec as <-|]. destruct (_ || _ || _) in *; [|by injection Ec as <-]. destruct (n <? zlen ids); [done|]. cbn [orb negb andb] in *. injection Ec as <-.
  by destruct (zlen ids =? n).
Qed.

Context (sign : bytes -> bytes -> bytes).

(** The size of an envelope does not depend on the order of its signatures. *)

Lemma sealed_all_size t payload k signature l l' : l' ≡ₚ (k, signature) :: l -> identifier k = true -> zlen signature = Dsse.SignatureSize ->
  zlen (json_print (to_json (sealed_all t payload l'))) <= zlen (json_print (to_json (sealed_all t payload l))) + 300.
Proof.
  intros Hp (Hk & Hkl & _)%identifier_plain Hs. set (mk := fun x : string * bytes => Dsse.mkSignature x.1 (b64_encode_string x.2)). set (g := fun x => zlen (json_print (to_json (mk x))) + 1).
  assert (Hz : exists c, forall m, zlen (json_print (to_json (sealed_all t payload m))) = c + Z.max 1 (zsum g m)).
  { exists (1 + member_size ("payloadType"%string, JStr t) + member_size ("payload"%string, JStr (b64_encode_string payload)) + zlen (quote "signatures") + 3). intros m.
    change (to_json (sealed_all t payload m)) with (JObj [("payloadType"%string, JStr t); ("payload"%string, JStr (b64_encode_string payload)); ("signatures"%string, JArr (to_json <$> (mk <$> m)))]).
    rewrite zlen_print_obj. cbn [zsum foldr]. unfold member_size at 3. cbn [fst snd]. rewrite zlen_print_arr.
    assert (zsum (fun v => zlen (json_print v) + 1) (to_json <$> (mk <$> m)) = zsum g m) as ->.
    { unfold zsum, g. induction m as [|x m IH]; [done|]. rewrite !fmap_cons. cbn [foldr]. by rewrite IH. }
    fold (zsum g m). change (zlen (quote "signatures")) with 12. unfold member_size. cbn [fst snd]. pose proof (zlen_nonneg (json_print (JStr t))).
    pose proof (zlen_nonneg (json_print (JStr (b64_encode_string payload)))). change (zlen (quote "payloadType")) with 13. change (zlen (quote "payload")) with 9. lia. }
  destruct Hz as [c Hz]. rewrite !Hz, (zsum_perm g _ _ Hp). cbn [zsum foldr].
  assert (Hg : g (k, signature) = slen k + 110).
  { unfold g. change (to_json (mk (k, signature))) with (JObj [("keyid"%string, JStr k); ("sig"%string, JStr (b64_encode_string signature))]).
    rewrite zlen_print_obj. cbn [zsum foldr]. unfold member_size. cbn [fst snd]. rewrite !Dsse.print_str, !zlen_quote_plain by (done || apply Dsse.b64_string_plain).
    rewrite Dsse.b64_string_len, Hs. change (b64_encoded_len Dsse.SignatureSize) with 88. change (slen "keyid") with 5. change (slen "sig") with 3. lia. }
  rewrite Hg. fold (zsum g l). lia.
Qed.

(** The envelope after one more approval. *)
Lemma add_sealed t payload l k private public : Dsse.validateEnvelope (sealed_all t payload l) = Ok tt -> zlen l < 16 -> NoDup l.*1 -> k ∉ l.*1 -> identifier k = true ->
  Dsse.key_pair sign verify private public ->
  exists l', Dsse.AddSignature sign (sealed_all t payload l) k private = Ok (sealed_all t payload l') /\ l' ≡ₚ (k, sign private (Dsse.PAE t payload)) :: l /\
    StronglySorted (fun x y => str_lt x y = true) l'.*1.
Proof.
  intros Hval Hlen Hnd Hni (_ & _ & Hkn)%identifier_plain (Hpl & _). set (signature := sign private (Dsse.PAE t payload)).
  set (mk := fun x : string * bytes => Dsse.mkSignature x.1 (b64_encode_string x.2)). set (l0 := merge_sort Dsse.key_le ((mk <$> l) ++ [mk (k, signature)])).
  assert (Hp : l0 ≡ₚ mk <$> (l ++ [(k, signature)])) by (unfold l0; by rewrite merge_sort_Permutation, fmap_app).
  destruct (Permutation.Permutation_map_inv mk (l ++ [(k, signature)]) Hp) as (l' & El & Hl'). exists l'. change (map mk l') with (mk <$> l') in El.
  assert (Hpl' : l' ≡ₚ (k, signature) :: l) by (rewrite <- Hl'; by rewrite Permutation_app_comm). split_and!; [|exact Hpl'|].
  - unfold Dsse.AddSignature. rewrite Hval, Hkn, Hpl, Z.eqb_refl. cbn [andb]. unfold Dsse.sigs. cbn [sealed_all Dsse.Signatures default from_option id Dsse.Payload Dsse.PayloadType].
    rewrite (proj2 (Z.leb_gt 16 _)) by (unfold zlen in *; rewrite length_fmap; lia). cbn [negb]. fold mk.
    assert (existsb (fun s => String.eqb (Dsse.KeyID s) k) (mk <$> l) = false) as ->.
    { apply not_true_iff_false. intros (x & Hx & Ex%String.eqb_eq)%existsb_exists. apply Hni. rewrite <- sealed_keys, <- Ex. by apply list_elem_of_fmap_2, list_elem_of_In. }
    cbn [negb]. rewrite Dsse.b64_string_decode, bool_decide_true by done. fold signature. change (Dsse.mkSignature k (b64_encode_string signature)) with (mk (k, signature)).
    fold l0. by rewrite El.
  - rewrite <- sealed_keys. fold mk. rewrite <- El. apply Dsse.key_le_strict; [apply (StronglySorted_merge_sort Dsse.key_le)|].
    rewrite El. unfold mk. rewrite sealed_keys, Hpl'. cbn [fmap list_fmap fst]. by constructor.
Qed.

Lemma next_approved raw trusted now maxValidity v payload l n k private public l' : approved raw trusted now maxValidity v payload l n -> v_Complete v = false ->
  Dsse.key_pair sign verify private public -> trusted !! k = Some public -> identifier k = true -> zlen raw + 300 <= MaxEnvelopeBytes ->
  l' ≡ₚ (k, sign private (Dsse.PAE (v_PayloadType v) payload)) :: l -> StronglySorted (fun x y => str_lt x y = true) l'.*1 ->
  let nextRaw := json_print (to_json (sealed_all (v_PayloadType v) payload l')) in
  approved nextRaw trusted now maxValidity
    (mkVerified (v_Statement v) (v_Bundle v) (default ""%string (head l'.*1)) l'.*1 (zlen l' =? required_signatures (v_PayloadType v) n) (Dsse.Digest nextRaw) (v_PayloadType v))
    payload l' n.
Proof.
  intros [Hr Hz Hu Hc Hl Hs _ Hn Hco Hclock _] Hpart (_ & Hpub & Hsig) Ht Hk Hfit Hp Hso nextRaw. destruct (Hsig (Dsse.PAE (v_PayloadType v) payload)) as [Hsl Hsv].
  rewrite Hco in Hpart. apply Z.eqb_neq in Hpart.
  constructor; cbn [v_PayloadType v_Statement v_Bundle v_KeyIDs v_KeyID v_Complete v_EnvelopeDigest]; try done.
  - pose proof (sealed_all_size (v_PayloadType v) payload k _ l l' Hp Hk Hsl). unfold nextRaw. rewrite <- Hr in *. lia.
  - rewrite Hp. constructor; [|done]. split_and!; [done | done | by exists public].
  - assert (zlen l' = 1 + zlen l) as -> by (unfold zlen; rewrite Hp; cbn [length]; lia). lia.
Qed.

(** An approval by one more trusted authority counts: it never changes what was approved, adds exactly the new name, in its place, and the artifact becomes authority
    for the effect exactly when it is complete; until then [Verify] refuses it. *)
Theorem approval_counts raw envelope trusted now maxValidity before k private public : Dsse.Parse raw = Ok envelope ->
  VerifyPartial verify raw trusted now maxValidity = Ok before -> v_Complete before = false ->
  Dsse.key_pair sign verify private public -> trusted !! k = Some public -> identifier k = true -> k ∉ v_KeyIDs before -> zlen raw + 300 <= MaxEnvelopeBytes ->
  exists nextRaw next, approve sign verify raw envelope trusted (s_OperationDigest (v_Statement before)) (s_ContentType (v_Statement before)) k private now maxValidity = Ok (nextRaw, next) /\
    v_Statement next = v_Statement before /\ v_Bundle next = v_Bundle before /\ v_PayloadType next = v_PayloadType before /\ v_KeyIDs next ≡ₚ k :: v_KeyIDs before /\
    Verify verify nextRaw trusted now maxValidity = (if v_Complete next then Ok next else Err "permit signature count does not match approval threshold").
Proof.
  intros Hpar Hb Hpart Hkp Htr Hk Hni Hfit. pose proof Hb as Hb'. apply verify_approved in Hb as (payload & l & n & Ha & _). pose proof Ha as [Hr Hz Hu Hc Hl Hs [Hids Hid] Hn Hco _ _].
  destruct (content_payload _ _ _ _ _ _ _ Hc) as [Hne Hm]. destruct (content_type _ _ _ _ _ _ _ Hc) as (_ & Hvn & Hut & Hreq). pose proof (sorted_NoDup _ Hs) as Hnd. rewrite Hids in Hni.
  destruct (sealed_all_parse (v_PayloadType before) payload l) as [HP HM]; try done; [lia | eapply Forall_impl; [exact Hl|]; by intros x (? & ? & _)|]. rewrite <- Hr, Hpar in HP. injection HP as ->.
  assert (Hval : Dsse.validateEnvelope (sealed_all (v_PayloadType before) payload l) = Ok tt) by (unfold Dsse.Marshal in HM; by destruct (Dsse.validateEnvelope _) as [[]|]).
  destruct (add_sealed (v_PayloadType before) payload l k private public) as (l' & El & Hp & Hso); try done; [lia|].
  pose proof (next_approved raw trusted now maxValidity before payload l n k private public l' Ha Hpart Hkp Htr Hk Hfit Hp Hso) as Hnext. cbv zeta in Hnext.
  set (nextRaw := json_print (to_json (sealed_all (v_PayloadType before) payload l'))) in *. set (next := mkVerified _ _ _ _ _ _ _) in *. exists nextRaw, next.
  assert (Hv : VerifyPartial verify nextRaw trusted now maxValidity = Ok next) by (apply verify_approved; exists payload, l', n; by split).
  pose proof (partial_final _ _ _ _ _ Hv) as Hf. split; [|split_and!; try done; cbn [next v_KeyIDs]; rewrite Hp, Hids; done].
  unfold approve. rewrite Hb', Hpart, !String.eqb_refl. cbn [negb andb].
  assert (existsb (fun existing => String.eqb existing k) (v_KeyIDs before) = false) as ->.
  { apply not_true_iff_false. intros (x & Hx & ->%String.eqb_eq)%existsb_exists. apply Hni. rewrite <- Hids. by apply list_elem_of_In. }
  cbn [negb]. rewrite El.
  destruct (sealed_all_parse (v_PayloadType before) payload l') as [_ HM']; try done.
  - assert (zlen l' = 1 + zlen l) as -> by (unfold zlen; rewrite Hp; cbn [length]; lia). lia.
  - destruct Hnext as [_ _ _ _ Hl' _ _ _ _ _ _]. cbn [v_PayloadType next] in Hl'. eapply Forall_impl; [exact Hl'|]. by intros x (? & ? & _).
  - by apply sorted_NoDup.
  - rewrite HM'. fold nextRaw. rewrite Hv, Hf. by destruct (v_Complete next).
Qed.
End verify.

(** ** A concrete approval *)

Definition sample_trusted : gmap string bytes := {[ "alice" := Dsse.toy_pub "a"; "bob" := Dsse.toy_pub "b" ]}%string.
Definition sample_payload : bytes := MarshalStatement sample_statement PayloadTypeV5.
Definition sample_signatures : list (string * bytes) := [("bob"%string, Dsse.toy_sign (Dsse.toy_priv "b") (Dsse.PAE PayloadTypeV5 sample_payload))].
Definition sample_raw : bytes := json_print (to_json (sealed_all PayloadTypeV5 sample_payload sample_signatures)).
Definition sample_before : Verified := mkVerified sample_statement None "bob" ["bob"%string] false (Dsse.Digest sample_raw) PayloadTypeV5.

Lemma sample_approved : approved Dsse.toy_verify sample_raw sample_trusted sample_time MaxValidity sample_before sample_payload sample_signatures 2.
Proof.
  constructor.
  - reflexivity.
  - apply (bool_decide_unpack _). vm_compute. exact I.
  - vm_compute. reflexivity.
  - apply content_single; [discriminate | apply (action_decode_written _ _ sample_time MaxValidity action_sample_valid); apply action_sample_typed | exact action_sample_valid].
  - constructor; [|constructor]. split_and!; [reflexivity | reflexivity |]. exists (Dsse.toy_pub "b"). split_and!; [reflexivity | reflexivity |]. apply bool_decide_eq_true_2. reflexivity.
  - repeat constructor.
  - split; reflexivity.
  - split; discriminate.
  - reflexivity.
  - split; [discriminate | split; [reflexivity | discriminate]].
  - reflexivity.
Qed.

Lemma approval_counts_witness : exists nextRaw next,
  approve Dsse.toy_sign Dsse.toy_verify sample_raw (sealed_all PayloadTypeV5 sample_payload sample_signatures) sample_trusted sample_digest "application/json" "alice" (Dsse.toy_priv "a")
    sample_time MaxValidity = Ok (nextRaw, next) /\ v_Statement next = sample_statement /\ v_KeyIDs next ≡ₚ ["alice"; "bob"]%string /\
  Verify Dsse.toy_verify nextRaw sample_trusted sample_time MaxValidity = (if v_Complete next then Ok next else Err "permit signature count does not match approval threshold").
Proof.
  destruct (approval_counts Dsse.toy_verify Dsse.toy_sign sample_raw (sealed_all PayloadTypeV5 sample_payload sample_signatures) sample_trusted sample_time MaxValidity sample_before "alice"
    (Dsse.toy_priv "a") (Dsse.toy_pub "a")) as (nextRaw & next & H1 & H2 & _ & _ & H3 & H4).
  - vm_compute. reflexivity.
  - apply verify_approved. exists sample_payload, sample_signatures, 2. split; [exact sample_approved | done].
  - reflexivity.
  - by apply Dsse.toy_key_pair.
  - vm_compute. reflexivity.
  - reflexivity.
  - apply (bool_decide_unpack _). vm_compute. exact I.
  - apply (bool_decide_unpack _). vm_compute. exact I.
  - exists nextRaw, next. exact (conj H1 (conj H2 (conj H3 H4))).
Defined.

End ActionApproval.
