(* ===== verification/Influence.v ===== *)
(** * Effect contexts ([src/internal/influence/context.go])

    The history of the responses a workload has seen, as a chain of hashes: a permit of version 5 names the head of the chain, so that an approval holds for
    one history only. *)

From Stdlib Require Import Ascii.
From S2P Require Import Prelude GoText GoCrypto GoJson Dsse FenceStore ConnectorEvent.

Module Influence.

Definition SchemaV1 : string := "steward.effect-context.v1".

Record Head := mkHead { h_SchemaVersion : string; h_TenantID : string; h_GrantID : string; h_Generation : Z; h_Sequence : Z; h_ChainHash : string }.

(** [hex.DecodeString] reads both cases and an even number of digits. *)
Definition hex_decodes (s : string) : bool := all_bytes hex_byte s && (slen s mod 2 =? 0).

Definition publicIdentity (value : string) (limit : Z) : bool := ConnectorEvent.publicIdentity value limit.
Definition grantIdentity (value : string) : bool := (slen value =? 70) && has_prefix value "grant-" && hex_decodes (trim_prefix value "grant-").
Definition digest (value : string) : bool := (slen value =? 71) && has_prefix value "sha256:" && hex_decodes (trim_prefix value "sha256:").

Definition zero_byte : bytes := [zero].
Definition genesis_preimage (tenantID grantID : string) (generation : Z) : bytes :=
  bytes_of "steward-effect-context-genesis-v1" ++ zero_byte ++ bytes_of tenantID ++ zero_byte ++ bytes_of grantID ++ zero_byte ++ itoa generation ++ zero_byte.
Definition advance_preimage (chainHash receiptHash : string) : bytes :=
  bytes_of "steward-effect-context-advance-v1" ++ zero_byte ++ bytes_of chainHash ++ zero_byte ++ bytes_of receiptHash.

Definition Genesis (tenantID grantID : string) (generation : Z) : result Head :=
  require publicIdentity tenantID 128 && grantIdentity grantID && negb (generation =? 0) else "invalid effect context" in
  Ok (mkHead SchemaV1 tenantID grantID generation 0 (sha256_text (genesis_preimage tenantID grantID generation))).

Definition Validate (head : Head) : result unit :=
  require String.eqb (h_SchemaVersion head) SchemaV1 && publicIdentity (h_TenantID head) 128 && grantIdentity (h_GrantID head)
    && negb (h_Generation head =? 0) && digest (h_ChainHash head) else "invalid effect context" in Ok tt.

(** [^uint64(0)] is the last sequence number; the head that holds it is final. *)
Definition Advance (current : Head) (receiptHash : string) : result Head :=
  let* _ := Validate current in
  require digest receiptHash && negb (h_Sequence current =? 2 ^ 64 - 1) else "invalid effect context" in
  Ok (mkHead (h_SchemaVersion current) (h_TenantID current) (h_GrantID current) (h_Generation current) (h_Sequence current + 1)
    (sha256_text (advance_preimage (h_ChainHash current) receiptHash))).

(** ** Histories *)

(** The receipts of a grant, advanced one after the other from its genesis. *)
Fixpoint advance_all (head : Head) (receipts : list string) : result Head :=
  match receipts with
  | [] => Ok head
  | receipt :: receipts => let* next := Advance head receipt in advance_all next receipts
  end.
Definition history (tenantID grantID : string) (generation : Z) (receipts : list string) : result Head :=
  let* genesis := Genesis tenantID grantID generation in advance_all genesis receipts.

Definition next_chain (chain receipt : string) : string := sha256_text (advance_preimage chain receipt).
(** Every text that is hashed on the way. *)
Fixpoint advance_preimages (chain : string) (receipts : list string) : list bytes :=
  match receipts with
  | [] => []
  | receipt :: receipts => advance_preimage chain receipt :: advance_preimages (next_chain chain receipt) receipts
  end.
Definition preimages (tenantID grantID : string) (generation : Z) (receipts : list string) : list bytes :=
  genesis_preimage tenantID grantID generation :: advance_preimages (sha256_text (genesis_preimage tenantID grantID generation)) receipts.

(** ** Lemmas *)

Lemma digest_len s : digest s = true -> slen s = 71.
Proof. unfold digest. intros H. breflect. done. Qed.
Lemma sha256_text_len m : slen (sha256_text m) = 71.
Proof. apply sha256_digest_length, sha256_digest_text. Qed.

Lemma identity_nul s n : publicIdentity s n = true -> Forall (fun c => u8 c <> 0) (bytes_of s).
Proof. unfold publicIdentity, ConnectorEvent.publicIdentity. intros H. apply contains_byte_false. breflect. done. Qed.
Lemma grant_nul s : grantIdentity s = true -> Forall (fun c => u8 c <> 0) (bytes_of s).
Proof.
  unfold grantIdentity, hex_decodes. intros H. breflect. rewrite (trim_prefix_app s "grant-"), bytes_of_app by done. apply Forall_app. split; [repeat constructor; vm_compute; congruence|].
  unfold all_bytes in *. match goal with Hx : forallb _ _ = true |- _ => rewrite forallb_forall in Hx; rename Hx into Hall end. apply Forall_forall. intros c Hc%list_elem_of_In.
  specialize (Hall c Hc). unfold hex_byte, lower_hex_byte in Hall. lia.
Qed.

Lemma genesis_inj t g n t' g' n' : publicIdentity t 128 = true -> grantIdentity g = true -> publicIdentity t' 128 = true -> grantIdentity g' = true ->
  genesis_preimage t g n = genesis_preimage t' g' n' -> t = t' /\ g = g' /\ n = n'.
Proof.
  intros Ht%identity_nul Hg%grant_nul Ht'%identity_nul Hg'%grant_nul E%app_inv_head%app_inv_head. unfold zero_byte in E. cbn [app] in E.
  apply split_at_nul in E as [Et E]; [|done..]. apply split_at_nul in E as [Eg E]; [|done..]. apply app_inv_tail, itoa_inj in E as ->. by apply bytes_of_inj in Et as ->, Eg as ->.
Qed.

Lemma advance_inj c r c' r' : slen c = 71 -> slen c' = 71 -> advance_preimage c r = advance_preimage c' r' -> c = c' /\ r = r'.
Proof.
  intros Hc Hc' E%app_inv_head%app_inv_head. rewrite <- !zlen_bytes_of in *. unfold zlen in *. apply app_inj_1 in E as [Ec E]; [|lia]. apply bytes_of_inj in Ec as ->.
  by apply app_inv_head, bytes_of_inj in E as ->.
Qed.

Lemma genesis_advance t g n c r : genesis_preimage t g n <> advance_preimage c r.
Proof. intros E. discriminate E. Qed.

Lemma preimages_snoc t g n rs r : preimages t g n (rs ++ [r]) = preimages t g n rs ++ [advance_preimage (fold_left next_chain rs (sha256_text (genesis_preimage t g n))) r].
Proof.
  unfold preimages. generalize (sha256_text (genesis_preimage t g n)). induction rs as [|x rs IH]; intros c; [done|]. cbn [app advance_preimages fold_left].
  specialize (IH (next_chain c x)). injection IH as IH. by rewrite IH.
Qed.

(** Two histories with one chain hash are the same history, or two of the texts they hashed collide. *)
Lemma chain_inj t g n rs t' g' n' rs' : publicIdentity t 128 = true -> grantIdentity g = true -> publicIdentity t' 128 = true -> grantIdentity g' = true ->
  fold_left next_chain rs (sha256_text (genesis_preimage t g n)) = fold_left next_chain rs' (sha256_text (genesis_preimage t' g' n')) ->
  (t = t' /\ g = g' /\ n = n' /\ rs = rs') \/
  exists x y, x ∈ preimages t g n rs /\ y ∈ preimages t' g' n' rs' /\ x <> y /\ Sha256.sum x = Sha256.sum y.
Proof.
  intros Ht Hg Ht' Hg'. revert rs'. induction rs as [|r rs IH] using rev_ind; intros rs'; destruct rs' as [|r' rs' _] using rev_ind; rewrite ?fold_left_app; cbn [fold_left]; intros E.
  - destruct (decide (genesis_preimage t g n = genesis_preimage t' g' n')) as [Ep|Hn]; [left; by apply genesis_inj in Ep as (-> & -> & ->)|].
    right. exists (genesis_preimage t g n), (genesis_preimage t' g' n'). split_and!; [left | left | done | by apply sha256_text_inj].
  - right. eexists _, _. split_and!; [left | rewrite preimages_snoc; apply elem_of_app; right; left | apply genesis_advance | by apply sha256_text_inj].
  - right. eexists _, _. split_and!; [rewrite preimages_snoc; apply elem_of_app; right; left | left | intros Ex; by eapply genesis_advance | by apply sha256_text_inj].
  - set (c := fold_left next_chain rs (sha256_text (genesis_preimage t g n))) in *. set (c' := fold_left next_chain rs' (sha256_text (genesis_preimage t' g' n'))) in *.
    assert (Hl : forall l x, slen (fold_left next_chain l (sha256_text x)) = 71).
    { intros l x. destruct l as [|y l _] using rev_ind; [apply sha256_text_len|]. rewrite fold_left_app. apply sha256_text_len. }
    destruct (decide (advance_preimage c r = advance_preimage c' r')) as [Ep|Hn].
    + apply advance_inj in Ep as [Ec ->]; [|apply Hl..]. destruct (IH rs' Ec) as [(-> & -> & -> & ->) | (x & y & Hx & Hy & Hxy)]; [by left|].
      right. exists x, y. rewrite !preimages_snoc, !elem_of_app. split_and!; [by left | by left | apply Hxy | apply Hxy].
    + right. eexists _, _. split_and!; [rewrite preimages_snoc; apply elem_of_app; right; left | rewrite preimages_snoc; apply elem_of_app; right; left | exact Hn | by apply sha256_text_inj].
Qed.

Lemma advance_all_chain rs h h' : advance_all h rs = Ok h' ->
  h_ChainHash h' = fold_left next_chain rs (h_ChainHash h) /\ h_Sequence h' = h_Sequence h + zlen rs /\ h_TenantID h' = h_TenantID h /\ h_GrantID h' = h_GrantID h /\ h_Generation h' = h_Generation h.
Proof.
  revert h. induction rs as [|r rs IH]; intros h H; cbn [advance_all] in H; [injection H as <-; split_and!; try done; unfold zlen; cbn; lia|].
  destruct (Advance h r) as [next|] eqn:Ea; [|done]. apply IH in H as (-> & -> & -> & -> & ->). unfold Advance in Ea. do 2 step Ea. injection Ea as <-. cbn [h_ChainHash h_Sequence h_TenantID h_GrantID h_Generation fold_left].
  split_and!; try done. rewrite zlen_cons. lia.
Qed.

(** C30: The head of a history commits to all of it: heads with one chain hash were made for the same tenant, grant and generation from the same receipts in the same order, or two
    of the texts hashed on the way collide under SHA-256; and the sequence number counts the receipts. *)
Theorem history_commits t g n rs h t' g' n' rs' h' : history t g n rs = Ok h -> history t' g' n' rs' = Ok h' -> h_ChainHash h = h_ChainHash h' ->
  h_Sequence h = zlen rs /\
  ((t = t' /\ g = g' /\ n = n' /\ rs = rs') \/ exists x y, x ∈ preimages t g n rs /\ y ∈ preimages t' g' n' rs' /\ x <> y /\ Sha256.sum x = Sha256.sum y).
Proof.
  unfold history. intros H H' E. destruct (Genesis t g n) as [h0|] eqn:E0; [|done]. destruct (Genesis t' g' n') as [h0'|] eqn:E0'; [|done].
  unfold Genesis in *. step E0. step E0'. injection E0 as <-. injection E0' as <-. apply advance_all_chain in H as (Hc & Hs & _), H' as (Hc' & _ & _).
  cbn [h_ChainHash h_Sequence] in *. breflect. split; [lia|]. apply chain_inj; try done. by rewrite <- Hc, <- Hc'.
Qed.

Lemma digest_sha256 m : digest (sha256_text m) = true.
Proof.
  pose proof (sha256_digest_text m) as H. pose proof (sha256_text_len m) as Hl. fold (sha256_text m) in H. unfold sha256_digest in H. unfold digest, hex_decodes. rewrite Hl. breflect.
  rewrite H. assert (slen (trim_prefix (sha256_text m) "sha256:") = 64) as ->.
  { rewrite (trim_prefix_app _ _ H), slen_app in Hl. change (slen "sha256:") with 7 in Hl. lia. }
  rewrite (all_bytes_mono lower_hex_byte); [done | | done]. intros z Hz. unfold hex_byte. by rewrite Hz.
Qed.

Lemma advance_valid h r next : Advance h r = Ok next -> Validate next = Ok tt.
Proof.
  unfold Advance, Validate. intros H. do 2 step H. injection H as <-. cbn [h_SchemaVersion h_TenantID h_GrantID h_Generation h_ChainHash]. step E. rewrite digest_sha256.
  by apply andb_true_iff in E1 as [-> _].
Qed.
Lemma history_valid t g n rs h : history t g n rs = Ok h -> Validate h = Ok tt /\ h_Sequence h = zlen rs.
Proof.
  unfold history. destruct (Genesis t g n) as [h0|] eqn:Eg; [|done]. assert (Hv : Validate h0 = Ok tt /\ h_Sequence h0 = 0).
  { unfold Genesis in Eg. step Eg. injection Eg as <-. unfold Validate. cbn [h_SchemaVersion h_TenantID h_GrantID h_Generation h_ChainHash]. rewrite digest_sha256, String.eqb_refl. by breflect; repeat match goal with Hx : _ = true |- _ => rewrite Hx end; rewrite (proj2 (Z.eqb_neq n 0)). }
  destruct Hv as [Hv H0]. intros H. destruct (advance_all_chain _ _ _ H) as (_ & Hs & _). split; [|lia]. clear - Hv H. revert h0 Hv H.
  induction rs as [|r rs IH]; intros h0 Hv H; cbn [advance_all] in H; [by injection H as <-|]. destruct (Advance h0 r) as [next|] eqn:Ea; [|done]. eapply IH, H. by eapply advance_valid.
Qed.

(** A history goes on until the sequence number is used up, and then for no receipt. *)
Theorem history_continues t g n rs h r : history t g n rs = Ok h -> digest r = true ->
  if zlen rs =? 2 ^ 64 - 1 then Advance h r = Err "invalid effect context" else exists next, Advance h r = Ok next /\ history t g n (rs ++ [r]) = Ok next.
Proof.
  intros H Hr. destruct (history_valid _ _ _ _ _ H) as [Hv Hs]. rewrite <- Hs.
  assert (Happ : forall l h0, advance_all h0 (l ++ [r]) = let* h1 := advance_all h0 l in advance_all h1 [r]).
  { induction l as [|x l IH]; intros h0; [done|]. cbn [app advance_all]. destruct (Advance h0 x); [apply IH | done]. }
  destruct (h_Sequence h =? 2 ^ 64 - 1) eqn:E; unfold Advance; rewrite Hv, Hr, E; cbn [negb andb]; [done|]. eexists. split; [done|].
  unfold history in *. destruct (Genesis t g n) as [h0|]; [|done]. rewrite Happ, H. cbn [advance_all]. unfold Advance. by rewrite Hv, Hr, E.
Qed.

(** The two spellings of one chain hash are both valid heads. *)
Definition spelled (hash : string) : Head := mkHead SchemaV1 "acme" "grant-0000000000000000000000000000000000000000000000000000000000000000" 1 0 hash.
Theorem alternate_spelling_accepted : let hash digit := ("sha256:" +:+ string_of (repeat digit 64))%string in
  Validate (spelled (hash "a"%char)) = Ok tt /\ Validate (spelled (hash "A"%char)) = Ok tt.
Proof. split; vm_compute; reflexivity. Qed.

Lemma history_commits_witness : exists h, history "acme" (h_GrantID (spelled "")) 3 [] = Ok h /\ h_Sequence h = 0 /\
  (("acme" = "acme" /\ h_GrantID (spelled "") = h_GrantID (spelled "") /\ 3 = 3 /\ @nil string = []) \/
   exists x y, x ∈ preimages "acme" (h_GrantID (spelled "")) 3 [] /\ y ∈ preimages "acme" (h_GrantID (spelled "")) 3 [] /\ x <> y /\ Sha256.sum x = Sha256.sum y).
Proof.
  exists (mkHead SchemaV1 "acme" (h_GrantID (spelled "")) 3 0 (sha256_text (genesis_preimage "acme" (h_GrantID (spelled "")) 3))). split; [reflexivity|].
  apply (history_commits "acme" (h_GrantID (spelled "")) 3 [] _ "acme" (h_GrantID (spelled "")) 3 []
    (mkHead SchemaV1 "acme" (h_GrantID (spelled "")) 3 0 (sha256_text (genesis_preimage "acme" (h_GrantID (spelled "")) 3)))); reflexivity.
Defined.

End Influence.
