(* ===== verification/EffectGate.v ===== *)
(** * Authorizing connector calls ([src/internal/gateway/connector.go], [connector_receipts.go])

    What Gateway checks before a call of a connector leaves the node: the permit that its header carries, against the grant, the operation, the exact request and
    the history of the workload ([verifyConnectorActionPermit]). The accounting of the calls is in [EffectBudget]. [canonical_origin] is the test of
    [exactConnectorOrigin], which reads the configured origin with [net/url]. *)

From Stdlib Require Import Ascii.
From S2P Require Import Prelude GoText GoTime GoFS FenceStore GoJson GoCrypto Strict Dsse GoRune GoNet Admission ConnectorEvent ConnectorReceipt Permit TaskPermit SchedulePermit ActionPermit ActionApproval GoZone GatewayGrant Influence.

(** A lemma depends on the section hypotheses its proof uses. *)
Unset Default Proof Using.

Module EffectGate.
Import ActionPermit GatewayGrant.

Definition CredentialModeBearer : string := "bearer".
Definition CredentialModeXAPIKey : string := "x-api-key".

Record ConnectorOperation := mkOperation { op_ID : string; op_Method : string; op_Path : string }.
(** The members of [Connector] and [loadedConnector] that the authorization reads. *)
Record loadedConnector := mkConnector {
  lc_BaseURL : string; lc_CredentialMode : string; lc_CredentialEpoch : Z; lc_MaxCallsPerGrant : Z; lc_MaxActionPermitSeconds : Z;
  lc_operations : gmap string ConnectorOperation; lc_authorities : gmap string bytes; lc_authorityTenants : gmap string string; lc_permitNodeID : string;
  lc_ActionAuthorityIDs : list string }.
Record connectorActionPermit := mkPermit {
  cp_authorityKeyID : string; cp_authorityKeyIDs : list string; cp_approvalThreshold : Z; cp_permitDigest : string; cp_requestDigest : string;
  cp_operationDigest : string; cp_expiresAt : Z }.
Definition no_permit : connectorActionPermit := mkPermit "" [] 0 "" "" "" 0.

(** ** Operations *)

Definition connectorMethod (value : string) : bool := is_in value ["GET"; "HEAD"; "POST"; "PUT"; "PATCH"; "DELETE"]%string.
Definition connectorMethodHasBody (value : string) : bool := is_in value ["POST"; "PUT"; "PATCH"]%string.
Definition ConnectorOperationContentType (method : string) : result string :=
  require connectorMethod method else "unsupported connector method" in
  Ok (if connectorMethodHasBody method then "application/json"%string else ""%string).

(** The bytes of [canonicalConnectorPathByte] that [EscapedPath] leaves as they are: not [!'()*]. *)
Definition path_byte (z : Z) : bool :=
  ((97 <=? z) && (z <=? 122)) || ((65 <=? z) && (z <=? 90)) || ((48 <=? z) && (z <=? 57)) || existsb (fun c => z =? u8 c) (bytes_of "/-._~$&+,;=:@").
(** [path.Clean] leaves an absolute path alone that is the root, or whose segments are neither empty nor a dot nor two dots. *)
Definition clean_segment (segment : bytes) : bool := negb (bool_decide (segment = [])) && negb (bool_decide (segment = bytes_of ".")) && negb (bool_decide (segment = bytes_of "..")).
Definition canonicalConnectorPath (value : string) : bool :=
  has_prefix value "/" && (slen value <=? 2048) && all_bytes path_byte value &&
  (String.eqb value "/" || forallb clean_segment (split_on (bytes_of "/") (bytes_of (trim_prefix value "/")))).

(** Texts with a zero byte after each of them. *)
Definition fields_preimage (domain : string) (values : list string) : bytes := bytes_of domain ++ zero :: concat ((fun v => bytes_of v ++ [zero]) <$> values).

Definition ConnectorCallDigest (tenantID instanceID taskID connectorID operationID : string) : string :=
  sha256_text (fields_preimage "steward-gateway-connector-call-v1" [tenantID; instanceID; taskID; connectorID; operationID]).

(** [slicesContainsSorted]: the loop halves the interval; its length bounds the iterations. *)
Fixpoint search_loop (fuel : nat) (values : list string) (value : string) (low high : nat) : nat :=
  match fuel with
  | O => low
  | S fuel =>
      if Nat.ltb low high then
        let middle := Nat.div2 (low + high) in
        match values !! middle with
        | Some x => if str_lt x value then search_loop fuel values value (S middle) high else search_loop fuel values value low middle
        | None => low
        end
      else low
  end.
Definition slicesContainsSorted (values : list string) (value : string) : bool :=
  match values !! search_loop (length values) values value 0 (length values) with Some x => String.eqb x value | None => false end.

Section gate.
Context (canonical_origin : string -> bool) (verify : bytes -> bytes -> bytes -> bool).

Definition ConnectorOperationPolicyDigest (baseURL credentialMode : string) (credentialEpoch : Z) (connectorID : string) (operation : ConnectorOperation) : result string :=
  require canonical_origin baseURL && (String.eqb credentialMode CredentialModeBearer || String.eqb credentialMode CredentialModeXAPIKey)
    && negb (credentialEpoch =? 0) && routeID connectorID && routeID (op_ID operation) && connectorMethod (op_Method operation)
    && canonicalConnectorPath (op_Path operation) else "connector operation policy is invalid" in
  Ok (sha256_text (fields_preimage "steward-connector-operation-policy-v1"
    [connectorID; baseURL; credentialMode; Dsse.itoa_string credentialEpoch; op_ID operation; op_Method operation; op_Path operation])).

Definition operation_digest (c : loadedConnector) (connectorID : string) (operation : ConnectorOperation) : result string :=
  ConnectorOperationPolicyDigest (lc_BaseURL c) (lc_CredentialMode c) (lc_CredentialEpoch c) connectorID operation.

(** ** Keys *)

(** A later authority would replace an earlier one of the same name. *)
Definition add_action_key (connectorID : string) (keys : gmap string bytes) (a : GrantActionAuthority) : gmap string bytes :=
  if slicesContainsSorted (ga_ConnectorIDs a) connectorID then
    match b64_decode_string (ga_PublicKey a) with
    | Some public => if zlen public =? Dsse.PublicKeySize then <[ga_KeyID a := public]> keys else keys
    | None => keys
    end
  else keys.
Definition grantActionAuthorityKeys (grant : Grant) (connectorID : string) : gmap string bytes := fold_left (add_action_key connectorID) (g_ActionAuthorities grant) ∅.

Definition same_tenant (c : loadedConnector) (keyID tenantID : string) : bool := String.eqb (default ""%string (lc_authorityTenants c !! keyID)) tenantID.

(** The first authority of that name for the connector decides. *)
Fixpoint authority_matches (authorities : list GrantActionAuthority) (configured : bytes) (keyID connectorID : string) : bool :=
  match authorities with
  | [] => false
  | a :: rest =>
      if String.eqb (ga_KeyID a) keyID && slicesContainsSorted (ga_ConnectorIDs a) connectorID then
        match b64_decode_string (ga_PublicKey a) with
        | Some public => (zlen public =? Dsse.PublicKeySize) && bool_decide (public = configured)
        | None => false
        end
      else authority_matches rest configured keyID connectorID
  end.
Definition grantAuthorityMatchesConnector (grant : Grant) (c : loadedConnector) (keyID connectorID : string) : bool :=
  match lc_authorities c !! keyID with
  | Some configured => same_tenant c keyID (g_TenantID grant) && authority_matches (g_ActionAuthorities grant) configured keyID connectorID
  | None => false
  end.

(** ** Grants in authorized mode

    What Gateway checks of such a grant when it is registered or restored, and of a connector when its configuration is loaded. *)

Definition maxActionAuthoritiesPerCall : Z := 8.
Definition maxActionPermitSeconds : Z := 86400.

(** An element of a list that must ascend, after [previous]. *)
Definition above (previous : option string) (value : string) : bool := match previous with Some p => str_lt p value | None => true end.

(** The loop over the connectors of one authority. *)
Fixpoint cover_connectors (connectorIDs : list string) (previous : option string) (covered : gset string) (ids : list string) : option (gset string) :=
  match ids with
  | [] => Some covered
  | id :: ids => if slicesContainsSorted connectorIDs id && above previous id then cover_connectors connectorIDs (Some id) ({[ id ]} ∪ covered) ids else None
  end.

(** [previous] is the key identifier before, [seen] the public keys before, [covered] the connectors before. *)
Fixpoint cover_authorities (connectorIDs : list string) (previous : option string) (seen : list bytes) (covered : gset string) (authorities : list GrantActionAuthority)
  : option (gset string) :=
  match authorities with
  | [] => Some covered
  | a :: rest =>
      if routeID (ga_KeyID a) && above previous (ga_KeyID a) && negb (zlen (ga_ConnectorIDs a) =? 0) && (zlen (ga_ConnectorIDs a) <=? zlen connectorIDs) then
        match b64_decode_string (ga_PublicKey a) with
        | Some public =>
            if (zlen public =? Dsse.PublicKeySize) && String.eqb (b64_encode_string public) (ga_PublicKey a) && negb (bool_decide (public ∈ seen)) then
              match cover_connectors connectorIDs None covered (ga_ConnectorIDs a) with
              | Some covered => cover_authorities connectorIDs (Some (ga_KeyID a)) (public :: seen) covered rest
              | None => None
              end
            else None
        | None => None
        end
      else None
  end.
Definition validGrantActionAuthorities (authorities : list GrantActionAuthority) (connectorIDs : list string) : bool :=
  negb (zlen authorities =? 0) && (zlen authorities <=? maxActionAuthoritiesPerCall) &&
  match cover_authorities connectorIDs None [] ∅ authorities with Some covered => Z.of_nat (size covered) =? zlen connectorIDs | None => false end.

(** The authorities that the configuration gives the connectors of a grant: for each key identifier the public key and the connectors, in the order of the grant. *)
Fixpoint expect_keys (c : loadedConnector) (tenantID connectorID : string) (expected : gmap string (string * list string)) (keyIDs : list string)
  : option (gmap string (string * list string)) :=
  match keyIDs with
  | [] => Some expected
  | keyID :: keyIDs =>
      if same_tenant c keyID tenantID then
        let '(known, connectorIDs) := default (""%string, []) (expected !! keyID) in
        let publicKey := b64_encode_string (default [] (lc_authorities c !! keyID)) in
        if negb (String.eqb known "") && negb (String.eqb known publicKey) then None
        else expect_keys c tenantID connectorID (<[ keyID := (publicKey, connectorIDs ++ [connectorID]) ]> expected) keyIDs
      else None
  end.
Fixpoint expect_connectors (connectors : gmap string loadedConnector) (grant : Grant) (expected : gmap string (string * list string)) (connectorIDs : list string)
  : option (gmap string (string * list string)) :=
  match connectorIDs with
  | [] => Some expected
  | connectorID :: connectorIDs =>
      match connectors !! connectorID with
      | Some c =>
          if (zlen (lc_ActionAuthorityIDs c) =? 0) || (lc_CredentialEpoch c =? 0) || (lc_MaxActionPermitSeconds c =? 0)
             || negb (String.eqb (lc_permitNodeID c) (g_NodeID grant)) then None else
          match expect_keys c (g_TenantID grant) connectorID expected (lc_ActionAuthorityIDs c) with
          | Some expected => expect_connectors connectors grant expected connectorIDs
          | None => None
          end
      | None => None
      end
  end.

Definition validAuthorizedEffectsGrant (nodeID : string) (connectors : gmap string loadedConnector) (grant : Grant) : bool :=
  let authorities := g_ActionAuthorities grant in
  negb (zlen (g_ConnectorIDs grant) =? 0) && negb (zlen authorities =? 0)
  && (1 <=? g_ActionApprovalThreshold grant) && (g_ActionApprovalThreshold grant <=? zlen authorities)
  && validGrantActionAuthorities authorities (g_ConnectorIDs grant) && String.eqb (g_NodeID grant) nodeID &&
  match expect_connectors connectors grant ∅ (g_ConnectorIDs grant) with
  | Some expected =>
      (Z.of_nat (size expected) =? zlen authorities)
      && forallb (fun a => match expected !! ga_KeyID a with
                           | Some (publicKey, ids) => String.eqb publicKey (ga_PublicKey a) && bool_decide (ids = ga_ConnectorIDs a)
                           | None => false
                           end) authorities
      && forallb (fun id => g_ActionApprovalThreshold grant <=? zlen (List.filter (fun a => slicesContainsSorted (ga_ConnectorIDs a) id) authorities)) (g_ConnectorIDs grant)
  | None => false
  end.

(** How the configuration loads the authorities of a connector: [authorities] are the configured keys with their tenants. *)
Fixpoint load_authorities (authorities : gmap string (bytes * string)) (previous : option string) (keys : gmap string bytes) (tenants : gmap string string) (keyIDs : list string)
  : result (gmap string bytes * gmap string string) :=
  match keyIDs with
  | [] => Ok (keys, tenants)
  | keyID :: keyIDs =>
      require routeID keyID && above previous keyID else "connector action authority IDs must be unique and sorted" in
      let* authority := opt_ok (authorities !! keyID) "connector references unknown action authority" in
      load_authorities authorities (Some keyID) (<[ keyID := authority.1 ]> keys) (<[ keyID := authority.2 ]> tenants) keyIDs
  end.
Definition load_connector_authorities (authorities : gmap string (bytes * string)) (nodeID : string) (keyIDs : list string) (maximum epoch : Z)
  : result (gmap string bytes * gmap string string * string) :=
  require (if zlen keyIDs =? 0 then (maximum =? 0) && (epoch =? 0)
           else (zlen keyIDs <=? maxActionAuthoritiesPerCall) && (1 <=? maximum) && (maximum <=? maxActionPermitSeconds) && negb (epoch =? 0))
    else "connector has invalid action permit authorities, credential epoch, or lifetime" in
  let* loaded := load_authorities authorities None ∅ ∅ keyIDs in
  Ok (loaded, if zlen keyIDs =? 0 then ""%string else nodeID).

(** A connector as the configuration loaded it. *)
Definition connector_loaded (authorities : gmap string (bytes * string)) (nodeID : string) (c : loadedConnector) : Prop :=
  load_connector_authorities authorities nodeID (lc_ActionAuthorityIDs c) (lc_MaxActionPermitSeconds c) (lc_CredentialEpoch c)
  = Ok (lc_authorities c, lc_authorityTenants c, lc_permitNodeID c).

(** ** Bundles *)

(** [expiresAt.Sub(notBefore)], which saturates. *)
Definition sub_times (later earlier : Z) : Z := Z.max (- 2 ^ 63) (Z.min (2 ^ 63 - 1) (later - earlier)).

(** The loop over the steps: every one of them must be configured and signed by authorities of its connector; the operation digest of the requested task is kept. *)
Fixpoint bundle_loop (connectors : gmap string loadedConnector) (grant : Grant) (b : BundleStatement) (keyIDs : list string) (validity : Z)
    (connectorID operationID taskID requestDigest : string) (size : Z) (selected : option string) (steps : list BundleStep) : result (option string) :=
  match steps with
  | [] => Ok selected
  | s :: steps =>
      let outside := "effect bundle contains a connector outside the active grant or its permit lifetime"%string in
      let* c := opt_ok (connectors !! b_ConnectorID s) outside in
      require slicesContainsSorted (g_ConnectorIDs grant) (b_ConnectorID s) && String.eqb (lc_permitNodeID c) (bs_NodeID b) && (1 <=? lc_MaxActionPermitSeconds c)
        && (validity <=? SchedulePermit.seconds (lc_MaxActionPermitSeconds c)) else outside in
      let* operation := opt_ok (lc_operations c !! b_OperationID s) "effect bundle operation is not configured" in
      match operation_digest c (b_ConnectorID s) operation, ConnectorOperationContentType (op_Method operation) with
      | Ok operationDigest, Ok contentType =>
          require String.eqb (b_OperationDigest s) operationDigest && String.eqb (b_ContentType s) contentType else "effect bundle operation does not match trusted connector policy" in
          require forallb (fun keyID => grantAuthorityMatchesConnector grant c keyID (b_ConnectorID s)) keyIDs else "effect bundle signer is not authorized for every connector" in
          if String.eqb (b_TaskID s) taskID then
            require String.eqb (b_ConnectorID s) connectorID && String.eqb (b_OperationID s) operationID && String.eqb (b_RequestDigest s) requestDigest
              && (b_RequestBytes s =? size) && String.eqb (b_ContentType s) contentType else "effect bundle step does not match the requested connector effect" in
            bundle_loop connectors grant b keyIDs validity connectorID operationID taskID requestDigest size (Some operationDigest) steps
          else bundle_loop connectors grant b keyIDs validity connectorID operationID taskID requestDigest size selected steps
      | _, _ => Err "effect bundle operation does not match trusted connector policy"
      end
  end.

Definition verifyConnectorActionBundle (v : Verified) (selectedConnector : loadedConnector) (connectors : gmap string loadedConnector) (grant : Grant)
    (routePolicyDigest connectorID operationID taskID : string) (body : bytes) : result connectorActionPermit :=
  let mismatch := "effect bundle does not match the active tenant and grant"%string in
  let* b := opt_ok (v_Bundle v) mismatch in
  require String.eqb (g_EffectMode grant) EffectModeAuthorized && (bs_ApprovalThreshold b =? g_ActionApprovalThreshold grant)
    && String.eqb (bs_NodeID b) (lc_permitNodeID selectedConnector) && String.eqb (bs_TenantID b) (g_TenantID grant) && String.eqb (bs_InstanceID b) (g_InstanceID grant)
    && (bs_Generation b =? g_Generation grant) && String.eqb (bs_CapsuleDigest b) (g_CapsuleDigest grant) && String.eqb (bs_PolicyDigest b) (g_PolicyDigest grant)
    && String.eqb (bs_RoutePolicyDigest b) routePolicyDigest else mismatch in
  let* notBefore := opt_ok (parse_rfc3339 (bs_NotBefore b)) "effect bundle validity is invalid" in
  let* expiresAt := opt_ok (parse_rfc3339 (bs_ExpiresAt b)) "effect bundle expiry is invalid" in
  let requestDigest := RequestDigest body in
  let* selected := bundle_loop connectors grant b (v_KeyIDs v) (sub_times expiresAt notBefore) connectorID operationID taskID requestDigest (zlen body) None (steps_of b) in
  let* operationDigest := opt_ok selected "effect bundle does not contain the requested task" in
  Ok (mkPermit (v_KeyID v) (v_KeyIDs v) (bs_ApprovalThreshold b) (v_EnvelopeDigest v) requestDigest operationDigest expiresAt).

(** ** Single effects *)

(** The payload type, effect mode and threshold that a grant requires. *)
Definition required_version (grant : Grant) : string * string * Z :=
  if String.eqb (g_EffectMode grant) EffectModeAuthorized then
    if g_ActionContextRequired grant then (PayloadTypeV5, ActionPermit.EffectModeAuthorized, g_ActionApprovalThreshold grant)
    else if 1 <? g_ActionApprovalThreshold grant then (PayloadTypeV3, ActionPermit.EffectModeAuthorized, g_ActionApprovalThreshold grant)
    else (PayloadTypeV2, ActionPermit.EffectModeAuthorized, 0)
  else (PayloadTypeV1, ""%string, 0).

Definition verifyConnectorActionPermit (values : list string) (connector : loadedConnector) (connectors : gmap string loadedConnector) (grant : Grant)
    (actionContext : Influence.Head) (routePolicyDigest connectorID operationID taskID : string) (body : bytes) (now : Z) : result connectorActionPermit :=
  if bool_decide (lc_authorities connector = ∅) then
    require zlen values =? 0 else "connector does not accept action permits" in Ok no_permit
  else match values with
  | [value] =>
      let* raw := Permit.DecodeHeader value in
      let trusted := if String.eqb (g_EffectMode grant) EffectModeAuthorized then grantActionAuthorityKeys grant connectorID else lc_authorities connector in
      let* v := ActionApproval.Verify verify raw trusted now (SchedulePermit.seconds (lc_MaxActionPermitSeconds connector)) in
      if String.eqb (v_PayloadType v) PayloadTypeV4 then
        require negb (g_ActionContextRequired grant) else "effect bundles are unavailable when action context binding is required" in
        verifyConnectorActionBundle v connector connectors grant routePolicyDigest connectorID operationID taskID body
      else
        let s := v_Statement v in
        let requestDigest := RequestDigest body in
        let* operation := opt_ok (lc_operations connector !! operationID) "permit operation is not configured" in
        let* operationDigest := operation_digest connector connectorID operation in
        let* contentType := ConnectorOperationContentType (op_Method operation) in
        let '(payloadType, effectMode, approvalThreshold) := required_version grant in
        require String.eqb (v_PayloadType v) payloadType && String.eqb (s_EffectMode s) effectMode && (s_ApprovalThreshold s =? approvalThreshold)
          && String.eqb (s_NodeID s) (lc_permitNodeID connector) && String.eqb (s_TenantID s) (g_TenantID grant) && String.eqb (s_InstanceID s) (g_InstanceID grant)
          && (s_Generation s =? g_Generation grant) && String.eqb (s_CapsuleDigest s) (g_CapsuleDigest grant) && String.eqb (s_PolicyDigest s) (g_PolicyDigest grant)
          && String.eqb (s_RoutePolicyDigest s) routePolicyDigest && String.eqb (s_ConnectorID s) connectorID && String.eqb (s_OperationID s) operationID
          && String.eqb (s_OperationDigest s) operationDigest && String.eqb (s_TaskID s) taskID && String.eqb (s_RequestDigest s) requestDigest
          && (s_RequestBytes s =? zlen body) && String.eqb (s_ContentType s) contentType
          && negb (g_ActionContextRequired grant && (negb (s_InfluenceSequence s =? Influence.h_Sequence actionContext)
                   || negb (String.eqb (s_InfluenceHash s) (Influence.h_ChainHash actionContext))))
          else "permit does not match the active tenant, grant, operation, task, and request" in
        require forallb (fun keyID => same_tenant connector keyID (g_TenantID grant)) (v_KeyIDs v) else "permit signer does not match the active tenant" in
        let* expiresAt := opt_ok (parse_rfc3339 (s_ExpiresAt s)) "permit expiry is invalid" in
        Ok (mkPermit (v_KeyID v) (v_KeyIDs v) (s_ApprovalThreshold s) (v_EnvelopeDigest v) requestDigest operationDigest expiresAt)
  | _ => Err "exactly one action permit header is required"
  end.

(** ** What an accepted permit authorizes *)

(** The workload that the signed bytes name. *)
Definition workload_of (v : Verified) : string * string * string * Z * string * string * string :=
  match v_Bundle v with
  | Some b => (bs_NodeID b, bs_TenantID b, bs_InstanceID b, bs_Generation b, bs_CapsuleDigest b, bs_PolicyDigest b, bs_RoutePolicyDigest b)
  | None => let s := v_Statement v in (s_NodeID s, s_TenantID s, s_InstanceID s, s_Generation s, s_CapsuleDigest s, s_PolicyDigest s, s_RoutePolicyDigest s)
  end.

(** The signed bytes name this request: the statement itself, or a step of the bundle. *)
Definition names_request (v : Verified) (connectorID operationID operationDigest taskID requestDigest : string) (size : Z) : Prop :=
  match v_Bundle v with
  | Some b => exists s, s ∈ steps_of b /\ b_ConnectorID s = connectorID /\ b_OperationID s = operationID /\ b_OperationDigest s = operationDigest /\ b_TaskID s = taskID /\
      b_RequestDigest s = requestDigest /\ b_RequestBytes s = size
  | None => let s := v_Statement v in s_ConnectorID s = connectorID /\ s_OperationID s = operationID /\ s_OperationDigest s = operationDigest /\ s_TaskID s = taskID /\
      s_RequestDigest s = requestDigest /\ s_RequestBytes s = size
  end.

Record authorized_effect (connector : loadedConnector) (grant : Grant) (actionContext : Influence.Head) (routePolicyDigest connectorID operationID taskID : string) (body : bytes)
    (now : Z) (p : connectorActionPermit) (raw payload : bytes) (v : Verified) (l : list (string * bytes)) (n : Z) : Prop := {
  ae_approved : ActionApproval.approved verify raw (grantActionAuthorityKeys grant connectorID) now (SchedulePermit.seconds (lc_MaxActionPermitSeconds connector)) v payload l n;
  ae_threshold : zlen l = Z.max 1 (g_ActionApprovalThreshold grant);
  ae_signers : Forall (fun k => same_tenant connector k (g_TenantID grant) = true /\
    exists a, a ∈ g_ActionAuthorities grant /\ ga_KeyID a = k /\ connectorID ∈ ga_ConnectorIDs a) l.*1;
  ae_workload : workload_of v = (lc_permitNodeID connector, g_TenantID grant, g_InstanceID grant, g_Generation grant, g_CapsuleDigest grant, g_PolicyDigest grant, routePolicyDigest);
  ae_request : names_request v connectorID operationID (cp_operationDigest p) taskID (RequestDigest body) (zlen body);
  ae_operation : exists operation, lc_operations connector !! operationID = Some operation /\ operation_digest connector connectorID operation = Ok (cp_operationDigest p);
  ae_history : g_ActionContextRequired grant = true ->
    s_InfluenceSequence (v_Statement v) = Influence.h_Sequence actionContext /\ s_InfluenceHash (v_Statement v) = Influence.h_ChainHash actionContext;
  ae_permit : cp_authorityKeyIDs p = l.*1 /\ cp_permitDigest p = Dsse.Digest raw /\ cp_requestDigest p = RequestDigest body;
}.

(** ** Lemmas *)

Lemma sorted_lookup {A} (R : A -> A -> Prop) l i j x y : StronglySorted R l -> (i < j)%nat -> l !! i = Some x -> l !! j = Some y -> R x y.
Proof.
  intros Hs. revert i j. induction Hs as [|z l _ IH HF]; intros i j Hij Hx Hy; [done|]. destruct j as [|j]; [lia|]. destruct i as [|i]; cbn in *.
  - injection Hx as ->. rewrite Forall_forall in HF. apply HF. by eapply list_elem_of_lookup_2.
  - eapply (IH i j); [lia | done..].
Qed.

Lemma binary_search_spec fuel values value low high : StronglySorted (fun x y => str_lt x y = true) values -> (high - low <= fuel)%nat -> (low <= high)%nat -> (high <= length values)%nat ->
  (forall i x, (i < low)%nat -> values !! i = Some x -> str_lt x value = true) -> (forall i x, (high <= i)%nat -> values !! i = Some x -> str_lt x value = false) ->
  let r := search_loop fuel values value low high in
  (forall i x, (i < r)%nat -> values !! i = Some x -> str_lt x value = true) /\ (forall i x, (r <= i)%nat -> values !! i = Some x -> str_lt x value = false).
Proof.
  intros Hs. revert low high. induction fuel as [|fuel IH]; intros low high Hf Hle Hlen Hlo Hhi; cbn [search_loop].
  { assert (low = high) as -> by lia. done. }
  destruct (Nat.ltb_spec low high) as [Hlt|Hge]; [|assert (low = high) as -> by lia; done].
  pose proof (Nat.div2_div (low + high)) as Hd. assert (low <= Nat.div2 (low + high) < high)%nat as [Hm1 Hm2] by (rewrite Hd; split; [apply Nat.div_le_lower_bound; lia | apply Nat.Div0.div_lt_upper_bound; lia]).
  set (middle := Nat.div2 (low + high)) in *. clearbody middle. destruct (lookup_lt_is_Some_2 values middle ltac:(lia)) as [x Hx]. rewrite Hx.
  assert (Hord : forall i j y z, (i < j)%nat -> values !! i = Some y -> values !! j = Some z -> str_lt y z = true).
  { intros i j y z Hij Hy Hz. exact (sorted_lookup (fun x y => str_lt x y = true) values i j y z Hs Hij Hy Hz). }
  destruct (str_lt x value) eqn:E; apply IH; try lia; try done.
  - intros i y Hi Hy. destruct (decide (i = middle)) as [->|]; [congruence|]. eapply str_lt_trans; [eapply (Hord i middle); [lia | done | done] | done].
  - intros i y Hi Hy. destruct (decide (i = middle)) as [->|]; [congruence|]. apply not_true_iff_false. intros Hlt'. apply not_true_iff_false in E. apply E.
    eapply str_lt_trans; [eapply (Hord middle i); [lia | done | done] | done].
Qed.

(** The binary search finds exactly the elements of an ascending list, and never claims another. *)
Lemma contains_sorted values value : StronglySorted (fun x y => str_lt x y = true) values -> slicesContainsSorted values value = true <-> value ∈ values.
Proof.
  intros Hs. unfold slicesContainsSorted. destruct (binary_search_spec (length values) values value 0 (length values)) as [H1 H2]; [done | lia | lia | lia | intros; lia | |].
  { intros i x Hi Hx. apply lookup_lt_Some in Hx. lia. }
  set (r := search_loop _ _ _ _ _) in *. split.
  - destruct (values !! r) as [x|] eqn:E; [|done]. intros <-%String.eqb_eq. by eapply list_elem_of_lookup_2.
  - intros (i & Hi)%list_elem_of_lookup_1. assert (Hri : (r <= i)%nat) by (apply Nat.le_ngt; intros Hlt; specialize (H1 _ _ Hlt Hi); by rewrite str_lt_irrefl in H1).
    destruct (decide (r = i)) as [->|]; [rewrite Hi; apply String.eqb_refl|].
    destruct (lookup_lt_is_Some_2 values r) as [x Hx]; [apply lookup_lt_Some in Hi; lia|]. specialize (H2 r x ltac:(lia) Hx).
    assert (str_lt x value = true) as Hlt; [|congruence]. eapply (sorted_lookup (fun x y => str_lt x y = true) values r i); [done | lia | done | done].
Qed.
Lemma contains_sound values value : slicesContainsSorted values value = true -> value ∈ values.
Proof. unfold slicesContainsSorted. destruct (values !! _) as [x|] eqn:E; [|done]. intros <-%String.eqb_eq. by eapply list_elem_of_lookup_2. Qed.

Lemma add_keys_source connectorID k public l : forall m : gmap string bytes, fold_left (add_action_key connectorID) l m !! k = Some public ->
  m !! k = Some public \/ exists a, a ∈ l /\ ga_KeyID a = k /\ connectorID ∈ ga_ConnectorIDs a.
Proof.
  induction l as [|a l IH]; intros m H; [by left|]. cbn [fold_left] in H. destruct (IH _ H) as [Hm|(b & Hb & Hr)]; [|right; exists b; split; [by right | done]].
  unfold add_action_key in Hm. destruct (slicesContainsSorted (ga_ConnectorIDs a) connectorID) eqn:Ec; [|by left]. destruct (b64_decode_string _) as [p|]; [|by left].
  destruct (zlen p =? _); [|by left]. apply lookup_insert_Some in Hm as [[<- _]|[_ Hm]]; [|by left]. right. exists a. split_and!; [left | done | by apply contains_sound].
Qed.

Lemma grant_keys grant connectorID k public : grantActionAuthorityKeys grant connectorID !! k = Some public ->
  exists a, a ∈ g_ActionAuthorities grant /\ ga_KeyID a = k /\ connectorID ∈ ga_ConnectorIDs a.
Proof. intros H. destruct (add_keys_source _ _ _ _ _ H) as [He|]; [by rewrite lookup_empty in He | done]. Qed.

Lemma bundle_selected connectors grant b keyIDs validity connectorID operationID taskID requestDigest size selected steps d :
  bundle_loop connectors grant b keyIDs validity connectorID operationID taskID requestDigest size selected steps = Ok (Some d) ->
  selected = Some d \/ exists s c operation, s ∈ steps /\ connectors !! connectorID = Some c /\ lc_operations c !! operationID = Some operation /\
    operation_digest c connectorID operation = Ok d /\ b_ConnectorID s = connectorID /\ b_OperationID s = operationID /\ b_OperationDigest s = d /\ b_TaskID s = taskID /\
    b_RequestDigest s = requestDigest /\ b_RequestBytes s = size /\ forallb (fun keyID => grantAuthorityMatchesConnector grant c keyID connectorID) keyIDs = true.
Proof.
  revert selected. induction steps as [|s steps IH]; intros selected H; cbn [bundle_loop] in H; [injection H as ->; by left|].
  destruct (connectors !! b_ConnectorID s) as [c|] eqn:Ec; [|done]. cbn [opt_ok] in H. step H. destruct (lc_operations c !! b_OperationID s) as [operation|] eqn:Eo; [|done]. cbn [opt_ok] in H.
  destruct (operation_digest c (b_ConnectorID s) operation) as [od|] eqn:Ed; [|done]. destruct (ConnectorOperationContentType _) as [ct|]; [|done]. do 2 step H.
  assert (Hrest : forall sel, bundle_loop connectors grant b keyIDs validity connectorID operationID taskID requestDigest size sel steps = Ok (Some d) -> sel = Some d \/
    exists s' c operation, s' ∈ s :: steps /\ connectors !! connectorID = Some c /\ lc_operations c !! operationID = Some operation /\
    operation_digest c connectorID operation = Ok d /\ b_ConnectorID s' = connectorID /\ b_OperationID s' = operationID /\ b_OperationDigest s' = d /\ b_TaskID s' = taskID /\
    b_RequestDigest s' = requestDigest /\ b_RequestBytes s' = size /\ forallb (fun keyID => grantAuthorityMatchesConnector grant c keyID connectorID) keyIDs = true).
  { intros sel Hsel. destruct (IH _ Hsel) as [|(s' & c' & o' & Hin & Hr)]; [by left|]. right. exists s', c', o'. split; [by right | exact Hr]. }
  destruct (String.eqb_spec (b_TaskID s) taskID) as [Et|]; [|by apply Hrest]. step H. destruct (Hrest _ H) as [[= ->]|]; [|by right]. right.
  breflect. repeat match goal with Hx : String.eqb _ _ = true |- _ => apply String.eqb_eq in Hx end. exists s, c, operation.
  match goal with Hx : b_ConnectorID s = connectorID, Hy : b_OperationID s = operationID |- _ => rewrite Hx, Hy in * end. split_and!; try done. left.
Qed.

(** The signers of an approved permit are the authorities of the grant for the connector. *)
Lemma approved_signers raw grant connectorID now maximum v payload l n : ActionApproval.approved verify raw (grantActionAuthorityKeys grant connectorID) now maximum v payload l n ->
  Forall (fun k => exists a, a ∈ g_ActionAuthorities grant /\ ga_KeyID a = k /\ connectorID ∈ ga_ConnectorIDs a) l.*1.
Proof.
  intros Ha. pose proof (ActionApproval.ap_signed _ _ _ _ _ _ _ _ _ Ha) as Hl. apply Forall_fmap. eapply Forall_impl; [exact Hl|]. intros [k sg] (_ & _ & (public & Hk & _)). by eapply grant_keys.
Qed.

(** The number of signatures that the signed threshold asks for. *)
Lemma single_threshold grant t s now maximum payload n : String.eqb (g_EffectMode grant) EffectModeAuthorized = true ->
  ActionApproval.content payload now maximum t s None n -> (t, s_EffectMode s, s_ApprovalThreshold s) = required_version grant ->
  ActionApproval.required_signatures t n = Z.max 1 (g_ActionApprovalThreshold grant).
Proof.
  intros Hm Hc Hr. inversion Hc as [t' s' _ _ Hv|]; subst. pose proof (va_version _ _ _ _ Hv) as Hs. unfold required_version in Hr. rewrite Hm in Hr.
  destruct (g_ActionContextRequired grant).
  - injection Hr as -> _ Eth. unfold supported_version in Hs. cbn in Hs. breflect. unfold ActionApproval.required_signatures. cbn. lia.
  - destruct (Z.ltb_spec 1 (g_ActionApprovalThreshold grant)).
    + injection Hr as -> _ Eth. unfold ActionApproval.required_signatures. cbn. lia.
    + injection Hr as -> _ _. unfold ActionApproval.required_signatures. cbn. lia.
Qed.

Lemma bundle_effect connector connectors grant actionContext routePolicyDigest connectorID operationID taskID body now p raw payload v l n :
  ActionApproval.approved verify raw (grantActionAuthorityKeys grant connectorID) now (SchedulePermit.seconds (lc_MaxActionPermitSeconds connector)) v payload l n ->
  v_Complete v = true -> v_PayloadType v = PayloadTypeV4 -> g_ActionContextRequired grant = false -> connectors !! connectorID = Some connector ->
  verifyConnectorActionBundle v connector connectors grant routePolicyDigest connectorID operationID taskID body = Ok p ->
  authorized_effect connector grant actionContext routePolicyDigest connectorID operationID taskID body now p raw payload v l n.
Proof.
  intros Ha Hcomp Ht Hctx Hcon H. pose proof Ha as [_ _ _ Hc _ _ [Hk _] _ Hco _ Hdg]. unfold verifyConnectorActionBundle in H.
  destruct (v_Bundle v) as [b|] eqn:Eb; [|done]. cbn [opt_ok] in H. step H. destruct (parse_rfc3339 (bs_NotBefore b)) as [nb|]; [|done]. destruct (parse_rfc3339 (bs_ExpiresAt b)) as [ex|] eqn:Ex; [|done].
  cbn [opt_ok] in H. destruct (bundle_loop _ _ _ _ _ _ _ _ _ _ _ _) as [[d|]|] eqn:Eloop; [|done|done]. cbn [opt_ok] in H. injection H as <-.
  apply bundle_selected in Eloop as [Hx|(s & c & operation & Hin & Hc' & Hop & Hod & Hs1 & Hs2 & Hs3 & Hs4 & Hs5 & Hs6 & Hauth)]; [discriminate Hx|]. rewrite Hcon in Hc'. injection Hc' as <-.
  breflect. repeat match goal with Hx : String.eqb _ _ = true |- _ => apply String.eqb_eq in Hx end. inversion Hc as [|b' Hd Hv]; subst. destruct Hv as [(_ & _ & Hth) _ _ _ _ _ _ _].
  constructor; cbn [cp_authorityKeyIDs cp_permitDigest cp_requestDigest cp_operationDigest cp_expiresAt].
  - exact Ha.
  - rewrite Hcomp in Hco. symmetry in Hco. apply Z.eqb_eq in Hco. rewrite Hco, Ht. change (ActionApproval.required_signatures PayloadTypeV4 (bs_ApprovalThreshold b)) with (bs_ApprovalThreshold b). lia.
  - pose proof (approved_signers _ _ _ _ _ _ _ _ _ Ha) as Hsig. rewrite Forall_forall in *. intros k Hin'. split; [|by apply Hsig]. rewrite Hk, forallb_forall in Hauth.
    specialize (Hauth k ltac:(by apply list_elem_of_In)). unfold grantAuthorityMatchesConnector in Hauth. destruct (lc_authorities connector !! k); [|done]. by apply andb_true_iff in Hauth as [? _].
  - unfold workload_of. rewrite Eb. congruence.
  - unfold names_request. rewrite Eb. exists s. done.
  - by exists operation.
  - congruence.
  - by split_and!.
Qed.

Lemma single_bundle raw trusted now maximum v payload l n : ActionApproval.approved verify raw trusted now maximum v payload l n -> v_PayloadType v <> PayloadTypeV4 ->
  v_Bundle v = None /\ n = s_ApprovalThreshold (v_Statement v).
Proof. intros Ha Ht. destruct Ha as [_ _ _ Hc _ _ _ _ _ _ _]. inversion Hc; [done | congruence]. Qed.

(** A loaded connector has every key that it names. *)
Lemma load_keeps authorities previous keys tenants keyIDs keys' tenants' :
  load_authorities authorities previous keys tenants keyIDs = Ok (keys', tenants') ->
  forall k, k ∈ keyIDs \/ is_Some (keys !! k) -> is_Some (keys' !! k).
Proof.
  revert previous keys tenants. induction keyIDs as [|keyID keyIDs IH]; intros previous keys tenants H k Hk; cbn [load_authorities] in H.
  { injection H as <- <-. destruct Hk as [Hk|]; [by apply not_elem_of_nil in Hk | done]. }
  step H. destruct (authorities !! keyID) as [a'|]; [|done]. cbn [opt_ok] in H. apply (IH _ _ _ H).
  destruct (decide (k = keyID)) as [->|Hne]; [right; by rewrite lookup_insert_eq|]. destruct Hk as [[?|?]%elem_of_cons|?]; [done | by left | right; by rewrite lookup_insert_ne].
Qed.

(** Every connector of an accepted grant is configured and names an authority. *)
Lemma expected_names connectors grant expected ids expected' :
  expect_connectors connectors grant expected ids = Some expected' ->
  forall id c, id ∈ ids -> connectors !! id = Some c -> lc_ActionAuthorityIDs c <> [].
Proof.
  revert expected. induction ids as [|x ids IH]; intros expected H id c Hid Hc; [by apply not_elem_of_nil in Hid|]. cbn [expect_connectors] in H.
  destruct (connectors !! x) as [cx|] eqn:Ex; [|done]. destruct (_ || _) eqn:E in H; [done|]. destruct (expect_keys _ _ _ _ _); [|done].
  apply elem_of_cons in Hid as [->|Hid]; [|by eapply IH]. rewrite Hc in Ex. injection Ex as <-. intros Hn. by rewrite Hn in E.
Qed.

(** The guard on grants: a connector of a grant that Gateway accepted in authorized mode has authorities. *)
Lemma authorized_connector_guarded authorities nodeID connectors grant connectorID connector :
  validAuthorizedEffectsGrant nodeID connectors grant = true -> connectors !! connectorID = Some connector ->
  slicesContainsSorted (g_ConnectorIDs grant) connectorID = true -> connector_loaded authorities nodeID connector -> lc_authorities connector <> ∅.
Proof.
  unfold validAuthorizedEffectsGrant. intros Hg Hc Hin Hl Hn. apply andb_true_iff in Hg as [_ Hg].
  destruct (expect_connectors _ _ _ _) as [expected|] eqn:E; [|done].
  pose proof (expected_names _ _ _ _ _ E connectorID connector (contains_sound _ _ Hin) Hc) as Hne.
  unfold connector_loaded, load_connector_authorities in Hl. step Hl. destruct (load_authorities _ _ _ _ _) as [[keys tenants]|] eqn:El; [|done]. injection Hl as Hk _ _.
  destruct (lc_ActionAuthorityIDs connector) as [|k ks]; [done|]. destruct (load_keeps _ _ _ _ _ _ _ El k) as [x Hx]; [left; left|]. by rewrite Hk, Hn, lookup_empty in Hx.
Qed.

(** C6: A connector call of a grant in authorized mode, that Gateway accepted when the grant was registered or restored ([validAuthorizedEffectsGrant]), on one of the grant's connectors
    as the configuration loaded them, is authorized only by one header with a canonical permit, valid now, that at least one and exactly as many authorities of the
    grant for this connector, and of its tenant, signed as the grant demands, over this workload, operation, task and the exact bytes of the request; and if the
    grant binds the context, over the history that the workload has seen. The branch that lets a call pass without a permit, for connectors without authorities, is
    out of reach of such a grant. *)
Theorem effect_authorized authorities nodeID values connector connectors grant actionContext routePolicyDigest connectorID operationID taskID body now p :
  verifyConnectorActionPermit values connector connectors grant actionContext routePolicyDigest connectorID operationID taskID body now = Ok p ->
  g_EffectMode grant = EffectModeAuthorized -> validAuthorizedEffectsGrant nodeID connectors grant = true ->
  connectors !! connectorID = Some connector -> slicesContainsSorted (g_ConnectorIDs grant) connectorID = true -> connector_loaded authorities nodeID connector ->
  exists value raw payload v l n, values = [value] /\ Permit.DecodeHeader value = Ok raw /\
    authorized_effect connector grant actionContext routePolicyDigest connectorID operationID taskID body now p raw payload v l n.
Proof.
  unfold verifyConnectorActionPermit. intros H Hm Hgrant Hcon Hlisted Hload. pose proof (authorized_connector_guarded _ _ _ _ _ _ Hgrant Hcon Hlisted Hload) as Hne.
  rewrite Hm, bool_decide_false, String.eqb_refl in H by done. destruct values as [|value [|]]; [done| |done].
  destruct (Permit.DecodeHeader value) as [raw|] eqn:Er; [|done]. destruct (ActionApproval.Verify _ _ _ _ _) as [v|] eqn:Ev; [|done].
  apply ActionApproval.verify_approved in Ev as (payload & l & n & Ha & Hcomp). specialize (Hcomp eq_refl). exists value, raw, payload, v, l, n. split; [done|]. split; [done|].
  destruct (String.eqb_spec (v_PayloadType v) PayloadTypeV4) as [Ht|Ht].
  - step H. eapply bundle_effect; try done. by apply negb_true_iff.
  - destruct (lc_operations connector !! operationID) as [operation|] eqn:Eo; [|done]. cbn [opt_ok] in H. destruct (operation_digest _ _ _) as [od|] eqn:Ed; [|done].
    destruct (ConnectorOperationContentType _) as [ct|]; [|done]. destruct (required_version grant) as [[rt rm] rth] eqn:Erv. do 2 step H. destruct (parse_rfc3339 _) as [ex|]; [|done]. cbn [opt_ok] in H.
    injection H as <-. apply andb_true_iff in E as [E Ectx].
    assert (Hist : g_ActionContextRequired grant = true -> s_InfluenceSequence (v_Statement v) = Influence.h_Sequence actionContext /\
      s_InfluenceHash (v_Statement v) = Influence.h_ChainHash actionContext).
    { intros Hctx. rewrite Hctx in Ectx. destruct (Z.eqb_spec (s_InfluenceSequence (v_Statement v)) (Influence.h_Sequence actionContext)); [|done].
      by destruct (String.eqb_spec (s_InfluenceHash (v_Statement v)) (Influence.h_ChainHash actionContext)). }
    clear Ectx. breflect. repeat match goal with Hx : String.eqb _ _ = true |- _ => apply String.eqb_eq in Hx end.
    destruct (single_bundle _ _ _ _ _ _ _ _ Ha Ht) as [Hb ->]. pose proof Ha as [_ _ _ Hc _ _ [Hk _] _ Hco _ Hdg]. rewrite Hb in Hc.
    constructor; cbn [cp_authorityKeyIDs cp_permitDigest cp_requestDigest cp_operationDigest cp_expiresAt].
    + exact Ha.
    + rewrite Hcomp in Hco. symmetry in Hco. apply Z.eqb_eq in Hco. rewrite Hco. eapply (single_threshold grant); [by rewrite Hm | exact Hc | rewrite Erv; congruence].
    + pose proof (approved_signers _ _ _ _ _ _ _ _ _ Ha) as Hsig. rewrite Forall_forall in *. intros k Hin. split; [|by apply Hsig]. rewrite Hk in *.
      match goal with Hx : forallb _ _ = true |- _ => rewrite forallb_forall in Hx; apply Hx end. by apply list_elem_of_In.
    + unfold workload_of. rewrite Hb. congruence.
    + unfold names_request. rewrite Hb. done.
    + by exists operation.
    + exact Hist.
    + by split_and!.
Qed.

End gate.

(** ** A concrete effect *)

Definition sample_origin (value : string) : bool := String.eqb value "https://mail.example".
Definition sample_operation : ConnectorOperation := mkOperation "send" "POST" "/v1/send".
Definition sample_operation_digest : string := "sha256:e9fd7b1b01371838b34b51d7d57864e6446929841a8223291cfd92b26303cdbc".
Definition sample_body : bytes := bytes_of "{}".
Definition sample_body_digest : string := "sha256:44136fa355b3678a1146ad16f7e8649e94fb4fc21fe77e8310c060f61caaff8a".
Definition sample_effect : Statement :=
  mkStatement SchemaV5 ActionPermit.EffectModeAuthorized 2 "node-1" "acme" "agent-1" 3 sample_digest sample_digest sample_digest "mail" "send" sample_operation_digest "task-1"
    sample_body_digest 2 "application/json" 0 sample_digest "2030-01-01T00:00:00Z" "2030-01-01T00:10:00Z".
Definition sample_connector : loadedConnector :=
  mkConnector "https://mail.example" "bearer" 1 10 900 {[ "send"%string := sample_operation ]} {[ "alice"%string := Dsse.toy_pub "a"; "bob"%string := Dsse.toy_pub "b" ]}
    {[ "alice"%string := "acme"%string; "bob"%string := "acme"%string ]} "node-1" ["alice"; "bob"]%string.
Definition sample_authority (k : string) (c : ascii) : GrantActionAuthority := mkGrantActionAuthority k (b64_encode_string (Dsse.toy_pub c)) ["mail"%string].
Definition sample_grant : Grant :=
  mkGrant "grant-1" "acme" "node-1" "agent-1" 3 "executor-1" sample_digest sample_digest EffectModeAuthorized 2 true [sample_authority "alice" "a"; sample_authority "bob" "b"] "" "" false ""
    "" [] [] ["mail"%string] false true.
Definition sample_head : Influence.Head := Influence.mkHead Influence.SchemaV1 "acme" "grant-1" 3 0 sample_digest.

Definition sample_payload : bytes := MarshalStatement sample_effect PayloadTypeV5.
Definition sample_signed (k : string) (c : ascii) : string * bytes := (k, Dsse.toy_sign (Dsse.toy_priv c) (Dsse.PAE PayloadTypeV5 sample_payload)).
Definition sample_raw : bytes := json_print (to_json (ActionApproval.sealed_all PayloadTypeV5 sample_payload [sample_signed "alice" "a"; sample_signed "bob" "b"])).
Definition sample_verified (digest : string) : Verified := mkVerified sample_effect None "alice" ["alice"; "bob"]%string true digest PayloadTypeV5.
Definition sample_permit (digest : string) : connectorActionPermit :=
  mkPermit "alice" ["alice"; "bob"]%string 2 digest sample_body_digest sample_operation_digest (default 0 (Permit.canonicalTime "2030-01-01T00:10:00Z")).

Lemma sample_effect_valid : valid sample_effect PayloadTypeV5 sample_time (SchedulePermit.seconds 900).
Proof. apply action_validate_spec. vm_compute. reflexivity. Qed.

Lemma sample_signs k c : Permit.identifier k = true -> grantActionAuthorityKeys sample_grant "mail" !! k = Some (Dsse.toy_pub c) ->
  Permit.identifier k = true /\ zlen (sample_signed k c).2 = Dsse.SignatureSize /\
  Permit.signed Dsse.toy_verify (grantActionAuthorityKeys sample_grant "mail") PayloadTypeV5 sample_payload k (sample_signed k c).2.
Proof.
  intros Hk Hp. assert (Hl : zlen (Dsse.toy_pub c) = 32) by done. destruct (Dsse.toy_key_pair _ Hl) as (_ & _ & Hs). destruct (Hs (Dsse.PAE PayloadTypeV5 sample_payload)) as [Hz Hv].
  split_and!; [done | exact Hz|]. exists (Dsse.toy_pub c). split_and!; [done | done | exact Hv].
Qed.

Lemma sample_effect_verified : ActionApproval.Verify Dsse.toy_verify sample_raw (grantActionAuthorityKeys sample_grant "mail") sample_time (SchedulePermit.seconds 900) = Ok (sample_verified (Dsse.Digest sample_raw)).
Proof.
  apply ActionApproval.verify_approved. exists sample_payload, [sample_signed "alice" "a"; sample_signed "bob" "b"], 2. split; [|done]. constructor.
  - reflexivity.
  - apply (bool_decide_unpack _). vm_compute. exact I.
  - vm_compute. reflexivity.
  - apply ActionApproval.content_single; [discriminate | | exact sample_effect_valid].
    apply (action_decode_written _ _ sample_time _ sample_effect_valid); [split_and!; (done || split; vm_compute; congruence) | split; [discriminate | done]].
  - constructor; [exact (sample_signs "alice" "a" eq_refl eq_refl)|]. constructor; [exact (sample_signs "bob" "b" eq_refl eq_refl) | constructor].
  - repeat constructor.
  - split; reflexivity.
  - split; discriminate.
  - reflexivity.
  - split; [discriminate | split; [reflexivity | discriminate]].
  - reflexivity.
Qed.

Lemma sample_header : Permit.DecodeHeader (url_encode_string sample_raw) = Ok sample_raw.
Proof. apply Permit.header_exact. vm_compute. reflexivity. Qed.

Lemma sample_accepted : verifyConnectorActionPermit sample_origin Dsse.toy_verify [url_encode_string sample_raw] sample_connector {[ "mail"%string := sample_connector ]} sample_grant sample_head
  sample_digest "mail" "send" "task-1" sample_body sample_time = Ok (sample_permit (Dsse.Digest sample_raw)).
Proof.
  unfold verifyConnectorActionPermit. rewrite sample_header, bool_decide_false by discriminate. change (lc_MaxActionPermitSeconds sample_connector) with 900.
  change (String.eqb (g_EffectMode sample_grant) EffectModeAuthorized) with true. cbv iota. rewrite sample_effect_verified. generalize (Dsse.Digest sample_raw). intros digest. vm_compute. reflexivity.
Qed.

(** The authorities as they are configured. *)
Definition sample_keys : gmap string (bytes * string) := {[ "alice"%string := (Dsse.toy_pub "a", "acme"%string); "bob"%string := (Dsse.toy_pub "b", "acme"%string) ]}.

(** Without the guard a connector that has no authority would need no permit, whatever the mode of the grant. *)
Example unguarded_connector :
  let c := mkConnector "https://mail.example" "bearer" 0 10 0 {[ "send"%string := sample_operation ]} ∅ ∅ "" [] in
  verifyConnectorActionPermit sample_origin Dsse.toy_verify [] c {[ "mail"%string := c ]} sample_grant sample_head sample_digest "mail" "send" "task-1" sample_body sample_time = Ok no_permit
  /\ validAuthorizedEffectsGrant "node-1" {[ "mail"%string := c ]} sample_grant = false.
Proof. vm_compute. split; reflexivity. Qed.

Lemma effect_authorized_witness : exists value raw payload v l n, [url_encode_string sample_raw] = [value] /\ Permit.DecodeHeader value = Ok raw /\
  authorized_effect sample_origin Dsse.toy_verify sample_connector sample_grant sample_head sample_digest "mail" "send" "task-1" sample_body sample_time
    (sample_permit (Dsse.Digest sample_raw)) raw payload v l n.
Proof.
  apply (effect_authorized sample_origin Dsse.toy_verify sample_keys "node-1" [url_encode_string sample_raw] sample_connector {[ "mail"%string := sample_connector ]});
    [exact sample_accepted | reflexivity | vm_compute; reflexivity | by rewrite lookup_singleton_eq | vm_compute; reflexivity | vm_compute; reflexivity].
Defined.

End EffectGate.
