(* ===== verification/EffectBudget.v ===== *)
(** * Spending connector calls ([spendConnectorCall] of [src/internal/gateway/connector.go], [connector_receipts.go])

    A call is reserved in memory under the lock of the gateway, recorded in the connector ledger outside of it, and given back under the lock when the record was not
    written; calls interleave between these steps. After a restart the spent calls come from the receipts and from the calls kept in the state file. *)

From Stdlib Require Import Ascii.
From S2P Require Import Prelude GoText GoTime FenceStore GoJson GoCrypto ConnectorEvent ActionPermit GatewayGrant Influence EffectGate.
Import ConnectorEvent EffectGate.

Module EffectBudget.

(** [connectorSpendOwner]: the grant and the connector. *)
Notation connectorSpendOwner := (string * string)%type.
Definition counter (counts : gmap connectorSpendOwner Z) (o : connectorSpendOwner) : Z := default 0 (counts !! o).

Record Server := mkServer { sv_grants : gmap string GatewayGrant.Grant; sv_spends : gmap string connectorSpendOwner; sv_counts : gmap connectorSpendOwner Z }.

(** ** The receipt of a call *)

Definition connectorReceiptEvent (grant : GatewayGrant.Grant) (routePolicyDigest connectorID operationID callDigest : string) (p : connectorActionPermit) (requestBytes : Z)
    (actionContext : Influence.Head) : Event :=
  let authorized := String.eqb (GatewayGrant.g_EffectMode grant) GatewayGrant.EffectModeAuthorized in
  let several := authorized && (1 <? cp_approvalThreshold p) in
  let locked := GatewayGrant.g_ActionContextRequired grant in
  {| Phase := Authorize; Outcome := Allowed; Kind := if authorized then ConnectorCall else ""; EffectMode := if authorized then EffectModeAuthorized else "";
     TenantID := GatewayGrant.g_TenantID grant; RuntimeRef := GatewayGrant.g_RuntimeRef grant; CapsuleDigest := GatewayGrant.g_CapsuleDigest grant;
     PolicyDigest := GatewayGrant.g_PolicyDigest grant; RoutePolicyDigest := routePolicyDigest; Generation := GatewayGrant.g_Generation grant;
     GrantID := GatewayGrant.g_GrantID grant; ConnectorID := connectorID; ServiceID := ""; OperationID := operationID;
     OperationPolicyDigest := if authorized then cp_operationDigest p else ""; TaskDigest := callDigest;
     AuthorityKeyID := if several then "" else cp_authorityKeyID p; AuthorityKeySet := if several then String.concat "," (cp_authorityKeyIDs p) else "";
     ApprovalThreshold := if several then cp_approvalThreshold p else 0; PermitDigest := cp_permitDigest p; RequestDigest := cp_requestDigest p; HTTPStatus := 0;
     RequestBytes := requestBytes; ResponseBytes := 0; ErrorCode := ""; RunID := ""; TaskProtocol := ""; TaskStatus := ""; ResultDigest := "";
     InfluenceSequence := if locked then Influence.h_Sequence actionContext else 0; InfluenceHash := if locked then Influence.h_ChainHash actionContext else "";
     ResponseDigest := ""; TargetRunID := ""; TargetTaskDigest := ""; InferenceTaskDigest := ""; InferencePermitDigest := ""; InferenceRequestDigest := "" |}.

(** ** Spending *)

Section spend.
Context (connectors : gmap string loadedConnector).

Definition errConnectorInactive : string := "connector grant is not active".
Definition errConnectorReplay : string := "connector task was already spent".
Definition errConnectorCallLimit : string := "connector call budget exhausted".

(** The first critical section of [spendConnectorCall]. *)
Definition reserve (ledger : bool) (s : Server) (grantID connectorID digest : string) : result Server :=
  match sv_grants s !! grantID, connectors !! connectorID with
  | Some grant, Some connector =>
      require GatewayGrant.g_Active grant && slicesContainsSorted (GatewayGrant.g_ConnectorIDs grant) connectorID else errConnectorInactive in
      require match sv_spends s !! digest with Some _ => false | None => true end else errConnectorReplay in
      require counter (sv_counts s) (grantID, connectorID) <? lc_MaxCallsPerGrant connector else errConnectorCallLimit in
      require ledger else "connector receipt ledger is unavailable" in
      Ok (mkServer (sv_grants s) (<[digest := (grantID, connectorID)]> (sv_spends s))
        (<[(grantID, connectorID) := counter (sv_counts s) (grantID, connectorID) + 1]> (sv_counts s)))
  | _, _ => Err errConnectorInactive
  end.

(** The second one, after [Begin] failed and the ledger did not. *)
Definition release (s : Server) (grantID connectorID digest : string) : Server :=
  let owner := (grantID, connectorID) in
  match sv_spends s !! digest with
  | Some current =>
      if bool_decide (current = owner) then
        mkServer (sv_grants s) (delete digest (sv_spends s))
          (if 0 <? counter (sv_counts s) owner then <[owner := counter (sv_counts s) owner - 1]> (sv_counts s) else sv_counts s)
      else s
  | None => s
  end.

(** The outcome of [Begin]: recorded, refused, or refused by a ledger that failed for good. *)
Inductive recording := Recorded | Refused (e : string) | LedgerFailed (e : string).

(** [spendConnectorCall] when nothing interleaves. *)
Definition spendConnectorCall (ledger : bool) (s : Server) (grantID connectorID digest : string) (outcome : recording) : Server * result unit :=
  match reserve ledger s grantID connectorID digest with
  | Err e => (s, Err e)
  | Ok s' =>
      match outcome with
      | Recorded => (s', Ok tt)
      | Refused e => (release s' grantID connectorID digest, Err e)
      | LedgerFailed e => (s', Err e)
      end
  end.

(** ** Restart *)

(** The spends that [visit] collects: authorizations of connector calls, and of the calls of the first format, which have no kind. *)
Definition visit_spend (index : gmap string connectorSpendOwner * gmap connectorSpendOwner Z) (e : Event) : gmap string connectorSpendOwner * gmap connectorSpendOwner Z :=
  if String.eqb (Kind e) InferenceAttempt then index
  else if String.eqb (Kind e) ConnectorCall && String.eqb (EffectMode e) EffectModeAuthorized && String.eqb (Phase e) Deny then index
  else if String.eqb (Kind e) ServiceTask then index
  else if String.eqb (Phase e) Authorize then
    let owner := (GrantID e, ConnectorID e) in (<[TaskDigest e := owner]> index.1, <[owner := counter index.2 owner + 1]> index.2)
  else index.

(** [mergeRetainedConnectorSpends]; the maps are visited in some order, which [retained] gives. *)
Fixpoint merge_retained (retained : list (connectorSpendOwner * string)) (index : gmap string connectorSpendOwner * gmap connectorSpendOwner Z)
    : result (gmap string connectorSpendOwner * gmap connectorSpendOwner Z) :=
  match retained with
  | [] => Ok index
  | (owner, digest) :: retained =>
      match index.1 !! digest with
      | Some current => require bool_decide (current = owner) else "gateway state and connector receipts disagree on spent-call ownership" in merge_retained retained index
      | None => merge_retained retained (<[digest := owner]> index.1, <[owner := counter index.2 owner + 1]> index.2)
      end
  end.

Definition open_spends (receipts : list Event) (retained : list (connectorSpendOwner * string)) : result (gmap string connectorSpendOwner * gmap connectorSpendOwner Z) :=
  merge_retained retained (fold_left visit_spend receipts (∅, ∅)).

(** ** Calls in flight *)

Record World := mkWorld { w_server : Server; w_pending : gmap string connectorSpendOwner; w_begun : list (string * connectorSpendOwner) }.

Inductive step (ledger : bool) : World -> World -> Prop :=
| step_reserve w g c d s : reserve ledger (w_server w) g c d = Ok s -> step ledger w (mkWorld s (<[d := (g, c)]> (w_pending w)) (w_begun w))
| step_recorded w d o : w_pending w !! d = Some o -> step ledger w (mkWorld (w_server w) (delete d (w_pending w)) ((d, o) :: w_begun w))
| step_refused w d g c : w_pending w !! d = Some (g, c) -> step ledger w (mkWorld (release (w_server w) g c d) (delete d (w_pending w)) (w_begun w))
| step_failed w d o : w_pending w !! d = Some o -> step ledger w (mkWorld (w_server w) (delete d (w_pending w)) (w_begun w))
| step_grants w grants : step ledger w (mkWorld (mkServer grants (sv_spends (w_server w)) (sv_counts (w_server w))) (w_pending w) (w_begun w)).

Definition start (index : gmap string connectorSpendOwner * gmap connectorSpendOwner Z) (grants : gmap string GatewayGrant.Grant) : World :=
  mkWorld (mkServer grants index.1 index.2) ∅ [].

Definition owned (o : connectorSpendOwner) (l : list (string * connectorSpendOwner)) : Z := zlen (List.filter (fun x => bool_decide (x.2 = o)) l).

(** ** Lemmas *)

Definition in_flight (o : connectorSpendOwner) (pending : gmap string connectorSpendOwner) : Z := owned o (map_to_list pending).

Record inv (index : gmap string connectorSpendOwner * gmap connectorSpendOwner Z) (w : World) : Prop := {
  in_old : forall d o, index.1 !! d = Some o -> sv_spends (w_server w) !! d = Some o /\ w_pending w !! d = None;
  in_pending : forall d o, w_pending w !! d = Some o -> sv_spends (w_server w) !! d = Some o;
  in_begun : forall d o, (d, o) ∈ w_begun w -> sv_spends (w_server w) !! d = Some o /\ w_pending w !! d = None /\ index.1 !! d = None;
  in_once : NoDup (w_begun w).*1;
  in_count : forall o, counter index.2 o + owned o (w_begun w) + in_flight o (w_pending w) <= counter (sv_counts (w_server w)) o;
  in_bound : forall g c connector, connectors !! c = Some connector -> counter (sv_counts (w_server w)) (g, c) <= Z.max (counter index.2 (g, c)) (lc_MaxCallsPerGrant connector);
}.

Lemma owned_nonneg o l : 0 <= owned o l.
Proof. apply zlen_nonneg. Qed.
Lemma owned_count_cons o d p l : owned o ((d, p) :: l) = owned o l + (if bool_decide (p = o) then 1 else 0).
Proof. unfold owned. cbn [List.filter snd]. destruct (bool_decide (p = o)); [rewrite zlen_cons|]; lia. Qed.
Lemma owned_perm o l l' : l ≡ₚ l' -> owned o l = owned o l'.
Proof.
  induction 1 as [|[d p] l l' _ IH|[d p] [d' p'] l|l l' l'' _ IH1 _ IH2]; [done | by rewrite !owned_count_cons, IH | rewrite !owned_count_cons; lia | by rewrite IH1].
Qed.
Lemma flight_insert o d p pending : pending !! d = None -> in_flight o (<[d := p]> pending) = in_flight o pending + (if bool_decide (p = o) then 1 else 0).
Proof. intros H. unfold in_flight. by rewrite (owned_perm _ _ _ (map_to_list_insert _ _ _ H)), owned_count_cons. Qed.
Lemma flight_delete o d p pending : pending !! d = Some p -> in_flight o (delete d pending) = in_flight o pending - (if bool_decide (p = o) then 1 else 0).
Proof. intros H. rewrite <- (insert_delete_id pending d p H) at 2. rewrite flight_insert by apply lookup_delete_eq. lia. Qed.
Lemma counter_insert counts o o' z : counter (<[o := z]> counts) o' = if bool_decide (o = o') then z else counter counts o'.
Proof. unfold counter. case_bool_decide as E; [subst; by rewrite lookup_insert_eq | by rewrite lookup_insert_ne]. Qed.

Lemma start_inv index grants : inv index (start index grants).
Proof.
  constructor; cbn [start w_server w_pending w_begun sv_spends sv_counts].
  - intros d o H. split; [done | apply lookup_empty].
  - intros d o H. by rewrite lookup_empty in H.
  - intros d o H. by apply not_elem_of_nil in H.
  - constructor.
  - intros o. unfold in_flight. rewrite map_to_list_empty. unfold owned, zlen. cbn. lia.
  - intros. lia.
Qed.

Lemma reserve_spec ledger s g c d s' : reserve ledger s g c d = Ok s' -> exists connector, connectors !! c = Some connector /\ sv_spends s !! d = None /\
  counter (sv_counts s) (g, c) < lc_MaxCallsPerGrant connector /\ sv_spends s' = <[d := (g, c)]> (sv_spends s) /\ sv_counts s' = <[(g, c) := counter (sv_counts s) (g, c) + 1]> (sv_counts s).
Proof.
  unfold reserve. destruct (sv_grants s !! g) as [grant|]; [|done]. destruct (connectors !! c) as [connector|]; [|done]. intros H. do 4 step H. injection H as <-. exists connector.
  destruct (sv_spends s !! d); [done|]. split_and!; try done. lia.
Qed.

Lemma reserve_inv ledger index w g c d s : inv index w -> reserve ledger (w_server w) g c d = Ok s -> inv index (mkWorld s (<[d := (g, c)]> (w_pending w)) (w_begun w)).
Proof.
  intros [Ho Hp Hb Hn Hc Hm] H. destruct (reserve_spec _ _ _ _ _ _ H) as (connector & Hcon & Hd & Hlt & Es & Ec).
  assert (Hdp : w_pending w !! d = None) by (destruct (w_pending w !! d) eqn:E; [apply Hp in E; congruence | done]).
  constructor; cbn [w_server w_pending w_begun]; rewrite ?Es, ?Ec.
  - intros k o Hk. destruct (Ho _ _ Hk) as [Hs Hpk]. assert (k <> d) by congruence. by rewrite !lookup_insert_ne.
  - intros k o Hk. apply lookup_insert_Some in Hk as [[<- <-]|[? Hk]]; [by rewrite lookup_insert_eq | rewrite lookup_insert_ne by done; by apply Hp].
  - intros k o Hk. destruct (Hb _ _ Hk) as (Hs & Hpk & Hi). assert (k <> d) by congruence. by rewrite !lookup_insert_ne.
  - done.
  - intros o. rewrite flight_insert, counter_insert by done. specialize (Hc o). case_bool_decide as E; [subst o|]; lia.
  - intros g' c' connector' Hcon'. rewrite counter_insert. specialize (Hm g' c' _ Hcon'). case_bool_decide as E; [|done]. injection E as <- <-. rewrite Hcon in Hcon'. injection Hcon' as ->. lia.
Qed.

Lemma recorded_inv index w d o : inv index w -> w_pending w !! d = Some o -> inv index (mkWorld (w_server w) (delete d (w_pending w)) ((d, o) :: w_begun w)).
Proof.
  intros [Ho Hp Hb Hn Hc Hm] Hd. constructor; cbn [w_server w_pending w_begun].
  - intros k p Hk. destruct (Ho _ _ Hk) as [Hs Hpk]. by rewrite lookup_delete_None; auto.
  - intros k p [_ Hk]%lookup_delete_Some. by apply Hp.
  - intros k p [[= -> ->]|Hk]%elem_of_cons.
    + split_and!; [by apply Hp | apply lookup_delete_eq|]. destruct (index.1 !! d) eqn:E; [|done]. apply Ho in E as [_ E]. congruence.
    + destruct (Hb _ _ Hk) as (Hs & Hpk & Hi). split_and!; [done | | done]. apply lookup_delete_None. by right.
  - cbn [fmap list_fmap fst]. constructor; [|done]. intros ([k p] & Ek & Hk)%list_elem_of_fmap. cbn [fst] in Ek. subst k. destruct (Hb _ _ Hk) as (_ & ? & _). congruence.
  - intros o'. rewrite (flight_delete _ _ _ _ Hd), owned_count_cons. specialize (Hc o'). lia.
  - done.
Qed.

Lemma failed_inv index w d o : inv index w -> w_pending w !! d = Some o -> inv index (mkWorld (w_server w) (delete d (w_pending w)) (w_begun w)).
Proof.
  intros [Ho Hp Hb Hn Hc Hm] Hd. constructor; cbn [w_server w_pending w_begun].
  - intros k p Hk. destruct (Ho _ _ Hk) as [Hs Hpk]. split; [done|]. apply lookup_delete_None. by right.
  - intros k p [_ Hk]%lookup_delete_Some. by apply Hp.
  - intros k p Hk. destruct (Hb _ _ Hk) as (Hs & Hpk & Hi). split_and!; [done | | done]. apply lookup_delete_None. by right.
  - done.
  - intros o'. rewrite (flight_delete _ _ _ _ Hd). specialize (Hc o'). destruct (bool_decide _); lia.
  - done.
Qed.

Lemma refused_inv index w d g c : (forall o, 0 <= counter index.2 o) -> inv index w -> w_pending w !! d = Some (g, c) ->
  inv index (mkWorld (release (w_server w) g c d) (delete d (w_pending w)) (w_begun w)).
Proof.
  intros Hz Hi Hd. pose proof Hi as [Ho Hp Hb Hn Hc Hm]. unfold release. rewrite (Hp _ _ Hd), bool_decide_true by done.
  assert (Hpos : counter index.2 (g, c) + 1 <= counter (sv_counts (w_server w)) (g, c)).
  { specialize (Hc (g, c)). rewrite <- (insert_delete_id _ _ _ Hd), flight_insert, bool_decide_true in Hc by (done || apply lookup_delete_eq).
    pose proof (owned_nonneg (g, c) (w_begun w)). pose proof (owned_nonneg (g, c) (map_to_list (delete d (w_pending w)))). unfold in_flight in Hc. lia. }
  specialize (Hz (g, c)). rewrite (proj2 (Z.ltb_lt 0 _)) by lia.
  constructor; cbn [w_server w_pending w_begun sv_spends sv_counts].
  - intros k p Hk. destruct (Ho _ _ Hk) as [Hs Hpk]. assert (k <> d) by congruence. by rewrite !lookup_delete_ne.
  - intros k p [Hk1 Hk]%lookup_delete_Some. rewrite lookup_delete_ne by done. by apply Hp.
  - intros k p Hk. destruct (Hb _ _ Hk) as (Hs & Hpk & Hi'). assert (k <> d) by congruence. by rewrite !lookup_delete_ne.
  - done.
  - intros o'. rewrite (flight_delete _ _ _ _ Hd), counter_insert. specialize (Hc o'). case_bool_decide as E; [subst o'|]; lia.
  - intros g' c' connector' Hcon'. rewrite counter_insert. specialize (Hm g' c' _ Hcon'). case_bool_decide as E; [|done]. injection E as <- <-. lia.
Qed.

Lemma budget_step_inv ledger index w w' : (forall o, 0 <= counter index.2 o) -> inv index w -> step ledger w w' -> inv index w'.
Proof.
  intros Hz Hi Hs. revert Hi. destruct Hs as [? g c d s H|? d o H|? d g c H|? d o H|? grants]; intros Hi; [by eapply reserve_inv | by eapply recorded_inv | by eapply refused_inv | by eapply failed_inv|].
  destruct Hi as [Ho Hp Hb Hn Hc Hm]. by constructor.
Qed.

Lemma budget_reachable_inv ledger index grants w : (forall o, 0 <= counter index.2 o) -> rtc (step ledger) (start index grants) w -> inv index w.
Proof. intros Hz. apply (rtc_ind_r (inv index)); [apply start_inv | intros; by eapply budget_step_inv]. Qed.

(** What the receipts and the state file say was spent. *)
Definition call_receipt (e : Event) : bool :=
  negb (String.eqb (Kind e) InferenceAttempt) && negb (String.eqb (Kind e) ServiceTask) && String.eqb (Phase e) Authorize.
Definition authorized_calls (receipts : list Event) : list (string * connectorSpendOwner) :=
  (fun e => (TaskDigest e, (GrantID e, ConnectorID e))) <$> List.filter call_receipt receipts.

Lemma visit_call index e : visit_spend index e =
  if call_receipt e then (<[TaskDigest e := (GrantID e, ConnectorID e)]> index.1, <[(GrantID e, ConnectorID e) := counter index.2 (GrantID e, ConnectorID e) + 1]> index.2) else index.
Proof.
  unfold visit_spend, call_receipt. destruct (String.eqb (Kind e) InferenceAttempt); [done|]. destruct (String.eqb_spec (Kind e) ServiceTask) as [->|]; [by rewrite andb_false_r|].
  cbn [negb andb]. destruct (String.eqb_spec (Phase e) Authorize) as [->|]; [by rewrite andb_false_r | by destruct (_ && _ && _)].
Qed.

Lemma visit_counts receipts : forall index o, counter (fold_left visit_spend receipts index).2 o = counter index.2 o + owned o (authorized_calls receipts) /\
  (forall d, is_Some ((fold_left visit_spend receipts index).1 !! d) <-> is_Some (index.1 !! d) \/ d ∈ (authorized_calls receipts).*1).
Proof.
  unfold authorized_calls. induction receipts as [|e receipts IH]; intros index o.
  { split; [unfold owned, zlen; cbn; lia|]. intros d. cbn [fold_left List.filter fmap list_fmap]. split; [by left | intros [Hd|Hd%not_elem_of_nil]; [exact Hd | by destruct Hd]]. }
  cbn [fold_left List.filter]. destruct (IH (visit_spend index e) o) as [-> H2]. rewrite visit_call in *. destruct (call_receipt e); [|done]. rewrite !fmap_cons, owned_count_cons. cbn [fst snd] in *. split.
  - rewrite counter_insert. case_bool_decide as E; [subst o|]; lia.
  - intros d. rewrite H2, elem_of_cons. destruct (decide (d = TaskDigest e)) as [->|Hne]; [rewrite lookup_insert_eq | rewrite lookup_insert_ne by done]; naive_solver.
Qed.

(** The calls that only the state file shows. *)
Definition unknown_calls (known : string -> Prop) `{!forall d, Decision (known d)} (retained : list (connectorSpendOwner * string)) : gset (string * connectorSpendOwner) :=
  filter (fun x => ~ known x.1) (list_to_set ((fun x => (x.2, x.1)) <$> retained)).
Definition retained_only (receipts : list Event) (retained : list (connectorSpendOwner * string)) : gset (string * connectorSpendOwner) :=
  unknown_calls (fun d => d ∈ (authorized_calls receipts).*1) retained.
Definition owned_of (o : connectorSpendOwner) (calls : gset (string * connectorSpendOwner)) : Z := Z.of_nat (size (filter (fun x => x.2 = o) calls)).

(** Every call that the receipts or the state file show, counted once. *)
Definition spent_before (o : connectorSpendOwner) (receipts : list Event) (retained : list (connectorSpendOwner * string)) : Z :=
  owned o (authorized_calls receipts) + owned_of o (retained_only receipts retained).

Lemma owned_of_insert o x calls : x ∉ calls -> owned_of o ({[ x ]} ∪ calls) = owned_of o calls + (if bool_decide (x.2 = o) then 1 else 0).
Proof.
  intros Hx. unfold owned_of. case_bool_decide as E.
  - assert (filter (fun y => y.2 = o) ({[ x ]} ∪ calls) = {[ x ]} ∪ filter (fun y => y.2 = o) calls) as -> by (apply set_eq; set_solver).
    rewrite size_union, size_singleton by set_solver. lia.
  - assert (filter (fun y => y.2 = o) ({[ x ]} ∪ calls) = filter (fun y => y.2 = o) calls) as -> by (apply set_eq; set_solver). lia.
Qed.

Lemma merge_owner retained : forall index index' d p, merge_retained retained index = Ok index' -> index.1 !! d = Some p -> forall o, (o, d) ∈ retained -> o = p.
Proof.
  induction retained as [|[q k] retained IH]; intros index index' d p H Hd o Hin; [by apply not_elem_of_nil in Hin|]. cbn [merge_retained] in H.
  apply elem_of_cons in Hin as [[= <- <-]|Hin].
  - rewrite Hd in H. step H. by apply bool_decide_eq_true in E.
  - destruct (index.1 !! k) as [current|] eqn:Ek; [step H; by eapply IH|]. eapply (IH _ _ d p H); [|done]. cbn [fst]. rewrite lookup_insert_ne by congruence. done.
Qed.

Lemma merge_counts retained : forall index index' o, merge_retained retained index = Ok index' ->
  counter index'.2 o = counter index.2 o + owned_of o (unknown_calls (fun d => is_Some (index.1 !! d)) retained) /\
  (forall d, is_Some (index.1 !! d) \/ d ∈ retained.*2 -> is_Some (index'.1 !! d)).
Proof.
  induction retained as [|[p d] retained IH]; intros index index' o H; cbn [merge_retained] in H.
  { injection H as <-. assert (unknown_calls (fun d => is_Some (index.1 !! d)) [] = ∅) as -> by (apply set_eq; intros x; unfold unknown_calls; rewrite elem_of_filter; set_solver).
    split; [unfold owned_of|].
    { assert (filter (fun x => x.2 = o) (∅ : gset (string * connectorSpendOwner)) = ∅) as -> by (apply set_eq; set_solver). rewrite size_empty. lia. }
    intros d [Hd|Hd%not_elem_of_nil]; [exact Hd | by destruct Hd]. }
  destruct (index.1 !! d) as [current|] eqn:Ed.
  - step H. destruct (IH _ _ o H) as [Hc Hs]. split.
    + rewrite Hc. do 2 f_equal. unfold unknown_calls. cbn [fmap list_fmap list_to_set fst snd]. apply set_eq. intros x.
      rewrite !elem_of_filter, elem_of_union, elem_of_singleton. split; [intros [Hx Hin]; split; [done | by right] | intros [Hx [->|Hin]]; [|done]].
      cbn [fst] in Hx. rewrite Ed in Hx. exfalso. by apply Hx.
    + intros k [Hk|[->|Hk]%elem_of_cons]; apply Hs; [by left | left; by exists current | by right].
  - pose proof (merge_owner retained _ _ d p H (lookup_insert_eq _ _ _)) as Hown. destruct (IH _ _ o H) as [Hc Hs]. cbn [fst snd] in *. split.
    + rewrite Hc, counter_insert.
      assert (unknown_calls (fun d => is_Some (index.1 !! d)) ((p, d) :: retained) =
        {[ (d, p) ]} ∪ unknown_calls (fun k => is_Some (<[d := p]> index.1 !! k)) retained) as ->.
      { apply set_eq. intros [k q]. unfold unknown_calls. rewrite elem_of_union, !elem_of_filter, !elem_of_list_to_set, fmap_cons, elem_of_cons, elem_of_singleton. cbn [fst snd].
        destruct (decide (k = d)) as [->|Hne].
        - rewrite lookup_insert_eq, Ed. split; [|intros [[= ->]|[Hn _]]; [split; [by intros [??] | by left] | by destruct Hn]].
          intros [_ [[= ->]|([q' k'] & [= -> ->] & Hin)%list_elem_of_fmap]]; [by left|]. left. by rewrite (Hown q' Hin).
        - rewrite lookup_insert_ne by done. naive_solver. }
      rewrite owned_of_insert.
      * cbn [snd]. case_bool_decide as E; [subst o|]; lia.
      * unfold unknown_calls. rewrite elem_of_filter. cbn [fst]. rewrite lookup_insert_eq. intros [Hn _]. by apply Hn.
    + intros k Hk. apply Hs. destruct (decide (k = d)) as [->|Hne]; [left; by rewrite lookup_insert_eq|]. rewrite lookup_insert_ne by done. destruct Hk as [Hk|[Hk|Hk]%elem_of_cons]; [by left | done | by right].
Qed.

(** The counters after a restart are the calls that the receipts and the state file show. *)
Lemma opened_counts receipts retained index o : open_spends receipts retained = Ok index -> counter index.2 o = spent_before o receipts retained.
Proof.
  unfold open_spends, spent_before. intros H. destruct (merge_counts _ _ _ o H) as [-> _]. destruct (visit_counts receipts (∅, ∅) o) as [-> Hd].
  unfold counter. cbn [snd]. rewrite lookup_empty. cbn [default]. rewrite Z.add_0_l. do 2 f_equal. unfold retained_only, unknown_calls. apply set_eq. intros [k q].
  rewrite !elem_of_filter. cbn [fst]. rewrite Hd. cbn [fst]. rewrite lookup_empty, is_Some_alt. naive_solver.
Qed.

(** A call that nothing interleaves with is a run of these steps, and is allowed when it is recorded. *)
Lemma spend_runs ledger w g c d outcome : let (s, r) := spendConnectorCall ledger (w_server w) g c d outcome in
  exists w', rtc (step ledger) w w' /\ w_server w' = s /\ w_begun w' = (if r then (d, (g, c)) :: w_begun w else w_begun w).
Proof.
  unfold spendConnectorCall. destruct (reserve ledger (w_server w) g c d) as [s|] eqn:E; [|by exists w].
  pose proof (step_reserve ledger w g c d s E) as H1. set (w1 := mkWorld s _ _) in H1. assert (Hd : w_pending w1 !! d = Some (g, c)) by apply lookup_insert_eq.
  destruct outcome as [|e|e].
  - exists (mkWorld s (delete d (w_pending w1)) ((d, (g, c)) :: w_begun w1)). split; [|done]. eapply rtc_l; [exact H1|]. apply rtc_once. by apply (step_recorded ledger w1).
  - exists (mkWorld (release s g c d) (delete d (w_pending w1)) (w_begun w1)). split; [|done]. eapply rtc_l; [exact H1|]. apply rtc_once. by apply (step_refused ledger w1).
  - exists (mkWorld s (delete d (w_pending w1)) (w_begun w1)). split; [|done]. eapply rtc_l; [exact H1|]. apply rtc_once. by apply (step_failed ledger w1 d (g, c)).
Qed.

(** C7: After any restart and in every interleaving of calls, no call is allowed twice, none that a receipt or the state file shows as spent is allowed again, and the calls of a grant on
    a connector never exceed its budget: those that the receipts show, those that only the state file shows and those allowed since the restart are together at most the
    connector's [MaxCallsPerGrant], or no call is allowed when receipts and state file already show more. *)
Theorem call_budget ledger receipts retained index grants w : open_spends receipts retained = Ok index -> rtc (step ledger) (start index grants) w ->
  NoDup (w_begun w).*1 /\
  (forall d, d ∈ (w_begun w).*1 -> d ∉ (authorized_calls receipts).*1 /\ d ∉ retained.*2) /\
  (forall g c connector, connectors !! c = Some connector ->
     spent_before (g, c) receipts retained + owned (g, c) (w_begun w) <= Z.max (spent_before (g, c) receipts retained) (lc_MaxCallsPerGrant connector)).
Proof.
  intros Ho Hr. assert (Hz : forall o, 0 <= counter index.2 o).
  { intros o. rewrite (opened_counts _ _ _ _ Ho). unfold spent_before, owned_of. pose proof (owned_nonneg o (authorized_calls receipts)). lia. }
  destruct (budget_reachable_inv _ _ _ _ Hz Hr) as [Hold Hp Hb Hn Hc Hm]. split; [done|]. split.
  - intros d ([k o] & -> & Hd)%list_elem_of_fmap. cbn [fst]. destruct (Hb _ _ Hd) as (_ & _ & Hi). destruct (merge_counts _ _ _ o Ho) as [_ Hs].
    split; intros Hin; (destruct (Hs k) as [? Hk]; [|congruence]); [left; apply (visit_counts receipts (∅, ∅) o); by right | by right].
  - intros g c connector Hcon. rewrite <- (opened_counts _ _ _ _ Ho). specialize (Hc (g, c)). specialize (Hm g c connector Hcon).
    pose proof (owned_nonneg (g, c) (map_to_list (w_pending w))) as Hf. unfold in_flight in Hc. lia.
Qed.

End spend.

(** The replay identity of a call binds its five texts, or two preimages collide. *)
Lemma fields_inj domain l l' : length l = length l' -> Forall (fun v => contains_byte v 0 = false) l -> Forall (fun v => contains_byte v 0 = false) l' ->
  fields_preimage domain l = fields_preimage domain l' -> l = l'.
Proof.
  unfold fields_preimage. intros Hlen Hl Hl' E. apply app_inv_head in E. injection E as E. revert l' Hlen Hl' E. induction Hl as [|v l Hv _ IH]; intros [|v' l'] Hlen Hl' E; [done..|].
  apply Forall_cons in Hl' as [Hv' Hl']. rewrite !fmap_cons in E. cbn [concat] in E. rewrite <- !app_assoc in E. cbn [app] in E.
  apply split_at_nul in E as [Ev E]; [|by apply contains_byte_false..]. apply bytes_of_inj in Ev as ->. f_equal. apply IH; [by injection Hlen | done | done].
Qed.

Theorem call_digest_binds t i k c o t' i' k' c' o' : Forall (fun v => contains_byte v 0 = false) [t; i; k; c; o; t'; i'; k'; c'; o'] ->
  ConnectorCallDigest t i k c o = ConnectorCallDigest t' i' k' c' o' ->
  (t = t' /\ i = i' /\ k = k' /\ c = c' /\ o = o') \/
  (let p l := fields_preimage "steward-gateway-connector-call-v1" l in p [t; i; k; c; o] <> p [t'; i'; k'; c'; o'] /\ Sha256.sum (p [t; i; k; c; o]) = Sha256.sum (p [t'; i'; k'; c'; o'])).
Proof.
  intros Hl E%sha256_text_inj. destruct (decide (fields_preimage "steward-gateway-connector-call-v1" [t; i; k; c; o] = fields_preimage "steward-gateway-connector-call-v1" [t'; i'; k'; c'; o'])) as [Ep|]; [left | by right].
  rewrite !Forall_cons in Hl. apply fields_inj in Ep; [by injection Ep as -> -> -> -> -> | done | |]; repeat (apply Forall_cons; split; [apply Hl|]); constructor.
Qed.

(** ** A concrete run *)

Definition sample_receipt (digest : string) : Event := connectorReceiptEvent sample_grant ActionPermit.sample_digest "mail" "send" digest (sample_permit ActionPermit.sample_digest) 2 sample_head.
Definition sample_connectors : gmap string loadedConnector := {[ "mail"%string := sample_connector ]}.
Definition sample_grants : gmap string GatewayGrant.Grant := {[ "grant-1"%string := sample_grant ]}.
Definition sample_index : gmap string connectorSpendOwner * gmap connectorSpendOwner Z :=
  ({[ "call-2"%string := ("grant-1", "mail")%string; "call-1"%string := ("grant-1", "mail")%string ]}, {[ ("grant-1", "mail")%string := 2 ]}).

Lemma call_budget_witness :
  let w := mkWorld (mkServer sample_grants (<["call-3"%string := ("grant-1", "mail")%string]> sample_index.1) (<[("grant-1", "mail")%string := 3]> sample_index.2)) (delete "call-3"%string (<["call-3"%string := ("grant-1", "mail")%string]> ∅)) [("call-3", ("grant-1", "mail"))]%string in
  NoDup (w_begun w).*1 /\
  (forall d, d ∈ (w_begun w).*1 -> d ∉ (authorized_calls [sample_receipt "call-1"]).*1 /\ d ∉ [(("grant-1", "mail"), "call-2")]%string.*2) /\
  (forall g c connector, sample_connectors !! c = Some connector ->
     spent_before (g, c) [sample_receipt "call-1"] [(("grant-1", "mail"), "call-2")]%string + owned (g, c) (w_begun w)
     <= Z.max (spent_before (g, c) [sample_receipt "call-1"] [(("grant-1", "mail"), "call-2")]%string) (lc_MaxCallsPerGrant connector)).
Proof.
  intros w. apply (call_budget sample_connectors true [sample_receipt "call-1"] [(("grant-1", "mail"), "call-2")]%string sample_index sample_grants w).
  - apply (bool_decide_unpack _). vm_compute. exact I.
  - eapply rtc_l; [apply (step_reserve sample_connectors true (start sample_index sample_grants) "grant-1" "mail" "call-3" (w_server w)); vm_compute; reflexivity|].
    apply rtc_once. exact (step_recorded sample_connectors true (mkWorld (w_server w) (<["call-3"%string := ("grant-1", "mail")%string]> ∅) []) "call-3" ("grant-1", "mail")%string eq_refl).
Defined.

End EffectBudget.
