(* ===== verification/EvidenceReceipt.v ===== *)
(** * Evidence receipts ([src/internal/evidence/evidence.go])

    The records of the evidence log: events of a closed vocabulary, receipts that add the place in the chain, and the signed envelope around
    the exact bytes of a receipt. The codecs are binary; a reader accepts exactly what the writer produces, which the lemmas below show. *)

From Stdlib Require Import Ascii.
From S2P Require Import Prelude GoText GoCrypto GoJson Dsse.

Module EvidenceReceipt.

Definition PayloadType : string := "application/vnd.steward.receipt.v1+binary".
Definition MaxEnvelopeBytes : Z := Z.shiftl 64 10.
Definition receiptVersionV1 : Z := 1.
Definition receiptVersionV2 : Z := 2.
Definition envelopeVersion : Z := 1.
Definition hashSize : Z := 32.
Definition zeroHash : bytes := repeat (byte_of_Z 0) 32.
Definition chainDomain : bytes := bytes_of "steward-evidence-chain-v1" ++ [byte_of_Z 0].

(** ** Vocabulary

    [EventType] and [Outcome] are bytes: any value can be read from a file. *)

Definition AdmissionAllow : Z := 1.
Definition AdmissionDeny : Z := 2.
Definition JournalPrepare : Z := 3.
Definition JournalCommit : Z := 4.
Definition JournalCompensate : Z := 5.
Definition GatewayRegistration : Z := 6.
Definition InferenceAuthorize : Z := 7.
Definition InferenceTerminal : Z := 8.
Definition ServiceMapping : Z := 9.
Definition LifecycleStart : Z := 10.
Definition LifecycleStop : Z := 11.
Definition LifecycleDestroy : Z := 12.
Definition StatePurge : Z := 13.
Definition PolicyReload : Z := 14.
Definition Drift : Z := 15.
Definition Revocation : Z := 16.
Definition ActivationBegin : Z := 17.
Definition ActivationCheckpoint : Z := 18.

Definition Allowed : Z := 1.
Definition Denied : Z := 2.
Definition Committed : Z := 3.
Definition Failed : Z := 4.
Definition Compensated : Z := 5.

Definition validEvent (value : Z) : bool := (AdmissionAllow <=? value) && (value <=? ActivationCheckpoint).
Definition validOutcome (value : Z) : bool := (Allowed <=? value) && (value <=? Compensated).

Definition EventName (value : Z) : string :=
  match value with
  | 1 => "admission_allow" | 2 => "admission_deny" | 3 => "journal_prepare" | 4 => "journal_commit" | 5 => "journal_compensate"
  | 6 => "gateway_registration" | 7 => "inference_authorize" | 8 => "inference_terminal" | 9 => "service_mapping" | 10 => "lifecycle_start"
  | 11 => "lifecycle_stop" | 12 => "lifecycle_destroy" | 13 => "state_purge" | 14 => "policy_reload" | 15 => "drift" | 16 => "revocation"
  | 17 => "activation_begin" | 18 => "activation_checkpoint" | _ => ""
  end.

Definition OutcomeName (value : Z) : string :=
  match value with 1 => "allowed" | 2 => "denied" | 3 => "committed" | 4 => "failed" | 5 => "compensated" | _ => "" end.

Record Event := mkEvent {
  EType : Z; TenantID : string; RuntimeRef : string; CapsuleDigest : string; PolicyDigest : string; Generation : Z; GrantID : string;
  EOutcome : Z; ErrorCode : string; MetadataHash : string }.

(** The chain coordinates and the event they were given to. *)
Record Receipt := mkReceipt { Version : Z; NodeID : string; Epoch : Z; Sequence : Z; PreviousHash : bytes; REvent : Event }.

Record Envelope := mkEnvelope { EnvVersion : Z; EnvPayloadType : string; Payload : bytes; EnvKeyID : string; Signature : bytes }.

(** A receipt with the chain hash after it and the exact frame it was read from. *)
Record VerifiedReceipt := mkVerified { VReceipt : Receipt; ChainHash : bytes; Frame : bytes }.

Record Head := mkHead { HNodeID : string; HEpoch : Z; HSequence : Z; HChainHash : bytes; HKeyID : string }.
Record Coordinate := mkCoordinate { CSequence : Z; CChainHash : bytes }.
Record Delta := mkDelta { Frames : list bytes; DHead : Head; More : bool }.

#[global] Instance Event_eq_dec : EqDecision Event.
Proof. solve_decision. Defined.
#[global] Instance Receipt_eq_dec : EqDecision Receipt.
Proof. solve_decision. Defined.
#[global] Instance VerifiedReceipt_eq_dec : EqDecision VerifiedReceipt.
Proof. solve_decision. Defined.
#[global] Instance Head_eq_dec : EqDecision Head.
Proof. solve_decision. Defined.

(** ** Texts *)

Definition validOptionalText (value : string) (limit : Z) : bool := (slen value <=? limit) && utf8_valid value && negb (contains_byte value 0).
Definition validText (value : string) (limit : Z) : bool := negb (bool_decide (value = ""%string)) && validOptionalText value limit.

Definition appendText (dst : bytes) (value : string) : bytes := append_text dst value.
Definition appendUint64 (dst : bytes) (value : Z) : bytes := dst ++ be_encode 8 value.

Definition takeText (raw : bytes) : option (string * bytes) :=
  match split_text (fun length => negb (length =? 0)) raw with
  | Some (value, rest) => if validText value 512 then Some (value, rest) else None
  | None => None
  end.
Definition takeOptionalText (raw : bytes) : option (string * bytes) :=
  match split_text (fun _ => true) raw with
  | Some (value, rest) => if validOptionalText value 512 then Some (value, rest) else None
  | None => None
  end.

(** ** Receipts *)

Definition validateEvent (value : Event) : result unit :=
  require negb (negb (validEvent (EType value)) || negb (validOutcome (EOutcome value)) || (Generation value =? 0)
                || negb (validText (TenantID value) 128) || negb (validText (RuntimeRef value) 512)
                || negb (validText (CapsuleDigest value) 128) || negb (validText (PolicyDigest value) 128)
                || negb (validText (GrantID value) 256) || negb (validOptionalText (ErrorCode value) 128)
                || negb (validOptionalText (MetadataHash value) 128))
    else "invalid bounded evidence event" in Ok tt.

Definition receiptVersionForEvent (value : Z) : Z :=
  if (value =? ActivationBegin) || (value =? ActivationCheckpoint) then receiptVersionV2 else receiptVersionV1.
Definition validReceiptVersionForEvent (version event : Z) : bool := version =? receiptVersionForEvent event.

(** version|node|epoch|sequence|previous|event fields *)
Definition marshalReceipt (value : Receipt) : result bytes :=
  let e := REvent value in
  require validReceiptVersionForEvent (Version value) (EType e) else "receipt format version does not match its closed event vocabulary" in
  require negb (negb (validText (NodeID value) 256) || (Epoch value =? 0) || (Sequence value =? 0) || (Generation e =? 0))
    else "invalid receipt coordinates" in
  let* _ := validateEvent e in
  let buf := [byte_of_Z (Version value)] in
  let buf := appendText buf (NodeID value) in
  let buf := appendUint64 buf (Epoch value) in
  let buf := appendUint64 buf (Sequence value) in
  let buf := buf ++ PreviousHash value in
  let buf := buf ++ [byte_of_Z (EType e)] in
  let buf := appendText buf (TenantID e) in
  let buf := appendText buf (RuntimeRef e) in
  let buf := appendText buf (CapsuleDigest e) in
  let buf := appendText buf (PolicyDigest e) in
  let buf := appendUint64 buf (Generation e) in
  let buf := appendText buf (GrantID e) in
  let buf := buf ++ [byte_of_Z (EOutcome e)] in
  let buf := appendText buf (ErrorCode e) in
  Ok (appendText buf (MetadataHash e)).

(** The byte at the head of a slice. *)
Definition byte_at0 (raw : bytes) : Z := be_decode (take 1 raw).

Definition unmarshalReceipt (raw : bytes) : result Receipt :=
  let version := byte_at0 raw in
  require negb (zlen raw <? 1+2+8+8+hashSize+1+2+2+2+2+8+2+1+2+2) && ((version =? receiptVersionV1) || (version =? receiptVersionV2))
    else "invalid receipt version or length" in
  let* (nodeID, raw) := opt_ok (takeText (drop 1 raw)) "invalid receipt node id" in
  require negb (zlen raw <? 16 + hashSize + 1) else "invalid receipt node id" in
  let epoch := be_decode (take 8 raw) in
  let sequence := be_decode (take 8 (drop 8 raw)) in
  let previous := take 32 (drop 16 raw) in
  let event := byte_at0 (drop 48 raw) in
  let raw := drop 49 raw in
  let* (tenantID, raw) := opt_ok (takeText raw) "invalid receipt text field" in
  let* (runtimeRef, raw) := opt_ok (takeText raw) "invalid receipt text field" in
  let* (capsuleDigest, raw) := opt_ok (takeText raw) "invalid receipt text field" in
  let* (policyDigest, raw) := opt_ok (takeText raw) "invalid receipt text field" in
  require negb (zlen raw <? 8) else "invalid receipt generation" in
  let generation := be_decode (take 8 raw) in
  let* (grantID, raw) := opt_ok (takeText (drop 8 raw)) "invalid receipt grant id" in
  require negb (zlen raw <? 1) else "invalid receipt grant id" in
  let outcome := byte_at0 raw in
  let* (errorCode, raw) := opt_ok (takeOptionalText (drop 1 raw)) "invalid receipt error code" in
  let* (metadataHash, raw) := opt_ok (takeOptionalText raw) "invalid receipt metadata hash" in
  require zlen raw =? 0 else "invalid receipt metadata hash" in
  let value := mkReceipt version nodeID epoch sequence previous
    (mkEvent event tenantID runtimeRef capsuleDigest policyDigest generation grantID outcome errorCode metadataHash) in
  let* _ := marshalReceipt value in
  Ok value.

(** ** Envelopes *)

(** version|payload type|payload|key id|signature *)
Definition marshalEnvelope (value : Envelope) : result bytes :=
  require negb (negb (EnvVersion value =? envelopeVersion) || negb (String.eqb (EnvPayloadType value) PayloadType)
                || negb (validText (EnvKeyID value) 128) || (zlen (Payload value) =? 0) || (MaxEnvelopeBytes <? zlen (Payload value))
                || negb (zlen (Signature value) =? Dsse.SignatureSize))
    else "invalid evidence envelope" in
  let buf := [byte_of_Z (EnvVersion value)] in
  let buf := appendText buf (EnvPayloadType value) in
  let buf := buf ++ be_encode 4 (zlen (Payload value)) in
  let buf := buf ++ Payload value in
  let buf := appendText buf (EnvKeyID value) in
  Ok (buf ++ Signature value).

Definition unmarshalEnvelope (raw : bytes) : result Envelope :=
  let version := byte_at0 raw in
  require negb (zlen raw <? 1+2+4+2+Dsse.SignatureSize) && (version =? envelopeVersion) else "invalid evidence envelope version or length" in
  let* (payloadType, raw) := opt_ok (takeText (drop 1 raw)) "invalid evidence payload type" in
  require negb (zlen raw <? 4) else "invalid evidence payload type" in
  let length := be_decode (take 4 raw) in
  let raw := drop 4 raw in
  require negb ((length =? 0) || (MaxEnvelopeBytes <? length) || (zlen raw <? length + 2 + Dsse.SignatureSize))
    else "invalid evidence payload length" in
  let payload := take (Z.to_nat length) raw in
  let* (keyID, raw) := opt_ok (takeText (drop (Z.to_nat length) raw)) "invalid evidence key id or signature" in
  require zlen raw =? Dsse.SignatureSize else "invalid evidence key id or signature" in
  let value := mkEnvelope version payloadType payload keyID raw in
  let* _ := marshalEnvelope value in
  Ok value.

(** ** The chain *)

Definition KeyID (public : bytes) : string := string_of (hex_encode (take 16 (Sha256.sum public))).

(** [fmt.Sprintf("DSSEv1 %d %s %d %s", ...)]: the encoding [Dsse.PAE] has too. *)
Definition PreAuthEncoding (payloadType : string) (payload : bytes) : bytes :=
  bytes_of "DSSEv1 " ++ itoa (slen payloadType) ++ bytes_of " " ++ bytes_of payloadType
  ++ bytes_of " " ++ itoa (zlen payload) ++ bytes_of " " ++ payload.

Definition chainHash (previous pae : bytes) : bytes := Sha256.sum (chainDomain ++ previous ++ pae).

Definition frameBytes (envelope : bytes) : bytes := be_encode 4 (zlen envelope) ++ envelope.

Section Ed25519.
Context (verify : bytes -> bytes -> bytes -> bool).

Definition verifyEnvelope (raw public : bytes) (nodeID : string) (epoch expected : Z) (previous : bytes) : result (Receipt * bytes) :=
  let* envelope := unmarshalEnvelope raw in
  let pae := PreAuthEncoding (EnvPayloadType envelope) (Payload envelope) in
  require negb (negb (EnvVersion envelope =? envelopeVersion) || negb (String.eqb (EnvPayloadType envelope) PayloadType)
                || negb (String.eqb (EnvKeyID envelope) (KeyID public)) || negb (zlen (Signature envelope) =? Dsse.SignatureSize)
                || negb (verify public pae (Signature envelope)))
    else "invalid evidence envelope signature or identity" in
  let* receipt := unmarshalReceipt (Payload envelope) in
  require String.eqb (NodeID receipt) nodeID && (Epoch receipt =? epoch) && (Sequence receipt =? expected)
          && bool_decide (PreviousHash receipt = previous)
    else "evidence chain coordinate mismatch" in
  Ok (receipt, chainHash (PreviousHash receipt) pae).

(** [uint64(size) != uint64(len(frame)-4)] and the bounds, negated. *)
Definition frame_size_ok (frame : bytes) : bool :=
  let size := be_decode (take 4 frame) in
  negb ((size =? 0) || (MaxEnvelopeBytes <? size) || negb (size =? zlen frame - 4)).

Definition verifyFrame (frame public : bytes) (nodeID : string) (epoch expected : Z) (previous : bytes) : result (Receipt * bytes) :=
  require negb (zlen frame <? 5) else "portable evidence contains a short signed frame" in
  require frame_size_ok frame else "portable evidence contains an invalid signed frame" in
  verifyEnvelope (drop 4 frame) public nodeID epoch expected previous.

Definition verifyCanonicalFrame (frame public : bytes) (nodeID : string) (epoch expected : Z) (previous : bytes) : result (Receipt * bytes) :=
  require negb (zlen frame <? 5) else "evidence delta contains a short signed frame" in
  require frame_size_ok frame else "evidence delta contains an invalid signed frame" in
  let* envelope := unmarshalEnvelope (drop 4 frame) in
  require match marshalEnvelope envelope with Ok canonical => bool_decide (canonical = drop 4 frame) | Err _ => false end
    else "evidence delta contains a non-canonical envelope" in
  let* receipt := unmarshalReceipt (Payload envelope) in
  require match marshalReceipt receipt with Ok canonical => bool_decide (canonical = Payload envelope) | Err _ => false end
    else "evidence delta contains a non-canonical receipt" in
  verifyEnvelope (drop 4 frame) public nodeID epoch expected previous.

End Ed25519.

(** What [readFrame] returns. [EndOfFile] is any error for which [errors.Is(err, io.EOF)] holds: the reader was at its end, or
    the header was read and nothing follows it, since [%w] keeps the [io.EOF] of the second [io.ReadFull]. *)
Inductive frame_read := ReadFrame (raw rest : bytes) | EndOfFile | ReadError (e : string).

Definition readFrame (reader : bytes) : frame_read :=
  if zlen reader =? 0 then EndOfFile else
  if zlen reader <? 4 then ReadError "read evidence frame header" else
  let size := be_decode (take 4 reader) in
  if (size =? 0) || (MaxEnvelopeBytes <? size) then ReadError "invalid evidence frame size" else
  let body := drop 4 reader in
  if zlen body =? 0 then EndOfFile else
  if zlen body <? size then ReadError "read evidence frame" else
  ReadFrame (take (Z.to_nat size) body) (drop (Z.to_nat size) body).

(** ** Codecs *)

Lemma takeText_spec raw v rest : takeText raw = Some (v, rest) <-> raw = append_text [] v ++ rest /\ validText v 512 = true.
Proof.
  unfold takeText. split.
  - destruct (split_text _ raw) as [[v' rest']|] eqn:E; [|done]. destruct (validText v' 512) eqn:Ev; [|done].
    intros [= <- <-]. by apply split_text_inv in E as (-> & _ & _).
  - intros [-> Hv]. assert (Hv' := Hv). unfold validText, validOptionalText in Hv'. breflect.
    rewrite split_text_append; [by rewrite Hv | | lia].
    apply negb_true_iff, Z.eqb_neq. by rewrite slen_zero.
Qed.

Lemma takeOptionalText_spec raw v rest : takeOptionalText raw = Some (v, rest) <-> raw = append_text [] v ++ rest /\ validOptionalText v 512 = true.
Proof.
  unfold takeOptionalText. split.
  - destruct (split_text _ raw) as [[v' rest']|] eqn:E; [|done]. destruct (validOptionalText v' 512) eqn:Ev; [|done].
    intros [= <- <-]. by apply split_text_inv in E as (-> & _ & _).
  - intros [-> Hv]. assert (Hv' := Hv). unfold validOptionalText in Hv'. breflect.
    rewrite split_text_append; [by rewrite Hv | done | lia].
Qed.

Lemma text_weaken v m n : validText v m = true -> m <= n -> validText v n = true.
Proof. unfold validText, validOptionalText. intros H Hle. breflect. rewrite bool_decide_false, (proj2 (Z.leb_le _ _)), H2, H1 by (done || lia). done. Qed.
Lemma validOptionalText_weaken v m n : validOptionalText v m = true -> m <= n -> validOptionalText v n = true.
Proof. unfold validOptionalText. intros H Hle. breflect. rewrite (proj2 (Z.leb_le _ _)), H1, H0 by (done || lia). done. Qed.
Lemma validText_len v n : validText v n = true -> 0 < slen v <= n.
Proof.
  unfold validText, validOptionalText. intros H. breflect. pose proof (slen_nonneg v).
  assert (slen v <> 0) by (by rewrite slen_zero). lia.
Qed.

(** A fixed-width field at the head of a slice. *)
Lemma be_head n raw : Z.of_nat n <= zlen raw -> be_encode n (be_decode (take n raw)) ++ drop n raw = raw.
Proof.
  intros H. unfold zlen in H. assert (Hl : length (take n raw) = n) by (rewrite length_take; lia).
  rewrite <- Hl at 1. by rewrite be_encode_decode, take_drop.
Qed.
Lemma be_read n z l : 0 <= z < 256 ^ Z.of_nat n -> be_decode (take n (be_encode n z ++ l)) = z.
Proof. intros H. rewrite take_app_length' by (symmetry; apply length_be_encode). by apply be_decode_encode_small. Qed.
Lemma be_skip n z l : drop n (be_encode n z ++ l) = l.
Proof. rewrite drop_app_length'; [done | symmetry; apply length_be_encode]. Qed.
Lemma be_byte z : be_encode 1 z = [byte_of_Z z].
Proof. cbn. by rewrite Z.div_1_r. Qed.
Lemma be_decode_u64 l n : in_u64 (be_decode (take 8 (drop n l))).
Proof.
  pose proof (be_decode_bound (take 8 (drop n l))) as H. split; [lia|]. eapply Z.lt_le_trans; [apply H|].
  change (2 ^ 64) with (256 ^ 8). apply Z.pow_le_mono_r; [lia|]. unfold zlen. rewrite length_take. lia.
Qed.

Definition typed (r : Receipt) : Prop :=
  zlen (PreviousHash r) = hashSize /\ in_u64 (Epoch r) /\ in_u64 (Sequence r) /\ in_u64 (Generation (REvent r)).

(** The layout of a receipt. *)
Definition flat (r : Receipt) : bytes :=
  let e := REvent r in
  be_encode 1 (Version r) ++ append_text [] (NodeID r) ++ be_encode 8 (Epoch r) ++ be_encode 8 (Sequence r) ++ PreviousHash r
  ++ be_encode 1 (EType e) ++ append_text [] (TenantID e) ++ append_text [] (RuntimeRef e) ++ append_text [] (CapsuleDigest e)
  ++ append_text [] (PolicyDigest e) ++ be_encode 8 (Generation e) ++ append_text [] (GrantID e) ++ be_encode 1 (EOutcome e)
  ++ append_text [] (ErrorCode e) ++ append_text [] (MetadataHash e).

Definition checked_receipt (r : Receipt) : bool :=
  validReceiptVersionForEvent (Version r) (EType (REvent r)) && validText (NodeID r) 256 && negb (Epoch r =? 0) && negb (Sequence r =? 0)
  && is_ok (validateEvent (REvent r)).

Lemma marshal_flat r : marshalReceipt r = Ok (flat r) <-> checked_receipt r = true.
Proof.
  unfold marshalReceipt, checked_receipt. assert (Hg : is_ok (validateEvent (REvent r)) = true -> (Generation (REvent r) =? 0) = false).
  { unfold validateEvent. destruct (negb _) eqn:E; [|done]. intros _. breflect. by apply Z.eqb_neq. }
  destruct (validReceiptVersionForEvent _ _); [|done]. destruct (validText (NodeID r) 256); [|done]. destruct (Epoch r =? 0); [done|].
  destruct (Sequence r =? 0); [done|]. cbn [negb orb andb].
  destruct (validateEvent (REvent r)) as [[]|err] eqn:E; [|by destruct (Generation _ =? 0)]. rewrite Hg by done. cbn [negb is_ok].
  split; [done|]. intros _. f_equal. unfold flat, appendText, appendUint64, append_text. by rewrite !be_byte, <- !app_assoc.
Qed.

Lemma receipt_marshal_ok r raw : marshalReceipt r = Ok raw <-> checked_receipt r = true /\ raw = flat r.
Proof.
  split.
  - intros H. assert (Hc : checked_receipt r = true).
    { unfold marshalReceipt in H. unfold checked_receipt. steps H. by rewrite H0, !(proj2 (Z.eqb_neq _ _)). }
    split; [done|]. apply marshal_flat in Hc. congruence.
  - intros [Hc ->]. by apply marshal_flat.
Qed.

Lemma byte_at0_be z l : 0 <= z < 256 -> byte_at0 (be_encode 1 z ++ l) = z.
Proof. intros H. unfold byte_at0. by apply be_read. Qed.
Lemma byte_at0_head raw : 1 <= zlen raw -> be_encode 1 (byte_at0 raw) ++ drop 1 raw = raw.
Proof. intros H. by apply (be_head 1). Qed.

Lemma checked_texts r : checked_receipt r = true ->
  1 <= Version r <= 2 /\ validText (NodeID r) 512 = true /\ 1 <= EType (REvent r) <= 18 /\ 1 <= EOutcome (REvent r) <= 5 /\
  (validText (TenantID (REvent r)) 512 = true /\ validText (RuntimeRef (REvent r)) 512 = true /\ validText (CapsuleDigest (REvent r)) 512 = true /\
   validText (PolicyDigest (REvent r)) 512 = true /\ validText (GrantID (REvent r)) 512 = true) /\
  (validOptionalText (ErrorCode (REvent r)) 512 = true /\ validOptionalText (MetadataHash (REvent r)) 512 = true).
Proof.
  unfold checked_receipt, validateEvent, validEvent, validOutcome, validReceiptVersionForEvent, receiptVersionForEvent. intros H. breflect.
  match goal with Hv : is_ok _ = true |- _ => destruct (negb _) eqn:E in Hv; [|done] end. breflect.
  repeat match goal with
    | Hv : validText ?v ?n = true |- _ => lazymatch n with 512 => fail | _ => apply (text_weaken v n 512) in Hv; [|lia] end
    | Hv : validOptionalText ?v 128 = true |- _ => apply (validOptionalText_weaken v 128 512) in Hv; [|lia] end.
  unfold AdmissionAllow, ActivationCheckpoint, Allowed, Compensated in *.
  split; [rewrite H; case_match; unfold receiptVersionV1, receiptVersionV2; lia|].
  split; [done|]. split; [lia|]. split; [lia|]. done.
Qed.

(** Reading the fields of a receipt that was laid out. *)
Lemma takeText_read v l : validText v 512 = true -> takeText (append_text [] v ++ l) = Some (v, l).
Proof. intros H. by apply takeText_spec. Qed.
Lemma takeOptionalText_read v l : validOptionalText v 512 = true -> takeOptionalText (append_text [] v ++ l) = Some (v, l).
Proof. intros H. by apply takeOptionalText_spec. Qed.
Lemma zlen_flat r : checked_receipt r = true -> zlen (PreviousHash r) = hashSize ->
  1+2+8+8+hashSize+1+2+2+2+2+8+2+1+2+2 + 6 <= zlen (flat r) <= 8192.
Proof.
  intros (Hv & Hn & Ht & Ho & (? & ? & ? & ? & ?) & (? & ?))%checked_texts Hp. unfold flat, hashSize in *.
  repeat match goal with Hx : validText _ 512 = true |- _ => apply validText_len in Hx end.
  rewrite !zlen_app, !zlen_be_encode, !zlen_append_text, !zlen_nil, Hp. pose proof (slen_nonneg (ErrorCode (REvent r))). pose proof (slen_nonneg (MetadataHash (REvent r))).
  repeat match goal with Hx : validOptionalText _ 512 = true |- _ => unfold validOptionalText in Hx; breflect end. lia.
Qed.

Lemma unmarshal_flat r : typed r -> checked_receipt r = true -> unmarshalReceipt (flat r) = Ok r.
Proof.
  intros (Hp & Hep & Hse & Hge) Hc. pose proof (zlen_flat r Hc Hp) as Hlen. pose proof (proj2 (marshal_flat r) Hc) as Hm.
  apply checked_texts in Hc as (Hv & Hn & Ht & Ho & (T1 & T2 & T3 & T4 & T5) & (O1 & O2)).
  unfold unmarshalReceipt. rewrite (proj2 (Z.ltb_ge _ _)) by lia. clear Hlen.
  destruct r as [version node epoch seq prev [et tenant rref capsule policy gen grant out err meta]].
  unfold flat in *. cbn [Version NodeID Epoch Sequence PreviousHash REvent EType TenantID RuntimeRef CapsuleDigest PolicyDigest Generation GrantID EOutcome ErrorCode MetadataHash] in *.
  rewrite byte_at0_be by lia. replace ((version =? receiptVersionV1) || (version =? receiptVersionV2)) with true
    by (unfold receiptVersionV1, receiptVersionV2; symmetry; apply orb_true_iff; rewrite !Z.eqb_eq; lia).
  cbn [negb andb]. rewrite be_skip, takeText_read by done. cbn [opt_ok].
  match goal with |- context [zlen ?raw <? 16 + hashSize + 1] => set (rest := raw) end.
  assert (Hr : 16 + hashSize + 1 <= zlen rest).
  { subst rest. rewrite !zlen_app, !zlen_be_encode, Hp. repeat match goal with |- context [zlen (append_text [] ?v)] => pose proof (zlen_nonneg (append_text [] v)); generalize dependent (zlen (append_text [] v)); intros end. lia. }
  rewrite (proj2 (Z.ltb_ge _ _)) by done. clear Hr. subst rest. cbn [negb].
  assert (Hpl : length prev = 32%nat) by (unfold hashSize, zlen in Hp; lia).
  assert (D16 : forall l, drop 16 (be_encode 8 epoch ++ be_encode 8 seq ++ l) = l).
  { intros l. change 16%nat with (8 + 8)%nat. by rewrite <- drop_drop, !be_skip. }
  assert (D48 : forall l, drop 48 (be_encode 8 epoch ++ be_encode 8 seq ++ prev ++ l) = l).
  { intros l. change 48%nat with (16 + 32)%nat. by rewrite <- drop_drop, D16, <- Hpl, drop_app_length. }
  assert (D49 : forall l, drop 49 (be_encode 8 epoch ++ be_encode 8 seq ++ prev ++ be_encode 1 et ++ l) = l).
  { intros l. change 49%nat with (48 + 1)%nat. by rewrite <- drop_drop, D48, be_skip. }
  rewrite D48, D49, D16, be_skip, !be_read, byte_at0_be by (exact Hep || exact Hse || lia).
  rewrite (take_app_length' prev) by done. do 4 (rewrite takeText_read by done; cbn [opt_ok]).
  assert (G8 : forall l, zlen (be_encode 8 gen ++ l) <? 8 = false) by (intros l; apply Z.ltb_ge; rewrite zlen_app, zlen_be_encode; pose proof (zlen_nonneg l); lia).
  rewrite G8, be_skip, be_read by exact Hge. cbn [negb]. rewrite takeText_read by done. cbn [opt_ok].
  assert (G1 : forall l, zlen (be_encode 1 out ++ l) <? 1 = false) by (intros l; apply Z.ltb_ge; rewrite zlen_app, zlen_be_encode; pose proof (zlen_nonneg l); lia).
  rewrite G1, be_skip, byte_at0_be by lia. cbn [negb]. rewrite takeOptionalText_read by done. cbn [opt_ok].
  rewrite <- (app_nil_r (append_text [] meta)). rewrite takeOptionalText_read by done. cbn [opt_ok].
  rewrite zlen_nil. cbn [Z.eqb]. by rewrite Hm.
Qed.

Lemma fields49 l : 49 <= zlen l ->
  be_encode 8 (be_decode (take 8 l)) ++ be_encode 8 (be_decode (take 8 (drop 8 l))) ++ take 32 (drop 16 l) ++ be_encode 1 (byte_at0 (drop 48 l)) ++ drop 49 l = l.
Proof.
  intros H. assert (Hd : forall n, 0 <= Z.of_nat n <= 49 -> 49 - Z.of_nat n <= zlen (drop n l)) by (intros n Hn; unfold zlen in *; rewrite length_drop; lia).
  change 49%nat with (48 + 1)%nat. rewrite <- drop_drop, byte_at0_head by (specialize (Hd 48%nat); lia).
  change 48%nat with (16 + 32)%nat. rewrite <- drop_drop, take_drop. change 16%nat with (8 + 8)%nat. rewrite <- drop_drop.
  rewrite (be_head 8 (drop 8 l)) by (specialize (Hd 8%nat); lia). apply be_head. lia.
Qed.

(** A reader accepts exactly the texts the writer produces. *)
Lemma unmarshalReceipt_inv raw r : unmarshalReceipt raw = Ok r -> typed r /\ checked_receipt r = true /\ raw = flat r.
Proof.
  unfold unmarshalReceipt. intros H. step H.
  assert (Hs : forall {A} (o : option (string * bytes)) e (k : string * bytes -> result A) x, (let* p := opt_ok o e in k p) = Ok x -> exists v l, o = Some (v, l) /\ k (v, l) = Ok x)
    by (intros A [[v l]|] e k x Hx; [by exists v, l | done]).
  apply Hs in H as (node & r1 & (Q1 & V1)%takeText_spec & H). step H.
  apply Hs in H as (tenant & r2 & (Q2 & V2)%takeText_spec & H). apply Hs in H as (rref & r3 & (Q3 & V3)%takeText_spec & H).
  apply Hs in H as (capsule & r4 & (Q4 & V4)%takeText_spec & H). apply Hs in H as (policy & r5 & (Q5 & V5)%takeText_spec & H). step H.
  apply Hs in H as (grant & r6 & (Q6 & V6)%takeText_spec & H). step H.
  apply Hs in H as (err & r7 & (Q7 & V7)%takeOptionalText_spec & H). apply Hs in H as (meta & r8 & (Q8 & V8)%takeOptionalText_spec & H). steps H.
  injection H as <-.
  match goal with Hm : marshalReceipt _ = Ok _ |- _ => apply receipt_marshal_ok in Hm as [Hc _] end.
  assert (r8 = []) as -> by (by apply nil_length_inv, Nat2Z.inj). subst r2 r3 r4 r7.
  split; [|split; [done|]].
  - repeat split; cbn [PreviousHash Epoch Sequence Generation REvent]; try apply (be_decode_u64 _ 0); try apply be_decode_u64.
    unfold zlen, hashSize in *. rewrite length_take, length_drop. lia.
  - rewrite app_nil_r in Q7. unfold flat. cbn [Version NodeID Epoch Sequence PreviousHash REvent EType TenantID RuntimeRef CapsuleDigest PolicyDigest Generation GrantID EOutcome ErrorCode MetadataHash].
    rewrite <- Q7, (byte_at0_head r6) by done. rewrite <- Q6, (be_head 8 r5) by (unfold hashSize in *; lia). rewrite <- Q2, (fields49 r1) by (unfold hashSize in *; lia).
    rewrite <- Q1. rewrite (byte_at0_head raw) by (unfold hashSize in *; lia). done.
Qed.

Lemma unmarshal_exact raw r : unmarshalReceipt raw = Ok r <-> typed r /\ marshalReceipt r = Ok raw.
Proof.
  rewrite receipt_marshal_ok. split.
  - by intros (Ht & Hc & ->)%unmarshalReceipt_inv.
  - intros (Ht & Hc & ->). by apply unmarshal_flat.
Qed.

(** The layout of an envelope. *)
Definition flat_envelope (e : Envelope) : bytes :=
  be_encode 1 (EnvVersion e) ++ append_text [] (EnvPayloadType e) ++ be_encode 4 (zlen (Payload e)) ++ Payload e ++ append_text [] (EnvKeyID e) ++ Signature e.

Definition checked_envelope (e : Envelope) : Prop :=
  EnvVersion e = envelopeVersion /\ EnvPayloadType e = PayloadType /\ validText (EnvKeyID e) 128 = true /\
  0 < zlen (Payload e) <= MaxEnvelopeBytes /\ zlen (Signature e) = Dsse.SignatureSize.

Lemma marshalEnvelope_ok e raw : marshalEnvelope e = Ok raw <-> checked_envelope e /\ raw = flat_envelope e.
Proof.
  unfold marshalEnvelope, checked_envelope. pose proof (zlen_nonneg (Payload e)).
  assert (Hf : appendText ((appendText [byte_of_Z (EnvVersion e)] (EnvPayloadType e) ++ be_encode 4 (zlen (Payload e))) ++ Payload e) (EnvKeyID e) ++ Signature e = flat_envelope e)
    by (unfold flat_envelope, appendText, append_text; by rewrite be_byte, <- !app_assoc).
  split.
  - intros H'. steps H'. injection H' as <-. rewrite <- Hf. repeat split; try done; try lia. by apply String.eqb_eq.
  - intros ((Hv & Ht & Hk & Hp & Hs) & ->). rewrite <- Hf, Hv, Ht, Hk, Hs, String.eqb_refl, !(proj2 (Z.eqb_neq (zlen _) 0)), (proj2 (Z.ltb_ge _ _)) by lia. done.
Qed.

Lemma unmarshalEnvelope_exact raw e : unmarshalEnvelope raw = Ok e <-> marshalEnvelope e = Ok raw.
Proof.
  split.
  - unfold unmarshalEnvelope. intros H. step H.
    destruct (takeText (drop 1 raw)) as [[t r1]|] eqn:Q1; [|done]. apply takeText_spec in Q1 as [Q1 V1]. cbn [opt_ok] in H. step H. step H.
    set (n := be_decode (take 4 r1)) in *.
    destruct (takeText (drop (Z.to_nat n) (drop 4 r1))) as [[k sig]|] eqn:Q2; [|done]. apply takeText_spec in Q2 as [Q2 V2]. cbn [opt_ok] in H. steps H. injection H as <-.
    match goal with Hm : marshalEnvelope _ = Ok _ |- _ => rewrite Hm; apply marshalEnvelope_ok in Hm as [_ ->] end. f_equal.
    unfold flat_envelope. cbn [EnvVersion EnvPayloadType Payload EnvKeyID Signature]. rewrite <- Q2.
    assert (Hn : zlen (take (Z.to_nat n) (drop 4 r1)) = n) by (unfold zlen in *; rewrite length_take; pose proof (be_decode_bound (take 4 r1)); subst n; unfold Dsse.SignatureSize in *; lia).
    rewrite Hn, take_drop. subst n. rewrite (be_head 4 r1), <- Q1 by lia. apply byte_at0_head. unfold Dsse.SignatureSize in *. lia.
  - intros Hm. assert (Hm' := Hm). apply marshalEnvelope_ok in Hm' as ((Hv & Ht & Hk & Hp & Hs) & ->).
    destruct e as [version t p k sig]. cbn [EnvVersion EnvPayloadType Payload EnvKeyID Signature] in *. subst version t.
    apply (text_weaken _ _ 512) in Hk as Hk'; [|lia]. pose proof (validText_len _ _ Hk). unfold flat_envelope in *. cbn [EnvVersion EnvPayloadType Payload EnvKeyID Signature] in *.
    unfold unmarshalEnvelope. rewrite byte_at0_be by done.
    rewrite (proj2 (Z.ltb_ge _ _)) by (rewrite !zlen_app, !zlen_be_encode, !zlen_append_text, zlen_nil, Hs; change (slen PayloadType) with 41; unfold Dsse.SignatureSize; lia).
    cbn [negb andb Z.eqb]. rewrite Z.eqb_refl, be_skip, takeText_read by done. cbn [opt_ok].
    assert (Hb : 0 <= zlen p < 256 ^ Z.of_nat 4) by (change (256 ^ Z.of_nat 4) with 4294967296; change MaxEnvelopeBytes with 65536 in Hp; lia).
    rewrite (proj2 (Z.ltb_ge _ _)) by (rewrite zlen_app, zlen_be_encode; match goal with |- _ <= _ + zlen ?l => pose proof (zlen_nonneg l) end; lia).
    cbn [negb]. rewrite be_read, be_skip by done.
    rewrite (proj2 (Z.eqb_neq _ _)), (proj2 (Z.ltb_ge MaxEnvelopeBytes _)), (proj2 (Z.ltb_ge (zlen (p ++ _)) _)) by (rewrite ?zlen_app, ?zlen_append_text, ?zlen_nil, ?Hs; unfold Dsse.SignatureSize; lia).
    cbn [negb orb]. replace (Z.to_nat (zlen p)) with (length p) by (unfold zlen; lia).
    rewrite take_app_length, drop_app_length, takeText_read by done. cbn [opt_ok]. rewrite Hs, Z.eqb_refl, Hm. done.
Qed.

(** ** Frames *)

Lemma be4_small z : 0 <= z <= MaxEnvelopeBytes -> 0 <= z < 256 ^ Z.of_nat 4.
Proof. intros H. change (256 ^ Z.of_nat 4) with 4294967296. change MaxEnvelopeBytes with 65536 in H. lia. Qed.

Definition frame_sized (raw : bytes) : Prop := 0 < zlen raw <= MaxEnvelopeBytes.

Lemma zlen_frame raw : zlen (frameBytes raw) = 4 + zlen raw.
Proof. unfold frameBytes. by rewrite zlen_app, zlen_be_encode. Qed.
Lemma drop_frame raw l : drop 4 (frameBytes raw ++ l) = raw ++ l.
Proof. unfold frameBytes. by rewrite <- app_assoc, be_skip. Qed.
Lemma take_frame raw l : frame_sized raw -> be_decode (take 4 (frameBytes raw ++ l)) = zlen raw.
Proof. intros [? ?]. unfold frameBytes. rewrite <- app_assoc. apply be_read, be4_small. lia. Qed.
Lemma frameBytes_inj a b : frameBytes a = frameBytes b -> a = b.
Proof. intros H. apply (f_equal (drop 4)) in H. rewrite <- (app_nil_r (frameBytes a)), <- (app_nil_r (frameBytes b)), !drop_frame, !app_nil_r in H. done. Qed.

Lemma readFrame_frame raw rest : frame_sized raw -> readFrame (frameBytes raw ++ rest) = ReadFrame raw rest.
Proof.
  intros H. assert (H' := H). destruct H' as [H1 H2]. unfold readFrame. rewrite take_frame, drop_frame by done.
  pose proof (zlen_nonneg rest). rewrite !zlen_app, zlen_frame.
  rewrite !(proj2 (Z.eqb_neq _ _)), !(proj2 (Z.ltb_ge _ _)) by lia. cbn [orb].
  replace (Z.to_nat (zlen raw)) with (length raw) by (unfold zlen; lia). by rewrite take_app_length, drop_app_length.
Qed.

Lemma readFrame_inv l raw rest : readFrame l = ReadFrame raw rest -> l = frameBytes raw ++ rest /\ frame_sized raw.
Proof.
  unfold readFrame. intros H. case_in H. breflect. injection H as <- <-. set (n := be_decode (take 4 l)) in *.
  assert (Hn : 0 <= n) by apply be_decode_bound.
  assert (Hz : zlen (take (Z.to_nat n) (drop 4 l)) = n) by (unfold zlen in *; rewrite length_take; lia).
  split; [|by unfold frame_sized; rewrite Hz; lia]. unfold frameBytes. rewrite Hz, <- app_assoc, take_drop. subst n. symmetry. apply be_head. lia.
Qed.

(** The end of a file: nothing, or the header of a frame whose envelope is missing. *)
Lemma readFrame_end l : readFrame l = EndOfFile <->
  l = [] \/ exists size, 0 < size <= MaxEnvelopeBytes /\ l = be_encode 4 size.
Proof.
  unfold readFrame. split.
  - intros H. case_in H; breflect; [left; by apply nil_length_inv, Nat2Z.inj|]. right. exists (be_decode (take 4 l)).
    pose proof (be_decode_bound (take 4 l)). split; [lia|]. rewrite <- (be_head 4 l) at 1 by lia.
    assert (drop 4 l = []) as -> by (by apply nil_length_inv, Nat2Z.inj). by rewrite app_nil_r.
  - intros [-> | (size & Hs & ->)]; [done|]. rewrite zlen_be_encode. rewrite <- (app_nil_r (be_encode 4 size)), be_read, be_skip by (apply be4_small; lia).
    rewrite !(proj2 (Z.eqb_neq _ 0)), (proj2 (Z.ltb_ge _ _)), (proj2 (Z.ltb_ge MaxEnvelopeBytes _)) by lia. done.
Qed.

Lemma frame_size_exact frame : 5 <= zlen frame -> frame_size_ok frame = true <-> frame = frameBytes (drop 4 frame) /\ frame_sized (drop 4 frame).
Proof.
  intros Hl. assert (Hd : zlen (drop 4 frame) = zlen frame - 4) by (unfold zlen in *; rewrite length_drop; lia). unfold frame_size_ok. split.
  - intros H. breflect. assert (Hn : 0 <= be_decode (take 4 frame)) by apply be_decode_bound. split; [|split; lia].
    unfold frameBytes. rewrite Hd. rewrite <- H0. symmetry. apply be_head. lia.
  - intros [E Hs]. rewrite E. pose proof (take_frame (drop 4 frame) [] Hs) as Ht. rewrite app_nil_r in Ht. rewrite Ht, <- E, Hd. destruct Hs.
    rewrite (proj2 (Z.eqb_neq _ _)), (proj2 (Z.ltb_ge _ _)), Z.eqb_refl by lia. done.
Qed.

(** ** Verified envelopes *)

(** The bytes that are signed for a receipt. *)
Definition signed_bytes (r : Receipt) : bytes := PreAuthEncoding PayloadType (flat r).
Definition envelope_of (public : bytes) (r : Receipt) (signature : bytes) : Envelope := mkEnvelope envelopeVersion PayloadType (flat r) (KeyID public) signature.

Section Verified.
Context (verify : bytes -> bytes -> bytes -> bool).

(** [raw] is an envelope of a receipt at a place of the chain. *)
Definition authentic (raw public : bytes) (nodeID : string) (epoch expected : Z) (previous : bytes) (r : Receipt) : Prop :=
  typed r /\ checked_receipt r = true /\ NodeID r = nodeID /\ Epoch r = epoch /\ Sequence r = expected /\ PreviousHash r = previous /\
  exists signature, checked_envelope (envelope_of public r signature) /\ raw = flat_envelope (envelope_of public r signature) /\
    verify public (signed_bytes r) signature = true.

Lemma verifyEnvelope_exact raw public nodeID epoch expected previous r h :
  verifyEnvelope verify raw public nodeID epoch expected previous = Ok (r, h) <->
  authentic raw public nodeID epoch expected previous r /\ h = chainHash previous (signed_bytes r).
Proof.
  unfold verifyEnvelope, authentic, signed_bytes. split.
  - intros H. destruct (unmarshalEnvelope raw) as [e|] eqn:Hu; [|done]. apply unmarshalEnvelope_exact, marshalEnvelope_ok in Hu as [He Hraw]. steps H.
    match goal with Hu : unmarshalReceipt _ = Ok _ |- _ => apply unmarshalReceipt_inv in Hu as (Ht & Hc & Hp) end.
    destruct e as [v t p k sig]. destruct He as (Hv & Ht' & Hk & Hpl & Hs). cbn [EnvVersion EnvPayloadType Payload EnvKeyID Signature] in *. subst v t p.
    injection H as <- <-. repeat match goal with Hx : (_ =? _)%string = true |- _ => apply String.eqb_eq in Hx end. subst.
    split; [|done]. split_and!; try done. exists sig. done.
  - intros ((Ht & Hc & <- & <- & <- & <- & sig & He & -> & Hv) & ->).
    rewrite (proj2 (unmarshalEnvelope_exact _ (envelope_of public r sig))) by (apply marshalEnvelope_ok; done).
    unfold envelope_of. cbn [EnvVersion EnvPayloadType Payload EnvKeyID Signature]. destruct He as (_ & _ & _ & _ & Hs). cbn [Signature envelope_of] in Hs.
    rewrite Hs, !String.eqb_refl, Hv. cbn [negb orb Z.eqb]. rewrite !Z.eqb_refl. cbn [negb orb].
    rewrite unmarshal_flat by done. rewrite String.eqb_refl, !Z.eqb_refl, bool_decide_true by done. done.
Qed.

Lemma verifyFrame_exact frame public nodeID epoch expected previous r h :
  verifyFrame verify frame public nodeID epoch expected previous = Ok (r, h) <->
  exists raw, frame = frameBytes raw /\ frame_sized raw /\ verifyEnvelope verify raw public nodeID epoch expected previous = Ok (r, h).
Proof.
  unfold verifyFrame. split.
  - intros H. steps H. assert (Hl : 5 <= zlen frame) by lia. apply (frame_size_exact frame Hl) in E0 as [Ef Hs]. eauto.
  - intros (raw & -> & [Hs1 Hs2] & H). assert (Hd : drop 4 (frameBytes raw) = raw) by (rewrite <- (app_nil_r (frameBytes raw)), drop_frame; apply app_nil_r).
    rewrite zlen_frame, (proj2 (Z.ltb_ge _ _)) by lia. cbn [negb]. rewrite (proj2 (frame_size_exact (frameBytes raw) ltac:(rewrite zlen_frame; lia))) by (rewrite Hd; done). by rewrite Hd.
Qed.

Lemma verifyCanonicalFrame_iff frame public nodeID epoch expected previous x :
  verifyCanonicalFrame verify frame public nodeID epoch expected previous = Ok x <-> verifyFrame verify frame public nodeID epoch expected previous = Ok x.
Proof.
  unfold verifyCanonicalFrame, verifyFrame. destruct (zlen frame <? 5); [done|]. cbn [negb]. destruct (frame_size_ok frame); [|done].
  split; [by intros H; repeat step H|]. intros H. destruct x as [r h]. assert (H' := H). apply verifyEnvelope_exact in H' as [(Ht & Hc & _ & _ & _ & _ & sig & He & E & _) _].
  assert (Hm : marshalEnvelope (envelope_of public r sig) = Ok (drop 4 frame)) by (apply marshalEnvelope_ok; done).
  rewrite (proj2 (unmarshalEnvelope_exact _ _) Hm), Hm, bool_decide_true by done. cbn [envelope_of Payload].
  rewrite unmarshal_flat by done. rewrite (proj2 (marshal_flat r) Hc), bool_decide_true by done. exact H.
Qed.
End Verified.

(** ** The chain hash *)

(** The chain hash after a receipt determines the receipt and the hash before it, or two texts collide. *)
Definition collision : Prop := exists x y : bytes, x <> y /\ Sha256.sum x = Sha256.sum y.

Lemma flat_inj r r' : typed r -> checked_receipt r = true -> typed r' -> checked_receipt r' = true -> flat r = flat r' -> r = r'.
Proof. intros Ht Hc Ht' Hc' E. pose proof (unmarshal_flat r Ht Hc) as H. rewrite E, unmarshal_flat in H by done. by injection H. Qed.

Lemma chainHash_binds p p' r r' : zlen p = zlen p' -> typed r -> checked_receipt r = true -> typed r' -> checked_receipt r' = true ->
  chainHash p (signed_bytes r) = chainHash p' (signed_bytes r') -> (p = p' /\ r = r') \/ collision.
Proof.
  intros Hp Ht Hc Ht' Hc' E. destruct (decide (chainDomain ++ p ++ signed_bytes r = chainDomain ++ p' ++ signed_bytes r')) as [Eq | Hne].
  - left. apply app_inv_head in Eq. apply app_inj_1 in Eq as [-> Eq]; [|unfold zlen in Hp; lia]. split; [done|].
    apply (Dsse.PAE_injective PayloadType (flat r) PayloadType (flat r')) in Eq as [_ Eq]. by apply flat_inj.
  - right. by exists (chainDomain ++ p ++ signed_bytes r), (chainDomain ++ p' ++ signed_bytes r').
Qed.

Lemma zlen_chainHash p pae : zlen (chainHash p pae) = hashSize.
Proof. unfold chainHash, zlen. by rewrite Sha256.length_sum. Qed.

(** The binary codecs are exact: a receipt, or an envelope, is read from exactly the bytes its writer produces for it, so no two
    encodings of one receipt exist; and the canonical-encoding checks of a delta frame refuse nothing that the verification of the frame
    accepts. *)
Theorem evidence_codec_exact :
  (forall raw r, unmarshalReceipt raw = Ok r <-> typed r /\ marshalReceipt r = Ok raw) /\
  (forall raw e, unmarshalEnvelope raw = Ok e <-> marshalEnvelope e = Ok raw) /\
  (forall verify frame public nodeID epoch expected previous x,
     verifyCanonicalFrame verify frame public nodeID epoch expected previous = Ok x <->
     verifyFrame verify frame public nodeID epoch expected previous = Ok x).
Proof. split; [apply unmarshal_exact|]. split; [apply unmarshalEnvelope_exact | apply verifyCanonicalFrame_iff]. Qed.

End EvidenceReceipt.
