(* ===== verification/EvidenceLog.v ===== *)
(** * The evidence log ([src/internal/evidence/evidence.go])

    The append-only file of signed receipts and the handle on it: opening verifies the file and rebuilds the indexes, appending checks the
    tail and extends the chain, exporting returns the signed frames after a coordinate, and the offline verifiers read a file or a delta.
    Every answer of the operating system is an input: what the inspection of the path says, whether reads succeed, where a write fails
    and the time stamp it leaves. The lock gives the file to one handle and the mutex serialises its calls. *)

From Stdlib Require Import Ascii.
From S2P Require Import Prelude GoText GoCrypto GoFS Dsse EvidenceReceipt.
Import EvidenceReceipt.

Module EvidenceLog.

Definition MaxDeltaRecords : Z := 128.
Definition MaxDeltaBytes : Z := Z.shiftl 700 10.
Definition MaxLogBytes : Z := Z.shiftl 64 20.
Definition checkpointStride : Z := MaxDeltaRecords.
Definition maxCheckpointCount : Z := MaxLogBytes / (5 * checkpointStride) + 2.

Definition ErrDeltaCoordinate : string := "evidence delta coordinate does not match the local log".
Definition ErrActivationMarkerConflict : string := "activation marker conflicts with retained evidence".
Definition ErrActivationInvalidated : string := "activation was invalidated before its checkpoint".

(** ** Indexes *)

(** Tenant, runtime reference and generation. *)
Notation activationMarkerKey := (string * string * Z)%type.

Record activationMarker := mkMarker { ActivationID : string; MCapsuleDigest : string; MPolicyDigest : string; Digest : string; MReceipt : Receipt }.

(** Tenant, runtime reference, generation, capsule digest, policy digest, and whether the key has the scope of the tenant's state. *)
Notation activationInvalidationKey := (string * string * Z * string * string * bool)%type.

Record activationInvalidationState := mkInvalidation {
  invalidatedAt : Z; latestStart : Z; postStartCompensationAt : Z; postStartCompensationStart : Z }.
Definition no_invalidation : activationInvalidationState := mkInvalidation 0 0 0 0.

#[global] Instance activationMarker_eq_dec : EqDecision activationMarker.
Proof. solve_decision. Defined.
#[global] Instance activationInvalidationState_eq_dec : EqDecision activationInvalidationState.
Proof. solve_decision. Defined.

Record activationIndexes := mkIndexes {
  begins : gmap activationMarkerKey activationMarker; marks : gmap activationMarkerKey activationMarker;
  invalidations : gmap activationInvalidationKey activationInvalidationState }.
Definition newActivationIndexes : activationIndexes := mkIndexes ∅ ∅ ∅.

Record logCheckpoint := mkCheckpoint { KSequence : Z; KChainHash : bytes; KOffset : Z }.
#[global] Instance logCheckpoint_eq_dec : EqDecision logCheckpoint.
Proof. solve_decision. Defined.

Definition marker_key (e : Event) : activationMarkerKey := (TenantID e, RuntimeRef e, Generation e).
Definition marker_of (r : Receipt) : activationMarker :=
  mkMarker (GrantID (REvent r)) (CapsuleDigest (REvent r)) (PolicyDigest (REvent r)) (MetadataHash (REvent r)) r.

(** The four fields an exact retry repeats, and the three a checkpoint shares with its begin. *)
Definition same_activation (a b : activationMarker) : bool :=
  String.eqb (ActivationID a) (ActivationID b) && String.eqb (MCapsuleDigest a) (MCapsuleDigest b) && String.eqb (MPolicyDigest a) (MPolicyDigest b).
Definition same_marker (a b : activationMarker) : bool := same_activation a b && String.eqb (Digest a) (Digest b).

(** [Outcome] of a marker, no error and a digest. *)
Definition closed_semantics (e : Event) (outcome : Z) : bool :=
  (EOutcome e =? outcome) && String.eqb (ErrorCode e) "" && negb (String.eqb (MetadataHash e) "").

Definition applyActivationMarker (ix : activationIndexes) (r : Receipt) : result activationIndexes :=
  let e := REvent r in
  let key := marker_key e in
  let marker := marker_of r in
  if negb (EType e =? ActivationBegin) && negb (EType e =? ActivationCheckpoint) then Ok ix else
  if EType e =? ActivationBegin then
    require closed_semantics e Allowed else "activation begin receipt has invalid closed semantics" in
    match begins ix !! key with
    | Some existing =>
        if same_marker existing marker then Err "evidence contains duplicate activation begin markers"
        else Err "evidence contains conflicting activation begin markers"
    | None => Ok (mkIndexes (<[key := marker]> (begins ix)) (marks ix) (invalidations ix))
    end
  else
    require match begins ix !! key with Some begin => same_activation begin marker | None => false end
      else "activation checkpoint has no matching activation begin" in
    require closed_semantics e Committed else "activation checkpoint receipt has invalid closed semantics" in
    match marks ix !! key with
    | Some existing =>
        if same_marker existing marker then Err "evidence contains duplicate activation checkpoints"
        else Err "evidence contains conflicting activation checkpoints"
    | None => Ok (mkIndexes (begins ix) (<[key := marker]> (marks ix)) (invalidations ix))
    end.

Definition runtime_key (e : Event) : activationInvalidationKey :=
  (TenantID e, RuntimeRef e, Generation e, CapsuleDigest e, PolicyDigest e, false).
Definition state_key (e : Event) : activationInvalidationKey := (TenantID e, ""%string, Generation e, CapsuleDigest e, PolicyDigest e, true).

Definition state_at (m : gmap activationInvalidationKey activationInvalidationState) (k : activationInvalidationKey) : activationInvalidationState :=
  default no_invalidation (m !! k).

(** [Committed] or [Compensated]. *)
Definition took_effect (e : Event) : bool := (EOutcome e =? Committed) || (EOutcome e =? Compensated).

Definition applyActivationInvalidation (m : gmap activationInvalidationKey activationInvalidationState) (r : Receipt)
  : gmap activationInvalidationKey activationInvalidationState :=
  let e := REvent r in
  let key := runtime_key e in
  let state := state_at m key in
  let t := EType e in
  if t =? LifecycleStart then
    if negb (EOutcome e =? Committed) || negb (String.eqb (GrantID e) "workload") then m
    else <[key := mkInvalidation (invalidatedAt state) (Sequence r) (postStartCompensationAt state) (postStartCompensationStart state)]> m
  else if t =? JournalCompensate then
    if negb (EOutcome e =? Compensated) || String.eqb (GrantID e) "state" || (latestStart state =? 0) then m
    else <[key := mkInvalidation (invalidatedAt state) (latestStart state) (Sequence r) (latestStart state)]> m
  else if (t =? LifecycleStop) || (t =? LifecycleDestroy) || (t =? Drift) || (t =? Revocation) then
    if negb (took_effect e) then m
    else <[key := mkInvalidation (Sequence r) (latestStart state) (postStartCompensationAt state) (postStartCompensationStart state)]> m
  else if t =? StatePurge then
    if negb (took_effect e) || negb (String.eqb (GrantID e) "state") then m
    else
      let state := state_at m (state_key e) in
      <[state_key e := mkInvalidation (Sequence r) (latestStart state) (postStartCompensationAt state) (postStartCompensationStart state)]> m
  else m.

(** The visitor of [verifyFileWithActivationIndexes]. *)
Definition index_receipt (ix : activationIndexes) (record : VerifiedReceipt) : result activationIndexes :=
  let* ix := applyActivationMarker ix (VReceipt record) in
  Ok (mkIndexes (begins ix) (marks ix) (applyActivationInvalidation (invalidations ix) (VReceipt record))).

(** ** Verifying a file *)

(** The variables of the loop; [s_seen] is what the caller's visitor accumulates. *)
Record scan (A : Type) := mkScan {
  s_expected : Z; s_previous : bytes; s_last : option Receipt; s_checkpoints : list logCheckpoint; s_total : Z; s_seen : A }.
Arguments mkScan {A}.
Arguments s_expected {A}.
Arguments s_previous {A}.
Arguments s_last {A}.
Arguments s_checkpoints {A}.
Arguments s_total {A}.
Arguments s_seen {A}.

(** The outcome of a read: a value, an error that leaves the handle open, or one that closes it. *)
Inductive checked (A : Type) := Good (a : A) | Refuse (e : string) | Fatal (e : string).
Arguments Good {A}.
Arguments Refuse {A}.
Arguments Fatal {A}.

Section Ed25519.
Context (sign : bytes -> bytes -> bytes) (verify : bytes -> bytes -> bytes -> bool).

Section Verify.
Context {A : Type} (visit : A -> VerifiedReceipt -> result A) (buildIndex : bool) (public : bytes) (nodeID : string) (epoch : Z).

Definition verify_record (s : scan A) (raw : bytes) : result (scan A) :=
  let total := s_total s + (4 + zlen raw) in
  require total <=? MaxLogBytes else "evidence log exceeds its limit" in
  let* (receipt, current) := verifyEnvelope verify raw public nodeID epoch (s_expected s) (s_previous s) in
  let* checkpoints :=
    if buildIndex && (Sequence receipt mod checkpointStride =? 0) then
      require negb (maxCheckpointCount <=? zlen (s_checkpoints s)) else "evidence checkpoint index exceeds its bound" in
      Ok (s_checkpoints s ++ [mkCheckpoint (Sequence receipt) current total])
    else Ok (s_checkpoints s) in
  let* seen := visit (s_seen s) (mkVerified receipt current (frameBytes raw)) in
  Ok (mkScan (u64 (s_expected s + 1)) current (Some receipt) checkpoints total seen).

(** Every iteration consumes at least five bytes, so the length of the file is enough fuel. *)
Fixpoint verify_loop (fuel : nat) (reader : bytes) (s : scan A) : result (scan A) :=
  match fuel with
  | O => Err "out of fuel"
  | S fuel =>
      match readFrame reader with
      | EndOfFile => Ok s
      | ReadError e => Err e
      | ReadFrame raw rest => let* s := verify_record s raw in verify_loop fuel rest s
      end
  end.

Definition verifyFileState (file : bytes) (seen : A) : result (scan A) :=
  verify_loop (S (length file)) file (mkScan 1 zeroHash None (if buildIndex then [mkCheckpoint 0 zeroHash 0] else []) 0 seen).
End Verify.

Definition valid_identity (public : bytes) (nodeID : string) (epoch : Z) : bool :=
  (zlen public =? Dsse.PublicKeySize) && validText nodeID 256 && negb (epoch =? 0).

(** [opened] is [os.Open] succeeding on a regular file that can be inspected. *)
Definition VerifyRecords {A} (opened : bool) (file public : bytes) (nodeID : string) (epoch : Z) (visit : A -> VerifiedReceipt -> result A) (seen : A)
  : result (Head * A) :=
  require valid_identity public nodeID epoch else "evidence verification arguments are invalid" in
  require opened else "i/o error" in
  require zlen file <=? MaxLogBytes else "evidence log exceeds its limit" in
  let* s := verifyFileState visit false public nodeID epoch file seen in
  Ok (mkHead nodeID epoch (u64 (s_expected s - 1)) (s_previous s) (KeyID public), s_seen s).

Definition Verify (opened : bool) (file public : bytes) (nodeID : string) (epoch : Z) : result (option Receipt) :=
  require valid_identity public nodeID epoch else "evidence verification arguments are invalid" in
  require opened else "i/o error" in
  require zlen file <=? MaxLogBytes else "evidence log exceeds its limit" in
  let* s := verifyFileState (fun seen _ => Ok seen) false public nodeID epoch file tt in Ok (s_last s).

(** ** Format inspection *)

Record FormatSummary := mkSummary { Present : bool; FormatVersion : Z; Records : Z }.

Fixpoint inspect_loop (allowMixed : bool) (fuel : nat) (reader : bytes) (summary : FormatSummary) : result FormatSummary :=
  match fuel with
  | O => Err "out of fuel"
  | S fuel =>
      match readFrame reader with
      | EndOfFile => Ok summary
      | ReadError e => Err e
      | ReadFrame raw rest =>
          let* envelope := unmarshalEnvelope raw in
          let* receipt := unmarshalReceipt (Payload envelope) in
          require negb (negb allowMixed && negb (FormatVersion summary =? 0) && negb (FormatVersion summary =? Version receipt))
            else "evidence contains mixed receipt format versions" in
          inspect_loop allowMixed fuel rest
            (mkSummary (Present summary) (if FormatVersion summary <? Version receipt then Version receipt else FormatVersion summary)
               (u64 (Records summary + 1)))
      end
  end.

Definition inspectFormat (st : lstat) (opened same : bool) (file : bytes) (allowMixed : bool) : result FormatSummary :=
  match st with
  | NotExist => Err "evidence is missing"
  | StatError => Err "stat evidence"
  | Info regular perm =>
      require negb (negb regular || negb (owner_only perm) || (MaxLogBytes <? zlen file)) else "evidence must be a bounded regular file with mode 0600 or stricter" in
      require opened else "open evidence for format inspection" in
      require same else "evidence changed while it was opened for format inspection" in
      inspect_loop allowMixed (S (length file)) file (mkSummary true 0 0)
  end.
Definition InspectFormat (st : lstat) (opened same : bool) (file : bytes) : result FormatSummary := inspectFormat st opened same file false.
Definition InspectRequiredFormat (st : lstat) (opened same : bool) (file : bytes) : result FormatSummary := inspectFormat st opened same file true.

(** ** The open log *)

(** The file behind the path: its bytes and its modification time. *)
Record File := mkFile { content : bytes; mtime : Z }.

(** [is_open] is [file != nil]; a log open for validation has no private key. *)
Record Log := mkLog {
  is_open : bool; private : bytes; public : bytes; readOnly : bool; nodeID : string; epoch : Z; keyID : string; next : Z; lastHash : bytes;
  logBytes : Z; modTimeNano : Z; checkpoints : list logCheckpoint; indexes : activationIndexes }.

(** What the system answers to one call: the inspection of path and descriptor before, the reads, the write, the time stamp it leaves, and
    the inspection after it. *)
Record io := mkIO { path_ok : bool; reads_ok : bool; written : append_fault; stamp : Z; after_ok : bool }.

Definition validateEvidencePathFile (ok : bool) (file : File) : result unit :=
  require ok && negb (MaxLogBytes <? zlen (content file)) else "evidence must remain a bounded regular file with mode 0600 or stricter" in Ok tt.

(** *** Opening *)

(** One attempt of [openEvidenceForAppendAfterMissing]. *)
Inductive open_answer := Opened | Retry | OpenFailed.
Record attempt := mkAttempt { a_stat : lstat; a_open : open_answer; a_locked : bool; a_valid : bool; a_same : bool }.

(** The file opened, and whether it was created. *)
Fixpoint openEvidenceForAppend (attempts : list attempt) (file : File) : result (File * bool) :=
  match attempts with
  | [] => Err "evidence changed repeatedly while it was opened"
  | a :: attempts =>
      match a_stat a with
      | NotExist =>
          match a_open a with
          | Retry => openEvidenceForAppend attempts file
          | OpenFailed => Err "create evidence exclusively"
          | Opened =>
              let file := mkFile [] (mtime file) in
              require a_locked a else "evidence log is already open by another writer" in
              let* _ := validateEvidencePathFile (a_valid a) file in
              Ok (file, true)
          end
      | StatError => Err "stat evidence"
      | Info regular perm =>
          require regular && owner_only perm else "evidence must be a regular file with mode 0600 or stricter" in
          require zlen (content file) <=? MaxLogBytes else "evidence exceeds its limit" in
          match a_open a with
          | Retry => openEvidenceForAppend attempts file
          | OpenFailed => Err "open evidence"
          | Opened =>
              require a_locked a else "evidence log is already open by another writer" in
              let* _ := validateEvidencePathFile (a_valid a) file in
              require a_same a else "evidence changed while it was opened" in
              Ok (file, false)
          end
      end
  end.

Definition public_of (private : bytes) : bytes := drop 32 private.

(** [Open]: the file that now exists and the log. Three attempts are made. *)
Definition Open (path_given : bool) (attempts : list attempt) (chmod_ok inspected directory_synced unchanged : bool) (file : File)
    (private : bytes) (nodeID : string) (epoch : Z) : result (File * Log) :=
  require path_given && validText nodeID 256 && negb (epoch =? 0) else "evidence requires path, bounded node id, and positive epoch" in
  require zlen private =? Dsse.PrivateKeySize else "evidence private key has invalid length" in
  let* (file, created) := openEvidenceForAppend (take 3 attempts) file in
  require chmod_ok else "chmod evidence" in
  let* _ := validateEvidencePathFile inspected file in
  require negb created || directory_synced else "sync evidence directory" in
  let public := public_of private in
  let* s := verifyFileState index_receipt true public nodeID epoch (content file) newActivationIndexes in
  let* _ := validateEvidencePathFile unchanged file in
  require zlen (content file) =? s_total s else "evidence changed while its verified index was built" in
  Ok (file, mkLog true private public false nodeID epoch (KeyID public) (s_expected s) (s_previous s) (s_total s) (mtime file) (s_checkpoints s)
              (s_seen s)).

(** [OpenForValidation]: its log has no indexes of activations. *)
Definition OpenForValidation (path_given : bool) (st : lstat) (opened inspected same unchanged : bool) (file : File)
    (public : bytes) (nodeID : string) (epoch : Z) : result Log :=
  require path_given && valid_identity public nodeID epoch else "evidence validation requires path, public key, bounded node id, and positive epoch" in
  match st with
  | NotExist => Err "evidence is missing; initialize durable admission state before validation"
  | StatError => Err "stat evidence"
  | Info regular perm =>
      require regular && owner_only perm else "evidence must be a regular file with mode 0600 or stricter" in
      require zlen (content file) <=? MaxLogBytes else "evidence exceeds its limit" in
      require opened else "open evidence for validation" in
      let* _ := validateEvidencePathFile inspected file in
      require same else "evidence changed while it was opened for validation" in
      let* s := verifyFileState (fun seen _ => Ok seen) true public nodeID epoch (content file) tt in
      let* _ := validateEvidencePathFile unchanged file in
      require zlen (content file) =? s_total s else "evidence changed while its verified index was built" in
      Ok (mkLog true [] public true nodeID epoch (KeyID public) (s_expected s) (s_previous s) (s_total s) (mtime file) (s_checkpoints s)
            newActivationIndexes)
  end.

(** *** The checks before a call *)

Definition validateFileStateLocked (i : io) (file : File) (l : Log) : result unit :=
  let* _ := validateEvidencePathFile (path_ok i) file in
  require (zlen (content file) =? logBytes l) && (mtime file =? modTimeNano l) else "evidence log changed outside its append lock" in Ok tt.

(** [failClosedLocked] closes the descriptor; the error of closing joins the cause. *)
Definition failClosed (l : Log) : Log :=
  mkLog false (private l) (public l) (readOnly l) (nodeID l) (epoch l) (keyID l) (next l) (lastHash l) (logBytes l) (modTimeNano l) (checkpoints l)
    (indexes l).

(** The last sequence number of the log. *)
Definition localSequence (l : Log) : Z := u64 (next l - 1).

(** The replay of the segment after the last checkpoint; it returns the records scanned. *)
Fixpoint tail_loop (l : Log) (fuel : nat) (reader : bytes) (expected : Z) (previous : bytes) (offset scannedRecords : Z) : result Z :=
  match fuel with
  | O => Err "out of fuel"
  | S fuel =>
      if negb (expected <=? localSequence l) then
        require (offset =? logBytes l) && bool_decide (previous = lastHash l) else "evidence tail does not match its verified head" in
        Ok scannedRecords
      else
        match readFrame reader with
        | EndOfFile => Err "evidence tail ended before its verified head"
        | ReadError e => Err e
        | ReadFrame raw rest =>
            let offset := offset + (4 + zlen raw) in
            require negb ((logBytes l <? offset) || (MaxLogBytes <? offset)) else "evidence tail exceeds its verified byte boundary" in
            let* (_, current) := verifyEnvelope verify raw (public l) (nodeID l) (epoch l) expected previous in
            tail_loop l fuel rest (u64 (expected + 1)) current offset (scannedRecords + 1)
        end
  end.

Definition verifyTailLocked (i : io) (file : File) (l : Log) : result Z :=
  if localSequence l =? 0 then
    require (logBytes l =? 0) && (zlen (checkpoints l) =? 1) else "empty evidence log has inconsistent verified state" in Ok 0
  else
    let checkpointIndex := (localSequence l - 1) / checkpointStride in
    let* checkpoint := opt_ok (checkpoints l !! Z.to_nat checkpointIndex) "evidence tail checkpoint is missing" in
    require (KSequence checkpoint =? checkpointIndex * checkpointStride) && negb ((KOffset checkpoint <? 0) || (logBytes l <? KOffset checkpoint))
      else "evidence tail checkpoint is invalid" in
    require reads_ok i else "i/o error" in
    tail_loop l (S (length (content file))) (drop (Z.to_nat (KOffset checkpoint)) (content file)) (u64 (KSequence checkpoint + 1))
      (KChainHash checkpoint) (KOffset checkpoint) 0.

(** *** Appending *)

(** The envelope of the next receipt. *)
Definition next_receipt (l : Log) (event : Event) : Receipt :=
  mkReceipt (receiptVersionForEvent (EType event)) (nodeID l) (epoch l) (next l) (lastHash l) event.

(** The receipt, its envelope and the chain hash after it; every refusal leaves the file and the handle as they are. *)
Definition prepare_append (l : Log) (event : Event) : result (Receipt * bytes * bytes) :=
  let receipt := next_receipt l event in
  let* payload := marshalReceipt receipt in
  let pae := PreAuthEncoding PayloadType payload in
  let* raw := marshalEnvelope (mkEnvelope envelopeVersion PayloadType payload (keyID l) (sign (private l) pae)) in
  require zlen raw <=? MaxEnvelopeBytes else "evidence envelope exceeds size limit" in
  require negb (MaxLogBytes - (4 + zlen raw) <? logBytes l) else "evidence log would exceed size limit" in
  require negb ((Sequence receipt mod checkpointStride =? 0) && (maxCheckpointCount <=? zlen (checkpoints l)))
    else "evidence checkpoint index would exceed its bound" in
  Ok (receipt, raw, chainHash (PreviousHash receipt) pae).

(** The log after a receipt was written and synced. *)
Definition advance (l : Log) (file : File) (receipt : Receipt) (current : bytes) (expectedBytes : Z) : Log :=
  mkLog (is_open l) (private l) (public l) (readOnly l) (nodeID l) (epoch l) (keyID l) (u64 (next l + 1)) current expectedBytes (mtime file)
    (if Sequence receipt mod checkpointStride =? 0 then checkpoints l ++ [mkCheckpoint (Sequence receipt) current expectedBytes] else checkpoints l)
    (mkIndexes (begins (indexes l)) (marks (indexes l)) (applyActivationInvalidation (invalidations (indexes l)) receipt)).

(** The checks that [appendLocked] and [appendActivationMarker] start with: the log to go on with, or the one left and the error. *)
Definition writable (i : io) (file : File) (l : Log) : Log * result unit :=
  if negb (is_open l) then (l, Err "evidence log is closed") else
  if readOnly l then (l, Err "evidence log is open for validation only") else
  match validateFileStateLocked i file l with
  | Err e => (failClosed l, Err e)
  | Ok _ =>
      match verifyTailLocked i file l with
      | Err e => (failClosed l, Err e)
      | Ok _ => (l, Ok tt)
      end
  end.

Definition appendLocked (i : io) (file : File) (l : Log) (event : Event) : File * Log * result Receipt :=
  match writable i file l with
  | (l, Err e) => (file, l, Err e)
  | (l, Ok _) =>
      match prepare_append l event with
      | Err e => (file, l, Err e)
      | Ok (receipt, raw, current) =>
          let expectedBytes := logBytes l + (4 + zlen raw) in
          let '(result, bytes) := append_frame (written i) (be_encode 4 (zlen raw)) raw (content file) in
          let file := mkFile bytes (stamp i) in
          match result with
          | Err e => (file, failClosed l, Err e)
          | Ok _ =>
              match validateEvidencePathFile (after_ok i) file with
              | Err e => (file, failClosed l, Err e)
              | Ok _ =>
                  if negb (zlen (content file) =? expectedBytes) then (file, failClosed l, Err "evidence log changed during append")
                  else (file, advance l file receipt current expectedBytes, Ok receipt)
              end
          end
      end
  end.

Definition Append (i : io) (file : File) (l : Log) (event : Event) : File * Log * result Receipt :=
  match validateEvent event with
  | Err e => (file, l, Err e)
  | Ok _ =>
      if (EType event =? ActivationBegin) || (EType event =? ActivationCheckpoint)
      then (file, l, Err "activation markers require their idempotent append methods")
      else appendLocked i file l event
  end.

(** *** Activation markers *)

Definition activationInvalidatedLocked (l : Log) (key : activationMarkerKey) (begin : activationMarker) : bool :=
  let '(tenantID, runtimeRef, generation) := key in
  let runtimeState := state_at (invalidations (indexes l)) (tenantID, runtimeRef, generation, MCapsuleDigest begin, MPolicyDigest begin, false) in
  let stateState := state_at (invalidations (indexes l)) (tenantID, ""%string, generation, MCapsuleDigest begin, MPolicyDigest begin, true) in
  negb (invalidatedAt runtimeState =? 0) || negb (invalidatedAt stateState =? 0)
  || (negb (postStartCompensationStart runtimeState =? 0) && (postStartCompensationStart runtimeState <? postStartCompensationAt runtimeState)).

(** What the indexes say of a marker: a retained receipt to return again, nothing yet, or an error. *)
Definition retained_begin (l : Log) (event : Event) (candidate : activationMarker) : result (option Receipt) :=
  require closed_semantics event Allowed else "activation begin has invalid closed semantics" in
  match begins (indexes l) !! marker_key event with
  | Some existing => if same_marker existing candidate then Ok (Some (MReceipt existing)) else Err ErrActivationMarkerConflict
  | None => Ok None
  end.

Definition retained_checkpoint (l : Log) (event : Event) (candidate : activationMarker) : result (option Receipt) :=
  match begins (indexes l) !! marker_key event with
  | None => Err ErrActivationMarkerConflict
  | Some begin =>
      require same_activation begin candidate else ErrActivationMarkerConflict in
      require closed_semantics event Committed else "activation checkpoint has invalid closed semantics" in
      match marks (indexes l) !! marker_key event with
      | Some existing =>
          if same_marker existing candidate then
            require negb (activationInvalidatedLocked l (marker_key event) begin) else ErrActivationInvalidated in
            Ok (Some (MReceipt existing))
          else Err ErrActivationMarkerConflict
      | None => require negb (activationInvalidatedLocked l (marker_key event) begin) else ErrActivationInvalidated in Ok None
      end
  end.

(** [l.activationBegins[key] = candidate], or the checkpoints. *)
Definition retain_marker (l : Log) (expected : Z) (key : activationMarkerKey) (candidate : activationMarker) : Log :=
  let ix := indexes l in
  mkLog (is_open l) (private l) (public l) (readOnly l) (nodeID l) (epoch l) (keyID l) (next l) (lastHash l) (logBytes l) (modTimeNano l) (checkpoints l)
    (if expected =? ActivationBegin then mkIndexes (<[key := candidate]> (begins ix)) (marks ix) (invalidations ix)
     else mkIndexes (begins ix) (<[key := candidate]> (marks ix)) (invalidations ix)).

(** [before] answers the checks of this function and [i] those of [appendLocked], which repeats them. *)
Definition appendActivationMarker (before i : io) (file : File) (l : Log) (event : Event) (expected : Z) : File * Log * result Receipt :=
  match validateEvent event with
  | Err e => (file, l, Err e)
  | Ok _ =>
      if negb (EType event =? expected) then (file, l, Err "activation marker uses the wrong event type") else
      match writable before file l with
      | (l, Err e) => (file, l, Err e)
      | (l, Ok _) =>
          let candidate receipt := mkMarker (GrantID event) (CapsuleDigest event) (PolicyDigest event) (MetadataHash event) receipt in
          match (if expected =? ActivationBegin then retained_begin else retained_checkpoint) l event (candidate (next_receipt l event)) with
          | Err e => (file, l, Err e)
          | Ok (Some receipt) => (file, l, Ok receipt)
          | Ok None =>
              match appendLocked i file l event with
              | (file, l, Err e) => (file, l, Err e)
              | (file, l, Ok receipt) => (file, retain_marker l expected (marker_key event) (candidate receipt), Ok receipt)
              end
          end
      end
  end.

Definition AppendActivationBegin (before i : io) (file : File) (l : Log) (event : Event) : File * Log * result Receipt :=
  appendActivationMarker before i file l event ActivationBegin.
Definition AppendActivationCheckpoint (before i : io) (file : File) (l : Log) (event : Event) : File * Log * result Receipt :=
  appendActivationMarker before i file l event ActivationCheckpoint.

(** *** Reading the log *)

Definition Close (l : Log) : Log := failClosed l.

Definition NextSequence (l : Log) : Z := next l.

Definition CurrentHead (i : io) (file : File) (l : Log) : Log * result Head :=
  if negb (is_open l) then (l, Err "evidence log is closed") else
  if next l =? 0 then (l, Err "evidence log has an invalid in-memory coordinate") else
  match validateFileStateLocked i file l with
  | Err e => (failClosed l, Err e)
  | Ok _ =>
      match verifyTailLocked i file l with
      | Err e => (failClosed l, Err e)
      | Ok _ => (l, Ok (mkHead (nodeID l) (epoch l) (u64 (next l - 1)) (lastHash l) (keyID l)))
      end
  end.

Definition validateCoordinate (value : Coordinate) : result unit :=
  require negb ((CSequence value =? 0) && negb (bool_decide (CChainHash value = zeroHash))) else "evidence genesis coordinate must have a zero chain hash" in Ok tt.

(** The variables of the loop of [exportDelta]. *)
Record export := mkExport {
  x_found : bool; x_previous : bytes; x_expected : Z; x_scannedRecords : Z; x_scannedBytes : Z; x_total : Z; x_frames : list bytes; x_head : Coordinate }.

(** One frame read in the loop: [inl] goes on, [inr] leaves it. *)
Definition export_frame (l : Log) (after : Coordinate) (x : export) (raw : bytes) : checked (export + export) :=
  let scannedRecords := x_scannedRecords x + 1 in
  let scannedBytes := x_scannedBytes x + (4 + zlen raw) in
  if (logBytes l <? scannedBytes) || (MaxLogBytes <? scannedBytes) then Fatal "evidence log exceeds its verified boundary" else
  match verifyEnvelope verify raw (public l) (nodeID l) (epoch l) (x_expected x) (x_previous x) with
  | Err e => Fatal e
  | Ok (receipt, current) =>
      let passed found := mkExport found current (u64 (x_expected x + 1)) scannedRecords scannedBytes (x_total x) (x_frames x) (x_head x) in
      if Sequence receipt <=? CSequence after then
        if Sequence receipt =? CSequence after then
          if bool_decide (current = CChainHash after) then Good (inl (passed true)) else Refuse ErrDeltaCoordinate
        else Good (inl (passed (x_found x)))
      else if negb (x_found x) then Refuse ErrDeltaCoordinate
      else
        let frame := frameBytes raw in
        if MaxDeltaBytes - zlen frame <? x_total x then Good (inr (passed true))
        else Good (inl (mkExport true current (u64 (x_expected x + 1)) scannedRecords scannedBytes (x_total x + zlen frame)
                          (x_frames x ++ [frame]) (mkCoordinate (Sequence receipt) current)))
  end.

Fixpoint export_loop (l : Log) (after : Coordinate) (fuel : nat) (reader : bytes) (x : export) : checked export :=
  match fuel with
  | O => Fatal "out of fuel"
  | S fuel =>
      if negb (x_expected x <=? localSequence l) then Good x else
      if x_found x && (zlen (x_frames x) =? MaxDeltaRecords) then Good x else
      match readFrame reader with
      | EndOfFile => Fatal "evidence log ended before its verified head"
      | ReadError e => Fatal e
      | ReadFrame raw rest =>
          match export_frame l after x raw with
          | Good (inl x) => export_loop l after fuel rest x
          | Good (inr x) => Good x
          | Refuse e => Refuse e
          | Fatal e => Fatal e
          end
      end
  end.

Definition delta_of (l : Log) (c : Coordinate) (frames : list bytes) (more : bool) : Delta :=
  mkDelta frames (mkHead (nodeID l) (epoch l) (CSequence c) (CChainHash c) (keyID l)) more.

(** The delta and the number of records scanned. *)
Definition export_checked (i : io) (file : File) (l : Log) (after : Coordinate) : checked (Delta * Z) :=
  match validateFileStateLocked i file l with
  | Err e => Fatal e
  | Ok _ =>
      if localSequence l <? CSequence after then Refuse ErrDeltaCoordinate else
      if CSequence after =? localSequence l then
        if negb (bool_decide (CChainHash after = lastHash l)) then Refuse ErrDeltaCoordinate else
        match verifyTailLocked i file l with
        | Err e => Fatal e
        | Ok scannedRecords => Good (delta_of l (mkCoordinate (CSequence after) (lastHash l)) [] false, scannedRecords)
        end
      else
        let checkpointIndex := CSequence after / checkpointStride in
        match checkpoints l !! Z.to_nat checkpointIndex with
        | None => Fatal "evidence checkpoint index is inconsistent with the verified log"
        | Some checkpoint =>
            if negb (KSequence checkpoint =? checkpointIndex * checkpointStride) || (CSequence after <? KSequence checkpoint)
               || (KOffset checkpoint <? 0) || (logBytes l <? KOffset checkpoint)
            then Fatal "evidence checkpoint index contains an invalid entry" else
            if (KSequence checkpoint =? CSequence after) && negb (bool_decide (KChainHash checkpoint = CChainHash after))
            then Refuse ErrDeltaCoordinate else
            if negb (reads_ok i) then Fatal "i/o error" else
            match export_loop l after (S (length (content file))) (drop (Z.to_nat (KOffset checkpoint)) (content file))
                    (mkExport (KSequence checkpoint =? CSequence after) (KChainHash checkpoint) (u64 (KSequence checkpoint + 1)) 0 (KOffset checkpoint)
                       0 [] after) with
            | Fatal e => Fatal e
            | Refuse e => Refuse e
            | Good x =>
                if negb (x_found x) then Fatal "evidence checkpoint replay did not reach the requested coordinate"
                else Good (delta_of l (x_head x) (x_frames x) (CSequence (x_head x) <? localSequence l), x_scannedRecords x)
            end
        end
  end.

Definition exportDelta (i : io) (file : File) (l : Log) (after : Coordinate) : Log * result (Delta * Z) :=
  match validateCoordinate after with
  | Err e => (l, Err e)
  | Ok _ =>
      if negb (is_open l) then (l, Err "evidence log is closed") else
      match export_checked i file l after with
      | Good (delta, scannedRecords) => (l, Ok (delta, scannedRecords))
      | Refuse e => (l, Err e)
      | Fatal e => (failClosed l, Err e)
      end
  end.

Definition ExportDelta (i : io) (file : File) (l : Log) (after : Coordinate) : Log * result Delta :=
  match exportDelta i file l after with
  | (l, Ok (delta, _)) => (l, Ok delta)
  | (l, Err e) => (l, Err e)
  end.

(** ** Verifying a delta *)

Fixpoint check_frame_sizes (total : Z) (frames : list bytes) : result unit :=
  match frames with
  | [] => Ok tt
  | frame :: frames =>
      require negb ((zlen frame <? 5) || (MaxEnvelopeBytes + 4 <? zlen frame)) else "evidence delta contains an invalid frame size" in
      require negb (MaxDeltaBytes - zlen frame <? total) else "evidence delta exceeds its decoded bytes" in
      check_frame_sizes (total + zlen frame) frames
  end.

Section Delta.
Context {A : Type} (public : bytes) (nodeID : string) (epoch : Z) (tenantMember : string -> bool) (visit : A -> VerifiedReceipt -> result A).

Fixpoint verify_frames (frames : list bytes) (expected : Z) (previous : bytes) (head : Coordinate) (seen : A) : result (Coordinate * A) :=
  match frames with
  | [] => Ok (head, seen)
  | frame :: frames =>
      let* (receipt, current) := verifyCanonicalFrame verify frame public nodeID epoch expected previous in
      require tenantMember (TenantID (REvent receipt)) else "evidence delta record has unauthorized tenant" in
      let* seen := visit seen (mkVerified receipt current frame) in
      verify_frames frames (u64 (expected + 1)) current (mkCoordinate (Sequence receipt) current) seen
  end.

Definition VerifyDeltaRecords (frames : list bytes) (prior : Coordinate) (seen : A) : result (Head * A) :=
  require valid_identity public nodeID epoch else "evidence delta verification arguments are invalid" in
  let* _ := validateCoordinate prior in
  require zlen frames <=? MaxDeltaRecords else "evidence delta exceeds its records" in
  let* _ := check_frame_sizes 0 frames in
  require zlen frames <=? maxUint64 - CSequence prior else "evidence delta sequence would overflow" in
  let* (head, seen) := verify_frames frames (u64 (CSequence prior + 1)) (CChainHash prior) prior seen in
  Ok (mkHead nodeID epoch (CSequence head) (CChainHash head) (KeyID public), seen).
End Delta.

Definition VerifyDelta (frames : list bytes) (public : bytes) (nodeID : string) (epoch : Z) (prior : Coordinate) (tenantMember : string -> bool)
  : result Head :=
  let* (head, _) := VerifyDeltaRecords public nodeID epoch tenantMember (fun (_ : unit) _ => Ok tt) frames prior tt in Ok head.

End Ed25519.

End EvidenceLog.
