(* ===== verification/EvidenceChain.v ===== *)
(** * Chains of receipts

    Lemmas on [EvidenceLog]: a file is verified exactly when it is a chain of signed frames, what the loops of the log compute on a chain,
    and the invariant that ties an open log to the chain in its file. *)

From Stdlib Require Import Ascii.
From S2P Require Import Prelude GoText GoCrypto GoFS Dsse EvidenceReceipt EvidenceLog.
Import EvidenceReceipt EvidenceLog.

(** A lemma depends on the section hypotheses its proof uses. *)
Unset Default Proof Using.

Module EvidenceChain.

(** ** Chains *)

Definition bytes_of_chain (vs : list VerifiedReceipt) : bytes := concat (Frame <$> vs).

(** The hash after the last receipt. *)
Definition head_hash (previous : bytes) (vs : list VerifiedReceipt) : bytes := match last vs with Some v => ChainHash v | None => previous end.

Lemma head_hash_cons p v vs : head_hash p (v :: vs) = head_hash (ChainHash v) vs.
Proof. unfold head_hash. rewrite last_cons. by destruct (last vs). Qed.
Lemma head_hash_snoc p vs v : head_hash p (vs ++ [v]) = ChainHash v.
Proof. unfold head_hash. by rewrite last_snoc. Qed.
Lemma bytes_of_chain_app vs ws : bytes_of_chain (vs ++ ws) = bytes_of_chain vs ++ bytes_of_chain ws.
Proof. unfold bytes_of_chain. by rewrite fmap_app, concat_app. Qed.
Lemma bytes_of_chain_cons v vs : bytes_of_chain (v :: vs) = Frame v ++ bytes_of_chain vs.
Proof. done. Qed.

Lemma bytes_of_chain_one v : bytes_of_chain [v] = Frame v.
Proof. apply app_nil_r. Qed.

(** Running a fallible step over a list. *)
Fixpoint fold_ok {A B} (f : A -> B -> result A) (a : A) (l : list B) : result A :=
  match l with [] => Ok a | x :: l => let* a := f a x in fold_ok f a l end.

Lemma fold_ok_app {A B} (f : A -> B -> result A) a l k : fold_ok f a (l ++ k) = let* a := fold_ok f a l in fold_ok f a k.
Proof. revert a. induction l as [|x l IH]; intros a; [done|]. cbn [app fold_ok]. by destruct (f a x). Qed.
Lemma fold_ok_accept {B} (l : list B) : fold_ok (fun (u : unit) _ => Ok u) tt l = Ok tt.
Proof. by induction l. Qed.

(** The checkpoints of the receipts of [vs], the first of which starts at [offset]. *)
Fixpoint strides (offset : Z) (vs : list VerifiedReceipt) : list logCheckpoint :=
  match vs with
  | [] => []
  | v :: vs =>
      (if Sequence (VReceipt v) mod checkpointStride =? 0 then [mkCheckpoint (Sequence (VReceipt v)) (ChainHash v) (offset + zlen (Frame v))] else [])
      ++ strides (offset + zlen (Frame v)) vs
  end.

Lemma strides_app offset vs ws : strides offset (vs ++ ws) = strides offset vs ++ strides (offset + zlen (bytes_of_chain vs)) ws.
Proof.
  revert offset. induction vs as [|v vs IH]; intros offset; [cbn; by rewrite zlen_nil, Z.add_0_r|].
  cbn [app strides]. rewrite IH, <- app_assoc, bytes_of_chain_cons, zlen_app, Z.add_assoc. done.
Qed.

Section Chain.
Context (verify : bytes -> bytes -> bytes -> bool) (public : bytes) (nodeID : string) (epoch : Z).

(** [v] is the frame of an authentic receipt at a place of the chain. *)
Definition link (expected : Z) (previous : bytes) (v : VerifiedReceipt) : Prop :=
  exists raw, Frame v = frameBytes raw /\ frame_sized raw /\ verifyEnvelope verify raw public nodeID epoch expected previous = Ok (VReceipt v, ChainHash v).

Fixpoint chained (expected : Z) (previous : bytes) (vs : list VerifiedReceipt) : Prop :=
  match vs with [] => True | v :: vs => link expected previous v /\ chained (expected + 1) (ChainHash v) vs end.

Lemma link_facts expected previous v : link expected previous v ->
  Sequence (VReceipt v) = expected /\ PreviousHash (VReceipt v) = previous /\ ChainHash v = chainHash previous (signed_bytes (VReceipt v)) /\
  typed (VReceipt v) /\ checked_receipt (VReceipt v) = true /\ NodeID (VReceipt v) = nodeID /\ Epoch (VReceipt v) = epoch /\
  5 <= zlen (Frame v) <= MaxEnvelopeBytes + 4.
Proof.
  intros (raw & Hf & [Hs1 Hs2] & H). apply verifyEnvelope_exact in H as [(Ht & Hc & Hn & He & Hq & Hp & _) Hh].
  rewrite Hf, zlen_frame. split_and!; try done; lia.
Qed.

Lemma chained_app expected previous vs ws :
  chained expected previous (vs ++ ws) <-> chained expected previous vs /\ chained (expected + zlen vs) (head_hash previous vs) ws.
Proof.
  revert expected previous. induction vs as [|v vs IH]; intros expected previous; [rewrite zlen_nil, Z.add_0_r; cbn; tauto|].
  cbn [app chained]. rewrite IH, zlen_cons, head_hash_cons. replace (expected + 1 + zlen vs) with (expected + (1 + zlen vs)) by lia. tauto.
Qed.

Lemma chained_size expected previous vs : chained expected previous vs -> 5 * zlen vs <= zlen (bytes_of_chain vs).
Proof.
  revert expected previous. induction vs as [|v vs IH]; intros expected previous; [done|]. intros [Hl Hc].
  apply link_facts in Hl. apply IH in Hc. rewrite bytes_of_chain_cons, zlen_app, zlen_cons. lia.
Qed.

Lemma chained_sequence expected previous vs i v : chained expected previous vs -> vs !! i = Some v -> Sequence (VReceipt v) = expected + Z.of_nat i.
Proof.
  revert expected previous i. induction vs as [|w vs IH]; intros expected previous [|i]; [done..| |].
  - intros [Hl _] [= ->]. apply link_facts in Hl. lia.
  - intros [_ Hc] Hi. rewrite (IH _ _ _ Hc Hi). lia.
Qed.

Lemma chained_raws expected previous vs : chained expected previous vs ->
  exists raws, Forall frame_sized raws /\ Frame <$> vs = frameBytes <$> raws.
Proof.
  revert expected previous. induction vs as [|v vs IH]; intros expected previous; [by exists []|]. intros [(raw & Hf & Hs & _) Hc].
  apply IH in Hc as (raws & Hr & Hfs). exists (raw :: raws). rewrite !fmap_cons, Hf, Hfs. split; [by constructor | done].
Qed.

(** ** The loop of verification *)

Section Loop.
Context {A : Type} (visit : A -> VerifiedReceipt -> result A) (buildIndex : bool).

Lemma verify_loop_iff fuel reader (s s' : scan A) : (length reader < fuel)%nat ->
  verify_loop verify visit buildIndex public nodeID epoch fuel reader s = Ok s' <->
  exists raws tail, reader = concat (frameBytes <$> raws) ++ tail /\ Forall frame_sized raws /\ readFrame tail = EndOfFile /\
    fold_ok (verify_record verify visit buildIndex public nodeID epoch) s raws = Ok s'.
Proof.
  revert reader s. induction fuel as [|fuel IH]; intros reader s Hf; [lia|]. cbn [verify_loop]. split.
  - destruct (readFrame reader) as [raw rest| |e] eqn:E; [|intros [= <-]; by exists [], reader|done].
    apply readFrame_inv in E as [-> Hs]. intros H. step H.
    apply IH in H as (raws & tail & -> & Hr & Ht & H).
    + exists (raw :: raws), tail. rewrite fmap_cons. cbn [concat]. rewrite <- app_assoc. split_and!; try done; [by constructor|]. cbn [fold_ok]. by rewrite E.
    + rewrite length_app in Hf. pose proof (zlen_frame raw) as Hz. unfold zlen in Hz. lia.
  - intros (raws & tail & -> & Hr & Ht & H). destruct raws as [|raw raws].
    + cbn [fmap list_fmap concat app] in *. rewrite Ht. exact H.
    + apply Forall_cons in Hr as [Hs Hr]. rewrite fmap_cons in *. cbn [concat] in *. rewrite <- app_assoc in *. rewrite readFrame_frame by done.
      cbn [fold_ok] in H. step H. apply IH; [|by exists raws, tail].
      rewrite length_app in Hf. pose proof (zlen_frame raw) as Hz. unfold zlen in Hz. lia.
Qed.

(** What the loop holds after a chain. *)
Definition scanned (s : scan A) (vs : list VerifiedReceipt) (seen : A) : scan A :=
  mkScan (s_expected s + zlen vs) (head_hash (s_previous s) vs) (match last vs with Some v => Some (VReceipt v) | None => s_last s end)
    (s_checkpoints s ++ if buildIndex then strides (s_total s) vs else []) (s_total s + zlen (bytes_of_chain vs)) seen.

Lemma scanned_nil s : scanned s [] (s_seen s) = s.
Proof. destruct s. unfold scanned, head_hash. cbn. rewrite !Z.add_0_r. f_equal. by destruct buildIndex; rewrite app_nil_r. Qed.

(** The checkpoint index is never full: a frame has five bytes. *)
Definition scan_wf (s : scan A) : Prop :=
  1 <= s_expected s /\ 5 * (s_expected s - 1) <= s_total s <= MaxLogBytes /\ zlen (s_checkpoints s) <= 1 + (s_expected s - 1) / checkpointStride.

Lemma index_room n total : 0 <= n -> 5 * n <= total <= MaxLogBytes -> 1 + n / checkpointStride < maxCheckpointCount.
Proof.
  intros H0 H. change maxCheckpointCount with 104859. change checkpointStride with 128. change MaxLogBytes with 67108864 in *.
  assert (n / 128 <= 13421772 / 128) by (apply Z.div_le_mono; lia). change (13421772 / 128) with 104857 in *. lia.
Qed.

Lemma verify_record_iff s raw s' : scan_wf s -> frame_sized raw ->
  verify_record verify visit buildIndex public nodeID epoch s raw = Ok s' <->
  exists v seen, Frame v = frameBytes raw /\ link (s_expected s) (s_previous s) v /\ s_total s + zlen (Frame v) <= MaxLogBytes /\
    visit (s_seen s) v = Ok seen /\ s' = scanned s [v] seen.
Proof.
  intros (H1 & H2 & H3) Hs. unfold verify_record.
  assert (Hroom : zlen (s_checkpoints s) < maxCheckpointCount) by (pose proof (index_room (s_expected s - 1) (s_total s)); lia).
  assert (Hu : u64 (s_expected s + 1) = s_expected s + 1) by (apply u64_small; unfold in_u64; change MaxLogBytes with 67108864 in *; lia).
  rewrite (proj2 (Z.leb_gt maxCheckpointCount _)) by lia. cbn [negb]. rewrite Hu.
  assert (Hsc : forall v seen, Frame v = frameBytes raw -> link (s_expected s) (s_previous s) v ->
    scanned s [v] seen = mkScan (s_expected s + 1) (ChainHash v) (Some (VReceipt v))
      (if buildIndex && (Sequence (VReceipt v) mod checkpointStride =? 0) then s_checkpoints s ++ [mkCheckpoint (Sequence (VReceipt v)) (ChainHash v) (s_total s + (4 + zlen raw))] else s_checkpoints s)
      (s_total s + (4 + zlen raw)) seen).
  { intros v seen Hf Hl. unfold scanned, head_hash, bytes_of_chain. cbn [last fmap list_fmap concat strides]. rewrite !app_nil_r, Hf, zlen_frame.
    f_equal. destruct buildIndex; cbn [andb]; [destruct (_ =? 0)|]; by rewrite ?app_nil_r. }
  split.
  - intros H. step H. destruct (verifyEnvelope _ _ _ _ _ _ _) as [[r h]|] eqn:Ev; [|done].
    set (v := mkVerified r h (frameBytes raw)) in *. assert (Hl : link (s_expected s) (s_previous s) v) by (exists raw; done).
    destruct (visit (s_seen s) v) as [seen|] eqn:Evis;
      [|by destruct (buildIndex && _) in H].
    exists v, seen. breflect. split_and!; try done; [subst v; cbn [Frame]; rewrite zlen_frame; lia|].
    rewrite (Hsc v seen) by done. change (VReceipt v) with r. change (ChainHash v) with h. by destruct (buildIndex && _); injection H as <-.
  - intros (v & seen & Hf & Hl & Ht & Hv & ->). assert (Hl' := Hl). destruct Hl' as (raw' & Hf' & _ & Ev). rewrite Hf in Hf'. apply frameBytes_inj in Hf' as <-.
    rewrite Hf, zlen_frame in Ht. rewrite (proj2 (Z.leb_le _ _)) by lia. rewrite Ev, (Hsc v seen) by done.
    assert (mkVerified (VReceipt v) (ChainHash v) (frameBytes raw) = v) as E by (rewrite <- Hf; by destruct v).
    destruct (_ && _); by rewrite E, Hv.
Qed.

Lemma scanned_wf s v seen : scan_wf s -> link (s_expected s) (s_previous s) v -> s_total s + zlen (Frame v) <= MaxLogBytes -> scan_wf (scanned s [v] seen).
Proof.
  intros (H1 & H2 & H3) Hl Ht. apply link_facts in Hl as (Hq & _ & _ & _ & _ & _ & _ & Hz). unfold scan_wf, scanned, bytes_of_chain.
  cbn [s_expected s_total s_checkpoints fmap list_fmap concat]. rewrite app_nil_r, zlen_cons, zlen_nil, Z.add_0_r. split_and!; try lia.
  assert (Hm : (s_expected s - 1) / checkpointStride <= (s_expected s + 1 - 1) / checkpointStride) by (apply Z.div_le_mono; unfold checkpointStride, MaxDeltaRecords; lia).
  rewrite zlen_app. destruct buildIndex; [|rewrite zlen_nil; lia]. cbn [strides]. rewrite app_nil_r, Hq.
  destruct (Z.eqb_spec (s_expected s mod checkpointStride) 0) as [E | E]; [|rewrite zlen_nil; lia]. rewrite zlen_cons, zlen_nil.
  change checkpointStride with 128 in *. pose proof (Z.div_mod (s_expected s) 128). 
  replace (s_expected s + 1 - 1) with (s_expected s) by lia. assert ((s_expected s - 1) / 128 + 1 <= s_expected s / 128); [|lia].
  rewrite <- Z.div_add by lia. replace (s_expected s - 1 + 1 * 128) with (127 + (s_expected s / 128) * 128) by lia. rewrite Z.div_add by lia. done.
Qed.

Lemma scanned_cons s v vs seen' seen : scanned (scanned s [v] seen') vs seen = scanned s (v :: vs) seen.
Proof.
  assert (Hz : zlen (bytes_of_chain [v]) = zlen (Frame v)) by by rewrite bytes_of_chain_one.
  unfold scanned. cbn [s_expected s_previous s_last s_checkpoints s_total]. rewrite Hz, bytes_of_chain_cons, zlen_app. f_equal.
  - rewrite !zlen_cons, zlen_nil. lia.
  - by rewrite (head_hash_cons _ v vs).
  - rewrite (last_cons v vs). cbn [last]. by destruct (last vs).
  - destruct buildIndex; [|by rewrite !app_nil_r]. cbn [strides]. by rewrite app_nil_r, <- app_assoc.
  - lia.
Qed.

Lemma fold_record_iff raws s s' : scan_wf s -> Forall frame_sized raws ->
  fold_ok (verify_record verify visit buildIndex public nodeID epoch) s raws = Ok s' <->
  exists vs seen, Frame <$> vs = frameBytes <$> raws /\ chained (s_expected s) (s_previous s) vs /\ s_total s + zlen (bytes_of_chain vs) <= MaxLogBytes /\
    fold_ok visit (s_seen s) vs = Ok seen /\ s' = scanned s vs seen.
Proof.
  intros Hwf Hr. revert s Hwf. induction Hr as [|raw raws Hs Hr IH]; intros s Hwf.
  - cbn [fold_ok]. split.
    + intros [= <-]. exists [], (s_seen s). destruct Hwf as (_ & ? & _). split_and!; try done; [change (bytes_of_chain []) with (@nil ascii); rewrite zlen_nil; lia | by rewrite scanned_nil].
    + intros (vs & seen & Hf & _ & _ & Hv & ->). destruct vs; [|done]. injection Hv as <-. by rewrite scanned_nil.
  - cbn [fold_ok]. split.
    + intros H. step H. apply verify_record_iff in E as (v & seen & Hf & Hl & Ht & Hv & ->); [|done..].
      apply IH in H as (vs & seen' & Hfs & Hc & Ht' & Hvs & ->); [|by apply scanned_wf].
      exists (v :: vs), seen'. rewrite scanned_cons, !fmap_cons, Hf, Hfs, bytes_of_chain_cons, zlen_app. cbn [chained fold_ok]. rewrite Hv.
      cbn [scanned s_expected s_previous s_total] in *. rewrite bytes_of_chain_one in Ht'.
      rewrite zlen_cons, zlen_nil in Hc. split_and!; try done; lia.
    + intros (vs & seen & Hfs & Hc & Ht & Hv & ->). destruct vs as [|v vs]; [done|]. rewrite !fmap_cons in Hfs. injection Hfs as Hf Hfs.
      destruct Hc as [Hl Hc]. rewrite bytes_of_chain_cons, zlen_app in Ht. pose proof (zlen_nonneg (bytes_of_chain vs)). cbn [fold_ok] in Hv. step Hv.
      rewrite (proj2 (verify_record_iff s raw (scanned s [v] a) Hwf Hs)) by (exists v, a; split_and!; done || lia).
      apply IH; [apply scanned_wf; done || lia|]. exists vs, seen. rewrite scanned_cons. split_and!; try done.
      cbn [scanned s_total]. rewrite bytes_of_chain_one. lia.
Qed.

Lemma verifyFileState_iff file seen0 s :
  verifyFileState verify visit buildIndex public nodeID epoch file seen0 = Ok s <->
  exists vs tail seen, file = bytes_of_chain vs ++ tail /\ readFrame tail = EndOfFile /\ chained 1 zeroHash vs /\
    zlen (bytes_of_chain vs) <= MaxLogBytes /\ fold_ok visit seen0 vs = Ok seen /\
    s = mkScan (1 + zlen vs) (head_hash zeroHash vs) (VReceipt <$> last vs)
          (if buildIndex then mkCheckpoint 0 zeroHash 0 :: strides 0 vs else []) (zlen (bytes_of_chain vs)) seen.
Proof.
  unfold verifyFileState. set (s0 := mkScan 1 zeroHash None _ 0 seen0).
  assert (Hwf : scan_wf s0) by (unfold scan_wf; subst s0; cbn [s_expected s_total s_checkpoints]; split_and!; [lia | cbn; lia | done | by destruct buildIndex]).
  assert (Hsc : forall vs seen, scanned s0 vs seen = mkScan (1 + zlen vs) (head_hash zeroHash vs) (VReceipt <$> last vs)
    (if buildIndex then mkCheckpoint 0 zeroHash 0 :: strides 0 vs else []) (zlen (bytes_of_chain vs)) seen).
  { intros vs seen. unfold scanned. subst s0. cbn [s_expected s_previous s_last s_checkpoints s_total]. f_equal; by destruct buildIndex. }
  rewrite verify_loop_iff by lia. split.
  - intros (raws & tail & -> & Hr & Ht & H). apply fold_record_iff in H as (vs & seen & Hf & Hc & Hz & Hv & ->); [|done..].
    exists vs, tail, seen. rewrite Hsc. unfold bytes_of_chain at 1. rewrite Hf. done.
  - intros (vs & tail & seen & -> & Ht & Hc & Hz & Hv & ->). destruct (chained_raws _ _ _ Hc) as (raws & Hr & Hf).
    exists raws, tail. unfold bytes_of_chain at 1. rewrite Hf. split_and!; try done. apply fold_record_iff; [done..|].
    exists vs, seen. rewrite Hsc. done.
Qed.
End Loop.

(** ** Checkpoints *)

Lemma strides_snoc vs v : chained 1 zeroHash (vs ++ [v]) -> strides 0 (vs ++ [v]) = strides 0 vs ++
  (if (zlen vs + 1) mod checkpointStride =? 0 then [mkCheckpoint (zlen vs + 1) (ChainHash v) (zlen (bytes_of_chain (vs ++ [v])))] else []).
Proof.
  rewrite chained_app. intros [_ [Hl _]]. apply link_facts in Hl as [Hq _]. rewrite strides_app. cbn [strides]. rewrite app_nil_r, Hq, Z.add_comm, bytes_of_chain_app, zlen_app, bytes_of_chain_one. done.
Qed.

Lemma stride_step n : 0 <= n -> (n + 1) / checkpointStride = n / checkpointStride + (if (n + 1) mod checkpointStride =? 0 then 1 else 0) /\
  ((n + 1) mod checkpointStride = 0 -> n + 1 = checkpointStride * ((n + 1) / checkpointStride)).
Proof.
  intros Hn. change checkpointStride with 128. split; [|pose proof (Z.div_mod (n + 1) 128); lia].
  pose proof (Z.div_mod n 128 ltac:(lia)). pose proof (Z.mod_pos_bound n 128 ltac:(lia)).
  pose proof (Z.div_mod (n + 1) 128 ltac:(lia)). pose proof (Z.mod_pos_bound (n + 1) 128 ltac:(lia)). destruct (Z.eqb_spec ((n + 1) mod 128) 0); lia.
Qed.

Lemma strides_spec vs : chained 1 zeroHash vs -> zlen (strides 0 vs) = zlen vs / checkpointStride /\
  forall j, 1 <= j -> checkpointStride * j <= zlen vs ->
    strides 0 vs !! Z.to_nat (j - 1) = Some (mkCheckpoint (checkpointStride * j) (head_hash zeroHash (take (Z.to_nat (checkpointStride * j)) vs))
      (zlen (bytes_of_chain (take (Z.to_nat (checkpointStride * j)) vs)))).
Proof.
  induction vs as [|v vs IH] using rev_ind; intros Hc; [split; [done|]; intros j H1 H2; change (zlen []) with 0 in H2; unfold checkpointStride, MaxDeltaRecords in H2; lia|].
  assert (Hc' := Hc). apply chained_app in Hc' as [Hc' _]. destruct (IH Hc') as [IHl IHj]. rewrite (strides_snoc _ _ Hc).
  assert (Hz : zlen (vs ++ [v]) = zlen vs + 1) by (rewrite zlen_app; done). pose proof (zlen_nonneg vs) as Hnn. destruct (stride_step (zlen vs) Hnn) as [Hdiv Hmod].
  split; [rewrite zlen_app, IHl, Hz, Hdiv; by destruct (_ =? 0)|]. intros j Hj Hle. rewrite Hz in Hle.
  assert (Hk : (Z.to_nat (checkpointStride * j) <= length vs)%nat \/ checkpointStride * j = zlen vs + 1) by (unfold zlen in *; lia).
  assert (Hlen : Z.of_nat (length (strides 0 vs)) = zlen vs / checkpointStride) by exact IHl.
  destruct Hk as [Hk | Hk].
  - rewrite take_app_le by done. rewrite lookup_app_l; [apply IHj; [done | unfold zlen; lia]|].
    assert (j <= zlen vs / checkpointStride) by (apply Z.div_le_lower_bound; unfold checkpointStride, MaxDeltaRecords, zlen in *; lia). lia.
  - assert (E : (zlen vs + 1) mod checkpointStride = 0) by (rewrite <- Hk, Z.mul_comm; by apply Z.mod_mul). rewrite E. cbn [Z.eqb].
    rewrite E in Hdiv. cbn [Z.eqb] in Hdiv. assert ((zlen vs + 1) / checkpointStride = j) by (rewrite <- Hk, Z.mul_comm; by apply Z.div_mul).
    rewrite lookup_app_r by lia. replace (Z.to_nat (j - 1) - length (strides 0 vs))%nat with 0%nat by lia. cbn [lookup list_lookup].
    rewrite take_ge by (rewrite length_app; cbn; unfold zlen in *; lia). by rewrite Hk, head_hash_snoc.
Qed.
End Chain.

(** ** The invariant of an open log *)

Section Log.
Context (sign : bytes -> bytes -> bytes) (verify : bytes -> bytes -> bytes -> bool).

(** [f] is the chain [vs], and the handle holds what reading it gives. *)
Record holds (l : Log) (f : bytes) (vs : list VerifiedReceipt) : Prop := {
  h_file : f = bytes_of_chain vs;
  h_chain : chained verify (public l) (nodeID l) (epoch l) 1 zeroHash vs;
  h_size : zlen f <= MaxLogBytes;
  h_next : next l = 1 + zlen vs;
  h_hash : lastHash l = head_hash zeroHash vs;
  h_bytes : logBytes l = zlen f;
  h_checkpoints : checkpoints l = mkCheckpoint 0 zeroHash 0 :: strides 0 vs }.

(** The identity of the log is one that [Open] accepts. *)
Definition identified (l : Log) : Prop :=
  zlen (private l) = Dsse.PrivateKeySize /\ public l = public_of (private l) /\ keyID l = KeyID (public l) /\ validText (nodeID l) 256 = true /\ in_u64 (epoch l) /\ epoch l <> 0.

Lemma holds_count l f vs : holds l f vs -> 5 * zlen vs <= MaxLogBytes.
Proof. intros H. pose proof (chained_size _ _ _ _ _ _ _ (h_chain _ _ _ H)). pose proof (h_size _ _ _ H). rewrite (h_file _ _ _ H) in *. lia. Qed.

Lemma holds_local l f vs : holds l f vs -> localSequence l = zlen vs.
Proof.
  intros H. unfold localSequence. rewrite (h_next _ _ _ H). pose proof (holds_count _ _ _ H). pose proof (zlen_nonneg vs).
  rewrite u64_small; [lia|]. unfold in_u64. change MaxLogBytes with 67108864 in *. lia.
Qed.

Lemma next_u64 l f vs n : holds l f vs -> 0 <= n <= zlen vs -> u64 (n + 1) = n + 1.
Proof. intros H Hn. pose proof (holds_count _ _ _ H). apply u64_small. unfold in_u64. change MaxLogBytes with 67108864 in *. lia. Qed.

(** The checkpoint at a multiple of the stride. *)
Lemma holds_checkpoint l f vs j : holds l f vs -> 0 <= j -> checkpointStride * j <= zlen vs ->
  checkpoints l !! Z.to_nat j = Some (mkCheckpoint (checkpointStride * j) (head_hash zeroHash (take (Z.to_nat (checkpointStride * j)) vs))
    (zlen (bytes_of_chain (take (Z.to_nat (checkpointStride * j)) vs)))).
Proof.
  intros H Hj Hle. rewrite (h_checkpoints _ _ _ H). destruct (decide (j = 0)) as [-> | Hne]; [by rewrite Z.mul_0_r|].
  destruct (strides_spec _ _ _ _ _ (h_chain _ _ _ H)) as [_ Hs]. replace (Z.to_nat j) with (S (Z.to_nat (j - 1))) by lia. apply Hs; lia.
Qed.

Lemma holds_split l f vs n : holds l f vs -> (n <= length vs)%nat ->
  chained verify (public l) (nodeID l) (epoch l) (Z.of_nat n + 1) (head_hash zeroHash (take n vs)) (drop n vs) /\
  drop (Z.to_nat (zlen (bytes_of_chain (take n vs)))) f = bytes_of_chain (drop n vs) /\
  zlen (bytes_of_chain (take n vs)) + zlen (bytes_of_chain (drop n vs)) = logBytes l.
Proof.
  intros H Hn. assert (E : bytes_of_chain vs = bytes_of_chain (take n vs) ++ bytes_of_chain (drop n vs)) by (by rewrite <- bytes_of_chain_app, take_drop).
  pose proof (h_chain _ _ _ H) as Hc. rewrite <- (take_drop n vs), chained_app in Hc. destruct Hc as [_ Hc]. split_and!.
  - replace (Z.of_nat n + 1) with (1 + zlen (take n vs)) by (unfold zlen; rewrite length_take; lia). exact Hc.
  - rewrite (h_file _ _ _ H), E. apply drop_app_length'. unfold zlen. lia.
  - rewrite (h_bytes _ _ _ H), (h_file _ _ _ H), E, zlen_app. done.
Qed.

(** *** The tail *)

Lemma tail_loop_ok l f vs fuel ws expected previous offset n : holds l f vs -> chained verify (public l) (nodeID l) (epoch l) expected previous ws ->
  (length ws < fuel)%nat -> 0 < expected -> expected + zlen ws = 1 + zlen vs -> offset + zlen (bytes_of_chain ws) = logBytes l ->
  head_hash previous ws = lastHash l -> tail_loop verify l fuel (bytes_of_chain ws) expected previous offset n = Ok (n + zlen ws).
Proof.
  intros H. revert ws expected previous offset n. induction fuel as [|fuel IH]; intros ws expected previous offset n Hc Hf He Hx Ho Hh; [lia|].
  cbn [tail_loop]. rewrite (holds_local _ _ _ H). destruct ws as [|v ws].
  - rewrite zlen_nil in *. change (bytes_of_chain []) with (@nil ascii) in Ho. rewrite zlen_nil in Ho.
    rewrite (proj2 (Z.leb_gt _ _)), (proj2 (Z.eqb_eq _ _)), bool_decide_true by (done || lia). cbn [negb andb]. by rewrite Z.add_0_r.
  - destruct Hc as [(raw & Hfr & Hs & Hv) Hc]. pose proof (zlen_nonneg ws) as Hnn. rewrite zlen_cons in *. rewrite (proj2 (Z.leb_le _ _)) by lia. cbn [negb].
    rewrite bytes_of_chain_cons, Hfr, readFrame_frame by done. rewrite bytes_of_chain_cons, zlen_app, Hfr, zlen_frame in Ho.
    pose proof (zlen_nonneg (bytes_of_chain ws)). pose proof (h_size _ _ _ H). pose proof (h_bytes _ _ _ H).
    rewrite !(proj2 (Z.ltb_ge _ _)) by lia. cbn [orb negb]. rewrite Hv, (next_u64 l f vs expected H) by lia.
    rewrite IH; [f_equal; lia | done | cbn in Hf; lia | lia | lia | lia | by rewrite head_hash_cons in Hh].
Qed.

Definition inspects (i : io) (file : File) (l : Log) : Prop := path_ok i = true /\ reads_ok i = true /\ mtime file = modTimeNano l.

Lemma bytes_length public nodeID epoch expected previous vs : chained verify public nodeID epoch expected previous vs -> (length vs <= length (bytes_of_chain vs))%nat.
Proof. intros H%chained_size. unfold zlen in H. lia. Qed.

Lemma verifyTail_ok i file l vs : holds l (content file) vs -> reads_ok i = true ->
  verifyTailLocked verify i file l = Ok (zlen vs - checkpointStride * ((zlen vs - 1) / checkpointStride)) \/ (vs = [] /\ verifyTailLocked verify i file l = Ok 0).
Proof.
  intros H Hr. unfold verifyTailLocked. rewrite (holds_local _ _ _ H). destruct (Z.eqb_spec (zlen vs) 0) as [E | E].
  - right. assert (vs = []) as -> by (by apply nil_length_inv, Nat2Z.inj). split; [done|].
    rewrite (h_bytes _ _ _ H), (h_file _ _ _ H), (h_checkpoints _ _ _ H). done.
  - left. pose proof (zlen_nonneg vs). set (j := (zlen vs - 1) / checkpointStride).
    assert (Hj : 0 <= j /\ checkpointStride * j <= zlen vs - 1).
    { subst j. split; [apply Z.div_pos; unfold checkpointStride, MaxDeltaRecords; lia | apply Z.mul_div_le; done]. }
    rewrite (holds_checkpoint _ _ _ j H) by lia. cbn [opt_ok KSequence KOffset KChainHash]. set (n := Z.to_nat (checkpointStride * j)).
    destruct (holds_split _ _ _ n H ltac:(unfold zlen in *; lia)) as (Hc & Hd & Hz).
    pose proof (zlen_nonneg (bytes_of_chain (take n vs))). pose proof (zlen_nonneg (bytes_of_chain (drop n vs))).
    rewrite Z.mul_comm, Z.eqb_refl, !(proj2 (Z.ltb_ge _ _)) by lia. cbn [negb orb andb]. rewrite Hr, Hd.
    assert (Hn : Z.of_nat n = checkpointStride * j) by (subst n; apply Z2Nat.id; change checkpointStride with 128; lia).
    rewrite ?(Z.mul_comm j), (next_u64 l _ vs _ H) by lia.
    rewrite (tail_loop_ok l (content file) vs _ (drop n vs)); [| done | by rewrite <- Hn | | lia | | lia |].
    + f_equal. unfold zlen in *. rewrite length_drop. lia.
    + pose proof (bytes_length _ _ _ _ _ _ (h_chain _ _ _ H)). rewrite (h_file _ _ _ H), length_drop. lia.
    + unfold zlen in *. rewrite length_drop. lia.
    + rewrite (h_hash _ _ _ H). rewrite <- (take_drop n vs) at 3. unfold head_hash. rewrite last_app. by destruct (last (drop n vs)).
Qed.

Lemma verifyTail_bound i file l vs n : holds l (content file) vs -> verifyTailLocked verify i file l = Ok n -> 0 <= n <= checkpointStride.
Proof.
  intros H Hn. assert (Hr : reads_ok i = true \/ vs = []).
  { destruct (decide (vs = [])) as [-> | Hne]; [by right|]. left. unfold verifyTailLocked in Hn. rewrite (holds_local _ _ _ H) in Hn.
    rewrite (proj2 (Z.eqb_neq _ _)) in Hn by (intros E; by apply Hne, nil_length_inv, Nat2Z.inj). by steps Hn. }
  destruct Hr as [Hr | ->].
  - destruct (verifyTail_ok i file l vs H Hr) as [E | [_ E]]; rewrite E in Hn; injection Hn as <-; [|unfold checkpointStride, MaxDeltaRecords; lia].
    pose proof (Z.div_mod (zlen vs - 1) checkpointStride ltac:(done)). pose proof (Z.mod_pos_bound (zlen vs - 1) checkpointStride ltac:(done)). lia.
  - unfold verifyTailLocked in Hn. rewrite (holds_local _ _ _ H) in Hn. change (zlen [] =? 0) with true in Hn. cbv iota in Hn. step Hn. injection Hn as <-. done.
Qed.
End Log.

End EvidenceChain.
