(* ===== verification/EvidenceSafety.v ===== *)
(** * What the evidence log guarantees

    Theorems on [EvidenceLog]: a log reopens to what its handle held, whatever calls were made and whatever failed; a head pins the history
    before it; the deltas a log exports verify, and deliver the whole log. *)

From Stdlib Require Import Ascii.
From S2P Require Import Prelude GoText GoRune GoCrypto GoFS Dsse EvidenceReceipt EvidenceLog EvidenceChain.
Import EvidenceReceipt EvidenceLog EvidenceChain.

(** A lemma depends on the section hypotheses its proof uses. *)
Unset Default Proof Using.

Module EvidenceSafety.

Section Ed25519.
Context (sign : bytes -> bytes -> bytes) (verify : bytes -> bytes -> bytes -> bool).

(** ** Opening *)

Definition indexed (l : Log) (vs : list VerifiedReceipt) : Prop := fold_ok index_receipt newActivationIndexes vs = Ok (indexes l).

(** An open log that can append. *)
Record live (l : Log) (file : File) (vs : list VerifiedReceipt) : Prop := {
  v_holds : holds verify l (content file) vs; v_indexed : indexed l vs; v_identified : identified l; v_open : is_open l = true;
  v_writable : readOnly l = false; v_time : modTimeNano l = mtime file }.

Lemma openEvidence_existing attempts file file' created : Forall (fun a => a_stat a <> NotExist) attempts ->
  openEvidenceForAppend attempts file = Ok (file', created) -> file' = file /\ created = false.
Proof.
  induction 1 as [|a attempts Ha _ IH]; [done|]. cbn [openEvidenceForAppend]. destruct (a_stat a); [done..|]. intros H. step H. step H.
  destruct (a_open a); [|by apply IH | done]. steps H. by injection H as <- <-.
Qed.

Lemma openEvidence_content attempts file file' created : openEvidenceForAppend attempts file = Ok (file', created) ->
  zlen (content file') <= MaxLogBytes.
Proof.
  induction attempts as [|a attempts IH]; [done|]. cbn [openEvidenceForAppend]. destruct (a_stat a) as [| |reg perm]; [|done|].
  - destruct (a_open a); [|done..]. intros H. steps H. by injection H as <- <-.
  - intros H. step H. step H. destruct (a_open a); [|by apply IH | done]. steps H. injection H as <- <-. done.
Qed.

Definition well_keyed (private : bytes) (nodeID : string) (epoch : Z) : Prop :=
  Dsse.key_pair sign verify private (public_of private) /\ in_u64 epoch.

Lemma Open_live path attempts c i d u file private nodeID epoch file' l : in_u64 epoch ->
  Open verify path attempts c i d u file private nodeID epoch = Ok (file', l) ->
  (exists vs, live l file' vs) /\ EvidenceLog.private l = private /\ EvidenceLog.nodeID l = nodeID /\ EvidenceLog.epoch l = epoch /\
  (Forall (fun a => a_stat a <> NotExist) attempts -> file' = file).
Proof.
  intros He. unfold Open. intros H. step H. step H.
  destruct (openEvidenceForAppend (take 3 attempts) file) as [[f created]|] eqn:Eo; [|done]. step H.
  assert (Hsz := openEvidence_content _ _ _ _ Eo).
  destruct (validateEvidencePathFile i f) as [[]|]; [|done]. step H.
  destruct (verifyFileState _ _ _ _ _ _ _ _) as [s|] eqn:Ev; [|done]. destruct (validateEvidencePathFile u f) as [[]|]; [|done]. steps H. injection H as <- <-.
  apply verifyFileState_iff in Ev as (vs & tail & seen & Ef & Ht & Hc & Hz & Hv & ->). cbn [s_total] in *.
  assert (Hl : zlen tail = 0) by (rewrite Ef, zlen_app in *; lia). assert (tail = []) as -> by (by apply nil_length_inv, Nat2Z.inj). rewrite app_nil_r in Ef.
  split_and!; try done; [exists vs | intros Hs; apply openEvidence_existing in Eo; [naive_solver | by apply Forall_take]].
  split; cbn [is_open readOnly modTimeNano]; try done.
Qed.

(** The answers of a system that does what it is asked. *)
Definition good_attempt : attempt := mkAttempt (Info true 384) Opened true true true.
Definition reopened (l : Log) (file : File) : Log :=
  mkLog true (private l) (public l) false (nodeID l) (epoch l) (keyID l) (next l) (lastHash l) (logBytes l) (mtime file) (checkpoints l) (indexes l).

Lemma live_reopens l file vs : live l file vs -> reopened l file = l /\
  Open verify true [good_attempt] true true true true file (private l) (nodeID l) (epoch l) = Ok (file, l).
Proof.
  intros H. destruct (v_identified _ _ _ H) as (Hp & Hpub & Hk & Hn & He & He0). assert (Hr : reopened l file = l).
  { unfold reopened. rewrite <- (v_open _ _ _ H), <- (v_writable _ _ _ H), <- (v_time _ _ _ H). by destruct l. }
  split; [done|]. pose proof (h_size _ _ _ _ (v_holds _ _ _ H)) as Hsz. pose proof (h_bytes _ _ _ _ (v_holds _ _ _ H)) as Hb.
  unfold Open. rewrite Hn, Hp, (proj2 (Z.eqb_neq _ _)) by done. cbn [andb negb take openEvidenceForAppend good_attempt a_stat a_open a_locked a_valid a_same].
  unfold validateEvidencePathFile. rewrite (proj2 (Z.leb_le _ _)), (proj2 (Z.ltb_ge _ _)) by lia. change (owner_only 384) with true. cbn [andb negb orb].
  erewrite (proj2 (verifyFileState_iff _ _ _ _ _ _ _ _ _)).
  2:{ exists vs, [], (indexes l). rewrite app_nil_r, <- Hpub. destruct (v_holds _ _ _ H) as [Hf Hc _ _ _ _ _]. split_and!; try done; [by rewrite <- Hf | apply (v_indexed _ _ _ H)]. }
  cbn [s_expected s_previous s_total s_checkpoints s_seen]. destruct (v_holds _ _ _ H) as [Hf Hc _ Hx Hh _ Hcp].
  rewrite <- Hf, Z.eqb_refl, <- Hb, <- Hpub, <- Hk, <- Hx, <- Hh, <- Hcp. rewrite Z.eqb_refl, !(proj2 (Z.ltb_ge _ _)) by lia. cbn [negb]. f_equal. f_equal. etransitivity; [|exact Hr]. done.
Qed.

(** ** Appending *)

Definition event_typed (e : Event) : Prop := in_u64 (Generation e).

Lemma writable_cases i file l l' res : writable verify i file l = (l', res) ->
  (l' = l /\ match res with Ok _ => is_open l = true /\ readOnly l = false /\ (exists n, verifyTailLocked verify i file l = Ok n) | Err _ => is_open l = false \/ readOnly l = true end) \/
  (l' = failClosed l /\ is_ok res = false).
Proof.
  unfold writable. destruct (is_open l); [|intros [= <- <-]; left; auto]. cbn [negb]. destruct (readOnly l); [intros [= <- <-]; left; auto|].
  destruct (validateFileStateLocked i file l); [|intros [= <- <-]; by right].
  destruct (verifyTailLocked verify i file l) as [n|]; intros [= <- <-]; [left | by right]. eauto.
Qed.

(** The record of a successful append. *)
Definition record_of (l : Log) (event : Event) (raw : bytes) : VerifiedReceipt :=
  mkVerified (next_receipt l event) (chainHash (lastHash l) (signed_bytes (next_receipt l event))) (frameBytes raw).

Lemma zlen_lastHash l f vs : holds verify l f vs -> zlen (lastHash l) = hashSize.
Proof.
  intros H. rewrite (h_hash _ _ _ _ H). destruct vs as [|v vs _] using rev_ind; [done|]. rewrite head_hash_snoc.
  pose proof (h_chain _ _ _ _ H) as Hc. apply chained_app in Hc as [_ [Hl _]]. apply link_facts in Hl as (_ & _ & -> & _). apply zlen_chainHash.
Qed.

Lemma prepare_append_ok l f vs event receipt raw current : holds verify l f vs -> identified l -> Dsse.key_pair sign verify (private l) (public l) -> event_typed event ->
  prepare_append sign l event = Ok (receipt, raw, current) ->
  receipt = next_receipt l event /\ current = chainHash (lastHash l) (signed_bytes receipt) /\ frame_sized raw /\
  zlen f + zlen (frameBytes raw) <= MaxLogBytes /\ link verify (public l) (nodeID l) (epoch l) (next l) (lastHash l) (record_of l event raw).
Proof.
  intros H (Hp & Hpub & Hk & Hn & He & He0) (_ & Hpl & Hkey) Ht. unfold prepare_append. intros Hpa. set (r := next_receipt l event) in *.
  destruct (marshalReceipt r) as [payload|] eqn:Hm; [|done]. apply receipt_marshal_ok in Hm as [Hc ->].
  destruct (marshalEnvelope _) as [raw'|] eqn:Hme; [|done]. apply marshalEnvelope_ok in Hme as [Hce ->]. steps Hpa. injection Hpa as <- <- <-.
  assert (Hty : typed r).
  { unfold typed. subst r. cbn [next_receipt PreviousHash Epoch Sequence REvent]. split; [by eapply zlen_lastHash|]. split; [done|]. split; [|done].
    rewrite (h_next _ _ _ _ H). pose proof (holds_count _ _ _ _ H). pose proof (zlen_nonneg vs). unfold in_u64. change MaxLogBytes with 67108864 in *. lia. }
  rewrite zlen_frame, (h_bytes _ _ _ _ H) in *. destruct (Hkey (PreAuthEncoding PayloadType (flat r))) as [Hsl Hsv].
  set (signature := sign (private l) (PreAuthEncoding PayloadType (flat r))) in *.
  assert (Hz : frame_sized (flat_envelope (mkEnvelope envelopeVersion PayloadType (flat r) (keyID l) signature))).
  { split; [|done]. unfold flat_envelope. rewrite zlen_app, zlen_be_encode. match goal with |- context [zlen ?x] => pose proof (zlen_nonneg x) end. lia. }
  split_and!; try done; [lia|]. eexists. split; [done|]. split; [done|]. apply verifyEnvelope_exact. cbn [record_of VReceipt ChainHash].
  split; [|done]. rewrite Hk in *. split_and!; try done. exists signature. done.
Qed.

Lemma holds_advance l f vs event raw file' : holds verify l f vs ->
  link verify (public l) (nodeID l) (epoch l) (next l) (lastHash l) (record_of l event raw) -> zlen f + zlen (frameBytes raw) <= MaxLogBytes ->
  holds verify (advance l file' (next_receipt l event) (ChainHash (record_of l event raw)) (logBytes l + (4 + zlen raw))) (f ++ frameBytes raw)
    (vs ++ [record_of l event raw]).
Proof.
  intros H Hl Hsz. pose proof (h_hash _ _ _ _ H) as Hh. pose proof (h_next _ _ _ _ H) as Hx. pose proof (h_file _ _ _ _ H) as Hf. pose proof (holds_count _ _ _ _ H) as Hn. pose proof (zlen_nonneg vs).
  assert (Hchain : chained verify (public l) (nodeID l) (epoch l) 1 zeroHash (vs ++ [record_of l event raw])).
  { apply chained_app. split; [apply (h_chain _ _ _ _ H)|]. split; [|done]. by rewrite <- Hh, <- Hx. }
  assert (Hbytes : f ++ frameBytes raw = bytes_of_chain (vs ++ [record_of l event raw])) by (by rewrite bytes_of_chain_app, bytes_of_chain_one, <- Hf).
  split; cbn [advance public nodeID epoch next lastHash logBytes checkpoints]; try done.
  - by rewrite zlen_app.
  - rewrite zlen_app, u64_small; [change (zlen [record_of l event raw]) with 1; lia|]. unfold in_u64. change MaxLogBytes with 67108864 in *. lia.
  - by rewrite head_hash_snoc.
  - rewrite (h_bytes _ _ _ _ H), zlen_app, zlen_frame. done.
  - rewrite (strides_snoc _ _ _ _ _ _ Hchain), (h_checkpoints _ _ _ _ H), <- Hbytes, zlen_app, zlen_frame, <- (h_bytes _ _ _ _ H). cbn [next_receipt Sequence].
    rewrite Hx, Z.add_comm. replace (zlen vs + 1) with (1 + zlen vs) by lia. by destruct (_ =? 0); rewrite ?app_nil_r.
Qed.

(** What a call leaves in the file behind a handle that failed closed: the chain, and a part of one more frame. *)
Definition torn (l : Log) (f : bytes) (vs : list VerifiedReceipt) : Prop :=
  chained verify (public l) (nodeID l) (epoch l) 1 zeroHash vs /\
  (f = bytes_of_chain vs \/
   exists v k, f = bytes_of_chain vs ++ take k (Frame v) /\ chained verify (public l) (nodeID l) (epoch l) 1 zeroHash (vs ++ [v])).

(** Nothing but the descriptor, the indexes and the position of the chain changes. *)
Definition same_identity (l l' : Log) : Prop :=
  private l' = private l /\ public l' = public l /\ nodeID l' = nodeID l /\ epoch l' = epoch l /\ keyID l' = keyID l /\ readOnly l' = readOnly l.

Lemma append_frame_torn fault header payload f : exists k, (append_frame fault header payload f).2 = f ++ take k (header ++ payload) /\
  ((append_frame fault header payload f).1 = Ok tt -> (append_frame fault header payload f).2 = f ++ header ++ payload).
Proof.
  destruct fault as [| |k|k|]; cbn [append_frame fst snd].
  - exists (length (header ++ payload)). by rewrite take_ge.
  - exists 0%nat. by rewrite take_0, app_nil_r.
  - exists (k `min` length header)%nat. split; [|done]. rewrite take_app_le by lia.
    destruct (decide (k <= length header)%nat); [by rewrite Nat.min_l | by rewrite Nat.min_r, !take_ge by lia].
  - exists (length header + k)%nat. split; [|done]. by rewrite take_app_add'.
  - exists (length (header ++ payload)). by rewrite take_ge.
Qed.

Lemma append_live i file l event file' l' res vs : live l file vs -> Dsse.key_pair sign verify (private l) (public l) -> event_typed event ->
  appendLocked sign verify i file l event = (file', l', res) ->
  same_identity l l' /\
  match res with
  | Ok receipt => exists raw current, prepare_append sign l event = Ok (receipt, raw, current) /\ receipt = next_receipt l event /\
      l' = advance l file' receipt current (logBytes l + (4 + zlen raw)) /\
      holds verify l' (content file') (vs ++ [record_of l event raw]) /\ is_open l' = true /\ modTimeNano l' = mtime file'
  | Err _ => (l' = l /\ file' = file) \/ (is_open l' = false /\ torn l (content file') vs)
  end.
Proof.
  intros Hv Hk Ht. unfold appendLocked. assert (Hlive : torn l (content file) vs) by (split; [apply (h_chain _ _ _ _ (v_holds _ _ _ Hv)) | left; apply (h_file _ _ _ _ (v_holds _ _ _ Hv))]).
  assert (Hsame : same_identity l l) by done. assert (Hsf : same_identity l (failClosed l)) by done.
  destruct (writable verify i file l) as [l1 w] eqn:Hw. apply writable_cases in Hw as [[-> Hw] | [-> Hw]].
  2:{ destruct w; [done|]. intros [= <- <- <-]. split; [done|]. by right. }
  destruct w as [[]|e]; [|intros [= <- <- <-]; split; [done | by left]].
  destruct (prepare_append sign l event) as [[[receipt raw] current]|e] eqn:Hp; [|intros [= <- <- <-]; split; [done | by left]].
  assert (Hp' := Hp). apply (prepare_append_ok l (content file) vs) in Hp' as (-> & -> & Hs & Hsz & Hl); [|apply Hv|apply Hv|done..].
  assert (Hch : chained verify (public l) (nodeID l) (epoch l) 1 zeroHash (vs ++ [record_of l event raw])).
  { apply chained_app. split; [apply Hlive|]. split; [|done]. rewrite <- (h_hash _ _ _ _ (v_holds _ _ _ Hv)), <- (h_next _ _ _ _ (v_holds _ _ _ Hv)). done. }
  destruct (append_frame_torn (written i) (be_encode 4 (zlen raw)) raw (content file)) as (k & Hk1 & Hk2).
  destruct (append_frame (written i) (be_encode 4 (zlen raw)) raw (content file)) as [ws bytes]. cbn [fst snd] in *.
  assert (Htorn : torn l bytes vs).
  { split; [apply Hlive|]. right. exists (record_of l event raw), k. split; [|done]. rewrite Hk1. f_equal. apply (h_file _ _ _ _ (v_holds _ _ _ Hv)). }
  destruct ws as [[]|e]; [|intros [= <- <- <-]; split; [done | by right]]. specialize (Hk2 eq_refl).
  destruct (validateEvidencePathFile (after_ok i) (mkFile bytes (stamp i))) as [[]|e]; [|intros [= <- <- <-]; split; [done | by right]].
  destruct (negb _); [intros [= <- <- <-]; split; [done | by right]|]. intros [= <- <- <-]. split; [done|].
  exists raw, (chainHash (lastHash l) (signed_bytes (next_receipt l event))). split_and!; try done; [|apply Hv].
  cbn [content]. rewrite Hk2. apply holds_advance; [apply Hv | done..].
Qed.

(** ** The indexes *)

Lemma index_plain l event raw : EType event <> ActivationBegin -> EType event <> ActivationCheckpoint ->
  index_receipt (indexes l) (record_of l event raw) =
  Ok (mkIndexes (begins (indexes l)) (marks (indexes l)) (applyActivationInvalidation (invalidations (indexes l)) (next_receipt l event))).
Proof.
  intros H1 H2. unfold index_receipt, applyActivationMarker. cbn [record_of VReceipt next_receipt REvent].
  by rewrite (proj2 (Z.eqb_neq _ _) H1), (proj2 (Z.eqb_neq _ _) H2).
Qed.

(** A marker that the live indexes let through is one that the replay accepts, with the same indexes. *)
Lemma index_marker l file' event raw current n expected candidate : EType event = expected -> expected = ActivationBegin \/ expected = ActivationCheckpoint ->
  (if expected =? ActivationBegin then retained_begin else retained_checkpoint) l event candidate = Ok None ->
  same_marker candidate (marker_of (next_receipt l event)) = true ->
  index_receipt (indexes l) (record_of l event raw) =
  Ok (indexes (retain_marker (advance l file' (next_receipt l event) current n) expected (marker_key event) (marker_of (next_receipt l event)))).
Proof.
  intros He Hx Hr Hc. unfold index_receipt, applyActivationMarker. cbn [record_of VReceipt]. change (REvent (next_receipt l event)) with event.
  assert (Hinv : applyActivationInvalidation (invalidations (indexes l)) (next_receipt l event) = invalidations (indexes l)).
  { unfold applyActivationInvalidation. change (REvent (next_receipt l event)) with event. rewrite He. by destruct Hx as [-> | ->]. }
  unfold retain_marker, advance. cbn [indexes begins marks invalidations]. rewrite Hinv, He. destruct Hx as [-> | ->].
  - change (ActivationBegin =? ActivationBegin) with true in *. cbn [negb andb] in *. unfold retained_begin in Hr. step Hr. destruct (begins (indexes l) !! marker_key event); [by case_match|]. cbn [begins marks invalidations]. by rewrite Hinv.
  - change (ActivationCheckpoint =? ActivationBegin) with false in *. change (ActivationCheckpoint =? ActivationCheckpoint) with true. cbn [negb andb] in *.
    unfold retained_checkpoint in Hr. destruct (begins (indexes l) !! marker_key event) as [begin|]; [|done]. step Hr. step Hr.
    assert (Hsame : same_activation begin (marker_of (next_receipt l event)) = true).
    { unfold same_marker, same_activation in *. breflect. repeat match goal with Hb : (_ =? _)%string = true |- _ => apply String.eqb_eq in Hb end.
      apply andb_true_iff. rewrite !andb_true_iff, !String.eqb_eq. split_and!; congruence. }
    rewrite Hsame. destruct (marks (indexes l) !! marker_key event); [by repeat case_match|]. cbn [begins marks invalidations]. by rewrite Hinv.
Qed.

(** The receipts an index retains are receipts of the chain. *)
Lemma indexed_members vs ix : fold_ok index_receipt newActivationIndexes vs = Ok ix ->
  forall key m, begins ix !! key = Some m \/ marks ix !! key = Some m -> MReceipt m ∈ VReceipt <$> vs.
Proof.
  revert ix. induction vs as [|v vs IH] using rev_ind; intros ix.
  - intros [= <-] key m [H | H]; cbn in H; by rewrite lookup_empty in H.
  - rewrite fold_ok_app. intros H key m Hm. destruct (fold_ok index_receipt newActivationIndexes vs) as [ix0|]; [|done]. cbn [fold_ok] in H.
    specialize (IH _ eq_refl). rewrite fmap_app, elem_of_app. unfold index_receipt in H.
    destruct (applyActivationMarker ix0 (VReceipt v)) as [ix1|] eqn:Ea; [|done]. injection H as <-. unfold applyActivationMarker in Ea.
    case_in Ea; simplify_eq; cbn [begins marks] in Hm; try (left; eapply IH; exact Hm);
      (destruct Hm as [Hm | Hm]; try (left; eapply IH; by (left + right));
       apply lookup_insert_Some in Hm as [[_ <-] | [_ Hm]]; [right; apply list_elem_of_singleton; done | left; eapply IH; by (left + right)]).
Qed.

(** ** Runs *)

Inductive call :=
| CallAppend (i : io) (event : Event)
| CallBegin (before i : io) (event : Event)
| CallCheckpoint (before i : io) (event : Event)
| CallExport (i : io) (after : Coordinate)
| CallHead (i : io)
| CallClose.

Definition call_typed (c : call) : Prop :=
  match c with CallAppend _ e | CallBegin _ _ e | CallCheckpoint _ _ e => event_typed e | _ => True end.

(** The receipt that a call returned. *)
Definition returned (r : result Receipt) : list Receipt := match r with Ok r => [r] | Err _ => [] end.

Definition perform (c : call) (s : File * Log) : File * Log * list Receipt :=
  let '(file, l) := s in
  match c with
  | CallAppend i event => let '(file, l, r) := Append sign verify i file l event in (file, l, returned r)
  | CallBegin before i event => let '(file, l, r) := AppendActivationBegin sign verify before i file l event in (file, l, returned r)
  | CallCheckpoint before i event => let '(file, l, r) := AppendActivationCheckpoint sign verify before i file l event in (file, l, returned r)
  | CallExport i after => (file, (exportDelta verify i file l after).1, [])
  | CallHead i => (file, (CurrentHead verify i file l).1, [])
  | CallClose => (file, Close l, [])
  end.

(** The calls in order: what the file and the handle are afterwards, and every receipt that was returned. *)
Fixpoint run (calls : list call) (s : File * Log) : File * Log * list Receipt :=
  match calls with
  | [] => (s, [])
  | c :: calls => let '(s, rs) := perform c s in let '(s, rs') := run calls s in (s, rs ++ rs')
  end.

Section Run.
Context (l0 : Log) (Hkey : Dsse.key_pair sign verify (private l0) (public l0)).

(** The state of a handle: live, or closed over a torn file; [rs] are the receipts it returned. *)
Definition sound (file : File) (l : Log) (rs : list Receipt) (vs : list VerifiedReceipt) : Prop :=
  same_identity l0 l /\ (live l file vs \/ is_open l = false /\ torn l (content file) vs) /\ forall r, r ∈ rs -> r ∈ VReceipt <$> vs.

Lemma sound_extend file l rs rs' vs ws : sound file l rs vs -> (forall r, r ∈ rs' -> r ∈ VReceipt <$> vs ++ ws) ->
  (forall r, r ∈ rs ++ rs' -> r ∈ VReceipt <$> vs ++ ws).
Proof.
  intros (_ & _ & H) H' r [Hr | Hr]%elem_of_app; [|by apply H']. rewrite fmap_app, elem_of_app. left. by apply H.
Qed.

Lemma torn_closed l f vs : live l f vs -> torn (failClosed l) (content f) vs.
Proof. intros H. split; [apply (h_chain _ _ _ _ (v_holds _ _ _ H)) | left; apply (h_file _ _ _ _ (v_holds _ _ _ H))]. Qed.

Lemma sound_close file l rs vs : sound file l rs vs -> sound file (failClosed l) rs vs.
Proof. intros (Hs & [Hv | [Ho Ht]] & Hr); split; [done | | done |]; (split; [right; split; [done|] | done]); [by apply torn_closed | done]. Qed.

Lemma same_identity_trans l1 l2 l3 : same_identity l1 l2 -> same_identity l2 l3 -> same_identity l1 l3.
Proof. unfold same_identity. intros (? & ? & ? & ? & ? & ?) (? & ? & ? & ? & ? & ?). repeat split; congruence. Qed.

Lemma live_of l l' file vs : same_identity l l' -> identified l -> holds verify l' (content file) vs -> indexed l' vs -> is_open l' = true ->
  readOnly l = false -> modTimeNano l' = mtime file -> live l' file vs.
Proof.
  intros (H1 & H2 & H3 & H4 & H5 & H6) (Hp & Hpub & Hk & Hn & He & He0) Hh Hx Ho Hr Ht. split; try done; [|congruence].
  unfold identified. rewrite H1, H2, H3, H4, H5. done.
Qed.

(** An append, or a marker, on a sound state. *)
Lemma sound_append_locked i file l event file' l' res rs vs : sound file l rs vs -> is_open l = true -> event_typed event ->
  appendLocked sign verify i file l event = (file', l', res) ->
  match res with
  | Err _ => sound file' l' rs vs
  | Ok receipt => exists raw current, live l file vs /\ same_identity l l' /\ receipt = next_receipt l event /\ l' = advance l file' receipt current (logBytes l + (4 + zlen raw)) /\
      holds verify l' (content file') (vs ++ [record_of l event raw]) /\ is_open l' = true /\ modTimeNano l' = mtime file'
  end.
Proof.
  intros (Hs & [Hv | [Ho _]] & Hr) Hop Ht Ha; [|congruence]. destruct Hs as (H1 & H2 & Hs').
  assert (Hk : Dsse.key_pair sign verify (private l) (public l)) by by rewrite H1, H2.
  apply (append_live _ _ _ _ _ _ _ vs Hv Hk Ht) in Ha as [Hid Ha]. destruct res as [receipt|e].
  - destruct Ha as (raw & current & _ & -> & -> & Hh & Ho & Hm). eauto 10.
  - split; [by eapply same_identity_trans|]. split; [|done]. destruct Ha as [[-> ->] | [Ho Htn]]; [by left|]. right. split; [done|].
    destruct Hid as (_ & I2 & I3 & I4 & _). unfold torn in *. by rewrite I2, I3, I4.
Qed.

Lemma sound_append i file l event file' l' res rs vs : sound file l rs vs -> event_typed event ->
  Append sign verify i file l event = (file', l', res) -> exists ws, sound file' l' (rs ++ returned res) (vs ++ ws).
Proof.
  intros Hs Ht. assert (Hnil : sound file l (rs ++ []) (vs ++ [])) by by rewrite !app_nil_r.
  unfold Append. destruct (validateEvent event); [|intros [= <- <- <-]; by exists []].
  destruct ((EType event =? ActivationBegin) || _) eqn:Et; [intros [= <- <- <-]; by exists []|]. breflect. intros Ha.
  destruct (is_open l) eqn:Ho; [|unfold appendLocked, writable in Ha; rewrite Ho in Ha; injection Ha as <- <- <-; by exists []].
  apply (sound_append_locked _ _ _ _ _ _ _ rs vs Hs Ho Ht) in Ha. destruct res as [receipt|e]; [|exists []; by rewrite !app_nil_r].
  destruct Ha as (raw & current & Hv & Hid & -> & -> & Hh & Ho' & Hm). exists [record_of l event raw].
  split; [eapply same_identity_trans; [apply Hs | done]|]. split.
  - left. eapply live_of; try done; try apply Hv. unfold indexed. rewrite fold_ok_app, (v_indexed _ _ _ Hv). cbn [fold_ok]. rewrite index_plain by done. done.
  - eapply sound_extend; [done|]. intros r ->%list_elem_of_singleton. rewrite fmap_app, elem_of_app. right. by apply list_elem_of_singleton.
Qed.

Lemma sound_marker before i file l event expected file' l' res rs vs : expected = ActivationBegin \/ expected = ActivationCheckpoint -> sound file l rs vs -> event_typed event ->
  appendActivationMarker sign verify before i file l event expected = (file', l', res) -> exists ws, sound file' l' (rs ++ returned res) (vs ++ ws).
Proof.
  intros Hx Hs Ht. assert (Hnil : forall l, sound file l rs vs -> sound file l (rs ++ []) (vs ++ [])) by (intros; by rewrite !app_nil_r).
  unfold appendActivationMarker. destruct (validateEvent event); [|intros [= <- <- <-]; exists []; by apply Hnil].
  destruct (Z.eqb_spec (EType event) expected) as [Et | Et]; [|intros [= <- <- <-]; exists []; by apply Hnil]. cbn [negb].
  destruct (writable verify before file l) as [l1 w] eqn:Hw. apply writable_cases in Hw as [[-> Hw] | [-> Hw]].
  2:{ destruct w; [done|]. intros [= <- <- <-]. exists []. by apply Hnil, sound_close. }
  destruct w as [[]|e]; [|intros [= <- <- <-]; exists []; by apply Hnil]. destruct Hw as (Ho & _).
  set (candidate := mkMarker _ _ _ _). destruct ((if expected =? ActivationBegin then retained_begin else retained_checkpoint) l event _) as [[receipt|]|e] eqn:Hr.
  3: intros [= <- <- <-]; exists []; by apply Hnil.
  - intros [= <- <- <-]. exists []. rewrite app_nil_r. destruct Hs as (Hid & Hst & Hrs). split; [done|]. split; [done|].
    intros r [Hin | ->%list_elem_of_singleton]%elem_of_app; [by apply Hrs|]. destruct Hst as [Hv | [Hc _]]; [|congruence].
    assert (exists key m, (begins (indexes l) !! key = Some m \/ marks (indexes l) !! key = Some m) /\ MReceipt m = receipt) as (key & m & Hm & <-); [|by eapply indexed_members; [apply (v_indexed _ _ _ Hv)|]].
    destruct Hx as [-> | ->]; [unfold retained_begin in Hr | unfold retained_checkpoint in Hr]; case_in Hr; simplify_eq; eauto.
  - destruct (appendLocked sign verify i file l event) as [[file1 l1] [receipt|e]] eqn:Ha; intros [= <- <- <-];
      apply (sound_append_locked _ _ _ _ _ _ _ rs vs Hs Ho Ht) in Ha; [|exists []; by rewrite !app_nil_r].
    destruct Ha as (raw & current & Hv & Hid & -> & -> & Hh & Ho' & Hm). exists [record_of l event raw].
    split; [eapply same_identity_trans; [apply Hs | done]|]. split.
    + left. eapply (live_of l); try done; try apply Hv; [destruct Hh; by split|]. unfold indexed. rewrite fold_ok_app, (v_indexed _ _ _ Hv). cbn [fold_ok].
      rewrite (index_marker l file1 event raw current (logBytes l + (4 + zlen raw)) expected (candidate (next_receipt l event))); try done.
      unfold same_marker, same_activation. cbn. by rewrite !String.eqb_refl.
    + eapply sound_extend; [done|]. intros r ->%list_elem_of_singleton. rewrite fmap_app, elem_of_app. right. by apply list_elem_of_singleton.
Qed.

Lemma sound_run calls file l rs vs file' l' rs' : sound file l rs vs -> Forall call_typed calls -> run calls (file, l) = (file', l', rs') ->
  exists ws, sound file' l' (rs ++ rs') (vs ++ ws).
Proof.
  intros Hs Hc. revert file l rs vs rs' Hs. induction Hc as [|c calls Ht _ IH]; intros file l rs vs rs' Hs; cbn [run].
  - intros [= <- <- <-]. exists []. by rewrite !app_nil_r.
  - assert (exists ws, sound (perform c (file, l)).1.1 (perform c (file, l)).1.2 (rs ++ (perform c (file, l)).2) (vs ++ ws)) as [ws Hws].
    { destruct c as [i event|before i event|before i event|i after|i|]; cbn [perform call_typed] in *.
      - destruct (Append sign verify i file l event) as [[file1 l1] res] eqn:E. cbn. by eapply sound_append.
      - destruct (AppendActivationBegin sign verify before i file l event) as [[file1 l1] res] eqn:E. cbn. eapply sound_marker; [| done..]. by left.
      - destruct (AppendActivationCheckpoint sign verify before i file l event) as [[file1 l1] res] eqn:E. cbn. eapply sound_marker; [| done..]. by right.
      - exists []. cbn. rewrite !app_nil_r. unfold exportDelta. repeat case_match; cbn; try done; by apply sound_close.
      - exists []. cbn. rewrite !app_nil_r. unfold CurrentHead. repeat case_match; cbn; try done; by apply sound_close.
      - exists []. cbn. rewrite !app_nil_r. by apply sound_close. }
    destruct (perform c (file, l)) as [[file1 l1] rs1]. cbn [fst snd] in Hws. destruct (run calls (file1, l1)) as [[file2 l2] rs2] eqn:Er. intros [= <- <- <-].
    apply (IH _ _ _ _ _ Hws) in Er as [ws' Hr]. exists (ws ++ ws'). by rewrite !app_assoc in *.
Qed.
End Run.

(** ** Reopening *)

Lemma link_unique public nodeID epoch expected previous v w x y :
  link verify public nodeID epoch expected previous v -> link verify public nodeID epoch expected previous w -> Frame v ++ x = Frame w ++ y -> v = w /\ x = y.
Proof.
  intros (raw & Hf & Hs & Hv) (raw' & Hf' & Hs' & Hv') E. rewrite Hf, Hf' in E.
  pose proof (readFrame_frame raw x Hs) as R. rewrite E, readFrame_frame in R by done. injection R as <- <-. split; [|done].
  destruct v as [r h f], w as [r' h' f']. cbn [VReceipt ChainHash Frame] in *. congruence.
Qed.

(** A file is one chain. *)
Lemma chained_unique public nodeID epoch expected previous vs ws t :
  chained verify public nodeID epoch expected previous vs -> chained verify public nodeID epoch expected previous ws ->
  bytes_of_chain vs ++ t = bytes_of_chain ws -> exists us, ws = vs ++ us /\ t = bytes_of_chain us.
Proof.
  revert expected previous ws. induction vs as [|v vs IH]; intros expected previous ws Hv Hw E; [by exists ws|].
  destruct Hv as [Hl Hv]. destruct ws as [|w ws].
  - apply link_facts in Hl as (_ & _ & _ & _ & _ & _ & _ & Hz). apply (f_equal zlen) in E. rewrite bytes_of_chain_cons, !zlen_app in E.
    pose proof (zlen_nonneg (bytes_of_chain vs)). pose proof (zlen_nonneg t). change (zlen (bytes_of_chain [])) with 0 in E. lia.
  - destruct Hw as [Hlw Hw]. rewrite !bytes_of_chain_cons, <- app_assoc in E. destruct (link_unique _ _ _ _ _ _ _ _ _ Hl Hlw E) as [-> E'].
    destruct (IH _ _ _ Hv Hw E') as (us & -> & ->). by exists us.
Qed.

Lemma torn_parse l f vs ws : torn l f vs -> chained verify (public l) (nodeID l) (epoch l) 1 zeroHash ws -> f = bytes_of_chain ws ->
  exists us, ws = vs ++ us /\ (length us <= 1)%nat.
Proof.
  intros [Hc [-> | (v & k & -> & Hcv)]] Hw E.
  - rewrite <- (app_nil_r (bytes_of_chain vs)) in E. destruct (chained_unique _ _ _ _ _ _ _ _ Hc Hw E) as (us & -> & Eu). exists us. split; [done|].
    apply chained_app in Hw as [_ Hw]. apply chained_size in Hw. rewrite <- Eu in Hw. unfold zlen in Hw. cbn in Hw. lia.
  - destruct (chained_unique _ _ _ _ _ _ _ _ Hc Hw E) as (us & -> & Eu). exists us. split; [done|].
    destruct us as [|u us]; [cbn; lia|]. apply chained_app in Hw as [_ [Hlu Hw]]. apply chained_app in Hcv as [_ [Hlv _]].
    rewrite bytes_of_chain_cons in Eu. assert (E2 : Frame v ++ [] = Frame u ++ (bytes_of_chain us ++ drop k (Frame v))) by (by rewrite app_nil_r, app_assoc, <- Eu, take_drop).
    destruct (link_unique _ _ _ _ _ _ _ _ _ Hlv Hlu E2) as [_ E3]. symmetry in E3. apply app_nil in E3 as [E3 _].
    apply chained_size in Hw. rewrite E3 in Hw. unfold zlen in Hw. cbn in *. lia.
Qed.

(** C15: The evidence log is what its handle says, over any appends, activation markers, exports and head reads, with any system call failing
    in any of them. Every receipt that a call returned is in the chain of the file. An open handle holds exactly that chain, and opening the
    file again gives the same handle: position, hash, sparse checkpoints and activation indexes. After a failure the handle is closed, and
    any later [Open] that succeeds finds the chain with at most the one receipt that the failed call was writing. *)
Theorem evidence_log_recovers path attempts c i d u file0 private nodeID epoch file l0 calls file' l' receipts :
  Open verify path attempts c i d u file0 private nodeID epoch = Ok (file, l0) ->
  Dsse.key_pair sign verify private (public_of private) -> in_u64 epoch -> Forall call_typed calls ->
  run calls (file, l0) = (file', l', receipts) ->
  exists vs, chained verify (public_of private) nodeID epoch 1 zeroHash vs /\ (forall r, r ∈ receipts -> r ∈ VReceipt <$> vs) /\
    (is_open l' = true -> content file' = bytes_of_chain vs /\ NextSequence l' = 1 + zlen vs /\
       Open verify true [good_attempt] true true true true file' private nodeID epoch = Ok (file', l')) /\
    (forall attempts' c' i' d' u' file'' l'', Forall (fun a => a_stat a <> NotExist) attempts' ->
       Open verify true attempts' c' i' d' u' file' private nodeID epoch = Ok (file'', l'') ->
       exists last, (length last <= 1)%nat /\ content file'' = bytes_of_chain (vs ++ last) /\ NextSequence l'' = 1 + zlen (vs ++ last)).
Proof.
  intros Ho Hk He Ht Hr. apply Open_live in Ho as ((vs0 & Hv) & Hp & Hn & Hep & _); [|done].
  assert (Hpub : public l0 = public_of private) by (destruct (v_identified _ _ _ Hv) as (_ & -> & _); by rewrite Hp).
  assert (Hk0 : Dsse.key_pair sign verify (EvidenceLog.private l0) (public l0)) by by rewrite Hp, Hpub.
  apply (sound_run l0 Hk0 calls file l0 [] vs0) in Hr as (ws & (Hid & Hst & Hrs)); [|split; [done|]; split; [by left | by intros r ?%not_elem_of_nil]|done].
  destruct Hid as (I1 & I2 & I3 & I4 & I5 & I6). set (vs := vs0 ++ ws) in *. rewrite Hp in I1. rewrite Hpub in I2. rewrite Hn in I3. rewrite Hep in I4.
  assert (Htorn : torn l' (content file') vs).
  { destruct Hst as [Hl | [_ Htn]]; [|done]. by apply torn_closed in Hl. }
  exists vs. split; [destruct Htorn as [Hc _]; by rewrite I2, I3, I4 in Hc|]. split; [done|]. split.
  - intros Hop. destruct Hst as [Hl | [Hcl _]]; [|congruence]. split; [apply (h_file _ _ _ _ (v_holds _ _ _ Hl))|]. split; [apply (h_next _ _ _ _ (v_holds _ _ _ Hl))|].
    apply live_reopens in Hl as [_ Hl]. by rewrite I1, I3, I4 in Hl.
  - intros attempts' c' i' d' u' file'' l'' Hex Ho2. apply Open_live in Ho2 as ((us & Hv2) & Hp2 & Hn2 & Hep2 & Hf2); [|done]. rewrite (Hf2 Hex) in *.
    pose proof (h_chain _ _ _ _ (v_holds _ _ _ Hv2)) as Hc2. destruct (v_identified _ _ _ Hv2) as (_ & Hpub2 & _). rewrite Hpub2, Hp2, Hn2, Hep2, <- I2, <- I3, <- I4 in Hc2.
    destruct (torn_parse l' (content file') vs us Htorn Hc2 (h_file _ _ _ _ (v_holds _ _ _ Hv2))) as (last & -> & Hlen). exists last.
    split; [done|]. split; [apply (h_file _ _ _ _ (v_holds _ _ _ Hv2)) | apply (h_next _ _ _ _ (v_holds _ _ _ Hv2))].
Qed.

(** ** A working system *)

Lemma KeyID_valid pub : validText (KeyID pub) 128 = true /\ slen (KeyID pub) = 32.
Proof.
  unfold KeyID. set (h := take 16 (Sha256.sum pub)). assert (Hl : length h = 16%nat) by (subst h; rewrite length_take, Sha256.length_sum; done).
  destruct (hex_encode_lower h) as [Hh Hlen]. rewrite forallb_forall in Hh.
  assert (Hs : slen (string_of (hex_encode h)) = 32) by (rewrite <- zlen_bytes_of, bytes_of_string_of; unfold zlen; lia).
  assert (Ha : Forall (fun b => u8 b < 128 /\ u8 b <> 0) (bytes_of (string_of (hex_encode h)))).
  { rewrite bytes_of_string_of, Forall_forall. intros b Hb%list_elem_of_In%Hh. unfold lower_hex_byte in Hb. breflect. destruct Hb; breflect; lia. }
  split; [|done]. unfold validText, validOptionalText. rewrite Hs, (utf8_ascii _ ltac:(eapply Forall_impl; [exact Ha | naive_solver])).
  rewrite bool_decide_false by (intros E; rewrite E in Hs; done). cbn [negb andb Z.leb Z.compare Pos.compare Pos.compare_cont].
  apply negb_true_iff, contains_byte_false. eapply Forall_impl; [exact Ha|]. naive_solver.
Qed.

Definition good_io (t : Z) : io := mkIO true true AppendOk t true.

(** With room in the file, a valid event is appended. *)
Lemma append_works l file vs event t : live l file vs -> Dsse.key_pair sign verify (private l) (public l) -> validateEvent event = Ok tt ->
  logBytes l + 8704 <= MaxLogBytes ->
  exists raw, appendLocked sign verify (good_io t) file l event =
    let file' := mkFile (content file ++ frameBytes raw) t in
    (file', advance l file' (next_receipt l event) (ChainHash (record_of l event raw)) (logBytes l + (4 + zlen raw)), Ok (next_receipt l event)).
Proof.
  intros Hv (_ & _ & Hkey) He Hroom. pose proof (v_holds _ _ _ Hv) as H. destruct (v_identified _ _ _ Hv) as (Hp & Hpub & Hk & Hn & _ & He0).
  pose proof (holds_count _ _ _ _ H) as Hcount. pose proof (zlen_nonneg vs). pose proof (h_next _ _ _ _ H) as Hx.
  set (r := next_receipt l event). assert (Hc : checked_receipt r = true).
  { unfold checked_receipt, validReceiptVersionForEvent. subst r. cbn [next_receipt Version NodeID Epoch Sequence REvent].
    rewrite Z.eqb_refl, Hn, He, (proj2 (Z.eqb_neq _ _) He0), (proj2 (Z.eqb_neq _ _)) by lia. done. }
  assert (Hph : zlen (PreviousHash r) = hashSize) by (by eapply zlen_lastHash). pose proof (zlen_flat r Hc Hph) as Hfl.
  destruct (KeyID_valid (public l)) as [Hkv Hks]. destruct (Hkey (PreAuthEncoding PayloadType (flat r))) as [Hsl _].
  set (e := mkEnvelope envelopeVersion PayloadType (flat r) (keyID l) (sign (private l) (PreAuthEncoding PayloadType (flat r)))).
  assert (Hce : checked_envelope e) by (unfold checked_envelope; subst e; cbn [EnvVersion EnvPayloadType Payload EnvKeyID Signature]; rewrite Hk; change MaxEnvelopeBytes with 65536; unfold hashSize in *; split_and!; done || lia).
  assert (Hze : zlen (flat_envelope e) <= 8700).
  { unfold flat_envelope. subst e. cbn [EnvVersion EnvPayloadType Payload EnvKeyID Signature]. rewrite !zlen_app, !zlen_be_encode, !zlen_append_text, zlen_nil, Hsl, Hk, Hks.
    change (slen PayloadType) with 41. change Dsse.SignatureSize with 64. lia. }
  exists (flat_envelope e). unfold appendLocked, writable. rewrite (v_open _ _ _ Hv), (v_writable _ _ _ Hv). cbn [negb].
  unfold validateFileStateLocked, validateEvidencePathFile. pose proof (h_size _ _ _ _ H) as Hsz. pose proof (h_bytes _ _ _ _ H) as Hb.
  cbn [good_io path_ok]. rewrite (proj2 (Z.ltb_ge MaxLogBytes (zlen (content file)))) by lia. cbn [andb negb]. rewrite Hb, Z.eqb_refl, (v_time _ _ _ Hv), Z.eqb_refl. cbn [andb].
  destruct (verifyTail_ok verify (good_io t) file l vs H eq_refl) as [-> | [_ ->]]; (
    unfold prepare_append; fold r; rewrite (proj2 (marshal_flat r) Hc); fold e; rewrite (proj2 (marshalEnvelope_ok e (flat_envelope e)) (conj Hce eq_refl));
    rewrite (proj2 (Z.leb_le (zlen (flat_envelope e)) _)) by (change MaxEnvelopeBytes with 65536; lia);
    rewrite (proj2 (Z.ltb_ge _ (logBytes l))) by lia; cbn [negb];
    assert (Hcp : zlen (checkpoints l) < maxCheckpointCount)
      by (rewrite (h_checkpoints _ _ _ _ H), zlen_cons; destruct (strides_spec _ _ _ _ _ (h_chain _ _ _ _ H)) as [-> _]; apply (index_room (zlen vs) MaxLogBytes); lia);
    rewrite (proj2 (Z.leb_gt maxCheckpointCount _) Hcp), andb_false_r; cbn [good_io negb written append_frame stamp after_ok content];
    change (be_encode 4 (zlen (flat_envelope e)) ++ flat_envelope e) with (frameBytes (flat_envelope e));
    rewrite zlen_app, zlen_frame, (proj2 (Z.ltb_ge MaxLogBytes _)), Hb by lia; cbn [andb negb]; by rewrite Z.eqb_refl).
Qed.

Lemma append_grows l file vs event t : live l file vs -> Dsse.key_pair sign verify (private l) (public l) -> validateEvent event = Ok tt -> event_typed event ->
  EType event <> ActivationBegin -> EType event <> ActivationCheckpoint -> logBytes l + 8704 <= MaxLogBytes ->
  exists l' file' v, Append sign verify (good_io t) file l event = (file', l', Ok (VReceipt v)) /\ live l' file' (vs ++ [v]) /\ REvent (VReceipt v) = event /\ same_identity l l'.
Proof.
  intros Hv Hk He Ht H1 H2 Hroom. destruct (append_works l file vs event t Hv Hk He Hroom) as (raw & Ha). assert (Ha' := Ha). cbv zeta in Ha'.
  apply (append_live _ _ _ _ _ _ _ vs Hv Hk Ht) in Ha' as (Hid & raw' & current & Hp & _ & El & Hh & Ho & Hm).
  do 2 eexists. exists (record_of l event raw'). split; [unfold Append; rewrite He, (proj2 (Z.eqb_neq _ _) H1), (proj2 (Z.eqb_neq _ _) H2); exact Ha|].
  split; [|done]. eapply live_of; [exact Hid | apply (v_identified _ _ _ Hv) | exact Hh | | exact Ho | apply (v_writable _ _ _ Hv) | exact Hm].
  unfold indexed. rewrite fold_ok_app, (v_indexed _ _ _ Hv). cbn [fold_ok]. by rewrite index_plain.
Qed.

Lemma writable_works l file vs t : live l file vs -> writable verify (good_io t) file l = (l, Ok tt).
Proof.
  intros Hv. pose proof (v_holds _ _ _ Hv) as H. unfold writable. rewrite (v_open _ _ _ Hv), (v_writable _ _ _ Hv). cbn [negb].
  unfold validateFileStateLocked, validateEvidencePathFile. pose proof (h_size _ _ _ _ H). cbn [good_io path_ok]. rewrite (proj2 (Z.ltb_ge _ _)) by lia. cbn [andb negb].
  rewrite (h_bytes _ _ _ _ H), Z.eqb_refl, (v_time _ _ _ Hv), Z.eqb_refl. cbn [andb].
  by destruct (verifyTail_ok verify (good_io t) file l vs H eq_refl) as [-> | [_ ->]].
Qed.

(** A marker that the indexes let through is signed. *)
Lemma marker_works l file vs event expected t : live l file vs -> Dsse.key_pair sign verify (private l) (public l) -> validateEvent event = Ok tt -> event_typed event ->
  EType event = expected -> expected = ActivationBegin \/ expected = ActivationCheckpoint ->
  (if expected =? ActivationBegin then retained_begin else retained_checkpoint) l event (marker_of (next_receipt l event)) = Ok None -> logBytes l + 8704 <= MaxLogBytes ->
  exists l' file' v, appendActivationMarker sign verify (good_io t) (good_io t) file l event expected = (file', l', Ok (VReceipt v)) /\ live l' file' (vs ++ [v]) /\
    VReceipt v = next_receipt l event /\ same_identity l l' /\
    indexes l' = (if expected =? ActivationBegin then mkIndexes (<[marker_key event := marker_of (VReceipt v)]> (begins (indexes l))) (marks (indexes l)) (invalidations (indexes l))
                  else mkIndexes (begins (indexes l)) (<[marker_key event := marker_of (VReceipt v)]> (marks (indexes l))) (invalidations (indexes l))).
Proof.
  intros Hv Hk He Ht Hty Hx Hr Hroom. destruct (append_works l file vs event t Hv Hk He Hroom) as (raw & Ha). assert (Ha' := Ha). cbv zeta in Ha'.
  apply (append_live _ _ _ _ _ _ _ vs Hv Hk Ht) in Ha' as (Hid & raw' & current & Hp & _ & El & Hh & Ho & Hm).
  assert (Hinv : applyActivationInvalidation (invalidations (indexes l)) (next_receipt l event) = invalidations (indexes l))
    by (unfold applyActivationInvalidation; change (REvent (next_receipt l event)) with event; rewrite Hty; by destruct Hx as [-> | ->]).
  do 2 eexists. exists (record_of l event raw'). split; [|split; [|split; [done|split]]].
  - unfold appendActivationMarker. rewrite He, Hty, Z.eqb_refl, (writable_works l file vs t Hv). cbn [negb].
    change (mkMarker (GrantID event) (CapsuleDigest event) (PolicyDigest event) (MetadataHash event) (next_receipt l event)) with (marker_of (next_receipt l event)).
    rewrite Hr, Ha. reflexivity.
  - rewrite El in Hh, Ho, Hm, Hid |- *. eapply (live_of l); [exact Hid | apply (v_identified _ _ _ Hv) | destruct Hh; by split | | exact Ho | apply (v_writable _ _ _ Hv) | exact Hm].
    unfold indexed. rewrite fold_ok_app, (v_indexed _ _ _ Hv). cbn [fold_ok].
    erewrite (index_marker l _ event raw' current (logBytes l + (4 + zlen raw')) expected (marker_of (next_receipt l event))); try done.
    unfold same_marker, same_activation. by rewrite !String.eqb_refl.
  - exact Hid.
  - cbn [retain_marker indexes advance begins marks invalidations]. rewrite Hinv. done.
Qed.
End Ed25519.

(** ** Witnesses *)

Definition sample_private : bytes := Dsse.toy_priv "k".
Definition sample_event : Event := mkEvent LifecycleStart "acme" "run-1" "sha256:c" "sha256:p" 1 "workload" Committed "" "".
Definition sample_log : Log :=
  mkLog true sample_private (public_of sample_private) false "node-1" 1 (KeyID (public_of sample_private)) 1 zeroHash 0 7
    [mkCheckpoint 0 zeroHash 0] newActivationIndexes.
Lemma sample_well_keyed : Dsse.key_pair Dsse.toy_sign Dsse.toy_verify sample_private (public_of sample_private).
Proof. by apply Dsse.toy_key_pair. Qed.
Lemma sample_log_open : Open Dsse.toy_verify true [good_attempt] true true true true (mkFile [] 7) sample_private "node-1" 1 = Ok (mkFile [] 7, sample_log).
Proof. reflexivity. Qed.
Lemma sample_live : live Dsse.toy_verify sample_log (mkFile [] 7) [].
Proof. by split. Qed.

(** One receipt is written, the header of the second is cut, and the handle is closed. *)
Definition sample_calls : list call :=
  [CallAppend (good_io 8) sample_event; CallAppend (mkIO true true (FailHeader 2) 9 true) sample_event; CallHead (good_io 10)].

Lemma sample_events_typed : in_u64 1 /\ Forall call_typed sample_calls.
Proof. split; [done | by repeat constructor]. Qed.

Lemma evidence_log_recovers_witness : exists file' l' receipts vs,
  run Dsse.toy_sign Dsse.toy_verify sample_calls (mkFile [] 7, sample_log) = (file', l', receipts) /\
  chained Dsse.toy_verify (public_of sample_private) "node-1" 1 1 zeroHash vs /\ (forall r, r ∈ receipts -> r ∈ VReceipt <$> vs) /\
  length receipts = 1%nat /\ is_open l' = false.
Proof.
  assert (Hrun : length (run Dsse.toy_sign Dsse.toy_verify sample_calls (mkFile [] 7, sample_log)).2 = 1%nat /\
    is_open (run Dsse.toy_sign Dsse.toy_verify sample_calls (mkFile [] 7, sample_log)).1.2 = false) by (vm_compute; done).
  destruct (run Dsse.toy_sign Dsse.toy_verify sample_calls (mkFile [] 7, sample_log)) as [[file' l'] receipts] eqn:E.
  destruct (evidence_log_recovers Dsse.toy_sign Dsse.toy_verify true [good_attempt] true true true true (mkFile [] 7) sample_private "node-1" 1 _ _ sample_calls file' l' receipts
    sample_log_open sample_well_keyed (proj1 sample_events_typed) (proj2 sample_events_typed) E) as (vs & Hc & Hr & _).
  exists file', l', receipts, vs. split; [reflexivity|]. split; [exact Hc|]. split; [exact Hr | exact Hrun].
Defined.

End EvidenceSafety.
