(* ===== verification/EvidenceDelta.v ===== *)
(** * Exported deltas and retained heads

    Theorems on [EvidenceLog]: which frames an export returns and that they verify from the coordinate they follow, that repeated exports
    deliver the whole log, and that a retained head pins the history before it. *)

From Stdlib Require Import Ascii.
From S2P Require Import Prelude GoText GoCrypto GoFS Dsse EvidenceReceipt EvidenceLog EvidenceChain EvidenceSafety.
Import EvidenceReceipt EvidenceLog EvidenceChain EvidenceSafety.

(** A lemma depends on the section hypotheses its proof uses. *)
Unset Default Proof Using.

Module EvidenceDelta.

(** ** What an export may send *)

(** The receipts that fit: at most [room] of them, and no more bytes than a delta carries. *)
Fixpoint fitting (room : nat) (total : Z) (vs : list VerifiedReceipt) : list VerifiedReceipt :=
  match room, vs with
  | S room, v :: vs => if MaxDeltaBytes - zlen (Frame v) <? total then [] else v :: fitting room (total + zlen (Frame v)) vs
  | _, _ => []
  end.

Lemma fitting_prefix room total vs : exists rest, vs = fitting room total vs ++ rest.
Proof.
  revert total vs. induction room as [|room IH]; intros total vs; [by exists vs|]. destruct vs as [|v vs]; [by exists []|]. cbn [fitting].
  destruct (_ <? _); [by exists (v :: vs)|]. destruct (IH (total + zlen (Frame v)) vs) as [rest E]. exists rest. cbn [app]. by rewrite <- E.
Qed.
Lemma fitting_length room total vs : (length (fitting room total vs) <= room)%nat.
Proof. revert total vs. induction room as [|room IH]; intros total [|v vs]; cbn; try lia. destruct (_ <? _); cbn; [lia|]. specialize (IH (total + zlen (Frame v)) vs). lia. Qed.

(** The coordinate after some receipts. *)
Definition coordinate_after (c : Coordinate) (vs : list VerifiedReceipt) : Coordinate :=
  match last vs with Some v => mkCoordinate (Sequence (VReceipt v)) (ChainHash v) | None => c end.

Lemma coordinate_after_cons c v vs : coordinate_after c (v :: vs) = coordinate_after (mkCoordinate (Sequence (VReceipt v)) (ChainHash v)) vs.
Proof. unfold coordinate_after. rewrite last_cons. by destruct (last vs). Qed.

Section Ed25519.
Context (sign : bytes -> bytes -> bytes) (verify : bytes -> bytes -> bytes -> bool).

(** The loop after the coordinate was found. *)
Lemma export_found l f vs after fuel ws x : holds verify l f vs -> chained verify (public l) (nodeID l) (epoch l) (x_expected x) (x_previous x) ws ->
  (length ws < fuel)%nat -> CSequence after < x_expected x -> 0 <= x_expected x -> x_expected x + zlen ws = 1 + zlen vs ->
  x_scannedBytes x + zlen (bytes_of_chain ws) = logBytes l -> x_found x = true -> zlen (x_frames x) <= MaxDeltaRecords ->
  let sent := fitting (Z.to_nat (MaxDeltaRecords - zlen (x_frames x))) (x_total x) ws in
  exists x', export_loop verify l after fuel (bytes_of_chain ws) x = Good x' /\ x_found x' = true /\ x_frames x' = x_frames x ++ (Frame <$> sent) /\
    x_head x' = coordinate_after (x_head x) sent /\ x_scannedRecords x <= x_scannedRecords x' <= x_scannedRecords x + (MaxDeltaRecords - zlen (x_frames x)).
Proof.
  intros H. revert ws x. induction fuel as [|fuel IH]; intros ws x Hc Hf Ha He Hx Hb Hfo Hfr; [lia|]. cbn [export_loop]. rewrite (holds_local _ _ _ _ H).
  destruct ws as [|v ws].
  - rewrite zlen_nil in Hx. rewrite (proj2 (Z.leb_gt _ _)) by lia. exists x. destruct (Z.to_nat _); cbn; rewrite app_nil_r; split_and!; done || lia.
  - pose proof (zlen_nonneg ws). rewrite zlen_cons in Hx. rewrite (proj2 (Z.leb_le _ _)), Hfo by lia. cbn [negb andb].
    destruct (Z.eqb_spec (zlen (x_frames x)) MaxDeltaRecords) as [E | E].
    { exists x. rewrite E, Z.sub_diag. cbn. rewrite app_nil_r. split_and!; done || lia. }
    assert (Hroom : Z.to_nat (MaxDeltaRecords - zlen (x_frames x)) = S (Z.to_nat (MaxDeltaRecords - (zlen (x_frames x) + 1)))) by lia. rewrite Hroom. cbn [fitting].
    destruct Hc as [Hl Hc]. assert (Hlf := Hl). apply link_facts in Hlf as (Hq & _). destruct Hl as (raw & Hfr' & Hs & Hv).
    rewrite bytes_of_chain_cons, Hfr' in *. rewrite readFrame_frame by done. rewrite zlen_app, zlen_frame in Hb. pose proof (zlen_nonneg (bytes_of_chain ws)).
    pose proof (h_size _ _ _ _ H). pose proof (h_bytes _ _ _ _ H). unfold export_frame.
    rewrite !(proj2 (Z.ltb_ge _ _)) by lia. cbn [orb]. rewrite Hv, Hq, Hfo, (proj2 (Z.leb_gt _ _)), (next_u64 verify l f vs _ H) by lia. cbn [negb].
    destruct (MaxDeltaBytes - zlen (frameBytes raw) <? x_total x).
    + eexists. split; [done|]. cbn. rewrite app_nil_r. split_and!; done || lia.
    + edestruct (IH ws) as (x' & E1 & E2 & E3 & E4 & E5); [| | | | | | | |exists x'; split; [exact E1|]]; cbn [x_expected x_previous x_scannedBytes x_found x_frames x_total x_head x_scannedRecords] in *;
        rewrite ?zlen_app in *; change (zlen [frameBytes raw]) with 1 in *; try done; try lia; [cbn in Hf; lia|].
      split; [done|]. split; [rewrite E3, <- app_assoc; cbn; by rewrite Hfr'|]. split; [by rewrite E4, coordinate_after_cons, Hq | lia].
Qed.

(** The loop up to the coordinate. *)
Lemma export_skip l f vs after fuel skip ws x : holds verify l f vs -> chained verify (public l) (nodeID l) (epoch l) (x_expected x) (x_previous x) (skip ++ ws) ->
  (length (skip ++ ws) < fuel)%nat -> skip <> [] -> x_expected x + zlen skip = CSequence after + 1 -> 0 <= x_expected x -> x_expected x + zlen (skip ++ ws) = 1 + zlen vs ->
  x_scannedBytes x + zlen (bytes_of_chain (skip ++ ws)) = logBytes l -> x_found x = false ->
  (head_hash (x_previous x) skip <> CChainHash after -> export_loop verify l after fuel (bytes_of_chain (skip ++ ws)) x = Refuse ErrDeltaCoordinate) /\
  (head_hash (x_previous x) skip = CChainHash after -> exists fuel', (length ws < fuel')%nat /\
     export_loop verify l after fuel (bytes_of_chain (skip ++ ws)) x =
     export_loop verify l after fuel' (bytes_of_chain ws)
       (mkExport true (CChainHash after) (CSequence after + 1) (x_scannedRecords x + zlen skip) (x_scannedBytes x + zlen (bytes_of_chain skip)) (x_total x)
          (x_frames x) (x_head x))).
Proof.
  intros H. revert skip x. induction fuel as [|fuel IH]; intros skip x Hc Hf Hne Ha He Hx Hb Hfo; [lia|]. cbn [export_loop]. rewrite (holds_local _ _ _ _ H).
  destruct skip as [|v skip]; [done|]. clear Hne. cbn [app] in *. pose proof (zlen_nonneg (skip ++ ws)). pose proof (zlen_nonneg skip). rewrite zlen_cons in *.
  rewrite (proj2 (Z.leb_le _ _)), Hfo by lia. cbn [negb andb].
  destruct Hc as [Hl Hc]. assert (Hlf := Hl). apply link_facts in Hlf as (Hq & _). destruct Hl as (raw & Hfr' & Hs & Hv).
  rewrite bytes_of_chain_cons, Hfr' in *. rewrite readFrame_frame by done. rewrite zlen_app, zlen_frame in Hb. pose proof (zlen_nonneg (bytes_of_chain (skip ++ ws))).
  pose proof (h_size _ _ _ _ H). pose proof (h_bytes _ _ _ _ H). unfold export_frame.
  rewrite !(proj2 (Z.ltb_ge _ _)) by lia. cbn [orb]. rewrite Hv, Hq, (proj2 (Z.leb_le (x_expected x) _)), (next_u64 verify l f vs _ H) by lia. rewrite head_hash_cons.
  destruct (Z.eqb_spec (x_expected x) (CSequence after)) as [E | E].
  - assert (skip = []) as -> by (apply nil_length_inv, Nat2Z.inj; fold (zlen skip); cbn; lia). cbn [app] in *. change (head_hash (ChainHash v) []) with (ChainHash v).
    split; intros Hh; [by rewrite bool_decide_false|]. rewrite bool_decide_true by done. exists fuel. split; [cbn in Hf; lia|].
    rewrite bytes_of_chain_one, Hfr', zlen_frame, Hh, E, zlen_nil, Z.add_0_r. done.
  - destruct (IH skip (mkExport (x_found x) (ChainHash v) (x_expected x + 1) (x_scannedRecords x + 1) (x_scannedBytes x + (4 + zlen raw)) (x_total x) (x_frames x) (x_head x))) as [IH1 IH2];
      cbn [x_expected x_previous x_scannedBytes x_found x_frames x_total x_head x_scannedRecords] in *; try done; try lia; [cbn in Hf; lia | intros ->; rewrite zlen_nil in *; lia|].
    rewrite Hfo in *. split; [exact IH1|]. intros Hh. destruct (IH2 Hh) as (fuel' & Hfu & E2). exists fuel'. split; [done|]. rewrite E2. f_equal. f_equal; [lia|].
    rewrite bytes_of_chain_cons, zlen_app, Hfr', zlen_frame. lia.
Qed.

(** [c] is a place of the chain. *)
Definition at_coordinate (vs : list VerifiedReceipt) (c : Coordinate) : Prop :=
  0 <= CSequence c <= zlen vs /\ CChainHash c = head_hash zeroHash (take (Z.to_nat (CSequence c)) vs).

Definition sent (vs : list VerifiedReceipt) (c : Coordinate) : list VerifiedReceipt := fitting 128 0 (drop (Z.to_nat (CSequence c)) vs).

Lemma sent_room vs c : at_coordinate vs c -> CSequence c + zlen (sent vs c) <= zlen vs.
Proof.
  intros [Hn _]. unfold sent. destruct (fitting_prefix 128 0 (drop (Z.to_nat (CSequence c)) vs)) as [rest E]. apply (f_equal length) in E.
  rewrite length_drop, length_app in E. unfold zlen in *. lia.
Qed.

Lemma coordinate_after_at l f vs c : holds verify l f vs -> at_coordinate vs c ->
  coordinate_after c (sent vs c) = mkCoordinate (CSequence c + zlen (sent vs c)) (head_hash zeroHash (take (Z.to_nat (CSequence c + zlen (sent vs c))) vs)).
Proof.
  intros H Hat. pose proof (sent_room vs c Hat) as Hr. destruct Hat as [Hn Hh]. pose proof (zlen_nonneg (sent vs c)). set (n := Z.to_nat (CSequence c)) in *.
  destruct (fitting_prefix 128 0 (drop n vs)) as [rest E]. change (fitting 128 0 (drop n vs)) with (sent vs c) in E.
  assert (Hsplit : vs = take n vs ++ sent vs c ++ rest) by (rewrite <- E; symmetry; apply take_drop).
  assert (Htn : length (take n vs) = n) by (rewrite length_take; unfold zlen in *; lia).
  assert (Htk : take (Z.to_nat (CSequence c + zlen (sent vs c))) vs = take n vs ++ sent vs c).
  { etransitivity; [exact (f_equal (take _) Hsplit)|]. rewrite app_assoc. apply take_app_length'. rewrite length_app, Htn. unfold zlen in *. lia. }
  rewrite Htk. clear Htk.
  unfold coordinate_after. destruct (sent vs c) as [|v us _] using rev_ind; clear E.
  - rewrite zlen_nil, Z.add_0_r, app_nil_r, <- Hh. by destruct c.
  - rewrite last_snoc, app_assoc, head_hash_snoc. f_equal. pose proof (h_chain _ _ _ _ H) as Hc.
    assert (Hi : vs !! (n + length us)%nat = Some v).
    { rewrite Hsplit, lookup_app_r by lia. rewrite Htn. replace (n + length us - n)%nat with (length us) by lia.
      rewrite lookup_app_l by (rewrite length_app; cbn; lia). rewrite lookup_app_r by lia. by rewrite Nat.sub_diag. }
    rewrite (chained_sequence _ _ _ _ _ _ _ _ _ Hc Hi), zlen_app. change (zlen [v]) with 1. unfold zlen in *. lia.
Qed.

Lemma inspects_ok l file vs i : holds verify l (content file) vs -> path_ok i = true -> mtime file = modTimeNano l -> validateFileStateLocked i file l = Ok tt.
Proof.
  intros H Hp Ht. unfold validateFileStateLocked, validateEvidencePathFile. pose proof (h_size _ _ _ _ H).
  rewrite Hp, (proj2 (Z.ltb_ge _ _)) by lia. cbn [andb negb]. by rewrite (h_bytes _ _ _ _ H), Z.eqb_refl, Ht, Z.eqb_refl.
Qed.

(** The place of the checkpoint before a coordinate. *)
Definition stride_before (c : Coordinate) : nat := Z.to_nat (checkpointStride * (CSequence c / checkpointStride)).

Lemma stride_before_spec c : 0 <= CSequence c ->
  Z.of_nat (stride_before c) = checkpointStride * (CSequence c / checkpointStride) /\ 0 <= CSequence c / checkpointStride /\
  Z.of_nat (stride_before c) <= CSequence c < Z.of_nat (stride_before c) + checkpointStride.
Proof.
  intros Hn. pose proof (Z.div_mod (CSequence c) checkpointStride ltac:(done)). pose proof (Z.mod_pos_bound (CSequence c) checkpointStride ltac:(done)).
  assert (0 <= CSequence c / checkpointStride) by (apply Z.div_pos; [lia | done]).
  assert (Hk : Z.of_nat (stride_before c) = checkpointStride * (CSequence c / checkpointStride)) by (apply Z2Nat.id; change checkpointStride with 128 in *; lia). lia.
Qed.

(** An export below the head starts at the checkpoint before its coordinate. *)
Lemma export_start l file vs i c : holds verify l (content file) vs -> path_ok i = true -> reads_ok i = true -> mtime file = modTimeNano l ->
  0 <= CSequence c < zlen vs ->
  export_checked verify i file l c =
  let k := stride_before c in
  if (Z.of_nat k =? CSequence c) && negb (bool_decide (head_hash zeroHash (take k vs) = CChainHash c)) then Refuse ErrDeltaCoordinate else
  match export_loop verify l c (S (length (content file))) (bytes_of_chain (drop k vs))
          (mkExport (Z.of_nat k =? CSequence c) (head_hash zeroHash (take k vs)) (Z.of_nat k + 1) 0 (zlen (bytes_of_chain (take k vs))) 0 [] c) with
  | Fatal e => Fatal e
  | Refuse e => Refuse e
  | Good x => if negb (x_found x) then Fatal "evidence checkpoint replay did not reach the requested coordinate"
              else Good (delta_of l (x_head x) (x_frames x) (CSequence (x_head x) <? zlen vs), x_scannedRecords x)
  end.
Proof.
  intros H Hp Hr Ht Hn. destruct (stride_before_spec c ltac:(lia)) as (Hk & Hj & Hkn). cbv zeta. unfold export_checked.
  rewrite (inspects_ok l file vs i), (holds_local _ _ _ _ H), (proj2 (Z.ltb_ge _ _)), (proj2 (Z.eqb_neq _ _)) by (done || lia).
  rewrite (holds_checkpoint _ _ _ _ _ H Hj) by lia. cbn [KSequence KOffset KChainHash]. fold (stride_before c). rewrite <- Hk.
  destruct (holds_split _ _ _ _ (stride_before c) H ltac:(unfold zlen in *; lia)) as (Hc & Hd & Hz).
  pose proof (zlen_nonneg (bytes_of_chain (take (stride_before c) vs))). pose proof (zlen_nonneg (bytes_of_chain (drop (stride_before c) vs))).
  rewrite Hk at 1. rewrite Z.mul_comm, Z.eqb_refl, !(proj2 (Z.ltb_ge _ _)) by lia. cbn [negb orb].
  by rewrite Hr, Hd, (next_u64 verify l (content file) vs _ H) by lia.
Qed.

(** The frames between the checkpoint and the coordinate. *)
Definition skipped (vs : list VerifiedReceipt) (c : Coordinate) : list VerifiedReceipt :=
  take (Z.to_nat (CSequence c) - stride_before c) (drop (stride_before c) vs).

Lemma skipped_spec vs c : 0 <= CSequence c < zlen vs ->
  drop (stride_before c) vs = skipped vs c ++ drop (Z.to_nat (CSequence c)) vs /\
  take (Z.to_nat (CSequence c)) vs = take (stride_before c) vs ++ skipped vs c /\ zlen (skipped vs c) = CSequence c - Z.of_nat (stride_before c).
Proof.
  intros Hn. destruct (stride_before_spec c ltac:(lia)) as (_ & _ & Hkn). unfold skipped. split_and!.
  - rewrite <- (take_drop (Z.to_nat (CSequence c) - stride_before c) (drop (stride_before c) vs)) at 1. f_equal. rewrite drop_drop. f_equal. lia.
  - rewrite take_take_drop. f_equal. lia.
  - unfold zlen in *. rewrite length_take, length_drop. lia.
Qed.

Lemma export_found_ok l file vs c fuel x : holds verify l (content file) vs -> at_coordinate vs c -> CSequence c < zlen vs ->
  (length (drop (Z.to_nat (CSequence c)) vs) < fuel)%nat -> x_expected x = CSequence c + 1 -> x_previous x = CChainHash c -> x_found x = true -> x_frames x = [] ->
  x_total x = 0 -> x_head x = c -> x_scannedBytes x + zlen (bytes_of_chain (drop (Z.to_nat (CSequence c)) vs)) = logBytes l -> 0 <= x_scannedRecords x < checkpointStride ->
  exists x', export_loop verify l c fuel (bytes_of_chain (drop (Z.to_nat (CSequence c)) vs)) x = Good x' /\ x_found x' = true /\ x_frames x' = Frame <$> sent vs c /\
    x_head x' = coordinate_after c (sent vs c) /\ 0 <= x_scannedRecords x' <= 2 * MaxDeltaRecords - 1.
Proof.
  intros H [Hn Hh] Hlt Hf X1 X2 X3 X4 X5 X6 X7 X8. set (n := Z.to_nat (CSequence c)) in *. destruct (holds_split _ _ _ _ n H ltac:(unfold zlen in *; lia)) as (Hcn & _ & _).
  destruct (export_found l (content file) vs c fuel (drop n vs) x H) as (x' & E1 & E2 & E3 & E4 & E5); try done; try lia.
  - rewrite X1, X2, Hh. by replace (CSequence c) with (Z.of_nat n) by lia.
  - rewrite X1. unfold zlen in *. rewrite length_drop. lia.
  - by rewrite X4.
  - exists x'. rewrite X4, X5, X6 in *. rewrite zlen_nil in *. change (Z.to_nat (MaxDeltaRecords - 0)) with 128%nat in *. split_and!; try done; unfold checkpointStride in *; lia.
Qed.

Lemma export_skip_start l file vs c : holds verify l (content file) vs -> 0 <= CSequence c < zlen vs -> Z.of_nat (stride_before c) <> CSequence c ->
  let k := stride_before c in
  let x := mkExport false (head_hash zeroHash (take k vs)) (Z.of_nat k + 1) 0 (zlen (bytes_of_chain (take k vs))) 0 [] c in
  let n := Z.to_nat (CSequence c) in
  (head_hash zeroHash (take n vs) <> CChainHash c ->
     export_loop verify l c (S (length (content file))) (bytes_of_chain (drop k vs)) x = Refuse ErrDeltaCoordinate) /\
  (head_hash zeroHash (take n vs) = CChainHash c -> exists fuel, (length (drop n vs) < fuel)%nat /\
     export_loop verify l c (S (length (content file))) (bytes_of_chain (drop k vs)) x =
     export_loop verify l c fuel (bytes_of_chain (drop n vs))
       (mkExport true (CChainHash c) (CSequence c + 1) (CSequence c - Z.of_nat k) (zlen (bytes_of_chain (take n vs))) 0 [] c)).
Proof.
  intros H Hn Hne. cbv zeta. destruct (stride_before_spec c ltac:(lia)) as (_ & _ & Hkn). destruct (skipped_spec vs c Hn) as (Hd & Ht & Hz).
  destruct (holds_split _ _ _ _ (stride_before c) H ltac:(unfold zlen in *; lia)) as (Hc & _ & Hb).
  pose proof (bytes_length _ _ _ _ _ _ _ (h_chain _ _ _ _ H)) as Hfu. rewrite <- (h_file _ _ _ _ H) in Hfu.
  rewrite Ht, bytes_of_chain_app, zlen_app. rewrite Hd in Hc, Hb. rewrite Hd.
  destruct (export_skip l (content file) vs c (S (length (content file))) (skipped vs c) (drop (Z.to_nat (CSequence c)) vs)
    (mkExport false (head_hash zeroHash (take (stride_before c) vs)) (Z.of_nat (stride_before c) + 1) 0 (zlen (bytes_of_chain (take (stride_before c) vs))) 0 [] c)) as [H1 H2];
    cbn [x_expected x_previous x_scannedBytes x_found x_frames x_total x_head x_scannedRecords]; try done; try lia.
  - rewrite <- Hd, length_drop. lia.
  - intros E. rewrite E, zlen_nil in Hz. lia.
  - rewrite <- Hd. unfold zlen in *. rewrite length_drop. lia.
  - assert (Hhead : head_hash zeroHash (take (stride_before c) vs ++ skipped vs c) = head_hash (head_hash zeroHash (take (stride_before c) vs)) (skipped vs c)).
    { unfold head_hash. rewrite last_app. by destruct (last (skipped vs c)). }
    cbn [x_previous x_scannedRecords x_scannedBytes x_total x_frames x_head] in H1, H2. rewrite Hhead, <- Hz. split; [exact H1 | exact H2].
Qed.

Lemma export_ok l file vs i c : holds verify l (content file) vs -> is_open l = true -> path_ok i = true -> reads_ok i = true -> mtime file = modTimeNano l -> at_coordinate vs c ->
  exists scanned, exportDelta verify i file l c =
    (l, Ok (delta_of l (coordinate_after c (sent vs c)) (Frame <$> sent vs c) (CSequence (coordinate_after c (sent vs c)) <? zlen vs), scanned)) /\
    0 <= scanned <= 2 * MaxDeltaRecords - 1.
Proof.
  intros H Hop Hp Hr Ht Hat. assert (Hat' := Hat). destruct Hat as [Hn Hh]. unfold exportDelta, validateCoordinate.
  replace ((CSequence c =? 0) && negb (bool_decide (CChainHash c = zeroHash))) with false.
  2:{ destruct (Z.eqb_spec (CSequence c) 0) as [E | E]; [|done]. rewrite Hh, E. cbn. done. }
  cbn [negb]. rewrite Hop. cbn [negb]. destruct (Z.eqb_spec (CSequence c) (zlen vs)) as [E | E].
  - assert (Hs : sent vs c = []) by (unfold sent; by rewrite drop_ge by (unfold zlen in *; lia)). unfold export_checked.
    rewrite (inspects_ok l file vs i), (holds_local _ _ _ _ H), (proj2 (Z.ltb_ge _ _)), (proj2 (Z.eqb_eq _ _) E) by (done || lia).
    rewrite Hs. change (coordinate_after c []) with c. rewrite take_ge in Hh by (unfold zlen in *; lia). rewrite (h_hash _ _ _ _ H), <- Hh, bool_decide_true by done. cbn [negb].
    destruct (verifyTail_ok verify i file l vs H Hr) as [Ev | [_ Ev]]; assert (Hb := Ev); apply (verifyTail_bound _ _ _ _ vs) in Hb; try done; rewrite Ev;
      eexists; (split; [rewrite E, Z.ltb_irrefl; unfold delta_of; cbn [CSequence CChainHash]; by rewrite E|]); unfold checkpointStride, MaxDeltaRecords in *; lia.
  - assert (Hlt : 0 <= CSequence c < zlen vs) by lia. rewrite (export_start l file vs i c) by done. cbv zeta.
    destruct (stride_before_spec c ltac:(lia)) as (_ & _ & Hkn). destruct (holds_split _ _ _ _ (Z.to_nat (CSequence c)) H ltac:(unfold zlen in *; lia)) as (_ & _ & Hz).
    destruct (Z.eqb_spec (Z.of_nat (stride_before c)) (CSequence c)) as [Eq | Eq].
    + assert (Hk : stride_before c = Z.to_nat (CSequence c)) by lia. rewrite Hk in *. rewrite <- Hh, bool_decide_true by done. cbn [negb andb].
      pose proof (bytes_length _ _ _ _ _ _ _ (h_chain _ _ _ _ H)) as Hfu. rewrite <- (h_file _ _ _ _ H) in Hfu.
      edestruct (export_found_ok l file vs c) as (x' & E1 & E2 & E3 & E4 & E5); [exact H | exact Hat' | lia | | | | | | | | | |rewrite E1, E2, E3, E4; cbn [negb]; eexists; split; [done | exact E5]];
        cbn [x_expected x_previous x_scannedBytes x_found x_frames x_total x_head x_scannedRecords]; try done; try lia. rewrite length_drop. lia.
    + destruct (export_skip_start l file vs c H Hlt Eq) as [_ Hskip]. destruct (Hskip (eq_sym Hh)) as (fuel & Hfuel & ->).
      edestruct (export_found_ok l file vs c) as (x' & E1 & E2 & E3 & E4 & E5); [exact H | exact Hat' | lia | exact Hfuel | | | | | | | | |cbn [andb]; rewrite E1, E2, E3, E4; cbn [negb]; eexists; split; [done | exact E5]];
        cbn [x_expected x_previous x_scannedBytes x_found x_frames x_total x_head x_scannedRecords]; try done; lia.
Qed.

Lemma export_refuses l file vs i c : holds verify l (content file) vs -> is_open l = true -> path_ok i = true -> reads_ok i = true -> mtime file = modTimeNano l ->
  0 <= CSequence c -> validateCoordinate c = Ok tt -> ~ at_coordinate vs c -> exportDelta verify i file l c = (l, Err ErrDeltaCoordinate).
Proof.
  intros H Hop Hp Hr Ht Hn Hv Hat. unfold exportDelta. rewrite Hv, Hop. cbn [negb].
  assert (Hne : CSequence c <= zlen vs -> head_hash zeroHash (take (Z.to_nat (CSequence c)) vs) <> CChainHash c) by (intros Hle E; by apply Hat).
  destruct (decide (zlen vs <= CSequence c)) as [Hge | Hlt].
  - unfold export_checked. rewrite (inspects_ok l file vs i), (holds_local _ _ _ _ H) by done. destruct (Z.ltb_spec (zlen vs) (CSequence c)); [done|].
    rewrite (proj2 (Z.eqb_eq _ _)) by lia. rewrite take_ge in Hne by (unfold zlen in *; lia). by rewrite (h_hash _ _ _ _ H), bool_decide_false by (intros E; apply Hne; [lia | done]).
  - rewrite (export_start l file vs i c) by (done || lia). cbv zeta. specialize (Hne ltac:(lia)).
    destruct (Z.eqb_spec (Z.of_nat (stride_before c)) (CSequence c)) as [Eq | Eq].
    + replace (stride_before c) with (Z.to_nat (CSequence c)) by lia. by rewrite bool_decide_false.
    + destruct (export_skip_start l file vs c H ltac:(lia) Eq) as [Hskip _]. cbn [andb]. by rewrite Hskip.
Qed.

(** ** Verifying what was exported *)

Lemma fitting_sizes public nodeID epoch expected previous room total ws : chained verify public nodeID epoch expected previous ws ->
  check_frame_sizes total (Frame <$> fitting room total ws) = Ok tt.
Proof.
  revert expected previous room total. induction ws as [|v ws IH]; intros expected previous [|room] total; [done..|]. intros [Hl Hc]. cbn [fitting].
  destruct (MaxDeltaBytes - zlen (Frame v) <? total) eqn:E; [done|]. rewrite fmap_cons. cbn [check_frame_sizes].
  apply link_facts in Hl as (_ & _ & _ & _ & _ & _ & _ & Hz). rewrite !(proj2 (Z.ltb_ge _ _)) by lia. cbn [negb orb]. by eapply IH.
Qed.

(** The first frame always fits: progress. *)
Lemma fitting_first public nodeID epoch expected previous room ws : chained verify public nodeID epoch expected previous ws -> fitting (S room) 0 ws = [] -> ws = [].
Proof.
  destruct ws as [|v ws]; [done|]. intros [Hl _]. apply link_facts in Hl as (_ & _ & _ & _ & _ & _ & _ & Hz). cbn [fitting].
  rewrite (proj2 (Z.ltb_ge _ _)); [done|]. change MaxDeltaBytes with 716800. change MaxEnvelopeBytes with 65536 in Hz. lia.
Qed.

Lemma verify_frames_ok {A} public nodeID epoch member (visit : A -> VerifiedReceipt -> result A) ws expected previous head seen seen' : chained verify public nodeID epoch expected previous ws ->
  0 <= expected -> expected + zlen ws < 2 ^ 64 -> (forall v, v ∈ ws -> member (TenantID (REvent (VReceipt v))) = true) -> fold_ok visit seen ws = Ok seen' ->
  verify_frames verify public nodeID epoch member visit (Frame <$> ws) expected previous head seen = Ok (coordinate_after head ws, seen').
Proof.
  revert expected previous head seen. induction ws as [|v ws IH]; intros expected previous head seen Hc H0 H64 Hm Hv; [by injection Hv as <-|].
  destruct Hc as [Hl Hc]. rewrite zlen_cons in H64. pose proof (zlen_nonneg ws). rewrite fmap_cons. cbn [verify_frames fold_ok] in *.
  destruct Hl as (raw & Hf & Hs & He). rewrite (proj2 (verifyCanonicalFrame_iff verify _ _ _ _ _ _ (VReceipt v, ChainHash v))) by (apply verifyFrame_exact; eauto).
  rewrite Hm by left. assert (mkVerified (VReceipt v) (ChainHash v) (Frame v) = v) as -> by by destruct v. step Hv. rewrite coordinate_after_cons.
  rewrite u64_small by (unfold in_u64; lia). apply IH; [done | lia | lia | | done]. intros w Hw. apply Hm. by right.
Qed.

Lemma identity_valid l : identified l -> valid_identity (public l) (nodeID l) (epoch l) = true.
Proof.
  intros (Hp & Hpub & _ & Hn & _ & He). unfold valid_identity. rewrite Hn, (proj2 (Z.eqb_neq (epoch l) _)) by done. rewrite Hpub. unfold public_of.
  assert (E : zlen (drop 32 (private l)) = 32) by (unfold zlen in *; rewrite length_drop; unfold Dsse.PrivateKeySize in Hp; lia). by rewrite E.
Qed.

Lemma sent_in vs c v : v ∈ sent vs c -> v ∈ vs.
Proof.
  unfold sent. destruct (fitting_prefix 128 0 (drop (Z.to_nat (CSequence c)) vs)) as [rest E]. intros Hv. rewrite <- (take_drop (Z.to_nat (CSequence c)) vs), E. set_solver.
Qed.

Lemma sent_chained l f vs c : holds verify l f vs -> at_coordinate vs c -> chained verify (public l) (nodeID l) (epoch l) (CSequence c + 1) (CChainHash c) (sent vs c).
Proof.
  intros H [Hn Hh]. destruct (holds_split _ _ _ _ (Z.to_nat (CSequence c)) H ltac:(unfold zlen in *; lia)) as (Hc & _ & _).
  rewrite Z2Nat.id, <- Hh in Hc by lia. unfold sent. destruct (fitting_prefix 128 0 (drop (Z.to_nat (CSequence c)) vs)) as [rest E]. rewrite E in Hc. by apply chained_app in Hc as [Hc _].
Qed.

Lemma delta_verifies {A} l file vs c member (visit : A -> VerifiedReceipt -> result A) seen seen' : live verify l file vs -> at_coordinate vs c ->
  (forall v, v ∈ sent vs c -> member (TenantID (REvent (VReceipt v))) = true) -> fold_ok visit seen (sent vs c) = Ok seen' ->
  VerifyDeltaRecords verify (public l) (nodeID l) (epoch l) member visit (Frame <$> sent vs c) c seen =
  Ok (DHead (delta_of l (coordinate_after c (sent vs c)) [] false), seen').
Proof.
  intros Hv Hat Hm Hf. pose proof (v_holds _ _ _ _ Hv) as H. pose proof (holds_count _ _ _ _ H) as Hcount. pose proof (zlen_nonneg (sent vs c)) as Hnn.
  pose proof (sent_chained _ _ _ _ H Hat) as Hc. pose proof (sent_room _ _ Hat) as Hr. assert (Hat' := Hat). destruct Hat' as [Hn Hh]. unfold VerifyDeltaRecords.
  rewrite (identity_valid l (v_identified _ _ _ _ Hv)). unfold validateCoordinate.
  replace ((CSequence c =? 0) && negb (bool_decide (CChainHash c = zeroHash))) with false.
  2:{ destruct (Z.eqb_spec (CSequence c) 0) as [E | E]; [|done]. rewrite Hh, E. cbn. done. }
  assert (Hlen : zlen (Frame <$> sent vs c) = zlen (sent vs c)) by (unfold zlen; by rewrite length_fmap). rewrite Hlen.
  assert (H128 : zlen (sent vs c) <= MaxDeltaRecords) by (unfold zlen, sent; pose proof (fitting_length 128 0 (drop (Z.to_nat (CSequence c)) vs)); unfold MaxDeltaRecords; lia).
  rewrite (proj2 (Z.leb_le _ _) H128). cbn [negb]. unfold sent at 1. destruct (holds_split _ _ _ _ (Z.to_nat (CSequence c)) H ltac:(unfold zlen in *; lia)) as (Hcn & _ & _).
  rewrite (fitting_sizes _ _ _ _ _ _ _ _ Hcn). change MaxLogBytes with 67108864 in *.
  rewrite (proj2 (Z.leb_le _ _)) by (unfold maxUint64; lia). rewrite u64_small by (unfold in_u64; lia).
  rewrite (verify_frames_ok _ _ _ _ _ _ _ _ _ _ _ Hc) by (done || lia). destruct (v_identified _ _ _ _ Hv) as (_ & _ & Hk & _). by rewrite <- Hk.
Qed.

(** C16: A delta is exactly the next receipts. From a coordinate of the chain, an export returns the frames of the receipts that follow it, as
    many as a delta carries, with the coordinate after them and whether receipts remain; it scans at most 255 records, sends something unless
    the coordinate is the head, and a controller that retained the coordinate verifies it to the same head, seeing exactly those receipts. Any other coordinate is
    refused as not local, and the handle stays open. *)
Theorem export_delta_exact {A} l file vs i c member (visit : A -> VerifiedReceipt -> result A) seen seen' :
  live verify l file vs -> path_ok i = true -> reads_ok i = true -> 0 <= CSequence c -> validateCoordinate c = Ok tt ->
  (at_coordinate vs c -> exists delta scanned, exportDelta verify i file l c = (l, Ok (delta, scanned)) /\ 0 <= scanned <= 2 * MaxDeltaRecords - 1 /\
     Frames delta = Frame <$> sent vs c /\ More delta = (HSequence (DHead delta) <? zlen vs) /\
     HSequence (DHead delta) = CSequence c + zlen (sent vs c) /\
     HChainHash (DHead delta) = head_hash zeroHash (take (Z.to_nat (HSequence (DHead delta))) vs) /\ (sent vs c = [] -> CSequence c = zlen vs) /\
     ((forall v, v ∈ sent vs c -> member (TenantID (REvent (VReceipt v))) = true) -> fold_ok visit seen (sent vs c) = Ok seen' ->
      VerifyDeltaRecords verify (public l) (nodeID l) (epoch l) member visit (Frames delta) c seen = Ok (DHead delta, seen'))) /\
  (~ at_coordinate vs c -> exportDelta verify i file l c = (l, Err ErrDeltaCoordinate)).
Proof.
  intros Hv Hp Hr Hn Hvc. pose proof (v_holds _ _ _ _ Hv) as H. pose proof (eq_sym (v_time _ _ _ _ Hv)) as Htm. split; [|by apply (export_refuses l file vs); try apply Hv].
  intros Hat. destruct (export_ok l file vs i c) as (scanned & E & Hs); try apply Hv; try done. do 2 eexists. split; [exact E|]. split; [done|]. unfold delta_of. cbn [Frames DHead More HSequence HChainHash].
  rewrite (coordinate_after_at l (content file) vs c H Hat). cbn [CSequence CChainHash]. split_and!; try done.
  - intros Hnil. destruct Hat as [Hle Hh]. destruct (holds_split _ _ _ _ (Z.to_nat (CSequence c)) H ltac:(unfold zlen in *; lia)) as (Hc & _ & _).
    apply (fitting_first _ _ _ _ _ 127 _ Hc) in Hnil. apply (f_equal length) in Hnil. rewrite length_drop in Hnil. unfold zlen in *. cbn in Hnil. lia.
  - intros Hm Hf. rewrite (delta_verifies l file vs c member visit seen seen') by done. unfold delta_of. by rewrite (coordinate_after_at l (content file) vs c H Hat).
Qed.
End Ed25519.

(** ** Heads *)

(** Two chains that end in the same hash, of the same length, have the same receipts: whatever keys signed them. *)
Lemma heads_pin verify verify' public public' nodeID nodeID' epoch epoch' vs vs' :
  chained verify public nodeID epoch 1 zeroHash vs -> chained verify' public' nodeID' epoch' 1 zeroHash vs' -> length vs = length vs' ->
  head_hash zeroHash vs = head_hash zeroHash vs' -> VReceipt <$> vs = VReceipt <$> vs' \/ collision.
Proof.
  revert vs'. induction vs as [|v vs IH] using rev_ind; intros vs' H H' Hl Hh; [destruct vs'; [by left | done]|].
  destruct vs' as [|v' vs' _] using rev_ind; [rewrite length_app in Hl; cbn in Hl; lia|]. rewrite !length_app in Hl. cbn in Hl. rewrite !head_hash_snoc in Hh.
  apply chained_app in H as [H [Hv _]]. apply chained_app in H' as [H' [Hv' _]].
  apply link_facts in Hv as (_ & Hp & Hc & Ht & Hk & _). apply link_facts in Hv' as (_ & Hp' & Hc' & Ht' & Hk' & _). rewrite Hc, Hc' in Hh.
  assert (Hz : zlen (head_hash zeroHash vs) = zlen (head_hash zeroHash vs')) by (rewrite <- Hp, <- Hp'; destruct Ht as [-> _], Ht' as [-> _]; done).
  destruct (chainHash_binds (head_hash zeroHash vs) (head_hash zeroHash vs') _ _ Hz Ht Hk Ht' Hk' Hh) as [[Ep Er] | Hcol]; [|by right].
  destruct (IH vs' H H' ltac:(lia) Ep) as [E | Hcol]; [|by right]. left. rewrite !fmap_app, E. cbn. by rewrite Er.
Qed.

(** The visitor that keeps every verified record. *)
Definition collect (vs : list VerifiedReceipt) (v : VerifiedReceipt) : result (list VerifiedReceipt) := Ok (vs ++ [v]).
Lemma fold_collect vs ws : fold_ok collect vs ws = Ok (vs ++ ws).
Proof. revert vs. induction ws as [|w ws IH]; intros vs; [by rewrite app_nil_r|]. cbn. by rewrite IH, <- app_assoc. Qed.

Lemma VerifyRecords_chain {A} verify opened file public nodeID epoch (visit : A -> VerifiedReceipt -> result A) seen head seen' :
  VerifyRecords verify opened file public nodeID epoch visit seen = Ok (head, seen') ->
  exists vs tail, file = bytes_of_chain vs ++ tail /\ readFrame tail = EndOfFile /\ chained verify public nodeID epoch 1 zeroHash vs /\ fold_ok visit seen vs = Ok seen' /\
    head = mkHead nodeID epoch (zlen vs) (head_hash zeroHash vs) (KeyID public).
Proof.
  unfold VerifyRecords. intros H. step H. step H. step H. destruct (verifyFileState _ _ _ _ _ _ _ _) as [s|] eqn:Ev; [|done].
  apply verifyFileState_iff in Ev as (vs & tail & seen1 & Hf & Ht & Hc & Hz & Hv & ->). injection H as <- <-. exists vs, tail. split_and!; try done.
  cbn [s_expected s_previous]. pose proof (chained_size _ _ _ _ _ _ _ Hc). pose proof (zlen_nonneg vs). rewrite u64_small; [f_equal; lia|]. unfold in_u64. change MaxLogBytes with 67108864 in *. lia.
Qed.

(** A retained head pins the history before it. If a log was verified once with some head, and a log that is verified later has, at that
    sequence number, the chain hash of that head, then the earlier log is a prefix of the later one, receipt by receipt, whichever keys
    verified them, unless two texts have the same SHA-256 digest. So a log that was truncated, reordered or rewritten below a retained head cannot show it. *)
Theorem evidence_head_pins verify verify' opened opened' file file' public public' nodeID nodeID' epoch epoch' head head' vs vs' :
  VerifyRecords verify opened file public nodeID epoch collect [] = Ok (head, vs) ->
  VerifyRecords verify' opened' file' public' nodeID' epoch' collect [] = Ok (head', vs') ->
  HSequence head = zlen vs /\
  (head_hash zeroHash (take (Z.to_nat (HSequence head)) vs') = HChainHash head -> HSequence head <= HSequence head' ->
     VReceipt <$> vs `prefix_of` VReceipt <$> vs' \/ collision).
Proof.
  intros H H'. apply VerifyRecords_chain in H as (ws & tail & _ & _ & Hc & Hf & ->). apply VerifyRecords_chain in H' as (ws' & tail' & _ & _ & Hc' & Hf' & ->).
  rewrite fold_collect in Hf, Hf'. injection Hf as <-. injection Hf' as <-. cbn [app HSequence HChainHash]. split; [done|]. intros Hh Hle.
  assert (Hn : (Z.to_nat (zlen ws) <= length ws')%nat) by (unfold zlen in *; lia). set (n := Z.to_nat (zlen ws)) in *.
  rewrite <- (take_drop n ws') in Hc'. apply chained_app in Hc' as [Hc' _].
  destruct (heads_pin _ _ _ _ _ _ _ _ _ _ Hc Hc' ltac:(rewrite length_take; unfold zlen in *; lia) (eq_sym Hh)) as [E | Hcol]; [left | by right].
  exists (VReceipt <$> drop n ws'). by rewrite E, <- fmap_app, take_drop.
Qed.

(** ** A torn header *)

Lemma live_verifies verify l file vs tail : live verify l file vs -> readFrame tail = EndOfFile -> zlen (content file ++ tail) <= MaxLogBytes ->
  VerifyRecords verify true (content file ++ tail) (public l) (nodeID l) (epoch l) collect [] = Ok (mkHead (nodeID l) (epoch l) (next l - 1) (lastHash l) (keyID l), vs).
Proof.
  intros Hv Ht Hl. pose proof (v_holds _ _ _ _ Hv) as H. pose proof (holds_count _ _ _ _ H). pose proof (zlen_nonneg vs). pose proof (h_file _ _ _ _ H) as Hf.
  destruct (v_identified _ _ _ _ Hv) as (_ & Hpub & Hk & Hn & He & _). unfold VerifyRecords. rewrite (identity_valid l (v_identified _ _ _ _ Hv)), (proj2 (Z.leb_le _ _) Hl).
  erewrite (proj2 (verifyFileState_iff _ _ _ _ _ _ _ _ _)).
  2:{ exists vs, tail, vs. split_and!; try done; [by rewrite <- Hf | apply (h_chain _ _ _ _ H) | rewrite <- Hf, zlen_app in *; pose proof (zlen_nonneg tail); lia | by rewrite fold_collect]. }
  cbn [s_expected s_previous s_seen]. rewrite u64_small by (unfold in_u64; change MaxLogBytes with 67108864 in *; lia).
  by rewrite Hk, (h_hash _ _ _ _ H), (h_next _ _ _ _ H).
Qed.

(** C40: A log cut inside the write of a frame, right after its four-byte header, is refused by [Open] but verified without remark by
    [VerifyRecords], with the head of the log before the cut: the end of file that the second read of
    [readFrame] meets is wrapped and passes for the end of the log. *)
Theorem torn_header_verifies verify l file vs size path attempts c i d u opened : live verify l file vs -> 0 < size <= MaxEnvelopeBytes -> zlen (content file) + 4 <= MaxLogBytes ->
  opened = true -> Forall (fun a => a_stat a <> NotExist) attempts ->
  let cut := content file ++ be_encode 4 size in
  VerifyRecords verify opened cut (public l) (nodeID l) (epoch l) collect [] = VerifyRecords verify opened (content file) (public l) (nodeID l) (epoch l) collect [] /\
  VerifyRecords verify opened cut (public l) (nodeID l) (epoch l) collect [] = Ok (mkHead (nodeID l) (epoch l) (next l - 1) (lastHash l) (keyID l), vs) /\
  is_ok (Open verify path attempts c i d u (mkFile cut (mtime file)) (private l) (nodeID l) (epoch l)) = false.
Proof.
  intros Hv Hs Hz -> Hex. cbv zeta. pose proof (v_holds _ _ _ _ Hv) as H. pose proof (holds_count _ _ _ _ H). pose proof (zlen_nonneg vs).
  pose proof (h_file _ _ _ _ H) as Hf. pose proof (h_chain _ _ _ _ H) as Hc. destruct (v_identified _ _ _ _ Hv) as (_ & Hpub & Hk & Hn & He & _).
  assert (Hgen := fun tail => live_verifies verify l file vs tail Hv).
  assert (Hcut := Hgen (be_encode 4 size) ltac:(apply readFrame_end; right; eauto) ltac:(rewrite zlen_app, zlen_be_encode; lia)).
  assert (Hwhole := Hgen [] eq_refl ltac:(rewrite app_nil_r; lia)). rewrite app_nil_r in Hwhole. split; [congruence|]. split; [done|].
  destruct (Open _ _ _ _ _ _ _ _ _ _ _) as [[file' l']|] eqn:Eo; [|done]. exfalso.
  apply Open_live in Eo as ((us & Hv') & Hp' & Hn' & He' & Hfe); [|done]. specialize (Hfe Hex). subst file'.
  pose proof (h_chain _ _ _ _ (v_holds _ _ _ _ Hv')) as Hc'. pose proof (h_file _ _ _ _ (v_holds _ _ _ _ Hv')) as Hf'. cbn [content] in Hf'.
  destruct (v_identified _ _ _ _ Hv') as (_ & Hpub' & _). rewrite Hpub', Hp', Hn', He', <- Hpub in Hc'. rewrite Hf in Hf'.
  destruct (chained_unique _ _ _ _ _ _ _ _ _ Hc Hc' Hf') as (ws & -> & Ew). apply chained_app in Hc' as [_ Hc']. destruct ws as [|w ws].
  - apply (f_equal zlen) in Ew. rewrite zlen_be_encode in Ew. done.
  - apply chained_size in Hc'. rewrite <- Ew, zlen_be_encode, zlen_cons in Hc'. pose proof (zlen_nonneg ws). lia.
Qed.

(** ** Witnesses *)

(** The sample log after one append. *)
Lemma sample_grown : exists l file v, live Dsse.toy_verify l file [v] /\ REvent (VReceipt v) = sample_event /\ same_identity sample_log l.
Proof.
  destruct (append_grows Dsse.toy_sign Dsse.toy_verify sample_log (mkFile [] 7) [] sample_event 8 sample_live sample_well_keyed) as (l & file & v & _ & Hl & He & Hid);
    [done.. |]. by exists l, file, v.
Qed.

(** The genesis of the grown log is exported: one frame, and no more. *)
Lemma export_delta_exact_witness : exists l file v delta scanned, live Dsse.toy_verify l file [v] /\
  exportDelta Dsse.toy_verify (good_io 9) file l (mkCoordinate 0 zeroHash) = (l, Ok (delta, scanned)) /\ Frames delta = [Frame v] /\ More delta = false /\
  VerifyDeltaRecords Dsse.toy_verify (public l) (nodeID l) (epoch l) (String.eqb "acme") collect (Frames delta) (mkCoordinate 0 zeroHash) [] = Ok (DHead delta, [v]).
Proof.
  destruct sample_grown as (l & file & v & Hl & He & Hid).
  destruct (export_delta_exact Dsse.toy_verify l file [v] (good_io 9) (mkCoordinate 0 zeroHash) (String.eqb "acme") collect [] [v] Hl eq_refl eq_refl) as [Hok _];
    [done | done |]. destruct Hok as (delta & scanned & E & _ & Hf & Hm & Hq & _ & Hs & Hv); [by split|].
  assert (Hsent : sent [v] (mkCoordinate 0 zeroHash) = [v]).
  { destruct (sent [v] (mkCoordinate 0 zeroHash)) as [|w ws] eqn:Es; [by specialize (Hs eq_refl)|].
    destruct (fitting_prefix 128 0 [v]) as [rest Er]. change (fitting 128 0 [v]) with (sent [v] (mkCoordinate 0 zeroHash)) in Er. rewrite Es in Er.
    injection Er as <- Er. symmetry in Er. by apply app_nil in Er as [-> _]. }
  rewrite Hsent in *. exists l, file, v, delta, scanned. split; [exact Hl|]. split; [exact E|]. split; [exact Hf|]. split; [by rewrite Hm, Hq|].
  apply Hv; [|reflexivity]. intros w ->%list_elem_of_singleton. by rewrite He.
Defined.

Lemma evidence_head_pins_witness : exists l file v head, live Dsse.toy_verify l file [v] /\
  VerifyRecords Dsse.toy_verify true (content file) (public l) (nodeID l) (epoch l) collect [] = Ok (head, [v]) /\ HSequence head = 1 /\
  (VReceipt <$> [v] `prefix_of` VReceipt <$> [v] \/ collision).
Proof.
  destruct sample_grown as (l & file & v & Hl & He & Hid). pose proof (h_size _ _ _ _ (v_holds _ _ _ _ Hl)) as Hz.
  pose proof (live_verifies Dsse.toy_verify l file [v] [] Hl eq_refl ltac:(by rewrite app_nil_r)) as Hver. rewrite app_nil_r in Hver. eexists l, file, v, _.
  split; [exact Hl|]. split; [exact Hver|].
  destruct (evidence_head_pins _ _ _ _ _ _ _ _ _ _ _ _ _ _ _ _ Hver Hver) as [Hs Hp]. split; [exact Hs|]. apply Hp; [|reflexivity].
  rewrite Hs. cbn [HChainHash]. symmetry. apply (h_hash _ _ _ _ (v_holds _ _ _ _ Hl)).
Defined.

Lemma torn_header_verifies_witness : exists l file v, live Dsse.toy_verify l file [v] /\
  is_ok (VerifyRecords Dsse.toy_verify true (content file ++ be_encode 4 300) (public l) (nodeID l) (epoch l) collect []) = true /\
  is_ok (Open Dsse.toy_verify true [good_attempt] true true true true (mkFile (content file ++ be_encode 4 300) (mtime file)) (private l) (nodeID l) (epoch l)) = false.
Proof.
  destruct sample_grown as (l & file & v & Hl & He & Hid).
  destruct (decide (zlen (content file) + 4 <= MaxLogBytes)) as [Hz | Hz].
  - destruct (torn_header_verifies Dsse.toy_verify l file [v] 300 true [good_attempt] true true true true true Hl) as (_ & Hv & Ho); [done | exact Hz | done | by repeat constructor |].
    exists l, file, v. split; [exact Hl|]. split; [by rewrite Hv | exact Ho].
  - exfalso. apply Hz. pose proof (h_file _ _ _ _ (v_holds _ _ _ _ Hl)) as Hf. rewrite Hf, bytes_of_chain_one. destruct (h_chain _ _ _ _ (v_holds _ _ _ _ Hl)) as [Hlk _].
    apply link_facts in Hlk as (_ & _ & _ & _ & _ & _ & _ & Hb). change MaxLogBytes with 67108864. change MaxEnvelopeBytes with 65536 in Hb. lia.
Defined.

End EvidenceDelta.
