(* ===== verification/ActivationCapture.v ===== *)
(** * Activation capture ([src/internal/evidence/activation_capture.go])

    The replay of signed receipts by which a controller, or an offline verifier, follows one activation from its begin marker to its
    checkpoint. The theorem relates it to the indexes by which the log decides whether a checkpoint may still be signed. *)

From Stdlib Require Import Ascii.
From S2P Require Import Prelude GoText GoCrypto GoFS Dsse EvidenceReceipt EvidenceLog EvidenceChain EvidenceSafety.
Import EvidenceReceipt EvidenceLog EvidenceChain EvidenceSafety.

(** A lemma depends on the section hypotheses its proof uses. *)
Unset Default Proof Using.

Module ActivationCapture.

Record ActivationCaptureTarget := mkTarget {
  TTenantID : string; TRuntimeRef : string; TGeneration : Z; TActivationID : string; ActivationBeginDigest : string; TActivationBeginSequence : Z;
  TCapsuleDigest : string; TPolicyDigest : string; TActivationCheckpointDigest : string }.

Record ActivationCaptureState := mkState {
  ActivationBeginSequence : Z; ActivationCheckpointSequence : Z; LatestLifecycleStartSequence : Z; SCapsuleDigest : string; SPolicyDigest : string;
  ActivationCheckpointDigest : string }.

Definition no_capture : ActivationCaptureState := mkState 0 0 0 "" "" "".

Definition activationCaptureDigest (value : string) : bool := sha256_digest value.
Definition empty (s : string) : bool := String.eqb s "".

Definition validActivationCaptureTarget (t : ActivationCaptureTarget) : bool :=
  validText (TTenantID t) 128 && validText (TRuntimeRef t) 512 && negb (TGeneration t =? 0) && validText (TActivationID t) 256
  && activationCaptureDigest (ActivationBeginDigest t) && Bool.eqb (empty (TCapsuleDigest t)) (empty (TPolicyDigest t))
  && (empty (TCapsuleDigest t) || activationCaptureDigest (TCapsuleDigest t)) && (empty (TPolicyDigest t) || activationCaptureDigest (TPolicyDigest t))
  && (empty (TActivationCheckpointDigest t) || activationCaptureDigest (TActivationCheckpointDigest t)).

Definition validActivationCaptureState (s : ActivationCaptureState) : bool :=
  if ActivationBeginSequence s =? 0 then
    (ActivationCheckpointSequence s =? 0) && (LatestLifecycleStartSequence s =? 0) && empty (SCapsuleDigest s) && empty (SPolicyDigest s)
    && empty (ActivationCheckpointDigest s)
  else if negb (activationCaptureDigest (SCapsuleDigest s)) || negb (activationCaptureDigest (SPolicyDigest s))
          || (negb (LatestLifecycleStartSequence s =? 0) && (LatestLifecycleStartSequence s <=? ActivationBeginSequence s)) then false
  else if ActivationCheckpointSequence s =? 0 then empty (ActivationCheckpointDigest s)
  else (ActivationBeginSequence s <? ActivationCheckpointSequence s) && activationCaptureDigest (ActivationCheckpointDigest s).

Definition activationCaptureMarkerRelated (e : Event) (t : ActivationCaptureTarget) : bool :=
  (String.eqb (TenantID e) (TTenantID t) && String.eqb (RuntimeRef e) (TRuntimeRef t) && (Generation e =? TGeneration t))
  || (String.eqb (TenantID e) (TTenantID t) && String.eqb (GrantID e) (TActivationID t)).

Definition activationCaptureMarkerIdentityMatches (e : Event) (t : ActivationCaptureTarget) : bool :=
  String.eqb (TenantID e) (TTenantID t) && String.eqb (RuntimeRef e) (TRuntimeRef t) && (Generation e =? TGeneration t)
  && String.eqb (GrantID e) (TActivationID t).

Definition activationCaptureRuntimeEventMatches (e : Event) (t : ActivationCaptureTarget) (s : ActivationCaptureState) : bool :=
  if negb (String.eqb (TenantID e) (TTenantID t)) || negb (Generation e =? TGeneration t) || negb (String.eqb (CapsuleDigest e) (SCapsuleDigest s))
     || negb (String.eqb (PolicyDigest e) (SPolicyDigest s)) then false
  else if EType e =? StatePurge then String.eqb (GrantID e) "state"
  else String.eqb (RuntimeRef e) (TRuntimeRef t).

(** The events after the markers. *)
Definition observe_lifecycle (s : ActivationCaptureState) (r : Receipt) : result ActivationCaptureState :=
  let e := REvent r in
  if EType e =? LifecycleStart then
    if (EOutcome e =? Committed) && String.eqb (GrantID e) "workload" then
      Ok (mkState (ActivationBeginSequence s) (ActivationCheckpointSequence s) (Sequence r) (SCapsuleDigest s) (SPolicyDigest s) (ActivationCheckpointDigest s))
    else Ok s
  else if EType e =? JournalCompensate then
    require negb ((EOutcome e =? Compensated) && negb (String.eqb (GrantID e) "state") && negb (LatestLifecycleStartSequence s =? 0)
                  && (LatestLifecycleStartSequence s <? Sequence r))
      else "activation capture contains compensation after target lifecycle start" in Ok s
  else if (EType e =? LifecycleStop) || (EType e =? LifecycleDestroy) || (EType e =? Drift) || (EType e =? Revocation) then
    require negb (took_effect e) else "activation capture contains a lifecycle-invalidating target event" in Ok s
  else if EType e =? StatePurge then
    require negb (String.eqb (GrantID e) "state" && took_effect e) else "activation capture contains a state-invalidating target purge" in Ok s
  else Ok s.

Definition observe_begin (t : ActivationCaptureTarget) (s : ActivationCaptureState) (r : Receipt) : result ActivationCaptureState :=
  let e := REvent r in
  require negb (negb (ActivationBeginSequence s =? 0) || negb (ActivationCheckpointSequence s =? 0) || negb (EOutcome e =? Allowed)
                || negb (empty (ErrorCode e)) || negb (String.eqb (MetadataHash e) (ActivationBeginDigest t))
                || negb (activationCaptureDigest (CapsuleDigest e)) || negb (activationCaptureDigest (PolicyDigest e))
                || (negb (TActivationBeginSequence t =? 0) && negb (Sequence r =? TActivationBeginSequence t))
                || (negb (empty (TCapsuleDigest t)) && negb (String.eqb (CapsuleDigest e) (TCapsuleDigest t)))
                || (negb (empty (TPolicyDigest t)) && negb (String.eqb (PolicyDigest e) (TPolicyDigest t))))
    else "activation capture contains a conflicting target activation begin" in
  Ok (mkState (Sequence r) (ActivationCheckpointSequence s) (LatestLifecycleStartSequence s) (CapsuleDigest e) (PolicyDigest e) (ActivationCheckpointDigest s)).

Definition observe_checkpoint (t : ActivationCaptureTarget) (s : ActivationCaptureState) (r : Receipt) : result ActivationCaptureState :=
  let e := REvent r in
  require negb ((ActivationBeginSequence s =? 0) || negb (ActivationCheckpointSequence s =? 0) || (Sequence r <=? ActivationBeginSequence s)
                || negb (EOutcome e =? Committed) || negb (empty (ErrorCode e)) || negb (String.eqb (CapsuleDigest e) (SCapsuleDigest s))
                || negb (String.eqb (PolicyDigest e) (SPolicyDigest s)) || negb (activationCaptureDigest (MetadataHash e))
                || (negb (empty (TActivationCheckpointDigest t)) && negb (String.eqb (MetadataHash e) (TActivationCheckpointDigest t))))
    else "activation capture contains a conflicting target checkpoint" in
  Ok (mkState (ActivationBeginSequence s) (Sequence r) (LatestLifecycleStartSequence s) (SCapsuleDigest s) (SPolicyDigest s) (MetadataHash e)).

Definition ObserveActivationCapture (t : ActivationCaptureTarget) (s : ActivationCaptureState) (r : Receipt) : result ActivationCaptureState :=
  let e := REvent r in
  require negb (negb (validActivationCaptureTarget t) || negb (validActivationCaptureState s) || (Sequence r =? 0))
    else "activation capture target, state, or receipt is invalid" in
  if (EType e =? ActivationBegin) || (EType e =? ActivationCheckpoint) then
    if negb (activationCaptureMarkerRelated e t) then Ok s else
    require activationCaptureMarkerIdentityMatches e t else "activation capture contains a conflicting target marker" in
    if EType e =? ActivationBegin then observe_begin t s r else observe_checkpoint t s r
  else if (ActivationBeginSequence s =? 0) || negb (activationCaptureRuntimeEventMatches e t s) then Ok s
  else observe_lifecycle s r.

(** ** The replay agrees with the indexes *)

Definition replay (t : ActivationCaptureTarget) (vs : list VerifiedReceipt) : result ActivationCaptureState :=
  fold_ok (fun s v => ObserveActivationCapture t s (VReceipt v)) no_capture vs.

Definition target_key (t : ActivationCaptureTarget) : string * string * Z := (TTenantID t, TRuntimeRef t, TGeneration t).

(** Within the tenant, no marker uses the identifier of the activation at another coordinate. *)
Definition unique_activation (t : ActivationCaptureTarget) (vs : list VerifiedReceipt) : Prop :=
  forall v, v ∈ vs -> let e := REvent (VReceipt v) in EType e = ActivationBegin \/ EType e = ActivationCheckpoint ->
  TenantID e = TTenantID t -> GrantID e = TActivationID t -> marker_key e = target_key t.

(** What the target expects of the begin marker and of the checkpoint. *)
Definition expects_begin (t : ActivationCaptureTarget) (b : activationMarker) : Prop :=
  ActivationID b = TActivationID t /\ Digest b = ActivationBeginDigest t /\ sha256_digest (MCapsuleDigest b) = true /\ sha256_digest (MPolicyDigest b) = true /\
  (TActivationBeginSequence t = 0 \/ TActivationBeginSequence t = Sequence (MReceipt b)) /\
  (TCapsuleDigest t = ""%string \/ TCapsuleDigest t = MCapsuleDigest b) /\ (TPolicyDigest t = ""%string \/ TPolicyDigest t = MPolicyDigest b).
Definition expects_checkpoint (t : ActivationCaptureTarget) (c : activationMarker) : Prop :=
  sha256_digest (Digest c) = true /\ (TActivationCheckpointDigest t = ""%string \/ TActivationCheckpointDigest t = Digest c).

(** The states of the runtime and of the tenant's state that invalidate. *)
Definition invalidated (ix : activationIndexes) (t : ActivationCaptureTarget) (b : activationMarker) : bool :=
  let runtimeState := state_at (invalidations ix) (TTenantID t, TRuntimeRef t, TGeneration t, MCapsuleDigest b, MPolicyDigest b, false) in
  let stateState := state_at (invalidations ix) (TTenantID t, ""%string, TGeneration t, MCapsuleDigest b, MPolicyDigest b, true) in
  negb (invalidatedAt runtimeState =? 0) || negb (invalidatedAt stateState =? 0)
  || (negb (postStartCompensationStart runtimeState =? 0) && (postStartCompensationStart runtimeState <? postStartCompensationAt runtimeState)).

(** The state the replay is in. *)
Definition agrees (t : ActivationCaptureTarget) (ix : activationIndexes) (n : Z) (s : ActivationCaptureState) : Prop :=
  match begins ix !! target_key t with
  | None => s = no_capture
  | Some b =>
      ActivationBeginSequence s = Sequence (MReceipt b) /\ 0 < ActivationBeginSequence s <= n /\ SCapsuleDigest s = MCapsuleDigest b /\ SPolicyDigest s = MPolicyDigest b /\
      match marks ix !! target_key t with
      | None => ActivationCheckpointSequence s = 0 /\ ActivationCheckpointDigest s = ""%string
      | Some c => ActivationCheckpointSequence s = Sequence (MReceipt c) /\ ActivationCheckpointDigest s = Digest c /\ ActivationBeginSequence s < Sequence (MReceipt c)
      end /\
      (LatestLifecycleStartSequence s = 0 \/ ActivationBeginSequence s < LatestLifecycleStartSequence s <= n /\
         latestStart (state_at (invalidations ix) (TTenantID t, TRuntimeRef t, TGeneration t, MCapsuleDigest b, MPolicyDigest b, false)) = LatestLifecycleStartSequence s)
  end.

(** What a receipt does to the state of its runtime. *)
Definition runtime_effect (r : Receipt) (st : activationInvalidationState) : activationInvalidationState :=
  let e := REvent r in
  if (EType e =? LifecycleStart) && (EOutcome e =? Committed) && String.eqb (GrantID e) "workload" then
    mkInvalidation (invalidatedAt st) (Sequence r) (postStartCompensationAt st) (postStartCompensationStart st)
  else if (EType e =? JournalCompensate) && (EOutcome e =? Compensated) && negb (String.eqb (GrantID e) "state") && negb (latestStart st =? 0) then
    mkInvalidation (invalidatedAt st) (latestStart st) (Sequence r) (latestStart st)
  else if ((EType e =? LifecycleStop) || (EType e =? LifecycleDestroy) || (EType e =? Drift) || (EType e =? Revocation)) && took_effect e then
    mkInvalidation (Sequence r) (latestStart st) (postStartCompensationAt st) (postStartCompensationStart st)
  else st.
Definition purges (e : Event) : bool := (EType e =? StatePurge) && took_effect e && String.eqb (GrantID e) "state".

Lemma state_at_insert m k x k' : state_at (<[k := x]> m) k' = if bool_decide (k' = k) then x else state_at m k'.
Proof. unfold state_at. case_bool_decide as E; [by rewrite E, lookup_insert_eq | by rewrite lookup_insert_ne]. Qed.

Lemma set_same m k x k' : x = state_at m k -> state_at (<[k := x]> m) k' = state_at m k'.
Proof. intros ->. rewrite state_at_insert. case_bool_decide as E; [by rewrite E | done]. Qed.

Ltac kinds := unfold LifecycleStart, JournalCompensate, LifecycleStop, LifecycleDestroy, Drift, Revocation, StatePurge; cbn [Z.eqb Pos.eqb negb orb andb].

Lemma apply_runtime m r tenant rref gen capsule policy : let k := (tenant, rref, gen, capsule, policy, false) in
  state_at (applyActivationInvalidation m r) k = if bool_decide (k = runtime_key (REvent r)) then runtime_effect r (state_at m k) else state_at m k.
Proof.
  cbv zeta. set (k := (_, _, _, _, _, false)). assert (Hk : k <> state_key (REvent r)) by done. unfold applyActivationInvalidation, runtime_effect. set (e := REvent r) in *.
  case_bool_decide as E.
  - rewrite <- E. destruct (EType e =? LifecycleStart) eqn:T1; [|destruct (EType e =? JournalCompensate) eqn:T2; [|destruct (_ || _ || _ || _) eqn:T3; [|destruct (EType e =? StatePurge) eqn:T4]]].
    + assert (EType e = LifecycleStart) as T by lia. rewrite T. kinds. destruct (EOutcome e =? Committed), (GrantID e =? "workload")%string; cbn [negb orb andb]; try done; rewrite state_at_insert, bool_decide_true; done.
    + assert (EType e = JournalCompensate) as T by lia. rewrite T. kinds. destruct (EOutcome e =? Compensated), (GrantID e =? "state")%string, (latestStart (state_at m k) =? 0); cbn [negb orb andb]; try done; rewrite state_at_insert, bool_decide_true; done.
    + cbn [andb]. destruct (took_effect e); cbn [negb]; [|done]. rewrite state_at_insert, bool_decide_true; done.
    + cbn [andb]. destruct (negb (took_effect e) || _); [done|]. by rewrite state_at_insert, bool_decide_false.
    + done.
  - destruct (EType e =? LifecycleStart); [destruct (_ || _); [done | by rewrite state_at_insert, bool_decide_false]|].
    destruct (EType e =? JournalCompensate); [destruct (_ || _); [done | by rewrite state_at_insert, bool_decide_false]|].
    destruct (_ || _ || _ || _); [destruct (negb _); [done | by rewrite state_at_insert, bool_decide_false]|].
    destruct (EType e =? StatePurge); [destruct (_ || _); [done | by rewrite state_at_insert, bool_decide_false]|]. done.
Qed.

Lemma apply_state m r tenant gen capsule policy : let k := (tenant, ""%string, gen, capsule, policy, true) in
  state_at (applyActivationInvalidation m r) k =
  let st := state_at m k in
  if bool_decide (k = state_key (REvent r)) && purges (REvent r) then mkInvalidation (Sequence r) (latestStart st) (postStartCompensationAt st) (postStartCompensationStart st) else st.
Proof.
  cbv zeta. set (k := (_, _, _, _, _, true)). assert (Hk : k <> runtime_key (REvent r)) by done. unfold applyActivationInvalidation, purges. set (e := REvent r) in *.
  destruct (EType e =? LifecycleStart) eqn:T1; [|destruct (EType e =? JournalCompensate) eqn:T2; [|destruct (_ || _ || _ || _) eqn:T3; [|destruct (EType e =? StatePurge) eqn:T4]]].
  - assert (EType e = LifecycleStart) as -> by lia. kinds. rewrite andb_false_r. destruct (_ || _); [done | by rewrite state_at_insert, bool_decide_false].
  - assert (EType e = JournalCompensate) as -> by lia. kinds. rewrite andb_false_r. destruct (_ || _); [done | by rewrite state_at_insert, bool_decide_false].
  - assert ((EType e =? StatePurge) = false) as -> by (apply Z.eqb_neq; breflect; unfold LifecycleStop, LifecycleDestroy, Drift, Revocation, StatePurge in *; lia).
    rewrite andb_false_r. destruct (negb _); [done | by rewrite state_at_insert, bool_decide_false].
  - cbn [andb]. destruct (took_effect e), (GrantID e =? "state")%string; cbn [negb orb andb]; rewrite ?andb_false_r; try done.
    rewrite state_at_insert, andb_true_r. by destruct (bool_decide (k = state_key e)) eqn:E; [apply bool_decide_eq_true in E as ->|].
  - cbn [andb]. by rewrite andb_false_r.
Qed.

(** What every index of a chain satisfies. *)
Record sane (ix : activationIndexes) (n : Z) : Prop := {
  s_latest : forall tenant rref gen capsule policy, 0 <= latestStart (state_at (invalidations ix) (tenant, rref, gen, capsule, policy, false)) <= n;
  s_marks : forall k c, marks ix !! k = Some c -> exists b, begins ix !! k = Some b /\ Sequence (MReceipt b) < Sequence (MReceipt c) }.

(** An invalidation stays. *)
Lemma invalidated_stays ix n v t b marked : sane ix n -> Sequence (VReceipt v) = n + 1 -> 0 <= n ->
  invalidated ix t b = true -> invalidated (mkIndexes (begins marked) (marks marked) (applyActivationInvalidation (invalidations ix) (VReceipt v))) t b = true.
Proof.
  intros Hs Hq Hn. unfold invalidated. cbn [invalidations]. rewrite apply_runtime, apply_state. cbv zeta. set (kr := (_, _, _, _, _, false)). set (ks := (_, _, _, _, _, true)).
  pose proof (s_latest _ _ Hs (TTenantID t) (TRuntimeRef t) (TGeneration t) (MCapsuleDigest b) (MPolicyDigest b)) as Hl. fold kr in Hl.
  set (rs := state_at _ kr) in *. set (ss := state_at _ ks). intros H. apply orb_true_iff in H as [H | H].
  - apply orb_true_iff in H as [H | H]; apply orb_true_iff; left; apply orb_true_iff; [left | right].
    + destruct (bool_decide _); [|done]. unfold runtime_effect. repeat case_match; try done. cbn [invalidatedAt]. rewrite Hq. apply negb_true_iff, Z.eqb_neq. lia.
    + destruct (_ && _); [|done]. cbn [invalidatedAt]. rewrite Hq. apply negb_true_iff, Z.eqb_neq. lia.
  - apply orb_true_iff. right. destruct (bool_decide _); [|done]. unfold runtime_effect. repeat case_match; try done. cbn [postStartCompensationStart postStartCompensationAt]. breflect.
    apply andb_true_iff. rewrite Hq. split; [apply negb_true_iff, Z.eqb_neq | apply Z.ltb_lt]; lia.
Qed.

Lemma index_receipt_inv ix v ix' : index_receipt ix v = Ok ix' ->
  exists marked, applyActivationMarker ix (VReceipt v) = Ok marked /\
    ix' = mkIndexes (begins marked) (marks marked) (applyActivationInvalidation (invalidations ix) (VReceipt v)) /\
    (forall k b, begins ix !! k = Some b -> begins marked !! k = Some b) /\ (forall k c, marks ix !! k = Some c -> marks marked !! k = Some c).
Proof.
  unfold index_receipt. destruct (applyActivationMarker ix (VReceipt v)) as [marked|] eqn:E; [|done]. intros [= <-]. exists marked.
  assert (invalidations marked = invalidations ix) as Hi by (unfold applyActivationMarker in E; case_in E; by simplify_eq). split; [done|]. rewrite Hi. split; [done|].
  unfold applyActivationMarker in E. case_in E; simplify_eq; (split; intros k x Hk; [|]); try done; cbn [begins marks];
    (rewrite lookup_insert_ne; [done|]; intros <-; congruence).
Qed.

(** What the markers of a receipt do to the indexes. *)
Lemma marker_cases ix r marked : applyActivationMarker ix r = Ok marked -> let e := REvent r in
  (EType e <> ActivationBegin /\ EType e <> ActivationCheckpoint /\ marked = ix) \/
  (EType e = ActivationBegin /\ closed_semantics e Allowed = true /\ begins ix !! marker_key e = None /\
     marked = mkIndexes (<[marker_key e := marker_of r]> (begins ix)) (marks ix) (invalidations ix)) \/
  (EType e = ActivationCheckpoint /\ closed_semantics e Committed = true /\ marks ix !! marker_key e = None /\
     (exists b, begins ix !! marker_key e = Some b /\ same_activation b (marker_of r) = true) /\
     marked = mkIndexes (begins ix) (<[marker_key e := marker_of r]> (marks ix)) (invalidations ix)).
Proof.
  unfold applyActivationMarker. set (e := REvent r). intros H. destruct (Z.eqb_spec (EType e) ActivationBegin) as [E | E].
  - cbn [negb andb] in H. step H. destruct (begins ix !! marker_key e) eqn:Eb; [by case_match|]. injection H as <-. by right; left.
  - destruct (Z.eqb_spec (EType e) ActivationCheckpoint) as [E2 | E2]; cbn [negb andb] in H; [|injection H as <-; auto].
    destruct (begins ix !! marker_key e) as [b|] eqn:Eb; [|done]. destruct (same_activation b (marker_of r)) eqn:Es; [|done]. step H.
    destruct (marks ix !! marker_key e) eqn:Em; [by case_match|]. injection H as <-. right. right. split_and!; try done. by exists b.
Qed.

Lemma sane_step ix n v ix' : sane ix n -> 0 <= n -> Sequence (VReceipt v) = n + 1 -> (forall k b, begins ix !! k = Some b -> Sequence (MReceipt b) <= n) ->
  index_receipt ix v = Ok ix' -> sane ix' (n + 1) /\ (forall k b, begins ix' !! k = Some b -> Sequence (MReceipt b) <= n + 1).
Proof.
  intros [Hl Hm] Hn Hq Hb H. apply index_receipt_inv in H as (marked & Hmk & -> & _). apply marker_cases in Hmk. cbv zeta in Hmk.
  split; [split|]; cbn [begins marks invalidations].
  - intros. rewrite apply_runtime. specialize (Hl tenant rref gen capsule policy). destruct (bool_decide _); [|lia]. unfold runtime_effect. repeat case_match; cbn [latestStart]; lia.
  - intros k c Hc. destruct Hmk as [(_ & _ & ->) | [(_ & _ & Hnone & ->) | (_ & _ & _ & (b & Hbk & _) & ->)]]; cbn [begins marks] in *.
    + by apply Hm.
    + destruct (Hm _ _ Hc) as (b & Hbk & ?). exists b. rewrite lookup_insert_ne; [done|]. intros <-. congruence.
    + apply lookup_insert_Some in Hc as [[<- <-] | [_ Hc]]; [|by apply Hm]. exists b. split; [done|]. cbn [marker_of MReceipt]. rewrite Hq. specialize (Hb _ _ Hbk). lia.
  - intros k b Hk. destruct Hmk as [(_ & _ & ->) | [(_ & _ & Hnone & ->) | (_ & _ & _ & _ & ->)]]; cbn [begins] in Hk; [specialize (Hb _ _ Hk); lia | | specialize (Hb _ _ Hk); lia].
    apply lookup_insert_Some in Hk as [[<- <-] | [_ Hk]]; [cbn [marker_of MReceipt]; lia | specialize (Hb _ _ Hk); lia].
Qed.

Section Replay.
Context (t : ActivationCaptureTarget) (Ht : validActivationCaptureTarget t = true).

(** The target's expectations of what the indexes retain. *)
Definition expected (ix : activationIndexes) : Prop :=
  (forall b, begins ix !! target_key t = Some b -> expects_begin t b /\ invalidated ix t b = false) /\
  (forall c, marks ix !! target_key t = Some c -> expects_checkpoint t c).

Lemma agrees_valid ix n s : agrees t ix n s -> expected ix -> validActivationCaptureState s = true.
Proof.
  unfold agrees, validActivationCaptureState, activationCaptureDigest. intros H [Hb Hc]. destruct (begins ix !! target_key t) as [b|]; [|by subst s].
  destruct H as (_ & [H0 _] & Hcd & Hpd & Hm & Hl). destruct (Hb b eq_refl) as [(_ & _ & Dc & Dp & _) _].
  rewrite (proj2 (Z.eqb_neq _ _)), Hcd, Hpd, Dc, Dp by lia. cbn [negb orb].
  assert (negb (LatestLifecycleStartSequence s =? 0) && (LatestLifecycleStartSequence s <=? ActivationBeginSequence s) = false) as ->.
  { destruct Hl as [-> | [[Hl _] _]]; [done|]. apply andb_false_iff. right. apply Z.leb_gt. lia. }
  destruct (marks ix !! target_key t) as [c|]; [|by destruct Hm as [-> ->]]. destruct Hm as (E1 & E2 & Hlt). destruct (Hc c eq_refl) as [Dg _].
  rewrite E1, E2, Dg, (proj2 (Z.eqb_neq _ _)), (proj2 (Z.ltb_lt _ _)) by lia. done.
Qed.

Lemma marker_key_target e : marker_key e = target_key t <-> (String.eqb (TenantID e) (TTenantID t) && String.eqb (RuntimeRef e) (TRuntimeRef t) && (Generation e =? TGeneration t)) = true.
Proof. unfold marker_key, target_key. rewrite !andb_true_iff, !String.eqb_eq, Z.eqb_eq. split; [by intros [= -> -> ->] | by intros [[-> ->] ->]]. Qed.

(** A marker at another coordinate is not related. *)
Lemma unrelated e : marker_key e <> target_key t -> (TenantID e = TTenantID t -> GrantID e = TActivationID t -> marker_key e = target_key t) ->
  activationCaptureMarkerRelated e t = false.
Proof.
  intros Hne Hu. unfold activationCaptureMarkerRelated. apply orb_false_iff. split.
  - apply not_true_iff_false. by rewrite <- marker_key_target.
  - apply andb_false_iff. destruct (TenantID e =? TTenantID t)%string eqn:E; [right | by left]. apply String.eqb_eq in E. apply String.eqb_neq. intros Eg. by apply Hne, Hu.
Qed.
Lemma related e : marker_key e = target_key t -> GrantID e = TActivationID t -> activationCaptureMarkerRelated e t = true /\ activationCaptureMarkerIdentityMatches e t = true.
Proof. intros Hk Hg. apply marker_key_target in Hk. unfold activationCaptureMarkerRelated, activationCaptureMarkerIdentityMatches. by rewrite Hk, Hg, String.eqb_refl. Qed.

Lemma effect_latest r st : EType (REvent r) <> LifecycleStart -> latestStart (runtime_effect r st) = latestStart st.
Proof. intros H. unfold runtime_effect. rewrite (proj2 (Z.eqb_neq _ _) H). cbn [andb]. by repeat case_match. Qed.

Lemma runtime_matches e s b : SCapsuleDigest s = MCapsuleDigest b -> SPolicyDigest s = MPolicyDigest b ->
  activationCaptureRuntimeEventMatches e t s = true <->
  (EType e = StatePurge /\ (TTenantID t, ""%string, TGeneration t, MCapsuleDigest b, MPolicyDigest b, true) = state_key e /\ GrantID e = "state"%string) \/
  (EType e <> StatePurge /\ (TTenantID t, TRuntimeRef t, TGeneration t, MCapsuleDigest b, MPolicyDigest b, false) = runtime_key e).
Proof.
  intros A3 A4. unfold activationCaptureRuntimeEventMatches, runtime_key, state_key. rewrite A3, A4. destruct (negb _ || _ || _ || _) eqn:E.
  - split; [done|]. intros Hk. exfalso.
    assert (TenantID e = TTenantID t /\ Generation e = TGeneration t /\ CapsuleDigest e = MCapsuleDigest b /\ PolicyDigest e = MPolicyDigest b) as (E1 & E2 & E3 & E4)
      by (destruct Hk as [(_ & Hk & _) | (_ & Hk)]; injection Hk; auto). by rewrite E1, E2, E3, E4, !String.eqb_refl, Z.eqb_refl in E.
  - breflect. repeat match goal with Hx : (_ =? _)%string = true |- _ => apply String.eqb_eq in Hx end.
    destruct (Z.eqb_spec (EType e) StatePurge) as [Et | Et]; rewrite String.eqb_eq.
    + split; [intros Hg; left; split_and!; congruence | intros [(_ & _ & Hg) | [? _]]; done].
    + split; [intros Hg; right; split; congruence | intros [(? & _) | [_ Hk]]; [done | by injection Hk]].
Qed.

(** Receipts that are not markers. *)
Lemma observe_plain ix n s r : agrees t ix n s -> sane ix n -> 0 <= n -> Sequence r = n + 1 -> EType (REvent r) <> ActivationBegin -> EType (REvent r) <> ActivationCheckpoint ->
  let ix' := mkIndexes (begins ix) (marks ix) (applyActivationInvalidation (invalidations ix) r) in
  (forall b, begins ix !! target_key t = Some b -> invalidated ix' t b = false) ->
  exists s', (if (ActivationBeginSequence s =? 0) || negb (activationCaptureRuntimeEventMatches (REvent r) t s) then Ok s else observe_lifecycle s r) = Ok s' /\ agrees t ix' (n + 1) s'.
Proof.
  intros Ha Hs Hn Hq H1 H2. cbv zeta. unfold agrees in *. cbn [begins marks invalidations]. destruct (begins ix !! target_key t) as [b|]; [|intros _; subst s; by exists no_capture].
  intros Hinv. specialize (Hinv b eq_refl). unfold invalidated in Hinv. cbn [invalidations] in Hinv. rewrite apply_runtime, apply_state in Hinv. cbv zeta in Hinv.
  rewrite apply_runtime. destruct Ha as (A1 & A2 & A3 & A4 & A5 & A6). rewrite (proj2 (Z.eqb_neq _ _)) by lia. cbn [orb].
  pose proof (s_latest _ _ Hs (TTenantID t) (TRuntimeRef t) (TGeneration t) (MCapsuleDigest b) (MPolicyDigest b)) as Hlat.
  set (kr := (TTenantID t, TRuntimeRef t, TGeneration t, MCapsuleDigest b, MPolicyDigest b, false)) in *. set (ks := (TTenantID t, ""%string, _, _, _, true)) in *.
  set (e := REvent r) in *. set (rs := state_at (invalidations ix) kr) in *.
  set (rs' := if bool_decide (kr = runtime_key e) then runtime_effect r rs else rs) in *.
  apply orb_false_iff in Hinv as [Hinv I3]. apply orb_false_iff in Hinv as [I1 I2]. apply negb_false_iff, Z.eqb_eq in I1. apply negb_false_iff, Z.eqb_eq in I2.
  match goal with |- exists s', _ = Ok s' /\ @?P s' => pose (post := P); change (exists s', (if negb (activationCaptureRuntimeEventMatches e t s) then Ok s else observe_lifecycle s r) = Ok s' /\ post s') end.
  assert (Agree : forall s', ActivationBeginSequence s' = ActivationBeginSequence s -> ActivationCheckpointSequence s' = ActivationCheckpointSequence s ->
    ActivationCheckpointDigest s' = ActivationCheckpointDigest s -> SCapsuleDigest s' = SCapsuleDigest s -> SPolicyDigest s' = SPolicyDigest s ->
    (LatestLifecycleStartSequence s' = LatestLifecycleStartSequence s /\ latestStart rs' = latestStart rs \/
     LatestLifecycleStartSequence s' = n + 1 /\ latestStart rs' = n + 1) ->
    exists s'', Ok s' = Ok s'' /\ post s'').
  { intros s' B1 B2 B3 B4 B5 B6. exists s'. unfold post. rewrite B1, B2, B3, B4, B5. split; [done|]. split_and!; done || lia. }
  assert (Hsame : EType e <> LifecycleStart -> exists s'', Ok s = Ok s'' /\ post s'') by (intros Hne; apply Agree; try done; left; split; [done|]; subst rs'; destruct (bool_decide _); [by apply effect_latest | done]).
  destruct (activationCaptureRuntimeEventMatches e t s) eqn:Em; cbn [negb].
  - apply (runtime_matches e s b) in Em as [[Et Em] | [Et Em]]; [| |done..]; unfold observe_lifecycle; fold e.
    + destruct Em as [Hks Hg]. rewrite Et. kinds. rewrite Hg, String.eqb_refl. cbn [andb].
      destruct (took_effect e) eqn:Hte; cbn [negb]; [|apply Hsame; by rewrite Et].
      exfalso. unfold purges in I2. rewrite (bool_decide_eq_true_2 _ Hks), Et, Hte, Hg, String.eqb_refl in I2. cbn in I2. lia.
    + assert (Hrs : rs' = runtime_effect r rs) by (subst rs'; by rewrite (bool_decide_eq_true_2 _ Em)). unfold runtime_effect in Hrs. fold e in Hrs.
      destruct (Z.eqb_spec (EType e) LifecycleStart) as [E1 | E1]; [|destruct (Z.eqb_spec (EType e) JournalCompensate) as [E2 | E2]].
      * rewrite E1 in Hrs. cbn [andb] in Hrs. change (LifecycleStart =? JournalCompensate) with false in Hrs. change (LifecycleStart =? LifecycleStop) with false in Hrs. change (LifecycleStart =? LifecycleDestroy) with false in Hrs.
        change (LifecycleStart =? Drift) with false in Hrs. change (LifecycleStart =? Revocation) with false in Hrs. cbn [orb andb] in Hrs.
        destruct ((EOutcome e =? Committed) && _); apply Agree; try done; [right | left]; rewrite Hrs; cbn [LatestLifecycleStartSequence latestStart]; done || lia.
      * cbn [andb] in Hrs. destruct (EOutcome e =? Compensated); cbn [andb negb] in *; [|by apply Hsame]. destruct (GrantID e =? "state")%string; cbn [andb negb] in *; [by apply Hsame|].
        destruct (Z.eqb_spec (LatestLifecycleStartSequence s) 0) as [El | El]; cbn [andb negb]; [by apply Hsame|]. exfalso.
        destruct A6 as [A6 | [A6 A7]]; [done|]. rewrite A7, (proj2 (Z.eqb_neq _ _) El) in Hrs. cbn [negb] in Hrs. rewrite Hrs in I3. cbn [postStartCompensationStart postStartCompensationAt] in I3.
        rewrite (proj2 (Z.eqb_neq _ _) El), (proj2 (Z.ltb_lt _ _)) in I3 by lia. done.
      * cbn [andb] in Hrs. destruct ((EType e =? LifecycleStop) || (EType e =? LifecycleDestroy) || (EType e =? Drift) || (EType e =? Revocation)); cbn [andb] in Hrs.
        -- destruct (took_effect e); cbn [negb]; [|by apply Hsame]. exfalso. rewrite Hrs in I1. cbn [invalidatedAt] in I1. lia.
        -- rewrite (proj2 (Z.eqb_neq _ _) Et). by apply Hsame.
  - destruct (Z.eq_dec (EType e) LifecycleStart) as [Et | Et]; [|by apply Hsame]. apply Agree; try done. left. split; [done|]. subst rs'.
    rewrite bool_decide_eq_false_2; [done|]. intros Hk. rewrite (proj2 (runtime_matches e s b A3 A4)) in Em; [done|]. right. by rewrite Et.
Qed.

(** The markers of the target, and those of other activations. *)
Lemma observe_markers ix n s r marked : agrees t ix n s -> sane ix n -> 0 <= n -> Sequence r = n + 1 -> (forall k b, begins ix !! k = Some b -> Sequence (MReceipt b) <= n) ->
  applyActivationMarker ix r = Ok marked -> (EType (REvent r) = ActivationBegin \/ EType (REvent r) = ActivationCheckpoint) -> expected marked ->
  (TenantID (REvent r) = TTenantID t -> GrantID (REvent r) = TActivationID t -> marker_key (REvent r) = target_key t) ->
  exists s', (if negb (activationCaptureMarkerRelated (REvent r) t) then Ok s else
    require activationCaptureMarkerIdentityMatches (REvent r) t else "activation capture contains a conflicting target marker" in
    if EType (REvent r) =? ActivationBegin then observe_begin t s r else observe_checkpoint t s r) = Ok s' /\ agrees t marked (n + 1) s'.
Proof.
  intros Ha Hs Hn Hq Hb Hm Hty [Ex Ec] Hu. apply marker_cases in Hm. cbv zeta in Hm. set (e := REvent r) in *.
  destruct (decide (marker_key e = target_key t)) as [Hk | Hk].
  - destruct Hm as [(N1 & N2 & _) | [(T & Hcs & Hnone & ->) | (T & Hcs & Hnone & (b & Hbk & Hsame) & ->)]]; [destruct Hty; congruence | |].
    + rewrite Hk in *. cbn [begins marks invalidations] in *. destruct (Ex (marker_of r)) as [(X1 & X2 & X3 & X4 & X5 & X6 & X7) _]; [apply lookup_insert_eq|].
      cbn [marker_of ActivationID Digest MCapsuleDigest MPolicyDigest MReceipt] in *. fold e in X1, X2, X3, X4, X6, X7.
      destruct (related e Hk X1) as [-> ->]. cbn [negb]. rewrite T. change (ActivationBegin =? ActivationBegin) with true. cbv iota.
      unfold agrees in Ha. rewrite Hnone in Ha. subst s. unfold observe_begin. fold e. unfold activationCaptureDigest. rewrite X2, X3, X4, String.eqb_refl.
      unfold closed_semantics in Hcs. breflect. unfold empty.
      assert (Hopt : forall a x, (a = ""%string \/ a = x) -> negb (String.eqb a "") && negb (String.eqb x a) = false) by (intros a x [-> | ->]; [done | by rewrite String.eqb_refl, andb_false_r]).
      rewrite (Hopt _ _ X6), (Hopt _ _ X7). match goal with Hx : EOutcome e = Allowed |- _ => rewrite Hx end. match goal with Hx : (ErrorCode e =? "")%string = true |- _ => rewrite Hx end.
      assert (negb (TActivationBeginSequence t =? 0) && negb (Sequence r =? TActivationBeginSequence t) = false) as -> by (destruct X5 as [-> | ->]; [done | by rewrite Z.eqb_refl, andb_false_r]).
      cbn [negb orb no_capture ActivationBeginSequence ActivationCheckpointSequence Z.eqb]. eexists. split; [done|].
      unfold agrees. cbn [begins marks invalidations]. rewrite lookup_insert_eq. cbn [marker_of MReceipt MCapsuleDigest MPolicyDigest ActivationBeginSequence SCapsuleDigest SPolicyDigest ActivationCheckpointSequence ActivationCheckpointDigest LatestLifecycleStartSequence].
      split_and!; try done; try lia; [|by left]. destruct (marks ix !! target_key t) as [c|] eqn:Emk; [|done]. destruct (s_marks _ _ Hs _ _ Emk) as (b & Hbk & _). congruence.
    + rewrite Hk in *. cbn [begins marks invalidations] in *. destruct (Ex b Hbk) as [(X1 & X2 & X3 & X4 & _) _]. destruct (Ec (marker_of r)) as [C1 C2]; [apply lookup_insert_eq|].
      cbn [marker_of Digest] in C1, C2. fold e in C1, C2. unfold same_activation in Hsame. cbn [marker_of ActivationID MCapsuleDigest MPolicyDigest] in Hsame. fold e in Hsame.
      apply andb_true_iff in Hsame as [Hsame Hsp]. apply andb_true_iff in Hsame as [Hsg Hsc]. apply String.eqb_eq in Hsg, Hsc, Hsp.
      destruct (related e Hk ltac:(congruence)) as [-> ->]. cbn [negb]. rewrite T. change (ActivationCheckpoint =? ActivationBegin) with false. cbv iota.
      unfold agrees in *. cbn [begins marks invalidations]. rewrite Hbk in *. rewrite Hnone in Ha. rewrite lookup_insert_eq. destruct Ha as (A1 & A2 & A3 & A4 & [A5 A5'] & A6).
      unfold observe_checkpoint. fold e. unfold activationCaptureDigest. rewrite A3, A4, A5, C1, Hsc, Hsp, !String.eqb_refl, (proj2 (Z.eqb_neq (ActivationBeginSequence s) 0)), (proj2 (Z.leb_gt _ _)) by lia.
      unfold closed_semantics in Hcs. breflect. unfold empty.
      match goal with Hx : EOutcome e = Committed |- _ => rewrite Hx end. match goal with Hx : (ErrorCode e =? "")%string = true |- _ => rewrite Hx end.
      assert (negb (TActivationCheckpointDigest t =? "")%string && negb (MetadataHash e =? TActivationCheckpointDigest t)%string = false) as -> by (destruct C2 as [-> | ->]; [done | by rewrite String.eqb_refl, andb_false_r]).
      cbn [negb orb Z.eqb]. eexists. split; [done|]. cbn [marker_of MReceipt Digest ActivationBeginSequence SCapsuleDigest SPolicyDigest ActivationCheckpointSequence ActivationCheckpointDigest LatestLifecycleStartSequence].
      split_and!; try done; try lia. rewrite <- Hsc, <- Hsp in *. destruct A6 as [A6 | [A6 A7]]; [by left | right; split; [lia | done]].
  - rewrite (unrelated e Hk Hu). cbn [negb]. exists s. split; [done|]. unfold agrees in *.
    assert (Hlk : begins marked !! target_key t = begins ix !! target_key t /\ marks marked !! target_key t = marks ix !! target_key t /\ invalidations marked = invalidations ix)
      by (destruct Hm as [(_ & _ & ->) | [(_ & _ & _ & ->) | (_ & _ & _ & _ & ->)]]; cbn [begins marks invalidations]; rewrite ?lookup_insert_ne by done; done).
    destruct Hlk as (-> & -> & ->). destruct (begins ix !! target_key t); [|done]. destruct Ha as (A1 & A2 & A3 & A4 & A5 & A6). split_and!; done || lia.
Qed.

Section Chain.
Context (verify : bytes -> bytes -> bytes -> bool) (public : bytes) (nodeID : string) (epoch : Z).

Lemma index_sane vs ix : chained verify public nodeID epoch 1 zeroHash vs -> fold_ok index_receipt newActivationIndexes vs = Ok ix ->
  sane ix (zlen vs) /\ (forall k b, begins ix !! k = Some b -> Sequence (MReceipt b) <= zlen vs).
Proof.
  revert ix. induction vs as [|v vs IH] using rev_ind; intros ix Hc H.
  - injection H as <-. split; [split|]; intros *; cbn; rewrite ?lookup_empty; [unfold state_at; rewrite lookup_empty; cbn; done | done..].
  - apply chained_app in Hc as [Hc [Hl _]]. apply link_facts in Hl as (Hq & _). rewrite fold_ok_app in H. destruct (fold_ok index_receipt newActivationIndexes vs) as [ix0|]; [|done].
    cbn [fold_ok] in H. destruct (index_receipt ix0 v) as [ix1|] eqn:Ei; [|done]. injection H as <-. destruct (IH ix0 Hc eq_refl) as [Hs Hb].
    rewrite zlen_app. change (zlen [v]) with 1. apply (sane_step ix0 (zlen vs) v); try done; [apply zlen_nonneg | lia].
Qed.

Lemma replay_agrees vs ix : chained verify public nodeID epoch 1 zeroHash vs -> fold_ok index_receipt newActivationIndexes vs = Ok ix -> unique_activation t vs -> expected ix ->
  exists s, replay t vs = Ok s /\ agrees t ix (zlen vs) s.
Proof.
  revert ix. induction vs as [|v vs IH] using rev_ind; intros ix Hc H Hu Hx.
  - injection H as <-. exists no_capture. split; [done|]. unfold agrees. cbn. by rewrite lookup_empty.
  - assert (Hc' := Hc). apply chained_app in Hc' as [Hc0 [Hl _]]. apply link_facts in Hl as (Hq & _). rewrite fold_ok_app in H.
    destruct (fold_ok index_receipt newActivationIndexes vs) as [ix0|] eqn:Ef; [|done]. cbn [fold_ok] in H. destruct (index_receipt ix0 v) as [ix1|] eqn:Ei; [|done]. injection H as <-.
    destruct (index_sane vs ix0 Hc0 Ef) as [Hs Hb]. pose proof (zlen_nonneg vs) as Hnn. assert (Hq' : Sequence (VReceipt v) = zlen vs + 1) by lia.
    assert (Ei' := Ei). apply index_receipt_inv in Ei' as (marked & Hmk & Eix & Hmono1 & Hmono2).
    assert (Hx0 : expected ix0).
    { split.
      - intros b Hbk. specialize (Hmono1 _ _ Hbk). destruct (proj1 Hx b) as [Xb Xi]; [by rewrite Eix|]. split; [done|].
        destruct (invalidated ix0 t b) eqn:E; [|done]. rewrite Eix in Xi. rewrite (invalidated_stays ix0 (zlen vs) v t b marked Hs Hq' Hnn E) in Xi. done.
      - intros c Hck. apply (proj2 Hx). rewrite Eix. by apply Hmono2. }
    destruct (IH ix0 Hc0 eq_refl ltac:(intros w Hw; apply Hu, elem_of_app; by left) Hx0) as (s & Hr & Ha).
    unfold replay in *. rewrite fold_ok_app, Hr. cbn [fold_ok]. rewrite zlen_app. change (zlen [v]) with 1. unfold ObserveActivationCapture.
    rewrite Ht, (agrees_valid _ _ _ Ha Hx0), (proj2 (Z.eqb_neq _ _)) by lia. cbn [negb orb].
    assert (Hdec : (EType (REvent (VReceipt v)) = ActivationBegin \/ EType (REvent (VReceipt v)) = ActivationCheckpoint) \/
      (EType (REvent (VReceipt v)) <> ActivationBegin /\ EType (REvent (VReceipt v)) <> ActivationCheckpoint)) by lia.
    destruct Hdec as [Hty | [N1 N2]].
    + rewrite (proj2 (orb_true_iff _ _)) by (rewrite !Z.eqb_eq; exact Hty).
      assert (Hinv : applyActivationInvalidation (invalidations ix0) (VReceipt v) = invalidations ix0) by (unfold applyActivationInvalidation; by destruct Hty as [-> | ->]).
      assert (Eix' : ix1 = marked).
      { rewrite Eix, Hinv. apply marker_cases in Hmk. cbv zeta in Hmk. destruct Hmk as [(_ & _ & ->) | [(_ & _ & _ & ->) | (_ & _ & _ & _ & ->)]]; by destruct ix0. }
      destruct (observe_markers ix0 (zlen vs) s (VReceipt v) marked Ha Hs Hnn Hq' Hb Hmk Hty ltac:(by rewrite <- Eix')) as (s' & E & Ha').
      { apply (Hu v); [apply elem_of_app; right; by apply list_elem_of_singleton | exact Hty]. }
      exists s'. rewrite E. split; [done | by rewrite Eix'].
    + rewrite (proj2 (Z.eqb_neq _ _) N1), (proj2 (Z.eqb_neq _ _) N2). cbn [orb].
      assert (marked = ix0) as -> by (apply marker_cases in Hmk as [(_ & _ & ->) | [(? & _) | (? & _)]]; done).
      destruct (observe_plain ix0 (zlen vs) s (VReceipt v) Ha Hs Hnn Hq' N1 N2) as (s' & E & Ha').
      { intros b Hbk. rewrite <- Eix. apply (proj1 Hx). by rewrite Eix. }
      exists s'. rewrite E. split; [done | by rewrite Eix].
Qed.
End Chain.
End Replay.

(** ** A signed checkpoint can be captured *)

Section Signed.
Context (sign : bytes -> bytes -> bytes) (verify : bytes -> bytes -> bytes -> bool).

(** The log after a checkpoint was signed or returned again. *)
Lemma checkpoint_signed before i file l event file' l' receipt vs : live verify l file vs -> Dsse.key_pair sign verify (private l) (public l) -> event_typed event ->
  AppendActivationCheckpoint sign verify before i file l event = (file', l', Ok receipt) ->
  exists vs' b c, live verify l' file' vs' /\ (vs' = vs \/ exists v, vs' = vs ++ [v] /\ REvent (VReceipt v) = event) /\
    begins (indexes l) !! marker_key event = Some b /\ begins (indexes l') !! marker_key event = Some b /\ marks (indexes l') !! marker_key event = Some c /\ MReceipt c = receipt /\
    ActivationID b = GrantID event /\ MCapsuleDigest b = CapsuleDigest event /\ MPolicyDigest b = PolicyDigest event /\ Digest c = MetadataHash event /\
    activationInvalidatedLocked l' (marker_key event) b = false.
Proof.
  intros Hv Hk Ht. unfold AppendActivationCheckpoint, appendActivationMarker. destruct (validateEvent event) as [[]|]; [|done].
  destruct (Z.eqb_spec (EType event) ActivationCheckpoint) as [Et | Et]; [|done]. cbn [negb].
  destruct (writable verify before file l) as [l1 w] eqn:Hw. apply writable_cases in Hw as [[-> Hw] | [-> Hw]]; [|by destruct w]. destruct w as [[]|e]; [|done].
  change (ActivationCheckpoint =? ActivationBegin) with false. cbv iota. set (candidate := mkMarker _ _ _ _).
  destruct (retained_checkpoint l event (candidate (next_receipt l event))) as [o|] eqn:Hr; [|done]. assert (Hr' := Hr). unfold retained_checkpoint in Hr'.
  destruct (begins (indexes l) !! marker_key event) as [b|] eqn:Hb; [|done]. destruct (same_activation b (candidate (next_receipt l event))) eqn:Hsame; [|done].
  unfold same_activation in Hsame. cbn [candidate ActivationID MCapsuleDigest MPolicyDigest] in Hsame. rewrite !andb_true_iff, !String.eqb_eq in Hsame. destruct Hsame as [[S1 S2] S3].
  step Hr'. destruct o as [existing|].
  - intros [= <- <- <-]. destruct (marks (indexes l) !! marker_key event) as [c|] eqn:Hm; [|by case_match]. destruct (same_marker c _) eqn:Hsm; [|done]. step Hr'. injection Hr' as <-.
    unfold same_marker in Hsm. cbn [candidate Digest] in Hsm. apply andb_true_iff in Hsm as [_ Hsm]. apply String.eqb_eq in Hsm. breflect.
    exists vs, b, c. split_and!; try done. by left.
  - destruct (marks (indexes l) !! marker_key event) as [c|] eqn:Hm; [by repeat case_match|]. step Hr'. breflect.
    destruct (appendLocked sign verify i file l event) as [[file1 l1] [r|e]] eqn:Ha; [|done]. intros [= <- <- <-].
    apply (append_live _ _ _ _ _ _ _ _ _ vs Hv Hk Ht) in Ha as (Hid & raw & current & _ & -> & -> & Hh & Ho & Hmt).
    assert (Hinv : applyActivationInvalidation (invalidations (indexes l)) (next_receipt l event) = invalidations (indexes l))
      by (unfold applyActivationInvalidation; change (REvent (next_receipt l event)) with event; by rewrite Et).
    exists (vs ++ [record_of l event raw]), b, (candidate (next_receipt l event)). split_and!; try done.
    + eapply (live_of verify l); try done; try apply Hv; [destruct Hh; by split|]. unfold indexed. rewrite fold_ok_app, (v_indexed _ _ _ _ Hv). cbn [fold_ok].
      rewrite (index_marker l file1 event raw current (logBytes l + (4 + zlen raw)) ActivationCheckpoint (candidate (next_receipt l event))); try done; [by right|].
      unfold same_marker, same_activation. cbn. by rewrite !String.eqb_refl.
    + right. by exists (record_of l event raw).
    + cbn. by rewrite lookup_insert_eq.
    + unfold activationInvalidatedLocked in *. cbn [retain_marker advance indexes invalidations]. change (ActivationCheckpoint =? ActivationBegin) with false. cbv iota. cbn [invalidations].
      rewrite Hinv. done.
Qed.

(** The target describes the event of a checkpoint and the begin marker [b]. *)
Definition describes (t : ActivationCaptureTarget) (event : Event) (b : activationMarker) : Prop :=
  target_key t = marker_key event /\ TActivationID t = GrantID event /\ ActivationBeginDigest t = Digest b /\
  (TActivationBeginSequence t = 0 \/ TActivationBeginSequence t = Sequence (MReceipt b)) /\
  (TCapsuleDigest t = ""%string \/ TCapsuleDigest t = CapsuleDigest event) /\ (TPolicyDigest t = ""%string \/ TPolicyDigest t = PolicyDigest event) /\
  (TActivationCheckpointDigest t = ""%string \/ TActivationCheckpointDigest t = MetadataHash event).

(** The digests of the checkpoint are SHA-256 digests, which the log does not ask for. *)
Definition digests (event : Event) : Prop :=
  sha256_digest (CapsuleDigest event) = true /\ sha256_digest (PolicyDigest event) = true /\ sha256_digest (MetadataHash event) = true.

(** The replay ended with this checkpoint. *)
Definition confirms (s : ActivationCaptureState) (event : Event) (receipt : Receipt) : Prop :=
  ActivationCheckpointSequence s = Sequence receipt /\ 0 < ActivationBeginSequence s < Sequence receipt /\
  SCapsuleDigest s = CapsuleDigest event /\ SPolicyDigest s = PolicyDigest event /\ ActivationCheckpointDigest s = MetadataHash event.

(** A replay that ends met no marker of the tenant with the activation's identifier at another coordinate. *)
Lemma replay_unique t vs s : replay t vs = Ok s -> unique_activation t vs.
Proof.
  intros H v Hv e Hty Hten Hg. apply list_elem_of_split in Hv as (l1 & l2 & ->). unfold replay in H. rewrite fold_ok_app in H.
  destruct (fold_ok _ no_capture l1) as [s1|]; [|done]. cbn [fold_ok] in H. destruct (ObserveActivationCapture t s1 (VReceipt v)) as [s2|] eqn:E; [|done]. clear H.
  unfold ObserveActivationCapture in E. destruct (negb _) in E; [|done]. fold e in E.
  assert ((EType e =? ActivationBegin) || (EType e =? ActivationCheckpoint) = true) as Hm by (destruct Hty as [-> | ->]; done). rewrite Hm in E.
  assert (activationCaptureMarkerRelated e t = true) as Hrel by (unfold activationCaptureMarkerRelated; by rewrite Hten, Hg, !String.eqb_refl, orb_true_r). rewrite Hrel in E. cbn [negb] in E.
  destruct (activationCaptureMarkerIdentityMatches e t) eqn:Hid; [|done]. unfold activationCaptureMarkerIdentityMatches in Hid. rewrite !andb_true_iff, !String.eqb_eq, Z.eqb_eq in Hid.
  destruct Hid as [[[I1 I2] I3] _]. unfold marker_key, target_key. by rewrite I1, I2, I3.
Qed.

(** The digests that a state holds. *)
Definition holds_digests (s : ActivationCaptureState) : Prop :=
  (ActivationBeginSequence s <> 0 -> sha256_digest (SCapsuleDigest s) = true /\ sha256_digest (SPolicyDigest s) = true) /\
  (ActivationCheckpointSequence s <> 0 -> sha256_digest (ActivationCheckpointDigest s) = true).

Lemma observed_digests t s r s' : holds_digests s -> ObserveActivationCapture t s r = Ok s' -> holds_digests s'.
Proof.
  intros Hs H. unfold ObserveActivationCapture in H. destruct (negb _) in H; [|done]. destruct (_ || _) in H.
  - destruct (negb (activationCaptureMarkerRelated _ _)); [by injection H as <-|]. destruct (activationCaptureMarkerIdentityMatches _ _); [|done].
    destruct (EType (REvent r) =? ActivationBegin).
    + unfold observe_begin in H. destruct (negb _) eqn:E in H; [|done]. injection H as <-. rewrite negb_true_iff, !orb_false_iff, !negb_false_iff in E.
      destruct E as (((((((((E1 & E2) & _) & _) & _) & E3) & E4) & _) & _) & _). apply Z.eqb_eq in E2. split; cbn [ActivationBeginSequence SCapsuleDigest SPolicyDigest ActivationCheckpointSequence]; [done | by rewrite E2].
    + unfold observe_checkpoint in H. destruct (negb _) eqn:E in H; [|done]. injection H as <-. rewrite negb_true_iff, !orb_false_iff, !negb_false_iff in E.
      destruct E as ((_ & E) & _). split; [apply Hs | done].
  - destruct (_ || _) in H; [by injection H as <-|]. unfold observe_lifecycle in H.
    repeat match type of H with (if ?b then _ else _) = _ => destruct b end; try done; by injection H as <-.
Qed.

Lemma replay_digests t vs s : replay t vs = Ok s -> holds_digests s.
Proof.
  unfold replay. assert (H0 : holds_digests no_capture) by done. revert H0. generalize no_capture. induction vs as [|v vs IH]; intros s0 H0 H; cbn [fold_ok] in H; [by injection H as <-|].
  destruct (ObserveActivationCapture t s0 (VReceipt v)) as [s1|] eqn:E; [|done]. eapply IH; [by eapply observed_digests | exact H].
Qed.

(** C19: A checkpoint that the log signs, or returns again, is confirmed by the replay of the whole log for every target that describes it, exactly when its capsule, policy and metadata
    digests are SHA-256 digests and no marker of the tenant in the log uses the activation's identifier at another coordinate (runtime and generation). So no lifecycle event after the begin marker
    invalidates a signed checkpoint: the writer's indexes refuse whatever the offline verifier would refuse for that reason. The two conditions are the only ones in
    which they differ: the log signs checkpoints without them, and the replay then refuses the log. *)
Theorem checkpoint_capture_sound before i file l event file' l' receipt vs t :
  live verify l file vs -> Dsse.key_pair sign verify (private l) (public l) -> event_typed event ->
  AppendActivationCheckpoint sign verify before i file l event = (file', l', Ok receipt) ->
  validActivationCaptureTarget t = true -> (forall b, begins (indexes l) !! marker_key event = Some b -> describes t event b) ->
  exists vs', live verify l' file' vs' /\ (vs' = vs \/ exists v, vs' = vs ++ [v] /\ REvent (VReceipt v) = event) /\
    ((exists s, replay t vs' = Ok s /\ confirms s event receipt) <-> digests event /\ unique_activation t vs').
Proof.
  intros Hv Hk Hty Ha Ht Hd. destruct (checkpoint_signed _ _ _ _ _ _ _ _ _ Hv Hk Hty Ha) as (vs' & b & c & Hv' & Hvs & Hb & Hb' & Hm & <- & E1 & E2 & E3 & E4 & Hinv).
  destruct (Hd b Hb) as (D1 & D2 & D3 & D4 & D5 & D6 & D7). exists vs'. split; [exact Hv'|]. split; [exact Hvs|]. split.
  - intros (s & Hr & C1 & C2 & C3 & C4 & C5). split; [|by eapply replay_unique]. destruct (replay_digests _ _ _ Hr) as [G1 G2].
    destruct (G1 ltac:(lia)) as [G3 G4]. specialize (G2 ltac:(lia)). unfold digests. by rewrite <- C3, <- C4, <- C5.
  - intros [(D8 & D9 & D10) Hu].
    destruct (replay_agrees t Ht verify (public l') (nodeID l') (epoch l') vs' (indexes l')) as (s & Hr & Hag); [apply (h_chain _ _ _ _ (v_holds _ _ _ _ Hv')) | apply (v_indexed _ _ _ _ Hv') | done | |].
    + split; rewrite D1.
      * intros b' Hb2. assert (b' = b) as -> by congruence. split; [unfold expects_begin; rewrite E1, E2, E3; done|].
        unfold activationInvalidatedLocked, marker_key in Hinv. unfold invalidated. unfold target_key, marker_key in D1. injection D1 as -> -> ->. exact Hinv.
      * intros c' Hc2. assert (c' = c) as -> by congruence. unfold expects_checkpoint. by rewrite E4.
    + exists s. unfold agrees in Hag. rewrite D1, Hb', Hm in Hag. destruct Hag as (A1 & A2 & A6 & A7 & (A3 & A4 & A5) & _).
      split; [exact Hr|]. unfold confirms. split_and!; try done; congruence || lia.
Qed.
End Signed.

(** ** Witness *)

Definition sample_digest (c : ascii) : string := "sha256:" +:+ string_of (repeat c 64).
Definition sample_begin_event : Event :=
  mkEvent ActivationBegin "acme" "run-1" (sample_digest "a") (sample_digest "b") 1 "act-1" Allowed "" (sample_digest "c").
Definition sample_checkpoint_event : Event :=
  mkEvent ActivationCheckpoint "acme" "run-1" (sample_digest "a") (sample_digest "b") 1 "act-1" Committed "" (sample_digest "d").
Definition sample_target : ActivationCaptureTarget := mkTarget "acme" "run-1" 1 "act-1" (sample_digest "c") 0 "" "" "".

(** The sample log with a begin marker. *)
Lemma sample_begun : exists l file v, live Dsse.toy_verify l file [v] /\ same_identity sample_log l /\ VReceipt v = next_receipt sample_log sample_begin_event /\
  indexes l = mkIndexes (<[marker_key sample_begin_event := marker_of (next_receipt sample_log sample_begin_event)]> ∅) ∅ ∅.
Proof.
  destruct (marker_works Dsse.toy_sign Dsse.toy_verify sample_log (mkFile [] 7) [] sample_begin_event ActivationBegin 8 sample_live sample_well_keyed) as (l & file & v & _ & Hl & Hv & Hid & Hi);
    [reflexivity | done | reflexivity | by left | reflexivity | done |].
  exists l, file, v. rewrite Hv in Hi. split; [exact Hl|]. split; [exact Hid|]. split; [exact Hv | exact Hi].
Qed.

Lemma checkpoint_capture_sound_witness : exists l file v l' file' receipt s vs,
  live Dsse.toy_verify l file [v] /\ AppendActivationCheckpoint Dsse.toy_sign Dsse.toy_verify (good_io 9) (good_io 9) file l sample_checkpoint_event = (file', l', Ok receipt) /\
  live Dsse.toy_verify l' file' vs /\ replay sample_target vs = Ok s /\ confirms s sample_checkpoint_event receipt.
Proof.
  destruct sample_begun as (l & file & v & Hl & Hid & Hv & Hi). destruct Hid as (I1 & I2 & _).
  assert (Hk : Dsse.key_pair Dsse.toy_sign Dsse.toy_verify (private l) (public l)) by (rewrite I1, I2; exact sample_well_keyed).
  destruct (marker_works Dsse.toy_sign Dsse.toy_verify l file [v] sample_checkpoint_event ActivationCheckpoint 9 Hl Hk) as (l' & file' & v' & Ha & _);
    [reflexivity | done | reflexivity | by right | | |].
  { change (ActivationCheckpoint =? ActivationBegin) with false. cbv iota. unfold retained_checkpoint, activationInvalidatedLocked. rewrite Hi. reflexivity. }
  { pose proof (v_holds _ _ _ _ Hl) as H. rewrite (h_bytes _ _ _ _ H), (h_file _ _ _ _ H), bytes_of_chain_one. destruct (h_chain _ _ _ _ H) as [Hlk _].
    apply link_facts in Hlk as (_ & _ & _ & _ & _ & _ & _ & Hb). change MaxLogBytes with 67108864. change MaxEnvelopeBytes with 65536 in Hb. lia. }
  destruct (checkpoint_capture_sound Dsse.toy_sign Dsse.toy_verify (good_io 9) (good_io 9) file l sample_checkpoint_event file' l' (VReceipt v') [v] sample_target Hl Hk)
    as (vs & Hl' & Hvs & Hiff); [done | exact Ha | reflexivity | |].
  - intros b. rewrite Hi. cbn [begins]. change (marker_key sample_checkpoint_event) with (marker_key sample_begin_event). rewrite lookup_insert_eq. intros [= <-].
    split_and!; first [reflexivity | by left].
  - destruct (proj2 Hiff) as (s & Hr & Hs).
    { split; [by split_and!|]. intros w Hw. destruct Hvs as [-> | (w' & -> & Ew)]; [|apply elem_of_app in Hw as [Hw | ->%list_elem_of_singleton]; [|cbv zeta; by rewrite Ew]];
        apply list_elem_of_singleton in Hw as ->; rewrite Hv; reflexivity. }
    exists l, file, v, l', file', (VReceipt v'), s, vs. split; [exact Hl|]. split; [exact Ha|]. split; [exact Hl'|]. split; [exact Hr | exact Hs].
Defined.

End ActivationCapture.
