(* ===== verification/EvidencePortable.v ===== *)
(** * Portable evidence ([src/internal/evidence/evidence.go], [src/cmd/stewardctl/main.go])

    The newline-delimited export of an evidence log: one JSON object per receipt, which holds the signed frame and a readable projection of
    it, and a final head. The command writes it from a verified log; the verifier reads either form. *)

From Stdlib Require Import Ascii.
From S2P Require Import Prelude GoText GoJson GoCrypto GoFS Strict Dsse Permit EvidenceReceipt EvidenceLog EvidenceChain EvidenceSafety EvidenceDelta.
Import EvidenceReceipt EvidenceLog EvidenceChain EvidenceSafety EvidenceDelta.

(** A lemma depends on the section hypotheses its proof uses. *)
Unset Default Proof Using.

Module EvidencePortable.

Definition ExportFormat : string := "application/vnd.steward.evidence-export.v1+ndjson".
Definition maxExportBytes : Z := Z.shiftl 256 20.
Definition maxExportLine : Z := Z.shiftl 128 10.

(** ** Lines *)

Record portableHead := mkPortableHead {
  p_NodeID : option string; p_Epoch : option Z; p_Sequence : option Z; p_ChainHash : option string; p_KeyID : option string }.

#[global] Instance portableHead_json : GoJSON portableHead := read_only (KStruct [
    ("node_id", KPointer KString); ("epoch", KPointer KInt); ("sequence", KPointer KInt); ("chain_hash", KPointer KString);
    ("key_id", KPointer KString)]%string)
  (fun v => match v with
    | JObj fs =>
        n ← field fs "node_id" (dec_ptr dec_string) None; e ← field fs "epoch" (dec_ptr dec_u64) None;
        s ← field fs "sequence" (dec_ptr dec_u64) None; c ← field fs "chain_hash" (dec_ptr dec_string) None;
        k ← field fs "key_id" (dec_ptr dec_string) None;
        Some (mkPortableHead n e s c k)
    | _ => None end).

Record portableLine := mkPortableLine {
  l_Kind : option string; l_Format : option string; l_SignedFrame : option string; l_NodeID : option string; l_Epoch : option Z;
  l_Sequence : option Z; l_PreviousHash : option string; l_ChainHash : option string; l_Event : option string; l_TenantID : option string;
  l_RuntimeRef : option string; l_CapsuleDigest : option string; l_PolicyDigest : option string; l_Generation : option Z;
  l_GrantID : option string; l_Outcome : option string; l_ErrorCode : option string; l_MetadataHash : option string;
  l_Head : option portableHead }.

#[global] Instance portableLine_json : GoJSON portableLine := read_only (KStruct [
    ("kind", KPointer KString); ("format", KPointer KString); ("signed_frame", KPointer KString); ("node_id", KPointer KString);
    ("epoch", KPointer KInt); ("sequence", KPointer KInt); ("previous_hash", KPointer KString); ("chain_hash", KPointer KString);
    ("event", KPointer KString); ("tenant_id", KPointer KString); ("runtime_ref", KPointer KString); ("capsule_digest", KPointer KString);
    ("policy_digest", KPointer KString); ("generation", KPointer KInt); ("grant_id", KPointer KString); ("outcome", KPointer KString);
    ("error_code", KPointer KString); ("metadata_hash", KPointer KString); ("head", KPointer (go_shape (A := portableHead)))]%string)
  (fun v => match v with
    | JObj fs =>
        kind ← field fs "kind" (dec_ptr dec_string) None; format ← field fs "format" (dec_ptr dec_string) None;
        frame ← field fs "signed_frame" (dec_ptr dec_string) None; node ← field fs "node_id" (dec_ptr dec_string) None;
        epoch ← field fs "epoch" (dec_ptr dec_u64) None; sequence ← field fs "sequence" (dec_ptr dec_u64) None;
        previous ← field fs "previous_hash" (dec_ptr dec_string) None; chain ← field fs "chain_hash" (dec_ptr dec_string) None;
        event ← field fs "event" (dec_ptr dec_string) None; tenant ← field fs "tenant_id" (dec_ptr dec_string) None;
        runtime ← field fs "runtime_ref" (dec_ptr dec_string) None; capsule ← field fs "capsule_digest" (dec_ptr dec_string) None;
        policy ← field fs "policy_digest" (dec_ptr dec_string) None; generation ← field fs "generation" (dec_ptr dec_u64) None;
        grant ← field fs "grant_id" (dec_ptr dec_string) None; outcome ← field fs "outcome" (dec_ptr dec_string) None;
        code ← field fs "error_code" (dec_ptr dec_string) None; metadata ← field fs "metadata_hash" (dec_ptr dec_string) None;
        head ← field fs "head" (dec_ptr (of_json (A := portableHead))) None;
        Some (mkPortableLine kind format frame node epoch sequence previous chain event tenant runtime capsule policy generation grant outcome
                code metadata head)
    | _ => None end).

Definition present {A} (p : option A) : bool := match p with Some _ => true | None => false end.

Definition validatePortableReceiptShape (line : portableLine) : result unit :=
  require negb (present (l_Head line) || nil_ptr (l_SignedFrame line) || nil_ptr (l_NodeID line) || nil_ptr (l_Epoch line) || nil_ptr (l_Sequence line)
    || nil_ptr (l_PreviousHash line) || nil_ptr (l_ChainHash line) || nil_ptr (l_Event line) || nil_ptr (l_TenantID line)
    || nil_ptr (l_RuntimeRef line) || nil_ptr (l_CapsuleDigest line) || nil_ptr (l_PolicyDigest line) || nil_ptr (l_Generation line)
    || nil_ptr (l_GrantID line) || nil_ptr (l_Outcome line))
    else "receipt does not have the required portable evidence fields" in Ok tt.

Definition validatePortableHeadShape (line : portableLine) : result portableHead :=
  require negb (present (l_SignedFrame line) || present (l_NodeID line) || present (l_Epoch line) || present (l_Sequence line)
    || present (l_PreviousHash line) || present (l_ChainHash line) || present (l_Event line) || present (l_TenantID line)
    || present (l_RuntimeRef line) || present (l_CapsuleDigest line) || present (l_PolicyDigest line) || present (l_Generation line)
    || present (l_GrantID line) || present (l_Outcome line) || present (l_ErrorCode line) || present (l_MetadataHash line))
    else "head contains missing or receipt-only fields" in
  match l_Head line with
  | None => Err "head contains missing or receipt-only fields"
  | Some head =>
      require negb (nil_ptr (p_NodeID head) || nil_ptr (p_Epoch head) || nil_ptr (p_Sequence head) || nil_ptr (p_ChainHash head) || nil_ptr (p_KeyID head))
        else "head does not have all required fields" in Ok head
  end.

Definition formattedHash (hash : bytes) : string := "sha256:" +:+ string_of (hex_encode hash).

Definition optionalProjectionMatches (got : option string) (want : string) : bool :=
  bool_decide (got = if String.eqb want "" then None else Some want).

(** The fields are not nil here. *)
Definition portableReceiptMatches (line : portableLine) (receipt : Receipt) (current : bytes) : bool :=
  let e := REvent receipt in
  bool_decide (l_NodeID line = Some (NodeID receipt)) && bool_decide (l_Epoch line = Some (Epoch receipt))
  && bool_decide (l_Sequence line = Some (Sequence receipt)) && bool_decide (l_PreviousHash line = Some (formattedHash (PreviousHash receipt)))
  && bool_decide (l_ChainHash line = Some (formattedHash current)) && bool_decide (l_Event line = Some (EventName (EType e)))
  && bool_decide (l_TenantID line = Some (TenantID e)) && bool_decide (l_RuntimeRef line = Some (RuntimeRef e))
  && bool_decide (l_CapsuleDigest line = Some (CapsuleDigest e)) && bool_decide (l_PolicyDigest line = Some (PolicyDigest e))
  && bool_decide (l_Generation line = Some (Generation e)) && bool_decide (l_GrantID line = Some (GrantID e))
  && bool_decide (l_Outcome line = Some (OutcomeName (EOutcome e)))
  && optionalProjectionMatches (l_ErrorCode line) (ErrorCode e) && optionalProjectionMatches (l_MetadataHash line) (MetadataHash e).

Definition portableHeadMatches (got : portableHead) (want : Head) : bool :=
  bool_decide (p_NodeID got = Some (HNodeID want)) && bool_decide (p_Epoch got = Some (HEpoch want))
  && bool_decide (p_Sequence got = Some (HSequence want)) && bool_decide (p_ChainHash got = Some (formattedHash (HChainHash want)))
  && bool_decide (p_KeyID got = Some (HKeyID want)).

(** ** Reading an export *)

Definition newline : ascii := byte_of_Z 10.

(** Up to and with the first newline. *)
Fixpoint cut_line (l : bytes) : option (bytes * bytes) :=
  match l with
  | [] => None
  | c :: l => if u8 c =? 10 then Some ([c], l) else match cut_line l with Some (raw, rest) => Some (c :: raw, rest) | None => None end
  end.

(** [ReadSlice] of a reader with a buffer of [maxExportLine + 1] bytes. *)
Inductive slice_read := Line (raw rest : bytes) | Partial (raw : bytes) | BufferFull.
Definition ReadSlice (reader : bytes) : slice_read :=
  match cut_line reader with
  | Some (raw, rest) => if zlen raw <=? maxExportLine + 1 then Line raw rest else BufferFull
  | None => if zlen reader <=? maxExportLine then Partial reader else BufferFull
  end.

Record export_scan (A : Type) := mkExportScan { x_previous : bytes; x_expected : Z; x_total : Z; x_seenHead : bool; x_seen : A }.
Arguments mkExportScan {A}.
Arguments x_previous {A}.
Arguments x_expected {A}.
Arguments x_total {A}.
Arguments x_seenHead {A}.
Arguments x_seen {A}.

Section Ed25519.
Context (verify : bytes -> bytes -> bytes -> bool).

Section Verify.
Context {A : Type} (visit : A -> VerifiedReceipt -> result A) (public : bytes) (nodeID : string) (epoch : Z).

Definition derived_head (s : export_scan A) : Head := mkHead nodeID epoch (u64 (x_expected s - 1)) (x_previous s) (KeyID public).

Definition receipt_line (s : export_scan A) (line : portableLine) : result (export_scan A) :=
  let* _ := validatePortableReceiptShape line in
  let encoded := default ""%string (l_SignedFrame line) in
  let* frame := opt_ok (b64_decode_string encoded) "portable evidence line has a non-canonical signed frame" in
  require String.eqb (b64_encode_string frame) encoded else "portable evidence line has a non-canonical signed frame" in
  let* (receipt, current) := verifyFrame verify frame public nodeID epoch (x_expected s) (x_previous s) in
  require portableReceiptMatches line receipt current else "portable evidence line does not match its signed frame" in
  let* seen := visit (x_seen s) (mkVerified receipt current frame) in
  Ok (mkExportScan current (u64 (x_expected s + 1)) (x_total s) (x_seenHead s) seen).

Definition head_line (s : export_scan A) (line : portableLine) : result (export_scan A) :=
  let* head := validatePortableHeadShape line in
  require portableHeadMatches head (derived_head s) else "portable evidence final head does not match its signed receipt chain" in
  Ok (mkExportScan (x_previous s) (x_expected s) (x_total s) true (x_seen s)).

Definition export_line (s : export_scan A) (raw : bytes) : result (export_scan A) :=
  let total := x_total s + zlen raw in
  require total <=? maxExportBytes else "portable evidence exceeds its limit" in
  require negb ((zlen raw <=? 1) || (maxExportLine <? zlen raw)) else "portable evidence line is empty or exceeds its limit" in
  require negb (x_seenHead s) else "portable evidence contains content after its final head" in
  let* line := DecodeStrictInto (A := portableLine) (take (length raw - 1) raw) maxExportLine in
  let s := mkExportScan (x_previous s) (x_expected s) total (x_seenHead s) (x_seen s) in
  require present (l_Kind line) && bool_decide (l_Format line = Some ExportFormat) else "portable evidence line has an invalid kind or format" in
  if bool_decide (l_Kind line = Some "receipt"%string) then receipt_line s line
  else if bool_decide (l_Kind line = Some "head"%string) then head_line s line
  else Err "portable evidence line has unknown kind".

(** Every iteration consumes at least one byte. *)
Fixpoint export_lines (fuel : nat) (reader : bytes) (s : export_scan A) : result (export_scan A) :=
  match fuel with
  | O => Err "out of fuel"
  | S fuel =>
      match ReadSlice reader with
      | BufferFull => Err "portable evidence line exceeds its limit"
      | Partial raw => require zlen raw =? 0 else "portable evidence is truncated or lacks its final newline" in Ok s
      | Line raw rest => let* s := export_line s raw in export_lines fuel rest s
      end
  end.

Definition verifyExportWithVisitor (file : bytes) (seen : A) : result (Head * A) :=
  let* s := export_lines (S (length file)) file (mkExportScan zeroHash 1 0 false seen) in
  require x_seenHead s else "portable evidence is missing its final head" in
  Ok (derived_head s, x_seen s).
End Verify.

(** The first byte that is not a space. *)
Definition isPortableExport (file : bytes) : bool := match skip_ws file with c :: _ => u8 c =? 123 | [] => false end.

(** [opened] is [os.Open] succeeding on a regular file that can be inspected. *)
Definition VerifyAnyRecords {A} (opened : bool) (file public : bytes) (nodeID : string) (epoch : Z) (visit : A -> VerifiedReceipt -> result A) (seen : A)
  : result (Head * A) :=
  require valid_identity public nodeID epoch else "evidence verification arguments are invalid" in
  require opened else "i/o error" in
  require zlen file <=? maxExportBytes else "evidence input exceeds its limit" in
  if isPortableExport file then verifyExportWithVisitor visit public nodeID epoch file seen else
  require zlen file <=? MaxLogBytes else "evidence log exceeds its limit" in
  let* s := verifyFileState verify visit false public nodeID epoch file seen in
  Ok (mkHead nodeID epoch (u64 (s_expected s - 1)) (s_previous s) (KeyID public), s_seen s).

(** ** Writing an export *)

Record evidenceRecordOutput := mkRecordOutput {
  o_Format : string; o_Kind : string; o_SignedFrame : string; o_NodeID : string; o_Epoch : Z; o_Sequence : Z; o_PreviousHash : string;
  o_ChainHash : string; o_Event : string; o_TenantID : string; o_RuntimeRef : string; o_CapsuleDigest : string; o_PolicyDigest : string;
  o_Generation : Z; o_GrantID : string; o_Outcome : string; o_ErrorCode : string; o_MetadataHash : string }.

Record evidenceHeadOutput := mkHeadOutput { oh_NodeID : string; oh_Epoch : Z; oh_Sequence : Z; oh_ChainHash : string; oh_KeyID : string }.

Definition record_json (x : evidenceRecordOutput) : json := obj [
  always "format" (JStr (o_Format x)); always "kind" (JStr (o_Kind x)); always "signed_frame" (JStr (o_SignedFrame x));
  always "node_id" (JStr (o_NodeID x)); always "epoch" (json_int (o_Epoch x)); always "sequence" (json_int (o_Sequence x));
  always "previous_hash" (JStr (o_PreviousHash x)); always "chain_hash" (JStr (o_ChainHash x)); always "event" (JStr (o_Event x));
  always "tenant_id" (JStr (o_TenantID x)); always "runtime_ref" (JStr (o_RuntimeRef x)); always "capsule_digest" (JStr (o_CapsuleDigest x));
  always "policy_digest" (JStr (o_PolicyDigest x)); always "generation" (json_int (o_Generation x)); always "grant_id" (JStr (o_GrantID x));
  always "outcome" (JStr (o_Outcome x)); omitempty "error_code" (empty_string (o_ErrorCode x)) (JStr (o_ErrorCode x));
  omitempty "metadata_hash" (empty_string (o_MetadataHash x)) (JStr (o_MetadataHash x))].

Definition head_json (x : evidenceHeadOutput) : json := obj [
  always "node_id" (JStr (oh_NodeID x)); always "epoch" (json_int (oh_Epoch x)); always "sequence" (json_int (oh_Sequence x));
  always "chain_hash" (JStr (oh_ChainHash x)); always "key_id" (JStr (oh_KeyID x))].

Definition evidenceHead (head : Head) : evidenceHeadOutput :=
  mkHeadOutput (HNodeID head) (HEpoch head) (HSequence head) (formattedHash (HChainHash head)) (HKeyID head).

Definition record_output (verified : VerifiedReceipt) : evidenceRecordOutput :=
  let receipt := VReceipt verified in
  let e := REvent receipt in
  mkRecordOutput ExportFormat "receipt" (b64_encode_string (Frame verified)) (NodeID receipt) (Epoch receipt) (Sequence receipt)
    (formattedHash (PreviousHash receipt)) (formattedHash (ChainHash verified)) (EventName (EType e)) (TenantID e) (RuntimeRef e)
    (CapsuleDigest e) (PolicyDigest e) (Generation e) (GrantID e) (OutcomeName (EOutcome e)) (ErrorCode e) (MetadataHash e).

Definition head_output (head : Head) : json :=
  obj [always "format" (JStr ExportFormat); always "kind" (JStr "head"); always "head" (head_json (evidenceHead head))].

(** [Encode] of a [json.Encoder]. *)
Definition encode (out : bytes) (v : json) : bytes := out ++ json_print v ++ [newline].

(** [expected] is the head of the verification before. The temporary file is the text it holds. *)
Definition exportEvidence (opened : bool) (file public : bytes) (nodeID : string) (epoch : Z) (expected : Head) : result bytes :=
  let* (actual, out) := VerifyRecords verify opened file public nodeID epoch (fun out verified => Ok (encode out (record_json (record_output verified)))) [] in
  require bool_decide (actual = expected) else "evidence log changed during export; retry against a stable file" in
  Ok (encode out (head_output actual)).

End Ed25519.


(** ** The command *)

Definition validateExpectedChainHash (value : string) : result unit :=
  require sha256_digest value else "expected evidence chain hash must be sha256 followed by 64 lowercase hexadecimal characters" in Ok tt.

Definition ParseUint (s : string) : option Z := match parse_nat (bytes_of s) with Some z => if in_u64b z then Some z else None | None => None end.

Definition checkExpectedEvidenceHead (head : Head) (expectedSequence expectedChainHash : string) : result unit :=
  let* _ :=
    if empty_string expectedSequence then Ok tt else
    let* sequence := opt_ok (ParseUint expectedSequence) "expected evidence sequence must be an unsigned decimal integer" in
    if HSequence head =? sequence then Ok tt
    else if HSequence head <? sequence then Err "evidence rollback detected" else Err "evidence checkpoint mismatch" in
  if empty_string expectedChainHash then Ok tt else
  let* _ := validateExpectedChainHash expectedChainHash in
  require String.eqb (formattedHash (HChainHash head)) expectedChainHash else "evidence checkpoint mismatch" in Ok tt.

Section Command.
Context (verify : bytes -> bytes -> bytes -> bool).

(** [evidence verify] and [evidence export] with [-kind executor]. [file'] is what the second reading of the export finds. *)
Definition evidence_verify (opened : bool) (file public : bytes) (nodeID : string) (epoch : Z) (expectedSequence expectedChainHash : string) : result Head :=
  let* (head, _) := VerifyAnyRecords verify opened file public nodeID epoch (fun u _ => Ok u) tt in
  let* _ := checkExpectedEvidenceHead head expectedSequence expectedChainHash in Ok head.

Definition evidence_export (opened : bool) (file file' public : bytes) (nodeID : string) (epoch : Z) (expectedSequence expectedChainHash : string) : result bytes :=
  let* (head, _) := VerifyRecords verify opened file public nodeID epoch (fun u _ => Ok u) tt in
  let* _ := checkExpectedEvidenceHead head expectedSequence expectedChainHash in
  exportEvidence verify opened file' public nodeID epoch head.
End Command.

(** ** Reading what was written *)

Definition line_of (v : VerifiedReceipt) : portableLine :=
  let r := VReceipt v in
  let e := REvent r in
  mkPortableLine (Some "receipt"%string) (Some ExportFormat) (Some (b64_encode_string (Frame v))) (Some (NodeID r)) (Some (Epoch r)) (Some (Sequence r))
    (Some (formattedHash (PreviousHash r))) (Some (formattedHash (ChainHash v))) (Some (EventName (EType e))) (Some (TenantID e)) (Some (RuntimeRef e))
    (Some (CapsuleDigest e)) (Some (PolicyDigest e)) (Some (Generation e)) (Some (GrantID e)) (Some (OutcomeName (EOutcome e)))
    (if empty_string (ErrorCode e) then None else Some (ErrorCode e)) (if empty_string (MetadataHash e) then None else Some (MetadataHash e)) None.

Lemma validText_ok value limit : validText value limit = true -> text_ok limit value.
Proof. unfold validText, validOptionalText, text_ok. intros H. breflect. by split. Qed.
Lemma validOptionalText_ok value limit : validOptionalText value limit = true -> text_ok limit value.
Proof. unfold validOptionalText, text_ok. intros H. breflect. by split. Qed.

Record texts_ok (r : Receipt) : Prop := {
  t_node : text_ok 256 (NodeID r); t_tenant : text_ok 128 (TenantID (REvent r)); t_runtime : text_ok 512 (RuntimeRef (REvent r));
  t_capsule : text_ok 128 (CapsuleDigest (REvent r)); t_policy : text_ok 128 (PolicyDigest (REvent r)); t_grant : text_ok 256 (GrantID (REvent r));
  t_code : text_ok 128 (ErrorCode (REvent r)); t_metadata : text_ok 128 (MetadataHash (REvent r)) }.

Lemma receipt_texts_ok r : checked_receipt r = true -> texts_ok r.
Proof.
  unfold checked_receipt, validateEvent. intros H. breflect. 
  match goal with H : is_ok _ = true |- _ => destruct (negb _) eqn:E in H; [|done] end. breflect.
  split; first [apply validText_ok; assumption | apply validOptionalText_ok; assumption].
Qed.

Lemma hash_text h : zlen h = hashSize -> all_bytes plain_byte (formattedHash h) = true /\ slen (formattedHash h) = 71.
Proof.
  intros H. destruct (hex_encode_lower h) as [Hl Hn]. unfold formattedHash. rewrite all_bytes_app, slen_app. split.
  - rewrite andb_true_iff. split; [done|]. apply (all_bytes_mono lower_hex_byte); [apply hex_digit_plain|]. unfold all_bytes. by rewrite bytes_of_string_of.
  - rewrite <- (zlen_bytes_of (string_of _)), bytes_of_string_of. unfold zlen in *. rewrite Hn. change (slen "sha256:") with 7. change hashSize with 32 in H. lia.
Qed.
Lemma event_text e : all_bytes plain_byte (EventName e) = true /\ slen (EventName e) <= 21.
Proof. unfold EventName. destruct e as [|p|p]; [done| |done]. do 5 (destruct p as [p|p|]; try done). Qed.
Lemma outcome_text o : all_bytes plain_byte (OutcomeName o) = true /\ slen (OutcomeName o) <= 11.
Proof. unfold OutcomeName. destruct o as [|p|p]; [done| |done]. do 3 (destruct p as [p|p|]; try done). Qed.

Ltac outputs := unfold record_json, record_output;
  cbn [o_Format o_Kind o_SignedFrame o_NodeID o_Epoch o_Sequence o_PreviousHash o_ChainHash o_Event o_TenantID o_RuntimeRef o_CapsuleDigest
       o_PolicyDigest o_Generation o_GrantID o_Outcome o_ErrorCode o_MetadataHash].

(** What the members of a written line rest on. *)
Lemma line_facts verify public nodeID epoch expected previous v : link verify public nodeID epoch expected previous v ->
  let r := VReceipt v in
  texts_ok r /\ (in_u64b (Epoch r) = true /\ in_u64b (Sequence r) = true /\ in_u64b (Generation (REvent r)) = true) /\
  (text_ok 71 (formattedHash (PreviousHash r)) /\ text_ok 71 (formattedHash (ChainHash v)) /\ text_ok 21 (EventName (EType (REvent r))) /\
   text_ok 11 (OutcomeName (EOutcome (REvent r))) /\ text_ok 87388 (b64_encode_string (Frame v))).
Proof.
  intros H. cbv zeta. apply link_facts in H as (_ & Hp & Hh & (Hz & He & Hs & Hg) & Hc & _ & _ & Hf). split; [by apply receipt_texts_ok|].
  split; [split_and!; by apply in_u64b_true|].
  destruct (hash_text (PreviousHash (VReceipt v)) Hz) as [H1 H1']. destruct (hash_text (ChainHash v)) as [H2 H2']; [rewrite Hh; apply zlen_chainHash|].
  destruct (event_text (EType (REvent (VReceipt v)))) as [H3 H3']. destruct (outcome_text (EOutcome (REvent (VReceipt v)))) as [H4 H4'].
  split_and!; apply text_plain; try done; try lia; [apply Dsse.b64_string_plain|]. rewrite Dsse.b64_string_len.
  change 87388 with (b64_encoded_len (MaxEnvelopeBytes + 4)). apply Dsse.b64_encoded_len_mono. lia.
Qed.

Lemma line_json verify public nodeID epoch expected previous v : link verify public nodeID epoch expected previous v ->
  json_ok (record_json (record_output v)).
Proof.
  intros H. apply line_facts in H as ([[] [] [] [] [] [] [] []] & (? & ? & ?) & ([] & [] & [] & [] & [])). outputs. struct_ok ltac:(member_ok).
Qed.

Lemma line_size verify public nodeID epoch expected previous v : link verify public nodeID epoch expected previous v ->
  zlen (json_print (record_json (record_output v))) < maxExportLine.
Proof.
  intros H. apply line_facts in H as ([[] [] [] [] [] [] [] []] & (?%in_u64b_true & ?%in_u64b_true & ?%in_u64b_true) & ([] & [] & [] & [] & [])). outputs.
  assert (slen ExportFormat <= 60) by (vm_compute; congruence). assert (slen "receipt" <= 7) by (vm_compute; congruence).
  assert (zlen (json_print (JStr (b64_encode_string (Frame v)))) <= 87390) by (rewrite zlen_print_str, zlen_quote_plain by apply Dsse.b64_string_plain; lia).
  match goal with Hb : slen (b64_encode_string _) <= _ |- _ => clear Hb end. apply (Z.le_lt_trans _ 131071); [|done]. struct_bound.
Qed.

(** Members that are not written, and those written with [omitempty] and read into a pointer. *)
Lemma field_absent {A} (ms : list member) k (dec : json -> option A) zero : k ∉ keys ms -> field (members ms) k dec zero = Some zero.
Proof.
  intros H. unfold field. assert (assoc k (members ms) = None) as ->; [|done]. induction ms as [|[[k' e] v] ms IH]; [done|].
  unfold keys in *. rewrite fmap_cons in H. apply not_elem_of_cons in H as [Hk H]. cbn [fst] in Hk. simpl. destruct e; [by apply IH|]. simpl.
  rewrite (proj2 (String.eqb_neq _ _)) by done. by apply IH.
Qed.
Lemma ptr_omit_string s : (if empty_string s then Some None else dec_ptr dec_string (JStr s)) = Some (if empty_string s then None else Some s).
Proof. by destruct (empty_string s). Qed.

Ltac absent ks := match ks with
  | nil => idtac
  | ?k :: ?ks => rewrite (field_absent _ k) by (apply (bool_decide_unpack _); vm_compute; exact I); absent ks
  end.

Lemma line_reads verify public nodeID epoch expected previous v : link verify public nodeID epoch expected previous v ->
  DecodeStrictInto (A := portableLine) (json_print (record_json (record_output v))) maxExportLine = Ok (line_of v).
Proof.
  intros H. pose proof (line_size _ _ _ _ _ _ _ H) as Hz. pose proof (line_json _ _ _ _ _ _ _ H) as Hj.
  apply line_facts in H as (_ & (? & ? & ?) & _). apply DecodeStrictInto_print; [done | | | lia]; outputs.
  - cbn [go_shape portableLine_json read_only]. wire_shape.
  - cbn [of_json portableLine_json read_only]. unfold obj. absent ["head"%string]. wire_read. rewrite !ptr_omit_string. cbn [mbind option_bind]. done.
Qed.

(** ** What is written has no control character, hence no newline *)

Definition shown (c : ascii) : Prop := 32 <= u8 c.

Lemma encode_rune_shown r : 128 <= r -> Forall shown (encode_rune r).
Proof.
  intros H. unfold encode_rune, shown. rewrite (proj2 (Z.ltb_ge _ 128)) by lia.
  repeat match goal with |- context [if ?b then _ else _] => let E := fresh "E" in destruct b eqn:E end; breflect;
    repeat (apply Forall_cons_2; [rewrite u8_byte_of_Z; Z.to_euclidean_division_equations; lia|]); try apply Forall_nil_2.
Qed.

Lemma hex_digit_shown z : 0 <= z < 16 -> shown (hex_digit z).
Proof. intros H. unfold shown, hex_digit. rewrite u8_byte_of_Z. destruct (z <? 10) eqn:E; breflect; rewrite Z.mod_small by lia; lia. Qed.

Lemma escape_ascii_shown b : Forall shown (escape_ascii b).
Proof.
  pose proof (u8_range b). unfold escape_ascii.
  repeat match goal with |- context [if ?c then _ else _] => let E := fresh "E" in destruct c eqn:E end;
    try (repeat constructor; by vm_compute).
  - repeat constructor; [by vm_compute|]. breflect. unfold shown. destruct E; breflect; lia.
  - apply Forall_app_2; [repeat constructor; by vm_compute|].
    repeat constructor; apply hex_digit_shown; Z.to_euclidean_division_equations; lia.
  - breflect. repeat constructor. unfold shown. lia.
Qed.

Lemma quote_shown s : Forall shown (quote s).
Proof.
  unfold quote, quote_body. apply Forall_cons_2; [vm_compute; congruence|]. apply Forall_app_2; [|repeat constructor; vm_compute; congruence].
  pattern (bytes_of s), (segs (bytes_of s)). apply segs_ind.
  - apply Forall_nil_2.
  - intros b t Hb _ IH. rewrite fmap_cons, concat_cons. apply Forall_app_2; [|done]. cbn [quote_rune]. rewrite (proj2 (Z.ltb_ge _ _)) by done.
    repeat constructor; vm_compute; congruence.
  - intros b t Hb IH. rewrite fmap_cons, concat_cons. apply Forall_app_2; [|done]. cbn [quote_rune]. rewrite (proj2 (Z.ltb_lt _ _)) by done. apply escape_ascii_shown.
  - intros b raw r t Hl Hb He Hr _ IH. rewrite fmap_cons, concat_cons. apply Forall_app_2; [|done]. destruct raw as [|b1 raw]; [cbn in Hl; lia|]. cbn [quote_rune].
    destruct (_ || _); [|rewrite <- He; by apply encode_rune_shown].
    apply Forall_app_2; [repeat constructor; vm_compute; congruence|]. repeat constructor. apply hex_digit_shown.
    change 15 with (Z.ones 4). rewrite Z.land_ones by lia. by apply Z.mod_pos_bound.
Qed.

Lemma itoa_shown z : Forall shown (itoa z).
Proof.
  assert (H : forall n, 0 <= n -> Forall shown (itoa_abs n)).
  { intros n Hn. destruct (itoa_abs_spec n Hn) as (_ & Hd & _). apply Forall_forall. intros c Hc%list_elem_of_In. rewrite forallb_forall in Hd.
    specialize (Hd c Hc). unfold digit, shown in *. breflect. lia. }
  unfold itoa. destruct (z <? 0) eqn:E; breflect; [apply Forall_cons_2; [vm_compute; congruence|]|]; apply H; lia.
Qed.

Lemma sep_by_shown {A} (f : A -> bytes) l : Forall (fun x => Forall shown (f x)) l -> Forall shown (sep_by f l).
Proof.
  intros H. destruct H as [|x l Hx H]; cbn [sep_by]; [apply Forall_nil_2|]. apply Forall_app_2; [done|].
  induction H as [|y l Hy _ IH]; [apply Forall_nil_2|]. rewrite fmap_cons, concat_cons. apply Forall_app_2; [|done].
  apply Forall_cons_2; [vm_compute; congruence | done].
Qed.

Lemma print_shown v : json_ok v -> Forall shown (json_print v).
Proof.
  induction v as [|b|lit|s|vs IH|fs IH] using json_ind'; intros H; cbn [json_print].
  - repeat constructor; vm_compute; congruence.
  - destruct b; repeat constructor; vm_compute; congruence.
  - destruct H as [z ->]. apply itoa_shown.
  - apply quote_shown.
  - apply Forall_cons_2; [vm_compute; congruence|]. apply Forall_app_2; [|repeat constructor; vm_compute; congruence]. apply sep_by_shown.
    apply json_ok_arr in H. rewrite Forall_forall in *. auto.
  - apply Forall_cons_2; [vm_compute; congruence|]. apply Forall_app_2; [|repeat constructor; vm_compute; congruence]. apply sep_by_shown.
    apply json_ok_obj in H. rewrite Forall_forall in *. intros f Hf. apply Forall_app_2; [apply quote_shown|]. apply Forall_cons_2; [vm_compute; congruence|].
    apply IH; [done|]. by apply H.
Qed.

(** A written line is cut where it ends. *)
Lemma cut_written raw rest : Forall shown raw -> cut_line (raw ++ newline :: rest) = Some (raw ++ [newline], rest).
Proof.
  induction 1 as [|c raw Hc _ IH]; [done|]. unfold shown in Hc. cbn [app cut_line]. rewrite (proj2 (Z.eqb_neq _ _)) by lia. by rewrite IH.
Qed.

Lemma cut_line_inv l raw rest : cut_line l = Some (raw, rest) -> l = raw ++ rest.
Proof.
  revert raw. induction l as [|c l IH]; intros raw; [done|]. cbn [cut_line]. destruct (u8 c =? 10); [by intros [= <- <-]|].
  destruct (cut_line l) as [[r s]|]; [|done]. intros [= <- <-]. cbn [app]. f_equal. by apply IH.
Qed.
Lemma cut_line_cons l raw rest : cut_line l = Some (raw, rest) -> (1 <= length raw)%nat.
Proof. destruct l as [|c l]; [done|]. cbn [cut_line]. destruct (u8 c =? 10); [by intros [= <- <-]|]. destruct (cut_line l) as [[r s]|]; [|done]. intros [= <- <-]. cbn. lia. Qed.

Lemma ReadSlice_written v rest : json_ok v -> zlen (json_print v) < maxExportLine ->
  ReadSlice (json_print v ++ newline :: rest) = Line (json_print v ++ [newline]) rest.
Proof.
  intros Hv Hz. unfold ReadSlice. rewrite cut_written by by apply print_shown. rewrite zlen_app. change (zlen [newline]) with 1.
  by rewrite (proj2 (Z.leb_le _ _)) by lia.
Qed.

(** ** The final head *)

Definition headline_of (h : Head) : portableLine :=
  mkPortableLine (Some "head"%string) (Some ExportFormat) None None None None None None None None None None None None None None None None
    (Some (mkPortableHead (Some (HNodeID h)) (Some (HEpoch h)) (Some (HSequence h)) (Some (formattedHash (HChainHash h))) (Some (HKeyID h)))).

Definition head_ok (h : Head) : Prop :=
  text_ok 256 (HNodeID h) /\ in_u64 (HEpoch h) /\ in_u64 (HSequence h) /\ zlen (HChainHash h) = hashSize /\ text_ok 32 (HKeyID h).

Lemma head_reads h : head_ok h -> json_ok (head_output h) /\ zlen (json_print (head_output h)) < maxExportLine /\
  DecodeStrictInto (A := portableLine) (json_print (head_output h)) maxExportLine = Ok (headline_of h).
Proof.
  intros ([] & He & Hs & [Hc Hc']%hash_text & []). pose proof (plain_utf8 _ Hc) as Hu.
  assert (Hin : json_ok (head_json (evidenceHead h))) by (unfold head_json, evidenceHead; cbn [oh_NodeID oh_Epoch oh_Sequence oh_ChainHash oh_KeyID]; struct_ok ltac:(member_ok)).
  assert (Hj : json_ok (head_output h)) by (unfold head_output; struct_ok ltac:(member_ok)).
  assert (Hz : zlen (json_print (head_output h)) < maxExportLine).
  { assert (zlen (json_print (head_json (evidenceHead h))) <= 10000).
    { unfold head_json, evidenceHead; cbn [oh_NodeID oh_Epoch oh_Sequence oh_ChainHash oh_KeyID]. assert (slen (formattedHash (HChainHash h)) <= 71) by lia. struct_bound. }
    assert (slen ExportFormat <= 60) by (vm_compute; congruence). assert (slen "head" <= 4) by (vm_compute; congruence).
    unfold head_output. apply (Z.le_lt_trans _ 131071); [|done]. struct_bound. }
  split_and!; [done | done |]. pose proof (proj2 (in_u64b_true _) He). pose proof (proj2 (in_u64b_true _) Hs).
  apply DecodeStrictInto_print; [done | | | lia]; unfold head_output.
  - cbn [go_shape portableLine_json read_only]. struct_shape ltac:(rewrite validate_pointer by done; first [by apply validate_leaf; [lia|] | unfold head_json, evidenceHead; cbn [oh_NodeID oh_Epoch oh_Sequence oh_ChainHash oh_KeyID]; wire_shape]).
  - cbn [of_json portableLine_json read_only]. unfold obj.
    absent ["signed_frame"; "node_id"; "epoch"; "sequence"; "previous_hash"; "chain_hash"; "event"; "tenant_id"; "runtime_ref"; "capsule_digest"; "policy_digest";
      "generation"; "grant_id"; "outcome"; "error_code"; "metadata_hash"]%string.
    wire_read. assert (Hd : of_json (A := portableHead) (head_json (evidenceHead h)) =
      Some (mkPortableHead (Some (HNodeID h)) (Some (HEpoch h)) (Some (HSequence h)) (Some (formattedHash (HChainHash h))) (Some (HKeyID h)))).
    { unfold head_json, evidenceHead. cbn [oh_NodeID oh_Epoch oh_Sequence oh_ChainHash oh_KeyID of_json portableHead_json read_only]. wire_read. done. }
    assert (Hp : dec_ptr of_json (head_json (evidenceHead h)) = Some <$> of_json (A := portableHead) (head_json (evidenceHead h))) by done.
    rewrite Hp, Hd. done.
Qed.

End EvidencePortable.
