(* ===== verification/EvidenceExport.v ===== *)
(** * What an export is worth

    Theorems on [EvidencePortable]: an accepted export holds a chain of signed receipts, and what the command exports is accepted with the
    head and the receipts of the log. *)

From Stdlib Require Import Ascii.
From S2P Require Import Prelude GoText GoJson GoCrypto GoFS Strict Dsse Permit EvidenceReceipt EvidenceLog EvidenceChain EvidenceSafety EvidenceDelta EvidencePortable.
Import EvidenceReceipt EvidenceLog EvidenceChain EvidenceSafety EvidenceDelta EvidencePortable.

(** A lemma depends on the section hypotheses its proof uses. *)
Unset Default Proof Using.

Module EvidenceExport.

Section Ed25519.
Context (verify : bytes -> bytes -> bytes -> bool).

Section Verify.
Context {A : Type} (visit : A -> VerifiedReceipt -> result A) (public : bytes) (nodeID : string) (epoch : Z).

(** ** Accepted exports *)

(** The sequence numbers stay below the number of bytes read. *)
Definition export_wf (s : export_scan A) : Prop := 1 <= x_expected s /\ x_expected s - 1 <= x_total s <= maxExportBytes.

(** What reading the lines of a chain makes of the state. *)
Definition exported (s : export_scan A) (vs : list VerifiedReceipt) (total : Z) (seenHead : bool) (seen : A) : export_scan A :=
  mkExportScan (head_hash (x_previous s) vs) (x_expected s + zlen vs) total seenHead seen.

(** A line of an export, without its newline, that holds a receipt: it decodes strictly to a portable line of the right format and shape, its signed frame is the canonical
    text of the frame of the receipt, and its projections match. *)
Definition one_line (line : bytes) : Prop := Forall (fun c => u8 c <> 10) line.
Definition receipt_line_of (line : bytes) (v : VerifiedReceipt) : Prop :=
  one_line line /\ exists p, DecodeStrictInto line maxExportLine = Ok p /\ l_Kind p = Some "receipt"%string /\ l_Format p = Some ExportFormat /\
    validatePortableReceiptShape p = Ok tt /\ l_SignedFrame p = Some (b64_encode_string (Frame v)) /\ portableReceiptMatches p (VReceipt v) (ChainHash v) = true.

(** The line of the final head. *)
Definition head_line_of (line : bytes) (head : Head) : Prop :=
  one_line line /\ exists p h, DecodeStrictInto line maxExportLine = Ok p /\ l_Kind p = Some "head"%string /\ l_Format p = Some ExportFormat /\
    validatePortableHeadShape p = Ok h /\ portableHeadMatches h head = true.

(** The receipts, one on each line, then the head, and nothing else. *)
Definition portable_file (file : bytes) (vs : list VerifiedReceipt) (head : Head) : Prop :=
  exists lines last_line, Forall2 receipt_line_of lines vs /\ head_line_of last_line head /\
    file = concat ((fun line => line ++ [newline]) <$> lines) ++ last_line ++ [newline].

Lemma cut_line_shape l raw rest : cut_line l = Some (raw, rest) -> exists line, raw = line ++ [newline] /\ one_line line /\ l = raw ++ rest.
Proof.
  intros H. pose proof (cut_line_inv _ _ _ H) as El. revert raw H El. induction l as [|c l IH]; intros raw H El; [done|]. cbn [cut_line] in H. destruct (Z.eqb_spec (u8 c) 10) as [Ec|Ec].
  - injection H as <- <-. exists []. split_and!; [|constructor|done]. cbn [app]. f_equal. apply u8_inj. by rewrite Ec.
  - destruct (cut_line l) as [[r t]|] eqn:E; [|done]. injection H as <- <-. injection El as El. destruct (IH r eq_refl El) as (line & -> & Hl & _).
    exists (c :: line). split_and!; [done | by constructor | cbn [app]; by rewrite El].
Qed.

Lemma shape_frame p : validatePortableReceiptShape p = Ok tt -> l_SignedFrame p = Some (default ""%string (l_SignedFrame p)).
Proof. unfold validatePortableReceiptShape. destruct (l_SignedFrame p); [done|]. cbn [nil_ptr]. by rewrite orb_true_r. Qed.

Lemma export_line_inv s line s' : export_wf s -> one_line line -> export_line verify visit public nodeID epoch s (line ++ [newline]) = Ok s' ->
  x_seenHead s = false /\ export_wf s' /\
  ((exists v seen, link verify public nodeID epoch (x_expected s) (x_previous s) v /\ visit (x_seen s) v = Ok seen /\ receipt_line_of line v /\
      s' = exported s [v] (x_total s + zlen (line ++ [newline])) false seen) \/
   (s' = exported s [] (x_total s + zlen (line ++ [newline])) true (x_seen s) /\ head_line_of line (derived_head public nodeID epoch s))).
Proof.
  intros (H1 & H2) Hone H. unfold export_line in H. set (raw := line ++ [newline]) in *. step H. step H. step H. breflect.
  destruct (DecodeStrictInto _ _) as [p|] eqn:Ed; [|done].
  destruct (present (l_Kind p) && bool_decide (l_Format p = Some ExportFormat)) eqn:Efmt; [|done]. rewrite E1 in *.
  assert (El : take (length raw - 1) raw = line).
  { unfold raw. rewrite length_app. cbn [length]. replace (length line + 1 - 1)%nat with (length line) by lia. apply take_app_length. }
  rewrite El in Ed. apply andb_true_iff in Efmt as [_ Efmt%bool_decide_eq_true].
  assert (Hu : u64 (x_expected s + 1) = x_expected s + 1) by (apply u64_small; unfold in_u64; change maxExportBytes with 268435456 in *; lia).
  destruct (bool_decide (l_Kind p = Some "receipt"%string)) eqn:Ek; [|destruct (bool_decide (l_Kind p = Some "head"%string)) eqn:Ekh; [|done]]; (split; [done|]).
  - apply bool_decide_eq_true in Ek. unfold receipt_line in H. cbn [x_expected x_previous x_total x_seenHead x_seen] in H.
    destruct (validatePortableReceiptShape p) as [[]|] eqn:Esh; [|done]. destruct (b64_decode_string _) as [frame|] eqn:Eb; [|done]. cbn [opt_ok] in H.
    destruct (String.eqb_spec (b64_encode_string frame) (default ""%string (l_SignedFrame p))) as [Ef|]; [|done].
    destruct (verifyFrame _ _ _ _ _ _ _) as [[r h]|] eqn:Ev; [|done]. destruct (portableReceiptMatches p r h) eqn:Em; [|done].
    destruct (visit _ _) as [seen|] eqn:Evis; [|done]. injection H as <-. rewrite Hu.
    apply verifyFrame_exact in Ev as (inner & Hf & Hs & Hv). split; [unfold export_wf; cbn [x_expected x_total]; lia|]. left.
    exists (mkVerified r h frame), seen. split; [by exists inner|]. split; [done|]. split; [|unfold exported, head_hash; cbn [last ChainHash]; by rewrite zlen_cons, zlen_nil].
    split; [done|]. exists p. cbn [Frame VReceipt ChainHash]. split_and!; try done. rewrite (shape_frame p Esh). by rewrite Ef.
  - apply bool_decide_eq_true in Ekh. unfold head_line in H. destruct (validatePortableHeadShape p) as [h|] eqn:Esh; [|done].
    destruct (portableHeadMatches _ _) eqn:Em; [|done]. injection H as <-. cbn [x_expected x_previous x_seen]. split; [unfold export_wf; cbn [x_expected x_total]; lia|]. right.
    unfold exported, head_hash. cbn [last]. rewrite zlen_nil, Z.add_0_r. split; [done|]. split; [done|]. by exists p, h.
Qed.

Lemma exported_cons s v vs t1 b1 seen1 t b seen : exported (exported s [v] t1 b1 seen1) vs t b seen = exported s (v :: vs) t b seen.
Proof.
  unfold exported. cbn [x_previous x_expected]. rewrite (head_hash_cons _ v vs), !zlen_cons, zlen_nil. f_equal. lia.
Qed.
Lemma exported_head s v t b seen : x_previous (exported s [v] t b seen) = ChainHash v /\ x_expected (exported s [v] t b seen) = x_expected s + 1.
Proof. done. Qed.

(** An export that is read to its end holds a chain, and then its head. *)
Lemma export_lines_inv fuel reader s s' : export_wf s -> export_lines verify visit public nodeID epoch fuel reader s = Ok s' ->
  export_wf s' /\ (x_seenHead s = true -> s' = s /\ reader = []) /\
  (x_seenHead s = false -> exists vs seen total, chained verify public nodeID epoch (x_expected s) (x_previous s) vs /\
    fold_ok visit (x_seen s) vs = Ok seen /\ s' = exported s vs total (x_seenHead s') seen /\
    (x_seenHead s' = true -> portable_file reader vs (derived_head public nodeID epoch s'))).
Proof.
  revert reader s. induction fuel as [|fuel IH]; intros reader s Hwf H; [done|]. cbn [export_lines] in H. unfold ReadSlice in H.
  destruct (cut_line reader) as [[raw rest]|] eqn:Ecut.
  - destruct (zlen raw <=? _); [|done]. destruct (cut_line_shape _ _ _ Ecut) as (line & -> & Hone & ->).
    step H. apply export_line_inv in E as (Hs & Hwf' & Hor); [|done|done]. destruct (IH _ _ Hwf' H) as (IHw & IHt & IHf). split; [exact IHw|]. split; [congruence|]. intros _.
    destruct Hor as [(v & seen & Hl & Hv & Hline & ->) | [-> Hline]].
    + destruct (IHf eq_refl) as (vs & seen' & total & Hc & Hf & E & Hfile). exists (v :: vs), seen', total. cbn [x_seen exported] in Hf. cbn [fold_ok chained]. rewrite Hv.
      split; [split; [exact Hl | exact Hc]|]. split; [exact Hf|]. split; [by rewrite exported_cons in E|]. intros Hh.
      destruct (Hfile Hh) as (lines & last_line & Hls & Hlast & ->). exists (line :: lines), last_line. split; [by constructor|]. split; [done|].
      rewrite fmap_cons. cbn [concat]. by rewrite <- !app_assoc.
    + destruct (IHt eq_refl) as [-> ->]. exists [], (x_seen s), (x_total s + zlen (line ++ [newline])). split; [done|]. split; [done|]. split; [done|]. intros _.
      exists [], line. split; [constructor|]. split; [|by rewrite app_nil_r]. unfold derived_head, exported in *. cbn [x_expected x_previous] in *. unfold head_hash. cbn [last]. by rewrite zlen_nil, Z.add_0_r.
  - destruct (zlen reader <=? _); [|done]. step H. injection H as <-. split; [done|]. split; [by intros Hs; rewrite Hs in *; split; [|destruct reader; [|rewrite zlen_cons in E; pose proof (zlen_nonneg reader); lia]]|]. intros Hs.
    exists [], (x_seen s), (x_total s). split; [done|]. split; [done|]. split; [|congruence]. unfold exported, head_hash. cbn [last]. rewrite zlen_nil, Z.add_0_r. by destruct s.
Qed.

(** The verifier of exports accepts chains of signed receipts only. *)
Lemma export_chain file seen head seen' : verifyExportWithVisitor verify visit public nodeID epoch file seen = Ok (head, seen') ->
  exists vs, chained verify public nodeID epoch 1 zeroHash vs /\ fold_ok visit seen vs = Ok seen' /\
    head = mkHead nodeID epoch (zlen vs) (head_hash zeroHash vs) (KeyID public) /\ portable_file file vs head.
Proof.
  unfold verifyExportWithVisitor. intros H. step H. step H. apply export_lines_inv in E as (Hw & _ & Hx); [|split; cbn [x_expected x_total]; [lia | change maxExportBytes with 268435456; lia]].
  destruct (Hx eq_refl) as (vs & seen1 & total & Hc & Hf & Ea & Hfile). specialize (Hfile E0). injection H as Hhead Hseen. rewrite Hhead in Hfile. rewrite Ea in Hw, Hhead, Hseen.
  destruct Hw as [_ Hw]. cbn [exported x_expected x_total x_seen] in Hw, Hseen. subst seen1. exists vs. split; [exact Hc|]. split; [exact Hf|]. split; [|exact Hfile].
  rewrite <- Hhead. unfold derived_head, exported. cbn [x_expected x_previous]. replace (1 + zlen vs - 1) with (zlen vs) by lia.
  rewrite u64_small; [done|]. pose proof (zlen_nonneg vs). unfold in_u64. change maxExportBytes with 268435456 in Hw. lia.
Qed.

(** ** Written exports *)

Definition line_text (v : VerifiedReceipt) : bytes := json_print (record_json (record_output v)) ++ [newline].
Definition export_text (head : Head) (vs : list VerifiedReceipt) : bytes := concat (line_text <$> vs) ++ json_print (head_output head) ++ [newline].

Lemma projections_match v : portableReceiptMatches (line_of v) (VReceipt v) (ChainHash v) = true.
Proof.
  unfold portableReceiptMatches, line_of, optionalProjectionMatches. cbn [l_NodeID l_Epoch l_Sequence l_PreviousHash l_ChainHash l_Event l_TenantID l_RuntimeRef
    l_CapsuleDigest l_PolicyDigest l_Generation l_GrantID l_Outcome l_ErrorCode l_MetadataHash]. unfold empty_string. by rewrite !bool_decide_true.
Qed.

Lemma take_line (l : bytes) : take (length (l ++ [newline]) - 1) (l ++ [newline]) = l.
Proof. rewrite length_app. cbn [length]. replace (length l + 1 - 1)%nat with (length l) by lia. apply take_app_length. Qed.

Lemma export_line_text s v seen : export_wf s -> x_seenHead s = false -> x_total s + zlen (line_text v) <= maxExportBytes ->
  link verify public nodeID epoch (x_expected s) (x_previous s) v -> visit (x_seen s) v = Ok seen ->
  export_line verify visit public nodeID epoch s (line_text v) = Ok (exported s [v] (x_total s + zlen (line_text v)) false seen).
Proof.
  intros (H1 & H2) Hs Hz Hl Hv. pose proof (line_size _ _ _ _ _ _ _ Hl) as Hsz. pose proof (line_json _ _ _ _ _ _ _ Hl) as Hj.
  assert (Hpos : 1 <= zlen (json_print (record_json (record_output v)))) by (destruct (json_print_head _ Hj) as (c & t & -> & _); rewrite zlen_cons; pose proof (zlen_nonneg t); lia).
  assert (Hlen : zlen (line_text v) = zlen (json_print (record_json (record_output v))) + 1) by (unfold line_text; rewrite zlen_app; done).
  unfold export_line. rewrite (proj2 (Z.leb_le _ _) Hz), (proj2 (Z.leb_gt (zlen (line_text v)) 1)), (proj2 (Z.ltb_ge maxExportLine _)), Hs by lia. cbn [orb negb].
  unfold line_text at 1 2. rewrite take_line, (line_reads _ _ _ _ _ _ _ Hl). cbn [line_of l_Kind l_Format present].
  rewrite !bool_decide_true by done. cbn [andb]. unfold receipt_line. cbn [x_expected x_previous x_total x_seen x_seenHead].
  assert (Hshape : validatePortableReceiptShape (line_of v) = Ok tt) by done. rewrite Hshape. cbn [line_of l_SignedFrame default from_option id].
  rewrite Dsse.b64_string_decode. cbn [opt_ok]. rewrite String.eqb_refl.
  destruct Hl as (raw & Hf & Hsized & Hver). rewrite (proj2 (verifyFrame_exact _ _ _ _ _ _ _ (VReceipt v) (ChainHash v))) by (exists raw; done).
  rewrite projections_match. assert (mkVerified (VReceipt v) (ChainHash v) (Frame v) = v) as -> by by destruct v. rewrite Hv.
  unfold exported, head_hash. cbn [last]. rewrite zlen_cons, zlen_nil, u64_small; [done|]. unfold in_u64. change maxExportBytes with 268435456 in *. lia.
Qed.

Lemma export_lines_text vs fuel tail s seen : export_wf s -> x_seenHead s = false -> x_total s + zlen (concat (line_text <$> vs)) <= maxExportBytes ->
  chained verify public nodeID epoch (x_expected s) (x_previous s) vs -> fold_ok visit (x_seen s) vs = Ok seen ->
  export_lines verify visit public nodeID epoch (length vs + fuel) (concat (line_text <$> vs) ++ tail) s =
  export_lines verify visit public nodeID epoch fuel tail (exported s vs (x_total s + zlen (concat (line_text <$> vs))) false seen).
Proof.
  revert s. induction vs as [|v vs IH]; intros s Hwf Hs Hz Hc Hv.
  - injection Hv as <-. cbn [fmap list_fmap concat app length Nat.add]. f_equal. unfold exported, head_hash. cbn [last]. rewrite !zlen_nil, !Z.add_0_r, <- Hs. by destruct s.
  - destruct Hc as [Hl Hc]. cbn [fold_ok] in Hv. step Hv. rewrite fmap_cons in *. cbn [concat] in *. rewrite zlen_app in *. pose proof (zlen_nonneg (concat (line_text <$> vs))).
    pose proof (export_line_text s v a Hwf Hs ltac:(lia) Hl E) as Hline. 
    assert (Hwf' : export_wf (exported s [v] (x_total s + zlen (line_text v)) false a)).
    { apply (export_line_inv s (json_print (record_json (record_output v)))); [done | | exact Hline].
      eapply Forall_impl; [apply print_shown; exact (line_json _ _ _ _ _ _ _ Hl)|]. intros c Hsh. unfold shown in Hsh. lia. }
    cbn [length Nat.add export_lines]. rewrite <- app_assoc. unfold line_text at 1. rewrite <- app_assoc. cbn [app].
    rewrite ReadSlice_written; [|exact (line_json _ _ _ _ _ _ _ Hl)|exact (line_size _ _ _ _ _ _ _ Hl)]. fold (line_text v). rewrite Hline.
    rewrite IH; [|done|done|cbn [exported x_total]; lia|exact Hc|exact Hv]. rewrite exported_cons. cbn [exported x_total]. by rewrite Z.add_assoc.
Qed.

Lemma head_valid vs : valid_identity public nodeID epoch = true -> in_u64 epoch -> chained verify public nodeID epoch 1 zeroHash vs -> zlen (bytes_of_chain vs) <= MaxLogBytes ->
  head_ok (mkHead nodeID epoch (zlen vs) (head_hash zeroHash vs) (KeyID public)).
Proof.
  intros Hi He Hc Hz. unfold valid_identity in Hi. breflect. pose proof (chained_size _ _ _ _ _ _ _ Hc). pose proof (zlen_nonneg vs).
  destruct (KeyID_valid public) as [Hk Hk']. unfold head_ok. cbn [HNodeID HEpoch HSequence HChainHash HKeyID]. split_and!; try done.
  - by apply validText_ok.
  - unfold in_u64. change MaxLogBytes with 67108864 in *. lia.
  - unfold head_hash. destruct vs as [|v vs] using rev_ind; [done|]. rewrite last_snoc. apply chained_app in Hc as [_ [Hl _]]. apply link_facts in Hl as (_ & _ & -> & _). apply zlen_chainHash.
  - apply validText_ok in Hk as [Hu _]. split; [exact Hu | lia].
Qed.

Definition portable_of (h : Head) : portableHead :=
  mkPortableHead (Some (HNodeID h)) (Some (HEpoch h)) (Some (HSequence h)) (Some (formattedHash (HChainHash h))) (Some (HKeyID h)).
Lemma head_shape h : validatePortableHeadShape (headline_of h) = Ok (portable_of h).
Proof. done. Qed.
Lemma head_matches h : portableHeadMatches (portable_of h) h = true.
Proof. unfold portableHeadMatches, portable_of. cbn [p_NodeID p_Epoch p_Sequence p_ChainHash p_KeyID]. by rewrite !bool_decide_true. Qed.

(** The text of a chain and its head is accepted. *)
Lemma export_text_accepted vs seen0 seen : let head := mkHead nodeID epoch (zlen vs) (head_hash zeroHash vs) (KeyID public) in
  head_ok head -> chained verify public nodeID epoch 1 zeroHash vs -> fold_ok visit seen0 vs = Ok seen -> zlen (export_text head vs) <= maxExportBytes ->
  verifyExportWithVisitor verify visit public nodeID epoch (export_text head vs) seen0 = Ok (head, seen).
Proof.
  intros head Hh Hc Hv Hz. destruct (head_reads head Hh) as (Hj & Hs & Hd). unfold verifyExportWithVisitor, export_text in *.
  set (ls := concat (line_text <$> vs)) in *. set (hl := json_print (head_output head)) in *. rewrite zlen_app in Hz. pose proof (zlen_nonneg (hl ++ [newline])).
  assert (Hpos : 1 <= zlen hl) by (subst hl; destruct (json_print_head _ Hj) as (c & t & -> & _); rewrite zlen_cons; pose proof (zlen_nonneg t); lia).
  assert (Hlen : (length vs <= length ls)%nat).
  { subst ls. clear. induction vs as [|v vs IH]; [done|]. rewrite fmap_cons. cbn [concat length]. unfold line_text at 1. rewrite !length_app. cbn [length]. lia. }
  set (rest := (length ls - length vs + length hl)%nat).
  replace (S (length (ls ++ hl ++ [newline]))) with (length vs + S (S rest))%nat by (subst rest; rewrite !length_app; cbn [length]; lia).
  subst ls. rewrite (export_lines_text vs _ _ _ seen); [|split; cbn [x_expected x_total]; [lia | change maxExportBytes with 268435456; lia] | done | cbn [x_total]; lia | exact Hc | exact Hv].
  set (ls := concat (line_text <$> vs)) in *. cbn [x_total] in *. set (s := exported _ vs _ _ _).
  cbn [export_lines]. subst hl. rewrite ReadSlice_written by done. set (hl := json_print (head_output head)) in *.
  assert (Hder : derived_head public nodeID epoch s = head).
  { unfold derived_head, s, exported. cbn [x_expected x_previous]. replace (1 + zlen vs - 1) with (zlen vs) by lia. rewrite u64_small by apply Hh. done. }
  assert (Hline : export_line verify visit public nodeID epoch s (hl ++ [newline]) = Ok (mkExportScan (x_previous s) (x_expected s) (x_total s + zlen (hl ++ [newline])) true (x_seen s))).
  { unfold export_line. assert (Hn : zlen (hl ++ [newline]) = zlen hl + 1) by (rewrite zlen_app; done). cbn [s exported x_total x_seenHead] in *.
    rewrite (proj2 (Z.leb_le _ _)), (proj2 (Z.leb_gt (zlen (hl ++ [newline])) 1)), (proj2 (Z.ltb_ge maxExportLine _)) by lia. cbn [orb negb].
    rewrite take_line. subst hl. rewrite Hd. cbn [headline_of l_Kind l_Format present]. rewrite bool_decide_true by done. cbn [andb].
    rewrite bool_decide_false, bool_decide_true by done. unfold head_line. rewrite head_shape.
    change (derived_head public nodeID epoch (mkExportScan _ _ _ _ _)) with (derived_head public nodeID epoch s). rewrite Hder, head_matches. done. }
  rewrite Hline. cbn [ReadSlice cut_line]. change (zlen (@nil ascii)) with 0. change (0 <=? maxExportLine) with true.
  change (zlen (@nil ascii) =? 0) with true. cbn [x_seenHead]. rewrite <- Hder at 1. reflexivity.
Qed.
End Verify.

(** ** How long an export is *)

Definition text_bytes (r : Receipt) : Z :=
  slen (NodeID r) + slen (TenantID (REvent r)) + slen (RuntimeRef (REvent r)) + slen (CapsuleDigest (REvent r)) + slen (PolicyDigest (REvent r))
  + slen (GrantID (REvent r)) + slen (ErrorCode (REvent r)) + slen (MetadataHash (REvent r)).

Lemma text_bytes_nonneg r : 0 <= text_bytes r.
Proof. unfold text_bytes. repeat match goal with |- context [slen ?s] => pose proof (slen_nonneg s); generalize dependent (slen s); intros end. lia. Qed.

(** Texts that JSON writes as they are. *)
Definition plain_texts (r : Receipt) : Prop :=
  all_bytes plain_byte (NodeID r) = true /\ all_bytes plain_byte (TenantID (REvent r)) = true /\ all_bytes plain_byte (RuntimeRef (REvent r)) = true /\
  all_bytes plain_byte (CapsuleDigest (REvent r)) = true /\ all_bytes plain_byte (PolicyDigest (REvent r)) = true /\
  all_bytes plain_byte (GrantID (REvent r)) = true /\ all_bytes plain_byte (ErrorCode (REvent r)) = true /\ all_bytes plain_byte (MetadataHash (REvent r)) = true.

Lemma frame_length public nodeID epoch expected previous v : link verify public nodeID epoch expected previous v -> zlen (Frame v) = 225 + text_bytes (VReceipt v).
Proof.
  intros (raw & -> & _ & H). apply verifyEnvelope_exact in H as [((Hp & _) & _ & _ & _ & _ & _ & sig & (_ & _ & _ & _ & Hs) & -> & _) _].
  rewrite zlen_frame. unfold flat_envelope, envelope_of in *. cbn [EnvVersion EnvPayloadType Payload EnvKeyID Signature] in *. unfold flat.
  rewrite !zlen_app, !zlen_be_encode, !zlen_append_text, zlen_nil, Hs, Hp, (proj2 (KeyID_valid public)).
  change (slen PayloadType) with 41. change Dsse.SignatureSize with 64. change hashSize with 32. unfold text_bytes. lia.
Qed.

(** A plain member takes its text and its quotes. *)
Lemma msize_plain k (o : bool) s n : all_bytes plain_byte s = true -> slen s <= n -> msize (k, o, JStr s) <= zlen (quote k) + n + 4.
Proof.
  intros Hp Hs. pose proof (slen_nonneg s). unfold msize, member_size. cbn [fst snd]. rewrite zlen_print_str, (zlen_quote_plain s) by done.
  pose proof (zlen_nonneg (quote k)). destruct o; lia.
Qed.

Lemma plain_line public nodeID epoch expected previous v : link verify public nodeID epoch expected previous v -> plain_texts (VReceipt v) ->
  zlen (line_text v) + 38 <= 4 * zlen (Frame v).
Proof.
  intros Hl (P1 & P2 & P3 & P4 & P5 & P6 & P7 & P8). pose proof (frame_length _ _ _ _ _ _ Hl) as Hf. apply line_facts in Hl as Hx.
  destruct Hx as (_ & (He%in_u64b_true & Hs%in_u64b_true & Hg%in_u64b_true) & _).
  apply link_facts in Hl as (_ & _ & Hh & (Hp & _) & _).
  destruct (hash_text _ Hp) as [P9 L9]. destruct (hash_text (ChainHash v)) as [P10 L10]; [rewrite Hh; apply zlen_chainHash|].
  destruct (event_text (EType (REvent (VReceipt v)))) as [P11 L11]. destruct (outcome_text (EOutcome (REvent (VReceipt v)))) as [P12 L12].
  assert (L13 := Dsse.b64_string_len (Frame v)). assert (P13 := Dsse.b64_string_plain (Frame v)).
  assert (Hb : slen (b64_encode_string (Frame v)) * 3 <= 4 * zlen (Frame v) + 8) by (rewrite L13; unfold b64_encoded_len; Z.to_euclidean_division_equations; lia).
  assert (P14 : all_bytes plain_byte ExportFormat = true) by reflexivity. assert (L14 : slen ExportFormat = 49) by reflexivity.
  assert (P15 : all_bytes plain_byte "receipt" = true) by reflexivity. assert (L15 : slen "receipt" = 7) by reflexivity.
  unfold line_text. rewrite zlen_app. change (zlen [newline]) with 1. outputs. rewrite zlen_print_struct. unfold always, omitempty.
  match goal with |- context [zsum msize ?ms] => eassert (Hz : zsum msize ms <= _) end.
  { apply zsum_msize_le. repeat (apply Forall2_cons_2; [first [apply msize_plain; [assumption | apply Z.le_refl] | apply msize_int; assumption]|]). apply Forall2_nil_2. }
  cbn [foldr] in Hz. repeat match type of Hz with context [zlen (quote ?k)] => let n := eval vm_compute in (zlen (quote k)) in change (zlen (quote k)) with n in Hz end.
  unfold text_bytes in Hf. rewrite L9, L10, L14, L15 in Hz. pose proof (text_bytes_nonneg (VReceipt v)) as Hn. unfold text_bytes in Hn. lia.
Qed.

Lemma plain_lines public nodeID epoch expected previous vs : chained verify public nodeID epoch expected previous vs -> Forall (fun v => plain_texts (VReceipt v)) vs ->
  zlen (concat (line_text <$> vs)) + 38 * zlen vs <= 4 * zlen (bytes_of_chain vs).
Proof.
  intros Hc Hp. revert expected previous Hc. induction Hp as [|v vs Hv _ IH]; intros expected previous; [done|]. intros [Hl Hc]. specialize (IH _ _ Hc).
  pose proof (plain_line _ _ _ _ _ _ Hl Hv). rewrite fmap_cons. cbn [concat]. rewrite bytes_of_chain_cons, !zlen_app, zlen_cons. lia.
Qed.

Lemma chain_bytes_bound public nodeID epoch expected previous vs : chained verify public nodeID epoch expected previous vs -> zlen (bytes_of_chain vs) <= 65540 * zlen vs.
Proof.
  revert expected previous. induction vs as [|v vs IH]; intros expected previous; [done|]. intros [Hl Hc]. specialize (IH _ _ Hc).
  apply link_facts in Hl as (_ & _ & _ & _ & _ & _ & _ & Hz). change MaxEnvelopeBytes with 65536 in Hz. rewrite bytes_of_chain_cons, zlen_app, zlen_cons. lia.
Qed.

Lemma head_length h : head_ok h -> zlen (json_print (head_output h) ++ [newline]) <= 4000.
Proof.
  intros ([_ L1] & He & Hs & [_ L2]%hash_text & [_ L3]). rewrite zlen_app. change (zlen [newline]) with 1.
  assert (Hin : zlen (json_print (head_json (evidenceHead h))) <= 3000).
  { unfold head_json, evidenceHead. cbn [oh_NodeID oh_Epoch oh_Sequence oh_ChainHash oh_KeyID]. assert (slen (formattedHash (HChainHash h)) <= 71) by lia. struct_bound. }
  assert (L4 : slen ExportFormat <= 49) by (vm_compute; congruence). assert (L5 : slen "head" <= 4) by (vm_compute; congruence).
  assert (Hout : zlen (json_print (head_output h)) <= 3900) by (unfold head_output; struct_bound). lia.
Qed.

(** An export of plain texts fits: four times the log is the bound of the reader. *)
Lemma plain_export_fits public nodeID epoch head vs : head_ok head -> chained verify public nodeID epoch 1 zeroHash vs -> Forall (fun v => plain_texts (VReceipt v)) vs ->
  zlen (bytes_of_chain vs) <= MaxLogBytes -> zlen (export_text head vs) <= maxExportBytes.
Proof.
  intros Hh Hc Hp Hz. unfold export_text. rewrite zlen_app. pose proof (head_length _ Hh). pose proof (plain_lines _ _ _ _ _ _ Hc Hp). pose proof (chain_bytes_bound _ _ _ _ _ _ Hc).
  change MaxLogBytes with 67108864 in Hz. change maxExportBytes with 268435456. pose proof (zlen_nonneg vs). lia.
Qed.

(** ** The round trip *)

Lemma native_log_detected public nodeID epoch vs tail : chained verify public nodeID epoch 1 zeroHash vs -> readFrame tail = EndOfFile -> isPortableExport (bytes_of_chain vs ++ tail) = false.
Proof.
  intros Hc Ht. assert (Hsize : forall n l, 0 < n <= MaxEnvelopeBytes -> isPortableExport (be_encode 4 n ++ l) = false).
  { intros n l Hn. change MaxEnvelopeBytes with 65536 in Hn. unfold isPortableExport. cbn [be_encode].
    rewrite Z.div_small by (change (256 ^ Z.of_nat 3) with 16777216; lia). reflexivity. }
  destruct vs as [|v vs].
  - apply readFrame_end in Ht as [-> | (size & Hs & ->)]; [done|]. rewrite <- (app_nil_r (be_encode 4 size)). by apply Hsize.
  - destruct Hc as [(raw & Hf & Hs & _) _]. rewrite bytes_of_chain_cons, Hf. unfold frameBytes. rewrite <- !app_assoc. by apply Hsize.
Qed.

Lemma export_detected head vs : isPortableExport (export_text head vs) = true.
Proof. destruct vs as [|v vs]; reflexivity. Qed.

Lemma export_visited vs out : fold_ok (fun out verified => Ok (encode out (record_json (record_output verified)))) out vs = Ok (out ++ concat (line_text <$> vs)).
Proof.
  revert out. induction vs as [|v vs IH]; intros out; [by rewrite app_nil_r|]. cbn [fold_ok]. rewrite IH, fmap_cons. cbn [concat]. unfold encode, line_text. by rewrite <- !app_assoc.
Qed.

(** The head of a chain. *)
Definition chain_head (public : bytes) (nodeID : string) (epoch : Z) (vs : list VerifiedReceipt) : Head :=
  mkHead nodeID epoch (zlen vs) (head_hash zeroHash vs) (KeyID public).

Lemma native_verified {A} (visit : A -> VerifiedReceipt -> result A) public nodeID epoch vs tail seen seen' :
  valid_identity public nodeID epoch = true -> chained verify public nodeID epoch 1 zeroHash vs -> readFrame tail = EndOfFile ->
  zlen (bytes_of_chain vs ++ tail) <= MaxLogBytes -> fold_ok visit seen vs = Ok seen' ->
  VerifyRecords verify true (bytes_of_chain vs ++ tail) public nodeID epoch visit seen = Ok (mkHead nodeID epoch (zlen vs) (head_hash zeroHash vs) (KeyID public), seen').
Proof.
  intros Hi Hc Ht Hz Hv. unfold VerifyRecords. rewrite Hi, (proj2 (Z.leb_le _ _) Hz). rewrite zlen_app in Hz. pose proof (zlen_nonneg tail).
  erewrite (proj2 (verifyFileState_iff _ _ _ _ _ _ _ _ _)); [|exists vs, tail, seen'; split_and!; done || lia]. cbn [s_expected s_previous s_seen].
  pose proof (chained_size _ _ _ _ _ _ _ Hc). pose proof (zlen_nonneg vs). replace (1 + zlen vs - 1) with (zlen vs) by lia.
  rewrite u64_small; [done|]. unfold in_u64. change MaxLogBytes with 67108864 in *. lia.
Qed.

(** On a log, the reader of both forms is the reader of logs. *)
Lemma any_native {A} (visit : A -> VerifiedReceipt -> result A) file public nodeID epoch seen : isPortableExport file = false -> zlen file <= MaxLogBytes ->
  VerifyAnyRecords verify true file public nodeID epoch visit seen = VerifyRecords verify true file public nodeID epoch visit seen.
Proof.
  intros Hn Hz. unfold VerifyAnyRecords, VerifyRecords. destruct (valid_identity _ _ _); [|done].
  rewrite (proj2 (Z.leb_le _ maxExportBytes)) by (change MaxLogBytes with 67108864 in *; change maxExportBytes with 268435456; lia).
  rewrite Hn, (proj2 (Z.leb_le _ _) Hz). done.
Qed.

(** A log: the frames of the receipts, and behind them nothing or, since the reader takes it for the end, the bare header of a frame. *)
Definition log_file (file : bytes) (vs : list VerifiedReceipt) : Prop :=
  file = bytes_of_chain vs \/ exists size, 0 < size <= MaxEnvelopeBytes /\ file = bytes_of_chain vs ++ be_encode 4 size.

(** C18: What the verifier of evidence accepts, in either form, is a chain, and the file holds that chain and nothing else. The visitor saw, in order, receipts that the key signed for this
    node and epoch, each linked to the one before, and the head is that of the last. A portable export consists of one line for each of them, whose canonical base64 is its
    signed frame and whose projections match it, then one line with this head, every line ended by a newline, and no further byte; a log consists of their frames, behind which at most the
    four bytes of a frame header may stand alone. If the frames fit in a log ([MaxLogBytes]), the log of the frames is accepted with the same head and
    visits: a portable export proves no more than the log it was made from. *)
Theorem portable_evidence_sound {A} (visit : A -> VerifiedReceipt -> result A) opened file public nodeID epoch seen head seen' :
  VerifyAnyRecords verify opened file public nodeID epoch visit seen = Ok (head, seen') ->
  exists vs, chained verify public nodeID epoch 1 zeroHash vs /\ fold_ok visit seen vs = Ok seen' /\
    head = chain_head public nodeID epoch vs /\
    (if isPortableExport file then portable_file file vs head else log_file file vs) /\
    (zlen (bytes_of_chain vs) <= MaxLogBytes -> VerifyRecords verify true (bytes_of_chain vs) public nodeID epoch visit seen = Ok (head, seen')).
Proof.
  intros H. assert (H0 := H). unfold VerifyAnyRecords in H0. step H0. step H0. step H0. subst opened.
  assert (Hx : exists vs, chained verify public nodeID epoch 1 zeroHash vs /\ fold_ok visit seen vs = Ok seen' /\ head = mkHead nodeID epoch (zlen vs) (head_hash zeroHash vs) (KeyID public) /\
    (if isPortableExport file then portable_file file vs head else log_file file vs)).
  { destruct (isPortableExport file) eqn:Ep; [by apply export_chain in H0|]. step H0. breflect. rewrite any_native in H by done.
    apply VerifyRecords_chain in H as (vs & tail & -> & Ht & Hc & Hv & ->). exists vs. do 3 (split; [done|]).
    apply readFrame_end in Ht as [-> | (size & Hs & ->)]; [left; by rewrite app_nil_r | right; by exists size]. }
  destruct Hx as (vs & Hc & Hv & -> & Hfile). exists vs. do 4 (split; [done|]). intros Hz. rewrite <- (app_nil_r (bytes_of_chain vs)) in Hz |- *. by apply native_verified.
Qed.

(** C17: An export stands for its log. What the command writes for a verified log is accepted by the verifier of both forms, with the head of the log and
    the same visits, whenever it is within the reader's limit; it is, whatever the log, when no text of a receipt needs an escape in JSON. The
    verifier takes a log for a log. *)
Theorem evidence_export_roundtrip {A} (visit : A -> VerifiedReceipt -> result A) opened file public nodeID epoch head vs seen seen' :
  VerifyRecords verify opened file public nodeID epoch collect [] = Ok (head, vs) -> in_u64 epoch -> fold_ok visit seen vs = Ok seen' ->
  exists out, exportEvidence verify opened file public nodeID epoch head = Ok out /\
    VerifyAnyRecords verify opened file public nodeID epoch visit seen = Ok (head, seen') /\
    (zlen out <= maxExportBytes -> VerifyAnyRecords verify opened out public nodeID epoch visit seen = Ok (head, seen')) /\
    (Forall (fun v => plain_texts (VReceipt v)) vs -> zlen out <= maxExportBytes).
Proof.
  intros H He Hv. assert (H0 := H). unfold VerifyRecords in H0. step H0. step H0. step H0. clear H0. subst opened. breflect.
  apply VerifyRecords_chain in H as (ws & tail & -> & Ht & Hc & Hf & ->). rewrite fold_collect in Hf. injection Hf as <-. cbn [app] in Hv.
  assert (Hz : zlen (bytes_of_chain ws) <= MaxLogBytes) by (rewrite zlen_app in E1; pose proof (zlen_nonneg tail); lia).
  pose proof (head_valid public nodeID epoch ws E He Hc Hz) as Hh. set (head := mkHead _ _ _ _ _) in *. exists (export_text head ws). split_and!.
  - unfold exportEvidence. rewrite (native_verified _ _ _ _ ws tail [] (concat (line_text <$> ws))); [|done..|by rewrite export_visited].
    rewrite bool_decide_true by done. unfold encode, export_text. done.
  - rewrite any_native; [by apply native_verified | by eapply native_log_detected | done].
  - intros Hlen. unfold VerifyAnyRecords. rewrite E, (proj2 (Z.leb_le _ _) Hlen). rewrite export_detected. by apply export_text_accepted.
  - intros Hp. by eapply plain_export_fits.
Qed.
End Ed25519.

(** ** Witnesses *)

Lemma sample_plain l file v : live Dsse.toy_verify l file [v] -> REvent (VReceipt v) = sample_event -> same_identity sample_log l -> plain_texts (VReceipt v).
Proof.
  intros Hl He (_ & _ & Hn & _). destruct (h_chain _ _ _ _ (v_holds _ _ _ _ Hl)) as [Hlk _]. apply link_facts in Hlk as (_ & _ & _ & _ & _ & Hnode & _).
  unfold plain_texts. rewrite He, Hnode, Hn. by split_and!.
Qed.

Lemma evidence_export_roundtrip_witness : exists l file v head out, live Dsse.toy_verify l file [v] /\
  exportEvidence Dsse.toy_verify true (content file) (public l) (nodeID l) (epoch l) head = Ok out /\
  VerifyAnyRecords Dsse.toy_verify true out (public l) (nodeID l) (epoch l) collect [] = Ok (head, [v]).
Proof.
  destruct sample_grown as (l & file & v & Hl & He & Hid). pose proof (h_size _ _ _ _ (v_holds _ _ _ _ Hl)) as Hz.
  pose proof (live_verifies Dsse.toy_verify l file [v] [] Hl eq_refl ltac:(by rewrite app_nil_r)) as Hver. rewrite app_nil_r in Hver.
  assert (Hep : in_u64 (epoch l)) by (destruct Hid as (_ & _ & _ & -> & _); split; [done | reflexivity]).
  destruct (evidence_export_roundtrip Dsse.toy_verify collect _ _ _ _ _ _ _ [] [v] Hver Hep eq_refl) as (out & Hout & _ & Hacc & Hfit).
  eexists l, file, v, _, out. split; [exact Hl|]. split; [exact Hout|]. apply Hacc, Hfit. constructor; [by eapply sample_plain | constructor].
Defined.

Lemma portable_evidence_sound_witness : exists l file v head, live Dsse.toy_verify l file [v] /\
  VerifyAnyRecords Dsse.toy_verify true (content file) (public l) (nodeID l) (epoch l) collect [] = Ok (head, [v]) /\
  exists vs, chained Dsse.toy_verify (public l) (nodeID l) (epoch l) 1 zeroHash vs /\ fold_ok collect [] vs = Ok [v] /\ head = chain_head (public l) (nodeID l) (epoch l) vs /\
    (if isPortableExport (content file) then portable_file (content file) vs head else log_file (content file) vs).
Proof.
  destruct sample_grown as (l & file & v & Hl & He & Hid). pose proof (h_size _ _ _ _ (v_holds _ _ _ _ Hl)) as Hz.
  pose proof (live_verifies Dsse.toy_verify l file [v] [] Hl eq_refl ltac:(by rewrite app_nil_r)) as Hver. rewrite app_nil_r in Hver.
  assert (Hany : VerifyAnyRecords Dsse.toy_verify true (content file) (public l) (nodeID l) (epoch l) collect [] =
    Ok (mkHead (nodeID l) (epoch l) (next l - 1) (lastHash l) (keyID l), [v])).
  { rewrite any_native; [exact Hver | | exact Hz]. rewrite (h_file _ _ _ _ (v_holds _ _ _ _ Hl)), <- (app_nil_r (bytes_of_chain _)).
    eapply native_log_detected; [apply (h_chain _ _ _ _ (v_holds _ _ _ _ Hl)) | reflexivity]. }
  eexists l, file, v, _. split; [exact Hl|]. split; [exact Hany|].
  destruct (portable_evidence_sound Dsse.toy_verify collect _ _ _ _ _ _ _ _ Hany) as (vs & Hc & Hv & Hh & Hf & _). by exists vs.
Defined.

End EvidenceExport.
